(* ===== verification/_CoqProject ===== *)
-Q . S2P
Prelude.v
BoardDefs.v
BoardTables6338.v
BoardTables6348.v
BoardTables6358.v
BoardTables6368.v
BoardParms.v
Led.v
LedSpec.v
BoardInit.v
SectorMap.v
FlashApi.v
CfiBus.v
AmdChip.v
CfiDriver.v
SpiBus.v
SpiChip.v
SpiDriver.v
SpiSpec.v
FlashStore.v
SpiStore.v
ImageSet.v
ScratchPad.v
Nvram.v
Decimal.v
ImageTag.v
MacPool.v
KList.v
KString.v
DyingGasp.v
Buttons.v
Ioctl.v
IoctlSpec.v
BoardApi.v
SysText.v
BoardStart.v
MemDump.v
Ring.v
IrqDispatch.v
Timer.v
Prom.v
HwInit.v
SerialCons.v
SerialSpec.v
XtmDefs.v
XtmTx.v
XtmTxSpec.v
XtmRx.v
XtmRxSpec.v
XtmInit.v
XtmCtl.v
XtmIoctl.v
XtmLink.v
