(* ===== verification/Prelude.v ===== *)
(** * BCM963xx modem firmware: verification library

    A model in Rocq of the firmware code of a Broadcom BCM963xx DSL modem that is
    its own (not the Linux kernel, the applications or the tools it ships with),
    and proofs about it.  The target is a 32-bit big-endian MIPS ([char] is signed,
    [int] and [long] have 32 bits).

    ** The program and its parts

    - [shared/opensource/boardparms/bcm963xx/boardparms.c]: one record per supported
      board with its GPIO pins, interrupts and chip selects, for the chips BCM96338,
      BCM96348, BCM96358 and BCM96368; [BpSetBoardId] selects the current board from
      the id in NVRAM, the [BpGet...] functions return its fields.
    - [bcmdrivers/opensource/char/board/bcm963xx/impl1/bcm63xx_led.c]: the LED driver,
      virtual LEDs on GPIO pins or hardware handlers, two timers for blinking.
    - [.../board.c]: the board driver; it reads NVRAM, builds the LED map from the
      board record, maps interrupts, hands out MAC addresses, updates the firmware,
      handles the buttons and a power failure, and offers all of it to applications
      through the commands of [board_ioctl].
    - [shared/opensource/flash/cfiflash.c] and [spiflash.c]: the drivers for parallel
      and serial flash behind the function table of [flash_api.c]; the serial one is
      tried when the parallel one finds nothing.
    - [.../bcm63xx_flash.c]: the layout of the flash (NVRAM in the first sector,
      configuration PSI, scratch pad and second configuration at the end), the
      read-modify-write of these sections and the writing of images; the scratch pad
      keeps named tokens.
    - [bcmdrivers/opensource/net/xtmrt/impl1/bcmxtmrt.c]: the network driver for the ATM
      and PTM side of the DSL line, with rings of descriptors that it shares with a DMA
      controller, a pool of receive buffers and socket buffers, and the requests of the
      driver that configures it (devices, links, cells).
    - [bcmdrivers/opensource/char/serial/impl1/bcm63xx_cons.c]: the driver of the serial
      ports and the console, between the registers of the port and the ring and flip
      buffer of the tty layer.
    - [kernel/linux/arch/mips/brcm-boards/bcm963xx/irq.c]: the interrupt controller, which
      dispatches the interrupts to all of these drivers and masks them.  [time.c],
      [prom.c] and [setup.c] beside it: the timer interrupt, the memory, the CPU speed and
      the command line at the start, the PC card slot, the PCI bridge and the pins.
    - [userapps/broadcom/cfm/util/psi/board_api.c]: the functions through which the
      applications use the board driver.  [userapps/broadcom/cfm/util/system/syscall.c]:
      their library, of which the functions on strings are modelled.

    They meet as follows: the flash driver determines the sectors, the layout and
    the sections are computed from them; NVRAM yields the board id and the MAC
    addresses; the board record drives the LED map, the interrupts and the GPIOs.
    A firmware image has a tag with lengths, addresses, a sequence number and a
    checksum; two images share the flash, and the update writes the one that is not
    booted.  The network driver takes the MAC addresses of its devices from the pool of
    the board driver.

    ** Files

    - [Prelude]: fixed-width integers ([u8], [u32], [s32], ...), buffers as lists with
      checked accesses ([mem_read], [mem_write], [slice], [splice] and their lemmas),
      C strings, tactics ([zprop], [ztest], [opt_inv], [by_decide], [zlen_lia]) and the
      rewriting base [buf].
    - [BoardDefs], [BoardTables6338], [BoardTables6348], [BoardTables6358],
      [BoardTables6368]: the constants and structures of [boardparms.h] and the 37
      board records, field by field.
    - [BoardParms]: [bpstrcmp], [BpSetBoardId], [BpGetBoardId(s)], every accessor and
      [BpUpdateWirelessSromMap]; the global [g_pCurrentBp] is an argument.
    - [Led]: the operations of [bcm63xx_led.c]; the record [led_dev] holds its
      globals, the GPIO registers and a log of the hardware handlers called.
      [LedSpec]: the events of the driver ([led_step], [led_run]: a request, a handler
      registration, one of the timers), the invariant [led_inv] and the properties.
    - [BoardInit]: the LED map of [brcm_board_init], [map_external_irq], [SetGpio],
      [GetGpio], [sesBtn_pressed] and their callers.
    - [SectorMap]: the part of [cfiflash.c] that identifies a device, reads its CFI
      query, builds the sector table and answers address queries.
    - [FlashApi]: the function table and the dispatch functions; the classes
      [FlashLaws] and [FlashReliable] are the contract between a flash driver and its
      clients, [Nor] is a reference device that keeps it.
    - [CfiBus]: the rest of [cfiflash.c], the command sequences, polling loops,
      programming and erasing over any device on the bus.  [AmdChip]: the AMD command
      set as a class of devices.  [CfiDriver]: on such a device the driver is an
      instance of [FlashLaws] and [FlashReliable].
    - [SpiBus]: [spiflash.c], over any controller and device, with the static variables
      of the driver as the record [spi_vars].  [SpiChip]: the serial devices as a class,
      with the effect of each command, and a simulated device.  [SpiDriver]: the
      command sequences and loops of the driver on such a device.  [SpiSpec]: the
      driver is an instance of [FlashLaws] and [FlashReliable]; initialisation.
      [SpiStore]: the storage code on a board with serial flash only.
    - [FlashStore]: [kerSysFlashInit], [getSharedBlks], [setSharedBlks] and the get and
      set functions of the sections, proved against [FlashLaws].
    - [ImageSet]: [kerSysBcmImageSet], the writing of an image.
    - [ScratchPad]: the token format, [kerSysScratchPadGet] and [kerSysScratchPadSet].
    - [Nvram]: [getCrc32], [readNvramData], [writeNvramData], the procfs parameter and
      [kerSysEarlyFlashInit].
    - [Decimal]: [simple_strtoul] and the decimal conversions of [sprintf].
      [ImageTag]: tags, partitions, sequence numbers, the bootline, and
      [flashFsKernelImage].
    - [MacPool]: [set_mac_info], [kerSysGetMacAddress], [kerSysReleaseMacAddress].
    - [KList], [KString]: the kernel's doubly linked lists on a heap, and the string
      functions that the driver calls.  [DyingGasp]: the callbacks for a power failure,
      the test of the power line and the interrupt handler.
    - [Buttons]: [reset_isr], the SES and wireless buttons, and the monitor task with
      its hooked poll function.
    - [Ioctl]: [board_ioctl] command by command on the state of the whole board (record
      [board]: flash, current board, LEDs, MAC pool, memory of the caller, chip selects,
      event mask, interrupts, monitor), and the other operations of the device file.
      [IoctlSpec]: what the flash commands guarantee.
    - [BoardApi]: [boardIoctl] and the [sys...] functions of [board_api.c], over the memory
      of the process and the driver's ioctl, with the configuration stored and read back
      from user space.
    - [SysText]: the functions of [syscall.c] on strings.
    - [BoardStart]: [brcm_board_init], the start of all components.
    - [MemDump]: [dumpaddr] and [kerSetUsbInfo] of [board.c], on their arrays.
    - [IrqDispatch]: [irq.c]; the record [irq_regs] holds the mask and status registers and
      the two static variables of the search, the readings of the lines are inputs, and
      [do_IRQ] is a parameter.
    - [Timer]: [time.c]; the record [clock] holds its variables and the two registers of the
      CPU, the readings of the cycle counter are inputs.  [clock_run] is the clock in time,
      with the rule for the interrupt.
    - [Prom]: [prom.c], with the registers as arguments.  [HwInit]: [setup.c] as writes to
      named registers; what a read gives is a parameter, and [slot_inputs] is the slot with
      the wires of a card.
    - [SerialCons]: the operations of [bcm63xx_cons.c], with [flush_to_ldisc] and the ring
      of the kernel; the record [uart_port] holds the registers, the ring and the tty.
      [SerialSpec]: the ring as a queue, the flip buffer, the events of transmission
      ([serial_step], [serial_run]) and the properties.
    - [Ring]: positions in a ring and rotated lists.  [XtmDefs]: the constants and
      structures of the network driver, the channels of the DMA controller with their
      state RAM, and the socket buffers of the kernel.
      [XtmTx]: [bcmxtmrt_xmit] and [AddRfc2684Hdr]; [tx_ring] relates the descriptors of
      a queue to the packets that were sent and that are pending.  [XtmTxSpec]: the
      encapsulation, and the runs of driver and controller ([tx_step], [tx_run]).
    - [XtmRx]: [bcmxtmrt_rxisr], [bcmxtmrt_rxtasklet], [ProcessRxCell],
      [AssignRxBuffer], [bcmxtmrt_freeskbordata] and the kernel functions that call it.
      [XtmRxSpec]: the receive rings, the list of socket buffers and the runs of
      controller, tasklet and network stack ([rx_step], [rx_run]).  [XtmInit]:
      [DoGlobInitReq], and the properties of reception.
    - [XtmCtl]: [bcmxtmrt_request] with every command, the operations of the network
      device and the timer, on the record [xtm_glob].  [XtmIoctl]: [bcmxtmrt_ioctl].
      [XtmLink]: link up and link down, the memory of the queues, and the events of the
      driver ([drv_step], [drv_run]) with the invariant of its state.

    ** Conventions

    Definitions keep the names of the C functions; a helper named after a loop or a
    branch is that loop or branch.  State is passed explicitly.  Return codes are
    the C values.  [option] stands for undefined behaviour: [None] is an access
    outside an object, a null pointer or a shift out of range, so a theorem that
    an operation is [Some] shows that it stays inside its memory.  Code that the
    preprocessor selects by chip takes the chip as an argument ([Chip]).

    Loops that are structural in C (over an array, a count) are structural here.
    The three scratch-pad loops follow lengths stored in flash; they take the
    pad's length as fuel, and since every token has at least 24 bytes this is
    more than the tokens that fit: the theorems show that a well-formed pad never
    uses it up.  The table of the flash holds at most 1024 sectors, as in C, and the
    loop that writes an image has that many rounds and one.  The polling loops of the
    CFI driver count down as in C where the C code does; the ones that wait for the
    device without a limit take the fuel as an argument, and the theorems give a bound
    for a device that answers.  So do all waiting loops of the serial driver: a fuel of
    two rounds that is larger than the number of status reads an operation takes is
    enough.  The test of the power line waits for a cycle counter:
    the fuel is the time-out in cycles and one more, and the theorem shows that it
    ends for a counter that advances.  A walk over a kernel list takes the size of the
    heap as fuel.  The receive tasklet loops until a round finds nothing: it takes the
    number of descriptors and one as fuel, and since no frame arrives while it runs every
    round but the last takes a filled descriptor; the theorem on reception shows that it
    returns.  [dumpaddr] takes the number of bytes.  The search of the interrupt dispatcher
    takes the number of interrupts of the block: a round over all bits finds the pending
    one.  The loop that fills the transmit FIFO of the serial port takes the size of the
    ring, which is more than it holds.  The timer interrupt runs over the list of the
    readings of the counter: one more than the cycles it is late are enough.  The parser of
    the boot line takes its 128 characters and one.  Waits of the serial port and of the console for a
    status run over the list of the values read and are [None] where it is used up.

    The memory allocator is an argument: the answers to the allocations to come, of which
    any can be a failure.  The DMA controller is a step of the environment that follows
    the ownership bit of the descriptors; it can come between any two calls of the
    driver.

    ** What the theorems show

    - Board tables: the records are well formed; [bpstrcmp] is the comparison of C
      strings; [BpSetBoardId] selects the board with the given id, for every board;
      [BpGetBoardIds] returns the ids and stays in its buffer.
    - LEDs: from the invariant that [boardLedInit] establishes, every sequence of
      requests, registrations and timer expiries stays in its arrays and keeps the
      timer armed while a LED blinks; what a request and an expiry do to pins and
      states; the blink rates; a single blink restores the LED.  On every board the
      map fits and each LED controls the pins of its record.
    - Flash geometry: [cfi_flash_init] builds the sector table of the query in the
      orientation of the part, [cfi_flash_get_blk] finds the sector of an address.
    - Storage: the sections lie inside the device and do not overlap; what is set
      is read back and nothing else changes; errors leave the flash alone.
    - Scratch pad: get finds, set inserts or replaces, a set without data deletes,
      and all other tokens keep their data, in memory and through the flash.
    - NVRAM: the table-driven checksum is CRC-32; a stored structure is accepted, a
      structure with one damaged byte is rejected; the procfs text round-trips.
    - MAC addresses: no address has two holders among the callers with proper ids, callers
      get their address back; the id for any address is outside this.
    - CFI driver: on a device with the AMD command set the driver implements the
      contract of the storage code, and all operations succeed if the device works.
    - Serial driver: the same contract on every family of serial devices, for any size
      of the controller's buffers, on devices that are not protected or that the driver
      can unlock; what a write does at any offset; which variables
      [spi_flash_init] derives from the answers of a device; sections stored on a board
      that has no other flash are read back.
    - Firmware: an image is written where it belongs and nowhere else; an update that
      fits is booted from then on, and the image booted before stays intact.
    - Power failure: the callbacks that are called are those of the abstract list of
      registrations, the most recent first and the DSL line last; the test of the power
      line ends within its time-out and one wait, and which readings decide it.
    - Buttons: the reset to the defaults is requested exactly if the button was held;
      in the other build both configurations carry the mark when the board resets.  A
      wake-up of the monitor is seen by one poll of its file.
    - Board device: what is stored with one command is read with another, through the
      memory of the caller; an image without signature changes nothing; the update of
      the whole flash keeps the NVRAM if the new one is of no use; the firmware
      update of an accepted image has the properties above.
    - User space: what a process stores with one function of the API it reads with another;
      MAC and IP addresses survive their text, escaped strings can be read back, and where
      the string functions write.
    - Interrupts: the search for a pending interrupt ends; an interrupt that is served is
      masked, and enabling it restores the masks; an interrupt that stays pending is served
      within a round, whatever else is pending.
    - Time: the number of ticks is exactly the number of intervals, however late the
      interrupts are handled; the interval that [prom.c] computes is one for which this
      holds.
    - Hardware: the detection of a card agrees with the table of its connections but for
      one row; the PCI
      windows decode exactly the memory; the pins of the boards with a 6348 have functions
      that exist; a boot line gives the command line of its comment.
    - Serial port: characters are sent in the order they were written, and the transmission
      interrupt is open exactly while there are any; received characters reach the tty in
      order with the flags of their errors, with a mark for every overrun, and never outside
      the buffer; the interrupt handler returns after a bounded number of passes if the FIFO
      is seen empty whenever a flow control character is pending; the clock divisor is the
      best one;
      the console sends its text with carriage returns.
    - Start: on every board the driver starts and all components are in the states
      from which their theorems begin.
    - Transmission: every queue is a bounded FIFO in any interleaving of driver, timer
      and controller; packets are sent in order, at most once, with the header of the
      device and padding, and no socket buffer is leaked or freed twice.
    - Reception: the initialisation fills the rings, gives their descriptors and addresses
      to the controller and fills the pool; from there on no buffer is lost, the pool never
      runs empty and no buffer comes back without a place, for any sequence of tasklets,
      packets freed by the stack and frames the driver is made for (cells of a known type,
      frames whose shared information stays in the buffer).
    - Links: link up leaves empty rings, on distinct channels and inside the memory that was
      allocated, whose addresses the controller has in its state RAM, so that transmission
      works; link down takes them from it and leaves the device ready for the next link up; the
      timer runs exactly while the driver is running, which it is while a link is up.

    Some theorems show where the code does not do what it means to: LED names that
    index out of range, a timer that is not started, offsets that are not checked,
    a pool that is allocated too small, a scratch-pad wipe that takes the PSI along,
    a lock that is kept, a wait that never ends, a list that is freed while it is
    walked, a poll function that is hooked onto itself, serial devices whose protection
    cannot be cleared, an address that is handed out twice for the id for any, a return value that is the distance of two arrays, an address
    below the flash that counts as the boot sector; in the network driver an error path
    that never returns, a null pointer used as a packet, packets lost with the link, memory
    freed again by a second link down, frames that overrun their buffer, one
    MAC address for all devices, a port mask used as an index, a device that is freed
    twice and a pool that the network stack can empty; in the serial driver a threshold
    that does not fit its register, characters received with the receiver off and a console
    that waits for an interrupt that cannot come; in the API a token that is not stored and
    results that are never set; in the library a password that is not hidden and texts that
    outgrow their buffers.

    ** Not modelled

    The functions of the user-space library that run commands, read [/proc] or issue
    ioctls, and those of [dare_remove_vnet]; the DSP buffers of [prom.c]; the Linux kernel,
    the applications and the tools.  Of the modelled files: messages on the console, the
    registration of serial ports, of procfs entries, of the character device, of
    restart hooks and of callbacks, the accounting that [do_timer] calls, the DMA and
    cache operations of the flash code, and in [bcmxtmrt.c] the cache maintenance
    ([cache_wbflush_region], [cache_wbflush_len]) and the code for [ATM_BONDING_TEST]
    and [CONFIG_L2PT]. Interrupts are explicit calls of their handlers; they do not
    interleave with the code they interrupt. The semaphore
    of the CFI driver is modelled as its count. *)

From Stdlib Require Export ZArith Lia.
From stdpp Require Export base numbers strings option list.

#[global] Open Scope Z_scope.

#[global] Arguments Z.eqb : simpl never.
#[global] Arguments Z.ltb : simpl never.
#[global] Arguments Z.leb : simpl never.
#[global] Arguments Z.lor : simpl never.
#[global] Arguments Z.land : simpl never.
#[global] Arguments Z.shiftl : simpl never.
#[global] Arguments Z.shiftr : simpl never.

(** ** Fixed-width integers

    A [w]-bit C integer is a [Z]; the conversions below are the C ones for the
    32-bit big-endian MIPS target ([char] is signed, [long] has 32 bits). *)

Definition u8 (x : Z) : Z := x mod 2 ^ 8.
Definition u16 (x : Z) : Z := x mod 2 ^ 16.
Definition u32 (x : Z) : Z := x mod 2 ^ 32.
Definition s8 (x : Z) : Z := (x + 2 ^ 7) mod 2 ^ 8 - 2 ^ 7.
Definition s32 (x : Z) : Z := (x + 2 ^ 31) mod 2 ^ 32 - 2 ^ 31.

Definition is_u8 (x : Z) : Prop := 0 <= x < 2 ^ 8.
Definition is_u16 (x : Z) : Prop := 0 <= x < 2 ^ 16.
Definition is_u32 (x : Z) : Prop := 0 <= x < 2 ^ 32.
Definition is_s32 (x : Z) : Prop := - 2 ^ 31 <= x < 2 ^ 31.

Lemma u8_range x : is_u8 (u8 x).
Proof. apply Z.mod_pos_bound. lia. Qed.
Lemma u16_range x : is_u16 (u16 x).
Proof. apply Z.mod_pos_bound. lia. Qed.
Lemma u32_range x : is_u32 (u32 x).
Proof. apply Z.mod_pos_bound. lia. Qed.
Lemma s32_range x : is_s32 (s32 x).
Proof.
  unfold is_s32, s32. pose proof (Z.mod_pos_bound (x + 2 ^ 31) (2 ^ 32)). lia.
Qed.

Lemma u8_id x : is_u8 x -> u8 x = x.
Proof. apply Z.mod_small. Qed.
Lemma u16_id x : is_u16 x -> u16 x = x.
Proof. apply Z.mod_small. Qed.
Lemma u32_id x : is_u32 x -> u32 x = x.
Proof. apply Z.mod_small. Qed.
Lemma s32_id x : is_s32 x -> s32 x = x.
Proof. unfold is_s32, s32. intros. rewrite Z.mod_small; lia. Qed.

Lemma u32_add_l a b : u32 (u32 a + b) = u32 (a + b).
Proof. unfold u32. apply Zplus_mod_idemp_l. Qed.

Lemma u32_add_r a b : u32 (a + u32 b) = u32 (a + b).
Proof. unfold u32. apply Zplus_mod_idemp_r. Qed.

(** Conversions to [int] depend on the value modulo 2^32 only. *)
Lemma s32_sub_add x b : is_s32 x -> s32 (s32 (x + b) - b) = x.
Proof.
  intros Hx. rewrite <- (s32_id x Hx) at 2. unfold s32 at 1 3. f_equal.
  unfold s32. rewrite <- (Z.sub_add_distr _ (2 ^ 31) b), (Z.add_comm (2 ^ 31) b).
  replace ((x + b + 2 ^ 31) mod 2 ^ 32 - (b + 2 ^ 31) + 2 ^ 31)
    with ((x + b + 2 ^ 31) mod 2 ^ 32 - b) by lia.
  rewrite Zminus_mod_idemp_l. f_equal. lia.
Qed.

(** A test of one bit of a word. *)
Lemma land_pow2_test x n : 0 <= n -> negb (Z.land x (2 ^ n) =? 0) = Z.testbit x n.
Proof.
  intros Hn. destruct (Z.eqb_spec (Z.land x (2 ^ n)) 0) as [E|E]; cbn [negb].
  - assert (H : Z.testbit (Z.land x (2 ^ n)) n = false) by (rewrite E; apply Z.bits_0).
    rewrite Z.land_spec, Z.pow2_bits_true, andb_true_r in H by done. done.
  - destruct (Z.testbit x n) eqn:B; [done|]. exfalso. apply E. apply Z.bits_inj'. intros m Hm.
    rewrite Z.land_spec, Z.bits_0. destruct (Z.eqb_spec m n) as [->|Hmn]; [by rewrite B|].
    by rewrite Z.pow2_bits_false, andb_false_r by lia.
Qed.

(** ** Tactics *)

(** Turn boolean integer tests in the context into propositions. *)
Ltac zprop :=
  repeat match goal with
  | H : (_ && _)%bool = true |- _ => apply andb_true_iff in H; destruct H
  | H : (_ || _)%bool = false |- _ => apply orb_false_iff in H; destruct H
  | H : negb _ = true |- _ => apply negb_true_iff in H
  | H : negb _ = false |- _ => apply negb_false_iff in H
  | H : (_ =? _) = true |- _ => apply Z.eqb_eq in H
  | H : (_ =? _) = false |- _ => apply Z.eqb_neq in H
  | H : (_ <? _) = true |- _ => apply Z.ltb_lt in H
  | H : (_ <? _) = false |- _ => apply Z.ltb_ge in H
  | H : (_ <=? _) = true |- _ => apply Z.leb_le in H
  | H : (_ <=? _) = false |- _ => apply Z.leb_gt in H
  end.

(** Case analysis on every integer test of the goal. *)
Ltac ztest :=
  repeat (match goal with
  | |- context [?a =? ?b] => destruct (Z.eqb_spec a b)
  | |- context [?a <? ?b] => destruct (Z.ltb_spec a b)
  | |- context [?a <=? ?b] => destruct (Z.leb_spec a b)
  end; cbn [andb orb negb]; try lia).

(** Open an equation [match x with ... end = Some y] by cases. *)
Ltac opt_inv H :=
  repeat match type of H with
  | context [match ?x with _ => _ end] =>
      let E := fresh "E" in destruct x eqn:E; try discriminate H
  end.

(** Settle a decidable closed proposition by evaluation. *)
Ltac by_decide :=
  match goal with |- ?P => apply (bool_decide_eq_true_1 P); vm_compute; reflexivity end.

(** ** Buffers

    A C buffer is the list of its bytes (or words); [mem_read] and [mem_write]
    are [memcpy] from and to it and return [None] where the C code would touch
    memory outside the buffer. *)

Definition zlen {A} (l : list A) : Z := Z.of_nat (length l).

Definition slice {A} (off len : Z) (l : list A) : list A :=
  take (Z.to_nat len) (drop (Z.to_nat off) l).

Definition splice {A} (off : Z) (d l : list A) : list A :=
  take (Z.to_nat off) l ++ d ++ drop (Z.to_nat off + length d) l.

Definition mem_read {A} (buf : list A) (off len : Z) : option (list A) :=
  if (0 <=? off) && (0 <=? len) && (off + len <=? zlen buf)
  then Some (slice off len buf) else None.

Definition mem_write {A} (buf : list A) (off : Z) (d : list A) : option (list A) :=
  if (0 <=? off) && (off + zlen d <=? zlen buf)
  then Some (splice off d buf) else None.

(** [memset(buf + off, v, len)]. *)
Definition mem_set {A} (buf : list A) (off len : Z) (v : A) : option (list A) :=
  if 0 <=? len then mem_write buf off (replicate (Z.to_nat len) v) else None.

Section Buffers.
Context {A : Type}.
Implicit Types (l d buf : list A) (off len : Z).

Lemma zlen_nonneg l : 0 <= zlen l.
Proof. unfold zlen. lia. Qed.

Lemma zlen_nil : zlen (@nil A) = 0.
Proof. reflexivity. Qed.

Lemma zlen_cons (x : A) l : zlen (x :: l) = 1 + zlen l.
Proof. unfold zlen. cbn [length]. lia. Qed.

Lemma zlen_app l1 l2 : zlen (l1 ++ l2) = zlen l1 + zlen l2.
Proof. unfold zlen. rewrite length_app. lia. Qed.

Lemma zlen_replicate n (x : A) : zlen (replicate n x) = Z.of_nat n.
Proof. unfold zlen. by rewrite length_replicate. Qed.

Lemma zlen_take n l : zlen (take n l) = Z.min (Z.of_nat n) (zlen l).
Proof. unfold zlen. rewrite length_take. lia. Qed.

Lemma zlen_drop n l : zlen (drop n l) = Z.max 0 (zlen l - Z.of_nat n).
Proof. unfold zlen. rewrite length_drop. lia. Qed.

Lemma zlen_slice off len l :
  0 <= off -> 0 <= len -> off + len <= zlen l -> zlen (slice off len l) = len.
Proof. unfold slice. intros. rewrite zlen_take, zlen_drop. lia. Qed.

Lemma zlen_splice off d l :
  0 <= off -> off + zlen d <= zlen l -> zlen (splice off d l) = zlen l.
Proof.
  unfold splice. intros. rewrite !zlen_app, zlen_take, zlen_drop.
  unfold zlen in *. lia.
Qed.

Lemma slice_full l : slice 0 (zlen l) l = l.
Proof. unfold slice, zlen. rewrite Nat2Z.id. apply firstn_all. Qed.

Lemma lookup_slice off len l (i : nat) :
  0 <= off -> Z.of_nat i < len -> slice off len l !! i = l !! (Z.to_nat off + i)%nat.
Proof.
  unfold slice. intros. rewrite lookup_take, lookup_drop.
  by rewrite decide_True by lia.
Qed.

(** Reading back what was just written. *)
Lemma slice_splice_eq off d l :
  0 <= off -> off + zlen d <= zlen l -> slice off (zlen d) (splice off d l) = d.
Proof.
  unfold slice, splice, zlen. intros.
  rewrite drop_app_length' by (rewrite length_take; lia).
  rewrite Nat2Z.id. apply take_app_length.
Qed.

(** A write leaves what precedes it ... *)
Lemma slice_splice_before off d l o n :
  0 <= o -> 0 <= n -> o + n <= off -> off + zlen d <= zlen l ->
  slice o n (splice off d l) = slice o n l.
Proof.
  unfold slice, splice, zlen. intros.
  rewrite skipn_app, firstn_app, length_drop, length_take.
  replace (Z.to_nat n - _)%nat with 0%nat by lia.
  rewrite firstn_O, app_nil_r.
  rewrite skipn_firstn_comm, firstn_firstn. f_equal. lia.
Qed.

(** ... and what follows it unchanged. *)
Lemma slice_splice_after off d l o n :
  0 <= off -> off + zlen d <= o -> off + zlen d <= zlen l ->
  slice o n (splice off d l) = slice o n l.
Proof.
  unfold slice, splice, zlen. intros. f_equal.
  rewrite app_assoc, skipn_app, length_app, length_take.
  rewrite (drop_ge (take _ _ ++ d)) by (rewrite length_app, length_take; lia).
  rewrite app_nil_l, drop_drop. f_equal. lia.
Qed.

Lemma slice_slice p m o n l :
  0 <= p -> 0 <= o -> 0 <= n -> o + n <= m -> slice o n (slice p m l) = slice (p + o) n l.
Proof.
  unfold slice. intros. rewrite skipn_firstn_comm, firstn_firstn, drop_drop.
  f_equal; [lia|]. f_equal. lia.
Qed.

Lemma slice_splice_in n off d l :
  0 <= off -> off + zlen d <= n -> n <= zlen l -> slice 0 n (splice off d l) = splice off d (slice 0 n l).
Proof.
  unfold slice, splice, zlen. intros. change (Z.to_nat 0) with 0%nat. rewrite !drop_0, !take_app, !length_take.
  rewrite !take_take, (take_ge d) by lia. rewrite skipn_firstn_comm.
  replace (Z.to_nat n `min` Z.to_nat off)%nat with (Z.to_nat off) by lia.
  replace (Z.to_nat off `min` Z.to_nat n)%nat with (Z.to_nat off) by lia.
  do 2 f_equal. f_equal. lia.
Qed.

Lemma slice_splice_over off d l n :
  0 <= off -> zlen d <= n -> off + zlen d <= zlen l ->
  slice off n (splice off d l) = d ++ slice (off + zlen d) (n - zlen d) l.
Proof.
  unfold slice, splice, zlen. intros.
  rewrite drop_app_length' by (rewrite length_take; lia).
  rewrite firstn_app, (take_ge d) by lia. do 2 f_equal; [lia|]. f_equal. lia.
Qed.

Lemma mem_write_Some buf off d :
  0 <= off -> off + zlen d <= zlen buf -> mem_write buf off d = Some (splice off d buf).
Proof. intros. unfold mem_write. by ztest. Qed.

Lemma mem_write_inv buf off d buf' :
  mem_write buf off d = Some buf' ->
  0 <= off /\ off + zlen d <= zlen buf /\ buf' = splice off d buf.
Proof. unfold mem_write. intros H. opt_inv H. zprop. by simplify_eq. Qed.

Lemma mem_read_Some buf off len :
  0 <= off -> 0 <= len -> off + len <= zlen buf ->
  mem_read buf off len = Some (slice off len buf).
Proof. intros. unfold mem_read. by ztest. Qed.

Lemma mem_read_inv buf off len d :
  mem_read buf off len = Some d ->
  0 <= off /\ 0 <= len /\ off + len <= zlen buf /\ d = slice off len buf /\ zlen d = len.
Proof.
  unfold mem_read. intros H. opt_inv H. zprop. simplify_eq.
  by rewrite zlen_slice.
Qed.

Lemma lookup_splice_out off d l (j : nat) :
  0 <= off -> off + zlen d <= zlen l ->
  Z.of_nat j < off \/ off + zlen d <= Z.of_nat j -> splice off d l !! j = l !! j.
Proof.
  unfold splice, zlen. intros H1 H2 [Hj|Hj].
  - rewrite lookup_app_l by (rewrite length_take; lia). apply lookup_take_lt. lia.
  - rewrite !lookup_app_r by (rewrite ?length_take; lia). rewrite lookup_drop, length_take.
    f_equal. lia.
Qed.

Lemma lookup_splice_in off d l (j : nat) :
  0 <= off -> off + zlen d <= zlen l -> off <= Z.of_nat j < off + zlen d ->
  splice off d l !! j = d !! (j - Z.to_nat off)%nat.
Proof.
  unfold splice, zlen. intros H1 H2 Hj.
  rewrite lookup_app_r by (rewrite length_take; lia).
  rewrite lookup_app_l by (rewrite length_take; lia).
  f_equal. rewrite length_take. lia.
Qed.

Lemma splice_nil off l : splice off [] l = l.
Proof. unfold splice. cbn [length app]. rewrite Nat.add_0_r. apply take_drop. Qed.

Lemma slice_0 o l : slice o 0 l = [].
Proof. done. Qed.

(** Writing a whole buffer. *)
Lemma splice_all d l : zlen d = zlen l -> splice 0 d l = d.
Proof.
  unfold splice, zlen. intros. cbn [Z.to_nat take app Nat.add].
  rewrite drop_ge by lia. apply app_nil_r.
Qed.

(** Two adjacent writes are one. *)
Lemma splice_splice off d1 d2 l n :
  0 <= off -> n = zlen d1 -> off + zlen d1 + zlen d2 <= zlen l ->
  splice (off + n) d2 (splice off d1 l) = splice off (d1 ++ d2) l.
Proof.
  intros Ho -> Hl. pose proof (zlen_nonneg d1). pose proof (zlen_nonneg d2).
  assert (Hs : zlen (splice off d1 l) = zlen l) by (apply zlen_splice; lia).
  apply list_eq. intros j.
  assert (Hc : (Z.of_nat j < off \/ off + zlen d1 + zlen d2 <= Z.of_nat j) \/
    off <= Z.of_nat j < off + zlen d1 \/
    off + zlen d1 <= Z.of_nat j < off + zlen d1 + zlen d2) by lia.
  destruct Hc as [Hc|[Hc|Hc]].
  - rewrite !lookup_splice_out; rewrite ?zlen_app, ?Hs; lia || done.
  - rewrite lookup_splice_out by (rewrite ?Hs; lia).
    rewrite !lookup_splice_in by (rewrite ?zlen_app; lia).
    rewrite lookup_app_l; [done|]. unfold zlen in *. lia.
  - rewrite !lookup_splice_in by (rewrite ?zlen_app, ?Hs; lia).
    rewrite lookup_app_r by (unfold zlen in *; lia). f_equal. unfold zlen in *. lia.
Qed.

(** Writing inside a copied-out range and copying the range back. *)
Lemma splice_slice_splice b n o d l :
  0 <= b -> 0 <= o -> o + zlen d <= n -> b + n <= zlen l ->
  splice b (splice o d (slice b n l)) l = splice (b + o) d l.
Proof.
  intros Hb Ho Hd Hn. pose proof (zlen_nonneg d).
  assert (Hs : zlen (slice b n l) = n) by (apply zlen_slice; lia).
  assert (Hss : zlen (splice o d (slice b n l)) = n) by (rewrite zlen_splice; lia).
  apply list_eq. intros j.
  destruct (Z_lt_le_dec (Z.of_nat j) b); [rewrite !lookup_splice_out by lia; done|].
  destruct (Z_lt_le_dec (Z.of_nat j) (b + n)).
  - rewrite (lookup_splice_in b) by lia.
    destruct (Z_lt_le_dec (Z.of_nat j) (b + o)).
    + rewrite !lookup_splice_out by lia. rewrite lookup_slice by lia. f_equal. lia.
    + destruct (Z_lt_le_dec (Z.of_nat j) (b + o + zlen d)).
      * rewrite !lookup_splice_in by lia. f_equal. lia.
      * rewrite !lookup_splice_out by lia. rewrite lookup_slice by lia. f_equal. lia.
  - rewrite !lookup_splice_out by lia. done.
Qed.

(** Slices are equal when their bytes are. *)
Lemma slice_ext o n l l' :
  zlen l' = zlen l -> 0 <= o ->
  (forall j : nat, o <= Z.of_nat j < o + n -> l' !! j = l !! j) -> slice o n l' = slice o n l.
Proof.
  intros Hl Ho H. apply list_eq. intros j.
  destruct (Z_lt_le_dec (Z.of_nat j) n).
  - rewrite !lookup_slice by lia. apply H. lia.
  - unfold slice. by rewrite !lookup_take_ge by lia.
Qed.

Lemma slice_app o n m l :
  0 <= o -> 0 <= n -> 0 <= m -> slice o (n + m) l = slice o n l ++ slice (o + n) m l.
Proof.
  unfold slice. intros. rewrite Z2Nat.inj_add, Z2Nat.inj_add by lia.
  rewrite <- drop_drop. generalize (drop (Z.to_nat o) l). intros l'.
  generalize (Z.to_nat n) as a, (Z.to_nat m) as b. intros a b. revert l'.
  induction a as [|a IH]; intros [|x l']; cbn; try done; [by rewrite !take_nil|].
  by rewrite IH.
Qed.

(** Accesses to the middle of a concatenation. *)
Lemma slice_mid o n a d b : o = zlen a -> n = zlen d -> slice o n (a ++ d ++ b) = d.
Proof.
  intros -> ->. unfold slice, zlen. rewrite !Nat2Z.id, drop_app_length. apply take_app_length.
Qed.

Lemma mem_read_mid o n a d b :
  o = zlen a -> n = zlen d -> mem_read (a ++ d ++ b) o n = Some d.
Proof.
  intros -> ->. pose proof (zlen_nonneg a). pose proof (zlen_nonneg b). pose proof (zlen_nonneg d).
  rewrite mem_read_Some by (rewrite ?zlen_app; lia). by rewrite slice_mid.
Qed.

Lemma mem_write_mid o a d d' b :
  o = zlen a -> zlen d' = zlen d -> mem_write (a ++ d ++ b) o d' = Some (a ++ d' ++ b).
Proof.
  intros -> Hd. pose proof (zlen_nonneg a). pose proof (zlen_nonneg b).
  rewrite mem_write_Some by (rewrite ?zlen_app; lia). f_equal.
  unfold splice, zlen in *. rewrite Nat2Z.id, take_app_length. do 2 f_equal.
  rewrite drop_app_ge by lia. rewrite drop_app_ge by lia.
  replace (_ - _ - _)%nat with 0%nat by lia. done.
Qed.

Lemma mem_read_head n d b : n = zlen d -> mem_read (d ++ b) 0 n = Some d.
Proof. intros. by apply (mem_read_mid 0 n []). Qed.

Lemma mem_write_head d d' b : zlen d' = zlen d -> mem_write (d ++ b) 0 d' = Some (d' ++ b).
Proof. intros. by apply (mem_write_mid 0 []). Qed.

Lemma lookup_mid o a (x : A) b : o = zlen a -> (a ++ x :: b) !! Z.to_nat o = Some x.
Proof. intros ->. unfold zlen. rewrite Nat2Z.id. by apply list_lookup_middle. Qed.

Lemma insert_mid o a (x y : A) b :
  o = zlen a -> <[Z.to_nat o := y]> (a ++ x :: b) = a ++ y :: b.
Proof. intros ->. unfold zlen. by rewrite Nat2Z.id, insert_app_r_alt, Nat.sub_diag by lia. Qed.

Lemma Forall_slice (P : A -> Prop) o n l : Forall P l -> Forall P (slice o n l).
Proof. intros. unfold slice. by apply Forall_take, Forall_drop. Qed.

Lemma Forall_splice (P : A -> Prop) off d l :
  Forall P d -> Forall P l -> Forall P (splice off d l).
Proof.
  intros Hd Hl. unfold splice. rewrite !Forall_app. split; [by apply Forall_take|].
  split; [done|by apply Forall_drop].
Qed.

Lemma mem_write_zlen buf off d buf' :
  mem_write buf off d = Some buf' -> zlen buf' = zlen buf.
Proof. intros (? & ? & ->)%mem_write_inv. by apply zlen_splice. Qed.
End Buffers.

Lemma zlen_map {A B} (h : A -> B) l : zlen (map h l) = zlen l.
Proof. unfold zlen. by rewrite length_map. Qed.

(** The rewriting base of the buffer lemmas. *)
Create Rewrite HintDb buf.
#[export] Hint Rewrite @zlen_nil @zlen_cons @zlen_app @zlen_replicate @zlen_take @zlen_drop : buf.

(** Length goals on spliced and concatenated buffers. *)
Ltac zlen_lia :=
  repeat (rewrite zlen_splice by zlen_lia);
  repeat (rewrite zlen_slice by zlen_lia);
  autorewrite with buf; lia.

(** ** Characters and NUL-terminated strings *)

Definition byte_of_ascii (a : Ascii.ascii) : Z := Z.of_N (Ascii.N_of_ascii a).

Definition bytes_of_string (s : string) : list Z :=
  map byte_of_ascii (String.list_ascii_of_string s).

(** [char x[n] = "..."]: the characters, then NULs. *)
Definition char_array (n : nat) (s : string) : list Z :=
  take n (bytes_of_string s ++ replicate n 0).

(** The characters a pointer to [buf] denotes as a C string. *)
Fixpoint cstr (buf : list Z) : list Z :=
  match buf with
  | [] => []
  | c :: buf' => if c =? 0 then [] else c :: cstr buf'
  end.

(** [buf] holds a terminating NUL. *)
Definition nul_terminated (buf : list Z) : bool := existsb (Z.eqb 0) buf.

Lemma nul_terminated_cons c buf :
  nul_terminated (c :: buf) = true -> c <> 0 -> nul_terminated buf = true.
Proof. unfold nul_terminated. cbn [existsb]. intros H ?. destruct (Z.eqb_spec 0 c); [lia|done]. Qed.

Lemma cstr_no_nul buf : Forall (fun c => c <> 0) (cstr buf).
Proof. induction buf as [|c buf IH]; cbn; [done|]. ztest; constructor; done. Qed.

Lemma cstr_prefix buf :
  nul_terminated buf = true -> exists rest, buf = cstr buf ++ 0 :: rest.
Proof.
  induction buf as [|c buf IH]; [done|]. intros H. cbn. ztest; subst.
  - by exists buf.
  - destruct IH as [rest E]; [by eapply nul_terminated_cons|].
    exists rest. cbn. by rewrite <- E.
Qed.

Lemma cstr_app_nul c r : Forall (fun x => x <> 0) c -> cstr (c ++ 0 :: r) = c.
Proof. induction 1 as [|x c Hx _ IH]; [done|]. cbn. ztest. by rewrite IH. Qed.

Lemma zlen_cstr buf : nul_terminated buf = true -> zlen (cstr buf) < zlen buf.
Proof.
  intros [rest E]%cstr_prefix. rewrite E at 2. autorewrite with buf.
  pose proof (zlen_nonneg rest). lia.
Qed.
