(* ===== verification/BoardDefs.v ===== *)
(** * Board parameters: data model

    The constants, enumerations and structures of
    [shared/opensource/include/bcm963xx/boardparms.h] and the
    [BOARD_PARAMETERS] structure of [boardparms.c].  A C enumerator becomes a
    constructor, a structure a record with the C field names. *)

From S2P Require Import Prelude.

(** ** Constants of [boardparms.h] *)

Definition BP_SUCCESS : Z := 0.
Definition BP_BOARD_ID_NOT_FOUND : Z := 1.
Definition BP_VALUE_NOT_DEFINED : Z := 2.
Definition BP_BOARD_ID_NOT_SET : Z := 3.
Definition BP_ENET_NO_PHY : Z := 0.
Definition BP_ENET_INTERNAL_PHY : Z := 1.
Definition BP_ENET_EXTERNAL_PHY : Z := 2.
Definition BP_ENET_EXTERNAL_SWITCH : Z := 3.
Definition BP_ENET_CONFIG_MDIO : Z := 0.
Definition BP_ENET_CONFIG_MDIO_PSEUDO_PHY : Z := 1.
Definition BP_ENET_CONFIG_SPI_SSB_0 : Z := 2.
Definition BP_ENET_CONFIG_SPI_SSB_1 : Z := 3.
Definition BP_ENET_CONFIG_SPI_SSB_2 : Z := 4.
Definition BP_ENET_CONFIG_SPI_SSB_3 : Z := 5.
Definition BP_ENET_CONFIG_MMAP : Z := 6.
Definition BP_ENET_NO_REVERSE_MII : Z := 0.
Definition BP_ENET_REVERSE_MII : Z := 1.
Definition BP_VOIP_NO_DSP : Z := 0.
Definition BP_VOIP_DSP : Z := 1.
Definition BP_VOIP_MIPS : Z := 2.
Definition BP_GPIO_NUM_MASK : Z := 0x00FF.
Definition BP_ACTIVE_LOW : Z := 0x8000.
Definition BP_GPIO_SERIAL : Z := 0x4000.
Definition BP_GPIO_0_AH : Z := 0.
Definition BP_GPIO_0_AL : Z := Z.lor 0 BP_ACTIVE_LOW.
Definition BP_GPIO_1_AH : Z := 1.
Definition BP_GPIO_1_AL : Z := Z.lor 1 BP_ACTIVE_LOW.
Definition BP_GPIO_2_AH : Z := 2.
Definition BP_GPIO_2_AL : Z := Z.lor 2 BP_ACTIVE_LOW.
Definition BP_GPIO_3_AH : Z := 3.
Definition BP_GPIO_3_AL : Z := Z.lor 3 BP_ACTIVE_LOW.
Definition BP_GPIO_4_AH : Z := 4.
Definition BP_GPIO_4_AL : Z := Z.lor 4 BP_ACTIVE_LOW.
Definition BP_GPIO_5_AH : Z := 5.
Definition BP_GPIO_5_AL : Z := Z.lor 5 BP_ACTIVE_LOW.
Definition BP_GPIO_6_AH : Z := 6.
Definition BP_GPIO_6_AL : Z := Z.lor 6 BP_ACTIVE_LOW.
Definition BP_GPIO_7_AH : Z := 7.
Definition BP_GPIO_7_AL : Z := Z.lor 7 BP_ACTIVE_LOW.
Definition BP_GPIO_8_AH : Z := 8.
Definition BP_GPIO_8_AL : Z := Z.lor 8 BP_ACTIVE_LOW.
Definition BP_GPIO_9_AH : Z := 9.
Definition BP_GPIO_9_AL : Z := Z.lor 9 BP_ACTIVE_LOW.
Definition BP_GPIO_10_AH : Z := 10.
Definition BP_GPIO_10_AL : Z := Z.lor 10 BP_ACTIVE_LOW.
Definition BP_GPIO_11_AH : Z := 11.
Definition BP_GPIO_11_AL : Z := Z.lor 11 BP_ACTIVE_LOW.
Definition BP_GPIO_12_AH : Z := 12.
Definition BP_GPIO_12_AL : Z := Z.lor 12 BP_ACTIVE_LOW.
Definition BP_GPIO_13_AH : Z := 13.
Definition BP_GPIO_13_AL : Z := Z.lor 13 BP_ACTIVE_LOW.
Definition BP_GPIO_14_AH : Z := 14.
Definition BP_GPIO_14_AL : Z := Z.lor 14 BP_ACTIVE_LOW.
Definition BP_GPIO_15_AH : Z := 15.
Definition BP_GPIO_15_AL : Z := Z.lor 15 BP_ACTIVE_LOW.
Definition BP_GPIO_16_AH : Z := 16.
Definition BP_GPIO_16_AL : Z := Z.lor 16 BP_ACTIVE_LOW.
Definition BP_GPIO_17_AH : Z := 17.
Definition BP_GPIO_17_AL : Z := Z.lor 17 BP_ACTIVE_LOW.
Definition BP_GPIO_18_AH : Z := 18.
Definition BP_GPIO_18_AL : Z := Z.lor 18 BP_ACTIVE_LOW.
Definition BP_GPIO_19_AH : Z := 19.
Definition BP_GPIO_19_AL : Z := Z.lor 19 BP_ACTIVE_LOW.
Definition BP_GPIO_20_AH : Z := 20.
Definition BP_GPIO_20_AL : Z := Z.lor 20 BP_ACTIVE_LOW.
Definition BP_GPIO_21_AH : Z := 21.
Definition BP_GPIO_21_AL : Z := Z.lor 21 BP_ACTIVE_LOW.
Definition BP_GPIO_22_AH : Z := 22.
Definition BP_GPIO_22_AL : Z := Z.lor 22 BP_ACTIVE_LOW.
Definition BP_GPIO_23_AH : Z := 23.
Definition BP_GPIO_23_AL : Z := Z.lor 23 BP_ACTIVE_LOW.
Definition BP_GPIO_24_AH : Z := 24.
Definition BP_GPIO_24_AL : Z := Z.lor 24 BP_ACTIVE_LOW.
Definition BP_GPIO_25_AH : Z := 25.
Definition BP_GPIO_25_AL : Z := Z.lor 25 BP_ACTIVE_LOW.
Definition BP_GPIO_26_AH : Z := 26.
Definition BP_GPIO_26_AL : Z := Z.lor 26 BP_ACTIVE_LOW.
Definition BP_GPIO_27_AH : Z := 27.
Definition BP_GPIO_27_AL : Z := Z.lor 27 BP_ACTIVE_LOW.
Definition BP_GPIO_28_AH : Z := 28.
Definition BP_GPIO_28_AL : Z := Z.lor 28 BP_ACTIVE_LOW.
Definition BP_GPIO_29_AH : Z := 29.
Definition BP_GPIO_29_AL : Z := Z.lor 29 BP_ACTIVE_LOW.
Definition BP_GPIO_30_AH : Z := 30.
Definition BP_GPIO_30_AL : Z := Z.lor 30 BP_ACTIVE_LOW.
Definition BP_GPIO_31_AH : Z := 31.
Definition BP_GPIO_31_AL : Z := Z.lor 31 BP_ACTIVE_LOW.
Definition BP_GPIO_32_AH : Z := 32.
Definition BP_GPIO_32_AL : Z := Z.lor 32 BP_ACTIVE_LOW.
Definition BP_GPIO_33_AH : Z := 33.
Definition BP_GPIO_33_AL : Z := Z.lor 33 BP_ACTIVE_LOW.
Definition BP_GPIO_34_AH : Z := 34.
Definition BP_GPIO_34_AL : Z := Z.lor 34 BP_ACTIVE_LOW.
Definition BP_GPIO_35_AH : Z := 35.
Definition BP_GPIO_35_AL : Z := Z.lor 35 BP_ACTIVE_LOW.
Definition BP_GPIO_36_AH : Z := 36.
Definition BP_GPIO_36_AL : Z := Z.lor 36 BP_ACTIVE_LOW.
Definition BP_GPIO_37_AH : Z := 37.
Definition BP_GPIO_37_AL : Z := Z.lor 37 BP_ACTIVE_LOW.
Definition BP_SERIAL_GPIO_0_AH : Z := Z.lor 0 BP_GPIO_SERIAL.
Definition BP_SERIAL_GPIO_0_AL : Z := Z.lor (Z.lor 0 BP_GPIO_SERIAL) BP_ACTIVE_LOW.
Definition BP_SERIAL_GPIO_1_AH : Z := Z.lor 1 BP_GPIO_SERIAL.
Definition BP_SERIAL_GPIO_1_AL : Z := Z.lor (Z.lor 1 BP_GPIO_SERIAL) BP_ACTIVE_LOW.
Definition BP_SERIAL_GPIO_2_AH : Z := Z.lor 2 BP_GPIO_SERIAL.
Definition BP_SERIAL_GPIO_2_AL : Z := Z.lor (Z.lor 2 BP_GPIO_SERIAL) BP_ACTIVE_LOW.
Definition BP_SERIAL_GPIO_3_AH : Z := Z.lor 3 BP_GPIO_SERIAL.
Definition BP_SERIAL_GPIO_3_AL : Z := Z.lor (Z.lor 3 BP_GPIO_SERIAL) BP_ACTIVE_LOW.
Definition BP_SERIAL_GPIO_4_AH : Z := Z.lor 4 BP_GPIO_SERIAL.
Definition BP_SERIAL_GPIO_4_AL : Z := Z.lor (Z.lor 4 BP_GPIO_SERIAL) BP_ACTIVE_LOW.
Definition BP_SERIAL_GPIO_5_AH : Z := Z.lor 5 BP_GPIO_SERIAL.
Definition BP_SERIAL_GPIO_5_AL : Z := Z.lor (Z.lor 5 BP_GPIO_SERIAL) BP_ACTIVE_LOW.
Definition BP_SERIAL_GPIO_6_AH : Z := Z.lor 6 BP_GPIO_SERIAL.
Definition BP_SERIAL_GPIO_6_AL : Z := Z.lor (Z.lor 6 BP_GPIO_SERIAL) BP_ACTIVE_LOW.
Definition BP_SERIAL_GPIO_7_AH : Z := Z.lor 7 BP_GPIO_SERIAL.
Definition BP_SERIAL_GPIO_7_AL : Z := Z.lor (Z.lor 7 BP_GPIO_SERIAL) BP_ACTIVE_LOW.
Definition BP_EXT_INTR_0 : Z := 0.
Definition BP_EXT_INTR_1 : Z := 1.
Definition BP_EXT_INTR_2 : Z := 2.
Definition BP_EXT_INTR_3 : Z := 3.
Definition BP_EXT_INTR_4 : Z := 4.
Definition BP_EXT_INTR_5 : Z := 5.
Definition BP_CS_0 : Z := 0.
Definition BP_CS_1 : Z := 1.
Definition BP_CS_2 : Z := 2.
Definition BP_CS_3 : Z := 3.
Definition BP_PCI : Z := Z.shiftl 1 0.
Definition BP_CB : Z := Z.shiftl 1 1.
Definition BP_SPI_EXT_CS : Z := Z.shiftl 1 2.
Definition BP_MII2 : Z := Z.shiftl 1 3.
Definition BP_UTOPIA : Z := Z.shiftl 1 4.
Definition BP_UART1 : Z := Z.shiftl 1 5.
Definition BP_LED : Z := Z.shiftl 1 6.
Definition BP_NOT_DEFINED : Z := 0xffff.
Definition BP_UNEQUIPPED : Z := 0xfff1.
Definition BP_HW_DEFINED : Z := 0xfff0.
Definition BP_HW_DEFINED_AL : Z := 0xfff0.
Definition BP_HW_DEFINED_AH : Z := 0xfff2.
Definition BP_BOARD_ID_LEN : Z := 16.
Definition BP_MAX_ENET_MACS : Z := 2.
Definition BP_MAX_SWITCH_PORTS : Z := 8.
Definition BP_MAX_VOIP_DSP : Z := 2.
Definition BP_WLAN_ANT_MAIN : Z := 0.
Definition BP_WLAN_ANT_AUX : Z := 1.
Definition BP_WLAN_ANT_BOTH : Z := 3.
Definition BP_WLAN_MAC_ADDR_OVERRIDE : Z := 0x0001.
Definition BP_WLAN_EXCLUDE_ONBOARD : Z := 0x0002.
Definition BP_WLAN_NVRAM_NAME_LEN : Z := 16.
Definition BP_WLAN_MAX_PATCH_ENTRY : Z := 8.

(** ** Enumerations *)

Inductive SLIC_TYPE :=
  | Silicon_Labs_3216 | Silicon_Labs_3215 | Legerity_88221
  | Legerity_88311_slic | Slic_Not_Defined.

Inductive DAA_TYPE :=
  | Silicon_Labs_3050 | Legerity_88010 | Legerity_88311_daa | DAA_Not_Defined.

Inductive SLIC_GPIO_TYPE := SLIC_GPIO_RESET | SLIC_GPIO_RELAY | SLIC_GPIO_GENERIC.

#[export] Instance SLIC_TYPE_eq_dec : EqDecision SLIC_TYPE.
Proof. solve_decision. Defined.
#[export] Instance DAA_TYPE_eq_dec : EqDecision DAA_TYPE.
Proof. solve_decision. Defined.

(** The enumerators' integer values. *)
Definition slic_to_Z (t : SLIC_TYPE) : Z :=
  match t with
  | Silicon_Labs_3216 => 0 | Silicon_Labs_3215 => 1 | Legerity_88221 => 2
  | Legerity_88311_slic => 3 | Slic_Not_Defined => 4
  end.

Definition daa_to_Z (t : DAA_TYPE) : Z :=
  match t with
  | Silicon_Labs_3050 => 0 | Legerity_88010 => 1
  | Legerity_88311_daa => 2 | DAA_Not_Defined => 3
  end.

(** [VCOPE_PIN_TYPES]; the accessor compares an [int] with them. *)
Definition BCM6505_RESET_GPIO : Z := 1.
Definition VCOPE_RELAY_GPIO : Z := 2.
Definition HPI_CS : Z := 3.
Definition VCOPE_BOARD_REV : Z := 4.

(** ** Structures *)

Record ETHERNET_SW_INFO := {
  port_map : Z;
  phy_id : list Z
}.

Record ETHERNET_MAC_INFO := {
  ucPhyType : Z;
  ucPhyAddress : Z;
  usGpioPhyReset : Z;
  usGpioPhyLinkSpeed : Z;
  usConfigType : Z;
  usReverseMii : Z;
  sw : ETHERNET_SW_INFO
}.

Record VOIP_DSP_INFO := {
  ucDspType : Z;
  ucDspAddress : Z;
  usExtIntrVoip : Z;
  usGpioVoipReset : Z;
  usGpioVoipIntr : Z;
  usGpioLedVoip : Z;
  usCsVoip : Z;
  usGpioVoip1Led : Z;
  usGpioVoip1LedFail : Z;
  usGpioSlic0Relay : Z;
  usGpioSlic0Reset : Z;
  usGpioVoip2Led : Z;
  usGpioVoip2LedFail : Z;
  usGpioSlic1Relay : Z;
  usGpioSlic1Reset : Z;
  usGpioPotsLed : Z;
  usGpioPotsReset : Z;
  usGpioDectLed : Z
}.

Record BOARD_PARAMETERS := {
  szBoardId : list Z;
  usGPIOOverlay : Z;
  usGpioRj11InnerPair : Z;
  usGpioRj11OuterPair : Z;
  usGpioUartRts : Z;
  usGpioUartCts : Z;
  usVcopeResetGpio : Z;
  usVcopeRelayGpio : Z;
  usGpioLedAdsl : Z;
  usGpioLedAdslFail : Z;
  usGpioSecLedAdsl : Z;
  usGpioSecLedAdslFail : Z;
  usGpioLedSesWireless : Z;
  usGpioLedHpna : Z;
  usGpioLedWanData : Z;
  usGpioLedPpp : Z;
  usGpioLedPppFail : Z;
  usGpioLedBlPowerOn : Z;
  usGpioLedBlStop : Z;
  usGpioBondingSecondaryReset : Z;
  usExtIntrAdslDyingGasp : Z;
  usExtIntrResetToDefault : Z;
  usExtIntrSesBtnWireless : Z;
  usExtIntrHpna : Z;
  usCsHpna : Z;
  usCsHpi : Z;
  usAntInUseWireless : Z;
  usWirelessFlags : Z;
  usVcopeBoardRev : Z;
  EnetMacInfos : list ETHERNET_MAC_INFO;
  VoIPDspInfo : list VOIP_DSP_INFO;
  slicType : SLIC_TYPE;
  daaType : DAA_TYPE;
  usGpioWirelessPowerDown : Z;
  usGpioLedUsbHost1 : Z;
  usGpioLedUsbHost2 : Z;
  usGpioWirelessProtect : Z
}.

#[export] Instance ETHERNET_SW_INFO_eq_dec : EqDecision ETHERNET_SW_INFO.
Proof. solve_decision. Defined.
#[export] Instance ETHERNET_MAC_INFO_eq_dec : EqDecision ETHERNET_MAC_INFO.
Proof. solve_decision. Defined.
#[export] Instance VOIP_DSP_INFO_eq_dec : EqDecision VOIP_DSP_INFO.
Proof. solve_decision. Defined.
#[export] Instance BOARD_PARAMETERS_eq_dec : EqDecision BOARD_PARAMETERS.
Proof. solve_decision. Defined.

(** ** Initialisers *)

(** [SW_INFO_DEFAULT(n)]. *)
Definition SW_INFO_DEFAULT (n : Z) : ETHERNET_SW_INFO :=
  {| port_map := Z.shiftl 1 n - 1; phy_id := [0; 0; 0; 0; 0; 0; 0; 0] |}.

(** A partial initialiser [{x}] leaves every later member zero. *)
Definition SW_INFO_ZERO : ETHERNET_SW_INFO :=
  {| port_map := 0; phy_id := [0; 0; 0; 0; 0; 0; 0; 0] |}.

Definition ENET_PHY_ONLY (t : Z) : ETHERNET_MAC_INFO :=
  {| ucPhyType := t; ucPhyAddress := 0; usGpioPhyReset := 0; usGpioPhyLinkSpeed := 0;
     usConfigType := 0; usReverseMii := 0; sw := SW_INFO_ZERO |}.

Definition VOIP_TYPE_ONLY (t : Z) : VOIP_DSP_INFO :=
  {| ucDspType := t; ucDspAddress := 0; usExtIntrVoip := 0; usGpioVoipReset := 0;
     usGpioVoipIntr := 0; usGpioLedVoip := 0; usCsVoip := 0; usGpioVoip1Led := 0;
     usGpioVoip1LedFail := 0; usGpioSlic0Relay := 0; usGpioSlic0Reset := 0; usGpioVoip2Led := 0;
     usGpioVoip2LedFail := 0; usGpioSlic1Relay := 0; usGpioSlic1Reset := 0; usGpioPotsLed := 0;
     usGpioPotsReset := 0; usGpioDectLed := 0 |}.

(** The chip the firmware is compiled for ([CONFIG_BCM963xx]). *)
Inductive Chip := BCM96338 | BCM96348 | BCM96358 | BCM96368.
