(* ===== verification/BoardTables6338.v ===== *)
(** * Board parameter tables of the BCM96338 boards

    One definition per static [BOARD_PARAMETERS] of [boardparms.c], in the
    file's order; a member the initialiser leaves out is zero, as in C. *)

From S2P Require Import Prelude BoardDefs.

Definition g_bcm96338sv : BOARD_PARAMETERS :=
  {| szBoardId := char_array 16 "96338SV";
     usGPIOOverlay := BP_NOT_DEFINED;
     usGpioRj11InnerPair := BP_NOT_DEFINED;
     usGpioRj11OuterPair := BP_NOT_DEFINED;
     usGpioUartRts := BP_NOT_DEFINED;
     usGpioUartCts := BP_NOT_DEFINED;
     usVcopeResetGpio := BP_NOT_DEFINED;
     usVcopeRelayGpio := BP_NOT_DEFINED;
     usGpioLedAdsl := BP_NOT_DEFINED;
     usGpioLedAdslFail := BP_NOT_DEFINED;
     usGpioSecLedAdsl := BP_NOT_DEFINED;
     usGpioSecLedAdslFail := BP_NOT_DEFINED;
     usGpioLedSesWireless := BP_NOT_DEFINED;
     usGpioLedHpna := BP_NOT_DEFINED;
     usGpioLedWanData := BP_NOT_DEFINED;
     usGpioLedPpp := BP_NOT_DEFINED;
     usGpioLedPppFail := BP_NOT_DEFINED;
     usGpioLedBlPowerOn := BP_NOT_DEFINED;
     usGpioLedBlStop := BP_NOT_DEFINED;
     usGpioBondingSecondaryReset := BP_NOT_DEFINED;
     usExtIntrAdslDyingGasp := BP_HW_DEFINED;
     usExtIntrResetToDefault := BP_NOT_DEFINED;
     usExtIntrSesBtnWireless := BP_NOT_DEFINED;
     usExtIntrHpna := BP_NOT_DEFINED;
     usCsHpna := BP_NOT_DEFINED;
     usCsHpi := BP_NOT_DEFINED;
     usAntInUseWireless := BP_NOT_DEFINED;
     usWirelessFlags := 0;
     usVcopeBoardRev := BP_NOT_DEFINED;
     EnetMacInfos :=
      [{| ucPhyType := BP_ENET_INTERNAL_PHY;
         ucPhyAddress := 0x01;
         usGpioPhyReset := BP_NOT_DEFINED;
         usGpioPhyLinkSpeed := BP_NOT_DEFINED;
         usConfigType := BP_ENET_CONFIG_MDIO;
         usReverseMii := BP_NOT_DEFINED;
         sw := SW_INFO_DEFAULT 1 |};
       ENET_PHY_ONLY BP_ENET_NO_PHY];
     VoIPDspInfo :=
      [VOIP_TYPE_ONLY BP_VOIP_NO_DSP;
       VOIP_TYPE_ONLY BP_VOIP_NO_DSP];
     slicType := Slic_Not_Defined;
     daaType := DAA_Not_Defined;
     usGpioWirelessPowerDown := BP_NOT_DEFINED;
     usGpioLedUsbHost1 := 0;
     usGpioLedUsbHost2 := 0;
     usGpioWirelessProtect := 0 |}.

Definition g_bcm96338l2m8m : BOARD_PARAMETERS :=
  {| szBoardId := char_array 16 "96338L-2M-8M";
     usGPIOOverlay := BP_NOT_DEFINED;
     usGpioRj11InnerPair := BP_NOT_DEFINED;
     usGpioRj11OuterPair := BP_NOT_DEFINED;
     usGpioUartRts := BP_NOT_DEFINED;
     usGpioUartCts := BP_NOT_DEFINED;
     usVcopeResetGpio := BP_NOT_DEFINED;
     usVcopeRelayGpio := BP_NOT_DEFINED;
     usGpioLedAdsl := BP_NOT_DEFINED;
     usGpioLedAdslFail := BP_GPIO_2_AL;
     usGpioSecLedAdsl := BP_NOT_DEFINED;
     usGpioSecLedAdslFail := BP_NOT_DEFINED;
     usGpioLedSesWireless := BP_NOT_DEFINED;
     usGpioLedHpna := BP_NOT_DEFINED;
     usGpioLedWanData := BP_GPIO_3_AL;
     usGpioLedPpp := BP_GPIO_3_AL;
     usGpioLedPppFail := BP_GPIO_4_AL;
     usGpioLedBlPowerOn := BP_GPIO_0_AL;
     usGpioLedBlStop := BP_GPIO_1_AL;
     usGpioBondingSecondaryReset := BP_NOT_DEFINED;
     usExtIntrAdslDyingGasp := BP_HW_DEFINED;
     usExtIntrResetToDefault := BP_EXT_INTR_1;
     usExtIntrSesBtnWireless := BP_NOT_DEFINED;
     usExtIntrHpna := BP_NOT_DEFINED;
     usCsHpna := BP_NOT_DEFINED;
     usCsHpi := BP_NOT_DEFINED;
     usAntInUseWireless := BP_NOT_DEFINED;
     usWirelessFlags := 0;
     usVcopeBoardRev := BP_NOT_DEFINED;
     EnetMacInfos :=
      [{| ucPhyType := BP_ENET_INTERNAL_PHY;
         ucPhyAddress := 0x01;
         usGpioPhyReset := BP_NOT_DEFINED;
         usGpioPhyLinkSpeed := BP_NOT_DEFINED;
         usConfigType := BP_ENET_CONFIG_MDIO;
         usReverseMii := BP_NOT_DEFINED;
         sw := SW_INFO_DEFAULT 1 |};
       ENET_PHY_ONLY BP_ENET_NO_PHY];
     VoIPDspInfo :=
      [VOIP_TYPE_ONLY BP_VOIP_NO_DSP;
       VOIP_TYPE_ONLY BP_VOIP_NO_DSP];
     slicType := Slic_Not_Defined;
     daaType := DAA_Not_Defined;
     usGpioWirelessPowerDown := BP_NOT_DEFINED;
     usGpioLedUsbHost1 := 0;
     usGpioLedUsbHost2 := 0;
     usGpioWirelessProtect := 0 |}.

Definition g_bcm96338l652m8m : BOARD_PARAMETERS :=
  {| szBoardId := char_array 16 "96338L-65-2M-8M";
     usGPIOOverlay := BP_NOT_DEFINED;
     usGpioRj11InnerPair := BP_NOT_DEFINED;
     usGpioRj11OuterPair := BP_NOT_DEFINED;
     usGpioUartRts := BP_NOT_DEFINED;
     usGpioUartCts := BP_NOT_DEFINED;
     usVcopeResetGpio := BP_NOT_DEFINED;
     usVcopeRelayGpio := BP_NOT_DEFINED;
     usGpioLedAdsl := BP_GPIO_3_AL;
     usGpioLedAdslFail := BP_NOT_DEFINED;
     usGpioSecLedAdsl := BP_NOT_DEFINED;
     usGpioSecLedAdslFail := BP_NOT_DEFINED;
     usGpioLedSesWireless := BP_NOT_DEFINED;
     usGpioLedHpna := BP_NOT_DEFINED;
     usGpioLedWanData := BP_NOT_DEFINED;
     usGpioLedPpp := BP_NOT_DEFINED;
     usGpioLedPppFail := BP_GPIO_4_AL;
     usGpioLedBlPowerOn := BP_GPIO_0_AL;
     usGpioLedBlStop := BP_GPIO_1_AL;
     usGpioBondingSecondaryReset := BP_NOT_DEFINED;
     usExtIntrAdslDyingGasp := BP_HW_DEFINED;
     usExtIntrResetToDefault := BP_EXT_INTR_1;
     usExtIntrSesBtnWireless := BP_NOT_DEFINED;
     usExtIntrHpna := BP_NOT_DEFINED;
     usCsHpna := BP_NOT_DEFINED;
     usCsHpi := BP_NOT_DEFINED;
     usAntInUseWireless := BP_NOT_DEFINED;
     usWirelessFlags := 0;
     usVcopeBoardRev := BP_NOT_DEFINED;
     EnetMacInfos :=
      [{| ucPhyType := BP_ENET_INTERNAL_PHY;
         ucPhyAddress := 0x01;
         usGpioPhyReset := BP_NOT_DEFINED;
         usGpioPhyLinkSpeed := BP_NOT_DEFINED;
         usConfigType := BP_ENET_CONFIG_MDIO;
         usReverseMii := BP_NOT_DEFINED;
         sw := SW_INFO_DEFAULT 1 |};
       ENET_PHY_ONLY BP_ENET_NO_PHY];
     VoIPDspInfo :=
      [VOIP_TYPE_ONLY BP_VOIP_NO_DSP;
       VOIP_TYPE_ONLY BP_VOIP_NO_DSP];
     slicType := Slic_Not_Defined;
     daaType := DAA_Not_Defined;
     usGpioWirelessPowerDown := BP_NOT_DEFINED;
     usGpioLedUsbHost1 := 0;
     usGpioLedUsbHost2 := 0;
     usGpioWirelessProtect := 0 |}.

Definition g_bcm96338gw : BOARD_PARAMETERS :=
  {| szBoardId := char_array 16 "96338W";
     usGPIOOverlay := BP_NOT_DEFINED;
     usGpioRj11InnerPair := BP_NOT_DEFINED;
     usGpioRj11OuterPair := BP_NOT_DEFINED;
     usGpioUartRts := BP_NOT_DEFINED;
     usGpioUartCts := BP_NOT_DEFINED;
     usVcopeResetGpio := BP_NOT_DEFINED;
     usVcopeRelayGpio := BP_NOT_DEFINED;
     usGpioLedAdsl := BP_NOT_DEFINED;
     usGpioLedAdslFail := BP_GPIO_2_AL;
     usGpioSecLedAdsl := BP_NOT_DEFINED;
     usGpioSecLedAdslFail := BP_NOT_DEFINED;
     usGpioLedSesWireless := BP_GPIO_5_AL;
     usGpioLedHpna := BP_NOT_DEFINED;
     usGpioLedWanData := BP_GPIO_3_AL;
     usGpioLedPpp := BP_GPIO_3_AL;
     usGpioLedPppFail := BP_GPIO_4_AH;
     usGpioLedBlPowerOn := BP_GPIO_0_AH;
     usGpioLedBlStop := BP_GPIO_6_AL;
     usGpioBondingSecondaryReset := BP_NOT_DEFINED;
     usExtIntrAdslDyingGasp := BP_HW_DEFINED;
     usExtIntrResetToDefault := BP_EXT_INTR_1;
     usExtIntrSesBtnWireless := BP_EXT_INTR_0;
     usExtIntrHpna := BP_NOT_DEFINED;
     usCsHpna := BP_NOT_DEFINED;
     usCsHpi := BP_NOT_DEFINED;
     usAntInUseWireless := BP_NOT_DEFINED;
     usWirelessFlags := BP_WLAN_MAC_ADDR_OVERRIDE;
     usVcopeBoardRev := BP_NOT_DEFINED;
     EnetMacInfos :=
      [{| ucPhyType := BP_ENET_EXTERNAL_SWITCH;
         ucPhyAddress := 0x0;
         usGpioPhyReset := BP_NOT_DEFINED;
         usGpioPhyLinkSpeed := BP_NOT_DEFINED;
         usConfigType := BP_ENET_CONFIG_MDIO_PSEUDO_PHY;
         usReverseMii := BP_NOT_DEFINED;
         sw := SW_INFO_DEFAULT 4 |};
       ENET_PHY_ONLY BP_ENET_NO_PHY];
     VoIPDspInfo :=
      [VOIP_TYPE_ONLY BP_VOIP_NO_DSP;
       VOIP_TYPE_ONLY BP_VOIP_NO_DSP];
     slicType := Slic_Not_Defined;
     daaType := DAA_Not_Defined;
     usGpioWirelessPowerDown := BP_NOT_DEFINED;
     usGpioLedUsbHost1 := 0;
     usGpioLedUsbHost2 := 0;
     usGpioWirelessProtect := 0 |}.

Definition g_bcm96338gws2 : BOARD_PARAMETERS :=
  {| szBoardId := char_array 16 "96338WS2";
     usGPIOOverlay := BP_NOT_DEFINED;
     usGpioRj11InnerPair := BP_NOT_DEFINED;
     usGpioRj11OuterPair := BP_NOT_DEFINED;
     usGpioUartRts := BP_NOT_DEFINED;
     usGpioUartCts := BP_NOT_DEFINED;
     usVcopeResetGpio := BP_NOT_DEFINED;
     usVcopeRelayGpio := BP_NOT_DEFINED;
     usGpioLedAdsl := BP_NOT_DEFINED;
     usGpioLedAdslFail := BP_GPIO_2_AL;
     usGpioSecLedAdsl := BP_NOT_DEFINED;
     usGpioSecLedAdslFail := BP_NOT_DEFINED;
     usGpioLedSesWireless := BP_GPIO_5_AL;
     usGpioLedHpna := BP_NOT_DEFINED;
     usGpioLedWanData := BP_GPIO_3_AL;
     usGpioLedPpp := BP_GPIO_3_AL;
     usGpioLedPppFail := BP_GPIO_4_AH;
     usGpioLedBlPowerOn := BP_GPIO_0_AH;
     usGpioLedBlStop := BP_GPIO_6_AL;
     usGpioBondingSecondaryReset := BP_NOT_DEFINED;
     usExtIntrAdslDyingGasp := BP_HW_DEFINED;
     usExtIntrResetToDefault := BP_EXT_INTR_1;
     usExtIntrSesBtnWireless := BP_EXT_INTR_0;
     usExtIntrHpna := BP_NOT_DEFINED;
     usCsHpna := BP_NOT_DEFINED;
     usCsHpi := BP_NOT_DEFINED;
     usAntInUseWireless := BP_NOT_DEFINED;
     usWirelessFlags := BP_WLAN_MAC_ADDR_OVERRIDE;
     usVcopeBoardRev := BP_NOT_DEFINED;
     EnetMacInfos :=
      [{| ucPhyType := BP_ENET_INTERNAL_PHY;
         ucPhyAddress := 0x01;
         usGpioPhyReset := BP_NOT_DEFINED;
         usGpioPhyLinkSpeed := BP_NOT_DEFINED;
         usConfigType := BP_ENET_CONFIG_MDIO;
         usReverseMii := BP_NOT_DEFINED;
         sw := SW_INFO_DEFAULT 1 |};
       ENET_PHY_ONLY BP_ENET_NO_PHY];
     VoIPDspInfo :=
      [VOIP_TYPE_ONLY BP_VOIP_NO_DSP;
       VOIP_TYPE_ONLY BP_VOIP_NO_DSP];
     slicType := Slic_Not_Defined;
     daaType := DAA_Not_Defined;
     usGpioWirelessPowerDown := BP_GPIO_6_AH;
     usGpioLedUsbHost1 := 0;
     usGpioLedUsbHost2 := 0;
     usGpioWirelessProtect := 0 |}.

Definition g_bcm96338gw20p2 : BOARD_PARAMETERS :=
  {| szBoardId := char_array 16 "96338W-20P2";
     usGPIOOverlay := BP_NOT_DEFINED;
     usGpioRj11InnerPair := BP_NOT_DEFINED;
     usGpioRj11OuterPair := BP_NOT_DEFINED;
     usGpioUartRts := BP_NOT_DEFINED;
     usGpioUartCts := BP_NOT_DEFINED;
     usVcopeResetGpio := BP_NOT_DEFINED;
     usVcopeRelayGpio := BP_NOT_DEFINED;
     usGpioLedAdsl := BP_GPIO_3_AL;
     usGpioLedAdslFail := BP_NOT_DEFINED;
     usGpioSecLedAdsl := BP_NOT_DEFINED;
     usGpioSecLedAdslFail := BP_NOT_DEFINED;
     usGpioLedSesWireless := BP_GPIO_5_AL;
     usGpioLedHpna := BP_NOT_DEFINED;
     usGpioLedWanData := BP_NOT_DEFINED;
     usGpioLedPpp := BP_NOT_DEFINED;
     usGpioLedPppFail := BP_GPIO_4_AL;
     usGpioLedBlPowerOn := BP_GPIO_0_AL;
     usGpioLedBlStop := BP_GPIO_1_AL;
     usGpioBondingSecondaryReset := BP_NOT_DEFINED;
     usExtIntrAdslDyingGasp := BP_HW_DEFINED;
     usExtIntrResetToDefault := BP_EXT_INTR_1;
     usExtIntrSesBtnWireless := BP_EXT_INTR_0;
     usExtIntrHpna := BP_NOT_DEFINED;
     usCsHpna := BP_NOT_DEFINED;
     usCsHpi := BP_NOT_DEFINED;
     usAntInUseWireless := BP_NOT_DEFINED;
     usWirelessFlags := BP_WLAN_MAC_ADDR_OVERRIDE;
     usVcopeBoardRev := BP_NOT_DEFINED;
     EnetMacInfos :=
      [{| ucPhyType := BP_ENET_EXTERNAL_SWITCH;
         ucPhyAddress := 0x0;
         usGpioPhyReset := BP_NOT_DEFINED;
         usGpioPhyLinkSpeed := BP_NOT_DEFINED;
         usConfigType := BP_ENET_CONFIG_MDIO_PSEUDO_PHY;
         usReverseMii := BP_NOT_DEFINED;
         sw := SW_INFO_DEFAULT 4 |};
       ENET_PHY_ONLY BP_ENET_NO_PHY];
     VoIPDspInfo :=
      [VOIP_TYPE_ONLY BP_VOIP_NO_DSP;
       VOIP_TYPE_ONLY BP_VOIP_NO_DSP];
     slicType := Slic_Not_Defined;
     daaType := DAA_Not_Defined;
     usGpioWirelessPowerDown := BP_NOT_DEFINED;
     usGpioLedUsbHost1 := 0;
     usGpioLedUsbHost2 := 0;
     usGpioWirelessProtect := 0 |}.

Definition g_bcm96338gw2 : BOARD_PARAMETERS :=
  {| szBoardId := char_array 16 "96338W2";
     usGPIOOverlay := BP_NOT_DEFINED;
     usGpioRj11InnerPair := BP_NOT_DEFINED;
     usGpioRj11OuterPair := BP_NOT_DEFINED;
     usGpioUartRts := BP_NOT_DEFINED;
     usGpioUartCts := BP_NOT_DEFINED;
     usVcopeResetGpio := BP_NOT_DEFINED;
     usVcopeRelayGpio := BP_NOT_DEFINED;
     usGpioLedAdsl := BP_NOT_DEFINED;
     usGpioLedAdslFail := BP_NOT_DEFINED;
     usGpioSecLedAdsl := BP_NOT_DEFINED;
     usGpioSecLedAdslFail := BP_NOT_DEFINED;
     usGpioLedSesWireless := BP_GPIO_5_AL;
     usGpioLedHpna := BP_NOT_DEFINED;
     usGpioLedWanData := BP_GPIO_2_AL;
     usGpioLedPpp := BP_GPIO_1_AL;
     usGpioLedPppFail := BP_GPIO_4_AH;
     usGpioLedBlPowerOn := BP_GPIO_0_AH;
     usGpioLedBlStop := BP_GPIO_6_AL;
     usGpioBondingSecondaryReset := BP_NOT_DEFINED;
     usExtIntrAdslDyingGasp := BP_HW_DEFINED;
     usExtIntrResetToDefault := BP_EXT_INTR_1;
     usExtIntrSesBtnWireless := BP_EXT_INTR_0;
     usExtIntrHpna := BP_NOT_DEFINED;
     usCsHpna := BP_NOT_DEFINED;
     usCsHpi := BP_NOT_DEFINED;
     usAntInUseWireless := BP_NOT_DEFINED;
     usWirelessFlags := BP_WLAN_MAC_ADDR_OVERRIDE;
     usVcopeBoardRev := BP_NOT_DEFINED;
     EnetMacInfos :=
      [{| ucPhyType := BP_ENET_EXTERNAL_SWITCH;
         ucPhyAddress := 0x0;
         usGpioPhyReset := BP_NOT_DEFINED;
         usGpioPhyLinkSpeed := BP_NOT_DEFINED;
         usConfigType := BP_ENET_CONFIG_MDIO_PSEUDO_PHY;
         usReverseMii := BP_NOT_DEFINED;
         sw := SW_INFO_DEFAULT 4 |};
       ENET_PHY_ONLY BP_ENET_NO_PHY];
     VoIPDspInfo :=
      [VOIP_TYPE_ONLY BP_VOIP_NO_DSP;
       VOIP_TYPE_ONLY BP_VOIP_NO_DSP];
     slicType := Slic_Not_Defined;
     daaType := DAA_Not_Defined;
     usGpioWirelessPowerDown := BP_GPIO_6_AH;
     usGpioLedUsbHost1 := 0;
     usGpioLedUsbHost2 := 0;
     usGpioWirelessProtect := 0 |}.

Definition g_bcm96338e : BOARD_PARAMETERS :=
  {| szBoardId := char_array 16 "96338E";
     usGPIOOverlay := BP_NOT_DEFINED;
     usGpioRj11InnerPair := BP_NOT_DEFINED;
     usGpioRj11OuterPair := BP_NOT_DEFINED;
     usGpioUartRts := BP_NOT_DEFINED;
     usGpioUartCts := BP_NOT_DEFINED;
     usVcopeResetGpio := BP_NOT_DEFINED;
     usVcopeRelayGpio := BP_NOT_DEFINED;
     usGpioLedAdsl := BP_NOT_DEFINED;
     usGpioLedAdslFail := BP_NOT_DEFINED;
     usGpioSecLedAdsl := BP_NOT_DEFINED;
     usGpioSecLedAdslFail := BP_NOT_DEFINED;
     usGpioLedSesWireless := BP_NOT_DEFINED;
     usGpioLedHpna := BP_NOT_DEFINED;
     usGpioLedWanData := BP_GPIO_2_AL;
     usGpioLedPpp := BP_GPIO_1_AL;
     usGpioLedPppFail := BP_GPIO_4_AH;
     usGpioLedBlPowerOn := BP_GPIO_0_AH;
     usGpioLedBlStop := BP_GPIO_6_AL;
     usGpioBondingSecondaryReset := BP_NOT_DEFINED;
     usExtIntrAdslDyingGasp := BP_HW_DEFINED;
     usExtIntrResetToDefault := BP_EXT_INTR_1;
     usExtIntrSesBtnWireless := BP_NOT_DEFINED;
     usExtIntrHpna := BP_NOT_DEFINED;
     usCsHpna := BP_NOT_DEFINED;
     usCsHpi := BP_NOT_DEFINED;
     usAntInUseWireless := BP_NOT_DEFINED;
     usWirelessFlags := 0;
     usVcopeBoardRev := BP_NOT_DEFINED;
     EnetMacInfos :=
      [{| ucPhyType := BP_ENET_EXTERNAL_SWITCH;
         ucPhyAddress := 0x0;
         usGpioPhyReset := BP_NOT_DEFINED;
         usGpioPhyLinkSpeed := BP_NOT_DEFINED;
         usConfigType := BP_ENET_CONFIG_MDIO_PSEUDO_PHY;
         usReverseMii := BP_NOT_DEFINED;
         sw := SW_INFO_DEFAULT 4 |};
       ENET_PHY_ONLY BP_ENET_NO_PHY];
     VoIPDspInfo :=
      [VOIP_TYPE_ONLY BP_VOIP_NO_DSP;
       VOIP_TYPE_ONLY BP_VOIP_NO_DSP];
     slicType := Slic_Not_Defined;
     daaType := DAA_Not_Defined;
     usGpioWirelessPowerDown := BP_NOT_DEFINED;
     usGpioLedUsbHost1 := 0;
     usGpioLedUsbHost2 := 0;
     usGpioWirelessProtect := 0 |}.

Definition g_bcm96338e4 : BOARD_PARAMETERS :=
  {| szBoardId := char_array 16 "96338E4";
     usGPIOOverlay := BP_NOT_DEFINED;
     usGpioRj11InnerPair := BP_NOT_DEFINED;
     usGpioRj11OuterPair := BP_NOT_DEFINED;
     usGpioUartRts := BP_NOT_DEFINED;
     usGpioUartCts := BP_NOT_DEFINED;
     usVcopeResetGpio := BP_NOT_DEFINED;
     usVcopeRelayGpio := BP_NOT_DEFINED;
     usGpioLedAdsl := BP_GPIO_4_AH;
     usGpioLedAdslFail := BP_NOT_DEFINED;
     usGpioSecLedAdsl := BP_NOT_DEFINED;
     usGpioSecLedAdslFail := BP_NOT_DEFINED;
     usGpioLedSesWireless := BP_NOT_DEFINED;
     usGpioLedHpna := BP_NOT_DEFINED;
     usGpioLedWanData := BP_HW_DEFINED_AH;
     usGpioLedPpp := BP_HW_DEFINED_AH;
     usGpioLedPppFail := BP_GPIO_2_AH;
     usGpioLedBlPowerOn := BP_GPIO_1_AH;
     usGpioLedBlStop := BP_GPIO_0_AH;
     usGpioBondingSecondaryReset := BP_NOT_DEFINED;
     usExtIntrAdslDyingGasp := BP_HW_DEFINED;
     usExtIntrResetToDefault := BP_EXT_INTR_1;
     usExtIntrSesBtnWireless := BP_NOT_DEFINED;
     usExtIntrHpna := BP_NOT_DEFINED;
     usCsHpna := BP_NOT_DEFINED;
     usCsHpi := BP_NOT_DEFINED;
     usAntInUseWireless := BP_NOT_DEFINED;
     usWirelessFlags := 0;
     usVcopeBoardRev := BP_NOT_DEFINED;
     EnetMacInfos :=
      [{| ucPhyType := BP_ENET_EXTERNAL_SWITCH;
         ucPhyAddress := 0x0;
         usGpioPhyReset := BP_NOT_DEFINED;
         usGpioPhyLinkSpeed := BP_NOT_DEFINED;
         usConfigType := BP_ENET_CONFIG_MDIO_PSEUDO_PHY;
         usReverseMii := BP_NOT_DEFINED;
         sw := SW_INFO_DEFAULT 4 |};
       ENET_PHY_ONLY BP_ENET_NO_PHY];
     VoIPDspInfo :=
      [VOIP_TYPE_ONLY BP_VOIP_NO_DSP;
       VOIP_TYPE_ONLY BP_VOIP_NO_DSP];
     slicType := Slic_Not_Defined;
     daaType := DAA_Not_Defined;
     usGpioWirelessPowerDown := BP_NOT_DEFINED;
     usGpioLedUsbHost1 := 0;
     usGpioLedUsbHost2 := 0;
     usGpioWirelessProtect := 0 |}.

Definition g_bcm96338e420p2 : BOARD_PARAMETERS :=
  {| szBoardId := char_array 16 "96338E4-20P2";
     usGPIOOverlay := BP_NOT_DEFINED;
     usGpioRj11InnerPair := BP_NOT_DEFINED;
     usGpioRj11OuterPair := BP_NOT_DEFINED;
     usGpioUartRts := BP_NOT_DEFINED;
     usGpioUartCts := BP_NOT_DEFINED;
     usVcopeResetGpio := BP_NOT_DEFINED;
     usVcopeRelayGpio := BP_NOT_DEFINED;
     usGpioLedAdsl := BP_GPIO_3_AL;
     usGpioLedAdslFail := BP_NOT_DEFINED;
     usGpioSecLedAdsl := BP_NOT_DEFINED;
     usGpioSecLedAdslFail := BP_NOT_DEFINED;
     usGpioLedSesWireless := BP_NOT_DEFINED;
     usGpioLedHpna := BP_NOT_DEFINED;
     usGpioLedWanData := BP_NOT_DEFINED;
     usGpioLedPpp := BP_NOT_DEFINED;
     usGpioLedPppFail := BP_GPIO_4_AL;
     usGpioLedBlPowerOn := BP_GPIO_0_AL;
     usGpioLedBlStop := BP_GPIO_1_AL;
     usGpioBondingSecondaryReset := BP_NOT_DEFINED;
     usExtIntrAdslDyingGasp := BP_HW_DEFINED;
     usExtIntrResetToDefault := BP_EXT_INTR_1;
     usExtIntrSesBtnWireless := BP_NOT_DEFINED;
     usExtIntrHpna := BP_NOT_DEFINED;
     usCsHpna := BP_NOT_DEFINED;
     usCsHpi := BP_NOT_DEFINED;
     usAntInUseWireless := BP_NOT_DEFINED;
     usWirelessFlags := 0;
     usVcopeBoardRev := BP_NOT_DEFINED;
     EnetMacInfos :=
      [{| ucPhyType := BP_ENET_EXTERNAL_SWITCH;
         ucPhyAddress := 0x0;
         usGpioPhyReset := BP_NOT_DEFINED;
         usGpioPhyLinkSpeed := BP_NOT_DEFINED;
         usConfigType := BP_ENET_CONFIG_MDIO_PSEUDO_PHY;
         usReverseMii := BP_NOT_DEFINED;
         sw := SW_INFO_DEFAULT 4 |};
       ENET_PHY_ONLY BP_ENET_NO_PHY];
     VoIPDspInfo :=
      [VOIP_TYPE_ONLY BP_VOIP_NO_DSP;
       VOIP_TYPE_ONLY BP_VOIP_NO_DSP];
     slicType := Slic_Not_Defined;
     daaType := DAA_Not_Defined;
     usGpioWirelessPowerDown := BP_NOT_DEFINED;
     usGpioLedUsbHost1 := 0;
     usGpioLedUsbHost2 := 0;
     usGpioWirelessProtect := 0 |}.

Definition g_bcm96332cg : BOARD_PARAMETERS :=
  {| szBoardId := char_array 16 "96332CG";
     usGPIOOverlay := BP_NOT_DEFINED;
     usGpioRj11InnerPair := BP_NOT_DEFINED;
     usGpioRj11OuterPair := BP_NOT_DEFINED;
     usGpioUartRts := BP_NOT_DEFINED;
     usGpioUartCts := BP_NOT_DEFINED;
     usVcopeResetGpio := BP_NOT_DEFINED;
     usVcopeRelayGpio := BP_NOT_DEFINED;
     usGpioLedAdsl := BP_NOT_DEFINED;
     usGpioLedAdslFail := BP_GPIO_2_AL;
     usGpioSecLedAdsl := BP_NOT_DEFINED;
     usGpioSecLedAdslFail := BP_NOT_DEFINED;
     usGpioLedSesWireless := BP_NOT_DEFINED;
     usGpioLedHpna := BP_NOT_DEFINED;
     usGpioLedWanData := BP_GPIO_4_AL;
     usGpioLedPpp := BP_GPIO_3_AL;
     usGpioLedPppFail := BP_NOT_DEFINED;
     usGpioLedBlPowerOn := BP_GPIO_0_AL;
     usGpioLedBlStop := BP_GPIO_6_AL;
     usGpioBondingSecondaryReset := BP_NOT_DEFINED;
     usExtIntrAdslDyingGasp := BP_HW_DEFINED;
     usExtIntrResetToDefault := BP_EXT_INTR_1;
     usExtIntrSesBtnWireless := BP_NOT_DEFINED;
     usExtIntrHpna := BP_NOT_DEFINED;
     usCsHpna := BP_NOT_DEFINED;
     usCsHpi := BP_NOT_DEFINED;
     usAntInUseWireless := BP_NOT_DEFINED;
     usWirelessFlags := 0;
     usVcopeBoardRev := BP_NOT_DEFINED;
     EnetMacInfos :=
      [{| ucPhyType := BP_ENET_INTERNAL_PHY;
         ucPhyAddress := 0x01;
         usGpioPhyReset := BP_NOT_DEFINED;
         usGpioPhyLinkSpeed := BP_NOT_DEFINED;
         usConfigType := BP_ENET_CONFIG_MDIO;
         usReverseMii := BP_NOT_DEFINED;
         sw := SW_INFO_DEFAULT 1 |};
       ENET_PHY_ONLY BP_ENET_NO_PHY];
     VoIPDspInfo :=
      [VOIP_TYPE_ONLY BP_VOIP_NO_DSP;
       VOIP_TYPE_ONLY BP_VOIP_NO_DSP];
     slicType := Slic_Not_Defined;
     daaType := DAA_Not_Defined;
     usGpioWirelessPowerDown := BP_NOT_DEFINED;
     usGpioLedUsbHost1 := 0;
     usGpioLedUsbHost2 := 0;
     usGpioWirelessProtect := 0 |}.

Definition g_bcm96338gws : BOARD_PARAMETERS :=
  {| szBoardId := char_array 16 "96338WS";
     usGPIOOverlay := BP_NOT_DEFINED;
     usGpioRj11InnerPair := BP_NOT_DEFINED;
     usGpioRj11OuterPair := BP_NOT_DEFINED;
     usGpioUartRts := BP_NOT_DEFINED;
     usGpioUartCts := BP_NOT_DEFINED;
     usVcopeResetGpio := BP_NOT_DEFINED;
     usVcopeRelayGpio := BP_NOT_DEFINED;
     usGpioLedAdsl := BP_NOT_DEFINED;
     usGpioLedAdslFail := BP_GPIO_2_AL;
     usGpioSecLedAdsl := BP_NOT_DEFINED;
     usGpioSecLedAdslFail := BP_NOT_DEFINED;
     usGpioLedSesWireless := BP_GPIO_5_AL;
     usGpioLedHpna := BP_NOT_DEFINED;
     usGpioLedWanData := BP_GPIO_3_AL;
     usGpioLedPpp := BP_GPIO_3_AL;
     usGpioLedPppFail := BP_GPIO_4_AH;
     usGpioLedBlPowerOn := BP_GPIO_0_AH;
     usGpioLedBlStop := BP_GPIO_6_AL;
     usGpioBondingSecondaryReset := BP_NOT_DEFINED;
     usExtIntrAdslDyingGasp := BP_HW_DEFINED;
     usExtIntrResetToDefault := BP_EXT_INTR_1;
     usExtIntrSesBtnWireless := BP_EXT_INTR_0;
     usExtIntrHpna := BP_NOT_DEFINED;
     usCsHpna := BP_NOT_DEFINED;
     usCsHpi := BP_NOT_DEFINED;
     usAntInUseWireless := BP_NOT_DEFINED;
     usWirelessFlags := BP_WLAN_MAC_ADDR_OVERRIDE;
     usVcopeBoardRev := BP_NOT_DEFINED;
     EnetMacInfos :=
      [{| ucPhyType := BP_ENET_INTERNAL_PHY;
         ucPhyAddress := 0x01;
         usGpioPhyReset := BP_NOT_DEFINED;
         usGpioPhyLinkSpeed := BP_NOT_DEFINED;
         usConfigType := BP_ENET_CONFIG_MDIO;
         usReverseMii := BP_NOT_DEFINED;
         sw := SW_INFO_DEFAULT 1 |};
       ENET_PHY_ONLY BP_ENET_NO_PHY];
     VoIPDspInfo :=
      [VOIP_TYPE_ONLY BP_VOIP_NO_DSP;
       VOIP_TYPE_ONLY BP_VOIP_NO_DSP];
     slicType := Slic_Not_Defined;
     daaType := DAA_Not_Defined;
     usGpioWirelessPowerDown := BP_NOT_DEFINED;
     usGpioLedUsbHost1 := 0;
     usGpioLedUsbHost2 := 0;
     usGpioWirelessProtect := 0 |}.

Definition g_bcm96338e_e7r : BOARD_PARAMETERS :=
  {| szBoardId := char_array 16 "96338E_E7R";
     usGPIOOverlay := BP_NOT_DEFINED;
     usGpioRj11InnerPair := BP_NOT_DEFINED;
     usGpioRj11OuterPair := BP_NOT_DEFINED;
     usGpioUartRts := BP_NOT_DEFINED;
     usGpioUartCts := BP_NOT_DEFINED;
     usVcopeResetGpio := BP_NOT_DEFINED;
     usVcopeRelayGpio := BP_NOT_DEFINED;
     usGpioLedAdsl := BP_NOT_DEFINED;
     usGpioLedAdslFail := BP_NOT_DEFINED;
     usGpioSecLedAdsl := BP_NOT_DEFINED;
     usGpioSecLedAdslFail := BP_NOT_DEFINED;
     usGpioLedSesWireless := BP_NOT_DEFINED;
     usGpioLedHpna := BP_NOT_DEFINED;
     usGpioLedWanData := BP_GPIO_2_AL;
     usGpioLedPpp := BP_GPIO_1_AL;
     usGpioLedPppFail := BP_NOT_DEFINED;
     usGpioLedBlPowerOn := BP_GPIO_0_AH;
     usGpioLedBlStop := BP_GPIO_6_AL;
     usGpioBondingSecondaryReset := BP_NOT_DEFINED;
     usExtIntrAdslDyingGasp := BP_HW_DEFINED;
     usExtIntrResetToDefault := BP_EXT_INTR_1;
     usExtIntrSesBtnWireless := BP_NOT_DEFINED;
     usExtIntrHpna := BP_NOT_DEFINED;
     usCsHpna := BP_NOT_DEFINED;
     usCsHpi := BP_NOT_DEFINED;
     usAntInUseWireless := BP_NOT_DEFINED;
     usWirelessFlags := 0;
     usVcopeBoardRev := BP_NOT_DEFINED;
     EnetMacInfos :=
      [{| ucPhyType := BP_ENET_EXTERNAL_SWITCH;
         ucPhyAddress := 0x0;
         usGpioPhyReset := BP_NOT_DEFINED;
         usGpioPhyLinkSpeed := BP_NOT_DEFINED;
         usConfigType := BP_ENET_CONFIG_MDIO_PSEUDO_PHY;
         usReverseMii := BP_NOT_DEFINED;
         sw := SW_INFO_DEFAULT 4 |};
       ENET_PHY_ONLY BP_ENET_NO_PHY];
     VoIPDspInfo :=
      [VOIP_TYPE_ONLY BP_VOIP_NO_DSP;
       VOIP_TYPE_ONLY BP_VOIP_NO_DSP];
     slicType := Slic_Not_Defined;
     daaType := DAA_Not_Defined;
     usGpioWirelessPowerDown := BP_NOT_DEFINED;
     usGpioLedUsbHost1 := 0;
     usGpioLedUsbHost2 := 0;
     usGpioWirelessProtect := 0 |}.

Definition g_bcm96338gw2_e7t : BOARD_PARAMETERS :=
  {| szBoardId := char_array 16 "96338W2_E7T";
     usGPIOOverlay := BP_NOT_DEFINED;
     usGpioRj11InnerPair := BP_NOT_DEFINED;
     usGpioRj11OuterPair := BP_NOT_DEFINED;
     usGpioUartRts := BP_NOT_DEFINED;
     usGpioUartCts := BP_NOT_DEFINED;
     usVcopeResetGpio := BP_NOT_DEFINED;
     usVcopeRelayGpio := BP_NOT_DEFINED;
     usGpioLedAdsl := BP_NOT_DEFINED;
     usGpioLedAdslFail := BP_NOT_DEFINED;
     usGpioSecLedAdsl := BP_NOT_DEFINED;
     usGpioSecLedAdslFail := BP_NOT_DEFINED;
     usGpioLedSesWireless := BP_GPIO_5_AL;
     usGpioLedHpna := BP_NOT_DEFINED;
     usGpioLedWanData := BP_GPIO_2_AL;
     usGpioLedPpp := BP_GPIO_1_AL;
     usGpioLedPppFail := BP_GPIO_4_AH;
     usGpioLedBlPowerOn := BP_GPIO_0_AH;
     usGpioLedBlStop := BP_GPIO_6_AL;
     usGpioBondingSecondaryReset := BP_NOT_DEFINED;
     usExtIntrAdslDyingGasp := BP_HW_DEFINED;
     usExtIntrResetToDefault := BP_EXT_INTR_1;
     usExtIntrSesBtnWireless := BP_EXT_INTR_0;
     usExtIntrHpna := BP_NOT_DEFINED;
     usCsHpna := BP_NOT_DEFINED;
     usCsHpi := BP_NOT_DEFINED;
     usAntInUseWireless := BP_NOT_DEFINED;
     usWirelessFlags := BP_WLAN_MAC_ADDR_OVERRIDE;
     usVcopeBoardRev := BP_NOT_DEFINED;
     EnetMacInfos :=
      [{| ucPhyType := BP_ENET_EXTERNAL_SWITCH;
         ucPhyAddress := 0x0;
         usGpioPhyReset := BP_NOT_DEFINED;
         usGpioPhyLinkSpeed := BP_NOT_DEFINED;
         usConfigType := BP_ENET_CONFIG_MDIO_PSEUDO_PHY;
         usReverseMii := BP_NOT_DEFINED;
         sw := SW_INFO_DEFAULT 4 |};
       ENET_PHY_ONLY BP_ENET_NO_PHY];
     VoIPDspInfo :=
      [VOIP_TYPE_ONLY BP_VOIP_NO_DSP;
       VOIP_TYPE_ONLY BP_VOIP_NO_DSP];
     slicType := Slic_Not_Defined;
     daaType := DAA_Not_Defined;
     usGpioWirelessPowerDown := BP_GPIO_6_AH;
     usGpioLedUsbHost1 := 0;
     usGpioLedUsbHost2 := 0;
     usGpioWirelessProtect := 0 |}.

Definition g_bcm96332cg_f4w : BOARD_PARAMETERS :=
  {| szBoardId := char_array 16 "96332CG_F4W";
     usGPIOOverlay := BP_NOT_DEFINED;
     usGpioRj11InnerPair := BP_NOT_DEFINED;
     usGpioRj11OuterPair := BP_NOT_DEFINED;
     usGpioUartRts := BP_NOT_DEFINED;
     usGpioUartCts := BP_NOT_DEFINED;
     usVcopeResetGpio := BP_NOT_DEFINED;
     usVcopeRelayGpio := BP_NOT_DEFINED;
     usGpioLedAdsl := BP_NOT_DEFINED;
     usGpioLedAdslFail := BP_NOT_DEFINED;
     usGpioSecLedAdsl := BP_NOT_DEFINED;
     usGpioSecLedAdslFail := BP_NOT_DEFINED;
     usGpioLedSesWireless := BP_NOT_DEFINED;
     usGpioLedHpna := BP_NOT_DEFINED;
     usGpioLedWanData := BP_GPIO_4_AL;
     usGpioLedPpp := BP_GPIO_3_AL;
     usGpioLedPppFail := BP_NOT_DEFINED;
     usGpioLedBlPowerOn := BP_GPIO_0_AL;
     usGpioLedBlStop := BP_GPIO_6_AL;
     usGpioBondingSecondaryReset := BP_NOT_DEFINED;
     usExtIntrAdslDyingGasp := BP_HW_DEFINED;
     usExtIntrResetToDefault := BP_EXT_INTR_1;
     usExtIntrSesBtnWireless := BP_NOT_DEFINED;
     usExtIntrHpna := BP_NOT_DEFINED;
     usCsHpna := BP_NOT_DEFINED;
     usCsHpi := BP_NOT_DEFINED;
     usAntInUseWireless := BP_NOT_DEFINED;
     usWirelessFlags := 0;
     usVcopeBoardRev := BP_NOT_DEFINED;
     EnetMacInfos :=
      [{| ucPhyType := BP_ENET_INTERNAL_PHY;
         ucPhyAddress := 0x01;
         usGpioPhyReset := BP_NOT_DEFINED;
         usGpioPhyLinkSpeed := BP_NOT_DEFINED;
         usConfigType := BP_ENET_CONFIG_MDIO;
         usReverseMii := BP_NOT_DEFINED;
         sw := SW_INFO_DEFAULT 1 |};
       ENET_PHY_ONLY BP_ENET_NO_PHY];
     VoIPDspInfo :=
      [VOIP_TYPE_ONLY BP_VOIP_NO_DSP;
       VOIP_TYPE_ONLY BP_VOIP_NO_DSP];
     slicType := Slic_Not_Defined;
     daaType := DAA_Not_Defined;
     usGpioWirelessPowerDown := BP_NOT_DEFINED;
     usGpioLedUsbHost1 := 0;
     usGpioLedUsbHost2 := 0;
     usGpioWirelessProtect := 0 |}.

(** [g_BoardParms] of the chip (its terminating null pointer is the end of the list). *)
Definition g_BoardParms_6338 : list BOARD_PARAMETERS :=
  [g_bcm96338sv;
   g_bcm96338l2m8m;
   g_bcm96338l652m8m;
   g_bcm96338gw;
   g_bcm96338gws2;
   g_bcm96338gw20p2;
   g_bcm96338gw2;
   g_bcm96338e;
   g_bcm96338e4;
   g_bcm96338e420p2;
   g_bcm96332cg;
   g_bcm96338gws;
   g_bcm96338e_e7r;
   g_bcm96338gw2_e7t;
   g_bcm96332cg_f4w].
