(* ===== verification/BoardTables6348.v ===== *)
(** * Board parameter tables of the BCM96348 boards

    One definition per static [BOARD_PARAMETERS] of [boardparms.c], in the
    file's order; a member the initialiser leaves out is zero, as in C. *)

From S2P Require Import Prelude BoardDefs.

Definition g_bcm96348r : BOARD_PARAMETERS :=
  {| szBoardId := char_array 16 "96348R";
     usGPIOOverlay := BP_NOT_DEFINED;
     usGpioRj11InnerPair := BP_NOT_DEFINED;
     usGpioRj11OuterPair := BP_NOT_DEFINED;
     usGpioUartRts := BP_NOT_DEFINED;
     usGpioUartCts := BP_NOT_DEFINED;
     usVcopeResetGpio := BP_NOT_DEFINED;
     usVcopeRelayGpio := BP_NOT_DEFINED;
     usGpioLedAdsl := BP_NOT_DEFINED;
     usGpioLedAdslFail := BP_GPIO_2_AL;
     usGpioSecLedAdsl := BP_NOT_DEFINED;
     usGpioSecLedAdslFail := BP_NOT_DEFINED;
     usGpioLedSesWireless := BP_NOT_DEFINED;
     usGpioLedHpna := BP_NOT_DEFINED;
     usGpioLedWanData := BP_GPIO_3_AL;
     usGpioLedPpp := BP_GPIO_3_AL;
     usGpioLedPppFail := BP_GPIO_4_AL;
     usGpioLedBlPowerOn := BP_GPIO_0_AL;
     usGpioLedBlStop := BP_GPIO_1_AL;
     usGpioBondingSecondaryReset := BP_NOT_DEFINED;
     usExtIntrAdslDyingGasp := BP_HW_DEFINED;
     usExtIntrResetToDefault := BP_NOT_DEFINED;
     usExtIntrSesBtnWireless := BP_NOT_DEFINED;
     usExtIntrHpna := BP_NOT_DEFINED;
     usCsHpna := BP_NOT_DEFINED;
     usCsHpi := BP_NOT_DEFINED;
     usAntInUseWireless := BP_NOT_DEFINED;
     usWirelessFlags := 0;
     usVcopeBoardRev := BP_NOT_DEFINED;
     EnetMacInfos :=
      [{| ucPhyType := BP_ENET_INTERNAL_PHY;
         ucPhyAddress := 0x01;
         usGpioPhyReset := BP_NOT_DEFINED;
         usGpioPhyLinkSpeed := BP_NOT_DEFINED;
         usConfigType := BP_ENET_CONFIG_MDIO;
         usReverseMii := BP_NOT_DEFINED;
         sw := SW_INFO_DEFAULT 1 |};
       ENET_PHY_ONLY BP_ENET_NO_PHY];
     VoIPDspInfo :=
      [VOIP_TYPE_ONLY BP_VOIP_NO_DSP;
       VOIP_TYPE_ONLY BP_VOIP_NO_DSP];
     slicType := Slic_Not_Defined;
     daaType := DAA_Not_Defined;
     usGpioWirelessPowerDown := BP_NOT_DEFINED;
     usGpioLedUsbHost1 := 0;
     usGpioLedUsbHost2 := 0;
     usGpioWirelessProtect := 0 |}.

Definition g_bcm96348gw : BOARD_PARAMETERS :=
  {| szBoardId := char_array 16 "96348GW";
     usGPIOOverlay := Z.lor BP_PCI BP_MII2;
     usGpioRj11InnerPair := BP_NOT_DEFINED;
     usGpioRj11OuterPair := BP_NOT_DEFINED;
     usGpioUartRts := BP_NOT_DEFINED;
     usGpioUartCts := BP_NOT_DEFINED;
     usVcopeResetGpio := BP_NOT_DEFINED;
     usVcopeRelayGpio := BP_NOT_DEFINED;
     usGpioLedAdsl := BP_NOT_DEFINED;
     usGpioLedAdslFail := BP_GPIO_2_AL;
     usGpioSecLedAdsl := BP_NOT_DEFINED;
     usGpioSecLedAdslFail := BP_NOT_DEFINED;
     usGpioLedSesWireless := BP_NOT_DEFINED;
     usGpioLedHpna := BP_NOT_DEFINED;
     usGpioLedWanData := BP_GPIO_3_AL;
     usGpioLedPpp := BP_GPIO_3_AL;
     usGpioLedPppFail := BP_GPIO_4_AL;
     usGpioLedBlPowerOn := BP_GPIO_0_AL;
     usGpioLedBlStop := BP_GPIO_1_AL;
     usGpioBondingSecondaryReset := BP_NOT_DEFINED;
     usExtIntrAdslDyingGasp := BP_HW_DEFINED;
     usExtIntrResetToDefault := BP_NOT_DEFINED;
     usExtIntrSesBtnWireless := BP_EXT_INTR_3;
     usExtIntrHpna := BP_NOT_DEFINED;
     usCsHpna := BP_NOT_DEFINED;
     usCsHpi := BP_NOT_DEFINED;
     usAntInUseWireless := BP_WLAN_ANT_MAIN;
     usWirelessFlags := 0;
     usVcopeBoardRev := BP_NOT_DEFINED;
     EnetMacInfos :=
      [{| ucPhyType := BP_ENET_INTERNAL_PHY;
         ucPhyAddress := 0x01;
         usGpioPhyReset := BP_NOT_DEFINED;
         usGpioPhyLinkSpeed := BP_NOT_DEFINED;
         usConfigType := BP_ENET_CONFIG_MDIO;
         usReverseMii := BP_NOT_DEFINED;
         sw := SW_INFO_DEFAULT 1 |};
       {| ucPhyType := BP_ENET_EXTERNAL_SWITCH;
         ucPhyAddress := 0x00;
         usGpioPhyReset := BP_NOT_DEFINED;
         usGpioPhyLinkSpeed := BP_NOT_DEFINED;
         usConfigType := BP_ENET_CONFIG_SPI_SSB_0;
         usReverseMii := BP_ENET_REVERSE_MII;
         sw := SW_INFO_DEFAULT 3 |}];
     VoIPDspInfo :=
      [{| ucDspType := BP_VOIP_DSP;
         ucDspAddress := 0x00;
         usExtIntrVoip := BP_EXT_INTR_2;
         usGpioVoipReset := BP_GPIO_6_AH;
         usGpioVoipIntr := BP_GPIO_34_AH;
         usGpioLedVoip := BP_NOT_DEFINED;
         usCsVoip := BP_CS_2;
         usGpioVoip1Led := 0;
         usGpioVoip1LedFail := 0;
         usGpioSlic0Relay := 0;
         usGpioSlic0Reset := 0;
         usGpioVoip2Led := 0;
         usGpioVoip2LedFail := 0;
         usGpioSlic1Relay := 0;
         usGpioSlic1Reset := 0;
         usGpioPotsLed := 0;
         usGpioPotsReset := 0;
         usGpioDectLed := 0 |};
       VOIP_TYPE_ONLY BP_VOIP_NO_DSP];
     slicType := Slic_Not_Defined;
     daaType := DAA_Not_Defined;
     usGpioWirelessPowerDown := BP_NOT_DEFINED;
     usGpioLedUsbHost1 := 0;
     usGpioLedUsbHost2 := 0;
     usGpioWirelessProtect := 0 |}.

Definition g_bcm96348w2 : BOARD_PARAMETERS :=
  {| szBoardId := char_array 16 "96348W2";
     usGPIOOverlay := Z.lor BP_PCI BP_MII2;
     usGpioRj11InnerPair := BP_NOT_DEFINED;
     usGpioRj11OuterPair := BP_NOT_DEFINED;
     usGpioUartRts := BP_NOT_DEFINED;
     usGpioUartCts := BP_NOT_DEFINED;
     usVcopeResetGpio := BP_NOT_DEFINED;
     usVcopeRelayGpio := BP_NOT_DEFINED;
     usGpioLedAdsl := BP_NOT_DEFINED;
     usGpioLedAdslFail := BP_GPIO_2_AL;
     usGpioSecLedAdsl := BP_NOT_DEFINED;
     usGpioSecLedAdslFail := BP_NOT_DEFINED;
     usGpioLedSesWireless := BP_GPIO_6_AL;
     usGpioLedHpna := BP_NOT_DEFINED;
     usGpioLedWanData := BP_GPIO_3_AL;
     usGpioLedPpp := BP_GPIO_3_AL;
     usGpioLedPppFail := BP_GPIO_4_AL;
     usGpioLedBlPowerOn := BP_GPIO_0_AL;
     usGpioLedBlStop := BP_GPIO_1_AL;
     usGpioBondingSecondaryReset := BP_NOT_DEFINED;
     usExtIntrAdslDyingGasp := BP_HW_DEFINED;
     usExtIntrResetToDefault := BP_EXT_INTR_1;
     usExtIntrSesBtnWireless := BP_EXT_INTR_3;
     usExtIntrHpna := BP_NOT_DEFINED;
     usCsHpna := BP_NOT_DEFINED;
     usCsHpi := BP_NOT_DEFINED;
     usAntInUseWireless := BP_WLAN_ANT_AUX;
     usWirelessFlags := 0;
     usVcopeBoardRev := BP_NOT_DEFINED;
     EnetMacInfos :=
      [{| ucPhyType := BP_ENET_INTERNAL_PHY;
         ucPhyAddress := 0x01;
         usGpioPhyReset := BP_NOT_DEFINED;
         usGpioPhyLinkSpeed := BP_NOT_DEFINED;
         usConfigType := BP_ENET_CONFIG_MDIO;
         usReverseMii := BP_NOT_DEFINED;
         sw := SW_INFO_DEFAULT 1 |};
       {| ucPhyType := BP_ENET_EXTERNAL_SWITCH;
         ucPhyAddress := 0x00;
         usGpioPhyReset := BP_NOT_DEFINED;
         usGpioPhyLinkSpeed := BP_NOT_DEFINED;
         usConfigType := BP_ENET_CONFIG_MDIO_PSEUDO_PHY;
         usReverseMii := BP_NOT_DEFINED;
         sw := SW_INFO_DEFAULT 3 |}];
     VoIPDspInfo :=
      [VOIP_TYPE_ONLY BP_VOIP_NO_DSP;
       VOIP_TYPE_ONLY BP_VOIP_NO_DSP];
     slicType := Slic_Not_Defined;
     daaType := DAA_Not_Defined;
     usGpioWirelessPowerDown := BP_NOT_DEFINED;
     usGpioLedUsbHost1 := 0;
     usGpioLedUsbHost2 := 0;
     usGpioWirelessProtect := 0 |}.

Definition g_bcm96348w3_10 : BOARD_PARAMETERS :=
  {| szBoardId := char_array 16 "96348W3-10";
     usGPIOOverlay := Z.lor BP_PCI BP_MII2;
     usGpioRj11InnerPair := BP_NOT_DEFINED;
     usGpioRj11OuterPair := BP_NOT_DEFINED;
     usGpioUartRts := BP_NOT_DEFINED;
     usGpioUartCts := BP_NOT_DEFINED;
     usVcopeResetGpio := BP_NOT_DEFINED;
     usVcopeRelayGpio := BP_NOT_DEFINED;
     usGpioLedAdsl := BP_GPIO_2_AL;
     usGpioLedAdslFail := BP_NOT_DEFINED;
     usGpioSecLedAdsl := BP_NOT_DEFINED;
     usGpioSecLedAdslFail := BP_NOT_DEFINED;
     usGpioLedSesWireless := BP_GPIO_6_AL;
     usGpioLedHpna := BP_NOT_DEFINED;
     usGpioLedWanData := BP_NOT_DEFINED;
     usGpioLedPpp := BP_NOT_DEFINED;
     usGpioLedPppFail := BP_GPIO_4_AH;
     usGpioLedBlPowerOn := BP_GPIO_0_AH;
     usGpioLedBlStop := BP_GPIO_1_AH;
     usGpioBondingSecondaryReset := BP_NOT_DEFINED;
     usExtIntrAdslDyingGasp := BP_HW_DEFINED;
     usExtIntrResetToDefault := BP_EXT_INTR_1;
     usExtIntrSesBtnWireless := BP_EXT_INTR_3;
     usExtIntrHpna := BP_NOT_DEFINED;
     usCsHpna := BP_NOT_DEFINED;
     usCsHpi := BP_NOT_DEFINED;
     usAntInUseWireless := BP_WLAN_ANT_AUX;
     usWirelessFlags := 0;
     usVcopeBoardRev := BP_NOT_DEFINED;
     EnetMacInfos :=
      [{| ucPhyType := BP_ENET_INTERNAL_PHY;
         ucPhyAddress := 0x01;
         usGpioPhyReset := BP_NOT_DEFINED;
         usGpioPhyLinkSpeed := BP_NOT_DEFINED;
         usConfigType := BP_ENET_CONFIG_MDIO;
         usReverseMii := BP_NOT_DEFINED;
         sw := SW_INFO_DEFAULT 1 |};
       {| ucPhyType := BP_ENET_EXTERNAL_SWITCH;
         ucPhyAddress := 0x00;
         usGpioPhyReset := BP_NOT_DEFINED;
         usGpioPhyLinkSpeed := BP_NOT_DEFINED;
         usConfigType := BP_ENET_CONFIG_MDIO_PSEUDO_PHY;
         usReverseMii := BP_NOT_DEFINED;
         sw := SW_INFO_DEFAULT 3 |}];
     VoIPDspInfo :=
      [VOIP_TYPE_ONLY BP_VOIP_NO_DSP;
       VOIP_TYPE_ONLY BP_VOIP_NO_DSP];
     slicType := Slic_Not_Defined;
     daaType := DAA_Not_Defined;
     usGpioWirelessPowerDown := BP_NOT_DEFINED;
     usGpioLedUsbHost1 := 0;
     usGpioLedUsbHost2 := 0;
     usGpioWirelessProtect := 0 |}.

Definition g_bcm96348gw_10 : BOARD_PARAMETERS :=
  {| szBoardId := char_array 16 "96348GW-10";
     usGPIOOverlay := Z.lor (Z.lor BP_PCI BP_SPI_EXT_CS) BP_MII2;
     usGpioRj11InnerPair := BP_NOT_DEFINED;
     usGpioRj11OuterPair := BP_NOT_DEFINED;
     usGpioUartRts := BP_NOT_DEFINED;
     usGpioUartCts := BP_NOT_DEFINED;
     usVcopeResetGpio := BP_NOT_DEFINED;
     usVcopeRelayGpio := BP_NOT_DEFINED;
     usGpioLedAdsl := BP_NOT_DEFINED;
     usGpioLedAdslFail := BP_GPIO_2_AL;
     usGpioSecLedAdsl := BP_NOT_DEFINED;
     usGpioSecLedAdslFail := BP_NOT_DEFINED;
     usGpioLedSesWireless := BP_NOT_DEFINED;
     usGpioLedHpna := BP_NOT_DEFINED;
     usGpioLedWanData := BP_GPIO_3_AL;
     usGpioLedPpp := BP_GPIO_3_AL;
     usGpioLedPppFail := BP_GPIO_4_AL;
     usGpioLedBlPowerOn := BP_GPIO_0_AL;
     usGpioLedBlStop := BP_GPIO_1_AL;
     usGpioBondingSecondaryReset := BP_NOT_DEFINED;
     usExtIntrAdslDyingGasp := BP_HW_DEFINED;
     usExtIntrResetToDefault := BP_NOT_DEFINED;
     usExtIntrSesBtnWireless := BP_NOT_DEFINED;
     usExtIntrHpna := BP_NOT_DEFINED;
     usCsHpna := BP_NOT_DEFINED;
     usCsHpi := BP_NOT_DEFINED;
     usAntInUseWireless := BP_WLAN_ANT_MAIN;
     usWirelessFlags := 0;
     usVcopeBoardRev := BP_NOT_DEFINED;
     EnetMacInfos :=
      [{| ucPhyType := BP_ENET_INTERNAL_PHY;
         ucPhyAddress := 0x01;
         usGpioPhyReset := BP_NOT_DEFINED;
         usGpioPhyLinkSpeed := BP_NOT_DEFINED;
         usConfigType := BP_ENET_CONFIG_MDIO;
         usReverseMii := BP_NOT_DEFINED;
         sw := SW_INFO_DEFAULT 1 |};
       {| ucPhyType := BP_ENET_EXTERNAL_SWITCH;
         ucPhyAddress := 0x00;
         usGpioPhyReset := BP_NOT_DEFINED;
         usGpioPhyLinkSpeed := BP_NOT_DEFINED;
         usConfigType := BP_ENET_CONFIG_SPI_SSB_1;
         usReverseMii := BP_ENET_REVERSE_MII;
         sw := SW_INFO_DEFAULT 3 |}];
     VoIPDspInfo :=
      [{| ucDspType := BP_VOIP_DSP;
         ucDspAddress := 0x00;
         usExtIntrVoip := BP_EXT_INTR_2;
         usGpioVoipReset := BP_GPIO_6_AH;
         usGpioVoipIntr := BP_GPIO_34_AH;
         usGpioLedVoip := BP_NOT_DEFINED;
         usCsVoip := BP_CS_2;
         usGpioVoip1Led := 0;
         usGpioVoip1LedFail := 0;
         usGpioSlic0Relay := 0;
         usGpioSlic0Reset := 0;
         usGpioVoip2Led := 0;
         usGpioVoip2LedFail := 0;
         usGpioSlic1Relay := 0;
         usGpioSlic1Reset := 0;
         usGpioPotsLed := 0;
         usGpioPotsReset := 0;
         usGpioDectLed := 0 |};
       VOIP_TYPE_ONLY BP_VOIP_NO_DSP];
     slicType := Slic_Not_Defined;
     daaType := DAA_Not_Defined;
     usGpioWirelessPowerDown := BP_NOT_DEFINED;
     usGpioLedUsbHost1 := 0;
     usGpioLedUsbHost2 := 0;
     usGpioWirelessProtect := 0 |}.

Definition g_bcm96348gw_11 : BOARD_PARAMETERS :=
  {| szBoardId := char_array 16 "96348GW-11";
     usGPIOOverlay := Z.lor (Z.lor BP_PCI BP_SPI_EXT_CS) BP_MII2;
     usGpioRj11InnerPair := BP_NOT_DEFINED;
     usGpioRj11OuterPair := BP_NOT_DEFINED;
     usGpioUartRts := BP_NOT_DEFINED;
     usGpioUartCts := BP_NOT_DEFINED;
     usVcopeResetGpio := BP_NOT_DEFINED;
     usVcopeRelayGpio := BP_NOT_DEFINED;
     usGpioLedAdsl := BP_NOT_DEFINED;
     usGpioLedAdslFail := BP_GPIO_2_AL;
     usGpioSecLedAdsl := BP_NOT_DEFINED;
     usGpioSecLedAdslFail := BP_NOT_DEFINED;
     usGpioLedSesWireless := BP_NOT_DEFINED;
     usGpioLedHpna := BP_NOT_DEFINED;
     usGpioLedWanData := BP_GPIO_3_AL;
     usGpioLedPpp := BP_GPIO_3_AL;
     usGpioLedPppFail := BP_GPIO_4_AL;
     usGpioLedBlPowerOn := BP_GPIO_0_AL;
     usGpioLedBlStop := BP_GPIO_1_AL;
     usGpioBondingSecondaryReset := BP_NOT_DEFINED;
     usExtIntrAdslDyingGasp := BP_HW_DEFINED;
     usExtIntrResetToDefault := BP_NOT_DEFINED;
     usExtIntrSesBtnWireless := BP_NOT_DEFINED;
     usExtIntrHpna := BP_NOT_DEFINED;
     usCsHpna := BP_NOT_DEFINED;
     usCsHpi := BP_NOT_DEFINED;
     usAntInUseWireless := BP_WLAN_ANT_MAIN;
     usWirelessFlags := 0;
     usVcopeBoardRev := BP_NOT_DEFINED;
     EnetMacInfos :=
      [ENET_PHY_ONLY BP_ENET_NO_PHY;
       {| ucPhyType := BP_ENET_EXTERNAL_SWITCH;
         ucPhyAddress := 0x00;
         usGpioPhyReset := BP_NOT_DEFINED;
         usGpioPhyLinkSpeed := BP_NOT_DEFINED;
         usConfigType := BP_ENET_CONFIG_SPI_SSB_1;
         usReverseMii := BP_ENET_REVERSE_MII;
         sw := SW_INFO_DEFAULT 4 |}];
     VoIPDspInfo :=
      [VOIP_TYPE_ONLY BP_VOIP_NO_DSP;
       VOIP_TYPE_ONLY BP_VOIP_NO_DSP];
     slicType := Slic_Not_Defined;
     daaType := DAA_Not_Defined;
     usGpioWirelessPowerDown := BP_NOT_DEFINED;
     usGpioLedUsbHost1 := 0;
     usGpioLedUsbHost2 := 0;
     usGpioWirelessProtect := 0 |}.

Definition g_bcm96348sv : BOARD_PARAMETERS :=
  {| szBoardId := char_array 16 "96348SV";
     usGPIOOverlay := Z.lor (Z.lor BP_PCI BP_CB) BP_MII2;
     usGpioRj11InnerPair := BP_NOT_DEFINED;
     usGpioRj11OuterPair := BP_NOT_DEFINED;
     usGpioUartRts := BP_NOT_DEFINED;
     usGpioUartCts := BP_NOT_DEFINED;
     usVcopeResetGpio := BP_NOT_DEFINED;
     usVcopeRelayGpio := BP_NOT_DEFINED;
     usGpioLedAdsl := BP_NOT_DEFINED;
     usGpioLedAdslFail := BP_NOT_DEFINED;
     usGpioSecLedAdsl := BP_NOT_DEFINED;
     usGpioSecLedAdslFail := BP_NOT_DEFINED;
     usGpioLedSesWireless := BP_NOT_DEFINED;
     usGpioLedHpna := BP_NOT_DEFINED;
     usGpioLedWanData := BP_NOT_DEFINED;
     usGpioLedPpp := BP_NOT_DEFINED;
     usGpioLedPppFail := BP_NOT_DEFINED;
     usGpioLedBlPowerOn := BP_NOT_DEFINED;
     usGpioLedBlStop := BP_NOT_DEFINED;
     usGpioBondingSecondaryReset := BP_NOT_DEFINED;
     usExtIntrAdslDyingGasp := BP_HW_DEFINED;
     usExtIntrResetToDefault := BP_NOT_DEFINED;
     usExtIntrSesBtnWireless := BP_NOT_DEFINED;
     usExtIntrHpna := BP_NOT_DEFINED;
     usCsHpna := BP_NOT_DEFINED;
     usCsHpi := BP_NOT_DEFINED;
     usAntInUseWireless := BP_NOT_DEFINED;
     usWirelessFlags := 0;
     usVcopeBoardRev := BP_NOT_DEFINED;
     EnetMacInfos :=
      [{| ucPhyType := BP_ENET_INTERNAL_PHY;
         ucPhyAddress := 0x01;
         usGpioPhyReset := BP_NOT_DEFINED;
         usGpioPhyLinkSpeed := BP_NOT_DEFINED;
         usConfigType := BP_ENET_CONFIG_MDIO;
         usReverseMii := BP_NOT_DEFINED;
         sw := SW_INFO_DEFAULT 1 |};
       {| ucPhyType := BP_ENET_EXTERNAL_PHY;
         ucPhyAddress := 0x1f;
         usGpioPhyReset := BP_NOT_DEFINED;
         usGpioPhyLinkSpeed := BP_NOT_DEFINED;
         usConfigType := BP_ENET_CONFIG_MDIO;
         usReverseMii := BP_NOT_DEFINED;
         sw := SW_INFO_DEFAULT 1 |}];
     VoIPDspInfo :=
      [VOIP_TYPE_ONLY BP_VOIP_NO_DSP;
       VOIP_TYPE_ONLY BP_VOIP_NO_DSP];
     slicType := Slic_Not_Defined;
     daaType := DAA_Not_Defined;
     usGpioWirelessPowerDown := BP_NOT_DEFINED;
     usGpioLedUsbHost1 := 0;
     usGpioLedUsbHost2 := 0;
     usGpioWirelessProtect := 0 |}.

Definition g_bcmCustom_01 : BOARD_PARAMETERS :=
  {| szBoardId := char_array 16 "BCMCUST_01";
     usGPIOOverlay := Z.lor (Z.lor BP_PCI BP_SPI_EXT_CS) BP_MII2;
     usGpioRj11InnerPair := BP_NOT_DEFINED;
     usGpioRj11OuterPair := BP_NOT_DEFINED;
     usGpioUartRts := BP_NOT_DEFINED;
     usGpioUartCts := BP_NOT_DEFINED;
     usVcopeResetGpio := BP_NOT_DEFINED;
     usVcopeRelayGpio := BP_NOT_DEFINED;
     usGpioLedAdsl := BP_NOT_DEFINED;
     usGpioLedAdslFail := BP_GPIO_2_AL;
     usGpioSecLedAdsl := BP_NOT_DEFINED;
     usGpioSecLedAdslFail := BP_NOT_DEFINED;
     usGpioLedSesWireless := BP_NOT_DEFINED;
     usGpioLedHpna := BP_NOT_DEFINED;
     usGpioLedWanData := BP_GPIO_3_AL;
     usGpioLedPpp := BP_GPIO_3_AL;
     usGpioLedPppFail := BP_GPIO_4_AL;
     usGpioLedBlPowerOn := BP_GPIO_0_AL;
     usGpioLedBlStop := BP_GPIO_1_AL;
     usGpioBondingSecondaryReset := BP_NOT_DEFINED;
     usExtIntrAdslDyingGasp := BP_NOT_DEFINED;
     usExtIntrResetToDefault := BP_NOT_DEFINED;
     usExtIntrSesBtnWireless := BP_NOT_DEFINED;
     usExtIntrHpna := BP_NOT_DEFINED;
     usCsHpna := BP_NOT_DEFINED;
     usCsHpi := BP_NOT_DEFINED;
     usAntInUseWireless := BP_NOT_DEFINED;
     usWirelessFlags := 0;
     usVcopeBoardRev := BP_NOT_DEFINED;
     EnetMacInfos :=
      [{| ucPhyType := BP_ENET_INTERNAL_PHY;
         ucPhyAddress := 0x01;
         usGpioPhyReset := BP_NOT_DEFINED;
         usGpioPhyLinkSpeed := BP_NOT_DEFINED;
         usConfigType := BP_ENET_CONFIG_MDIO;
         usReverseMii := BP_NOT_DEFINED;
         sw := SW_INFO_DEFAULT 1 |};
       {| ucPhyType := BP_ENET_NO_PHY;
         ucPhyAddress := 0x00;
         usGpioPhyReset := BP_NOT_DEFINED;
         usGpioPhyLinkSpeed := BP_NOT_DEFINED;
         usConfigType := BP_ENET_CONFIG_SPI_SSB_1;
         usReverseMii := BP_ENET_REVERSE_MII;
         sw := SW_INFO_DEFAULT 1 |}];
     VoIPDspInfo :=
      [{| ucDspType := BP_VOIP_DSP;
         ucDspAddress := 0x00;
         usExtIntrVoip := BP_EXT_INTR_2;
         usGpioVoipReset := BP_GPIO_36_AH;
         usGpioVoipIntr := BP_GPIO_34_AL;
         usGpioLedVoip := BP_NOT_DEFINED;
         usCsVoip := BP_CS_2;
         usGpioVoip1Led := 0;
         usGpioVoip1LedFail := 0;
         usGpioSlic0Relay := 0;
         usGpioSlic0Reset := 0;
         usGpioVoip2Led := 0;
         usGpioVoip2LedFail := 0;
         usGpioSlic1Relay := 0;
         usGpioSlic1Reset := 0;
         usGpioPotsLed := 0;
         usGpioPotsReset := 0;
         usGpioDectLed := 0 |};
       VOIP_TYPE_ONLY BP_VOIP_NO_DSP];
     slicType := Slic_Not_Defined;
     daaType := DAA_Not_Defined;
     usGpioWirelessPowerDown := BP_NOT_DEFINED;
     usGpioLedUsbHost1 := 0;
     usGpioLedUsbHost2 := 0;
     usGpioWirelessProtect := 0 |}.

Definition g_bcm96348m : BOARD_PARAMETERS :=
  {| szBoardId := char_array 16 "96348M";
     usGPIOOverlay := BP_UTOPIA;
     usGpioRj11InnerPair := BP_NOT_DEFINED;
     usGpioRj11OuterPair := BP_NOT_DEFINED;
     usGpioUartRts := BP_NOT_DEFINED;
     usGpioUartCts := BP_NOT_DEFINED;
     usVcopeResetGpio := BP_GPIO_22_AL;
     usVcopeRelayGpio := BP_GPIO_21_AH;
     usGpioLedAdsl := BP_NOT_DEFINED;
     usGpioLedAdslFail := BP_NOT_DEFINED;
     usGpioSecLedAdsl := BP_NOT_DEFINED;
     usGpioSecLedAdslFail := BP_NOT_DEFINED;
     usGpioLedSesWireless := BP_NOT_DEFINED;
     usGpioLedHpna := BP_NOT_DEFINED;
     usGpioLedWanData := BP_GPIO_19_AL;
     usGpioLedPpp := BP_GPIO_19_AL;
     usGpioLedPppFail := BP_GPIO_20_AL;
     usGpioLedBlPowerOn := BP_GPIO_16_AL;
     usGpioLedBlStop := BP_GPIO_17_AL;
     usGpioBondingSecondaryReset := BP_NOT_DEFINED;
     usExtIntrAdslDyingGasp := BP_HW_DEFINED;
     usExtIntrResetToDefault := BP_EXT_INTR_1;
     usExtIntrSesBtnWireless := BP_NOT_DEFINED;
     usExtIntrHpna := BP_NOT_DEFINED;
     usCsHpna := BP_NOT_DEFINED;
     usCsHpi := BP_CS_1;
     usAntInUseWireless := BP_NOT_DEFINED;
     usWirelessFlags := 0;
     usVcopeBoardRev := 3;
     EnetMacInfos :=
      [{| ucPhyType := BP_ENET_INTERNAL_PHY;
         ucPhyAddress := 0x01;
         usGpioPhyReset := BP_NOT_DEFINED;
         usGpioPhyLinkSpeed := BP_NOT_DEFINED;
         usConfigType := BP_ENET_CONFIG_MDIO;
         usReverseMii := BP_NOT_DEFINED;
         sw := SW_INFO_DEFAULT 1 |};
       ENET_PHY_ONLY BP_ENET_NO_PHY];
     VoIPDspInfo :=
      [VOIP_TYPE_ONLY BP_VOIP_NO_DSP;
       VOIP_TYPE_ONLY BP_VOIP_NO_DSP];
     slicType := Slic_Not_Defined;
     daaType := DAA_Not_Defined;
     usGpioWirelessPowerDown := BP_NOT_DEFINED;
     usGpioLedUsbHost1 := 0;
     usGpioLedUsbHost2 := 0;
     usGpioWirelessProtect := 0 |}.

(** [g_BoardParms] of the chip (its terminating null pointer is the end of the list). *)
Definition g_BoardParms_6348 : list BOARD_PARAMETERS :=
  [g_bcm96348sv;
   g_bcm96348r;
   g_bcm96348gw;
   g_bcm96348gw_10;
   g_bcm96348gw_11;
   g_bcm96348w2;
   g_bcm96348w3_10;
   g_bcmCustom_01;
   g_bcm96348m].
