(* ===== verification/BoardTables6358.v ===== *)
(** * Board parameter tables of the BCM96358 boards

    One definition per static [BOARD_PARAMETERS] of [boardparms.c], in the
    file's order; a member the initialiser leaves out is zero, as in C. *)

From S2P Require Import Prelude BoardDefs.

Definition g_bcm96358vw2 : BOARD_PARAMETERS :=
  {| szBoardId := char_array 16 "96358VW2";
     usGPIOOverlay := Z.lor (Z.lor BP_PCI BP_SPI_EXT_CS) BP_LED;
     usGpioRj11InnerPair := BP_NOT_DEFINED;
     usGpioRj11OuterPair := BP_NOT_DEFINED;
     usGpioUartRts := BP_NOT_DEFINED;
     usGpioUartCts := BP_NOT_DEFINED;
     usVcopeResetGpio := BP_NOT_DEFINED;
     usVcopeRelayGpio := BP_NOT_DEFINED;
     usGpioLedAdsl := BP_GPIO_22_AL;
     usGpioLedAdslFail := BP_NOT_DEFINED;
     usGpioSecLedAdsl := BP_NOT_DEFINED;
     usGpioSecLedAdslFail := BP_NOT_DEFINED;
     usGpioLedSesWireless := BP_GPIO_27_AL;
     usGpioLedHpna := BP_NOT_DEFINED;
     usGpioLedWanData := BP_NOT_DEFINED;
     usGpioLedPpp := BP_NOT_DEFINED;
     usGpioLedPppFail := BP_GPIO_23_AH;
     usGpioLedBlPowerOn := BP_GPIO_5_AL;
     usGpioLedBlStop := BP_GPIO_4_AL;
     usGpioBondingSecondaryReset := BP_NOT_DEFINED;
     usExtIntrAdslDyingGasp := BP_HW_DEFINED;
     usExtIntrResetToDefault := BP_EXT_INTR_2;
     usExtIntrSesBtnWireless := BP_GPIO_37_AL;
     usExtIntrHpna := BP_NOT_DEFINED;
     usCsHpna := BP_NOT_DEFINED;
     usCsHpi := BP_NOT_DEFINED;
     usAntInUseWireless := BP_WLAN_ANT_MAIN;
     usWirelessFlags := 0;
     usVcopeBoardRev := BP_NOT_DEFINED;
     EnetMacInfos :=
      [{| ucPhyType := BP_ENET_INTERNAL_PHY;
         ucPhyAddress := 0x01;
         usGpioPhyReset := BP_NOT_DEFINED;
         usGpioPhyLinkSpeed := BP_GPIO_0_AL;
         usConfigType := BP_ENET_CONFIG_MDIO;
         usReverseMii := BP_NOT_DEFINED;
         sw := SW_INFO_DEFAULT 1 |};
       {| ucPhyType := BP_ENET_EXTERNAL_SWITCH;
         ucPhyAddress := 0x0;
         usGpioPhyReset := BP_NOT_DEFINED;
         usGpioPhyLinkSpeed := BP_NOT_DEFINED;
         usConfigType := BP_ENET_CONFIG_MDIO_PSEUDO_PHY;
         usReverseMii := BP_NOT_DEFINED;
         sw := SW_INFO_DEFAULT 3 |}];
     VoIPDspInfo :=
      [{| ucDspType := BP_VOIP_MIPS;
         ucDspAddress := u8 (-1);
         usExtIntrVoip := BP_NOT_DEFINED;
         usGpioVoipReset := BP_NOT_DEFINED;
         usGpioVoipIntr := BP_NOT_DEFINED;
         usGpioLedVoip := BP_NOT_DEFINED;
         usCsVoip := BP_NOT_DEFINED;
         usGpioVoip1Led := BP_GPIO_7_AL;
         usGpioVoip1LedFail := BP_NOT_DEFINED;
         usGpioSlic0Relay := BP_GPIO_10_AH;
         usGpioSlic0Reset := BP_GPIO_12_AH;
         usGpioVoip2Led := BP_GPIO_24_AL;
         usGpioVoip2LedFail := BP_NOT_DEFINED;
         usGpioSlic1Relay := BP_GPIO_11_AH;
         usGpioSlic1Reset := BP_GPIO_12_AH;
         usGpioPotsLed := BP_GPIO_6_AL;
         usGpioPotsReset := BP_GPIO_13_AH;
         usGpioDectLed := BP_NOT_DEFINED |};
       VOIP_TYPE_ONLY BP_VOIP_NO_DSP];
     slicType := Legerity_88221;
     daaType := Legerity_88010;
     usGpioWirelessPowerDown := BP_NOT_DEFINED;
     usGpioLedUsbHost1 := BP_GPIO_30_AL;
     usGpioLedUsbHost2 := BP_GPIO_31_AL;
     usGpioWirelessProtect := BP_GPIO_29_AH |}.

Definition g_bcm96358vw : BOARD_PARAMETERS :=
  {| szBoardId := char_array 16 "96358VW";
     usGPIOOverlay := Z.lor (Z.lor BP_PCI BP_SPI_EXT_CS) BP_LED;
     usGpioRj11InnerPair := BP_NOT_DEFINED;
     usGpioRj11OuterPair := BP_NOT_DEFINED;
     usGpioUartRts := BP_NOT_DEFINED;
     usGpioUartCts := BP_NOT_DEFINED;
     usVcopeResetGpio := BP_NOT_DEFINED;
     usVcopeRelayGpio := BP_NOT_DEFINED;
     usGpioLedAdsl := BP_NOT_DEFINED;
     usGpioLedAdslFail := BP_GPIO_15_AL;
     usGpioSecLedAdsl := BP_NOT_DEFINED;
     usGpioSecLedAdslFail := BP_NOT_DEFINED;
     usGpioLedSesWireless := BP_SERIAL_GPIO_7_AL;
     usGpioLedHpna := BP_NOT_DEFINED;
     usGpioLedWanData := BP_GPIO_22_AL;
     usGpioLedPpp := BP_GPIO_22_AL;
     usGpioLedPppFail := BP_GPIO_23_AL;
     usGpioLedBlPowerOn := BP_GPIO_4_AL;
     usGpioLedBlStop := BP_GPIO_5_AL;
     usGpioBondingSecondaryReset := BP_NOT_DEFINED;
     usExtIntrAdslDyingGasp := BP_HW_DEFINED;
     usExtIntrResetToDefault := BP_EXT_INTR_0;
     usExtIntrSesBtnWireless := BP_EXT_INTR_3;
     usExtIntrHpna := BP_NOT_DEFINED;
     usCsHpna := BP_NOT_DEFINED;
     usCsHpi := BP_NOT_DEFINED;
     usAntInUseWireless := BP_WLAN_ANT_MAIN;
     usWirelessFlags := 0;
     usVcopeBoardRev := BP_NOT_DEFINED;
     EnetMacInfos :=
      [{| ucPhyType := BP_ENET_INTERNAL_PHY;
         ucPhyAddress := 0x01;
         usGpioPhyReset := BP_NOT_DEFINED;
         usGpioPhyLinkSpeed := BP_NOT_DEFINED;
         usConfigType := BP_ENET_CONFIG_MDIO;
         usReverseMii := BP_NOT_DEFINED;
         sw := SW_INFO_DEFAULT 1 |};
       {| ucPhyType := BP_ENET_EXTERNAL_SWITCH;
         ucPhyAddress := 0x0;
         usGpioPhyReset := BP_NOT_DEFINED;
         usGpioPhyLinkSpeed := BP_NOT_DEFINED;
         usConfigType := BP_ENET_CONFIG_MDIO_PSEUDO_PHY;
         usReverseMii := BP_NOT_DEFINED;
         sw := SW_INFO_DEFAULT 3 |}];
     VoIPDspInfo :=
      [{| ucDspType := BP_VOIP_MIPS;
         ucDspAddress := u8 (-1);
         usExtIntrVoip := BP_NOT_DEFINED;
         usGpioVoipReset := BP_NOT_DEFINED;
         usGpioVoipIntr := BP_NOT_DEFINED;
         usGpioLedVoip := BP_NOT_DEFINED;
         usCsVoip := BP_NOT_DEFINED;
         usGpioVoip1Led := BP_SERIAL_GPIO_0_AL;
         usGpioVoip1LedFail := BP_NOT_DEFINED;
         usGpioSlic0Relay := BP_GPIO_10_AH;
         usGpioSlic0Reset := BP_GPIO_12_AH;
         usGpioVoip2Led := BP_SERIAL_GPIO_2_AL;
         usGpioVoip2LedFail := BP_NOT_DEFINED;
         usGpioSlic1Relay := BP_GPIO_11_AH;
         usGpioSlic1Reset := BP_GPIO_24_AH;
         usGpioPotsLed := BP_SERIAL_GPIO_4_AL;
         usGpioPotsReset := BP_GPIO_13_AH;
         usGpioDectLed := BP_NOT_DEFINED |};
       VOIP_TYPE_ONLY BP_VOIP_NO_DSP];
     slicType := Silicon_Labs_3215;
     daaType := Silicon_Labs_3050;
     usGpioWirelessPowerDown := BP_NOT_DEFINED;
     usGpioLedUsbHost1 := 0;
     usGpioLedUsbHost2 := 0;
     usGpioWirelessProtect := 0 |}.

Definition g_bcm96358sv : BOARD_PARAMETERS :=
  {| szBoardId := char_array 16 "96358SV";
     usGPIOOverlay := Z.lor (Z.lor (Z.lor (Z.lor BP_PCI BP_CB) BP_SPI_EXT_CS) BP_UART1) BP_LED;
     usGpioRj11InnerPair := BP_NOT_DEFINED;
     usGpioRj11OuterPair := BP_NOT_DEFINED;
     usGpioUartRts := BP_NOT_DEFINED;
     usGpioUartCts := BP_NOT_DEFINED;
     usVcopeResetGpio := BP_NOT_DEFINED;
     usVcopeRelayGpio := BP_NOT_DEFINED;
     usGpioLedAdsl := BP_NOT_DEFINED;
     usGpioLedAdslFail := BP_GPIO_15_AL;
     usGpioSecLedAdsl := BP_NOT_DEFINED;
     usGpioSecLedAdslFail := BP_NOT_DEFINED;
     usGpioLedSesWireless := BP_SERIAL_GPIO_7_AL;
     usGpioLedHpna := BP_NOT_DEFINED;
     usGpioLedWanData := BP_NOT_DEFINED;
     usGpioLedPpp := BP_NOT_DEFINED;
     usGpioLedPppFail := BP_NOT_DEFINED;
     usGpioLedBlPowerOn := BP_NOT_DEFINED;
     usGpioLedBlStop := BP_NOT_DEFINED;
     usGpioBondingSecondaryReset := BP_NOT_DEFINED;
     usExtIntrAdslDyingGasp := BP_HW_DEFINED;
     usExtIntrResetToDefault := BP_NOT_DEFINED;
     usExtIntrSesBtnWireless := BP_EXT_INTR_3;
     usExtIntrHpna := BP_NOT_DEFINED;
     usCsHpna := BP_NOT_DEFINED;
     usCsHpi := BP_NOT_DEFINED;
     usAntInUseWireless := BP_WLAN_ANT_MAIN;
     usWirelessFlags := 0;
     usVcopeBoardRev := BP_NOT_DEFINED;
     EnetMacInfos :=
      [{| ucPhyType := BP_ENET_INTERNAL_PHY;
         ucPhyAddress := 0x01;
         usGpioPhyReset := BP_NOT_DEFINED;
         usGpioPhyLinkSpeed := BP_NOT_DEFINED;
         usConfigType := BP_ENET_CONFIG_MDIO;
         usReverseMii := BP_NOT_DEFINED;
         sw := SW_INFO_DEFAULT 1 |};
       {| ucPhyType := BP_ENET_EXTERNAL_SWITCH;
         ucPhyAddress := 0x0;
         usGpioPhyReset := BP_NOT_DEFINED;
         usGpioPhyLinkSpeed := BP_NOT_DEFINED;
         usConfigType := BP_ENET_CONFIG_MDIO_PSEUDO_PHY;
         usReverseMii := BP_NOT_DEFINED;
         sw := SW_INFO_DEFAULT 3 |}];
     VoIPDspInfo :=
      [VOIP_TYPE_ONLY BP_VOIP_NO_DSP;
       VOIP_TYPE_ONLY BP_VOIP_NO_DSP];
     slicType := Slic_Not_Defined;
     daaType := DAA_Not_Defined;
     usGpioWirelessPowerDown := BP_NOT_DEFINED;
     usGpioLedUsbHost1 := 0;
     usGpioLedUsbHost2 := 0;
     usGpioWirelessProtect := 0 |}.

Definition g_bcm96358gwvg : BOARD_PARAMETERS :=
  {| szBoardId := char_array 16 "96358GWVG";
     usGPIOOverlay := Z.lor (Z.lor (Z.lor BP_PCI BP_CB) BP_SPI_EXT_CS) BP_LED;
     usGpioRj11InnerPair := BP_NOT_DEFINED;
     usGpioRj11OuterPair := BP_NOT_DEFINED;
     usGpioUartRts := BP_NOT_DEFINED;
     usGpioUartCts := BP_NOT_DEFINED;
     usVcopeResetGpio := BP_NOT_DEFINED;
     usVcopeRelayGpio := BP_NOT_DEFINED;
     usGpioLedAdsl := BP_GPIO_11_AL;
     usGpioLedAdslFail := BP_NOT_DEFINED;
     usGpioSecLedAdsl := BP_NOT_DEFINED;
     usGpioSecLedAdslFail := BP_NOT_DEFINED;
     usGpioLedSesWireless := BP_GPIO_6_AL;
     usGpioLedHpna := BP_NOT_DEFINED;
     usGpioLedWanData := BP_NOT_DEFINED;
     usGpioLedPpp := BP_NOT_DEFINED;
     usGpioLedPppFail := BP_GPIO_8_AH;
     usGpioLedBlPowerOn := BP_GPIO_4_AH;
     usGpioLedBlStop := BP_GPIO_5_AH;
     usGpioBondingSecondaryReset := BP_NOT_DEFINED;
     usExtIntrAdslDyingGasp := BP_HW_DEFINED;
     usExtIntrResetToDefault := BP_NOT_DEFINED;
     usExtIntrSesBtnWireless := BP_EXT_INTR_3;
     usExtIntrHpna := BP_NOT_DEFINED;
     usCsHpna := BP_NOT_DEFINED;
     usCsHpi := BP_NOT_DEFINED;
     usAntInUseWireless := BP_WLAN_ANT_MAIN;
     usWirelessFlags := BP_NOT_DEFINED;
     usVcopeBoardRev := BP_NOT_DEFINED;
     EnetMacInfos :=
      [{| ucPhyType := BP_ENET_INTERNAL_PHY;
         ucPhyAddress := 0x01;
         usGpioPhyReset := BP_NOT_DEFINED;
         usGpioPhyLinkSpeed := BP_NOT_DEFINED;
         usConfigType := BP_ENET_CONFIG_MDIO;
         usReverseMii := BP_NOT_DEFINED;
         sw := SW_INFO_DEFAULT 1 |};
       {| ucPhyType := BP_ENET_EXTERNAL_SWITCH;
         ucPhyAddress := 0x0;
         usGpioPhyReset := BP_NOT_DEFINED;
         usGpioPhyLinkSpeed := BP_NOT_DEFINED;
         usConfigType := BP_ENET_CONFIG_MDIO_PSEUDO_PHY;
         usReverseMii := BP_NOT_DEFINED;
         sw := SW_INFO_DEFAULT 3 |}];
     VoIPDspInfo :=
      [{| ucDspType := BP_VOIP_MIPS;
         ucDspAddress := u8 (-1);
         usExtIntrVoip := BP_NOT_DEFINED;
         usGpioVoipReset := BP_NOT_DEFINED;
         usGpioVoipIntr := BP_NOT_DEFINED;
         usGpioLedVoip := BP_NOT_DEFINED;
         usCsVoip := BP_NOT_DEFINED;
         usGpioVoip1Led := BP_GPIO_7_AL;
         usGpioVoip1LedFail := BP_NOT_DEFINED;
         usGpioSlic0Relay := BP_NOT_DEFINED;
         usGpioSlic0Reset := BP_GPIO_12_AL;
         usGpioVoip2Led := BP_NOT_DEFINED;
         usGpioVoip2LedFail := BP_NOT_DEFINED;
         usGpioSlic1Relay := BP_NOT_DEFINED;
         usGpioSlic1Reset := BP_NOT_DEFINED;
         usGpioPotsLed := BP_NOT_DEFINED;
         usGpioPotsReset := BP_NOT_DEFINED;
         usGpioDectLed := BP_NOT_DEFINED |};
       VOIP_TYPE_ONLY BP_VOIP_NO_DSP];
     slicType := Legerity_88221;
     daaType := Legerity_88010;
     usGpioWirelessPowerDown := BP_NOT_DEFINED;
     usGpioLedUsbHost1 := 0;
     usGpioLedUsbHost2 := 0;
     usGpioWirelessProtect := 0 |}.

Definition g_bcm96358mv2g : BOARD_PARAMETERS :=
  {| szBoardId := char_array 16 "96358MV2G";
     usGPIOOverlay := Z.lor (Z.lor (Z.lor BP_PCI BP_UTOPIA) BP_SPI_EXT_CS) BP_LED;
     usGpioRj11InnerPair := BP_NOT_DEFINED;
     usGpioRj11OuterPair := BP_NOT_DEFINED;
     usGpioUartRts := BP_NOT_DEFINED;
     usGpioUartCts := BP_NOT_DEFINED;
     usVcopeResetGpio := BP_GPIO_9_AL;
     usVcopeRelayGpio := BP_GPIO_10_AH;
     usGpioLedAdsl := BP_SERIAL_GPIO_3_AL;
     usGpioLedAdslFail := BP_NOT_DEFINED;
     usGpioSecLedAdsl := BP_NOT_DEFINED;
     usGpioSecLedAdslFail := BP_NOT_DEFINED;
     usGpioLedSesWireless := BP_NOT_DEFINED;
     usGpioLedHpna := BP_NOT_DEFINED;
     usGpioLedWanData := BP_NOT_DEFINED;
     usGpioLedPpp := BP_NOT_DEFINED;
     usGpioLedPppFail := BP_SERIAL_GPIO_2_AH;
     usGpioLedBlPowerOn := BP_SERIAL_GPIO_0_AH;
     usGpioLedBlStop := BP_SERIAL_GPIO_1_AH;
     usGpioBondingSecondaryReset := BP_NOT_DEFINED;
     usExtIntrAdslDyingGasp := BP_HW_DEFINED;
     usExtIntrResetToDefault := BP_EXT_INTR_2;
     usExtIntrSesBtnWireless := BP_EXT_INTR_3;
     usExtIntrHpna := BP_NOT_DEFINED;
     usCsHpna := BP_NOT_DEFINED;
     usCsHpi := BP_CS_1;
     usAntInUseWireless := BP_WLAN_ANT_MAIN;
     usWirelessFlags := BP_NOT_DEFINED;
     usVcopeBoardRev := 3;
     EnetMacInfos :=
      [{| ucPhyType := BP_ENET_INTERNAL_PHY;
         ucPhyAddress := 0x01;
         usGpioPhyReset := BP_NOT_DEFINED;
         usGpioPhyLinkSpeed := BP_GPIO_8_AL;
         usConfigType := BP_ENET_CONFIG_MDIO;
         usReverseMii := BP_NOT_DEFINED;
         sw := SW_INFO_DEFAULT 1 |};
       {| ucPhyType := BP_ENET_EXTERNAL_SWITCH;
         ucPhyAddress := 0x0;
         usGpioPhyReset := BP_NOT_DEFINED;
         usGpioPhyLinkSpeed := BP_NOT_DEFINED;
         usConfigType := BP_ENET_CONFIG_MDIO_PSEUDO_PHY;
         usReverseMii := BP_NOT_DEFINED;
         sw := SW_INFO_DEFAULT 3 |}];
     VoIPDspInfo :=
      [{| ucDspType := BP_VOIP_MIPS;
         ucDspAddress := u8 (-1);
         usExtIntrVoip := BP_NOT_DEFINED;
         usGpioVoipReset := BP_NOT_DEFINED;
         usGpioVoipIntr := BP_NOT_DEFINED;
         usGpioLedVoip := BP_NOT_DEFINED;
         usCsVoip := BP_NOT_DEFINED;
         usGpioVoip1Led := BP_SERIAL_GPIO_5_AL;
         usGpioVoip1LedFail := BP_NOT_DEFINED;
         usGpioSlic0Relay := BP_GPIO_4_AL;
         usGpioSlic0Reset := BP_GPIO_35_AL;
         usGpioVoip2Led := BP_SERIAL_GPIO_6_AL;
         usGpioVoip2LedFail := BP_NOT_DEFINED;
         usGpioSlic1Relay := BP_GPIO_5_AL;
         usGpioSlic1Reset := BP_GPIO_35_AL;
         usGpioPotsLed := BP_NOT_DEFINED;
         usGpioPotsReset := BP_NOT_DEFINED;
         usGpioDectLed := BP_NOT_DEFINED |};
       VOIP_TYPE_ONLY BP_VOIP_NO_DSP];
     slicType := Legerity_88221;
     daaType := Legerity_88010;
     usGpioWirelessPowerDown := BP_NOT_DEFINED;
     usGpioLedUsbHost1 := 0;
     usGpioLedUsbHost2 := 0;
     usGpioWirelessProtect := 0 |}.

Definition g_bcm96358m : BOARD_PARAMETERS :=
  {| szBoardId := char_array 16 "96358M";
     usGPIOOverlay := Z.lor (Z.lor BP_PCI BP_UTOPIA) BP_LED;
     usGpioRj11InnerPair := BP_NOT_DEFINED;
     usGpioRj11OuterPair := BP_NOT_DEFINED;
     usGpioUartRts := BP_NOT_DEFINED;
     usGpioUartCts := BP_NOT_DEFINED;
     usVcopeResetGpio := BP_GPIO_9_AL;
     usVcopeRelayGpio := BP_GPIO_10_AH;
     usGpioLedAdsl := BP_SERIAL_GPIO_3_AL;
     usGpioLedAdslFail := BP_NOT_DEFINED;
     usGpioSecLedAdsl := BP_NOT_DEFINED;
     usGpioSecLedAdslFail := BP_NOT_DEFINED;
     usGpioLedSesWireless := BP_GPIO_11_AL;
     usGpioLedHpna := BP_NOT_DEFINED;
     usGpioLedWanData := BP_NOT_DEFINED;
     usGpioLedPpp := BP_NOT_DEFINED;
     usGpioLedPppFail := BP_SERIAL_GPIO_2_AH;
     usGpioLedBlPowerOn := BP_SERIAL_GPIO_0_AH;
     usGpioLedBlStop := BP_SERIAL_GPIO_1_AH;
     usGpioBondingSecondaryReset := BP_NOT_DEFINED;
     usExtIntrAdslDyingGasp := BP_HW_DEFINED;
     usExtIntrResetToDefault := BP_NOT_DEFINED;
     usExtIntrSesBtnWireless := BP_EXT_INTR_3;
     usExtIntrHpna := BP_NOT_DEFINED;
     usCsHpna := BP_NOT_DEFINED;
     usCsHpi := BP_CS_1;
     usAntInUseWireless := BP_WLAN_ANT_MAIN;
     usWirelessFlags := BP_NOT_DEFINED;
     usVcopeBoardRev := 3;
     EnetMacInfos :=
      [{| ucPhyType := BP_ENET_INTERNAL_PHY;
         ucPhyAddress := 0x01;
         usGpioPhyReset := BP_NOT_DEFINED;
         usGpioPhyLinkSpeed := BP_NOT_DEFINED;
         usConfigType := BP_ENET_CONFIG_MDIO;
         usReverseMii := BP_NOT_DEFINED;
         sw := SW_INFO_DEFAULT 1 |};
       {| ucPhyType := BP_ENET_EXTERNAL_SWITCH;
         ucPhyAddress := 0x0;
         usGpioPhyReset := BP_NOT_DEFINED;
         usGpioPhyLinkSpeed := BP_NOT_DEFINED;
         usConfigType := BP_ENET_CONFIG_MDIO_PSEUDO_PHY;
         usReverseMii := BP_NOT_DEFINED;
         sw := SW_INFO_DEFAULT 3 |}];
     VoIPDspInfo :=
      [VOIP_TYPE_ONLY BP_VOIP_NO_DSP;
       VOIP_TYPE_ONLY BP_VOIP_NO_DSP];
     slicType := Slic_Not_Defined;
     daaType := DAA_Not_Defined;
     usGpioWirelessPowerDown := BP_NOT_DEFINED;
     usGpioLedUsbHost1 := BP_SERIAL_GPIO_5_AH;
     usGpioLedUsbHost2 := BP_SERIAL_GPIO_6_AH;
     usGpioWirelessProtect := 0 |}.

Definition g_bcm96358b : BOARD_PARAMETERS :=
  {| szBoardId := char_array 16 "96358B";
     usGPIOOverlay := Z.lor BP_PCI BP_LED;
     usGpioRj11InnerPair := BP_NOT_DEFINED;
     usGpioRj11OuterPair := BP_NOT_DEFINED;
     usGpioUartRts := BP_NOT_DEFINED;
     usGpioUartCts := BP_NOT_DEFINED;
     usVcopeResetGpio := BP_NOT_DEFINED;
     usVcopeRelayGpio := BP_NOT_DEFINED;
     usGpioLedAdsl := BP_SERIAL_GPIO_2_AL;
     usGpioLedAdslFail := BP_NOT_DEFINED;
     usGpioSecLedAdsl := BP_SERIAL_GPIO_3_AL;
     usGpioSecLedAdslFail := BP_NOT_DEFINED;
     usGpioLedSesWireless := BP_SERIAL_GPIO_4_AL;
     usGpioLedHpna := BP_NOT_DEFINED;
     usGpioLedWanData := BP_NOT_DEFINED;
     usGpioLedPpp := BP_NOT_DEFINED;
     usGpioLedPppFail := BP_SERIAL_GPIO_6_AH;
     usGpioLedBlPowerOn := BP_SERIAL_GPIO_0_AH;
     usGpioLedBlStop := BP_SERIAL_GPIO_1_AH;
     usGpioBondingSecondaryReset := BP_GPIO_5_AH;
     usExtIntrAdslDyingGasp := BP_HW_DEFINED;
     usExtIntrResetToDefault := BP_EXT_INTR_5;
     usExtIntrSesBtnWireless := BP_EXT_INTR_4;
     usExtIntrHpna := BP_NOT_DEFINED;
     usCsHpna := BP_NOT_DEFINED;
     usCsHpi := BP_NOT_DEFINED;
     usAntInUseWireless := BP_WLAN_ANT_MAIN;
     usWirelessFlags := 0;
     usVcopeBoardRev := BP_NOT_DEFINED;
     EnetMacInfos :=
      [{| ucPhyType := BP_ENET_INTERNAL_PHY;
         ucPhyAddress := 0x01;
         usGpioPhyReset := BP_NOT_DEFINED;
         usGpioPhyLinkSpeed := BP_SERIAL_GPIO_5_AL;
         usConfigType := BP_ENET_CONFIG_MDIO;
         usReverseMii := BP_NOT_DEFINED;
         sw := SW_INFO_DEFAULT 1 |};
       {| ucPhyType := BP_ENET_EXTERNAL_SWITCH;
         ucPhyAddress := 0x0;
         usGpioPhyReset := BP_NOT_DEFINED;
         usGpioPhyLinkSpeed := BP_NOT_DEFINED;
         usConfigType := BP_ENET_CONFIG_MDIO_PSEUDO_PHY;
         usReverseMii := BP_NOT_DEFINED;
         sw := SW_INFO_DEFAULT 3 |}];
     VoIPDspInfo :=
      [VOIP_TYPE_ONLY BP_VOIP_NO_DSP;
       VOIP_TYPE_ONLY BP_VOIP_NO_DSP];
     slicType := Slic_Not_Defined;
     daaType := DAA_Not_Defined;
     usGpioWirelessPowerDown := BP_NOT_DEFINED;
     usGpioLedUsbHost1 := 0;
     usGpioLedUsbHost2 := 0;
     usGpioWirelessProtect := 0 |}.

Definition g_bcm96358bgweOem1 : BOARD_PARAMETERS :=
  {| szBoardId := char_array 16 "96358BGWE_OEM1";
     usGPIOOverlay := Z.lor BP_PCI BP_LED;
     usGpioRj11InnerPair := BP_NOT_DEFINED;
     usGpioRj11OuterPair := BP_NOT_DEFINED;
     usGpioUartRts := BP_NOT_DEFINED;
     usGpioUartCts := BP_NOT_DEFINED;
     usVcopeResetGpio := BP_NOT_DEFINED;
     usVcopeRelayGpio := BP_NOT_DEFINED;
     usGpioLedAdsl := BP_SERIAL_GPIO_2_AL;
     usGpioLedAdslFail := BP_SERIAL_GPIO_1_AL;
     usGpioSecLedAdsl := BP_NOT_DEFINED;
     usGpioSecLedAdslFail := BP_NOT_DEFINED;
     usGpioLedSesWireless := BP_SERIAL_GPIO_7_AL;
     usGpioLedHpna := BP_NOT_DEFINED;
     usGpioLedWanData := BP_NOT_DEFINED;
     usGpioLedPpp := BP_NOT_DEFINED;
     usGpioLedPppFail := BP_NOT_DEFINED;
     usGpioLedBlPowerOn := BP_NOT_DEFINED;
     usGpioLedBlStop := BP_NOT_DEFINED;
     usGpioBondingSecondaryReset := BP_GPIO_5_AH;
     usExtIntrAdslDyingGasp := BP_HW_DEFINED;
     usExtIntrResetToDefault := BP_GPIO_33_AL;
     usExtIntrSesBtnWireless := BP_EXT_INTR_3;
     usExtIntrHpna := BP_NOT_DEFINED;
     usCsHpna := BP_NOT_DEFINED;
     usCsHpi := BP_NOT_DEFINED;
     usAntInUseWireless := BP_WLAN_ANT_MAIN;
     usWirelessFlags := 0;
     usVcopeBoardRev := BP_NOT_DEFINED;
     EnetMacInfos :=
      [{| ucPhyType := BP_ENET_INTERNAL_PHY;
         ucPhyAddress := 0x01;
         usGpioPhyReset := BP_NOT_DEFINED;
         usGpioPhyLinkSpeed := BP_NOT_DEFINED;
         usConfigType := BP_ENET_CONFIG_MDIO;
         usReverseMii := BP_NOT_DEFINED;
         sw := SW_INFO_DEFAULT 1 |};
       {| ucPhyType := BP_ENET_EXTERNAL_SWITCH;
         ucPhyAddress := 0x0;
         usGpioPhyReset := BP_NOT_DEFINED;
         usGpioPhyLinkSpeed := BP_NOT_DEFINED;
         usConfigType := BP_ENET_CONFIG_MDIO_PSEUDO_PHY;
         usReverseMii := BP_NOT_DEFINED;
         sw := SW_INFO_DEFAULT 4 |}];
     VoIPDspInfo :=
      [VOIP_TYPE_ONLY BP_VOIP_NO_DSP;
       VOIP_TYPE_ONLY BP_VOIP_NO_DSP];
     slicType := Slic_Not_Defined;
     daaType := DAA_Not_Defined;
     usGpioWirelessPowerDown := BP_NOT_DEFINED;
     usGpioLedUsbHost1 := 0;
     usGpioLedUsbHost2 := 0;
     usGpioWirelessProtect := 0 |}.

Definition g_bcm96359pong : BOARD_PARAMETERS :=
  {| szBoardId := char_array 16 "96359PONG";
     usGPIOOverlay := Z.lor BP_PCI BP_SPI_EXT_CS;
     usGpioRj11InnerPair := BP_NOT_DEFINED;
     usGpioRj11OuterPair := BP_NOT_DEFINED;
     usGpioUartRts := BP_NOT_DEFINED;
     usGpioUartCts := BP_NOT_DEFINED;
     usVcopeResetGpio := BP_NOT_DEFINED;
     usVcopeRelayGpio := BP_NOT_DEFINED;
     usGpioLedAdsl := BP_NOT_DEFINED;
     usGpioLedAdslFail := BP_NOT_DEFINED;
     usGpioSecLedAdsl := BP_NOT_DEFINED;
     usGpioSecLedAdslFail := BP_NOT_DEFINED;
     usGpioLedSesWireless := BP_NOT_DEFINED;
     usGpioLedHpna := BP_NOT_DEFINED;
     usGpioLedWanData := BP_GPIO_2_AH;
     usGpioLedPpp := BP_GPIO_2_AH;
     usGpioLedPppFail := BP_GPIO_8_AH;
     usGpioLedBlPowerOn := BP_GPIO_4_AH;
     usGpioLedBlStop := BP_GPIO_26_AH;
     usGpioBondingSecondaryReset := BP_NOT_DEFINED;
     usExtIntrAdslDyingGasp := BP_NOT_DEFINED;
     usExtIntrResetToDefault := BP_EXT_INTR_2;
     usExtIntrSesBtnWireless := BP_EXT_INTR_3;
     usExtIntrHpna := BP_NOT_DEFINED;
     usCsHpna := BP_NOT_DEFINED;
     usCsHpi := BP_NOT_DEFINED;
     usAntInUseWireless := BP_WLAN_ANT_MAIN;
     usWirelessFlags := BP_NOT_DEFINED;
     usVcopeBoardRev := BP_NOT_DEFINED;
     EnetMacInfos :=
      [{| ucPhyType := BP_ENET_INTERNAL_PHY;
         ucPhyAddress := 0x01;
         usGpioPhyReset := BP_NOT_DEFINED;
         usGpioPhyLinkSpeed := BP_NOT_DEFINED;
         usConfigType := BP_ENET_CONFIG_MDIO;
         usReverseMii := BP_NOT_DEFINED;
         sw := SW_INFO_DEFAULT 1 |};
       {| ucPhyType := BP_ENET_EXTERNAL_SWITCH;
         ucPhyAddress := 0x0;
         usGpioPhyReset := BP_NOT_DEFINED;
         usGpioPhyLinkSpeed := BP_NOT_DEFINED;
         usConfigType := BP_ENET_CONFIG_MDIO_PSEUDO_PHY;
         usReverseMii := BP_NOT_DEFINED;
         sw := SW_INFO_DEFAULT 5 |}];
     VoIPDspInfo :=
      [{| ucDspType := BP_VOIP_MIPS;
         ucDspAddress := u8 (-1);
         usExtIntrVoip := BP_NOT_DEFINED;
         usGpioVoipReset := BP_NOT_DEFINED;
         usGpioVoipIntr := BP_NOT_DEFINED;
         usGpioLedVoip := BP_NOT_DEFINED;
         usCsVoip := BP_NOT_DEFINED;
         usGpioVoip1Led := BP_SERIAL_GPIO_1_AH;
         usGpioVoip1LedFail := BP_SERIAL_GPIO_2_AH;
         usGpioSlic0Relay := BP_NOT_DEFINED;
         usGpioSlic0Reset := BP_GPIO_12_AL;
         usGpioVoip2Led := BP_SERIAL_GPIO_3_AH;
         usGpioVoip2LedFail := BP_SERIAL_GPIO_4_AH;
         usGpioSlic1Relay := BP_NOT_DEFINED;
         usGpioSlic1Reset := BP_NOT_DEFINED;
         usGpioPotsLed := BP_NOT_DEFINED;
         usGpioPotsReset := BP_NOT_DEFINED;
         usGpioDectLed := BP_SERIAL_GPIO_5_AH |};
       VOIP_TYPE_ONLY BP_VOIP_NO_DSP];
     slicType := Legerity_88221;
     daaType := DAA_Not_Defined;
     usGpioWirelessPowerDown := BP_NOT_DEFINED;
     usGpioLedUsbHost1 := 0;
     usGpioLedUsbHost2 := 0;
     usGpioWirelessProtect := 0 |}.

Definition g_bcm96358ivwg : BOARD_PARAMETERS :=
  {| szBoardId := char_array 16 "96358IVWG";
     usGPIOOverlay := Z.lor (Z.lor BP_PCI BP_SPI_EXT_CS) BP_LED;
     usGpioRj11InnerPair := BP_NOT_DEFINED;
     usGpioRj11OuterPair := BP_NOT_DEFINED;
     usGpioUartRts := BP_NOT_DEFINED;
     usGpioUartCts := BP_NOT_DEFINED;
     usVcopeResetGpio := BP_NOT_DEFINED;
     usVcopeRelayGpio := BP_NOT_DEFINED;
     usGpioLedAdsl := BP_GPIO_22_AL;
     usGpioLedAdslFail := BP_NOT_DEFINED;
     usGpioSecLedAdsl := BP_NOT_DEFINED;
     usGpioSecLedAdslFail := BP_NOT_DEFINED;
     usGpioLedSesWireless := BP_SERIAL_GPIO_7_AL;
     usGpioLedHpna := BP_NOT_DEFINED;
     usGpioLedWanData := BP_NOT_DEFINED;
     usGpioLedPpp := BP_NOT_DEFINED;
     usGpioLedPppFail := BP_GPIO_23_AH;
     usGpioLedBlPowerOn := BP_GPIO_4_AH;
     usGpioLedBlStop := BP_GPIO_5_AH;
     usGpioBondingSecondaryReset := BP_NOT_DEFINED;
     usExtIntrAdslDyingGasp := BP_HW_DEFINED;
     usExtIntrResetToDefault := BP_EXT_INTR_2;
     usExtIntrSesBtnWireless := BP_EXT_INTR_3;
     usExtIntrHpna := BP_NOT_DEFINED;
     usCsHpna := BP_NOT_DEFINED;
     usCsHpi := BP_NOT_DEFINED;
     usAntInUseWireless := BP_WLAN_ANT_MAIN;
     usWirelessFlags := 0;
     usVcopeBoardRev := BP_NOT_DEFINED;
     EnetMacInfos :=
      [{| ucPhyType := BP_ENET_INTERNAL_PHY;
         ucPhyAddress := 0x01;
         usGpioPhyReset := BP_NOT_DEFINED;
         usGpioPhyLinkSpeed := BP_GPIO_28_AL;
         usConfigType := BP_ENET_CONFIG_MDIO;
         usReverseMii := BP_NOT_DEFINED;
         sw := SW_INFO_DEFAULT 1 |};
       {| ucPhyType := BP_ENET_EXTERNAL_SWITCH;
         ucPhyAddress := 0x0;
         usGpioPhyReset := BP_NOT_DEFINED;
         usGpioPhyLinkSpeed := BP_NOT_DEFINED;
         usConfigType := BP_ENET_CONFIG_MDIO_PSEUDO_PHY;
         usReverseMii := BP_NOT_DEFINED;
         sw := SW_INFO_DEFAULT 3 |}];
     VoIPDspInfo :=
      [{| ucDspType := BP_VOIP_MIPS;
         ucDspAddress := u8 (-1);
         usExtIntrVoip := BP_NOT_DEFINED;
         usGpioVoipReset := BP_NOT_DEFINED;
         usGpioVoipIntr := BP_NOT_DEFINED;
         usGpioLedVoip := BP_NOT_DEFINED;
         usCsVoip := BP_NOT_DEFINED;
         usGpioVoip1Led := BP_SERIAL_GPIO_0_AL;
         usGpioVoip1LedFail := BP_NOT_DEFINED;
         usGpioSlic0Relay := BP_GPIO_10_AH;
         usGpioSlic0Reset := BP_GPIO_12_AH;
         usGpioVoip2Led := BP_SERIAL_GPIO_2_AL;
         usGpioVoip2LedFail := BP_NOT_DEFINED;
         usGpioSlic1Relay := BP_GPIO_11_AH;
         usGpioSlic1Reset := BP_GPIO_12_AH;
         usGpioPotsLed := BP_SERIAL_GPIO_4_AL;
         usGpioPotsReset := BP_GPIO_13_AH;
         usGpioDectLed := BP_NOT_DEFINED |};
       VOIP_TYPE_ONLY BP_VOIP_NO_DSP];
     slicType := Legerity_88221;
     daaType := Legerity_88010;
     usGpioWirelessPowerDown := BP_NOT_DEFINED;
     usGpioLedUsbHost1 := 0;
     usGpioLedUsbHost2 := 0;
     usGpioWirelessProtect := 0 |}.

(** [g_BoardParms] of the chip (its terminating null pointer is the end of the list). *)
Definition g_BoardParms_6358 : list BOARD_PARAMETERS :=
  [g_bcm96358vw2;
   g_bcm96358vw;
   g_bcm96358gwvg;
   g_bcm96358mv2g;
   g_bcm96358m;
   g_bcm96358b;
   g_bcm96358bgweOem1;
   g_bcm96359pong;
   g_bcm96358ivwg;
   g_bcm96358sv].
