(* ===== verification/BoardTables6368.v ===== *)
(** * Board parameter tables of the BCM96368 boards

    One definition per static [BOARD_PARAMETERS] of [boardparms.c], in the
    file's order; a member the initialiser leaves out is zero, as in C. *)

From S2P Require Import Prelude BoardDefs.

Definition g_bcm96368vvw : BOARD_PARAMETERS :=
  {| szBoardId := char_array 16 "96368VVW";
     usGPIOOverlay := Z.lor (Z.lor BP_PCI BP_SPI_EXT_CS) BP_LED;
     usGpioRj11InnerPair := BP_NOT_DEFINED;
     usGpioRj11OuterPair := BP_NOT_DEFINED;
     usGpioUartRts := BP_NOT_DEFINED;
     usGpioUartCts := BP_NOT_DEFINED;
     usVcopeResetGpio := BP_NOT_DEFINED;
     usVcopeRelayGpio := BP_NOT_DEFINED;
     usGpioLedAdsl := BP_GPIO_2_AL;
     usGpioLedAdslFail := BP_NOT_DEFINED;
     usGpioSecLedAdsl := BP_NOT_DEFINED;
     usGpioSecLedAdslFail := BP_NOT_DEFINED;
     usGpioLedSesWireless := BP_NOT_DEFINED;
     usGpioLedHpna := BP_NOT_DEFINED;
     usGpioLedWanData := BP_NOT_DEFINED;
     usGpioLedPpp := BP_NOT_DEFINED;
     usGpioLedPppFail := BP_GPIO_33_AH;
     usGpioLedBlPowerOn := BP_GPIO_0_AH;
     usGpioLedBlStop := BP_GPIO_1_AH;
     usGpioBondingSecondaryReset := BP_NOT_DEFINED;
     usExtIntrAdslDyingGasp := BP_HW_DEFINED;
     usExtIntrResetToDefault := BP_NOT_DEFINED;
     usExtIntrSesBtnWireless := BP_NOT_DEFINED;
     usExtIntrHpna := BP_NOT_DEFINED;
     usCsHpna := BP_NOT_DEFINED;
     usCsHpi := BP_NOT_DEFINED;
     usAntInUseWireless := BP_WLAN_ANT_MAIN;
     usWirelessFlags := BP_NOT_DEFINED;
     usVcopeBoardRev := BP_NOT_DEFINED;
     EnetMacInfos :=
      [{| ucPhyType := BP_ENET_EXTERNAL_SWITCH;
         ucPhyAddress := 0x0;
         usGpioPhyReset := BP_NOT_DEFINED;
         usGpioPhyLinkSpeed := BP_NOT_DEFINED;
         usConfigType := BP_ENET_CONFIG_MMAP;
         usReverseMii := BP_NOT_DEFINED;
         sw := {| port_map := 0x0f; phy_id := [0x01; 0x02; 0x03; 0x04; 0x00; 0x00; 0x00; 0x00] |} |};
       ENET_PHY_ONLY BP_ENET_NO_PHY];
     VoIPDspInfo :=
      [{| ucDspType := BP_VOIP_MIPS;
         ucDspAddress := u8 (-1);
         usExtIntrVoip := BP_NOT_DEFINED;
         usGpioVoipReset := BP_NOT_DEFINED;
         usGpioVoipIntr := BP_NOT_DEFINED;
         usGpioLedVoip := BP_NOT_DEFINED;
         usCsVoip := BP_NOT_DEFINED;
         usGpioVoip1Led := BP_GPIO_25_AL;
         usGpioVoip1LedFail := BP_NOT_DEFINED;
         usGpioSlic0Relay := BP_GPIO_3_AH;
         usGpioSlic0Reset := BP_GPIO_15_AH;
         usGpioVoip2Led := BP_GPIO_26_AL;
         usGpioVoip2LedFail := BP_NOT_DEFINED;
         usGpioSlic1Relay := BP_GPIO_4_AH;
         usGpioSlic1Reset := BP_GPIO_15_AH;
         usGpioPotsLed := BP_GPIO_27_AL;
         usGpioPotsReset := BP_GPIO_22_AH;
         usGpioDectLed := BP_NOT_DEFINED |};
       VOIP_TYPE_ONLY BP_VOIP_NO_DSP];
     slicType := Legerity_88221;
     daaType := Legerity_88010;
     usGpioWirelessPowerDown := BP_NOT_DEFINED;
     usGpioLedUsbHost1 := 0;
     usGpioLedUsbHost2 := 0;
     usGpioWirelessProtect := 0 |}.

Definition g_bcm96368sv2 : BOARD_PARAMETERS :=
  {| szBoardId := char_array 16 "96368SV2";
     usGPIOOverlay := Z.lor (Z.lor BP_PCI BP_SPI_EXT_CS) BP_LED;
     usGpioRj11InnerPair := BP_NOT_DEFINED;
     usGpioRj11OuterPair := BP_NOT_DEFINED;
     usGpioUartRts := BP_NOT_DEFINED;
     usGpioUartCts := BP_NOT_DEFINED;
     usVcopeResetGpio := BP_NOT_DEFINED;
     usVcopeRelayGpio := BP_NOT_DEFINED;
     usGpioLedAdsl := BP_GPIO_2_AL;
     usGpioLedAdslFail := BP_NOT_DEFINED;
     usGpioSecLedAdsl := BP_NOT_DEFINED;
     usGpioSecLedAdslFail := BP_NOT_DEFINED;
     usGpioLedSesWireless := BP_NOT_DEFINED;
     usGpioLedHpna := BP_NOT_DEFINED;
     usGpioLedWanData := BP_NOT_DEFINED;
     usGpioLedPpp := BP_NOT_DEFINED;
     usGpioLedPppFail := BP_GPIO_33_AH;
     usGpioLedBlPowerOn := BP_GPIO_0_AH;
     usGpioLedBlStop := BP_GPIO_1_AH;
     usGpioBondingSecondaryReset := BP_NOT_DEFINED;
     usExtIntrAdslDyingGasp := BP_HW_DEFINED;
     usExtIntrResetToDefault := BP_NOT_DEFINED;
     usExtIntrSesBtnWireless := BP_NOT_DEFINED;
     usExtIntrHpna := BP_NOT_DEFINED;
     usCsHpna := BP_NOT_DEFINED;
     usCsHpi := BP_NOT_DEFINED;
     usAntInUseWireless := BP_WLAN_ANT_MAIN;
     usWirelessFlags := BP_NOT_DEFINED;
     usVcopeBoardRev := BP_NOT_DEFINED;
     EnetMacInfos :=
      [{| ucPhyType := BP_ENET_EXTERNAL_SWITCH;
         ucPhyAddress := 0x0;
         usGpioPhyReset := BP_NOT_DEFINED;
         usGpioPhyLinkSpeed := BP_NOT_DEFINED;
         usConfigType := BP_ENET_CONFIG_MMAP;
         usReverseMii := BP_NOT_DEFINED;
         sw := {| port_map := 0x3f; phy_id := [0x01; 0x02; 0x03; 0x04; 0x12; 0x11; 0x00; 0x00] |} |};
       ENET_PHY_ONLY BP_ENET_NO_PHY];
     VoIPDspInfo :=
      [{| ucDspType := BP_VOIP_MIPS;
         ucDspAddress := u8 (-1);
         usExtIntrVoip := BP_NOT_DEFINED;
         usGpioVoipReset := BP_NOT_DEFINED;
         usGpioVoipIntr := BP_NOT_DEFINED;
         usGpioLedVoip := BP_NOT_DEFINED;
         usCsVoip := BP_NOT_DEFINED;
         usGpioVoip1Led := BP_GPIO_25_AL;
         usGpioVoip1LedFail := BP_NOT_DEFINED;
         usGpioSlic0Relay := BP_GPIO_3_AH;
         usGpioSlic0Reset := BP_GPIO_15_AH;
         usGpioVoip2Led := BP_GPIO_26_AL;
         usGpioVoip2LedFail := BP_NOT_DEFINED;
         usGpioSlic1Relay := BP_GPIO_4_AH;
         usGpioSlic1Reset := BP_GPIO_15_AH;
         usGpioPotsLed := BP_GPIO_27_AL;
         usGpioPotsReset := BP_GPIO_22_AH;
         usGpioDectLed := BP_NOT_DEFINED |};
       VOIP_TYPE_ONLY BP_VOIP_NO_DSP];
     slicType := Legerity_88221;
     daaType := Legerity_88010;
     usGpioWirelessPowerDown := 0;
     usGpioLedUsbHost1 := 0;
     usGpioLedUsbHost2 := 0;
     usGpioWirelessProtect := 0 |}.

Definition g_bcm96369pvg : BOARD_PARAMETERS :=
  {| szBoardId := char_array 16 "96369PVG";
     usGPIOOverlay := Z.lor (Z.lor BP_PCI BP_SPI_EXT_CS) BP_LED;
     usGpioRj11InnerPair := BP_NOT_DEFINED;
     usGpioRj11OuterPair := BP_NOT_DEFINED;
     usGpioUartRts := BP_NOT_DEFINED;
     usGpioUartCts := BP_NOT_DEFINED;
     usVcopeResetGpio := BP_NOT_DEFINED;
     usVcopeRelayGpio := BP_NOT_DEFINED;
     usGpioLedAdsl := BP_GPIO_2_AL;
     usGpioLedAdslFail := BP_NOT_DEFINED;
     usGpioSecLedAdsl := BP_NOT_DEFINED;
     usGpioSecLedAdslFail := BP_NOT_DEFINED;
     usGpioLedSesWireless := BP_NOT_DEFINED;
     usGpioLedHpna := BP_NOT_DEFINED;
     usGpioLedWanData := BP_NOT_DEFINED;
     usGpioLedPpp := BP_NOT_DEFINED;
     usGpioLedPppFail := BP_GPIO_33_AH;
     usGpioLedBlPowerOn := BP_GPIO_0_AH;
     usGpioLedBlStop := BP_GPIO_1_AH;
     usGpioBondingSecondaryReset := BP_NOT_DEFINED;
     usExtIntrAdslDyingGasp := BP_HW_DEFINED;
     usExtIntrResetToDefault := BP_NOT_DEFINED;
     usExtIntrSesBtnWireless := BP_NOT_DEFINED;
     usExtIntrHpna := BP_NOT_DEFINED;
     usCsHpna := BP_NOT_DEFINED;
     usCsHpi := BP_NOT_DEFINED;
     usAntInUseWireless := BP_WLAN_ANT_MAIN;
     usWirelessFlags := BP_NOT_DEFINED;
     usVcopeBoardRev := BP_NOT_DEFINED;
     EnetMacInfos :=
      [{| ucPhyType := BP_ENET_EXTERNAL_SWITCH;
         ucPhyAddress := 0x0;
         usGpioPhyReset := BP_NOT_DEFINED;
         usGpioPhyLinkSpeed := BP_NOT_DEFINED;
         usConfigType := BP_ENET_CONFIG_MMAP;
         usReverseMii := BP_NOT_DEFINED;
         sw := {| port_map := 0x17; phy_id := [0x01; 0x02; 0x03; 0x00; 0x10; 0x00; 0x00; 0x00] |} |};
       ENET_PHY_ONLY BP_ENET_NO_PHY];
     VoIPDspInfo :=
      [{| ucDspType := BP_VOIP_MIPS;
         ucDspAddress := u8 (-1);
         usExtIntrVoip := BP_NOT_DEFINED;
         usGpioVoipReset := BP_NOT_DEFINED;
         usGpioVoipIntr := BP_NOT_DEFINED;
         usGpioLedVoip := BP_NOT_DEFINED;
         usCsVoip := BP_NOT_DEFINED;
         usGpioVoip1Led := BP_GPIO_25_AL;
         usGpioVoip1LedFail := BP_NOT_DEFINED;
         usGpioSlic0Relay := BP_GPIO_3_AH;
         usGpioSlic0Reset := BP_GPIO_15_AH;
         usGpioVoip2Led := BP_GPIO_26_AL;
         usGpioVoip2LedFail := BP_NOT_DEFINED;
         usGpioSlic1Relay := BP_GPIO_4_AH;
         usGpioSlic1Reset := BP_GPIO_15_AH;
         usGpioPotsLed := BP_GPIO_27_AL;
         usGpioPotsReset := BP_GPIO_22_AH;
         usGpioDectLed := BP_NOT_DEFINED |};
       VOIP_TYPE_ONLY BP_VOIP_NO_DSP];
     slicType := Legerity_88221;
     daaType := Legerity_88010;
     usGpioWirelessPowerDown := 0;
     usGpioLedUsbHost1 := 0;
     usGpioLedUsbHost2 := 0;
     usGpioWirelessProtect := 0 |}.

(** [g_BoardParms] of the chip (its terminating null pointer is the end of the list). *)
Definition g_BoardParms_6368 : list BOARD_PARAMETERS :=
  [g_bcm96368vvw;
   g_bcm96368sv2;
   g_bcm96369pvg].
