(* ===== verification/BoardParms.v ===== *)
(** * Board parameters: the access functions of [boardparms.c]

    The file keeps one global, [g_pCurrentBp], a pointer to one of the constant
    tables or null; here it is an [option BOARD_PARAMETERS] argument.  An
    accessor with out parameters returns the pair of its return code and the
    value it stores.  [None] as a result is an access outside a buffer or
    through the null pointer. *)

From S2P Require Import Prelude BoardDefs.
From S2P Require Import BoardTables6338 BoardTables6348 BoardTables6358 BoardTables6368.

(** [g_BoardParms] of the configured chip. *)
Definition g_BoardParms (chip : Chip) : list BOARD_PARAMETERS :=
  match chip with
  | BCM96338 => g_BoardParms_6338
  | BCM96348 => g_BoardParms_6348
  | BCM96358 => g_BoardParms_6358
  | BCM96368 => g_BoardParms_6368
  end.

(** ** Board ids *)

(** String comparison; running off a buffer without a NUL is [None]. *)
Fixpoint bpstrcmp (dest src : list Z) : option Z :=
  match dest, src with
  | d :: dest', s :: src' =>
      if negb (s =? 0) && negb (d =? 0) then
        if s8 d <? s8 s then Some (-1)
        else if s8 s <? s8 d then Some 1
        else bpstrcmp dest' src'
      else if negb (d =? 0) && (s =? 0) then Some 1
      else if (d =? 0) && negb (s =? 0) then Some (-1)
      else Some 0
  | _, _ => None
  end.

(** The loop of [BpSetBoardId] over the table. *)
Fixpoint BpSetBoardId_loop (ppBp : list BOARD_PARAMETERS)
    (g_pCurrentBp : option BOARD_PARAMETERS) (pszBoardId : list Z)
    : option (Z * option BOARD_PARAMETERS) :=
  match ppBp with
  | [] => Some (BP_BOARD_ID_NOT_FOUND, g_pCurrentBp)
  | bp :: ppBp' =>
      match bpstrcmp (szBoardId bp) pszBoardId with
      | None => None
      | Some r =>
          if r =? 0 then Some (BP_SUCCESS, Some bp)
          else BpSetBoardId_loop ppBp' g_pCurrentBp pszBoardId
      end
  end.

Definition BpSetBoardId (chip : Chip) (g_pCurrentBp : option BOARD_PARAMETERS)
    (pszBoardId : list Z) : option (Z * option BOARD_PARAMETERS) :=
  BpSetBoardId_loop (g_BoardParms chip) g_pCurrentBp pszBoardId.

(** Copies the [BP_BOARD_ID_LEN] bytes of the current id into the caller's
    buffer. *)
Definition BpGetBoardId (g_pCurrentBp : option BOARD_PARAMETERS)
    (pszBoardId : list Z) : option (Z * list Z) :=
  match g_pCurrentBp with
  | None => Some (-1, pszBoardId)
  | Some bp =>
      id ← mem_read (szBoardId bp) 0 BP_BOARD_ID_LEN;
      buf ← mem_write pszBoardId 0 id;
      Some (0, buf)
  end.

(** [while( *src ) *dest++ = *src++; *dest = '\0';] on the id's own array and
    the output buffer at [off]. *)
Definition BpGetBoardIds_copy (src buf : list Z) (off : Z) : option (list Z) :=
  if nul_terminated src then mem_write buf off (cstr src ++ [0]) else None.

(** The loop of [BpGetBoardIds]; [off] is the current [pszBoardIds]. *)
Fixpoint BpGetBoardIds_loop (ppBp : list BOARD_PARAMETERS) (buf : list Z)
    (off i nBoardIdsSize : Z) : option (Z * list Z) :=
  match ppBp with
  | [] => Some (i, buf)
  | bp :: ppBp' =>
      if nBoardIdsSize =? 0 then Some (i, buf)
      else
        buf' ← BpGetBoardIds_copy (szBoardId bp) buf off;
        BpGetBoardIds_loop ppBp' buf' (off + BP_BOARD_ID_LEN) (i + 1)
          (nBoardIdsSize - 1)
  end.

Definition BpGetBoardIds (chip : Chip) (pszBoardIds : list Z) (nBoardIdsSize : Z)
    : option (Z * list Z) :=
  BpGetBoardIds_loop (g_BoardParms chip) pszBoardIds 0 0 nBoardIdsSize.

(** ** Accessors of one board field

    [bp_get] is the body they share: store the field, return [BP_SUCCESS] unless
    it is [BP_NOT_DEFINED]; without a board store [BP_NOT_DEFINED]. *)

Definition bp_get (field : BOARD_PARAMETERS -> Z)
    (g_pCurrentBp : option BOARD_PARAMETERS) : Z * Z :=
  match g_pCurrentBp with
  | Some bp =>
      (if negb (field bp =? BP_NOT_DEFINED) then BP_SUCCESS else BP_VALUE_NOT_DEFINED,
       field bp)
  | None => (BP_BOARD_ID_NOT_SET, BP_NOT_DEFINED)
  end.

Definition BpGetGPIOverlays := bp_get usGPIOOverlay.
Definition BpGetAdslLedGpio := bp_get usGpioLedAdsl.
Definition BpGetAdslFailLedGpio := bp_get usGpioLedAdslFail.
Definition BpGetSecAdslLedGpio := bp_get usGpioSecLedAdsl.
Definition BpGetSecAdslFailLedGpio := bp_get usGpioSecLedAdslFail.
Definition BpGetWirelessAntInUse := bp_get usAntInUseWireless.
Definition BpGetWirelessFlags := bp_get usWirelessFlags.
Definition BpGetWirelessSesExtIntr := bp_get usExtIntrSesBtnWireless.
Definition BpGetWirelessSesLedGpio := bp_get usGpioLedSesWireless.
Definition BpGetHpnaLedGpio := bp_get usGpioLedHpna.
Definition BpGetWanDataLedGpio := bp_get usGpioLedWanData.
Definition BpGetPppLedGpio := bp_get usGpioLedPpp.
Definition BpGetPppFailLedGpio := bp_get usGpioLedPppFail.
Definition BpGetBootloaderPowerOnLedGpio := bp_get usGpioLedBlPowerOn.
Definition BpGetBootloaderStopLedGpio := bp_get usGpioLedBlStop.
Definition BpGetBondingSecondaryResetGpio := bp_get usGpioBondingSecondaryReset.
Definition BpGetAdslDyingGaspExtIntr := bp_get usExtIntrAdslDyingGasp.
Definition BpGetHpnaExtIntr := bp_get usExtIntrHpna.
Definition BpGetHpnaChipSelect := bp_get usCsHpna.
Definition BpGetResetToDefaultExtIntr := bp_get usExtIntrResetToDefault.
Definition BpGetWirelessPowerDownGpio := bp_get usGpioWirelessPowerDown.
Definition BpGetUsbHost1LedGpio := bp_get usGpioLedUsbHost1.
Definition BpGetUsbHost2LedGpio := bp_get usGpioLedUsbHost2.
Definition BpGetWirelessProtectLedGpio := bp_get usGpioWirelessProtect.

(** Accessors of two fields: both must be defined. *)
Definition bp_get2 (f1 f2 : BOARD_PARAMETERS -> Z)
    (g_pCurrentBp : option BOARD_PARAMETERS) : Z * Z * Z :=
  match g_pCurrentBp with
  | Some bp =>
      (if negb (f1 bp =? BP_NOT_DEFINED) && negb (f2 bp =? BP_NOT_DEFINED)
       then BP_SUCCESS else BP_VALUE_NOT_DEFINED, f1 bp, f2 bp)
  | None => (BP_BOARD_ID_NOT_SET, BP_NOT_DEFINED, BP_NOT_DEFINED)
  end.

Definition BpGetRj11InnerOuterPairGpios := bp_get2 usGpioRj11InnerPair usGpioRj11OuterPair.
Definition BpGetRtsCtsUartGpios := bp_get2 usGpioUartRts usGpioUartCts.

(** ** VoIP accessors *)

(** The first equipped DSP with address [dspNum], or null. *)
Definition BpGetVoipDspConfig (g_pCurrentBp : option BOARD_PARAMETERS) (dspNum : Z)
    : option VOIP_DSP_INFO :=
  match g_pCurrentBp with
  | Some bp =>
      find (fun d => negb (ucDspType d =? BP_VOIP_NO_DSP) && (ucDspAddress d =? dspNum))
        (VoIPDspInfo bp)
  | None => None
  end.

(** The body shared by the accessors that take a DSP number. *)
Definition bp_voip_get (field : VOIP_DSP_INFO -> Z) (defined : Z -> bool)
    (g_pCurrentBp : option BOARD_PARAMETERS) (dspNum : Z) : Z * Z :=
  match g_pCurrentBp with
  | Some _ =>
      match BpGetVoipDspConfig g_pCurrentBp dspNum with
      | Some pDspInfo =>
          (if defined (field pDspInfo) then BP_SUCCESS else BP_VALUE_NOT_DEFINED,
           field pDspInfo)
      | None => (BP_BOARD_ID_NOT_FOUND, BP_NOT_DEFINED)
      end
  | None => (BP_BOARD_ID_NOT_SET, BP_NOT_DEFINED)
  end.

Definition bp_defined (v : Z) : bool := negb (v =? BP_NOT_DEFINED).

Definition BpGetVoipResetGpio :=
  bp_voip_get usGpioVoipReset
    (fun v => negb (v =? BP_NOT_DEFINED) || (v =? BP_UNEQUIPPED)).
Definition BpGetVoipIntrGpio := bp_voip_get usGpioVoipIntr bp_defined.
Definition BpGetVoipExtIntr := bp_voip_get usExtIntrVoip bp_defined.
Definition BpGetVoipChipSelect := bp_voip_get usCsVoip bp_defined.
Definition BpGetVoipLedGpio (g_pCurrentBp : option BOARD_PARAMETERS) : Z * Z :=
  bp_voip_get usGpioLedVoip bp_defined g_pCurrentBp 0.

(** [g_pCurrentBp->VoIPDspInfo[0]]. *)
Definition voip0 (bp : BOARD_PARAMETERS) : VOIP_DSP_INFO :=
  default (VOIP_TYPE_ONLY BP_VOIP_NO_DSP) (VoIPDspInfo bp !! 0%nat).

(** The body shared by the accessors of the first DSP's LEDs. *)
Definition bp_voip0_get (field : VOIP_DSP_INFO -> Z)
    (g_pCurrentBp : option BOARD_PARAMETERS) : Z * Z :=
  match g_pCurrentBp with
  | Some bp =>
      if negb (ucDspType (voip0 bp) =? BP_VOIP_NO_DSP) then
        (if negb (field (voip0 bp) =? BP_NOT_DEFINED) then BP_SUCCESS
         else BP_VALUE_NOT_DEFINED, field (voip0 bp))
      else (BP_VALUE_NOT_DEFINED, BP_NOT_DEFINED)
  | None => (BP_BOARD_ID_NOT_SET, BP_NOT_DEFINED)
  end.

Definition BpGetVoip1LedGpio := bp_voip0_get usGpioVoip1Led.
Definition BpGetVoip1FailLedGpio := bp_voip0_get usGpioVoip1LedFail.
Definition BpGetVoip2LedGpio := bp_voip0_get usGpioVoip2Led.
Definition BpGetVoip2FailLedGpio := bp_voip0_get usGpioVoip2LedFail.
Definition BpGetPotsLedGpio := bp_voip0_get usGpioPotsLed.
Definition BpGetDectLedGpio := bp_voip0_get usGpioDectLed.
Definition BpGetPotsResetGpio := bp_get (fun bp => usGpioPotsReset (voip0 bp)).

(** The pin of a SLIC; with another pin type [*pusValue] keeps the value the
    caller passed in. *)
Definition BpGetSlicGpio (g_pCurrentBp : option BOARD_PARAMETERS) (num : Z)
    (gpioType : SLIC_GPIO_TYPE) (pusValue : Z) : Z * Z :=
  match g_pCurrentBp with
  | Some bp =>
      let v :=
        if num =? 0 then
          match gpioType with
          | SLIC_GPIO_RESET => usGpioSlic0Reset (voip0 bp)
          | SLIC_GPIO_RELAY => usGpioSlic0Relay (voip0 bp)
          | SLIC_GPIO_GENERIC => pusValue
          end
        else if num =? 1 then
          match gpioType with
          | SLIC_GPIO_RESET => usGpioSlic1Reset (voip0 bp)
          | SLIC_GPIO_RELAY => usGpioSlic1Relay (voip0 bp)
          | SLIC_GPIO_GENERIC => pusValue
          end
        else BP_NOT_DEFINED in
      (if negb (v =? BP_NOT_DEFINED) then BP_SUCCESS else BP_VALUE_NOT_DEFINED, v)
  | None => (BP_BOARD_ID_NOT_SET, BP_NOT_DEFINED)
  end.

Definition BpGetVcopeGpio (g_pCurrentBp : option BOARD_PARAMETERS) (pio_idx : Z) : Z :=
  match g_pCurrentBp with
  | Some bp =>
      if pio_idx =? BCM6505_RESET_GPIO then usVcopeResetGpio bp
      else if pio_idx =? VCOPE_RELAY_GPIO then usVcopeRelayGpio bp
      else if pio_idx =? HPI_CS then usCsHpi bp
      else if pio_idx =? VCOPE_BOARD_REV then usVcopeBoardRev bp
      else BP_NOT_DEFINED
  | None => BP_NOT_DEFINED
  end.

Definition BpGetSlicType (g_pCurrentBp : option BOARD_PARAMETERS) : Z * Z :=
  match g_pCurrentBp with
  | None => (BP_BOARD_ID_NOT_SET, u16 (slic_to_Z Slic_Not_Defined))
  | Some bp =>
      (if decide (slicType bp = Slic_Not_Defined) then BP_VALUE_NOT_DEFINED else BP_SUCCESS,
       u16 (slic_to_Z (slicType bp)))
  end.

Definition BpGetDAAType (g_pCurrentBp : option BOARD_PARAMETERS) : Z * Z :=
  match g_pCurrentBp with
  | None => (BP_BOARD_ID_NOT_SET, u16 (daa_to_Z DAA_Not_Defined))
  | Some bp =>
      (if decide (daaType bp = DAA_Not_Defined) then BP_VALUE_NOT_DEFINED else BP_SUCCESS,
       u16 (daa_to_Z (daaType bp)))
  end.

(** ** Ethernet MACs *)

Definition set_ucPhyType (e : ETHERNET_MAC_INFO) (t : Z) : ETHERNET_MAC_INFO :=
  {| ucPhyType := t; ucPhyAddress := ucPhyAddress e; usGpioPhyReset := usGpioPhyReset e;
     usGpioPhyLinkSpeed := usGpioPhyLinkSpeed e; usConfigType := usConfigType e;
     usReverseMii := usReverseMii e; sw := sw e |}.

(** Element [i] of the caller's array after the call: a copy of the board's
    entry, or the element with its PHY type cleared. *)
Definition enet_fill (g_pCurrentBp : option BOARD_PARAMETERS) (i : nat)
    (e : ETHERNET_MAC_INFO) : ETHERNET_MAC_INFO :=
  match g_pCurrentBp with
  | Some bp =>
      match EnetMacInfos bp !! i with
      | Some src => src
      | None => set_ucPhyType e BP_ENET_NO_PHY
      end
  | None => set_ucPhyType e BP_ENET_NO_PHY
  end.

Definition BpGetEthernetMacInfo (g_pCurrentBp : option BOARD_PARAMETERS)
    (pEnetInfos : list ETHERNET_MAC_INFO) (nNumEnetInfos : Z)
    : option (Z * list ETHERNET_MAC_INFO) :=
  if nNumEnetInfos <=? zlen pEnetInfos then
    Some (match g_pCurrentBp with Some _ => BP_SUCCESS | None => BP_BOARD_ID_NOT_SET end,
          imap (fun i e => if Z.of_nat i <? nNumEnetInfos
                           then enet_fill g_pCurrentBp i e else e) pEnetInfos)
  else None.

(** ** Wireless SROM patch *)

Record WLAN_SROM_ENTRY := { srom_name : string; wordOffset : Z; srom_value : Z }.

Record WLAN_SROM_PATCH_INFO := {
  szboardId : list Z;
  usWirelessChipId : Z;
  usNeededSize : Z;
  entries : list WLAN_SROM_ENTRY
}.

(** The table local to [BpUpdateWirelessSromMap], without its terminators. *)
Definition wlanPaEntries : list WLAN_SROM_ENTRY :=
  [{| srom_name := "pa0b0"; wordOffset := 47; srom_value := 0x14ae |};
   {| srom_name := "pa0b1"; wordOffset := 48; srom_value := 0xfad4 |};
   {| srom_name := "pa0b2"; wordOffset := 49; srom_value := 0xfe82 |}].

Definition wlanPaInfo : list WLAN_SROM_PATCH_INFO :=
  [{| szboardId := char_array 16 "96348W3-10"; usWirelessChipId := 0x4318;
      usNeededSize := 49; entries := wlanPaEntries |};
   {| szboardId := char_array 16 "96348W3"; usWirelessChipId := 0x4318;
      usNeededSize := 49; entries := wlanPaEntries |}].

(** [pBase[offset] = value] for each entry; [pBase] has [sizeInWords] words. *)
Fixpoint srom_patch (es : list WLAN_SROM_ENTRY) (pBase : list Z) : option (list Z) :=
  match es with
  | [] => Some pBase
  | e :: es' => mem_write pBase (wordOffset e) [srom_value e] ≫= srom_patch es'
  end.

Fixpoint srom_search (infos : list WLAN_SROM_PATCH_INFO) (boardId : list Z)
    (chipID : Z) (pBase : list Z) (sizeInWords : Z) : option (Z * list Z) :=
  match infos with
  | [] => Some (BP_BOARD_ID_NOT_FOUND, pBase)
  | info :: infos' =>
      match bpstrcmp boardId (szboardId info) with
      | None => None
      | Some r =>
          if (r =? 0) && (usWirelessChipId info =? chipID)
             && (usNeededSize info <=? sizeInWords)
          then pBase' ← srom_patch (entries info) pBase; Some (BP_SUCCESS, pBase')
          else srom_search infos' boardId chipID pBase sizeInWords
      end
  end.

(** [pBase] is [None] for a null pointer. *)
Definition BpUpdateWirelessSromMap (g_pCurrentBp : option BOARD_PARAMETERS)
    (chipID : Z) (pBase : option (list Z)) (sizeInWords : Z)
    : option (Z * option (list Z)) :=
  match pBase with
  | Some words =>
      if (chipID =? 0) || (sizeInWords <=? 0) then Some (BP_BOARD_ID_NOT_FOUND, pBase)
      else
        match g_pCurrentBp with
        | None => None
        | Some bp =>
            '(r, words') ← srom_search wlanPaInfo (szBoardId bp) chipID words sizeInWords;
            Some (r, Some words')
        end
  | None => Some (BP_BOARD_ID_NOT_FOUND, pBase)
  end.

(** ** Properties of the id functions *)

Lemma s8_eq_iff a b : is_u8 a -> is_u8 b -> s8 a = s8 b -> a = b.
Proof.
  unfold is_u8, s8. intros.
  destruct (Z_lt_le_dec a 128), (Z_lt_le_dec b 128);
    repeat match goal with
    | H : ?x < 128 |- _ => rewrite (Z.mod_small (x + 2 ^ 7)) in * by lia; clear H
    | H : 128 <= ?x |- _ =>
        replace (x + 2 ^ 7) with (x - 2 ^ 7 + 1 * 2 ^ 8) in * by lia;
        rewrite Z_mod_plus_full, (Z.mod_small (x - 2 ^ 7)) in * by lia; clear H
    end; lia.
Qed.

(** One step of the comparison, by cases on the two characters. *)
Lemma bpstrcmp_sound d s r :
  Forall is_u8 d -> Forall is_u8 s -> bpstrcmp d s = Some r ->
  bpstrcmp s d = Some (- r) /\ (r = 0 <-> cstr d = cstr s).
Proof.
  revert s r. induction d as [|a d IH]; intros [|b s] r; cbn [bpstrcmp]; try done.
  intros [Ha Hd]%Forall_cons_1 [Hb Hs]%Forall_cons_1. cbn [cstr].
  destruct (Z.eqb_spec a 0), (Z.eqb_spec b 0); subst; cbn [negb andb];
    try (intros [= <-]; split; [done|]; split; [done|congruence]).
  destruct (Z.ltb_spec (s8 a) (s8 b)), (Z.ltb_spec (s8 b) (s8 a)); try lia;
    try (intros [= <-]; split; [done|]; split; [done|intros [= ->]; lia]).
  intros Hr. destruct (IH s r) as [Hc Hi]; [done..|]. split; [done|].
  assert (a = b) as -> by (apply s8_eq_iff; [done|done|lia]).
  rewrite Hi. split; [by intros ->|by intros [= ->]].
Qed.

Lemma bpstrcmp_total d s :
  nul_terminated d = true -> nul_terminated s = true -> exists r, bpstrcmp d s = Some r.
Proof.
  revert s. induction d as [|a d IH]; intros [|b s]; try done. intros Hd Hs. cbn.
  destruct (Z.eqb_spec a 0), (Z.eqb_spec b 0); cbn; eauto.
  do 2 (case_match; [by eauto|]). apply IH; by eapply nul_terminated_cons.
Qed.

(** A buffer of bytes with a terminating NUL. *)
Definition is_cstr (b : list Z) : Prop := Forall is_u8 b /\ nul_terminated b = true.

#[export] Instance is_u8_dec x : Decision (is_u8 x).
Proof. unfold is_u8. apply _. Defined.
#[export] Instance is_cstr_dec b : Decision (is_cstr b).
Proof. unfold is_cstr. apply _. Defined.

Lemma bpstrcmp_zero d s :
  is_cstr d -> is_cstr s ->
  exists r, bpstrcmp d s = Some r /\ (r = 0 <-> cstr d = cstr s).
Proof.
  intros [? ?] [? ?]. destruct (bpstrcmp_total d s) as [r E]; [done..|].
  exists r. split; [done|]. by eapply bpstrcmp_sound.
Qed.

(** For NUL-terminated byte strings [bpstrcmp] never reads past a
    terminator, returns 0 exactly for equal strings, and comparing in the other
    order negates the result. *)
Theorem bpstrcmp_spec d s :
  is_cstr d -> is_cstr s ->
  exists r, bpstrcmp d s = Some r /\ (r = 0 <-> cstr d = cstr s) /\
            bpstrcmp s d = Some (- r).
Proof.
  intros [? ?] [? ?]. destruct (bpstrcmp_total d s) as [r E]; [done..|].
  exists r. by destruct (bpstrcmp_sound d s r).
Qed.

Lemma bpstrcmp_spec_witness :
  exists r, bpstrcmp (char_array 16 "96338W") (char_array 16 "96338W2") = Some r /\
  (r = 0 <-> cstr (char_array 16 "96338W") = cstr (char_array 16 "96338W2")) /\
  bpstrcmp (char_array 16 "96338W2") (char_array 16 "96338W") = Some (- r).
Proof. apply bpstrcmp_spec; by_decide. Defined.

(** Every id of the tables is a 16-byte C string, and no two boards of a chip
    share one. *)
Definition id_ok (bp : BOARD_PARAMETERS) : Prop :=
  is_cstr (szBoardId bp) /\ zlen (szBoardId bp) = BP_BOARD_ID_LEN.

#[export] Instance id_ok_dec bp : Decision (id_ok bp).
Proof. unfold id_ok. apply _. Defined.

Lemma table_ids_ok chip : Forall id_ok (g_BoardParms chip).
Proof. destruct chip; by_decide. Qed.

Lemma table_ids_distinct chip : NoDup (map (fun bp => cstr (szBoardId bp)) (g_BoardParms chip)).
Proof. destruct chip; by_decide. Qed.

Lemma BpSetBoardId_loop_spec tbl g id :
  Forall id_ok tbl -> is_cstr id ->
  (exists bp, bp ∈ tbl /\ cstr (szBoardId bp) = cstr id /\
              BpSetBoardId_loop tbl g id = Some (BP_SUCCESS, Some bp)) \/
  ((forall bp, bp ∈ tbl -> cstr (szBoardId bp) <> cstr id) /\
   BpSetBoardId_loop tbl g id = Some (BP_BOARD_ID_NOT_FOUND, g)).
Proof.
  intros Htbl Hid. induction Htbl as [|bp tbl [Hbp _] Htbl IH]; cbn.
  - right. split; [by intros ? ?%elem_of_nil|done].
  - destruct (bpstrcmp_zero (szBoardId bp) id) as (r & -> & Hr); [done..|].
    destruct (Z.eqb_spec r 0).
    + left. exists bp. split; [left|]. split; [by apply Hr|done].
    + destruct IH as [(bp' & Hin & Heq & ->)|[Hno ->]].
      * left. exists bp'. by split; [right|].
      * right. split; [|done]. intros bp' [->|Hin]%elem_of_cons; [|by apply Hno].
        rewrite <- Hr. done.
Qed.

(** C28: [BpSetBoardId] selects a board of the chip's table with the given id
    string and returns [BP_SUCCESS]; when no board has it the current board is
    left as it was and [BP_BOARD_ID_NOT_FOUND] is returned. *)
Theorem BpSetBoardId_spec chip g id :
  is_cstr id ->
  (exists bp, bp ∈ g_BoardParms chip /\ cstr (szBoardId bp) = cstr id /\
              BpSetBoardId chip g id = Some (BP_SUCCESS, Some bp)) \/
  ((forall bp, bp ∈ g_BoardParms chip -> cstr (szBoardId bp) <> cstr id) /\
   BpSetBoardId chip g id = Some (BP_BOARD_ID_NOT_FOUND, g)).
Proof. intros. apply BpSetBoardId_loop_spec; [apply table_ids_ok|done]. Qed.

Lemma BpSetBoardId_spec_witness :
  let id := char_array 16 "96338W2" in
  (exists bp, bp ∈ g_BoardParms BCM96338 /\ cstr (szBoardId bp) = cstr id /\
              BpSetBoardId BCM96338 None id = Some (BP_SUCCESS, Some bp)) \/
  ((forall bp, bp ∈ g_BoardParms BCM96338 -> cstr (szBoardId bp) <> cstr id) /\
   BpSetBoardId BCM96338 None id = Some (BP_BOARD_ID_NOT_FOUND, None)).
Proof. apply BpSetBoardId_spec. by_decide. Defined.

Lemma NoDup_map_inj {A B} (f : A -> B) (l : list A) (x y : A) :
  NoDup (map f l) -> x ∈ l -> y ∈ l -> f x = f y -> x = y.
Proof.
  intros Hnd Hx Hy E. induction l as [|z l IH]; [by apply elem_of_nil in Hx|].
  apply NoDup_cons in Hnd as [Hz Hnd].
  assert (forall w, w ∈ l -> f w <> f z) as Hne.
  { intros w Hw Ew. apply Hz. rewrite <- Ew. by apply list_elem_of_fmap_2. }
  apply elem_of_cons in Hx as [->|Hx], Hy as [->|Hy]; [done|..|by apply IH].
  - by destruct (Hne y).
  - by destruct (Hne x).
Qed.

(** On every chip, each board of the table is the one its own id selects:
    no earlier entry shadows it. *)
Theorem BpSetBoardId_every_board chip g bp :
  bp ∈ g_BoardParms chip ->
  BpSetBoardId chip g (szBoardId bp) = Some (BP_SUCCESS, Some bp).
Proof.
  intros Hin. pose proof (table_ids_ok chip) as Hok.
  rewrite Forall_forall in Hok. destruct (Hok bp Hin) as [Hid _].
  destruct (BpSetBoardId_loop_spec (g_BoardParms chip) g (szBoardId bp))
    as [(bp' & Hin' & Heq & E)|[Hno _]]; [apply table_ids_ok|done|..].
  - unfold BpSetBoardId. rewrite E.
    by rewrite (NoDup_map_inj _ _ _ _ (table_ids_distinct chip) Hin' Hin Heq).
  - by destruct (Hno bp).
Qed.

Lemma BpSetBoardId_every_board_witness :
  BpSetBoardId BCM96338 None (szBoardId g_bcm96338gw2) = Some (BP_SUCCESS, Some g_bcm96338gw2).
Proof. apply BpSetBoardId_every_board. by_decide. Defined.

(** One id written at [off]: the slot then reads back as the id, and nothing
    outside the id's own bytes changes. *)
Lemma BpGetBoardIds_copy_spec bp buf off :
  id_ok bp -> 0 <= off -> off + BP_BOARD_ID_LEN <= zlen buf ->
  exists buf', BpGetBoardIds_copy (szBoardId bp) buf off = Some buf' /\
    zlen buf' = zlen buf /\ slice 0 off buf' = slice 0 off buf /\
    cstr (slice off BP_BOARD_ID_LEN buf') = cstr (szBoardId bp).
Proof.
  intros [[_ Hn] Hl] Ho Hb. pose proof (zlen_cstr _ Hn) as Hc. rewrite Hl in Hc.
  assert (zlen (cstr (szBoardId bp) ++ [0]) <= BP_BOARD_ID_LEN)
    by (autorewrite with buf; lia).
  unfold BpGetBoardIds_copy. rewrite Hn, mem_write_Some by lia.
  eexists. split; [done|]. rewrite zlen_splice by lia. split; [done|]. split.
  - apply slice_splice_before; lia.
  - rewrite slice_splice_over by lia. rewrite <- app_assoc.
    apply cstr_app_nul, cstr_no_nul.
Qed.

Lemma BpGetBoardIds_loop_spec tbl buf off i n :
  Forall id_ok tbl -> 0 <= n -> 0 <= off ->
  off + BP_BOARD_ID_LEN * Z.min n (zlen tbl) <= zlen buf ->
  exists buf', BpGetBoardIds_loop tbl buf off i n = Some (i + Z.min n (zlen tbl), buf') /\
    zlen buf' = zlen buf /\ slice 0 off buf' = slice 0 off buf /\
    forall (k : nat) bp, tbl !! k = Some bp -> Z.of_nat k < n ->
      cstr (slice (off + BP_BOARD_ID_LEN * Z.of_nat k) BP_BOARD_ID_LEN buf')
      = cstr (szBoardId bp).
Proof.
  intros Htbl. revert buf off i n.
  induction Htbl as [|bp tbl Hbp Htbl IH]; intros buf off i n Hn Ho Hb.
  - exists buf. cbn. rewrite zlen_nil, Z.min_r, Z.add_0_r by lia. naive_solver.
  - cbn [BpGetBoardIds_loop]. rewrite zlen_cons in *. pose proof (zlen_nonneg tbl).
    change BP_BOARD_ID_LEN with 16 in *.
    destruct (Z.eqb_spec n 0) as [->|].
    { exists buf. rewrite Z.min_l, Z.add_0_r by lia. naive_solver lia. }
    destruct (BpGetBoardIds_copy_spec bp buf off) as (b1 & -> & Hl1 & Hp1 & Hc1);
      [done..|change BP_BOARD_ID_LEN with 16; lia|]. cbn [mbind option_bind].
    change BP_BOARD_ID_LEN with 16 in *.
    destruct (IH b1 (off + 16) (i + 1) (n - 1)) as (b2 & -> & Hl2 & Hp2 & Hc2); [lia..|].
    exists b2. split; [do 2 f_equal; lia|]. split; [congruence|]. split.
    + rewrite <- Hp1. apply (f_equal (slice 0 off)) in Hp2.
      by rewrite !slice_slice in Hp2 by lia.
    + intros [|k] bp' E Hk; cbn in E.
      * simplify_eq. rewrite Z.mul_0_r, Z.add_0_r, <- Hc1. f_equal.
        apply (f_equal (slice off 16)) in Hp2. by rewrite !slice_slice in Hp2 by lia.
      * rewrite <- (Hc2 k bp' E) by lia. do 2 f_equal. lia.
Qed.

(** [BpGetBoardIds] returns how many ids it stored, the smaller of the
    caller's count and the table's; the [i]-th 16-byte slot then holds the
    [i]-th board's id, and the call stays inside the slots it was given. *)
Theorem BpGetBoardIds_spec chip buf n :
  0 <= n -> BP_BOARD_ID_LEN * Z.min n (zlen (g_BoardParms chip)) <= zlen buf ->
  exists buf', BpGetBoardIds chip buf n = Some (Z.min n (zlen (g_BoardParms chip)), buf') /\
    zlen buf' = zlen buf /\
    forall (k : nat) bp, g_BoardParms chip !! k = Some bp -> Z.of_nat k < n ->
      cstr (slice (BP_BOARD_ID_LEN * Z.of_nat k) BP_BOARD_ID_LEN buf') = cstr (szBoardId bp).
Proof.
  intros Hn Hb. destruct (BpGetBoardIds_loop_spec (g_BoardParms chip) buf 0 0 n)
    as (buf' & E & Hl & _ & Hk); [apply table_ids_ok|lia..|].
  exists buf'. auto.
Qed.

Lemma BpGetBoardIds_spec_witness :
  exists buf', BpGetBoardIds BCM96368 (replicate 32 0) 2 = Some (2, buf') /\
    zlen buf' = 32 /\
    forall (k : nat) bp, g_BoardParms BCM96368 !! k = Some bp -> Z.of_nat k < 2 ->
      cstr (slice (BP_BOARD_ID_LEN * Z.of_nat k) BP_BOARD_ID_LEN buf') = cstr (szBoardId bp).
Proof. apply (BpGetBoardIds_spec BCM96368 (replicate 32 0) 2); by_decide. Defined.

(** ** Properties of the wireless SROM patch *)

Lemma splice_app2 (l d : list Z) o y :
  0 <= o -> o + zlen d + 1 <= zlen l ->
  splice (o + zlen d) [y] (splice o d l) = splice o (d ++ [y]) l.
Proof.
  unfold splice, zlen. intros. rewrite (Z2Nat.inj_add o) by lia. rewrite Nat2Z.id.
  assert (length (take (Z.to_nat o) l) = Z.to_nat o) by (rewrite length_take; lia).
  rewrite (app_assoc _ d), take_app_length' by (rewrite length_app; lia).
  rewrite drop_app_ge by (rewrite length_app; cbn; lia).
  rewrite !length_app, drop_drop. cbn [length]. rewrite <- !app_assoc.
  do 4 f_equal. lia.
Qed.

Lemma srom_patch_long (words : list Z) :
  50 <= zlen words ->
  srom_patch wlanPaEntries words = Some (splice 47 [0x14ae; 0xfad4; 0xfe82] words).
Proof.
  intros. cbn [srom_patch wlanPaEntries wordOffset srom_value].
  rewrite mem_write_Some by zlen_lia. cbn [mbind option_bind].
  rewrite mem_write_Some by zlen_lia. cbn [mbind option_bind].
  rewrite mem_write_Some by zlen_lia. cbn [mbind option_bind].
  change 48 with (47 + zlen [0x14ae]). rewrite splice_app2 by zlen_lia. cbn [app].
  change 49 with (47 + zlen [0x14ae; 0xfad4]). by rewrite splice_app2 by zlen_lia.
Qed.

Lemma srom_patch_49 (words : list Z) : zlen words = 49 -> srom_patch wlanPaEntries words = None.
Proof.
  intros. cbn [srom_patch wlanPaEntries wordOffset srom_value].
  rewrite mem_write_Some by zlen_lia. cbn [mbind option_bind].
  rewrite mem_write_Some by zlen_lia. cbn [mbind option_bind]. unfold mem_write.
  repeat (rewrite zlen_splice by zlen_lia). autorewrite with buf. by ztest.
Qed.

(** Patching the SROM of the 96348W3-10 board through a map of any size: a
    map of fewer than 49 words is refused unchanged, one of 50 or more gets the
    three power-amplifier words at 47, 48 and 49 and nothing else, and one of
    exactly 49 words, which the size check admits, is written past its end. *)
Theorem BpUpdateWirelessSromMap_w3 (words : list Z) :
  BpUpdateWirelessSromMap (Some g_bcm96348w3_10) 0x4318 (Some words) (zlen words) =
  if zlen words <? 49 then Some (BP_BOARD_ID_NOT_FOUND, Some words)
  else if zlen words =? 49 then None
  else Some (BP_SUCCESS, Some (splice 47 [0x14ae; 0xfad4; 0xfe82] words)).
Proof.
  unfold BpUpdateWirelessSromMap, wlanPaInfo. cbn [srom_search].
  change (0x4318 =? 0) with false. cbn [orb usWirelessChipId usNeededSize entries szboardId].
  change (bpstrcmp (szBoardId g_bcm96348w3_10) (char_array 16 "96348W3-10")) with (Some 0).
  change (bpstrcmp (szBoardId g_bcm96348w3_10) (char_array 16 "96348W3")) with (Some 1).
  change (0x4318 =? 0x4318) with true. change (1 =? 0) with false. change (0 =? 0) with true.
  cbn [andb]. pose proof (zlen_nonneg words).
  destruct (Z.leb_spec (zlen words) 0), (Z.ltb_spec (zlen words) 49); try lia; try done.
  - destruct (Z.leb_spec 49 (zlen words)); [lia|done].
  - destruct (Z.leb_spec 49 (zlen words)); [|lia].
    destruct (Z.eqb_spec (zlen words) 49).
    + by rewrite srom_patch_49.
    + by rewrite srom_patch_long by lia.
Qed.

(** ** Properties of the tables *)

(** A GPIO field: absent, wired in hardware, or a pin the registers have, with
    only the active-low and serial flags set. *)
Definition gpio_ok (v : Z) : bool :=
  (v =? BP_NOT_DEFINED) || (v =? BP_HW_DEFINED) || (v =? BP_HW_DEFINED_AH)
  || (Z.land v (Z.lnot (Z.lor (Z.lor BP_GPIO_NUM_MASK BP_ACTIVE_LOW) BP_GPIO_SERIAL)) =? 0)
     && (Z.land v BP_GPIO_NUM_MASK <=? 37)
     && ((Z.land v BP_GPIO_SERIAL =? 0) || (Z.land v BP_GPIO_NUM_MASK <=? 7)).

Definition enet_ok (e : ETHERNET_MAC_INFO) : bool :=
  (ucPhyType e <=? BP_ENET_EXTERNAL_SWITCH) && (0 <=? ucPhyType e)
  && (0 <=? ucPhyAddress e) && (ucPhyAddress e <=? 31)
  && forallb gpio_ok [usGpioPhyReset e; usGpioPhyLinkSpeed e]
  && (length (phy_id (sw e)) =? 8)%nat && (0 <=? port_map (sw e)) && (port_map (sw e) <? 256).

Definition voip_ok (d : VOIP_DSP_INFO) : bool :=
  (0 <=? ucDspType d) && (ucDspType d <=? BP_VOIP_MIPS)
  && (0 <=? ucDspAddress d) && (ucDspAddress d <=? 255)
  && forallb gpio_ok
       [usGpioVoipReset d; usGpioVoipIntr d; usGpioLedVoip d; usGpioVoip1Led d;
        usGpioVoip1LedFail d; usGpioSlic0Relay d; usGpioSlic0Reset d; usGpioVoip2Led d;
        usGpioVoip2LedFail d; usGpioSlic1Relay d; usGpioSlic1Reset d; usGpioPotsLed d;
        usGpioPotsReset d; usGpioDectLed d].

Definition board_ok (bp : BOARD_PARAMETERS) : bool :=
  bool_decide (id_ok bp)
  && forallb gpio_ok
       [usGpioRj11InnerPair bp; usGpioRj11OuterPair bp; usGpioUartRts bp; usGpioUartCts bp;
        usVcopeResetGpio bp; usVcopeRelayGpio bp; usGpioLedAdsl bp; usGpioLedAdslFail bp;
        usGpioSecLedAdsl bp; usGpioSecLedAdslFail bp; usGpioLedSesWireless bp;
        usGpioLedHpna bp; usGpioLedWanData bp; usGpioLedPpp bp; usGpioLedPppFail bp;
        usGpioLedBlPowerOn bp; usGpioLedBlStop bp; usGpioBondingSecondaryReset bp;
        usGpioWirelessPowerDown bp; usGpioLedUsbHost1 bp; usGpioLedUsbHost2 bp;
        usGpioWirelessProtect bp]
  && (length (EnetMacInfos bp) =? 2)%nat && forallb enet_ok (EnetMacInfos bp)
  && (length (VoIPDspInfo bp) =? 2)%nat && forallb voip_ok (VoIPDspInfo bp).

(** A property of all boards, to be settled by evaluation on the tables. *)
Lemma all_boards (P : BOARD_PARAMETERS -> Prop) :
  (forall chip, Forall P (g_BoardParms chip)) ->
  forall chip bp, bp ∈ g_BoardParms chip -> P bp.
Proof. intros H chip bp. specialize (H chip). rewrite Forall_forall in H. auto. Qed.

(** Every supported board of every chip is well formed: a 16-byte
    NUL-terminated id, two Ethernet and two DSP entries with in-range types and
    addresses, and GPIO fields that name a pin (at most 37, at most 7 on the
    serial chain) or say that there is none. *)
Theorem board_tables_well_formed :
  forall chip bp, bp ∈ g_BoardParms chip -> board_ok bp = true.
Proof.
  apply all_boards. intros []; by_decide.
Qed.

Lemma board_tables_well_formed_witness : board_ok g_bcm96338gw2 = true.
Proof. apply (board_tables_well_formed BCM96338). by_decide. Defined.

(** The tables of all boards but 96358VW2 and 96358M leave the USB-host LED
    pins out of their initialisers, so the fields are zero and both accessors
    report success with GPIO 0 rather than [BP_VALUE_NOT_DEFINED]. *)
Theorem UsbHostLed_defaults_to_gpio0 chip bp :
  bp ∈ g_BoardParms chip -> bp <> g_bcm96358vw2 -> bp <> g_bcm96358m ->
  BpGetUsbHost1LedGpio (Some bp) = (BP_SUCCESS, BP_GPIO_0_AH) /\
  BpGetUsbHost2LedGpio (Some bp) = (BP_SUCCESS, BP_GPIO_0_AH).
Proof.
  revert chip bp. refine (all_boards _ _). intros []; by_decide.
Qed.

Lemma UsbHostLed_defaults_to_gpio0_witness :
  BpGetUsbHost1LedGpio (Some g_bcm96338gw2) = (BP_SUCCESS, BP_GPIO_0_AH) /\
  BpGetUsbHost2LedGpio (Some g_bcm96338gw2) = (BP_SUCCESS, BP_GPIO_0_AH).
Proof. apply (UsbHostLed_defaults_to_gpio0 BCM96338); by_decide. Defined.
