(* ===== verification/Led.v ===== *)
(** * LED driver

    [bcmdrivers/opensource/char/board/bcm963xx/impl1/bcm63xx_led.c]: the state
    machine that drives the front-panel LEDs from requests and from a 125 ms
    timer.  The globals of the file and the GPIO registers it writes are one
    record; a [PLED_INFO] is an index of [gLed].  A handler registered for a
    hardware-controlled LED is an opaque number and a call of it is recorded in
    [hw_log].  [None] is an access outside an array. *)

From S2P Require Import Prelude BoardDefs.

(** ** Names and states ([board.h]) *)

(** [BOARD_LED_NAME]; a user-mode caller passes any [int]. *)
Definition kLedAdsl : Z := 0.
Definition kLedSecAdsl : Z := 1.
Definition kLedHpna : Z := 2.
Definition kLedWanData : Z := 3.
Definition kLedPPP : Z := 4.
Definition kLedSes : Z := 5.
Definition kLedEphyLinkSpeed : Z := 6.
Definition kLedVoip : Z := 7.
Definition kLedVoip1 : Z := 8.
Definition kLedVoip2 : Z := 9.
Definition kLedPots : Z := 10.
Definition kLedDect : Z := 11.
Definition kLedUsb1 : Z := 12.
Definition kLedUsb2 : Z := 13.
Definition kLedEnd : Z := 14.

(** [BOARD_LED_STATE]; [kLedStateInvalid n] is an [int] that is no enumerator. *)
Inductive BOARD_LED_STATE :=
  | kLedStateOff | kLedStateOn | kLedStateFail | kLedStateBlinkOnce
  | kLedStateSlowBlinkContinues | kLedStateFastBlinkContinues
  | kLedStateInvalid (n : Z).

#[export] Instance BOARD_LED_STATE_eq_dec : EqDecision BOARD_LED_STATE.
Proof. solve_decision. Defined.

Record LED_MAP_PAIR := {
  ledName : Z;
  ledInitState : BOARD_LED_STATE;
  map_ledMask : Z;
  map_ledActiveLow : Z;
  map_ledSerial : Z;
  map_ledMaskFail : Z;
  map_ledActiveLowFail : Z;
  map_ledSerialFail : Z
}.

Definition kFastBlinkCount : Z := 0.
Definition kSlowBlinkCount : Z := 1.
Definition MAX_VIRT_LEDS : Z := 15.

Record LED_INFO := mkLed {
  ledMask : Z;
  ledActiveLow : Z;
  ledSerial : Z;
  ledMaskFail : Z;
  ledActiveLowFail : Z;
  ledSerialFail : Z;
  ledState : BOARD_LED_STATE;
  savedLedState : BOARD_LED_STATE;
  blinkCountDown : Z
}.

#[export] Instance LED_INFO_eq_dec : EqDecision LED_INFO.
Proof. solve_decision. Defined.

Definition set_state (s s' : BOARD_LED_STATE) (l : LED_INFO) : LED_INFO :=
  mkLed (ledMask l) (ledActiveLow l) (ledSerial l) (ledMaskFail l) (ledActiveLowFail l)
    (ledSerialFail l) s s' (blinkCountDown l).

Definition set_countdown (n : Z) (l : LED_INFO) : LED_INFO :=
  mkLed (ledMask l) (ledActiveLow l) (ledSerial l) (ledMaskFail l) (ledActiveLowFail l)
    (ledSerialFail l) (ledState l) (savedLedState l) n.

(** ** State *)

Record gpio_regs := mkGpio { GPIODir : Z; GPIOio : Z; SerialLed : Z; LEDCtrl : Z }.

Record led_dev := mkDev {
  gLedCount : nat;
  gLed : list LED_INFO;
  gpVirtLeds : list (option nat);
  gLedHwFunc : list (option Z);
  gLedHwFailFunc : list (option Z);
  gTimerOn : bool;
  gBlinkOnceTimerOn : bool;
  GPIO : gpio_regs;
  hw_log : list (Z * Z * BOARD_LED_STATE)
}.

Definition with_led (d : led_dev) (l : list LED_INFO) : led_dev :=
  mkDev (gLedCount d) l (gpVirtLeds d) (gLedHwFunc d) (gLedHwFailFunc d) (gTimerOn d)
    (gBlinkOnceTimerOn d) (GPIO d) (hw_log d).
Definition with_timer (d : led_dev) (b : bool) : led_dev :=
  mkDev (gLedCount d) (gLed d) (gpVirtLeds d) (gLedHwFunc d) (gLedHwFailFunc d) b
    (gBlinkOnceTimerOn d) (GPIO d) (hw_log d).
Definition with_once (d : led_dev) (b : bool) : led_dev :=
  mkDev (gLedCount d) (gLed d) (gpVirtLeds d) (gLedHwFunc d) (gLedHwFailFunc d) (gTimerOn d) b
    (GPIO d) (hw_log d).
Definition with_gpio (d : led_dev) (g : gpio_regs) : led_dev :=
  mkDev (gLedCount d) (gLed d) (gpVirtLeds d) (gLedHwFunc d) (gLedHwFailFunc d) (gTimerOn d)
    (gBlinkOnceTimerOn d) g (hw_log d).
Definition with_log (d : led_dev) (c : Z * Z * BOARD_LED_STATE) : led_dev :=
  mkDev (gLedCount d) (gLed d) (gpVirtLeds d) (gLedHwFunc d) (gLedHwFailFunc d) (gTimerOn d)
    (gBlinkOnceTimerOn d) (GPIO d) (hw_log d ++ [c]).

(** Only the BCM96358 and BCM96368 builds compile the serial LED code. *)
Definition has_serial (chip : Chip) : bool :=
  match chip with BCM96358 | BCM96368 => true | _ => false end.

(** ** LED operations *)

(** [reg |= mask] and [reg &= ~mask] on a 32-bit register. *)
Definition set_bits (reg mask : Z) : Z := Z.lor reg mask.
Definition clear_bits (reg mask : Z) : Z := Z.land reg (Z.lnot mask).

(** The register writes of [ledOn]/[ledOff] and of their failure twins: light
    ([on]) or darken the pins of [mask], inverted for an active-low LED. *)
Definition drive_pins (chip : Chip) (serial activeLow mask : Z) (on : bool)
    (g : gpio_regs) : gpio_regs :=
  let wr reg := if xorb on (negb (activeLow =? 0)) then set_bits reg mask
                else clear_bits reg mask in
  if negb (serial =? 0) then
    if has_serial chip then mkGpio (GPIODir g) (GPIOio g) (wr (SerialLed g)) (LEDCtrl g)
    else g
  else mkGpio (set_bits (GPIODir g) mask) (wr (GPIOio g)) (SerialLed g) (LEDCtrl g).

(** Replace the LED a pointer denotes. *)
Definition put_led (d : led_dev) (i : nat) (l : LED_INFO) : led_dev :=
  with_led d (<[i := l]> (gLed d)).

Definition ledOn (chip : Chip) (i : nat) (d : led_dev) : option led_dev :=
  p ← gLed d !! i;
  Some (if negb (ledMask p =? 0) then
          put_led (with_gpio d (drive_pins chip (ledSerial p) (ledActiveLow p) (ledMask p)
                                  true (GPIO d)))
            i (set_state kLedStateOn kLedStateOn p)
        else d).

Definition ledOff (chip : Chip) (i : nat) (d : led_dev) : option led_dev :=
  p ← gLed d !! i;
  Some (if negb (ledMask p =? 0) then
          put_led (with_gpio d (drive_pins chip (ledSerial p) (ledActiveLow p) (ledMask p)
                                  false (GPIO d)))
            i (set_state kLedStateOff kLedStateOff p)
        else d).

Definition ledOnFail (chip : Chip) (i : nat) (d : led_dev) : option led_dev :=
  p ← gLed d !! i;
  Some (if negb (ledMaskFail p =? 0) then
          put_led (with_gpio d (drive_pins chip (ledSerialFail p) (ledActiveLowFail p)
                                  (ledMaskFail p) true (GPIO d)))
            i (set_state kLedStateFail kLedStateFail p)
        else d).

Definition ledOffFail (chip : Chip) (i : nat) (d : led_dev) : option led_dev :=
  p ← gLed d !! i;
  Some (if negb (ledMaskFail p =? 0) then
          put_led (with_gpio d (drive_pins chip (ledSerialFail p) (ledActiveLowFail p)
                                  (ledMaskFail p) false (GPIO d)))
            i (set_state kLedStateOff kLedStateOff p)
        else d).

(** [ledToggle] (every caller discards the state it returns). *)
Definition toggle_pins (chip : Chip) (p : LED_INFO) (g : gpio_regs) : gpio_regs :=
  let flip reg := if negb (Z.land reg (ledMask p) =? 0) then clear_bits reg (ledMask p)
                  else set_bits reg (ledMask p) in
  if negb (ledSerial p =? 0) then
    if has_serial chip then mkGpio (GPIODir g) (GPIOio g) (flip (SerialLed g)) (LEDCtrl g)
    else g
  else mkGpio (set_bits (GPIODir g) (ledMask p)) (flip (GPIOio g)) (SerialLed g) (LEDCtrl g).

Definition ledToggle (chip : Chip) (i : nat) (d : led_dev) : option led_dev :=
  p ← gLed d !! i;
  Some (with_gpio d (toggle_pins chip p (GPIO d))).

(** ** Timers

    [gTimerOn] and [gBlinkOnceTimerOn] tell that a timer is armed; the kernel
    later calls its expiry function. *)

Definition blinkOnceTimerStart (d : led_dev) : led_dev :=
  if gBlinkOnceTimerOn d then d else with_once d true.

Definition blinkOnceTimerExpire (d : led_dev) : led_dev := with_once d false.

Definition ledTimerStart (d : led_dev) : led_dev :=
  if gTimerOn d then d else with_timer d true.

Definition blinks_on (s : BOARD_LED_STATE) : bool :=
  match s with
  | kLedStateSlowBlinkContinues | kLedStateFastBlinkContinues => true
  | _ => false
  end.

(** A continuously blinking LED: [if (blinkCountDown-- == 0) { reload; toggle }],
    then restart the timer. *)
Definition blink_step (chip : Chip) (i : nat) (reload : Z) (p : LED_INFO) (d : led_dev)
    : option led_dev :=
  if blinkCountDown p =? 0 then
    d ← ledToggle chip i (put_led d i (set_countdown reload p));
    Some (ledTimerStart d)
  else Some (ledTimerStart (put_led d i (set_countdown (blinkCountDown p - 1) p))).

(** The body of the loop of [ledTimerExpire] for [gLed + i]. *)
Definition led_expire_one (chip : Chip) (i : nat) (d : led_dev) : option led_dev :=
  p ← gLed d !! i;
  match ledState p with
  | kLedStateOn | kLedStateOff | kLedStateFail =>
      Some (put_led d i (set_countdown 0 p))
  | kLedStateBlinkOnce =>
      d ← ledToggle chip i (blinkOnceTimerStart d);
      let p' := set_state (savedLedState p) (savedLedState p) (set_countdown 0 p) in
      let d := put_led d i p' in
      Some (if blinks_on (ledState p') then ledTimerStart d else d)
  | kLedStateSlowBlinkContinues => blink_step chip i kSlowBlinkCount p d
  | kLedStateFastBlinkContinues => blink_step chip i kFastBlinkCount p d
  | kLedStateInvalid _ => Some d
  end.

Fixpoint led_expire_loop (chip : Chip) (i n : nat) (d : led_dev) : option led_dev :=
  match n with
  | O => Some d
  | S n' => led_expire_one chip i d ≫= led_expire_loop chip (S i) n'
  end.

Definition ledTimerExpire (chip : Chip) (d : led_dev) : option led_dev :=
  led_expire_loop chip 0 (gLedCount d) (with_timer d false).


(** ** Initialisation *)

(** [initLedInfo]: the returned flag is [needTimer].  The structure was cleared
    by [boardLedInit], so the default case leaves the countdown at 0. *)
Definition initLedInfo (chip : Chip) (m : LED_MAP_PAIR) (i : nat) (d : led_dev)
    : option (bool * led_dev) :=
  p ← gLed d !! i;
  let fill n :=
    put_led d i (mkLed (map_ledMask m) (map_ledActiveLow m) (map_ledSerial m)
      (map_ledMaskFail m) (map_ledActiveLowFail m) (map_ledSerialFail m)
      (ledInitState m) (ledInitState m) n) in
  match ledInitState m with
  | kLedStateOn => d ← ledOn chip i (fill 0); Some (false, d)
  | kLedStateOff => d ← ledOff chip i (fill 0); Some (false, d)
  | kLedStateFail => d ← ledOnFail chip i (fill 0); Some (false, d)
  | kLedStateBlinkOnce => Some (true, fill 1)
  | kLedStateSlowBlinkContinues => Some (true, fill kSlowBlinkCount)
  | kLedStateFastBlinkContinues => Some (true, fill kFastBlinkCount)
  | kLedStateInvalid _ => Some (false, fill (blinkCountDown p))
  end.

(** The test by which two map entries, or a map entry and a LED, share a pin. *)
Definition share_pin (mask fail mask' fail' : Z) : bool :=
  (negb (mask =? 0) && (mask =? mask')) || (negb (fail =? 0) && (fail =? fail')).

(** [alreadyUsed]: an earlier entry [p2] of the map shares a pin with [p1]. *)
Definition alreadyUsed (prev : list LED_MAP_PAIR) (p1 : LED_MAP_PAIR) : bool :=
  existsb (fun p2 => share_pin (map_ledMask p1) (map_ledMaskFail p1)
                       (map_ledMask p2) (map_ledMaskFail p2)) prev.

(** The counting loop; a map without [kLedEnd] is read past its end. *)
Fixpoint count_leds (prev rest : list LED_MAP_PAIR) (n : nat) : option nat :=
  match rest with
  | [] => None
  | p1 :: rest' =>
      if ledName p1 =? kLedEnd then Some n
      else count_leds (prev ++ [p1]) rest' (if alreadyUsed prev p1 then n else S n)
  end.

(** [gpVirtLeds[(int) name] = pLed]. *)
Definition set_virt (d : led_dev) (name : Z) (i : nat) : option led_dev :=
  if (0 <=? name) && (name <? MAX_VIRT_LEDS) then
    Some (mkDev (gLedCount d) (gLed d) (<[Z.to_nat name := Some i]> (gpVirtLeds d))
            (gLedHwFunc d) (gLedHwFailFunc d) (gTimerOn d) (gBlinkOnceTimerOn d)
            (GPIO d) (hw_log d))
  else None.

(** The pins of [m] that are defined replace those of [p]. *)
Definition merge_led (m : LED_MAP_PAIR) (p : LED_INFO) : LED_INFO :=
  let norm := negb (map_ledMask m =? 0) in
  let fail := negb (map_ledMaskFail m =? 0) in
  mkLed (if norm then map_ledMask m else ledMask p)
    (if norm then map_ledActiveLow m else ledActiveLow p)
    (if norm then map_ledSerial m else ledSerial p)
    (if fail then map_ledMaskFail m else ledMaskFail p)
    (if fail then map_ledActiveLowFail m else ledActiveLowFail p)
    (if fail then map_ledSerialFail m else ledSerialFail p)
    (ledState p) (savedLedState p) (blinkCountDown p).

(** The inner loop for an entry whose LED exists: [pLed] runs from [i] over the
    next [n] LEDs. *)
Fixpoint merge_loop (m : LED_MAP_PAIR) (i n : nat) (d : led_dev) : option led_dev :=
  match n with
  | O => Some d
  | S n' =>
      p ← gLed d !! i;
      if share_pin (ledMask p) (ledMaskFail p) (map_ledMask m) (map_ledMaskFail m)
      then set_virt (put_led d i (merge_led m p)) (ledName m) i
      else merge_loop m (S i) n' d
  end.

(** The filling loop: [cur] is [pCurLed - gLed]. *)
Fixpoint fill_leds (chip : Chip) (prev rest : list LED_MAP_PAIR) (cur : nat)
    (needTimer : bool) (d : led_dev) : option (bool * led_dev) :=
  match rest with
  | [] => None
  | p1 :: rest' =>
      if ledName p1 =? kLedEnd then Some (needTimer, d)
      else if MAX_VIRT_LEDS <? ledName p1 then
        fill_leds chip (prev ++ [p1]) rest' cur needTimer d
      else if alreadyUsed prev p1 then
        d ← merge_loop p1 0 cur d;
        fill_leds chip (prev ++ [p1]) rest' cur needTimer d
      else
        '(need, d) ← initLedInfo chip p1 cur d;
        d ← set_virt d (ledName p1) cur;
        fill_leds chip (prev ++ [p1]) rest' (S cur) need d
  end.

Definition LED_INTERVAL_SET_MASK : Z := 0x00000f00.
Definition LED_INTERVAL_SET_80MS : Z := 0x00000300.

(** An all-zero [LED_INFO]. *)
Definition LED_ZERO : LED_INFO := mkLed 0 0 0 0 0 0 kLedStateOff kLedStateOff 0.

(** [boardLedInit]; [kmalloc_ok] tells whether the allocation succeeds. *)
Definition boardLedInit (chip : Chip) (kmalloc_ok : bool) (cLedMapping : list LED_MAP_PAIR)
    (d : led_dev) : option led_dev :=
  let g := mkGpio (GPIODir (GPIO d)) (GPIOio (GPIO d)) (SerialLed (GPIO d))
             (set_bits (clear_bits (LEDCtrl (GPIO d)) LED_INTERVAL_SET_MASK)
                LED_INTERVAL_SET_80MS) in
  let none {A} := replicate (Z.to_nat MAX_VIRT_LEDS) (@None A) in
  n ← count_leds [] cLedMapping 0;
  if kmalloc_ok then
    '(needTimer, d) ← fill_leds chip [] cLedMapping 0 false
       (mkDev n (replicate n LED_ZERO) none none none (gTimerOn d)
          (gBlinkOnceTimerOn d) g (hw_log d));
    Some (if (needTimer : bool) then ledTimerStart d else d)
  else
    Some (mkDev n [] none none none (gTimerOn d) (gBlinkOnceTimerOn d) g (hw_log d)).

(** ** Requests *)

(** [fn[(int) name]] of an array of [MAX_VIRT_LEDS] elements. *)
Definition at_name {A} (l : list A) (name : Z) : option A :=
  if (0 <=? name) && (name <? MAX_VIRT_LEDS) then l !! Z.to_nat name else None.

(** Call a registered handler, or do nothing without one. *)
Definition call_hw (f : option Z) (name : Z) (s : BOARD_LED_STATE) (d : led_dev) : led_dev :=
  match f with Some h => with_log d (h, name, s) | None => d end.

(** The final [switch] of [boardLedCtrl] on a LED driven by GPIO. *)
Definition led_ctrl_gpio (chip : Chip) (name : Z) (s : BOARD_LED_STATE) (i : nat)
    (hw hwFail : option Z) (d : led_dev) : option led_dev :=
  p ← gLed d !! i;
  match s with
  | kLedStateOn =>
      d ← (if negb (ledMaskFail p =? 0) then ledOffFail chip i d
           else Some (call_hw hwFail name kLedStateOff d));
      ledOn chip i d
  | kLedStateOff =>
      d ← (if negb (ledMaskFail p =? 0) then ledOffFail chip i d
           else Some (call_hw hwFail name kLedStateOff d));
      ledOff chip i d
  | kLedStateFail =>
      d ← (if negb (ledMask p =? 0) then ledOff chip i d
           else Some (call_hw hw name kLedStateOff d));
      ledOnFail chip i d
  | kLedStateBlinkOnce =>
      if blinks_on (savedLedState p) then Some d
      else if negb (blinkCountDown p =? 0) || gBlinkOnceTimerOn d then Some d
      else
        d ← ledToggle chip i d;
        Some (ledTimerStart
          (put_led d i (set_countdown 1 (set_state kLedStateBlinkOnce (savedLedState p) p))))
  | kLedStateSlowBlinkContinues =>
      Some (ledTimerStart (put_led d i (set_countdown kSlowBlinkCount (set_state s s p))))
  | kLedStateFastBlinkContinues =>
      Some (ledTimerStart (put_led d i (set_countdown kFastBlinkCount (set_state s s p))))
  | kLedStateInvalid _ => Some d
  end.

(** Do [f] on the LED if there is one. *)
Definition if_led (pLed : option nat) (f : nat -> led_dev -> option led_dev) (d : led_dev)
    : option led_dev :=
  match pLed with Some i => f i d | None => Some d end.

Definition is_fail (s : BOARD_LED_STATE) : bool := bool_decide (s = kLedStateFail).

Definition boardLedCtrl (chip : Chip) (name : Z) (s : BOARD_LED_STATE) (d : led_dev)
    : option led_dev :=
  pLed ← (if name <? MAX_VIRT_LEDS then at_name (gpVirtLeds d) name else Some None);
  hw ← at_name (gLedHwFunc d) name;
  hwFail ← at_name (gLedHwFailFunc d) name;
  match is_fail s, hw, hwFail with
  | false, Some h, _ =>
      d ← match hwFail with
          | Some _ => Some (call_hw hwFail name kLedStateOff d)
          | None => if_led pLed (ledOffFail chip) d
          end;
      Some (with_log d (h, name, s))
  | true, _, Some h =>
      d ← match hw with
          | Some _ => Some (call_hw hw name kLedStateOff d)
          | None => if_led pLed (ledOff chip) d
          end;
      Some (with_log d (h, name, s))
  | _, _, _ =>
      match pLed with
      | None => Some d
      | Some i =>
          p ← gLed d !! i;
          let s' := if is_fail s && (ledMaskFail p =? 0)
                    then kLedStateSlowBlinkContinues else s in
          led_ctrl_gpio chip name s' i hw hwFail d
      end
  end.

(** [kerSysLedRegisterHwHandler]: a negative name writes before the array. *)
Definition kerSysLedRegisterHwHandler (name : Z) (ledHwFunc : option Z) (ledFailType : Z)
    (d : led_dev) : option led_dev :=
  if name <? MAX_VIRT_LEDS then
    if 0 <=? name then
      let set l := <[Z.to_nat name := ledHwFunc]> l in
      Some (if ledFailType =? 1 then
              mkDev (gLedCount d) (gLed d) (gpVirtLeds d) (gLedHwFunc d)
                (set (gLedHwFailFunc d)) (gTimerOn d) (gBlinkOnceTimerOn d) (GPIO d) (hw_log d)
            else
              mkDev (gLedCount d) (gLed d) (gpVirtLeds d) (set (gLedHwFunc d))
                (gLedHwFailFunc d) (gTimerOn d) (gBlinkOnceTimerOn d) (GPIO d) (hw_log d))
    else None
  else Some d.

(** [kerSysLedCtrl] of [board.c]. *)
Definition kerSysLedCtrl (chip : Chip) (g_ledInitialized : bool) (name : Z)
    (s : BOARD_LED_STATE) (d : led_dev) : option led_dev :=
  if g_ledInitialized then boardLedCtrl chip name s d else Some d.
