(* ===== verification/LedSpec.v ===== *)
(** * LED driver: invariant, safety and blinking

    The driver is a state machine whose steps are requests, handler
    registrations and the two timer expiries; [led_run] executes a sequence of
    them.  The invariant of the driver state is preserved by every step, and
    under it no step leaves an array. *)

From S2P Require Import Prelude BoardDefs Led.

(** ** Events *)

Inductive led_event :=
  | EvCtrl (name : Z) (s : BOARD_LED_STATE)
  | EvRegister (name : Z) (f : option Z) (ledFailType : Z)
  | EvLedTimer
  | EvBlinkOnceTimer.

(** The kernel runs an expiry function only when its timer is armed. *)
Definition led_step (chip : Chip) (e : led_event) (d : led_dev) : option led_dev :=
  match e with
  | EvCtrl name s => boardLedCtrl chip name s d
  | EvRegister name f t => kerSysLedRegisterHwHandler name f t d
  | EvLedTimer => if gTimerOn d then ledTimerExpire chip d else Some d
  | EvBlinkOnceTimer => Some (if gBlinkOnceTimerOn d then blinkOnceTimerExpire d else d)
  end.

Fixpoint led_run (chip : Chip) (es : list led_event) (d : led_dev) : option led_dev :=
  match es with
  | [] => Some d
  | e :: es' => led_step chip e d ≫= led_run chip es'
  end.

(** A name inside the arrays. *)
Definition name_ok (name : Z) : Prop := 0 <= name < MAX_VIRT_LEDS.

Definition event_ok (e : led_event) : Prop :=
  match e with EvCtrl name _ | EvRegister name _ _ => name_ok name | _ => True end.

(** ** Invariant *)

(** The timer still has work to do for a LED in this state. *)
Definition pending (s : BOARD_LED_STATE) : bool :=
  match s with
  | kLedStateBlinkOnce | kLedStateSlowBlinkContinues | kLedStateFastBlinkContinues => true
  | _ => false
  end.

(** The states a LED rests in between single blinks. *)
Definition settled (s : BOARD_LED_STATE) : bool :=
  match s with kLedStateBlinkOnce | kLedStateInvalid _ => false | _ => true end.

(** [timer] tells whether the LED timer is armed. *)
Definition led_ok (timer : bool) (p : LED_INFO) : Prop :=
  (blinkCountDown p = 0 \/ blinkCountDown p = 1 /\ timer = true) /\
  (pending (ledState p) = true -> timer = true) /\
  settled (savedLedState p) = true /\
  (ledState p = savedLedState p \/
   ledState p = kLedStateBlinkOnce /\ blinks_on (savedLedState p) = false).

Record led_shape (d : led_dev) : Prop := {
  shape_count : gLedCount d = length (gLed d);
  shape_virt_len : length (gpVirtLeds d) = 15%nat;
  shape_hw_len : length (gLedHwFunc d) = 15%nat;
  shape_hwf_len : length (gLedHwFailFunc d) = 15%nat;
  shape_virt : forall k i, gpVirtLeds d !! k = Some (Some i) -> (i < length (gLed d))%nat
}.

(** The invariant when the expiry loop has passed the first [n] LEDs; the
    others were left by an armed timer. *)
Definition led_inv_at (n : nat) (d : led_dev) : Prop :=
  led_shape d /\
  forall j p, gLed d !! j = Some p ->
    led_ok (if decide (j < n)%nat then gTimerOn d else true) p.

Definition led_inv (d : led_dev) : Prop := led_inv_at (length (gLed d)) d.

Create HintDb led.

Lemma led_ok_armed t p : led_ok t p -> led_ok true p.
Proof. intros (H1 & H2 & H3 & H4). split_and!; try done. destruct H1 as [|[]]; auto. Qed.

Lemma led_ok_at (P : Prop) (dec : Decision P) t p :
  led_ok t p -> led_ok (if decide P then t else true) p.
Proof. destruct (decide P); [done|apply led_ok_armed]. Qed.

Lemma led_ok_steady t c s p :
  settled s && negb (pending s) = true -> c = 0 \/ c = 1 /\ t = true -> blinkCountDown p = c ->
  led_ok t (set_state s s p).
Proof. intros Hp Hc E. destruct s, p; cbn in *; subst; split_and!; cbn; auto; done. Qed.

Lemma led_ok_forever t s c p :
  t = true -> s = kLedStateSlowBlinkContinues \/ s = kLedStateFastBlinkContinues ->
  c = 0 \/ c = 1 -> led_ok t (set_countdown c (set_state s s p)).
Proof. intros -> [-> | ->] [-> | ->]; split_and!; cbn; auto. Qed.

Lemma led_shape_put d i p : led_shape d -> led_shape (put_led d i p).
Proof. intros []. constructor; cbn; rewrite ?length_insert; eauto. Qed.

Lemma led_inv_at_put n d i p :
  led_inv_at n d -> led_ok (if decide (i < n)%nat then gTimerOn d else true) p ->
  led_inv_at n (put_led d i p).
Proof.
  intros [Hs Hl] Hp. split; [by apply led_shape_put|].
  intros j q. cbn. intros [(<- & <- & _)|[_ E]]%list_lookup_insert_Some; [done|by apply Hl].
Qed.

Lemma led_inv_at_gpio n d g : led_inv_at n d -> led_inv_at n (with_gpio d g).
Proof. intros [[] Hl]. split; [by constructor|done]. Qed.

Lemma led_inv_at_log n d c : led_inv_at n d -> led_inv_at n (with_log d c).
Proof. intros [[] Hl]. split; [by constructor|done]. Qed.

Lemma led_inv_at_once n d b : led_inv_at n d -> led_inv_at n (with_once d b).
Proof. intros [[] Hl]. split; [by constructor|done]. Qed.

Lemma led_inv_at_start n d : led_inv_at n d -> led_inv_at n (ledTimerStart d).
Proof.
  unfold ledTimerStart. destruct (gTimerOn d) eqn:E; [done|]. intros [[] Hl].
  split; [by constructor|]. intros j p Hj%Hl%led_ok_armed.
  by destruct (decide (j < n)%nat).
Qed.

(** Once the timer is armed the processed LEDs need no distinction. *)
Lemma led_inv_at_put_start n d i p :
  led_inv_at n d -> led_ok true p -> led_inv_at n (ledTimerStart (put_led d i p)).
Proof.
  intros Hd Hp. pose proof Hd as [Hs Hl]. unfold ledTimerStart. change (gTimerOn (put_led d i p)) with (gTimerOn d).
  destruct (gTimerOn d) eqn:E.
  - apply led_inv_at_put; [done|]. rewrite E. by destruct (decide _).
  - destruct (led_shape_put _ i p Hs). split; [by constructor|].
    intros j q [(<- & <- & _)|[_ Hj%Hl%led_ok_armed]]%list_lookup_insert_Some;
      by destruct (decide _).
Qed.

#[export] Hint Resolve led_inv_at_gpio led_inv_at_log led_inv_at_once led_inv_at_start : led.

(** ** Every operation preserves the invariant *)

(** An operation on the LED [i] succeeds and keeps the invariant. *)
Definition led_safe (n : nat) (r : option led_dev) : Prop :=
  exists d, r = Some d /\ led_inv_at n d /\ length (gLed d) = n.

Lemma led_inv_lookup n d j p :
  led_inv_at n d -> length (gLed d) = n -> gLed d !! j = Some p -> led_ok (gTimerOn d) p.
Proof.
  intros [_ H] <- Hj. specialize (H _ _ Hj). apply lookup_lt_Some in Hj.
  by rewrite decide_True in H.
Qed.

(** Replacing a LED by one that is fine keeps the invariant. *)
Lemma led_inv_put n d i p :
  led_inv_at n d -> length (gLed d) = n -> led_ok (gTimerOn d) p ->
  led_inv_at n (put_led d i p) /\ length (gLed (put_led d i p)) = n.
Proof.
  intros Hd Hn Hp. split; [|cbn; by rewrite length_insert].
  apply led_inv_at_put; [done|]. by apply led_ok_at.
Qed.

Lemma led_safe_put n d g i p :
  led_inv_at n d -> length (gLed d) = n -> led_ok (gTimerOn d) p ->
  led_safe n (Some (put_led (with_gpio d g) i p)).
Proof.
  intros Hd Hn Hp. eexists. split; [done|].
  apply led_inv_put; [by apply led_inv_at_gpio|done..].
Qed.

Lemma led_safe_start n d i p :
  led_inv_at n d -> length (gLed d) = n -> led_ok true p ->
  led_safe n (Some (ledTimerStart (put_led d i p))).
Proof.
  intros Hd Hn Hp. eexists. split; [done|]. split; [by apply led_inv_at_put_start|].
  unfold ledTimerStart. destruct gTimerOn; cbn; by rewrite length_insert.
Qed.

Section Operations.
Variables (chip : Chip) (n i : nat) (d : led_dev).
Hypotheses (Hd : led_inv_at n d) (Hn : length (gLed d) = n) (Hi : (i < n)%nat).

Lemma led_safe_id : led_safe n (Some d).
Proof. by exists d. Qed.

Lemma led_safe_steady g s p :
  gLed d !! i = Some p -> settled s && negb (pending s) = true ->
  led_safe n (Some (put_led (with_gpio d g) i (set_state s s p))).
Proof.
  intros Hp Hs. apply led_safe_put; [done..|].
  pose proof (led_inv_lookup _ _ _ _ Hd Hn Hp) as (Hc & _). by eapply led_ok_steady.
Qed.

Local Ltac by_pins op :=
  unfold op; destruct (lookup_lt_is_Some_2 (gLed d) i) as [p Hp]; [lia|];
  rewrite Hp; cbn [mbind option_bind];
  case_match; [by apply led_safe_steady|apply led_safe_id].

Lemma ledOn_safe : led_safe n (ledOn chip i d).
Proof. by_pins ledOn. Qed.
Lemma ledOff_safe : led_safe n (ledOff chip i d).
Proof. by_pins ledOff. Qed.
Lemma ledOnFail_safe : led_safe n (ledOnFail chip i d).
Proof. by_pins ledOnFail. Qed.
Lemma ledOffFail_safe : led_safe n (ledOffFail chip i d).
Proof. by_pins ledOffFail. Qed.

Lemma call_hw_safe f name s : led_safe n (Some (call_hw f name s d)).
Proof.
  destruct f; [|apply led_safe_id]. eexists. split; [done|].
  split; [by apply led_inv_at_log|done].
Qed.
End Operations.

Lemma led_safe_bind n r f :
  led_safe n r -> (forall d, led_inv_at n d -> length (gLed d) = n -> led_safe n (f d)) ->
  led_safe n (r ≫= f).
Proof. intros (d & -> & Hd & Hn) Hf. by apply Hf. Qed.

#[export] Hint Resolve led_safe_id ledOn_safe ledOff_safe ledOnFail_safe ledOffFail_safe
  call_hw_safe led_safe_start : led.

(** The [switch] of [boardLedCtrl]. *)
Lemma led_ctrl_gpio_safe chip name s i hw hwFail n d :
  led_inv_at n d -> length (gLed d) = n -> (i < n)%nat ->
  led_safe n (led_ctrl_gpio chip name s i hw hwFail d).
Proof.
  intros Hd Hn Hi. unfold led_ctrl_gpio.
  destruct (lookup_lt_is_Some_2 (gLed d) i) as [p Hp]; [lia|]. rewrite Hp.
  cbn [mbind option_bind].
  assert (Hcall : forall (b : bool) (f : option led_dev) h st, led_safe n f ->
            led_safe n (if b then f else Some (call_hw h name st d)))
    by (intros [] ??? ?; auto with led).
  destruct s; try (apply led_safe_bind; [by auto with led|auto with led]); try by apply led_safe_id.
  - destruct (blinks_on _) eqn:Eb; [by apply led_safe_id|].
    case_match; [by apply led_safe_id|]. unfold ledToggle. rewrite Hp. cbn [mbind option_bind].
    apply led_safe_start; [by apply led_inv_at_gpio|done|].
    pose proof (led_inv_lookup _ _ _ _ Hd Hn Hp) as (_ & _ & Hs & _).
    split_and!; cbn; auto.
  - apply led_safe_start; [done..|]. apply led_ok_forever; auto.
  - apply led_safe_start; [done..|]. apply led_ok_forever; auto.
Qed.

Lemma at_name_Some {A} (l : list A) name :
  length l = 15%nat -> name_ok name ->
  exists x, at_name l name = Some x /\ l !! Z.to_nat name = Some x.
Proof.
  unfold name_ok, at_name, MAX_VIRT_LEDS. intros Hl Hr.
  destruct (lookup_lt_is_Some_2 l (Z.to_nat name)) as [x Hx]; [lia|].
  exists x. ztest. cbn. done.
Qed.

Lemma boardLedCtrl_safe chip name s n d :
  led_inv_at n d -> length (gLed d) = n -> name_ok name ->
  led_safe n (boardLedCtrl chip name s d).
Proof.
  intros Hd Hn Hname. pose proof Hd as [[_ Hv Hh Hf Hvirt] _]. unfold boardLedCtrl.
  destruct (at_name_Some _ _ Hv Hname) as (pLed & E1 & Hlk).
  destruct (at_name_Some _ _ Hh Hname) as (hw & E2 & _).
  destruct (at_name_Some _ _ Hf Hname) as (hwf & E3 & _).
  assert (Ei : forall i, pLed = Some i -> (i < n)%nat) by (intros i ->; rewrite <- Hn; eauto).
  assert ((name <? MAX_VIRT_LEDS) = true) as -> by (apply Z.ltb_lt; apply Hname).
  rewrite E1, E2, E3. cbn [mbind option_bind].
  assert (Hlog : forall d' c, led_inv_at n d' -> length (gLed d') = n ->
            led_safe n (Some (with_log d' c))) by (intros; eexists; eauto with led).
  assert (Hled : forall f, (forall i, (i < n)%nat -> led_safe n (f i d)) ->
            led_safe n (if_led pLed f d))
    by (intros f Hf'; destruct pLed; cbn; [auto|by apply led_safe_id]).
  assert (Hgp : led_safe n (match pLed with
      | None => Some d
      | Some i => p ← gLed d !! i;
          led_ctrl_gpio chip name (if is_fail s && (ledMaskFail p =? 0)
             then kLedStateSlowBlinkContinues else s) i hw hwf d end)).
  { destruct pLed as [i|]; [|by apply led_safe_id].
    destruct (lookup_lt_is_Some_2 (gLed d) i) as [p Hp]; [rewrite Hn; auto|]. rewrite Hp.
    cbn [mbind option_bind]. apply led_ctrl_gpio_safe; auto. }
  destruct (is_fail s), hw, hwf; cbn [andb] in *; try done; apply led_safe_bind; auto with led.
Qed.

Lemma register_safe name f t n d :
  led_inv_at n d -> length (gLed d) = n -> name_ok name ->
  led_safe n (kerSysLedRegisterHwHandler name f t d).
Proof.
  intros [[] Hl] Hn [Hlo Hhi]. unfold kerSysLedRegisterHwHandler. ztest;
    (eexists; split; [done|]; split; [|done]; split; [|done]);
    constructor; cbn; rewrite ?length_insert; done.
Qed.

(** ** The timer *)

Lemma ledToggle_eq chip i d p :
  gLed d !! i = Some p -> ledToggle chip i d = Some (with_gpio d (toggle_pins chip p (GPIO d))).
Proof. unfold ledToggle. by intros ->. Qed.

(** What the loop body does to the LED [i] itself: reload or count down, end a
    single blink, and arm the timer if the LED goes on blinking. *)
Definition expire_led (p : LED_INFO) : LED_INFO :=
  match ledState p with
  | kLedStateOn | kLedStateOff | kLedStateFail => set_countdown 0 p
  | kLedStateBlinkOnce => set_state (savedLedState p) (savedLedState p) (set_countdown 0 p)
  | kLedStateSlowBlinkContinues =>
      set_countdown (if blinkCountDown p =? 0 then kSlowBlinkCount else blinkCountDown p - 1) p
  | kLedStateFastBlinkContinues =>
      set_countdown (if blinkCountDown p =? 0 then kFastBlinkCount else blinkCountDown p - 1) p
  | kLedStateInvalid _ => p
  end.

(** The pins of the LED are toggled at this expiry. *)
Definition due (p : LED_INFO) : bool :=
  match ledState p with
  | kLedStateBlinkOnce => true
  | kLedStateSlowBlinkContinues | kLedStateFastBlinkContinues => blinkCountDown p =? 0
  | _ => false
  end.

Definition expire_gpio (chip : Chip) (p : LED_INFO) (g : gpio_regs) : gpio_regs :=
  if due p then toggle_pins chip p g else g.

Definition is_once (s : BOARD_LED_STATE) : bool := bool_decide (s = kLedStateBlinkOnce).

Lemma led_expire_one_eq chip i d p :
  gLed d !! i = Some p ->
  led_expire_one chip i d =
    Some (mkDev (gLedCount d) (<[i := expire_led p]> (gLed d)) (gpVirtLeds d) (gLedHwFunc d)
            (gLedHwFailFunc d) (gTimerOn d || blinks_on (ledState (expire_led p)))
            (gBlinkOnceTimerOn d || is_once (ledState p))
            (expire_gpio chip p (GPIO d)) (hw_log d)).
Proof.
  intros Hp.
  assert (Hi : (i < length (gLed d))%nat) by by eapply lookup_lt_Some.
  unfold led_expire_one. rewrite Hp. cbn [mbind option_bind].
  destruct d as [c leds v hw hwf ton once g lg], p as [m a s mf af sf st sv n].
  unfold expire_led, expire_gpio, due, is_once, blink_step, ledToggle, blinkOnceTimerStart,
    ledTimerStart.
  destruct st; cbn in *.
  all: try (rewrite ?orb_false_r; reflexivity).
  - destruct once; cbn; rewrite Hp; cbn; destruct sv, ton; reflexivity.
  - destruct (n =? 0); cbn; rewrite ?list_lookup_insert_eq by done; cbn; destruct ton;
      rewrite ?orb_false_r; reflexivity.
  - destruct (n =? 0); cbn; rewrite ?list_lookup_insert_eq by done; cbn; destruct ton;
      rewrite ?orb_false_r; reflexivity.
  - rewrite !orb_false_r, list_insert_id by done. reflexivity.
Qed.

Definition still_blinks (p : LED_INFO) : bool := blinks_on (ledState (expire_led p)).
Definition once_led (p : LED_INFO) : bool := is_once (ledState p).

Lemma led_expire_loop_eq chip post : forall pre d,
  gLed d = pre ++ post ->
  led_expire_loop chip (length pre) (length post) d =
    Some (mkDev (gLedCount d) (pre ++ map expire_led post) (gpVirtLeds d) (gLedHwFunc d)
            (gLedHwFailFunc d) (gTimerOn d || existsb still_blinks post)
            (gBlinkOnceTimerOn d || existsb once_led post)
            (foldl (fun g p => expire_gpio chip p g) (GPIO d) post) (hw_log d)).
Proof.
  induction post as [|p post IH]; intros pre d E.
  - cbn. rewrite app_nil_r in E. rewrite !orb_false_r, app_nil_r. destruct d; cbn in *.
    by subst.
  - cbn [length led_expire_loop].
    rewrite (led_expire_one_eq _ _ _ p) by (rewrite E; by apply list_lookup_middle).
    cbn [mbind option_bind].
    replace (S (length pre)) with (length (pre ++ [expire_led p]))
      by (rewrite length_app; cbn; lia).
    rewrite IH.
    + cbn. by rewrite <- !app_assoc, <- !orb_assoc.
    + cbn. rewrite E, insert_app_r_alt, Nat.sub_diag by lia. cbn. by rewrite <- app_assoc.
Qed.

Lemma ledTimerExpire_closed chip d :
  gLedCount d = length (gLed d) ->
  ledTimerExpire chip d =
    Some (mkDev (gLedCount d) (map expire_led (gLed d)) (gpVirtLeds d) (gLedHwFunc d)
            (gLedHwFailFunc d) (existsb still_blinks (gLed d))
            (gBlinkOnceTimerOn d || existsb once_led (gLed d))
            (foldl (fun g p => expire_gpio chip p g) (GPIO d) (gLed d)) (hw_log d)).
Proof.
  intros H. unfold ledTimerExpire. rewrite H.
  change 0%nat with (length (@nil LED_INFO)). rewrite (led_expire_loop_eq _ (gLed d)) by done.
  cbn. by rewrite H.
Qed.

(** After its expiry a LED is fine for a timer that is armed if it blinks on. *)
Lemma expire_led_ok p (t : bool) :
  led_ok true p -> (still_blinks p = true -> t = true) -> led_ok t (expire_led p).
Proof.
  unfold still_blinks, expire_led, kSlowBlinkCount, kFastBlinkCount.
  destruct p as [m a s mf af sf st sv n]. unfold led_ok; cbn. intros (Hc & _ & Hs & Hst) Ht.
  assert (Hc' : n = 0 \/ n = 1) by (destruct Hc as [|[]]; auto). clear Hc.
  destruct st; cbn in *; destruct Hst as [<-|[? Hb]]; try done; cbn; split_and!; auto;
    try (intros; by destruct sv); destruct Hc' as [-> | ->]; rewrite ?Ht by done; vm_compute; auto.
Qed.

Lemma ledTimerExpire_safe chip n d :
  led_inv_at n d -> length (gLed d) = n -> led_safe n (ledTimerExpire chip d).
Proof.
  intros Hd Hn. pose proof Hd as [[Hc Hv Hh Hf Hvirt] Hl].
  rewrite ledTimerExpire_closed by done. eexists. split; [done|].
  split; [|cbn; by rewrite length_map]. split.
  - constructor; cbn; rewrite ?length_map; eauto.
  - cbn. intros j q. rewrite list_lookup_fmap. intros (p & Hp & ->)%fmap_Some.
    apply led_ok_at, expire_led_ok; [by eapply led_ok_armed, Hl|].
    intros Hb. apply existsb_exists. exists p. split; [|done].
    apply list_elem_of_In. by eapply list_elem_of_lookup_2.
Qed.

Lemma led_step_safe chip e n d :
  led_inv_at n d -> length (gLed d) = n -> event_ok e -> led_safe n (led_step chip e d).
Proof.
  intros Hd Hn He. destruct e as [name s|name f t| |]; cbn in *.
  - by apply boardLedCtrl_safe.
  - by apply register_safe.
  - destruct (gTimerOn d); [by apply ledTimerExpire_safe|by apply led_safe_id].
  - destruct (gBlinkOnceTimerOn d); [|by apply led_safe_id].
    eexists. split; [done|]. split; [by apply led_inv_at_once|done].
Qed.

Lemma led_run_total chip es d :
  led_inv d -> Forall event_ok es ->
  exists d', led_run chip es d = Some d' /\ led_inv d' /\ length (gLed d') = length (gLed d).
Proof.
  unfold led_inv. remember (length (gLed d)) as n eqn:Hn. symmetry in Hn. intros Hd Hes.
  revert d Hd Hn. induction Hes as [|e es He Hes IH]; intros d Hd Hn; [by exists d; rewrite Hn|].
  destruct (led_step_safe chip e n d) as (d1 & E & Hd1 & Hn1); [done..|].
  cbn. rewrite E. cbn. by apply IH.
Qed.

(** C1: safety of the LED driver.  From a state that satisfies the invariant,
    any sequence of LED requests (of any state, for a name inside the arrays),
    handler registrations and timer expiries runs to its end without an access
    outside [gLed], [gpVirtLeds] or the handler arrays, and ends in a state that
    satisfies the invariant: in particular a LED that still has to blink always
    has an armed timer. *)
Theorem led_run_safe chip es d :
  led_inv d -> Forall event_ok es ->
  exists d', led_run chip es d = Some d' /\ led_inv d' /\ length (gLed d') = length (gLed d).
Proof. apply led_run_total. Qed.

Lemma led_run_safe_witness :
  let d := mkDev 1 [mkLed 2 1 0 0 0 0 kLedStateOn kLedStateOn 0]
             (Some 0%nat :: replicate 14 None) (replicate 15 None) (replicate 15 None)
             false false (mkGpio 0 0 0 0) [] in
  let es := [EvCtrl kLedAdsl kLedStateBlinkOnce; EvLedTimer;
             EvCtrl kLedAdsl kLedStateFail; EvLedTimer] in
  exists d', led_run BCM96338 es d = Some d' /\ led_inv d' /\ length (gLed d') = 1%nat.
Proof.
  apply led_run_safe; [split|by repeat constructor].
  - constructor; try reflexivity. intros k i H.
    destruct k as [|k]; [cbn in *; simplify_eq; lia|].
    by apply (lookup_replicate_1 14 (@None nat)) in H as [? _].
  - intros [|j] p H; cbn in H; [|done]. simplify_eq. split_and!; cbn; auto; done.
Defined.

(** ** Initialisation establishes the invariant *)

(** A map entry the driver can use: a name inside the arrays, a steady initial
    state. *)
Definition map_ok (m : LED_MAP_PAIR) : bool :=
  (0 <=? ledName m) && (ledName m <? MAX_VIRT_LEDS) &&
  settled (ledInitState m) && negb (pending (ledInitState m)).

Lemma count_leds_le rest : forall prev c n, count_leds prev rest c = Some n -> (c <= n)%nat.
Proof.
  induction rest as [|p rest IH]; cbn; intros prev c n H; [done|].
  case_match; [by simplify_eq|]. apply IH in H. case_match; lia.
Qed.

Lemma set_virt_safe n d name i :
  led_inv_at n d -> length (gLed d) = n -> name_ok name -> (i < n)%nat ->
  led_safe n (set_virt d name i).
Proof.
  unfold set_virt. intros [[] Hl] Hn [] Hi. ztest. cbn. eexists. split; [done|].
  split; [|done]. split; [|done]. constructor; cbn; rewrite ?length_insert; try done.
  intros k j [(_ & [= <-] & _)|[_ Hk]]%list_lookup_insert_Some; [lia|eauto].
Qed.

Lemma led_ok_merge t m p : led_ok t p -> led_ok t (merge_led m p).
Proof. done. Qed.

Lemma merge_loop_safe m n : forall k i d,
  led_inv_at n d -> length (gLed d) = n -> name_ok (ledName m) -> (i + k <= n)%nat ->
  led_safe n (merge_loop m i k d).
Proof.
  induction k as [|k IH]; intros i d Hd Hn Hm Hi; cbn; [by apply led_safe_id|].
  destruct (lookup_lt_is_Some_2 (gLed d) i) as [p Hp]; [lia|]. rewrite Hp. cbn.
  case_match; [|apply IH; auto; lia].
  destruct (led_inv_put n d i (merge_led m p)) as [Hd' Hn']; [done..| |].
  - by eapply led_ok_merge, led_inv_lookup.
  - apply set_virt_safe; auto; lia.
Qed.

Lemma initLedInfo_safe chip m i n d :
  map_ok m = true -> led_inv_at n d -> length (gLed d) = n -> (i < n)%nat ->
  exists d', initLedInfo chip m i d = Some (false, d') /\ led_inv_at n d' /\
    length (gLed d') = n.
Proof.
  unfold map_ok, initLedInfo. intros Hm Hd Hn Hi. zprop.
  destruct (lookup_lt_is_Some_2 (gLed d) i) as [p Hp]; [lia|]. rewrite Hp.
  cbn [mbind option_bind].
  assert (Hfin : forall f p', led_ok (gTimerOn d) p' ->
            (forall d', led_inv_at n d' -> length (gLed d') = n -> led_safe n (f d')) ->
            exists d', (d' ← f (put_led d i p'); Some (false, d')) = Some (false, d') /\
              led_inv_at n d' /\ length (gLed d') = n).
  { intros f p' Hp' Hf. destruct (led_inv_put n d i p' Hd Hn Hp') as [Hq1 Hq2].
    destruct (Hf _ Hq1 Hq2) as (d' & -> & ? & ?). by exists d'. }
  destruct (ledInitState m); try done;
    (apply Hfin; [split_and!; cbn; auto; done|auto with led]).
Qed.

Lemma fill_leds_safe chip n rest : forall prev cur c d need,
  Forall (fun m => map_ok m = true) rest -> count_leds prev rest c = Some n ->
  (cur <= c)%nat -> led_inv_at n d -> length (gLed d) = n ->
  exists need' d', fill_leds chip prev rest cur need d = Some (need', d') /\
    led_inv_at n d' /\ length (gLed d') = n.
Proof.
  induction rest as [|p rest IH]; cbn; intros prev cur c d need Hall Hcnt Hcur Hd Hn; [done|].
  apply Forall_cons in Hall as [Hp Hall].
  destruct (ledName p =? kLedEnd); [by eauto|].
  pose proof (count_leds_le _ _ _ _ Hcnt) as Hle.
  assert (Hname : name_ok (ledName p)) by (unfold map_ok, name_ok in *; zprop; lia).
  destruct (Z.ltb_spec MAX_VIRT_LEDS (ledName p)); [unfold name_ok in *; lia|].
  destruct (alreadyUsed prev p).
  - destruct (merge_loop_safe p n cur 0 d) as (d1 & -> & ? & ?); [auto; lia..|].
    cbn. by eapply IH.
  - destruct (initLedInfo_safe chip p cur n d) as (d1 & -> & ? & ?); [auto; lia..|].
    cbn. destruct (set_virt_safe n d1 (ledName p) cur) as (d2 & -> & ? & ?); [auto; lia..|].
    cbn. eapply IH; eauto. lia.
Qed.

Lemma led_inv_zero n g once lg :
  led_inv_at n (mkDev n (replicate n LED_ZERO) (replicate 15 None) (replicate 15 None)
                  (replicate 15 None) false once g lg).
Proof.
  split.
  - constructor; cbn; rewrite ?length_replicate; try done.
    intros k i Hk. by apply (lookup_replicate_1 15 (@None nat)) in Hk as [? _].
  - intros j p [-> _]%lookup_replicate_1. apply led_ok_at. split_and!; cbn; auto.
Qed.

Lemma boardLedInit_ok chip cLedMapping d :
  Forall (fun m => map_ok m = true) cLedMapping ->
  (exists m, m ∈ cLedMapping /\ ledName m = kLedEnd) ->
  gTimerOn d = false ->
  exists d', boardLedInit chip true cLedMapping d = Some d' /\ led_inv d' /\
    count_leds [] cLedMapping 0 = Some (length (gLed d')).
Proof.
  intros Hall (m & Hin & Hm) Ht. unfold boardLedInit.
  assert (Hc : exists n, count_leds [] cLedMapping 0 = Some n).
  { clear Hall Ht. generalize (@nil LED_MAP_PAIR), 0%nat.
    induction Hin as [rest|p m rest _ IH]; intros prev c; cbn.
    - rewrite Hm. by eexists.
    - case_match; [by eexists|]. by apply IH. }
  destruct Hc as [n Hc]. rewrite Hc, Ht. cbn [mbind option_bind].
  edestruct (fill_leds_safe chip n cLedMapping [] 0 0) as (need & d' & -> & Hd' & Hn');
    [done|done|done|apply led_inv_zero|cbn; by rewrite length_replicate|].
  cbn. exists (if need then ledTimerStart d' else d'). split; [done|].
  unfold led_inv. destruct need; [|by rewrite Hn'].
  assert (length (gLed (ledTimerStart d')) = n) as ->
    by (unfold ledTimerStart; by destruct (gTimerOn d')).
  split; [by apply led_inv_at_start|done].
Qed.

(** Initialisation.  For a LED map that ends in [kLedEnd] and whose entries
    have names inside the arrays and steady initial states, [boardLedInit]
    stays inside the LED array it has sized in its first pass, although its two
    passes count the LEDs separately, and establishes the driver's invariant
    (the LED timer not being armed before). *)
Theorem boardLedInit_inv chip cLedMapping d :
  Forall (fun m => map_ok m = true) cLedMapping ->
  (exists m, m ∈ cLedMapping /\ ledName m = kLedEnd) ->
  gTimerOn d = false ->
  exists d', boardLedInit chip true cLedMapping d = Some d' /\ led_inv d' /\
    count_leds [] cLedMapping 0 = Some (length (gLed d')).
Proof. apply boardLedInit_ok. Qed.

Lemma boardLedInit_inv_witness :
  let map := [Build_LED_MAP_PAIR kLedAdsl kLedStateOff 4 1 0 0 0 0;
              Build_LED_MAP_PAIR kLedPPP kLedStateOn 8 1 0 4 1 0;
              Build_LED_MAP_PAIR kLedSes kLedStateOff 4 0 0 0 0 0;
              Build_LED_MAP_PAIR kLedEnd kLedStateOff 0 0 0 0 0 0] in
  exists d', boardLedInit BCM96338 true map (mkDev 0 [] [] [] [] false false (mkGpio 0 0 0 0) [])
               = Some d' /\ led_inv d' /\ count_leds [] map 0 = Some (length (gLed d')).
Proof.
  apply boardLedInit_inv; [by repeat constructor| |reflexivity].
  eexists. split; [do 3 right; left|reflexivity].
Defined.

(** A request for a LED name outside [0 .. MAX_VIRT_LEDS - 1] leaves an
    array of the driver, and under the invariant these are the only requests
    that do: [boardLedCtrl] checks the name before it reads [gpVirtLeds] (from
    above only) and then indexes the handler arrays with it unchecked. *)
Theorem boardLedCtrl_fault_iff chip name s d :
  led_inv d -> boardLedCtrl chip name s d = None <-> ~ name_ok name.
Proof.
  intros Hd. split.
  - intros H Hname. by destruct (boardLedCtrl_safe chip name s _ d Hd eq_refl Hname) as (?&E&_);
      rewrite H in E.
  - intros Hname. unfold boardLedCtrl, at_name.
    assert ((0 <=? name) && (name <? MAX_VIRT_LEDS) = false) as ->
      by (unfold name_ok in *; ztest).
    by destruct (name <? MAX_VIRT_LEDS).
Qed.

Lemma boardLedCtrl_fault_iff_witness :
  boardLedCtrl BCM96338 15 kLedStateOff
    (mkDev 0 [] (replicate 15 None) (replicate 15 None) (replicate 15 None) false false
       (mkGpio 0 0 0 0) []) = None.
Proof.
  apply boardLedCtrl_fault_iff; [|unfold name_ok, MAX_VIRT_LEDS; lia].
  apply (led_inv_zero 0).
Defined.

(** The timer request of a LED is lost when another LED follows it in the
    map: [needTimer] is overwritten for each LED, so with an initial state
    [kLedStateSlowBlinkContinues] followed by a steady LED the driver starts
    with a blinking LED and no timer.  (The maps of the boards start every LED
    in [kLedStateOff].) *)
Theorem boardLedInit_loses_timer chip d :
  let entry name st mask := Build_LED_MAP_PAIR name st mask 0 0 0 0 0 in
  gTimerOn d = false ->
  exists d', boardLedInit chip true
      [entry kLedAdsl kLedStateSlowBlinkContinues 1; entry kLedPPP kLedStateOff 2;
       entry kLedEnd kLedStateOff 0] d = Some d' /\
    map ledState (gLed d') = [kLedStateSlowBlinkContinues; kLedStateOff] /\
    gTimerOn d' = false.
Proof. intros entry H. eexists. split; [reflexivity|]. done. Qed.

Lemma boardLedInit_loses_timer_witness :
  let entry name st mask := Build_LED_MAP_PAIR name st mask 0 0 0 0 0 in
  exists d', boardLedInit BCM96348 true
      [entry kLedAdsl kLedStateSlowBlinkContinues 1; entry kLedPPP kLedStateOff 2;
       entry kLedEnd kLedStateOff 0]
      (mkDev 0 [] [] [] [] false false (mkGpio 0 0 0 0) []) = Some d' /\
    map ledState (gLed d') = [kLedStateSlowBlinkContinues; kLedStateOff] /\
    gTimerOn d' = false.
Proof. intros entry. by apply boardLedInit_loses_timer. Defined.

(** ** Pins *)

(** The register that drives a LED, and a LED this chip can drive at all. *)
Definition pin_reg (serial : Z) (g : gpio_regs) : Z :=
  if serial =? 0 then GPIOio g else SerialLed g.
Definition drivable (chip : Chip) (serial : Z) : bool := (serial =? 0) || has_serial chip.

(** The pins of [mask] show the LED lit ([on]) or dark. *)
Definition pins_are (serial activeLow mask : Z) (on : bool) (g : gpio_regs) : Prop :=
  forall k, 0 <= k -> Z.testbit mask k = true ->
    Z.testbit (pin_reg serial g) k = xorb on (negb (activeLow =? 0)).

(** Bit [k] of the register selected by [serial] belongs to [mask]. *)
Definition owns (serial0 mask serial k : Z) : bool :=
  Bool.eqb (serial0 =? 0) (serial =? 0) && Z.testbit mask k.

Lemma testbit_set_bits reg mask k :
  Z.testbit (set_bits reg mask) k = Z.testbit reg k || Z.testbit mask k.
Proof. apply Z.lor_spec. Qed.

Lemma testbit_clear_bits reg mask k :
  0 <= k -> Z.testbit (clear_bits reg mask) k = Z.testbit reg k && negb (Z.testbit mask k).
Proof. intros. unfold clear_bits. by rewrite Z.land_spec, Z.lnot_spec. Qed.

(** Driving pins sets the pins of the mask and no other bit of a data register. *)
Lemma drive_pins_bit chip serial al mask on g serial' k :
  0 <= k -> drivable chip serial = true ->
  Z.testbit (pin_reg serial' (drive_pins chip serial al mask on g)) k =
    if owns serial mask serial' k then xorb on (negb (al =? 0))
    else Z.testbit (pin_reg serial' g) k.
Proof.
  unfold drivable, drive_pins, pin_reg, owns. intros Hk Hd.
  destruct (serial =? 0), (serial' =? 0), (has_serial chip), (xorb on _); try done; cbn;
    rewrite ?testbit_set_bits, ?testbit_clear_bits by done;
    destruct (Z.testbit mask k); rewrite ?orb_true_r, ?orb_false_r, ?andb_true_r, ?andb_false_r;
    done.
Qed.

(** The pins of a LED's failure light are not those of its normal light. *)
Definition pins_apart (p : LED_INFO) : Prop :=
  forall k, 0 <= k -> owns (ledSerial p) (ledMask p) (ledSerialFail p) k = true ->
    Z.testbit (ledMaskFail p) k = false.

Definition drive_normal (chip : Chip) (p : LED_INFO) (on : bool) : gpio_regs -> gpio_regs :=
  drive_pins chip (ledSerial p) (ledActiveLow p) (ledMask p) on.
Definition drive_fail (chip : Chip) (p : LED_INFO) (on : bool) : gpio_regs -> gpio_regs :=
  drive_pins chip (ledSerialFail p) (ledActiveLowFail p) (ledMaskFail p) on.

(** The LED named [name] is [p], driven by GPIO alone. *)
Definition gpio_led (d : led_dev) (name : Z) (i : nat) (p : LED_INFO) : Prop :=
  gpVirtLeds d !! Z.to_nat name = Some (Some i) /\ gLed d !! i = Some p /\
  gLedHwFunc d !! Z.to_nat name = Some None /\ gLedHwFailFunc d !! Z.to_nat name = Some None.

Lemma boardLedCtrl_gpio chip name s d i p :
  name_ok name -> gpio_led d name i p ->
  boardLedCtrl chip name s d =
    led_ctrl_gpio chip name (if is_fail s && (ledMaskFail p =? 0)
                             then kLedStateSlowBlinkContinues else s) i None None d.
Proof.
  intros Hn (Hv & Hp & Hh & Hf). unfold boardLedCtrl, at_name.
  assert ((0 <=? name) && (name <? MAX_VIRT_LEDS) = true) as -> by (unfold name_ok in *; ztest).
  assert ((name <? MAX_VIRT_LEDS) = true) as -> by (unfold name_ok in *; ztest).
  rewrite Hv, Hh, Hf. cbn [mbind option_bind]. rewrite Hp. by destruct (is_fail s).
Qed.

(** The effect of a steady request: the light that must be dark first, then the
    other. *)
Definition steady_gpio (chip : Chip) (s : BOARD_LED_STATE) (p : LED_INFO) (g : gpio_regs)
    : gpio_regs :=
  match s with
  | kLedStateFail => drive_fail chip p true (drive_normal chip p false g)
  | _ => drive_normal chip p (bool_decide (s = kLedStateOn))
           (if ledMaskFail p =? 0 then g else drive_fail chip p false g)
  end.

Lemma put_put_led d g i p q : put_led (with_gpio (put_led d i p) g) i q = put_led (with_gpio d g) i q.
Proof. unfold put_led, with_led, with_gpio. cbn. by rewrite list_insert_insert_eq. Qed.

Lemma led_ctrl_gpio_steady chip name s i d p :
  gLed d !! i = Some p -> settled s && negb (pending s) = true -> ledMask p <> 0 ->
  (s = kLedStateFail -> ledMaskFail p <> 0) ->
  led_ctrl_gpio chip name s i None None d =
    Some (put_led (with_gpio d (steady_gpio chip s p (GPIO d))) i (set_state s s p)).
Proof.
  intros Hp Hs Hm Hf.
  assert (Hi : (i < length (gLed d))%nat) by by eapply lookup_lt_Some.
  unfold led_ctrl_gpio, ledOn, ledOff, ledOnFail, ledOffFail, steady_gpio. rewrite Hp.
  cbn [mbind option_bind].
  destruct s; try done; cbn [bool_decide decide decide_rel];
    ztest; cbn [mbind option_bind call_hw]; cbn; rewrite ?Hp, ?list_lookup_insert_eq by done; cbn;
    ztest; rewrite ?put_put_led; try reflexivity.
  all: by destruct Hf.
Qed.

Lemma owns_apart p sr k :
  pins_apart p -> 0 <= k -> owns (ledSerial p) (ledMask p) sr k = true ->
  owns (ledSerialFail p) (ledMaskFail p) sr k = false.
Proof.
  unfold pins_apart, owns. intros Hap Hk H. apply andb_true_iff in H as [H1 H2].
  apply eqb_prop in H1. destruct (Bool.eqb (ledSerialFail p =? 0) (sr =? 0)) eqn:E; [|done].
  apply eqb_prop in E. cbn. apply Hap; [done|]. rewrite H1, E, H2. by destruct (sr =? 0).
Qed.

Lemma owns_self sr mask k : owns sr mask sr k = Z.testbit mask k.
Proof. unfold owns. by rewrite eqb_reflx. Qed.

Lemma steady_gpio_bit chip s p g sr k :
  settled s && negb (pending s) = true -> pins_apart p -> 0 <= k ->
  drivable chip (ledSerial p) = true -> drivable chip (ledSerialFail p) = true ->
  Z.testbit (pin_reg sr (steady_gpio chip s p g)) k =
    if owns (ledSerial p) (ledMask p) sr k then
      xorb (bool_decide (s = kLedStateOn)) (negb (ledActiveLow p =? 0))
    else if owns (ledSerialFail p) (ledMaskFail p) sr k then
      xorb (bool_decide (s = kLedStateFail)) (negb (ledActiveLowFail p =? 0))
    else Z.testbit (pin_reg sr g) k.
Proof.
  intros Hs Hap Hk Hd1 Hd2. pose proof (owns_apart p sr k Hap Hk) as Hex.
  assert (Hz : ledMaskFail p = 0 -> owns (ledSerialFail p) (ledMaskFail p) sr k = false)
    by (intros ->; unfold owns; by rewrite Z.testbit_0_l, andb_false_r).
  unfold steady_gpio, drive_normal, drive_fail.
  destruct s; try done; cbn [bool_decide decide decide_rel];
    try destruct (Z.eqb_spec (ledMaskFail p) 0) as [E|E];
    rewrite !drive_pins_bit by done;
    destruct (owns (ledSerial p) _ _ _); rewrite ?Hex, ?Hz by done; done.
Qed.

(** Steady requests.  On a board LED driven by GPIO pins with the invariant
    holding, the requests on, off and (with a failure light) fail set the LED's
    state, light exactly the light asked for - the normal light for on, the
    failure light for fail, none for off - and change no other bit of the two
    data registers and no other LED. *)
Theorem boardLedCtrl_steady chip name s d i p :
  name_ok name -> gpio_led d name i p -> settled s && negb (pending s) = true ->
  ledMask p <> 0 -> (s = kLedStateFail -> ledMaskFail p <> 0) -> pins_apart p ->
  drivable chip (ledSerial p) = true -> drivable chip (ledSerialFail p) = true ->
  exists d', boardLedCtrl chip name s d = Some d' /\
    gLed d' = <[i := set_state s s p]> (gLed d) /\
    pins_are (ledSerial p) (ledActiveLow p) (ledMask p) (bool_decide (s = kLedStateOn)) (GPIO d') /\
    pins_are (ledSerialFail p) (ledActiveLowFail p) (ledMaskFail p)
      (bool_decide (s = kLedStateFail)) (GPIO d') /\
    forall serial k, 0 <= k -> owns (ledSerial p) (ledMask p) serial k = false ->
      owns (ledSerialFail p) (ledMaskFail p) serial k = false ->
      Z.testbit (pin_reg serial (GPIO d')) k = Z.testbit (pin_reg serial (GPIO d)) k.
Proof.
  intros Hn Hl Hs Hm Hf Hap Hd1 Hd2. pose proof Hl as (_ & Hp & _).
  rewrite (boardLedCtrl_gpio _ _ _ _ _ _ Hn Hl).
  assert (is_fail s && (ledMaskFail p =? 0) = false) as ->.
  { unfold is_fail. case_bool_decide; [|done]. cbn. apply Z.eqb_neq. auto. }
  rewrite (led_ctrl_gpio_steady _ _ _ _ _ p) by done.
  eexists. split; [done|]. split; [done|]. cbn [GPIO with_gpio put_led with_led].
  split_and!.
  - intros k Hk Hb. rewrite steady_gpio_bit by done. by rewrite owns_self, Hb.
  - intros k Hk Hb. rewrite steady_gpio_bit by done.
    destruct (owns (ledSerial p) _ _ _) eqn:E; [|by rewrite owns_self, Hb].
    apply owns_apart in E; [|done..]. rewrite owns_self in E. congruence.
  - intros sr k Hk E1 E2. rewrite steady_gpio_bit by done. by rewrite E1, E2.
Qed.

(** A two-colour LED on the pins 0 (green) and 1 (red, active low). *)
Definition example_led : LED_INFO := mkLed 1 0 0 2 1 0 kLedStateOff kLedStateOff 0.
Definition example_dev : led_dev :=
  mkDev 1 [example_led] (Some 0%nat :: replicate 14 None) (replicate 15 None)
    (replicate 15 None) false false (mkGpio 0 4 0 0) [].

Lemma boardLedCtrl_steady_witness :
  exists d', boardLedCtrl BCM96338 kLedAdsl kLedStateFail example_dev = Some d' /\
    pins_are 0 0 1 false (GPIO d') /\ pins_are 0 1 2 true (GPIO d').
Proof.
  destruct (boardLedCtrl_steady BCM96338 kLedAdsl kLedStateFail example_dev 0 example_led)
    as (d' & E & _ & H1 & H2 & _); try done.
  - intros k Hk H. unfold owns in H. cbn in H. destruct (Z.eq_dec k 0) as [->|]; [done|].
    by rewrite (Z.bits_above_log2 1 k) in H by (cbn; lia).
  - by exists d'.
Defined.

(** ** Blinking *)

(** The pins of the LEDs; a mask is one GPIO, or none. *)
Definition led_pins (d : led_dev) : list (Z * Z) :=
  map (fun p => (ledSerial p, ledMask p)) (gLed d).
Definition one_pin (mask : Z) : Prop := mask = 0 \/ exists b, 0 <= b /\ mask = 2 ^ b.

(** Bit [k] of the data register selected by [sr] belongs to the LED [i] and to
    no other, and all LEDs are drivable and have one pin at most. *)
Definition sole_pin (chip : Chip) (pins : list (Z * Z)) (i : nat) (sr k : Z) : Prop :=
  Forall (fun sm => one_pin (snd sm) /\ drivable chip (fst sm) = true) pins /\
  forall j s m, pins !! j = Some (s, m) -> owns s m sr k = bool_decide (j = i).

Lemma toggle_pins_bit chip p g sr k :
  one_pin (ledMask p) -> drivable chip (ledSerial p) = true -> 0 <= k ->
  Z.testbit (pin_reg sr (toggle_pins chip p g)) k =
    xorb (owns (ledSerial p) (ledMask p) sr k) (Z.testbit (pin_reg sr g) k).
Proof.
  intros Hm Hd Hk. unfold toggle_pins, pin_reg, owns, drivable in *.
  assert (Hflip : forall reg,
    Z.testbit (if negb (Z.land reg (ledMask p) =? 0) then clear_bits reg (ledMask p)
               else set_bits reg (ledMask p)) k = xorb (Z.testbit (ledMask p) k) (Z.testbit reg k)).
  { intros reg. destruct Hm as [-> | (b & Hb & ->)].
    - rewrite Z.land_0_r, Z.eqb_refl. cbn [negb].
      by rewrite testbit_set_bits, Z.testbit_0_l, orb_false_r, xorb_false_l.
    - assert (Hz : Z.land reg (2 ^ b) = 0 <-> Z.testbit reg b = false).
      { rewrite <- Z.bits_inj_iff'. split.
        - intros H. specialize (H b Hb).
          by rewrite Z.land_spec, Z.pow2_bits_true, andb_true_r, Z.testbit_0_l in H.
        - intros H n Hn. rewrite Z.land_spec, Z.testbit_0_l.
          destruct (Z.eq_dec n b) as [->|]; [by rewrite H|].
          by rewrite Z.pow2_bits_false, andb_false_r. }
      destruct (Z.eqb_spec (Z.land reg (2 ^ b)) 0) as [E|E]; cbn [negb];
        rewrite ?testbit_set_bits, ?testbit_clear_bits by done;
        (destruct (Z.eq_dec k b) as [->|];
         [rewrite Z.pow2_bits_true by done|rewrite Z.pow2_bits_false by done]);
        try (by destruct (Z.testbit reg k)).
      + apply Hz in E. by rewrite E.
      + destruct (Z.testbit reg b); [done|]. by destruct E; apply Hz. }
  destruct (ledSerial p =? 0), (sr =? 0), (has_serial chip); try done; cbn; try apply Hflip;
    by destruct (Z.testbit _ k).
Qed.

Lemma sole_pin_cons chip p l i sr k :
  sole_pin chip (map (fun p => (ledSerial p, ledMask p)) (p :: l)) (S i) sr k ->
  owns (ledSerial p) (ledMask p) sr k = false /\
  sole_pin chip (map (fun p => (ledSerial p, ledMask p)) l) i sr k.
Proof.
  intros [Hf Ho]. split; [by apply (Ho 0%nat)|]. inversion_clear Hf. split; [done|].
  intros j s m Hj. rewrite (Ho (S j) s m Hj). apply bool_decide_ext. lia.
Qed.

Lemma expire_gpio_bit chip p g sr k :
  one_pin (ledMask p) -> drivable chip (ledSerial p) = true -> 0 <= k ->
  Z.testbit (pin_reg sr (expire_gpio chip p g)) k =
    xorb (due p && owns (ledSerial p) (ledMask p) sr k) (Z.testbit (pin_reg sr g) k).
Proof.
  intros. unfold expire_gpio. destruct (due p); cbn [andb]; [by apply toggle_pins_bit|].
  by rewrite xorb_false_l.
Qed.

(** Over the whole loop a pin is toggled by its own LED only. *)
Lemma expire_fold_bit chip sr k l : 0 <= k -> forall i p g,
  l !! i = Some p -> sole_pin chip (map (fun p => (ledSerial p, ledMask p)) l) i sr k ->
  Z.testbit (pin_reg sr (foldl (fun g p => expire_gpio chip p g) g l)) k =
    xorb (due p) (Z.testbit (pin_reg sr g) k).
Proof.
  intros Hk.
  assert (Hskip : forall l g,
    Forall (fun q => one_pin (ledMask q) /\ drivable chip (ledSerial q) = true /\
              owns (ledSerial q) (ledMask q) sr k = false) l ->
    Z.testbit (pin_reg sr (foldl (fun g p => expire_gpio chip p g) g l)) k =
      Z.testbit (pin_reg sr g) k).
  { clear l. intros l g Hl. revert g. induction Hl as [|q l (H1 & H2 & H3) _ IH]; intros g; [done|].
    cbn. rewrite IH, expire_gpio_bit, H3 by done. by rewrite andb_false_r. }
  induction l as [|q l IH]; intros i p g Hp Hs; [done|].
  pose proof Hs as [Hf Ho]. cbn in Hf. apply Forall_cons in Hf as [[Hq1 Hq2] Hf].
  destruct i as [|i]; cbn.
  - cbn in Hp. simplify_eq. rewrite Hskip.
    + rewrite expire_gpio_bit by done. by rewrite (Ho 0%nat _ _ eq_refl), andb_true_r.
    + apply Forall_lookup. intros j q Hj.
      assert (Hj' : map (fun p => (ledSerial p, ledMask p)) l !! j = Some (ledSerial q, ledMask q))
        by (rewrite list_lookup_fmap, Hj; done).
      pose proof (Forall_lookup_1 _ _ _ _ Hf Hj') as [? ?]. split_and!; try done.
      by rewrite (Ho (S j) _ _ Hj').
  - apply sole_pin_cons in Hs as [Hown Hs]. rewrite (IH i p) by done.
    by rewrite expire_gpio_bit, Hown, andb_false_r by done.
Qed.

(** One expiry of the LED timer.  The loop of [ledTimerExpire] handles every
    LED once: the state, countdown and single-blink rules of [expire_led] apply
    to each LED, the LED timer is armed again exactly when a LED goes on
    blinking, the single-blink timer is armed when a single blink ended, and a
    pin that belongs to one LED only is toggled exactly when that LED is due. *)
Theorem ledTimerExpire_spec chip d :
  led_inv d ->
  exists d', ledTimerExpire chip d = Some d' /\
    gLed d' = map expire_led (gLed d) /\
    gTimerOn d' = existsb still_blinks (gLed d) /\
    gBlinkOnceTimerOn d' = gBlinkOnceTimerOn d || existsb once_led (gLed d) /\
    forall i p sr k, 0 <= k -> gLed d !! i = Some p -> sole_pin chip (led_pins d) i sr k ->
      Z.testbit (pin_reg sr (GPIO d')) k = xorb (due p) (Z.testbit (pin_reg sr (GPIO d)) k).
Proof.
  intros [[Hc _ _ _ _] _]. rewrite ledTimerExpire_closed by done. eexists.
  split; [done|]. do 3 (split; [done|]). intros. by eapply expire_fold_bit.
Qed.

Lemma ledTimerExpire_spec_witness :
  exists d', ledTimerExpire BCM96338 (mkDev 0 [] (replicate 15 None) (replicate 15 None)
               (replicate 15 None) false false (mkGpio 0 4 0 0) []) = Some d' /\
    gTimerOn d' = false.
Proof.
  destruct (ledTimerExpire_spec BCM96338 (mkDev 0 [] (replicate 15 None) (replicate 15 None)
     (replicate 15 None) false false (mkGpio 0 4 0 0) [])) as (d' & E & _ & Ht & _).
  - apply (led_inv_zero 0).
  - by exists d'.
Defined.

Lemma expire_led_pins (l : list LED_INFO) :
  map (fun p => (ledSerial p, ledMask p)) (map expire_led l) =
  map (fun p => (ledSerial p, ledMask p)) l.
Proof.
  rewrite map_map. apply map_ext. intros p. unfold expire_led. by destruct (ledState p).
Qed.

(** The number of expiries between two toggles. *)
Definition blink_period (s : BOARD_LED_STATE) : Z :=
  match s with
  | kLedStateSlowBlinkContinues => kSlowBlinkCount + 1
  | _ => kFastBlinkCount + 1
  end.

(** The toggles of [n] expiries for a LED that starts with countdown [c]. *)
Definition toggles (s : BOARD_LED_STATE) (c n : Z) : Z :=
  (n + blink_period s - 1 - c) / blink_period s.

Lemma toggles_step s c n :
  blinks_on s = true -> 0 <= c < blink_period s ->
  toggles s c (n + 1) =
    (if c =? 0 then 1 else 0) + toggles s (if c =? 0 then blink_period s - 1 else c - 1) n.
Proof.
  unfold toggles. intros Hs Hc.
  assert (Hp : 0 < blink_period s) by (by destruct s).
  destruct (Z.eqb_spec c 0) as [->|].
  - replace (n + 1 + blink_period s - 1 - 0) with (n + 1 * blink_period s) by lia.
    rewrite Z.div_add by lia. rewrite Z.add_comm. do 2 f_equal. lia.
  - rewrite Z.add_0_l. f_equal. lia.
Qed.

Lemma expire_led_blinking p :
  blinks_on (ledState p) = true ->
  ledState (expire_led p) = ledState p /\
  blinkCountDown (expire_led p) =
    (if blinkCountDown p =? 0 then blink_period (ledState p) - 1 else blinkCountDown p - 1) /\
  due p = (blinkCountDown p =? 0).
Proof. unfold expire_led, due. by destruct p as [m a s mf af sf [] sv n]; cbn; ztest. Qed.


(** The example LED of pin 0 blinking slowly. *)
Definition blinking_dev : led_dev :=
  mkDev 1 [mkLed 1 0 0 2 1 0 kLedStateSlowBlinkContinues kLedStateSlowBlinkContinues 1]
    (Some 0%nat :: replicate 14 None) (replicate 15 None) (replicate 15 None)
    true false (mkGpio 0 4 0 0) [].

Lemma one_led_inv p timer once g :
  led_ok timer p ->
  led_inv (mkDev 1 [p] (Some 0%nat :: replicate 14 None) (replicate 15 None)
             (replicate 15 None) timer once g []).
Proof.
  intros Hp. split.
  - constructor; try reflexivity. intros [|k] i H; [cbn in *; simplify_eq; lia|].
    by apply (lookup_replicate_1 14 (@None nat)) in H as [? _].
  - intros [|j] q H; cbn in H; [|done]. by simplify_eq.
Qed.


Lemma blink_once_gpio chip name i p d :
  gLed d !! i = Some p -> blinks_on (savedLedState p) = false -> blinkCountDown p = 0 ->
  gBlinkOnceTimerOn d = false ->
  led_ctrl_gpio chip name kLedStateBlinkOnce i None None d =
    Some (ledTimerStart (put_led (with_gpio d (toggle_pins chip p (GPIO d))) i
      (set_countdown 1 (set_state kLedStateBlinkOnce (savedLedState p) p)))).
Proof.
  intros Hp Hs Hc Ho. unfold led_ctrl_gpio, ledToggle. rewrite Hp. cbn [mbind option_bind].
  by rewrite Hs, Hc, Ho.
Qed.

(** A single blink.  A blink-once request on a steady LED inverts its pin
    and the next expiry of the LED timer inverts it back; the LED is then in the
    state it had before, and the single-blink timer holds off the next one. *)
Theorem blink_once_restores chip name i p d sr k :
  led_inv d -> name_ok name -> gpio_led d name i p -> ledState p = savedLedState p ->
  blinks_on (savedLedState p) = false -> blinkCountDown p = 0 -> gBlinkOnceTimerOn d = false ->
  0 <= k -> sole_pin chip (led_pins d) i sr k ->
  exists d1 d2, led_step chip (EvCtrl name kLedStateBlinkOnce) d = Some d1 /\
    Z.testbit (pin_reg sr (GPIO d1)) k = negb (Z.testbit (pin_reg sr (GPIO d)) k) /\
    led_step chip EvLedTimer d1 = Some d2 /\
    Z.testbit (pin_reg sr (GPIO d2)) k = Z.testbit (pin_reg sr (GPIO d)) k /\
    gLed d2 !! i = Some p /\ gBlinkOnceTimerOn d2 = true.
Proof.
  intros Hd Hn Hl Hst Hb Hc Ho Hk Hsole. pose proof Hl as (_ & Hp & _ & _).
  pose proof (lookup_lt_Some _ _ _ Hp) as Hi.
  set (q := set_countdown 1 (set_state kLedStateBlinkOnce (savedLedState p) p)).
  destruct (boardLedCtrl_safe chip name kLedStateBlinkOnce _ d Hd eq_refl Hn)
    as (d1 & E1 & Hd1 & Hn1). pose proof E1 as E.
  rewrite (boardLedCtrl_gpio _ _ _ _ _ _ Hn Hl) in E.
  change (is_fail kLedStateBlinkOnce) with false in E. cbn [andb] in E.
  rewrite (blink_once_gpio chip name i p d) in E by done. injection E as E.
  assert (Hl1 : gLed d1 = <[i := q]> (gLed d))
    by (rewrite <- E; unfold ledTimerStart; by destruct (gTimerOn _)).
  assert (Hg1 : GPIO d1 = toggle_pins chip p (GPIO d))
    by (rewrite <- E; unfold ledTimerStart; by destruct (gTimerOn _)).
  assert (Ht1 : gTimerOn d1 = true)
    by (rewrite <- E; unfold ledTimerStart; destruct (gTimerOn (put_led _ _ _)) eqn:Et;
        [exact Et|reflexivity]).
  assert (Hq : gLed d1 !! i = Some q) by (by rewrite Hl1, list_lookup_insert_eq).
  assert (Hpins : led_pins d1 = led_pins d).
  { unfold led_pins. rewrite Hl1, list_fmap_insert. apply list_insert_id.
    by rewrite list_lookup_fmap, Hp. }
  pose proof Hd1 as [[Hcnt _ _ _ _] _].
  exists d1. eexists. split; [done|]. cbn [led_step]. rewrite Ht1, ledTimerExpire_closed by done.
  pose proof Hsole as [Hf Hown].
  assert (Hlk : led_pins d !! i = Some (ledSerial p, ledMask p))
    by (unfold led_pins; by rewrite list_lookup_fmap, Hp).
  pose proof (Forall_lookup_1 _ _ _ _ Hf Hlk) as [Hone Hdrv].
  assert (Hbit1 : Z.testbit (pin_reg sr (GPIO d1)) k = negb (Z.testbit (pin_reg sr (GPIO d)) k)).
  { rewrite Hg1, toggle_pins_bit, (Hown _ _ _ Hlk), bool_decide_true by done.
    by rewrite xorb_true_l. }
  split; [done|]. split; [done|]. cbn. split; [|split].
  - rewrite (expire_fold_bit chip sr k _ Hk i q) by (try done; unfold led_pins in Hpins; by rewrite Hpins).
    rewrite Hbit1. change (due q) with true. by rewrite xorb_true_l, negb_involutive.
  - rewrite list_lookup_fmap, Hq. cbn. f_equal. destruct p; cbn in *; by subst.
  - apply orb_true_iff. right. apply existsb_exists. exists q. split; [|done].
    apply list_elem_of_In. by eapply list_elem_of_lookup_2.
Qed.

Lemma blink_once_restores_witness :
  exists d1 d2, led_step BCM96338 (EvCtrl kLedAdsl kLedStateBlinkOnce) example_dev = Some d1 /\
    Z.testbit (GPIOio (GPIO d1)) 0 = true /\ led_step BCM96338 EvLedTimer d1 = Some d2 /\
    Z.testbit (GPIOio (GPIO d2)) 0 = false.
Proof.
  destruct (blink_once_restores BCM96338 kLedAdsl 0 example_led example_dev 0 0)
    as (d1 & d2 & H1 & H2 & H3 & H4 & _); try done.
  - apply one_led_inv. split_and!; cbn; auto.
  - split.
    + constructor; [|constructor]. split; [right; by exists 0|done].
    + intros [|j] s m H; [|done]. cbn in H. by simplify_eq.
  - by exists d1, d2.
Defined.
