(* ===== verification/BoardInit.v ===== *)
(** * Board driver: initialisation, interrupts and GPIO

    The parts of [bcmdrivers/opensource/char/board/bcm963xx/impl1/board.c] that
    turn the board parameters into driver state: the LED map built by
    [brcm_board_init] for [boardLedInit], the mapping of external interrupts,
    and the GPIO access functions.  The client side of the board tables. *)

From S2P Require Import Prelude BoardDefs BoardTables6338 BoardTables6348 BoardTables6358.
From S2P Require Import BoardTables6368 BoardParms Led LedSpec.

(** ** GPIO masks ([63xx_map_part.h]) *)

Definition GPIO_NUM_TO_MASK (chip : Chip) (X : Z) : Z :=
  match chip with
  | BCM96338 => u32 (Z.shiftl 1 (Z.land X 0x0f))
  | _ => if Z.land X 0x3f <? 32 then u32 (Z.shiftl 1 (Z.land X 0x1f)) else 0
  end.

(** Not defined for the BCM96338. *)
Definition GPIO_NUM_TO_MASK_HIGH (X : Z) : Z :=
  if 32 <=? Z.land X 0x3f then u32 (Z.shiftl 1 (Z.land (X - 32) 0x07)) else 0.

(** ** The LED map of [brcm_board_init] *)

Definition LED_MAP_END : LED_MAP_PAIR :=
  Build_LED_MAP_PAIR kLedEnd kLedStateOff 0 0 0 0 0 0.

(** [LedMapping] as initialised: sixteen [kLedEnd] entries. *)
Definition LedMapping0 : list LED_MAP_PAIR := replicate 16 LED_MAP_END.

Definition BP_LED_FUNC : Type := option BOARD_PARAMETERS -> Z * Z.

(** [bpLedInfo] without its terminator. *)
Definition bpLedInfo : list (Z * BP_LED_FUNC * option BP_LED_FUNC) :=
  [(kLedAdsl, BpGetAdslLedGpio, Some BpGetAdslFailLedGpio);
   (kLedHpna, BpGetHpnaLedGpio, None);
   (kLedWanData, BpGetWanDataLedGpio, None);
   (kLedPPP, BpGetPppLedGpio, Some BpGetPppFailLedGpio);
   (kLedSes, BpGetWirelessSesLedGpio, None);
   (kLedVoip, BpGetVoipLedGpio, None);
   (kLedVoip1, BpGetVoip1LedGpio, Some BpGetVoip1FailLedGpio);
   (kLedVoip2, BpGetVoip2LedGpio, Some BpGetVoip2FailLedGpio);
   (kLedPots, BpGetPotsLedGpio, None);
   (kLedSecAdsl, BpGetSecAdslLedGpio, Some BpGetSecAdslFailLedGpio);
   (kLedDect, BpGetDectLedGpio, None);
   (kLedUsb1, BpGetUsbHost1LedGpio, None);
   (kLedUsb2, BpGetUsbHost2LedGpio, None)].

Definition flag (gpio bit : Z) : Z := if negb (Z.land gpio bit =? 0) then 1 else 0.

(** A LED pin software can drive: the accessor succeeds and the pin is not
    driven by hardware. *)
Definition led_gpio (f : BP_LED_FUNC) (bp : option BOARD_PARAMETERS) : option Z :=
  let '(r, gpio) := f bp in
  if (r =? BP_SUCCESS) && negb (gpio =? BP_HW_DEFINED_AH) && negb (gpio =? BP_HW_DEFINED_AL)
  then Some gpio else None.

Definition set_map_pin (chip : Chip) (name gpio : Z) (m : LED_MAP_PAIR) : LED_MAP_PAIR :=
  Build_LED_MAP_PAIR name (ledInitState m) (GPIO_NUM_TO_MASK chip gpio)
    (flag gpio BP_ACTIVE_LOW) (flag gpio BP_GPIO_SERIAL)
    (map_ledMaskFail m) (map_ledActiveLowFail m) (map_ledSerialFail m).

Definition set_map_pin_fail (chip : Chip) (name gpio : Z) (m : LED_MAP_PAIR) : LED_MAP_PAIR :=
  Build_LED_MAP_PAIR name (ledInitState m) (map_ledMask m) (map_ledActiveLow m)
    (map_ledSerial m) (GPIO_NUM_TO_MASK chip gpio)
    (flag gpio BP_ACTIVE_LOW) (flag gpio BP_GPIO_SERIAL).

(** One round of the loop over [bpLedInfo]; [k] is [pLedMap - LedMapping]. *)
Definition led_map_round (chip : Chip) (bp : option BOARD_PARAMETERS)
    (info : Z * BP_LED_FUNC * option BP_LED_FUNC) (st : nat * list LED_MAP_PAIR)
    : option (nat * list LED_MAP_PAIR) :=
  let '(name, f, ff) := info in
  let '(k, l) := st in
  m ← l !! k;
  let m := match led_gpio f bp with
           | Some gpio => set_map_pin chip name gpio m
           | None => m
           end in
  let m := match ff ≫= (fun ff => led_gpio ff bp) with
           | Some gpio => set_map_pin_fail chip name gpio m
           | None => m
           end in
  Some (if negb (ledName m =? kLedEnd) then S k else k, <[k := m]> l).

Fixpoint led_map_loop (chip : Chip) (bp : option BOARD_PARAMETERS)
    (infos : list (Z * BP_LED_FUNC * option BP_LED_FUNC)) (st : nat * list LED_MAP_PAIR)
    : option (nat * list LED_MAP_PAIR) :=
  match infos with
  | [] => Some st
  | info :: infos' => led_map_round chip bp info st ≫= led_map_loop chip bp infos'
  end.

(** [EnetInfo], a local; only fields [BpGetEthernetMacInfo] has stored are read. *)
Definition EnetInfo0 : ETHERNET_MAC_INFO := ENET_PHY_ONLY BP_ENET_NO_PHY.

(** The entry of the internal PHY's link-speed LED. *)
Definition led_map_ephy (chip : Chip) (bp : option BOARD_PARAMETERS)
    (st : nat * list LED_MAP_PAIR) : option (nat * list LED_MAP_PAIR) :=
  '(r, infos) ← BpGetEthernetMacInfo bp [EnetInfo0] 1;
  EnetInfo ← infos !! 0%nat;
  if (r =? BP_SUCCESS) && negb (usGpioPhyLinkSpeed EnetInfo =? BP_NOT_DEFINED) then
    m ← st.2 !! st.1;
    Some (S st.1,
          <[st.1 := set_map_pin chip kLedEphyLinkSpeed (usGpioPhyLinkSpeed EnetInfo) m]> st.2)
  else Some st.

(** [LedMapping] when [brcm_board_init] passes it to [boardLedInit]. *)
Definition led_mapping (chip : Chip) (bp : option BOARD_PARAMETERS)
    : option (list LED_MAP_PAIR) :=
  st ← led_map_loop chip bp bpLedInfo (0%nat, LedMapping0);
  snd <$> led_map_ephy chip bp st.

(** ** External interrupts *)

Definition INTERRUPT_ID_EXTERNAL (chip : Chip) (n : Z) : Z :=
  match chip with
  | BCM96338 | BCM96348 => 3 + n
  | BCM96358 => if n <=? 3 then 8 + 25 + n else 8 + 20 + (n - 4)
  | BCM96368 => 8 + 20 + n
  end.

Definition map_external_irq (chip : Chip) (irq : Z) : Z :=
  if irq =? BP_EXT_INTR_0 then INTERRUPT_ID_EXTERNAL chip 0
  else if irq =? BP_EXT_INTR_1 then INTERRUPT_ID_EXTERNAL chip 1
  else if irq =? BP_EXT_INTR_2 then INTERRUPT_ID_EXTERNAL chip 2
  else if irq =? BP_EXT_INTR_3 then INTERRUPT_ID_EXTERNAL chip 3
  else if has_serial chip && (irq =? BP_EXT_INTR_4) then INTERRUPT_ID_EXTERNAL chip 4
  else if has_serial chip && (irq =? BP_EXT_INTR_5) then INTERRUPT_ID_EXTERNAL chip 5
  else 0.

(** ** GPIO access *)

(** The four GPIO registers ([_high]: pins 32 and up, absent on the BCM96338). *)
Record gpio_bank := mkBank { Dir : Z; Dir_high : Z; Io : Z; Io_high : Z }.

#[export] Instance gpio_bank_eq_dec : EqDecision gpio_bank.
Proof. solve_decision. Defined.

Definition has_high (chip : Chip) : bool :=
  match chip with BCM96338 => false | _ => true end.

Definition GPIO_LOW : Z := 0.
Definition GPIO_HIGH : Z := 1.

Definition SetGpio (chip : Chip) (gpio state : Z) (g : gpio_bank) : gpio_bank :=
  let active_low := flag gpio BP_ACTIVE_LOW in
  let wr reg mask := if (state =? GPIO_HIGH) && (active_low =? 0) then set_bits reg mask
                     else clear_bits reg mask in
  if has_high chip && (32 <=? gpio) then
    let mask := GPIO_NUM_TO_MASK_HIGH gpio in
    mkBank (Dir g) (set_bits (Dir_high g) mask) (Io g) (wr (Io_high g) mask)
  else
    let mask := GPIO_NUM_TO_MASK chip gpio in
    mkBank (set_bits (Dir g) mask) (Dir_high g) (wr (Io g) mask) (Io_high g).

(** [GetGpio] turns the pin into an input and reads it. *)
Definition GetGpio (chip : Chip) (gpio : Z) (g : gpio_bank) : Z * gpio_bank :=
  let mask := GPIO_NUM_TO_MASK chip gpio in
  (if negb (Z.land (Io g) mask =? 0) then 1 else 0,
   mkBank (clear_bits (Dir g) mask) (Dir_high g) (Io g) (Io_high g)).

Definition WLAN_OFF : Z := 0.
Definition WLAN_ON : Z := 1.

Definition kerSetWirelessPD (chip : Chip) (bp : option BOARD_PARAMETERS) (state : Z)
    (g : gpio_bank) : gpio_bank :=
  let '(r, wlanPDGpio) := BpGetWirelessPowerDownGpio bp in
  if (r =? BP_SUCCESS) && negb (wlanPDGpio =? BP_NOT_DEFINED) then
    let al := negb (Z.land wlanPDGpio BP_ACTIVE_LOW =? 0) in
    if state =? WLAN_OFF then SetGpio chip wlanPDGpio (if al then GPIO_LOW else GPIO_HIGH) g
    else SetGpio chip wlanPDGpio (if al then GPIO_HIGH else GPIO_LOW) g
  else g.

(** [kerGetWirelessProtectState]. *)
Definition kerGetWirelessProtectState (chip : Chip) (bp : option BOARD_PARAMETERS)
    (g : gpio_bank) : Z * gpio_bank :=
  GetGpio chip (snd (BpGetWirelessProtectLedGpio bp)) g.

(** [sesBtn_pressed]: the shift count of [1 << n] on a 32-bit [int] must lie in
    [0 .. 31], otherwise the result is undefined ([None]). *)
Definition EI_STATUS_SHFT (chip : Chip) : Z :=
  match chip with BCM96348 => 5 | _ => 4 end.

Definition test_irq_bit (reg n : Z) : option bool :=
  if (0 <=? n) && (n <? 32) then Some (negb (Z.testbit reg n)) else None.

Definition sesBtn_pressed (chip : Chip) (ExtIrqCfg ExtIrqCfg1 sesBtn_irq : Z) : option bool :=
  let id := INTERRUPT_ID_EXTERNAL chip in
  if (id 0 <=? sesBtn_irq) && (sesBtn_irq <=? id 3) then
    test_irq_bit ExtIrqCfg (sesBtn_irq - id 0 + EI_STATUS_SHFT chip)
  else if has_serial chip && ((id 4 <=? sesBtn_irq) || (sesBtn_irq <=? id 5)) then
    test_irq_bit ExtIrqCfg1 (sesBtn_irq - id 4 + EI_STATUS_SHFT chip)
  else Some false.

(** ** The LEDs of the boards *)

(** The map of a board: usable entries, a terminator, and a LED for every name. *)
Definition board_leds_ok (chip : Chip) (bp : BOARD_PARAMETERS) : bool :=
  match led_mapping chip (Some bp) with
  | Some m =>
      (length m =? 16)%nat && forallb map_ok m &&
      match last m with Some e => ledName e =? kLedEnd | None => false end
  | None => false
  end.

Lemma board_leds_all chip : Forall (fun bp => board_leds_ok chip bp = true) (g_BoardParms chip).
Proof. destruct chip; by_decide. Qed.

Lemma board_map chip bp :
  bp ∈ g_BoardParms chip ->
  exists m, led_mapping chip (Some bp) = Some m /\ Forall (fun e => map_ok e = true) m /\
    exists e, e ∈ m /\ ledName e = kLedEnd.
Proof.
  intros Hin. pose proof (board_leds_all chip) as H. rewrite Forall_forall in H.
  specialize (H bp Hin). unfold board_leds_ok in H.
  destruct (led_mapping chip (Some bp)) as [m|]; [|done]. exists m. zprop.
  split; [done|]. split; [by apply Forall_forall; intros e He; eapply forallb_forall;
    [done|apply list_elem_of_In]|].
  destruct (last m) as [e|] eqn:El; [|done]. exists e. zprop. split; [|done].
  apply last_Some in El as [m' ->]. apply elem_of_app. right. by apply list_elem_of_singleton.
Qed.

(** The LED subsystem of every supported board.  [brcm_board_init] builds the
    LED map inside its sixteen-entry array, [boardLedInit] accepts it, and from
    then on any sequence of requests with LED names below 15, handler
    registrations and timer expiries runs without leaving an array. *)
Theorem board_leds_safe chip bp d es :
  bp ∈ g_BoardParms chip -> gTimerOn d = false -> Forall event_ok es ->
  exists m d0 d1, led_mapping chip (Some bp) = Some m /\
    boardLedInit chip true m d = Some d0 /\ led_run chip es d0 = Some d1 /\ led_inv d1.
Proof.
  intros Hin Ht Hes. destruct (board_map chip bp Hin) as (m & Em & Hm & Hend).
  destruct (boardLedInit_ok chip m d Hm Hend Ht) as (d0 & E0 & H0 & _).
  destruct (led_run_total chip es d0 H0 Hes) as (d1 & E1 & H1 & _). by exists m, d0, d1.
Qed.

Definition led_reset : led_dev := mkDev 0 [] [] [] [] false false (mkGpio 0 0 0 0) [].

Lemma board_leds_safe_witness :
  exists m d0 d1, led_mapping BCM96338 (Some g_bcm96338gw2) = Some m /\
    boardLedInit BCM96338 true m led_reset = Some d0 /\
    led_run BCM96338 [EvCtrl kLedWanData kLedStateFastBlinkContinues; EvLedTimer; EvLedTimer] d0
      = Some d1 /\ led_inv d1.
Proof.
  apply board_leds_safe; [by_decide|done|]. by repeat constructor.
Defined.

(** The names of a map and the pins of the LEDs they were given. *)
Definition led_of (d : led_dev) (name : Z) : option LED_INFO :=
  i ← gpVirtLeds d !! Z.to_nat name; i ≫= fun i => gLed d !! i.

Definition entry_served (d : led_dev) (e : LED_MAP_PAIR) : bool :=
  (ledName e =? kLedEnd) ||
  match led_of d (ledName e) with
  | Some p => ((map_ledMask e =? 0) || (ledMask p =? map_ledMask e)) &&
              ((map_ledMaskFail e =? 0) || (ledMaskFail p =? map_ledMaskFail e))
  | None => false
  end.

Definition board_leds_served (chip : Chip) (bp : BOARD_PARAMETERS) : bool :=
  match led_mapping chip (Some bp) with
  | Some m => match boardLedInit chip true m led_reset with
              | Some d => forallb (entry_served d) m
              | None => false
              end
  | None => false
  end.

(** On every supported board, sharing of physical LEDs by [boardLedInit]
    works out: after initialisation each name of the board's LED map denotes a
    LED that drives exactly the normal and the failure pins of its entry. *)
Theorem board_leds_resolved chip bp :
  bp ∈ g_BoardParms chip -> board_leds_served chip bp = true.
Proof.
  intros Hin. assert (H : Forall (fun bp => board_leds_served chip bp = true) (g_BoardParms chip))
    by (clear; destruct chip; by_decide).
  rewrite Forall_forall in H. by apply H.
Qed.

Lemma board_leds_resolved_witness : board_leds_served BCM96348 g_bcm96348gw_11 = true.
Proof. apply board_leds_resolved. by_decide. Defined.

(** On the three BCM96368 boards the PPP failure LED is wired to GPIO 33,
    which [GPIO_NUM_TO_MASK] turns into the empty mask: the LED map has an entry
    for [kLedPPP] with no pin at all. *)
Theorem ppp_fail_led_has_no_pin bp :
  bp ∈ g_BoardParms BCM96368 ->
  usGpioLedPppFail bp = BP_GPIO_33_AH /\
  GPIO_NUM_TO_MASK BCM96368 (usGpioLedPppFail bp) = 0 /\
  exists m, led_mapping BCM96368 (Some bp) = Some m /\
    Exists (fun e => ledName e = kLedPPP /\ map_ledMask e = 0 /\ map_ledMaskFail e = 0) m.
Proof.
  intros Hin.
  assert (H : Forall (fun bp => usGpioLedPppFail bp = BP_GPIO_33_AH /\
     bool_decide (Exists (fun e => ledName e = kLedPPP /\ map_ledMask e = 0 /\ map_ledMaskFail e = 0)
       (default [] (led_mapping BCM96368 (Some bp)))) = true) (g_BoardParms BCM96368))
    by by_decide.
  rewrite Forall_forall in H. destruct (H bp Hin) as [E Hex]. apply bool_decide_eq_true_1 in Hex.
  split; [done|]. split; [by rewrite E|].
  destruct (board_map BCM96368 bp Hin) as (m & Em & _). rewrite Em in Hex. by exists m.
Qed.

Lemma ppp_fail_led_has_no_pin_witness : usGpioLedPppFail g_bcm96368vvw = BP_GPIO_33_AH.
Proof. apply ppp_fail_led_has_no_pin. by_decide. Defined.

(** ** External interrupts of the boards *)

(** The interrupts the board driver maps: reset to default, SES button. *)
Definition board_irqs (bp : BOARD_PARAMETERS) : list Z :=
  [usExtIntrResetToDefault bp; usExtIntrSesBtnWireless bp].

(** Every external interrupt a board's reset or SES button names is one the
    chip has, and [map_external_irq] maps it to the interrupt id of that line -
    except on 96358VW2 (SES button) and 96358BGWE_OEM1 (reset button), whose
    tables hold a GPIO number there, which is reported and mapped to id 0. *)
Theorem map_external_irq_boards chip bp irq :
  bp ∈ g_BoardParms chip -> irq ∈ board_irqs bp -> irq <> BP_NOT_DEFINED ->
  (0 <= irq <= (if has_serial chip then 5 else 3) /\
   map_external_irq chip irq = INTERRUPT_ID_EXTERNAL chip irq /\
   map_external_irq chip irq <> 0) \/
  ((bp = g_bcm96358vw2 /\ irq = BP_GPIO_37_AL \/ bp = g_bcm96358bgweOem1 /\ irq = BP_GPIO_33_AL) /\
   map_external_irq chip irq = 0).
Proof.
  intros Hb Hi Hd.
  assert (H : Forall (fun bp => Forall (fun irq => irq <> BP_NOT_DEFINED ->
    (0 <= irq <= (if has_serial chip then 5 else 3) /\
     map_external_irq chip irq = INTERRUPT_ID_EXTERNAL chip irq /\
     map_external_irq chip irq <> 0) \/
    ((bp = g_bcm96358vw2 /\ irq = BP_GPIO_37_AL \/ bp = g_bcm96358bgweOem1 /\ irq = BP_GPIO_33_AL) /\
     map_external_irq chip irq = 0)) (board_irqs bp)) (g_BoardParms chip))
    by (clear; destruct chip; by_decide).
  rewrite Forall_forall in H. specialize (H bp Hb). rewrite Forall_forall in H. by apply H.
Qed.

Lemma map_external_irq_boards_witness :
  map_external_irq BCM96338 (usExtIntrResetToDefault g_bcm96338gw2) = INTERRUPT_ID_EXTERNAL BCM96338 1.
Proof.
  destruct (map_external_irq_boards BCM96338 g_bcm96338gw2 (usExtIntrResetToDefault g_bcm96338gw2))
    as [(_ & H & _)|[[[_ H]|[_ H]] _]]; try done; by_decide.
Defined.

(** The SES button.  For an interrupt line the chip has, [sesBtn_pressed]
    reads the status bit of that line in the register that holds it; but the
    second test joins its bounds by [||], so on the chips with six lines an
    unmapped button ([map_external_irq] returned 0, or [BP_NOT_DEFINED] was kept)
    shifts by a count outside the word. *)
Theorem sesBtn_pressed_spec chip cfg cfg1 n :
  (0 <= n <= (if has_serial chip then 5 else 3) ->
   sesBtn_pressed chip cfg cfg1 (map_external_irq chip n) =
     Some (negb (if n <=? 3 then Z.testbit cfg (n + EI_STATUS_SHFT chip)
                 else Z.testbit cfg1 (n - 4 + EI_STATUS_SHFT chip)))) /\
  (has_serial chip = true ->
   sesBtn_pressed chip cfg cfg1 0 = None /\ sesBtn_pressed chip cfg cfg1 BP_NOT_DEFINED = None).
Proof.
  split; [|by destruct chip].
  intros Hn.
  assert (Hc : n = 0 \/ n = 1 \/ n = 2 \/ n = 3 \/ (has_serial chip = true /\ (n = 4 \/ n = 5)))
    by (destruct (has_serial chip); lia).
  destruct Hc as [-> | [-> | [-> | [-> | [Hs [-> | ->]]]]]]; destruct chip; reflexivity || done.
Qed.

Lemma sesBtn_pressed_spec_witness :
  sesBtn_pressed BCM96338 0x10 0 (map_external_irq BCM96338 0) = Some false /\
  sesBtn_pressed BCM96358 0 0 0 = None.
Proof.
  split.
  - apply (sesBtn_pressed_spec BCM96338 0x10 0 0). cbn; lia.
  - by apply (sesBtn_pressed_spec BCM96358 0 0 0).
Defined.

(** ** GPIO access *)

(** An active-high pin: a plain pin number, below 8 on the BCM96338, below 37 on
    the others. *)
Definition pin_ok (chip : Chip) (gpio : Z) : Prop :=
  0 <= gpio < (if has_high chip then 37 else 8).

(** Pin [gpio] as one bit of the 64-bit concatenation of two registers. *)
Definition pin_bit (lo hi k : Z) : bool :=
  if k <? 32 then Z.testbit lo k else Z.testbit hi (k - 32).

(** The mask [SetGpio] selects for a pin, and the register bit of the pin. *)
Definition is_high (chip : Chip) (gpio : Z) : bool := has_high chip && (32 <=? gpio).

Lemma mask_is_pin chip gpio :
  pin_ok chip gpio ->
  (if is_high chip gpio then GPIO_NUM_TO_MASK_HIGH gpio else GPIO_NUM_TO_MASK chip gpio) =
  2 ^ (if is_high chip gpio then gpio - 32 else gpio).
Proof.
  intros Hp.
  assert (H : Forall (fun g => (if is_high chip g then GPIO_NUM_TO_MASK_HIGH g
               else GPIO_NUM_TO_MASK chip g) = 2 ^ (if is_high chip g then g - 32 else g))
             (map Z.of_nat (seq 0 (if has_high chip then 37 else 8))))
    by (clear; destruct chip; by_decide).
  rewrite Forall_forall in H. apply H, list_elem_of_In, in_map_iff.
  exists (Z.to_nat gpio). unfold pin_ok in Hp. destruct (has_high chip); rewrite in_seq; lia.
Qed.

Lemma testbit_pow2 b k : 0 <= k -> Z.testbit (2 ^ b) k = (b =? k) && (0 <=? b).
Proof.
  intros. destruct (Z.leb_spec 0 b).
  - rewrite Z.pow2_bits_eqb by lia. by rewrite andb_true_r.
  - rewrite Z.pow_neg_r by lia. by rewrite Z.testbit_0_l, andb_false_r.
Qed.

Lemma flag_zero gpio chip : pin_ok chip gpio -> flag gpio BP_ACTIVE_LOW = 0.
Proof.
  intros Hp.
  assert (H : Forall (fun g => flag g BP_ACTIVE_LOW = 0) (map Z.of_nat (seq 0 37))) by by_decide.
  rewrite Forall_forall in H. apply H, list_elem_of_In, in_map_iff.
  exists (Z.to_nat gpio). unfold pin_ok in Hp. destruct (has_high chip); rewrite in_seq; lia.
Qed.

(** [SetGpio] on an active-high pin makes it an output with the requested
    level and touches no other pin of either register pair. *)
Theorem SetGpio_spec chip gpio state g k :
  pin_ok chip gpio -> 0 <= k < (if has_high chip then 64 else 32) ->
  let g' := SetGpio chip gpio state g in
  pin_bit (Io g') (Io_high g') k =
    (if k =? gpio then state =? GPIO_HIGH else pin_bit (Io g) (Io_high g) k) /\
  pin_bit (Dir g') (Dir_high g') k =
    (k =? gpio) || pin_bit (Dir g) (Dir_high g) k.
Proof.
  intros Hp Hk. pose proof (mask_is_pin chip gpio Hp) as Hm.
  unfold SetGpio, pin_bit. rewrite (flag_zero gpio chip Hp). cbn [Z.eqb]. rewrite Z.eqb_refl, andb_true_r.
  unfold is_high, pin_ok in *.
  destruct (has_high chip); cbn [andb] in *;
    [destruct (Z.leb_spec 32 gpio)|]; rewrite Hm; cbn;
    destruct (Z.ltb_spec k 32); destruct (state =? GPIO_HIGH);
    rewrite ?testbit_set_bits, ?testbit_clear_bits, ?testbit_pow2 by lia;
    ztest; rewrite ?orb_true_r, ?orb_false_r, ?andb_true_r, ?andb_false_r; done || lia.
Qed.

Lemma SetGpio_spec_witness :
  pin_bit (Io (SetGpio BCM96358 34 GPIO_HIGH (mkBank 0 0 0 0)))
    (Io_high (SetGpio BCM96358 34 GPIO_HIGH (mkBank 0 0 0 0))) 34 = true.
Proof.
  apply (SetGpio_spec BCM96358 34 GPIO_HIGH (mkBank 0 0 0 0) 34); unfold pin_ok; cbn; lia.
Defined.

Lemma clear_only reg mask k :
  0 <= k -> Z.testbit (clear_bits reg mask) k = true -> Z.testbit reg k = true.
Proof. intros. rewrite testbit_clear_bits in H0 by done. by apply andb_true_iff in H0 as [? _]. Qed.

(** [SetGpio] never raises an active-low pin: whatever the state asked for,
    no bit of the output registers is set.  And because the flag makes
    [gpio >= 32] true, on every chip but the BCM96338 an active-low pin below 32
    gets an empty mask and the call changes nothing at all. *)
Theorem SetGpio_active_low chip n state g :
  0 <= n < 32 ->
  let g' := SetGpio chip (Z.lor n BP_ACTIVE_LOW) state g in
  (forall k, 0 <= k -> Z.testbit (Io g') k = true -> Z.testbit (Io g) k = true) /\
  (has_high chip = true -> g' = g).
Proof.
  intros Hn.
  assert (H : Forall (fun n => flag (Z.lor n BP_ACTIVE_LOW) BP_ACTIVE_LOW = 1 /\
      32 <= Z.lor n BP_ACTIVE_LOW /\ GPIO_NUM_TO_MASK_HIGH (Z.lor n BP_ACTIVE_LOW) = 0)
      (map Z.of_nat (seq 0 32))) by by_decide.
  rewrite Forall_forall in H.
  destruct (H n) as (Hf & H32 & Hm).
  { apply list_elem_of_In, in_map_iff. exists (Z.to_nat n). rewrite in_seq. lia. }
  unfold SetGpio. rewrite Hf, Hm. change (1 =? 0) with false. rewrite andb_false_r.
  assert ((32 <=? Z.lor n BP_ACTIVE_LOW) = true) as -> by by apply Z.leb_le.
  rewrite andb_true_r. destruct (has_high chip); cbn; split; try done.
  - intros _. destruct g. unfold set_bits, clear_bits. cbn. by rewrite !Z.lor_0_r, !Z.land_m1_r.
  - intros k Hk. by apply clear_only.
Qed.

Lemma SetGpio_active_low_witness :
  SetGpio BCM96348 (Z.lor 5 BP_ACTIVE_LOW) GPIO_HIGH (mkBank 1 2 3 4) = mkBank 1 2 3 4.
Proof. by apply SetGpio_active_low. Defined.
