(* ===== verification/SectorMap.v ===== *)
(** * Parallel flash: device table and sector map

    [shared/opensource/flash/cfiflash.c], the part that is not bus traffic: the
    device ids, the CFI query, the translation of the query into the sector
    table [meminfo], and the functions that answer from that table.  What the
    driver reads from the device (its id, and the words of its CFI table) is an
    argument.  [None] is an access outside [query], [meminfo] or the CFI words,
    or a shift by a count outside the word. *)

From S2P Require Import Prelude.

Definition FLASH_API_OK : Z := 1.
Definition FLASH_API_ERROR : Z := -1.
Definition MAXSECTORS : Z := 1024.

(** ** Devices *)

Definition ID_AM29DL800T : Z := 0x224A.
Definition ID_AM29DL800B : Z := 0x22CB.
Definition ID_AM29LV800T : Z := 0x22DA.
Definition ID_AM29LV800B : Z := 0x225B.
Definition ID_AM29LV400B : Z := 0x22BA.
Definition ID_AM29LV200BT : Z := 0x223B.
Definition ID_AM29LV160B : Z := 0x2249.
Definition ID_AM29LV160T : Z := 0x22C4.
Definition ID_AM29LV320T : Z := 0x22F6.
Definition ID_MX29LV320AT : Z := 0x22A7.
Definition ID_AM29LV320B : Z := 0x22F9.
Definition ID_MX29LV320AB : Z := 0x22A8.
Definition ID_MX29LV640BT : Z := 0x22C9.
Definition ID_AM29LV320M : Z := 0x227E.
Definition ID_AM29LV320MB : Z := 0x2200.
Definition ID_AM29LV320MT : Z := 0x2201.
Definition ID_SST39VF200A : Z := 0x2789.
Definition ID_SST39VF400A : Z := 0x2780.
Definition ID_SST39VF800A : Z := 0x2781.
Definition ID_SST39VF1601 : Z := 0x234B.
Definition ID_SST39VF3201 : Z := 0x235B.
Definition ID_SST39VF6401 : Z := 0x236B.
Definition ID_I28F160C3T : Z := 0x88C2.
Definition ID_I28F160C3B : Z := 0x88C3.
Definition ID_I28F320C3T : Z := 0x88C4.
Definition ID_I28F320C3B : Z := 0x88C5.
Definition ID_I28F640J3 : Z := 0x8916.
Definition ID_K8D6316UTM : Z := 0x22E0.
Definition ID_K8D6316UBM : Z := 0x22E2.

Definition CFI_FLASH_DEVICES : list (Z * string) :=
  [(ID_AM29DL800T, "AM29DL800T"%string);
   (ID_AM29DL800B, "AM29DL800B"%string);
   (ID_AM29LV800T, "AM29LV800T"%string);
   (ID_AM29LV800B, "AM29LV800B"%string);
   (ID_AM29LV400B, "AM29LV400B"%string);
   (ID_AM29LV200BT, "AM29LV200BT"%string);
   (ID_AM29LV160B, "AM29LV160B"%string);
   (ID_AM29LV160T, "AM29LV160T"%string);
   (ID_AM29LV320T, "AM29LV320T"%string);
   (ID_MX29LV320AT, "MX29LV320AT"%string);
   (ID_AM29LV320B, "AM29LV320B"%string);
   (ID_MX29LV320AB, "MX29LV320AB"%string);
   (ID_AM29LV320M, "AM29LV320M"%string);
   (ID_AM29LV320MB, "AM29LV320MB"%string);
   (ID_AM29LV320MT, "AM29LV320MT"%string);
   (ID_MX29LV640BT, "MX29LV640BT"%string);
   (ID_SST39VF200A, "SST39VF200A"%string);
   (ID_SST39VF400A, "SST39VF400A"%string);
   (ID_SST39VF800A, "SST39VF800A"%string);
   (ID_SST39VF1601, "SST39VF1601"%string);
   (ID_SST39VF3201, "SST39VF3201"%string);
   (ID_SST39VF6401, "SST39VF6401"%string);
   (ID_I28F160C3T, "I28F160C3T"%string);
   (ID_I28F160C3B, "I28F160C3B"%string);
   (ID_I28F320C3T, "I28F320C3T"%string);
   (ID_I28F320C3B, "I28F320C3B"%string);
   (ID_I28F640J3, "I28F640J3"%string);
   (ID_K8D6316UTM, "K8D6316UTM"%string);
   (ID_K8D6316UBM, "K8D6316UBM"%string)].

Inductive flash_family := FLASH_UNDEFINED | FLASH_AMD | FLASH_INTEL | FLASH_SST.

#[export] Instance flash_family_eq_dec : EqDecision flash_family.
Proof. solve_decision. Defined.

(** The [case] labels of the first [switch] of [cfi_flash_init]. *)
Definition intel_ids : list Z :=
  [ID_I28F160C3B; ID_I28F320C3B; ID_I28F160C3T; ID_I28F320C3T; ID_I28F640J3].
Definition amd_ids : list Z :=
  [ID_AM29DL800B; ID_AM29LV800B; ID_AM29LV400B; ID_AM29LV160B; ID_AM29LV320B;
   ID_MX29LV320AB; ID_AM29LV320MB; ID_AM29DL800T; ID_AM29LV800T; ID_AM29LV160T;
   ID_AM29LV320T; ID_MX29LV320AT; ID_AM29LV320MT; ID_AM29LV200BT; ID_MX29LV640BT;
   ID_K8D6316UTM; ID_K8D6316UBM].
Definition sst_ids : list Z :=
  [ID_SST39VF200A; ID_SST39VF400A; ID_SST39VF800A; ID_SST39VF1601; ID_SST39VF3201;
   ID_SST39VF6401].

Definition id_in (id : Z) (l : list Z) : bool := existsb (Z.eqb id) l.

Definition cfi_family (device_id : Z) : option flash_family :=
  if id_in device_id intel_ids then Some FLASH_INTEL
  else if id_in device_id amd_ids then Some FLASH_AMD
  else if id_in device_id sst_ids then Some FLASH_SST
  else None.

(** The second [switch]: bottom-boot parts keep the order of the CFI blocks,
    top-boot parts reverse it. *)
Definition bottom_ids : list Z :=
  [ID_AM29DL800B; ID_AM29LV800B; ID_AM29LV400B; ID_AM29LV160B; ID_AM29LV320B;
   ID_MX29LV320AB; ID_AM29LV320MB; ID_I28F160C3B; ID_I28F320C3B; ID_I28F640J3;
   ID_I28F160C3T; ID_I28F320C3T; ID_SST39VF3201; ID_SST39VF6401; ID_SST39VF200A;
   ID_SST39VF400A; ID_SST39VF800A; ID_K8D6316UBM].
Definition top_ids : list Z :=
  [ID_AM29DL800T; ID_AM29LV800T; ID_AM29LV160T; ID_AM29LV320T; ID_MX29LV320AT;
   ID_AM29LV320MT; ID_AM29LV200BT; ID_SST39VF1601; ID_MX29LV640BT; ID_K8D6316UTM].

Definition flipCFIGeometry (device_id : Z) : option bool :=
  if id_in device_id bottom_ids then Some false
  else if id_in device_id top_ids then Some true
  else None.

(** The name the driver reports. *)
Definition device_name (device_id : Z) : string :=
  match find (fun p => fst p =? device_id) CFI_FLASH_DEVICES with
  | Some (_, name) => name
  | None => ""
  end.

(** ** CFI tables of parts without a usable query *)

Definition cfi_data_struct_29W160 : list Z :=
  [0x0020; 0x0049; 0xffff; 0xffff; 0xffff; 0xffff; 0xffff; 0xffff;
   0xffff; 0xffff; 0xffff; 0xffff; 0xffff; 0xffff; 0xffff; 0xffff;
   0x0051; 0x0052; 0x0059; 0x0002; 0x0000; 0x0040; 0x0000; 0x0000;
   0x0000; 0x0000; 0x0000; 0x0027; 0x0036; 0x0000; 0x0000; 0x0004;
   0x0000; 0x000a; 0x0000; 0x0004; 0x0000; 0x0003; 0x0000; 0x0015;
   0x0002; 0x0000; 0x0000; 0x0000; 0x0004; 0x0000; 0x0000; 0x0040;
   0x0000; 0x0001; 0x0000; 0x0020; 0x0000; 0x0000; 0x0000; 0x0080;
   0x0000; 0x001e; 0x0000; 0x0000; 0x0001; 0xffff; 0xffff; 0xffff;
   0x0050; 0x0052; 0x0049; 0x0031; 0x0030; 0x0000; 0x0002; 0x0001;
   0x0001; 0x0004; 0x0000; 0x0000; 0x0000; 0xffff; 0xffff; 0x0002;
   0xffff; 0xffff; 0xffff; 0xffff; 0xffff; 0xffff; 0xffff; 0xffff;
   0xffff; 0xffff; 0xffff; 0xffff; 0xffff; 0xffff; 0xffff; 0xffff;
   0xffff; 0x0888; 0x252b; 0x8c84; 0x7dbc; 0xffff; 0xffff; 0xffff;
   0xffff; 0xffff; 0xffff; 0xffff; 0xffff; 0xffff; 0xffff; 0xffff;
   0xffff; 0xffff; 0xffff; 0xffff; 0xffff; 0xffff; 0xffff; 0xffff;
   0xffff; 0xffff; 0xffff; 0xffff; 0xffff; 0xffff; 0xffff; 0xffff].

Definition cfi_data_struct_29W200 : list Z :=
  [0x0020; 0x0049; 0xffff; 0xffff; 0xffff; 0xffff; 0xffff; 0xffff;
   0xffff; 0xffff; 0xffff; 0xffff; 0xffff; 0xffff; 0xffff; 0xffff;
   0x0051; 0x0052; 0x0059; 0x0002; 0x0000; 0x0040; 0x0000; 0x0000;
   0x0000; 0x0000; 0x0000; 0x0027; 0x0036; 0x0000; 0x0000; 0x0004;
   0x0000; 0x000a; 0x0000; 0x0004; 0x0000; 0x0003; 0x0000; 0x0015;
   0x0002; 0x0000; 0x0000; 0x0000; 0x0004; 0x0000; 0x0000; 0x0040;
   0x0000; 0x0001; 0x0000; 0x0020; 0x0000; 0x0000; 0x0000; 0x0080;
   0x0000; 0x0002; 0x0000; 0x0000; 0x0001; 0xffff; 0xffff; 0xffff;
   0x0050; 0x0052; 0x0049; 0x0031; 0x0030; 0x0000; 0x0002; 0x0001;
   0x0001; 0x0004; 0x0000; 0x0000; 0x0000; 0xffff; 0xffff; 0x0002;
   0xffff; 0xffff; 0xffff; 0xffff; 0xffff; 0xffff; 0xffff; 0xffff;
   0xffff; 0xffff; 0xffff; 0xffff; 0xffff; 0xffff; 0xffff; 0xffff;
   0xffff; 0x0888; 0x252b; 0x8c84; 0x7dbc; 0xffff; 0xffff; 0xffff;
   0xffff; 0xffff; 0xffff; 0xffff; 0xffff; 0xffff; 0xffff; 0xffff;
   0xffff; 0xffff; 0xffff; 0xffff; 0xffff; 0xffff; 0xffff; 0xffff;
   0xffff; 0xffff; 0xffff; 0xffff; 0xffff; 0xffff; 0xffff; 0xffff].

Definition cfi_data_struct_26LV800B : list Z :=
  [0x0020; 0x0049; 0xffff; 0xffff; 0xffff; 0xffff; 0xffff; 0xffff;
   0xffff; 0xffff; 0xffff; 0xffff; 0xffff; 0xffff; 0xffff; 0xffff;
   0x0051; 0x0052; 0x0059; 0x0002; 0x0000; 0x0040; 0x0000; 0x0000;
   0x0000; 0x0000; 0x0000; 0x0027; 0x0036; 0x0000; 0x0000; 0x0004;
   0x0000; 0x000a; 0x0000; 0x0004; 0x0000; 0x0003; 0x0000; 0x0015;
   0x0002; 0x0000; 0x0000; 0x0000; 0x0004; 0x0000; 0x0000; 0x0040;
   0x0000; 0x0001; 0x0000; 0x0020; 0x0000; 0x0000; 0x0000; 0x0080;
   0x0000; 0x000e; 0x0000; 0x0000; 0x0001; 0xffff; 0xffff; 0xffff;
   0x0050; 0x0052; 0x0049; 0x0031; 0x0030; 0x0000; 0x0002; 0x0001;
   0x0001; 0x0004; 0x0000; 0x0000; 0x0000; 0xffff; 0xffff; 0x0002;
   0xffff; 0xffff; 0xffff; 0xffff; 0xffff; 0xffff; 0xffff; 0xffff;
   0xffff; 0xffff; 0xffff; 0xffff; 0xffff; 0xffff; 0xffff; 0xffff;
   0xffff; 0x0888; 0x252b; 0x8c84; 0x7dbc; 0xffff; 0xffff; 0xffff;
   0xffff; 0xffff; 0xffff; 0xffff; 0xffff; 0xffff; 0xffff; 0xffff;
   0xffff; 0xffff; 0xffff; 0xffff; 0xffff; 0xffff; 0xffff; 0xffff;
   0xffff; 0xffff; 0xffff; 0xffff; 0xffff; 0xffff; 0xffff; 0xffff].

(** ** The CFI query *)

Record erase_blk := mkBlk { sector_size : Z; num_sectors : Z }.

Record cfi_query := mkQuery {
  num_erase_blocks : Z;
  device_size : Z;
  erase_block : list erase_blk
}.

(** The eight cleared entries of [query->erase_block]. *)
Definition no_blocks : list erase_blk := replicate 8 (mkBlk 0 0).

(** Entry [i] from the CFI words. *)
Definition cfi_block (fwp : list Z) (i : Z) : option erase_blk :=
  w2d ← fwp !! Z.to_nat (0x2D + 4 * i);
  w2e ← fwp !! Z.to_nat (0x2E + 4 * i);
  w2f ← fwp !! Z.to_nat (0x2F + 4 * i);
  w30 ← fwp !! Z.to_nat (0x30 + 4 * i);
  Some (mkBlk (u32 (256 * (256 * w30 + w2f))) (s32 (w2d + Z.shiftl w2e 8 + 1))).

(** The loop over the erase blocks, from block [i], [n] to go. *)
Fixpoint cfi_blocks (fwp : list Z) (i : Z) (n : nat) (blks : list erase_blk)
    : option (list erase_blk) :=
  match n with
  | O => Some blks
  | S n' =>
      if i <? zlen blks then
        b ← cfi_block fwp i;
        cfi_blocks fwp (i + 1) n' (<[Z.to_nat i := b]> blks)
      else None
  end.

(** [cfi_flash_get_cfi] on the words [fwp]; on failure only the entries of the
    query are cleared. *)
Definition cfi_flash_get_cfi (query : cfi_query) (fwp : list Z) (family : flash_family)
    : option (Z * cfi_query) :=
  q ← fwp !! 0x10%nat; r ← fwp !! 0x11%nat; y ← fwp !! 0x12%nat;
  if negb (q =? 0x51) && negb (r =? 0x52) && negb (y =? 0x59) then
    Some (FLASH_API_ERROR, mkQuery (num_erase_blocks query) (device_size query) no_blocks)
  else
    temp ← fwp !! 0x27%nat;
    n ← fwp !! 0x2C%nat;
    let n := if decide (family = FLASH_SST) then 1 else n in
    if (0 <=? temp) && (temp <? 32) then
      blks ← cfi_blocks fwp 0 (Z.to_nat n) no_blocks;
      Some (FLASH_API_OK, mkQuery n (s32 (Z.shiftl 1 temp)) blks)
    else None.

(** ** The sector table *)

Record sector := mkSector { sec_size : Z; sec_base : Z }.

#[export] Instance sector_eq_dec : EqDecision sector.
Proof. solve_decision. Defined.

(** The inner loop: [n] sectors of [size] bytes appended to the table. *)
Fixpoint add_sectors (size : Z) (n : nat) (basecount : Z) (sec : list sector)
    : option (Z * list sector) :=
  match n with
  | O => Some (basecount, sec)
  | S n' =>
      if zlen sec <? MAXSECTORS then
        add_sectors size n' (s32 (basecount + size)) (sec ++ [mkSector size basecount])
      else None
  end.

(** The outer loop over the blocks in the order in which it visits them. *)
Fixpoint add_blocks (blks : list erase_blk) (device_size basecount : Z) (sec : list sector)
    : option (list sector) :=
  match blks with
  | [] => Some sec
  | b :: blks' =>
      if basecount <? device_size then
        '(basecount, sec) ← add_sectors (s32 (sector_size b)) (Z.to_nat (num_sectors b))
                              basecount sec;
        add_blocks blks' device_size basecount sec
      else Some sec
  end.

(** [meminfo.sec[0 .. nsect-1]] after the geometry loops. *)
Definition cfi_sectors (query : cfi_query) (flip : bool) : option (list sector) :=
  let blks := take (Z.to_nat (num_erase_blocks query)) (erase_block query) in
  if num_erase_blocks query <=? zlen (erase_block query) then
    add_blocks (if flip then rev blks else blks) (device_size query) 0 []
  else None.

Record flashinfo := mkInfo { nsect : Z; sec : list sector; totalSize : Z }.

Definition empty_query : cfi_query := mkQuery 0 0 no_blocks.

(** [cfi_flash_init] for a device that answers with [device_id] and, in CFI query
    mode, with the words [fwp]. *)
Definition cfi_flash_init (device_id : Z) (fwp : list Z) : option (Z * option flashinfo) :=
  match cfi_family device_id with
  | None => Some (FLASH_API_ERROR, None)
  | Some family =>
      '(r, query) ← cfi_flash_get_cfi empty_query fwp family;
      query ← (if r =? -1 then
                 let table :=
                   if id_in device_id [ID_AM29LV160T; ID_AM29LV160B]
                   then Some cfi_data_struct_29W160
                   else if device_id =? ID_AM29LV200BT then Some cfi_data_struct_29W200
                   else if device_id =? ID_AM29LV800B then Some cfi_data_struct_26LV800B
                   else None in
                 match table with
                 | Some t => '(_, q) ← cfi_flash_get_cfi query t family; Some (Some q)
                 | None => Some None
                 end
               else Some (Some query));
      match query, flipCFIGeometry device_id with
      | Some query, Some flip =>
          sec ← cfi_sectors query flip;
          s ← last sec;
          Some (FLASH_API_OK,
                Some (mkInfo (zlen sec) sec (s32 (sec_base s + sec_size s))))
      | _, _ => Some (FLASH_API_ERROR, None)
      end
  end.

(** ** Queries *)

(** [meminfo.sec[sector]]; entries never filled are zero. *)
Definition sec_at (m : flashinfo) (sector : Z) : option SectorMap.sector :=
  if (0 <=? sector) && (sector <? MAXSECTORS) then
    Some (default (mkSector 0 0) (sec m !! Z.to_nat sector))
  else None.

Definition cfi_flash_get_numsectors (m : flashinfo) : Z := nsect m.

(** The argument is an [unsigned short]. *)
Definition cfi_flash_get_sector_size (m : flashinfo) (sector : Z) : option Z :=
  sec_size <$> sec_at m (u16 sector).

Definition cfi_flash_get_memptr (FLASH_BASE : Z) (m : flashinfo) (sector : Z) : option Z :=
  s ← sec_at m (u16 sector); Some (u32 (FLASH_BASE + sec_base s)).

Definition cfi_flash_get_total_size (m : flashinfo) : Z := totalSize m.

(** The loop of [cfi_flash_get_blk]; [n] bounds [last_blk - blk_start]. *)
Fixpoint get_blk_loop (m : flashinfo) (relative_addr blk_start i : Z) (n : nat)
    : option (Z * Z) :=
  match n with
  | O => Some (blk_start, i)
  | S n' =>
      if i <? relative_addr then
        size ← cfi_flash_get_sector_size m blk_start;
        get_blk_loop m relative_addr (blk_start + 1) (s32 (i + size)) n'
      else Some (blk_start, i)
  end.

Definition cfi_flash_get_blk (FLASH_BASE : Z) (m : flashinfo) (addr : Z) : option Z :=
  let last_blk := cfi_flash_get_numsectors m in
  let relative_addr := s32 (addr - FLASH_BASE) in
  '(blk_start, i) ← get_blk_loop m relative_addr 0 0 (Z.to_nat last_blk);
  Some (if relative_addr <? i then blk_start - 1
        else if blk_start =? last_blk then -1
        else blk_start).

(** ** Layout of a device *)

Definition zsum (l : list Z) : Z := foldr Z.add 0 l.

(** The sectors of the given sizes, one after the other from [base]. *)
Fixpoint layout (base : Z) (sizes : list Z) : list sector :=
  match sizes with
  | [] => []
  | n :: sizes' => mkSector n base :: layout (base + n) sizes'
  end.

(** The sector sizes the erase blocks denote. *)
Definition expand (blks : list erase_blk) : list Z :=
  concat (map (fun b => replicate (Z.to_nat (num_sectors b)) (sector_size b)) blks).

(** A device: positive sector sizes that fit the table and an [int]. *)
Definition device_ok (sizes : list Z) : Prop :=
  Forall (fun n => 0 < n) sizes /\ 0 < zlen sizes <= MAXSECTORS /\ zsum sizes < 2 ^ 31.

(** [m] describes the device with these sectors. *)
Definition flash_map (m : flashinfo) (sizes : list Z) : Prop :=
  device_ok sizes /\ sec m = layout 0 sizes /\ nsect m = zlen sizes /\
  totalSize m = zsum sizes.

Lemma zsum_cons x l : zsum (x :: l) = x + zsum l.
Proof. done. Qed.

Lemma zsum_app l1 l2 : zsum (l1 ++ l2) = zsum l1 + zsum l2.
Proof. induction l1 as [|x l1 IH]; [done|]. cbn [app]. rewrite !zsum_cons. lia. Qed.

Lemma zsum_nonneg l : Forall (fun n => 0 < n) l -> 0 <= zsum l.
Proof. induction 1; [done|]. rewrite zsum_cons. lia. Qed.

Lemma zsum_replicate n x : zsum (replicate n x) = Z.of_nat n * x.
Proof. induction n as [|n IH]; [done|]. cbn [replicate]. rewrite zsum_cons. lia. Qed.

Lemma layout_app l1 : forall b l2, layout b (l1 ++ l2) = layout b l1 ++ layout (b + zsum l1) l2.
Proof.
  induction l1 as [|x l1 IH]; intros b l2; cbn [layout app]; [by rewrite Z.add_0_r|].
  by rewrite IH, zsum_cons, Z.add_assoc.
Qed.

Lemma zlen_layout l : forall b, zlen (layout b l) = zlen l.
Proof. induction l as [|x l IH]; intros b; [done|]. cbn. by rewrite !zlen_cons, IH. Qed.

(** Sector [k] starts where the sectors before it end. *)
Lemma layout_lookup l : forall b (k : nat) n,
  l !! k = Some n -> layout b l !! k = Some (mkSector n (b + zsum (take k l))).
Proof.
  induction l as [|x l IH]; intros b k n H; [done|].
  destruct k as [|k]; [cbn in *; simplify_eq; by rewrite Z.add_0_r|].
  cbn [layout take]. rewrite zsum_cons, Z.add_assoc. by apply IH.
Qed.

Lemma zsum_take_S l (k : nat) n :
  l !! k = Some n -> zsum (take (S k) l) = zsum (take k l) + n.
Proof.
  intros H. rewrite (take_S_r _ _ n) by done. rewrite zsum_app. cbn. lia.
Qed.

Lemma zsum_take_le l (k : nat) : Forall (fun n => 0 < n) l -> 0 <= zsum (take k l) <= zsum l.
Proof.
  intros H. pose proof (zsum_app (take k l) (drop k l)) as E. rewrite take_drop in E.
  pose proof (zsum_nonneg (take k l) ltac:(by apply Forall_take)).
  pose proof (zsum_nonneg (drop k l) ltac:(by apply Forall_drop)). lia.
Qed.

(** *** The geometry loops *)

Lemma add_sectors_spec size n : forall base tbl,
  0 <= size -> 0 <= base -> base + Z.of_nat n * size < 2 ^ 31 ->
  zlen tbl + Z.of_nat n <= MAXSECTORS ->
  add_sectors size n base tbl =
    Some (base + Z.of_nat n * size, tbl ++ layout base (replicate n size)).
Proof.
  induction n as [|n IH]; intros base tbl Hs Hb Hsum Hlen; cbn.
  - rewrite app_nil_r. do 2 f_equal. lia.
  - rewrite Nat2Z.inj_succ in *.
    assert ((zlen tbl <? MAXSECTORS) = true) as -> by (apply Z.ltb_lt; lia).
    rewrite s32_id by (unfold is_s32; nia).
    rewrite IH by (try nia; autorewrite with buf; lia).
    f_equal. f_equal; [lia|]. by rewrite <- app_assoc.
Qed.

Lemma add_blocks_spec blks : forall dsize base tbl,
  Forall (fun b => 0 < sector_size b < 2 ^ 31 /\ 0 < num_sectors b) blks -> 0 <= base ->
  base + zsum (expand blks) < 2 ^ 31 -> base + zsum (expand blks) <= dsize ->
  zlen tbl + zlen (expand blks) <= MAXSECTORS ->
  add_blocks blks dsize base tbl = Some (tbl ++ layout base (expand blks)).
Proof.
  induction blks as [|b blks IH]; intros dsize base tbl Hall Hb Hsum Hd Hlen.
  - cbn. by rewrite app_nil_r.
  - apply Forall_cons in Hall as [[Hs Hn] Hall]. unfold expand in *. cbn [map concat] in *.
    fold (expand blks) in *. rewrite zsum_app, zsum_replicate, Z2Nat.id in * by lia.
    rewrite zlen_app, zlen_replicate, Z2Nat.id in Hlen by lia.
    assert (Hge : 0 <= zsum (expand blks)).
    { apply zsum_nonneg. clear -Hall. induction Hall as [|x l [] _ IH]; [done|].
      unfold expand. cbn. apply Forall_app. split; [|done]. apply Forall_replicate. lia. }
    pose proof (zlen_nonneg (expand blks)).
    cbn [add_blocks]. assert ((base <? dsize) = true) as -> by (apply Z.ltb_lt; nia).
    rewrite s32_id by (unfold is_s32; lia).
    rewrite add_sectors_spec by (rewrite ?Z2Nat.id by lia; nia). cbn [mbind option_bind].
    rewrite Z2Nat.id by lia. rewrite IH; [|done|nia|lia|lia|].
    + rewrite layout_app, zsum_replicate, Z2Nat.id, app_assoc by lia. done.
    + rewrite zlen_app, zlen_layout, zlen_replicate, Z2Nat.id by lia. lia.
Qed.

(** ** Properties of the initialisation *)

(** What a sane CFI table says. *)
Definition used_blocks (q : cfi_query) : list erase_blk :=
  take (Z.to_nat (num_erase_blocks q)) (erase_block q).

Definition query_ok (q : cfi_query) : Prop :=
  0 < num_erase_blocks q <= zlen (erase_block q) /\
  Forall (fun b => 0 < sector_size b < 2 ^ 31 /\ 0 < num_sectors b) (used_blocks q) /\
  zlen (expand (used_blocks q)) <= MAXSECTORS /\
  zsum (expand (used_blocks q)) <= device_size q < 2 ^ 31.

(** Sums and lengths do not depend on the order; reversing the blocks permutes
    the sectors. *)
#[export] Instance zsum_Proper : Proper ((≡ₚ) ==> eq) zsum.
Proof. induction 1; rewrite ?zsum_cons; lia. Qed.

#[export] Instance zlen_Proper {A} : Proper ((≡ₚ) ==> eq) (@zlen A).
Proof. intros l1 l2 H. unfold zlen. by rewrite (Permutation_length H). Qed.

#[export] Instance expand_Proper : Proper ((≡ₚ) ==> (≡ₚ)) expand.
Proof. intros l1 l2 H. unfold expand. by rewrite H. Qed.

Lemma expand_pos blks :
  Forall (fun b => 0 < sector_size b < 2 ^ 31 /\ 0 < num_sectors b) blks ->
  Forall (fun n => 0 < n) (expand blks).
Proof.
  induction 1 as [|x l [] _ IH]; [done|]. unfold expand. cbn. apply Forall_app.
  split; [|done]. apply Forall_replicate. lia.
Qed.

Definition oriented (flip : bool) (q : cfi_query) : list erase_blk :=
  if flip then rev (used_blocks q) else used_blocks q.

Lemma oriented_perm flip q : oriented flip q ≡ₚ used_blocks q.
Proof. destruct flip; cbn; [by rewrite <- Permutation_rev|done]. Qed.

Lemma cfi_sectors_spec q flip :
  query_ok q -> cfi_sectors q flip = Some (layout 0 (expand (oriented flip q))) /\
                device_ok (expand (oriented flip q)).
Proof.
  intros (Hn & Hall & Hlen & Hsum). pose proof (oriented_perm flip q) as Hp.
  assert (Es : zsum (expand (oriented flip q)) = zsum (expand (used_blocks q))) by by rewrite Hp.
  assert (El : zlen (expand (oriented flip q)) = zlen (expand (used_blocks q))) by by rewrite Hp.
  assert (Hall' : Forall (fun b => 0 < sector_size b < 2 ^ 31 /\ 0 < num_sectors b) (oriented flip q))
    by (by rewrite Hp).
  split.
  - unfold cfi_sectors. destruct (Z.leb_spec (num_erase_blocks q) (zlen (erase_block q))); [|lia].
    change (take _ _) with (used_blocks q). fold (oriented flip q).
    rewrite (add_blocks_spec _ _ 0 []); [done|done|lia|lia|lia|]. cbn. unfold zlen in *. cbn. lia.
  - split; [by apply expand_pos|]. split; [|lia]. split; [|lia].
    destruct (oriented flip q) as [|b l] eqn:E.
    + assert (zlen (used_blocks q) = 0) as H0 by (rewrite <- Hp; done).
      unfold used_blocks in H0. rewrite zlen_take in H0. lia.
    + apply Forall_cons in Hall' as [[_ Hb] _]. unfold expand. cbn.
      rewrite zlen_app, zlen_replicate. pose proof (zlen_nonneg (expand l)). unfold expand in *. lia.
Qed.

Lemma id_in_list id l : id_in id l = true -> id ∈ l.
Proof. unfold id_in. intros (x & Hx & ->%Z.eqb_eq)%existsb_exists. by apply list_elem_of_In. Qed.

(** Every supported device has a boot orientation. *)
Lemma family_oriented id f : cfi_family id = Some f -> exists flip, flipCFIGeometry id = Some flip.
Proof.
  intros H.
  assert (Hin : id ∈ intel_ids ++ amd_ids ++ sst_ids).
  { unfold cfi_family in H. rewrite !elem_of_app.
    destruct (id_in id intel_ids) eqn:E1; [left; by apply id_in_list|].
    destruct (id_in id amd_ids) eqn:E2; [right; left; by apply id_in_list|].
    destruct (id_in id sst_ids) eqn:E3; [right; right; by apply id_in_list|done]. }
  assert (Hall : Forall (fun id => is_Some (flipCFIGeometry id)) (intel_ids ++ amd_ids ++ sst_ids))
    by by_decide.
  rewrite Forall_forall in Hall. by apply Hall.
Qed.

Lemma last_layout l b s :
  last (layout b l) = Some s -> sec_base s + sec_size s = b + zsum l.
Proof.
  revert b. induction l as [|x l IH]; intros b H; [done|].
  destruct l as [|y l]; [cbn in *; simplify_eq; cbn; lia|].
  rewrite zsum_cons, Z.add_assoc. by apply IH.
Qed.

(** [cfi_flash_init] on a supported device whose CFI table is sane (at most
    eight blocks, at most 1024 sectors, a size below 2 GB) succeeds, and the
    sector table it builds is the device described by the CFI blocks, in their
    order for a bottom-boot part and reversed for a top-boot part: consecutive
    sectors from offset 0 whose sizes add up to the reported total. *)
Theorem cfi_flash_init_spec device_id fwp family q :
  cfi_family device_id = Some family ->
  cfi_flash_get_cfi empty_query fwp family = Some (FLASH_API_OK, q) -> query_ok q ->
  exists flip m, flipCFIGeometry device_id = Some flip /\
    cfi_flash_init device_id fwp = Some (FLASH_API_OK, Some m) /\
    flash_map m (expand (oriented flip q)).
Proof.
  intros Hf Hq Hok. destruct (family_oriented _ _ Hf) as [flip Hflip].
  destruct (cfi_sectors_spec q flip Hok) as [Hs Hd]. pose proof Hd as (Hpos & Hlen & Hsum).
  unfold cfi_flash_init. rewrite Hf, Hq. cbn [mbind option_bind].
  change (FLASH_API_OK =? -1) with false. cbn iota. cbn [mbind option_bind].
  rewrite Hflip, Hs. cbn [mbind option_bind].
  destruct (last (layout 0 (expand (oriented flip q)))) as [s|] eqn:El.
  - exists flip. eexists. split; [done|]. split; [done|]. apply last_layout in El.
    pose proof (zsum_nonneg _ Hpos).
    split; [done|]. cbn. rewrite zlen_layout. split; [done|]. split; [done|].
    rewrite El, s32_id by (unfold is_s32; lia). lia.
  - apply last_None in El. apply (f_equal zlen) in El. rewrite zlen_layout, zlen_nil in El. lia.
Qed.

(** The CFI words of a bottom-boot 2 MB part (16K, 8K, 8K, 32K, 31 x 64K). *)
Lemma cfi_flash_init_spec_witness :
  exists flip m, flipCFIGeometry ID_AM29LV160B = Some flip /\
    cfi_flash_init ID_AM29LV160B cfi_data_struct_29W160 = Some (FLASH_API_OK, Some m) /\
    flash_map m ([0x4000; 0x2000; 0x2000; 0x8000] ++ replicate 31 0x10000).
Proof.
  destruct (cfi_flash_init_spec ID_AM29LV160B cfi_data_struct_29W160 FLASH_AMD
    (mkQuery 4 (2 ^ 21) ([mkBlk 0x4000 1; mkBlk 0x2000 2; mkBlk 0x8000 1; mkBlk 0x10000 31]
       ++ replicate 4 (mkBlk 0 0)))) as (flip & m & Hf & Hi & Hm).
  - reflexivity.
  - vm_compute. reflexivity.
  - split; [vm_compute; split; done|]. split; [repeat constructor|]. vm_compute. split_and!; done.
  - vm_compute in Hf. simplify_eq. exists false, m. split_and!; [done|exact Hi|exact Hm].
Defined.

(** The parts without a CFI table.  When the device answers the query with
    none of the three letters, the driver takes its built-in table for the
    29LV160, 29LV200 and 26LV800 parts, and the sectors it then assumes add up
    to the size of the part: 2 MB, 256 KB and 1 MB. *)
Theorem cfi_fallback_geometry fwp q r y :
  fwp !! 0x10%nat = Some q -> fwp !! 0x11%nat = Some r -> fwp !! 0x12%nat = Some y ->
  q <> 0x51 -> r <> 0x52 -> y <> 0x59 ->
  (exists m, cfi_flash_init ID_AM29LV160T fwp = Some (FLASH_API_OK, Some m) /\
     flash_map m (replicate 31 0x10000 ++ [0x8000; 0x2000; 0x2000; 0x4000]) /\
     totalSize m = 2 * 2 ^ 20) /\
  (exists m, cfi_flash_init ID_AM29LV160B fwp = Some (FLASH_API_OK, Some m) /\
     flash_map m ([0x4000; 0x2000; 0x2000; 0x8000] ++ replicate 31 0x10000) /\
     totalSize m = 2 * 2 ^ 20) /\
  (exists m, cfi_flash_init ID_AM29LV200BT fwp = Some (FLASH_API_OK, Some m) /\
     flash_map m (replicate 3 0x10000 ++ [0x8000; 0x2000; 0x2000; 0x4000]) /\
     totalSize m = 2 ^ 18) /\
  (exists m, cfi_flash_init ID_AM29LV800B fwp = Some (FLASH_API_OK, Some m) /\
     flash_map m ([0x4000; 0x2000; 0x2000; 0x8000] ++ replicate 15 0x10000) /\
     totalSize m = 2 ^ 20).
Proof.
  intros Hq Hr Hy Nq Nr Ny.
  assert (Hbad : forall f, cfi_flash_get_cfi empty_query fwp f =
            Some (FLASH_API_ERROR, mkQuery 0 0 no_blocks)).
  { intros f. unfold cfi_flash_get_cfi. rewrite Hq, Hr, Hy. cbn [mbind option_bind].
    by ztest. }
  unfold cfi_flash_init.
  repeat match goal with
  | |- context [cfi_family ?d] =>
      let r := eval vm_compute in (cfi_family d) in change (cfi_family d) with r
  end. cbn iota. rewrite !Hbad. cbn [mbind option_bind].
  split_and!; (eexists; split; [vm_compute; reflexivity|]); (split; [|reflexivity]);
    (split; [split; [repeat constructor|vm_compute; split; [split|]; done]|]);
    split_and!; reflexivity.
Qed.

Lemma cfi_fallback_geometry_witness :
  exists m, cfi_flash_init ID_AM29LV800B (replicate 64 0xffff) = Some (FLASH_API_OK, Some m) /\
    totalSize m = 2 ^ 20.
Proof.
  destruct (cfi_fallback_geometry (replicate 64 0xffff) 0xffff 0xffff 0xffff)
    as (_ & _ & _ & m & H & _ & Ht); try reflexivity; try done. by exists m.
Defined.

(** The acceptance test of a CFI query.  [cfi_flash_get_cfi] rejects the
    device only when all three signature words differ from "QRY" (the test joins
    them by [&&]): a table with a single matching letter is accepted, and its
    block count is used unchecked - more than eight blocks leave the array
    [erase_block], unless the device is an SST one. *)
Theorem cfi_query_acceptance query fwp family q r y n :
  fwp !! 0x10%nat = Some q -> fwp !! 0x11%nat = Some r -> fwp !! 0x12%nat = Some y ->
  fwp !! 0x2C%nat = Some n ->
  (q <> 0x51 /\ r <> 0x52 /\ y <> 0x59 ->
   cfi_flash_get_cfi query fwp family =
     Some (FLASH_API_ERROR, mkQuery (num_erase_blocks query) (device_size query) no_blocks)) /\
  (q = 0x51 \/ r = 0x52 \/ y = 0x59 -> 8 < n -> family <> FLASH_SST ->
   cfi_flash_get_cfi query fwp family = None).
Proof.
  intros Hq Hr Hy Hn. unfold cfi_flash_get_cfi. rewrite Hq, Hr, Hy, Hn. cbn [mbind option_bind].
  split.
  - intros (? & ? & ?). by ztest.
  - intros Hm Hb Hf. assert (negb (q =? 0x51) && negb (r =? 0x52) && negb (y =? 0x59) = false) as ->
      by (ztest; tauto).
    destruct (fwp !! 39%nat) as [temp|]; [|done]. cbn [mbind option_bind].
    rewrite decide_False by done. case_match; [|done].
    assert (Hno : forall k blks i, zlen blks = 8 -> 0 <= i <= 8 -> 8 < i + Z.of_nat k ->
              cfi_blocks fwp i k blks = None).
    { clear. induction k as [|k IH]; intros blks i Hl Hi Hk; [lia|]. cbn.
      destruct (Z.ltb_spec i (zlen blks)); [|done]. destruct (cfi_block fwp i); [|done]. cbn.
      apply IH; [|lia|lia]. unfold zlen in *. by rewrite length_insert. }
    rewrite Hno; [done|done|lia|lia].
Qed.

Lemma cfi_query_acceptance_witness :
  let fwp := replicate 16 0 ++ [0x51; 0; 0] ++ replicate 25 0 ++ [9] ++ replicate 64 0 in
  cfi_flash_get_cfi empty_query fwp FLASH_AMD = None.
Proof.
  intros fwp. by apply (cfi_query_acceptance empty_query fwp FLASH_AMD 0x51 0 0 9); auto.
Defined.

(** ** Properties of the queries *)

Lemma get_sector_size m sizes (k : nat) n :
  flash_map m sizes -> sizes !! k = Some n ->
  cfi_flash_get_sector_size m (Z.of_nat k) = Some n.
Proof.
  intros ((_ & Hlen & _) & Hs & _) Hk. unfold cfi_flash_get_sector_size, sec_at.
  pose proof (lookup_lt_Some _ _ _ Hk). unfold zlen, MAXSECTORS in *.
  rewrite u16_id by (unfold is_u16; lia). ztest. cbn. rewrite Nat2Z.id, Hs.
  by rewrite (layout_lookup _ _ _ n).
Qed.

(** The loop stops at the first sector boundary at or past the address, or at the
    end of the device. *)
Lemma get_blk_loop_spec m sizes a n : forall k : nat,
  flash_map m sizes -> (k + n = length sizes)%nat ->
  (k <> 0%nat -> zsum (take (pred k) sizes) < a) ->
  exists k' : nat, get_blk_loop m a (Z.of_nat k) (zsum (take k sizes)) n =
      Some (Z.of_nat k', zsum (take k' sizes)) /\ (k' <= length sizes)%nat /\
    (a <= zsum (take k' sizes) \/ k' = length sizes) /\
    (k' <> 0%nat -> zsum (take (pred k') sizes) < a).
Proof.
  induction n as [|n IH]; intros k Hm Hk Hlow; cbn.
  - exists k. split; [done|]. split; [lia|]. split; [right; lia|done].
  - destruct (Z.ltb_spec (zsum (take k sizes)) a) as [H|H].
    + destruct (lookup_lt_is_Some_2 sizes k) as [x Hx]; [lia|].
      rewrite (get_sector_size m sizes k x) by done. cbn [mbind option_bind].
      pose proof Hm as ((Hpos & _ & Hsum) & _).
      rewrite <- zsum_take_S by done. rewrite s32_id.
      * replace (Z.of_nat k + 1) with (Z.of_nat (S k)) by lia. apply IH; [done|lia|]. by intros _.
      * pose proof (zsum_take_le sizes (S k) Hpos). unfold is_s32. lia.
    + exists k. split; [done|]. split; [lia|]. split; [by left|done].
Qed.

(** The [k]-th sector contains offset [a]. *)
Definition in_sector (sizes : list Z) (k a : Z) : Prop :=
  exists n, sizes !! Z.to_nat k = Some n /\ 0 <= k /\
    zsum (take (Z.to_nat k) sizes) <= a < zsum (take (Z.to_nat k) sizes) + n.

Lemma get_blk_correct base m sizes addr :
  flash_map m sizes ->
  let a := s32 (addr - base) in
  exists k, cfi_flash_get_blk base m addr = Some k /\
    (0 <= a < zsum sizes -> in_sector sizes k a) /\ (~ (0 <= a < zsum sizes) -> k = -1).
Proof.
  intros Hm a. pose proof Hm as ((Hpos & _ & Hsum) & _ & Hn & _).
  unfold cfi_flash_get_blk, cfi_flash_get_numsectors. rewrite Hn.
  change (s32 (addr - base)) with a. clearbody a. unfold zlen. rewrite Nat2Z.id.
  destruct (get_blk_loop_spec m sizes a (length sizes) 0) as (k & E & Hle & Hstop & Hlow);
    [done|lia|done|].
  change (zsum (take 0 sizes)) with 0 in E. change (Z.of_nat 0) with 0 in E. rewrite E.
  cbn [mbind option_bind]. eexists. split; [done|].
  pose proof (zsum_take_le sizes k Hpos) as Hk.
  destruct (Z.ltb_spec a (zsum (take k sizes))) as [H1|H1].
  - destruct k as [|k]; [change (zsum (take 0 sizes)) with 0 in H1; split; [lia|done]|].
    destruct (lookup_lt_is_Some_2 sizes k) as [x Hx]; [lia|].
    rewrite (zsum_take_S _ _ x) in H1 by done. specialize (Hlow ltac:(lia)). cbn [pred] in Hlow.
    pose proof (zsum_take_le sizes k Hpos).
    replace (Z.of_nat (S k) - 1) with (Z.of_nat k) by lia. split.
    + intros _. exists x. rewrite Nat2Z.id. split; [done|]. lia.
    + rewrite (zsum_take_S _ _ x) in Hk by done. lia.
  - destruct (Z.eqb_spec (Z.of_nat k) (Z.of_nat (length sizes))) as [H2|H2].
    + assert (k = length sizes) as -> by lia. rewrite firstn_all in *. split; [lia|done].
    + assert (a = zsum (take k sizes)) as Ea by lia.
      destruct (lookup_lt_is_Some_2 sizes k) as [x Hx]; [lia|].
      pose proof (Forall_lookup_1 _ _ _ _ Hpos Hx) as Hxp. cbn in Hxp.
      pose proof (zsum_take_le sizes (S k) Hpos) as HS. rewrite (zsum_take_S _ _ x) in HS by done.
      split; [|lia]. intros _. exists x. rewrite Nat2Z.id. split; [done|]. lia.
Qed.

(** As far as the clients of the flash API rely on it. *)
Lemma get_blk_above base m sizes addr :
  flash_map m sizes ->
  let a := s32 (addr - base) in
  exists k, cfi_flash_get_blk base m addr = Some k /\
    (0 <= a < zsum sizes -> in_sector sizes k a) /\ (zsum sizes <= a -> k = -1).
Proof.
  intros Hm a. destruct (get_blk_correct base m sizes addr Hm) as (k & E & Hin & Hout).
  exists k. split_and!; [done..|]. intros. apply Hout. fold a. lia.
Qed.

(** [cfi_flash_get_blk] answers for every address: the sector that contains
    it when it lies in the device, and -1 otherwise. *)
Theorem cfi_flash_get_blk_spec base m sizes addr :
  flash_map m sizes ->
  let a := s32 (addr - base) in
  exists k, cfi_flash_get_blk base m addr = Some k /\
    (0 <= a < zsum sizes -> in_sector sizes k a) /\ (~ (0 <= a < zsum sizes) -> k = -1).
Proof. apply get_blk_correct. Qed.

Lemma cfi_flash_get_blk_spec_witness :
  exists k, cfi_flash_get_blk 0xBFC00000
      (mkInfo 3 (layout 0 [0x4000; 0x2000; 0x10000]) 0x16000) 0xBFC05000 = Some k /\
    in_sector [0x4000; 0x2000; 0x10000] k 0x5000.
Proof.
  destruct (cfi_flash_get_blk_spec 0xBFC00000
    (mkInfo 3 (layout 0 [0x4000; 0x2000; 0x10000]) 0x16000) [0x4000; 0x2000; 0x10000] 0xBFC05000)
    as (k & E & H & _).
  - split; [|done]. split; [repeat constructor|]. by vm_compute.
  - exists k. split; [done|]. apply H. by vm_compute.
Defined.
