(* ===== verification/FlashApi.v ===== *)
(** * Flash API

    [shared/opensource/flash/flash_api.c]: the driver structure
    [flash_device_info_t], the global [g_flash_info] (null until [flash_init]
    found a device) and the dispatch functions.  The class [FlashLaws] states
    what the clients of the API rely on; the theorems about the storage code are
    proved against it, for any driver and any state [F] of the device. *)

From S2P Require Import Prelude SectorMap.

(** ** The driver structure *)

Record flash_device_info_t (F : Type) := {
  flash_device_id : Z;
  flash_device_name : string;
  fn_flash_sector_erase_int : Z -> F -> option (Z * F);
  fn_flash_read_buf : Z -> Z -> Z -> F -> option (Z * list Z);
  fn_flash_write_buf : Z -> Z -> list Z -> F -> option (Z * F);
  fn_flash_get_numsectors : F -> Z;
  fn_flash_get_sector_size : Z -> F -> option Z;
  fn_flash_get_memptr : Z -> F -> option Z;
  fn_flash_get_blk : Z -> F -> option Z;
  fn_flash_get_total_size : F -> Z;
  fn_flash_get_total_memory_mapped_size : F -> Z
}.

Arguments flash_device_id {F}.
Arguments flash_device_name {F}.
Arguments fn_flash_sector_erase_int {F}.
Arguments fn_flash_read_buf {F}.
Arguments fn_flash_write_buf {F}.
Arguments fn_flash_get_numsectors {F}.
Arguments fn_flash_get_sector_size {F}.
Arguments fn_flash_get_memptr {F}.
Arguments fn_flash_get_blk {F}.
Arguments fn_flash_get_total_size {F}.
Arguments fn_flash_get_total_memory_mapped_size {F}.

(** ** Initialisation *)

(** [flash_init]: each driver's init function returns its code and the structure
    it stored in [flash_info], if any.  The result is the return code and the
    new [g_flash_info]. *)
Definition flash_init {F} (g_include_cfi g_include_spi : bool)
    (cfi_flash_init spi_flash_init : Z * option (flash_device_info_t F))
    (g_flash_info : option (flash_device_info_t F))
    : Z * option (flash_device_info_t F) :=
  let '(ret, g) :=
    if g_include_cfi then
      if fst cfi_flash_init =? FLASH_API_OK then (FLASH_API_OK, snd cfi_flash_init)
      else (fst cfi_flash_init, g_flash_info)
    else (FLASH_API_ERROR, g_flash_info) in
  if negb (ret =? FLASH_API_OK) && g_include_spi then
    if fst spi_flash_init =? FLASH_API_OK then (FLASH_API_OK, snd spi_flash_init)
    else (fst spi_flash_init, g)
  else (ret, g).

(** ** Dispatch

    Without a driver every function returns [FLASH_API_ERROR] (a null pointer
    for [flash_get_memptr]) and nothing is read or written. *)

Section Dispatch.
Context {F : Type} (g_flash_info : option (flash_device_info_t F)).

Definition flash_sector_erase_int (sector : Z) (f : F) : option (Z * F) :=
  match g_flash_info with
  | Some g => fn_flash_sector_erase_int g (u16 sector) f
  | None => Some (FLASH_API_ERROR, f)
  end.

(** The return code and the bytes stored in the buffer. *)
Definition flash_read_buf (sector offset numbytes : Z) (f : F) : option (Z * list Z) :=
  match g_flash_info with
  | Some g => fn_flash_read_buf g (u16 sector) offset numbytes f
  | None => Some (FLASH_API_ERROR, [])
  end.

Definition flash_write_buf (sector offset : Z) (buffer : list Z) (f : F) : option (Z * F) :=
  match g_flash_info with
  | Some g => fn_flash_write_buf g (u16 sector) offset buffer f
  | None => Some (FLASH_API_ERROR, f)
  end.

Definition flash_get_numsectors (f : F) : Z :=
  match g_flash_info with
  | Some g => fn_flash_get_numsectors g f
  | None => FLASH_API_ERROR
  end.

Definition flash_get_sector_size (sector : Z) (f : F) : option Z :=
  match g_flash_info with
  | Some g => fn_flash_get_sector_size g (u16 sector) f
  | None => Some FLASH_API_ERROR
  end.

Definition flash_get_memptr (sector : Z) (f : F) : option Z :=
  match g_flash_info with
  | Some g => fn_flash_get_memptr g (u16 sector) f
  | None => Some 0
  end.

Definition flash_get_blk (addr : Z) (f : F) : option Z :=
  match g_flash_info with
  | Some g => fn_flash_get_blk g (s32 addr) f
  | None => Some FLASH_API_ERROR
  end.

Definition flash_get_total_size (f : F) : Z :=
  match g_flash_info with
  | Some g => fn_flash_get_total_size g f
  | None => FLASH_API_ERROR
  end.

Definition flash_get_total_memory_mapped_size (f : F) : Z :=
  match g_flash_info with
  | Some g => fn_flash_get_total_memory_mapped_size g f
  | None => FLASH_API_ERROR
  end.
End Dispatch.

(** ** The contract of a driver

    A device is an array of bytes [img] cut into sectors.  Erasing and writing
    change the addressed sector only, and a write that reports the whole length
    has stored the data; neither is assumed to succeed.  The clients write from the
    start of a sector that they have just erased, all of it or an even number of
    bytes: the parallel driver refuses odd lengths, and the serial one does not check
    what a write to a sector that was not erased leaves there. *)

Definition sbase (sizes : list Z) (k : Z) : Z := zsum (take (Z.to_nat k) sizes).

(** The bytes outside [[off, off + len)] are the same. *)
Definition same_outside (off len : Z) (l l' : list Z) : Prop :=
  zlen l' = zlen l /\
  forall j : nat, Z.of_nat j < off \/ off + len <= Z.of_nat j -> l' !! j = l !! j.

Lemma same_outside_refl off len l : same_outside off len l l.
Proof. done. Qed.

Lemma same_outside_weaken off len off' len' l l' :
  same_outside off len l l' -> off' <= off -> off + len <= off' + len' ->
  same_outside off' len' l l'.
Proof. intros [Hl H] ? ?. split; [done|]. intros j Hj. apply H. lia. Qed.

Lemma same_outside_trans off len l1 l2 l3 :
  same_outside off len l1 l2 -> same_outside off len l2 l3 -> same_outside off len l1 l3.
Proof.
  intros [Hl1 H1] [Hl2 H2]. split; [congruence|]. intros j Hj. by rewrite H2, H1.
Qed.

(** A slice that the changed range does not meet is the same. *)
Lemma same_outside_slice off len l l' o n :
  same_outside off len l l' -> 0 <= o -> o + n <= off \/ off + len <= o ->
  slice o n l' = slice o n l.
Proof. intros [Hl H] Ho Hd. apply slice_ext; [done..|]. intros j Hj. apply H. lia. Qed.

(** A range that was replaced, and nothing else. *)
Lemma same_outside_eq b n d l l' :
  same_outside b n l l' -> 0 <= b -> zlen d = n -> b + n <= zlen l -> slice b n l' = d ->
  l' = splice b d l.
Proof.
  intros [Hl H] Hb Hd Hn <-. apply list_eq. intros j.
  destruct (Z_lt_le_dec (Z.of_nat j) b); [rewrite lookup_splice_out by lia; apply H; lia|].
  destruct (Z_lt_le_dec (Z.of_nat j) (b + n)).
  - rewrite lookup_splice_in by lia. rewrite lookup_slice by lia. f_equal. lia.
  - rewrite lookup_splice_out by lia. apply H. lia.
Qed.

Class FlashLaws {F : Type} (g : flash_device_info_t F) (FLASH_BASE : Z) (sizes : list Z)
    (img : F -> list Z) : Prop := {
  laws_device : device_ok sizes;
  laws_img f : zlen (img f) = zsum sizes;
  laws_bytes f : Forall is_u8 (img f);
  laws_numsectors f : fn_flash_get_numsectors g f = zlen sizes;
  laws_total f : fn_flash_get_total_size g f = zsum sizes;
  laws_size f (k : nat) n :
    sizes !! k = Some n -> fn_flash_get_sector_size g (Z.of_nat k) f = Some n;
  laws_memptr f (k : nat) n :
    sizes !! k = Some n ->
    fn_flash_get_memptr g (Z.of_nat k) f = Some (u32 (FLASH_BASE + sbase sizes (Z.of_nat k)));
  laws_blk f addr :
    exists k, fn_flash_get_blk g addr f = Some k /\
      (0 <= s32 (addr - FLASH_BASE) < zsum sizes -> in_sector sizes k (s32 (addr - FLASH_BASE))) /\
      (zsum sizes <= s32 (addr - FLASH_BASE) -> k = -1);
  laws_read f (k : nat) n off len :
    sizes !! k = Some n -> 0 <= off -> 0 <= len -> off + len <= n ->
    exists r, fn_flash_read_buf g (Z.of_nat k) off len f =
      Some (r, slice (sbase sizes (Z.of_nat k) + off) len (img f));
  laws_erase f (k : nat) n :
    sizes !! k = Some n ->
    exists r f', fn_flash_sector_erase_int g (Z.of_nat k) f = Some (r, f') /\
      same_outside (sbase sizes (Z.of_nat k)) n (img f) (img f');
  laws_write f (k : nat) n d :
    sizes !! k = Some n -> zlen d <= n -> zlen d = n \/ Z.even (zlen d) = true ->
    exists r f', fn_flash_write_buf g (Z.of_nat k) 0 d f = Some (r, f') /\
      same_outside (sbase sizes (Z.of_nat k)) n (img f) (img f') /\
      (r = zlen d -> Forall is_u8 d ->
       (exists r0 f0, fn_flash_sector_erase_int g (Z.of_nat k) f0 = Some (r0, f)) ->
       slice (sbase sizes (Z.of_nat k)) (zlen d) (img f') = d)
}.

(** A device that works: an erased sector can be written. *)
Class FlashReliable {F : Type} (g : flash_device_info_t F) (sizes : list Z) : Prop := {
  reliable_rewrite f (k : nat) n d r f1 :
    sizes !! k = Some n -> zlen d <= n -> zlen d = n \/ Z.even (zlen d) = true ->
    Forall is_u8 d -> fn_flash_sector_erase_int g (Z.of_nat k) f = Some (r, f1) ->
    exists f2, fn_flash_write_buf g (Z.of_nat k) 0 d f1 = Some (zlen d, f2)
}.

(** A sector lies inside the device. *)
Lemma size_lookup sizes (k : nat) n :
  device_ok sizes -> sizes !! k = Some n ->
  0 < n /\ 0 <= sbase sizes (Z.of_nat k) /\ sbase sizes (Z.of_nat k) + n <= zsum sizes.
Proof.
  intros (Hp & _ & _) Hk. unfold sbase. rewrite Nat2Z.id.
  pose proof (zsum_take_le sizes (S k) Hp) as HS. rewrite (zsum_take_S _ _ n) in HS by done.
  pose proof (zsum_take_le sizes k Hp). pose proof (Forall_lookup_1 _ _ _ _ Hp Hk). cbn in *. lia.
Qed.

(** A splice inside a range leaves the rest. *)
Lemma same_outside_splice b n off d l :
  0 <= b -> b <= off -> off + zlen d <= b + n -> b + n <= zlen l ->
  same_outside b n l (splice off d l).
Proof.
  intros. pose proof (zlen_nonneg d). split; [by rewrite zlen_splice by lia|].
  intros j Hj. apply lookup_splice_out; lia.
Qed.

(** The first bytes of an erased sector. *)
Lemma slice_erased {A} (x : A) b n (d l : list A) :
  0 <= b -> 0 <= n -> zlen d <= n -> b + n <= zlen l ->
  slice b (zlen d) (splice b (replicate (Z.to_nat n) x) l) = replicate (length d) x.
Proof.
  intros. unfold slice, splice, zlen in *. rewrite drop_app_length' by (rewrite length_take; lia).
  rewrite firstn_app, take_replicate, length_replicate, Nat2Z.id.
  replace (length d - Z.to_nat n)%nat with 0%nat by lia. rewrite firstn_O, app_nil_r. f_equal. lia.
Qed.

(** ** A reference device *)

(** NOR flash: erasing sets every bit of a sector, programming clears bits. *)
Module Nor.

Definition program (old d : list Z) : list Z := zip_with Z.land old d.

(** The base address at which the device is mapped. *)
Definition FLASH_BASE : Z := 0xBFC00000.

(** The contents, cut or filled up to the size of the device. *)
Definition img (sizes : list Z) (f : list Z) : list Z :=
  map u8 (resize (Z.to_nat (zsum sizes)) 0xff f).

Definition erase (sizes : list Z) (k : Z) (f : list Z) : option (Z * list Z) :=
  n ← sizes !! Z.to_nat k;
  Some (FLASH_API_OK, splice (sbase sizes k) (replicate (Z.to_nat n) 0xff) (img sizes f)).

Definition read (sizes : list Z) (k off len : Z) (f : list Z) : option (Z * list Z) :=
  d ← mem_read (img sizes f) (sbase sizes k + off) len; Some (FLASH_API_OK, d).

(** Program, then compare: the return value tells whether the data is there. *)
Definition write (sizes : list Z) (k off : Z) (d f : list Z) : option (Z * list Z) :=
  old ← mem_read (img sizes f) (sbase sizes k + off) (zlen d);
  f' ← mem_write (img sizes f) (sbase sizes k + off) (map u8 (program old d));
  Some (if decide (map u8 (program old d) = d) then zlen d else FLASH_API_ERROR, f').

Definition find_blk (sizes : list Z) (addr : Z) : option Z :=
  cfi_flash_get_blk FLASH_BASE (mkInfo (zlen sizes) (layout 0 sizes) (zsum sizes)) addr.

Definition dev (sizes : list Z) : flash_device_info_t (list Z) := {|
  flash_device_id := 0;
  flash_device_name := "NOR";
  fn_flash_sector_erase_int := erase sizes;
  fn_flash_read_buf := read sizes;
  fn_flash_write_buf := write sizes;
  fn_flash_get_numsectors _ := zlen sizes;
  fn_flash_get_sector_size k _ := sizes !! Z.to_nat k;
  fn_flash_get_memptr k _ := Some (u32 (FLASH_BASE + sbase sizes k));
  fn_flash_get_blk addr _ := find_blk sizes addr;
  fn_flash_get_total_size _ := zsum sizes;
  fn_flash_get_total_memory_mapped_size _ := zsum sizes
|}.


Lemma img_zlen sizes f : 0 <= zsum sizes -> zlen (img sizes f) = zsum sizes.
Proof.
  intros. unfold img. rewrite zlen_map. unfold zlen. rewrite length_resize. lia.
Qed.

Lemma img_bytes sizes f : Forall is_u8 (img sizes f).
Proof. unfold img. apply Forall_map, Forall_true. intros. apply u8_range. Qed.

(** Normalising a normal image changes nothing. *)
Lemma img_id sizes f : zlen f = zsum sizes -> Forall is_u8 f -> img sizes f = f.
Proof.
  intros Hl Hb. unfold img. rewrite <- Hl. unfold zlen. rewrite Nat2Z.id, resize_all.
  clear Hl. induction Hb as [|x l Hx _ IH]; [done|]. cbn. by rewrite u8_id, IH.
Qed.

Lemma map_u8_bytes l : Forall is_u8 (map u8 l).
Proof. apply Forall_map, Forall_true. intros. apply u8_range. Qed.


(** The device keeps the contract. *)
Lemma same_outside_norm sizes b n f f' :
  0 <= zsum sizes -> Forall is_u8 f' -> same_outside b n (img sizes f) f' ->
  same_outside b n (img sizes f) (img sizes f').
Proof.
  intros Hz Hb Hs. rewrite (img_id sizes f'); [done| |done].
  destruct Hs as [-> _]. by apply img_zlen.
Qed.

Lemma zlen_program old d : zlen old = zlen d -> zlen (program old d) = zlen d.
Proof. unfold program, zlen. intros. rewrite length_zip_with. lia. Qed.

#[export] Instance laws sizes (H : device_ok sizes) :
  FlashLaws (dev sizes) FLASH_BASE sizes (img sizes).
Proof.
  assert (Hz : 0 <= zsum sizes) by (apply zsum_nonneg; apply H).
  assert (Hl : forall f, zlen (img sizes f) = zsum sizes) by (intros; by apply img_zlen).
  constructor; try done.
  - intros f. apply img_bytes.
  - intros f k n Hk. cbn. by rewrite Nat2Z.id.
  - intros f addr. cbn. unfold find_blk.
    apply (get_blk_above FLASH_BASE (mkInfo (zlen sizes) (layout 0 sizes) (zsum sizes)) sizes).
    done.
  - intros f k n off len Hk Ho Hlen Hn. exists FLASH_API_OK. cbn. unfold read.
    destruct (size_lookup _ _ _ H Hk). rewrite mem_read_Some by (rewrite ?Hl; lia). done.
  - intros f k n Hk. destruct (size_lookup _ _ _ H Hk). cbn. unfold erase. rewrite Nat2Z.id, Hk.
    cbn. do 2 eexists. split; [done|]. apply same_outside_norm; [done| |].
    + apply Forall_splice; [|apply img_bytes]. by apply Forall_replicate.
    + apply same_outside_splice; rewrite ?zlen_replicate, ?Hl; lia.
  - intros f k n d Hk Hd _. destruct (size_lookup _ _ _ H Hk). pose proof (zlen_nonneg d).
    cbn. unfold write. rewrite Z.add_0_r. rewrite mem_read_Some by (rewrite ?Hl; lia).
    cbn [mbind option_bind]. set (old := slice _ _ _).
    assert (Hold : zlen (map u8 (program old d)) = zlen d).
    { rewrite zlen_map. apply zlen_program. unfold old. apply zlen_slice; rewrite ?Hl; lia. }
    rewrite mem_write_Some by (rewrite ?Hold, ?Hl; lia). cbn [mbind option_bind].
    do 2 eexists. split; [done|].
    assert (Hb : Forall is_u8 (splice (sbase sizes (Z.of_nat k)) (map u8 (program old d)) (img sizes f)))
      by (apply Forall_splice; [apply map_u8_bytes|apply img_bytes]).
    split.
    + apply same_outside_norm; [done|done|].
      apply same_outside_splice; rewrite ?Hold, ?Hl; lia.
    + intros Hr _ _. rewrite img_id; [|by rewrite zlen_splice; rewrite ?Hold, ?Hl; lia|done].
      destruct (decide (map u8 (program old d) = d)) as [E|E]; [|unfold FLASH_API_ERROR in Hr; lia].
      rewrite <- Hold, slice_splice_eq by (rewrite ?Hold, ?Hl; lia). done.
Qed.

Lemma program_erased d : Forall is_u8 d ->
  map u8 (program (replicate (length d) 0xff) d) = d.
Proof.
  induction 1 as [|x l Hx _ IH]; [done|]. cbn [length replicate program zip_with map].
  unfold program in IH. rewrite IH. f_equal. change 0xff with (Z.ones 8).
  rewrite Z.land_comm, Z.land_ones by lia. unfold u8. rewrite Z.mod_mod by lia.
  by apply Z.mod_small.
Qed.

#[export] Instance reliable sizes (H : device_ok sizes) : FlashReliable (dev sizes) sizes.
Proof.
  assert (Hz : 0 <= zsum sizes) by (apply zsum_nonneg; apply H).
  constructor. intros f k n d r f1 Hk Hd _ Hb He. cbn in *. unfold erase in He.
  destruct (size_lookup _ _ _ H Hk) as (Hn & Hb0 & Hb1). pose proof (zlen_nonneg d).
  rewrite Nat2Z.id, Hk in He. cbn in He. injection He as <- <-.
  assert (Hf : forall f, zlen (img sizes f) = zsum sizes) by (intros; by apply img_zlen).
  unfold write. rewrite Z.add_0_r, mem_read_Some by (rewrite ?Hf; lia). cbn [mbind option_bind].
  rewrite (img_id sizes (splice _ _ _)).
  2: { rewrite zlen_splice; rewrite ?zlen_replicate, ?Hf; lia. }
  2: { apply Forall_splice; [|apply img_bytes]. by apply Forall_replicate. }
  rewrite slice_erased, program_erased by (rewrite ?Hf; lia || done).
  rewrite mem_write_Some by (rewrite ?zlen_splice; rewrite ?zlen_replicate, ?Hf; lia).
  cbn [mbind option_bind]. rewrite decide_True by done. by eexists.
Qed.

End Nor.
