(* ===== verification/CfiBus.v ===== *)
(** * Parallel flash: bus traffic

    [shared/opensource/flash/cfiflash.c], the part that talks to the device:
    [cfi_flash_command], [cfi_flash_wait], [cfi_flash_write],
    [cfi_flash_write_buf], [cfi_flash_read_buf], [cfi_flash_sector_erase_int],
    [cfi_flash_get_device_id] and the semaphore [cfi_flash_lock] (the Linux build).

    The device is not part of the program: its state [C] and the bus cycles
    [wr16], [rd16] and [rd8] (a CPU address, then the device) are parameters.  A
    read is a bus cycle too and returns the new state.  [None] is a call that does
    not return (it sleeps on the semaphore for ever, or polls the device more often
    than [fuel]) or an access outside [meminfo]. *)

From S2P Require Import Prelude SectorMap FlashApi.

Inductive cfi_command :=
  | FLASH_RESET | FLASH_READ_ID | FLASH_CFIQUERY | FLASH_UB | FLASH_PROG
  | FLASH_UBRESET | FLASH_SERASE.

Definition STATUS_READY : Z := 0.
Definition STATUS_TIMEOUT : Z := 1.

(** ** Commands *)

(** The two pointers of [cfi_flash_command]: to the sector, to the device. *)
Inductive window := flashptr | flashbase.

(** The assignments of one [case], in order: pointer, index, value. *)
Definition cmd_writes (flashFamily : flash_family) (command : cfi_command)
    (offset data : Z) : list (window * Z * Z) :=
  match flashFamily, command with
  | FLASH_UNDEFINED, FLASH_RESET => [(flashptr, 0, 0xF0); (flashptr, 0, 0xFF)]
  | FLASH_UNDEFINED, FLASH_READ_ID =>
      [(flashptr, 0x5555, 0xAA); (flashptr, 0x2AAA, 0x55); (flashptr, 0x5555, 0x90)]
  | FLASH_UNDEFINED, FLASH_CFIQUERY =>
      [(flashbase, 0x5555, 0xAA); (flashbase, 0x2AAA, 0x55); (flashbase, 0x5555, 0x90)]
  | FLASH_UNDEFINED, _ => []
  | FLASH_AMD, FLASH_RESET => [(flashptr, 0, 0xF0)]
  | FLASH_AMD, FLASH_READ_ID =>
      [(flashptr, 0x555, 0xAA); (flashptr, 0x2AA, 0x55); (flashptr, 0x555, 0x90)]
  | FLASH_AMD, FLASH_CFIQUERY => [(flashptr, 0x55, 0x98)]
  | FLASH_AMD, FLASH_UB =>
      [(flashptr, 0x555, 0xAA); (flashptr, 0x2AA, 0x55); (flashptr, 0x555, 0x20)]
  | FLASH_AMD, FLASH_PROG => [(flashptr, 0, 0xA0); (flashptr, Z.quot offset 2, data)]
  | FLASH_AMD, FLASH_UBRESET => [(flashptr, 0, 0x90); (flashptr, 0, 0x00)]
  | FLASH_AMD, FLASH_SERASE =>
      [(flashptr, 0x555, 0xAA); (flashptr, 0x2AA, 0x55); (flashptr, 0x555, 0x80);
       (flashptr, 0x555, 0xAA); (flashptr, 0x2AA, 0x55); (flashptr, 0, 0x30)]
  | FLASH_INTEL, FLASH_RESET => [(flashptr, 0, 0xFF)]
  | FLASH_INTEL, FLASH_READ_ID => [(flashptr, 0, 0x90)]
  | FLASH_INTEL, FLASH_CFIQUERY => [(flashptr, 0, 0x98)]
  | FLASH_INTEL, FLASH_PROG => [(flashptr, 0, 0x40); (flashptr, Z.quot offset 2, data)]
  | FLASH_INTEL, FLASH_SERASE =>
      [(flashptr, 0, 0x60); (flashptr, 0, 0xD0); (flashptr, 0, 0x20); (flashptr, 0, 0xD0)]
  | FLASH_INTEL, _ => []
  | FLASH_SST, FLASH_RESET =>
      [(flashbase, 0x5555, 0xAA); (flashbase, 0x2AAA, 0x55); (flashbase, 0x5555, 0xf0)]
  | FLASH_SST, FLASH_READ_ID =>
      [(flashbase, 0x5555, 0xAA); (flashbase, 0x2AAA, 0x55); (flashbase, 0x5555, 0x90)]
  | FLASH_SST, FLASH_CFIQUERY =>
      [(flashbase, 0x5555, 0xAA); (flashbase, 0x2AAA, 0x55); (flashbase, 0x5555, 0x98)]
  | FLASH_SST, FLASH_PROG =>
      [(flashbase, 0x5555, 0xAA); (flashbase, 0x2AAA, 0x55); (flashbase, 0x5555, 0xa0);
       (flashptr, Z.quot offset 2, data)]
  | FLASH_SST, FLASH_SERASE =>
      [(flashbase, 0x5555, 0xAA); (flashbase, 0x2AAA, 0x55); (flashbase, 0x5555, 0x80);
       (flashbase, 0x5555, 0xAA); (flashbase, 0x2AAA, 0x55); (flashptr, 0, 0x30)]
  | FLASH_SST, _ => []
  end.

(** The address of [p[i]], [p] a pointer to [unsigned short]. *)
Definition idx16 (p i : Z) : Z := u32 (p + 2 * i).

(** The device, and the count of the semaphore [cfi_flash_lock]. *)
Record cfi_state (C : Type) := mkCfi { chip : C; cfi_flash_lock : Z }.
Arguments mkCfi {C}.
Arguments chip {C}.
Arguments cfi_flash_lock {C}.

Section Driver.
Context {C : Type} (FLASH_BASE : Z).
Context (wr16 : Z -> Z -> C -> C) (rd16 rd8 : Z -> C -> Z * C).

(** [meminfo] and [flashFamily] are set by [cfi_flash_init]. *)
Context (meminfo : flashinfo) (flashFamily : flash_family).

(** [double_read]: a build for the 6338 or the 6358.  [in_interrupt], and whether a
    signal ends the sleep on the semaphore, are the state of the calling context. *)
Context (double_read in_interrupt signal : bool) (fuel : nat).

Definition memptr (sector : Z) : option Z := cfi_flash_get_memptr FLASH_BASE meminfo sector.

Definition do_write (p b : Z) (c : C) (w : window * Z * Z) : C :=
  let '(win, i, v) := w in
  wr16 (idx16 (match win with flashptr => p | flashbase => b end) i) v c.

Definition cfi_flash_command (command : cfi_command) (sector offset data : Z) (c : C)
    : option C :=
  p ← memptr sector;
  b ← memptr 0;
  Some (foldl (do_write p b) c (cmd_writes flashFamily command offset data)).

(** ** Polling *)

(** The [do ... while (!(d1 & 0x20))] loop of the 6338 and 6358: whether the word
    became [data]. *)
Fixpoint poll_data (n : nat) (a data : Z) (c : C) : option (bool * C) :=
  match n with
  | O => None
  | S n' =>
      let '(d1, c1) := rd16 a c in
      if d1 =? data then Some (true, c1)
      else if Z.land d1 0x20 =? 0 then poll_data n' a data c1
      else Some (false, c1)
  end.

(** The [for] loop of another [n] reads. *)
Fixpoint retry_data (n : nat) (a data : Z) (c : C) : bool * C :=
  match n with
  | O => (false, c)
  | S n' =>
      let '(d1, c1) := rd16 a c in
      if d1 =? data then (true, c1) else retry_data n' a data c1
  end.

Definition wait_data (a data : Z) (c : C) : option (Z * C) :=
  '(ready, c1) ← poll_data fuel a data c;
  if (ready : bool) then Some (STATUS_READY, c1)
  else
    let '(d1, c2) := rd16 a c1 in
    if d1 =? data then Some (STATUS_READY, c2)
    else
      let '(ready, c3) := retry_data 1000 a data c2 in
      if (ready : bool) then Some (STATUS_READY, c3)
      else
        let '(d1, c4) := rd16 a c3 in
        if d1 =? data then Some (STATUS_READY, c4)
        else c5 ← cfi_flash_command FLASH_RESET 0 0 0 c4; Some (STATUS_TIMEOUT, c5).

(** [d1 = *flashptr; d1 ^= *flashptr]. *)
Definition toggled (p : Z) (c : C) : Z * C :=
  let '(d1, c1) := rd16 p c in
  let '(d2, c2) := rd16 p c1 in
  (Z.lxor d1 d2, c2).

(** The loop of the other chips: whether the device stopped toggling. *)
Fixpoint poll_toggle (n : nat) (p : Z) (c : C) : option (bool * C) :=
  match n with
  | O => None
  | S n' =>
      let '(d1, c1) := toggled p c in
      if d1 =? 0 then Some (true, c1)
      else if Z.land d1 0x20 =? 0 then poll_toggle n' p c1
      else Some (false, c1)
  end.

Definition wait_toggle (p : Z) (c : C) : option (Z * C) :=
  '(ready, c1) ← poll_toggle fuel p c;
  if (ready : bool) then Some (STATUS_READY, c1)
  else
    let '(d1, c2) := toggled p c1 in
    if d1 =? 0 then Some (STATUS_READY, c2)
    else c3 ← cfi_flash_command FLASH_RESET 0 0 0 c2; Some (STATUS_TIMEOUT, c3).

(** [do ... while (!( *flashptr & 0x80))]. *)
Fixpoint poll_intel (n : nat) (p : Z) (c : C) : option C :=
  match n with
  | O => None
  | S n' =>
      let '(d1, c1) := rd16 p c in
      if Z.land d1 0x80 =? 0 then poll_intel n' p c1 else Some c1
  end.

Definition wait_intel (p : Z) (c : C) : option (Z * C) :=
  c1 ← poll_intel fuel p (wr16 p 0x70 c);
  let '(d1, c2) := rd16 p c1 in
  c3 ← cfi_flash_command FLASH_RESET 0 0 0 (wr16 p 0x50 c2);
  Some (if Z.land d1 0x30 =? 0 then STATUS_READY else STATUS_TIMEOUT, c3).

Definition cfi_flash_wait (sector offset data : Z) (c : C) : option (Z * C) :=
  p ← memptr sector;
  match flashFamily with
  | FLASH_AMD | FLASH_SST =>
      if double_read then wait_data (idx16 p (Z.quot offset 2)) data c else wait_toggle p c
  | FLASH_INTEL => wait_intel p c
  | FLASH_UNDEFINED => Some (STATUS_READY, c)
  end.

(** ** The semaphore *)

(** [if (!in_interrupt()) down_interruptible(&cfi_flash_lock);]: the result of
    [down_interruptible] is ignored, so a signal lets the caller in. *)
Definition lock_down (st : cfi_state C) : option (cfi_state C) :=
  if in_interrupt then Some st
  else if 0 <? cfi_flash_lock st then Some (mkCfi (chip st) (cfi_flash_lock st - 1))
  else if signal then Some st
  else None.

Definition lock_up (st : cfi_state C) : cfi_state C :=
  if in_interrupt then st else mkCfi (chip st) (cfi_flash_lock st + 1).

Definition set_chip (st : cfi_state C) (c : C) : cfi_state C := mkCfi c (cfi_flash_lock st).

(** ** Operations *)

Fixpoint erase_loop (n : nat) (sector : Z) (c : C) : option C :=
  match n with
  | O => Some c
  | S n' =>
      c1 ← cfi_flash_command FLASH_SERASE sector 0 0 c;
      '(status, c2) ← cfi_flash_wait sector 0 0xffff c1;
      if status =? STATUS_READY then Some c2 else erase_loop n' sector c2
  end.

Definition cfi_flash_sector_erase_int (sector : Z) (st : cfi_state C)
    : option (Z * cfi_state C) :=
  st1 ← lock_down st;
  c ← erase_loop 3 sector (chip st1);
  Some (FLASH_API_OK, lock_up (set_chip st1 c)).

(** [n] bytes from address [a] on. *)
Fixpoint read_bytes (n : nat) (a : Z) (c : C) : list Z * C :=
  match n with
  | O => ([], c)
  | S n' =>
      let '(b, c1) := rd8 (u32 a) c in
      let '(l, c2) := read_bytes n' (a + 1) c1 in
      (b :: l, c2)
  end.

(** A negative count does not reach zero. *)
Definition cfi_flash_read_buf (sector offset numbytes : Z) (st : cfi_state C)
    : option (Z * list Z * cfi_state C) :=
  st1 ← lock_down st;
  fwp ← memptr sector;
  if numbytes <? 0 then None
  else
    let '(buffer, c) := read_bytes (Z.to_nat numbytes) (fwp + offset) (chip st1) in
    Some (FLASH_API_OK, buffer, lock_up (set_chip st1 c)).

(** The [while] loop over the halfwords of the (big-endian) buffer; the result is
    the number of bytes programmed. *)
Fixpoint write_loop (sector offset : Z) (src : list Z) (c : C) : option (Z * C) :=
  match src with
  | b0 :: b1 :: src' =>
      c1 ← cfi_flash_command FLASH_PROG sector offset (256 * b0 + b1) c;
      '(status, c2) ← cfi_flash_wait sector offset (256 * b0 + b1) c1;
      if status =? STATUS_READY then
        '(r, c3) ← write_loop sector (offset + 2) src' c2; Some (2 + r, c3)
      else Some (0, c2)
  | _ => Some (0, c)
  end.

Definition cfi_flash_write (sector offset : Z) (buf : list Z) (st : cfi_state C)
    : option (Z * cfi_state C) :=
  st1 ← lock_down st;
  if negb (Z.land (Z.lor (zlen buf) offset) 1 =? 0) then Some (FLASH_API_ERROR, st1)
  else
    c1 ← cfi_flash_command FLASH_UB 0 0 0 (chip st1);
    '(r, c2) ← write_loop sector offset buf c1;
    c3 ← cfi_flash_command FLASH_UBRESET 0 0 0 c2;
    Some (r, lock_up (set_chip st1 c3)).

(** [!memcmp(p, buffer, numbytes)]: bytes are read up to the first difference. *)
Fixpoint mem_equal (p : Z) (buffer : list Z) (c : C) : bool * C :=
  match buffer with
  | [] => (true, c)
  | x :: buffer' =>
      let '(b, c1) := rd8 (u32 p) c in
      if b =? x then mem_equal (p + 1) buffer' c1 else (false, c1)
  end.

(** The retry loop; [ret] is the value left by the previous round. *)
Fixpoint write_buf_loop (n : nat) (sector offset : Z) (buffer : list Z) (ret : Z)
    (st : cfi_state C) : option (Z * cfi_state C) :=
  match n with
  | O => Some (ret, st)
  | S n' =>
      p ← memptr sector;
      '(ret, st1) ← cfi_flash_write sector offset buffer st;
      let '(equal, c) := mem_equal (p + offset) buffer (chip st1) in
      let st2 := set_chip st1 c in
      if (equal : bool) then Some (ret, st2)
      else
        '(_, st3) ← cfi_flash_sector_erase_int sector st2;
        write_buf_loop n' sector offset buffer FLASH_API_ERROR st3
  end.

Definition cfi_flash_write_buf (sector offset : Z) (buffer : list Z) (st : cfi_state C)
    : option (Z * cfi_state C) :=
  write_buf_loop 3 sector offset buffer FLASH_API_ERROR st.

(** Autoselect; the parts that answer [ID_AM29LV320M] have two more id words. *)
Definition cfi_flash_get_device_id (c : C) : option (Z * C) :=
  fwp ← memptr 0;
  c1 ← cfi_flash_command FLASH_READ_ID 0 0 0 c;
  let '(answer, c2) := rd16 (idx16 fwp 1) c1 in
  let '(answer, c3) :=
    if answer =? ID_AM29LV320M then
      let '(_, c3) := rd16 (idx16 fwp 0xe) c2 in rd16 (idx16 fwp 0xf) c3
    else (answer, c2) in
  c4 ← cfi_flash_command FLASH_RESET 0 0 0 c3;
  Some (answer, c4).
End Driver.
