(* ===== verification/AmdChip.v ===== *)
(** * Devices with the AMD command set

    The class [AmdChip] states what the data books say of a device with the AMD
    command set: the command cycles, the status bits DQ5 to DQ7 during an embedded
    algorithm, the reset after a failure.  [Sim] is a simulated device that shows
    that the class has instances. *)

From S2P Require Import Prelude SectorMap FlashApi CfiBus.

(** ** The command set *)

(** What the command register expects. *)
Inductive cmode :=
  | RdArray | Unlock1 | Unlock2 | AutoSelect | Erase1 | Erase2 | Erase3
  | Bypass | BypassProg | BypassReset.

(** The embedded algorithms: erase [n] bytes from [b] on, program the word at [x]. *)
Inductive chip_op := OpErase (b n : Z) | OpProg (x w : Z).

(** A device at rest, one busy for at most [left] more polls, and one that gave up.
    [mem] is the contents, before the operation where one is running. *)
Inductive chip_view :=
  | Cmd (m : cmode) (mem : list Z)
  | Busy (m : cmode) (o : chip_op) (mem : list Z) (left : nat) (dq6 : bool)
  | Failed (m : cmode) (o : chip_op) (mem : list Z) (dq6 : bool).

(** Addresses are compared on the low eleven bits of the word address. *)
Definition unlock_at (x k : Z) : bool := Z.land (Z.shiftr x 1) 0x7ff =? k.

(** A command cycle that writes [v] at offset [x]. *)
Definition next (m : cmode) (x v : Z) : option cmode :=
  match m with
  | RdArray =>
      if (v =? 0xAA) && unlock_at x 0x555 then Some Unlock1
      else if (v =? 0xF0) || (v =? 0xFF) then Some RdArray
      else None
  | Unlock1 => if (v =? 0x55) && unlock_at x 0x2AA then Some Unlock2 else None
  | Unlock2 =>
      if unlock_at x 0x555 then
        if v =? 0x20 then Some Bypass
        else if v =? 0x80 then Some Erase1
        else if v =? 0x90 then Some AutoSelect
        else None
      else None
  | AutoSelect => if v =? 0xF0 then Some RdArray else None
  | Erase1 => if (v =? 0xAA) && unlock_at x 0x555 then Some Erase2 else None
  | Erase2 => if (v =? 0x55) && unlock_at x 0x2AA then Some Erase3 else None
  | Bypass => if v =? 0xA0 then Some BypassProg else if v =? 0x90 then Some BypassReset else None
  | BypassReset => if v =? 0x00 then Some RdArray else None
  | Erase3 | BypassProg => None
  end.

(** Base and size of the sector that holds offset [x]. *)
Fixpoint sector_of (base : Z) (sizes : list Z) (x : Z) : option (Z * Z) :=
  match sizes with
  | [] => None
  | n :: sizes' =>
      if (base <=? x) && (x <? base + n) then Some (base, n) else sector_of (base + n) sizes' x
  end.

(** The cycles that start an algorithm, and the mode after it. *)
Definition starts (sizes : list Z) (m : cmode) (x v : Z) : option (cmode * chip_op) :=
  match m with
  | Erase3 =>
      if v =? 0x30 then
        '(b, n) ← sector_of 0 sizes x; Some (RdArray, OpErase b n)
      else None
  | BypassProg => Some (Bypass, OpProg (x - x mod 2) v)
  | _ => None
  end.

Definition reads_array (m : cmode) : bool :=
  match m with RdArray | Bypass => true | _ => false end.

(** The word at offset [x], high byte first. *)
Definition byte_at (mem : list Z) (x : Z) : Z := mem !!! Z.to_nat x.
Definition word_at (mem : list Z) (x : Z) : Z := 256 * byte_at mem x + byte_at mem (x + 1).

(** Erasing sets bits, programming clears them. *)
Definition op_apply (o : chip_op) (mem : list Z) : list Z :=
  match o with
  | OpErase b n => splice b (replicate (Z.to_nat n) 0xff) mem
  | OpProg x w =>
      let w' := Z.land (word_at mem x) w in splice x [w' / 256; w' mod 256] mem
  end.

Definition op_base (o : chip_op) : Z := match o with OpErase b _ => b | OpProg x _ => x end.
Definition op_len (o : chip_op) : Z := match o with OpErase _ n => n | OpProg _ _ => 2 end.
Definition op_data (o : chip_op) : Z := match o with OpErase _ _ => 0xffff | OpProg _ w => w end.

(** The operation can produce its data: no cleared bit has to be set. *)
Definition op_fits (o : chip_op) (mem : list Z) : bool :=
  match o with OpErase _ _ => true | OpProg x w => Z.land (word_at mem x) w =? w end.

(** A status word: DQ6 toggles, DQ5 tells a failure, and at an address of the
    operation DQ7 is the complement of the data. *)
Definition status_word (o : chip_op) (x : Z) (dq6 failed : bool) (v : Z) : Prop :=
  Z.testbit v 6 = dq6 /\ Z.testbit v 5 = failed /\
  (op_base o <= x < op_base o + op_len o -> Z.testbit v 7 = negb (Z.testbit (op_data o) 7)).

Definition mem_ok (sizes : list Z) (mem : list Z) : Prop :=
  zlen mem = zsum sizes /\ Forall is_u8 mem.

(** [dq5]: a device that reports an operation it cannot complete on DQ5 (it may then
    report others too, as it wears out).  A device without DQ5 completes every
    operation.  [polls] bounds the reads an algorithm takes. *)
Class AmdChip {C : Type} (FLASH_BASE : Z) (wr16 : Z -> Z -> C -> C) (rd16 rd8 : Z -> C -> Z * C)
    (sizes : list Z) (dq5 : bool) (polls : nat) (chip_id : Z -> Z) (view : C -> chip_view)
    : Prop := {
  amd_cmd c m mem x v m' :
    view c = Cmd m mem -> 0 <= x < zsum sizes -> next m x v = Some m' ->
    view (wr16 (u32 (FLASH_BASE + x)) v c) = Cmd m' mem;
  amd_start c m mem x v m' o :
    view c = Cmd m mem -> 0 <= x < zsum sizes -> starts sizes m x v = Some (m', o) ->
    exists k t, (k <= polls)%nat /\
      view (wr16 (u32 (FLASH_BASE + x)) v c) = Busy m' o mem k t;
  amd_rd16 c m mem x :
    view c = Cmd m mem -> reads_array m = true -> 0 <= x -> x + 2 <= zsum sizes ->
    Z.even x = true -> rd16 (u32 (FLASH_BASE + x)) c = (word_at mem x, c);
  amd_rd8 c m mem x :
    view c = Cmd m mem -> reads_array m = true -> 0 <= x < zsum sizes ->
    rd8 (u32 (FLASH_BASE + x)) c = (byte_at mem x, c);
  amd_id c mem i :
    view c = Cmd AutoSelect mem -> 0 <= i -> 2 * i < zsum sizes ->
    rd16 (u32 (FLASH_BASE + 2 * i)) c = (chip_id i, c);
  amd_busy c m o mem k t x :
    view c = Busy m o mem k t -> 0 <= x -> x + 2 <= zsum sizes -> Z.even x = true ->
    exists v c', rd16 (u32 (FLASH_BASE + x)) c = (v, c') /\
      ((exists k', (k' < k)%nat /\ view c' = Busy m o mem k' (negb t) /\
          status_word o x t false v) \/
       (op_fits o mem || negb dq5 = true /\ view c' = Cmd m (op_apply o mem) /\
          v = word_at (op_apply o mem) x) \/
       (dq5 = true /\ view c' = Failed m o mem (negb t) /\ status_word o x t true v));
  amd_failed c m o mem t x :
    view c = Failed m o mem t -> 0 <= x -> x + 2 <= zsum sizes -> Z.even x = true ->
    exists v c', rd16 (u32 (FLASH_BASE + x)) c = (v, c') /\
      view c' = Failed m o mem (negb t) /\ status_word o x t true v;
  amd_reset c m o mem t x :
    view c = Failed m o mem t -> 0 <= x < zsum sizes ->
    exists mem', view (wr16 (u32 (FLASH_BASE + x)) 0xF0 c) = Cmd m mem' /\
      same_outside (op_base o) (op_len o) mem mem' /\ (Forall is_u8 mem -> Forall is_u8 mem')
}.

(** A device that completes what it can. *)
Class AmdReliable {C : Type} (FLASH_BASE : Z) (rd16 : Z -> C -> Z * C)
    (sizes : list Z) (view : C -> chip_view) : Prop := {
  amd_never_fails c m o mem k t x v c' m' o' mem' t' :
    view c = Busy m o mem k t -> op_fits o mem = true -> 0 <= x -> x + 2 <= zsum sizes ->
    rd16 (u32 (FLASH_BASE + x)) c = (v, c') -> view c' <> Failed m' o' mem' t'
}.

(** ** Lemmas on words and addresses *)

Lemma unlock_at_base b k : (4096 | b) -> 0 <= k < 0x800 -> unlock_at (b + 2 * k) k = true.
Proof.
  intros [q ->] Hk. unfold unlock_at. apply Z.eqb_eq.
  change 0x7ff with (Z.ones 11). rewrite Z.land_ones, Z.shiftr_div_pow2 by lia.
  replace (q * 4096 + 2 * k) with ((k + q * 2048) * 2) by lia.
  rewrite Z.div_mul by lia. change (2 ^ 11) with 2048. rewrite Z.mod_add by lia.
  apply Z.mod_small. lia.
Qed.

Lemma idx16_base B b i : idx16 (u32 (B + b)) i = u32 (B + (b + 2 * i)).
Proof. unfold idx16, u32. rewrite Zplus_mod_idemp_l. f_equal. lia. Qed.

Lemma sbase_div sizes k : Forall (fun n => (4096 | n)) sizes -> (4096 | sbase sizes k).
Proof.
  intros H. unfold sbase. generalize (Z.to_nat k) as j. clear k.
  induction H as [|n l Hn _ IH]; intros j; destruct j; cbn; try apply Z.divide_0_r.
  by apply Z.divide_add_r.
Qed.

Lemma sector_of_base sizes : forall base (k : nat) n,
  Forall (fun n => 0 < n) sizes -> sizes !! k = Some n ->
  sector_of base sizes (base + zsum (take k sizes)) = Some (base + zsum (take k sizes), n).
Proof.
  induction sizes as [|s l IH]; intros base k n Hp Hk; [done|].
  inversion Hp as [|? ? Hs Hl]; subst. destruct k as [|k].
  - injection Hk as ->. cbn. rewrite Z.add_0_r. by ztest.
  - cbn [take sector_of zsum foldr]. fold (zsum (take k l)).
    pose proof (zsum_take_le l k Hl). rewrite Z.add_assoc.
    destruct (Z.ltb_spec (base + s + zsum (take k l)) (base + s)); [lia|].
    rewrite andb_false_r. by apply IH.
Qed.

(** Two words that differ in a bit. *)
Lemma testbit_ne v w i : Z.testbit v i = negb (Z.testbit w i) -> (v =? w) = false.
Proof. intros H. apply Z.eqb_neq. intros ->. by destruct (Z.testbit w i). Qed.

Lemma land_bit5 v : (Z.land v 0x20 =? 0) = negb (Z.testbit v 5).
Proof.
  destruct (Z.testbit v 5) eqn:E; cbn [negb].
  - apply Z.eqb_neq. intros H0. assert (Z.testbit (Z.land v 0x20) 5 = false) by (by rewrite H0).
    rewrite Z.land_spec, E in H. done.
  - apply Z.eqb_eq, Z.bits_inj'. intros i Hi. rewrite Z.land_spec, Z.bits_0.
    change 0x20 with (2 ^ 5). destruct (Z.eq_dec i 5) as [->|]; [by rewrite E|].
    rewrite Z.pow2_bits_false by lia. apply andb_false_r.
Qed.

Lemma bits_halves a b i :
  is_u8 b -> 0 <= i ->
  Z.testbit (256 * a + b) i = if i <? 8 then Z.testbit b i else Z.testbit a (i - 8).
Proof.
  intros Hb Hi. replace (256 * a + b) with (b + a * 2 ^ 8) by lia.
  destruct (Z.ltb_spec i 8).
  - rewrite <- (Z.mod_pow2_bits_low _ 8 i), Z_mod_plus_full, Z.mod_small by (done || lia). done.
  - replace i with ((i - 8) + 8) at 1 by lia. rewrite <- Z.div_pow2_bits by lia.
    rewrite Z.div_add, Z.div_small by (done || lia). done.
Qed.

Lemma land_u8 a b : is_u8 a -> is_u8 b -> is_u8 (Z.land a b).
Proof.
  intros Ha Hb. rewrite <- (u8_id b Hb). unfold u8. rewrite <- Z.land_ones by lia.
  rewrite Z.land_assoc, Z.land_ones by lia. apply u8_range.
Qed.

Lemma land_halves a b c d :
  is_u8 a -> is_u8 b -> is_u8 c -> is_u8 d ->
  Z.land (256 * a + b) (256 * c + d) = 256 * Z.land a c + Z.land b d.
Proof.
  intros Ha Hb Hc Hd. apply Z.bits_inj'. intros i Hi.
  rewrite Z.land_spec, !bits_halves by (done || by apply land_u8).
  destruct (i <? 8); by rewrite Z.land_spec.
Qed.

(** ** Lemmas on operations *)

Lemma byte_at_ok mem x : Forall is_u8 mem -> is_u8 (byte_at mem x).
Proof.
  intros H. unfold byte_at. rewrite list_lookup_total_alt.
  destruct (mem !! Z.to_nat x) as [b|] eqn:E; [by apply (Forall_lookup_1 _ _ _ _ H E)|done].
Qed.

Lemma word_at_ok mem x : Forall is_u8 mem -> is_u16 (word_at mem x).
Proof.
  intros H. pose proof (byte_at_ok mem x H). pose proof (byte_at_ok mem (x + 1) H).
  unfold is_u8, is_u16, word_at in *. lia.
Qed.

Lemma land_u16 a w : is_u16 a -> is_u16 (Z.land a w).
Proof.
  intros [H0 H1]. destruct (Z.ldiff_le (Z.land a w) a) as [? ?]; [done| |unfold is_u16; lia].
  apply Z.bits_inj'. intros i Hi. rewrite Z.ldiff_spec, Z.land_spec, Z.bits_0.
  destruct (Z.testbit a i); [apply andb_false_r|done].
Qed.

Lemma op_apply_bytes o mem : Forall is_u8 mem -> Forall is_u8 (op_apply o mem).
Proof.
  intros H. destruct o as [b n|x w]; cbn [op_apply]; apply Forall_splice; try done.
  - by apply Forall_replicate.
  - pose proof (land_u16 _ w (word_at_ok mem x H)) as [? ?].
    repeat constructor; unfold is_u8; try apply Z.mod_pos_bound; try apply Z.div_pos;
      try apply Z.div_lt_upper_bound; lia.
Qed.

Lemma op_apply_outside o mem :
  0 <= op_base o -> 0 <= op_len o -> op_base o + op_len o <= zlen mem ->
  same_outside (op_base o) (op_len o) mem (op_apply o mem).
Proof.
  intros. destruct o as [b n|x w]; cbn [op_base op_len op_apply] in *;
    apply same_outside_splice; autorewrite with buf; lia.
Qed.

Lemma byte_at_splice mem x d i (j : nat) b :
  0 <= x -> x + zlen d <= zlen mem -> i = x + Z.of_nat j -> d !! j = Some b ->
  byte_at (splice x d mem) i = b.
Proof.
  intros Hx Hd -> Hj. unfold byte_at. apply list_lookup_total_correct.
  pose proof (lookup_lt_Some _ _ _ Hj).
  rewrite lookup_splice_in by (unfold zlen in *; lia). rewrite <- Hj. f_equal. lia.
Qed.

(** The word a completed operation leaves is its data, if that was possible. *)
Lemma op_apply_word o mem x :
  op_fits o mem = true -> 0 <= op_base o -> op_base o + op_len o <= zlen mem ->
  op_base o <= x -> x + 2 <= op_base o + op_len o ->
  word_at (op_apply o mem) x = op_data o.
Proof.
  intros Hf H0 H1 H2 H3. unfold word_at.
  destruct o as [b n|y w]; cbn [op_base op_len op_apply op_fits op_data] in *.
  - rewrite (byte_at_splice _ _ _ x (Z.to_nat (x - b)) 255), (byte_at_splice _ _ _ (x + 1) (Z.to_nat (x + 1 - b)) 255);
      rewrite ?zlen_replicate; try lia; apply lookup_replicate_2; lia.
  - apply Z.eqb_eq in Hf. rewrite Hf. replace x with y by lia.
    rewrite (byte_at_splice _ _ _ y 0 (w / 256)), (byte_at_splice _ _ _ (y + 1) 1 (w mod 256));
      autorewrite with buf; try done; try lia. pose proof (Z.div_mod w 256). lia.
Qed.

Lemma zlen_cons2 {A} (a b : A) l : zlen (a :: b :: l) = 2 + zlen l.
Proof. rewrite !zlen_cons. lia. Qed.

Lemma slice_word mem x :
  0 <= x -> x + 2 <= zlen mem -> slice x 2 mem = [byte_at mem x; byte_at mem (x + 1)].
Proof.
  intros H0 H1. unfold slice, byte_at, zlen in *. change (Z.to_nat 2) with 2%nat.
  replace (Z.to_nat (x + 1)) with (S (Z.to_nat x)) by lia.
  rewrite (drop_S mem (mem !!! Z.to_nat x) (Z.to_nat x)) by (apply list_lookup_lookup_total_lt; lia).
  rewrite (drop_S mem (mem !!! S (Z.to_nat x)) (S (Z.to_nat x)))
    by (apply list_lookup_lookup_total_lt; lia).
  done.
Qed.

(** Programming a word programs its bytes. *)
Lemma op_prog_bytes mem x b0 b1 :
  Forall is_u8 mem -> is_u8 b0 -> is_u8 b1 -> 0 <= x -> x + 2 <= zlen mem ->
  op_apply (OpProg x (256 * b0 + b1)) mem = splice x (zip_with Z.land (slice x 2 mem) [b0; b1]) mem.
Proof.
  intros Hb H0 H1 Hx Hl. rewrite slice_word by done. cbn [op_apply zip_with]. unfold word_at.
  pose proof (byte_at_ok mem x Hb). pose proof (byte_at_ok mem (x + 1) Hb).
  rewrite land_halves by done. pose proof (land_u8 (byte_at mem (x + 1)) b1) as [? ?]; [done..|].
  generalize dependent (Z.land (byte_at mem (x + 1)) b1). intros q H3 H4.
  f_equal. f_equal; [|f_equal]; symmetry.
  - by apply (Z.div_unique_pos _ 256 _ q).
  - by apply (Z.mod_unique_pos _ 256 (Z.land (byte_at mem x) b0)).
Qed.

(** Programming the rest after the first word. *)
Lemma prog_rest mem mem' x b0 b1 d r :
  0 <= x -> 0 <= r <= zlen d -> x + 2 + zlen d <= zlen mem ->
  let mem1 := splice x (zip_with Z.land (slice x 2 mem) [b0; b1]) mem in
  same_outside (x + 2) (zlen d) mem1 mem' ->
  slice (x + 2) r mem' = zip_with Z.land (slice (x + 2) r mem1) d ->
  slice x (2 + r) mem' = zip_with Z.land (slice x (2 + r) mem) (b0 :: b1 :: d).
Proof.
  intros Hx Hr Hl mem1 Ho Hs.
  assert (Hw : slice x 2 mem = [byte_at mem x; byte_at mem (x + 1)]) by (apply slice_word; lia).
  assert (H2 : zlen (zip_with Z.land (slice x 2 mem) [b0; b1]) = 2) by (by rewrite Hw).
  rewrite !slice_app by lia. rewrite Hs. unfold mem1. rewrite slice_splice_after by lia.
  rewrite (same_outside_slice _ _ _ _ _ _ Ho) by lia. unfold mem1.
  rewrite <- H2 at 1. rewrite slice_splice_eq by lia. by rewrite Hw.
Qed.

Lemma prog_fits mem x b0 b1 d :
  Forall is_u8 mem -> Forall is_u8 (b0 :: b1 :: d) -> 0 <= x -> x + 2 + zlen d <= zlen mem ->
  zip_with Z.land (slice x (2 + zlen d) mem) (b0 :: b1 :: d) = b0 :: b1 :: d ->
  op_fits (OpProg x (256 * b0 + b1)) mem = true /\
  zip_with Z.land (slice (x + 2) (zlen d) mem) d = d.
Proof.
  intros Hm Hd Hx Hl. pose proof (zlen_nonneg d). rewrite slice_app, slice_word by lia.
  cbn [app zip_with]. intros E. injection E as E0 E1 E2. split; [|done].
  apply Forall_cons in Hd as [? Hd]. apply Forall_cons in Hd as [? _].
  pose proof (byte_at_ok mem x Hm). pose proof (byte_at_ok mem (x + 1) Hm).
  cbn [op_fits]. unfold word_at. apply Z.eqb_eq. rewrite land_halves by done. congruence.
Qed.

(** ** A simulated device

    Every algorithm takes [lat] status reads; the state is the view. *)

Module Sim.
Section Sim.
Context (FLASH_BASE : Z) (sizes : list Z) (dq5 : bool) (lat : nat) (chip_id : Z -> Z).

Definition offset_of (a : Z) : Z := u32 (a - FLASH_BASE).

Definition wr16 (a v : Z) (c : chip_view) : chip_view :=
  let x := offset_of a in
  match c with
  | Cmd m mem =>
      match next m x v, starts sizes m x v with
      | Some m', _ => Cmd m' mem
      | None, Some (m', o) => Busy m' o mem lat false
      | None, None => Cmd RdArray mem
      end
  | Failed m o mem t => if v =? 0xF0 then Cmd m mem else c
  | Busy _ _ _ _ _ => c
  end.

Definition status (o : chip_op) (dq6 failed : bool) : Z :=
  match Z.testbit (op_data o) 7, dq6, failed with
  | true, true, true => 0x60 | true, true, false => 0x40
  | true, false, true => 0x20 | true, false, false => 0
  | false, true, true => 0xE0 | false, true, false => 0xC0
  | false, false, true => 0xA0 | false, false, false => 0x80
  end.

Definition rd16 (a : Z) (c : chip_view) : Z * chip_view :=
  let x := offset_of a in
  match c with
  | Cmd AutoSelect _ => (chip_id (x / 2), c)
  | Cmd _ mem => (word_at mem x, c)
  | Busy m o mem (S k) t => (status o t false, Busy m o mem k (negb t))
  | Busy m o mem O t =>
      if op_fits o mem || negb dq5 then (word_at (op_apply o mem) x, Cmd m (op_apply o mem))
      else (status o t true, Failed m o mem (negb t))
  | Failed m o mem t => (status o t true, Failed m o mem (negb t))
  end.

Definition rd8 (a : Z) (c : chip_view) : Z * chip_view :=
  match c with Cmd _ mem => (byte_at mem (offset_of a), c) | _ => (0, c) end.

Lemma offset_of_base x : 0 <= x < 2 ^ 31 -> offset_of (u32 (FLASH_BASE + x)) = x.
Proof.
  intros Hx. unfold offset_of, u32. rewrite Zminus_mod_idemp_l.
  replace (FLASH_BASE + x - FLASH_BASE) with x by lia. apply Z.mod_small. lia.
Qed.

Lemma status_ok o x t f : status_word o x t f (status o t f).
Proof.
  unfold status_word, status. by destruct (Z.testbit (op_data o) 7) eqn:E, t, f.
Qed.

#[export] Instance chip (Hz : zsum sizes < 2 ^ 31) :
  AmdChip FLASH_BASE wr16 rd16 rd8 sizes dq5 lat chip_id (fun c => c).
Proof.
  constructor.
  - intros c m mem x v m' -> Hx Hn. unfold wr16. rewrite offset_of_base by lia. by rewrite Hn.
  - intros c m mem x v m' o -> Hx Hs. unfold wr16. rewrite offset_of_base by lia.
    exists lat, false. split; [done|]. rewrite Hs. by destruct m.
  - intros c m mem x -> Hm H0 H1 He. unfold rd16. rewrite offset_of_base by lia. by destruct m.
  - intros c m mem x -> Hm Hx. unfold rd8. by rewrite offset_of_base by lia.
  - intros c mem i -> H0 H1. unfold rd16. rewrite offset_of_base by lia.
    by rewrite Z.mul_comm, Z.div_mul by lia.
  - intros c m o mem k t x -> H0 H1 He. unfold rd16. rewrite offset_of_base by lia.
    destruct k as [|k].
    + destruct (op_fits o mem || negb dq5) eqn:E; do 2 eexists; (split; [done|]); right.
      * by left.
      * right. apply orb_false_iff in E as [_ E%negb_false_iff].
        split_and!; [done..|apply status_ok].
    + do 2 eexists. split; [done|]. left. exists k. split; [lia|]. split; [done|apply status_ok].
  - intros c m o mem t x -> H0 H1 He. do 2 eexists. split; [done|]. split; [done|apply status_ok].
  - intros c m o mem t x -> Hx. by exists mem.
Qed.

#[export] Instance reliable : AmdReliable FLASH_BASE rd16 sizes (fun c => c).
Proof.
  constructor. intros c m o mem k t x v c' m' o' mem' t' -> Hf H0 H1 E ->. unfold rd16 in E.
  destruct k as [|k]; [|by injection E]. by rewrite Hf in E.
Qed.
End Sim.
End Sim.
