(* ===== verification/CfiDriver.v ===== *)
(** * The driver on an AMD-compatible device

    For every device of the class [AmdChip] the bus traffic of [cfiflash.c] keeps the
    contract [FlashLaws], and on one that does not wear out [FlashReliable].  Then
    the identification of a device, and the cases where a call does not return. *)

From S2P Require Import Prelude SectorMap FlashApi CfiBus AmdChip.

(** ** Command cycles *)

(** The offset of an assignment of [cfi_flash_command]. *)
Definition cyc_at (b : Z) (w : window * Z * Z) : Z :=
  (match w.1.1 with flashptr => b | flashbase => 0 end) + 2 * w.1.2.
Arguments cyc_at _ !w /.

Fixpoint next_all (b : Z) (ws : list (window * Z * Z)) (m : cmode) : option cmode :=
  match ws with
  | [] => Some m
  | w :: ws' => m' ← next m (cyc_at b w) w.2; next_all b ws' m'
  end.

(** The offsets of concrete bus cycles lie inside the device. *)
Ltac cycles_in :=
  cbn [cmd_writes take app];
  repeat (apply Forall_cons_2; [cbn [cyc_at fst snd]; lia|]);
  apply Forall_nil_2.

(** ** The driver *)

Section Amd.
Context {C : Type} {FLASH_BASE : Z} {wr16 : Z -> Z -> C -> C} {rd16 rd8 : Z -> C -> Z * C}.
Context {meminfo : flashinfo} {sizes : list Z} {double_read in_interrupt signal : bool}.
Context {fuel polls : nat} {chip_id : Z -> Z} {view : C -> chip_view}.
Context {HC : AmdChip FLASH_BASE wr16 rd16 rd8 sizes double_read polls chip_id view}.
Context (Hmap : flash_map meminfo sizes) (Hsec : Forall (fun n => (4096 | n)) sizes).

Local Abbreviation command := (cfi_flash_command FLASH_BASE wr16 meminfo FLASH_AMD).
Local Abbreviation wait :=
  (cfi_flash_wait FLASH_BASE wr16 rd16 meminfo FLASH_AMD double_read fuel).
Local Abbreviation base k := (sbase sizes (Z.of_nat k)).

Lemma memptr_ok (k : nat) n :
  sizes !! k = Some n ->
  memptr FLASH_BASE meminfo (Z.of_nat k) = Some (u32 (FLASH_BASE + base k)).
Proof.
  intros Hk. destruct Hmap as ((_ & Hlen & _) & Hs & _).
  pose proof (lookup_lt_Some _ _ _ Hk). unfold memptr, cfi_flash_get_memptr, sec_at.
  unfold zlen, MAXSECTORS in *. rewrite u16_id by (unfold is_u16; lia). ztest. cbn [mbind option_bind].
  rewrite Nat2Z.id, Hs, (layout_lookup _ _ _ n) by done. cbn. unfold sbase. by rewrite Nat2Z.id.
Qed.

Lemma sector_dims (k : nat) n :
  sizes !! k = Some n ->
  4096 <= n /\ 0 <= base k /\ base k + n <= zsum sizes /\ (4096 | n) /\ (4096 | base k).
Proof.
  intros Hk. destruct (size_lookup sizes k n (proj1 Hmap) Hk) as (? & ? & ?).
  pose proof (Forall_lookup_1 _ _ _ _ Hsec Hk) as Hd. cbn in Hd.
  split_and!; [by apply Z.divide_pos_le|done|done|done|by apply sbase_div].
Qed.

Lemma first_sector : exists n, sizes !! 0%nat = Some n.
Proof.
  destruct Hmap as ((_ & [Hl _] & _) & _). apply lookup_lt_is_Some. unfold zlen in Hl. lia.
Qed.

Lemma memptr_0 : memptr FLASH_BASE meminfo 0 = Some (u32 (FLASH_BASE + 0)) /\ 4096 <= zsum sizes.
Proof.
  destruct first_sector as [n Hk]. split; [by apply (memptr_ok 0 n)|].
  destruct (sector_dims 0 n Hk) as (? & ? & ? & _). lia.
Qed.

(** *** Command cycles *)

Lemma do_write_at b w c :
  do_write wr16 (u32 (FLASH_BASE + b)) (u32 (FLASH_BASE + 0)) c w =
  wr16 (u32 (FLASH_BASE + cyc_at b w)) w.2 c.
Proof. destruct w as [[[] i] v]; cbn; rewrite idx16_base; done. Qed.

Lemma run_cycles b ws : forall m m' mem c,
  view c = Cmd m mem -> Forall (fun w => 0 <= cyc_at b w < zsum sizes) ws ->
  next_all b ws m = Some m' ->
  view (foldl (do_write wr16 (u32 (FLASH_BASE + b)) (u32 (FLASH_BASE + 0))) c ws) = Cmd m' mem.
Proof.
  induction ws as [|w ws IH]; intros m m' mem c Hv Hr Hn; cbn in *.
  - by injection Hn as ->.
  - destruct (next m (cyc_at b w) w.2) as [m1|] eqn:E; [|done].
    inversion Hr as [|? ? Hw Hws]; subst.
    rewrite do_write_at. eapply IH; [|done|done]. by eapply amd_cmd.
Qed.

(** A command is its cycles. *)
Lemma command_ok cmd (k : nat) n m m' off data mem c :
  sizes !! k = Some n -> view c = Cmd m mem ->
  Forall (fun w => 0 <= cyc_at (base k) w < zsum sizes) (cmd_writes FLASH_AMD cmd off data) ->
  next_all (base k) (cmd_writes FLASH_AMD cmd off data) m = Some m' ->
  exists c', command cmd (Z.of_nat k) off data c = Some c' /\ view c' = Cmd m' mem.
Proof.
  intros Hk Hv Hr Hn. unfold cfi_flash_command. rewrite (memptr_ok k n Hk), (proj1 memptr_0).
  eexists. split; [done|]. by eapply run_cycles.
Qed.

Ltac cycles := change (sbase sizes (Z.of_nat 0)) with 0; cycles_in.

Lemma command_UB mem c :
  view c = Cmd RdArray mem ->
  exists c', command FLASH_UB 0 0 0 c = Some c' /\ view c' = Cmd Bypass mem.
Proof.
  intros Hv. destruct first_sector as [n Hk]. pose proof (proj2 memptr_0).
  apply (command_ok FLASH_UB 0 n RdArray Bypass); [done..| |done].
  cycles.
Qed.

Lemma command_UBRESET mem c :
  view c = Cmd Bypass mem ->
  exists c', command FLASH_UBRESET 0 0 0 c = Some c' /\ view c' = Cmd RdArray mem.
Proof.
  intros Hv. destruct first_sector as [n Hk]. pose proof (proj2 memptr_0).
  apply (command_ok FLASH_UBRESET 0 n Bypass RdArray); [done..| |done].
  cycles.
Qed.

(** A command whose last cycle starts an algorithm. *)
Lemma command_start cmd (k : nat) n m m1 m' o off data ws w mem c :
  sizes !! k = Some n -> view c = Cmd m mem ->
  cmd_writes FLASH_AMD cmd off data = ws ++ [w] ->
  Forall (fun w => 0 <= cyc_at (base k) w < zsum sizes) (ws ++ [w]) ->
  next_all (base k) ws m = Some m1 -> starts sizes m1 (cyc_at (base k) w) w.2 = Some (m', o) ->
  exists c' j t, command cmd (Z.of_nat k) off data c = Some c' /\ (j <= polls)%nat /\
    view c' = Busy m' o mem j t.
Proof.
  intros Hk Hv Hw Hr Hn Hs. unfold cfi_flash_command. rewrite (memptr_ok k n Hk), (proj1 memptr_0).
  cbn [mbind option_bind]. rewrite Hw, foldl_app. cbn [foldl]. rewrite do_write_at.
  apply Forall_app in Hr as [Hr Hrw]. rewrite Forall_singleton in Hrw.
  pose proof (run_cycles _ _ _ _ _ _ Hv Hr Hn) as H1.
  destruct (amd_start _ _ _ _ _ _ _ H1 Hrw Hs) as (j & t & Hj & Hb). eauto 10.
Qed.

Lemma command_SERASE (k : nat) n mem c :
  sizes !! k = Some n -> view c = Cmd RdArray mem ->
  exists c' j t, command FLASH_SERASE (Z.of_nat k) 0 0 c = Some c' /\ (j <= polls)%nat /\
    view c' = Busy RdArray (OpErase (base k) n) mem j t.
Proof.
  intros Hk Hv. destruct (sector_dims k n Hk) as (Hn & Hb0 & Hb & _ & Hd).
  pose proof (unlock_at_base _ 0x555 Hd ltac:(lia)) as U1.
  pose proof (unlock_at_base _ 0x2AA Hd ltac:(lia)) as U2.
  eapply (command_start FLASH_SERASE k n RdArray Erase3 _ _ _ _
    (take 5 (cmd_writes FLASH_AMD FLASH_SERASE 0 0)) (flashptr, 0, 0x30)); [done|done|done|..].
  - cbn [take cmd_writes app]. cycles.
  - cbn [take cmd_writes next_all cyc_at fst snd]. unfold next. rewrite !U1, !U2. reflexivity.
  - cbn -[sbase sector_of]. rewrite Z.add_0_r. unfold sbase. rewrite Nat2Z.id.
    pose proof (sector_of_base sizes 0 k n (proj1 (proj1 Hmap)) Hk) as E.
    rewrite Z.add_0_l in E. by rewrite E.
Qed.

Lemma even_div b off : (4096 | b) -> Z.even off = true -> Z.even (b + off) = true.
Proof. intros [q ->] H. rewrite Z.even_add, Z.even_mul, H. by destruct (Z.even q). Qed.

Lemma quot_even off : 0 <= off -> Z.even off = true -> 2 * Z.quot off 2 = off.
Proof.
  intros H0 H. rewrite Z.quot_div_nonneg by lia. apply Z.even_spec in H as [q ->].
  rewrite (Z.mul_comm 2 q), Z.div_mul by lia. lia.
Qed.

Lemma command_PROG (k : nat) n off w mem c :
  sizes !! k = Some n -> 0 <= off -> off + 2 <= n -> Z.even off = true ->
  view c = Cmd Bypass mem ->
  exists c' j t, command FLASH_PROG (Z.of_nat k) off w c = Some c' /\ (j <= polls)%nat /\
    view c' = Busy Bypass (OpProg (base k + off) w) mem j t.
Proof.
  intros Hk H0 H1 He Hv. destruct (sector_dims k n Hk) as (Hn & Hb0 & Hb & _ & Hd).
  pose proof (quot_even off H0 He) as Q.
  eapply (command_start FLASH_PROG k n Bypass BypassProg _ _ _ _ [(flashptr, 0, 0xA0)]);
    [done|done|done| |done|].
  - cycles.
  - cbn -[Z.mul Z.modulo Z.sub]. rewrite Q, Zmod_even, even_div by done. by rewrite Z.sub_0_r.
Qed.

(** *** Waiting *)

Context (Hfuel : (polls < fuel)%nat).

Lemma command_RESET m o mem t c :
  view c = Failed m o mem t ->
  exists c' mem', command FLASH_RESET 0 0 0 c = Some c' /\ view c' = Cmd m mem' /\
    same_outside (op_base o) (op_len o) mem mem' /\ (Forall is_u8 mem -> Forall is_u8 mem').
Proof.
  intros Hv. destruct memptr_0 as [E Hz]. unfold cfi_flash_command. rewrite E.
  cbn [mbind option_bind cmd_writes foldl]. rewrite (do_write_at 0).
  destruct (amd_reset _ _ _ _ _ (cyc_at 0 (flashptr, 0, 0xF0)) Hv) as (mem' & Hm & ?);
    [cbn; lia|]. eauto.
Qed.

(** The algorithm ended: it is complete, or the device gave up. *)
Definition completes (m : cmode) (o : chip_op) (mem : list Z) (c : C) : Prop :=
  view c = Cmd m (op_apply o mem) /\ op_fits o mem || negb double_read = true.

Definition gives_up (o : chip_op) (mem : list Z) : Prop :=
  double_read = true /\
  (AmdReliable FLASH_BASE rd16 sizes view -> op_fits o mem = false).

(** One read of a busy device. *)
Lemma read_busy c m o mem k t x :
  view c = Busy m o mem k t -> 0 <= x -> x + 2 <= zsum sizes -> Z.even x = true ->
  exists v c', rd16 (u32 (FLASH_BASE + x)) c = (v, c') /\
    ((exists k', (k' < k)%nat /\ view c' = Busy m o mem k' (negb t) /\ status_word o x t false v) \/
     (completes m o mem c' /\ v = word_at (op_apply o mem) x) \/
     (gives_up o mem /\ view c' = Failed m o mem (negb t) /\ status_word o x t true v)).
Proof.
  intros Hv H0 H1 He. destruct (amd_busy _ _ _ _ _ _ _ Hv H0 H1 He) as (v & c' & E & H).
  exists v, c'. split; [done|]. destruct H as [H|[(Hf & Hc & ->)|(Hd & Hc & Hs)]].
  - by left.
  - right; left. by repeat split.
  - right; right. repeat split; try done; try apply Hs. intros HR.
    destruct (op_fits o mem) eqn:F; [|done]. by destruct (amd_never_fails _ _ _ _ _ _ _ _ _ _ _ _ _ Hv F H0 H1 E Hc).
Qed.

Section Data.
(** The address that is polled belongs to the operation. *)
Context (Hdouble : double_read = true) (m : cmode) (o : chip_op) (mem : list Z) (x : Z).
Context (Hm : reads_array m = true) (Hx : Z.even x = true).
Context (Ho : 0 <= op_base o /\ op_base o + op_len o <= zsum sizes).
Context (Hxo : op_base o <= x /\ x + 2 <= op_base o + op_len o).
Context (Hmem : zlen mem = zsum sizes).

Lemma completes_word c : completes m o mem c -> word_at (op_apply o mem) x = op_data o.
Proof.
  intros [_ Hf]. rewrite Hdouble, orb_false_r in Hf. apply op_apply_word; lia || done.
Qed.

Lemma status_ne t f v : status_word o x t f v -> (v =? op_data o) = false.
Proof. intros (_ & _ & H). apply (testbit_ne _ _ 7), H. lia. Qed.

Lemma poll_data_ok n : forall c k t,
  view c = Busy m o mem k t -> (k < n)%nat ->
  exists c', (poll_data rd16 n (u32 (FLASH_BASE + x)) (op_data o) c = Some (true, c') /\
      completes m o mem c') \/
    (poll_data rd16 n (u32 (FLASH_BASE + x)) (op_data o) c = Some (false, c') /\
      gives_up o mem /\ exists t', view c' = Failed m o mem t').
Proof.
  induction n as [|n IH]; intros c k t Hv Hk; [lia|]. cbn [poll_data].
  destruct (read_busy _ _ _ _ _ _ x Hv) as (v & c1 & -> & H); [lia|lia|done|].
  destruct H as [(k' & Hk' & Hv' & Hs)|[[Hc ->]|(Hg & Hv' & Hs)]].
  - rewrite (status_ne _ _ _ Hs), land_bit5, (proj1 (proj2 Hs)). cbn [negb].
    apply (IH _ _ _ Hv'). lia.
  - exists c1. left. by rewrite (completes_word _ Hc), Z.eqb_refl.
  - exists c1. right. rewrite (status_ne _ _ _ Hs), land_bit5, (proj1 (proj2 Hs)). eauto.
Qed.

Lemma read_failed c t :
  view c = Failed m o mem t ->
  exists v c', rd16 (u32 (FLASH_BASE + x)) c = (v, c') /\ (v =? op_data o) = false /\
    view c' = Failed m o mem (negb t).
Proof.
  intros Hv. destruct (amd_failed _ _ _ _ _ x Hv) as (v & c' & E & Hc & Hs); [lia|lia|done|].
  exists v, c'. by rewrite (status_ne _ _ _ Hs).
Qed.

Lemma retry_data_failed n : forall c t,
  view c = Failed m o mem t ->
  exists c' t', retry_data rd16 n (u32 (FLASH_BASE + x)) (op_data o) c = (false, c') /\
    view c' = Failed m o mem t'.
Proof.
  induction n as [|n IH]; intros c t Hv; cbn [retry_data]; [by eauto|].
  destruct (read_failed _ _ Hv) as (v & c1 & -> & -> & Hv'). by eapply IH.
Qed.

Lemma wait_data_ok c k t :
  view c = Busy m o mem k t -> (k <= polls)%nat ->
  exists s c', wait_data FLASH_BASE wr16 rd16 meminfo FLASH_AMD fuel
      (u32 (FLASH_BASE + x)) (op_data o) c = Some (s, c') /\
    ((s = STATUS_READY /\ completes m o mem c') \/
     (s = STATUS_TIMEOUT /\ gives_up o mem /\ exists mem', view c' = Cmd m mem' /\
        same_outside (op_base o) (op_len o) mem mem' /\ (Forall is_u8 mem -> Forall is_u8 mem'))).
Proof.
  intros Hv Hk. unfold wait_data.
  destruct (poll_data_ok fuel c k t Hv) as (c1 & [[-> Hc]|(-> & Hg & t1 & Hf)]); [lia|..];
    cbn [mbind option_bind]; [by eauto 10|].
  destruct (read_failed _ _ Hf) as (v2 & c2 & -> & -> & Hf2).
  destruct (retry_data_failed 1000 _ _ Hf2) as (c3 & t3 & -> & Hf3).
  destruct (read_failed _ _ Hf3) as (v4 & c4 & -> & -> & Hf4).
  destruct (command_RESET _ _ _ _ _ Hf4) as (c5 & mem' & -> & H). cbn [mbind option_bind].
  exists STATUS_TIMEOUT, c5. eauto 10.
Qed.
End Data.

Section Toggle.
Context (Htoggle : double_read = false) (m : cmode) (o : chip_op) (mem : list Z) (x : Z).
Context (Hm : reads_array m = true) (Hx : Z.even x = true) (Hx0 : 0 <= x /\ x + 2 <= zsum sizes).

Lemma toggled_done c :
  completes m o mem c -> toggled rd16 (u32 (FLASH_BASE + x)) c = (0, c).
Proof.
  intros [Hv _]. unfold toggled. rewrite (amd_rd16 _ _ _ _ Hv) by (done || lia).
  rewrite (amd_rd16 _ _ _ _ Hv) by (done || lia). by rewrite Z.lxor_nilpotent.
Qed.

(** One round of the loop: no two status words are equal, so it goes on, until the
    device is done. *)
Lemma toggled_busy c k t :
  view c = Busy m o mem k t ->
  exists d c', toggled rd16 (u32 (FLASH_BASE + x)) c = (d, c') /\
    ((exists k', (k' < k)%nat /\ view c' = Busy m o mem k' t /\
        (d =? 0) = false /\ (Z.land d 0x20 =? 0) = true) \/
     (completes m o mem c' /\ (d = 0 \/ (0 < k)%nat))).
Proof.
  intros Hv. unfold toggled.
  destruct (read_busy _ _ _ _ _ _ x Hv) as (v1 & c1 & -> & H); [lia|lia|done|].
  destruct H as [(k1 & Hk1 & Hv1 & Hs1)|[[Hc ->]|(Hg & _)]].
  - destruct (read_busy _ _ _ _ _ _ x Hv1) as (v2 & c2 & -> & H); [lia|lia|done|].
    do 2 eexists. split; [done|].
    destruct H as [(k2 & Hk2 & Hv2 & Hs2)|[[Hc ->]|([Hd _] & _)]]; [|right; split; [done|lia]|congruence].
    left. exists k2. rewrite negb_involutive in Hv2. destruct Hs1 as (A6 & A5 & _), Hs2 as (B6 & B5 & _).
    split_and!; [lia|done| |].
    + apply Z.eqb_neq. intros E. apply Z.lxor_eq in E. subst. by destruct (Z.testbit v2 6).
    + by rewrite land_bit5, Z.lxor_spec, A5, B5.
  - destruct Hc as [Hv1 Hf]. rewrite (amd_rd16 _ _ _ _ Hv1) by (done || lia).
    do 2 eexists. split; [done|]. right. split; [by split|]. left. apply Z.lxor_nilpotent.
  - destruct Hg. congruence.
Qed.

Lemma poll_toggle_done n c :
  completes m o mem c -> (0 < n)%nat ->
  poll_toggle rd16 n (u32 (FLASH_BASE + x)) c = Some (true, c).
Proof. intros Hc Hn. destruct n; [lia|]. cbn [poll_toggle]. by rewrite toggled_done. Qed.

Lemma poll_toggle_ok n : forall c k t,
  view c = Busy m o mem k t -> (k < n)%nat ->
  exists r c', poll_toggle rd16 n (u32 (FLASH_BASE + x)) c = Some (r, c') /\ completes m o mem c'.
Proof.
  induction n as [|n IH]; intros c k t Hv Hk; [lia|]. cbn [poll_toggle].
  destruct (toggled_busy _ _ _ Hv) as (d & c1 & -> & [(k' & Hk' & Hv' & -> & ->)|[Hc Hd]]).
  - apply (IH _ _ _ Hv'). lia.
  - destruct (Z.eqb_spec d 0); [by eauto|]. destruct Hd as [|Hd]; [done|].
    destruct (_ =? 0); [|by eauto]. rewrite poll_toggle_done by (done || lia). by eauto.
Qed.

Lemma wait_toggle_ok c k t :
  view c = Busy m o mem k t -> (k <= polls)%nat ->
  exists c', wait_toggle FLASH_BASE wr16 rd16 meminfo FLASH_AMD fuel (u32 (FLASH_BASE + x)) c =
    Some (STATUS_READY, c') /\ completes m o mem c'.
Proof.
  intros Hv Hk. unfold wait_toggle.
  destruct (poll_toggle_ok fuel c k t Hv) as (r & c1 & -> & Hc); [lia|]. cbn [mbind option_bind].
  exists c1. destruct r; [done|]. by rewrite toggled_done.
Qed.
End Toggle.

(** [cfi_flash_wait] returns: the operation is complete, or (only where the device
    reports failures and the driver can see them) was given up and the device reset. *)
Lemma wait_ok (k : nat) n m o mem off c j t :
  sizes !! k = Some n -> reads_array m = true -> 0 <= off -> off + 2 <= n -> Z.even off = true ->
  op_base o <= base k + off -> base k + off + 2 <= op_base o + op_len o ->
  0 <= op_base o -> op_base o + op_len o <= zsum sizes -> zlen mem = zsum sizes ->
  view c = Busy m o mem j t -> (j <= polls)%nat ->
  exists s c', wait (Z.of_nat k) off (op_data o) c = Some (s, c') /\
    ((s = STATUS_READY /\ completes m o mem c') \/
     (s = STATUS_TIMEOUT /\ gives_up o mem /\ exists mem', view c' = Cmd m mem' /\
        same_outside (op_base o) (op_len o) mem mem' /\ (Forall is_u8 mem -> Forall is_u8 mem'))).
Proof.
  intros Hk Hm H0 H1 He Ho1 Ho2 Ho3 Ho4 Hl Hv Hj. destruct (sector_dims k n Hk) as (? & ? & ? & _ & Hd).
  unfold cfi_flash_wait. rewrite (memptr_ok k n Hk). cbn [mbind option_bind].
  destruct (Bool.bool_dec double_read true) as [Edr|Edr%not_true_is_false]; rewrite Edr.
  - rewrite idx16_base, quot_even by done.
    eapply (wait_data_ok Edr m o mem); try done; try lia. by apply even_div.
  - destruct (wait_toggle_ok Edr m o mem (base k) Hm) with (c := c) (k := j) (t := t)
      as (c' & E & Hc); [|lia|done|done|].
    + rewrite <- (Z.add_0_r (base k)). by apply even_div.
    + exists STATUS_READY, c'. rewrite E. auto.
Qed.

(** *** Erasing *)

Local Abbreviation reliable := (AmdReliable FLASH_BASE rd16 sizes view).

Lemma mem_ok_outside mem mem' b n :
  mem_ok sizes mem -> same_outside b n mem mem' -> (Forall is_u8 mem -> Forall is_u8 mem') ->
  mem_ok sizes mem'.
Proof. intros [Hl Hb] [Hl' _] H. split; [congruence|by apply H]. Qed.

Lemma op_apply_ok o mem :
  mem_ok sizes mem -> 0 <= op_base o -> 0 <= op_len o -> op_base o + op_len o <= zsum sizes ->
  same_outside (op_base o) (op_len o) mem (op_apply o mem) /\ mem_ok sizes (op_apply o mem).
Proof.
  intros [Hl Hb] ? ? ?. assert (H' : same_outside (op_base o) (op_len o) mem (op_apply o mem))
    by (apply op_apply_outside; lia).
  split; [done|]. eapply mem_ok_outside; [by split|done|]. apply op_apply_bytes.
Qed.

Lemma erase_loop_ok r : forall (k : nat) n mem c,
  sizes !! k = Some n -> view c = Cmd RdArray mem -> mem_ok sizes mem ->
  exists c' mem',
    erase_loop FLASH_BASE wr16 rd16 meminfo FLASH_AMD double_read fuel r (Z.of_nat k) c = Some c' /\
    view c' = Cmd RdArray mem' /\ mem_ok sizes mem' /\ same_outside (base k) n mem mem' /\
    (reliable -> (0 < r)%nat -> mem' = op_apply (OpErase (base k) n) mem).
Proof.
  induction r as [|r IH]; intros k n mem c Hk Hv Hok; cbn [erase_loop].
  - exists c, mem. split_and!; try done. lia.
  - destruct (sector_dims k n Hk) as (? & ? & ? & _).
    destruct (command_SERASE k n mem c Hk Hv) as (c1 & j & t & -> & Hj & Hv1). cbn [mbind option_bind].
    destruct (wait_ok k n RdArray (OpErase (base k) n) mem 0 c1 j t)
      as (s & c2 & E & Hres); cbn [op_base op_len]; try done; try lia; [apply Hok|].
    cbn [op_data] in E. rewrite E. cbn [mbind option_bind].
    destruct Hres as [[-> [Hv2 _]]|(-> & Hg & mem' & Hv2 & Hs & Hb)].
    + destruct (op_apply_ok (OpErase (base k) n) mem Hok) as [Hs Hok'];
        [cbn [op_base op_len]; lia..|]. exists c2. eexists. by split_and!.
    + destruct (IH k n mem' c2 Hk Hv2) as (c3 & mem3 & -> & Hv3 & Hok3 & Hs3 & _);
        [by eapply mem_ok_outside|].
      exists c3, mem3. split_and!; try done; [by eapply same_outside_trans|].
      intros HR _. by destruct Hg as [_ Hg%(fun f => f HR)].
Qed.

(** *** Programming *)

(** [d] was programmed at [x] up to its [r]-th byte: bits were cleared there, and
    nothing outside the range of [d] changed. *)
Definition programmed (x : Z) (d mem : list Z) (r : Z) (mem' : list Z) : Prop :=
  same_outside x (zlen d) mem mem' /\ 0 <= r <= zlen d /\
  (Forall is_u8 d -> slice x r mem' = zip_with Z.land (slice x r mem) d) /\
  (reliable -> Forall is_u8 d -> zip_with Z.land (slice x (zlen d) mem) d = d -> r = zlen d).

Lemma programmed_cons x b0 b1 d mem r mem' :
  mem_ok sizes mem -> 0 <= x -> x + 2 + zlen d <= zsum sizes ->
  programmed (x + 2) d (op_apply (OpProg x (256 * b0 + b1)) mem) r mem' ->
  programmed x (b0 :: b1 :: d) mem (2 + r) mem'.
Proof.
  intros Hok Hx Hl (Hs & Hr & Hd & HR). destruct (Hok) as [Hml Hb]. pose proof (zlen_nonneg d).
  destruct (op_apply_ok (OpProg x (256 * b0 + b1)) mem Hok) as [Hs1 _]; cbn [op_base op_len] in *; try lia.
  unfold programmed. rewrite zlen_cons2. split_and!; [|lia|lia|..].
  - eapply same_outside_trans; eapply same_outside_weaken; eauto; lia.
  - intros HF. pose proof HF as HF0. apply Forall_cons in HF as [F0 HF]. apply Forall_cons in HF as [F1 HF].
    rewrite op_prog_bytes in Hs, Hd by (done || lia). eapply prog_rest; eauto; lia.
  - intros HRe HF HD. apply prog_fits in HD as [_ HD]; [|done|done|lia|lia].
    apply Forall_cons in HF as [F0 HF]. apply Forall_cons in HF as [F1 HF]. rewrite HR; [lia|done..|].
    by rewrite (same_outside_slice _ _ _ _ _ _ Hs1) by lia.
Qed.

Lemma programmed_stop x b0 b1 d mem mem' :
  mem_ok sizes mem -> 0 <= x -> x + 2 + zlen d <= zsum sizes ->
  gives_up (OpProg x (256 * b0 + b1)) mem -> same_outside x 2 mem mem' ->
  programmed x (b0 :: b1 :: d) mem 0 mem'.
Proof.
  intros [Hl Hb] Hx Hz [_ Hg] Hs. pose proof (zlen_nonneg d). unfold programmed. rewrite zlen_cons2.
  split_and!; [eapply same_outside_weaken; [done|lia..]|lia|lia|done|].
  intros HR HF HD. apply prog_fits in HD as [HD _]; [|done|done|lia|lia]. by rewrite Hg in HD.
Qed.

Lemma write_loop_ok (k : nat) n (Hk : sizes !! k = Some n) j : forall d off mem c,
  length d = (2 * j)%nat -> 0 <= off -> off + zlen d <= n -> Z.even off = true ->
  view c = Cmd Bypass mem -> mem_ok sizes mem ->
  exists r c' mem',
    write_loop FLASH_BASE wr16 rd16 meminfo FLASH_AMD double_read fuel (Z.of_nat k) off d c =
      Some (r, c') /\
    view c' = Cmd Bypass mem' /\ mem_ok sizes mem' /\ programmed (base k + off) d mem r mem'.
Proof.
  destruct (sector_dims k n Hk) as (Hn & Hb0 & Hb & _ & _).
  induction j as [|j IH]; intros d off mem c Hd H0 H1 He Hv Hok.
  - destruct d; [|done]. exists 0, c, mem. split_and!; try done.
  - destruct d as [|b0 [|b1 d]]; [done|cbn in Hd; lia|]. autorewrite with buf in *.
    pose proof (zlen_nonneg d) as Hd0. cbn [write_loop].
    destruct (command_PROG k n off (256 * b0 + b1) mem c Hk) as (c1 & i & t & -> & Hi & Hv1);
      [lia|lia|done|done|]. cbn [mbind option_bind].
    destruct (wait_ok k n Bypass (OpProg (base k + off) (256 * b0 + b1)) mem off c1 i t)
      as (s & c2 & E & Hres); cbn [op_base op_len]; try done; try lia; [apply Hok|].
    cbn [op_data] in E. rewrite E. cbn [mbind option_bind].
    destruct Hres as [[-> [Hv2 _]]|(-> & Hg & mem' & Hv2 & Hs & Hb')].
    + destruct (op_apply_ok (OpProg (base k + off) (256 * b0 + b1)) mem Hok) as [Hs Hok1];
        cbn [op_base op_len] in *; try lia.
      edestruct (IH d (off + 2)) as (r & c3 & mem3 & E3 & Hv3 & Hok3 & Hp);
        [cbn in Hd; lia|lia|lia|by rewrite Z.even_add, He|exact Hv2|done|].
      rewrite E3. cbn [mbind option_bind]. exists (2 + r), c3, mem3. rewrite Z.add_assoc in Hp.
      split_and!; try done. apply programmed_cons; try done; lia.
    + exists 0, c2, mem'. split_and!; try done; [by eapply mem_ok_outside|].
      apply programmed_stop; try done; lia.
Qed.

(** *** The operations of the driver *)

(** The device reads as memory and nobody holds the semaphore. *)
Definition at_rest (mem : list Z) (st : cfi_state C) : Prop :=
  view (chip st) = Cmd RdArray mem /\ mem_ok sizes mem /\
  (in_interrupt = true \/ cfi_flash_lock st = 1).

Lemma at_rest_set mem mem' st c :
  at_rest mem st -> view c = Cmd RdArray mem' -> mem_ok sizes mem' -> at_rest mem' (set_chip st c).
Proof. intros (_ & _ & Hl) Hv Hok. by split_and!. Qed.

(** Between [lock_down] and [lock_up] only the device changes. *)
Lemma with_lock mem st :
  at_rest mem st ->
  exists st1, lock_down in_interrupt signal st = Some st1 /\ chip st1 = chip st /\
    forall c, lock_up in_interrupt (set_chip st1 c) = set_chip st c.
Proof.
  intros (_ & _ & Hl). unfold lock_down, lock_up, set_chip.
  destruct in_interrupt; [by exists st|]. destruct Hl as [|Hl]; [done|]. rewrite Hl.
  eexists. split; [reflexivity|]. done.
Qed.

Lemma erase_int_ok (k : nat) n mem st :
  sizes !! k = Some n -> at_rest mem st ->
  exists st' mem',
    cfi_flash_sector_erase_int FLASH_BASE wr16 rd16 meminfo FLASH_AMD double_read in_interrupt
      signal fuel (Z.of_nat k) st = Some (FLASH_API_OK, st') /\
    at_rest mem' st' /\ same_outside (base k) n mem mem' /\
    (reliable -> mem' = op_apply (OpErase (base k) n) mem).
Proof.
  intros Hk Hst. destruct (with_lock _ _ Hst) as (st1 & E1 & Ec & Hup).
  unfold cfi_flash_sector_erase_int. rewrite E1. cbn [mbind option_bind].
  destruct (erase_loop_ok 3 k n mem (chip st1) Hk) as (c & mem' & -> & Hv & Hok & Hs & HR);
    [rewrite Ec; apply Hst|apply Hst|].
  cbn [mbind option_bind]. exists (set_chip st c), mem'. rewrite Hup.
  split_and!; try done; [by eapply at_rest_set|]. intros H. apply HR; [done|lia].
Qed.

Lemma odd_test a b : Z.even a = true -> Z.even b = true -> (Z.land (Z.lor a b) 1 =? 0) = true.
Proof.
  intros Ha Hb. change 1 with (Z.ones 1). rewrite Z.land_ones by lia. change (2 ^ 1) with 2.
  rewrite Zmod_even, <- Z.negb_odd, <- Z.bit0_odd, Z.lor_spec, !Z.bit0_odd, <- !Z.negb_even, Ha, Hb.
  done.
Qed.

Lemma even_length {A} (d : list A) : Z.even (zlen d) = true -> exists j, length d = (2 * j)%nat.
Proof. intros H. apply Z.even_spec in H as [q Hq]. exists (Z.to_nat q). unfold zlen in Hq. lia. Qed.

Lemma write_ok (k : nat) n off d mem st :
  sizes !! k = Some n -> at_rest mem st -> 0 <= off -> off + zlen d <= n ->
  Z.even off = true -> Z.even (zlen d) = true ->
  exists r st' mem',
    cfi_flash_write FLASH_BASE wr16 rd16 meminfo FLASH_AMD double_read in_interrupt
      signal fuel (Z.of_nat k) off d st = Some (r, st') /\
    at_rest mem' st' /\ programmed (base k + off) d mem r mem'.
Proof.
  intros Hk Hst H0 H1 He Hd. destruct (with_lock _ _ Hst) as (st1 & E1 & Ec & Hup).
  unfold cfi_flash_write. rewrite E1. cbn [mbind option_bind]. rewrite odd_test by done. cbn [negb].
  destruct (command_UB mem (chip st1)) as (c1 & -> & Hv1); [rewrite Ec; apply Hst|].
  cbn [mbind option_bind]. destruct (even_length d Hd) as [j Hj].
  destruct (write_loop_ok k n Hk j d off mem c1) as (r & c2 & mem' & -> & Hv2 & Hok & Hp);
    try done; [apply Hst|]. cbn [mbind option_bind].
  destruct (command_UBRESET mem' c2 Hv2) as (c3 & -> & Hv3). cbn [mbind option_bind].
  exists r, (set_chip st c3), mem'. rewrite Hup. split_and!; try done. by eapply at_rest_set.
Qed.

Lemma read_byte mem c b i :
  view c = Cmd RdArray mem -> 0 <= b + i < zsum sizes ->
  rd8 (u32 (u32 (FLASH_BASE + b) + i)) c = (byte_at mem (b + i), c).
Proof.
  intros Hv Hb. unfold u32 at 1. unfold u32. rewrite Zplus_mod_idemp_l, <- Z.add_assoc.
  fold (u32 (FLASH_BASE + (b + i))). by apply (amd_rd8 _ _ _ _ Hv).
Qed.

Lemma slice_cons mem x n :
  0 <= x -> x < zlen mem -> 0 <= n -> slice x (1 + n) mem = byte_at mem x :: slice (x + 1) n mem.
Proof.
  intros. unfold slice, byte_at, zlen in *. replace (Z.to_nat (1 + n)) with (S (Z.to_nat n)) by lia.
  rewrite (drop_S mem (mem !!! Z.to_nat x)) by (apply list_lookup_lookup_total_lt; lia).
  cbn [take]. repeat f_equal. lia.
Qed.

Lemma mem_equal_ok mem c b d : forall i,
  view c = Cmd RdArray mem -> zlen mem = zsum sizes -> 0 <= b + i -> b + i + zlen d <= zsum sizes ->
  mem_equal rd8 (u32 (FLASH_BASE + b) + i) d c =
    (bool_decide (slice (b + i) (zlen d) mem = d), c).
Proof.
  induction d as [|x d IH]; intros i Hv Hl H0 H1; cbn [mem_equal]; [done|].
  autorewrite with buf in *. pose proof (zlen_nonneg d).
  rewrite (read_byte _ _ _ _ Hv) by lia. rewrite slice_cons by lia. rewrite <- Z.add_assoc.
  destruct (Z.eqb_spec (byte_at mem (b + i)) x) as [->|Hne].
  - rewrite IH by (done || lia). rewrite Z.add_assoc. f_equal. apply bool_decide_ext. split; congruence.
  - rewrite bool_decide_eq_false_2; [done|]. congruence.
Qed.

Lemma read_bytes_ok mem c b n : forall i,
  view c = Cmd RdArray mem -> zlen mem = zsum sizes -> 0 <= b + i ->
  b + i + Z.of_nat n <= zsum sizes ->
  read_bytes rd8 n (u32 (FLASH_BASE + b) + i) c = (slice (b + i) (Z.of_nat n) mem, c).
Proof.
  induction n as [|n IH]; intros i Hv Hl H0 H1; cbn [read_bytes]; [done|].
  rewrite (read_byte _ _ _ _ Hv) by lia. rewrite <- Z.add_assoc, IH by (done || lia).
  replace (Z.of_nat (S n)) with (1 + Z.of_nat n) by lia. rewrite slice_cons by lia.
  by rewrite Z.add_assoc.
Qed.

Local Abbreviation write_buf_loop' :=
  (write_buf_loop FLASH_BASE wr16 rd16 rd8 meminfo FLASH_AMD double_read in_interrupt signal fuel).

(** One round of the retry loop: programmed and verified, or erased again. *)
Lemma write_buf_loop_ok r : forall (k : nat) n off d ret mem st,
  sizes !! k = Some n -> at_rest mem st -> 0 <= off -> off + zlen d <= n ->
  Z.even off = true -> Z.even (zlen d) = true -> ret <> zlen d ->
  exists ret' st' mem',
    write_buf_loop' r (Z.of_nat k) off d ret st = Some (ret', st') /\
    at_rest mem' st' /\ same_outside (base k) n mem mem' /\
    (ret' = zlen d -> slice (base k + off) (zlen d) mem' = d) /\
    (reliable -> Forall is_u8 d -> (0 < r)%nat ->
     zip_with Z.land (slice (base k + off) (zlen d) mem) d = d -> ret' = zlen d).
Proof.
  induction r as [|r IH]; intros k n off d ret mem st Hk Hst H0 H1 He Hd Hret; cbn [write_buf_loop].
  - exists ret, st, mem. split_and!; try done. lia.
  - destruct (sector_dims k n Hk) as (Hn & Hb0 & Hb & _). pose proof (zlen_nonneg d) as Hd0.
    rewrite (memptr_ok k n Hk). cbn [mbind option_bind].
    destruct (write_ok k n off d mem st) as (r1 & st1 & mem1 & E1 & Hst1 & Hs1 & Hr1 & Hd1 & HR1);
      try done. rewrite E1. cbn [mbind option_bind].
    rewrite (mem_equal_ok mem1) by (apply Hst1 || lia).
    replace (set_chip st1 (chip st1)) with st1 by (by destruct st1).
    assert (Hs : same_outside (base k) n mem mem1) by (eapply same_outside_weaken; [done|lia..]).
    case_bool_decide as Hcmp.
    + exists r1, st1, mem1. split_and!; try done. intros HR HF _ HD. by apply HR1.
    + destruct (erase_int_ok k n mem1 st1 Hk Hst1) as (st2 & mem2 & -> & Hst2 & Hs2 & _).
      cbn [mbind option_bind].
      destruct (IH k n off d FLASH_API_ERROR mem2 st2) as (r3 & st3 & mem3 & -> & Hst3 & Hs3 & Hd3 & _);
        try done; [unfold FLASH_API_ERROR; lia|].
      exists r3, st3, mem3. split_and!; try done.
      * eapply same_outside_trans; [done|]. by eapply same_outside_trans.
      * intros HR HF _ HD. destruct Hcmp. specialize (HR1 HR HF HD). subst r1.
        rewrite Hd1 by done. done.
Qed.

Lemma read_buf_ok (k : nat) n off len mem st :
  sizes !! k = Some n -> at_rest mem st -> 0 <= off -> 0 <= len -> off + len <= n ->
  cfi_flash_read_buf FLASH_BASE rd8 meminfo in_interrupt signal (Z.of_nat k) off len st =
    Some (FLASH_API_OK, slice (base k + off) len mem, st).
Proof.
  intros Hk Hst H0 H1 H2. destruct (sector_dims k n Hk) as (Hn & Hb0 & Hb & _).
  destruct (with_lock _ _ Hst) as (st1 & E1 & Ec & Hup). unfold cfi_flash_read_buf.
  rewrite E1. cbn [mbind option_bind]. rewrite (memptr_ok k n Hk). cbn [mbind option_bind]. ztest.
  rewrite (read_bytes_ok mem), Ec, Z2Nat.id by (rewrite ?Ec; apply Hst || lia).
  rewrite Hup. by destruct st.
Qed.

(** *** The driver structure

    The functions run on devices at rest, and leave them so. *)

#[local] Instance mem_ok_dec mem : Decision (mem_ok sizes mem).
Proof. unfold mem_ok, is_u8. apply _. Defined.

Definition rest_mem (st : cfi_state C) : list Z :=
  match view (chip st) with Cmd _ mem => mem | _ => [] end.

Definition restb (st : cfi_state C) : bool :=
  match view (chip st) with
  | Cmd RdArray mem =>
      bool_decide (mem_ok sizes mem) && (in_interrupt || (cfi_flash_lock st =? 1))
  | _ => false
  end.

Lemma restb_spec st : restb st = true <-> at_rest (rest_mem st) st.
Proof.
  unfold restb, at_rest, rest_mem.
  destruct (view (chip st)) as [[] mem| |]; try (split; [done|by intros [? _]]).
  rewrite andb_true_iff, bool_decide_eq_true, orb_true_iff, Z.eqb_eq. tauto.
Qed.

Lemma at_rest_mem mem st : at_rest mem st -> rest_mem st = mem.
Proof. intros [Hv _]. unfold rest_mem. by rewrite Hv. Qed.

Definition rested : Type := {st : cfi_state C | restb st = true}.

Definition keep_rest (o : option (Z * cfi_state C)) : option (Z * rested) :=
  match o with
  | Some (r, st) =>
      match decide (restb st = true) with
      | left H => Some (r, exist _ st H)
      | right _ => None
      end
  | None => None
  end.

Lemma keep_rest_ok o r st mem :
  o = Some (r, st) -> at_rest mem st ->
  exists f, keep_rest o = Some (r, f) /\ rest_mem (proj1_sig f) = mem.
Proof.
  intros -> Hst. pose proof (at_rest_mem _ _ Hst) as E. cbn [keep_rest].
  destruct (decide (restb st = true)) as [H|H].
  - by eexists.
  - destruct H. apply restb_spec. by rewrite E.
Qed.

(** [flash_cfi_dev], with the id and name [cfi_flash_init] stored. *)
Definition flash_cfi_dev (device_id : Z) : flash_device_info_t rested := {|
  flash_device_id := device_id;
  flash_device_name := device_name device_id;
  fn_flash_sector_erase_int sector f :=
    keep_rest (cfi_flash_sector_erase_int FLASH_BASE wr16 rd16 meminfo FLASH_AMD double_read
      in_interrupt signal fuel sector (proj1_sig f));
  fn_flash_read_buf sector offset numbytes f :=
    option_map fst (cfi_flash_read_buf FLASH_BASE rd8 meminfo in_interrupt signal
      sector offset numbytes (proj1_sig f));
  fn_flash_write_buf sector offset buffer f :=
    keep_rest (cfi_flash_write_buf FLASH_BASE wr16 rd16 rd8 meminfo FLASH_AMD double_read
      in_interrupt signal fuel sector offset buffer (proj1_sig f));
  fn_flash_get_numsectors _ := cfi_flash_get_numsectors meminfo;
  fn_flash_get_sector_size sector _ := cfi_flash_get_sector_size meminfo sector;
  fn_flash_get_memptr sector _ := cfi_flash_get_memptr FLASH_BASE meminfo sector;
  fn_flash_get_blk addr _ := cfi_flash_get_blk FLASH_BASE meminfo addr;
  fn_flash_get_total_size _ := cfi_flash_get_total_size meminfo;
  fn_flash_get_total_memory_mapped_size _ := cfi_flash_get_total_size meminfo
|}.

Lemma sector_even (k : nat) n : sizes !! k = Some n -> Z.even n = true.
Proof.
  intros Hk. destruct (sector_dims k n Hk) as (_ & _ & _ & [q ->] & _).
  rewrite Z.even_mul. apply orb_true_r.
Qed.

(** What [flash_write_buf] does from the start of a sector. *)
Lemma write_sector_ok id (k : nat) n d (f : rested) :
  sizes !! k = Some n -> zlen d <= n -> zlen d = n \/ Z.even (zlen d) = true ->
  exists r f', fn_flash_write_buf (flash_cfi_dev id) (Z.of_nat k) 0 d f = Some (r, f') /\
    same_outside (base k) n (rest_mem (proj1_sig f)) (rest_mem (proj1_sig f')) /\
    (r = zlen d -> slice (base k) (zlen d) (rest_mem (proj1_sig f')) = d) /\
    (reliable -> Forall is_u8 d ->
     zip_with Z.land (slice (base k) (zlen d) (rest_mem (proj1_sig f))) d = d -> r = zlen d).
Proof.
  intros Hk Hd He. pose proof (zlen_nonneg d).
  assert (He' : Z.even (zlen d) = true) by (destruct He as [->|He]; [by eapply sector_even|done]).
  destruct f as [st Hst]. apply restb_spec in Hst as Hst'.
  destruct (write_buf_loop_ok 3 k n 0 d FLASH_API_ERROR _ st Hk Hst')
    as (r & st' & mem' & E & Hst1 & Hs & Hr & HR);
    [done|lia|done|done|unfold FLASH_API_ERROR; lia|].
  cbn [flash_cfi_dev fn_flash_write_buf proj1_sig].
  destruct (keep_rest_ok _ r st' mem' E Hst1) as (f' & E' & Hm). exists r, f'.
  rewrite Z.add_0_r in Hr, HR. rewrite Hm. split_and!; try done. intros. by apply HR; try lia.
Qed.

Lemma erase_sector_ok id (k : nat) n (f : rested) :
  sizes !! k = Some n ->
  exists f', fn_flash_sector_erase_int (flash_cfi_dev id) (Z.of_nat k) f = Some (FLASH_API_OK, f') /\
    same_outside (base k) n (rest_mem (proj1_sig f)) (rest_mem (proj1_sig f')) /\
    (reliable ->
     rest_mem (proj1_sig f') = op_apply (OpErase (base k) n) (rest_mem (proj1_sig f))).
Proof.
  intros Hk. destruct f as [st Hst]. apply restb_spec in Hst as Hst'.
  destruct (erase_int_ok k n _ st Hk Hst') as (st' & mem' & E & Hst1 & Hs & HR).
  cbn [flash_cfi_dev fn_flash_sector_erase_int proj1_sig].
  destruct (keep_rest_ok _ _ st' mem' E Hst1) as (f' & E' & Hm). exists f'. by rewrite Hm.
Qed.

(** C4: [cfiflash.c] implements the contract of the flash API on every device with the
    AMD command set: reading, erasing and writing return, erasing and writing change
    the addressed sector only, a write that reports the whole sector has stored the
    data, and the device is back in read mode with the semaphore free.  The driver
    polls DQ7 and DQ5 (6338, 6358) on a device that reports failures, or the toggle
    bit (6348, 6368) on one that completes. *)
Theorem cfi_driver_refines id :
  FlashLaws (flash_cfi_dev id) FLASH_BASE sizes (fun f => rest_mem (proj1_sig f)).
Proof.
  assert (Hst : forall f : rested, at_rest (rest_mem (proj1_sig f)) (proj1_sig f))
    by (intros [st H]; by apply restb_spec).
  destruct Hmap as (Hdev & _ & Hns & Htot). constructor; try done.
  - intros f. apply (Hst f).
  - intros f. apply (Hst f).
  - intros f k n Hk. by apply (get_sector_size _ sizes).
  - intros f k n Hk. by apply (memptr_ok k n).
  - intros f addr. by apply get_blk_above.
  - intros f k n off len Hk H0 H1 H2. exists FLASH_API_OK.
    cbn [flash_cfi_dev fn_flash_read_buf]. by rewrite (read_buf_ok k n off len _ _ Hk (Hst f)).
  - intros f k n Hk. destruct (erase_sector_ok id k n f Hk) as (f' & E & Hs & _). eauto.
  - intros f k n d Hk Hd He. destruct (write_sector_ok id k n d f Hk Hd He) as (r & f' & E & Hs & Hr & _).
    eauto 6.
Qed.

Lemma land_erased d :
  Forall is_u8 d -> zip_with Z.land (replicate (length d) 0xff) d = d.
Proof.
  induction 1 as [|x l Hx _ IH]; [done|]. cbn [length replicate zip_with]. f_equal; [|done].
  change 0xff with (Z.ones 8). rewrite Z.land_comm, Z.land_ones by lia. by apply Z.mod_small.
Qed.

(** C36: On a device that completes every erasure, and every program that only clears
    bits, a sector that was erased is written in full by [cfi_flash_write_buf]: the
    call reports the size of the sector. *)
Theorem cfi_driver_reliable (HR : reliable) id : FlashReliable (flash_cfi_dev id) sizes.
Proof.
  constructor. intros f k n d r f1 Hk Hd Hev Hb He.
  destruct (sector_dims k n Hk) as (Hn & Hb0 & Hbn & _).
  destruct (erase_sector_ok id k n f Hk) as (f1' & E1 & _ & Hm). rewrite E1 in He.
  injection He as _ ->.
  destruct (write_sector_ok id k n d f1 Hk Hd Hev) as (r2 & f2 & E2 & _ & _ & Hr2).
  exists f2. rewrite E2, Hr2; [done..|]. rewrite Hm by done. cbn [op_apply].
  assert (Hl : zlen (rest_mem (proj1_sig f)) = zsum sizes)
    by apply (proj1 (restb_spec _) (proj2_sig f)).
  rewrite slice_erased by lia. by apply land_erased.
Qed.
(** [cfi_flash_write] programs an even number of bytes at an even offset of a
    sector: it returns the number of bytes it got done, up to there each byte is the
    old one with the bits of the data cleared, nothing outside the range changes, and
    the device ends in read mode.  A device that does not wear out gets all of the
    data done if that needs no bit set. *)
Theorem cfi_flash_write_spec (k : nat) n off d mem st :
  sizes !! k = Some n -> at_rest mem st -> 0 <= off -> off + zlen d <= n ->
  Z.even off = true -> Z.even (zlen d) = true -> Forall is_u8 d ->
  exists r st' mem',
    cfi_flash_write FLASH_BASE wr16 rd16 meminfo FLASH_AMD double_read in_interrupt
      signal fuel (Z.of_nat k) off d st = Some (r, st') /\
    at_rest mem' st' /\ same_outside (base k + off) (zlen d) mem mem' /\ 0 <= r <= zlen d /\
    slice (base k + off) r mem' = zip_with Z.land (slice (base k + off) r mem) d /\
    (reliable -> zip_with Z.land (slice (base k + off) (zlen d) mem) d = d ->
     r = zlen d /\ slice (base k + off) (zlen d) mem' = d).
Proof.
  intros Hk Hst H0 H1 He Hd Hb.
  destruct (write_ok k n off d mem st) as (r & st' & mem' & E & Hst' & Hs & Hr & Hp & HR); try done.
  exists r, st', mem'. split_and!; try done; try lia; [by apply Hp|].
  intros HRe HD. specialize (HR HRe Hb HD). subst r. split; [done|]. by rewrite Hp.
Qed.
End Amd.

(** A device with two 8-KByte and one 64-KByte sector, simulated. *)
Definition demo_sizes : list Z := [8192; 8192; 65536].
Definition demo_meminfo : flashinfo := mkInfo 3 (layout 0 demo_sizes) 81920.
Definition demo_base : Z := 0xBFC00000.

Lemma demo_map : flash_map demo_meminfo demo_sizes /\ Forall (fun n => (4096 | n)) demo_sizes.
Proof.
  split; [split; [by_decide|done]|].
  repeat (apply Forall_cons_2; [by apply Z.mod_divide|]). apply Forall_nil_2.
Qed.

Lemma cfi_driver_refines_witness :
  FlashLaws (flash_cfi_dev (FLASH_BASE := demo_base) (wr16 := Sim.wr16 demo_base demo_sizes 7)
      (rd16 := Sim.rd16 demo_base true (fun _ => 0)) (rd8 := Sim.rd8 demo_base)
      (meminfo := demo_meminfo) (sizes := demo_sizes) (double_read := true)
      (in_interrupt := false) (signal := false) (fuel := 8) (view := fun c => c) ID_AM29LV320B)
    demo_base demo_sizes (fun f => rest_mem (view := fun c => c) (proj1_sig f)) /\
  FlashLaws (flash_cfi_dev (FLASH_BASE := demo_base) (wr16 := Sim.wr16 demo_base demo_sizes 7)
      (rd16 := Sim.rd16 demo_base false (fun _ => 0)) (rd8 := Sim.rd8 demo_base)
      (meminfo := demo_meminfo) (sizes := demo_sizes) (double_read := false)
      (in_interrupt := false) (signal := false) (fuel := 8) (view := fun c => c) ID_AM29LV320B)
    demo_base demo_sizes (fun f => rest_mem (view := fun c => c) (proj1_sig f)).
Proof.
  split; apply (cfi_driver_refines (fuel := 8) (polls := 7) (chip_id := fun _ => 0)
    (HC := Sim.chip demo_base demo_sizes _ 7 (fun _ => 0) eq_refl)
    (proj1 demo_map) (proj2 demo_map) ltac:(lia)).
Defined.

Lemma cfi_driver_reliable_witness :
  FlashReliable (flash_cfi_dev (FLASH_BASE := demo_base) (wr16 := Sim.wr16 demo_base demo_sizes 7)
      (rd16 := Sim.rd16 demo_base true (fun _ => 0)) (rd8 := Sim.rd8 demo_base)
      (meminfo := demo_meminfo) (sizes := demo_sizes) (double_read := true)
      (in_interrupt := false) (signal := false) (fuel := 8) (view := fun c => c) ID_AM29LV320B)
    demo_sizes.
Proof.
  apply (cfi_driver_reliable (fuel := 8) (polls := 7) (chip_id := fun _ => 0)
    (HC := Sim.chip demo_base demo_sizes true 7 (fun _ => 0) eq_refl)
    (proj1 demo_map) (proj2 demo_map) ltac:(lia)). apply Sim.reliable.
Defined.

Definition demo_mem : list Z := replicate (Z.to_nat 81920) 0xff.

Lemma demo_mem_ok : mem_ok demo_sizes demo_mem.
Proof. unfold demo_mem. split; [rewrite zlen_replicate; cbn; lia|by apply Forall_replicate]. Qed.

Lemma cfi_flash_write_spec_witness :
  let x := sbase demo_sizes (Z.of_nat 1) + 4 in
  let d := [0x12; 0x34] in
  exists r st' mem',
    cfi_flash_write demo_base (Sim.wr16 demo_base demo_sizes 7)
      (Sim.rd16 demo_base true (fun _ => 0)) demo_meminfo FLASH_AMD true false false 8
      (Z.of_nat 1) 4 d (mkCfi (Cmd RdArray demo_mem) 1) = Some (r, st') /\
    at_rest (sizes := demo_sizes) (in_interrupt := false) (view := fun c => c) mem' st' /\
    same_outside x (zlen d) demo_mem mem' /\ 0 <= r <= zlen d /\
    slice x r mem' = zip_with Z.land (slice x r demo_mem) d /\
    (AmdReliable demo_base (Sim.rd16 demo_base true (fun _ => 0)) demo_sizes (fun c => c) ->
     zip_with Z.land (slice x (zlen d) demo_mem) d = d -> r = zlen d /\ slice x (zlen d) mem' = d).
Proof.
  intros x d.
  apply (cfi_flash_write_spec (rd8 := Sim.rd8 demo_base) (fuel := 8) (polls := 7)
    (chip_id := fun _ => 0) (signal := false)
    (HC := Sim.chip demo_base demo_sizes true 7 (fun _ => 0) eq_refl)
    (proj1 demo_map) (proj2 demo_map) ltac:(lia) 1 8192 4 d demo_mem (mkCfi (Cmd RdArray demo_mem) 1)).
  - reflexivity.
  - split; [reflexivity|]. split; [apply demo_mem_ok|by right].
  - lia.
  - by vm_compute.
  - reflexivity.
  - reflexivity.
  - repeat constructor; unfold is_u8; lia.
Defined.

(** ** Identification

    [cfi_flash_init] reads the id before it knows the family and the sectors, with
    the unlock addresses of SST devices; AMD devices ignore the upper bits. *)

Definition initial_meminfo : flashinfo := mkInfo 1 [mkSector 8192 0] 0.

Definition reported_id (chip_id : Z -> Z) : Z :=
  if chip_id 1 =? ID_AM29LV320M then chip_id 0xf else chip_id 1.

(** [cfi_flash_get_device_id] returns the id of an AMD device (the third id word
    for the parts that announce it) and leaves the device in read mode with its
    contents unchanged. *)
Theorem cfi_flash_get_device_id_spec {C : Type} FLASH_BASE (wr16 : Z -> Z -> C -> C) rd16 rd8
    sizes dq5 polls chip_id view
    {HC : AmdChip FLASH_BASE wr16 rd16 rd8 sizes dq5 polls chip_id view} mem c :
  2 * 0x5555 < zsum sizes -> view c = Cmd RdArray mem ->
  exists c', cfi_flash_get_device_id FLASH_BASE wr16 rd16 initial_meminfo FLASH_UNDEFINED c =
      Some (reported_id chip_id, c') /\ view c' = Cmd RdArray mem.
Proof.
  intros Hz Hv. unfold cfi_flash_get_device_id, cfi_flash_command.
  change (memptr FLASH_BASE initial_meminfo 0) with (Some (u32 (FLASH_BASE + 0))).
  cbn [mbind option_bind].
  pose proof (run_cycles 0 (cmd_writes FLASH_UNDEFINED FLASH_READ_ID 0 0) RdArray AutoSelect mem c Hv)
    as Hv1. specialize (Hv1 ltac:(cycles_in) eq_refl).
  set (c1 := foldl _ c _) in *. rewrite !idx16_base, !Z.add_0_l.
  rewrite (amd_id _ _ _ Hv1), (amd_id _ _ _ Hv1), (amd_id _ _ _ Hv1) by lia.
  pose proof (run_cycles 0 (cmd_writes FLASH_UNDEFINED FLASH_RESET 0 0) AutoSelect RdArray mem c1 Hv1)
    as Hv2. specialize (Hv2 ltac:(cycles_in) eq_refl).
  unfold reported_id. destruct (chip_id 1 =? ID_AM29LV320M); eauto.
Qed.

(** ** Calls that do not return *)

(** On the chips that poll the toggle bit, [cfi_flash_wait] never returns once a
    device has reported a failure: the loop tests DQ5 in the difference of two
    reads, where it is always clear, and DQ6 goes on toggling.  The reset and
    [STATUS_TIMEOUT] after the loop are out of reach. *)
Theorem toggle_wait_never_returns {C : Type} FLASH_BASE (wr16 : Z -> Z -> C -> C) rd16 rd8
    sizes dq5 polls chip_id view
    {HC : AmdChip FLASH_BASE wr16 rd16 rd8 sizes dq5 polls chip_id view}
    meminfo (k : nat) n offset data fuel m o mem t c :
  flash_map meminfo sizes -> Forall (fun n => (4096 | n)) sizes -> sizes !! k = Some n ->
  view c = Failed m o mem t ->
  cfi_flash_wait FLASH_BASE wr16 rd16 meminfo FLASH_AMD false fuel (Z.of_nat k) offset data c = None.
Proof.
  intros Hmap Hsec Hk Hv. destruct (sector_dims Hmap Hsec k n Hk) as (? & ? & ? & _ & Hd).
  unfold cfi_flash_wait. rewrite (memptr_ok Hmap k n Hk). cbn [mbind option_bind]. unfold wait_toggle.
  assert (He : Z.even (sbase sizes (Z.of_nat k)) = true)
    by (rewrite <- (Z.add_0_r (sbase _ _)); by apply even_div).
  set (x := sbase sizes (Z.of_nat k)) in *.
  assert (Hp : forall t c, view c = Failed m o mem t ->
    poll_toggle rd16 fuel (u32 (FLASH_BASE + x)) c = None).
  { clear t c Hv. induction fuel as [|f IH]; intros t c Hv; [done|]. cbn [poll_toggle]. unfold toggled.
    destruct (amd_failed _ _ _ _ _ x Hv) as (v1 & c1 & -> & Hv1 & A6 & A5 & _); [lia|lia|done|].
    destruct (amd_failed _ _ _ _ _ x Hv1) as (v2 & c2 & -> & Hv2 & B6 & B5 & _); [lia|lia|done|].
    rewrite land_bit5, Z.lxor_spec, A5, B5. cbn.
    destruct (Z.eqb_spec (Z.lxor v1 v2) 0) as [E%Z.lxor_eq|_]; [|by eapply IH].
    subst. by destruct (Z.testbit v2 6). }
  by rewrite (Hp t c Hv).
Qed.

(** An odd length makes [cfi_flash_write] return [FLASH_API_ERROR] with the
    semaphore taken, and the next call that wants it, from process context and with
    no signal, sleeps for ever: so does [cfi_flash_write_buf] itself, in its retry,
    if the data is not in the flash already. *)
Theorem odd_write_keeps_lock {C : Type} FLASH_BASE (wr16 : Z -> Z -> C -> C) rd16 rd8 meminfo family
    double_read fuel sector offset buf c :
  let write := cfi_flash_write FLASH_BASE wr16 rd16 meminfo family double_read false false fuel in
  let write_buf := cfi_flash_write_buf FLASH_BASE wr16 rd16 rd8 meminfo family double_read false false fuel in
  let erase := cfi_flash_sector_erase_int FLASH_BASE wr16 rd16 meminfo family double_read false false fuel in
  Z.odd (zlen buf) = true ->
  write sector offset buf (mkCfi c 1) = Some (FLASH_API_ERROR, mkCfi c 0) /\
  (forall k, erase k (mkCfi c 0) = None) /\
  (forall k off d, write k off d (mkCfi c 0) = None) /\
  (forall p c', memptr FLASH_BASE meminfo sector = Some p ->
   mem_equal rd8 (p + offset) buf c = (false, c') ->
   write_buf sector offset buf (mkCfi c 1) = None).
Proof.
  intros write write_buf erase Hodd.
  assert (Hw : write sector offset buf (mkCfi c 1) = Some (FLASH_API_ERROR, mkCfi c 0)).
  { unfold write, cfi_flash_write. cbn [lock_down mbind option_bind cfi_flash_lock]. 
    assert (E : (Z.land (Z.lor (zlen buf) offset) 1 =? 0) = false); [|by rewrite E].
    apply Z.eqb_neq. intros E0. assert (Z.testbit (Z.land (Z.lor (zlen buf) offset) 1) 0 = false)
      by (by rewrite E0). rewrite Z.land_spec, Z.lor_spec, Z.bit0_odd, Hodd in *. done. }
  split_and!; [done|done|done|]. intros p c' Hp Hm. unfold write_buf, cfi_flash_write_buf.
  cbn [write_buf_loop]. rewrite Hp. cbn [mbind option_bind]. fold write. rewrite Hw.
  cbn [mbind option_bind chip]. by rewrite Hm.
Qed.

Lemma cfi_flash_get_device_id_spec_witness :
  exists c', cfi_flash_get_device_id demo_base (Sim.wr16 demo_base demo_sizes 7)
      (Sim.rd16 demo_base true (fun i => if i =? 1 then ID_AM29LV320M else ID_AM29LV320MB))
      initial_meminfo FLASH_UNDEFINED (Cmd RdArray demo_mem) =
      Some (ID_AM29LV320MB, c') /\ c' = Cmd RdArray demo_mem.
Proof.
  apply (cfi_flash_get_device_id_spec demo_base (Sim.wr16 demo_base demo_sizes 7)
    (Sim.rd16 demo_base true (fun i => if i =? 1 then ID_AM29LV320M else ID_AM29LV320MB))
    (Sim.rd8 demo_base) demo_sizes true 7 _ (fun c => c) (HC := Sim.chip demo_base demo_sizes true 7 _ eq_refl)
    demo_mem (Cmd RdArray demo_mem)); done.
Defined.

Lemma toggle_wait_never_returns_witness :
  cfi_flash_wait demo_base (Sim.wr16 demo_base demo_sizes 7) (Sim.rd16 demo_base true (fun _ => 0))
    demo_meminfo FLASH_AMD false 1000 0 0 0xffff (Failed RdArray (OpErase 0 8192) [] true) = None.
Proof.
  apply (toggle_wait_never_returns demo_base (Sim.wr16 demo_base demo_sizes 7)
    (Sim.rd16 demo_base true (fun _ => 0)) (Sim.rd8 demo_base) demo_sizes true 7 (fun _ => 0)
    (fun c => c) (HC := Sim.chip demo_base demo_sizes true 7 _ eq_refl) demo_meminfo 0 8192 0 0xffff 1000
    RdArray (OpErase 0 8192) [] true); [apply demo_map|apply demo_map|done|done].
Defined.

Lemma odd_write_keeps_lock_witness :
  let c := Cmd RdArray [0xff] in
  cfi_flash_write demo_base (Sim.wr16 demo_base demo_sizes 7) (Sim.rd16 demo_base true (fun _ => 0))
    demo_meminfo FLASH_AMD true false false 8 0 0 [0x12] (mkCfi c 1) =
    Some (FLASH_API_ERROR, mkCfi c 0) /\
  cfi_flash_write_buf demo_base (Sim.wr16 demo_base demo_sizes 7)
    (Sim.rd16 demo_base true (fun _ => 0)) (Sim.rd8 demo_base)
    demo_meminfo FLASH_AMD true false false 8 0 0 [0x12] (mkCfi c 1) = None.
Proof.
  destruct (odd_write_keeps_lock demo_base (Sim.wr16 demo_base demo_sizes 7)
    (Sim.rd16 demo_base true (fun _ => 0)) (Sim.rd8 demo_base) demo_meminfo FLASH_AMD true 8 0 0
    [0x12] (Cmd RdArray [0xff]) eq_refl) as (H1 & _ & _ & H4).
  split; [exact H1|]. by apply (H4 (u32 demo_base) (Cmd RdArray [0xff])).
Defined.
