(* ===== verification/SpiBus.v ===== *)
(** * Serial flash driver

    [shared/opensource/flash/spiflash.c]: the driver for flash devices on the SPI
    bus, from the transfers to the functions of its driver structure.

    The controller with the device behind it is not part of the program: its state
    [C] and [xfer], which sends bytes, receives a number of bytes and returns what
    was received, are parameters.  [spi_read] and [spi_write] wait for the
    controller's done bit, so a transfer is one step; they always return
    [SPI_STATUS_OK] and the tests of that code are left out.  [None] is an access
    outside an array, a read of an array that was not written, or a loop on the
    device that takes more than [fuel] rounds. *)

From S2P Require Import Prelude SectorMap FlashApi.

(** ** Constants *)

Definition MAX_RETRY : nat := 3.
Definition FLASH_PAGE_SIZE : Z := 256.
Definition SECTOR_SIZE_4K : Z := 4 * 1024.
Definition SECTOR_SIZE_32K : Z := 32 * 1024.
Definition SECTOR_SIZE_64K : Z := 64 * 1024.
Definition MAX_READ : Z := 60.
Definition CMD_LEN_4 : Z := 4.

(** Command codes. *)
Definition FLASH_READ : Z := 0x03.
Definition FLASH_PROG : Z := 0x02.
Definition FLASH_WREN : Z := 0x06.
Definition FLASH_WRDI : Z := 0x04.
Definition FLASH_RDSR : Z := 0x05.
Definition FLASH_WRST : Z := 0x01.
Definition FLASH_EWSR : Z := 0x50.
Definition FLASH_WORD_AAI : Z := 0xAD.
Definition FLASH_AAI : Z := 0xAF.
Definition SST_FLASH_SERASE : Z := 0x20.
Definition SST_FLASH_RDID : Z := 0x90.
Definition ATMEL_FLASH_SERASE : Z := 0x52.
Definition ATMEL_FLASH_RDID : Z := 0x15.
Definition AMD_FLASH_SERASE : Z := 0xD8.
Definition AMD_FLASH_RDID : Z := 0xAB.
Definition SPAN_FLASH_SERASE : Z := 0xD8.
Definition SPAN_FLASH_RDID : Z := 0x9F.

(** Bits of the status register. *)
Definition SR_WPEN : Z := 0x80.
Definition SR_BP2 : Z := 0x10.
Definition SR_BP1 : Z := 0x08.
Definition SR_BP0 : Z := 0x04.
Definition SR_WEN : Z := 0x02.
Definition SR_RDY : Z := 0x01.

Definition STATUS_READY : Z := 0.
Definition STATUS_TIMEOUT : Z := 2.

(** Manufacturers and devices. *)
Definition ATMELPART : Z := 0x1F.
Definition ID_AT25F512 : Z := 0x60.
Definition ID_AT25F2048 : Z := 0x63.
Definition AMD_S25FL002D : Z := 0x11.
Definition SSTPART : Z := 0xBF.
Definition ID_SST25VF016B : Z := 0x41.
Definition ID_SST25VF020 : Z := 0x43.
Definition ID_SST25VF040 : Z := 0x44.
Definition ID_SST25VF080 : Z := 0x80.
Definition NXPART : Z := 0xEF.
Definition ID_NX25P20 : Z := 0x11.
Definition ID_NX25P40 : Z := 0x12.
Definition STPART : Z := 0x12.
Definition ID_M25P40 : Z := 0x12.
Definition SPANPART : Z := 0x01.
Definition SPANPART2 : Z := 0x02.
Definition ID_SPAN25FL004A : Z := 0x12.
Definition ID_SPAN25FL008A : Z := 0x13.
Definition ID_SPAN25FL016A : Z := 0x14.
Definition ID_SPAN25FL032A : Z := 0x15.
Definition KHPART : Z := 0x14.
Definition ID_NXW25P16 : Z := 0x14.
Definition ID_KH25L1605 : Z := 0x14.

Definition SPI_MAKE_ID (A B : Z) : Z := Z.lor (u16 (Z.shiftl (u16 A) 8)) (Z.land (u16 B) 0xff).

Definition SPI_FLASH_DEVICES : list (Z * string) :=
  [(SPI_MAKE_ID ATMELPART ID_AT25F512, "AT25F512"%string);
   (SPI_MAKE_ID ATMELPART ID_AT25F2048, "AT25F2048"%string);
   (SPI_MAKE_ID AMD_S25FL002D 0, "AMD_S25FL002D"%string);
   (SPI_MAKE_ID SSTPART ID_SST25VF016B, "SST25VF016B"%string);
   (SPI_MAKE_ID SSTPART ID_SST25VF020, "SST25VF020"%string);
   (SPI_MAKE_ID SSTPART ID_SST25VF040, "SST25VF040"%string);
   (SPI_MAKE_ID SSTPART ID_SST25VF080, "SST25VF080"%string);
   (SPI_MAKE_ID NXPART ID_NX25P20, "NX25P20"%string);
   (SPI_MAKE_ID NXPART ID_NX25P40, "NX25P40"%string);
   (SPI_MAKE_ID STPART ID_M25P40, "M25P40"%string);
   (SPI_MAKE_ID SPANPART ID_SPAN25FL004A, "S25FL004A"%string);
   (SPI_MAKE_ID SPANPART ID_SPAN25FL008A, "S25FL008A"%string);
   (SPI_MAKE_ID SPANPART ID_SPAN25FL016A, "S25FL016A"%string);
   (SPI_MAKE_ID SPANPART ID_SPAN25FL032A, "S25FL032A"%string);
   (SPI_MAKE_ID NXPART ID_NXW25P16, "NXW25P16"%string);
   (SPI_MAKE_ID KHPART ID_KH25L1605, "KH25L1605"%string)].

(** ** The static variables *)

Inductive spi_family :=
  | FLASH_UNDEFINED | FLASH_SST | FLASH_ATMEL | FLASH_AMD | FLASH_SPAN | FLASH_NX | FLASH_KH.

#[export] Instance spi_family_eq_dec : EqDecision spi_family.
Proof. solve_decision. Defined.

(** [meminfo] includes [totalSize]. *)
Record spi_vars := mkVars {
  meminfo : flashinfo;
  flashFamily : spi_family;
  sstAaiWordProgram : bool
}.

Definition undefined (v : spi_vars) : bool := bool_decide (flashFamily v = FLASH_UNDEFINED).

(** The variables of a program that has not called [spi_flash_init] yet. *)
Definition spi_vars_start : spi_vars := mkVars (mkInfo 0 [] 0) FLASH_UNDEFINED false.

(** ** Geometry *)

Definition spi_flash_get_numsectors (m : flashinfo) : Z := nsect m.

Definition spi_flash_get_sector_size (m : flashinfo) (sector : Z) : option Z :=
  sec_size <$> sec_at m (u16 sector).

Definition spi_get_flash_memptr (FLASH_BASE : Z) (m : flashinfo) (sector : Z) : option Z :=
  s ← sec_at m (u16 sector); Some (u32 (FLASH_BASE + sec_base s)).

Definition spi_flash_get_memptr (FLASH_BASE : Z) (m : flashinfo) (sector : Z) : option Z :=
  spi_get_flash_memptr FLASH_BASE m sector.

(** The loop of [spi_flash_get_blk]; [n] bounds [last_blk - blk_start]. *)
Fixpoint spi_blk_loop (m : flashinfo) (relative_addr blk_start i : Z) (n : nat) : option (Z * Z) :=
  match n with
  | O => Some (blk_start, i)
  | S n' =>
      if i <? relative_addr then
        size ← spi_flash_get_sector_size m blk_start;
        spi_blk_loop m relative_addr (blk_start + 1) (s32 (i + size)) n'
      else Some (blk_start, i)
  end.

Definition spi_flash_get_blk (FLASH_BASE : Z) (m : flashinfo) (addr : Z) : option Z :=
  let last_blk := spi_flash_get_numsectors m in
  let relative_addr := s32 (addr - FLASH_BASE) in
  '(blk_start, i) ← spi_blk_loop m relative_addr 0 0 (Z.to_nat last_blk);
  Some (if u32 relative_addr <? u32 i then blk_start - 1
        else if blk_start =? last_blk then -1
        else blk_start).

Definition spi_flash_get_total_size (m : flashinfo) : Z := totalSize m.

Definition MAX_MEMORY_MAPPED_SIZE : Z := 0.

Definition spi_flash_get_total_memory_mapped_size (m : flashinfo) : Z :=
  if totalSize m <? MAX_MEMORY_MAPPED_SIZE then totalSize m else MAX_MEMORY_MAPPED_SIZE.

(** ** Transfers and status *)

(** The three address bytes of a command. *)
Definition addr_bytes (a : Z) : list Z :=
  [u8 (Z.shiftr (Z.land a 0x00ff0000) 16); u8 (Z.shiftr (Z.land a 0x0000ff00) 8);
   u8 (Z.land a 0x000000ff)].

Section Driver.
Context {C : Type} (xfer : list Z -> nat -> C -> list Z * C) (FLASH_BASE : Z).

(** The sizes of [SPI->spiMsgData] and [SPI->spiRxDataFifo]: 63 and 64 on the 6338
    and 6348, 542 and 544 on the 6358 and 6368. *)
Context (msgData rxFifo : Z) (fuel : nat).

(** [msg_buf] with what was received at its start. *)
Definition spi_read (msg_buf : list Z) (prependcnt nbytes : Z) (c : C) : option (list Z * C) :=
  cmd ← mem_read msg_buf 0 prependcnt;
  if (prependcnt <=? msgData) && (nbytes <=? rxFifo) then
    let '(rx, c) := xfer cmd (Z.to_nat nbytes) c in
    msg_buf ← mem_write msg_buf 0 rx;
    Some (msg_buf, c)
  else None.

Definition spi_write (msg_buf : list Z) (nbytes : Z) (c : C) : option C :=
  d ← mem_read msg_buf 0 nbytes;
  if nbytes <=? msgData then Some (snd (xfer d 0 c)) else None.

(** [buf[0] = FLASH_RDSR; spi_read(buf, 1, 1)], and the value of [buf[0]]. *)
Definition read_status (c : C) : option (Z * C) :=
  '(buf, c) ← spi_read [FLASH_RDSR; 0; 0; 0] 1 1 c;
  b ← buf !! 0%nat;
  Some (b, c).

Fixpoint status_loop (retry : nat) (c : C) : option (Z * C) :=
  '(b, c) ← read_status c;
  if Z.land b SR_RDY =? 0 then Some (STATUS_READY, c)
  else match retry with
       | O => Some (STATUS_TIMEOUT, c)
       | S retry' => status_loop retry' c
       end.

Definition spi_flash_status (c : C) : option (Z * C) := status_loop 10 c.

(** [while (spi_flash_status() != STATUS_READY) {}]. *)
Fixpoint wait_loop (n : nat) (c : C) : option C :=
  match n with
  | O => None
  | S n' =>
      '(s, c) ← spi_flash_status c;
      if s =? STATUS_READY then Some c else wait_loop n' c
  end.

Definition wait_ready (c : C) : option C := wait_loop fuel c.

(** ** Operations of an initialised driver *)

Section Operations.
Context (v : spi_vars).

Definition spi_flash_reset_ub (c : C) : option (Z * C) :=
  if undefined v then Some (FLASH_API_ERROR, c)
  else
    c ← spi_write [FLASH_WRDI; 0; 0; 0] 1 c;
    c ← wait_ready c;
    Some (FLASH_API_OK, c).

Definition spi_flash_reset (c : C) : option (Z * C) :=
  if undefined v then Some (FLASH_API_ERROR, c)
  else
    '(_, c) ← spi_flash_reset_ub c;
    c ← wait_ready c;
    Some (FLASH_API_OK, c).

Definition PROTECTION : Z := Z.lor (Z.lor (Z.lor SR_WPEN SR_BP2) SR_BP1) SR_BP0.

Definition spi_flash_write_status (status : Z) (c : C) : option (Z * C) :=
  if undefined v then Some (FLASH_API_ERROR, c)
  else
    c ← match flashFamily v with
        | FLASH_SST | FLASH_KH => spi_write [FLASH_EWSR; 0; 0; 0] 1 c
        | FLASH_SPAN => spi_write [FLASH_WREN; 0; 0; 0] 1 c
        | _ => Some c
        end;
    c ← spi_write [FLASH_WRST; Z.land status PROTECTION; 0; 0] 2 c;
    c ← wait_ready c;
    Some (FLASH_API_OK, c).

(** One round of the first loop of [spi_flash_ub]: whether the loop is left. *)
Definition unprotect_round (c : C) : option (bool * C) :=
  '(b, c) ← read_status c;
  c ← wait_ready c;
  if negb (Z.land b (Z.lor (Z.lor SR_BP2 SR_BP1) SR_BP0) =? 0) then
    '(_, c) ← spi_flash_write_status (u8 (Z.lnot PROTECTION)) c;
    Some (false, c)
  else Some (true, c).

(** One round of the second loop. *)
Definition enabled_round (c : C) : option (bool * C) :=
  '(b, c) ← read_status c;
  c ← wait_ready c;
  Some (negb (Z.land b SR_WEN =? 0), c).

(** [do round while (1)], left by a [break]. *)
Fixpoint repeat_round (round : C -> option (bool * C)) (n : nat) (c : C) : option C :=
  match n with
  | O => None
  | S n' =>
      '(leave, c) ← round c;
      if (leave : bool) then Some c else repeat_round round n' c
  end.

(** The argument [sector] is not used. *)
Definition spi_flash_ub (c : C) : option (Z * C) :=
  c ← repeat_round unprotect_round fuel c;
  c ← spi_write [FLASH_WREN; 0; 0; 0] 1 c;
  c ← wait_ready c;
  c ← repeat_round enabled_round fuel c;
  Some (FLASH_API_OK, c).

Definition erase_command : option Z :=
  match flashFamily v with
  | FLASH_SST | FLASH_KH => Some SST_FLASH_SERASE
  | FLASH_ATMEL => Some ATMEL_FLASH_SERASE
  | FLASH_AMD | FLASH_NX => Some AMD_FLASH_SERASE
  | FLASH_SPAN => Some SPAN_FLASH_SERASE
  | FLASH_UNDEFINED => None
  end.

Definition spi_flash_sector_erase_int (sector : Z) (c : C) : option (Z * C) :=
  if undefined v then Some (FLASH_API_ERROR, c)
  else
    '(_, c) ← spi_flash_reset c;
    '(_, c) ← spi_flash_ub c;
    cmd ← erase_command;
    addr ← spi_get_flash_memptr FLASH_BASE (meminfo v) sector;
    c ← spi_write (cmd :: addr_bytes addr) 4 c;
    c ← wait_ready c;
    Some (FLASH_API_OK, c).

(** The loop of [spi_flash_read_buf]: [n] bounds [numbytes]. *)
Fixpoint spi_read_loop (n : nat) (addr numbytes : Z) (c : C) : option (list Z * C) :=
  match n with
  | O => Some ([], c)
  | S n' =>
      if 0 <? numbytes then
        let maxread := if numbytes <? MAX_READ then numbytes else MAX_READ in
        let buf := FLASH_READ :: addr_bytes addr ++ replicate (Z.to_nat MAX_READ - 4) 0 in
        '(buf, c) ← spi_read buf 4 maxread c;
        c ← wait_ready c;
        d ← mem_read buf 0 maxread;
        '(rest, c) ← spi_read_loop n' (u32 (addr + maxread)) (numbytes - maxread) c;
        Some (d ++ rest, c)
      else Some ([], c)
  end.

(** The return code, the bytes stored in [buffer], the device. *)
Definition spi_flash_read_buf (sector offset numbytes : Z) (c : C) : option (Z * list Z * C) :=
  if undefined v then Some (FLASH_API_ERROR, [], c)
  else
    '(_, c) ← spi_flash_reset c;
    addr ← spi_get_flash_memptr FLASH_BASE (meminfo v) sector;
    '(d, c) ← spi_read_loop (Z.to_nat numbytes) (u32 (addr + offset)) numbytes c;
    Some (FLASH_API_OK, d, c).

(** ** Writing

    The pointer [pbuf] is an index into [buf]. *)

(** SST devices, one byte at a time: [n] bounds the rounds. *)
Fixpoint aai_byte_loop (n : nat) (dst : Z) (buf : list Z) (pbuf nbytes : Z) (c : C)
    : option (Z * C) :=
  if nbytes =? 0 then Some (pbuf, c)
  else match n with
  | O => None
  | S n' =>
      b ← buf !! Z.to_nat pbuf;
      let wbuf := if negb (pbuf =? 0) then [FLASH_AAI; b] else FLASH_AAI :: addr_bytes dst ++ [b] in
      c ← spi_write wbuf (zlen wbuf) c;
      c ← wait_ready c;
      aai_byte_loop n' dst buf (pbuf + 1) (nbytes - 1) c
  end.

(** SST devices, two bytes at a time. *)
Fixpoint aai_word_loop (n : nat) (dst : Z) (buf : list Z) (pbuf nbytes : Z) (c : C)
    : option (Z * C) :=
  if nbytes =? 0 then Some (pbuf, c)
  else match n with
  | O => None
  | S n' =>
      b0 ← buf !! Z.to_nat pbuf;
      b1 ← buf !! Z.to_nat (pbuf + 1);
      let wbuf := if negb (pbuf =? 0) then [FLASH_WORD_AAI; b0; b1]
                  else FLASH_WORD_AAI :: addr_bytes dst ++ [b0; b1] in
      c ← spi_write wbuf (zlen wbuf) c;
      c ← wait_ready c;
      aai_word_loop n' dst buf (pbuf + 2) (nbytes - 2) c
  end.

(** What fits in a message and in the page; the first comparison is unsigned. *)
Definition max_write (nbytes dst : Z) : Z :=
  let maxwrite := if u32 nbytes <? msgData - CMD_LEN_4 then nbytes else msgData - CMD_LEN_4 in
  let pagelimit := FLASH_PAGE_SIZE - Z.land dst 0xff in
  if maxwrite <? pagelimit then maxwrite else pagelimit.

(** [spi_flash_ub(sector)], a page program command, and the wait. *)
Definition program_page (dst : Z) (d : list Z) (c : C) : option C :=
  '(_, c) ← spi_flash_ub c;
  c ← spi_write (FLASH_PROG :: addr_bytes dst ++ d) (zlen d + CMD_LEN_4) c;
  wait_ready c.

Fixpoint page_loop (n : nat) (dst : Z) (buf : list Z) (pbuf nbytes : Z) (c : C)
    : option (Z * C) :=
  if 0 <? nbytes then
    match n with
    | O => None
    | S n' =>
        let maxwrite := max_write nbytes dst in
        d ← mem_read buf pbuf maxwrite;
        c ← program_page dst d c;
        page_loop n' (u32 (dst + maxwrite)) buf (pbuf + maxwrite) (nbytes - maxwrite) c
    end
  else Some (pbuf, c).

(** NexFlash devices, whole words: [tail] tells that [pbuf] points into the local
    array [btmp2], whose second byte is [btmp2_1] when it was read. *)
Fixpoint nx_loop (n : nat) (dst : Z) (btmp2_1 : option Z) (src : list Z) (tail : bool)
    (pbuf nbytes : Z) (c : C) : option (bool * Z * C) :=
  if nbytes =? 0 then Some (tail, pbuf, c)
  else match n with
  | O => None
  | S n' =>
      '(src, tail, pbuf, nbytes) ←
        (if nbytes =? 1 then
           b ← src !! Z.to_nat pbuf;
           t ← btmp2_1;
           Some ([b; t], true, 0, 2)
         else Some (src, tail, pbuf, nbytes));
      let maxwrite := max_write nbytes dst in
      let maxwrite := if Z.rem maxwrite 2 =? 1 then maxwrite - 1 else maxwrite in
      d ← mem_read src pbuf maxwrite;
      c ← program_page dst d c;
      nx_loop n' (u32 (dst + maxwrite)) btmp2_1 src tail (pbuf + maxwrite) (nbytes - maxwrite) c
  end.

(** [btmp2_buf] is the distance from [buf] to the local array [btmp2], which the
    layout of the stack decides. *)
Definition nx_write (btmp2_buf sector offset dst : Z) (buf : list Z) (c : C) : option (Z * C) :=
  let nbytes := zlen buf in
  let odd := Z.rem offset 2 =? 1 in
  '(btmp1, c) ← (if odd then
      '(_, d, c) ← spi_flash_read_buf sector (offset - 1) 1 c;
      b ← buf !! 0%nat;
      Some (d ++ [b], c)
    else Some ([], c));
  '(btmp2_1, c) ← (if (odd && (Z.rem nbytes 2 =? 0)) ||
                      ((Z.rem offset 2 =? 0) && (Z.rem nbytes 2 =? 1)) then
      '(_, d, c) ← spi_flash_read_buf sector (offset + nbytes) 1 c;
      Some (d !! 0%nat, c)
    else Some (None, c));
  '(pbuf, nbytes, dst, c) ← (if odd then
      let dst := u32 (dst - 1) in
      c ← program_page dst btmp1 c;
      Some (1, nbytes - 1, u32 (dst + 2), c)
    else Some (0, nbytes, dst, c));
  '(tail, pbuf, c) ← nx_loop (S (length buf)) dst btmp2_1 buf false pbuf nbytes c;
  Some (if (tail : bool) then s32 (btmp2_buf + pbuf) else pbuf, c).

Definition spi_flash_write (btmp2_buf sector offset : Z) (buf : list Z) (c : C) : option (Z * C) :=
  let nbytes := zlen buf in
  addr ← spi_get_flash_memptr FLASH_BASE (meminfo v) sector;
  let dst := u32 (addr + offset) in
  match flashFamily v with
  | FLASH_SST =>
      '(_, c) ← spi_flash_ub c;
      '(pbuf, c) ← (if negb (sstAaiWordProgram v)
                    then aai_byte_loop (length buf) dst buf 0 nbytes c
                    else aai_word_loop (length buf) dst buf 0 nbytes c);
      '(_, c) ← spi_flash_reset_ub c;
      c ← wait_ready c;
      Some (pbuf, c)
  | FLASH_ATMEL | FLASH_AMD | FLASH_SPAN | FLASH_KH =>
      page_loop (length buf) dst buf 0 nbytes c
  | FLASH_NX => nx_write btmp2_buf sector offset dst buf c
  | FLASH_UNDEFINED => Some (0, c)
  end.

Definition spi_flash_write_buf (btmp2_buf sector offset : Z) (buffer : list Z) (c : C)
    : option (Z * C) :=
  if undefined v then Some (FLASH_API_ERROR, c)
  else spi_flash_write btmp2_buf sector offset buffer c.

(** ** Identification *)

(** [*(unsigned short * ) &buf[0]] on a big-endian machine. *)
Definition buf_id (buf : list Z) : Z := 256 * buf !!! 0%nat + buf !!! 1%nat.

(** The inner loop: [accept] is a test of the bytes read, which do not change. *)
Fixpoint id_wait (j : nat) (accept : bool) (c : C) : option (bool * C) :=
  match j with
  | O => Some (false, c)
  | S j' =>
      '(s, c) ← spi_flash_status c;
      if (s =? STATUS_READY) && accept then Some (true, c) else id_wait j' accept c
  end.

(** One of the four probing loops: [cmd] is stored at the start of [buf] and sent. *)
Fixpoint id_probe (i : nat) (cmd : list Z) (nbytes : Z) (accept : list Z -> bool)
    (buf : list Z) (c : C) : option (bool * list Z * C) :=
  match i with
  | O => Some (false, buf, c)
  | S i' =>
      buf ← mem_write buf 0 cmd;
      '(buf, c) ← spi_read buf (zlen cmd) nbytes c;
      '(found, c) ← id_wait (MAX_RETRY * 10) (accept buf) c;
      if (found : bool) then Some (true, buf, c) else id_probe i' cmd nbytes accept buf c
  end.

Definition is_first (ids : list Z) (buf : list Z) : bool :=
  existsb (Z.eqb (buf !!! 0%nat)) ids.

Definition is_span (buf : list Z) : bool :=
  (buf !!! 0%nat =? SPANPART) && (buf !!! 1%nat =? SPANPART2).

(** [buf] holds [0] where the C array is not initialised; the first probe fills it. *)
Definition spi_flash_get_device_id (c : C) : option (Z * C) :=
  '(found, buf, c) ←
    id_probe MAX_RETRY [SST_FLASH_RDID; 0; 0; 0] 2 (is_first [SSTPART; NXPART; KHPART]) [0; 0; 0; 0] c;
  if (found : bool) then Some (buf_id buf, c)
  else
    '(_, c) ← spi_flash_reset c;
    '(found, buf, c) ← id_probe MAX_RETRY [ATMEL_FLASH_RDID] 2 (is_first [ATMELPART]) buf c;
    if (found : bool) then Some (buf_id buf, c)
    else
      '(_, c) ← spi_flash_reset c;
      '(found, buf, c) ← id_probe MAX_RETRY [SPAN_FLASH_RDID] 3 is_span buf c;
      if (found : bool) then Some (buf_id (<[1%nat := buf !!! 2%nat]> buf), c)
      else
        '(_, c) ← spi_flash_reset c;
        '(_, buf, c) ←
          id_probe MAX_RETRY [AMD_FLASH_RDID; 0; 0; 0] 2 (is_first [AMD_S25FL002D; STPART]) buf c;
        Some (buf_id buf, c).
End Operations.

(** ** Initialisation *)

(** The [switch] of [spi_flash_init]: family, number and size of the sectors (0 when
    the device is not listed) and whether words are programmed; [None] is the
    [default]. *)
Definition spi_part (device_id : Z) : option (spi_family * Z * Z * bool) :=
  let m := Z.shiftr device_id 8 in
  let d := Z.land device_id 0x00ff in
  if m =? ATMELPART then
    Some (if s8 d =? ID_AT25F512 then (FLASH_ATMEL, 2, SECTOR_SIZE_32K, false)
          else if s8 d =? ID_AT25F2048 then (FLASH_ATMEL, 4, SECTOR_SIZE_64K, false)
          else (FLASH_ATMEL, 0, 0, false))
  else if m =? SSTPART then
    Some (if d =? ID_SST25VF016B then (FLASH_SST, 512, SECTOR_SIZE_4K, true)
          else if d =? ID_SST25VF080 then (FLASH_SST, 256, SECTOR_SIZE_4K, false)
          else if d =? ID_SST25VF040 then (FLASH_SST, 128, SECTOR_SIZE_4K, false)
          else (FLASH_SST, 64, SECTOR_SIZE_4K, false))
  else if m =? KHPART then
    Some (FLASH_KH, if d =? ID_KH25L1605 then 512 else 0, SECTOR_SIZE_4K, false)
  else if m =? AMD_S25FL002D then Some (FLASH_AMD, 4, SECTOR_SIZE_64K, false)
  else if m =? NXPART then
    Some (FLASH_NX, if d =? ID_NX25P20 then 4 else if d =? ID_NX25P40 then 8
                    else if d =? ID_NXW25P16 then 32 else 0, SECTOR_SIZE_64K, false)
  else if m =? STPART then Some (FLASH_AMD, 8, SECTOR_SIZE_64K, false)
  else if m =? SPANPART then
    Some (FLASH_SPAN, if d =? ID_SPAN25FL032A then 64 else if d =? ID_SPAN25FL016A then 32
                      else if d =? ID_SPAN25FL008A then 16 else 8, SECTOR_SIZE_64K, false)
  else None.

(** The loop over the sector table. *)
Fixpoint spi_sectors (n : nat) (sectorsize basecount : Z) : list sector :=
  match n with
  | O => []
  | S n' => mkSector sectorsize basecount :: spi_sectors n' sectorsize (basecount + sectorsize)
  end.

(** [flash_spi_dev.flash_device_name], empty if the id is not in the list. *)
Definition spi_name (device_id : Z) : string :=
  match find (fun p => fst p =? device_id) SPI_FLASH_DEVICES with
  | Some (_, name) => name
  | None => ""%string
  end.

(** The return code, the variables, the id and name in [flash_spi_dev], the device;
    [None] includes the read of [meminfo.sec[-1]]. *)
Definition spi_flash_init (v : spi_vars) (c : C) : option (Z * spi_vars * Z * string * C) :=
  '(device_id, c) ← spi_flash_get_device_id v c;
  match spi_part device_id with
  | None =>
      Some (FLASH_API_ERROR,
        mkVars (mkInfo 1 [mkSector SECTOR_SIZE_4K 0] (totalSize (meminfo v))) (flashFamily v)
          (sstAaiWordProgram v), device_id, ""%string, c)
  | Some (family, numsector, sectorsize, word) =>
      let name_id := if Z.shiftr device_id 8 =? AMD_S25FL002D then Z.land device_id 0xff00
                     else device_id in
      let sec := spi_sectors (Z.to_nat numsector) sectorsize 0 in
      last ← last sec;
      Some (FLASH_API_OK,
        mkVars (mkInfo numsector sec (sec_base last + sec_size last)) family
          (if word then true else sstAaiWordProgram v), device_id, spi_name name_id, c)
  end.
End Driver.
