(* ===== verification/SpiChip.v ===== *)
(** * Serial flash devices

    The devices [spiflash.c] talks to, as far as the driver relies on them: the
    class [SpiChip] states what the data sheets say about the commands the driver
    sends, for any state [C] of the controller and the device, in terms of a view
    of that state; [SpiSim] is a device that satisfies it. *)

From S2P Require Import Prelude SectorMap FlashApi AmdChip SpiBus.

(** ** The view of a device *)

(** The contents, the write enable latch, the latch of [FLASH_EWSR], the block
    protection bits of the status register, the next address of an auto address
    increment program, and a bound of the status reads until the running operation
    is done.  The contents are those after the operation. *)
Record spi_view := mkView {
  v_mem : list Z;
  v_wel : bool;
  v_ewsr : bool;
  v_bp : Z;
  v_aai : option Z;
  v_busy : nat
}.

Definition set_busy (k : nat) (w : spi_view) : spi_view :=
  mkView (v_mem w) (v_wel w) (v_ewsr w) (v_bp w) (v_aai w) k.

Definition BP_BITS : Z := Z.lor (Z.lor SR_BP2 SR_BP1) SR_BP0.

(** The properties of a device that the driver knows from its id, and whether it has
    the command [FLASH_EWSR]. *)
Record spi_chip := mkChip {
  ch_family : spi_family;
  ch_word : bool;
  ch_sector : Z;
  ch_total : Z;
  ch_ewsr : bool
}.

(** Programming clears bits. *)
Definition prog_at (x : Z) (d mem : list Z) : list Z :=
  splice x (zip_with Z.land (slice x (zlen d) mem) d) mem.

Definition erase_at (x n : Z) (mem : list Z) : list Z :=
  splice x (replicate (Z.to_nat n) 0xff) mem.

(** ** The commands *)

Section Commands.
Context (p : spi_chip).

(** The place a command addresses; the device ignores the high bits. *)
Definition place (a2 a1 a0 : Z) : Z := (65536 * a2 + 256 * a1 + a0) mod ch_total p.

Definition unprotected (w : spi_view) : bool := Z.land (v_bp w) BP_BITS =? 0.

Definition writable (w : spi_view) : bool :=
  v_wel w && unprotected w && bool_decide (v_aai w = None).

Definition erase_op : Z :=
  match ch_family p with
  | FLASH_SST | FLASH_KH => 0x20
  | FLASH_ATMEL => 0x52
  | _ => 0xD8
  end.

(** A page program stays in its page; NexFlash devices program words. *)
Definition page_ok (x : Z) (d : list Z) : bool :=
  (0 <? zlen d) && (x mod 256 + zlen d <=? 256) && negb (bool_decide (ch_family p = FLASH_SST)) &&
  (negb (bool_decide (ch_family p = FLASH_NX)) || (Z.even x && Z.even (zlen d))).

(** Bytes programmed at [x] of an SST device, which goes on with the next. *)
Definition aai_step (x : Z) (d : list Z) (w : spi_view) : option (spi_view * bool) :=
  if bool_decide (ch_family p = FLASH_SST) && v_wel w && unprotected w && (x + zlen d <=? ch_total p)
  then Some (mkView (prog_at x d (v_mem w)) true (v_ewsr w) (v_bp w) (Some (x + zlen d)) 0, true)
  else None.

(** What a command does to an idle device, and whether it starts an operation that
    the status register reports; [None] where the driver does not rely on it. *)
Definition effect (msg : list Z) (w : spi_view) : option (spi_view * bool) :=
  match msg with
  | [op] =>
      if op =? FLASH_WREN then
        Some (mkView (v_mem w) true (v_ewsr w) (v_bp w) (v_aai w) 0, false)
      else if op =? FLASH_WRDI then
        Some (mkView (v_mem w) false (v_ewsr w) (v_bp w) None 0, false)
      else if op =? FLASH_EWSR then
        Some (mkView (v_mem w) (v_wel w) (v_ewsr w || ch_ewsr p) (v_bp w) (v_aai w) 0, false)
      else None
  | [op; b] =>
      if op =? FLASH_WRST then
        if v_wel w || v_ewsr w
        then Some (mkView (v_mem w) false false b (v_aai w) 0, true)
        else Some (w, false)
      else if (op =? FLASH_AAI) && negb (ch_word p) then
        x ← v_aai w; aai_step x [b] w
      else None
  | [op; b0; b1] =>
      if (op =? FLASH_WORD_AAI) && ch_word p then x ← v_aai w; aai_step x [b0; b1] w else None
  | op :: a2 :: a1 :: a0 :: d =>
      let x := place a2 a1 a0 in
      if (op =? erase_op) && bool_decide (d = []) then
        if writable w && (x mod ch_sector p =? 0) then
          Some (mkView (erase_at x (ch_sector p) (v_mem w)) false (v_ewsr w) (v_bp w) None 0, true)
        else None
      else if (op =? FLASH_PROG) && page_ok x d then
        if writable w then
          Some (mkView (prog_at x d (v_mem w)) false (v_ewsr w) (v_bp w) None 0, true)
        else None
      else if writable w && (((op =? FLASH_AAI) && negb (ch_word p) && (zlen d =? 1)) ||
                             ((op =? FLASH_WORD_AAI) && ch_word p && (zlen d =? 2) && Z.even x)) then
        aai_step x d w
      else None
  | _ => None
  end.

(** The commands that read an identification. *)
Definition is_rdid (op : Z) : bool :=
  existsb (Z.eqb op) [SST_FLASH_RDID; ATMEL_FLASH_RDID; SPAN_FLASH_RDID; AMD_FLASH_RDID].
End Commands.

(** [polls] bounds the status reads an operation takes; [chip_id] is what the device
    answers to the identification commands, those of other makers included. *)
Class SpiChip {C : Type} (xfer : list Z -> nat -> C -> list Z * C) (p : spi_chip) (polls : nat)
    (chip_id : Z -> nat -> list Z) (view : C -> spi_view) : Prop := {
  spi_id_length op n : length (chip_id op n) = n;
  spi_command c msg w :
    v_busy (view c) = 0%nat -> effect p msg (view c) = Some (w, false) ->
    view (snd (xfer msg 0%nat c)) = w;
  spi_start c msg w :
    v_busy (view c) = 0%nat -> effect p msg (view c) = Some (w, true) ->
    exists k, (k <= polls)%nat /\ view (snd (xfer msg 0%nat c)) = set_busy k w;
  spi_status_busy c k :
    v_busy (view c) = S k ->
    exists s m, fst (xfer [FLASH_RDSR] 1%nat c) = [s] /\ Z.land s SR_RDY <> 0 /\ (m <= k)%nat /\
      view (snd (xfer [FLASH_RDSR] 1%nat c)) = set_busy m (view c);
  spi_status_idle c :
    v_busy (view c) = 0%nat ->
    exists s, fst (xfer [FLASH_RDSR] 1%nat c) = [s] /\ Z.land s SR_RDY = 0 /\
      (Z.land s SR_WEN =? 0) = negb (v_wel (view c)) /\ Z.land s BP_BITS = Z.land (v_bp (view c)) BP_BITS /\
      view (snd (xfer [FLASH_RDSR] 1%nat c)) = view c;
  spi_array c a2 a1 a0 n :
    v_busy (view c) = 0%nat -> v_aai (view c) = None ->
    place p a2 a1 a0 + Z.of_nat n <= zlen (v_mem (view c)) ->
    fst (xfer [FLASH_READ; a2; a1; a0] n c) = slice (place p a2 a1 a0) (Z.of_nat n) (v_mem (view c)) /\
    view (snd (xfer [FLASH_READ; a2; a1; a0] n c)) = view c;
  spi_identify c op args n :
    v_busy (view c) = 0%nat -> v_aai (view c) = None -> is_rdid op = true ->
    args = [] \/ args = [0; 0; 0] ->
    fst (xfer (op :: args) n c) = chip_id op n /\ view (snd (xfer (op :: args) n c)) = view c
}.

(** ** A simulated device

    Every operation takes [lat] status reads; the state is the view. *)

Module SpiSim.
Section Sim.
Context (p : spi_chip) (lat : nat) (chip_id : Z -> nat -> list Z).
Context (Hid : forall op n, length (chip_id op n) = n).

Definition status (w : spi_view) : Z :=
  if (v_busy w =? 0)%nat then Z.lor (Z.land (v_bp w) BP_BITS) (if v_wel w then SR_WEN else 0)
  else Z.lor SR_WEN SR_RDY.

Definition xfer (msg : list Z) (n : nat) (w : spi_view) : list Z * spi_view :=
  match msg with
  | op :: args =>
      if op =? FLASH_RDSR then (replicate n (status w), set_busy (pred (v_busy w)) w)
      else if negb (v_busy w =? 0)%nat then (replicate n 0xff, w)
      else if is_rdid op then (chip_id op n, w)
      else if op =? FLASH_READ then
        match args with
        | [a2; a1; a0] => (slice (place p a2 a1 a0) (Z.of_nat n) (v_mem w), w)
        | _ => (replicate n 0xff, w)
        end
      else match effect p msg w with
           | Some (w', true) => (replicate n 0xff, set_busy lat w')
           | Some (w', false) => (replicate n 0xff, w')
           | None => (replicate n 0xff, w)
           end
  | [] => (replicate n 0xff, w)
  end.

Lemma view_idle w : v_busy w = 0%nat -> set_busy 0 w = w.
Proof. destruct w; cbn. by intros ->. Qed.

(** A command with an effect is none of those that read. *)
Lemma effect_op op args w r :
  effect p (op :: args) w = Some r ->
  (op =? FLASH_RDSR) = false /\ is_rdid op = false /\ (op =? FLASH_READ) = false.
Proof.
  unfold effect. intros E.
  destruct args as [|b [|b1 [|a0 d]]]; repeat case_match; try discriminate;
    repeat match goal with
    | H : _ && _ = true |- _ => apply andb_true_iff in H as [? ?]
    | H : _ || _ = true |- _ => apply orb_true_iff in H as [H|H]
    | H : (op =? _) = true |- _ => apply Z.eqb_eq in H; subst op
    end; try done; unfold erase_op; by destruct (ch_family p).
Qed.

Lemma status_idle w :
  v_busy w = 0%nat ->
  Z.land (status w) SR_RDY = 0 /\ (Z.land (status w) SR_WEN =? 0) = negb (v_wel w) /\
  Z.land (status w) BP_BITS = Z.land (v_bp w) BP_BITS.
Proof.
  intros Hb. unfold status. rewrite Hb. cbn [Nat.eqb].
  assert (E : forall m, Z.land (Z.lor (Z.land (v_bp w) BP_BITS) (if v_wel w then SR_WEN else 0)) m =
    Z.lor (Z.land (v_bp w) (Z.land BP_BITS m)) (Z.land (if v_wel w then SR_WEN else 0) m))
    by (intros m; by rewrite Z.land_lor_distr_l, Z.land_assoc).
  rewrite !E. change (Z.land BP_BITS SR_RDY) with 0. change (Z.land BP_BITS SR_WEN) with 0.
  change (Z.land BP_BITS BP_BITS) with BP_BITS. rewrite Z.land_0_r.
  destruct (v_wel w); split_and!; try done; apply Z.lor_0_r.
Qed.

#[export] Instance spi_sim : SpiChip xfer p lat chip_id (fun w => w).
Proof.
  constructor.
  - done.
  - intros c [|op args] w Hb E; [done|]. destruct (effect_op _ _ _ _ E) as (E1 & E2 & E3).
    unfold xfer. by rewrite E1, E2, E3, Hb, E.
  - intros c [|op args] w Hb E; [done|]. destruct (effect_op _ _ _ _ E) as (E1 & E2 & E3).
    exists lat. split; [done|]. unfold xfer. by rewrite E1, E2, E3, Hb, E.
  - intros c k Hb. exists (Z.lor SR_WEN SR_RDY), k. unfold xfer, status. cbn. by rewrite Hb.
  - intros c Hb. exists (status c). destruct (status_idle c Hb) as (H1 & H2 & H3).
    split_and!; try done. cbn. rewrite Hb. by apply view_idle.
  - intros c a2 a1 a0 n Hb Ha Hn. unfold xfer. by rewrite Hb.
  - intros c op args n Hb Ha Ho _. unfold xfer.
    assert ((op =? FLASH_RDSR) = false) as ->.
    { apply Z.eqb_neq. intros ->. discriminate. }
    by rewrite Hb, Ho.
Qed.
End Sim.
End SpiSim.
