(* ===== verification/SpiDriver.v ===== *)
(** * The serial flash driver implements the flash API

    [spiflash.c] on the devices of [SpiChip]: every command sequence of [SpiBus]
    does to the contents what the driver means, and the driver structure satisfies
    the contract of [FlashApi]. *)

From S2P Require Import Prelude SectorMap FlashApi AmdChip SpiBus SpiChip.

(** ** Helpers *)

Lemma set_busy_id w : v_busy w = 0%nat -> set_busy 0 w = w.
Proof. destruct w; cbn. by intros ->. Qed.

Lemma set_busy_twice k m w : set_busy k (set_busy m w) = set_busy k w.
Proof. done. Qed.

Lemma zlen_addr_bytes a : zlen (addr_bytes a) = 3.
Proof. done. Qed.

Lemma repeat_round_S {C} (round : C -> option (bool * C)) n c :
  (0 < n)%nat ->
  repeat_round round n c =
    '(leave, c) ← round c; if (leave : bool) then Some c else repeat_round round (pred n) c.
Proof. destruct n; [lia|done]. Qed.

(** The device finds the place of a CPU address in its address bytes. *)
Lemma place_addr p B x a2 a1 a0 :
  (ch_total p | 2 ^ 24) -> (ch_total p | B) -> 0 <= x < ch_total p ->
  addr_bytes (u32 (B + x)) = [a2; a1; a0] -> place p a2 a1 a0 = x.
Proof.
  intros [q Hq] [b Hb] Hx [= <- <- <-]. unfold place.
  assert (E : forall a, 0 <= a < 2 ^ 32 ->
    65536 * u8 (Z.shiftr (Z.land a 0xff0000) 16) + 256 * u8 (Z.shiftr (Z.land a 0xff00) 8) +
      u8 (Z.land a 0xff) = a mod 2 ^ 24).
  { intros a Ha.
    assert (E0 : Z.land a 0xff = a mod 256) by (change 0xff with (Z.ones 8); by rewrite Z.land_ones by lia).
    assert (E1 : Z.shiftr (Z.land a 0xff00) 8 = (a / 256) mod 256).
    { rewrite Z.shiftr_land. change (Z.shiftr 0xff00 8) with (Z.ones 8).
      rewrite Z.land_ones, Z.shiftr_div_pow2 by lia. done. }
    assert (E2 : Z.shiftr (Z.land a 0xff0000) 16 = (a / 65536) mod 256).
    { rewrite Z.shiftr_land. change (Z.shiftr 0xff0000 16) with (Z.ones 8).
      rewrite Z.land_ones, Z.shiftr_div_pow2 by lia. done. }
    rewrite E0, E1, E2. unfold u8. change (2 ^ 8) with 256. rewrite !Z.mod_mod by lia.
    change (2 ^ 24) with (256 * (256 * 256)). rewrite Z.rem_mul_r, (Z.rem_mul_r (a / 256)) by lia.
    rewrite Z.div_div by lia. change (256 * 256) with 65536. lia. }
  rewrite E by apply Z.mod_pos_bound, eq_refl. unfold u32.
  assert (Ht : 0 < ch_total p) by lia.
  rewrite Z.mod_mod_divide by (by exists q). rewrite Z.mod_mod_divide.
  - rewrite Hb, Z.add_comm, Z.mod_add by lia. by apply Z.mod_small.
  - exists (256 * q). change (2 ^ 32) with (256 * 2 ^ 24). lia.
Qed.

Lemma prog_at_nil x mem : prog_at x [] mem = mem.
Proof. unfold prog_at. cbn. rewrite zip_with_nil_r. apply splice_nil. Qed.

(** Programming in two steps. *)
Lemma prog_at_app x d1 d2 mem :
  0 <= x -> x + zlen d1 + zlen d2 <= zlen mem ->
  prog_at (x + zlen d1) d2 (prog_at x d1 mem) = prog_at x (d1 ++ d2) mem.
Proof.
  intros Hx Hl. pose proof (zlen_nonneg d1). pose proof (zlen_nonneg d2). unfold prog_at.
  assert (Hz : forall y d, 0 <= y -> y + zlen d <= zlen mem ->
    zlen (zip_with Z.land (slice y (zlen d) mem) d) = zlen d).
  { intros y d Hy Hd. pose proof (zlen_nonneg d). pose proof (zlen_slice y (zlen d) mem Hy) as E.
    unfold zlen in *. rewrite length_zip_with. lia. }
  rewrite slice_splice_after by (rewrite ?Hz; lia).
  rewrite splice_splice by (rewrite ?Hz; lia). f_equal. rewrite zlen_app, slice_app by lia.
  symmetry. apply zip_with_app. pose proof (zlen_slice x (zlen d1) mem). unfold zlen in *. lia.
Qed.

Lemma land_byte a b : is_u8 a -> is_u8 (Z.land a b).
Proof.
  intros Ha. rewrite <- (u8_id a Ha). unfold u8. rewrite <- Z.land_ones by lia.
  rewrite Z.land_comm, Z.land_assoc, Z.land_ones by lia.
  apply u8_range.
Qed.

Lemma zip_land_bytes l : forall d, Forall is_u8 l -> Forall is_u8 (zip_with Z.land l d).
Proof.
  induction l as [|a l IH]; intros [|b d] H; try done. apply Forall_cons in H as [Ha Hl].
  cbn. constructor; [by apply land_byte|auto].
Qed.

(** Programming inside a range. *)
Lemma prog_at_ok sizes x d mem :
  mem_ok sizes mem -> 0 <= x -> x + zlen d <= zlen mem ->
  mem_ok sizes (prog_at x d mem) /\ same_outside x (zlen d) mem (prog_at x d mem) /\
  slice x (zlen d) (prog_at x d mem) = zip_with Z.land (slice x (zlen d) mem) d.
Proof.
  intros [Hl Hb] Hx Hd. pose proof (zlen_nonneg d). unfold prog_at.
  assert (Hz : zlen (zip_with Z.land (slice x (zlen d) mem) d) = zlen d).
  { pose proof (zlen_slice x (zlen d) mem Hx) as E. unfold zlen in *. rewrite length_zip_with. lia. }
  split_and!.
  - split; [rewrite zlen_splice; lia|]. apply Forall_splice; [|done].
    by apply zip_land_bytes, Forall_slice.
  - apply same_outside_splice; lia.
  - rewrite <- Hz at 1. apply slice_splice_eq; lia.
Qed.

Lemma erase_at_ok sizes x n mem :
  mem_ok sizes mem -> 0 <= x -> 0 <= n -> x + n <= zlen mem ->
  mem_ok sizes (erase_at x n mem) /\ same_outside x n mem (erase_at x n mem) /\
  slice x n (erase_at x n mem) = replicate (Z.to_nat n) 0xff.
Proof.
  intros [Hl Hb] Hx Hn Hd. unfold erase_at.
  assert (Hz : zlen (replicate (Z.to_nat n) 0xff) = n) by (rewrite zlen_replicate; lia).
  split_and!.
  - split; [rewrite zlen_splice; lia|]. apply Forall_splice; [by apply Forall_replicate|done].
  - apply same_outside_splice; lia.
  - rewrite <- Hz at 1. apply slice_splice_eq; lia.
Qed.

Lemma slice_head {A} (l : list A) o n b :
  l !! Z.to_nat o = Some b -> 0 <= o -> 0 < n -> slice o n l = b :: slice (o + 1) (n - 1) l.
Proof.
  intros Hb Ho Hn. unfold slice. rewrite (drop_S _ b) by done.
  replace (Z.to_nat n) with (S (Z.to_nat (n - 1))) by lia. cbn [take].
  do 3 f_equal. lia.
Qed.

Lemma rem2_even x : 0 <= x -> Z.even x = true -> (Z.rem x 2 =? 1) = false /\ (Z.rem x 2 =? 0) = true.
Proof.
  intros Hx He. rewrite Z.rem_mod_nonneg by lia. by rewrite Zmod_odd, <- Z.negb_even, He.
Qed.

(** The low byte of a CPU address is that of the place. *)
Lemma low_byte B x : (256 | B) -> Z.land (u32 (B + x)) 0xff = x mod 256.
Proof.
  intros [b ->]. change 0xff with (Z.ones 8). rewrite Z.land_ones by lia. unfold u32.
  rewrite Z.mod_mod_divide by (by exists (2 ^ 24)).
  by rewrite Z.add_comm, Z.mod_add by lia.
Qed.

(** ** Commands on a device of the class *)

(** The variables of the driver describe the device. *)
Definition describes (v : spi_vars) (p : spi_chip) (FLASH_BASE : Z) (sizes : list Z) : Prop :=
  flashFamily v = ch_family p /\ flashFamily v <> FLASH_UNDEFINED /\
  sstAaiWordProgram v = ch_word p /\ flash_map (meminfo v) sizes /\
  Forall (fun n => n = ch_sector p) sizes /\ ch_total p = zsum sizes /\ (256 | ch_sector p) /\
  (ch_total p | 2 ^ 24) /\ (ch_total p | FLASH_BASE).

Section Spi.
Context {C : Type} {xfer : list Z -> nat -> C -> list Z * C} {FLASH_BASE msgData rxFifo : Z}.
Context {fuel polls : nat} {chip_id : Z -> nat -> list Z} {view : C -> spi_view}.
Context {p : spi_chip} {v : spi_vars} {sizes : list Z}.
Context {HC : SpiChip xfer p polls chip_id view}.
Context (Hv : describes v p FLASH_BASE sizes).
Context (Hmsg : 8 <= msgData) (Hrx : 60 <= rxFifo).

Local Abbreviation send := (spi_write xfer msgData).
Local Abbreviation receive := (spi_read xfer msgData rxFifo).
Local Abbreviation rdsr := (read_status xfer msgData rxFifo).
Local Abbreviation wait := (wait_ready xfer msgData rxFifo fuel).

Lemma receive_eq buf n m c :
  0 <= n -> 0 <= m -> n <= zlen buf -> n <= msgData -> m <= rxFifo -> 
  length (fst (xfer (slice 0 n buf) (Z.to_nat m) c)) = Z.to_nat m -> m <= zlen buf ->
  receive buf n m c =
    Some (splice 0 (fst (xfer (slice 0 n buf) (Z.to_nat m) c)) buf,
          snd (xfer (slice 0 n buf) (Z.to_nat m) c)).
Proof.
  intros. unfold spi_read. rewrite mem_read_Some by lia. cbn [mbind option_bind].
  destruct (xfer _ _ c) as [rx c'] eqn:E. cbn [fst snd] in *.
  assert ((n <=? msgData) && (m <=? rxFifo) = true) as -> by ztest.
  by rewrite mem_write_Some by (unfold zlen in *; lia).
Qed.

Lemma rdsr_eq s c : fst (xfer [FLASH_RDSR] 1%nat c) = [s] -> rdsr c = Some (s, snd (xfer [FLASH_RDSR] 1%nat c)).
Proof.
  intros E. unfold read_status. rewrite receive_eq; change (slice 0 1 [FLASH_RDSR; 0; 0; 0]) with [FLASH_RDSR];
    change (Z.to_nat 1) with 1%nat; rewrite ?E; try done; cbn; lia.
Qed.

Lemma spi_status_ok r : forall c,
  exists s c' k, status_loop xfer msgData rxFifo r c = Some (s, c') /\
    view c' = set_busy k (view c) /\
    ((s = STATUS_READY /\ k = 0%nat) \/
     (s = STATUS_TIMEOUT /\ (k < v_busy (view c))%nat)) /\
    (v_busy (view c) = 0%nat -> s = STATUS_READY).
Proof.
  induction r as [|r IH]; intros c; cbn [status_loop]; destruct (v_busy (view c)) as [|b] eqn:Hb.
  1, 3: destruct (spi_status_idle (SpiChip := HC) c Hb) as (s & E & H1 & _ & _ & H4);
    rewrite (rdsr_eq s) by done; cbn [mbind option_bind]; rewrite H1, Z.eqb_refl;
    exists STATUS_READY, (snd (xfer [FLASH_RDSR] 1%nat c)), 0%nat;
    rewrite H4; rewrite set_busy_id by done; split_and!; auto.
  all: destruct (spi_status_busy (SpiChip := HC) c b Hb) as (s & m & E & H1 & H2 & H3);
    rewrite (rdsr_eq s) by done; cbn [mbind option_bind]; apply Z.eqb_neq in H1; rewrite H1.
  - exists STATUS_TIMEOUT, (snd (xfer [FLASH_RDSR] 1%nat c)), m. rewrite H3. split_and!; auto with lia.
  - destruct (IH (snd (xfer [FLASH_RDSR] 1%nat c))) as (s' & c' & k & -> & Hw & Hk & _).
    exists s', c', k. rewrite H3 in Hw, Hk. cbn [set_busy v_busy] in Hk. split_and!; auto with lia.
Qed.

Lemma wait_loop_ok n : forall c,
  (v_busy (view c) < n)%nat ->
  exists c', wait_loop xfer msgData rxFifo n c = Some c' /\ view c' = set_busy 0 (view c).
Proof.
  induction n as [|n IH]; intros c Hb; [lia|]. cbn [wait_loop]. unfold spi_flash_status.
  destruct (spi_status_ok 10 c) as (s & c' & k & -> & Hw & Hk & _). cbn [mbind option_bind].
  destruct Hk as [[-> ->]|[-> Hk]].
  - rewrite Z.eqb_refl. eauto.
  - destruct (IH c') as (c2 & E & Hc2); [rewrite Hw; cbn; lia|].
    exists c2. cbn. rewrite E, Hc2, Hw. done.
Qed.

Context (Hfuel : (polls < fuel)%nat).

(** Waiting for the end of an operation. *)
Lemma spi_wait_ok c :
  (v_busy (view c) <= polls)%nat -> exists c', wait c = Some c' /\ view c' = set_busy 0 (view c).
Proof. intros Hb. apply wait_loop_ok. lia. Qed.

Lemma wait_idle c : v_busy (view c) = 0%nat -> exists c', wait c = Some c' /\ view c' = view c.
Proof.
  intros Hb. destruct (spi_wait_ok c) as (c' & E & Hc); [lia|]. exists c'. by rewrite Hc, set_busy_id.
Qed.

(** A command without an operation. *)
Lemma send_plain buf n w c :
  0 <= n -> n <= zlen buf -> n <= msgData -> v_busy (view c) = 0%nat ->
  effect p (slice 0 n buf) (view c) = Some (w, false) ->
  exists c', send buf n c = Some c' /\ view c' = w.
Proof.
  intros H0 H1 H2 Hb E. unfold spi_write. rewrite mem_read_Some by lia. cbn [mbind option_bind].
  rewrite (proj2 (Z.leb_le _ _) H2). eexists. split; [done|]. by apply (spi_command (SpiChip := HC)).
Qed.

(** A command, and the wait behind it. *)
Lemma send_wait buf n w op c :
  0 <= n -> n <= zlen buf -> n <= msgData -> v_busy (view c) = 0%nat -> v_busy w = 0%nat ->
  effect p (slice 0 n buf) (view c) = Some (w, op) ->
  exists c1 c2, send buf n c = Some c1 /\ wait c1 = Some c2 /\ view c2 = w.
Proof.
  intros H0 H1 H2 Hb Hw E. destruct op.
  - unfold spi_write. rewrite mem_read_Some by lia. cbn [mbind option_bind].
    rewrite (proj2 (Z.leb_le _ _) H2).
    destruct (spi_start (SpiChip := HC) c _ w Hb E) as (k & Hk & Hc).
    destruct (spi_wait_ok (snd (xfer (slice 0 n buf) 0%nat c))) as (c2 & E2 & Hc2); [by rewrite Hc|].
    do 2 eexists. split; [done|]. split; [done|]. rewrite Hc2, Hc. by destruct w; cbn in *; subst.
  - destruct (send_plain buf n w c) as (c1 & E1 & Hc1); [done..|].
    destruct (wait_idle c1) as (c2 & E2 & Hc2); [by rewrite Hc1|].
    exists c1, c2. by rewrite Hc2.
Qed.

(** ** Latches and protection *)

Local Abbreviation reset_ub := (spi_flash_reset_ub xfer msgData rxFifo fuel v).
Local Abbreviation reset := (spi_flash_reset xfer msgData rxFifo fuel v).
Local Abbreviation ub := (spi_flash_ub xfer msgData rxFifo fuel v).

(** An idle device that is not in the middle of a status write. *)
Definition idle (mem : list Z) (wel : bool) (bp : Z) (aai : option Z) : spi_view :=
  mkView mem wel false bp aai 0.

Lemma defined : undefined v = false.
Proof. destruct Hv as (_ & H & _). by apply bool_decide_eq_false. Qed.

Lemma reset_ub_ok mem wel bp aai c :
  view c = idle mem wel bp aai ->
  exists c', reset_ub c = Some (FLASH_API_OK, c') /\ view c' = idle mem false bp None.
Proof.
  intros Hc. unfold spi_flash_reset_ub. rewrite defined.
  destruct (send_wait [FLASH_WRDI; 0; 0; 0] 1 (idle mem false bp None) false c)
    as (c1 & c2 & -> & E2 & Hc2); try (by rewrite ?Hc); [lia|].
  cbn [mbind option_bind]. rewrite E2. by exists c2.
Qed.

Lemma reset_ok mem wel bp aai c :
  view c = idle mem wel bp aai ->
  exists c', reset c = Some (FLASH_API_OK, c') /\ view c' = idle mem false bp None.
Proof.
  intros Hc. unfold spi_flash_reset. rewrite defined.
  destruct (reset_ub_ok _ _ _ _ c Hc) as (c1 & -> & Hc1). cbn [mbind option_bind].
  destruct (wait_idle c1) as (c2 & -> & Hc2); [by rewrite Hc1|].
  exists c2. split; [done|]. congruence.
Qed.

Lemma read_status_ok c :
  v_busy (view c) = 0%nat ->
  exists s c1 c2, rdsr c = Some (s, c1) /\ wait c1 = Some c2 /\ view c2 = view c /\
    (Z.land s SR_WEN =? 0) = negb (v_wel (view c)) /\
    Z.land s BP_BITS = Z.land (v_bp (view c)) BP_BITS.
Proof.
  intros Hb. destruct (spi_status_idle (SpiChip := HC) c Hb) as (s & E & _ & H2 & H3 & H4).
  destruct (wait_idle (snd (xfer [FLASH_RDSR] 1%nat c))) as (c2 & E2 & Hc2); [by rewrite H4|].
  exists s, (snd (xfer [FLASH_RDSR] 1%nat c)), c2. rewrite (rdsr_eq s) by done.
  split_and!; try done. congruence.
Qed.

(** The devices whose protection the driver can clear. *)
Definition unlocks : bool :=
  match ch_family p with
  | FLASH_SST | FLASH_KH => ch_ewsr p
  | FLASH_SPAN => true
  | _ => false
  end.

Lemma write_status_ok mem wel bp c :
  view c = idle mem wel bp None -> unlocks = true ->
  exists c', spi_flash_write_status xfer msgData rxFifo fuel v (u8 (Z.lnot PROTECTION)) c =
      Some (FLASH_API_OK, c') /\ view c' = idle mem false 0 None.
Proof.
  intros Hc Hu. unfold spi_flash_write_status. rewrite defined.
  assert (exists c1, (match flashFamily v with
     | FLASH_SST | FLASH_KH => send [FLASH_EWSR; 0; 0; 0] 1 c
     | FLASH_SPAN => send [FLASH_WREN; 0; 0; 0] 1 c
     | _ => Some c
     end) = Some c1 /\ exists wel' e, view c1 = mkView mem wel' e bp None 0 /\ wel' || e = true)
    as (c1 & -> & wel' & e & Hc1 & Hl).
  { destruct (Hv) as (Hf & _). unfold unlocks in Hu. rewrite Hf. destruct (ch_family p); try done.
    - destruct (send_plain [FLASH_EWSR; 0; 0; 0] 1 (mkView mem wel (ch_ewsr p) bp None 0) c) as (c1 & E1 & Hc1);
        try (by rewrite ?Hc); [lia|].
      exists c1. split; [done|]. do 2 eexists. split; [done|]. rewrite Hu. apply orb_true_r.
    - destruct (send_plain [FLASH_WREN; 0; 0; 0] 1 (idle mem true bp None) c) as (c1 & E1 & Hc1);
        try (by rewrite ?Hc); [lia|].
      exists c1. split; [done|]. by do 2 eexists.
    - destruct (send_plain [FLASH_EWSR; 0; 0; 0] 1 (mkView mem wel (ch_ewsr p) bp None 0) c) as (c1 & E1 & Hc1);
        try (by rewrite ?Hc); [lia|].
      exists c1. split; [done|]. do 2 eexists. split; [done|]. rewrite Hu. apply orb_true_r. }
  cbn [mbind option_bind]. change (Z.land (u8 (Z.lnot PROTECTION)) PROTECTION) with 0.
  destruct (send_wait [FLASH_WRST; 0; 0; 0] 2 (idle mem false 0 None) true c1)
    as (c2 & c3 & -> & E3 & Hc3); try (by rewrite ?Hc1).
  { lia. }
  { rewrite Hc1. change (slice 0 2 [FLASH_WRST; 0; 0; 0]) with [FLASH_WRST; 0].
    unfold effect. cbn [v_wel v_ewsr]. by rewrite Hl. }
  cbn [mbind option_bind]. rewrite E3. by exists c3.
Qed.

(** On the other devices the status write has no effect. *)
Lemma write_status_ignored mem bp c status :
  view c = idle mem false bp None -> unlocks = false ->
  exists c', spi_flash_write_status xfer msgData rxFifo fuel v status c = Some (FLASH_API_OK, c') /\
    view c' = view c.
Proof.
  intros Hc Hu. unfold spi_flash_write_status. rewrite defined.
  assert (exists c1, (match flashFamily v with
     | FLASH_SST | FLASH_KH => send [FLASH_EWSR; 0; 0; 0] 1 c
     | FLASH_SPAN => send [FLASH_WREN; 0; 0; 0] 1 c
     | _ => Some c
     end) = Some c1 /\ view c1 = view c) as (c1 & -> & Hc1).
  { destruct (Hv) as (Hf & _). unfold unlocks in Hu. rewrite Hf.
    assert (exists c1, send [FLASH_EWSR; 0; 0; 0] 1 c = Some c1 /\
      view c1 = mkView mem false (ch_ewsr p) bp None 0) as (c1 & E1 & Hc1)
      by (apply send_plain; try (by rewrite ?Hc); lia).
    destruct (ch_family p); try discriminate; eauto; exists c1; by rewrite Hc1, Hc, Hu. }
  cbn [mbind option_bind].
  destruct (send_wait [FLASH_WRST; Z.land status PROTECTION; 0; 0] 2 (view c) false c1)
    as (c2 & c3 & -> & E3 & Hc3); try (by rewrite ?Hc1, ?Hc); [lia|].
  cbn [mbind option_bind]. rewrite E3. by exists c3.
Qed.

Local Abbreviation round := (unprotect_round xfer msgData rxFifo fuel v).

(** The three outcomes of a round of the unprotect loop. *)
Lemma round_done mem wel bp c :
  view c = idle mem wel bp None -> Z.land bp BP_BITS = 0 ->
  exists c', round c = Some (true, c') /\ view c' = view c.
Proof.
  intros Hc Hbp. destruct (read_status_ok c) as (s & c1 & c2 & E1 & E2 & Hc2 & _ & Hs); [by rewrite Hc|].
  rewrite Hc in Hs. cbn in Hs. unfold unprotect_round. rewrite E1. cbn [mbind option_bind]. rewrite E2.
  cbn [mbind option_bind]. fold BP_BITS. rewrite Hs, Hbp. by exists c2.
Qed.

Lemma round_protected mem wel bp c :
  view c = idle mem wel bp None -> Z.land bp BP_BITS <> 0 ->
  exists c1, view c1 = view c /\ round c =
    '(_, c) ← spi_flash_write_status xfer msgData rxFifo fuel v (u8 (Z.lnot PROTECTION)) c1;
    Some (false, c).
Proof.
  intros Hc Hbp. destruct (read_status_ok c) as (s & c1 & c2 & E1 & E2 & Hc2 & _ & Hs); [by rewrite Hc|].
  rewrite Hc in Hs. cbn in Hs. unfold unprotect_round. rewrite E1. cbn [mbind option_bind]. rewrite E2.
  cbn [mbind option_bind]. fold BP_BITS. rewrite Hs. apply Z.eqb_neq in Hbp. rewrite Hbp. by exists c2.
Qed.

Lemma round_stuck mem bp c :
  view c = idle mem false bp None -> Z.land bp BP_BITS <> 0 -> unlocks = false ->
  exists c', round c = Some (false, c') /\ view c' = view c.
Proof.
  intros Hc Hbp Hu. destruct (round_protected _ _ _ c Hc Hbp) as (c1 & Hc1 & ->).
  destruct (write_status_ignored mem bp c1 (u8 (Z.lnot PROTECTION))) as (c2 & -> & Hc2); [congruence|done|].
  exists c2. split; [done|]. congruence.
Qed.

Context (Hfuel2 : (2 <= fuel)%nat).

(** [spi_flash_ub]: the device accepts a write afterwards. *)
Lemma ub_ok mem wel bp c :
  view c = idle mem wel bp None -> Z.land bp BP_BITS = 0 \/ unlocks = true ->
  exists c' bp', ub c = Some (FLASH_API_OK, c') /\ view c' = idle mem true bp' None /\
    Z.land bp' BP_BITS = 0.
Proof.
  intros Hc Hbp. unfold spi_flash_ub.
  assert (exists c1 wel' bp', repeat_round round fuel c = Some c1 /\
    view c1 = idle mem wel' bp' None /\ Z.land bp' BP_BITS = 0) as (c1 & wel' & bp' & -> & Hc1 & Hbp').
  { rewrite repeat_round_S by lia. destruct (Z.eq_dec (Z.land bp BP_BITS) 0) as [E|E].
    - destruct (round_done _ _ _ c Hc E) as (c1 & -> & Hc1). exists c1, wel, bp. by rewrite Hc1.
    - destruct (round_protected _ _ _ c Hc E) as (c1 & Hc1 & ->). rewrite Hc in Hc1.
      destruct (write_status_ok mem wel bp c1 Hc1) as (c2 & -> & Hc2); [tauto|].
      cbn [mbind option_bind]. rewrite repeat_round_S by lia.
      destruct (round_done _ _ _ c2 Hc2 eq_refl) as (c3 & -> & Hc3). exists c3, false, 0. by rewrite Hc3. }
  cbn [mbind option_bind].
  destruct (send_wait [FLASH_WREN; 0; 0; 0] 1 (idle mem true bp' None) false c1)
    as (c2 & c3 & -> & E3 & Hc3); try (by rewrite ?Hc1); [lia|].
  cbn [mbind option_bind]. rewrite E3. cbn [mbind option_bind].
  rewrite repeat_round_S by lia.
  destruct (read_status_ok c3) as (s & c4 & c5 & E4 & E5 & Hc5 & Hs & _); [by rewrite Hc3|].
  unfold enabled_round. rewrite E4. cbn [mbind option_bind]. rewrite E5. cbn [mbind option_bind].
  rewrite Hs, Hc3. exists c5, bp'. split; [done|]. split; [congruence|done].
Qed.

(** ** Geometry *)

Lemma spi_sector_dims (k : nat) n :
  sizes !! k = Some n ->
  n = ch_sector p /\ 0 < n /\ (256 | n) /\ 0 <= sbase sizes (Z.of_nat k) /\
  sbase sizes (Z.of_nat k) + n <= ch_total p /\ (n | sbase sizes (Z.of_nat k)) /\
  spi_get_flash_memptr FLASH_BASE (meminfo v) (Z.of_nat k) =
    Some (u32 (FLASH_BASE + sbase sizes (Z.of_nat k))).
Proof.
  intros Hk. destruct Hv as (_ & _ & _ & Hm & Hs & Ht & H256 & _).
  pose proof (Forall_lookup_1 _ _ _ _ Hs Hk) as Hn. cbn in Hn.
  destruct (Hm) as (Hd & Hsec & _). destruct (size_lookup _ _ _ Hd Hk) as (H1 & H2 & H3).
  rewrite Ht. split_and!; try done; [by rewrite Hn| |].
  - unfold sbase. rewrite Nat2Z.id. subst n. clear - Hs. revert k.
    induction Hs as [|x l Hx Hs IH]; intros [|k]; cbn [take]; rewrite ?zsum_cons;
      try apply Z.divide_0_r. subst x. apply Z.divide_add_r; [apply Z.divide_refl|apply IH].
  - destruct Hd as (_ & Hlen & _). pose proof (lookup_lt_Some _ _ _ Hk).
    unfold spi_get_flash_memptr, sec_at, zlen, MAXSECTORS in *.
    rewrite u16_id by (unfold is_u16; lia). ztest. cbn. rewrite Nat2Z.id, Hsec, (layout_lookup _ _ _ n) by done.
    cbn. unfold sbase. by rewrite Nat2Z.id.
Qed.

(** The address bytes of a place. *)
Lemma addr_place x :
  0 <= x < ch_total p ->
  exists a2 a1 a0, addr_bytes (u32 (FLASH_BASE + x)) = [a2; a1; a0] /\ place p a2 a1 a0 = x.
Proof.
  intros Hx. destruct Hv as (_ & _ & _ & _ & _ & _ & _ & H24 & Hb).
  do 3 eexists. split; [done|]. by eapply place_addr.
Qed.

(** ** Erasing and reading *)

Definition at_rest (mem : list Z) (c : C) : Prop :=
  mem_ok sizes mem /\
  exists wel bp, view c = idle mem wel bp None /\ (Z.land bp BP_BITS = 0 \/ unlocks = true).

Lemma erase_command_ok : erase_command v = Some (erase_op p).
Proof.
  destruct Hv as (Hf & Hd & _). unfold erase_command, erase_op. rewrite Hf in *.
  by destruct (ch_family p).
Qed.

Lemma erase_ok (k : nat) n mem c :
  sizes !! k = Some n -> at_rest mem c ->
  exists c', spi_flash_sector_erase_int xfer FLASH_BASE msgData rxFifo fuel v (Z.of_nat k) c =
      Some (FLASH_API_OK, c') /\ at_rest (erase_at (sbase sizes (Z.of_nat k)) n mem) c'.
Proof.
  intros Hk (Hm & wel & bp & Hc & Hbp).
  destruct (spi_sector_dims k n Hk) as (Hn & Hn0 & H256 & Hb0 & Hb1 & Hdiv & Hptr).
  unfold spi_flash_sector_erase_int. rewrite defined.
  destruct (reset_ok _ _ _ _ c Hc) as (c1 & -> & Hc1). cbn [mbind option_bind].
  destruct (ub_ok _ _ _ c1 Hc1 Hbp) as (c2 & bp2 & -> & Hc2 & Hbp2). cbn [mbind option_bind].
  rewrite erase_command_ok, Hptr. cbn [mbind option_bind].
  destruct (addr_place (sbase sizes (Z.of_nat k))) as (a2 & a1 & a0 & Ea & Hp); [lia|]. rewrite Ea.
  destruct (send_wait [erase_op p; a2; a1; a0] 4
    (idle (erase_at (sbase sizes (Z.of_nat k)) n mem) false bp2 None) true c2)
    as (c3 & c4 & -> & E4 & Hc4); try done; [lia|by rewrite Hc2| |].
  - change (slice 0 4 [erase_op p; a2; a1; a0]) with [erase_op p; a2; a1; a0].
    rewrite Hc2. unfold effect, writable, unprotected. cbn [v_wel v_bp v_aai idle].
    rewrite Hp, Z.eqb_refl, Hbp2. change (bool_decide ([] = [])) with true. cbn [andb].
    rewrite <- Hn, (proj2 (Z.mod_divide _ n ltac:(lia)) Hdiv). done.
  - cbn [mbind option_bind]. rewrite E4. exists c4. split; [done|]. split.
    + destruct Hv as (_ & _ & _ & _ & _ & Ht & _). apply erase_at_ok; try done; [lia|].
      destruct Hm as [-> _]. lia.
    + exists false, bp2. auto.
Qed.

(** The chunks of a read, from place [x] on. *)
Lemma read_loop_ok mem wel bp n : forall x numbytes c,
  view c = idle mem wel bp None -> zlen mem = ch_total p -> 0 <= x -> 0 <= numbytes <= Z.of_nat n ->
  x + numbytes <= ch_total p ->
  exists c', spi_read_loop xfer msgData rxFifo fuel n (u32 (FLASH_BASE + x)) numbytes c =
      Some (slice x numbytes mem, c') /\ view c' = view c.
Proof.
  induction n as [|n IH]; intros x numbytes c Hc Hl Hx Hn Ht; cbn [spi_read_loop].
  { assert (numbytes = 0) as -> by lia. by exists c. }
  destruct (Z.ltb_spec 0 numbytes); [|assert (numbytes = 0) as -> by lia; by exists c].
  set (m := if numbytes <? MAX_READ then numbytes else MAX_READ).
  assert (Hm : 0 < m <= 60 /\ m <= numbytes) by (unfold m, MAX_READ; ztest). clearbody m.
  destruct (addr_place x) as (a2 & a1 & a0 & Ea & Hp); [lia|]. rewrite Ea.
  set (buf := FLASH_READ :: [a2; a1; a0] ++ replicate (Z.to_nat MAX_READ - 4) 0).
  assert (Hbuf : zlen buf = 60) by done. assert (Hs : slice 0 4 buf = [FLASH_READ; a2; a1; a0]) by done.
  clearbody buf.
  destruct (spi_array (SpiChip := HC) c a2 a1 a0 (Z.to_nat m)) as [Hr Hc'];
    [by rewrite Hc|by rewrite Hc|rewrite Hp, Hc; cbn [v_mem idle]; lia|].
  rewrite Hp, Hc, Z2Nat.id in Hr by lia. cbn [v_mem idle] in Hr.
  assert (Hlr : zlen (slice x m mem) = m) by (apply zlen_slice; lia).
  rewrite receive_eq; rewrite ?Hs, ?Hr; try lia; [|unfold zlen in Hlr; lia].
  cbn [mbind option_bind].
  destruct (wait_idle (snd (xfer [FLASH_READ; a2; a1; a0] (Z.to_nat m) c))) as (c2 & -> & Hc2);
    [by rewrite Hc', Hc|]. cbn [mbind option_bind].
  rewrite mem_read_Some by (rewrite ?zlen_splice, ?Hbuf; lia). cbn [mbind option_bind].
  assert (Hback : slice 0 m (splice 0 (slice x m mem) buf) = slice x m mem).
  { pose proof (slice_splice_eq 0 (slice x m mem) buf) as Hq. rewrite Hlr in Hq. apply Hq; lia. }
  rewrite Hback, u32_add_l, <- Z.add_assoc.
  destruct (IH (x + m) (numbytes - m) c2) as (c3 & -> & Hc3); [congruence|lia..|].
  cbn [mbind option_bind]. exists c3. split; [|congruence]. do 2 f_equal.
  replace numbytes with (m + (numbytes - m)) at 2 by lia. by rewrite slice_app by lia.
Qed.

Lemma spi_read_buf_ok (k : nat) n off len mem c :
  sizes !! k = Some n -> at_rest mem c -> 0 <= off -> 0 <= len -> off + len <= n ->
  exists c', spi_flash_read_buf xfer FLASH_BASE msgData rxFifo fuel v (Z.of_nat k) off len c =
      Some (FLASH_API_OK, slice (sbase sizes (Z.of_nat k) + off) len mem, c') /\ at_rest mem c'.
Proof.
  intros Hk (Hm & wel & bp & Hc & Hbp) Ho Hl Hn.
  destruct (spi_sector_dims k n Hk) as (_ & _ & _ & Hb0 & Hb1 & _ & Hptr).
  unfold spi_flash_read_buf. rewrite defined.
  destruct (reset_ok _ _ _ _ c Hc) as (c1 & -> & Hc1). cbn [mbind option_bind]. rewrite Hptr.
  cbn [mbind option_bind]. rewrite u32_add_l, <- Z.add_assoc.
  assert (Ht : zlen mem = ch_total p)
    by (destruct Hm as [-> _]; destruct Hv as (_ & _ & _ & _ & _ & -> & _); done).
  destruct (read_loop_ok mem false bp (Z.to_nat len) (sbase sizes (Z.of_nat k) + off) len c1)
    as (c2 & -> & Hc2); [done|done|lia..|].
  cbn [mbind option_bind]. exists c2. split; [done|]. split; [done|]. exists false, bp.
  by rewrite Hc2.
Qed.

(** ** Programming *)

Local Abbreviation program := (program_page xfer msgData rxFifo fuel v).

Lemma program_ok x d mem c :
  at_rest mem c -> 0 <= x -> x + zlen d <= ch_total p -> page_ok p x d = true ->
  zlen d + 4 <= msgData ->
  exists c', program (u32 (FLASH_BASE + x)) d c = Some c' /\ at_rest (prog_at x d mem) c'.
Proof.
  intros (Hm & wel & bp & Hc & Hbp) Hx Hd Hpg Hl. unfold program_page.
  assert (H0 : 0 < zlen d) by (revert Hpg; unfold page_ok; destruct (Z.ltb_spec 0 (zlen d)); done).
  destruct (ub_ok _ _ _ c Hc Hbp) as (c1 & bp1 & -> & Hc1 & Hbp1). cbn [mbind option_bind].
  destruct (addr_place x) as (a2 & a1 & a0 & Ea & Hp); [lia|]. rewrite Ea. unfold CMD_LEN_4.
  assert (Hz : zlen (FLASH_PROG :: [a2; a1; a0] ++ d) = zlen d + 4)
    by (cbn [app]; rewrite !zlen_cons; lia).
  destruct (send_wait (FLASH_PROG :: [a2; a1; a0] ++ d) (zlen d + 4)
    (idle (prog_at x d mem) false bp1 None) true c1) as (c2 & c3 & -> & E3 & Hc3); try lia; try done.
  - by rewrite Hc1.
  - rewrite <- Hz, slice_full, Hc1. unfold effect, writable, unprotected. cbn [app v_wel v_bp v_aai idle].
    rewrite Hp, Hpg, Hbp1.
    assert ((FLASH_PROG =? erase_op p) = false) as -> by (unfold erase_op; by destruct (ch_family p)).
    destruct d; [by vm_compute in H0|done].
  - cbn [mbind option_bind]. exists c3. split; [done|].
    assert (Ht : zlen mem = ch_total p)
      by (destruct Hm as [-> _]; destruct Hv as (_ & _ & _ & _ & _ & -> & _); done).
    split; [apply prog_at_ok; done || lia|]. exists false, bp1. auto.
Qed.

(** The page limit, in the terms of the place. *)
Lemma max_write_ok nbytes x :
  0 <= x -> 0 < nbytes < 2 ^ 32 ->
  0 < max_write msgData nbytes (u32 (FLASH_BASE + x)) <= nbytes /\
  max_write msgData nbytes (u32 (FLASH_BASE + x)) + 4 <= msgData /\
  x mod 256 + max_write msgData nbytes (u32 (FLASH_BASE + x)) <= 256 /\
  (Z.even nbytes = true -> Z.even x = true -> 2 <= max_write msgData nbytes (u32 (FLASH_BASE + x))).
Proof.
  intros Hx Hn. assert (Hb : (256 | FLASH_BASE)).
  { destruct Hv as (_ & _ & _ & ((_ & Hlen & _) & _) & Hs & Ht & H256 & _ & Hb).
    etransitivity; [|exact Hb]. rewrite Ht. clear - Hs H256.
    induction Hs as [|y l -> Hs IH]; [apply Z.divide_0_r|]. rewrite zsum_cons. by apply Z.divide_add_r. }
  unfold max_write, CMD_LEN_4, FLASH_PAGE_SIZE. rewrite low_byte, u32_id by (done || unfold is_u32; lia).
  pose proof (Z.mod_pos_bound x 256).
  assert (He : Z.even nbytes = true -> Z.even x = true -> 2 <= nbytes /\ x mod 256 <= 254).
  { rewrite !Z.even_spec. intros [a ->] [b ->]. split; [lia|].
    change 256 with (2 * 128) in *. rewrite Z.mul_mod_distr_l in * by lia. lia. }
  destruct (Z.ltb_spec nbytes (msgData - 4));
    split_and!; try (intros H1 H2; specialize (He H1 H2)); ztest.
Qed.

Lemma total_bound : 0 < ch_total p <= 2 ^ 24.
Proof.
  destruct Hv as (_ & _ & _ & ((Hpos & Hlen & _) & _) & _ & Ht & _ & H24 & _).
  pose proof (zsum_nonneg sizes Hpos). split; [|by apply Z.divide_pos_le].
  rewrite Ht. destruct sizes as [|y l]; [destruct Hlen as [Hlen _]; by vm_compute in Hlen|]. apply Forall_cons in Hpos as [Hy Hl].
  pose proof (zsum_nonneg l Hl). rewrite zsum_cons. lia.
Qed.

Lemma rest_len mem c : at_rest mem c -> zlen mem = ch_total p.
Proof. intros [[-> _] _]. by destruct Hv as (_ & _ & _ & _ & _ & -> & _). Qed.

(** One page after the other. *)
Lemma page_loop_ok n : forall x buf pbuf nbytes mem c,
  ch_family p <> FLASH_SST -> ch_family p <> FLASH_NX ->
  at_rest mem c -> 0 <= pbuf -> pbuf + nbytes <= zlen buf -> 0 <= nbytes <= Z.of_nat n ->
  0 <= x -> x + nbytes <= ch_total p ->
  exists c', page_loop xfer msgData rxFifo fuel v n (u32 (FLASH_BASE + x)) buf pbuf nbytes c =
      Some (pbuf + nbytes, c') /\ at_rest (prog_at x (slice pbuf nbytes buf) mem) c'.
Proof.
  pose proof total_bound as Htot.
  induction n as [|n IH]; intros x buf pbuf nbytes mem c Hf1 Hf2 Hc H0 H1 Hn Hx Ht; cbn [page_loop];
    (destruct (Z.ltb_spec 0 nbytes); [|assert (nbytes = 0) as -> by lia; exists c;
       rewrite Z.add_0_r, slice_0, prog_at_nil; done]); [lia|].
  destruct (max_write_ok nbytes x) as (Hm & Hm4 & Hpg & _); [lia|lia|].
  set (m := max_write msgData nbytes (u32 (FLASH_BASE + x))) in *. clearbody m.
  rewrite mem_read_Some by lia. cbn [mbind option_bind].
  assert (Hd : zlen (slice pbuf m buf) = m) by (apply zlen_slice; lia).
  destruct (program_ok x (slice pbuf m buf) mem c) as (c1 & -> & Hc1); try done; try lia.
  { unfold page_ok. rewrite Hd, !bool_decide_eq_false_2 by done. ztest. }
  cbn [mbind option_bind]. rewrite u32_add_l, <- Z.add_assoc.
  destruct (IH (x + m) buf (pbuf + m) (nbytes - m) (prog_at x (slice pbuf m buf) mem) c1)
    as (c2 & -> & Hc2); try done; try lia.
  exists c2. split; [do 2 f_equal; lia|]. revert Hc2. pose proof (rest_len _ _ Hc).
  rewrite <- Hd at 1. rewrite prog_at_app by (rewrite ?Hd, ?zlen_slice; lia).
  rewrite <- slice_app by lia. by replace (m + (nbytes - m)) with nbytes by lia.
Qed.

(** The part of a chunk that is whole words. *)
Lemma nx_chunk nbytes x :
  0 <= x -> 2 <= nbytes < 2 ^ 32 -> Z.even x = true ->
  let m0 := max_write msgData nbytes (u32 (FLASH_BASE + x)) in
  let m := if Z.rem m0 2 =? 1 then m0 - 1 else m0 in
  Z.even m = true /\ 2 <= m <= nbytes /\ m + 4 <= msgData /\ x mod 256 + m <= 256.
Proof.
  intros Hx Hn Hxe m0 m. destruct (max_write_ok nbytes x) as (Hm & Hm4 & Hpg & _); [lia|lia|].
  assert (H2 : 2 <= m0).
  { pose proof (Z.div_mod nbytes 2). pose proof (Z.mod_pos_bound nbytes 2).
    destruct (max_write_ok (2 * (nbytes / 2)) x) as (Hq & _ & _ & He); [lia..|].
    specialize (He ltac:(by rewrite Z.even_mul) Hxe). unfold m0. revert He Hq. unfold max_write.
    rewrite !u32_id by (unfold is_u32; lia).
    destruct (Z.ltb_spec (2 * (nbytes / 2)) (msgData - CMD_LEN_4)), (Z.ltb_spec nbytes (msgData - CMD_LEN_4));
      unfold CMD_LEN_4 in *; ztest. }
  fold m0 in Hm, Hm4, Hpg. clearbody m0. unfold m. rewrite Z.rem_mod_nonneg by lia.
  rewrite Zmod_odd, <- Z.negb_even.
  destruct (Z.even m0) eqn:E; cbn [negb]; change (0 =? 1) with false; change (1 =? 1) with true;
    cbv iota; [split_and!; done || lia|].
  rewrite Z.even_sub, E. split; [done|].
  destruct (Z.eq_dec m0 2) as [->|]; [discriminate|lia].
Qed.

Lemma nx_page x d :
  ch_family p = FLASH_NX -> Z.even x = true -> Z.even (zlen d) = true -> 0 < zlen d ->
  x mod 256 + zlen d <= 256 -> page_ok p x d = true.
Proof.
  intros Hf Hx Hd H0 H1. unfold page_ok. rewrite Hf, Hx, Hd, bool_decide_eq_false_2 by done.
  cbn [andb negb]. rewrite orb_true_r. ztest.
Qed.

(** Words only, for NexFlash devices. *)
Lemma nx_loop_ok n t : forall x buf pbuf nbytes mem c,
  ch_family p = FLASH_NX -> Z.even nbytes = true -> Z.even x = true ->
  at_rest mem c -> 0 <= pbuf -> pbuf + nbytes <= zlen buf -> 0 <= nbytes <= Z.of_nat n ->
  0 <= x -> x + nbytes <= ch_total p ->
  exists c', nx_loop xfer msgData rxFifo fuel v n (u32 (FLASH_BASE + x)) t buf false pbuf nbytes c =
      Some (false, pbuf + nbytes, c') /\ at_rest (prog_at x (slice pbuf nbytes buf) mem) c'.
Proof.
  pose proof total_bound as Htot.
  induction n as [|n IH]; intros x buf pbuf nbytes mem c Hf He Hxe Hc H0 H1 Hn Hx Ht; cbn [nx_loop];
    (destruct (Z.eqb_spec nbytes 0) as [->|]; [exists c;
       rewrite Z.add_0_r, slice_0, prog_at_nil; done|]); [lia|].
  destruct (Z.eqb_spec nbytes 1) as [->|_]; [done|]. cbn [mbind option_bind].
  destruct (nx_chunk nbytes x) as (Hm & Hm2 & Hm4 & Hpg); [lia| |done|].
  { destruct (Z.eq_dec nbytes 1) as [->|]; [discriminate|lia]. }
  revert Hm Hm2 Hm4 Hpg. set (m := if Z.rem _ 2 =? 1 then _ else _). clearbody m. intros Hm Hm2 Hm4 Hpg.
  rewrite mem_read_Some by lia. cbn [mbind option_bind].
  assert (Hd : zlen (slice pbuf m buf) = m) by (apply zlen_slice; lia).
  destruct (program_ok x (slice pbuf m buf) mem c) as (c1 & -> & Hc1); try done; try lia.
  { apply nx_page; rewrite ?Hd; done || lia. }
  cbn [mbind option_bind]. rewrite u32_add_l, <- Z.add_assoc.
  destruct (IH (x + m) buf (pbuf + m) (nbytes - m) (prog_at x (slice pbuf m buf) mem) c1)
    as (c2 & -> & Hc2); try done; try lia; [by rewrite Z.even_sub, He, Hm|by rewrite Z.even_add, Hxe, Hm|].
  exists c2. split; [do 2 f_equal; f_equal; lia|]. revert Hc2. pose proof (rest_len _ _ Hc).
  rewrite <- Hd at 1. rewrite prog_at_app by (rewrite ?Hd, ?zlen_slice; lia).
  rewrite <- slice_app by lia. by replace (m + (nbytes - m)) with nbytes by lia.
Qed.

(** An odd length: the last byte goes out with the byte [t] behind it, from [btmp2]. *)
Lemma nx_loop_odd n t : forall x buf pbuf nbytes mem c,
  ch_family p = FLASH_NX -> Z.even nbytes = false -> Z.even x = true ->
  at_rest mem c -> 0 <= pbuf -> pbuf + nbytes <= zlen buf -> 0 <= nbytes < Z.of_nat n ->
  0 <= x -> x + nbytes + 1 <= ch_total p ->
  exists c', nx_loop xfer msgData rxFifo fuel v n (u32 (FLASH_BASE + x)) (Some t) buf false pbuf nbytes c =
      Some (true, 2, c') /\ at_rest (prog_at x (slice pbuf nbytes buf ++ [t]) mem) c'.
Proof.
  pose proof total_bound as Htot.
  induction n as [|n IH]; intros x buf pbuf nbytes mem c Hf He Hxe Hc H0 H1 Hn Hx Ht; [lia|].
  cbn [nx_loop]. destruct (Z.eqb_spec nbytes 0) as [->|]; [done|].
  destruct (Z.eqb_spec nbytes 1) as [->|].
  - destruct (lookup_lt_is_Some_2 buf (Z.to_nat pbuf)) as [b Hb]; [unfold zlen in *; lia|].
    rewrite Hb. cbn [mbind option_bind]. destruct (nx_chunk 2 x) as (Hm & Hm2 & Hm4 & Hpg); [lia..|done|].
    revert Hm Hm2 Hm4 Hpg. set (m := if Z.rem _ 2 =? 1 then _ else _). intros Hm Hm2 Hm4 Hpg.
    assert (m = 2) as -> by lia. cbn [mbind option_bind].
    change (mem_read [b; t] 0 2) with (Some [b; t]). cbn [mbind option_bind].
    destruct (program_ok x [b; t] mem c) as (c1 & -> & Hc1); try done; try (change (zlen [b; t]) with 2; lia).
    { apply nx_page; done. }
    cbn [mbind option_bind]. exists c1. destruct n as [|n]; (split; [done|]).
    all: rewrite (slice_head buf pbuf 1 b) by (done || lia); done.
  - cbn [mbind option_bind]. destruct (nx_chunk nbytes x) as (Hm & Hm2 & Hm4 & Hpg); [lia..|done|].
    revert Hm Hm2 Hm4 Hpg. set (m := if Z.rem _ 2 =? 1 then _ else _). clearbody m. intros Hm Hm2 Hm4 Hpg.
    assert (m <> nbytes) by congruence.
    rewrite mem_read_Some by lia. cbn [mbind option_bind].
    assert (Hd : zlen (slice pbuf m buf) = m) by (apply zlen_slice; lia).
    destruct (program_ok x (slice pbuf m buf) mem c) as (c1 & -> & Hc1); try done; try lia.
    { apply nx_page; rewrite ?Hd; done || lia. }
    cbn [mbind option_bind]. rewrite u32_add_l, <- Z.add_assoc.
    destruct (IH (x + m) buf (pbuf + m) (nbytes - m) (prog_at x (slice pbuf m buf) mem) c1)
      as (c2 & -> & Hc2); try done; try lia; [by rewrite Z.even_sub, He, Hm|by rewrite Z.even_add, Hxe, Hm|].
    exists c2. split; [done|]. revert Hc2. pose proof (rest_len _ _ Hc).
    rewrite <- Hd at 1. rewrite prog_at_app by (rewrite ?zlen_app, ?Hd, ?zlen_slice; change (zlen [t]) with 1; lia).
    rewrite app_assoc, <- slice_app by lia. by replace (m + (nbytes - m)) with nbytes by lia.
Qed.

(** One step of an auto address increment program. *)
Lemma aai_send msg x d mem bp aai c :
  view c = idle mem true bp aai -> Z.land bp BP_BITS = 0 -> ch_family p = FLASH_SST ->
  x + zlen d <= ch_total p -> zlen msg <= msgData ->
  effect p msg (view c) = aai_step p x d (view c) ->
  exists c1 c2, send msg (zlen msg) c = Some c1 /\ wait c1 = Some c2 /\
    view c2 = idle (prog_at x d mem) true bp (Some (x + zlen d)).
Proof.
  intros Hc Hbp Hf Hx Hl He. pose proof (zlen_nonneg msg).
  apply (send_wait _ _ _ true); try done; [by rewrite Hc|].
  rewrite slice_full, He, Hc. unfold aai_step, unprotected. cbn [v_wel v_bp v_mem v_ewsr idle].
  rewrite Hbp, Hf, bool_decide_eq_true_2 by done. cbn [andb]. by rewrite (proj2 (Z.leb_le _ _) Hx).
Qed.

(** What the loops leave: the data programmed, at its end the next address. *)
Definition aai_done (x : Z) (d mem : list Z) (bp : Z) (c : C) : Prop :=
  exists aai, view c = idle (prog_at x d mem) true bp aai.

Lemma aai_byte_ok bp n : forall x buf pbuf nbytes mem c,
  ch_family p = FLASH_SST -> ch_word p = false -> Z.land bp BP_BITS = 0 ->
  view c = idle mem true bp (if pbuf =? 0 then None else Some (x + pbuf)) ->
  0 <= pbuf -> pbuf + nbytes <= zlen buf -> 0 <= nbytes <= Z.of_nat n -> zlen mem = ch_total p ->
  0 <= x -> x + pbuf + nbytes <= ch_total p ->
  exists c', aai_byte_loop xfer msgData rxFifo fuel n (u32 (FLASH_BASE + x)) buf pbuf nbytes c =
      Some (pbuf + nbytes, c') /\ aai_done (x + pbuf) (slice pbuf nbytes buf) mem bp c'.
Proof.
  induction n as [|n IH]; intros x buf pbuf nbytes mem c Hf Hw Hbp Hc H0 H1 Hn Hl Hx Ht;
    cbn [aai_byte_loop]; (destruct (Z.eqb_spec nbytes 0) as [->|]; [exists c; rewrite Z.add_0_r, slice_0;
      split; [done|]; eexists; by rewrite prog_at_nil|]); [lia|].
  destruct (lookup_lt_is_Some_2 buf (Z.to_nat pbuf)) as [b Hb]; [unfold zlen in *; lia|].
  rewrite Hb. cbn [mbind option_bind].
  destruct (addr_place x) as (a2 & a1 & a0 & Ea & Hp); [lia|]. rewrite Ea.
  set (msg := if negb (pbuf =? 0) then [FLASH_AAI; b] else FLASH_AAI :: [a2; a1; a0] ++ [b]).
  assert (Hmz : zlen msg <= 5) by (unfold msg; by destruct (pbuf =? 0)).
  destruct (aai_send msg (x + pbuf) [b] mem bp (if pbuf =? 0 then None else Some (x + pbuf)) c)
    as (c1 & c2 & -> & E2 & Hc2); try done; [change (zlen [b]) with 1; lia|lia| |].
  { rewrite Hc. unfold msg. destruct (Z.eqb_spec pbuf 0) as [->|]; cbn [negb app]; unfold effect.
    - unfold writable, unprotected. cbn [v_wel v_bp v_aai idle]. rewrite Hp, Hbp, Hw.
      rewrite bool_decide_eq_false_2 by done. rewrite andb_false_r, Z.add_0_r. done.
    - rewrite Hw. done. }
  cbn [mbind option_bind]. rewrite E2. cbn [mbind option_bind].
  destruct (IH x buf (pbuf + 1) (nbytes - 1) (prog_at (x + pbuf) [b] mem) c2)
    as (c3 & -> & aai & Hc3); try done; try lia.
  - rewrite Hc2. destruct (Z.eqb_spec (pbuf + 1) 0); [lia|]. change (zlen [b]) with 1. by rewrite Z.add_assoc.
  - unfold prog_at. pose proof (zlen_slice (x + pbuf) 1 mem). rewrite zlen_splice; [done|lia|].
    change (zlen [b]) with 1. unfold zlen in *. rewrite length_zip_with. cbn [length]. lia.
  - exists c3. split; [do 2 f_equal; lia|]. exists aai. rewrite Hc3. f_equal.
    rewrite Z.add_assoc. change 1 with (zlen [b]) at 1. rewrite prog_at_app.
    + by rewrite (slice_head buf pbuf nbytes b) by (done || lia).
    + lia.
    + change (zlen [b]) with 1. rewrite zlen_slice; lia.
Qed.

Lemma aai_word_ok bp n : forall x buf pbuf nbytes mem c,
  ch_family p = FLASH_SST -> ch_word p = true -> Z.land bp BP_BITS = 0 ->
  view c = idle mem true bp (if pbuf =? 0 then None else Some (x + pbuf)) ->
  0 <= pbuf -> pbuf + nbytes <= zlen buf -> 0 <= nbytes <= Z.of_nat n -> zlen mem = ch_total p ->
  0 <= x -> x + pbuf + nbytes <= ch_total p -> Z.even nbytes = true -> Z.even x = true ->
  exists c', aai_word_loop xfer msgData rxFifo fuel n (u32 (FLASH_BASE + x)) buf pbuf nbytes c =
      Some (pbuf + nbytes, c') /\ aai_done (x + pbuf) (slice pbuf nbytes buf) mem bp c'.
Proof.
  induction n as [|n IH]; intros x buf pbuf nbytes mem c Hf Hw Hbp Hc H0 H1 Hn Hl Hx Ht Hev Hxe;
    cbn [aai_word_loop]; (destruct (Z.eqb_spec nbytes 0) as [->|]; [exists c; rewrite Z.add_0_r, slice_0;
      split; [done|]; eexists; by rewrite prog_at_nil|]); [lia|].
  assert (2 <= nbytes) by (destruct (Z.eq_dec nbytes 1) as [->|]; [discriminate|lia]).
  destruct (lookup_lt_is_Some_2 buf (Z.to_nat pbuf)) as [b Hb]; [unfold zlen in *; lia|].
  destruct (lookup_lt_is_Some_2 buf (Z.to_nat (pbuf + 1))) as [b1 Hb1]; [unfold zlen in *; lia|].
  rewrite Hb, Hb1. cbn [mbind option_bind].
  destruct (addr_place x) as (a2 & a1 & a0 & Ea & Hp); [lia|]. rewrite Ea.
  set (msg := if negb (pbuf =? 0) then [FLASH_WORD_AAI; b; b1] else FLASH_WORD_AAI :: [a2; a1; a0] ++ [b; b1]).
  assert (Hmz : zlen msg <= 6) by (unfold msg; by destruct (pbuf =? 0)).
  destruct (aai_send msg (x + pbuf) [b; b1] mem bp (if pbuf =? 0 then None else Some (x + pbuf)) c)
    as (c1 & c2 & -> & E2 & Hc2); try done; [change (zlen [b; b1]) with 2; lia|lia| |].
  { rewrite Hc. unfold msg. destruct (Z.eqb_spec pbuf 0) as [->|]; cbn [negb app]; unfold effect.
    - unfold writable, unprotected. cbn [v_wel v_bp v_aai idle]. rewrite Hp, Hbp, Hw, Hxe.
      rewrite bool_decide_eq_false_2 by done. rewrite andb_false_r, Z.add_0_r. done.
    - rewrite Hw. done. }
  cbn [mbind option_bind]. rewrite E2. cbn [mbind option_bind].
  destruct (IH x buf (pbuf + 2) (nbytes - 2) (prog_at (x + pbuf) [b; b1] mem) c2)
    as (c3 & -> & aai & Hc3); try done; try lia.
  - rewrite Hc2. destruct (Z.eqb_spec (pbuf + 2) 0); [lia|]. change (zlen [b; b1]) with 2. by rewrite Z.add_assoc.
  - unfold prog_at. pose proof (zlen_slice (x + pbuf) 2 mem). rewrite zlen_splice; [done|lia|].
    change (zlen [b; b1]) with 2. unfold zlen in *. rewrite length_zip_with. cbn [length]. lia.
  - by rewrite Z.even_sub, Hev.
  - exists c3. split; [do 2 f_equal; lia|]. exists aai. rewrite Hc3. f_equal.
    rewrite Z.add_assoc. change 2 with (zlen [b; b1]) at 1. rewrite prog_at_app.
    + rewrite (slice_head buf pbuf nbytes b), (slice_head buf (pbuf + 1) (nbytes - 1) b1) by (done || lia).
      do 2 f_equal. cbn [app]. do 2 f_equal; f_equal; lia.
    + lia.
    + change (zlen [b; b1]) with 2. rewrite zlen_slice; lia.
Qed.

(** Devices that are programmed in words. *)
Definition needs_words : bool :=
  bool_decide (ch_family p = FLASH_NX) || (bool_decide (ch_family p = FLASH_SST) && ch_word p).

Local Abbreviation write := (spi_flash_write xfer FLASH_BASE msgData rxFifo fuel v).

Lemma even_place (k : nat) n off :
  sizes !! k = Some n -> Z.even off = true -> Z.even (sbase sizes (Z.of_nat k) + off) = true.
Proof.
  intros Hk Ho. destruct (spi_sector_dims k n Hk) as (_ & _ & H256 & _ & _ & Hdiv & _).
  rewrite Z.even_add, Ho. apply eqb_true_iff. rewrite Z.even_spec.
  destruct (Z.divide_trans _ _ _ H256 Hdiv) as [q ->]. exists (128 * q). lia.
Qed.

Lemma write_sst t (k : nat) n off d mem c :
  ch_family p = FLASH_SST -> sizes !! k = Some n -> at_rest mem c -> 0 <= off -> off + zlen d <= n ->
  (ch_word p = true -> Z.even off = true /\ Z.even (zlen d) = true) ->
  exists c', write t (Z.of_nat k) off d c = Some (zlen d, c') /\
    at_rest (prog_at (sbase sizes (Z.of_nat k) + off) d mem) c'.
Proof.
  intros Hf Hk Hrest Ho Hd Hw. pose proof (rest_len _ _ Hrest) as Hl.
  destruct Hrest as (Hm & wel & bp & Hc & Hbp). pose proof (zlen_nonneg d).
  destruct (spi_sector_dims k n Hk) as (_ & Hn0 & _ & Hb0 & Hb1 & _ & Hptr).
  unfold spi_flash_write. rewrite Hptr. cbn [mbind option_bind]. rewrite u32_add_l, <- Z.add_assoc.
  destruct (Hv) as (Hfam & _ & Hword & _). rewrite Hfam, Hf, Hword.
  destruct (ub_ok _ _ _ c Hc Hbp) as (c1 & bp1 & -> & Hc1 & Hbp1). cbn [mbind option_bind].
  set (x := sbase sizes (Z.of_nat k) + off) in *.
  assert (Hx : 0 <= x /\ x + zlen d <= ch_total p) by lia.
  assert (Hxe : Z.even off = true -> Z.even x = true) by apply (even_place k n off Hk).
  assert (Hzl : Z.of_nat (length d) = zlen d) by done.
  assert (exists c2, (if negb (ch_word p)
      then aai_byte_loop xfer msgData rxFifo fuel (length d) (u32 (FLASH_BASE + x)) d 0 (zlen d) c1
      else aai_word_loop xfer msgData rxFifo fuel (length d) (u32 (FLASH_BASE + x)) d 0 (zlen d) c1) =
      Some (0 + zlen d, c2) /\ aai_done (x + 0) (slice 0 (zlen d) d) mem bp1 c2) as (c2 & -> & aai & Hc2).
  { destruct (ch_word p) eqn:Ew; cbn [negb].
    - destruct (Hw eq_refl) as [He1 He2].
      apply aai_word_ok; try done; try lia. auto.
    - apply aai_byte_ok; done || lia. }
  cbn [mbind option_bind]. destruct (reset_ub_ok _ _ _ _ c2 Hc2) as (c3 & -> & Hc3). cbn [mbind option_bind].
  destruct (wait_idle c3) as (c4 & -> & Hc4); [by rewrite Hc3|]. cbn [mbind option_bind].
  rewrite Z.add_0_l. exists c4. split; [done|]. rewrite slice_full, Z.add_0_r in Hc3.
  split; [apply prog_at_ok; done || lia|]. exists false, bp1. rewrite Hc4. auto.
Qed.

Lemma write_nx t (k : nat) n off d mem c :
  ch_family p = FLASH_NX -> sizes !! k = Some n -> at_rest mem c -> 0 <= off -> off + zlen d <= n ->
  Z.even off = true -> Z.even (zlen d) = true ->
  exists c', write t (Z.of_nat k) off d c = Some (zlen d, c') /\
    at_rest (prog_at (sbase sizes (Z.of_nat k) + off) d mem) c'.
Proof.
  intros Hf Hk Hrest Ho Hd He1 He2. pose proof (zlen_nonneg d).
  destruct (spi_sector_dims k n Hk) as (_ & Hn0 & _ & Hb0 & Hb1 & _ & Hptr).
  unfold spi_flash_write. rewrite Hptr. cbn [mbind option_bind]. rewrite u32_add_l, <- Z.add_assoc.
  destruct (Hv) as (Hfam & _). rewrite Hfam, Hf. unfold nx_write.
  destruct (rem2_even off) as [-> ->]; [done..|]. destruct (rem2_even (zlen d)) as [-> ->]; [done..|].
  cbn [andb orb mbind option_bind].
  destruct (nx_loop_ok (S (length d)) None (sbase sizes (Z.of_nat k) + off) d 0 (zlen d) mem c)
    as (c1 & -> & Hc1); try done; try (unfold zlen in *; lia);
    [by apply (even_place k n)|].
  cbn [mbind option_bind]. exists c1. by rewrite slice_full in Hc1.
Qed.

Lemma spi_write_ok t (k : nat) n off d mem c :
  sizes !! k = Some n -> at_rest mem c -> 0 <= off -> off + zlen d <= n ->
  (needs_words = true -> Z.even off = true /\ Z.even (zlen d) = true) ->
  exists c', spi_flash_write_buf xfer FLASH_BASE msgData rxFifo fuel v t (Z.of_nat k) off d c =
      Some (zlen d, c') /\ at_rest (prog_at (sbase sizes (Z.of_nat k) + off) d mem) c'.
Proof.
  intros Hk Hrest Ho Hd Hw. unfold spi_flash_write_buf. rewrite defined. unfold needs_words in Hw.
  destruct (decide (ch_family p = FLASH_SST)) as [Hf|Hf].
  { apply (write_sst t k n); try done. intros Ew. apply Hw. by rewrite Ew, Hf. }
  destruct (decide (ch_family p = FLASH_NX)) as [Hf2|Hf2].
  { destruct Hw; [by rewrite Hf2|]. by apply (write_nx t k n). }
  destruct (spi_sector_dims k n Hk) as (_ & Hn0 & _ & Hb0 & Hb1 & _ & Hptr). pose proof (zlen_nonneg d).
  unfold spi_flash_write. rewrite Hptr. cbn [mbind option_bind]. rewrite u32_add_l, <- Z.add_assoc.
  destruct (page_loop_ok (length d) (sbase sizes (Z.of_nat k) + off) d 0 (zlen d) mem c)
    as (c1 & E & Hc1); try done; try (unfold zlen in *; lia).
  rewrite slice_full in Hc1. exists c1. split; [|done].
  destruct (Hv) as (Hfam & Hdef & _). rewrite Hfam in *. by destruct (ch_family p).
Qed.
End Spi.
