(* ===== verification/SpiSpec.v ===== *)
(** * The serial flash driver: specification

    The properties of [spiflash.c]: its driver structure [flash_spi_dev] satisfies
    the contract of the flash API on the devices of [SpiChip], what
    [spi_flash_init] finds out about a device, and the calls that do not do what
    their callers expect. *)

From S2P Require Import Prelude SectorMap FlashApi AmdChip SpiBus SpiChip SpiDriver.

(** ** Sectors of an address *)

Lemma spi_blk_loop_eq m a n : forall b i, spi_blk_loop m a b i n = get_blk_loop m a b i n.
Proof.
  induction n as [|n IH]; intros b i; [done|]. cbn [spi_blk_loop get_blk_loop].
  destruct (i <? a); [|done]. unfold spi_flash_get_sector_size, cfi_flash_get_sector_size.
  destruct (sec_size <$> sec_at m (u16 b)); cbn; [apply IH|done].
Qed.

(** The loop never runs below the device, where only the comparison differs from the
    parallel driver's. *)
Lemma spi_get_blk_eq base m ss addr :
  flash_map m ss ->
  spi_flash_get_blk base m addr =
    if s32 (addr - base) <? 0 then Some 0 else cfi_flash_get_blk base m addr.
Proof.
  intros Hm. unfold spi_flash_get_blk, cfi_flash_get_blk. rewrite spi_blk_loop_eq.
  destruct (Hm) as ((Hpos & Hlen & Hsum) & _ & Hn & _).
  change (spi_flash_get_numsectors m) with (nsect m). change (cfi_flash_get_numsectors m) with (nsect m).
  rewrite Hn. set (a := s32 (addr - base)).
  assert (Ha : is_s32 a) by apply s32_range. clearbody a. unfold is_s32 in Ha.
  unfold zlen in *. rewrite Nat2Z.id.
  destruct (Z.ltb_spec a 0) as [Hneg|Hge].
  - destruct (length ss) as [|n] eqn:El; [lia|]. cbn [get_blk_loop].
    destruct (Z.ltb_spec 0 a); [lia|]. cbn [mbind option_bind].
    assert (u32 a = a + 2 ^ 32) as ->.
    { unfold u32. rewrite <- (Z.mod_small (a + 2 ^ 32) (2 ^ 32)) by lia.
      rewrite <- (Z_mod_plus_full a 1 (2 ^ 32)). by rewrite Z.mul_1_l. }
    change (u32 0) with 0. destruct (Z.ltb_spec (a + 2 ^ 32) 0); [lia|].
    destruct (Z.eqb_spec 0 (Z.of_nat (S n))); [lia|done].
  - destruct (get_blk_loop_spec m ss a (length ss) 0) as (k & E & Hle & _); [done|lia|done|].
    change (zsum (take 0 ss)) with 0 in E. change (Z.of_nat 0) with 0 in E. rewrite E.
    cbn [mbind option_bind]. pose proof (zsum_take_le ss k Hpos).
    by rewrite !u32_id by (unfold is_u32; lia).
Qed.

Section Spec.
Context {C : Type} {xfer : list Z -> nat -> C -> list Z * C} {FLASH_BASE msgData rxFifo : Z}.
Context {fuel polls : nat} {chip_id : Z -> nat -> list Z} {view : C -> spi_view}.
Context {p : spi_chip} {v : spi_vars} {sizes : list Z}.
Context {HC : SpiChip xfer p polls chip_id view}.
Context (Hv : describes v p FLASH_BASE sizes).
Context (Hmsg : 8 <= msgData) (Hrx : 60 <= rxFifo) (Hfuel : (polls < fuel)%nat) (Hfuel2 : (2 <= fuel)%nat).

Local Abbreviation base k := (sbase sizes (Z.of_nat k)).
Local Abbreviation resting := (at_rest (view := view) (p := p) (sizes := sizes)).

(** ** The driver structure

    The functions run on devices at rest, and leave them so. *)

#[local] Instance spi_mem_ok_dec mem : Decision (mem_ok sizes mem).
Proof. unfold mem_ok, is_u8. apply _. Defined.

Definition spi_restb (c : C) : bool :=
  let w := view c in
  bool_decide (mem_ok sizes (v_mem w)) && negb (v_ewsr w) && bool_decide (v_aai w = None) &&
  (v_busy w =? 0)%nat && (unprotected w || unlocks (p := p)).

Lemma spi_restb_spec c : spi_restb c = true <-> resting (v_mem (view c)) c.
Proof.
  unfold spi_restb, at_rest, unprotected, idle. split.
  - intros [[[[H1 H2]%andb_true_iff H3]%andb_true_iff H4]%andb_true_iff H5]%andb_true_iff.
    apply bool_decide_eq_true in H1, H3. apply negb_true_iff in H2. apply Nat.eqb_eq in H4.
    split; [done|]. exists (v_wel (view c)), (v_bp (view c)). split.
    + destruct (view c); cbn in *. congruence.
    + apply orb_true_iff in H5 as [H5%Z.eqb_eq|H5]; auto.
  - intros (H1 & wel & bp & E & H5). rewrite E in *. cbn [v_mem v_ewsr v_aai v_busy v_bp negb] in *.
    rewrite bool_decide_eq_true_2 by done. cbn. destruct H5 as [->| ->]; [done|apply orb_true_r].
Qed.

Definition spi_rested : Type := {c : C | spi_restb c = true}.

Definition spi_keep_rest (o : option (Z * C)) : option (Z * spi_rested) :=
  match o with
  | Some (r, c) =>
      match decide (spi_restb c = true) with
      | left H => Some (r, exist _ c H)
      | right _ => None
      end
  | None => None
  end.

Definition spi_img (f : spi_rested) : list Z := v_mem (view (proj1_sig f)).

Lemma spi_rested_at (f : spi_rested) : resting (spi_img f) (proj1_sig f).
Proof. apply spi_restb_spec, (proj2_sig f). Qed.

Lemma spi_keep_rest_ok o r c mem :
  o = Some (r, c) -> resting mem c ->
  exists f, spi_keep_rest o = Some (r, f) /\ spi_img f = mem.
Proof.
  intros -> Hc. assert (E : v_mem (view c) = mem) by (destruct Hc as (_ & wel & bp & -> & _); done).
  cbn [spi_keep_rest]. destruct (decide (spi_restb c = true)) as [H|H]; [by eexists|].
  destruct H. apply spi_restb_spec. by rewrite E.
Qed.

(** [flash_spi_dev], with the id and name [spi_flash_init] stored. *)
Definition flash_spi_dev (device_id : Z) (name : string) (btmp2_buf : Z)
    : flash_device_info_t spi_rested := {|
  flash_device_id := device_id;
  flash_device_name := name;
  fn_flash_sector_erase_int sector f :=
    spi_keep_rest (spi_flash_sector_erase_int xfer FLASH_BASE msgData rxFifo fuel v sector (proj1_sig f));
  fn_flash_read_buf sector offset numbytes f :=
    option_map fst (spi_flash_read_buf xfer FLASH_BASE msgData rxFifo fuel v
      sector offset numbytes (proj1_sig f));
  fn_flash_write_buf sector offset buffer f :=
    spi_keep_rest (spi_flash_write_buf xfer FLASH_BASE msgData rxFifo fuel v
      btmp2_buf sector offset buffer (proj1_sig f));
  fn_flash_get_numsectors _ := spi_flash_get_numsectors (meminfo v);
  fn_flash_get_sector_size sector _ := spi_flash_get_sector_size (meminfo v) sector;
  fn_flash_get_memptr sector _ := spi_flash_get_memptr FLASH_BASE (meminfo v) sector;
  fn_flash_get_blk addr _ := spi_flash_get_blk FLASH_BASE (meminfo v) addr;
  fn_flash_get_total_size _ := spi_flash_get_total_size (meminfo v);
  fn_flash_get_total_memory_mapped_size _ := spi_flash_get_total_memory_mapped_size (meminfo v)
|}.

(** ** The contract *)

Local Abbreviation dev := flash_spi_dev.

Lemma spi_dims (k : nat) n :
  sizes !! k = Some n ->
  n = ch_sector p /\ 0 < n /\ (256 | n) /\ 0 <= base k /\ base k + n <= ch_total p /\
  spi_get_flash_memptr FLASH_BASE (meminfo v) (Z.of_nat k) = Some (u32 (FLASH_BASE + base k)).
Proof. intros Hk. destruct (spi_sector_dims Hv Hfuel Hfuel2 k n Hk) as (? & ? & ? & ? & ? & _ & ?). done. Qed.

Lemma spi_img_ok (f : spi_rested) : mem_ok sizes (spi_img f) /\ zlen (spi_img f) = ch_total p.
Proof.
  destruct (spi_rested_at f) as [[Hl Hb] _]. rewrite Hl.
  by destruct Hv as (_ & _ & _ & _ & _ & -> & _).
Qed.

Lemma spi_erase_sector id nm t (k : nat) n (f : spi_rested) :
  sizes !! k = Some n ->
  exists f', fn_flash_sector_erase_int (dev id nm t) (Z.of_nat k) f = Some (FLASH_API_OK, f') /\
    spi_img f' = erase_at (base k) n (spi_img f).
Proof.
  intros Hk.
  destruct (erase_ok Hv Hmsg Hrx Hfuel Hfuel2 k n _ _ Hk (spi_rested_at f)) as (c' & E & Hc').
  destruct (spi_keep_rest_ok _ _ c' _ E Hc') as (f' & E' & Hi). by exists f'.
Qed.

Lemma spi_write_sector id nm t (k : nat) n off d (f : spi_rested) :
  sizes !! k = Some n -> 0 <= off -> off + zlen d <= n ->
  (needs_words (p := p) = true -> Z.even off = true /\ Z.even (zlen d) = true) ->
  exists f', fn_flash_write_buf (dev id nm t) (Z.of_nat k) off d f = Some (zlen d, f') /\
    spi_img f' = prog_at (base k + off) d (spi_img f).
Proof.
  intros Hk Ho Hd Hw.
  destruct (spi_write_ok Hv Hmsg Hrx Hfuel Hfuel2 t k n off d _ _ Hk (spi_rested_at f) Ho Hd Hw)
    as (c' & E & Hc').
  destruct (spi_keep_rest_ok _ _ c' _ E Hc') as (f' & E' & Hi). by exists f'.
Qed.

(** Writes from the start of a sector, as the clients do them. *)
Lemma spi_write_start id nm t (k : nat) n d (f : spi_rested) :
  sizes !! k = Some n -> zlen d <= n -> zlen d = n \/ Z.even (zlen d) = true ->
  exists f', fn_flash_write_buf (dev id nm t) (Z.of_nat k) 0 d f = Some (zlen d, f') /\
    spi_img f' = prog_at (base k) d (spi_img f).
Proof.
  intros Hk Hd He. destruct (spi_write_sector id nm t k n 0 d f Hk) as (f' & E & Hi); [done|lia| |].
  - intros _. split; [done|]. destruct He as [->|He]; [|done].
    destruct (spi_dims k n Hk) as (_ & _ & [q ->] & _). rewrite Z.even_mul. apply orb_true_r.
  - exists f'. by rewrite Z.add_0_r in Hi.
Qed.

Lemma land_erased_sector k n d mem :
  mem_ok sizes mem -> 0 <= k -> zlen d <= n -> k + n <= zlen mem -> Forall is_u8 d ->
  zip_with Z.land (slice k (zlen d) (erase_at k n mem)) d = d.
Proof.
  intros Hm Hk Hd Hn Hb. pose proof (zlen_nonneg d).
  destruct (erase_at_ok sizes k n mem Hm) as (_ & _ & Hs); [lia..|].
  assert (slice k (zlen d) (erase_at k n mem) = replicate (length d) 0xff) as ->.
  { replace (slice k (zlen d) (erase_at k n mem)) with (slice 0 (zlen d) (slice k n (erase_at k n mem)))
      by (rewrite slice_slice, Z.add_0_r by lia; done).
    rewrite Hs. unfold slice, zlen. rewrite Nat2Z.id, drop_0, take_replicate.
    f_equal. unfold zlen in *. lia. }
  clear - Hb. induction Hb as [|x l Hx Hl IH]; [done|]. cbn [length replicate zip_with]. rewrite IH. f_equal.
  change 0xff with (Z.ones 8). rewrite Z.land_comm, Z.land_ones by lia. by apply u8_id.
Qed.

Lemma spi_laws id nm t : FlashLaws (dev id nm t) FLASH_BASE sizes spi_img.
Proof.
  destruct (Hv) as (_ & _ & _ & Hmap & _ & Ht & _). destruct (Hmap) as (Hdev & _ & Hns & Htot).
  constructor; try done.
  - intros f. by destruct (spi_img_ok f) as [[-> _] _].
  - intros f. by destruct (spi_img_ok f) as [[_ Hb] _].
  - intros f k n Hk. by apply (get_sector_size _ sizes).
  - intros f k n Hk. by destruct (spi_dims k n Hk) as (_ & _ & _ & _ & _ & E).
  - intros f addr. cbn [flash_spi_dev fn_flash_get_blk]. rewrite (spi_get_blk_eq _ _ sizes) by done.
    destruct (Z.ltb_spec (s32 (addr - FLASH_BASE)) 0); [|by apply get_blk_above].
    exists 0. split_and!; [done|lia|]. pose proof (zsum_nonneg sizes (proj1 Hdev)). lia.
  - intros f k n off len Hk H0 H1 H2. exists FLASH_API_OK. cbn [flash_spi_dev fn_flash_read_buf].
    destruct (spi_read_buf_ok Hv Hmsg Hrx Hfuel Hfuel2 k n off len _ _ Hk (spi_rested_at f) H0 H1 H2)
      as (c' & -> & _). done.
  - intros f k n Hk. destruct (spi_erase_sector id nm t k n f Hk) as (f' & E & Hi).
    exists FLASH_API_OK, f'. split; [done|]. rewrite Hi. destruct (spi_img_ok f) as [Hm Hl].
    destruct (spi_dims k n Hk) as (_ & ? & _ & ? & ? & _). by apply (erase_at_ok sizes); try lia.
  - intros f k n d Hk Hd He. destruct (spi_write_start id nm t k n d f Hk Hd He) as (f' & E & Hi).
    exists (zlen d), f'. split; [done|]. rewrite Hi. destruct (spi_img_ok f) as [Hm Hl].
    destruct (spi_dims k n Hk) as (_ & ? & _ & ? & ? & _). pose proof (zlen_nonneg d).
    destruct (prog_at_ok sizes (base k) d (spi_img f) Hm) as (_ & Hs & Hd'); [lia..|]. split.
    + eapply same_outside_weaken; [done|lia..].
    + intros _ Hb (r0 & f0 & E0). rewrite Hd'.
      destruct (spi_erase_sector id nm t k n f0 Hk) as (f1 & E1 & Hi1). rewrite E0 in E1.
      injection E1 as _ ->. rewrite Hi1. destruct (spi_img_ok f0) as [Hm0 Hl0].
      apply land_erased_sector; done || lia.
Qed.

Lemma spi_works id nm t : FlashReliable (dev id nm t) sizes.
Proof.
  constructor. intros f k n d r f1 Hk Hd He _ _.
  destruct (spi_write_start id nm t k n d f1 Hk Hd He) as (f' & E & _). by exists f'.
Qed.

(** A write to the serial flash always completes and reports its whole length. *)
Theorem spi_driver_reliable id nm t : FlashReliable (dev id nm t) sizes.
Proof. apply spi_works. Qed.

(** [spi_flash_write_buf] at any offset of a sector: every byte becomes the old one
    with the bits of the data cleared, no other byte of the device changes, and the
    return value is the length - whatever the page limits, the size of the
    controller's message buffer and the programming method of the family.  Devices
    programmed in words need an even offset and length. *)
Theorem spi_flash_write_buf_spec t (k : nat) n off d mem c :
  sizes !! k = Some n -> resting mem c -> 0 <= off -> off + zlen d <= n ->
  (needs_words (p := p) = true -> Z.even off = true /\ Z.even (zlen d) = true) ->
  exists c' mem', spi_flash_write_buf xfer FLASH_BASE msgData rxFifo fuel v t (Z.of_nat k) off d c =
      Some (zlen d, c') /\
    resting mem' c' /\ same_outside (base k + off) (zlen d) mem mem' /\
    slice (base k + off) (zlen d) mem' = zip_with Z.land (slice (base k + off) (zlen d) mem) d.
Proof.
  intros Hk Hc Ho Hd Hw.
  destruct (spi_write_ok Hv Hmsg Hrx Hfuel Hfuel2 t k n off d mem c Hk Hc Ho Hd Hw) as (c' & E & Hc').
  exists c'. eexists. split; [done|]. split; [done|].
  destruct (spi_dims k n Hk) as (_ & ? & _ & ? & ? & _).
  assert (Hl : zlen mem = ch_total p) by (eapply (rest_len Hv); done).
  destruct Hc as [Hm _]. by destruct (prog_at_ok sizes (base k + off) d mem Hm) as (_ & ? & ?); [lia..|].
Qed.

(** C5: [spiflash.c] implements the contract of the flash API on the devices of its families
    that answer as the data sheets say and are at rest: no operation under way, and no block
    protected unless the family can be unlocked by the driver (a protected device of a family
    that cannot stops the driver for ever, [spi_protected_never_returns]).  Reading returns
    the contents; erasing and writing return, change the addressed sector only and leave the
    device at rest; and what is written to the start of a sector just erased, of even length
    or the whole sector, is stored.  A write at any offset clears in the bytes it addresses
    the bits that the data has clear and changes no other byte, and returns its length; on
    devices programmed in words this holds for even offsets and lengths
    ([nx_odd_write_return] is the other case).  The driver itself does not verify a write. *)
Theorem spi_driver_refines id nm t :
  FlashLaws (dev id nm t) FLASH_BASE sizes spi_img /\
  forall (k : nat) n off d mem c,
    sizes !! k = Some n -> resting mem c -> 0 <= off -> off + zlen d <= n ->
    (needs_words (p := p) = true -> Z.even off = true /\ Z.even (zlen d) = true) ->
    exists c' mem', spi_flash_write_buf xfer FLASH_BASE msgData rxFifo fuel v t (Z.of_nat k) off d c =
        Some (zlen d, c') /\
      resting mem' c' /\ same_outside (base k + off) (zlen d) mem mem' /\
      slice (base k + off) (zlen d) mem' = zip_with Z.land (slice (base k + off) (zlen d) mem) d.
Proof. split; [apply spi_laws|]. intros k n off d mem c. apply spi_flash_write_buf_spec. Qed.

(** A protected device that takes a status write only after [FLASH_WREN] (or does
    not know [FLASH_EWSR]) stops the driver for ever: every round of the loop in
    [spi_flash_ub] completes, leaves the protection as it is and asks for another, so
    that erasing a sector does not return, however often the loop runs. *)
Theorem spi_protected_never_returns mem wel bp c sector :
  view c = idle mem wel bp None -> Z.land bp BP_BITS <> 0 -> unlocks (p := p) = false ->
  (forall c1, view c1 = idle mem false bp None ->
    exists c2, unprotect_round xfer msgData rxFifo fuel v c1 = Some (false, c2) /\ view c2 = view c1) /\
  (forall n c1, view c1 = idle mem false bp None ->
    repeat_round (unprotect_round xfer msgData rxFifo fuel v) n c1 = None) /\
  spi_flash_sector_erase_int xfer FLASH_BASE msgData rxFifo fuel v sector c = None.
Proof.
  intros Hc Hbp Hu.
  assert (H1 : forall c1, view c1 = idle mem false bp None ->
    exists c2, unprotect_round xfer msgData rxFifo fuel v c1 = Some (false, c2) /\ view c2 = view c1)
    by (intros c1 Hc1; by apply (round_stuck Hv Hmsg Hrx Hfuel mem bp)).
  assert (H2 : forall n c1, view c1 = idle mem false bp None ->
    repeat_round (unprotect_round xfer msgData rxFifo fuel v) n c1 = None).
  { induction n as [|n IH]; intros c1 Hc1; [done|]. cbn [repeat_round].
    destruct (H1 c1 Hc1) as (c2 & -> & Hc2). apply IH. congruence. }
  split_and!; [done..|]. unfold spi_flash_sector_erase_int. rewrite (defined Hv).
  destruct (reset_ok Hv Hmsg Hrx Hfuel _ _ _ _ c Hc) as (c1 & -> & Hc1). cbn [mbind option_bind].
  unfold spi_flash_ub. by rewrite H2.
Qed.

Lemma prog_same x b mem : mem !! Z.to_nat x = Some b -> 0 <= x -> prog_at x [b] mem = mem.
Proof.
  intros Hb Hx. unfold prog_at. change (zlen [b]) with 1. rewrite (slice_head mem x 1 b) by (done || lia).
  change (slice (x + 1) (1 - 1) mem) with (@nil Z). cbn [zip_with]. rewrite Z.land_diag.
  unfold splice. cbn [length app]. rewrite Nat.add_1_r. by apply take_drop_middle.
Qed.

(** On a NexFlash device a write of an odd number of bytes programs exactly these
    bytes, but the return value is the distance between the caller's buffer and a
    local array of [spi_flash_write]: the pointer into the buffer was replaced by one
    into [btmp2]. *)
Theorem nx_odd_write_return t (k : nat) n off d mem c :
  ch_family p = FLASH_NX -> sizes !! k = Some n -> resting mem c -> 0 <= off -> off + zlen d <= n ->
  Z.even off = true -> Z.even (zlen d) = false ->
  exists c', spi_flash_write_buf xfer FLASH_BASE msgData rxFifo fuel v t (Z.of_nat k) off d c =
      Some (s32 (t + 2), c') /\ resting (prog_at (base k + off) d mem) c'.
Proof.
  intros Hf Hk Hc Ho Hd He1 He2. pose proof (zlen_nonneg d).
  destruct (spi_dims k n Hk) as (_ & Hn0 & Hn256 & Hb0 & Hb1 & Hptr).
  assert (Hl : zlen mem = ch_total p) by (eapply (rest_len Hv); done).
  assert (Hn : off + zlen d + 1 <= n).
  { destruct (Z.eq_dec (off + zlen d) n) as [E|]; [|lia]. exfalso. destruct Hn256 as [q Hq].
    assert (Z.even (off + zlen d) = false) as Ho2 by (by rewrite Z.even_add, He1, He2).
    rewrite E, Hq, Z.even_mul, orb_true_r in Ho2. done. }
  destruct (lookup_lt_is_Some_2 mem (Z.to_nat (base k + (off + zlen d)))) as [b Hb]; [unfold zlen in *; lia|].
  unfold spi_flash_write_buf. rewrite (defined Hv). unfold spi_flash_write. rewrite Hptr.
  cbn [mbind option_bind]. rewrite u32_add_l, <- Z.add_assoc. destruct (Hv) as (Hfam & _). rewrite Hfam, Hf.
  unfold nx_write. destruct (rem2_even off) as [-> ->]; [done..|].
  assert ((Z.rem (zlen d) 2 =? 1) = true) as ->.
  { rewrite Z.rem_mod_nonneg by lia. by rewrite Zmod_odd, <- Z.negb_even, He2. }
  cbn [andb orb mbind option_bind].
  destruct (spi_read_buf_ok Hv Hmsg Hrx Hfuel Hfuel2 k n (off + zlen d) 1 mem c) as (c1 & -> & Hc1);
    [done|done|lia..|].
  cbn [mbind option_bind]. rewrite (slice_head mem _ 1 b) by (done || lia). cbn [lookup list_lookup].
  destruct (nx_loop_odd Hv Hmsg Hrx Hfuel Hfuel2 (S (length d)) b (base k + off) d 0 (zlen d) mem c1)
    as (c2 & -> & Hc2); try done; try (unfold zlen in *; lia).
  { by apply (even_place Hv Hfuel Hfuel2 k n). }
  cbn [mbind option_bind]. exists c2. split; [done|]. rewrite slice_full in Hc2. revert Hc2.
  rewrite <- prog_at_app by (change (zlen [b]) with 1; lia).
  assert (Hin : prog_at (base k + off) d mem !! Z.to_nat (base k + off + zlen d) = Some b).
  { destruct Hc as [Hm _]. destruct (prog_at_ok sizes (base k + off) d mem Hm) as (_ & [_ Hs] & _); [lia..|].
    rewrite Hs by lia. rewrite <- Hb. do 2 f_equal. lia. }
  by rewrite (prog_same _ b) by (done || lia).
Qed.
End Spec.

(** ** Identification *)

(** What the four probes make of the answers of a device. *)
Definition probed_id (chip_id : Z -> nat -> list Z) : Z :=
  let sst := chip_id SST_FLASH_RDID 2%nat in
  let atmel := chip_id ATMEL_FLASH_RDID 2%nat in
  let span := chip_id SPAN_FLASH_RDID 3%nat in
  if is_first [SSTPART; NXPART; KHPART] sst then buf_id sst
  else if is_first [ATMELPART] atmel then buf_id atmel
  else if is_span span then 256 * span !!! 0%nat + span !!! 2%nat
  else buf_id (chip_id AMD_FLASH_RDID 2%nat).

Section Init.
Context {C : Type} {xfer : list Z -> nat -> C -> list Z * C} {msgData rxFifo : Z}.
Context {fuel polls : nat} {chip_id : Z -> nat -> list Z} {view : C -> spi_view} {p : spi_chip}.
Context {HC : SpiChip xfer p polls chip_id view}.
Context (Hmsg : 8 <= msgData) (Hrx : 60 <= rxFifo).

Definition quiet (c : C) : Prop := v_busy (view c) = 0%nat /\ v_aai (view c) = None.

Lemma id_wait_ok accept n : forall c,
  (0 < n)%nat -> quiet c ->
  exists c', id_wait xfer msgData rxFifo n accept c = Some (accept, c') /\ view c' = view c.
Proof.
  induction n as [|n IH]; intros c Hn Hq; [lia|]. cbn [id_wait]. unfold spi_flash_status.
  destruct (spi_status_ok Hmsg Hrx 10 c) as (s & c1 & k & -> & Hc1 & Hk & Hs).
  rewrite (Hs (proj1 Hq)) in *. cbn [mbind option_bind]. rewrite Z.eqb_refl. cbn [andb].
  assert (Hv1 : view c1 = view c).
  { destruct Hk as [[_ ->]|[? _]]; [|done]. rewrite Hc1. apply set_busy_id, Hq. }
  destruct accept; [by exists c1|]. destruct n as [|n]; [by exists c1|].
  destruct (IH c1) as (c2 & E & Hc2); [lia|by unfold quiet; rewrite Hv1|]. exists c2. split; [done|congruence].
Qed.

(** A probe reads the answer over the start of the buffer. *)
Lemma id_probe_ok op args n accept i : forall buf c,
  (0 < i)%nat -> quiet c -> zlen buf = 4 -> is_rdid op = true -> args = [] \/ args = [0; 0; 0] ->
  (length args < n <= 4)%nat \/ (args = [0; 0; 0] /\ n = 2%nat) ->
  exists c' buf', id_probe xfer msgData rxFifo i (op :: args) (Z.of_nat n) accept buf c =
      Some (accept buf', buf', c') /\ view c' = view c /\ zlen buf' = 4 /\ take n buf' = chip_id op n.
Proof.
  induction i as [|i IH]; intros buf c Hi Hq Hbuf Hop Ha Hn; [lia|]. cbn [id_probe].
  assert (Hargs : zlen (op :: args) <= 4) by (destruct Ha as [->| ->]; done).
  assert (Hn4 : (n <= 4)%nat) by (destruct Hn as [?|[_ ->]]; lia).
  rewrite mem_write_Some by lia. cbn [mbind option_bind].
  set (b1 := splice 0 (op :: args) buf). assert (Hb1 : zlen b1 = 4) by (unfold b1; rewrite zlen_splice; lia).
  assert (Hs1 : slice 0 (zlen (op :: args)) b1 = op :: args) by (apply slice_splice_eq; lia). clearbody b1.
  destruct (spi_identify (SpiChip := HC) c op args n) as [Hr Hc1]; try apply Hq; [done..|].
  pose proof (zlen_nonneg (op :: args)).
  rewrite receive_eq; rewrite ?Hs1, ?Nat2Z.id, ?Hr; try lia; [|apply (spi_id_length (SpiChip := HC))].
  cbn [mbind option_bind]. pose proof (spi_id_length (SpiChip := HC) op n) as Hlen.
  set (b2 := splice 0 (chip_id op n) b1).
  assert (Hb2 : zlen b2 = 4) by (unfold b2; rewrite zlen_splice; unfold zlen in *; lia).
  assert (Ht2 : take n b2 = chip_id op n).
  { pose proof (slice_splice_eq 0 (chip_id op n) b1) as E.
    assert (Hz : zlen (chip_id op n) = Z.of_nat n) by (unfold zlen; lia).
    rewrite Hz in E. unfold slice in E. rewrite Nat2Z.id in E. apply E; lia. }
  clearbody b2. set (c1 := snd (xfer (op :: args) n c)) in *.
  destruct (id_wait_ok (accept b2) (MAX_RETRY * 10) c1) as (c2 & -> & Hc2);
    [unfold MAX_RETRY; lia|by unfold quiet; rewrite Hc1|].
  cbn [mbind option_bind]. destruct (accept b2) eqn:Eacc.
  { exists c2, b2. split; [by rewrite Eacc|]. split; [congruence|done]. }
  destruct i as [|i]; [exists c2, b2; split; [by rewrite Eacc|]; split; [congruence|done]|].
  destruct (IH b2 c2) as (c3 & b3 & E & Hc3 & Hb3); try done; [lia|unfold quiet; by rewrite Hc2, Hc1|].
  exists c3, b3. split; [done|]. split; [congruence|done].
Qed.

Lemma take_total (n i : nat) (l r : list Z) : take n l = r -> (i < n)%nat -> l !!! i = r !!! i.
Proof. intros <- Hi. rewrite !list_lookup_total_alt. by rewrite lookup_take_lt. Qed.

Lemma first_take n ids l r : take n l = r -> (0 < n)%nat -> is_first ids l = is_first ids r.
Proof. intros E Hn. unfold is_first. by rewrite (take_total n 0 l r E Hn). Qed.

Lemma id_take n l r : take n l = r -> (1 < n)%nat -> buf_id l = buf_id r.
Proof. intros E Hn. unfold buf_id. by rewrite !(take_total n _ l r E) by lia. Qed.

Lemma span_take n l r : take n l = r -> (1 < n)%nat -> is_span l = is_span r.
Proof. intros E Hn. unfold is_span. by rewrite !(take_total n _ l r E) by lia. Qed.

Lemma get_device_id_ok v c :
  flashFamily v = FLASH_UNDEFINED -> quiet c ->
  exists c', spi_flash_get_device_id xfer msgData rxFifo fuel v c = Some (probed_id chip_id, c') /\
    view c' = view c.
Proof.
  intros Hv Hq. assert (Hreset : forall c, spi_flash_reset xfer msgData rxFifo fuel v c = Some (FLASH_API_ERROR, c))
    by (intros; unfold spi_flash_reset, undefined; by rewrite bool_decide_eq_true_2).
  unfold spi_flash_get_device_id, probed_id. cbv zeta.
  destruct (id_probe_ok SST_FLASH_RDID [0; 0; 0] 2 (is_first [SSTPART; NXPART; KHPART]) MAX_RETRY [0; 0; 0; 0] c)
    as (c1 & b1 & E1 & Hc1 & Hb1 & Ht1); try done; [unfold MAX_RETRY; lia|auto|auto|].
  change (Z.of_nat 2) with 2 in E1. rewrite E1. cbn [mbind option_bind].
  rewrite (first_take 2 _ b1 _ Ht1), (id_take 2 b1 _ Ht1) by lia.
  destruct (is_first [SSTPART; NXPART; KHPART] (chip_id SST_FLASH_RDID 2)); [by exists c1|].
  rewrite Hreset. cbn [mbind option_bind].
  destruct (id_probe_ok ATMEL_FLASH_RDID [] 2 (is_first [ATMELPART]) MAX_RETRY b1 c1)
    as (c2 & b2 & E2 & Hc2 & Hb2 & Ht2); try done;
    [unfold MAX_RETRY; lia|unfold quiet; by rewrite Hc1|auto|cbn; auto with lia|].
  change (Z.of_nat 2) with 2 in E2. rewrite E2. cbn [mbind option_bind].
  rewrite (first_take 2 _ b2 _ Ht2), (id_take 2 b2 _ Ht2) by lia.
  destruct (is_first [ATMELPART] (chip_id ATMEL_FLASH_RDID 2)); [exists c2; split; [done|congruence]|].
  rewrite Hreset. cbn [mbind option_bind].
  destruct (id_probe_ok SPAN_FLASH_RDID [] 3 is_span MAX_RETRY b2 c2)
    as (c3 & b3 & E3 & Hc3 & Hb3 & Ht3); try done;
    [unfold MAX_RETRY; lia|unfold quiet; by rewrite Hc2, Hc1|auto|cbn; auto with lia|].
  change (Z.of_nat 3) with 3 in E3. rewrite E3. cbn [mbind option_bind].
  rewrite (span_take 3 b3 _ Ht3) by lia. destruct (is_span (chip_id SPAN_FLASH_RDID 3)).
  { exists c3. split; [|congruence]. do 2 f_equal. unfold buf_id.
    rewrite list_lookup_total_insert_ne by done. rewrite list_lookup_total_insert_eq by (unfold zlen in *; lia).
    by rewrite !(take_total 3 _ b3 _ Ht3) by lia. }
  rewrite Hreset. cbn [mbind option_bind].
  destruct (id_probe_ok AMD_FLASH_RDID [0; 0; 0] 2 (is_first [AMD_S25FL002D; STPART]) MAX_RETRY b3 c3)
    as (c4 & b4 & E4 & Hc4 & Hb4 & Ht4); try done;
    [unfold MAX_RETRY; lia|unfold quiet; by rewrite Hc3, Hc2, Hc1|auto|auto|].
  change (Z.of_nat 2) with 2 in E4. rewrite E4. cbn [mbind option_bind].
  rewrite (id_take 2 b4 _ Ht4) by lia. exists c4. split; [done|congruence].
Qed.

(** ** Geometry *)

Lemma spi_sectors_layout n size : forall b, spi_sectors n size b = layout b (replicate n size).
Proof. induction n as [|n IH]; intros b; [done|]. cbn. by rewrite IH. Qed.

(** The parts of the table: at most 512 sectors, and a size that divides 4 MB. *)
Lemma spi_part_ok id family n size word :
  spi_part id = Some (family, n, size, word) ->
  family <> FLASH_UNDEFINED /\ 0 <= n <= 512 /\
  (n <> 0 -> 0 < size <= 65536 /\ (256 | size) /\ (n * size | 2 ^ 22)).
Proof.
  assert (D : forall a b, b mod a = 0 -> a <> 0 -> (a | b)) by (intros a b ? ?; by apply Z.mod_divide).
  unfold spi_part. intros E. repeat case_match; simplify_eq/=; (split; [done|]); (split; [lia|]); intros ?;
    try done; (split; [done|]); (split; apply D; done).
Qed.

Lemma part_map n size :
  0 < n <= 512 -> 0 < size <= 65536 ->
  exists l, last (spi_sectors (Z.to_nat n) size 0) = Some l /\
    flash_map (mkInfo n (spi_sectors (Z.to_nat n) size 0) (sec_base l + sec_size l))
      (replicate (Z.to_nat n) size).
Proof.
  intros Hn Hs. assert (Hsum : zsum (replicate (Z.to_nat n) size) = n * size) by (by rewrite zsum_replicate, Z2Nat.id by lia).
  rewrite !spi_sectors_layout. exists (mkSector size ((n - 1) * size)). split.
  - replace (Z.to_nat n) with (Z.to_nat (n - 1) + 1)%nat by lia.
    rewrite replicate_add, layout_app. cbn. rewrite last_snoc, zsum_replicate, Z2Nat.id by lia. done.
  - split; [|split_and!; cbn; rewrite ?zlen_replicate; lia || done].
    split; [apply Forall_replicate; lia|]. rewrite zlen_replicate, Hsum. unfold MAXSECTORS. nia.
Qed.

Lemma spi_init_ok c id family n size word :
  quiet c -> probed_id chip_id = id -> spi_part id = Some (family, n, size, word) -> n <> 0 ->
  exists c' l name,
    spi_flash_init xfer msgData rxFifo fuel spi_vars_start c =
      Some (FLASH_API_OK,
        mkVars (mkInfo n (spi_sectors (Z.to_nat n) size 0) (sec_base l + sec_size l)) family word,
        id, name, c') /\ view c' = view c /\
    flash_map (mkInfo n (spi_sectors (Z.to_nat n) size 0) (sec_base l + sec_size l))
      (replicate (Z.to_nat n) size).
Proof.
  intros Hq Hid Hpart Hn. destruct (spi_part_ok _ _ _ _ _ Hpart) as (_ & Hn0 & Hs). destruct (Hs Hn) as [Hs0 _].
  destruct (get_device_id_ok spi_vars_start c eq_refl Hq) as (c' & E & Hc').
  destruct (part_map n size) as (l & El & Hmap); [lia|done|].
  unfold spi_flash_init. rewrite E, Hid. cbn [mbind option_bind]. rewrite Hpart, El. cbn [mbind option_bind].
  exists c', l. eexists. split; [|done]. cbn [sstAaiWordProgram spi_vars_start].
  by destruct word.
Qed.

(** The variables describe the part. *)
Lemma init_describes FLASH_BASE c family n size word :
  quiet c -> (2 ^ 22 | FLASH_BASE) -> spi_part (probed_id chip_id) = Some (family, n, size, word) ->
  n <> 0 ->
  exists v' name c',
    spi_flash_init xfer msgData rxFifo fuel spi_vars_start c =
      Some (FLASH_API_OK, v', probed_id chip_id, name, c') /\ view c' = view c /\
    forall ewsr, describes v' (mkChip family word size (n * size) ewsr) FLASH_BASE
      (replicate (Z.to_nat n) size).
Proof.
  intros Hq Hb Hpart Hn.
  destruct (spi_part_ok _ _ _ _ _ Hpart) as (Hf & Hn0 & Hs). destruct (Hs Hn) as (Hs0 & H256 & H22).
  destruct (spi_init_ok c _ family n size word Hq eq_refl Hpart Hn) as (c' & l & name & E & Hc' & Hmap).
  do 3 eexists. split; [exact E|]. split; [done|]. intros ewsr.
  unfold describes. cbn [flashFamily sstAaiWordProgram ch_family ch_word ch_sector ch_total meminfo].
  split_and!; try done.
  - by apply Forall_replicate.
  - by rewrite zsum_replicate, Z2Nat.id by lia.
  - etransitivity; [exact H22|]. by exists 4.
  - by etransitivity.
Qed.

(** [spi_flash_init] on an idle device.  When the answers to its four probes name a
    part of the table, it returns success, and the variables describe the part: its
    family, its programming method, and a sector table that covers it; the device is as
    before.  The answers of another manufacturer give an error and leave the family
    undefined. *)
Theorem spi_flash_init_spec FLASH_BASE c :
  quiet c -> (2 ^ 22 | FLASH_BASE) ->
  match spi_part (probed_id chip_id) with
  | Some (family, n, size, word) =>
      n <> 0 -> exists v' name c',
        spi_flash_init xfer msgData rxFifo fuel spi_vars_start c =
          Some (FLASH_API_OK, v', probed_id chip_id, name, c') /\ view c' = view c /\
        forall ewsr, describes v' (mkChip family word size (n * size) ewsr) FLASH_BASE
          (replicate (Z.to_nat n) size)
  | None => exists v' c',
      spi_flash_init xfer msgData rxFifo fuel spi_vars_start c =
        Some (FLASH_API_ERROR, v', probed_id chip_id, ""%string, c') /\ view c' = view c /\
      flashFamily v' = FLASH_UNDEFINED
  end.
Proof.
  intros Hq Hb. destruct (spi_part (probed_id chip_id)) as [[[[family n] size] word]|] eqn:Hpart.
  - intros Hn. by apply init_describes.
  - destruct (get_device_id_ok spi_vars_start c eq_refl Hq) as (c' & E & Hc').
    unfold spi_flash_init. rewrite E. cbn [mbind option_bind]. rewrite Hpart. by do 2 eexists.
Qed.

(** A device that names Atmel, KH or NexFlash as its maker but is not in the
    driver's list: the loop over the sectors runs zero times and the total size is
    taken from the entry before the start of the sector table. *)
Theorem spi_flash_init_no_sectors c d :
  quiet c -> 0 <= d < 256 ->
  (probed_id chip_id = 256 * ATMELPART + d /\ d <> ID_AT25F512 /\ d <> ID_AT25F2048) \/
  (probed_id chip_id = 256 * KHPART + d /\ d <> ID_KH25L1605) \/
  (probed_id chip_id = 256 * NXPART + d /\ d <> ID_NX25P20 /\ d <> ID_NX25P40 /\ d <> ID_NXW25P16) ->
  spi_flash_init xfer msgData rxFifo fuel spi_vars_start c = None.
Proof.
  intros Hq Hd Hid. destruct (get_device_id_ok spi_vars_start c eq_refl Hq) as (c' & E & _).
  unfold spi_flash_init. rewrite E. cbn [mbind option_bind].
  assert (Hs : forall m, Z.shiftr (256 * m + d) 8 = m /\ Z.land (256 * m + d) 0xff = d).
  { intros m. rewrite Z.shiftr_div_pow2 by lia. change 0xff with (Z.ones 8). rewrite Z.land_ones by lia.
    change (2 ^ 8) with 256. rewrite Z.add_comm, Z.mul_comm, Z.div_add, Z.mod_add by lia.
    split; [rewrite Z.div_small by lia; lia|by apply Z.mod_small]. }
  assert (Hs8 : forall k, 0 <= k < 128 -> d <> k -> (s8 d =? k) = false).
  { intros k Hk Hne. apply Z.eqb_neq. unfold s8.
    destruct (Z_lt_le_dec d 128).
    - rewrite Z.mod_small by lia. lia.
    - replace (d + 2 ^ 7) with (d - 128 + 1 * 2 ^ 8) by lia. rewrite Z_mod_plus_full, Z.mod_small by lia. lia. }
  destruct Hid as [(-> & H1 & H2)|[(-> & H1)|(-> & H1 & H2 & H3)]].
  - unfold spi_part. destruct (Hs ATMELPART) as [-> ->]. rewrite Z.eqb_refl.
    by rewrite !Hs8.
  - unfold spi_part. destruct (Hs KHPART) as [-> ->]. rewrite (proj2 (Z.eqb_neq _ _) H1). done.
  - unfold spi_part. destruct (Hs NXPART) as [-> ->].
    rewrite (proj2 (Z.eqb_neq _ _) H1), (proj2 (Z.eqb_neq _ _) H2), (proj2 (Z.eqb_neq _ _) H3). done.
Qed.
End Init.

(** [spi_flash_get_blk]: the sector of an address of the device, -1 above the
    device, but sector 0 for an address below it, where the parallel driver
    returns -1. *)
Theorem spi_flash_get_blk_spec base m sizes addr :
  flash_map m sizes ->
  let a := s32 (addr - base) in
  exists k, spi_flash_get_blk base m addr = Some k /\
    (0 <= a < zsum sizes -> in_sector sizes k a) /\ (zsum sizes <= a -> k = -1) /\
    (a < 0 -> k = 0 /\ cfi_flash_get_blk base m addr = Some (-1)).
Proof.
  intros Hm a. rewrite (spi_get_blk_eq base m sizes) by done. fold a.
  destruct (get_blk_correct base m sizes addr Hm) as (k & E & Hin & Hout). fold a in Hin, Hout. rewrite E.
  destruct (Hm) as ((Hpos & _) & _). pose proof (zsum_nonneg sizes Hpos).
  destruct (Z.ltb_spec a 0).
  - exists 0. split_and!; [done|lia|lia|]. intros _. by rewrite Hout by lia.
  - exists k. split_and!; [done|done|intros; apply Hout; lia|lia].
Qed.

(** ** Witnesses: a simulated device of two 32-KByte sectors *)

Definition spi_demo_sizes : list Z := [32768; 32768].
Definition spi_demo_base : Z := 0xBFC00000.
Definition spi_demo_chip (family : spi_family) (word ewsr : bool) : spi_chip :=
  mkChip family word 32768 65536 ewsr.
Definition spi_demo_vars (family : spi_family) (word : bool) : spi_vars :=
  mkVars (mkInfo 2 (layout 0 spi_demo_sizes) 65536) family word.

(** The device answers one identification command; otherwise the line is high. *)
Definition spi_demo_id (cmd : Z) (answer : list Z) (op : Z) (n : nat) : list Z :=
  take n ((if op =? cmd then answer else []) ++ replicate n 0xff).

Lemma spi_demo_id_length cmd answer op n : length (spi_demo_id cmd answer op n) = n.
Proof. unfold spi_demo_id. rewrite length_take, length_app, length_replicate. lia. Qed.

Definition spi_demo_xfer (family : spi_family) (word ewsr : bool) :=
  SpiSim.xfer (spi_demo_chip family word ewsr) 30 (spi_demo_id ATMEL_FLASH_RDID [0x1F; 0x60]).

Definition spi_demo_sim (family : spi_family) (word ewsr : bool) :=
  SpiSim.spi_sim (spi_demo_chip family word ewsr) 30 (spi_demo_id ATMEL_FLASH_RDID [0x1F; 0x60])
    (spi_demo_id_length _ _).

Lemma spi_demo_describes family word ewsr :
  family <> FLASH_UNDEFINED ->
  describes (spi_demo_vars family word) (spi_demo_chip family word ewsr) spi_demo_base spi_demo_sizes.
Proof.
  intros Hf. split_and!; try done.
  - split; [by_decide|done].
  - by repeat constructor.
  - by exists 128.
  - by exists 256.
  - by exists 0xBFC0.
Qed.

Definition spi_demo_mem : list Z := replicate (Z.to_nat 65536) 0xff.

Lemma spi_demo_mem_ok : mem_ok spi_demo_sizes spi_demo_mem.
Proof. unfold spi_demo_mem. split; [rewrite zlen_replicate; cbn; lia|by apply Forall_replicate]. Qed.

Lemma spi_demo_rest family word ewsr :
  at_rest (view := fun w => w) (p := spi_demo_chip family word ewsr) (sizes := spi_demo_sizes)
    spi_demo_mem (idle spi_demo_mem false 0 None).
Proof. split; [exact spi_demo_mem_ok|]. exists false, 0. auto. Qed.

Lemma spi_driver_refines_witness :
  FlashLaws (flash_spi_dev (xfer := spi_demo_xfer FLASH_SST true true) (FLASH_BASE := spi_demo_base)
      (msgData := 63) (rxFifo := 64) (fuel := 31) (view := fun w => w)
      (p := spi_demo_chip FLASH_SST true true) (v := spi_demo_vars FLASH_SST true)
      (sizes := spi_demo_sizes) 0xBF41 "SST25VF016B" 0)
    spi_demo_base spi_demo_sizes spi_img /\
  FlashLaws (flash_spi_dev (xfer := spi_demo_xfer FLASH_NX false false) (FLASH_BASE := spi_demo_base)
      (msgData := 542) (rxFifo := 544) (fuel := 31) (view := fun w => w)
      (p := spi_demo_chip FLASH_NX false false) (v := spi_demo_vars FLASH_NX false)
      (sizes := spi_demo_sizes) 0xEF14 "NXW25P16" 0)
    spi_demo_base spi_demo_sizes spi_img.
Proof.
  split.
  - exact (proj1 (spi_driver_refines (msgData := 63) (rxFifo := 64) (fuel := 31) (HC := spi_demo_sim FLASH_SST true true)
      (spi_demo_describes FLASH_SST true true ltac:(done)) ltac:(lia) ltac:(lia) ltac:(lia) ltac:(lia)
      0xBF41 "SST25VF016B" 0)).
  - exact (proj1 (spi_driver_refines (msgData := 542) (rxFifo := 544) (fuel := 31) (HC := spi_demo_sim FLASH_NX false false)
      (spi_demo_describes FLASH_NX false false ltac:(done)) ltac:(lia) ltac:(lia) ltac:(lia) ltac:(lia)
      0xEF14 "NXW25P16" 0)).
Defined.

Lemma spi_driver_reliable_witness :
  FlashReliable (flash_spi_dev (xfer := spi_demo_xfer FLASH_ATMEL false false) (FLASH_BASE := spi_demo_base)
      (msgData := 63) (rxFifo := 64) (fuel := 31) (view := fun w => w)
      (p := spi_demo_chip FLASH_ATMEL false false) (v := spi_demo_vars FLASH_ATMEL false)
      (sizes := spi_demo_sizes) 0x1F60 "AT25F512" 0)
    spi_demo_sizes.
Proof.
  apply (spi_driver_reliable (HC := spi_demo_sim FLASH_ATMEL false false)
    (spi_demo_describes FLASH_ATMEL false false ltac:(done))); lia.
Defined.

(** Three bytes at an odd offset of the second sector. *)
Lemma spi_flash_write_buf_spec_witness :
  let x := sbase spi_demo_sizes (Z.of_nat 1) + 255 in
  exists c' mem', spi_flash_write_buf (spi_demo_xfer FLASH_ATMEL false false) spi_demo_base 63 64 31
      (spi_demo_vars FLASH_ATMEL false) 0 (Z.of_nat 1) 255 [1; 2; 3] (idle spi_demo_mem false 0 None) =
      Some (zlen [1; 2; 3], c') /\
    at_rest (view := fun w => w) (p := spi_demo_chip FLASH_ATMEL false false) (sizes := spi_demo_sizes) mem' c' /\
    same_outside x (zlen [1; 2; 3]) spi_demo_mem mem' /\
    slice x (zlen [1; 2; 3]) mem' = zip_with Z.land (slice x (zlen [1; 2; 3]) spi_demo_mem) [1; 2; 3].
Proof.
  intros x.
  apply (spi_flash_write_buf_spec (msgData := 63) (rxFifo := 64) (fuel := 31)
    (HC := spi_demo_sim FLASH_ATMEL false false)
    (spi_demo_describes FLASH_ATMEL false false ltac:(done)) ltac:(lia) ltac:(lia) ltac:(lia) ltac:(lia)
    0 1 32768 255 [1; 2; 3] spi_demo_mem (idle spi_demo_mem false 0 None)).
  - reflexivity.
  - apply spi_demo_rest.
  - lia.
  - by vm_compute.
  - intros H. discriminate H.
Defined.

(** An Atmel device with one protected block. *)
Lemma spi_protected_never_returns_witness :
  spi_flash_sector_erase_int (spi_demo_xfer FLASH_ATMEL false false) spi_demo_base 63 64 31
    (spi_demo_vars FLASH_ATMEL false) 0 (idle spi_demo_mem false SR_BP0 None) = None.
Proof.
  apply (spi_protected_never_returns (msgData := 63) (rxFifo := 64) (fuel := 31)
    (HC := spi_demo_sim FLASH_ATMEL false false)
    (spi_demo_describes FLASH_ATMEL false false ltac:(done)) ltac:(lia) ltac:(lia) ltac:(lia)
    spi_demo_mem false SR_BP0 (idle spi_demo_mem false SR_BP0 None) 0).
  - reflexivity.
  - intros H. discriminate H.
  - reflexivity.
Defined.

(** Three bytes; [btmp2] is 4660 bytes below the buffer. *)
Lemma nx_odd_write_return_witness :
  exists c', spi_flash_write_buf (spi_demo_xfer FLASH_NX false false) spi_demo_base 63 64 31
      (spi_demo_vars FLASH_NX false) (-4660) (Z.of_nat 1) 0 [1; 2; 3] (idle spi_demo_mem false 0 None) =
      Some (-4658, c') /\
    at_rest (view := fun w => w) (p := spi_demo_chip FLASH_NX false false) (sizes := spi_demo_sizes)
      (prog_at (sbase spi_demo_sizes (Z.of_nat 1) + 0) [1; 2; 3] spi_demo_mem) c'.
Proof.
  apply (nx_odd_write_return (msgData := 63) (rxFifo := 64) (fuel := 31)
    (HC := spi_demo_sim FLASH_NX false false)
    (spi_demo_describes FLASH_NX false false ltac:(done)) ltac:(lia) ltac:(lia) ltac:(lia) ltac:(lia)
    (-4660) 1 32768 0 [1; 2; 3] spi_demo_mem (idle spi_demo_mem false 0 None)).
  - reflexivity.
  - reflexivity.
  - apply spi_demo_rest.
  - lia.
  - by vm_compute.
  - reflexivity.
  - reflexivity.
Defined.

Lemma spi_flash_init_spec_witness :
  exists v' name c',
    spi_flash_init (spi_demo_xfer FLASH_ATMEL false false) 63 64 31 spi_vars_start
      (idle spi_demo_mem false 0 None) = Some (FLASH_API_OK, v', 0x1F60, name, c') /\
    describes v' (mkChip FLASH_ATMEL false 32768 65536 false) spi_demo_base [32768; 32768].
Proof.
  pose proof (spi_flash_init_spec (HC := spi_demo_sim FLASH_ATMEL false false)
    (msgData := 63) (rxFifo := 64) (fuel := 31) ltac:(lia) ltac:(lia) spi_demo_base
    (idle spi_demo_mem false 0 None) (conj eq_refl eq_refl) ltac:(by exists 767)) as H.
  destruct (H ltac:(lia)) as (v' & name & c' & E & _ & Hd).
  exists v', name, c'. split; [exact E|exact (Hd false)].
Defined.

(** A NexFlash part that the driver does not list. *)
Lemma spi_flash_init_no_sectors_witness :
  spi_flash_init (SpiSim.xfer (spi_demo_chip FLASH_NX false false) 30 (spi_demo_id SST_FLASH_RDID [0xEF; 0x15]))
    63 64 31 spi_vars_start (idle spi_demo_mem false 0 None) = None.
Proof.
  apply (spi_flash_init_no_sectors (msgData := 63) (rxFifo := 64)
    (HC := SpiSim.spi_sim (spi_demo_chip FLASH_NX false false) 30 (spi_demo_id SST_FLASH_RDID [0xEF; 0x15])
      (spi_demo_id_length _ _)) ltac:(lia) ltac:(lia) (idle spi_demo_mem false 0 None) 0x15).
  - split; reflexivity.
  - lia.
  - right. right. by vm_compute.
Defined.

Lemma spi_flash_get_blk_spec_witness :
  spi_flash_get_blk spi_demo_base (meminfo (spi_demo_vars FLASH_ATMEL false)) 0xBFB00000 = Some 0.
Proof.
  destruct (spi_flash_get_blk_spec spi_demo_base (meminfo (spi_demo_vars FLASH_ATMEL false)) spi_demo_sizes
    0xBFB00000) as (k & E & _ & _ & H).
  - split; [by_decide|done].
  - rewrite E. f_equal. apply (proj1 (H ltac:(by vm_compute))).
Defined.
