(* ===== verification/FlashStore.v ===== *)
(** * Flash storage of the board driver

    [bcmdrivers/opensource/char/board/bcm963xx/impl1/bcm63xx_flash.c]: the layout
    of the flash ([FLASH_ADDR_INFO]), reading and rewriting whole sectors that
    several sections share, and the sections NVRAM, PSI (the persistent
    configuration) and its second copy.  The client of the flash API.  [alloc]
    tells whether [retriedKmalloc] succeeds; [None] is an access outside a
    buffer or the device. *)

From S2P Require Import Prelude BoardDefs SectorMap FlashApi.

(** ** Layout record ([board.h], [bcm_hwdefs.h]) *)

Definition ONEK : Z := 1024.
Definition NVRAM_DATA_OFFSET : Z := 0x0580.
Definition NVRAM_LENGTH : Z := ONEK.
Definition DEFAULT_PSI_SIZE : Z := 24.
Definition SP_MAX_LEN : Z := 8 * 1024.
Definition FLASH_LENGTH_BOOT_ROM : Z := 64 * ONEK.

Record FLASH_ADDR_INFO := mkFInfo {
  flash_persistent_start_blk : Z;
  flash_persistent_number_blk : Z;
  flash_persistent_length : Z;
  flash_persistent_blk_offset : Z;
  flash_scratch_pad_start_blk : Z;
  flash_scratch_pad_number_blk : Z;
  flash_scratch_pad_length : Z;
  flash_scratch_pad_blk_offset : Z;
  flash_nvram_start_blk : Z;
  flash_nvram_number_blk : Z;
  flash_nvram_length : Z;
  flash_nvram_blk_offset : Z;
  flash_rootfs_start_offset : Z;
  flash_dare_persistent_start_blk : Z;
  flash_dare_persistent_number_blk : Z;
  flash_dare_persistent_length : Z;
  flash_dare_persistent_blk_offset : Z
}.

(** [retriedKmalloc]: a cleared buffer, or null. *)
Definition retriedKmalloc (alloc : bool) (size : Z) : option (list Z) :=
  if alloc && (0 <=? size) then Some (replicate (Z.to_nat size) 0) else None.

Section Store.
Context {F : Type} (g_flash_info : option (flash_device_info_t F)).

(** ** Shared sectors *)

(** [usedBlkSize] summed over the [n] sectors from [i]. *)
Fixpoint usedBlkSize (i : Z) (n : nat) (used : Z) (f : F) : option Z :=
  match n with
  | O => Some used
  | S n' =>
      s ← flash_get_sector_size g_flash_info i f;
      usedBlkSize (i + 1) n' (s32 (used + s)) f
  end.

(** The reading loop of [getSharedBlks]; [off] is [pBuf - pTempBuf]. *)
Fixpoint getSharedBlks_loop (i : Z) (n : nat) (pTempBuf : list Z) (off : Z) (f : F)
    : option (list Z) :=
  match n with
  | O => Some pTempBuf
  | S n' =>
      sect_size ← flash_get_sector_size g_flash_info i f;
      '(_, bytes) ← flash_read_buf g_flash_info i 0 sect_size f;
      pTempBuf ← mem_write pTempBuf off bytes;
      getSharedBlks_loop (i + 1) n' pTempBuf (off + sect_size) f
  end.

(** [Some None] is a null pointer. *)
Definition getSharedBlks (alloc : bool) (start_blk end_blk : Z) (f : F)
    : option (option (list Z)) :=
  let n := Z.to_nat (end_blk - start_blk) in
  used ← usedBlkSize start_blk n 0 f;
  match retriedKmalloc alloc used with
  | None => Some None
  | Some pTempBuf => Some <$> getSharedBlks_loop start_blk n pTempBuf 0 f
  end.

Fixpoint setSharedBlks_loop (i : Z) (n : nat) (pTempBuf : list Z) (off : Z) (f : F)
    : option (Z * F) :=
  match n with
  | O => Some (0, f)
  | S n' =>
      sect_size ← flash_get_sector_size g_flash_info i f;
      '(_, f) ← flash_sector_erase_int g_flash_info i f;
      d ← mem_read pTempBuf off sect_size;
      '(r, f) ← flash_write_buf g_flash_info i 0 d f;
      if r =? sect_size then setSharedBlks_loop (i + 1) n' pTempBuf (off + sect_size) f
      else Some (-1, f)
  end.

Definition setSharedBlks (start_blk end_blk : Z) (pTempBuf : list Z) (f : F)
    : option (Z * F) :=
  setSharedBlks_loop start_blk (Z.to_nat (end_blk - start_blk)) pTempBuf 0 f.

(** ** Sections

    The six functions of the three sections have two bodies; [limit] is the
    section's length, [start], [number] and [blk_offset] its place. *)

(** The return code and the bytes stored in [string]. *)
Definition section_get (alloc : bool) (limit start number blk_offset strLen offset : Z) (f : F)
    : option (Z * list Z) :=
  if limit <? strLen then Some (-1, [])
  else
    p ← getSharedBlks alloc start (start + number) f;
    match p with
    | None => Some (-1, [])
    | Some pBuf => d ← mem_read pBuf (blk_offset + offset) strLen; Some (0, d)
    end.

(** [string] holds [strLen] bytes at least. *)
Definition section_set (alloc : bool) (limit start number blk_offset : Z) (string : list Z)
    (strLen offset : Z) (f : F) : option (Z * F) :=
  if limit <? strLen then Some (-1, f)
  else
    p ← getSharedBlks alloc start (start + number) f;
    match p with
    | None => Some (-1, f)
    | Some pBuf =>
        d ← mem_read string 0 strLen;
        pBuf ← mem_write pBuf (blk_offset + offset) d;
        '(r, f) ← setSharedBlks start (number + start) pBuf f;
        Some (if negb (r =? 0) then -1 else 0, f)
    end.

Definition kerSysNvRamGet (alloc : bool) (fInfo : FLASH_ADDR_INFO) (strLen offset : Z) (f : F) :=
  section_get alloc NVRAM_LENGTH (flash_nvram_start_blk fInfo) (flash_nvram_number_blk fInfo)
    (flash_nvram_blk_offset fInfo) strLen offset f.

Definition kerSysNvRamSet (alloc : bool) (fInfo : FLASH_ADDR_INFO) (string : list Z)
    (strLen offset : Z) (f : F) :=
  section_set alloc NVRAM_LENGTH (flash_nvram_start_blk fInfo) (flash_nvram_number_blk fInfo)
    (flash_nvram_blk_offset fInfo) string strLen offset f.

(** 1 is success here. *)
Definition kerSysEraseNvRam (alloc alloc' : bool) (fInfo : FLASH_ADDR_INFO) (f : F)
    : option (Z * F) :=
  match retriedKmalloc alloc NVRAM_LENGTH with
  | None => Some (0, f)
  | Some tempStorage =>
      tempStorage ← mem_set tempStorage 0 NVRAM_LENGTH 0xff;
      '(r, f) ← kerSysNvRamSet alloc' fInfo tempStorage NVRAM_LENGTH 0 f;
      Some (if negb (r =? 0) then 0 else 1, f)
  end.

Definition kerSysPersistentGet (alloc : bool) (fInfo : FLASH_ADDR_INFO) (strLen offset : Z) (f : F) :=
  section_get alloc (flash_persistent_length fInfo) (flash_persistent_start_blk fInfo)
    (flash_persistent_number_blk fInfo) (flash_persistent_blk_offset fInfo) strLen offset f.

Definition kerSysPersistentSet (alloc : bool) (fInfo : FLASH_ADDR_INFO) (string : list Z)
    (strLen offset : Z) (f : F) :=
  section_set alloc (flash_persistent_length fInfo) (flash_persistent_start_blk fInfo)
    (flash_persistent_number_blk fInfo) (flash_persistent_blk_offset fInfo) string strLen offset f.

Definition kerSysDarePersistentGet (alloc : bool) (fInfo : FLASH_ADDR_INFO) (strLen offset : Z)
    (f : F) :=
  section_get alloc (flash_dare_persistent_length fInfo) (flash_dare_persistent_start_blk fInfo)
    (flash_dare_persistent_number_blk fInfo) (flash_dare_persistent_blk_offset fInfo)
    strLen offset f.

Definition kerSysDarePersistentSet (alloc : bool) (fInfo : FLASH_ADDR_INFO) (string : list Z)
    (strLen offset : Z) (f : F) :=
  section_set alloc (flash_dare_persistent_length fInfo) (flash_dare_persistent_start_blk fInfo)
    (flash_dare_persistent_number_blk fInfo) (flash_dare_persistent_blk_offset fInfo)
    string strLen offset f.

(** Clears every byte of the scratch pad's sectors. *)
Definition kerSysScratchPadClearAll (alloc : bool) (fInfo : FLASH_ADDR_INFO) (f : F)
    : option (Z * F) :=
  let start := flash_scratch_pad_start_blk fInfo in
  let number := flash_scratch_pad_number_blk fInfo in
  if flash_scratch_pad_length fInfo =? 0 then Some (-1, f)
  else
    p ← getSharedBlks alloc start (start + number) f;
    match p with
    | None => Some (-1, f)
    | Some pShareBuf =>
        used ← usedBlkSize start (Z.to_nat (start + number - start)) 0 f;
        pShareBuf ← mem_set pShareBuf 0 used 0;
        setSharedBlks start (number + start) pShareBuf f
    end.

(** [kerSysReadFromFlash]: the bytes stored at [toaddr]. *)
Definition kerSysReadFromFlash (fromaddr len : Z) (f : F) : option (Z * list Z) :=
  sect ← flash_get_blk g_flash_info fromaddr f;
  start ← flash_get_memptr g_flash_info sect f;
  '(_, bytes) ← flash_read_buf g_flash_info sect (s32 (fromaddr - start)) len f;
  Some (len, bytes).

(** ** Layout *)

(** [kerSysFlashInit].  [ulPsiSize] is the NVRAM's PSI size in KB, [kernelEndAddr]
    the address computed from the image tag, [None] when the tag cannot be read;
    [fInfo] is the record [kerSysEarlyFlashInit] has started. *)
Definition kerSysFlashInit (FLASH_BASE ulPsiSize : Z) (kernelEndAddr : option Z)
    (fInfo : FLASH_ADDR_INFO) (f : F) : option FLASH_ADDR_INFO :=
  let get_blk addr := flash_get_blk g_flash_info addr f in
  let totalBlks := flash_get_numsectors g_flash_info f in
  let totalSize := flash_get_total_size g_flash_info f in
  let psi_length := if negb (ulPsiSize =? 2 ^ 32 - 1) && negb (ulPsiSize =? 0)
                    then s32 (ulPsiSize * ONEK) else DEFAULT_PSI_SIZE * ONEK in
  let startAddr := s32 (totalSize - psi_length) in
  psi_start ← get_blk (startAddr + FLASH_BASE);
  let psi_number := totalBlks - psi_start in
  let spAddr := u32 (startAddr - SP_MAX_LEN) in
  psi_used ← usedBlkSize psi_start (Z.to_nat psi_number) 0 f;
  let psi_offset := u32 (psi_used - psi_length) in
  let fInfo1 sp_start sp_number sp_length sp_offset d_start d_number d_length d_offset :=
    mkFInfo psi_start psi_number psi_length psi_offset sp_start sp_number sp_length sp_offset
      (flash_nvram_start_blk fInfo) (flash_nvram_number_blk fInfo) (flash_nvram_length fInfo)
      (flash_nvram_blk_offset fInfo) (flash_rootfs_start_offset fInfo)
      d_start d_number d_length d_offset in
  match kernelEndAddr with
  | None =>
      Some (fInfo1 (flash_scratch_pad_start_blk fInfo) (flash_scratch_pad_number_blk fInfo)
              (flash_scratch_pad_length fInfo) (flash_scratch_pad_blk_offset fInfo)
              (flash_dare_persistent_start_blk fInfo) (flash_dare_persistent_number_blk fInfo)
              (flash_dare_persistent_length fInfo) (flash_dare_persistent_blk_offset fInfo))
  | Some kernelEndAddr =>
      sp_start ← get_blk (spAddr + FLASH_BASE);
      kernel_blk ← get_blk kernelEndAddr;
      '(sp_number, sp_length, sp_offset, tailSize) ←
        (if negb (sp_start =? kernel_blk) then
           if psi_start =? sp_start then
             Some (1, SP_MAX_LEN, u32 (psi_offset - SP_MAX_LEN), psi_used)
           else
             used ← usedBlkSize sp_start (Z.to_nat (psi_start - sp_start)) 0 f;
             Some (psi_start - sp_start, SP_MAX_LEN, u32 (used - SP_MAX_LEN), psi_used + used)
         else Some (flash_scratch_pad_number_blk fInfo, 0, flash_scratch_pad_blk_offset fInfo,
                    psi_used));
      let darePersistentAddr := u32 (totalSize - tailSize - psi_length) in
      d_start ← get_blk (darePersistentAddr + FLASH_BASE);
      '(d_number, d_length, d_offset) ←
        (if negb (d_start =? kernel_blk) then
           used ← usedBlkSize d_start (Z.to_nat (sp_start - d_start)) 0 f;
           Some (sp_start - d_start, psi_length, u32 (used - psi_length))
         else Some (flash_dare_persistent_number_blk fInfo, 0,
                    flash_dare_persistent_blk_offset fInfo));
      Some (fInfo1 sp_start sp_number sp_length sp_offset d_start d_number d_length d_offset)
  end.

End Store.

(** ** Proofs against the flash contract *)

Section Proofs.
Context {F : Type} {dev : flash_device_info_t F} {FLASH_BASE : Z} {sizes : list Z}
  {img : F -> list Z} {HL : FlashLaws dev FLASH_BASE sizes img}.
Abbreviation g := (Some dev).

(** The offset of sector [k], and the bytes of [n] sectors from it. *)
Abbreviation base k := (sbase sizes k).
Definition span (k : Z) (n : nat) : Z := base (k + Z.of_nat n) - base k.

Lemma device_len : zlen sizes <= MAXSECTORS.
Proof. apply (laws_device (FlashLaws := HL)). Qed.

Lemma base_S k n : 0 <= k -> sizes !! Z.to_nat k = Some n -> base (k + 1) = base k + n.
Proof.
  intros Hk E. unfold sbase. replace (Z.to_nat (k + 1)) with (S (Z.to_nat k)) by lia.
  by apply zsum_take_S.
Qed.

Lemma base_end : base (zlen sizes) = zsum sizes.
Proof. unfold sbase, zlen. by rewrite Nat2Z.id, firstn_all. Qed.

Lemma base_range k : 0 <= base k <= zsum sizes.
Proof. apply zsum_take_le. apply (laws_device (FlashLaws := HL)). Qed.

Lemma base_mono k k' : 0 <= k <= k' -> base k <= base k'.
Proof.
  intros H. unfold sbase. destruct (laws_device (FlashLaws := HL)) as [Hp _].
  replace (take (Z.to_nat k) sizes) with (take (Z.to_nat k) (take (Z.to_nat k') sizes))
    by (rewrite take_take; f_equal; lia).
  apply zsum_take_le. by apply Forall_take.
Qed.

Lemma span_range k n : 0 <= k -> 0 <= span k n /\ base k + span k n <= zsum sizes.
Proof.
  intros. unfold span. pose proof (base_mono k (k + Z.of_nat n)). pose proof (base_range (k + Z.of_nat n)). lia.
Qed.

Lemma span_S k n s :
  0 <= k -> sizes !! Z.to_nat k = Some s -> span k (S n) = s + span (k + 1) n.
Proof.
  intros Hk E. unfold span. rewrite (base_S k s) by done.
  replace (k + Z.of_nat (S n)) with (k + 1 + Z.of_nat n) by lia. lia.
Qed.

(** Sector [k] exists, as the API sees it. *)
Lemma sector_exists k :
  0 <= k < zlen sizes -> exists s, sizes !! Z.to_nat k = Some s /\ 0 < s /\ u16 k = k /\
    base k + s <= zsum sizes /\ 0 <= base k.
Proof.
  intros Hk. destruct (lookup_lt_is_Some_2 sizes (Z.to_nat k)) as [s E]; [unfold zlen in Hk; lia|].
  exists s. destruct (size_lookup sizes (Z.to_nat k) s (laws_device (FlashLaws := HL)) E).
  rewrite Z2Nat.id in * by lia. pose proof device_len. unfold MAXSECTORS in *.
  rewrite u16_id by (unfold is_u16; lia). intuition.
Qed.

Lemma api_size k s f :
  0 <= k < zlen sizes -> sizes !! Z.to_nat k = Some s -> flash_get_sector_size g k f = Some s.
Proof.
  intros Hk E. destruct (sector_exists k Hk) as (s' & E' & _ & Hu & _). cbn. rewrite Hu.
  rewrite <- (Z2Nat.id k) by lia. by apply laws_size.
Qed.

Lemma usedBlkSize_spec f n : forall k used,
  0 <= k -> k + Z.of_nat n <= zlen sizes -> 0 <= used -> used + span k n < 2 ^ 31 ->
  usedBlkSize g k n used f = Some (used + span k n).
Proof.
  induction n as [|n IH]; intros k used Hk Hn Hu Hs.
  - cbn. unfold span. rewrite Z.add_0_r. do 2 f_equal. lia.
  - destruct (sector_exists k) as (s & E & Hs0 & _); [lia|]. cbn [usedBlkSize].
    rewrite (api_size k s) by (done || lia). cbn [mbind option_bind].
    rewrite (span_S k n s) in * by done. pose proof (span_range (k + 1) n ltac:(lia)).
    rewrite s32_id by (unfold is_s32; lia). rewrite IH by lia. f_equal. lia.
Qed.

(** Reading shared sectors copies them out. *)
Lemma getSharedBlks_loop_spec f n : forall k buf off,
  0 <= k -> k + Z.of_nat n <= zlen sizes -> 0 <= off -> off + span k n <= zlen buf ->
  getSharedBlks_loop g k n buf off f = Some (splice off (slice (base k) (span k n) (img f)) buf).
Proof.
  induction n as [|n IH]; intros k buf off Hk Hn Ho Hl.
  - cbn. unfold span. by rewrite Z.add_0_r, Z.sub_diag, slice_0, splice_nil.
  - destruct (sector_exists k) as (s & E & Hs0 & Hu & Hb & Hb0); [lia|].
    cbn [getSharedBlks_loop]. rewrite (api_size k s) by (done || lia). cbn [mbind option_bind].
    destruct (laws_read (FlashLaws := HL) f (Z.to_nat k) s 0 s) as [r Hr]; [done|lia..|].
    rewrite Z2Nat.id in Hr by lia. cbn [flash_read_buf]. rewrite Hu, Hr. cbn [mbind option_bind].
    rewrite Z.add_0_r. rewrite (span_S k n s) in * by done.
    pose proof (span_range (k + 1) n ltac:(lia)) as [Hsp0 Hsp1].
    assert (Hz : zlen (img f) = zsum sizes) by apply laws_img.
    assert (Hzs : zlen (slice (base k) s (img f)) = s) by (apply zlen_slice; lia).
    rewrite mem_write_Some by lia. cbn [mbind option_bind].
    rewrite IH; [|lia|lia|lia|rewrite zlen_splice; lia]. f_equal.
    rewrite (slice_app (base k) s (span (k + 1) n)) by lia.
    rewrite (base_S k s) by done.
    assert (Hz2 : zlen (slice (base k + s) (span (k + 1) n) (img f)) = span (k + 1) n)
      by (apply zlen_slice; [lia|lia|]; rewrite <- (base_S k s) by done; lia).
    by rewrite splice_splice by lia.
Qed.

Lemma getSharedBlks_spec f alloc k n :
  0 <= k -> k + Z.of_nat n <= zlen sizes ->
  getSharedBlks g alloc k (k + Z.of_nat n) f =
    Some (if alloc then Some (slice (base k) (span k n) (img f)) else None).
Proof.
  intros Hk Hn. unfold getSharedBlks. pose proof (span_range k n Hk). pose proof (base_range k).
  destruct (laws_device (FlashLaws := HL)) as (_ & _ & Hsum).
  replace (Z.to_nat (k + Z.of_nat n - k)) with n by lia.
  rewrite usedBlkSize_spec by lia. cbn [mbind option_bind]. unfold retriedKmalloc.
  destruct alloc; [|done]. cbn [andb]. destruct (Z.leb_spec 0 (0 + span k n)); [|lia].
  rewrite getSharedBlks_loop_spec by (rewrite ?zlen_replicate; lia). cbn. do 2 f_equal.
  apply splice_all. rewrite zlen_replicate, zlen_slice; [lia|lia|lia|].
  rewrite laws_img. lia.
Qed.

(** Rewriting shared sectors: the other sectors stay, and success means that the
    sectors hold the buffer. *)
Lemma setSharedBlks_loop_spec n : forall k buf off f,
  0 <= k -> k + Z.of_nat n <= zlen sizes -> 0 <= off -> off + span k n <= zlen buf ->
  exists r f', setSharedBlks_loop g k n buf off f = Some (r, f') /\
    same_outside (base k) (span k n) (img f) (img f') /\
    (r = 0 -> Forall is_u8 buf -> slice (base k) (span k n) (img f') = slice off (span k n) buf) /\
    (r = 0 \/ r = -1).
Proof.
  induction n as [|n IH]; intros k buf off f Hk Hn Ho Hl.
  - exists 0, f. unfold span. rewrite Z.add_0_r, Z.sub_diag. do 2 (split; [done|]).
    split; [|by left]. by rewrite !slice_0.
  - destruct (sector_exists k) as (s & E & Hs0 & Hu & Hb & Hb0); [lia|].
    cbn [setSharedBlks_loop]. rewrite (api_size k s) by (done || lia). cbn [mbind option_bind].
    rewrite (span_S k n s) in * by done.
    pose proof (span_range (k + 1) n ltac:(lia)) as [Hsp0 Hsp1]. pose proof (base_S k s Hk E) as Eb.
    destruct (laws_erase (FlashLaws := HL) f (Z.to_nat k) s E) as (r1 & f1 & E1 & H1).
    rewrite Z2Nat.id in E1, H1 by lia. cbn [flash_sector_erase_int]. rewrite Hu, E1.
    cbn [mbind option_bind].
    rewrite mem_read_Some by lia. cbn [mbind option_bind].
    assert (Hd : zlen (slice off s buf) = s) by (apply zlen_slice; lia).
    destruct (laws_write (FlashLaws := HL) f1 (Z.to_nat k) s (slice off s buf) E)
      as (r2 & f2 & E2 & H2 & H2d); [lia|by left|]. rewrite Hd in H2d.
    rewrite Z2Nat.id in E2, H2, H2d by lia. cbn [flash_write_buf]. rewrite Hu, E2.
    cbn [mbind option_bind].
    pose proof (same_outside_trans _ _ _ _ _ H1 H2) as H12.
    destruct (Z.eqb_spec r2 s) as [->|Hr].
    + destruct (IH (k + 1) buf (off + s) f2) as (r & f' & -> & Hf' & Hdat & Hr); [lia..|].
      exists r, f'. split; [done|]. split_and!.
      * eapply same_outside_trans; eapply same_outside_weaken; eauto; lia.
      * intros Hr0 Hby. rewrite !slice_app by lia. rewrite <- Eb, Hdat by done. f_equal.
        rewrite (same_outside_slice (base (k + 1)) (span (k + 1) n) (img f2)) by (done || lia).
        apply H2d; [done|by apply Forall_slice|eauto].
      * done.
    + exists (-1), f2. split; [done|]. split_and!; [|done|by right].
      eapply same_outside_weaken; [done|lia|lia].
Qed.

Lemma setSharedBlks_spec k n buf f :
  0 <= k -> k + Z.of_nat n <= zlen sizes -> zlen buf = span k n ->
  exists r f', setSharedBlks g k (Z.of_nat n + k) buf f = Some (r, f') /\
    same_outside (base k) (span k n) (img f) (img f') /\
    (r = 0 -> Forall is_u8 buf -> slice (base k) (span k n) (img f') = buf) /\ (r = 0 \/ r = -1).
Proof.
  intros Hk Hn Hb. unfold setSharedBlks. replace (Z.to_nat (Z.of_nat n + k - k)) with n by lia.
  destruct (setSharedBlks_loop_spec n k buf 0 f) as (r & f' & E & Hs & Hd & Hr); [lia..|].
  exists r, f'. split; [done|]. split; [done|]. split; [|done]. intros Hr0 Hby.
  rewrite Hd, <- Hb by done. apply slice_full.
Qed.

(** ** Sections *)

(** A section lies inside its sectors, which are sectors of the device. *)
Definition placed (limit start number blk_offset : Z) : Prop :=
  0 <= start /\ 0 <= number /\ start + number <= zlen sizes /\ 0 <= blk_offset /\
  blk_offset + limit <= span start (Z.to_nat number).

(** The device offset of a section. *)
Definition section_at (start blk_offset : Z) : Z := base start + blk_offset.

Lemma placed_range limit start number blk_offset :
  placed limit start number blk_offset ->
  0 <= section_at start blk_offset /\ section_at start blk_offset + limit <= zsum sizes.
Proof.
  intros (Hs & Hn & He & Ho & Hl). unfold section_at. pose proof (base_range start).
  pose proof (span_range start (Z.to_nat number) Hs). lia.
Qed.

Lemma section_get_ok limit start number blk_offset strLen offset f :
  placed limit start number blk_offset -> 0 <= strLen -> 0 <= offset -> offset + strLen <= limit ->
  section_get g true limit start number blk_offset strLen offset f =
    Some (0, slice (section_at start blk_offset + offset) strLen (img f)).
Proof.
  intros (Hs & Hn & He & Ho & Hl) Hlen Hoff Hfit. unfold section_get.
  destruct (Z.ltb_spec limit strLen); [lia|].
  rewrite <- (Z2Nat.id number) at 1 by lia. rewrite getSharedBlks_spec by lia.
  cbn [mbind option_bind].
  pose proof (span_range start (Z.to_nat number) Hs). pose proof (base_range start).
  rewrite mem_read_Some; [|lia|lia|rewrite zlen_slice; rewrite ?laws_img; lia].
  cbn [mbind option_bind]. rewrite slice_slice by lia. unfold section_at. by rewrite Z.add_assoc.
Qed.

(** A successful set writes its bytes into the section and changes no other byte
    of the device; a failed one can only have damaged the section's sectors. *)
Lemma section_set_ok limit start number blk_offset string strLen offset f :
  placed limit start number blk_offset -> 0 <= strLen <= zlen string -> 0 <= offset ->
  offset + strLen <= limit ->
  exists r f', section_set g true limit start number blk_offset string strLen offset f = Some (r, f') /\
    (r = 0 \/ r = -1) /\
    same_outside (base start) (span start (Z.to_nat number)) (img f) (img f') /\
    (r = 0 -> Forall is_u8 string ->
     img f' = splice (section_at start blk_offset + offset) (slice 0 strLen string) (img f)).
Proof.
  intros (Hs & Hn & He & Ho & Hl) Hlen Hoff Hfit. unfold section_set.
  destruct (Z.ltb_spec limit strLen); [lia|].
  remember (Z.to_nat number) as n eqn:En. assert (number = Z.of_nat n) as -> by lia.
  rewrite getSharedBlks_spec by lia. cbn [mbind option_bind].
  pose proof (span_range start n Hs). pose proof (base_range start).
  assert (Hd : zlen (slice 0 strLen string) = strLen) by (apply zlen_slice; lia).
  assert (Hb : zlen (slice (base start) (span start n) (img f)) = span start n)
    by (apply zlen_slice; rewrite ?laws_img; lia).
  rewrite mem_read_Some by lia. cbn [mbind option_bind].
  rewrite mem_write_Some by lia. cbn [mbind option_bind].
  assert (Hdat' : zlen (splice (blk_offset + offset) (slice 0 strLen string)
                          (slice (base start) (span start n) (img f))) = span start n)
    by (rewrite zlen_splice; lia).
  destruct (setSharedBlks_spec start n _ f Hs ltac:(lia) Hdat')
    as (r & f' & -> & Hsame & Hdat & Hr).
  cbn [mbind option_bind]. exists (if negb (r =? 0) then -1 else 0), f'.
  split; [done|]. split; [destruct (r =? 0); auto|]. split; [done|].
  destruct (Z.eqb_spec r 0) as [->|]; [|done]. intros _ Hby.
  assert (Hby' : Forall is_u8 (splice (blk_offset + offset) (slice 0 strLen string)
                          (slice (base start) (span start n) (img f))))
    by (apply Forall_splice; [by apply Forall_slice|apply Forall_slice, laws_bytes]).
  rewrite (same_outside_eq _ _ _ _ _ Hsame ltac:(lia) Hdat' ltac:(rewrite laws_img; lia)
    (Hdat eq_refl Hby')).
  rewrite splice_slice_splice by (rewrite ?laws_img; lia). unfold section_at.
  by rewrite Z.add_assoc.
Qed.

(** On a working device a set succeeds. *)
Lemma setSharedBlks_loop_works {HR : FlashReliable dev sizes} n : forall k buf off f,
  0 <= k -> k + Z.of_nat n <= zlen sizes -> 0 <= off -> off + span k n <= zlen buf ->
  Forall is_u8 buf -> exists f', setSharedBlks_loop g k n buf off f = Some (0, f').
Proof.
  induction n as [|n IH]; intros k buf off f Hk Hn Ho Hl Hby; [by exists f|].
  destruct (sector_exists k) as (s & E & Hs0 & Hu & Hb & Hb0); [lia|].
  cbn [setSharedBlks_loop]. rewrite (api_size k s) by (done || lia). cbn [mbind option_bind].
  rewrite (span_S k n s) in * by done.
  pose proof (span_range (k + 1) n ltac:(lia)) as [Hsp0 Hsp1].
  destruct (laws_erase (FlashLaws := HL) f (Z.to_nat k) s E) as (r1 & f1 & E1 & H1).
  assert (Hd : zlen (slice off s buf) = s) by (apply zlen_slice; lia).
  destruct (reliable_rewrite (FlashReliable := HR) f (Z.to_nat k) s (slice off s buf) r1 f1)
    as [f2 E2]; [done|lia|by left|by apply Forall_slice|done|]. rewrite Hd in E2.
  rewrite Z2Nat.id in E1, E2 by lia. cbn [flash_sector_erase_int flash_write_buf].
  rewrite Hu, E1. cbn [mbind option_bind]. rewrite mem_read_Some by lia.
  cbn [mbind option_bind]. rewrite E2. cbn [mbind option_bind]. rewrite Z.eqb_refl.
  apply IH; done || lia.
Qed.

Lemma section_set_works {HR : FlashReliable dev sizes} limit start number blk_offset string strLen offset f :
  placed limit start number blk_offset -> 0 <= strLen <= zlen string -> 0 <= offset ->
  offset + strLen <= limit -> Forall is_u8 string ->
  exists f', section_set g true limit start number blk_offset string strLen offset f = Some (0, f').
Proof.
  intros (Hs & Hn & He & Ho & Hl) Hlen Hoff Hfit Hby. unfold section_set.
  destruct (Z.ltb_spec limit strLen); [lia|].
  remember (Z.to_nat number) as n eqn:En. assert (number = Z.of_nat n) as -> by lia.
  rewrite getSharedBlks_spec by lia. cbn [mbind option_bind].
  pose proof (span_range start n Hs). pose proof (base_range start).
  assert (Hd : zlen (slice 0 strLen string) = strLen) by (apply zlen_slice; lia).
  assert (Hb : zlen (slice (base start) (span start n) (img f)) = span start n)
    by (apply zlen_slice; rewrite ?laws_img; lia).
  rewrite mem_read_Some by lia. cbn [mbind option_bind].
  rewrite mem_write_Some by lia. cbn [mbind option_bind]. unfold setSharedBlks.
  replace (Z.to_nat (Z.of_nat n + start - start)) with n by lia.
  match goal with |- context [setSharedBlks_loop _ _ _ ?buf _ _] =>
    destruct (setSharedBlks_loop_works n start buf 0 f) as [f' ->]
  end; [lia|lia|lia|rewrite zlen_splice; lia| |by exists f'].
  apply Forall_splice; [by apply Forall_slice|apply Forall_slice, laws_bytes].
Qed.

(** ** Layout *)

(** The block of a device offset. *)
Lemma blk_at x f :
  0 <= x < zsum sizes ->
  exists k, flash_get_blk g (x + FLASH_BASE) f = Some k /\ 0 <= k < zlen sizes /\
    base k <= x < base (k + 1).
Proof.
  intros Hx. destruct (laws_device (FlashLaws := HL)) as (_ & _ & Hsum).
  destruct (laws_blk (FlashLaws := HL) f (s32 (x + FLASH_BASE))) as (k & E & Hin & _).
  rewrite s32_sub_add in Hin by (unfold is_s32; lia).
  destruct (Hin Hx) as (n & Hk & Hk0 & Hr). exists k. split; [done|].
  rewrite (base_S k n) by done. apply lookup_lt_Some in Hk. unfold zlen. split; [lia|].
  unfold sbase. lia.
Qed.

(** Sector order follows offset order. *)
Lemma base_lt_inv k k' : 0 <= k' -> base k < base k' -> k < k'.
Proof. intros Hk H. destruct (Z_lt_le_dec k k'); [done|]. pose proof (base_mono k' k). lia. Qed.

Lemma used_between k k' f :
  0 <= k <= k' -> k' <= zlen sizes ->
  usedBlkSize g k (Z.to_nat (k' - k)) 0 f = Some (base k' - base k) /\
  span k (Z.to_nat (k' - k)) = base k' - base k.
Proof.
  intros H1 H2. destruct (laws_device (FlashLaws := HL)) as (_ & _ & Hsum).
  assert (Hs : span k (Z.to_nat (k' - k)) = base k' - base k).
  { unfold span. do 2 f_equal. lia. }
  pose proof (span_range k (Z.to_nat (k' - k)) ltac:(lia)). pose proof (base_range k).
  split; [|done]. rewrite usedBlkSize_spec by lia. f_equal. lia.
Qed.

(** The length of the PSI section. *)
Definition psi_len (ulPsiSize : Z) : Z :=
  (if ulPsiSize =? 0 then DEFAULT_PSI_SIZE else ulPsiSize) * ONEK.

(** What the layout promises: the sections are inside their sectors; the second
    configuration, the scratch pad and the PSI follow each other up to the end of
    the device; and the sectors of the second configuration end where those of
    the scratch pad begin. *)
Definition layout_ok (fi : FLASH_ADDR_INFO) (L : Z) : Prop :=
  flash_persistent_length fi = L /\ flash_scratch_pad_length fi = SP_MAX_LEN /\
  flash_dare_persistent_length fi = L /\
  placed L (flash_persistent_start_blk fi) (flash_persistent_number_blk fi)
    (flash_persistent_blk_offset fi) /\
  placed SP_MAX_LEN (flash_scratch_pad_start_blk fi) (flash_scratch_pad_number_blk fi)
    (flash_scratch_pad_blk_offset fi) /\
  placed L (flash_dare_persistent_start_blk fi) (flash_dare_persistent_number_blk fi)
    (flash_dare_persistent_blk_offset fi) /\
  section_at (flash_persistent_start_blk fi) (flash_persistent_blk_offset fi) + L = zsum sizes /\
  section_at (flash_scratch_pad_start_blk fi) (flash_scratch_pad_blk_offset fi) + SP_MAX_LEN <=
    section_at (flash_persistent_start_blk fi) (flash_persistent_blk_offset fi) /\
  section_at (flash_dare_persistent_start_blk fi) (flash_dare_persistent_blk_offset fi) + L =
    base (flash_scratch_pad_start_blk fi) /\
  flash_dare_persistent_start_blk fi + flash_dare_persistent_number_blk fi =
    flash_scratch_pad_start_blk fi.

Lemma u32_small x : 0 <= x < 2 ^ 31 -> u32 x = x.
Proof. intros. apply u32_id. unfold is_u32. lia. Qed.

Ltac cbn_fields :=
  cbn [flash_persistent_start_blk flash_persistent_number_blk flash_persistent_length
       flash_persistent_blk_offset flash_scratch_pad_start_blk flash_scratch_pad_number_blk
       flash_scratch_pad_length flash_scratch_pad_blk_offset flash_dare_persistent_start_blk
       flash_dare_persistent_number_blk flash_dare_persistent_length
       flash_dare_persistent_blk_offset].

(** The second part of [kerSysFlashInit], once the block [q] of the scratch pad
    is known: the second configuration ends at [x], a sector boundary. *)
Lemma dare_place x q L f :
  0 < L <= x -> 0 <= q <= zlen sizes -> x = base q ->
  exists d, flash_get_blk g (u32 (x - L) + FLASH_BASE) f = Some d /\ 0 <= d < q /\
    usedBlkSize g d (Z.to_nat (q - d)) 0 f = Some (base q - base d) /\
    u32 (base q - base d - L) = x - L - base d /\ 0 <= x - L - base d /\
    span d (Z.to_nat (q - d)) = base q - base d.
Proof.
  intros HLx Hq ->. destruct (laws_device (FlashLaws := HL)) as (_ & _ & Hsum).
  pose proof (base_range q). rewrite u32_small by lia.
  destruct (blk_at (base q - L) f) as (d & Ed & Hd & Hr); [lia|].
  assert (d < q) by (apply base_lt_inv; lia).
  destruct (used_between d q f) as [Hu Hs]; [lia|lia|]. pose proof (base_range d).
  exists d. rewrite Ed, Hu, Hs, u32_small by lia. intuition lia.
Qed.

Lemma psi_len_ok ulPsiSize :
  0 <= ulPsiSize <= 64 ->
  0 < psi_len ulPsiSize <= 2 ^ 16 /\
  (if negb (ulPsiSize =? 2 ^ 32 - 1) && negb (ulPsiSize =? 0)
   then s32 (ulPsiSize * ONEK) else DEFAULT_PSI_SIZE * ONEK) = psi_len ulPsiSize.
Proof.
  intros Hu. unfold psi_len, ONEK, DEFAULT_PSI_SIZE.
  split; ztest; try lia. by rewrite s32_id by (unfold is_s32; lia).
Qed.

(** The sectors in which the PSI and the scratch pad start. *)
Lemma tail_blocks M L f :
  0 < L <= 2 ^ 16 -> Forall (fun s => 8 * 1024 <= s <= M) sizes ->
  2 * L + 8 * 1024 + M <= zsum sizes ->
  0 <= M /\ exists p q sq,
    flash_get_blk g (zsum sizes - L + FLASH_BASE) f = Some p /\
    flash_get_blk g (zsum sizes - L - 8 * 1024 + FLASH_BASE) f = Some q /\
    0 <= q <= p /\ p < zlen sizes /\ base q <= base p /\
    base p <= zsum sizes - L < base (p + 1) /\
    base q <= zsum sizes - L - 8 * 1024 < base (q + 1) /\
    base (q + 1) = base q + sq /\ 8 * 1024 <= sq <= M.
Proof.
  intros HL0 HM HT.
  assert (HMs : forall k s, sizes !! k = Some s -> 8 * 1024 <= s <= M)
    by (intros; by eapply (Forall_lookup_1 _ _ _ _ HM)).
  assert (HM0 : 0 <= M).
  { destruct (sector_exists 0) as (s & E & _); [|specialize (HMs _ _ E); lia].
    pose proof (laws_device (FlashLaws := HL)) as (_ & ? & _). lia. }
  destruct (blk_at (zsum sizes - L) f) as (p & Ep & Hp & Hpr); [lia|].
  destruct (blk_at (zsum sizes - L - 8 * 1024) f) as (q & Eq & Hq & Hqr); [lia|].
  assert (Hqp : q <= p) by (assert (q < p + 1) by (apply base_lt_inv; lia); lia).
  destruct (sector_exists q Hq) as (sq & Esq & _). pose proof (HMs _ _ Esq).
  pose proof (base_S q sq ltac:(lia) Esq) as HSq. pose proof (base_mono q p).
  split; [done|]. exists p, q, sq. split_and!; done || lia.
Qed.

Lemma kerSysFlashInit_ok M ulPsiSize ke fInfo f :
  let L := psi_len ulPsiSize in
  0 <= ulPsiSize <= 64 -> Forall (fun s => SP_MAX_LEN <= s <= M) sizes ->
  2 * L + SP_MAX_LEN + M <= zsum sizes ->
  exists kb fi, flash_get_blk g ke f = Some kb /\
    kerSysFlashInit g FLASH_BASE ulPsiSize (Some ke) fInfo f = Some fi /\
    (kb < flash_dare_persistent_start_blk fi -> kb < flash_scratch_pad_start_blk fi -> layout_ok fi L).
Proof.
  intros L Hu HM HT. destruct (laws_device (FlashLaws := HL)) as (_ & _ & Hsum).
  destruct (psi_len_ok ulPsiSize Hu) as [HL0 Epsi]. fold L in HL0, Epsi.
  destruct (laws_blk (FlashLaws := HL) f (s32 ke)) as (kb & Ekb & _).
  exists kb. unfold kerSysFlashInit.
  cbn [flash_get_numsectors flash_get_total_size]. rewrite laws_numsectors, laws_total, Epsi.
  clearbody L. unfold SP_MAX_LEN in *.
  destruct (tail_blocks M L f HL0 HM HT)
    as (HM0 & p & q & sq & Ep & Eq & Hqp & Hp & Hbqp & Hpr & Hqr & HSq & Hsq8).
  rewrite (s32_id (zsum sizes - L)) by (unfold is_s32; lia). rewrite Ep. cbn [mbind option_bind].
  destruct (used_between p (zlen sizes) f) as [Hup Hsp]; [lia|lia|]. rewrite Hup.
  rewrite base_end in *. cbn [mbind option_bind].
  rewrite (u32_small (zsum sizes - L - 8 * 1024)), Eq by lia.
  cbn [mbind option_bind flash_get_blk]. rewrite Ekb. cbn [mbind option_bind].
  pose proof (base_range p). pose proof (base_range q).
  rewrite (u32_small (zsum sizes - base p - L)) by lia.
  destruct (Z.eqb_spec q kb) as [->|Hne]; cbn [negb].
  - destruct (dare_place (base p) p L f) as (d & Ed & Hd & _); [lia|lia|done|].
    cbn [mbind option_bind].
    replace (zsum sizes - (zsum sizes - base p) - L) with (base p - L) by lia.
    cbn [flash_get_blk] in Ed. rewrite Ed.
    cbn [mbind option_bind].
    destruct (Z.eqb_spec d kb); cbn [negb mbind option_bind].
    + eexists. split; [done|]. split; [done|]. cbn. lia.
    + pose proof (span_range d (Z.to_nat (kb - d)) ltac:(lia)). pose proof (base_range d).
      rewrite usedBlkSize_spec by lia. cbn [mbind option_bind].
      eexists. split; [done|]. split; [done|]. cbn. lia.
  - destruct (dare_place (base q) q L f) as (d & Ed & Hd & Hud & Hod & Hod0 & Hsd);
      [lia|lia|done|]. cbn [flash_get_blk] in Ed.
    destruct (Z.eqb_spec p q) as [->|Hpq]; cbn [mbind option_bind].
    + rewrite (u32_small (zsum sizes - base q - L - 8 * 1024)) by lia.
      replace (zsum sizes - (zsum sizes - base q) - L) with (base q - L) by lia.
      rewrite Ed. cbn [mbind option_bind].
      destruct (Z.eqb_spec d kb); cbn [negb mbind option_bind].
      * eexists. split; [done|]. split; [done|]. cbn. lia.
      * rewrite Hud. cbn [mbind option_bind]. rewrite Hod.
        eexists. split; [done|]. split; [done|]. intros _ _.
        assert (Hs1 : span q (Z.to_nat 1) = sq) by (unfold span; change (Z.of_nat (Z.to_nat 1)) with 1; lia).
        unfold layout_ok, placed, section_at, SP_MAX_LEN. cbn_fields. rewrite Hsp, Hsd, Hs1.
        split_and!; lia.
    + destruct (used_between q p f) as [Huq Hsq]; [lia|lia|]. rewrite Huq.
      cbn [mbind option_bind]. pose proof (base_mono (q + 1) p ltac:(lia)).
      rewrite (u32_small (base p - base q - 8 * 1024)) by lia.
      replace (zsum sizes - (zsum sizes - base p + (base p - base q)) - L) with (base q - L) by lia.
      rewrite Ed. cbn [mbind option_bind].
      destruct (Z.eqb_spec d kb); cbn [negb mbind option_bind].
      * eexists. split; [done|]. split; [done|]. cbn. lia.
      * rewrite Hud. cbn [mbind option_bind]. rewrite Hod.
        eexists. split; [done|]. split; [done|]. intros _ _.
        unfold layout_ok, placed, section_at, SP_MAX_LEN. cbn_fields. rewrite Hsp, Hsd, Hsq.
        split_and!; lia.
Qed.

End Proofs.

(** ** Properties *)

(** The three sections of the driver. *)
Inductive flash_section := NVRAM | PSI | PSI2.

Section Properties.
Context {F : Type} {dev : flash_device_info_t F} {FLASH_BASE : Z} {sizes : list Z}
  {img : F -> list Z} {HL : FlashLaws dev FLASH_BASE sizes img}.
Abbreviation g := (Some dev).

Definition store_get (s : flash_section) :=
  match s with
  | NVRAM => @kerSysNvRamGet F g
  | PSI => @kerSysPersistentGet F g
  | PSI2 => @kerSysDarePersistentGet F g
  end.

Definition store_set (s : flash_section) :=
  match s with
  | NVRAM => @kerSysNvRamSet F g
  | PSI => @kerSysPersistentSet F g
  | PSI2 => @kerSysDarePersistentSet F g
  end.

Definition sect_limit (s : flash_section) (fInfo : FLASH_ADDR_INFO) : Z :=
  match s with
  | NVRAM => NVRAM_LENGTH
  | PSI => flash_persistent_length fInfo
  | PSI2 => flash_dare_persistent_length fInfo
  end.

(** Start sector, number of sectors, offset in the first. *)
Definition sect_place (s : flash_section) (fInfo : FLASH_ADDR_INFO) : Z * Z * Z :=
  match s with
  | NVRAM => (flash_nvram_start_blk fInfo, flash_nvram_number_blk fInfo, flash_nvram_blk_offset fInfo)
  | PSI => (flash_persistent_start_blk fInfo, flash_persistent_number_blk fInfo,
            flash_persistent_blk_offset fInfo)
  | PSI2 => (flash_dare_persistent_start_blk fInfo, flash_dare_persistent_number_blk fInfo,
             flash_dare_persistent_blk_offset fInfo)
  end.

Definition sect_start s fInfo := fst (fst (sect_place s fInfo)).
Definition sect_number s fInfo := snd (fst (sect_place s fInfo)).
Definition sect_offset s fInfo := snd (sect_place s fInfo).

Definition sect_placed (s : flash_section) (fInfo : FLASH_ADDR_INFO) : Prop :=
  placed (sizes := sizes) (sect_limit s fInfo) (sect_start s fInfo) (sect_number s fInfo)
    (sect_offset s fInfo).

(** The device offset of the section. *)
Definition sect_addr (s : flash_section) (fInfo : FLASH_ADDR_INFO) : Z :=
  section_at (sizes := sizes) (sect_start s fInfo) (sect_offset s fInfo).

Lemma store_get_eq s alloc fInfo strLen offset f :
  store_get s alloc fInfo strLen offset f =
  section_get g alloc (sect_limit s fInfo) (sect_start s fInfo) (sect_number s fInfo)
    (sect_offset s fInfo) strLen offset f.
Proof. by destruct s. Qed.

Lemma store_set_eq s alloc fInfo string strLen offset f :
  store_set s alloc fInfo string strLen offset f =
  section_set g alloc (sect_limit s fInfo) (sect_start s fInfo) (sect_number s fInfo)
    (sect_offset s fInfo) string strLen offset f.
Proof. by destruct s. Qed.

(** A set, and a get of the same range. *)
Lemma store_roundtrip s fInfo string strLen offset f :
  sect_placed s fInfo -> 0 <= strLen <= zlen string -> 0 <= offset ->
  offset + strLen <= sect_limit s fInfo ->
  exists r f', store_set s true fInfo string strLen offset f = Some (r, f') /\
    (r = 0 \/ r = -1) /\
    same_outside (sbase sizes (sect_start s fInfo))
      (span (sizes := sizes) (sect_start s fInfo) (Z.to_nat (sect_number s fInfo))) (img f) (img f') /\
    (r = 0 -> Forall is_u8 string ->
      img f' = splice (sect_addr s fInfo + offset) (slice 0 strLen string) (img f) /\
      store_get s true fInfo strLen offset f' = Some (0, slice 0 strLen string)).
Proof.
  intros Hp Hs Ho Hfit.
  destruct (section_set_ok (HL := HL) _ _ _ _ string strLen offset f Hp Hs Ho Hfit)
    as (r & f' & E & Hr & Hsame & Hd).
  exists r, f'. rewrite store_set_eq. split; [done|]. split; [done|]. split; [done|].
  intros Hr0 Hby. specialize (Hd Hr0 Hby). split; [done|].
  rewrite store_get_eq, (section_get_ok (HL := HL)) by (done || lia). do 2 f_equal.
  pose proof (placed_range (HL := HL) _ _ _ _ Hp).
  assert (Hz : zlen (slice 0 strLen string) = strLen) by (apply zlen_slice; lia).
  pose proof (laws_img (FlashLaws := HL) f) as Hi.
  pose proof (slice_splice_eq (sect_addr s fInfo + offset) (slice 0 strLen string) (img f)) as Hq.
  unfold sect_addr in *. rewrite Hz in Hq. rewrite Hd. apply Hq; lia.
Qed.

(** On a device that works, in the terms of the contents. *)
Lemma store_works {HR : FlashReliable dev sizes} s fInfo string strLen offset f :
  sect_placed s fInfo -> 0 <= strLen <= zlen string -> 0 <= offset ->
  offset + strLen <= sect_limit s fInfo -> Forall is_u8 string ->
  exists f', store_set s true fInfo string strLen offset f = Some (0, f') /\
    img f' = splice (sect_addr s fInfo + offset) (slice 0 strLen string) (img f) /\
    store_get s true fInfo strLen offset f' = Some (0, slice 0 strLen string).
Proof.
  intros Hp Hs Ho Hfit Hb. destruct (store_roundtrip s fInfo string strLen offset f Hp Hs Ho Hfit)
    as (r & f' & E & _ & _ & Hr). rewrite store_set_eq in *.
  destruct (section_set_works (HL := HL) (HR := HR) _ _ _ _ string strLen offset f Hp Hs Ho Hfit Hb) as [f2 E2].
  rewrite E in E2. injection E2 as -> ->. exists f2. split; [done|]. by apply Hr.
Qed.

(** C3: storing and reading back.  For each of the three sections, a set of
    [strLen] bytes inside the section ends with 0 or -1.  After 0, a get of the
    same range returns those bytes, and the device differs from before in these
    bytes only - the other data of the rewritten sectors included; after -1 no
    byte outside the section's sectors has changed. *)
Theorem store_set_get s fInfo string strLen offset f :
  sect_placed s fInfo -> 0 <= strLen <= zlen string -> 0 <= offset ->
  offset + strLen <= sect_limit s fInfo ->
  exists r f', store_set s true fInfo string strLen offset f = Some (r, f') /\
    (r = 0 \/ r = -1) /\
    same_outside (sbase sizes (sect_start s fInfo))
      (span (sizes := sizes) (sect_start s fInfo) (Z.to_nat (sect_number s fInfo))) (img f) (img f') /\
    (r = 0 -> Forall is_u8 string ->
      img f' = splice (sect_addr s fInfo + offset) (slice 0 strLen string) (img f) /\
      store_get s true fInfo strLen offset f' = Some (0, slice 0 strLen string)).
Proof. apply store_roundtrip. Qed.

(** On a device that works (an erased sector can be written) a set of bytes
    inside the section succeeds. *)
Theorem store_set_succeeds {HR : FlashReliable dev sizes} s fInfo string strLen offset f :
  sect_placed s fInfo -> 0 <= strLen <= zlen string -> 0 <= offset ->
  offset + strLen <= sect_limit s fInfo -> Forall is_u8 string ->
  exists f', store_set s true fInfo string strLen offset f = Some (0, f').
Proof.
  intros. rewrite store_set_eq. by apply (section_set_works (HL := HL)).
Qed.

(** Errors and bounds of the section functions.  A length above the
    section's limit or a failed allocation gives -1 and leaves the flash as it
    is.  But the offset is not checked: a get or set whose length is within the
    limit and whose range ends beyond the section's sectors leaves the buffer. *)
Theorem store_errors s fInfo string strLen offset f :
  (sect_limit s fInfo < strLen -> forall alloc,
    store_set s alloc fInfo string strLen offset f = Some (-1, f) /\
    store_get s alloc fInfo strLen offset f = Some (-1, [])) /\
  (sect_placed s fInfo ->
    store_set s false fInfo string strLen offset f = Some (-1, f) /\
    store_get s false fInfo strLen offset f = Some (-1, [])) /\
  (sect_placed s fInfo -> 0 <= strLen <= sect_limit s fInfo -> strLen <= zlen string ->
    span (sizes := sizes) (sect_start s fInfo) (Z.to_nat (sect_number s fInfo))
      < sect_offset s fInfo + offset + strLen ->
    store_set s true fInfo string strLen offset f = None /\
    store_get s true fInfo strLen offset f = None).
Proof.
  rewrite !store_get_eq, !store_set_eq. unfold section_get, section_set.
  assert (Hblks : forall alloc, sect_placed s fInfo ->
    getSharedBlks g alloc (sect_start s fInfo) (sect_start s fInfo + sect_number s fInfo) f =
    Some (if alloc then Some (slice (sbase sizes (sect_start s fInfo))
      (span (sizes := sizes) (sect_start s fInfo) (Z.to_nat (sect_number s fInfo))) (img f)) else None)).
  { intros alloc (H1 & H2 & H3 & _).
    rewrite <- (Z2Nat.id (sect_number s fInfo)) at 1 by done.
    apply (getSharedBlks_spec (HL := HL)); lia. }
  split; [|split].
  - intros H alloc. rewrite store_get_eq, store_set_eq. unfold section_get, section_set. by ztest.
  - intros Hp. rewrite !Hblks by done. by destruct (_ <? _).
  - intros Hp Hs Hl Hov. rewrite !Hblks by done. cbn [mbind option_bind].
    destruct Hp as (H1 & H2 & H3 & H4 & H5).
    pose proof (span_range (HL := HL) (sect_start s fInfo) (Z.to_nat (sect_number s fInfo)) H1).
    pose proof (base_range (HL := HL) (sect_start s fInfo)).
    destruct (Z.ltb_spec (sect_limit s fInfo) strLen); [lia|].
    rewrite mem_read_Some by lia. cbn [mbind option_bind]. unfold mem_write, mem_read.
    pose proof (laws_img (FlashLaws := HL) f) as Hi.
    rewrite !zlen_slice by lia. split; by ztest.
Qed.

(** C30: the flash layout.  On a device whose sectors hold at least the scratch
    pad's 8 KB, with a PSI size up to 64 KB and room for two configurations,
    [kerSysFlashInit] always completes; and when the kernel image ends before the
    sectors chosen for the second configuration, the sections are inside their
    sectors, do not overlap (second configuration, scratch pad, PSI, in this
    order up to the end of the device), and the second configuration shares no
    sector with the other two. *)
Theorem kerSysFlashInit_layout M ulPsiSize ke fInfo f :
  0 <= ulPsiSize <= 64 -> Forall (fun s => SP_MAX_LEN <= s <= M) sizes ->
  2 * psi_len ulPsiSize + SP_MAX_LEN + M <= zsum sizes ->
  exists kb fi, flash_get_blk g ke f = Some kb /\
    kerSysFlashInit g FLASH_BASE ulPsiSize (Some ke) fInfo f = Some fi /\
    (kb < flash_dare_persistent_start_blk fi -> kb < flash_scratch_pad_start_blk fi ->
     layout_ok (sizes := sizes) fi (psi_len ulPsiSize)).
Proof. apply (kerSysFlashInit_ok (HL := HL)). Qed.

Lemma slice_replicate {A} o n m (x : A) :
  0 <= o -> 0 <= n -> o + n <= Z.of_nat m -> slice o n (replicate m x) = replicate (Z.to_nat n) x.
Proof.
  intros. unfold slice. rewrite drop_replicate, take_replicate. f_equal. lia.
Qed.

(** Wiping the scratch pad.  [kerSysScratchPadClearAll] zeroes the whole
    sectors the scratch pad lies in, not only the scratch pad: when the PSI
    section shares them - the layout [kerSysFlashInit] chooses on 64 KB sectors
    with the default PSI size - a successful call leaves a PSI section of zeros. *)
Theorem ScratchPadClearAll_wipes_psi fInfo f :
  sect_placed PSI fInfo -> 0 < flash_persistent_length fInfo ->
  flash_scratch_pad_start_blk fInfo = flash_persistent_start_blk fInfo ->
  flash_scratch_pad_number_blk fInfo = flash_persistent_number_blk fInfo ->
  flash_scratch_pad_length fInfo <> 0 ->
  exists r f', kerSysScratchPadClearAll g true fInfo f = Some (r, f') /\ (r = 0 \/ r = -1) /\
    (r = 0 -> kerSysPersistentGet g true fInfo (flash_persistent_length fInfo) 0 f' =
       Some (0, replicate (Z.to_nat (flash_persistent_length fInfo)) 0)).
Proof.
  intros Hp HL0 Es En Hsp. unfold kerSysScratchPadClearAll. rewrite Es, En.
  rewrite (proj2 (Z.eqb_neq _ _) Hsp). destruct Hp as (H1 & H2 & H3 & H4 & H5).
  unfold sect_start, sect_number, sect_offset, sect_limit in *. cbn [fst snd sect_place] in *.
  set (st := flash_persistent_start_blk fInfo) in *.
  remember (Z.to_nat (flash_persistent_number_blk fInfo)) as n eqn:Hn.
  assert (flash_persistent_number_blk fInfo = Z.of_nat n) as Enum by lia. rewrite Enum.
  rewrite (getSharedBlks_spec (HL := HL)) by lia. cbn [mbind option_bind].
  replace (Z.to_nat (st + Z.of_nat n - st)) with n by lia.
  pose proof (span_range (HL := HL) st n H1) as [Hs0 Hs1].
  pose proof (base_range (HL := HL) st) as Hb.
  destruct (laws_device (FlashLaws := HL)) as (_ & _ & Hsum).
  rewrite (usedBlkSize_spec (HL := HL)) by lia. cbn [mbind option_bind].
  pose proof (laws_img (FlashLaws := HL) f) as Hi.
  unfold mem_set. destruct (Z.leb_spec 0 (0 + span (sizes := sizes) st n)); [|lia].
  rewrite mem_write_Some by (rewrite ?zlen_replicate, ?zlen_slice; lia).
  cbn [mbind option_bind]. rewrite splice_all by (rewrite zlen_replicate, zlen_slice; lia).
  rewrite Z.add_0_l.
  destruct (setSharedBlks_spec (HL := HL) st n
    (replicate (Z.to_nat (span (sizes := sizes) st n)) 0) f) as (r & f' & -> & _ & Hd & Hr);
    [lia|lia|rewrite zlen_replicate; lia|].
  exists r, f'. split; [done|]. split; [done|]. intros Hr0.
  specialize (Hd Hr0 ltac:(by apply Forall_replicate)).
  unfold kerSysPersistentGet. rewrite (section_get_ok (HL := HL)) by
    (try lia; unfold placed; fold st; rewrite Enum, Nat2Z.id; split_and!; lia).
  do 2 f_equal. unfold section_at. fold st. rewrite Z.add_0_r.
  rewrite <- (slice_slice (sbase sizes st) (span (sizes := sizes) st n)) by lia.
  rewrite Hd. apply slice_replicate; lia.
Qed.
End Properties.

(** ** Witnesses: a NOR device of eight 64 KB sectors *)

Definition demo_sizes : list Z := replicate 8 0x10000.

Lemma demo_ok : device_ok demo_sizes.
Proof. split; [by repeat constructor|]. by vm_compute. Qed.

Abbreviation demo_dev := (Nor.dev demo_sizes).

(** PSI of 24 KB at the end of the last sector, the scratch pad before it, the
    second configuration at the end of the sector before. *)
Definition demo_info : FLASH_ADDR_INFO :=
  mkFInfo 7 1 0x6000 0xA000 7 1 0x2000 0x8000 0 1 1024 0x580 0x10000 6 1 0x6000 0xA000.

Lemma demo_placed s : sect_placed (sizes := demo_sizes) s demo_info.
Proof.
  unfold sect_placed, placed, span. destruct s; vm_compute; split_and!; done.
Qed.

Lemma store_set_get_witness :
  exists r f', store_set (dev := demo_dev) PSI true demo_info [1; 2; 3] 3 5 [] = Some (r, f') /\
    (r = 0 -> store_get (dev := demo_dev) PSI true demo_info 3 5 f' = Some (0, slice 0 3 [1; 2; 3])).
Proof.
  destruct (store_set_get (HL := Nor.laws demo_sizes demo_ok) PSI demo_info [1; 2; 3] 3 5 [])
    as (r & f' & E & _ & _ & H).
  - apply demo_placed.
  - done.
  - done.
  - done.
  - exists r, f'. split; [exact E|]. intros Hr. exact (proj2 (H Hr ltac:(by repeat constructor))).
Defined.

Lemma store_set_succeeds_witness :
  exists f', store_set (dev := demo_dev) NVRAM true demo_info [1; 2; 3] 3 5 [] = Some (0, f').
Proof.
  apply (store_set_succeeds (HL := Nor.laws demo_sizes demo_ok)
    (HR := Nor.reliable demo_sizes demo_ok) NVRAM demo_info [1; 2; 3] 3 5 []).
  - apply demo_placed.
  - done.
  - done.
  - done.
  - by repeat constructor.
Defined.

Lemma store_errors_witness :
  store_get (dev := demo_dev) PSI true demo_info 0x6001 0 [] = Some (-1, []) /\
  store_get (dev := demo_dev) PSI true demo_info 16 0x6000 [] = None.
Proof.
  destruct (store_errors (HL := Nor.laws demo_sizes demo_ok) PSI demo_info [] 0x6001 0 []) as (H1 & _).
  destruct (store_errors (HL := Nor.laws demo_sizes demo_ok) PSI demo_info (replicate 16 0) 16 0x6000 [])
    as (_ & _ & H3).
  split.
  - exact (proj2 (H1 ltac:(done) true)).
  - exact (proj2 (H3 (demo_placed PSI) ltac:(done) ltac:(done) ltac:(vm_compute; done))).
Defined.

Lemma kerSysFlashInit_layout_witness :
  exists kb fi, flash_get_blk (Some demo_dev) 0xBFC20000 [] = Some kb /\
    kerSysFlashInit (Some demo_dev) Nor.FLASH_BASE 0 (Some 0xBFC20000) demo_info [] = Some fi /\
    layout_ok (sizes := demo_sizes) fi 0x6000.
Proof.
  destruct (kerSysFlashInit_layout (HL := Nor.laws demo_sizes demo_ok) 0x10000 0 0xBFC20000
              demo_info []) as (kb & fi & E1 & E2 & H).
  - done.
  - by repeat constructor.
  - done.
  - exists kb, fi. split; [done|]. split; [done|]. vm_compute in E1. vm_compute in E2.
    injection E1 as <-. injection E2 as <-. by apply H.
Defined.

Lemma ScratchPadClearAll_wipes_psi_witness :
  exists r f', kerSysScratchPadClearAll (Some demo_dev) true demo_info [] = Some (r, f') /\
    (r = 0 -> kerSysPersistentGet (Some demo_dev) true demo_info 0x6000 0 f' =
       Some (0, replicate (Z.to_nat 0x6000) 0)).
Proof.
  destruct (ScratchPadClearAll_wipes_psi (HL := Nor.laws demo_sizes demo_ok) demo_info [])
    as (r & f' & E & _ & H).
  - apply (demo_placed PSI).
  - done.
  - done.
  - done.
  - done.
  - exists r, f'. split; [exact E|exact H].
Defined.
