(* ===== verification/SpiStore.v ===== *)
(** * Configuration storage on serial flash

    A board without parallel flash: [flash_init] falls back to [spiflash.c], and the
    storage functions of [bcm63xx_flash.c] work on the structure it hands out.  The
    theorem puts together the identification of the device ([SpiSpec]), the
    driver's contract and the storage code proved against that contract
    ([FlashStore]). *)

From S2P Require Import Prelude SectorMap FlashApi AmdChip SpiBus SpiChip SpiDriver SpiSpec FlashStore.

Section Board.
Context {C : Type} {xfer : list Z -> nat -> C -> list Z * C} {FLASH_BASE msgData rxFifo : Z}.
Context {fuel polls : nat} {chip_id : Z -> nat -> list Z} {view : C -> spi_view} {p : spi_chip}.
Context {HC : SpiChip xfer p polls chip_id view}.
Context (Hmsg : 8 <= msgData) (Hrx : 60 <= rxFifo) (Hfuel : (polls < fuel)%nat) (Hfuel2 : (2 <= fuel)%nat).

(** C10: a board whose only flash is a serial one.  The driver identifies the part [p]
    that is soldered to the board, [flash_init] makes its structure the flash of the
    system, the device is then at rest with its contents unchanged, and from any
    such state a set of bytes inside one of the sections of the configuration succeeds,
    changes these bytes of the device only, and is read back. *)
Theorem spi_board_stores c mem n :
  spi_part (probed_id chip_id) = Some (ch_family p, n, ch_sector p, ch_word p) -> n <> 0 ->
  ch_total p = n * ch_sector p -> (2 ^ 22 | FLASH_BASE) ->
  let sizes := replicate (Z.to_nat n) (ch_sector p) in
  at_rest (view := view) (p := p) (sizes := sizes) mem c ->
  exists v name c' (f0 : spi_rested (view := view) (p := p) (sizes := sizes)),
    spi_flash_init xfer msgData rxFifo fuel spi_vars_start c =
      Some (FLASH_API_OK, v, probed_id chip_id, name, c') /\
    proj1_sig f0 = c' /\ spi_img f0 = mem /\
    forall t, let dev := flash_spi_dev (xfer := xfer) (FLASH_BASE := FLASH_BASE) (msgData := msgData)
        (rxFifo := rxFifo) (fuel := fuel) (view := view) (p := p) (v := v) (sizes := sizes)
        (probed_id chip_id) name t in
      flash_init true true (FLASH_API_ERROR, None) (FLASH_API_OK, Some dev) None = (FLASH_API_OK, Some dev) /\
      forall f s fInfo string strLen offset,
        sect_placed (sizes := sizes) s fInfo -> 0 <= strLen <= zlen string -> 0 <= offset ->
        offset + strLen <= sect_limit s fInfo -> Forall is_u8 string ->
        exists f', store_set (dev := dev) s true fInfo string strLen offset f = Some (0, f') /\
          spi_img f' = splice (sect_addr (sizes := sizes) s fInfo + offset) (slice 0 strLen string) (spi_img f) /\
          store_get (dev := dev) s true fInfo strLen offset f' = Some (0, slice 0 strLen string).
Proof.
  intros Hpart Hn Ht Hb sizes Hc. destruct (Hc) as (Hm & wel & bp & Ec & _).
  destruct (init_describes (HC := HC) Hmsg Hrx (fuel := fuel) FLASH_BASE c _ _ _ _
    ltac:(split; by rewrite Ec) Hb Hpart Hn) as (v & name & c' & E & Hc' & Hd).
  specialize (Hd (ch_ewsr p)). rewrite <- Ht in Hd.
  assert (Hv : describes v p FLASH_BASE sizes) by (by destruct p).
  assert (Hr : spi_restb (view := view) (p := p) (sizes := sizes) c' = true).
  { apply spi_restb_spec. unfold at_rest. rewrite Hc', Ec. split; [done|]. destruct Hc as (_ & w' & b' & E' & H').
    rewrite Ec in E'. injection E' as <- <-. eauto. }
  exists v, name, c', (exist _ c' Hr). split; [done|]. split; [done|].
  split; [unfold spi_img; cbn [proj1_sig]; by rewrite Hc', Ec|].
  intros t dev. split; [done|]. intros f s fInfo string strLen offset Hp Hs Ho Hfit Hby.
  apply (store_works (HL := spi_laws Hv Hmsg Hrx Hfuel Hfuel2 _ _ _)
    (HR := spi_works Hv Hmsg Hrx Hfuel Hfuel2 _ _ _)); done.
Qed.
End Board.

(** ** Witness: a simulated S25FL004A, protected, as the only flash *)

Definition span_chip : spi_chip := mkChip FLASH_SPAN false 65536 524288 false.
Definition span_id := spi_demo_id SPAN_FLASH_RDID [0x01; 0x02; 0x12].
Definition span_xfer := SpiSim.xfer span_chip 30 span_id.
Definition span_mem : list Z := replicate (Z.to_nat 524288) 0xff.

Lemma span_rest :
  at_rest (view := fun w => w) (p := span_chip) (sizes := replicate (Z.to_nat 8) 65536) span_mem
    (idle span_mem false SR_BP0 None).
Proof.
  split.
  - unfold span_mem. split; [|by apply Forall_replicate].
    rewrite zlen_replicate, zsum_replicate, !Z2Nat.id by lia. lia.
  - exists false, SR_BP0. split; [reflexivity|by right].
Qed.

Lemma spi_board_stores_witness :
  exists v name c' (f0 : spi_rested (view := fun w => w) (p := span_chip)
      (sizes := replicate (Z.to_nat 8) 65536)),
    spi_flash_init span_xfer 63 64 31 spi_vars_start (idle span_mem false SR_BP0 None) =
      Some (FLASH_API_OK, v, 0x0112, name, c') /\ spi_img f0 = span_mem /\
    let dev := flash_spi_dev (xfer := span_xfer) (FLASH_BASE := 0xBFC00000) (msgData := 63)
        (rxFifo := 64) (fuel := 31) (view := fun w => w) (p := span_chip) (v := v)
        (sizes := replicate (Z.to_nat 8) 65536) 0x0112 name 0 in
    exists f', store_set (dev := dev) PSI true demo_info [1; 2; 3] 3 5 f0 = Some (0, f') /\
      store_get (dev := dev) PSI true demo_info 3 5 f' = Some (0, [1; 2; 3]).
Proof.
  destruct (spi_board_stores (xfer := span_xfer) (FLASH_BASE := 0xBFC00000) (msgData := 63) (rxFifo := 64)
    (fuel := 31) (polls := 30) (chip_id := span_id) (view := fun w => w) (p := span_chip)
    (HC := SpiSim.spi_sim span_chip 30 span_id (spi_demo_id_length _ _)) ltac:(lia) ltac:(lia) ltac:(lia)
    ltac:(lia) (idle span_mem false SR_BP0 None) span_mem 8 eq_refl ltac:(lia) eq_refl
    ltac:(by exists 767) span_rest) as (v & name & c' & f0 & E & _ & Hi & H).
  exists v, name, c', f0. split; [exact E|]. split; [exact Hi|]. intros dev.
  destruct (H 0) as [_ Hstore].
  destruct (Hstore f0 PSI demo_info [1; 2; 3] 3 5 (demo_placed PSI)) as (f' & E1 & _ & E2).
  - change (zlen [1; 2; 3]) with 3. lia.
  - lia.
  - by vm_compute.
  - by repeat constructor.
  - exists f'. exact (conj E1 E2).
Defined.
