(* ===== verification/ImageSet.v ===== *)
(** * Writing an image to the flash

    [kerSysBcmImageSet] of [bcm63xx_flash.c]: erase and program the sectors from the
    one that holds the start address, merge the last one with the PSI when the image
    reaches the PSI's first sector, and erase the rest of the device when a whole
    image is written.  [string] is the caller's buffer; [alloc] tells whether
    [retriedKmalloc] succeeds and [copied] whether [copy_from_user] does. *)

From S2P Require Import Prelude SectorMap FlashApi FlashStore.

(** The outcome of a call: a return code, or a reset of the board. *)
Inductive outcome (F : Type) := Returns (sts : Z) (f : F) | BoardReset (f : F).
Arguments Returns {F}.
Arguments BoardReset {F}.

Section Image.
Context {F : Type} (g_flash_info : option (flash_device_info_t F)) (FLASH_BASE : Z).
Context (alloc copied : bool) (fInfo : FLASH_ADDR_INFO).

(** The sector shared with the PSI: the remaining [size] afterwards. *)
Definition image_merge (blk_start sect_size : Z) (string : list Z) (pos size : Z) (f : F)
    : option (outcome F) :=
  if sect_size - flash_persistent_length fInfo <? size then Some (Returns size f)
  else
    match retriedKmalloc alloc sect_size with
    | None => Some (BoardReset f)
    | Some pTempBuf =>
        '(_, bytes) ← flash_read_buf g_flash_info (u16 blk_start) 0 sect_size f;
        pTempBuf ← mem_write pTempBuf 0 bytes;
        if negb copied then Some (Returns size f)
        else
          d ← mem_read string pos size;
          pTempBuf ← mem_write pTempBuf 0 d;
          '(_, f) ← flash_sector_erase_int g_flash_info blk_start f;
          '(r, f) ← flash_write_buf g_flash_info blk_start 0 pTempBuf f;
          Some (Returns (if r =? sect_size then 0 else size) f)
    end.

(** The [do ... while (size > 0)] loop: [blk_start] and [size] where it ends.  [pos]
    is how far [string] has advanced. *)
Fixpoint image_loop (n : nat) (whole_image : bool) (blk_start : Z) (string : list Z)
    (pos size : Z) (f : F) : option (Z * outcome F) :=
  match n with
  | O => None
  | S n' =>
      sect_size ← flash_get_sector_size g_flash_info blk_start f;
      if negb whole_image && (blk_start =? flash_persistent_start_blk fInfo) then
        r ← image_merge blk_start sect_size string pos size f; Some (blk_start, r)
      else
        '(_, f) ← flash_sector_erase_int g_flash_info blk_start f;
        let size := if (size <? sect_size) && Z.odd size then size + 1 else size in
        let sect_size := if size <? sect_size then size else sect_size in
        d ← mem_read string pos sect_size;
        '(i, f) ← flash_write_buf g_flash_info blk_start 0 d f;
        if negb (i =? sect_size) then Some (blk_start, Returns size f)
        else if 0 <? size - sect_size then
          image_loop n' whole_image (blk_start + 1) string (pos + sect_size) (size - sect_size) f
        else Some (blk_start + 1, Returns (size - sect_size) f)
  end.

(** The erasure up to the end of the flash. *)
Fixpoint erase_rest (n : nat) (blk_start : Z) (f : F) : option F :=
  match n with
  | O => Some f
  | S n' =>
      '(_, f) ← flash_sector_erase_int g_flash_info blk_start f;
      erase_rest n' (blk_start + 1) f
  end.

(** The sector table has [MAXSECTORS] entries, so the loop ends within as many rounds
    or leaves the table. *)
Definition kerSysBcmImageSet (flash_start_addr : Z) (string : list Z) (size : Z) (f : F)
    : option (outcome F) :=
  blk_start ← flash_get_blk g_flash_info flash_start_addr f;
  if blk_start <? 0 then Some (Returns (-1) f)
  else
    let whole_image := (u32 flash_start_addr =? u32 FLASH_BASE) &&
                       (flash_rootfs_start_offset fInfo <? u32 size) in
    '(blk_start, r) ← image_loop (S (Z.to_nat MAXSECTORS)) whole_image blk_start string 0 size f;
    match r with
    | BoardReset f => Some (BoardReset f)
    | Returns size f =>
        let total_blks := flash_get_numsectors g_flash_info f in
        f ← (if (whole_image : bool) then erase_rest (Z.to_nat (total_blks - blk_start)) blk_start f
             else Some f);
        let blk_start := if (whole_image : bool) then Z.max blk_start total_blks else blk_start in
        Some (Returns (if size =? 0 then 0 else blk_start) f)
    end.
End Image.

(** ** Proofs *)

Section Proofs.
Context {F : Type} {dev : flash_device_info_t F} {FLASH_BASE : Z} {sizes : list Z}
  {img : F -> list Z} {HL : FlashLaws dev FLASH_BASE sizes img}.
Abbreviation g := (Some dev).
Abbreviation base k := (sbase sizes k).

(** Erase sector [k], then write [d] from its start. *)
Lemma store_sector k s d f :
  0 <= k < zlen sizes -> sizes !! Z.to_nat k = Some s -> zlen d <= s ->
  zlen d = s \/ Z.even (zlen d) = true ->
  exists r1 f1 r2 f2, flash_sector_erase_int g k f = Some (r1, f1) /\
    flash_write_buf g k 0 d f1 = Some (r2, f2) /\
    same_outside (base k) s (img f) (img f2) /\
    (r2 = zlen d -> Forall is_u8 d -> slice (base k) (zlen d) (img f2) = d) /\
    (FlashReliable dev sizes -> Forall is_u8 d -> r2 = zlen d).
Proof.
  intros Hk E Hd Hev. destruct (sector_exists (HL := HL) k Hk) as (s' & E' & _ & Hu & _).
  destruct (laws_erase (FlashLaws := HL) f (Z.to_nat k) s E) as (r1 & f1 & E1 & H1).
  destruct (laws_write (FlashLaws := HL) f1 (Z.to_nat k) s d E Hd Hev) as (r2 & f2 & E2 & H2 & Hr).
  cbn [flash_sector_erase_int flash_write_buf]. rewrite Hu. rewrite Z2Nat.id in * by lia.
  exists r1, f1, r2, f2. split_and!; try done.
  - by eapply same_outside_trans.
  - intros Hr2 Hb. apply Hr; [done|done|eauto].
  - intros HR Hb. destruct (reliable_rewrite (FlashReliable := HR) f (Z.to_nat k) s d r1 f1 E Hd Hev Hb)
      as [f2' E2']; rewrite Z2Nat.id in * by lia; [done|]. congruence.
Qed.

Lemma read_sector k s f :
  0 <= k < zlen sizes -> sizes !! Z.to_nat k = Some s ->
  exists r, flash_read_buf g k 0 s f = Some (r, slice (base k) s (img f)).
Proof.
  intros Hk E. destruct (sector_exists (HL := HL) k Hk) as (s' & E' & Hs & Hu & _).
  destruct (laws_read (FlashLaws := HL) f (Z.to_nat k) s 0 s E) as [r Hr]; [lia..|congruence|lia|].
  exists r. cbn [flash_read_buf]. rewrite Hu. rewrite Z2Nat.id, Z.add_0_r in Hr by lia. done.
Qed.

Section Loop.
Context (fInfo : FLASH_ADDR_INFO) (Heven : Forall (fun n => Z.even n = true) sizes).

(** The image goes to sectors below [p], and if [room] is positive into the first
    [room] bytes of [p], the first sector of the PSI. *)
Context (whole : bool) (p room top : Z) (Hp : 0 <= p <= zlen sizes).
Context (Hw : whole = true \/ p <= flash_persistent_start_blk fInfo).
Context (Hroom : (room = 0 /\ top = base p) \/
  (whole = false /\ p = flash_persistent_start_blk fInfo /\ 0 < room /\ p < zlen sizes /\ 0 <= flash_persistent_length fInfo /\
   exists s, sizes !! Z.to_nat p = Some s /\ room = s - flash_persistent_length fInfo /\
     top = base p + s)).

Abbreviation loop := (image_loop g true true fInfo).

(** The part of the buffer that is read: an odd image is rounded up. *)
Definition buffer_ok (string : list Z) (pos size : Z) : Prop :=
  0 <= pos /\ 0 < size /\ pos + size + size mod 2 <= zlen string.

(** What an attempt leaves: nothing but the image's sectors changes, and if all was
    written the image is there and what follows [room] is as before. *)
Definition image_stored (k : Z) (string : list Z) (pos size : Z) (f : F) (size' : Z) (f' : F) : Prop :=
  same_outside (base k) (top - base k) (img f) (img f') /\
  (size' = 0 -> Forall is_u8 string -> slice (base k) size (img f') = slice pos size string /\
     forall o m, base p + room <= o -> slice o m (img f') = slice o m (img f)) /\
  (FlashReliable dev sizes -> Forall is_u8 string -> size' = 0).

Lemma merge_ok string pos size f :
  p < zlen sizes -> buffer_ok string pos size -> size <= room ->
  exists s size' f', sizes !! Z.to_nat p = Some s /\
    image_merge g true true fInfo p s string pos size f = Some (Returns size' f') /\
    image_stored p string pos size f size' f'.
Proof.
  intros Hpz (H0 & H1 & H2) Hsz.
  destruct Hroom as [[? ?]|(Hwf & _ & Hr0 & _ & Hpl & s & E & Hrm & Htop)]; [lia|].
  destruct (sector_exists (HL := HL) p) as (s' & E' & Hs & Hu & Hb & Hb0); [lia|].
  replace s' with s in * by congruence. pose proof (laws_img (FlashLaws := HL) f) as Hi.
  pose proof (Z.mod_pos_bound size 2). exists s. unfold image_merge. rewrite Hu.
  destruct (Z.ltb_spec (s - flash_persistent_length fInfo) size); [lia|].
  unfold retriedKmalloc. cbn [andb]. destruct (Z.leb_spec 0 s); [|lia].
  destruct (read_sector p s f) as [rr Hrd]; [lia|done|]. rewrite Hrd. cbn [mbind option_bind negb].
  assert (Hold : zlen (slice (base p) s (img f)) = s) by (apply zlen_slice; lia).
  rewrite mem_write_Some by (rewrite ?zlen_replicate, ?Hold; lia). cbn [mbind option_bind].
  rewrite splice_all by (rewrite zlen_replicate, Hold; lia).
  rewrite mem_read_Some by lia. cbn [mbind option_bind].
  assert (Hd : zlen (slice pos size string) = size) by (apply zlen_slice; lia).
  rewrite mem_write_Some by (rewrite ?Hd, ?Hold; lia). cbn [mbind option_bind].
  set (d := slice pos size string) in *.
  assert (Hnew : zlen (splice 0 d (slice (base p) s (img f))) = s) by (rewrite zlen_splice; lia).
  destruct (store_sector p s (splice 0 d (slice (base p) s (img f))) f)
    as (r1 & f1 & r2 & f2 & -> & E2 & Hs2 & Hd2 & HR2); [lia|done|lia|by left|].
  cbn [mbind option_bind]. rewrite E2. cbn [mbind option_bind]. rewrite Hnew in Hd2, HR2.
  do 2 eexists. split; [done|]. split; [done|].
  unfold image_stored. split_and!.
  - rewrite Htop. by replace (base p + s - base p) with s by lia.
  - destruct (Z.eqb_spec r2 s) as [->|]; [intros _ Hb8|lia].
    assert (Hnb : Forall is_u8 (splice 0 d (slice (base p) s (img f))))
      by (apply Forall_splice; [by apply Forall_slice|apply Forall_slice, (laws_bytes (FlashLaws := HL))]).
    assert (Him : img f2 = splice (base p) d (img f)).
    { rewrite (same_outside_eq _ _ _ _ _ Hs2 Hb0 Hnew ltac:(lia) (Hd2 eq_refl Hnb)).
      rewrite splice_slice_splice by lia. by rewrite Z.add_0_r. }
    rewrite Him. fold d. split; [rewrite <- Hd at 1; apply slice_splice_eq; lia|].
    intros o m Ho. apply slice_splice_after; lia.
  - intros HR Hb8. rewrite HR2, Z.eqb_refl; [done|done|].
    apply Forall_splice; [by apply Forall_slice|apply Forall_slice, (laws_bytes (FlashLaws := HL))].
Qed.

Lemma size_even k s : sizes !! Z.to_nat k = Some s -> Z.even s = true.
Proof. intros E. by apply (Forall_lookup_1 _ _ _ _ Heven E). Qed.

Lemma mod2_even x : Z.even (x + x mod 2) = true.
Proof. rewrite Zmod_odd, Z.even_add, <- Z.negb_odd. by destruct (Z.odd x). Qed.

Lemma top_ge : base p <= top.
Proof.
  destruct Hroom as [[_ ->]|(_ & _ & _ & Hpz & _ & s2 & E2 & _ & ->)]; [lia|].
  destruct (sector_exists (HL := HL) p) as (s3 & E3 & ? & _); [lia|].
  assert (s2 = s3) by congruence. lia.
Qed.

(** The image continues in the next sector. *)
Lemma stored_next k s string pos size f f1 size' f' :
  0 <= k < p -> sizes !! Z.to_nat k = Some s -> 0 <= pos -> s <= size -> 
  base k + size <= base p + room ->
  same_outside (base k) s (img f) (img f1) -> (Forall is_u8 string -> slice (base k) s (img f1) = slice pos s string) ->
  image_stored (k + 1) string (pos + s) (size - s) f1 size' f' ->
  image_stored k string pos size f size' f'.
Proof.
  intros Hk E H0 Hs Hfit Hs1 Hd1 (Hso & Hst & HR).
  destruct (sector_exists (HL := HL) k) as (s' & E' & Hs0 & Hu & Hb & Hb0); [lia|].
  replace s' with s in * by congruence. pose proof (base_S k s ltac:(lia) E) as Eb.
  pose proof (base_mono (HL := HL) (k + 1) p). pose proof (laws_img (FlashLaws := HL) f).
  pose proof top_ge as Htop.
  unfold image_stored. split_and!.
  - eapply same_outside_trans; eapply same_outside_weaken; eauto; lia.
  - intros Hz Hb8. destruct (Hst Hz Hb8) as [Hst1 Hst2]. split.
    + replace size with (s + (size - s)) by lia. rewrite !slice_app by lia. rewrite <- Eb, Hst1.
      f_equal. rewrite <- Hd1 by done. apply (same_outside_slice _ _ _ _ _ _ Hso); lia.
    + intros o m Ho. rewrite Hst2 by lia. apply (same_outside_slice _ _ _ _ _ _ Hs1); lia.
  - done.
Qed.

(** The rounding of the last chunk. *)
Lemma chunk_last size s :
  size < s -> (if (size <? s) && Z.odd size then size + 1 else size) = size + size mod 2 /\
    size + size mod 2 <= s /\
    (if size + size mod 2 <? s then size + size mod 2 else s) = size + size mod 2.
Proof. intros Hs. rewrite Zmod_odd. destruct (Z.odd size); ztest; auto with lia. Qed.

(** The last sector of an image that ends below [p]. *)
Lemma last_sector k s string pos size f :
  0 <= k < p -> sizes !! Z.to_nat k = Some s -> buffer_ok string pos size -> size < s ->
  exists r1 f1 r2 f2, flash_sector_erase_int g k f = Some (r1, f1) /\
    flash_write_buf g k 0 (slice pos (size + size mod 2) string) f1 = Some (r2, f2) /\
    image_stored k string pos size f (if r2 =? size + size mod 2 then 0 else 1) f2.
Proof.
  intros Hk E (H0 & H1 & H2) Hs. pose proof (Z.mod_pos_bound size 2) as Hm.
  destruct (sector_exists (HL := HL) k) as (s' & E' & Hs0 & Hu & Hb & Hb0); [lia|].
  replace s' with s in * by congruence. pose proof (base_S k s ltac:(lia) E) as Eb.
  pose proof (base_mono (HL := HL) (k + 1) p) as Hmono. destruct (chunk_last size s Hs) as (_ & Hle & _).
  assert (Hd : zlen (slice pos (size + size mod 2) string) = size + size mod 2)
    by (apply zlen_slice; lia).
  destruct (store_sector k s (slice pos (size + size mod 2) string) f)
    as (r1 & f1 & r2 & f2 & E1 & E2 & Hs2 & Hd2 & HR2);
    [lia|done|lia|right; rewrite Hd; apply mod2_even|]. rewrite Hd in Hd2, HR2.
  exists r1, f1, r2, f2. split; [done|]. split; [done|]. pose proof top_ge as Htop.
  unfold image_stored. split_and!.
  - eapply same_outside_weaken; [done|lia..].
  - destruct (Z.eqb_spec r2 (size + size mod 2)) as [Hr|]; [intros _ Hb8|lia].
    specialize (Hd2 Hr ltac:(by apply Forall_slice)). split.
    + rewrite !slice_app in Hd2 by lia. apply app_inj_1 in Hd2 as [Hd2 _]; [done|].
      unfold slice. rewrite !length_take, !length_drop. pose proof (laws_img (FlashLaws := HL) f2).
      unfold zlen in *. lia.
    + intros o m Ho. apply (same_outside_slice _ _ _ _ _ _ Hs2); lia.
  - intros HR Hb8. rewrite HR2, Z.eqb_refl; [done|done|by apply Forall_slice].
Qed.

(** A failure is a failure whatever is left. *)
Lemma stored_failed k string pos size f size1 size2 f' :
  size1 <> 0 -> size2 <> 0 ->
  image_stored k string pos size f size1 f' -> image_stored k string pos size f size2 f'.
Proof.
  intros H1 H2 (A & B & D). split; [done|]. split; [done|]. intros HR Hb. by specialize (D HR Hb).
Qed.

(** A sector that the image fills, and the rest of the loop. *)
Lemma image_full n k s string pos size f :
  (forall k string pos size f,
    0 <= k <= p -> p - k < Z.of_nat n -> buffer_ok string pos size ->
    base k + size <= base p + room ->
    exists k' size' f', loop n whole k string pos size f = Some (k', Returns size' f') /\
      k <= k' <= p /\ (whole = true -> size' = 0 -> base k + size <= base k') /\
      image_stored k string pos size f size' f') ->
  0 <= k < p -> p - k < Z.of_nat (S n) -> sizes !! Z.to_nat k = Some s ->
  buffer_ok string pos size -> s <= size -> base k + size <= base p + room ->
  exists k' size' f',
    ('(_, f) ← flash_sector_erase_int g k f;
     let size := if (size <? s) && Z.odd size then size + 1 else size in
     let sect_size := if size <? s then size else s in
     d ← mem_read string pos sect_size;
     '(i, f) ← flash_write_buf g k 0 d f;
     if negb (i =? sect_size) then Some (k, Returns size f)
     else if 0 <? size - sect_size then
       loop n whole (k + 1) string (pos + sect_size) (size - sect_size) f
     else Some (k + 1, Returns (size - sect_size) f)) = Some (k', Returns size' f') /\
    k <= k' <= p /\ (whole = true -> size' = 0 -> base k + size <= base k') /\
    image_stored k string pos size f size' f'.
Proof.
  intros IH Hk Hn E (H0 & H1 & H2) Hs Hfit. pose proof (Z.mod_pos_bound size 2) as Hm.
  destruct (sector_exists (HL := HL) k) as (s' & E' & Hs0 & Hu & Hb & Hb0); [lia|].
  replace s' with s in * by congruence. pose proof (base_S k s ltac:(lia) E) as Eb.
  pose proof (base_mono (HL := HL) (k + 1) p) as Hmono. pose proof top_ge as Htop.
  assert (Hd : zlen (slice pos s string) = s) by (apply zlen_slice; lia).
  destruct (store_sector k s (slice pos s string) f)
    as (r1 & f1 & r2 & f2 & -> & E2 & Hs2 & Hd2 & HR2); [lia|done|lia|by left|].
  rewrite Hd in Hd2, HR2. cbn [mbind option_bind]. destruct (Z.ltb_spec size s); [lia|]. cbn [andb].
  destruct (Z.ltb_spec size s); [lia|]. rewrite mem_read_Some by lia. cbn [mbind option_bind].
  rewrite E2. cbn [mbind option_bind]. destruct (Z.eqb_spec r2 s) as [->|Hr]; cbn [negb].
  - assert (Hd2' : Forall is_u8 string -> slice (base k) s (img f2) = slice pos s string)
      by (intros; apply Hd2; [done|by apply Forall_slice]).
    destruct (Z.ltb_spec 0 (size - s)).
    + destruct (IH (k + 1) string (pos + s) (size - s) f2) as (k' & size' & f' & -> & Hk' & He & Hst); [lia|lia| |lia|].
      { split; [lia|]. split; [lia|]. pose proof (size_even k s E) as Hev. apply Z.even_spec in Hev as [q ->].
        replace ((size - 2 * q) mod 2) with (size mod 2); [lia|].
        rewrite <- (Z.mod_add (size - 2 * q) q 2) by lia. f_equal. lia. }
      exists k', size', f'. split; [done|]. split; [lia|].
      split; [intros Hwt Hz; specialize (He Hwt Hz); lia|]. by eapply stored_next.
    + exists (k + 1), (size - s), f2. split; [done|]. split; [lia|]. split; [lia|]. replace size with s in * by lia.
      rewrite Z.sub_diag. split; [eapply same_outside_weaken; [done|lia..]|]. split; [|done].
      intros _ Hb8. split; [by apply Hd2'|]. intros o m Ho. apply (same_outside_slice _ _ _ _ _ _ Hs2); lia.
  - exists k, size, f2. split; [done|]. split; [lia|]. split; [lia|].
    split; [eapply same_outside_weaken; [done|lia..]|]. split; [lia|].
    intros HR Hb8. destruct Hr. apply HR2; [done|by apply Forall_slice].
Qed.

Lemma image_loop_ok n : forall k string pos size f,
  0 <= k <= p -> p - k < Z.of_nat n -> buffer_ok string pos size ->
  base k + size <= base p + room ->
  exists k' size' f', loop n whole k string pos size f = Some (k', Returns size' f') /\
    k <= k' <= p /\ (whole = true -> size' = 0 -> base k + size <= base k') /\
    image_stored k string pos size f size' f'.
Proof.
  induction n as [|n IH]; intros k string pos size f Hk Hn Hbuf Hfit; [lia|].
  destruct (Hbuf) as (H0 & H1 & H2). pose proof (Z.mod_pos_bound size 2) as Hm.
  assert (Hpz : k < zlen sizes).
  { destruct (Z.eq_dec k p) as [->|]; [|lia]. destruct Hroom as [[? _]|(_ & _ & _ & ? & _)]; lia. }
  destruct (sector_exists (HL := HL) k) as (s & E & Hs0 & Hu & Hb & Hb0); [lia|].
  cbn [image_loop]. rewrite (api_size (HL := HL) k s) by (done || lia). cbn [mbind option_bind].
  destruct (Z.eq_dec k p) as [->|Hne].
  - destruct (merge_ok string pos size f) as (s' & size' & f' & E' & Em & Hst); [done|done|lia|].
    replace s' with s in * by congruence.
    destruct Hroom as [[? _]|(Hwf & Hw' & _)]; [lia|].
    rewrite Hwf, <- Hw', Z.eqb_refl. cbn [negb andb]. rewrite Em. cbn [mbind option_bind].
    exists p, size', f'. split; [done|]. split; [lia|]. split; [congruence|done].
  - assert (Hbr : negb whole && (k =? flash_persistent_start_blk fInfo) = false).
    { destruct Hw as [->|?]; [done|]. ztest. }
    rewrite Hbr. clear Hbr. pose proof (base_S k s ltac:(lia) E) as Eb.
    destruct (Z_lt_le_dec size s) as [Hlt|Hge].
    + destruct (chunk_last size s Hlt) as (-> & _ & ->).
      destruct (last_sector k s string pos size f) as (r1 & f1 & r2 & f2 & -> & E2 & Hst);
        [lia|done|done|done|].
      cbn [mbind option_bind]. rewrite mem_read_Some by lia. cbn [mbind option_bind]. rewrite E2.
      cbn [mbind option_bind]. destruct (Z.eqb_spec r2 (size + size mod 2)) as [Hr|Hr]; cbn [negb].
      * rewrite Z.sub_diag. cbn. exists (k + 1), 0, f2. split; [done|]. split; [lia|]. split; [lia|done].
      * exists k, (size + size mod 2), f2. split; [done|]. split; [lia|]. split; [lia|].
        apply (stored_failed _ _ _ _ _ 1); [lia|lia|done].
    + apply image_full; done || lia.
Qed.
End Loop.

Lemma erase_rest_ok n : forall k f,
  0 <= k -> k + Z.of_nat n <= zlen sizes ->
  exists f', erase_rest g n k f = Some f' /\
    same_outside (base k) (base (k + Z.of_nat n) - base k) (img f) (img f').
Proof.
  induction n as [|n IH]; intros k f H0 H1; cbn [erase_rest]; [exists f; done|].
  destruct (sector_exists (HL := HL) k) as (s & E & Hs0 & Hu & Hb & Hb0); [lia|].
  destruct (laws_erase (FlashLaws := HL) f (Z.to_nat k) s E) as (r & f1 & E1 & H').
  rewrite Z2Nat.id in E1, H' by lia. cbn [flash_sector_erase_int]. rewrite Hu, E1. cbn [mbind option_bind].
  destruct (IH (k + 1) f1) as (f2 & -> & H2); [lia|lia|]. exists f2. split; [done|].
  pose proof (base_S k s H0 E). pose proof (base_mono (HL := HL) (k + 1) (k + 1 + Z.of_nat n)).
  replace (k + Z.of_nat (S n)) with (k + 1 + Z.of_nat n) by lia.
  eapply same_outside_trans; eapply same_outside_weaken; eauto; lia.
Qed.

(** The block of an offset in sector [k]. *)
Lemma blk_is x k f :
  0 <= k < zlen sizes -> base k <= x < base (k + 1) -> flash_get_blk g (x + FLASH_BASE) f = Some k.
Proof.
  intros Hk Hx. pose proof (base_range (HL := HL) k). pose proof (base_range (HL := HL) (k + 1)).
  destruct (blk_at (HL := HL) x f) as (k' & -> & Hk' & Hx'); [lia|]. f_equal.
  destruct (Z.lt_trichotomy k' k) as [Hlt|[->|Hlt]]; [|done|].
  - pose proof (base_mono (HL := HL) (k' + 1) k). lia.
  - pose proof (base_mono (HL := HL) (k + 1) k'). lia.
Qed.

Lemma u32_add_ne x : 0 < x < 2 ^ 31 -> (u32 (x + FLASH_BASE) =? u32 FLASH_BASE) = false.
Proof.
  intros Hx. apply Z.eqb_neq. unfold u32. intros E.
  assert (E' : (x + FLASH_BASE - FLASH_BASE) mod 2 ^ 32 = 0)
    by (rewrite <- Zminus_mod_idemp_l, E, Zminus_mod_idemp_l, Z.sub_diag; done).
  replace (x + FLASH_BASE - FLASH_BASE) with x in E' by lia. rewrite Z.mod_small in E' by lia. lia.
Qed.

Lemma base_pos k : 0 < k < zlen sizes -> 0 < base k.
Proof.
  intros Hk. destruct (sector_exists (HL := HL) 0) as (s & E & Hs & _); [lia|].
  pose proof (base_S 0 s ltac:(lia) E). pose proof (base_range (HL := HL) 0).
  pose proof (base_mono (HL := HL) 1 k). change (0 + 1) with 1 in *. lia.
Qed.

Section Theorems.
Context (fInfo : FLASH_ADDR_INFO) (Heven : Forall (fun n => Z.even n = true) sizes).
Abbreviation psi := (flash_persistent_start_blk fInfo).

(** Writing an image behind the first sector, into the sectors below [p] and the first
    [room] bytes of [p]. *)
Lemma image_set_gen p room top x k string size f :
  0 < k <= p -> p <= psi < zlen sizes -> base k <= x < base (k + 1) ->
  (room = 0 /\ top = base p) \/
  (p = psi /\ 0 < room /\ 0 <= flash_persistent_length fInfo /\
   exists s, sizes !! Z.to_nat p = Some s /\ room = s - flash_persistent_length fInfo /\
     top = base p + s) ->
  0 < size -> size + size mod 2 <= zlen string -> base k + size <= base p + room ->
  exists sts f',
    kerSysBcmImageSet g FLASH_BASE true true fInfo (x + FLASH_BASE) string size f =
      Some (Returns sts f') /\
    same_outside (base k) (top - base k) (img f) (img f') /\
    (sts = 0 -> Forall is_u8 string -> slice (base k) size (img f') = slice 0 size string /\
       forall o m, base p + room <= o -> slice o m (img f') = slice o m (img f)) /\
    (sts <> 0 -> k <= sts <= p) /\
    (FlashReliable dev sizes -> Forall is_u8 string -> sts = 0).
Proof.
  intros Hk Hz Hx Hroom H0 H1 Hfit. destruct (laws_device (FlashLaws := HL)) as (_ & Hmax & Hsum).
  pose proof (base_pos k ltac:(lia)). pose proof (base_range (HL := HL) (k + 1)).
  unfold kerSysBcmImageSet. rewrite (blk_is x k) by lia. cbn [mbind option_bind].
  destruct (Z.ltb_spec k 0); [lia|]. rewrite u32_add_ne by lia. cbn [andb].
  destruct (image_loop_ok fInfo Heven false p room top)
    with (n := S (Z.to_nat MAXSECTORS)) (k := k) (string := string) (pos := 0) (size := size) (f := f)
    as (k' & size' & f' & -> & Hk' & _ & Hso & Hst & HR).
  - lia.
  - right. lia.
  - destruct Hroom as [?|(? & ? & ? & ?)]; [by left|right]. split_and!; done || lia.
  - lia.
  - unfold MAXSECTORS in *. lia.
  - split; [lia|]. split; lia.
  - lia.
  - cbn [mbind option_bind]. do 2 eexists. split; [done|]. split_and!.
    + done.
    + destruct (Z.eqb_spec size' 0); [auto|lia].
    + destruct (Z.eqb_spec size' 0); [done|lia].
    + intros HRe Hb. by rewrite HR.
Qed.

(** As far as the PSI. *)
Lemma image_set_ok x k s string size f :
  0 < k <= psi -> psi < zlen sizes -> base k <= x < base (k + 1) ->
  sizes !! Z.to_nat psi = Some s -> 0 <= flash_persistent_length fInfo <= s ->
  0 < size -> size + size mod 2 <= zlen string ->
  base k + size <= base psi + s - flash_persistent_length fInfo ->
  exists sts f',
    kerSysBcmImageSet g FLASH_BASE true true fInfo (x + FLASH_BASE) string size f =
      Some (Returns sts f') /\
    same_outside (base k) (base psi + s - base k) (img f) (img f') /\
    (sts = 0 -> Forall is_u8 string -> slice (base k) size (img f') = slice 0 size string /\
       forall o m, base psi + s - flash_persistent_length fInfo <= o ->
         slice o m (img f') = slice o m (img f)) /\
    (sts <> 0 -> k <= sts <= psi) /\
    (FlashReliable dev sizes -> Forall is_u8 string -> sts = 0).
Proof.
  intros Hk Hz Hx E Hpl H0 H1 Hfit. set (room := s - flash_persistent_length fInfo).
  destruct (image_set_gen psi room (if room =? 0 then base psi else base psi + s) x k string size f)
    as (sts & f' & E' & Hso & Hst & Hr); [lia|lia|lia| |lia|lia|unfold room; lia|].
  - destruct (Z.eqb_spec room 0); [by left|right].
    unfold room in *. split; [done|]. split; [lia|]. split; [lia|]. eauto.
  - exists sts, f'. split; [done|]. split; [|split; [|done]].
    + eapply same_outside_weaken; [done|lia|]. destruct (room =? 0); lia.
    + intros Hs Hb8. destruct (Hst Hs Hb8) as [Hs1 Hs2]. split; [done|]. intros o m Ho. apply Hs2. unfold room. lia.
Qed.

(** Into whole sectors below [p], on a device that works. *)
Lemma image_set_below {HR : FlashReliable dev sizes} p x k string size f :
  0 < k <= p -> p <= psi < zlen sizes -> base k <= x < base (k + 1) ->
  Forall is_u8 string -> 0 < size -> size + size mod 2 <= zlen string -> base k + size <= base p ->
  exists f',
    kerSysBcmImageSet g FLASH_BASE true true fInfo (x + FLASH_BASE) string size f =
      Some (Returns 0 f') /\
    same_outside (base k) (base p - base k) (img f) (img f') /\
    slice (base k) size (img f') = slice 0 size string.
Proof.
  intros Hk Hz Hx Hb H0 H1 Hfit.
  destruct (image_set_gen p 0 (base p) x k string size f)
    as (sts & f' & E' & Hso & Hst & _ & Hr); [lia|lia|lia|by left|lia|lia|lia|].
  rewrite (Hr HR Hb) in *. exists f'. split; [done|]. split; [done|]. by apply Hst.
Qed.

Lemma image_set_mod alloc copied a x string size f :
  u32 a = u32 (x + FLASH_BASE) ->
  kerSysBcmImageSet g FLASH_BASE alloc copied fInfo a string size f =
  kerSysBcmImageSet g FLASH_BASE alloc copied fInfo (x + FLASH_BASE) string size f.
Proof.
  intros H. unfold kerSysBcmImageSet. rewrite H. cbn [flash_get_blk].
  assert (E : s32 a = s32 (x + FLASH_BASE)); [|by rewrite E].
  unfold s32, u32 in *. by rewrite <- (Zplus_mod_idemp_l a), H, Zplus_mod_idemp_l.
Qed.

(** [kerSysBcmImageSet] writes an image behind the first sector: it returns,
    whatever the device does; only the sectors from the one of the start address up
    to the first sector of the PSI can change; a return of 0 means that the image is in
    the flash from the start of its first sector and that the PSI and everything else
    behind the image's room is unchanged; another value is the sector that failed;
    and on a device that works the return is 0. *)
Theorem kerSysBcmImageSet_spec x k s string size f :
  0 < k <= psi -> psi < zlen sizes -> base k <= x < base (k + 1) ->
  sizes !! Z.to_nat psi = Some s -> 0 <= flash_persistent_length fInfo <= s ->
  0 < size -> size + size mod 2 <= zlen string ->
  base k + size <= base psi + s - flash_persistent_length fInfo ->
  exists sts f',
    kerSysBcmImageSet g FLASH_BASE true true fInfo (x + FLASH_BASE) string size f =
      Some (Returns sts f') /\
    same_outside (base k) (base psi + s - base k) (img f) (img f') /\
    (sts = 0 -> Forall is_u8 string -> slice (base k) size (img f') = slice 0 size string /\
       forall o m, base psi + s - flash_persistent_length fInfo <= o ->
         slice o m (img f') = slice o m (img f)) /\
    (sts <> 0 -> k <= sts <= psi) /\
    (FlashReliable dev sizes -> Forall is_u8 string -> sts = 0).
Proof. apply image_set_ok. Qed.

(** A whole image, which starts at the first sector and is longer than the boot
    loader: the call returns, a return of 0 means that the device starts with the
    image (the erasure of the rest included), and on a device that works it is 0. *)
Lemma whole_image_spec string size f :
  0 <= flash_rootfs_start_offset fInfo < size -> size + size mod 2 <= zlen string ->
  size <= zsum sizes ->
  exists sts f',
    kerSysBcmImageSet g FLASH_BASE true true fInfo FLASH_BASE string size f =
      Some (Returns sts f') /\
    (sts = 0 -> Forall is_u8 string -> slice 0 size (img f') = slice 0 size string) /\
    (sts <> 0 -> sts = zlen sizes) /\
    (FlashReliable dev sizes -> Forall is_u8 string -> sts = 0).
Proof.
  intros Hr H1 Hfit. destruct (laws_device (FlashLaws := HL)) as (_ & Hmax & Hsum).
  destruct (sector_exists (HL := HL) 0) as (s & E & Hs & _ & Hb & _); [lia|].
  pose proof (base_S 0 s ltac:(lia) E) as Eb. change (0 + 1) with 1 in *.
  assert (B0 : base 0 = 0) by done.
  assert (Hblk : flash_get_blk g FLASH_BASE f = Some 0).
  { pose proof (blk_is 0 0 f) as Hb0. rewrite Z.add_0_l in Hb0. apply Hb0; [lia|].
    change (0 + 1) with 1. lia. }
  unfold kerSysBcmImageSet. rewrite Hblk. cbn [mbind option_bind].
  rewrite Z.eqb_refl. change (0 <? 0) with false. unfold u32.
  rewrite (Z.mod_small size) by lia. destruct (Z.ltb_spec (flash_rootfs_start_offset fInfo) size); [|lia].
  cbn [andb].
  destruct (image_loop_ok fInfo Heven true (zlen sizes) 0 (base (zlen sizes)))
    with (n := S (Z.to_nat MAXSECTORS)) (k := 0) (string := string) (pos := 0) (size := size) (f := f)
    as (k' & size' & f1 & -> & Hk' & He & Hso & Hst & HR).
  - lia.
  - by left.
  - by left.
  - lia.
  - unfold MAXSECTORS in *. lia.
  - split; [lia|]. split; lia.
  - rewrite base_end. lia.
  - cbn [mbind option_bind]. replace (flash_get_numsectors g f1) with (zlen sizes)
      by (symmetry; apply (laws_numsectors (FlashLaws := HL))).
    destruct (erase_rest_ok (Z.to_nat (zlen sizes - k')) k' f1) as (f2 & -> & Hs2); [lia|lia|].
    cbn [mbind option_bind]. do 2 eexists. split; [done|]. split_and!.
    + destruct (Z.eqb_spec size' 0) as [Hz|]; [|lia]. intros _ Hb8. destruct (Hst Hz Hb8) as [<- _].
      specialize (He eq_refl Hz). rewrite B0 in *. apply (same_outside_slice _ _ _ _ _ _ Hs2); lia.
    + destruct (Z.eqb_spec size' 0); [done|lia].
    + intros HRe Hb8. by rewrite HR.
Qed.
End Theorems.
End Proofs.

(** ** A failure that is reported as success *)

(** When the first sector of the device cannot be written (an update of the boot
    loader), [kerSysBcmImageSet] returns 0, its value for success: the return value of
    a failure is the number of the sector. *)
Theorem image_set_hides_failure {F : Type} (g : option (flash_device_info_t F)) FLASH_BASE alloc copied
    fInfo addr string size s r i f f1 f2 :
  flash_get_blk g addr f = Some 0 -> u32 size <= flash_rootfs_start_offset fInfo ->
  flash_persistent_start_blk fInfo <> 0 -> flash_get_sector_size g 0 f = Some s ->
  0 < size < s -> Z.even size = true -> size <= zlen string ->
  flash_sector_erase_int g 0 f = Some (r, f1) ->
  flash_write_buf g 0 0 (slice 0 size string) f1 = Some (i, f2) -> i <> size ->
  kerSysBcmImageSet g FLASH_BASE alloc copied fInfo addr string size f = Some (Returns 0 f2).
Proof.
  intros Hblk Hroot Hpsi Hs Hsz Hev Hlen He Hwr Hi. unfold kerSysBcmImageSet. rewrite Hblk.
  cbn [mbind option_bind]. change (0 <? 0) with false.
  destruct (Z.ltb_spec (flash_rootfs_start_offset fInfo) (u32 size)); [lia|]. rewrite andb_false_r.
  generalize (Z.to_nat MAXSECTORS) as n. intros n. cbn [image_loop]. rewrite Hs. cbn [mbind option_bind negb andb].
  destruct (Z.eqb_spec 0 (flash_persistent_start_blk fInfo)); [congruence|].
  rewrite He. cbn [mbind option_bind]. rewrite <- Z.negb_even, Hev. cbn [negb]. rewrite andb_false_r.
  destruct (Z.ltb_spec size s); [|lia]. rewrite mem_read_Some by lia. cbn [mbind option_bind].
  rewrite Hwr. cbn [mbind option_bind]. destruct (Z.eqb_spec i size); [done|].
  cbn [negb mbind option_bind]. destruct (Z.eqb_spec size 0); [lia|done].
Qed.

(** ** Witnesses *)

Definition image_info : FLASH_ADDR_INFO :=
  mkFInfo 7 1 0x6000 0xA000 7 1 0x2000 0x8000 0 1 1024 0x580 0x10000 6 1 0x6000 0xA000.

Lemma demo_even : Forall (fun n => Z.even n = true) demo_sizes.
Proof. by apply Forall_replicate. Qed.

(** An image of one sector and a half. *)
Definition demo_image : list Z := replicate (Z.to_nat 0x18000) 1.

Lemma kerSysBcmImageSet_spec_witness :
  exists sts f',
    kerSysBcmImageSet (Some (Nor.dev demo_sizes)) Nor.FLASH_BASE true true image_info
      (0x10000 + Nor.FLASH_BASE) demo_image 0x18000 [] = Some (Returns sts f') /\
    same_outside (sbase demo_sizes 1) (sbase demo_sizes 7 + 0x10000 - sbase demo_sizes 1)
      (Nor.img demo_sizes []) (Nor.img demo_sizes f') /\
    (sts = 0 -> Forall is_u8 demo_image -> slice (sbase demo_sizes 1) 0x18000 (Nor.img demo_sizes f') = slice 0 0x18000 demo_image /\
       forall o m, sbase demo_sizes 7 + 0x10000 - 0x6000 <= o ->
         slice o m (Nor.img demo_sizes f') = slice o m (Nor.img demo_sizes [])) /\
    (sts <> 0 -> 1 <= sts <= 7) /\
    (FlashReliable (Nor.dev demo_sizes) demo_sizes -> Forall is_u8 demo_image -> sts = 0).
Proof.
  apply (kerSysBcmImageSet_spec (HL := Nor.laws demo_sizes demo_ok) image_info demo_even
    0x10000 1 0x10000 demo_image 0x18000 []); by vm_compute.
Defined.

(** A device whose writes fail. *)
Definition dead_dev : flash_device_info_t unit := {|
  flash_device_id := 0;
  flash_device_name := "dead";
  fn_flash_sector_erase_int _ f := Some (FLASH_API_OK, f);
  fn_flash_read_buf _ _ _ _ := Some (FLASH_API_ERROR, []);
  fn_flash_write_buf _ _ _ f := Some (FLASH_API_ERROR, f);
  fn_flash_get_numsectors _ := 8;
  fn_flash_get_sector_size _ _ := Some 0x10000;
  fn_flash_get_memptr _ _ := Some 0;
  fn_flash_get_blk _ _ := Some 0;
  fn_flash_get_total_size _ := 0x80000;
  fn_flash_get_total_memory_mapped_size _ := 0x80000
|}.

Lemma image_set_hides_failure_witness :
  kerSysBcmImageSet (Some dead_dev) Nor.FLASH_BASE true true image_info Nor.FLASH_BASE [1; 2] 2 tt =
    Some (Returns 0 tt).
Proof.
  apply (image_set_hides_failure (Some dead_dev) Nor.FLASH_BASE true true image_info Nor.FLASH_BASE
    [1; 2] 2 0x10000 FLASH_API_OK FLASH_API_ERROR tt tt tt); by vm_compute.
Defined.
