(* ===== verification/ScratchPad.v ===== *)
(** * Scratch pad

    [kerSysScratchPadGet] and [kerSysScratchPadSet] of [bcm63xx_flash.c]: named
    tokens in an 8 KB section of the flash.  A pad is a 32-byte header followed
    by tokens (16 bytes of name, a big-endian [int] length, the data rounded up
    to four bytes).  The functions work on the memory from [pBuf] - the pad's
    place in the buffer of its sectors - to the end of that buffer; what follows
    the pad there belongs to the next section.  [None] is an access outside the
    buffer, or a loop that exceeds its fuel. *)

From S2P Require Import Prelude BoardDefs SectorMap FlashApi FlashStore.

(** ** Format ([board.h]) *)

Definition MAGIC_NUM_LEN : Z := 8.
Definition MAGIC_NUMBER : list Z := bytes_of_string "gOGoBrCm".
Definition TOKEN_NAME_LEN : Z := 16.
Definition SP_VERSION : Z := 1.
Definition sizeof_SP_HEADER : Z := 32.
Definition sizeof_SP_TOKEN : Z := 20.

(** A big-endian 32-bit word in memory. *)
Definition be32 (n : Z) : list Z :=
  [u8 (Z.shiftr n 24); u8 (Z.shiftr n 16); u8 (Z.shiftr n 8); u8 n].

Definition be32_get (l : list Z) : Z :=
  match l with
  | [a; b; c; d] => s32 (a * 2 ^ 24 + b * 2 ^ 16 + c * 2 ^ 8 + d)
  | _ => 0
  end.

(** [SPHead] and [SPToken] as the functions fill them in. *)
Definition SPHead : list Z := MAGIC_NUMBER ++ be32 SP_VERSION ++ replicate 20 0.

(** [strncpy(SPToken.tokenName, tokenId, 15)] into a cleared structure. *)
Definition SPToken (tokenId : list Z) (bufLen : Z) : list Z :=
  let name := take 15 (cstr tokenId) in
  name ++ replicate (16 - length name) 0 ++ be32 bufLen.

(** [(len + 0x03) & ~0x03]. *)
Definition round4 (len : Z) : Z := Z.land (len + 3) (Z.lnot 3).

(** ** Access to the tokens *)

Definition tokenName0 (pb : list Z) (p : Z) : option Z := s8 <$> pb !! Z.to_nat p.

Definition tokenLen (pb : list Z) (p : Z) : option Z :=
  be32_get <$> mem_read pb (p + TOKEN_NAME_LEN) 4.

(** [strncmp(a, b, n) == 0]. *)
Fixpoint strncmp_eq (n : nat) (a b : list Z) : option bool :=
  match n with
  | O => Some true
  | S n' =>
      match a, b with
      | x :: a', y :: b' =>
          if negb (x =? y) then Some false
          else if x =? 0 then Some true else strncmp_eq n' a' b'
      | _, _ => None
      end
  end.

(** [strlen] of the string at [p]. *)
Definition strlen_at (pb : list Z) (p : Z) : option Z :=
  let s := drop (Z.to_nat p) pb in
  if nul_terminated s then Some (zlen (cstr s)) else None.

Definition magic_ok (pb : list Z) : option bool :=
  m ← mem_read pb 0 MAGIC_NUM_LEN; Some (bool_decide (m = MAGIC_NUMBER)).

(** ** Get *)

(** The search of [kerSysScratchPadGet] from the token at [p]: the return code and
    the bytes stored in [tokBuf].  [N] is [flash_scratch_pad_length]. *)
Fixpoint sp_search (fuel : nat) (pb : list Z) (N : Z) (tokenId : list Z) (bufLen p usedLen : Z)
    : option (Z * list Z) :=
  match fuel with
  | O => None
  | S fuel' =>
      c ← tokenName0 pb p;
      if c =? 0 then Some (-1, [])
      else
        len ← tokenLen pb p;
        if (0 <? len) && (len <? N) && (usedLen <? N) then
          name ← mem_read pb p TOKEN_NAME_LEN;
          eq ← strncmp_eq 16 name tokenId;
          if (eq : bool) then
            if bufLen <? len then Some (-1, [])
            else d ← mem_read pb (p + sizeof_SP_TOKEN) len; Some (len, d)
          else sp_search fuel' pb N tokenId bufLen (p + (sizeof_SP_TOKEN + round4 len))
                 (usedLen + round4 len)
        else Some (-1, [])
  end.

Definition sp_get (pb : list Z) (N : Z) (tokenId : list Z) (bufLen : Z) : option (Z * list Z) :=
  ok ← magic_ok pb;
  if (ok : bool) then
    sp_search (Z.to_nat N) pb N tokenId bufLen sizeof_SP_HEADER sizeof_SP_HEADER
  else Some (-1, []).

(** ** Set *)

(** The first loop: the used length. *)
Fixpoint sp_used (fuel : nat) (pb : list Z) (N p : Z) : option Z :=
  match fuel with
  | O => None
  | S fuel' =>
      len ← tokenLen pb p;
      c ← tokenName0 pb p;
      if (65 <=? c) && (c <=? 122) then
        n ← strlen_at pb p;
        if (n <? TOKEN_NAME_LEN) && (0 <? len) && (len <? N) && (p <? N)
        then sp_used fuel' pb N (p + (sizeof_SP_TOKEN + round4 len))
        else Some p
      else Some p
  end.

(** The second loop: the place of the token, if there is one before [usedLen]. *)
Fixpoint sp_locate (fuel : nat) (pb : list Z) (tokenId : list Z) (p usedLen : Z)
    : option (option Z) :=
  match fuel with
  | O => None
  | S fuel' =>
      if p <? usedLen then
        len ← tokenLen pb p;
        name ← mem_read pb p TOKEN_NAME_LEN;
        eq ← strncmp_eq 16 name tokenId;
        if (eq : bool) then Some (Some p)
        else sp_locate fuel' pb tokenId (p + (sizeof_SP_TOKEN + round4 len)) usedLen
      else Some None
  end.

(** [memcpy] inside one buffer, which copies upwards: what it overwrites of its source it
    has read before when the destination is below the source, as it is here ([memcpy.S]
    loads and stores in groups of words). *)
Fixpoint copy_up (n : nat) (buf : list Z) (dst src : Z) : option (list Z) :=
  match n with
  | O => Some buf
  | S n' =>
      d ← mem_read buf src 1;
      buf ← mem_write buf dst d;
      copy_up n' buf (dst + 1) (src + 1)
  end.

Definition memcpy (buf : list Z) (dst src len : Z) : option (list Z) :=
  if 0 <=? len then copy_up (Z.to_nat len) buf dst src else None.

(** Remove the token at [p]: shift the tokens behind it and clear the rest of the
    pad; source and destination of the copy overlap. *)
Definition sp_remove (pb : list Z) (N p usedLen : Z) : option (list Z * Z) :=
  len ← tokenLen pb p;
  let size := sizeof_SP_TOKEN + round4 len in
  let copyLen := usedLen - (p + size) in
  pb ← memcpy pb p (p + size) copyLen;
  pb ← mem_set pb (p + copyLen) (N - (p + copyLen)) 0;
  Some (pb, usedLen - size).

(** [putAtEnd]. *)
Definition sp_append (pb : list Z) (tokenId : list Z) (tokBuf : option (list Z)) (bufLen usedLen : Z)
    : option (list Z) :=
  pb ← match tokBuf with
       | Some d =>
           pb ← mem_write pb usedLen (SPToken tokenId bufLen);
           d ← mem_read d 0 bufLen;
           mem_write pb (usedLen + sizeof_SP_TOKEN) d
       | None => Some pb
       end;
  mem_write pb 0 SPHead.

(** The token exists at [p]: overwrite data of the same length, otherwise remove
    the token and put the new one at the end. *)
Definition sp_replace (pb : list Z) (N : Z) (tokenId : list Z) (tokBuf : option (list Z))
    (bufLen p usedLen : Z) : option (list Z) :=
  len ← tokenLen pb p;
  match tokBuf with
  | Some d =>
      if len =? bufLen then
        d ← mem_read d 0 bufLen; mem_write pb (p + sizeof_SP_TOKEN) d
      else
        '(pb, usedLen) ← sp_remove pb N p usedLen;
        sp_append pb tokenId tokBuf bufLen usedLen
  | None =>
      '(pb, usedLen) ← sp_remove pb N p usedLen;
      sp_append pb tokenId tokBuf bufLen usedLen
  end.

(** The update of the pad: the return code -1 and no change when it overflows. *)
Definition sp_set (pb : list Z) (N : Z) (tokenId : list Z) (tokBuf : option (list Z)) (bufLen : Z)
    : option (Z * list Z) :=
  ok ← magic_ok pb;
  if (ok : bool) then
    usedLen ← sp_used (Z.to_nat N) pb N sizeof_SP_HEADER;
    if N <? usedLen + bufLen + sizeof_SP_TOKEN then Some (-1, pb)
    else
      at_p ← sp_locate (Z.to_nat N) pb tokenId sizeof_SP_HEADER usedLen;
      pb ← match at_p with
           | Some p => sp_replace pb N tokenId tokBuf bufLen p usedLen
           | None => sp_append pb tokenId tokBuf bufLen usedLen
           end;
      Some (0, pb)
  else
    pb ← mem_write pb 0 SPHead;
    pb ← mem_write pb sizeof_SP_HEADER (SPToken tokenId bufLen);
    pb ← match tokBuf with
         | Some d => d ← mem_read d 0 bufLen;
                     mem_write pb (sizeof_SP_HEADER + sizeof_SP_TOKEN) d
         | None => Some pb
         end;
    Some (0, pb).

(** ** The kernel functions *)

(** [pShareBuf + flash_scratch_pad_blk_offset]. *)
Definition pad_of (pShareBuf : list Z) (off : Z) : option (list Z) :=
  if (0 <=? off) && (off <=? zlen pShareBuf) then Some (drop (Z.to_nat off) pShareBuf) else None.

Section Functions.
Context {F : Type} (g_flash_info : option (flash_device_info_t F)).

(** The length tests compare unsigned values. *)
Definition kerSysScratchPadGet (alloc : bool) (fInfo : FLASH_ADDR_INFO) (tokenId : list Z)
    (bufLen : Z) (f : F) : option (Z * list Z) :=
  let N := flash_scratch_pad_length fInfo in
  let start := flash_scratch_pad_start_blk fInfo in
  if N =? 0 then Some (-1, [])
  else if u32 (N - sizeof_SP_HEADER - sizeof_SP_TOKEN) <=? u32 bufLen then Some (-1, [])
  else
    p ← getSharedBlks g_flash_info alloc start (start + flash_scratch_pad_number_blk fInfo) f;
    match p with
    | None => Some (-1, [])
    | Some pShareBuf =>
        pb ← pad_of pShareBuf (flash_scratch_pad_blk_offset fInfo);
        sp_get pb N tokenId bufLen
    end.

Definition kerSysScratchPadSet (alloc : bool) (fInfo : FLASH_ADDR_INFO) (tokenId : list Z)
    (tokBuf : option (list Z)) (bufLen : Z) (f : F) : option (Z * F) :=
  let N := flash_scratch_pad_length fInfo in
  let start := flash_scratch_pad_start_blk fInfo in
  let number := flash_scratch_pad_number_blk fInfo in
  let off := flash_scratch_pad_blk_offset fInfo in
  if N =? 0 then Some (-1, f)
  else if u32 (N - sizeof_SP_HEADER - sizeof_SP_TOKEN) <=? u32 bufLen then Some (-1, f)
  else
    p ← getSharedBlks g_flash_info alloc start (start + number) f;
    match p with
    | None => Some (-1, f)
    | Some pShareBuf =>
        pb ← pad_of pShareBuf off;
        '(sts, pb) ← sp_set pb N tokenId tokBuf bufLen;
        if sts =? 0 then
          setSharedBlks g_flash_info start (number + start)
            (take (Z.to_nat off) pShareBuf ++ pb) f
        else Some (sts, f)
    end.
End Functions.

(** ** Well-formed pads *)

(** A token in memory, with the bytes that round up its data. *)
Record cell := mkCell { c_name : list Z; c_data : list Z; c_fill : list Z }.

Definition enc_head (name : list Z) (len : Z) : list Z :=
  name ++ replicate (16 - length name) 0 ++ be32 len.
Definition enc_cell (c : cell) : list Z :=
  enc_head (c_name c) (zlen (c_data c)) ++ c_data c ++ c_fill c.
Definition enc_cells (cs : list cell) : list Z := concat (map enc_cell cs).

(** A usable token name: one to fifteen characters, the first between 'A' and 'z'. *)
Definition token_name_ok (name : list Z) : Prop :=
  Forall (fun x => is_u8 x /\ x <> 0) name /\ (length name <= 15)%nat /\
  exists c rest, name = c :: rest /\ 65 <= c <= 122.

Definition cell_ok (N : Z) (c : cell) : Prop :=
  token_name_ok (c_name c) /\ 0 < zlen (c_data c) < N /\
  zlen (c_fill c) = round4 (zlen (c_data c)) - zlen (c_data c).

(** A pad of [N] bytes with the tokens [cs], [room] unused bytes that are all
    zero or all erased, and whatever follows the pad in memory. *)
Record pad_repr (pb : list Z) (N : Z) (cs : list cell) (hdr : list Z) (room b : Z)
    (rest : list Z) : Prop := {
  pad_eq : pb = hdr ++ enc_cells cs ++ replicate (Z.to_nat room) b ++ rest;
  pad_hdr : zlen hdr = sizeof_SP_HEADER;
  pad_magic : slice 0 MAGIC_NUM_LEN hdr = MAGIC_NUMBER;
  pad_cells : Forall (cell_ok N) cs;
  pad_names : NoDup (map c_name cs);
  pad_room : 0 <= room;
  pad_blank : b = 0 \/ b = 255;
  pad_size : sizeof_SP_HEADER + zlen (enc_cells cs) + room = N;
  pad_int : N < 2 ^ 31
}.

(** The data of a token. *)
Fixpoint pad_lookup (cs : list cell) (id : list Z) : option (list Z) :=
  match cs with
  | [] => None
  | c :: cs' => if decide (c_name c = id) then Some (c_data c) else pad_lookup cs' id
  end.

Lemma round4_eq n : round4 n = (n + 3) / 4 * 4.
Proof.
  unfold round4. change (Z.lnot 3) with (Z.lnot (Z.ones 2)).
  rewrite <- Z.ldiff_land, Z.ldiff_ones_r by lia.
  by rewrite Z.shiftr_div_pow2, Z.shiftl_mul_pow2 by lia.
Qed.

Lemma round4_spec n : 0 <= n -> n <= round4 n < n + 4 /\ round4 n mod 4 = 0.
Proof.
  intros. rewrite round4_eq. split; [|by apply Z.mod_mul].
  pose proof (Z.div_mod (n + 3) 4). pose proof (Z.mod_pos_bound (n + 3) 4). lia.
Qed.

Lemma be32_roundtrip n : 0 <= n < 2 ^ 31 -> be32_get (be32 n) = n.
Proof.
  intros Hn. unfold be32, be32_get, u8. rewrite !Z.shiftr_div_pow2 by lia.
  rewrite s32_id; [|unfold is_s32]; Z.to_euclidean_division_equations; lia.
Qed.

Lemma zlen_enc_head name len : (length name <= 16)%nat -> zlen (enc_head name len) = sizeof_SP_TOKEN.
Proof.
  intros. unfold enc_head. rewrite !zlen_app, zlen_replicate. unfold sizeof_SP_TOKEN, zlen.
  cbn [length be32]. lia.
Qed.

Lemma zlen_enc_cell N c :
  cell_ok N c -> zlen (enc_cell c) = sizeof_SP_TOKEN + round4 (zlen (c_data c)).
Proof.
  intros ((_ & Hn & _) & _ & Hf). unfold enc_cell. rewrite !zlen_app, zlen_enc_head by lia. lia.
Qed.

Lemma enc_cells_cons c cs : enc_cells (c :: cs) = enc_cell c ++ enc_cells cs.
Proof. done. Qed.

Lemma enc_cells_app cs1 cs2 : enc_cells (cs1 ++ cs2) = enc_cells cs1 ++ enc_cells cs2.
Proof. unfold enc_cells. by rewrite map_app, concat_app. Qed.

(** *** Reading one token *)

Section OneToken.
Variables (N : Z) (pre post : list Z) (c : cell).
Hypotheses (Hc : cell_ok N c) (HN : N < 2 ^ 31).
Let pb := pre ++ enc_cell c ++ post.

Lemma cell_len : tokenLen pb (zlen pre) = Some (zlen (c_data c)).
Proof.
  destruct Hc as ((_ & Hn & _) & Hd & _). unfold tokenLen, pb, enc_cell, enc_head.
  set (nm := c_name c ++ replicate (16 - length (c_name c)) 0).
  replace (pre ++ _ ++ post) with ((pre ++ nm) ++ be32 (zlen (c_data c)) ++ (c_data c ++ c_fill c ++ post))
    by (unfold nm; by rewrite <- !app_assoc).
  rewrite mem_read_mid.
  - unfold fmap, option_fmap, option_map. by rewrite be32_roundtrip by lia.
  - rewrite zlen_app. unfold nm. rewrite zlen_app, zlen_replicate. unfold TOKEN_NAME_LEN, zlen. lia.
  - done.
Qed.

Lemma cell_name0 :
  exists x, tokenName0 pb (zlen pre) = Some x /\ 65 <= x <= 122 /\ x <> 0.
Proof.
  destruct Hc as ((_ & _ & x & r & E & Hx) & _). exists x. unfold tokenName0, pb, enc_cell, enc_head.
  rewrite E. cbn [app]. rewrite lookup_mid by done. cbn. split; [|lia].
  f_equal. unfold s8. rewrite Z.mod_small; lia.
Qed.

Definition padded (name : list Z) : list Z := name ++ replicate (16 - length name) 0.

Lemma cell_name : mem_read pb (zlen pre) TOKEN_NAME_LEN = Some (padded (c_name c)).
Proof.
  destruct Hc as ((_ & Hn & _) & _). unfold pb, enc_cell, enc_head, padded.
  set (nm := c_name c ++ replicate (16 - length (c_name c)) 0).
  replace (pre ++ _ ++ post) with (pre ++ nm ++ (be32 (zlen (c_data c)) ++ c_data c ++ c_fill c ++ post))
    by (unfold nm; by rewrite <- !app_assoc).
  apply mem_read_mid; [done|]. unfold nm. rewrite zlen_app, zlen_replicate.
  unfold TOKEN_NAME_LEN, zlen. lia.
Qed.

Lemma cell_data : mem_read pb (zlen pre + sizeof_SP_TOKEN) (zlen (c_data c)) = Some (c_data c).
Proof.
  destruct Hc as ((_ & Hn & _) & _). unfold pb, enc_cell.
  replace (pre ++ _ ++ post) with
    ((pre ++ enc_head (c_name c) (zlen (c_data c))) ++ c_data c ++ (c_fill c ++ post))
    by (by rewrite <- !app_assoc).
  apply mem_read_mid; [|done]. rewrite zlen_app, zlen_enc_head by lia. done.
Qed.

Lemma cell_strlen : exists n, strlen_at pb (zlen pre) = Some n /\ n < TOKEN_NAME_LEN.
Proof.
  destruct Hc as ((Hall & Hn & _) & _). unfold strlen_at, pb, enc_cell, enc_head.
  assert (Z.to_nat (zlen pre) = length pre) as -> by (unfold zlen; lia).
  rewrite drop_app_length.
  destruct (16 - length (c_name c))%nat as [|k] eqn:E; [lia|]. cbn [replicate].
  rewrite <- !app_assoc. cbn [app].
  assert (Hcs : forall r, cstr (c_name c ++ 0 :: r) = c_name c).
  { intros r. apply cstr_app_nul. eapply Forall_impl; [exact Hall|]. by intros x []. }
  rewrite Hcs. assert (nul_terminated (c_name c ++ 0 :: _) = true) as ->.
  { unfold nul_terminated. rewrite existsb_app. apply orb_true_iff. right. done. }
  eexists. split; [done|]. unfold zlen, TOKEN_NAME_LEN. lia.
Qed.
End OneToken.

(** *** The loops *)

Lemma strncmp_padded id name : forall k,
  Forall (fun x => is_u8 x /\ x <> 0) name -> nul_terminated id = true ->
  strncmp_eq (length name + S k) (name ++ replicate (S k) 0) id = Some (bool_decide (name = cstr id)).
Proof.
  revert id. induction name as [|x name IH]; intros id k Hn Hid; cbn [length Nat.add app replicate strncmp_eq].
  - destruct id as [|y id]; [done|]. cbn [cstr]. rewrite (Z.eqb_sym y 0). by destruct (0 =? y).
  - apply Forall_cons in Hn as [[_ Hx] Hn]. destruct id as [|y id]; [done|]. cbn [cstr].
    destruct (Z.eqb_spec x y) as [<-|Hxy]; cbn [negb].
    + rewrite (proj2 (Z.eqb_neq x 0) Hx). rewrite IH by (done || by eapply nul_terminated_cons).
      f_equal. apply bool_decide_ext. naive_solver.
    + f_equal. symmetry. apply bool_decide_eq_false. destruct (y =? 0); naive_solver.
Qed.

Lemma strncmp_cell N c id :
  cell_ok N c -> nul_terminated id = true ->
  strncmp_eq 16 (padded (c_name c)) id = Some (bool_decide (c_name c = cstr id)).
Proof.
  intros ((Hall & Hn & _) & _) Hid. unfold padded.
  destruct (16 - length (c_name c))%nat as [|k] eqn:E; [lia|].
  replace 16%nat with (length (c_name c) + S k)%nat by lia. by apply strncmp_padded.
Qed.

(** Behind the tokens both loops stop. *)
Lemma blank_stops pre room b rest :
  sizeof_SP_TOKEN <= room -> b = 0 \/ b = 255 ->
  let pb := pre ++ replicate (Z.to_nat room) b ++ rest in
  tokenName0 pb (zlen pre) = Some (s8 b) /\
  tokenLen pb (zlen pre) = Some (if b =? 0 then 0 else -1).
Proof.
  intros Hr Hb pb. unfold pb. unfold sizeof_SP_TOKEN in Hr.
  assert (exists k, Z.to_nat room = (16 + (4 + k))%nat) as [k ->] by (exists (Z.to_nat room - 20)%nat; lia).
  split.
  - unfold tokenName0. rewrite replicate_add. cbn [replicate Nat.add app].
    by rewrite lookup_mid.
  - unfold tokenLen. rewrite !replicate_add, <- !app_assoc, app_assoc.
    rewrite mem_read_mid by (rewrite ?zlen_app, ?zlen_replicate; unfold TOKEN_NAME_LEN; lia).
    by destruct Hb as [-> | ->].
Qed.

Definition get_result (r : option (list Z)) (bufLen : Z) : Z * list Z :=
  match r with
  | Some d => if bufLen <? zlen d then (-1, []) else (zlen d, d)
  | None => (-1, [])
  end.

(** What [kerSysScratchPadGet] counts: the data of the tokens, not their heads. *)
Definition data_len (cs : list cell) : Z :=
  zsum (map (fun c => round4 (zlen (c_data c))) cs).

Lemma data_len_le N cs : Forall (cell_ok N) cs -> data_len cs <= zlen (enc_cells cs).
Proof.
  induction 1 as [|c cs Hc _ IH]; [done|]. rewrite enc_cells_cons, zlen_app, (zlen_enc_cell N) by done.
  unfold data_len in *. cbn [map]. rewrite zsum_cons. unfold sizeof_SP_TOKEN. lia.
Qed.

Lemma data_len_nonneg N cs : Forall (cell_ok N) cs -> 0 <= data_len cs.
Proof.
  induction 1 as [|c cs Hc _ IH]; [done|]. unfold data_len in *. cbn [map]. rewrite zsum_cons.
  pose proof (round4_spec (zlen (c_data c)) (zlen_nonneg _)). pose proof (zlen_nonneg (c_data c)). lia.
Qed.

Lemma sp_search_spec N id bufLen room b rest cs : forall pre used fuel,
  Forall (cell_ok N) cs -> N < 2 ^ 31 -> nul_terminated id = true ->
  sizeof_SP_TOKEN <= room -> b = 0 \/ b = 255 ->
  used + data_len cs < N -> (length cs < fuel)%nat ->
  sp_search fuel (pre ++ enc_cells cs ++ replicate (Z.to_nat room) b ++ rest) N id bufLen
    (zlen pre) used = Some (get_result (pad_lookup cs (cstr id)) bufLen).
Proof.
  induction cs as [|c cs IH]; intros pre used fuel Hall HN Hid Hroom Hb Hused Hfuel;
    (destruct fuel as [|fuel]; [cbn in *; lia|]).
  - change (enc_cells []) with (@nil Z). cbn [app sp_search pad_lookup get_result].
    destruct (blank_stops pre room b rest Hroom Hb) as [-> ->]. cbn [mbind option_bind].
    by destruct Hb as [-> | ->].
  - apply Forall_cons in Hall as [Hc Hall]. rewrite enc_cells_cons, <- !app_assoc.
    pose proof (zlen_enc_cell N c Hc) as Hzc. pose proof (data_len_nonneg N cs Hall).
    unfold data_len in Hused. cbn [map] in Hused. rewrite zsum_cons in Hused.
    fold (data_len cs) in Hused. pose proof Hc as (_ & Hd & _).
    destruct (round4_spec (zlen (c_data c))) as [Hr4 _]; [lia|]. unfold sizeof_SP_TOKEN in *.
    cbn [sp_search pad_lookup].
    destruct (cell_name0 N pre (enc_cells cs ++ replicate (Z.to_nat room) b ++ rest) c Hc)
      as (x & -> & _ & Hx). cbn [mbind option_bind].
    rewrite (proj2 (Z.eqb_neq x 0) Hx).
    rewrite (cell_len N) by done. cbn [mbind option_bind].
    assert ((0 <? zlen (c_data c)) && (zlen (c_data c) <? N) && (used <? N) = true) as -> by ztest.
    rewrite (cell_name N) by done. cbn [mbind option_bind].
    rewrite (strncmp_cell N c id) by done. cbn [mbind option_bind].
    destruct (decide (c_name c = cstr id)) as [Hid'|Hid'].
    + rewrite bool_decide_true by done. cbn [get_result].
      destruct (bufLen <? zlen (c_data c)); [done|]. by rewrite (cell_data N).
    + rewrite bool_decide_false by done. rewrite app_assoc.
      replace (zlen pre + (sizeof_SP_TOKEN + round4 (zlen (c_data c)))) with (zlen (pre ++ enc_cell c))
        by (rewrite zlen_app; unfold sizeof_SP_TOKEN; lia).
      apply IH; [done..|lia|cbn in *; lia].
Qed.

Lemma sp_used_spec N room b rest cs : forall pre fuel,
  Forall (cell_ok N) cs -> N < 2 ^ 31 -> sizeof_SP_TOKEN <= room -> b = 0 \/ b = 255 ->
  zlen pre + zlen (enc_cells cs) < N -> (length cs < fuel)%nat ->
  sp_used fuel (pre ++ enc_cells cs ++ replicate (Z.to_nat room) b ++ rest) N (zlen pre) =
    Some (zlen pre + zlen (enc_cells cs)).
Proof.
  induction cs as [|c cs IH]; intros pre fuel Hall HN Hroom Hb Hused Hfuel;
    (destruct fuel as [|fuel]; [cbn in *; lia|]).
  - change (enc_cells []) with (@nil Z). cbn [app sp_used].
    destruct (blank_stops pre room b rest Hroom Hb) as [-> ->]. cbn [mbind option_bind].
    change (zlen (@nil Z)) with 0. rewrite Z.add_0_r. by destruct Hb as [-> | ->].
  - apply Forall_cons in Hall as [Hc Hall]. rewrite enc_cells_cons, <- !app_assoc.
    pose proof (zlen_enc_cell N c Hc) as Hzc. rewrite enc_cells_cons, zlen_app in *.
    pose proof (zlen_nonneg (enc_cells cs)). pose proof Hc as (_ & Hd & _).
    destruct (round4_spec (zlen (c_data c))) as [Hr4 _]; [lia|].
    cbn [sp_used]. rewrite (cell_len N) by done. cbn [mbind option_bind].
    destruct (cell_name0 N pre (enc_cells cs ++ replicate (Z.to_nat room) b ++ rest) c Hc)
      as (x & -> & Hx & _). cbn [mbind option_bind].
    assert ((65 <=? x) && (x <=? 122) = true) as -> by ztest.
    destruct (cell_strlen N pre (enc_cells cs ++ replicate (Z.to_nat room) b ++ rest) c Hc)
      as (n & -> & Hn). cbn [mbind option_bind].
    assert ((n <? TOKEN_NAME_LEN) && (0 <? zlen (c_data c)) && (zlen (c_data c) <? N)
            && (zlen pre <? N) = true) as -> by (unfold sizeof_SP_TOKEN in *; ztest).
    rewrite app_assoc, <- Hzc, <- zlen_app. rewrite IH; [|done..| |cbn in *; lia];
      rewrite zlen_app; [f_equal|]; lia.
Qed.

(** The token is found at the end of the cells before it. *)
Lemma sp_locate_spec N id tail cs : forall pre fuel,
  Forall (cell_ok N) cs -> N < 2 ^ 31 -> nul_terminated id = true -> (length cs < fuel)%nat ->
  (Forall (fun c => c_name c <> cstr id) cs /\
   sp_locate fuel (pre ++ enc_cells cs ++ tail) id (zlen pre) (zlen pre + zlen (enc_cells cs)) =
     Some None) \/
  (exists cs1 c cs2, cs = cs1 ++ c :: cs2 /\ c_name c = cstr id /\
   Forall (fun c => c_name c <> cstr id) cs1 /\
   sp_locate fuel (pre ++ enc_cells cs ++ tail) id (zlen pre) (zlen pre + zlen (enc_cells cs)) =
     Some (Some (zlen pre + zlen (enc_cells cs1)))).
Proof.
  induction cs as [|c cs IH]; intros pre fuel Hall HN Hid Hfuel;
    (destruct fuel as [|fuel]; [cbn in *; lia|]).
  - left. split; [done|]. change (enc_cells []) with (@nil Z). cbn [sp_locate].
    rewrite zlen_nil, Z.add_0_r, Z.ltb_irrefl. done.
  - apply Forall_cons in Hall as [Hc Hall]. rewrite enc_cells_cons, <- !app_assoc.
    pose proof (zlen_enc_cell N c Hc) as Hzc. rewrite zlen_app.
    pose proof (zlen_nonneg (enc_cells cs)). pose proof Hc as (_ & Hd & _).
    destruct (round4_spec (zlen (c_data c))) as [Hr4 _]; [lia|].
    cbn [sp_locate].
    assert ((zlen pre <? zlen pre + (zlen (enc_cell c) + zlen (enc_cells cs))) = true) as ->
      by (unfold sizeof_SP_TOKEN in *; ztest).
    rewrite (cell_len N) by done. cbn [mbind option_bind].
    rewrite (cell_name N) by done. cbn [mbind option_bind].
    rewrite (strncmp_cell N c id) by done. cbn [mbind option_bind].
    destruct (decide (c_name c = cstr id)) as [E|E].
    + right. rewrite bool_decide_true by done. exists [], c, cs. split; [done|]. split; [done|].
      split; [done|]. change (enc_cells []) with (@nil Z). by rewrite zlen_nil, Z.add_0_r.
    + rewrite bool_decide_false by done. rewrite app_assoc, <- Hzc, <- zlen_app.
      destruct (IH (pre ++ enc_cell c) fuel) as [[Hf Hl]|(cs1 & c' & cs2 & -> & Hn & Hf & Hl)];
        [done..|cbn in *; lia| |].
      * left. split; [by constructor|].
        replace (zlen pre + (zlen (enc_cell c) + zlen (enc_cells cs)))
          with (zlen (pre ++ enc_cell c) + zlen (enc_cells cs)) by (rewrite zlen_app; lia). done.
      * right. exists (c :: cs1), c', cs2. split; [done|]. split; [done|]. split; [by constructor|].
        rewrite (enc_cells_cons c cs1). etransitivity; [|etransitivity; [exact Hl|]].
        -- f_equal. rewrite !zlen_app. lia.
        -- do 2 f_equal. rewrite !zlen_app. lia.
Qed.

(** *** The operations *)

Lemma cells_count N cs :
  Forall (cell_ok N) cs -> Z.of_nat (length cs) <= zlen (enc_cells cs).
Proof.
  induction 1 as [|c cs Hc _ IH]; [done|]. rewrite enc_cells_cons, zlen_app, (zlen_enc_cell N) by done.
  destruct Hc as (_ & Hd & _). pose proof (round4_spec (zlen (c_data c)) ltac:(lia)).
  unfold sizeof_SP_TOKEN. cbn [length]. lia.
Qed.

Lemma pad_magic_ok pb N cs hdr room b rest :
  pad_repr pb N cs hdr room b rest -> magic_ok pb = Some true.
Proof.
  intros []. unfold magic_ok. rewrite pad_eq0, <- (take_drop 8 hdr), <- app_assoc.
  change (take 8 hdr) with (slice 0 MAGIC_NUM_LEN hdr). rewrite pad_magic0.
  rewrite mem_read_head by done. cbn [mbind option_bind]. by rewrite bool_decide_true.
Qed.

Lemma SPToken_eq id len : (length (cstr id) <= 15)%nat -> SPToken id len = enc_head (cstr id) len.
Proof. intros. unfold SPToken, enc_head. by rewrite take_ge by lia. Qed.

(** Appending behind [body], into the unused bytes. *)
Lemma sp_append_spec hdr body room b rest id d :
  zlen hdr = sizeof_SP_HEADER -> (length (cstr id) <= 15)%nat ->
  sizeof_SP_TOKEN + round4 (zlen d) <= room ->
  let fill := replicate (Z.to_nat (round4 (zlen d) - zlen d)) b in
  sp_append (hdr ++ body ++ replicate (Z.to_nat room) b ++ rest) id (Some d) (zlen d)
    (zlen hdr + zlen body) =
  Some (SPHead ++ body ++ enc_cell (mkCell (cstr id) d fill) ++
        replicate (Z.to_nat (room - (sizeof_SP_TOKEN + round4 (zlen d)))) b ++ rest).
Proof.
  intros Hh Hid Hroom fill. pose proof (round4_spec (zlen d) (zlen_nonneg d)) as [Hr4 _].
  pose proof (zlen_nonneg d). unfold sizeof_SP_TOKEN in *. unfold sp_append.
  rewrite SPToken_eq by done.
  assert (Er : replicate (Z.to_nat room) b = replicate 20 b ++ replicate (length d) b ++ fill ++
            replicate (Z.to_nat (room - (20 + round4 (zlen d)))) b).
  { unfold fill. rewrite <- !replicate_add. f_equal. unfold zlen in *. lia. }
  rewrite Er, <- !app_assoc. rewrite (app_assoc hdr body).
  rewrite (mem_write_mid _ _ (replicate 20 b))
    by (rewrite ?zlen_app, ?zlen_enc_head, ?zlen_replicate; unfold sizeof_SP_TOKEN; lia).
  cbn [mbind option_bind].
  rewrite mem_read_Some by lia. cbn [mbind option_bind]. rewrite slice_full.
  rewrite (app_assoc (hdr ++ body)).
  rewrite (mem_write_mid _ _ (replicate (length d) b)); cycle 1.
  { rewrite !zlen_app, zlen_enc_head by lia. unfold sizeof_SP_TOKEN. lia. }
  { by rewrite zlen_replicate. }
  rewrite <- !app_assoc. cbn [mbind option_bind].
  rewrite mem_write_head by (by rewrite Hh). unfold enc_cell. cbn [c_name c_data c_fill app].
  by rewrite <- !app_assoc.
Qed.

(** Copying upwards to a lower address moves the bytes as they were, though the two ranges
    may overlap. *)
Lemma copy_up_shift n buf dst src :
  0 <= dst <= src -> src + Z.of_nat n <= zlen buf ->
  copy_up n buf dst src = Some (splice dst (slice src (Z.of_nat n) buf) buf).
Proof.
  revert buf dst src. induction n as [|n IH]; intros buf dst src Hd Hn; cbn [copy_up].
  { change (Z.of_nat 0) with 0. by rewrite slice_0, splice_nil. }
  rewrite mem_read_Some by lia. cbn [mbind option_bind].
  assert (Hz : zlen (slice src 1 buf) = 1) by (apply zlen_slice; lia).
  rewrite mem_write_Some by lia. cbn [mbind option_bind].
  rewrite IH by (rewrite ?zlen_splice; lia). f_equal.
  rewrite slice_splice_after by lia. rewrite splice_splice by (rewrite ?zlen_slice; lia). f_equal.
  apply list_eq. intros i. destruct i as [|i].
  - rewrite lookup_app_l by (unfold zlen in Hz; lia). by rewrite !lookup_slice by lia.
  - rewrite lookup_app_r by (unfold zlen in Hz; lia). replace (S i - length (slice src 1 buf))%nat with i by (unfold zlen in Hz; lia).
    destruct (Z_lt_le_dec (Z.of_nat i) (Z.of_nat n)) as [Hi|Hi].
    + rewrite !lookup_slice by lia. f_equal. lia.
    + rewrite !lookup_ge_None_2; [done| |]; rewrite <- (Nat2Z.id (length _)); fold (zlen (slice (src + 1) (Z.of_nat n) buf));
        fold (zlen (slice src (Z.of_nat (S n)) buf)); rewrite zlen_slice; lia.
Qed.

Lemma memcpy_shift buf dst src len d :
  0 <= dst <= src -> mem_read buf src len = Some d -> memcpy buf dst src len = mem_write buf dst d.
Proof.
  intros Hd (Hs & Hl & Hb & -> & Hz)%mem_read_inv. unfold memcpy. destruct (Z.leb_spec 0 len); [|lia].
  rewrite copy_up_shift, Z2Nat.id by lia. by rewrite mem_write_Some by lia.
Qed.

(** Removing a token. *)
Lemma sp_remove_spec N pre c more room b rest :
  cell_ok N c -> N < 2 ^ 31 -> 0 <= room -> zlen pre + zlen (enc_cell c) + zlen more + room = N ->
  sp_remove (pre ++ enc_cell c ++ more ++ replicate (Z.to_nat room) b ++ rest) N (zlen pre)
    (zlen pre + zlen (enc_cell c) + zlen more) =
  Some (pre ++ more ++ replicate (Z.to_nat (room + zlen (enc_cell c))) 0 ++ rest,
        zlen pre + zlen more).
Proof.
  intros Hc HN Hroom Hsize. unfold sp_remove. rewrite (cell_len N) by done. cbn [mbind option_bind].
  pose proof (zlen_enc_cell N c Hc) as Hzc. rewrite <- Hzc.
  pose proof (zlen_nonneg pre). pose proof (zlen_nonneg more). pose proof (zlen_nonneg (enc_cell c)).
  pose proof (zlen_nonneg rest).
  replace (zlen pre + zlen (enc_cell c) + zlen more - (zlen pre + zlen (enc_cell c)))
    with (zlen more) by lia.
  set (pb := pre ++ enc_cell c ++ more ++ replicate (Z.to_nat room) b ++ rest).
  assert (Hread : mem_read pb (zlen pre + zlen (enc_cell c)) (zlen more) = Some more).
  { unfold pb. rewrite app_assoc. apply mem_read_mid; [by rewrite zlen_app|done]. }
  assert (Hpb : zlen pb = zlen pre + zlen (enc_cell c) + zlen more + room + zlen rest)
    by (unfold pb; rewrite !zlen_app, zlen_replicate; lia).
  rewrite (memcpy_shift _ _ _ _ more) by (done || lia). rewrite mem_write_Some by lia. cbn [mbind option_bind].
  unfold mem_set. destruct (Z.leb_spec 0 (N - (zlen pre + zlen more))); [|lia].
  rewrite mem_write_Some by (rewrite ?zlen_splice, ?zlen_replicate; lia). cbn [mbind option_bind].
  f_equal. f_equal; [|lia].
  rewrite splice_splice by (rewrite ?zlen_replicate; lia).
  assert (Hw : mem_write (pre ++ (enc_cell c ++ more ++ replicate (Z.to_nat room) b) ++ rest) (zlen pre)
     (more ++ replicate (Z.to_nat (N - (zlen pre + zlen more))) 0) =
     Some (pre ++ (more ++ replicate (Z.to_nat (N - (zlen pre + zlen more))) 0) ++ rest)).
  { apply mem_write_mid; [done|]. rewrite !zlen_app, !zlen_replicate. lia. }
  apply mem_write_inv in Hw as (_ & _ & Hw).
  unfold pb. rewrite <- !app_assoc in Hw. rewrite <- Hw. do 4 f_equal. lia.
Qed.

Lemma pad_lookup_app cs1 cs2 n :
  pad_lookup (cs1 ++ cs2) n =
  match pad_lookup cs1 n with Some d => Some d | None => pad_lookup cs2 n end.
Proof. induction cs1 as [|c cs1 IH]; [done|]. cbn. by destruct (decide _). Qed.

Lemma pad_lookup_None cs n : Forall (fun c => c_name c <> n) cs -> pad_lookup cs n = None.
Proof. induction 1 as [|c cs Hc _ IH]; [done|]. cbn. by rewrite decide_False. Qed.

Lemma names_absent cs n : Forall (fun c => c_name c <> n) cs <-> n ∉ map c_name cs.
Proof.
  rewrite Forall_forall. split.
  - intros H (c & -> & Hc)%list_elem_of_fmap. by apply (H c).
  - intros H c Hc <-. apply H, list_elem_of_fmap. by exists c.
Qed.

(** What an update does to the tokens: in place for data of the same length,
    otherwise remove and append. *)
Definition pad_put (cs : list cell) (id d : list Z) (cs' : list cell) : Prop :=
  NoDup (map c_name cs') /\
  forall n, pad_lookup cs' n = if decide (n = id) then Some d else pad_lookup cs n.

Lemma pad_put_append cs id d fill :
  NoDup (map c_name cs) -> Forall (fun c => c_name c <> id) cs ->
  pad_put cs id d (cs ++ [mkCell id d fill]).
Proof.
  intros Hnd Hno. split.
  - rewrite map_app. apply NoDup_app. split; [done|]. split; [|apply NoDup_singleton].
    intros x Hx ->%list_elem_of_singleton. by apply names_absent in Hno.
  - intros n. rewrite pad_lookup_app. cbn. destruct (decide (n = id)) as [->|Hn].
    + rewrite pad_lookup_None by done. by rewrite decide_True.
    + rewrite decide_False by done. by destruct (pad_lookup cs n).
Qed.

Lemma names_split cs1 c cs2 :
  NoDup (map c_name (cs1 ++ c :: cs2)) ->
  NoDup (map c_name (cs1 ++ cs2)) /\ Forall (fun x => c_name x <> c_name c) (cs1 ++ cs2).
Proof.
  rewrite !map_app. cbn. intros H.
  assert (Hp : map c_name cs1 ++ c_name c :: map c_name cs2 ≡ₚ
               c_name c :: (map c_name cs1 ++ map c_name cs2)) by (symmetry; apply Permutation_middle).
  rewrite Hp in H. apply NoDup_cons in H as [Hni Hnd]. split; [done|].
  rewrite names_absent, map_app. done.
Qed.

Lemma pad_lookup_remove cs1 c cs2 n :
  n <> c_name c -> pad_lookup (cs1 ++ cs2) n = pad_lookup (cs1 ++ c :: cs2) n.
Proof. intros. rewrite !pad_lookup_app. cbn. by rewrite decide_False. Qed.

Lemma pad_put_replace cs1 c cs2 d fill :
  NoDup (map c_name (cs1 ++ c :: cs2)) ->
  pad_put (cs1 ++ c :: cs2) (c_name c) d (cs1 ++ cs2 ++ [mkCell (c_name c) d fill]).
Proof.
  intros H. destruct (names_split _ _ _ H) as [Hnd Hno]. rewrite app_assoc.
  destruct (pad_put_append (cs1 ++ cs2) (c_name c) d fill Hnd Hno) as [H1 H2]. split; [done|].
  intros n. rewrite H2. destruct (decide (n = c_name c)); [done|]. by apply pad_lookup_remove.
Qed.

Lemma pad_put_inplace cs1 c cs2 d :
  NoDup (map c_name (cs1 ++ c :: cs2)) ->
  pad_put (cs1 ++ c :: cs2) (c_name c) d (cs1 ++ mkCell (c_name c) d (c_fill c) :: cs2).
Proof.
  intros H. pose proof (names_split _ _ _ H) as [_ [Hno1 Hno2]%Forall_app].
  split; [by rewrite map_app in *|]. intros n. rewrite !pad_lookup_app. cbn.
  destruct (decide (n = c_name c)) as [->|Hn].
  - rewrite pad_lookup_None by done. by rewrite decide_True.
  - by rewrite !(decide_False (P := c_name c = n)) by done.
Qed.

Lemma enc_head_inplace c d :
  zlen d = zlen (c_data c) ->
  enc_cell (mkCell (c_name c) d (c_fill c)) =
    enc_head (c_name c) (zlen (c_data c)) ++ d ++ c_fill c.
Proof. intros H. unfold enc_cell. cbn. by rewrite H. Qed.

Lemma sp_write_inplace N pre c post d :
  cell_ok N c -> zlen d = zlen (c_data c) ->
  mem_write (pre ++ enc_cell c ++ post) (zlen pre + sizeof_SP_TOKEN) d =
    Some (pre ++ enc_cell (mkCell (c_name c) d (c_fill c)) ++ post).
Proof.
  intros ((_ & Hn & _) & _) Hd. rewrite enc_head_inplace by done. unfold enc_cell.
  rewrite <- !app_assoc, !(app_assoc pre). rewrite mem_write_mid; [done| |done].
  rewrite zlen_app, zlen_enc_head by lia. done.
Qed.

Lemma SPHead_ok : zlen SPHead = sizeof_SP_HEADER /\ slice 0 MAGIC_NUM_LEN SPHead = MAGIC_NUMBER.
Proof. by vm_compute. Qed.

(** The unused bytes make room for a new cell. *)
Lemma new_cell_ok N id d b :
  token_name_ok id -> 0 < zlen d < N ->
  cell_ok N (mkCell id d (replicate (Z.to_nat (round4 (zlen d) - zlen d)) b)).
Proof.
  intros Hid Hd. split; [done|]. split; [done|]. cbn. rewrite zlen_replicate.
  pose proof (round4_spec (zlen d)). lia.
Qed.

Section SetOk.
Variables (pb : list Z) (N : Z) (cs : list cell) (hdr : list Z) (room b : Z) (rest id d : list Z).
Hypotheses (HP : pad_repr pb N cs hdr room b rest) (Hid : nul_terminated id = true)
  (Hname : token_name_ok (cstr id)) (Hd : 0 < zlen d)
  (Hroom : sizeof_SP_TOKEN + round4 (zlen d) <= room).

(** Appending to a pad. *)
Lemma append_repr cs0 hdr0 room0 b0 :
  Forall (cell_ok N) cs0 -> zlen hdr0 = sizeof_SP_HEADER ->
  sizeof_SP_HEADER + zlen (enc_cells cs0) + room0 = N -> b0 = 0 \/ b0 = 255 ->
  sizeof_SP_TOKEN + round4 (zlen d) <= room0 -> pad_put cs (cstr id) d
    (cs0 ++ [mkCell (cstr id) d (replicate (Z.to_nat (round4 (zlen d) - zlen d)) b0)]) ->
  exists pb' cs', sp_append (hdr0 ++ enc_cells cs0 ++ replicate (Z.to_nat room0) b0 ++ rest) id
      (Some d) (zlen d) (sizeof_SP_HEADER + zlen (enc_cells cs0)) = Some pb' /\
    pad_repr pb' N cs' SPHead (room0 - (sizeof_SP_TOKEN + round4 (zlen d))) b0 rest /\
    pad_put cs (cstr id) d cs'.
Proof.
  intros Hall Hh Hsize Hb Hr Hput. destruct Hname as (_ & Hlen & _).
  pose proof (round4_spec (zlen d)). pose proof (zlen_nonneg (enc_cells cs0)).
  assert (Hc : cell_ok N (mkCell (cstr id) d (replicate (Z.to_nat (round4 (zlen d) - zlen d)) b0))).
  { apply new_cell_ok; [done|]. unfold sizeof_SP_TOKEN, sizeof_SP_HEADER in *. lia. }
  replace (sizeof_SP_HEADER + zlen (enc_cells cs0)) with (zlen hdr0 + zlen (enc_cells cs0)) by lia.
  rewrite sp_append_spec by done. do 2 eexists. split; [done|]. split; [|exact Hput].
  destruct HP, Hput, SPHead_ok.
  assert (Hz : zlen (enc_cells (cs0 ++ [mkCell (cstr id) d
     (replicate (Z.to_nat (round4 (zlen d) - zlen d)) b0)])) =
     zlen (enc_cells cs0) + (sizeof_SP_TOKEN + round4 (zlen d))).
  { rewrite enc_cells_app, zlen_app, enc_cells_cons, zlen_app, (zlen_enc_cell N) by done. cbn.
    change (enc_cells []) with (@nil Z). change (zlen (@nil Z)) with 0. lia. }
  constructor; try done.
  - rewrite enc_cells_app, <- !app_assoc. by rewrite enc_cells_cons, app_nil_r.
  - apply Forall_app. by split; [|constructor].
  - lia.
  - rewrite Hz. lia.
Qed.

(** The layout of a pad around the token [c]. *)
Lemma pad_split cs1 c cs2 :
  cs = cs1 ++ c :: cs2 ->
  (forall x tail, hdr ++ enc_cells (cs1 ++ x :: cs2) ++ tail =
     (hdr ++ enc_cells cs1) ++ enc_cell x ++ enc_cells cs2 ++ tail) /\
  zlen (enc_cells cs) = zlen (enc_cells cs1) + zlen (enc_cell c) + zlen (enc_cells cs2) /\
  Forall (cell_ok N) cs1 /\ cell_ok N c /\ Forall (cell_ok N) cs2.
Proof.
  intros ->. destruct HP as [_ _ _ [Hall1 [Hc Hall2]%Forall_cons]%Forall_app _ _ _ _ _].
  split; [intros; by rewrite enc_cells_app, enc_cells_cons, <- !app_assoc|].
  split; [|done]. rewrite enc_cells_app, enc_cells_cons, !zlen_app. lia.
Qed.

(** The result of an update. *)
Definition updated (pb' : list Z) : Prop :=
  exists cs' hdr' room' b', pad_repr pb' N cs' hdr' room' b' rest /\
    pad_put cs (cstr id) d cs' /\ room - (sizeof_SP_TOKEN + round4 (zlen d)) <= room'.

Lemma replace_inplace cs1 c cs2 :
  cs = cs1 ++ c :: cs2 -> c_name c = cstr id -> zlen (c_data c) = zlen d ->
  updated ((hdr ++ enc_cells cs1) ++ enc_cell (mkCell (c_name c) d (c_fill c)) ++
           enc_cells cs2 ++ replicate (Z.to_nat room) b ++ rest).
Proof.
  intros Hcs Hcn Ed. destruct (pad_split cs1 c cs2 Hcs) as (Epb & Hz & Hall1 & Hc & Hall2).
  destruct HP as [Hpb Hh Hm Hall Hnd Hr0 Hb Hsize HN]. rewrite Hcs in Hnd.
  pose proof (round4_spec (zlen d)). pose proof (zlen_enc_cell N c Hc) as Hzc.
  exists (cs1 ++ mkCell (c_name c) d (c_fill c) :: cs2), hdr, room, b.
  assert (Hc' : cell_ok N (mkCell (c_name c) d (c_fill c))).
  { destruct Hc as (? & ? & ?). split; [done|]. cbn. rewrite <- Ed. done. }
  destruct (pad_put_inplace cs1 c cs2 d Hnd) as [Hnd' Hlk]. rewrite Hcs, <- Hcn.
  split; [|split; [done|unfold sizeof_SP_TOKEN; lia]]. constructor; try done.
  - apply Forall_app. by split; [|constructor].
  - rewrite enc_cells_app, enc_cells_cons, !zlen_app, (zlen_enc_cell N) by done. cbn.
    rewrite <- Ed. lia.
Qed.

Lemma sp_replace_ok cs1 c cs2 :
  cs = cs1 ++ c :: cs2 -> c_name c = cstr id ->
  exists pb', sp_replace (hdr ++ enc_cells cs ++ replicate (Z.to_nat room) b ++ rest) N id
      (Some d) (zlen d) (zlen hdr + zlen (enc_cells cs1)) (zlen hdr + zlen (enc_cells cs)) =
    Some pb' /\ updated pb'.
Proof.
  intros Hcs Hcn. destruct (pad_split cs1 c cs2 Hcs) as (Epb & Hz & Hall1 & Hc & Hall2).
  pose proof (replace_inplace cs1 c cs2 Hcs Hcn) as Hin.
  destruct HP as [Hpb Hh Hm Hall Hnd Hr0 Hb Hsize HN].
  pose proof (zlen_enc_cell N c Hc) as Hzc. pose proof (round4_spec (zlen d)).
  pose proof Hc as (_ & Hcd & _). pose proof (round4_spec (zlen (c_data c))).
  unfold sp_replace. rewrite Hz, Hcs, Epb, <- zlen_app, (cell_len N) by done.
  cbn [mbind option_bind]. destruct (Z.eqb_spec (zlen (c_data c)) (zlen d)) as [Ed|Ed].
  - rewrite mem_read_Some, slice_full by lia. cbn [mbind option_bind].
    rewrite (sp_write_inplace N) by done. eexists. split; [done|]. by apply Hin.
  - replace (zlen hdr + (zlen (enc_cells cs1) + zlen (enc_cell c) + zlen (enc_cells cs2)))
      with (zlen (hdr ++ enc_cells cs1) + zlen (enc_cell c) + zlen (enc_cells cs2))
      by (rewrite zlen_app; lia).
    rewrite (sp_remove_spec N) by (try done; rewrite ?zlen_app; lia).
    cbn [mbind option_bind].
    rewrite zlen_app, Hh, <- !app_assoc, (app_assoc (enc_cells cs1)), <- enc_cells_app.
    destruct (append_repr (cs1 ++ cs2) hdr (room + zlen (enc_cell c)) 0)
      as (pb' & cs' & E & Hrep & Hput).
    + by apply Forall_app.
    + done.
    + rewrite enc_cells_app, zlen_app. lia.
    + by left.
    + unfold sizeof_SP_TOKEN in *. lia.
    + rewrite Hcs, <- Hcn, <- app_assoc. apply pad_put_replace. by rewrite <- Hcs.
    + rewrite enc_cells_app, zlen_app, Z.add_assoc in E. rewrite enc_cells_app, E.
      exists pb'. split; [done|]. exists cs'. do 3 eexists. split; [done|]. split; [done|].
      unfold sizeof_SP_TOKEN in *. lia.
Qed.

Lemma sp_set_ok : exists pb', sp_set pb N id (Some d) (zlen d) = Some (0, pb') /\ updated pb'.
Proof.
  pose proof (pad_magic_ok _ _ _ _ _ _ _ HP) as Hmagic. pose proof sp_replace_ok as Hrepl.
  pose proof append_repr as Happ. destruct HP as [Hpb Hh Hm Hall Hnd Hr0 Hb Hsize HN].
  pose proof (round4_spec (zlen d)) as Hr4. pose proof (cells_count N cs Hall).
  pose proof (zlen_nonneg (enc_cells cs)). unfold sp_set. rewrite Hmagic. cbn [mbind option_bind].
  rewrite Hpb, <- Hh.
  rewrite sp_used_spec by (try done; unfold sizeof_SP_HEADER, sizeof_SP_TOKEN in *; lia).
  cbn [mbind option_bind].
  destruct (Z.ltb_spec N (zlen hdr + zlen (enc_cells cs) + zlen d + sizeof_SP_TOKEN)); [lia|].
  destruct (sp_locate_spec N id (replicate (Z.to_nat room) b ++ rest) cs hdr (Z.to_nat N))
    as [[Hno Hl]|(cs1 & c & cs2 & Hcs & Hcn & Hno & Hl)];
    [done..|unfold sizeof_SP_HEADER, sizeof_SP_TOKEN in *; lia| |];
    rewrite Hl; cbn [mbind option_bind].
  - destruct (Happ cs hdr room b) as (pb' & cs' & E & Hrep & Hput); [done..| |].
    { by apply pad_put_append. }
    rewrite Hh, E. cbn [mbind option_bind]. exists pb'. split; [done|]. exists cs'. do 3 eexists.
    split; [done|]. split; [done|lia].
  - destruct (Hrepl cs1 c cs2 Hcs Hcn) as (pb' & -> & Hu). cbn [mbind option_bind]. by exists pb'.
Qed.
End SetOk.

(** *** Deleting and initialising *)

Lemma sp_append_None hdr body id bufLen used :
  zlen hdr = sizeof_SP_HEADER ->
  sp_append (hdr ++ body) id None bufLen used = Some (SPHead ++ body).
Proof. intros Hh. unfold sp_append. cbn [mbind option_bind]. apply mem_write_head. by rewrite Hh. Qed.

Lemma sp_delete_ok pb N cs hdr room b rest id bufLen :
  pad_repr pb N cs hdr room b rest -> nul_terminated id = true ->
  sizeof_SP_TOKEN <= room -> 0 <= bufLen -> bufLen + sizeof_SP_TOKEN <= room ->
  exists pb' cs' room' b', sp_set pb N id None bufLen = Some (0, pb') /\
    pad_repr pb' N cs' SPHead room' b' rest /\ room <= room' /\
    forall n, pad_lookup cs' n = if decide (n = cstr id) then None else pad_lookup cs n.
Proof.
  intros HP Hid Hroom Hb0 Hfit. unfold sp_set. rewrite (pad_magic_ok _ _ _ _ _ _ _ HP).
  pose proof (pad_split pb N cs hdr room b rest HP) as Hsplit.
  destruct HP as [Hpb Hh Hm Hall Hnd Hr0 Hb Hsize HN]. destruct SPHead_ok as [HS1 HS2].
  pose proof (cells_count N cs Hall). pose proof (zlen_nonneg (enc_cells cs)).
  cbn [mbind option_bind]. rewrite Hpb, <- Hh.
  rewrite sp_used_spec by (try done; unfold sizeof_SP_HEADER, sizeof_SP_TOKEN in *; lia).
  cbn [mbind option_bind].
  destruct (Z.ltb_spec N (zlen hdr + zlen (enc_cells cs) + bufLen + sizeof_SP_TOKEN)); [lia|].
  destruct (sp_locate_spec N id (replicate (Z.to_nat room) b ++ rest) cs hdr (Z.to_nat N))
    as [[Hno Hl]|(cs1 & c & cs2 & Hcs & Hcn & Hno & Hl)];
    [done..|unfold sizeof_SP_HEADER, sizeof_SP_TOKEN in *; lia| |];
    rewrite Hl; cbn [mbind option_bind].
  - rewrite sp_append_None by done. cbn [mbind option_bind]. exists (SPHead ++ enc_cells cs ++ replicate (Z.to_nat room) b ++ rest), cs, room, b. split; [done|].
    split; [by constructor|]. split; [lia|]. intros n.
    destruct (decide (n = cstr id)) as [->|]; [by apply pad_lookup_None|done].
  - destruct (Hsplit cs1 c cs2 Hcs) as (Epb & Hz & Hall1 & Hc & Hall2).
    rewrite Hcs in Hnd. destruct (names_split _ _ _ Hnd) as [Hnd' Hno'].
    pose proof (zlen_enc_cell N c Hc) as Hzc. pose proof (zlen_nonneg (enc_cell c)).
    unfold sp_replace. rewrite Hz, Hcs, Epb, <- zlen_app, (cell_len N) by done.
    cbn [mbind option_bind].
    replace (zlen hdr + (zlen (enc_cells cs1) + zlen (enc_cell c) + zlen (enc_cells cs2)))
      with (zlen (hdr ++ enc_cells cs1) + zlen (enc_cell c) + zlen (enc_cells cs2))
      by (rewrite zlen_app; lia).
    rewrite (sp_remove_spec N) by (try done; rewrite ?zlen_app; lia). cbn [mbind option_bind].
    rewrite <- !app_assoc, (app_assoc (enc_cells cs1)), <- enc_cells_app, sp_append_None by done.
    cbn [mbind option_bind]. do 4 eexists. split; [done|]. split.
    + constructor; try done; [by apply Forall_app|lia|by left|].
      rewrite enc_cells_app, zlen_app. lia.
    + split; [lia|]. intros n. rewrite <- Hcn. destruct (decide (n = c_name c)) as [->|Hn].
      * by apply pad_lookup_None.
      * by apply pad_lookup_remove.
Qed.

(** A pad without the magic number is initialised; erased bytes make a good pad. *)
Lemma sp_init_ok N b rest id d :
  b = 0 \/ b = 255 -> N < 2 ^ 31 -> nul_terminated id = true -> token_name_ok (cstr id) -> 0 < zlen d ->
  sizeof_SP_HEADER + sizeof_SP_TOKEN + round4 (zlen d) <= N ->
  let fill := replicate (Z.to_nat (round4 (zlen d) - zlen d)) b in
  exists pb', sp_set (replicate (Z.to_nat N) b ++ rest) N id (Some d) (zlen d) = Some (0, pb') /\
    pad_repr pb' N [mkCell (cstr id) d fill] SPHead
      (N - (sizeof_SP_HEADER + sizeof_SP_TOKEN + round4 (zlen d))) b rest.
Proof.
  intros Hb HN Hid Hname Hd Hfit fill. pose proof Hname as (_ & Hlen & _).
  pose proof (round4_spec (zlen d)) as Hr4. destruct SPHead_ok as [HS1 HS2].
  unfold sizeof_SP_HEADER, sizeof_SP_TOKEN in *.
  assert (Er : replicate (Z.to_nat N) b = replicate 32 b ++ replicate 20 b ++ replicate (length d) b ++
            fill ++ replicate (Z.to_nat (N - (52 + round4 (zlen d)))) b).
  { unfold fill. rewrite <- !replicate_add. f_equal. unfold zlen in *. lia. }
  rewrite Er, <- !app_assoc. unfold sp_set.
  assert (magic_ok (replicate 32 b ++ replicate 20 b ++ replicate (length d) b ++ fill ++
            replicate (Z.to_nat (N - (52 + round4 (zlen d)))) b ++ rest) = Some false) as ->.
  { unfold magic_ok. change (replicate 32 b) with (replicate 8 b ++ replicate 24 b).
    rewrite <- app_assoc, mem_read_head by done. by destruct Hb as [-> | ->]. }
  cbn [mbind option_bind]. rewrite mem_write_head by done. cbn [mbind option_bind].
  rewrite SPToken_eq by done.
  rewrite (mem_write_mid _ SPHead (replicate 20 b)) by (done || by rewrite zlen_enc_head by lia).
  cbn [mbind option_bind]. rewrite mem_read_Some, slice_full by lia. cbn [mbind option_bind].
  rewrite app_assoc, (mem_write_mid _ _ (replicate (length d) b)); cycle 1.
  { by rewrite zlen_app, zlen_enc_head by lia. }
  { by rewrite zlen_replicate. }
  cbn [mbind option_bind]. eexists. split; [done|].
  assert (Hc : cell_ok N (mkCell (cstr id) d fill)) by (apply new_cell_ok; [done|lia]).
  constructor; try done.
  - rewrite enc_cells_cons. change (enc_cells []) with (@nil Z). rewrite app_nil_r.
    unfold enc_cell. cbn [c_name c_data c_fill]. rewrite <- !app_assoc. done.
  - by constructor.
  - apply NoDup_singleton.
  - lia.
  - rewrite enc_cells_cons, zlen_app, (zlen_enc_cell N) by done. change (zlen (enc_cells [])) with 0.
    cbn. unfold sizeof_SP_HEADER, sizeof_SP_TOKEN. lia.
Qed.

(** ** Properties *)

Lemma sp_get_ok pb N cs hdr room b rest id bufLen :
  pad_repr pb N cs hdr room b rest -> sizeof_SP_TOKEN <= room -> nul_terminated id = true ->
  sp_get pb N id bufLen = Some (get_result (pad_lookup cs (cstr id)) bufLen).
Proof.
  intros HP Hroom Hid. unfold sp_get. rewrite (pad_magic_ok _ _ _ _ _ _ _ HP).
  destruct HP as [Hpb Hh Hm Hall Hnd Hr0 Hb Hsize HN]. cbn [mbind option_bind].
  pose proof (cells_count N cs Hall). pose proof (data_len_le N cs Hall).
  rewrite Hpb, <- Hh. unfold sizeof_SP_TOKEN, sizeof_SP_HEADER in *.
  apply sp_search_spec; try done; unfold sizeof_SP_TOKEN; lia.
Qed.

(** Reading a token.  On a well-formed pad with room for one more token head,
    [kerSysScratchPadGet] finds each token by its name: it returns the length and
    the data of the token with the given name when the caller's buffer is large
    enough, and -1 when it is not or when there is no such token.  The search
    ends (the fuel, the pad's length, is never used up) and stays in the buffer. *)
Theorem sp_get_spec pb N cs hdr room b rest id bufLen :
  pad_repr pb N cs hdr room b rest -> sizeof_SP_TOKEN <= room -> nul_terminated id = true ->
  sp_get pb N id bufLen = Some (get_result (pad_lookup cs (cstr id)) bufLen).
Proof. apply sp_get_ok. Qed.

(** Writing a token.  Setting a token with a usable name on a well-formed pad
    with room for it succeeds and leaves a well-formed pad that maps the name to
    the new data and every other name to what it had before, whether the token is
    new, is overwritten in place or is moved to the end; the memory behind the
    pad is not touched. *)
Theorem sp_set_spec pb N cs hdr room b rest id d :
  pad_repr pb N cs hdr room b rest -> nul_terminated id = true -> token_name_ok (cstr id) ->
  0 < zlen d -> sizeof_SP_TOKEN + round4 (zlen d) <= room ->
  exists pb' cs' hdr' room' b', sp_set pb N id (Some d) (zlen d) = Some (0, pb') /\
    pad_repr pb' N cs' hdr' room' b' rest /\
    (forall n, pad_lookup cs' n = if decide (n = cstr id) then Some d else pad_lookup cs n) /\
    room - (sizeof_SP_TOKEN + round4 (zlen d)) <= room'.
Proof.
  intros HP Hid Hn Hd Hr.
  destruct (sp_set_ok pb N cs hdr room b rest id d HP Hid Hn Hd Hr)
    as (pb' & E & cs' & hdr' & room' & b' & Hrep & [_ Hput] & Hroom).
  exists pb', cs', hdr', room', b'. done.
Qed.

(** The search of [kerSysScratchPadGet] can leave the pad.  Its bound counts
    the tokens' data but not their heads, so on a full pad it goes on into the
    section that follows in the same sector: bytes there that look like a token
    are returned as one. *)
Theorem sp_get_past_end pb N cs hdr b c more id bufLen :
  pad_repr pb N cs hdr 0 b (enc_cell c ++ replicate 20 0 ++ more) ->
  cell_ok N c -> c_name c = cstr id -> pad_lookup cs (cstr id) = None ->
  sizeof_SP_HEADER + data_len cs + round4 (zlen (c_data c)) < N ->
  nul_terminated id = true -> zlen (c_data c) <= bufLen ->
  sp_get pb N id bufLen = Some (zlen (c_data c), c_data c).
Proof.
  intros HP Hc Hcn Hno Hlen Hid Hbuf. unfold sp_get. rewrite (pad_magic_ok _ _ _ _ _ _ _ HP).
  destruct HP as [Hpb Hh Hm Hall Hnd Hr0 Hb Hsize HN]. cbn [mbind option_bind].
  pose proof (cells_count N cs Hall). pose proof (zlen_nonneg (enc_cells cs)).
  assert (Eall : hdr ++ enc_cells cs ++ replicate (Z.to_nat 0) b ++ enc_cell c ++ replicate 20 0 ++ more =
                 hdr ++ enc_cells (cs ++ [c]) ++ replicate (Z.to_nat 20) 0 ++ more).
  { rewrite enc_cells_app, enc_cells_cons. change (enc_cells []) with (@nil Z).
    rewrite app_nil_r, <- app_assoc. done. }
  rewrite Hpb, Eall, <- Hh. unfold sizeof_SP_HEADER in *.
  rewrite sp_search_spec; try done.
  - rewrite pad_lookup_app, Hno. cbn. rewrite decide_True by done. cbn.
    destruct (Z.ltb_spec bufLen (zlen (c_data c))); [lia|done].
  - apply Forall_app. by split; [|constructor].
  - by left.
  - unfold data_len. rewrite map_app, zsum_app. cbn [map]. rewrite zsum_cons.
    fold (data_len cs). cbn. lia.
  - rewrite length_app. cbn. lia.
Qed.

(** Deleting a token.  A set without data ([tokBuf] is NULL) on a well-formed
    pad with room for one more head succeeds and leaves a well-formed pad in which
    the name has no token and every other name has what it had before. *)
Theorem sp_delete_spec pb N cs hdr room b rest id bufLen :
  pad_repr pb N cs hdr room b rest -> nul_terminated id = true ->
  sizeof_SP_TOKEN <= room -> 0 <= bufLen -> bufLen + sizeof_SP_TOKEN <= room ->
  exists pb' cs' room' b', sp_set pb N id None bufLen = Some (0, pb') /\
    pad_repr pb' N cs' SPHead room' b' rest /\ room <= room' /\
    forall n, pad_lookup cs' n = if decide (n = cstr id) then None else pad_lookup cs n.
Proof. apply sp_delete_ok. Qed.

(** The first token.  On an erased or cleared pad a set with a usable name and
    data that fits initialises the pad: it holds exactly this token, and reading
    it back returns its data. *)
Theorem sp_init_spec N b rest id d bufLen :
  b = 0 \/ b = 255 -> N < 2 ^ 31 -> nul_terminated id = true -> token_name_ok (cstr id) -> 0 < zlen d ->
  sizeof_SP_HEADER + 2 * sizeof_SP_TOKEN + round4 (zlen d) <= N -> zlen d <= bufLen ->
  exists pb', sp_set (replicate (Z.to_nat N) b ++ rest) N id (Some d) (zlen d) = Some (0, pb') /\
    sp_get pb' N id bufLen = Some (zlen d, d) /\
    forall n, nul_terminated n = true -> cstr n <> cstr id -> sp_get pb' N n bufLen = Some (-1, []).
Proof.
  intros Hb HN Hid Hname Hd Hfit Hbuf. unfold sizeof_SP_TOKEN in Hfit.
  destruct (sp_init_ok N b rest id d) as (pb' & E & HP); [done..|unfold sizeof_SP_TOKEN; lia|].
  exists pb'. split; [done|].
  assert (Hroom : sizeof_SP_TOKEN <= N - (sizeof_SP_HEADER + sizeof_SP_TOKEN + round4 (zlen d)))
    by (unfold sizeof_SP_TOKEN; lia).
  split; [|intros n Hn Hne]; rewrite (sp_get_ok _ _ _ _ _ _ _ _ _ HP) by done; cbn.
  - rewrite decide_True by done. cbn. by destruct (Z.ltb_spec bufLen (zlen d)); [lia|].
  - by rewrite decide_False.
Qed.

(** ** The pad stays a sequence of bytes *)

Lemma mem_write_bytes l o d l' :
  mem_write l o d = Some l' -> Forall is_u8 l -> Forall is_u8 d -> Forall is_u8 l'.
Proof.
  unfold mem_write. destruct (_ && _); [|done]. intros [= <-] ? ?. by apply Forall_splice.
Qed.

Lemma mem_read_bytes l o n d : mem_read l o n = Some d -> Forall is_u8 l -> Forall is_u8 d.
Proof.
  unfold mem_read. destruct (_ && _); [|done]. intros [= <-] ?. by apply Forall_slice.
Qed.

Lemma mem_set_bytes l o n l' : mem_set l o n 0 = Some l' -> Forall is_u8 l -> Forall is_u8 l'.
Proof.
  unfold mem_set. destruct (_ <=? _); [|done]. intros E Hl. eapply mem_write_bytes; [done|done|].
  by apply Forall_replicate.
Qed.

Lemma SPToken_len_bytes n : Forall is_u8 (be32 n).
Proof. repeat constructor; apply u8_range. Qed.

Lemma SPHead_bytes : Forall is_u8 SPHead.
Proof. by_decide. Qed.

Lemma SPToken_bytes id n : Forall is_u8 (cstr id) -> Forall is_u8 (SPToken id n).
Proof.
  intros H. unfold SPToken. rewrite !Forall_app. split; [by apply Forall_take|].
  split; [by apply Forall_replicate|apply SPToken_len_bytes].
Qed.

Create HintDb pad_bytes discriminated.
#[local] Hint Resolve mem_read_bytes mem_write_bytes mem_set_bytes SPHead_bytes SPToken_bytes : pad_bytes.

Lemma memcpy_bytes buf dst src len buf' : memcpy buf dst src len = Some buf' -> Forall is_u8 buf -> Forall is_u8 buf'.
Proof.
  unfold memcpy. destruct (_ <=? _); [|done]. generalize (Z.to_nat len). intros n. revert buf dst src.
  induction n as [|n IH]; intros buf dst src E H; cbn [copy_up] in E; [by injection E as <-|].
  destruct (mem_read _ _ _) as [d|] eqn:E1; [|done]. cbn [mbind option_bind] in E.
  destruct (mem_write _ _ _) as [b1|] eqn:E2; [|done]. cbn [mbind option_bind] in E. eapply IH; [exact E|].
  eapply mem_write_bytes; [exact E2|done|]. by eapply mem_read_bytes.
Qed.

#[local] Hint Resolve memcpy_bytes : pad_bytes.

Lemma sp_remove_bytes pb N p usedLen pb' u :
  sp_remove pb N p usedLen = Some (pb', u) -> Forall is_u8 pb -> Forall is_u8 pb'.
Proof. unfold sp_remove. intros E H. simplify_option_eq. eauto with pad_bytes. Qed.

Lemma sp_append_bytes pb id tb n usedLen pb' :
  sp_append pb id tb n usedLen = Some pb' -> Forall is_u8 pb -> Forall is_u8 (cstr id) ->
  (forall d, tb = Some d -> Forall is_u8 d) -> Forall is_u8 pb'.
Proof.
  unfold sp_append. intros E H Hid Ht. destruct tb as [d|]; simplify_option_eq; eauto 7 with pad_bytes.
Qed.

Lemma sp_replace_bytes pb N id tb n p usedLen pb' :
  sp_replace pb N id tb n p usedLen = Some pb' -> Forall is_u8 pb -> Forall is_u8 (cstr id) ->
  (forall d, tb = Some d -> Forall is_u8 d) -> Forall is_u8 pb'.
Proof.
  unfold sp_replace. intros E H Hid Ht.
  destruct (tokenLen pb p) as [len|]; [|done]. cbn [mbind option_bind] in E.
  assert (Hmove : ('(pb, usedLen) ← sp_remove pb N p usedLen; sp_append pb id tb n usedLen) = Some pb' ->
    Forall is_u8 pb').
  { clear E. intros E. apply bind_Some in E as ([pb1 u] & E1 & E2).
    eapply sp_append_bytes; [done| |done|done]. by eapply sp_remove_bytes. }
  destruct tb as [d|]; [|auto]. destruct (len =? n); [|auto]. simplify_option_eq. eauto with pad_bytes.
Qed.

Lemma sp_set_bytes pb N id tb n r pb' :
  sp_set pb N id tb n = Some (r, pb') -> Forall is_u8 pb -> Forall is_u8 (cstr id) ->
  (forall d, tb = Some d -> Forall is_u8 d) -> Forall is_u8 pb'.
Proof.
  unfold sp_set. intros E H Hid Ht. apply bind_Some in E as (ok & _ & E). destruct ok.
  - apply bind_Some in E as (u & _ & E). destruct (_ <? _); [by simplify_eq|].
    apply bind_Some in E as (at_p & _ & E). apply bind_Some in E as (pb1 & E1 & [= <- <-]).
    destruct at_p; [by eapply sp_replace_bytes|by eapply sp_append_bytes].
  - destruct tb as [d|]; simplify_option_eq; eauto 7 with pad_bytes.
Qed.

(** ** Through the flash *)

(** What a pad occupies of its buffer. *)
Lemma pad_split_rest pb N cs hdr room b rest :
  pad_repr pb N cs hdr room b rest -> exists body, pb = body ++ rest /\ zlen body = N.
Proof.
  intros []. exists (hdr ++ enc_cells cs ++ replicate (Z.to_nat room) b).
  rewrite <- !app_assoc. split; [done|]. rewrite !zlen_app, zlen_replicate. lia.
Qed.

(** Putting an updated pad back into the buffer is a write of [N] bytes. *)
Lemma pad_splice share off (body body' rest : list Z) :
  0 <= off <= zlen share -> drop (Z.to_nat off) share = body ++ rest ->
  zlen body' = zlen body ->
  take (Z.to_nat off) share ++ body' ++ rest = splice off body' share.
Proof.
  intros Ho E Hz. unfold splice. do 2 f_equal.
  rewrite <- drop_drop, E. unfold zlen in Hz.
  by rewrite drop_app_length' by lia.
Qed.

Section Flash.
Context {F : Type} {dev : flash_device_info_t F} {FLASH_BASE : Z} {sizes : list Z}
  {img : F -> list Z} {HL : FlashLaws dev FLASH_BASE sizes img}.
Variable fInfo : FLASH_ADDR_INFO.
Abbreviation g := (Some dev).
Abbreviation N := (flash_scratch_pad_length fInfo).
Abbreviation start := (flash_scratch_pad_start_blk fInfo).
Abbreviation number := (flash_scratch_pad_number_blk fInfo).
Abbreviation off := (flash_scratch_pad_blk_offset fInfo).

(** The sectors of the pad, and the memory from [pBuf] on. *)
Definition pad_sectors (f : F) : list Z :=
  slice (sbase sizes start) (span (sizes := sizes) start (Z.to_nat number)) (img f).
Definition pad_mem (f : F) : list Z := drop (Z.to_nat off) (pad_sectors f).

Definition pad_placed : Prop := placed (sizes := sizes) N start number off.

Lemma pad_share f alloc :
  pad_placed ->
  getSharedBlks g alloc start (start + number) f = Some (if alloc then Some (pad_sectors f) else None) /\
  zlen (pad_sectors f) = span (sizes := sizes) start (Z.to_nat number) /\
  0 <= sbase sizes start /\ sbase sizes start + zlen (pad_sectors f) <= zlen (img f).
Proof.
  intros (Hs & Hn & He & Ho & Hl). pose proof (span_range (HL := HL) start (Z.to_nat number) Hs).
  pose proof (base_range (HL := HL) start). pose proof (laws_img (FlashLaws := HL) f).
  assert (Hz : zlen (pad_sectors f) = span (sizes := sizes) start (Z.to_nat number))
    by (apply zlen_slice; lia).
  split; [|lia]. rewrite <- (Z2Nat.id number) at 1 by lia.
  apply (getSharedBlks_spec (HL := HL)); lia.
Qed.

(** The guards let a length through that leaves room for the two headers. *)
Lemma pad_guard bufLen :
  0 <= bufLen -> bufLen + sizeof_SP_HEADER + sizeof_SP_TOKEN < N -> N < 2 ^ 31 ->
  (N =? 0) = false /\
  (u32 (N - sizeof_SP_HEADER - sizeof_SP_TOKEN) <=? u32 bufLen) = false.
Proof.
  unfold sizeof_SP_HEADER, sizeof_SP_TOKEN. intros.
  rewrite !u32_id by (unfold is_u32; lia). split; ztest.
Qed.

Lemma pad_of_sectors f : pad_placed -> 0 <= N -> pad_of (pad_sectors f) off = Some (pad_mem f).
Proof.
  intros Hp HN. destruct (pad_share f true Hp) as (_ & Hz & _). destruct Hp as (Hs & Hn & He & Ho & Hl).
  unfold pad_of, pad_mem. by ztest.
Qed.

Lemma kerSysScratchPadGet_ok f cs hdr room b rest id bufLen :
  pad_placed -> pad_repr (pad_mem f) N cs hdr room b rest -> sizeof_SP_TOKEN <= room ->
  nul_terminated id = true -> 0 <= bufLen -> bufLen + sizeof_SP_HEADER + sizeof_SP_TOKEN < N ->
  kerSysScratchPadGet g true fInfo id bufLen f =
    Some (get_result (pad_lookup cs (cstr id)) bufLen).
Proof.
  intros Hp HP Hroom Hid Hb Hfit. unfold kerSysScratchPadGet.
  destruct (pad_guard bufLen) as [-> ->]; [done|done|apply HP|].
  destruct (pad_share f true Hp) as (-> & _). cbn [mbind option_bind].
  unfold sizeof_SP_HEADER, sizeof_SP_TOKEN in *.
  rewrite pad_of_sectors by (done || lia). cbn [mbind option_bind].
  by apply (sp_get_ok _ _ cs hdr room b rest).
Qed.

(** A pad update, through the flash. *)
Lemma kerSysScratchPadSet_ok f cs hdr room b rest id d :
  pad_placed -> pad_repr (pad_mem f) N cs hdr room b rest -> nul_terminated id = true ->
  token_name_ok (cstr id) -> 0 < zlen d -> sizeof_SP_TOKEN + round4 (zlen d) <= room ->
  zlen d + sizeof_SP_HEADER + sizeof_SP_TOKEN < N ->
  exists r f', kerSysScratchPadSet g true fInfo id (Some d) (zlen d) f = Some (r, f') /\
    (r = 0 \/ r = -1) /\
    (r = 0 -> Forall is_u8 d -> same_outside (section_at (sizes := sizes) start off) N (img f) (img f') /\
      updated N cs room rest id d (pad_mem f')).
Proof.
  intros Hp HP Hid Hname Hd Hroom Hfit. unfold kerSysScratchPadSet.
  destruct (pad_guard (zlen d)) as [-> ->]; [lia|done|apply HP|].
  destruct (pad_share f true Hp) as (-> & Hz & Hb0 & Hb1). cbn [mbind option_bind].
  unfold sizeof_SP_HEADER, sizeof_SP_TOKEN in Hfit.
  rewrite pad_of_sectors by (done || lia). cbn [mbind option_bind].
  destruct (sp_set_ok (pad_mem f) N cs hdr room b rest id d) as (pb' & Eset & Hu); [done..|].
  rewrite Eset.
  cbn [mbind option_bind]. rewrite Z.eqb_refl.
  destruct (pad_split_rest _ _ _ _ _ _ _ HP) as (body & E & HzN).
  assert (exists body', pb' = body' ++ rest /\ zlen body' = N) as (body' & -> & HzN').
  { destruct Hu as (cs' & hdr' & room' & b' & HP' & _). by eapply pad_split_rest. }
  destruct Hp as (Hs & Hn & He & Ho & Hl).
  rewrite (pad_splice _ _ body body' rest) by (done || lia).
  assert (Hzs : zlen (splice off body' (pad_sectors f)) = span (sizes := sizes) start (Z.to_nat number))
    by (rewrite zlen_splice; lia).
  destruct (setSharedBlks_spec (HL := HL) start (Z.to_nat number) _ f Hs ltac:(lia) Hzs)
    as (r & f' & E' & Hsame & Hdat & Hr).
  rewrite Z2Nat.id in E' by lia. rewrite E'. exists r, f'. split; [done|]. split; [done|].
  intros Hr0 Hd8.
  assert (Hb8 : Forall is_u8 (body' ++ rest)).
  { apply (sp_set_bytes _ _ _ _ _ _ _ Eset).
    - apply Forall_drop, Forall_slice, (laws_bytes (FlashLaws := HL)).
    - destruct Hname as [Hn1 _]. eapply Forall_impl; [exact Hn1|]. naive_solver.
    - by intros ? [= <-]. }
  apply Forall_app in Hb8 as [Hb8 _].
  specialize (Hdat Hr0 ltac:(apply Forall_splice; [done|apply Forall_slice, (laws_bytes (FlashLaws := HL))])).
  split.
  - rewrite (same_outside_eq _ _ _ _ _ Hsame Hb0 Hzs ltac:(lia) Hdat).
    unfold pad_sectors in *. rewrite splice_slice_splice by lia. unfold section_at.
    apply same_outside_splice; lia.
  - unfold pad_mem, pad_sectors. rewrite Hdat, <- (pad_splice _ _ body body' rest) by (done || lia).
    by rewrite drop_app_length' by (rewrite length_take; unfold zlen in *; lia).
Qed.

End Flash.

(** ** Witnesses: a pad of 128 bytes with one token *)

Definition demo_id : list Z := bytes_of_string "Psi" ++ [0].
Definition demo_cell : cell := mkCell (bytes_of_string "Psi") [1; 2; 3] [0].
Definition demo_pad : list Z := SPHead ++ enc_cells [demo_cell] ++ replicate 72 255 ++ [9].

Lemma demo_name_ok : token_name_ok (cstr demo_id).
Proof.
  split; [by_decide|]. split; [by_decide|]. exists 80, (bytes_of_string "si"). split; [done|lia].
Qed.

Lemma demo_cell_ok N : 3 < N -> cell_ok N demo_cell.
Proof. intros. split; [exact demo_name_ok|]. split; [|done]. change (zlen (c_data demo_cell)) with 3. lia. Qed.

Lemma demo_repr : pad_repr demo_pad 128 [demo_cell] SPHead 72 255 [9].
Proof.
  constructor; try done.
  - constructor; [by apply demo_cell_ok|done].
  - apply NoDup_singleton.
  - by right.
Qed.

Lemma sp_get_spec_witness : sp_get demo_pad 128 demo_id 8 = Some (3, [1; 2; 3]).
Proof. apply (sp_get_spec demo_pad 128 [demo_cell] SPHead 72 255 [9] demo_id 8 demo_repr); done. Defined.

Lemma sp_set_spec_witness :
  exists pb' cs' hdr' room' b', sp_set demo_pad 128 demo_id (Some [7; 8]) 2 = Some (0, pb') /\
    pad_repr pb' 128 cs' hdr' room' b' [9] /\ pad_lookup cs' (cstr demo_id) = Some [7; 8].
Proof.
  destruct (sp_set_spec demo_pad 128 [demo_cell] SPHead 72 255 [9] demo_id [7; 8] demo_repr)
    as (pb' & cs' & hdr' & room' & b' & E & HP & Hl & _).
  - done.
  - exact demo_name_ok.
  - done.
  - done.
  - exists pb', cs', hdr', room', b'. split; [exact E|]. split; [exact HP|].
    rewrite Hl. by rewrite decide_True.
Defined.

(** A full pad of 56 bytes, followed by another section. *)
Definition demo_full : list Z :=
  SPHead ++ enc_cells [demo_cell] ++
  enc_cell (mkCell (bytes_of_string "Xyz") [5] [0; 0; 0]) ++ replicate 20 0 ++ [1].

Lemma sp_get_past_end_witness :
  sp_get demo_full 56 (bytes_of_string "Xyz" ++ [0]) 8 = Some (1, [5]).
Proof.
  apply (sp_get_past_end demo_full 56 [demo_cell] SPHead 0
           (mkCell (bytes_of_string "Xyz") [5] [0; 0; 0]) [1]).
  - constructor; try done.
    + constructor; [by apply demo_cell_ok|done].
    + apply NoDup_singleton.
    + by left.
  - split; [|done]. split; [by_decide|]. split; [by_decide|].
    exists 88, (bytes_of_string "yz"). split; [done|lia].
  - done.
  - done.
  - done.
  - done.
  - done.
Defined.

Lemma sp_delete_spec_witness :
  exists pb' cs' room' b', sp_set demo_pad 128 demo_id None 0 = Some (0, pb') /\
    pad_repr pb' 128 cs' SPHead room' b' [9] /\ pad_lookup cs' (cstr demo_id) = None.
Proof.
  destruct (sp_delete_spec demo_pad 128 [demo_cell] SPHead 72 255 [9] demo_id 0 demo_repr)
    as (pb' & cs' & room' & b' & E & HP & _ & Hl).
  - done.
  - done.
  - done.
  - done.
  - exists pb', cs', room', b'. split; [exact E|]. split; [exact HP|].
    rewrite Hl. by rewrite decide_True.
Defined.

Lemma sp_init_spec_witness :
  exists pb', sp_set (replicate (Z.to_nat 128) 255 ++ [9]) 128 demo_id (Some [7; 8]) 2 = Some (0, pb') /\
    sp_get pb' 128 demo_id 4 = Some (2, [7; 8]).
Proof.
  destruct (sp_init_spec 128 255 [9] demo_id [7; 8] 4) as (pb' & E & Hg & _).
  - by right.
  - done.
  - done.
  - exact demo_name_ok.
  - done.
  - done.
  - done.
  - exists pb'. split; [exact E|exact Hg].
Defined.

(** A device of two 16 KB sectors with the pad at the start of the second. *)
Definition pad_sizes : list Z := [0x4000; 0x4000].
Definition pad_info : FLASH_ADDR_INFO :=
  mkFInfo 1 1 0x1000 0x3000 1 1 128 0 0 1 1024 0x580 0x4000 0 1 0 0.
Definition pad_image : list Z := replicate (Z.to_nat 0x4000) 255 ++ demo_pad.

Lemma pad_sizes_ok : device_ok pad_sizes.
Proof. split; [by repeat constructor|]. by vm_compute. Qed.

