(* ===== verification/Nvram.v ===== *)
(** * CRC-32 and the NVRAM structure

    [getCrc32], [writeNvramData] and [readNvramData] of [board.c] with the table of
    [bcmTag.h], the procfs parameter [BaseMacAddr] ([proc_get_param],
    [proc_set_param], [str_to_num]) and [kerSysEarlyFlashInit] of
    [bcm63xx_flash.c].  [NVRAM_DATA] is its 300 bytes in memory order; [None] is an
    access outside a buffer or a flash fault. *)

From S2P Require Import Prelude BoardDefs BoardParms SectorMap FlashApi FlashStore ScratchPad.

(** ** CRC-32 *)

Definition CRC32_INIT_VALUE : Z := 0xffffffff.

Definition Crc32_table : list Z :=
  [0x00000000; 0x77073096; 0xEE0E612C; 0x990951BA; 0x076DC419; 0x706AF48F; 0xE963A535; 0x9E6495A3;
   0x0EDB8832; 0x79DCB8A4; 0xE0D5E91E; 0x97D2D988; 0x09B64C2B; 0x7EB17CBD; 0xE7B82D07; 0x90BF1D91;
   0x1DB71064; 0x6AB020F2; 0xF3B97148; 0x84BE41DE; 0x1ADAD47D; 0x6DDDE4EB; 0xF4D4B551; 0x83D385C7;
   0x136C9856; 0x646BA8C0; 0xFD62F97A; 0x8A65C9EC; 0x14015C4F; 0x63066CD9; 0xFA0F3D63; 0x8D080DF5;
   0x3B6E20C8; 0x4C69105E; 0xD56041E4; 0xA2677172; 0x3C03E4D1; 0x4B04D447; 0xD20D85FD; 0xA50AB56B;
   0x35B5A8FA; 0x42B2986C; 0xDBBBC9D6; 0xACBCF940; 0x32D86CE3; 0x45DF5C75; 0xDCD60DCF; 0xABD13D59;
   0x26D930AC; 0x51DE003A; 0xC8D75180; 0xBFD06116; 0x21B4F4B5; 0x56B3C423; 0xCFBA9599; 0xB8BDA50F;
   0x2802B89E; 0x5F058808; 0xC60CD9B2; 0xB10BE924; 0x2F6F7C87; 0x58684C11; 0xC1611DAB; 0xB6662D3D;
   0x76DC4190; 0x01DB7106; 0x98D220BC; 0xEFD5102A; 0x71B18589; 0x06B6B51F; 0x9FBFE4A5; 0xE8B8D433;
   0x7807C9A2; 0x0F00F934; 0x9609A88E; 0xE10E9818; 0x7F6A0DBB; 0x086D3D2D; 0x91646C97; 0xE6635C01;
   0x6B6B51F4; 0x1C6C6162; 0x856530D8; 0xF262004E; 0x6C0695ED; 0x1B01A57B; 0x8208F4C1; 0xF50FC457;
   0x65B0D9C6; 0x12B7E950; 0x8BBEB8EA; 0xFCB9887C; 0x62DD1DDF; 0x15DA2D49; 0x8CD37CF3; 0xFBD44C65;
   0x4DB26158; 0x3AB551CE; 0xA3BC0074; 0xD4BB30E2; 0x4ADFA541; 0x3DD895D7; 0xA4D1C46D; 0xD3D6F4FB;
   0x4369E96A; 0x346ED9FC; 0xAD678846; 0xDA60B8D0; 0x44042D73; 0x33031DE5; 0xAA0A4C5F; 0xDD0D7CC9;
   0x5005713C; 0x270241AA; 0xBE0B1010; 0xC90C2086; 0x5768B525; 0x206F85B3; 0xB966D409; 0xCE61E49F;
   0x5EDEF90E; 0x29D9C998; 0xB0D09822; 0xC7D7A8B4; 0x59B33D17; 0x2EB40D81; 0xB7BD5C3B; 0xC0BA6CAD;
   0xEDB88320; 0x9ABFB3B6; 0x03B6E20C; 0x74B1D29A; 0xEAD54739; 0x9DD277AF; 0x04DB2615; 0x73DC1683;
   0xE3630B12; 0x94643B84; 0x0D6D6A3E; 0x7A6A5AA8; 0xE40ECF0B; 0x9309FF9D; 0x0A00AE27; 0x7D079EB1;
   0xF00F9344; 0x8708A3D2; 0x1E01F268; 0x6906C2FE; 0xF762575D; 0x806567CB; 0x196C3671; 0x6E6B06E7;
   0xFED41B76; 0x89D32BE0; 0x10DA7A5A; 0x67DD4ACC; 0xF9B9DF6F; 0x8EBEEFF9; 0x17B7BE43; 0x60B08ED5;
   0xD6D6A3E8; 0xA1D1937E; 0x38D8C2C4; 0x4FDFF252; 0xD1BB67F1; 0xA6BC5767; 0x3FB506DD; 0x48B2364B;
   0xD80D2BDA; 0xAF0A1B4C; 0x36034AF6; 0x41047A60; 0xDF60EFC3; 0xA867DF55; 0x316E8EEF; 0x4669BE79;
   0xCB61B38C; 0xBC66831A; 0x256FD2A0; 0x5268E236; 0xCC0C7795; 0xBB0B4703; 0x220216B9; 0x5505262F;
   0xC5BA3BBE; 0xB2BD0B28; 0x2BB45A92; 0x5CB36A04; 0xC2D7FFA7; 0xB5D0CF31; 0x2CD99E8B; 0x5BDEAE1D;
   0x9B64C2B0; 0xEC63F226; 0x756AA39C; 0x026D930A; 0x9C0906A9; 0xEB0E363F; 0x72076785; 0x05005713;
   0x95BF4A82; 0xE2B87A14; 0x7BB12BAE; 0x0CB61B38; 0x92D28E9B; 0xE5D5BE0D; 0x7CDCEFB7; 0x0BDBDF21;
   0x86D3D2D4; 0xF1D4E242; 0x68DDB3F8; 0x1FDA836E; 0x81BE16CD; 0xF6B9265B; 0x6FB077E1; 0x18B74777;
   0x88085AE6; 0xFF0F6A70; 0x66063BCA; 0x11010B5C; 0x8F659EFF; 0xF862AE69; 0x616BFFD3; 0x166CCF45;
   0xA00AE278; 0xD70DD2EE; 0x4E048354; 0x3903B3C2; 0xA7672661; 0xD06016F7; 0x4969474D; 0x3E6E77DB;
   0xAED16A4A; 0xD9D65ADC; 0x40DF0B66; 0x37D83BF0; 0xA9BCAE53; 0xDEBB9EC5; 0x47B2CF7F; 0x30B5FFE9;
   0xBDBDF21C; 0xCABAC28A; 0x53B39330; 0x24B4A3A6; 0xBAD03605; 0xCDD70693; 0x54DE5729; 0x23D967BF;
   0xB3667A2E; 0xC4614AB8; 0x5D681B02; 0x2A6F2B94; 0xB40BBE37; 0xC30C8EA1; 0x5A05DF1B; 0x2D02EF8D].

(** One turn of the loop: [crc = (crc >> 8) ^ Crc32_table[(crc ^ *pdata++) & 0xff]]. *)
Definition crc_step (crc b : Z) : Z :=
  Z.lxor (Z.shiftr crc 8) (nth (Z.to_nat (Z.land (Z.lxor crc b) 0xff)) Crc32_table 0).

(** The bytes of [pdata] are those of the list; [size] is its length. *)
Definition getCrc32 (pdata : list Z) (crc : Z) : Z := fold_left crc_step pdata crc.

(** ** [NVRAM_DATA] ([bcm_hwdefs.h]) *)

Definition sizeof_NVRAM_DATA : Z := 300.
Definition NVRAM_MAC_ADDRESS_LEN : Z := 6.
Definition NVRAM_BOARD_ID_STRING_LEN : Z := 16.
Definition off_szBoardId : Z := 4 + 256.
Definition off_ulNumMacAddrs : Z := off_szBoardId + NVRAM_BOARD_ID_STRING_LEN + 4 + 4.
Definition off_ucaBaseMacAddr : Z := off_ulNumMacAddrs + 4.
Definition off_ulCheckSum : Z := off_ucaBaseMacAddr + NVRAM_MAC_ADDRESS_LEN + 2.

(** An [unsigned long] of the structure. *)
Definition field32 (buf : list Z) (off : Z) : option Z :=
  (fun l => u32 (be32_get l)) <$> mem_read buf off 4.

Section Functions.
Context {F : Type} (g_flash_info : option (flash_device_info_t F)).
Variable (fInfo : FLASH_ADDR_INFO).

(** The structure with its checksum, and the flash; the result of
    [kerSysNvRamSet] is not looked at. *)
Definition writeNvramData (alloc : bool) (pNvramData : list Z) (f : F) : option (list Z * F) :=
  buf ← mem_write pNvramData off_ulCheckSum (be32 0);
  let crc := getCrc32 buf CRC32_INIT_VALUE in
  buf ← mem_write buf off_ulCheckSum (be32 crc);
  '(_, f) ← kerSysNvRamSet g_flash_info alloc fInfo buf sizeof_NVRAM_DATA 0 f;
  Some (buf, f).

(** [pNvramData] is what the structure holds before; it stays when
    [kerSysNvRamGet] fails, whose result is not looked at either. *)
Definition readNvramData (alloc : bool) (pNvramData : list Z) (f : F) : option (Z * list Z) :=
  '(_, d) ← kerSysNvRamGet g_flash_info alloc fInfo sizeof_NVRAM_DATA 0 f;
  buf ← mem_write pNvramData 0 d;
  savedCrc ← field32 buf off_ulCheckSum;
  buf ← mem_write buf off_ulCheckSum (be32 0);
  let crc := getCrc32 buf CRC32_INIT_VALUE in
  if negb (savedCrc =? crc) then Some (-1, buf) else Some (0, buf).

(** *** The procfs parameter *)

(** [sprintf("%02x ", b)]. *)
Definition hex_digit (n : Z) : Z := if n <? 10 then 48 + n else 97 + (n - 10).
Definition print_hex (b : Z) : list Z := [hex_digit (b / 16); hex_digit (b mod 16); 32].

Definition isxdigit (c : Z) : bool :=
  (48 <=? c) && (c <=? 57) || (65 <=? c) && (c <=? 70) || (97 <=? c) && (c <=? 102).

(** The digit that [str_to_num] adds. *)
Definition hex_value (c : Z) : Z :=
  if (48 <=? c) && (c <=? 57) then c - 48
  else if (97 <=? c) && (c <=? 102) then c - 97 + 10
  else if (65 <=? c) && (c <=? 70) then c - 65 + 10
  else 0.

(** The return value and the text written to [page]. *)
Definition proc_get_param (alloc : bool) (nvram : list Z) (offset length cnt : Z) (f : F)
    : option (Z * list Z) :=
  if (offset <? 0) || (sizeof_NVRAM_DATA <? u32 (offset + length)) then Some (0, [])
  else
    '(sts, nvram) ← readNvramData alloc nvram f;
    page ← (if sts =? 0
            then d ← mem_read nvram offset (Z.max 0 length); Some (concat (map print_hex d))
            else Some []);
    let page := page ++ [10] in
    Some (if zlen page <? cnt then zlen page else 0, page).

(** The loop that removes what is not a digit: [n] is [r - i]. *)
Fixpoint strip_loop (n : nat) (input : list Z) (i : Z) : option (list Z) :=
  match n with
  | O => Some input
  | S n' =>
      c ← input !! Z.to_nat i;
      if negb (isxdigit c) then
        d ← mem_read input (i + 1) (Z.of_nat n');
        input ← mem_write input i d;
        strip_loop n' input i
      else strip_loop n' input (i + 1)
  end.

(** [n] turns are left; [inp] is what [in] points to, [o] the index of [out]. *)
Fixpoint str_to_num_loop (n : nat) (i : Z) (inp out : list Z) (o : Z) : option (list Z) :=
  match n with
  | O => Some out
  | S n' =>
      c ← head inp;
      x ← out !! Z.to_nat o;
      let x := u8 (x + hex_value c) in
      if i mod 2 =? 0
      then str_to_num_loop n' (i + 1) (tail inp) (<[Z.to_nat o := u8 (x * 16)]> out) o
      else str_to_num_loop n' (i + 1) (tail inp) (<[Z.to_nat o := x]> out) (o + 1)
  end.

(** [out] is the memory from the destination on. *)
Definition str_to_num (inp out : list Z) (len : Z) : option (list Z) :=
  out ← mem_set out 0 len 0;
  str_to_num_loop (Z.to_nat (len * 2)) 0 inp out 0.

Definition EFAULT : Z := 14.

(** [input] and [nvram] are the uninitialised locals; [user] tells whether
    [copy_from_user] succeeds. *)
Definition proc_set_param (alloc alloc' user : bool) (nvram input : list Z)
    (offset length : Z) (buf : list Z) (cnt : Z) (f : F) : option (Z * F) :=
  if (offset <? 0) || (sizeof_NVRAM_DATA <? u32 (offset + length)) then Some (0, f)
  else if (32 <? u32 cnt) || negb user then Some (- EFAULT, f)
  else
    d ← mem_read buf 0 cnt;
    input ← mem_write input 0 d;
    input ← strip_loop (Z.to_nat cnt) input 0;
    '(sts, nvram) ← readNvramData alloc nvram f;
    if sts =? 0 then
      out ← str_to_num input (drop (Z.to_nat offset) nvram) length;
      '(_, f) ← writeNvramData alloc' (take (Z.to_nat offset) nvram ++ out) f;
      Some (cnt, f)
    else Some (0, f).

(** ** Early initialisation *)

(** After [flash_init]: the result holds the flash layout, [bootNvramData] and the
    current board; the board's id is the string at [szBoardId]. *)
Definition kerSysEarlyFlashInit (chip : Chip) (g_pCurrentBp : option BOARD_PARAMETERS)
    (bootNvramData : list Z) (f : F)
    : option (FLASH_ADDR_INFO * list Z * option BOARD_PARAMETERS) :=
  size0 ← flash_get_sector_size g_flash_info 0 f;
  let rootfs := if u32 size0 <? FLASH_LENGTH_BOOT_ROM then FLASH_LENGTH_BOOT_ROM else u32 size0 in
  let fi := mkFInfo
    (flash_persistent_start_blk fInfo) (flash_persistent_number_blk fInfo)
    (flash_persistent_length fInfo) (flash_persistent_blk_offset fInfo)
    (flash_scratch_pad_start_blk fInfo) (flash_scratch_pad_number_blk fInfo)
    (flash_scratch_pad_length fInfo) (flash_scratch_pad_blk_offset fInfo)
    0 1 NVRAM_LENGTH NVRAM_DATA_OFFSET rootfs
    (flash_dare_persistent_start_blk fInfo) (flash_dare_persistent_number_blk fInfo)
    (flash_dare_persistent_length fInfo) (flash_dare_persistent_blk_offset fInfo) in
  '(_, d) ← flash_read_buf g_flash_info 0 NVRAM_DATA_OFFSET sizeof_NVRAM_DATA f;
  boot ← mem_write bootNvramData 0 d;
  '(_, bp) ← BpSetBoardId chip g_pCurrentBp
    (drop (Z.to_nat off_szBoardId) boot);
  Some (fi, boot, bp).
End Functions.

(** ** The checksum *)

(** The reference: CRC-32 one bit at a time (reflected, polynomial 0xEDB88320). *)
Definition crc_bit (x : Z) : Z := Z.lxor (Z.shiftr x 1) (if Z.odd x then 0xEDB88320 else 0).
Definition crc_bits (x : Z) : Z := Nat.iter 8 crc_bit x.
Definition crc32_bitwise (data : list Z) (crc : Z) : Z :=
  fold_left (fun c b => crc_bits (Z.lxor c b)) data crc.

Lemma crc_bit_lxor x y : crc_bit (Z.lxor x y) = Z.lxor (crc_bit x) (crc_bit y).
Proof.
  unfold crc_bit. rewrite Z.shiftr_lxor, <- !Z.bit0_odd, Z.lxor_spec.
  destruct (Z.testbit x 0), (Z.testbit y 0); cbn [xorb]; rewrite ?Z.lxor_0_r.
  - rewrite (Z.lxor_comm (Z.shiftr y 1)), Z.lxor_assoc, <- (Z.lxor_assoc _ _ (Z.shiftr y 1)).
    by rewrite Z.lxor_nilpotent, Z.lxor_0_l.
  - rewrite !Z.lxor_assoc. f_equal. apply Z.lxor_comm.
  - by rewrite Z.lxor_assoc.
  - done.
Qed.

Lemma crc_iter_lxor n x y :
  Nat.iter n crc_bit (Z.lxor x y) = Z.lxor (Nat.iter n crc_bit x) (Nat.iter n crc_bit y).
Proof. induction n as [|n IH]; [done|]. by rewrite !Nat.iter_succ, IH, crc_bit_lxor. Qed.

Lemma crc_iter_shift n x : Nat.iter n crc_bit (Z.shiftl x (Z.of_nat n)) = x.
Proof.
  induction n as [|n IH]; [apply Z.shiftl_0_r|].
  rewrite Nat2Z.inj_succ, <- Z.add_1_l, <- Z.shiftl_shiftl by lia. rewrite Nat.iter_succ_r.
  assert (forall y, crc_bit (Z.shiftl y 1) = y) as Hb.
  { intros y. unfold crc_bit. rewrite Z.shiftr_shiftl_l by lia. cbn [Z.sub].
    rewrite Z.shiftl_0_r. rewrite <- Z.bit0_odd, Z.shiftl_spec_low by lia. apply Z.lxor_0_r. }
  rewrite Z.shiftl_shiftl, Z.add_comm, <- Z.shiftl_shiftl by lia. by rewrite Hb.
Qed.

(** The table holds the effect of eight bits. *)
Lemma Crc32_table_ok : Crc32_table = map (fun i => crc_bits (Z.of_nat i)) (seq 0 256).
Proof. by vm_compute. Qed.

Lemma nth_map_seq (h : nat -> Z) n (i : nat) d : (i < n)%nat -> nth i (map h (seq 0 n)) d = h i.
Proof.
  intros Hi. rewrite (nth_indep _ d (h 0%nat)) by (by rewrite length_map, length_seq).
  by rewrite map_nth, seq_nth.
Qed.

Lemma Crc32_table_nth i : 0 <= i < 256 -> nth (Z.to_nat i) Crc32_table 0 = crc_bits i.
Proof.
  intros Hi. rewrite Crc32_table_ok, nth_map_seq by lia. by rewrite Z2Nat.id by lia.
Qed.

Lemma split_byte x : x = Z.lxor (Z.shiftl (Z.shiftr x 8) 8) (Z.land x 0xff).
Proof.
  apply Z.bits_inj'. intros n Hn. rewrite Z.lxor_spec, Z.land_spec.
  change 0xff with (Z.ones 8). destruct (Z_lt_le_dec n 8).
  - rewrite Z.shiftl_spec_low, Z.ones_spec_low by lia. by rewrite andb_true_r.
  - rewrite Z.shiftl_spec, Z.shiftr_spec, Z.ones_spec_high by lia.
    rewrite andb_false_r, xorb_false_r. f_equal. lia.
Qed.

Lemma shiftr_byte b : is_u8 b -> Z.shiftr b 8 = 0.
Proof. intros Hb. rewrite Z.shiftr_div_pow2 by lia. by apply Z.div_small. Qed.

Lemma land_ff x : 0 <= Z.land x 0xff < 256.
Proof.
  change 0xff with (Z.ones 8). rewrite Z.land_ones by lia. apply Z.mod_pos_bound. lia.
Qed.

Lemma crc_step_bits c b : is_u8 b -> crc_step c b = crc_bits (Z.lxor c b).
Proof.
  intros Hb. unfold crc_step. rewrite Crc32_table_nth by apply land_ff.
  rewrite (split_byte (Z.lxor c b)) at 2. unfold crc_bits at 2. rewrite crc_iter_lxor.
  rewrite (crc_iter_shift 8), Z.shiftr_lxor, (shiftr_byte b) by done. by rewrite Z.lxor_0_r.
Qed.

Lemma fold_left_cons (h : Z -> Z -> Z) b data c :
  fold_left h (b :: data) c = fold_left h data (h c b).
Proof. reflexivity. Qed.

Lemma crc32_cons b data c :
  crc32_bitwise (b :: data) c = crc32_bitwise data (crc_bits (Z.lxor c b)).
Proof. exact (fold_left_cons (fun c b => crc_bits (Z.lxor c b)) b data c). Qed.

Lemma crc32_app d1 d2 c : crc32_bitwise (d1 ++ d2) c = crc32_bitwise d2 (crc32_bitwise d1 c).
Proof. apply fold_left_app. Qed.

Lemma getCrc32_cons b data c : getCrc32 (b :: data) c = getCrc32 data (crc_step c b).
Proof. exact (fold_left_cons crc_step b data c). Qed.

Lemma getCrc32_bits data : forall crc,
  Forall is_u8 data -> getCrc32 data crc = crc32_bitwise data crc.
Proof.
  induction data as [|b data IH]; intros crc H; [done|].
  apply Forall_cons in H as [Hb H]. rewrite crc32_cons, getCrc32_cons, crc_step_bits by done.
  by apply IH.
Qed.

(** A 32-bit word, by its bits. *)
Lemma u32_testbit x : is_u32 x -> forall n, 32 <= n -> Z.testbit x n = false.
Proof.
  intros [H0 H1] n Hn. apply Z.bits_above_log2; [done|].
  destruct (Z.eq_dec x 0) as [->|]; [cbn; lia|].
  apply Z.log2_lt_pow2; [lia|]. pose proof (Z.pow_le_mono_r 2 32 n ltac:(lia) Hn). lia.
Qed.

Lemma u32_of_bits x : 0 <= x -> (forall n, 32 <= n -> Z.testbit x n = false) -> is_u32 x.
Proof.
  intros H0 H. split; [done|]. destruct (Z_lt_le_dec x (2 ^ 32)) as [|Hx]; [done|].
  pose proof (Z.log2_le_mono _ _ Hx) as Hl. rewrite Z.log2_pow2 in Hl by lia.
  pose proof (Z.bit_log2 x ltac:(lia)) as Hb. rewrite H in Hb by lia. done.
Qed.

Lemma u32_lxor x y : is_u32 x -> is_u32 y -> is_u32 (Z.lxor x y).
Proof.
  intros Hx Hy. apply u32_of_bits.
  - apply Z.lxor_nonneg. destruct Hx, Hy. lia.
  - intros n Hn. rewrite Z.lxor_spec, !u32_testbit by done. done.
Qed.

Lemma u32_shiftr1 x : is_u32 x -> is_u32 (Z.shiftr x 1) /\ Z.testbit (Z.shiftr x 1) 31 = false.
Proof.
  intros Hx. split; [|rewrite Z.shiftr_spec by lia; by apply u32_testbit].
  apply u32_of_bits; [apply Z.shiftr_nonneg, Hx|].
  intros n Hn. rewrite Z.shiftr_spec by lia. apply u32_testbit; [done|lia].
Qed.

Lemma crc_bit_u32 x : is_u32 x -> is_u32 (crc_bit x).
Proof.
  intros Hx. unfold crc_bit. apply u32_lxor; [by apply u32_shiftr1|].
  by destruct (Z.odd x).
Qed.

(** One bit can be undone: the top bit tells whether the polynomial was added. *)
Lemma crc_bit_inj x y : is_u32 x -> is_u32 y -> crc_bit x = crc_bit y -> x = y.
Proof.
  intros Hx Hy E.
  assert (Ht : forall z, is_u32 z -> Z.testbit (crc_bit z) 31 = Z.odd z).
  { intros z Hz. unfold crc_bit. rewrite Z.lxor_spec.
    destruct (u32_shiftr1 z Hz) as [_ ->]. by destruct (Z.odd z). }
  assert (Eo : Z.odd x = Z.odd y) by (rewrite <- !Ht by done; by rewrite E).
  unfold crc_bit in E. rewrite Eo in E.
  apply (f_equal (fun v => Z.lxor v (if Z.odd y then 0xEDB88320 else 0))) in E.
  rewrite !Z.lxor_assoc, Z.lxor_nilpotent, !Z.lxor_0_r in E.
  rewrite (Z.div2_odd x), (Z.div2_odd y), !Z.div2_spec, E, Eo. done.
Qed.

Lemma crc_bits_inj x y :
  is_u32 x -> is_u32 y -> crc_bits x = crc_bits y -> x = y.
Proof.
  unfold crc_bits. generalize 8%nat. intros n. revert x y.
  induction n as [|n IH]; intros x y Hx Hy E; [done|].
  rewrite !Nat.iter_succ_r in E. apply crc_bit_inj; [done..|].
  apply IH; [by apply crc_bit_u32..|done].
Qed.

Lemma crc_bits_u32 x : is_u32 x -> is_u32 (crc_bits x).
Proof.
  unfold crc_bits. generalize 8%nat. intros n Hx. induction n as [|n IH]; [done|].
  rewrite Nat.iter_succ. by apply crc_bit_u32.
Qed.

#[local] Opaque crc_bits.

Lemma u8_u32 b : is_u8 b -> is_u32 b.
Proof. unfold is_u8, is_u32. lia. Qed.

Lemma lxor_inj_r a x y : Z.lxor a x = Z.lxor a y -> x = y.
Proof.
  intros E. apply (f_equal (Z.lxor a)) in E.
  by rewrite <- !Z.lxor_assoc, Z.lxor_nilpotent, !Z.lxor_0_l in E.
Qed.

Lemma crc32_u32 data : forall crc,
  Forall is_u8 data -> is_u32 crc -> is_u32 (crc32_bitwise data crc).
Proof.
  induction data as [|b data IH]; intros crc H Hc; [done|]. apply Forall_cons in H as [Hb H].
  rewrite crc32_cons. apply IH; [done|]. apply crc_bits_u32, u32_lxor; [done|by apply u8_u32].
Qed.

(** Different values stay different over the same data. *)
Lemma crc32_inj data : forall c c',
  Forall is_u8 data -> is_u32 c -> is_u32 c' ->
  crc32_bitwise data c = crc32_bitwise data c' -> c = c'.
Proof.
  induction data as [|b data IH]; intros c c' H Hc Hc' E; [done|].
  apply Forall_cons in H as [Hb H]. rewrite !crc32_cons in E. pose proof (u8_u32 b Hb).
  apply IH in E; [|done|by apply crc_bits_u32, u32_lxor..].
  apply crc_bits_inj in E; [|by apply u32_lxor..].
  rewrite (Z.lxor_comm c), (Z.lxor_comm c') in E. by apply lxor_inj_r in E.
Qed.

(** Data that differ in one byte have different checksums. *)
Lemma crc32_one_byte pre x y post crc :
  Forall is_u8 (pre ++ x :: post) -> is_u8 y -> x <> y -> is_u32 crc ->
  getCrc32 (pre ++ x :: post) crc <> getCrc32 (pre ++ y :: post) crc.
Proof.
  intros Hall Hy Hxy Hc. pose proof Hall as [Hpre [Hx Hpost]%Forall_cons]%Forall_app.
  rewrite !getCrc32_bits by (done || (apply Forall_app; split; [done|by constructor])).
  rewrite !crc32_app, !crc32_cons. set (c := crc32_bitwise pre crc).
  assert (is_u32 c) by (by apply crc32_u32). clearbody c. intros E.
  apply (crc32_inj post) in E;
    [|done|apply crc_bits_u32, u32_lxor; [done|by apply u8_u32]..].
  apply crc_bits_inj in E; [|apply u32_lxor; [done|by apply u8_u32]..].
  by apply lxor_inj_r in E.
Qed.

(** ** Reading and writing the structure *)

(** The structure with a zero checksum. *)
Definition cleared (buf : list Z) : list Z := splice off_ulCheckSum (be32 0) buf.
Definition checksum (buf : list Z) : Z := getCrc32 (cleared buf) CRC32_INIT_VALUE.

Lemma be32_bytes n : Forall is_u8 (be32 n) /\ zlen (be32 n) = 4.
Proof. split; [|done]. repeat constructor; apply u8_range. Qed.

Lemma be32_u32 n : is_u32 n -> u32 (be32_get (be32 n)) = n.
Proof.
  intros Hn. unfold be32, be32_get, u8, u32, s32, is_u32 in *.
  rewrite !Z.shiftr_div_pow2 by lia. Z.to_euclidean_division_equations. lia.
Qed.

Lemma be32_get_inj a b :
  zlen a = 4 -> zlen b = 4 -> Forall is_u8 a -> Forall is_u8 b ->
  u32 (be32_get a) = u32 (be32_get b) -> a = b.
Proof.
  intros Ha Hb Ba Bb.
  destruct a as [|a0 [|a1 [|a2 [|a3 [|]]]]]; try (unfold zlen in Ha; cbn in Ha; lia).
  destruct b as [|b0 [|b1 [|b2 [|b3 [|]]]]]; try (unfold zlen in Hb; cbn in Hb; lia).
  rewrite !Forall_cons in *. unfold is_u8 in *. cbn [be32_get].
  unfold u32, s32. intros E. destruct_and!.
  assert (a0 = b0 /\ a1 = b1 /\ a2 = b2 /\ a3 = b3) as (-> & -> & -> & ->)
    by (Z.to_euclidean_division_equations; lia).
  done.
Qed.

Section Buffer.
Variable buf : list Z.
Hypotheses (Hlen : zlen buf = sizeof_NVRAM_DATA) (Hbytes : Forall is_u8 buf).

Lemma cleared_eq : cleared buf = take 296 buf ++ be32 0.
Proof.
  unfold cleared, splice. change (Z.to_nat off_ulCheckSum) with 296%nat.
  rewrite (drop_ge buf); [done|]. unfold zlen, sizeof_NVRAM_DATA in Hlen.
  cbn [be32 length]. lia.
Qed.

Lemma cleared_ok : zlen (cleared buf) = sizeof_NVRAM_DATA /\ Forall is_u8 (cleared buf).
Proof.
  rewrite cleared_eq. destruct (be32_bytes 0). rewrite zlen_app, zlen_take, Forall_app.
  unfold sizeof_NVRAM_DATA in *. split; [lia|]. split; [by apply Forall_take|done].
Qed.

Lemma checksum_u32 : is_u32 (checksum buf).
Proof.
  destruct cleared_ok. unfold checksum. rewrite getCrc32_bits by done.
  by apply crc32_u32.
Qed.

(** The structure as it is stored. *)
Definition stamped : list Z := take 296 buf ++ be32 (checksum buf).

Lemma stamped_eq : splice off_ulCheckSum (be32 (checksum buf)) (cleared buf) = stamped.
Proof.
  rewrite cleared_eq. unfold stamped, splice. change (Z.to_nat off_ulCheckSum) with 296%nat.
  unfold zlen, sizeof_NVRAM_DATA in Hlen.
  rewrite take_app_length' by (rewrite length_take; lia). f_equal.
  rewrite drop_ge; [apply app_nil_r|]. rewrite length_app, length_take. cbn [be32 length]. lia.
Qed.

Lemma stamped_ok : zlen stamped = sizeof_NVRAM_DATA /\ Forall is_u8 stamped.
Proof.
  unfold stamped. destruct (be32_bytes (checksum buf)). rewrite zlen_app, zlen_take, Forall_app.
  unfold sizeof_NVRAM_DATA in *. split; [lia|]. split; [by apply Forall_take|done].
Qed.
End Buffer.

Lemma cleared_stamped buf :
  zlen buf = sizeof_NVRAM_DATA -> Forall is_u8 buf ->
  cleared (stamped buf) = cleared buf /\ slice off_ulCheckSum 4 (stamped buf) = be32 (checksum buf).
Proof.
  intros Hl Hb. destruct (stamped_ok buf Hl Hb). rewrite !cleared_eq by done.
  unfold stamped, zlen, sizeof_NVRAM_DATA in *. split.
  - by rewrite take_app_length' by (rewrite length_take; lia).
  - rewrite <- (app_nil_r (be32 _)). apply slice_mid; [|done].
    change off_ulCheckSum with 296. unfold zlen. rewrite length_take. lia.
Qed.

(** *** The hexadecimal text of the procfs parameter *)

Definition hex_text (d : list Z) : list Z := concat (map print_hex d) ++ [10].
Definition hex_digits (b : Z) : list Z := [hex_digit (b / 16); hex_digit (b mod 16)].

Lemma hex_digit_xdigit n : 0 <= n < 16 -> isxdigit (hex_digit n) = true.
Proof. intros. unfold isxdigit, hex_digit. ztest; done. Qed.

Lemma hex_digit_value n : 0 <= n < 16 -> hex_value (hex_digit n) = n.
Proof. intros. unfold hex_value, hex_digit. ztest; done. Qed.

Lemma zlen_hex_text d : zlen (hex_text d) = 3 * zlen d + 1.
Proof.
  unfold hex_text. rewrite zlen_app. change (zlen [10]) with 1.
  induction d as [|b d IH]; [done|]. cbn [map concat]. rewrite zlen_app, zlen_cons.
  change (zlen (print_hex b)) with 3. lia.
Qed.

(** Only the digits remain. *)
Lemma filter_hex_text d :
  Forall is_u8 d -> List.filter isxdigit (hex_text d) = concat (map hex_digits d).
Proof.
  unfold hex_text. induction 1 as [|b d Hb _ IH]; [done|]. unfold is_u8 in Hb.
  cbn [map concat print_hex hex_digits app List.filter].
  rewrite !hex_digit_xdigit by (Z.to_euclidean_division_equations; lia).
  by rewrite IH.
Qed.

Lemma strip_loop_spec txt : forall pre post,
  exists post', strip_loop (length txt) (pre ++ txt ++ post) (zlen pre) =
    Some (pre ++ List.filter isxdigit txt ++ post').
Proof.
  induction txt as [|c txt IH]; intros pre post; [by exists post|].
  cbn [length strip_loop app]. rewrite lookup_mid by done. cbn [mbind option_bind List.filter].
  destruct (isxdigit c) eqn:Ec; cbn [negb].
  - destruct (IH (pre ++ [c]) post) as [post' E]. rewrite <- !app_assoc in E. cbn [app] in E.
    rewrite zlen_app in E. change (zlen [c]) with 1 in E. rewrite E. by exists post'.
  - assert (Hr : mem_read (pre ++ c :: txt ++ post) (zlen pre + 1) (Z.of_nat (length txt)) = Some txt).
    { replace (pre ++ c :: txt ++ post) with ((pre ++ [c]) ++ txt ++ post) by (by rewrite <- app_assoc).
      apply mem_read_mid; [rewrite zlen_app; done|done]. }
    rewrite Hr. cbn [mbind option_bind].
    replace (pre ++ c :: txt ++ post) with
      (pre ++ take (length txt) (c :: txt) ++ (drop (length txt) (c :: txt) ++ post)).
    2: { rewrite (app_assoc (take _ _)), take_drop. done. }
    rewrite mem_write_mid; [|done|unfold zlen; rewrite length_take; cbn [length]; lia].
    apply IH.
Qed.

(** Two digits make a byte. *)
Lemma str_to_num_loop_spec d : forall pre i more tail,
  Forall is_u8 d -> i mod 2 = 0 ->
  str_to_num_loop (2 * length d) i (concat (map hex_digits d) ++ more)
    (pre ++ replicate (length d) 0 ++ tail) (zlen pre) = Some (pre ++ d ++ tail).
Proof.
  induction d as [|b d IH]; intros pre i more tl Hd Hi; [done|].
  apply Forall_cons in Hd as [Hb Hd]. unfold is_u8 in Hb.
  replace (2 * length (b :: d))%nat with (S (S (2 * length d))) by (cbn [length]; lia).
  cbn [str_to_num_loop map concat hex_digits app length replicate head tail].
  cbn [mbind option_bind]. rewrite lookup_mid by done. cbn [mbind option_bind].
  rewrite Hi, Z.eqb_refl.
  rewrite (insert_mid _ pre 0) by done. rewrite lookup_mid by done. cbn [mbind option_bind].
  destruct (Z.eqb_spec ((i + 1) mod 2) 0) as [E|_]; [Z.to_euclidean_division_equations; lia|].
  rewrite insert_mid by done.
  rewrite !hex_digit_value by (Z.to_euclidean_division_equations; lia).
  replace (u8 (u8 (u8 (0 + b / 16) * 16) + b mod 16)) with b
    by (unfold u8; Z.to_euclidean_division_equations; lia).
  replace (pre ++ b :: replicate (length d) 0 ++ tl) with ((pre ++ [b]) ++ replicate (length d) 0 ++ tl)
    by (by rewrite <- app_assoc).
  replace (zlen pre + 1) with (zlen (pre ++ [b])) by (by rewrite zlen_app).
  rewrite IH; [|done|Z.to_euclidean_division_equations; lia]. by rewrite <- app_assoc.
Qed.

Lemma str_to_num_spec d more out :
  Forall is_u8 d -> zlen d <= zlen out ->
  str_to_num (concat (map hex_digits d) ++ more) out (zlen d) = Some (d ++ drop (length d) out).
Proof.
  intros Hd Hl. unfold str_to_num, mem_set. pose proof (zlen_nonneg d).
  destruct (Z.leb_spec 0 (zlen d)); [|lia].
  assert (En : Z.to_nat (zlen d) = length d) by (unfold zlen; lia). rewrite En.
  rewrite mem_write_Some by (rewrite ?zlen_replicate; unfold zlen in *; lia).
  cbn [mbind option_bind]. replace (Z.to_nat (zlen d * 2)) with (2 * length d)%nat by lia.
  unfold splice. change (Z.to_nat 0) with 0%nat. rewrite take_0, length_replicate. cbn [app Nat.add].
  by apply (str_to_num_loop_spec d [] 0 more (drop (length d) out)).
Qed.

Section Flash.
Context {F : Type} {dev : flash_device_info_t F} {FLASH_BASE : Z} {sizes : list Z}
  {img : F -> list Z} {HL : FlashLaws dev FLASH_BASE sizes img}.
Variable fInfo : FLASH_ADDR_INFO.
Abbreviation g := (Some dev).

Definition nvram_placed : Prop :=
  placed (sizes := sizes) NVRAM_LENGTH (flash_nvram_start_blk fInfo) (flash_nvram_number_blk fInfo)
    (flash_nvram_blk_offset fInfo).

(** The place of the structure on the device, and its bytes there. *)
Definition nvram_addr : Z :=
  section_at (sizes := sizes) (flash_nvram_start_blk fInfo) (flash_nvram_blk_offset fInfo).
Definition nvram_image (f : F) : list Z := slice nvram_addr sizeof_NVRAM_DATA (img f).

Lemma nvram_image_ok f :
  nvram_placed -> zlen (nvram_image f) = sizeof_NVRAM_DATA /\ Forall is_u8 (nvram_image f) /\
  0 <= nvram_addr /\ nvram_addr + sizeof_NVRAM_DATA <= zlen (img f).
Proof.
  intros Hp. pose proof (placed_range (HL := HL) _ _ _ _ Hp) as [H0 H1].
  pose proof (laws_img (FlashLaws := HL) f). fold nvram_addr in *.
  unfold NVRAM_LENGTH, ONEK, sizeof_NVRAM_DATA in *. split_and!; try lia.
  - apply zlen_slice; lia.
  - apply Forall_slice, (laws_bytes (FlashLaws := HL)).
Qed.

Lemma readNvramData_ok junk f :
  nvram_placed -> zlen junk = sizeof_NVRAM_DATA ->
  readNvramData g fInfo true junk f =
    Some (if u32 (be32_get (slice off_ulCheckSum 4 (nvram_image f))) =? checksum (nvram_image f)
          then 0 else -1, cleared (nvram_image f)).
Proof.
  intros Hp Hj. destruct (nvram_image_ok f Hp) as (Hz & Hb & _). unfold readNvramData, kerSysNvRamGet.
  rewrite (section_get_ok (HL := HL)) by done. cbn [mbind option_bind].
  rewrite Z.add_0_r. fold nvram_addr. fold (nvram_image f).
  rewrite mem_write_Some by (rewrite ?Hj, ?Hz; done). cbn [mbind option_bind].
  rewrite splice_all by (by rewrite Hj).
  unfold field32. rewrite mem_read_Some by (rewrite ?Hz; done).
  cbn [mbind option_bind fmap option_fmap option_map].
  rewrite mem_write_Some by (rewrite ?Hz; done). cbn [mbind option_bind].
  unfold checksum, cleared. by destruct (_ =? _).
Qed.

(** Writing, on a device that works. *)
Lemma writeNvramData_ok {HR : FlashReliable dev sizes} buf f :
  nvram_placed -> zlen buf = sizeof_NVRAM_DATA -> Forall is_u8 buf ->
  exists f', writeNvramData g fInfo true buf f = Some (stamped buf, f') /\
    img f' = splice nvram_addr (stamped buf) (img f) /\ nvram_image f' = stamped buf.
Proof.
  intros Hp Hz Hb. destruct (nvram_image_ok f Hp) as (_ & _ & Ha0 & Ha1).
  destruct (stamped_ok buf Hz Hb) as [Hsz Hsb]. destruct (cleared_ok buf Hz Hb) as [Hcz Hcb].
  unfold writeNvramData, kerSysNvRamSet.
  rewrite mem_write_Some by (rewrite ?Hz; done). cbn [mbind option_bind].
  fold (cleared buf). fold (checksum buf).
  rewrite mem_write_Some by (rewrite ?Hcz; done). cbn [mbind option_bind].
  rewrite stamped_eq by done.
  destruct (section_set_ok (HL := HL) _ _ _ _ (stamped buf) sizeof_NVRAM_DATA 0 f Hp)
    as (r & f' & E & _ & _ & Hd); [rewrite Hsz; done|done|done|].
  destruct (section_set_works (HL := HL) (HR := HR) _ _ _ _ (stamped buf) sizeof_NVRAM_DATA 0 f Hp)
    as (f'' & E'); [rewrite Hsz; done|done|done|done|].
  rewrite E' in E. injection E as <- <-. rewrite E'. cbn [mbind option_bind].
  specialize (Hd eq_refl Hsb). rewrite Z.add_0_r in Hd. fold nvram_addr in Hd.
  rewrite <- Hsz, slice_full in Hd.
  exists f''. split; [done|]. split; [done|]. unfold nvram_image. rewrite Hd, <- Hsz.
  apply slice_splice_eq; lia.
Qed.

(** The byte images of a structure before and after the change of one byte. *)
Lemma corrupt_detected im (i : nat) y :
  zlen im = sizeof_NVRAM_DATA -> Forall is_u8 im -> (i < 300)%nat -> is_u8 y -> im !! i <> Some y ->
  u32 (be32_get (slice off_ulCheckSum 4 im)) = checksum im ->
  u32 (be32_get (slice off_ulCheckSum 4 (<[i:=y]> im))) <> checksum (<[i:=y]> im).
Proof.
  intros Hz Hb Hi Hy Hne Hok Hbad.
  assert (Hz' : zlen (<[i:=y]> im) = sizeof_NVRAM_DATA) by (unfold zlen; by rewrite length_insert).
  assert (Hlen : length im = 300%nat) by (unfold zlen, sizeof_NVRAM_DATA in Hz; lia).
  assert (Hb' : Forall is_u8 (<[i:=y]> im)) by (by apply Forall_insert).
  destruct (lookup_lt_is_Some_2 im i) as [x Hx]; [lia|].
  assert (x <> y) by congruence.
  destruct (decide (i < 296)%nat) as [Hlow|Hhigh].
  - unfold checksum in *. rewrite !cleared_eq in * by done.
    replace (slice off_ulCheckSum 4 (<[i:=y]> im)) with (slice off_ulCheckSum 4 im) in Hbad.
    2: { symmetry. apply slice_ext; [by rewrite Hz, Hz'|done|]. change off_ulCheckSum with 296.
         intros j Hj. rewrite list_lookup_insert_ne; [done|lia]. }
    rewrite Hok in Hbad. rewrite take_insert_lt in Hbad by done.
    assert (Hx' : take 296 im !! i = Some x) by (by rewrite lookup_take_lt).
    rewrite insert_take_drop in Hbad by (rewrite length_take; lia).
    rewrite <- (take_drop_middle _ _ _ Hx') in Hbad at 1. rewrite <- !app_assoc in Hbad.
    revert Hbad. apply crc32_one_byte; [|done|done|done].
    rewrite app_comm_cons, app_assoc, (take_drop_middle _ _ _ Hx').
    apply Forall_app. split; [by apply Forall_take|apply be32_bytes].
  - assert (Ec : checksum (<[i:=y]> im) = checksum im).
    { unfold checksum. rewrite !cleared_eq by done. by rewrite take_insert_ge by lia. }
    rewrite Ec, <- Hok in Hbad.
    apply be32_get_inj in Hbad; [|rewrite zlen_slice; rewrite ?Hz, ?Hz'; done..|
      by apply Forall_slice|by apply Forall_slice].
    apply (f_equal (fun l => l !! (i - 296)%nat)) in Hbad.
    rewrite !lookup_slice in Hbad by (done || lia).
    change (Z.to_nat off_ulCheckSum) with 296%nat in Hbad.
    replace (296 + (i - 296))%nat with i in Hbad by lia.
    rewrite list_lookup_insert_eq in Hbad by lia. congruence.
Qed.

(** The text of bytes of the structure. *)
Lemma proc_get_param_ok junk offset n cnt f :
  nvram_placed -> zlen junk = sizeof_NVRAM_DATA -> 0 <= offset -> 0 <= n ->
  offset + n <= sizeof_NVRAM_DATA ->
  u32 (be32_get (slice off_ulCheckSum 4 (nvram_image f))) = checksum (nvram_image f) ->
  let text := hex_text (slice offset n (cleared (nvram_image f))) in
  proc_get_param g fInfo true junk offset n cnt f =
    Some (if zlen text <? cnt then zlen text else 0, text).
Proof.
  intros Hp Hj Ho Hn Hfit Hok text. destruct (nvram_image_ok f Hp) as (Hz & Hb & _).
  destruct (cleared_ok _ Hz Hb) as [Hcz Hcb]. unfold proc_get_param, sizeof_NVRAM_DATA in *.
  rewrite u32_id by (unfold is_u32; lia).
  assert ((offset <? 0) || (300 <? offset + n) = false) as -> by ztest.
  rewrite readNvramData_ok by done. cbn [mbind option_bind]. rewrite Hok, Z.eqb_refl.
  cbn [mbind option_bind]. rewrite Z.eqb_refl, Z.max_r, mem_read_Some by lia. done.
Qed.

(** A stamped structure on the device is valid. *)
Lemma stamped_valid buf f :
  zlen buf = sizeof_NVRAM_DATA -> Forall is_u8 buf -> nvram_image f = stamped buf ->
  u32 (be32_get (slice off_ulCheckSum 4 (nvram_image f))) = checksum (nvram_image f) /\
  cleared (nvram_image f) = cleared buf.
Proof.
  intros Hz Hb ->. destruct (cleared_stamped buf Hz Hb) as [Ec ->].
  split; [|done]. rewrite be32_u32 by (by apply checksum_u32). unfold checksum. by rewrite Ec.
Qed.

Lemma proc_set_param_ok {HR : FlashReliable dev sizes} junk input offset d f :
  nvram_placed -> zlen junk = sizeof_NVRAM_DATA -> zlen input = 32 -> 0 <= offset ->
  offset + zlen d <= off_ulCheckSum -> 3 * zlen d + 1 <= 32 -> Forall is_u8 d ->
  u32 (be32_get (slice off_ulCheckSum 4 (nvram_image f))) = checksum (nvram_image f) ->
  exists f', proc_set_param g fInfo true true true junk input offset (zlen d) (hex_text d)
      (zlen (hex_text d)) f = Some (zlen (hex_text d), f') /\
    nvram_image f' = stamped (splice offset d (cleared (nvram_image f))).
Proof.
  intros Hp Hj Hi Ho Hfit Hd Hbytes Hok. destruct (nvram_image_ok f Hp) as (Hz & Hb & _).
  destruct (cleared_ok _ Hz Hb) as [Hcz Hcb]. set (cl := cleared (nvram_image f)) in *.
  pose proof (zlen_hex_text d) as Ht. pose proof (zlen_nonneg d).
  change off_ulCheckSum with 296 in Hfit. unfold proc_set_param, sizeof_NVRAM_DATA in *.
  rewrite !u32_id by (unfold is_u32; lia).
  assert ((offset <? 0) || (300 <? offset + zlen d) = false) as -> by ztest.
  assert ((32 <? zlen (hex_text d)) || negb true = false) as -> by ztest.
  rewrite mem_read_Some, slice_full by lia. cbn [mbind option_bind].
  rewrite <- (take_drop (length (hex_text d)) input).
  rewrite mem_write_head by (rewrite zlen_take; unfold zlen in *; lia). cbn [mbind option_bind].
  assert (Z.to_nat (zlen (hex_text d)) = length (hex_text d)) as -> by (unfold zlen; lia).
  destruct (strip_loop_spec (hex_text d) [] (drop (length (hex_text d)) input)) as [post' Es].
  cbn [app] in Es. change (zlen (@nil Z)) with 0 in Es. rewrite Es. cbn [mbind option_bind].
  rewrite readNvramData_ok by done. fold cl. cbn [mbind option_bind]. rewrite Hok, Z.eqb_refl.
  cbn [mbind option_bind]. rewrite Z.eqb_refl, filter_hex_text by done.
  rewrite str_to_num_spec by (rewrite ?zlen_drop; done || lia). cbn [mbind option_bind].
  rewrite drop_drop. fold (splice offset d cl).
  destruct (writeNvramData_ok (HR := HR) (splice offset d cl) f Hp) as (f' & -> & _ & Him).
  - rewrite zlen_splice by lia. exact Hcz.
  - by apply Forall_splice.
  - cbn [mbind option_bind]. by exists f'.
Qed.

(** The NVRAM structure is stored with its checksum and read back.  On a
    device that works [writeNvramData] stores the structure, [readNvramData]
    accepts it and returns its bytes (with a zero checksum field), and no byte
    of the device outside the structure changes. *)
Theorem nvram_write_read {HR : FlashReliable dev sizes} buf junk f :
  nvram_placed -> zlen buf = sizeof_NVRAM_DATA -> Forall is_u8 buf -> zlen junk = sizeof_NVRAM_DATA ->
  exists buf' f', writeNvramData g fInfo true buf f = Some (buf', f') /\
    readNvramData g fInfo true junk f' = Some (0, cleared buf) /\
    same_outside nvram_addr sizeof_NVRAM_DATA (img f) (img f').
Proof.
  intros Hp Hz Hb Hj. destruct (nvram_image_ok f Hp) as (_ & _ & Ha0 & Ha1).
  destruct (writeNvramData_ok (HR := HR) buf f Hp Hz Hb) as (f' & E & Ei & Him).
  destruct (stamped_ok buf Hz Hb) as [Hsz _]. exists (stamped buf), f'. split; [done|].
  destruct (stamped_valid buf f' Hz Hb Him) as [Hv Hc]. split.
  - by rewrite readNvramData_ok, Hv, Z.eqb_refl, Hc.
  - rewrite Ei. apply same_outside_splice; rewrite ?Hsz; lia.
Qed.

(** C33: a damaged NVRAM structure is noticed.  When [readNvramData] accepts the
    structure, it rejects it after any change of a single byte of it, the
    checksum included. *)
Theorem nvram_detects_byte junk f f' d (i : nat) y :
  nvram_placed -> zlen junk = sizeof_NVRAM_DATA -> (i < 300)%nat -> is_u8 y ->
  readNvramData g fInfo true junk f = Some (0, d) ->
  nvram_image f' = <[i:=y]> (nvram_image f) -> nvram_image f' <> nvram_image f ->
  readNvramData g fInfo true junk f' = Some (-1, cleared (nvram_image f')).
Proof.
  intros Hp Hj Hi Hy Hr Hf' Hne. destruct (nvram_image_ok f Hp) as (Hz & Hb & _).
  rewrite readNvramData_ok in Hr |- * by done.
  destruct (Z.eqb_spec (u32 (be32_get (slice off_ulCheckSum 4 (nvram_image f))))
              (checksum (nvram_image f))) as [Hok|]; [|discriminate].
  rewrite Hf' in Hne |- *.
  assert (nvram_image f !! i <> Some y) as Hx by (intros E; apply Hne; by apply list_insert_id).
  pose proof (corrupt_detected _ i y Hz Hb Hi Hy Hx Hok) as Hbad.
  by rewrite (proj2 (Z.eqb_neq _ _) Hbad).
Qed.

(** C34: the procfs parameter.  Writing the text of some bytes (two digits and a
    space each, at most ten bytes) to a parameter of a valid NVRAM structure
    returns the length of the text, and reading the parameter then gives the
    same text: parsing inverts printing, through the flash and the checksum. *)
Theorem proc_param_roundtrip {HR : FlashReliable dev sizes} junk input offset d cnt f :
  nvram_placed -> zlen junk = sizeof_NVRAM_DATA -> zlen input = 32 -> 0 <= offset ->
  offset + zlen d <= off_ulCheckSum -> 3 * zlen d + 1 <= 32 -> Forall is_u8 d ->
  (exists b, readNvramData g fInfo true junk f = Some (0, b)) -> 3 * zlen d + 1 < cnt ->
  exists f', proc_set_param g fInfo true true true junk input offset (zlen d) (hex_text d)
      (zlen (hex_text d)) f = Some (zlen (hex_text d), f') /\
    proc_get_param g fInfo true junk offset (zlen d) cnt f' = Some (zlen (hex_text d), hex_text d).
Proof.
  intros Hp Hj Hi Ho Hfit Hd Hb [b Hr] Hcnt. destruct (nvram_image_ok f Hp) as (Hz & Hby & _).
  destruct (cleared_ok _ Hz Hby) as [Hcz Hcb]. pose proof (zlen_nonneg d).
  rewrite readNvramData_ok in Hr by done.
  destruct (Z.eqb_spec (u32 (be32_get (slice off_ulCheckSum 4 (nvram_image f))))
              (checksum (nvram_image f))) as [Hok|]; [|discriminate].
  destruct (proc_set_param_ok (HR := HR) junk input offset d f) as (f' & E & Him); [done..|].
  exists f'. split; [done|]. change off_ulCheckSum with 296 in Hfit.
  set (b' := splice offset d (cleared (nvram_image f))) in *.
  assert (Hb'z : zlen b' = sizeof_NVRAM_DATA)
    by (unfold b'; rewrite zlen_splice; [done|lia|rewrite Hcz; unfold sizeof_NVRAM_DATA; lia]).
  destruct (stamped_valid b' f') as [Hv Hc]; [done|by apply Forall_splice|done|].
  rewrite proc_get_param_ok by (done || unfold sizeof_NVRAM_DATA; lia). rewrite Hc.
  assert (slice offset (zlen d) (cleared b') = d) as ->.
  { unfold cleared. rewrite slice_splice_before;
      [|lia|lia|exact Hfit|rewrite Hb'z; done].
    unfold b'. apply slice_splice_eq; [lia|rewrite Hcz; unfold sizeof_NVRAM_DATA; lia]. }
  rewrite zlen_hex_text. by destruct (Z.ltb_spec (3 * zlen d + 1) cnt); [|lia].
Qed.
End Flash.

(** C32: the table-driven checksum is CRC-32.  [getCrc32] computes over any bytes
    and from any start value what the bitwise definition with the polynomial
    0xEDB88320 computes; in particular all 256 entries of the table are right. *)
Theorem getCrc32_bitwise data crc :
  Forall is_u8 data -> getCrc32 data crc = crc32_bitwise data crc.
Proof. apply getCrc32_bits. Qed.

(** ** Witnesses *)

(** The check value of CRC-32: the complement of the result for "123456789". *)
Lemma getCrc32_bitwise_witness :
  getCrc32 (bytes_of_string "123456789") CRC32_INIT_VALUE =
    crc32_bitwise (bytes_of_string "123456789") CRC32_INIT_VALUE /\
  Z.lxor (getCrc32 (bytes_of_string "123456789") CRC32_INIT_VALUE) 0xffffffff = 0xCBF43926.
Proof.
  split; [|by vm_compute]. apply getCrc32_bitwise. by_decide.
Defined.

Abbreviation nv_dev := (Nor.dev pad_sizes).
Definition nv_blank : list Z := replicate 300 0.
Definition nv_flash : list Z := replicate 0x580 255 ++ stamped nv_blank.
Definition nv_damaged : list Z := replicate 0x580 255 ++ <[5%nat := 1]> (stamped nv_blank).

Lemma nv_placed : nvram_placed (sizes := pad_sizes) pad_info.
Proof. unfold nvram_placed, placed, span. vm_compute. split_and!; done. Qed.

Lemma nvram_write_read_witness :
  exists buf' f', writeNvramData (Some nv_dev) pad_info true nv_blank [] = Some (buf', f') /\
    readNvramData (Some nv_dev) pad_info true nv_blank f' = Some (0, cleared nv_blank).
Proof.
  destruct (nvram_write_read (HL := Nor.laws pad_sizes pad_sizes_ok) pad_info
    (HR := Nor.reliable pad_sizes pad_sizes_ok) nv_blank nv_blank []) as (buf' & f' & E & Hr & _).
  - exact nv_placed.
  - done.
  - by_decide.
  - done.
  - exists buf', f'. split; [exact E|exact Hr].
Defined.

Lemma nvram_detects_byte_witness :
  exists d, readNvramData (Some nv_dev) pad_info true nv_blank nv_damaged = Some (-1, d).
Proof.
  eexists. apply (nvram_detects_byte (HL := Nor.laws pad_sizes pad_sizes_ok) pad_info
                    nv_blank nv_flash nv_damaged nv_blank 5 1).
  - exact nv_placed.
  - done.
  - lia.
  - done.
  - vm_compute. reflexivity.
  - vm_compute. reflexivity.
  - vm_compute. discriminate.
Defined.

(** The parameter [BaseMacAddr]. *)
Lemma proc_param_roundtrip_witness :
  exists f', proc_set_param (Some nv_dev) pad_info true true true nv_blank (replicate 32 0)
      off_ucaBaseMacAddr 6 (hex_text [0; 0x10; 0x18; 0xaa; 0xbb; 0xcc]) 19 nv_flash = Some (19, f') /\
    proc_get_param (Some nv_dev) pad_info true nv_blank off_ucaBaseMacAddr 6 4096 f' =
      Some (19, hex_text [0; 0x10; 0x18; 0xaa; 0xbb; 0xcc]).
Proof.
  apply (proc_param_roundtrip (HL := Nor.laws pad_sizes pad_sizes_ok) pad_info
    (HR := Nor.reliable pad_sizes pad_sizes_ok) nv_blank (replicate 32 0) off_ucaBaseMacAddr
    [0; 0x10; 0x18; 0xaa; 0xbb; 0xcc] 4096 nv_flash).
  - exact nv_placed.
  - done.
  - done.
  - done.
  - done.
  - done.
  - by_decide.
  - exists nv_blank. vm_compute. reflexivity.
  - done.
Defined.
