(* ===== verification/Decimal.v ===== *)
(** * Decimal numbers in text

    [simple_strtoul(cp, NULL, 10)] of [kernel/linux/lib/vsprintf.c] on a buffer of
    characters, and the decimal conversions [%lu] and [%d] of [sprintf]: what the image
    tags use for addresses, lengths and sequence numbers. *)

From S2P Require Import Prelude.

Definition isdigit (c : Z) : bool := (48 <=? c) && (c <=? 57).

(** The loop of [simple_strtoul] with base 10: letters have values from 10 on and end
    it.  [None] reads past the end of the buffer. *)
Fixpoint strtoul_loop (cp : list Z) (result : Z) : option Z :=
  match cp with
  | [] => None
  | c :: cp' => if isdigit c then strtoul_loop cp' (u32 (result * 10 + (c - 48))) else Some result
  end.

Definition simple_strtoul (cp : list Z) : option Z := strtoul_loop cp 0.

(** The digits of [n], the first [fuel] from the right. *)
Fixpoint dec_digits (fuel : nat) (n : Z) : list Z :=
  match fuel with
  | O => []
  | S fuel' => if n <? 10 then [48 + n] else dec_digits fuel' (n / 10) ++ [48 + n mod 10]
  end.

(** [%lu] of an unsigned 32-bit number: at most ten digits. *)
Definition print_lu (n : Z) : list Z := dec_digits 10 n.

(** [%d]. *)
Definition print_d (n : Z) : list Z := if n <? 0 then 45 :: print_lu (- n) else print_lu n.

(** ** Reading what was printed *)

Lemma isdigit_digit d : 0 <= d < 10 -> isdigit (48 + d) = true.
Proof. intros. unfold isdigit. by ztest. Qed.

Lemma strtoul_digit d cp r :
  0 <= d < 10 -> strtoul_loop ((48 + d) :: cp) r = strtoul_loop cp (u32 (r * 10 + d)).
Proof. intros Hd. cbn. rewrite isdigit_digit by done. do 2 f_equal. lia. Qed.

Lemma strtoul_digits fuel : forall n cp,
  0 <= n < 2 ^ 32 -> n < 10 ^ Z.of_nat fuel ->
  strtoul_loop (dec_digits fuel n ++ cp) 0 = strtoul_loop cp n.
Proof.
  induction fuel as [|fuel IH]; intros n cp Hn Hf; [cbn in Hf; assert (n = 0) as -> by lia; done|].
  cbn [dec_digits]. destruct (Z.ltb_spec n 10).
  - cbn [app]. rewrite strtoul_digit by lia. f_equal. apply u32_id. unfold is_u32. lia.
  - pose proof (Z.div_mod n 10). pose proof (Z.mod_pos_bound n 10).
    assert (n / 10 < 10 ^ Z.of_nat fuel).
    { apply Z.div_lt_upper_bound; [lia|]. rewrite Nat2Z.inj_succ, Z.pow_succ_r in Hf by lia. lia. }
    assert (0 <= n / 10 < 2 ^ 32) by (split; [apply Z.div_pos; lia|apply Z.div_lt_upper_bound; lia]).
    rewrite <- app_assoc, IH by done. cbn [app]. rewrite strtoul_digit by lia. f_equal.
    rewrite u32_id by (unfold is_u32; lia). lia.
Qed.

Lemma strtoul_print n c cp :
  0 <= n < 2 ^ 32 -> isdigit c = false -> simple_strtoul (print_lu n ++ c :: cp) = Some n.
Proof.
  intros Hn Hc. unfold simple_strtoul, print_lu. rewrite strtoul_digits by (cbn; lia).
  cbn. by rewrite Hc.
Qed.

Lemma dec_digits_length fuel n : (length (dec_digits fuel n) <= fuel)%nat.
Proof.
  revert n. induction fuel as [|fuel IH]; intros n; cbn [dec_digits]; [done|].
  destruct (n <? 10); [cbn; lia|]. rewrite length_app. cbn. specialize (IH (n / 10)). lia.
Qed.

Lemma dec_digits_bytes fuel : forall n, 0 <= n -> Forall is_u8 (dec_digits fuel n).
Proof.
  induction fuel as [|fuel IH]; intros n Hn; cbn [dec_digits]; [done|].
  destruct (Z.ltb_spec n 10); [by repeat constructor; unfold is_u8; lia|].
  apply Forall_app. split; [apply IH, Z.div_pos; lia|].
  pose proof (Z.mod_pos_bound n 10). repeat constructor; unfold is_u8; lia.
Qed.

(** The result depends on the characters up to the first that is no digit. *)
Lemma strtoul_prefix cp1 cp2 cp3 r v :
  strtoul_loop (cp1 ++ cp2) r = Some v -> Exists (fun c => isdigit c = false) cp1 ->
  strtoul_loop (cp1 ++ cp3) r = Some v.
Proof.
  intros H E. revert r H. induction E as [c l Hc|c l _ IH]; intros r; cbn; [by rewrite Hc|].
  destruct (isdigit c); [apply IH|done].
Qed.

(** ** Numbers of one byte *)

Definition octets : list Z := map Z.of_nat (seq 0 256).

Lemma octets_all (P : Z -> bool) : forallb P octets = true -> forall b, is_u8 b -> P b = true.
Proof.
  intros H b Hb. rewrite forallb_forall in H. apply H. apply in_map_iff. exists (Z.to_nat b).
  unfold is_u8 in Hb. split; [lia|]. apply in_seq. lia.
Qed.
