(* ===== verification/ImageTag.v ===== *)
(** * Image tags and the firmware update

    [bcmTag.h] and [board.c]: the tag in front of an image, the two image partitions
    ([getTagFromPartition], [getPartitionFromTag], [getBootImageTag],
    [kerSysImageTagGet]), the sequence numbers and [flashFsKernelImage].  A tag is its
    256 bytes.  The two tag buffers of [getTagFromPartition] are static and refilled
    from the flash by every call; between two calls whose results are used together
    the flash does not change, so tags are values here. *)

From S2P Require Import Prelude SectorMap FlashApi FlashStore ScratchPad ImageSet Nvram Decimal.

(** ** The tag *)

Definition TAG_LEN : Z := 256.
Definition TOKEN_LEN : Z := 20.
Definition IMAGE_LEN : Z := 10.
Definition ADDRESS_LEN : Z := 12.
Definition off_signiture_1 : Z := 4.
Definition off_rootfsAddress : Z := 94.
Definition off_rootfsLen : Z := off_rootfsAddress + ADDRESS_LEN.
Definition off_kernelAddress : Z := off_rootfsLen + IMAGE_LEN.
Definition off_kernelLen : Z := off_kernelAddress + ADDRESS_LEN.
Definition off_imageSequence : Z := off_kernelLen + IMAGE_LEN.
Definition off_tagValidationToken : Z := TAG_LEN - TOKEN_LEN.

Definition IMAGE_BASE : Z := 0xBFC00000.
Definition DARE_FLASH_BLOCK_SIZE : Z := 64 * ONEK.
Definition FLASH_RESERVED_AT_END : Z := DARE_FLASH_BLOCK_SIZE * 2.
Definition BOOT_LATEST_IMAGE : Z := 48.
Definition off_szBootline : Z := 4.

(** [simple_strtoul(pTag->field, NULL, 10)]: nothing stops at the end of the field. *)
Definition tag_num (tag : list Z) (off : Z) : option Z := simple_strtoul (drop (Z.to_nat off) tag).

(** [sprintf(pTag->field, "%lu", v)] and [sprintf(field, "%d", v)]. *)
Definition put_lu (tag : list Z) (off v : Z) : option (list Z) :=
  mem_write tag off (print_lu (u32 v) ++ [0]).
Definition put_d (tag : list Z) (off v : Z) : option (list Z) :=
  mem_write tag off (print_d (s32 v) ++ [0]).

(** The checksum over the tag without its validation token, and its place. *)
Definition tag_crc (tag : list Z) : option Z :=
  d ← mem_read tag 0 (TAG_LEN - TOKEN_LEN); Some (getCrc32 d CRC32_INIT_VALUE).

Definition stamp_tag (tag : list Z) : option (list Z) :=
  crc ← tag_crc tag; mem_write tag off_tagValidationToken (be32 crc).

(** ** The bootline *)

(** [for (p = szBootline; p[2] != '\0'; p++)] up to the first [p=]: the character
    behind it; [Some None] is the end of the string. *)
Fixpoint boot_scan (p : list Z) : option (option Z) :=
  match p with
  | [] => None
  | a :: p' =>
      match p' with
      | b :: c :: _ =>
          if c =? 0 then Some None
          else if (a =? 112) && (b =? 61) then Some (Some c)
          else boot_scan p'
      | _ => None
      end
  end.

(** The loop at the end of [flashFsKernelImage]: the first [p=] that does not ask for
    the latest image is changed.  [Some None]: there is none. *)
Fixpoint boot_patch (p : list Z) : option (option (list Z)) :=
  match p with
  | [] => None
  | a :: p' =>
      match p' with
      | b :: c :: r =>
          if c =? 0 then Some None
          else if (a =? 112) && (b =? 61) && negb (c =? BOOT_LATEST_IMAGE) then
            Some (Some (a :: b :: BOOT_LATEST_IMAGE :: r))
          else option_map (cons a) <$> boot_patch p'
      | _ => None
      end
  end.

Section Tags.
Context {F : Type} (g_flash_info : option (flash_device_info_t F)) (FLASH_BASE : Z).
Context (alloc : bool) (fInfo : FLASH_ADDR_INFO).

(** ** Partitions *)

(** The block of an image's tag; 0 for other numbers. *)
Definition tag_blk (imageNumber : Z) (f : F) : option Z :=
  pBase ← flash_get_memptr g_flash_info 0 f;
  if imageNumber =? 1 then flash_get_blk g_flash_info (pBase + flash_rootfs_start_offset fInfo) f
  else if imageNumber =? 2 then
    flash_get_blk g_flash_info (pBase + Z.quot (flash_get_total_size g_flash_info f) 2) f
  else Some 0.

(** [Some None] is a null pointer. *)
Definition getTagFromPartition (imageNumber : Z) (f : F) : option (option (list Z)) :=
  blk ← tag_blk imageNumber f;
  if blk =? 0 then Some None
  else
    '(_, bytes) ← flash_read_buf g_flash_info (u16 blk) 0 TAG_LEN f;
    tag ← mem_write (replicate (Z.to_nat TAG_LEN) 0) 0 bytes;
    crc ← tag_crc tag;
    token ← mem_read tag off_tagValidationToken 4;
    Some (if crc =? u32 (be32_get token) then Some tag else None).

(** [(pTag) ? simple_strtoul(pTag->imageSequence, NULL, 10) : -1], an [int]. *)
Definition sequence_of (pTag : option (list Z)) : option Z :=
  match pTag with
  | None => Some (-1)
  | Some tag => s32 <$> tag_num tag off_imageSequence
  end.

Definition is_Some_b {A} (o : option A) : bool := match o with Some _ => true | None => false end.

Definition getPartitionFromTag (pTag : option (list Z)) (f : F) : option Z :=
  match pTag with
  | None => Some 0
  | Some _ =>
      pTag1 ← getTagFromPartition 1 f;
      pTag2 ← getTagFromPartition 2 f;
      sequence ← sequence_of pTag;
      sequence1 ← sequence_of pTag1;
      sequence2 ← sequence_of pTag2;
      Some (if is_Some_b pTag1 && (sequence =? sequence1) then 1
            else if is_Some_b pTag2 && (sequence =? sequence2) then 2 else 0)
  end.

(** [nvram] is what the variable [nvramData] holds before it is read. *)
Definition getBootImageTag (nvram : list Z) (f : F) : option (option (list Z)) :=
  pTag1 ← getTagFromPartition 1 f;
  pTag2 ← getTagFromPartition 2 f;
  match pTag1, pTag2 with
  | Some _, Some _ =>
      sequence1 ← sequence_of pTag1;
      sequence2 ← sequence_of pTag2;
      '(_, nvramData) ← readNvramData g_flash_info fInfo alloc nvram f;
      found ← boot_scan (drop (Z.to_nat off_szBootline) nvramData);
      let bootPartition := default BOOT_LATEST_IMAGE found in
      Some (if bootPartition =? BOOT_LATEST_IMAGE then
              if sequence1 <? sequence2 then pTag2 else pTag1
            else if sequence2 <? sequence1 then pTag2 else pTag1)
  | _, Some _ => Some pTag2
  | _, None => Some pTag1
  end.

Definition kerSysImageTagGet (nvram : list Z) (f : F) : option (option (list Z)) :=
  getBootImageTag nvram f.

(** One more than the larger of the two; the comparison is unsigned. *)
Definition UpdateImageSequenceNumber (tag : list Z) (f : F) : option (list Z) :=
  pTag1 ← getTagFromPartition 1 f;
  seq1 ← match pTag1 with Some t => s32 <$> tag_num t off_imageSequence | None => Some 0 end;
  pTag2 ← getTagFromPartition 2 f;
  newImageSequence ←
    match pTag2 with
    | Some t => n ← tag_num t off_imageSequence; Some (if u32 seq1 <? n then s32 n else seq1)
    | None => Some seq1
    end;
  put_d tag off_imageSequence (newImageSequence + 1).

(** ** The update *)

(** [BOOT_OFFSET]; zero on the 6338, whose flash is at [IMAGE_BASE]. *)
Definition BOOT_OFFSET : Z := FLASH_BASE - IMAGE_BASE.

(** The addresses of an image built for a smaller boot loader are moved up. *)
Definition fix_addresses (tag : list Z) (rootfsAddr kernelAddr : Z)
    : option (list Z * Z * Z) :=
  let rootfsOffset := u32 (rootfsAddr - IMAGE_BASE - TAG_LEN) in
  let start := flash_rootfs_start_offset fInfo in
  if rootfsOffset <? start then
    let rootfsAddr := s32 (rootfsAddr + (start - rootfsOffset)) in
    let kernelAddr := s32 (kernelAddr + (start - rootfsOffset)) in
    tag ← put_lu tag off_rootfsAddress rootfsAddr;
    tag ← put_lu tag off_kernelAddress kernelAddr;
    tag ← stamp_tag tag;
    Some (tag, rootfsAddr, kernelAddr)
  else Some (tag, rootfsAddr, kernelAddr).

(** Lengths of root file system and kernel of a tag. *)
Definition image_size (tag : list Z) : option Z :=
  rootfs ← tag_num tag off_rootfsLen;
  kernel ← tag_num tag off_kernelLen;
  Some (u32 (rootfs + kernel)).

(** The tag and addresses of an image for the second partition. *)
Definition move_to_second (tag : list Z) (rootfsAddr kernelAddr baseAddr totalSize : Z)
    : option (list Z * Z * Z) :=
  let offset := s32 (totalSize / 2 + TAG_LEN) in
  tag ← put_lu tag off_kernelAddress (IMAGE_BASE + offset + (kernelAddr - rootfsAddr));
  tag ← put_lu tag off_rootfsAddress (IMAGE_BASE + offset);
  Some (tag, s32 (baseAddr + offset), s32 (baseAddr + offset + (kernelAddr - rootfsAddr))).

(** The loop over the bootline at the end of [flashFsKernelImage]. *)
Definition boot_latest (nvramData : list Z) (f : F) : option F :=
  patched ← boot_patch (drop (Z.to_nat off_szBootline) nvramData);
  match patched with
  | None => Some f
  | Some p =>
      nvramData ← mem_write nvramData off_szBootline p;
      '(_, f) ← writeNvramData g_flash_info fInfo alloc nvramData f;
      Some f
  end.

(** The second half of [flashFsKernelImage]: the tag is completed, the image written
    and the bootline changed. *)
Definition write_new_image (copied : bool) (nvramData image : list Z) (rootfsAddr newImgSize : Z) (f : F)
    : option (outcome F * list Z) :=
  image ← UpdateImageSequenceNumber image f;
  image ← stamp_tag image;
  r ← kerSysBcmImageSet g_flash_info FLASH_BASE alloc copied fInfo (rootfsAddr - TAG_LEN)
        image (s32 (TAG_LEN + newImgSize)) f;
  match r with
  | BoardReset f => Some (BoardReset f, image)
  | Returns status f =>
      if negb (status =? 0) then Some (Returns status f, image)
      else f ← boot_latest nvramData f; Some (Returns status f, image)
  end.

(** [imagePtr] is the image in the caller's memory, its tag in front; the result holds
    it as the function leaves it. *)
Definition flashFsKernelImage (copied : bool) (nvram : list Z) (imagePtr : list Z) (f : F)
    : option (outcome F * list Z) :=
  rootfsAddr ← tag_num imagePtr off_rootfsAddress;
  kernelAddr ← tag_num imagePtr off_kernelAddress;
  baseAddr ← flash_get_memptr g_flash_info 0 f;
  let totalSize := u32 (flash_get_total_size g_flash_info f) in
  newImgSize ← image_size imagePtr;
  pCurTag ← getBootImageTag nvram f;
  '(_, nvramData) ← readNvramData g_flash_info fInfo alloc nvram f;
  '(image, rootfsAddr, kernelAddr) ← fix_addresses imagePtr (s32 rootfsAddr) (s32 kernelAddr);
  let rootfsAddr := s32 (rootfsAddr + BOOT_OFFSET) in
  let kernelAddr := s32 (kernelAddr + BOOT_OFFSET) in
  let start := flash_rootfs_start_offset fInfo in
  let availableSizeOneImg := u32 (totalSize - u32 (rootfsAddr - baseAddr) - FLASH_RESERVED_AT_END) in
  let reserveForTwoImages := if FLASH_RESERVED_AT_END <? start then start else FLASH_RESERVED_AT_END in
  let availableSizeTwoImgs := u32 (totalSize / 2 - reserveForTwoImages) in
  curImgSize ← match pCurTag with Some t => image_size t | None => Some 0 end;
  if availableSizeOneImg <? newImgSize then Some (Returns (-1) f, image)
  else
    partition ← (if (curImgSize <=? availableSizeTwoImgs) && (newImgSize <=? availableSizeTwoImgs)
                 then getPartitionFromTag pCurTag f else Some 0);
    '(image, rootfsAddr, kernelAddr) ←
      (if partition =? 1 then move_to_second image rootfsAddr kernelAddr baseAddr totalSize
       else Some (image, rootfsAddr, kernelAddr));
    write_new_image copied nvramData image rootfsAddr newImgSize f.
End Tags.

(** ** Tags as byte strings *)

Lemma tag_crc_eq tag :
  TAG_LEN <= zlen tag -> tag_crc tag = Some (getCrc32 (slice 0 236 tag) CRC32_INIT_VALUE).
Proof. intros H. unfold tag_crc, TAG_LEN, TOKEN_LEN in *. by rewrite mem_read_Some by lia. Qed.

(** The tag, if its checksum is right. *)
Definition valid_tag (tag : list Z) : option (list Z) :=
  if getCrc32 (slice 0 236 tag) CRC32_INIT_VALUE =? u32 (be32_get (slice 236 4 tag))
  then Some tag else None.

Lemma crc_u32 d : Forall is_u8 d -> is_u32 (getCrc32 d CRC32_INIT_VALUE).
Proof. intros H. rewrite getCrc32_bits by done. by apply crc32_u32. Qed.

(** Numbers in a tag's text. *)
Lemma tag_num_at tag off n :
  0 <= n < 2 ^ 32 -> slice off (zlen (print_lu n) + 1) tag = print_lu n ++ [0] ->
  tag_num tag off = Some n.
Proof.
  intros Hn H. unfold tag_num, slice in *.
  rewrite <- (take_drop (Z.to_nat (zlen (print_lu n) + 1)) (drop (Z.to_nat off) tag)), H.
  rewrite <- app_assoc. cbn [app]. by apply strtoul_print.
Qed.

(** Two images that agree except where an update writes: the address fields, the
    sequence number and the validation token of the tag. *)
Definition updated (image image' : list Z) : Prop :=
  zlen image' = zlen image /\ Forall is_u8 image' /\
  forall j : nat, ~ (94 <= Z.of_nat j < 105) -> ~ (116 <= Z.of_nat j < 127) ->
    ~ (138 <= Z.of_nat j < 149) -> ~ (236 <= Z.of_nat j < 240) -> image' !! j = image !! j.

Lemma updated_refl image : Forall is_u8 image -> updated image image.
Proof. done. Qed.

Lemma updated_trans i1 i2 i3 : updated i1 i2 -> updated i2 i3 -> updated i1 i3.
Proof.
  intros (L1 & _ & H1) (L2 & B2 & H2). split; [congruence|]. split; [done|].
  intros j A B D E. by rewrite H2, H1.
Qed.

Lemma print_lu_zlen n : 0 <= zlen (print_lu n) <= 10.
Proof. pose proof (dec_digits_length 10 n). unfold print_lu, zlen. lia. Qed.

Lemma put_num_ok tag off n :
  off = off_rootfsAddress \/ off = off_kernelAddress \/ off = off_imageSequence ->
  0 <= n < 2 ^ 32 -> TAG_LEN <= zlen tag -> Forall is_u8 tag ->
  exists tag', mem_write tag off (print_lu n ++ [0]) = Some tag' /\ updated tag tag' /\
    slice off (zlen (print_lu n) + 1) tag' = print_lu n ++ [0].
Proof.
  intros Ho Hn Hl Hb. pose proof (print_lu_zlen n) as Hz.
  assert (Hz1 : zlen (print_lu n ++ [0]) = zlen (print_lu n) + 1) by (by rewrite zlen_app).
  assert (Hr : 94 <= off /\ off + 11 <= 149 /\ (off = 94 \/ off = 116 \/ off = 138)).
  { unfold off_imageSequence, off_kernelLen, off_kernelAddress, off_rootfsLen, off_rootfsAddress,
      ADDRESS_LEN, IMAGE_LEN in Ho. lia. }
  unfold TAG_LEN in Hl. rewrite mem_write_Some by lia. eexists. split; [done|]. split.
  - split; [apply zlen_splice; lia|]. split.
    + apply Forall_splice; [|done]. apply Forall_app. split; [apply dec_digits_bytes; lia|].
      by apply Forall_singleton.
    + intros j A B D E. apply lookup_splice_out; lia.
  - rewrite <- Hz1. apply slice_splice_eq; lia.
Qed.

Lemma put_lu_ok tag off v :
  off = off_rootfsAddress \/ off = off_kernelAddress -> TAG_LEN <= zlen tag -> Forall is_u8 tag ->
  exists tag', put_lu tag off v = Some tag' /\ updated tag tag'.
Proof.
  intros Ho Hl Hb. destruct (put_num_ok tag off (u32 v)) as (tag' & E & Hu & _);
    [tauto|apply u32_range|done|done|]. eauto.
Qed.

Lemma stamp_updated image :
  TAG_LEN <= zlen image -> Forall is_u8 image ->
  exists image', stamp_tag image = Some image' /\ updated image image' /\
    slice 0 236 image' = slice 0 236 image /\
    valid_tag (slice 0 TAG_LEN image') = Some (slice 0 TAG_LEN image').
Proof.
  intros Hl Hb. unfold stamp_tag. rewrite tag_crc_eq by done. cbn [mbind option_bind].
  set (crc := getCrc32 _ _). assert (Hc : is_u32 crc) by (apply crc_u32; by apply Forall_slice).
  destruct (be32_bytes crc) as [Hb4 Hz4]. unfold off_tagValidationToken, TAG_LEN, TOKEN_LEN in *.
  change (256 - 20) with 236. rewrite mem_write_Some by lia.
  exists (splice 236 (be32 crc) image). split; [done|]. split.
  { split; [apply zlen_splice; lia|]. split; [by apply Forall_splice|].
    intros j A B D E. apply lookup_splice_out; lia. }
  split; [apply slice_splice_before; lia|].
  unfold valid_tag. rewrite !slice_slice by lia. rewrite Z.add_0_l, slice_splice_before by lia.
  fold crc. rewrite <- Hz4, Z.add_0_l, slice_splice_eq, be32_u32 by (done || lia). by rewrite Z.eqb_refl.
Qed.

(** The sequence number and the checksum of a new tag. *)
Lemma new_tag_ok image q :
  TAG_LEN <= zlen image -> Forall is_u8 image -> 0 <= q < 2 ^ 31 ->
  exists image1 image2, put_d image off_imageSequence q = Some image1 /\
    stamp_tag image1 = Some image2 /\ updated image image2 /\
    valid_tag (slice 0 TAG_LEN image2) = Some (slice 0 TAG_LEN image2) /\
    tag_num (slice 0 TAG_LEN image2) off_imageSequence = Some q.
Proof.
  intros Hl Hb Hq. unfold put_d, print_d. rewrite s32_id by (unfold is_s32; lia).
  destruct (Z.ltb_spec q 0); [lia|].
  destruct (put_num_ok image off_imageSequence q) as (i1 & -> & U1 & N1); [auto|lia|done|done|].
  destruct (stamp_updated i1) as (i2 & E2 & U2 & S2 & V2); [by destruct U1 as [-> _]|apply U1|].
  exists i1, i2. split; [done|]. split; [done|]. split; [by eapply updated_trans|]. split; [done|].
  apply tag_num_at; [lia|]. rewrite <- N1. pose proof (print_lu_zlen q).
  unfold off_imageSequence, off_kernelLen, off_kernelAddress, off_rootfsLen, off_rootfsAddress,
    ADDRESS_LEN, IMAGE_LEN, TAG_LEN in *.
  rewrite slice_slice by lia. change (0 + (94 + 12 + 10 + 12 + 10)) with 138. change (94 + 12 + 10 + 12 + 10) with 138.
  rewrite <- (Z.add_0_l 138), <- (slice_slice 0 236 138 _ i2), S2, slice_slice by lia. done.
Qed.

(** ** The bootline *)

Definition bootline_ok (p : list Z) : Prop := exists j : nat, p !! S (S j) = Some 0.

Lemma boot_scan_cons a b c r :
  boot_scan (a :: b :: c :: r) =
    if c =? 0 then Some None else if (a =? 112) && (b =? 61) then Some (Some c)
    else boot_scan (b :: c :: r).
Proof. done. Qed.

Lemma boot_patch_cons a b c r :
  boot_patch (a :: b :: c :: r) =
    if c =? 0 then Some None
    else if (a =? 112) && (b =? 61) && negb (c =? BOOT_LATEST_IMAGE) then
      Some (Some (a :: b :: BOOT_LATEST_IMAGE :: r))
    else option_map (cons a) <$> boot_patch (b :: c :: r).
Proof. done. Qed.

Lemma boot_scan_total p : bootline_ok p -> exists x, boot_scan p = Some x.
Proof.
  intros [j Hj]. revert j Hj. induction p as [|a p IH]; intros j Hj; [done|].
  destruct p as [|b [|c r]]; [done|by destruct j|]. rewrite boot_scan_cons.
  destruct (Z.eqb_spec c 0); [eauto|]. destruct (_ && _); [eauto|].
  destruct j as [|j]; [cbn in Hj; congruence|]. by apply (IH j).
Qed.

(** After the loop of [flashFsKernelImage] the bootline asks for the latest image. *)
Lemma boot_patch_spec p :
  bootline_ok p ->
  (boot_patch p = Some None /\ (boot_scan p = Some None \/ boot_scan p = Some (Some BOOT_LATEST_IMAGE))) \/
  (exists i c, boot_patch p = Some (Some (<[S (S i) := BOOT_LATEST_IMAGE]> p)) /\
    p !! S (S i) = Some c /\ c <> 0 /\
    boot_scan (<[S (S i) := BOOT_LATEST_IMAGE]> p) = Some (Some BOOT_LATEST_IMAGE)).
Proof.
  intros [j Hj]. revert j Hj. induction p as [|a p IH]; intros j Hj; [done|].
  destruct p as [|b [|c r]]; [done|by destruct j|]. rewrite boot_patch_cons, boot_scan_cons.
  destruct (Z.eqb_spec c 0) as [->|Hc]; [left; auto|].
  destruct j as [|j]; [cbn in Hj; congruence|].
  destruct ((a =? 112) && (b =? 61)) eqn:Eab; cbn [andb].
  - destruct (Z.eqb_spec c BOOT_LATEST_IMAGE) as [->|Hc']; cbn [negb].
    + destruct (IH j Hj) as [[-> _]|(i & c' & -> & Hi & Hc0 & _)]; [left; auto|].
      right. exists (S i), c'. cbn [list_insert insert]. split; [done|]. split; [done|]. split; [done|].
      cbn. rewrite Eab. done.
    + right. exists 0%nat, c. cbn. by rewrite Eab.
  - destruct (IH j Hj) as [[-> Hs]|(i & c' & -> & Hi & Hc0 & Hs)]; [left; auto|].
    right. exists (S i), c'. split; [done|]. split; [done|]. split; [done|].
    change (<[S (S (S i)) := BOOT_LATEST_IMAGE]> (a :: b :: c :: r)) with
      (a :: <[S (S i) := BOOT_LATEST_IMAGE]> (b :: c :: r)).
    destruct r as [|c2 r]; [done|]. cbn [insert list_insert] in *. rewrite boot_scan_cons.
    destruct (Z.eqb_spec c 0); [done|]. by rewrite Eab.
Qed.

(** ** Tags in the flash *)

Section Flash.
Context {F : Type} {dev : flash_device_info_t F} {FLASH_BASE : Z} {sizes : list Z}
  {img : F -> list Z} {HL : FlashLaws dev FLASH_BASE sizes img}.
Abbreviation g := (Some dev).
Abbreviation base k := (sbase sizes k).
Context (fInfo : FLASH_ADDR_INFO).

(** The first image starts in sector [k1], the second in [k2], both behind the sectors
    of the NVRAM and not behind the PSI's first sector. *)
Definition two_partitions (k1 k2 : Z) : Prop :=
  let psi := flash_persistent_start_blk fInfo in
  0 < k1 < k2 /\ k2 <= psi < zlen sizes /\
  base k1 <= flash_rootfs_start_offset fInfo < base (k1 + 1) /\
  base k2 <= zsum sizes / 2 < base (k2 + 1) /\
  base k1 + TAG_LEN <= base (k1 + 1) /\ base k2 + TAG_LEN <= base (k2 + 1) /\
  Forall (fun n => Z.even n = true) sizes /\
  0 <= flash_persistent_length fInfo <= base (psi + 1) - base psi /\
  nvram_placed (sizes := sizes) fInfo /\
  flash_nvram_start_blk fInfo + flash_nvram_number_blk fInfo <= k1.

Lemma blk_mod a x f : u32 a = u32 (x + FLASH_BASE) -> flash_get_blk g a f = flash_get_blk g (x + FLASH_BASE) f.
Proof.
  intros H. cbn [flash_get_blk]. assert (E : s32 a = s32 (x + FLASH_BASE)); [|by rewrite E].
  unfold s32, u32 in *. by rewrite <- (Zplus_mod_idemp_l a), H, Zplus_mod_idemp_l.
Qed.

Lemma u32_s32 a : u32 (s32 a) = u32 a.
Proof.
  unfold u32, s32. rewrite Zminus_mod_idemp_l. f_equal. lia.
Qed.

Lemma memptr0 f : 0 < zlen sizes -> flash_get_memptr g 0 f = Some (u32 FLASH_BASE).
Proof.
  intros Hz. destruct (sector_exists (HL := HL) 0) as (s & E & _); [lia|]. cbn [flash_get_memptr].
  change (u16 0) with (Z.of_nat 0). rewrite (laws_memptr (FlashLaws := HL) f 0 s E).
  change (sbase sizes (Z.of_nat 0)) with 0. by rewrite Z.add_0_r.
Qed.

(** The address at which the first partition's image is stored. *)
Lemma fix_addresses_ok image ra ka :
  TAG_LEN <= zlen image -> Forall is_u8 image -> 0 <= flash_rootfs_start_offset fInfo < 2 ^ 31 ->
  u32 (ra - IMAGE_BASE - TAG_LEN) <= flash_rootfs_start_offset fInfo ->
  exists image1 ra1 ka1, fix_addresses fInfo image ra ka = Some (image1, ra1, ka1) /\
    updated image image1 /\
    u32 ra1 = u32 (IMAGE_BASE + TAG_LEN + flash_rootfs_start_offset fInfo).
Proof.
  intros Hl Hb Hr Ho. unfold fix_addresses.
  set (o := u32 (ra - IMAGE_BASE - TAG_LEN)) in *. set (R := flash_rootfs_start_offset fInfo) in *.
  assert (Ho' : u32 (ra + (R - o)) = u32 (IMAGE_BASE + TAG_LEN + R)).
  { unfold o, u32. rewrite Z.add_sub_assoc, Zminus_mod_idemp_r. f_equal. lia. }
  destruct (Z.ltb_spec o R).
  - destruct (put_lu_ok image off_rootfsAddress (s32 (ra + (R - o)))) as (i1 & -> & U1); [auto|done|done|].
    cbn [mbind option_bind].
    destruct (put_lu_ok i1 off_kernelAddress (s32 (ka + (R - o)))) as (i2 & -> & U2);
      [auto|by destruct U1 as [-> _]|apply U1|]. cbn [mbind option_bind].
    pose proof (updated_trans _ _ _ U1 U2) as U.
    destruct (stamp_updated i2) as (i3 & -> & U3 & _); [by destruct U as [-> _]|apply U|].
    cbn [mbind option_bind]. do 3 eexists. split; [done|]. split; [by eapply updated_trans|].
    rewrite <- Ho'. apply u32_s32.
  - assert (o = R) by lia. exists image, ra, ka. split; [done|]. split; [by apply updated_refl|].
    rewrite <- Ho'. f_equal. lia.
Qed.

Lemma move_to_second_ok image ra ka b T :
  TAG_LEN <= zlen image -> Forall is_u8 image ->
  exists image1 ra1 ka1, move_to_second image ra ka b T = Some (image1, ra1, ka1) /\
    updated image image1 /\ u32 ra1 = u32 (b + T / 2 + TAG_LEN).
Proof.
  intros Hl Hb. unfold move_to_second. set (off := s32 (T / 2 + TAG_LEN)).
  destruct (put_lu_ok image off_kernelAddress (IMAGE_BASE + off + (ka - ra))) as (i1 & -> & U1); [auto|done|done|].
  cbn [mbind option_bind].
  destruct (put_lu_ok i1 off_rootfsAddress (IMAGE_BASE + off)) as (i2 & -> & U2);
    [auto|by destruct U1 as [-> _]|apply U1|]. cbn [mbind option_bind].
  do 3 eexists. split; [done|]. split; [by eapply updated_trans|].
  rewrite u32_s32. unfold off. rewrite <- u32_add_r, u32_s32, u32_add_r. f_equal. lia.
Qed.

Section Partitions.
Context (k1 k2 : Z) (Hpart : two_partitions k1 k2).

Definition part_blk (n : Z) : Z := if n =? 1 then k1 else k2.

Lemma tag_blk_ok n f : n = 1 \/ n = 2 -> tag_blk g fInfo n f = Some (part_blk n).
Proof.
  destruct Hpart as (H1 & H2 & H3 & H4 & _). intros Hn. unfold tag_blk, part_blk.
  rewrite memptr0 by lia. cbn [mbind option_bind].
  replace (flash_get_total_size g f) with (zsum sizes) by (symmetry; apply (laws_total (FlashLaws := HL))).
  pose proof (base_range (HL := HL) 0). rewrite Z.quot_div_nonneg by lia.
  destruct Hn as [-> | ->];
    [change (1 =? 1) with true|change (2 =? 1) with false; change (2 =? 2) with true]; cbv iota.
  - rewrite (blk_mod _ (flash_rootfs_start_offset fInfo)) by (rewrite u32_add_l; f_equal; lia).
    apply (blk_is (HL := HL)); lia.
  - rewrite (blk_mod _ (zsum sizes / 2)) by (rewrite u32_add_l; f_equal; lia).
    apply (blk_is (HL := HL)); lia.
Qed.

Lemma part_blk_range n :
  n = 1 \/ n = 2 -> 0 < part_blk n <= flash_persistent_start_blk fInfo /\
    part_blk n < zlen sizes /\ base (part_blk n) + TAG_LEN <= base (part_blk n + 1).
Proof.
  destruct Hpart as (H1 & H2 & H3 & H4 & H5 & H6 & _). unfold part_blk.
  intros [-> | ->]; [change (1 =? 1) with true|change (2 =? 1) with false]; cbv iota;
    split_and!; lia || done.
Qed.

Lemma getTag_ok n f :
  n = 1 \/ n = 2 -> getTagFromPartition g fInfo n f = Some (valid_tag (slice (base (part_blk n)) TAG_LEN (img f))).
Proof.
  intros Hn. unfold getTagFromPartition. rewrite tag_blk_ok by done. cbn [mbind option_bind].
  destruct (part_blk_range n Hn) as ([Hk Hk'] & Hz & Ht). destruct (Z.eqb_spec (part_blk n) 0); [lia|].
  destruct (sector_exists (HL := HL) (part_blk n)) as (s & E & Hs & Hu & Hb & Hb0); [lia|].
  pose proof (base_S (part_blk n) s ltac:(lia) E) as Eb. rewrite Hu.
  destruct (laws_read (FlashLaws := HL) f (Z.to_nat (part_blk n)) s 0 TAG_LEN E) as [r Hr];
    [done|done|lia|]. rewrite Z2Nat.id, Z.add_0_r in Hr by lia.
  cbn [flash_read_buf]. rewrite Hu, Hr. cbn [mbind option_bind].
  pose proof (laws_img (FlashLaws := HL) f). set (t := slice _ _ _).
  assert (Hl : zlen t = TAG_LEN) by (apply zlen_slice; unfold TAG_LEN in *; lia).
  rewrite mem_write_Some by (rewrite ?zlen_replicate, ?Hl; done). cbn [mbind option_bind].
  rewrite splice_all by (rewrite Hl, zlen_replicate; done).
  rewrite tag_crc_eq by (rewrite Hl; done). cbn [mbind option_bind].
  rewrite mem_read_Some by (rewrite ?Hl; done). done.
Qed.

Abbreviation tag n f := (valid_tag (slice (base (part_blk n)) TAG_LEN (img f))).

(** The largest image that [flashFsKernelImage] keeps two of, if the boot loader and
    the PSI need less than what is reserved. *)
Definition half_room : Z := zsum sizes / 2 - FLASH_RESERVED_AT_END.

(** The tag in the flash is readable: the sequence number, 0 without a tag; the image
    leaves room for a second one. *)
Definition tag_ok (t : option (list Z)) (q : Z) : Prop :=
  match t with
  | None => q = 0
  | Some t => tag_num t off_imageSequence = Some q /\ 0 <= q < 2 ^ 31 - 1 /\
      exists size, image_size t = Some size /\ size <= half_room
  end.

Lemma sequence_ok t q : tag_ok t q -> exists v, sequence_of t = Some v /\ (t <> None -> v = q) /\ v <= q.
Proof.
  destruct t as [t|]; cbn.
  - intros (-> & Hq & _). exists q. cbn. rewrite s32_id by (unfold is_s32; lia). split; [done|]. split; [done|lia].
  - intros ->. exists (-1). split; [done|]. split; [done|lia].
Qed.

Lemma update_sequence image q1 q2 f :
  tag_ok (tag 1 f) q1 -> tag_ok (tag 2 f) q2 ->
  UpdateImageSequenceNumber g fInfo image f = put_d image off_imageSequence (Z.max q1 q2 + 1).
Proof.
  intros H1 H2. unfold UpdateImageSequenceNumber. rewrite (getTag_ok 1), (getTag_ok 2) by auto.
  cbn [mbind option_bind].
  assert (E1 : match tag 1 f with Some t => s32 <$> tag_num t off_imageSequence | None => Some 0 end = Some q1
               /\ 0 <= q1 < 2 ^ 31 - 1).
  { destruct (tag 1 f) as [t|]; cbn in H1; [|by subst]. destruct H1 as (-> & Hq & _). cbn.
    by rewrite s32_id by (unfold is_s32; lia). }
  destruct E1 as [-> Hq1]. cbn [mbind option_bind].
  destruct (tag 2 f) as [t|]; cbn in H2; cbn [mbind option_bind].
  - destruct H2 as (-> & Hq & _). cbn [mbind option_bind]. rewrite u32_id by (unfold is_u32; lia).
    rewrite (s32_id q2) by (unfold is_s32; lia). f_equal. ztest.
  - subst. f_equal. lia.
Qed.

Abbreviation bootline f :=
  (drop (Z.to_nat off_szBootline) (cleared (nvram_image (sizes := sizes) (img := img) fInfo f))).

(** The tag that is booted, for any readable bootline. *)
Lemma boot_tag_eq nvram v1 v2 x f :
  sequence_of (tag 1 f) = Some v1 -> sequence_of (tag 2 f) = Some v2 ->
  zlen nvram = sizeof_NVRAM_DATA -> boot_scan (bootline f) = Some x ->
  getBootImageTag g true fInfo nvram f =
    Some (match tag 1 f, tag 2 f with
          | Some _, Some _ =>
              if default BOOT_LATEST_IMAGE x =? BOOT_LATEST_IMAGE then
                if v1 <? v2 then tag 2 f else tag 1 f
              else if v2 <? v1 then tag 2 f else tag 1 f
          | _, Some _ => tag 2 f
          | _, None => tag 1 f
          end).
Proof.
  intros H1 H2 Hn Hx. destruct (Hpart) as (_ & _ & _ & _ & _ & _ & _ & _ & Hnv & _).
  unfold getBootImageTag. rewrite (getTag_ok 1), (getTag_ok 2) by auto. cbn [mbind option_bind].
  rewrite (readNvramData_ok (HL := HL)) by done.
  destruct (tag 1 f) as [t1|] eqn:E1, (tag 2 f) as [t2|] eqn:E2; try done.
  rewrite H1, H2. cbn [mbind option_bind]. by rewrite Hx.
Qed.

(** The partition found for the booted tag. *)
Lemma boot_partition nvram q1 q2 f :
  tag_ok (tag 1 f) q1 -> tag_ok (tag 2 f) q2 -> zlen nvram = sizeof_NVRAM_DATA ->
  bootline_ok (bootline f) ->
  exists t p, getBootImageTag g true fInfo nvram f = Some t /\
    getPartitionFromTag g fInfo t f = Some p /\ (t = None \/ exists q, tag_ok t q) /\
    (p = 1 -> t = tag 1 f /\ t <> None) /\ (p <> 1 -> t = None \/ t = tag 2 f).
Proof.
  intros H1 H2 Hn Hb. destruct (sequence_ok _ _ H1) as (v1 & S1 & _), (sequence_ok _ _ H2) as (v2 & S2 & _).
  destruct (boot_scan_total _ Hb) as [x Hx]. rewrite (boot_tag_eq nvram v1 v2 x) by done.
  unfold getPartitionFromTag. rewrite (getTag_ok 1), (getTag_ok 2) by auto. cbn [mbind option_bind].
  destruct (tag 1 f) as [t1|] eqn:E1, (tag 2 f) as [t2|] eqn:E2.
  - destruct (default _ _ =? _);
      [destruct (Z.ltb_spec v1 v2)|destruct (Z.ltb_spec v2 v1)];
      do 2 eexists; (split; [done|]); rewrite ?S1, ?S2; cbn [mbind option_bind is_Some_b andb];
      rewrite ?Z.eqb_refl; (split; [done|]); (split; [eauto|]); ztest; try done; (split; [done|auto]).
  - do 2 eexists. split; [done|]. rewrite S1, S2. cbn [mbind option_bind is_Some_b andb].
    rewrite Z.eqb_refl. split; [done|]. split; [eauto|]. done.
  - do 2 eexists. split; [done|]. rewrite S1, S2. cbn [mbind option_bind is_Some_b andb].
    rewrite Z.eqb_refl. split; [done|]. split; [eauto|]. split; [done|auto].
  - do 2 eexists. split; [done|]. split; [done|]. auto.
Qed.

(** The new image is booted: it has the highest sequence number, and the bootline
    asks for the latest image. *)
Lemma boots_new nvram n q q' x new f :
  n = 1 \/ n = 2 -> tag n f = Some new -> tag_num new off_imageSequence = Some q ->
  tag_ok (tag (3 - n) f) q' -> q' < q < 2 ^ 31 -> (n = 2 -> tag 1 f <> None) ->
  zlen nvram = sizeof_NVRAM_DATA -> boot_scan (bootline f) = Some x ->
  default BOOT_LATEST_IMAGE x = BOOT_LATEST_IMAGE ->
  getBootImageTag g true fInfo nvram f = Some (Some new).
Proof.
  intros Hn Ht Hq Ho Hlt H1 Hnv Hx Hd.
  assert (Hq' : 0 <= q') by (destruct (tag (3 - n) f); cbn in Ho; [lia|subst; lia]).
  assert (Hs : sequence_of (tag n f) = Some q).
  { rewrite Ht. cbn. rewrite Hq. cbn. by rewrite s32_id by (unfold is_s32; lia). }
  destruct (sequence_ok _ _ Ho) as (v & Hv & _ & Hle).
  destruct Hn as [-> | ->]; change (3 - 1) with 2 in *; change (3 - 2) with 1 in *.
  - rewrite (boot_tag_eq nvram q v x) by done. rewrite Ht, Hd, Z.eqb_refl.
    destruct (tag 2 f); [|done]. by destruct (Z.ltb_spec q v); [lia|].
  - rewrite (boot_tag_eq nvram v q x) by done. rewrite Ht, Hd, Z.eqb_refl.
    destruct (tag 1 f); [|by destruct H1]. by destruct (Z.ltb_spec v q); [|lia].
Qed.
(** *** Writing the image *)

Definition part_end (n : Z) : Z := if n =? 1 then k2 else flash_persistent_start_blk fInfo.
Definition part_offset (n : Z) : Z :=
  if n =? 1 then flash_rootfs_start_offset fInfo else zsum sizes / 2.
Abbreviation nvram_addr := (nvram_addr (sizes := sizes) fInfo).

(** Nothing changes but the sectors of partition [n] and the NVRAM structure. *)
Definition only_partition (n : Z) (f f' : F) : Prop :=
  forall o m, 0 <= o -> o + m <= base (part_blk n) \/ base (part_end n) <= o ->
    o + m <= nvram_addr \/ nvram_addr + sizeof_NVRAM_DATA <= o ->
    slice o m (img f') = slice o m (img f).

Lemma nvram_below n :
  n = 1 \/ n = 2 -> 0 <= nvram_addr /\ nvram_addr + sizeof_NVRAM_DATA <= base (part_blk n).
Proof.
  intros Hn. destruct (part_blk_range n Hn) as ([Hk _] & Hz & _).
  destruct Hpart as (H1 & _ & _ & _ & _ & _ & _ & _ & (P1 & P2 & P3 & P4 & P5) & H10).
  pose proof (base_range (HL := HL) (flash_nvram_start_blk fInfo)).
  assert (k1 <= part_blk n) by (unfold part_blk; destruct (n =? 1); lia).
  pose proof (base_mono (HL := HL) (flash_nvram_start_blk fInfo + flash_nvram_number_blk fInfo) (part_blk n)).
  unfold Nvram.nvram_addr, section_at, FlashStore.span, NVRAM_LENGTH, ONEK, sizeof_NVRAM_DATA in *.
  rewrite Z2Nat.id in P5 by lia. lia.
Qed.

(** Two partitions do not meet. *)
Lemma part_order n :
  n = 1 \/ n = 2 -> base (part_blk (3 - n)) + TAG_LEN <= base (part_blk n) \/ base (part_end n) <= base (part_blk (3 - n)).
Proof.
  destruct Hpart as (H1 & _ & _ & _ & H5 & _). unfold part_blk, part_end.
  pose proof (base_mono (HL := HL) (k1 + 1) k2).
  intros [-> | ->]; [right; change (3 - 1 =? 1) with false; change (1 =? 1) with true
                    |left; change (3 - 2 =? 1) with true; change (2 =? 1) with false]; cbv iota; lia.
Qed.

(** A structure with a zero checksum, changed where it is not zero. *)
Lemma cleared_insert buf (j : nat) c v :
  zlen buf = sizeof_NVRAM_DATA -> Forall is_u8 buf -> is_u8 v ->
  cleared buf !! j = Some c -> c <> 0 ->
  cleared (<[j := v]> (cleared buf)) = <[j := v]> (cleared buf).
Proof.
  intros Hz Hb Hv Hj Hc. destruct (cleared_ok buf Hz Hb) as [Hcz Hcb].
  rewrite (cleared_eq (<[j := v]> _)) by (unfold zlen in *; by rewrite ?length_insert).
  rewrite (cleared_eq buf) in * by done. assert (j < 296)%nat.
  { destruct (Nat.lt_ge_cases j 296); [done|]. destruct Hc. 
    unfold zlen, sizeof_NVRAM_DATA in Hz. rewrite lookup_app_r in Hj by (rewrite length_take; lia).
    change (be32 0) with [0; 0; 0; 0] in Hj. destruct (j - _)%nat as [|[|[|[|n]]]]; cbn in Hj; congruence || discriminate Hj. }
  unfold zlen, sizeof_NVRAM_DATA in Hz.
  rewrite insert_app_l by (rewrite length_take; lia).
  rewrite take_app_length'; [done|]. rewrite length_insert, length_take. lia.
Qed.

(** The bootline after the loop of [flashFsKernelImage]. *)
Lemma boot_latest_ok {HR : FlashReliable dev sizes} f :
  bootline_ok (bootline f) ->
  exists f' x, boot_latest g true fInfo (cleared (nvram_image (sizes := sizes) (img := img) fInfo f)) f = Some f' /\
    same_outside nvram_addr sizeof_NVRAM_DATA (img f) (img f') /\
    boot_scan (bootline f') = Some x /\ default BOOT_LATEST_IMAGE x = BOOT_LATEST_IMAGE.
Proof.
  intros Hb. destruct (Hpart) as (_ & _ & _ & _ & _ & _ & _ & _ & Hnv & _).
  destruct (nvram_image_ok (HL := HL) fInfo f Hnv) as (Hz & Hb8 & Ha0 & Ha1).
  destruct (cleared_ok _ Hz Hb8) as [Hcz Hcb]. unfold boot_latest. set (nv := cleared _) in *.
  destruct (boot_patch_spec _ Hb) as [[-> Hs]|(i & c & -> & Hi & Hc & Hs)]; cbn [mbind option_bind].
  - exists f. destruct Hs as [Hs|Hs]; eexists; (split; [done|]); by split; [apply same_outside_refl|].
  - unfold off_szBootline in *. rewrite lookup_drop in Hi.
    rewrite mem_write_Some by (unfold zlen, sizeof_NVRAM_DATA in *; rewrite ?length_insert, ?length_drop; lia).
    cbn [mbind option_bind]. set (j := (Z.to_nat 4 + S (S i))%nat) in *.
    set (buf := <[j:=BOOT_LATEST_IMAGE]> nv).
    assert (Hd : <[S (S i) := BOOT_LATEST_IMAGE]> (drop (Z.to_nat 4) nv) = drop (Z.to_nat 4) buf).
    { unfold buf, j. rewrite drop_insert_ge by lia. by rewrite Nat.add_sub_swap, Nat.sub_diag by lia. }
    rewrite Hd in *.
    assert (Hsp : splice 4 (drop (Z.to_nat 4) buf) nv = buf).
    { unfold splice, buf. rewrite <- (take_insert_ge nv (Z.to_nat 4) j BOOT_LATEST_IMAGE) by lia.
      rewrite (drop_ge nv), app_nil_r, take_drop; [done|]. rewrite length_drop, length_insert. lia. }
    assert (Hbz : zlen buf = sizeof_NVRAM_DATA) by (unfold buf, zlen in *; by rewrite length_insert).
    assert (Hbb : Forall is_u8 buf) by (by apply Forall_insert).
    rewrite Hsp. destruct (writeNvramData_ok (HL := HL) (HR := HR) fInfo buf f Hnv Hbz Hbb) as (f' & -> & Him & Hn).
    cbn [mbind option_bind]. destruct (stamped_ok buf Hbz Hbb) as [Hsz _].
    exists f', (Some BOOT_LATEST_IMAGE). split; [done|]. split; [|split; [|done]].
    + rewrite Him. split; [apply zlen_splice; lia|]. intros k Hk. apply lookup_splice_out; lia.
    + rewrite Hn. destruct (cleared_stamped buf Hbz Hbb) as [-> _].
      unfold buf, nv. rewrite (cleared_insert _ j c) by done. fold nv.
      done.
Qed.
(** The image and its tag after [kerSysBcmImageSet]. *)
Lemma store_image {HR : FlashReliable dev sizes} n a image size f :
  n = 1 \/ n = 2 -> u32 a = u32 (part_offset n + FLASH_BASE) -> Forall is_u8 image -> 0 <= size ->
  TAG_LEN + size + size mod 2 <= zlen image -> base (part_blk n) + TAG_LEN + size <= base (part_end n) ->
  exists f', kerSysBcmImageSet g FLASH_BASE true true fInfo a image (s32 (TAG_LEN + size)) f =
      Some (Returns 0 f') /\
    same_outside (base (part_blk n)) (base (part_end n) - base (part_blk n)) (img f) (img f') /\
    slice (base (part_blk n)) (TAG_LEN + size) (img f') = slice 0 (TAG_LEN + size) image.
Proof.
  intros Hn Ha Hb H0 Hl Hfit. rewrite (image_set_mod fInfo true true a (part_offset n)) by done.
  destruct (Hpart) as (H1 & H2 & H3 & H4 & _ & _ & H7 & _).
  destruct (laws_device (FlashLaws := HL)) as (_ & _ & Hsum). pose proof (base_range (HL := HL) (part_end n)). pose proof (base_range (HL := HL) (part_blk n)).
  rewrite s32_id by (unfold is_s32, TAG_LEN in *; lia).
  apply (image_set_below (HL := HL) fInfo H7 (part_end n)).
  - unfold part_blk, part_end. destruct (n =? 1); lia.
  - unfold part_end. destruct (n =? 1); lia.
  - unfold part_blk, part_offset. destruct (n =? 1); lia.
  - done.
  - unfold TAG_LEN. lia.
  - replace ((TAG_LEN + size) mod 2) with (size mod 2); [lia|]. unfold TAG_LEN.
    replace (256 + size) with (size + 128 * 2) by lia. by rewrite Z.mod_add.
  - lia.
Qed.

(** The second half of the update. *)
Lemma write_new_image_ok {HR : FlashReliable dev sizes} nvram n a q1 q2 image size f :
  n = 1 \/ n = 2 -> u32 (a - TAG_LEN) = u32 (part_offset n + FLASH_BASE) -> Forall is_u8 image ->
  0 <= size -> TAG_LEN + size + size mod 2 <= zlen image ->
  base (part_blk n) + TAG_LEN + size <= base (part_end n) ->
  tag_ok (tag 1 f) q1 -> tag_ok (tag 2 f) q2 -> (n = 2 -> tag 1 f <> None) ->
  zlen nvram = sizeof_NVRAM_DATA -> bootline_ok (bootline f) ->
  exists f' image', write_new_image g FLASH_BASE true fInfo true
      (cleared (nvram_image (sizes := sizes) (img := img) fInfo f)) image a size f = Some (Returns 0 f', image') /\
    updated image image' /\ only_partition n f f' /\
    slice (base (part_blk n)) (TAG_LEN + size) (img f') = slice 0 (TAG_LEN + size) image' /\
    getBootImageTag g true fInfo nvram f' = Some (Some (slice 0 TAG_LEN image')).
Proof.
  intros Hn Ha Hb H0 Hl Hfit T1 T2 Hn2 Hnv Hbl.
  assert (Hq : forall i q, tag_ok (tag i f) q -> 0 <= q < 2 ^ 31 - 1)
    by (intros i q; destruct (tag i f); cbn; lia).
  pose proof (Hq 1 q1 T1). pose proof (Hq 2 q2 T2). pose proof (Z.mod_pos_bound size 2).
  unfold write_new_image. rewrite (update_sequence image q1 q2 f T1 T2).
  destruct (new_tag_ok image (Z.max q1 q2 + 1)) as (i1 & i2 & -> & Es & Hu & Hv & Hs); [lia|done|lia|].
  cbn [mbind option_bind]. rewrite Es. cbn [mbind option_bind]. destruct (Hu) as (Hz2 & Hb2 & _).
  destruct (store_image (HR := HR) n (a - TAG_LEN) i2 size f) as (f1 & -> & So1 & Sl1); [done|done|done|done|lia|done|].
  cbn [mbind option_bind]. change (negb (0 =? 0)) with false. cbv iota.
  destruct (nvram_below n Hn) as [Hna Hnb].
  assert (En : nvram_image (sizes := sizes) (img := img) fInfo f1 = nvram_image (sizes := sizes) (img := img) fInfo f)
    by (apply (same_outside_slice _ _ _ _ _ _ So1); lia).
  rewrite <- En in Hbl |- *.
  destruct (boot_latest_ok (HR := HR) f1 Hbl) as (f2 & x & -> & So2 & Hx & Hd). cbn [mbind option_bind].
  pose proof (base_range (HL := HL) (part_blk n)) as Hr. clear Hq.
  assert (Sl2 : slice (base (part_blk n)) (TAG_LEN + size) (img f2) = slice 0 (TAG_LEN + size) i2)
    by (rewrite <- Sl1; apply (same_outside_slice _ _ _ _ _ _ So2); lia).
  assert (Hon : only_partition n f f2).
  { intros o m Ho Hd1 Hd2. rewrite (same_outside_slice _ _ _ _ o m So2) by lia.
    apply (same_outside_slice _ _ _ _ o m So1); lia. }
  exists f2, i2. split; [done|]. split; [done|]. split; [done|]. split; [done|].
  assert (Hother : slice (base (part_blk (3 - n))) TAG_LEN (img f2) = slice (base (part_blk (3 - n))) TAG_LEN (img f)).
  { assert (H3 : 3 - n = 1 \/ 3 - n = 2) by lia. pose proof (base_range (HL := HL) (part_blk (3 - n))). destruct (nvram_below _ H3). apply Hon; [lia| |lia].
    by apply part_order. }
  apply (boots_new nvram n (Z.max q1 q2 + 1) (if n =? 1 then q2 else q1) x); try done.
  - rewrite <- Hv. f_equal. apply (f_equal (slice 0 TAG_LEN)) in Sl2. unfold TAG_LEN in *.
    rewrite !slice_slice, Z.add_0_r in Sl2 by lia. done.
  - rewrite Hother. destruct Hn as [-> | ->]; done.
  - destruct (n =? 1); lia.
  - intros ->. change (3 - 2) with 1 in Hother. rewrite Hother. auto.
Qed.
(** *** The whole update *)

(** The largest image that [flashFsKernelImage] takes. *)
Definition whole_room : Z :=
  zsum sizes - (flash_rootfs_start_offset fInfo + TAG_LEN) - FLASH_RESERVED_AT_END.

(** What is reserved for the boot loader and the tag in front of the first image, and
    for the PSI behind the second, is enough. *)
Definition reserved_ok : Prop :=
  flash_rootfs_start_offset fInfo + TAG_LEN + (zsum sizes / 2 - base k2) <= FLASH_RESERVED_AT_END /\
  zsum sizes + TAG_LEN - base (flash_persistent_start_blk fInfo) <= FLASH_RESERVED_AT_END.

Lemma partition_fits n size :
  n = 1 \/ n = 2 -> reserved_ok -> size <= half_room ->
  base (part_blk n) + TAG_LEN + size <= base (part_end n).
Proof.
  intros Hn [R1 R2] Hs. destruct Hpart as (H1 & H2 & H3 & H4 & _). unfold half_room, part_blk, part_end in *.
  pose proof (Z.mul_div_le (zsum sizes) 2). destruct (n =? 1); lia.
Qed.

Lemma tag_size t :
  t = None \/ (exists q, tag_ok t q) -> 0 <= half_room ->
  exists c, match t with Some t => image_size t | None => Some 0 end = Some c /\ c <= half_room.
Proof.
  intros [->|[q Hq]] Hh; [eauto|]. destruct t as [t|]; [|eauto].
  destruct Hq as (_ & _ & c & ? & ?). eauto.
Qed.

Lemma u32_eq a b : 0 <= b < 2 ^ 32 -> u32 a = u32 b -> u32 a = b.
Proof. intros Hb ->. by rewrite u32_id. Qed.

(** The two limits of [flashFsKernelImage]. *)
Lemma room_ok ra :
  reserved_ok -> 0 <= half_room -> u32 ra = u32 (IMAGE_BASE + TAG_LEN + flash_rootfs_start_offset fInfo) ->
  let start := flash_rootfs_start_offset fInfo in
  u32 (u32 (zsum sizes) - u32 (s32 (ra + BOOT_OFFSET FLASH_BASE) - u32 FLASH_BASE) - FLASH_RESERVED_AT_END) =
    whole_room /\
  u32 (u32 (zsum sizes) / 2 - (if FLASH_RESERVED_AT_END <? start then start else FLASH_RESERVED_AT_END)) = half_room.
Proof.
  intros [R1 R2] Hh Hra. cbv zeta. destruct (laws_device (FlashLaws := HL)) as (_ & _ & Hsum).
  destruct Hpart as (H1 & H2 & H3 & H4 & _). pose proof (base_range (HL := HL) k1).
  rewrite (u32_id (zsum sizes)) by (unfold is_u32; lia). unfold half_room in *.
  set (R := flash_rootfs_start_offset fInfo) in *. set (T := zsum sizes) in *.
  pose proof (Z.mul_div_le T 2). assert (0 <= FLASH_RESERVED_AT_END) by done. assert (TAG_LEN = 256) by done.
  split.
  - replace (u32 (s32 (ra + BOOT_OFFSET FLASH_BASE) - u32 FLASH_BASE)) with (TAG_LEN + R).
    { unfold whole_room. fold T. fold R. rewrite u32_id by (unfold is_u32; lia). lia. }
    symmetry. apply u32_eq; [lia|]. unfold u32 at 1. rewrite Zminus_mod.
    change (s32 (ra + BOOT_OFFSET FLASH_BASE) mod 2 ^ 32) with (u32 (s32 (ra + BOOT_OFFSET FLASH_BASE))).
    rewrite u32_s32, <- u32_add_l, Hra, u32_add_l. unfold u32, BOOT_OFFSET.
    rewrite Z.mod_mod, <- Zminus_mod by lia. f_equal. lia.
  - destruct (Z.ltb_spec FLASH_RESERVED_AT_END R); [lia|]. apply u32_id. unfold is_u32. lia.
Qed.

Lemma half_whole : reserved_ok -> 0 <= half_room -> half_room <= whole_room.
Proof.
  intros [R1 _] Hh. destruct Hpart as (_ & _ & _ & H4 & _). unfold half_room, whole_room in *.
  pose proof (Z.mul_div_le (zsum sizes) 2). lia.
Qed.

Lemma u32_sub_tag a b : u32 a = u32 (b + TAG_LEN) -> u32 (a - TAG_LEN) = u32 b.
Proof.
  intros H. unfold u32 in *. rewrite <- Zminus_mod_idemp_l, H, Zminus_mod_idemp_l. f_equal. lia.
Qed.

(** The partition and the address of the new image. *)
Lemma choose_partition image p ra ka b :
  TAG_LEN <= zlen image -> Forall is_u8 image -> 0 <= zsum sizes < 2 ^ 31 -> u32 b = u32 FLASH_BASE ->
  u32 ra = u32 (FLASH_BASE + TAG_LEN + flash_rootfs_start_offset fInfo) ->
  exists n image1 a k, (if p =? 1 then move_to_second image ra ka b (u32 (zsum sizes))
                        else Some (image, ra, ka)) = Some (image1, a, k) /\
    n = (if p =? 1 then 2 else 1) /\ updated image image1 /\
    u32 (a - TAG_LEN) = u32 (part_offset n + FLASH_BASE).
Proof.
  intros Hl Hb Hs Hbase Hra. destruct (p =? 1).
  - destruct (move_to_second_ok image ra ka b (u32 (zsum sizes))) as (i2 & a & k & E & U & Ha); [done|done|].
    exists 2, i2, a, k. split; [done|]. split; [done|]. split; [done|]. apply u32_sub_tag. rewrite Ha.
    rewrite (u32_id (zsum sizes)) by (unfold is_u32; lia). rewrite <- Z.add_assoc, <- u32_add_l, Hbase, u32_add_l.
    unfold part_offset. change (2 =? 1) with false. cbv iota. f_equal. lia.
  - exists 1, image, ra, ka. split; [done|]. split; [done|]. split; [done|]. apply u32_sub_tag. rewrite Hra.
    unfold part_offset. change (1 =? 1) with true. cbv iota. f_equal. lia.
Qed.

Lemma boot_offset_u32 ra :
  u32 ra = u32 (IMAGE_BASE + TAG_LEN + flash_rootfs_start_offset fInfo) ->
  u32 (s32 (ra + BOOT_OFFSET FLASH_BASE)) = u32 (FLASH_BASE + TAG_LEN + flash_rootfs_start_offset fInfo).
Proof.
  intros Hra. rewrite u32_s32, <- u32_add_l, Hra, u32_add_l. unfold BOOT_OFFSET. f_equal. lia.
Qed.

(** An image for this flash, and a flash that can be updated. *)
Definition image_ok (image : list Z) (size : Z) : Prop :=
  Forall is_u8 image /\ TAG_LEN <= zlen image /\ image_size image = Some size /\
  exists ra ka, tag_num image off_rootfsAddress = Some ra /\ tag_num image off_kernelAddress = Some ka /\
    u32 (s32 ra - IMAGE_BASE - TAG_LEN) <= flash_rootfs_start_offset fInfo.

Definition flash_ok (q1 q2 : Z) (f : F) : Prop :=
  reserved_ok /\ 0 <= half_room /\ tag_ok (tag 1 f) q1 /\ tag_ok (tag 2 f) q2 /\ bootline_ok (bootline f).

(** The update as far as the choice of the partition. *)
Lemma update_steps nvram q1 q2 image size f :
  flash_ok q1 q2 f -> image_ok image size -> zlen nvram = sizeof_NVRAM_DATA ->
  exists image1 ra1 ka1 t p, updated image image1 /\
    u32 (s32 (ra1 + BOOT_OFFSET FLASH_BASE)) = u32 (FLASH_BASE + TAG_LEN + flash_rootfs_start_offset fInfo) /\
    getBootImageTag g true fInfo nvram f = Some t /\
    (p = 1 -> t = tag 1 f /\ t <> None) /\ (p <> 1 -> t = None \/ t = tag 2 f) /\
    flashFsKernelImage g FLASH_BASE true fInfo true nvram image f =
      if whole_room <? size then Some (Returns (-1) f, image1)
      else '(image, a, _) ←
        (if (if size <=? half_room then p else 0) =? 1
         then move_to_second image1 (s32 (ra1 + BOOT_OFFSET FLASH_BASE)) (s32 (ka1 + BOOT_OFFSET FLASH_BASE))
                (u32 FLASH_BASE) (u32 (zsum sizes))
         else Some (image1, s32 (ra1 + BOOT_OFFSET FLASH_BASE), s32 (ka1 + BOOT_OFFSET FLASH_BASE)));
        write_new_image g FLASH_BASE true fInfo true
          (cleared (nvram_image (sizes := sizes) (img := img) fInfo f)) image a size f.
Proof.
  intros (Hres & Hh & T1 & T2 & Hbl) (Hb & Hl & Esz & ra & ka & Era & Eka & Hoff) Hnv.
  destruct (laws_device (FlashLaws := HL)) as (_ & _ & Hsum).
  destruct (Hpart) as (H1 & H2 & H3 & _ & _ & _ & _ & _ & Hpl & _). pose proof (base_range (HL := HL) k1).
  pose proof (base_range (HL := HL) (k1 + 1)).
  destruct (boot_partition nvram q1 q2 f T1 T2 Hnv Hbl) as (t & p & Et & Ep & Htq & Hp1 & Hp2).
  destruct (fix_addresses_ok image (s32 ra) (s32 ka)) as (i1 & ra1 & ka1 & Ef & U1 & Hra1);
    [done|done|lia|done|].
  destruct (room_ok ra1 Hres Hh Hra1) as [Ho Ht].
  exists i1, ra1, ka1, t, p. split; [done|]. split; [by apply boot_offset_u32|]. split; [done|].
  split; [done|]. split; [done|].
  unfold flashFsKernelImage. rewrite Era, Eka. cbn [mbind option_bind]. rewrite memptr0 by lia.
  cbn [mbind option_bind]. rewrite Esz. cbn [mbind option_bind].
  replace (flash_get_total_size g f) with (zsum sizes) by (symmetry; apply (laws_total (FlashLaws := HL))).
  rewrite Et. cbn [mbind option_bind]. rewrite (readNvramData_ok (HL := HL)) by done.
  cbn [mbind option_bind]. rewrite Ef. cbn [mbind option_bind]. rewrite Ht, Ho.
  destruct (tag_size t Htq Hh) as (c & -> & Hc). cbn [mbind option_bind].
  destruct (Z.leb_spec c half_room); [|lia]. cbn [andb]. destruct (whole_room <? size); [done|].
  destruct (Z.leb_spec size half_room); cbn [andb]; [|done]. by rewrite Ep.
Qed.

(** What an update leaves in the flash: the new image in partition [n], which is booted
    from then on, and the image that was booted before in the other one. *)
Definition update_done (nvram : list Z) (size : Z) (image image' : list Z) (n : Z) (f f' : F) : Prop :=
  updated image image' /\
  slice (base (part_blk n)) (TAG_LEN + size) (img f') = slice 0 (TAG_LEN + size) image' /\
  kerSysImageTagGet g true fInfo nvram f' = Some (Some (slice 0 TAG_LEN image')) /\
  only_partition n f f' /\
  (kerSysImageTagGet g true fInfo nvram f = Some None \/
   kerSysImageTagGet g true fInfo nvram f = Some (tag (3 - n) f)).

Lemma firmware_update {HR : FlashReliable dev sizes} nvram q1 q2 image size f :
  flash_ok q1 q2 f -> image_ok image size -> 0 <= size <= half_room ->
  TAG_LEN + size + size mod 2 <= zlen image -> zlen nvram = sizeof_NVRAM_DATA ->
  exists n f' image', (n = 1 \/ n = 2) /\
    flashFsKernelImage g FLASH_BASE true fInfo true nvram image f = Some (Returns 0 f', image') /\
    update_done nvram size image image' n f f'.
Proof.
  intros Hf Hi Hsz Hl Hnv. destruct (update_steps nvram q1 q2 image size f Hf Hi Hnv)
    as (i1 & ra1 & ka1 & t & p & U1 & Hra & Et & Hp1 & Hp2 & ->).
  destruct Hf as (Hres & Hh & T1 & T2 & Hbl). destruct (U1) as (Z1 & B1 & _).
  destruct (laws_device (FlashLaws := HL)) as (_ & _ & Hsum). pose proof (base_range (HL := HL) k1).
  pose proof (half_whole Hres Hh). destruct (Z.ltb_spec whole_room size); [lia|].
  destruct (Z.leb_spec size half_room); [|lia]. pose proof (Z.mod_pos_bound size 2).
  destruct (choose_partition i1 p (s32 (ra1 + BOOT_OFFSET FLASH_BASE)) (s32 (ka1 + BOOT_OFFSET FLASH_BASE))
    (u32 FLASH_BASE)) as (n & i2 & a & k & -> & Hn & U2 & Ha);
    [lia|done|lia|rewrite (u32_id (u32 _)); [done|apply u32_range]|done|].
  cbn [mbind option_bind]. destruct (U2) as (Z2 & B2 & _).
  assert (Hn' : n = 1 \/ n = 2) by (destruct (p =? 1); auto).
  destruct (write_new_image_ok (HR := HR) nvram n a q1 q2 i2 size f) as (f' & i3 & Ew & U3 & Ho & Hs & Hboot);
    [done|done|done|lia|lia|by apply partition_fits; [..|lia]|done|done| |done|done|].
  { intros ->. destruct (Z.eqb_spec p 1) as [Hp|]; [|lia]. destruct (Hp1 Hp) as [-> Hne]. done. }
  exists n, f', i3. split; [done|]. split; [done|].
  split; [do 2 (eapply updated_trans; [done|]); done|]. split; [done|].
  split; [done|]. split; [done|]. unfold kerSysImageTagGet. rewrite Et.
  destruct (Z.eqb_spec p 1) as [Hp|Hp]; subst n; [destruct (Hp1 Hp) as [-> _]; auto|].
  destruct (Hp2 Hp) as [-> | ->]; auto.
Qed.


(** An image that is larger than the flash behind the boot loader less the 128K
    that are reserved is refused with -1 and the flash is not touched, whatever works
    of the device. *)
Theorem oversized_update_refused nvram q1 q2 image size f :
  flash_ok q1 q2 f -> image_ok image size -> whole_room < size -> zlen nvram = sizeof_NVRAM_DATA ->
  exists image', flashFsKernelImage g FLASH_BASE true fInfo true nvram image f = Some (Returns (-1) f, image') /\
    updated image image'.
Proof.
  intros Hf Hi Hsz Hnv. destruct (update_steps nvram q1 q2 image size f Hf Hi Hnv)
    as (i1 & ra1 & ka1 & t & p & U1 & _ & _ & _ & _ & ->).
  destruct (Z.ltb_spec whole_room size); [eauto|lia].
Qed.
End Partitions.
End Flash.

(** ** Witnesses *)

(** An image of 32 bytes behind its tag. *)
Definition demo_firmware (sequence size : Z) : list Z :=
  splice off_rootfsAddress (print_lu (IMAGE_BASE + 0x10000 + TAG_LEN))
    (splice off_rootfsLen (print_lu 16)
      (splice off_kernelAddress (print_lu (IMAGE_BASE + 0x10000 + TAG_LEN + 16))
        (splice off_kernelLen (print_lu (size - 16))
          (splice off_imageSequence (print_lu sequence) (replicate 288 0))))).

(** The flash with the image in its first partition, sequence number 5, and a bootline
    that asks for the previous image. *)
Definition demo_flash : list Z :=
  splice (0x580 + off_szBootline) [112; 61; 49] (replicate (Z.to_nat 0x10000) 0) ++
  default [] (stamp_tag (demo_firmware 5 32)).

Lemma demo_partitions : two_partitions (sizes := demo_sizes) image_info 1 4.
Proof.
  unfold two_partitions. split_and!; try by vm_compute. apply demo_even.
Qed.

Lemma demo_flash_ok :
  flash_ok (sizes := demo_sizes) (img := Nor.img demo_sizes) image_info 1 4 5 0 demo_flash.
Proof.
  split; [by vm_compute|]. split; [by vm_compute|]. split; [|split].
  - assert (E : exists t, valid_tag (slice (sbase demo_sizes (part_blk 1 4 1)) TAG_LEN (Nor.img demo_sizes demo_flash)) = Some t
      /\ tag_num t off_imageSequence = Some 5 /\ image_size t = Some 32).
    { eexists. split; [by vm_compute|]. by split; vm_compute. }
    destruct E as (t & -> & E1 & E2). split; [done|]. split; [lia|]. exists 32. split; [done|]. by vm_compute.
  - assert (E : valid_tag (slice (sbase demo_sizes (part_blk 1 4 2)) TAG_LEN (Nor.img demo_sizes demo_flash)) = None)
      by by vm_compute.
    by rewrite E.
  - exists 1%nat. by vm_compute.
Qed.

Lemma demo_firmware_bytes q size : 0 <= q -> 16 <= size -> Forall is_u8 (demo_firmware q size).
Proof.
  intros. unfold demo_firmware, print_lu.
  repeat (apply Forall_splice; [apply dec_digits_bytes; unfold IMAGE_BASE, TAG_LEN; lia|]).
  by apply Forall_replicate.
Qed.


Lemma oversized_update_refused_witness :
  exists image',
    flashFsKernelImage (Some (Nor.dev demo_sizes)) Nor.FLASH_BASE true image_info true
      (replicate 300 0) (demo_firmware 0 0x60000) demo_flash = Some (Returns (-1) demo_flash, image').
Proof.
  destruct (oversized_update_refused (HL := Nor.laws demo_sizes demo_ok)
    image_info 1 4 demo_partitions (replicate 300 0) 5 0 (demo_firmware 0 0x60000) 0x60000 demo_flash)
    as (image' & E & _).
  - apply demo_flash_ok.
  - split; [by apply demo_firmware_bytes|]. split; [by vm_compute|]. split; [by vm_compute|].
    do 2 eexists. split; [by vm_compute|]. split; by vm_compute.
  - by vm_compute.
  - by vm_compute.
  - exists image'. exact E.
Defined.
