(* ===== verification/MacPool.v ===== *)
(** * MAC address pool

    [set_mac_info], [kerSysGetMacAddress] and [kerSysReleaseMacAddress] of
    [board.c].  The pool's entries live in one allocation; a field of entry [i] can
    be accessed only where it lies inside the bytes that were allocated, and
    [None] is an access outside them (or through a null [g_pMacInfo]). *)

From S2P Require Import Prelude BoardDefs SectorMap FlashApi FlashStore ScratchPad Nvram.

Definition NVRAM_MAC_COUNT_MAX : Z := 32.
Definition MAC_ADDRESS_ANY : Z := 0xffffffff.
Definition EADDRNOTAVAIL : Z := 126.
Definition EINVAL : Z := 22.

Record MAC_ADDR_INFO := mkMai { ulId : Z; chInUse : Z }.

(** [alloc] is the size of the allocation. *)
Record MAC_INFO := mkMacInfo {
  alloc : Z;
  ulNumMacAddrs : Z;
  ucaBaseMacAddr : list Z;
  MacAddrs : list MAC_ADDR_INFO
}.

(** [MacAddrs] starts at offset 12 (4 + 6 and padding); an entry has 8 bytes, its
    [ulId] at offset 0 and its [chInUse] at offset 4. *)
Definition sizeof_MAC_INFO : Z := 20.
Definition sizeof_MAC_ADDR_INFO : Z := 8.
Definition off_MacAddrs : Z := 12.

Definition get_ulId (m : MAC_INFO) (i : Z) : option Z :=
  if off_MacAddrs + sizeof_MAC_ADDR_INFO * i + 4 <=? alloc m
  then ulId <$> MacAddrs m !! Z.to_nat i else None.

Definition get_chInUse (m : MAC_INFO) (i : Z) : option Z :=
  if off_MacAddrs + sizeof_MAC_ADDR_INFO * i + 5 <=? alloc m
  then chInUse <$> MacAddrs m !! Z.to_nat i else None.

Definition upd (m : MAC_INFO) (i : Z) (e : MAC_ADDR_INFO) : MAC_INFO :=
  mkMacInfo (alloc m) (ulNumMacAddrs m) (ucaBaseMacAddr m) (<[Z.to_nat i := e]> (MacAddrs m)).

Definition set_ulId (m : MAC_INFO) (i : Z) (v : Z) : option MAC_INFO :=
  _ ← get_ulId m i; e ← MacAddrs m !! Z.to_nat i; Some (upd m i (mkMai v (chInUse e))).

Definition set_chInUse (m : MAC_INFO) (i : Z) (v : Z) : option MAC_INFO :=
  _ ← get_chInUse m i; e ← MacAddrs m !! Z.to_nat i; Some (upd m i (mkMai (ulId e) v)).

(** ** Initialisation *)

(** The cleared allocation with the number of addresses and the base address. *)
Definition new_pool (n : Z) (base : list Z) : MAC_INFO :=
  let ulMacInfoSize := sizeof_MAC_INFO + (sizeof_MAC_ADDR_INFO - 1) * n in
  mkMacInfo ulMacInfoSize n base (replicate (Z.to_nat n) (mkMai 0 0)).

(** The result of [readNvramData] is not looked at; [kok] tells whether [kmalloc]
    succeeds.  The value of [g_pMacInfo] afterwards. *)
Definition set_mac_info {F} (g_flash_info : option (flash_device_info_t F)) (fInfo : FLASH_ADDR_INFO)
    (balloc kok : bool) (nvramData : list Z) (g_pMacInfo : option MAC_INFO) (f : F)
    : option (option MAC_INFO) :=
  '(_, nv) ← readNvramData g_flash_info fInfo balloc nvramData f;
  n ← field32 nv off_ulNumMacAddrs;
  base ← mem_read nv off_ucaBaseMacAddr NVRAM_MAC_ADDRESS_LEN;
  if (0 <? n) && (n <=? NVRAM_MAC_COUNT_MAX) then
    if (kok : bool) then Some (Some (new_pool n base)) else Some None
  else Some g_pMacInfo.

(** ** Addresses *)

(** The last three bytes of an address as a 24-bit integer: the [memcpy] into the
    upper bytes of a big-endian word and the shift. *)
Definition mac24 (mac : list Z) : option Z :=
  d ← mem_read mac 3 3;
  Some (Z.shiftr (u32 (be32_get (d ++ [0]))) 8).

(** The address with index [i]. *)
Definition mac_at (base : list Z) (baseMacAddr i : Z) : list Z :=
  take 3 base ++ take 3 (be32 (u32 (Z.shiftl (u32 (baseMacAddr + i)) 8))).

(** ** Get *)

(** The loop, from index [i] with [n] entries to go: the entry that was used by the
    caller before, or the first free entries without and with an id. *)
Fixpoint mac_scan (n : nat) (m : MAC_INFO) (id i : Z) (pMaiFreeNoId pMaiFreeId : option Z)
    : option (option Z * option Z * option Z) :=
  match n with
  | O => Some (None, pMaiFreeNoId, pMaiFreeId)
  | S n' =>
      eid ← get_ulId m i;
      if (id =? eid) || (id =? MAC_ADDRESS_ANY) then Some (Some i, None, None)
      else
        used ← get_chInUse m i;
        if used =? 0 then
          if (eid =? 0) && bool_decide (pMaiFreeNoId = None)
          then mac_scan n' m id (i + 1) (Some i) pMaiFreeId
          else if negb (eid =? 0) && bool_decide (pMaiFreeId = None)
          then mac_scan n' m id (i + 1) pMaiFreeNoId (Some i)
          else mac_scan n' m id (i + 1) pMaiFreeNoId pMaiFreeId
        else mac_scan n' m id (i + 1) pMaiFreeNoId pMaiFreeId
  end.

(** The return code, the caller's address buffer and the pool. *)
Definition kerSysGetMacAddress (g_pMacInfo : option MAC_INFO) (pucaMacAddr : list Z) (id : Z)
    : option (Z * list Z * option MAC_INFO) :=
  m ← g_pMacInfo;
  baseMacAddr ← mac24 (ucaBaseMacAddr m);
  '(found, noId, freeId) ← mac_scan (Z.to_nat (ulNumMacAddrs m)) m id 0 None None;
  match found with
  | Some i =>
      m' ← set_chInUse m i 1;
      mac ← mem_write pucaMacAddr 0 (mac_at (ucaBaseMacAddr m) baseMacAddr i);
      Some (0, mac, Some m')
  | None =>
      match (match noId with Some i => Some i | None => freeId end) with
      | Some i =>
          mac ← mem_write pucaMacAddr 0 (mac_at (ucaBaseMacAddr m) baseMacAddr i);
          m' ← set_ulId m i id;
          m' ← set_chInUse m' i 1;
          Some (0, mac, Some m')
      | None => Some (- EADDRNOTAVAIL, pucaMacAddr, Some m)
      end
  end.

(** ** Release *)

Definition kerSysReleaseMacAddress (g_pMacInfo : option MAC_INFO) (pucaMacAddr : list Z)
    : option (Z * option MAC_INFO) :=
  m ← g_pMacInfo;
  baseMacAddr ← mac24 (ucaBaseMacAddr m);
  relMacAddr ← mac24 pucaMacAddr;
  let ulIdx := u32 (relMacAddr - baseMacAddr) in
  if ulIdx <? ulNumMacAddrs m then
    used ← get_chInUse m ulIdx;
    if used =? 1 then m' ← set_chInUse m ulIdx 0; Some (0, Some m')
    else Some (- EINVAL, Some m)
  else Some (- EINVAL, Some m).

(** ** Well-formed pools *)

(** Every entry's fields lie inside the allocation. *)
Record pool_ok (m : MAC_INFO) : Prop := {
  po_num : 0 < ulNumMacAddrs m <= NVRAM_MAC_COUNT_MAX;
  po_len : zlen (MacAddrs m) = ulNumMacAddrs m;
  po_alloc : off_MacAddrs + sizeof_MAC_ADDR_INFO * (ulNumMacAddrs m - 1) + 5 <= alloc m;
  po_base : zlen (ucaBaseMacAddr m) = NVRAM_MAC_ADDRESS_LEN;
  po_bytes : Forall is_u8 (ucaBaseMacAddr m)
}.

(** The specification of the choice: the first entry that matches a test ... *)
Fixpoint first_index (P : MAC_ADDR_INFO -> bool) (i : Z) (l : list MAC_ADDR_INFO) : option Z :=
  match l with
  | [] => None
  | e :: l' => if P e then Some i else first_index P (i + 1) l'
  end.

(** ... the caller's entry, else one that was never used, else one that is free. *)
Definition mac_choose (l : list MAC_ADDR_INFO) (id : Z) : option Z :=
  if id =? MAC_ADDRESS_ANY then Some 0
  else
    match first_index (fun e => ulId e =? id) 0 l with
    | Some i => Some i
    | None =>
        match first_index (fun e => (chInUse e =? 0) && (ulId e =? 0)) 0 l with
        | Some i => Some i
        | None => first_index (fun e => (chInUse e =? 0) && negb (ulId e =? 0)) 0 l
        end
    end.

Lemma first_index_Some P l : forall i k,
  first_index P i l = Some k ->
  i <= k < i + zlen l /\ exists e, l !! Z.to_nat (k - i) = Some e /\ P e = true.
Proof.
  induction l as [|e l IH]; intros i k H; [done|]. cbn in H. rewrite zlen_cons.
  pose proof (zlen_nonneg l). destruct (P e) eqn:E.
  - simplify_eq. split; [lia|]. exists e. by rewrite Z.sub_diag.
  - apply IH in H as (Hk & e' & Hl & Hp). split; [lia|]. exists e'. split; [|done].
    replace (Z.to_nat (k - i)) with (S (Z.to_nat (k - (i + 1)))) by lia. done.
Qed.

Lemma first_index_None P l : forall i, first_index P i l = None -> Forall (fun e => P e = false) l.
Proof.
  induction l as [|e l IH]; intros i H; [done|]. cbn in H. destruct (P e) eqn:E; [done|].
  constructor; [done|by eapply IH].
Qed.

Section Pool.
Variable m : MAC_INFO.
Hypothesis Hm : pool_ok m.

Lemma entry_ok i e :
  0 <= i -> MacAddrs m !! Z.to_nat i = Some e ->
  get_ulId m i = Some (ulId e) /\ get_chInUse m i = Some (chInUse e) /\ i < ulNumMacAddrs m.
Proof.
  intros Hi He. destruct Hm as [Hn Hl Ha _ _]. pose proof (lookup_lt_Some _ _ _ He).
  assert (i < ulNumMacAddrs m) by (unfold zlen in Hl; lia).
  unfold get_ulId, get_chInUse, off_MacAddrs, sizeof_MAC_ADDR_INFO in *. rewrite He.
  split_and!; ztest; done.
Qed.

Lemma upd_ok i e : pool_ok (upd m i e).
Proof. destruct Hm. constructor; try done. cbn. unfold zlen in *. by rewrite length_insert. Qed.

Lemma set_fields i e :
  0 <= i -> MacAddrs m !! Z.to_nat i = Some e ->
  (forall v, set_ulId m i v = Some (upd m i (mkMai v (chInUse e)))) /\
  (forall v, set_chInUse m i v = Some (upd m i (mkMai (ulId e) v))).
Proof.
  intros Hi He. destruct (entry_ok i e Hi He) as (H1 & H2 & _).
  unfold set_ulId, set_chInUse. rewrite H1, H2, He. done.
Qed.

(** The loop, over the entries [l] that are left. *)
Lemma mac_scan_spec id l : forall pre noId freeId,
  MacAddrs m = pre ++ l -> id <> MAC_ADDRESS_ANY ->
  mac_scan (length l) m id (zlen pre) noId freeId =
  Some match first_index (fun e => ulId e =? id) (zlen pre) l with
       | Some i => (Some i, None, None)
       | None =>
           (None,
            match noId with
            | Some i => Some i
            | None => first_index (fun e => (chInUse e =? 0) && (ulId e =? 0)) (zlen pre) l
            end,
            match freeId with
            | Some i => Some i
            | None => first_index (fun e => (chInUse e =? 0) && negb (ulId e =? 0)) (zlen pre) l
            end)
       end.
Proof.
  induction l as [|e l IH]; intros pre noId freeId Hl Hid.
  - cbn. by destruct noId, freeId.
  - destruct (entry_ok (zlen pre) e) as (H1 & H2 & _);
      [apply zlen_nonneg|rewrite Hl; by apply lookup_mid|].
    cbn [length mac_scan first_index]. rewrite H1. cbn [mbind option_bind].
    rewrite (proj2 (Z.eqb_neq _ _) Hid), orb_false_r, (Z.eqb_sym id).
    destruct (ulId e =? id) eqn:Ei; [done|]. rewrite H2. cbn [mbind option_bind].
    assert (Hl' : MacAddrs m = (pre ++ [e]) ++ l) by (by rewrite <- app_assoc).
    assert (Hz : zlen pre + 1 = zlen (pre ++ [e])) by (by rewrite zlen_app). rewrite Hz.
    destruct (chInUse e =? 0); cbn [andb]; [|by apply IH].
    destruct (ulId e =? 0); cbn [andb negb]; case_bool_decide; simplify_eq; rewrite IH by done;
      [done|by destruct noId|done|by destruct freeId].
Qed.

Lemma pool_scan id :
  id <> MAC_ADDRESS_ANY ->
  mac_scan (Z.to_nat (ulNumMacAddrs m)) m id 0 None None =
  Some match first_index (fun e => ulId e =? id) 0 (MacAddrs m) with
       | Some i => (Some i, None, None)
       | None => (None,
           first_index (fun e => (chInUse e =? 0) && (ulId e =? 0)) 0 (MacAddrs m),
           first_index (fun e => (chInUse e =? 0) && negb (ulId e =? 0)) 0 (MacAddrs m))
       end.
Proof.
  intros Hid. rewrite <- (po_len m Hm). unfold zlen. rewrite Nat2Z.id.
  by apply (mac_scan_spec id (MacAddrs m) []).
Qed.
End Pool.

(** *** Addresses *)

Lemma mac24_eq a0 a1 a2 a3 a4 a5 :
  is_u8 a3 -> is_u8 a4 -> is_u8 a5 ->
  mac24 [a0; a1; a2; a3; a4; a5] = Some (a3 * 2 ^ 16 + a4 * 2 ^ 8 + a5).
Proof.
  intros H3 H4 H5. unfold mac24. change (mem_read _ 3 3) with (Some [a3; a4; a5]).
  cbn [mbind option_bind app be32_get]. f_equal. rewrite Z.shiftr_div_pow2 by lia.
  unfold u32, s32, is_u8 in *. Z.to_euclidean_division_equations. lia.
Qed.

Lemma six_bytes (mac : list Z) :
  zlen mac = NVRAM_MAC_ADDRESS_LEN -> exists a0 a1 a2 a3 a4 a5, mac = [a0; a1; a2; a3; a4; a5].
Proof.
  unfold zlen, NVRAM_MAC_ADDRESS_LEN. intros H.
  destruct mac as [|a0 [|a1 [|a2 [|a3 [|a4 [|a5 [|]]]]]]]; cbn in H; try lia.
  by exists a0, a1, a2, a3, a4, a5.
Qed.

Lemma mac24_ok mac :
  zlen mac = NVRAM_MAC_ADDRESS_LEN -> Forall is_u8 mac ->
  exists b, mac24 mac = Some b /\ 0 <= b < 2 ^ 24.
Proof.
  intros Hz Hb. destruct (six_bytes mac Hz) as (a0 & a1 & a2 & a3 & a4 & a5 & ->).
  rewrite !Forall_cons in Hb. destruct_and!. eexists. split; [by apply mac24_eq|].
  unfold is_u8 in *. lia.
Qed.

Lemma mac_at_ok base b i :
  zlen base = NVRAM_MAC_ADDRESS_LEN -> Forall is_u8 base -> 0 <= b < 2 ^ 24 -> 0 <= i < 2 ^ 24 ->
  zlen (mac_at base b i) = NVRAM_MAC_ADDRESS_LEN /\ Forall is_u8 (mac_at base b i) /\
  mac24 (mac_at base b i) = Some ((b + i) mod 2 ^ 24).
Proof.
  intros Hz Hb Hb24 Hi. destruct (six_bytes base Hz) as (a0 & a1 & a2 & a3 & a4 & a5 & ->).
  rewrite !Forall_cons in Hb. destruct_and!.
  unfold mac_at. cbn [take app be32]. rewrite (u32_id (b + i)) by (unfold is_u32; lia).
  split; [done|]. split; [rewrite !Forall_cons; split_and!; done || apply u8_range|].
  rewrite mac24_eq by apply u8_range. f_equal.
  rewrite Z.shiftl_mul_pow2, !Z.shiftr_div_pow2 by lia. unfold u8, u32.
  Z.to_euclidean_division_equations. lia.
Qed.

(** The address of entry [i] of a pool. *)
Definition base24 (m : MAC_INFO) : Z := default 0 (mac24 (ucaBaseMacAddr m)).
Definition mac_of (m : MAC_INFO) (i : Z) : list Z := mac_at (ucaBaseMacAddr m) (base24 m) i.

Section Addresses.
Variable m : MAC_INFO.
Hypothesis Hm : pool_ok m.

Lemma base24_ok : mac24 (ucaBaseMacAddr m) = Some (base24 m) /\ 0 <= base24 m < 2 ^ 24.
Proof.
  destruct Hm. destruct (mac24_ok (ucaBaseMacAddr m)) as (b & E & Hb); [done..|].
  unfold base24. by rewrite E.
Qed.

Lemma mac_of_ok i :
  0 <= i < ulNumMacAddrs m ->
  zlen (mac_of m i) = NVRAM_MAC_ADDRESS_LEN /\ mac24 (mac_of m i) = Some ((base24 m + i) mod 2 ^ 24).
Proof.
  intros Hi. destruct base24_ok as [_ Hb]. destruct Hm as [Hn Hl Ha Hz Hby].
  unfold NVRAM_MAC_COUNT_MAX in *. destruct (mac_at_ok (ucaBaseMacAddr m) (base24 m) i) as (H1 & _ & H2);
    [done|done|done|lia|done].
Qed.

(** Different entries have different addresses. *)
Lemma mac_of_inj i j :
  0 <= i < ulNumMacAddrs m -> 0 <= j < ulNumMacAddrs m -> mac_of m i = mac_of m j -> i = j.
Proof.
  intros Hi Hj E. destruct (mac_of_ok i Hi) as [_ Ei], (mac_of_ok j Hj) as [_ Ej].
  rewrite E, Ej in Ei. injection Ei as Ei. destruct base24_ok as [_ Hb].
  destruct Hm as [Hn _ _ _ _]. unfold NVRAM_MAC_COUNT_MAX in *.
  Z.to_euclidean_division_equations. lia.
Qed.

Lemma mac_choose_range id i :
  mac_choose (MacAddrs m) id = Some i ->
  0 <= i < ulNumMacAddrs m /\ exists e, MacAddrs m !! Z.to_nat i = Some e /\
    (id = MAC_ADDRESS_ANY \/ ulId e = id \/
     chInUse e = 0 /\ Forall (fun e => ulId e <> id) (MacAddrs m)).
Proof.
  destruct Hm as [Hn Hl _ _ _]. unfold mac_choose.
  destruct (Z.eqb_spec id MAC_ADDRESS_ANY) as [->|Hid].
  { intros [= <-]. split; [lia|]. destruct (lookup_lt_is_Some_2 (MacAddrs m) 0) as [e He];
      [unfold zlen in Hl; lia|]. exists e. split; [done|by left]. }
  assert (Hsome : forall P k, first_index P 0 (MacAddrs m) = Some k ->
    0 <= k < ulNumMacAddrs m /\ exists e, MacAddrs m !! Z.to_nat k = Some e /\ P e = true).
  { intros P k Hk. apply first_index_Some in Hk as (H0 & e & He & Hp). rewrite Z.sub_0_r in He.
    split; [lia|by exists e]. }
  destruct (first_index (fun e => ulId e =? id) 0 (MacAddrs m)) as [k|] eqn:E1.
  { intros [= <-]. destruct (Hsome _ _ E1) as (Hk & e & He & Hp). split; [done|]. exists e.
    zprop. split; [done|]. right. by left. }
  assert (Hno : Forall (fun e => ulId e <> id) (MacAddrs m)).
  { apply first_index_None in E1. eapply Forall_impl; [exact E1|]. cbn. intros e He. by zprop. }
  destruct (first_index (fun e => (chInUse e =? 0) && (ulId e =? 0)) 0 (MacAddrs m)) as [k|] eqn:E2;
    [intros [= <-]; apply Hsome in E2 as (Hk & e & He & Hp)|
     intros E3; apply Hsome in E3 as (Hk & e & He & Hp)];
    (split; [done|]); exists e; zprop; (split; [done|]); right; by right.
Qed.

(** The get operation follows the specification of the choice. *)
Lemma get_mac_ok puca id :
  zlen puca = NVRAM_MAC_ADDRESS_LEN ->
  exists r, kerSysGetMacAddress (Some m) puca id = Some r /\
  match mac_choose (MacAddrs m) id with
  | Some i => exists e, MacAddrs m !! Z.to_nat i = Some e /\
      r = (0, mac_of m i, Some (upd m i (mkMai (if id =? MAC_ADDRESS_ANY then ulId e else id) 1)))
  | None => r = (- EADDRNOTAVAIL, puca, Some m)
  end.
Proof.
  intros Hp. unfold kerSysGetMacAddress. cbn [mbind option_bind].
  destruct base24_ok as [-> _]. cbn [mbind option_bind].
  assert (Hw : forall i, 0 <= i < ulNumMacAddrs m -> mem_write puca 0 (mac_of m i) = Some (mac_of m i)).
  { intros i Hi. destruct (mac_of_ok i Hi) as [Hz _]. rewrite <- (app_nil_r puca).
    rewrite mem_write_head by congruence. by rewrite app_nil_r. }
  pose proof (mac_choose_range id) as Hch. unfold mac_choose in *.
  destruct (Z.eqb_spec id MAC_ADDRESS_ANY) as [->|Hid].
  - destruct (Hch 0 eq_refl) as (Hr & e & He & _).
    destruct (set_fields m Hm 0 e ltac:(lia) He) as [_ Hs].
    assert (mac_scan (Z.to_nat (ulNumMacAddrs m)) m MAC_ADDRESS_ANY 0 None None =
            Some (Some 0, None, None)) as ->.
    { destruct (Z.to_nat (ulNumMacAddrs m)) eqn:En; [lia|]. cbn [mac_scan].
      destruct (entry_ok m Hm 0 e ltac:(lia) He) as (-> & _). cbn [mbind option_bind].
      by rewrite Z.eqb_refl, orb_true_r. }
    cbn [mbind option_bind]. rewrite Hs. cbn [mbind option_bind].
    change (mac_at (ucaBaseMacAddr m) (base24 m) 0) with (mac_of m 0). rewrite Hw by done.
    eexists. split; [done|]. by exists e.
  - rewrite pool_scan by done. cbn [mbind option_bind].
    destruct (first_index (fun e => ulId e =? id) 0 (MacAddrs m)) as [k|] eqn:E1.
    + destruct (Hch k eq_refl) as (Hr & e & He & _).
      apply first_index_Some in E1 as (_ & e' & He' & Hp'). rewrite Z.sub_0_r, He in He'.
      simplify_eq. zprop. destruct (set_fields m Hm k e' ltac:(lia) He) as [_ Hs].
      rewrite Hs. cbn [mbind option_bind]. fold (mac_of m k). rewrite Hw by done.
      eexists. split; [done|]. exists e'. by rewrite Hp'.
    + set (ch := match first_index _ 0 (MacAddrs m) with Some i => Some i | None => _ end) in *.
      destruct ch as [k|]; [|by eexists].
      destruct (Hch k eq_refl) as (Hr & e & He & _).
      destruct (set_fields m Hm k e ltac:(lia) He) as [Hs _].
      fold (mac_of m k). rewrite Hw by done. cbn [mbind option_bind]. rewrite Hs.
      cbn [mbind option_bind].
      assert (He' : MacAddrs (upd m k (mkMai id (chInUse e))) !! Z.to_nat k = Some (mkMai id (chInUse e))).
      { cbn. apply list_lookup_insert_eq. by eapply lookup_lt_Some. }
      destruct (set_fields _ (upd_ok m Hm k _) k _ ltac:(lia) He') as [_ ->].
      cbn [mbind option_bind]. eexists. split; [done|]. exists e. split; [done|].
      unfold upd. cbn. by rewrite list_insert_insert_eq.
Qed.
End Addresses.

(** ** Sequences of calls *)

(** Entries in use have an owner, and no two entries have the same one. *)
Record mac_inv (m : MAC_INFO) : Prop := {
  mi_ok : pool_ok m;
  mi_owner i e : MacAddrs m !! i = Some e -> chInUse e <> 0 -> ulId e <> 0;
  mi_unique i j e e' :
    MacAddrs m !! i = Some e -> MacAddrs m !! j = Some e' -> ulId e = ulId e' -> ulId e <> 0 -> i = j
}.

(** The caller [id] holds the address [mac]. *)
Definition holds (m : MAC_INFO) (id : Z) (mac : list Z) : Prop :=
  exists i e, 0 <= i /\ MacAddrs m !! Z.to_nat i = Some e /\ ulId e = id /\ chInUse e = 1 /\
    mac = mac_of m i.

Inductive mac_op := Get (id : Z) | Release (mac : list Z).

(** Callers have a proper id; addresses have six bytes. *)
Definition mac_op_ok (o : mac_op) : Prop :=
  match o with
  | Get id => 0 < id < MAC_ADDRESS_ANY
  | Release mac => zlen mac = NVRAM_MAC_ADDRESS_LEN /\ Forall is_u8 mac
  end.

Definition mac_exec (o : mac_op) (g : option MAC_INFO) : option (option MAC_INFO) :=
  match o with
  | Get id => '(_, _, g') ← kerSysGetMacAddress g (replicate 6 0) id; Some g'
  | Release mac => '(_, g') ← kerSysReleaseMacAddress g mac; Some g'
  end.

Fixpoint mac_run (ops : list mac_op) (g : option MAC_INFO) : option (option MAC_INFO) :=
  match ops with
  | [] => Some g
  | o :: ops' => g' ← mac_exec o g; mac_run ops' g'
  end.

Lemma lookup_upd m i e (j : nat) :
  MacAddrs (upd m i e) !! j =
  if decide (j = Z.to_nat i) then (if MacAddrs m !! j is Some _ then Some e else None) else MacAddrs m !! j.
Proof.
  cbn. destruct (decide (j = Z.to_nat i)) as [->|Hj].
  - destruct (MacAddrs m !! Z.to_nat i) eqn:E.
    + apply list_lookup_insert_eq. by eapply lookup_lt_Some.
    + rewrite list_insert_ge; [done|]. by apply lookup_ge_None.
  - by apply list_lookup_insert_ne.
Qed.

(** Giving an entry to an owner that has no other entry keeps the invariant. *)
Lemma upd_inv m i e :
  mac_inv m -> (chInUse e <> 0 -> ulId e <> 0) ->
  (ulId e <> 0 -> forall j e', MacAddrs m !! j = Some e' -> ulId e' = ulId e -> j = Z.to_nat i) ->
  mac_inv (upd m i e).
Proof.
  intros [Hok Hown Huniq] He Hi. split; [by apply upd_ok|intros j e' Hj|intros j k ej ek Hj Hk Heq Hnz];
    rewrite lookup_upd in *.
  - destruct (decide (j = Z.to_nat i)); [destruct (MacAddrs m !! j); by simplify_eq|by eapply Hown].
  - destruct (decide (j = Z.to_nat i)) as [->|Hji], (decide (k = Z.to_nat i)) as [->|Hki].
    + done.
    + destruct (MacAddrs m !! Z.to_nat i); simplify_eq. symmetry. by eapply Hi.
    + destruct (MacAddrs m !! Z.to_nat i); simplify_eq. eapply Hi; [congruence|done|done].
    + by eapply Huniq.
Qed.

Lemma get_inv m puca id :
  mac_inv m -> 0 < id < MAC_ADDRESS_ANY -> zlen puca = NVRAM_MAC_ADDRESS_LEN ->
  exists r mac m', kerSysGetMacAddress (Some m) puca id = Some (r, mac, Some m') /\ mac_inv m' /\
    (r = 0 /\ holds m' id mac \/ r = - EADDRNOTAVAIL /\ m' = m).
Proof.
  intros Hm Hid Hp. pose proof (mi_ok m Hm) as Hok.
  destruct (get_mac_ok m Hok puca id Hp) as (r & -> & Hr).
  destruct (mac_choose (MacAddrs m) id) as [i|] eqn:Ei.
  - destruct Hr as (e & He & ->). destruct (mac_choose_range m Hok id i Ei) as (Hi & e' & He' & Hc).
    simplify_eq. destruct (Z.eqb_spec id MAC_ADDRESS_ANY); [lia|].
    do 3 eexists. split; [done|]. split.
    + apply upd_inv; [done|cbn; lia|]. cbn. intros _ j ej Hj Hej.
      destruct Hc as [?|[Hc|[_ Hc]]]; [done| |].
      * eapply (mi_unique m Hm); [exact Hj|exact He|congruence|lia].
      * exfalso. by apply (Forall_lookup_1 _ _ _ _ Hc Hj).
    + left. split; [done|]. exists i, (mkMai id 1). split; [lia|].
      rewrite lookup_upd, decide_True, He by done. done.
  - subst r. do 3 eexists. split; [done|]. split; [done|]. by right.
Qed.

Lemma release_ok m mac :
  pool_ok m -> zlen mac = NVRAM_MAC_ADDRESS_LEN -> Forall is_u8 mac ->
  kerSysReleaseMacAddress (Some m) mac = Some (- EINVAL, Some m) \/
  exists i e, 0 <= i < ulNumMacAddrs m /\ MacAddrs m !! Z.to_nat i = Some e /\ chInUse e = 1 /\
    kerSysReleaseMacAddress (Some m) mac = Some (0, Some (upd m i (mkMai (ulId e) 0))).
Proof.
  intros Hok Hz Hb. unfold kerSysReleaseMacAddress. cbn [mbind option_bind].
  destruct (base24_ok m Hok) as [-> _]. destruct (mac24_ok mac Hz Hb) as (rel & -> & _).
  cbn [mbind option_bind]. pose proof (u32_range (rel - base24 m)) as Hu.
  set (i := u32 (rel - base24 m)) in *. clearbody i. unfold is_u32 in Hu.
  destruct (Z.ltb_spec i (ulNumMacAddrs m)) as [Hi|]; [|by left].
  destruct (lookup_lt_is_Some_2 (MacAddrs m) (Z.to_nat i)) as [e He].
  { pose proof (po_len m Hok). unfold zlen in *. lia. }
  destruct (entry_ok m Hok i e ltac:(lia) He) as (_ & -> & _). cbn [mbind option_bind].
  destruct (set_fields m Hok i e ltac:(lia) He) as [_ Hs].
  destruct (Z.eqb_spec (chInUse e) 1); [|by left]. right. exists i, e. rewrite Hs.
  split_and!; done || lia.
Qed.

Lemma release_inv m mac :
  mac_inv m -> zlen mac = NVRAM_MAC_ADDRESS_LEN -> Forall is_u8 mac ->
  exists r m', kerSysReleaseMacAddress (Some m) mac = Some (r, Some m') /\ mac_inv m'.
Proof.
  intros Hm Hz Hb. destruct (release_ok m mac (mi_ok m Hm) Hz Hb) as [->|(i & e & Hi & He & Hu & ->)].
  - do 2 eexists. by split.
  - do 2 eexists. split; [done|]. apply upd_inv; [done|done|]. cbn. intros Hnz j ej Hj Hej.
    eapply (mi_unique m Hm); [exact Hj|exact He|done|congruence].
Qed.

Lemma mac_run_inv ops : forall m,
  mac_inv m -> Forall mac_op_ok ops -> exists m', mac_run ops (Some m) = Some (Some m') /\ mac_inv m'.
Proof.
  induction ops as [|o ops IH]; intros m Hm Hops; [by exists m|].
  apply Forall_cons in Hops as [Ho Hops]. cbn [mac_run]. destruct o as [id|mac]; cbn [mac_exec].
  - destruct (get_inv m (replicate 6 0) id Hm Ho) as (r & mac & m' & -> & Hm' & _); [done|].
    cbn [mbind option_bind]. by apply IH.
  - destruct Ho as [Hz Hb]. destruct (release_inv m mac Hm Hz Hb) as (r & m' & -> & Hm').
    cbn [mbind option_bind]. by apply IH.
Qed.

Lemma new_pool_ok n base :
  0 < n <= 11 -> zlen base = NVRAM_MAC_ADDRESS_LEN -> Forall is_u8 base -> mac_inv (new_pool n base).
Proof.
  intros Hn Hz Hb.
  assert (Hent : forall i e, MacAddrs (new_pool n base) !! i = Some e -> e = mkMai 0 0).
  { intros i e He. cbn in He. by apply lookup_replicate in He as [-> _]. }
  split; [|by intros i e ->%Hent|by intros i j e e' ->%Hent].
  constructor; cbn; try done.
  - unfold NVRAM_MAC_COUNT_MAX. lia.
  - rewrite zlen_replicate. lia.
  - unfold off_MacAddrs, sizeof_MAC_ADDR_INFO, sizeof_MAC_INFO. lia.
Qed.

(** Reaching the last entry of a pool with twelve or more. *)
Lemma scan_fault n base id k : forall i a b,
  12 <= n -> 0 < id < MAC_ADDRESS_ANY -> 0 <= i < n -> i + Z.of_nat k = n ->
  mac_scan k (new_pool n base) id i a b = None.
Proof.
  induction k as [|k IH]; intros i a b Hn Hid Hi Hk; [lia|]. cbn [mac_scan].
  set (m := new_pool n base) in *.
  assert (Hf : (get_ulId m i = None \/ get_ulId m i = Some 0) /\
               (get_chInUse m i = None \/ get_chInUse m i = Some 0))
    by (unfold get_ulId, get_chInUse, m; cbn; rewrite lookup_replicate_2 by lia;
        split; destruct (_ <=? _); auto).
  destruct Hf as [[->| ->] Hu]; [done|]. cbn [mbind option_bind].
  destruct (Z.eqb_spec id 0); [lia|]. destruct (Z.eqb_spec id MAC_ADDRESS_ANY); [lia|]. cbn [orb].
  destruct Hu as [->|Hu]; [done|].
  assert (i + 1 < n).
  { unfold get_chInUse, m, new_pool in Hu. cbn [alloc] in Hu.
    unfold off_MacAddrs, sizeof_MAC_ADDR_INFO, sizeof_MAC_INFO in Hu.
    destruct (Z.leb_spec (12 + 8 * i + 5) (20 + (8 - 1) * n)); [lia|done]. }
  rewrite Hu. cbn [mbind option_bind]. rewrite Z.eqb_refl.
  cbn [andb negb]. destruct (bool_decide (a = None)); apply IH; lia.
Qed.

(** A caller that has an entry is found. *)
Lemma mac_choose_owner m id (j : nat) e :
  id <> MAC_ADDRESS_ANY -> MacAddrs m !! j = Some e -> ulId e = id ->
  exists k, mac_choose (MacAddrs m) id = Some k.
Proof.
  intros Hid He Ho. unfold mac_choose. rewrite (proj2 (Z.eqb_neq _ _)) by done.
  destruct (first_index (fun e => ulId e =? id) 0 (MacAddrs m)) as [k|] eqn:E; [by exists k|].
  apply first_index_None in E. pose proof (Forall_lookup_1 _ _ _ _ E He) as Hn. cbn in Hn.
  by rewrite Ho, Z.eqb_refl in Hn.
Qed.

(** Releasing the address of the entry that was just given away. *)
Lemma release_of_get m i e id :
  mac_inv m -> 0 <= i < ulNumMacAddrs m -> MacAddrs m !! Z.to_nat i = Some e -> 0 < id ->
  base24 m + ulNumMacAddrs m <= 2 ^ 24 -> mac_inv (upd m i (mkMai id 1)) ->
  exists m2, kerSysReleaseMacAddress (Some (upd m i (mkMai id 1))) (mac_of m i) = Some (0, Some m2) /\
    mac_inv m2 /\ MacAddrs m2 !! Z.to_nat i = Some (mkMai id 0) /\ mac_of m2 i = mac_of m i /\
    upd m2 i (mkMai id 1) = upd m i (mkMai id 1).
Proof.
  intros Hm Hi He Hid Hwrap Hm1. set (m1 := upd m i (mkMai id 1)) in *.
  pose proof (mi_ok m Hm) as Hok. pose proof (mi_ok m1 Hm1) as Hok1.
  assert (He1 : MacAddrs m1 !! Z.to_nat i = Some (mkMai id 1))
    by (unfold m1; by rewrite lookup_upd, decide_True, He).
  destruct (mac_of_ok m Hok i Hi) as [_ Hmac]. destruct (base24_ok m Hok) as [Hb Hbr].
  unfold kerSysReleaseMacAddress. cbn [mbind option_bind].
  change (ucaBaseMacAddr m1) with (ucaBaseMacAddr m). rewrite Hb, Hmac. cbn [mbind option_bind].
  rewrite (Z.mod_small (base24 m + i)) by lia.
  replace (base24 m + i - base24 m) with i by lia. unfold NVRAM_MAC_COUNT_MAX in *.
  pose proof (po_num m Hok) as Hn. unfold NVRAM_MAC_COUNT_MAX in Hn.
  rewrite u32_id by (unfold is_u32; lia). change (ulNumMacAddrs m1) with (ulNumMacAddrs m).
  destruct (Z.ltb_spec i (ulNumMacAddrs m)); [|lia].
  destruct (entry_ok m1 Hok1 i _ ltac:(lia) He1) as (_ & -> & _). cbn [mbind option_bind].
  rewrite Z.eqb_refl. destruct (set_fields m1 Hok1 i _ ltac:(lia) He1) as [_ ->].
  cbn [mbind option_bind ulId]. eexists. split; [done|]. split; [|split; [|split]].
  - apply upd_inv; [done|done|]. cbn. intros _ j ej Hj Hej.
    eapply (mi_unique m1 Hm1); [exact Hj|exact He1|done|cbn; lia].
  - by rewrite lookup_upd, decide_True, He1.
  - done.
  - unfold m1, upd. cbn. by rewrite !list_insert_insert_eq.
Qed.

(** ** Properties *)

(** Choosing an address.  On a well-formed pool [kerSysGetMacAddress] stays in
    the allocation and gives the caller the address of the entry it used before;
    otherwise of the first entry that was never used; otherwise of the first
    entry that is free; and -EADDRNOTAVAIL, with the pool and the caller's buffer
    unchanged, when there is none.  The entry becomes the caller's and is marked
    in use, and the address is the base address plus the index of the entry. *)
Theorem kerSysGetMacAddress_spec m puca id :
  pool_ok m -> zlen puca = NVRAM_MAC_ADDRESS_LEN ->
  exists r, kerSysGetMacAddress (Some m) puca id = Some r /\
  match mac_choose (MacAddrs m) id with
  | Some i => exists e, MacAddrs m !! Z.to_nat i = Some e /\
      mac24 (mac_of m i) = Some ((base24 m + i) mod 2 ^ 24) /\
      r = (0, mac_of m i, Some (upd m i (mkMai (if id =? MAC_ADDRESS_ANY then ulId e else id) 1)))
  | None => r = (- EADDRNOTAVAIL, puca, Some m)
  end.
Proof.
  intros Hok Hp. destruct (get_mac_ok m Hok puca id Hp) as (r & E & Hr). exists r. split; [done|].
  destruct (mac_choose (MacAddrs m) id) as [i|] eqn:Ei; [|done]. destruct Hr as (e & He & ->).
  destruct (mac_choose_range m Hok id i Ei) as (Hi & _). exists e. split; [done|].
  split; [|done]. by apply mac_of_ok.
Qed.

(** A get with the id [MAC_ADDRESS_ANY] does not look at who holds the addresses: it
    returns the first one, and when a caller holds that one the pool stays as it is. *)
Lemma get_any m puca :
  pool_ok m -> zlen puca = NVRAM_MAC_ADDRESS_LEN ->
  exists m', kerSysGetMacAddress (Some m) puca MAC_ADDRESS_ANY = Some (0, mac_of m 0, Some m') /\
    (forall id, holds m id (mac_of m 0) -> m' = m).
Proof.
  intros Hok Hp. destruct (get_mac_ok m Hok puca MAC_ADDRESS_ANY Hp) as (r & -> & e & He & ->).
  eexists. split; [done|]. intros id (j & e' & Hj & He' & <- & Hu & Hmac).
  destruct (entry_ok m Hok j e' Hj He') as (_ & _ & Hj'). pose proof (po_num m Hok).
  apply mac_of_inj in Hmac; [|done|lia|lia]. subst j. simplify_eq.
  unfold upd. cbn [Z.eqb Pos.eqb]. rewrite <- Hu. replace (mkMai _ _) with e by (by destruct e).
  rewrite list_insert_id by done. by destruct m.
Qed.


(** The allocation of the pool is too small.  [set_mac_info] allocates seven
    bytes for each address instead of eight.  Up to eleven addresses the fields
    of the pool are inside the allocation all the same; from twelve on - the
    NVRAM allows 32 - the first get of a new caller leaves the allocation. *)
Theorem mac_pool_overflow {F} (g : option (flash_device_info_t F)) fInfo balloc nv f m :
  set_mac_info g fInfo balloc true nv None f = Some (Some m) ->
  (ulNumMacAddrs m <= 11 -> Forall is_u8 (ucaBaseMacAddr m) -> mac_inv m) /\
  (12 <= ulNumMacAddrs m -> forall puca id, 0 < id < MAC_ADDRESS_ANY ->
     kerSysGetMacAddress (Some m) puca id = None).
Proof.
  unfold set_mac_info. intros H. destruct (readNvramData g fInfo balloc nv f) as [[r b]|]; [|done].
  cbn [mbind option_bind] in H. destruct (field32 b off_ulNumMacAddrs) as [n|]; [|done].
  cbn [mbind option_bind] in H.
  destruct (mem_read b off_ucaBaseMacAddr NVRAM_MAC_ADDRESS_LEN) as [base|] eqn:Eb; [|done].
  cbn [mbind option_bind] in H. apply mem_read_inv in Eb as (_ & _ & _ & _ & Hz).
  destruct ((0 <? n) && (n <=? NVRAM_MAC_COUNT_MAX)) eqn:Hn; [|done]. zprop. simplify_eq.
  cbn [ulNumMacAddrs ucaBaseMacAddr new_pool]. split.
  - intros Hn11 Hb. apply new_pool_ok; [lia|done|done].
  - intros Hn12 puca id Hid. unfold kerSysGetMacAddress. cbn [mbind option_bind].
    destruct (mac24 (ucaBaseMacAddr (new_pool n base))) as [b24|]; [|done]. cbn [mbind option_bind].
    cbn [ulNumMacAddrs new_pool]. destruct (Z.to_nat n) as [|k] eqn:Ek; [lia|].
    rewrite scan_fault by lia. done.
Qed.

(** An address comes back.  When a caller gets an address and releases it, the
    release succeeds and the caller's next get returns the same address and
    leaves the pool as after the first, provided that the addresses of the pool
    do not wrap around in their last three bytes. *)
Theorem mac_get_release_get m puca puca' id mac m1 :
  mac_inv m -> 0 < id < MAC_ADDRESS_ANY -> base24 m + ulNumMacAddrs m <= 2 ^ 24 ->
  zlen puca = NVRAM_MAC_ADDRESS_LEN -> zlen puca' = NVRAM_MAC_ADDRESS_LEN ->
  kerSysGetMacAddress (Some m) puca id = Some (0, mac, Some m1) ->
  exists m2, kerSysReleaseMacAddress (Some m1) mac = Some (0, Some m2) /\ ~ holds m2 id mac /\
    kerSysGetMacAddress (Some m2) puca' id = Some (0, mac, Some m1).
Proof.
  intros Hm Hid Hwrap Hp Hp' Hget. pose proof (mi_ok m Hm) as Hok.
  destruct (get_inv m puca id Hm Hid Hp) as (r0 & mac0 & m0 & E0 & Hm1 & _).
  rewrite Hget in E0. injection E0 as <- <- <-.
  destruct (get_mac_ok m Hok puca id Hp) as (r & E & Hr). rewrite E in Hget. simplify_eq.
  destruct (mac_choose (MacAddrs m) id) as [i|] eqn:Ei; [|unfold EADDRNOTAVAIL in Hr; by simplify_eq].
  destruct Hr as (e & He & Hr). injection Hr as -> ->.
  destruct (mac_choose_range m Hok id i Ei) as (Hi & _).
  destruct (Z.eqb_spec id MAC_ADDRESS_ANY); [lia|].
  destruct (release_of_get m i e id Hm) as (m2 & Er & Hm2 & He2 & Hb2 & E21); [done|done|lia|done|done|].
  exists m2. split; [done|].
  assert (Hown : forall j e', MacAddrs m2 !! j = Some e' -> ulId e' = id -> j = Z.to_nat i)
    by (intros j e' Hj Hid'; eapply (mi_unique m2 Hm2); [exact Hj|exact He2|done|lia]).
  split.
  - intros (j & e' & Hj & Hje & Hid' & Hu & _). pose proof (Hown _ _ Hje Hid') as Eij.
    rewrite Eij, He2 in Hje. injection Hje as <-. discriminate Hu.
  - destruct (get_mac_ok m2 (mi_ok m2 Hm2) puca' id Hp') as (r' & -> & Hr').
    destruct (mac_choose_owner m2 id _ _ ltac:(done) He2 eq_refl) as [k Ek]. rewrite Ek in Hr'.
    destruct Hr' as (e' & He' & ->).
    destruct (mac_choose_range m2 (mi_ok m2 Hm2) id k Ek) as (Hk & e'' & He'' & Hc).
    assert (k = i) as ->.
    { destruct Hc as [?|[Hc|[_ Hc]]]; [done|apply Hown in He''; [lia|done]|].
      exfalso. by apply (Forall_lookup_1 _ _ _ _ Hc He2). }
    rewrite (proj2 (Z.eqb_neq _ _)) by done. rewrite E21. do 3 f_equal. by rewrite Hb2.
Qed.

(** ** Witnesses *)

Definition demo_mac : list Z := [0x00; 0x10; 0x18; 0x00; 0x00; 0x00].
Definition demo_pool : MAC_INFO := new_pool 2 demo_mac.

Lemma demo_pool_inv : mac_inv demo_pool.
Proof. apply new_pool_ok; [lia|done|by_decide]. Qed.

Lemma kerSysGetMacAddress_spec_witness :
  exists r, kerSysGetMacAddress (Some demo_pool) demo_mac 7 = Some r /\
    r = (0, demo_mac, Some (upd demo_pool 0 (mkMai 7 1))).
Proof.
  destruct (kerSysGetMacAddress_spec demo_pool demo_mac 7) as (r & E & e & He & _ & Hr).
  - exact (mi_ok _ demo_pool_inv).
  - done.
  - exists r. split; [exact E|]. rewrite Hr. by vm_compute.
Defined.


(** A structure with twelve addresses. *)
Definition nv_twelve : list Z :=
  replicate 0x580 255 ++ stamped (splice off_ulNumMacAddrs (be32 12) nv_blank).

Lemma mac_pool_overflow_witness :
  exists m, set_mac_info (Some nv_dev) pad_info true true nv_blank None nv_twelve = Some (Some m) /\
    kerSysGetMacAddress (Some m) demo_mac 7 = None.
Proof.
  exists (new_pool 12 (replicate 6 0)).
  assert (E : set_mac_info (Some nv_dev) pad_info true true nv_blank None nv_twelve =
              Some (Some (new_pool 12 (replicate 6 0)))) by (vm_compute; reflexivity).
  split; [exact E|].
  destruct (mac_pool_overflow (Some nv_dev) pad_info true nv_blank nv_twelve
              (new_pool 12 (replicate 6 0)) E) as [_ H]. clear E.
  apply H; by vm_compute.
Defined.

Lemma mac_get_release_get_witness :
  exists m2, kerSysReleaseMacAddress (Some (upd demo_pool 0 (mkMai 7 1))) demo_mac = Some (0, Some m2) /\
    kerSysGetMacAddress (Some m2) demo_mac 7 = Some (0, demo_mac, Some (upd demo_pool 0 (mkMai 7 1))).
Proof.
  destruct (mac_get_release_get demo_pool demo_mac demo_mac 7 demo_mac (upd demo_pool 0 (mkMai 7 1)))
    as (m2 & Er & _ & Eg).
  - exact demo_pool_inv.
  - by vm_compute.
  - by vm_compute.
  - done.
  - done.
  - by vm_compute.
  - exists m2. split; [exact Er|exact Eg].
Defined.
