(* ===== verification/KList.v ===== *)
(** * Kernel lists

    The circular doubly linked lists of [kernel/linux/include/linux/list.h] on a heap of
    nodes: [INIT_LIST_HEAD], [list_add], [list_del] and the loop [list_for_each].  A node
    is a structure whose first member is its [struct list_head], so that [list_entry]
    leaves the address as it is; [A] is the rest of the structure.  An access to an
    address without a node (freed, poisoned, or null) is [None]. *)

From stdpp Require Import gmap.
From S2P Require Import Prelude.

Record list_node (A : Type) := mkNode { node_next : Z; node_prev : Z; node_data : A }.
Arguments mkNode {A}.
Arguments node_next {A}.
Arguments node_prev {A}.
Arguments node_data {A}.

Section Ops.
Context {A : Type}.
Abbreviation heap := (gmap Z (list_node A)).

Definition next_of (h : heap) (p : Z) : option Z := node_next <$> h !! p.
Definition prev_of (h : heap) (p : Z) : option Z := node_prev <$> h !! p.
Definition data_of (h : heap) (p : Z) : option A := node_data <$> h !! p.

Definition set_next (p v : Z) (h : heap) : option heap :=
  n ← h !! p; Some (<[p := mkNode v (node_prev n) (node_data n)]> h).
Definition set_prev (p v : Z) (h : heap) : option heap :=
  n ← h !! p; Some (<[p := mkNode (node_next n) v (node_data n)]> h).

Definition LIST_POISON1 : Z := 0x00100100.
Definition LIST_POISON2 : Z := 0x00200200.

Definition INIT_LIST_HEAD (ptr : Z) (h : heap) : option heap :=
  h ← set_next ptr ptr h; set_prev ptr ptr h.

Definition __list_add (new prev next : Z) (h : heap) : option heap :=
  h ← set_prev next new h;
  h ← set_next new next h;
  h ← set_prev new prev h;
  set_next prev new h.

Definition list_add (new head : Z) (h : heap) : option heap :=
  next ← next_of h head; __list_add new head next h.

Definition __list_del (prev next : Z) (h : heap) : option heap :=
  h ← set_prev next prev h; set_next prev next h.

Definition list_del (entry : Z) (h : heap) : option heap :=
  prev ← prev_of h entry;
  next ← next_of h entry;
  h ← __list_del prev next h;
  h ← set_next entry LIST_POISON1 h;
  set_prev entry LIST_POISON2 h.

(** [list_for_each(pos, head)] around a [body] that returns the new heap and state and
    whether it leaves the loop; one unit of fuel per round. *)
Fixpoint list_for_each {S : Type} (fuel : nat) (head : Z) (body : Z -> heap -> S -> option (bool * heap * S))
    (pos : Z) (h : heap) (s : S) : option (heap * S) :=
  if pos =? head then Some (h, s)
  else
    match fuel with
    | O => None
    | Datatypes.S fuel' =>
        '(leave, h, s) ← body pos h s;
        if (leave : bool) then Some (h, s)
        else next ← next_of h pos; list_for_each fuel' head body next h s
    end.

(** ** The list in the heap *)

(** The links from [p] through the nodes [l] to [q], in both directions. *)
Fixpoint dseg (h : heap) (p : Z) (l : list Z) (q : Z) : Prop :=
  match l with
  | [] => next_of h p = Some q /\ prev_of h q = Some p
  | a :: l' => next_of h p = Some a /\ prev_of h a = Some p /\ dseg h a l' q
  end.

(** The nodes of the list with head [hd], in the order of [list_for_each]. *)
Definition dlist (h : heap) (hd : Z) (l : list Z) : Prop := NoDup (hd :: l) /\ dseg h hd l hd.

Lemma lookup_set_next p v h h' :
  set_next p v h = Some h' ->
  (forall a, next_of h' a = if decide (a = p) then Some v else next_of h a) /\
  (forall a, prev_of h' a = prev_of h a) /\ (forall a, data_of h' a = data_of h a).
Proof.
  unfold set_next, next_of, prev_of, data_of. destruct (h !! p) as [n|] eqn:E; [|done]. cbn. intros [= <-].
  split_and!; intros a; destruct (decide (a = p)) as [->|]; rewrite ?lookup_insert_eq, ?lookup_insert_ne by done;
    rewrite ?E; done.
Qed.

Lemma lookup_set_prev p v h h' :
  set_prev p v h = Some h' ->
  (forall a, next_of h' a = next_of h a) /\
  (forall a, prev_of h' a = if decide (a = p) then Some v else prev_of h a) /\
  (forall a, data_of h' a = data_of h a).
Proof.
  unfold set_prev, next_of, prev_of, data_of. destruct (h !! p) as [n|] eqn:E; [|done]. cbn. intros [= <-].
  split_and!; intros a; destruct (decide (a = p)) as [->|]; rewrite ?lookup_insert_eq, ?lookup_insert_ne by done;
    rewrite ?E; done.
Qed.

(** A node can be accessed. *)
Lemma set_next_Some p v h : is_Some (data_of h p) -> exists h', set_next p v h = Some h'.
Proof. unfold data_of, set_next. destruct (h !! p); [cbn; eauto|by intros []]. Qed.

Lemma set_prev_Some p v h : is_Some (data_of h p) -> exists h', set_prev p v h = Some h'.
Proof. unfold data_of, set_prev. destruct (h !! p); [cbn; eauto|by intros []]. Qed.

Lemma next_data h p q : next_of h p = Some q -> is_Some (data_of h p).
Proof. unfold next_of, data_of. destruct (h !! p); [cbn; eauto|done]. Qed.

Lemma prev_data h p q : prev_of h p = Some q -> is_Some (data_of h p).
Proof. unfold prev_of, data_of. destruct (h !! p); [cbn; eauto|done]. Qed.

Lemma dseg_ext h h' p l q :
  (forall a, a ∈ p :: l -> next_of h' a = next_of h a) ->
  (forall a, a ∈ l ++ [q] -> prev_of h' a = prev_of h a) -> dseg h p l q -> dseg h' p l q.
Proof.
  revert p. induction l as [|a l IH]; intros p Hn Hp; cbn [dseg].
  - intros [H1 H2]. rewrite Hn, Hp by set_solver. done.
  - intros (H1 & H2 & H3). rewrite Hn, Hp by set_solver. split; [done|]. split; [done|].
    apply IH; [| |done]; intros b Hb; [apply Hn|apply Hp]; set_solver.
Qed.

Lemma dseg_app h p l1 a l2 q :
  dseg h p (l1 ++ a :: l2) q <-> dseg h p l1 a /\ dseg h a l2 q.
Proof.
  revert p. induction l1 as [|b l1 IH]; intros p; cbn [app dseg]; [tauto|]. rewrite IH. tauto.
Qed.

Lemma dseg_data h p l q : dseg h p l q -> forall a, a ∈ p :: l -> is_Some (data_of h a).
Proof.
  revert p. induction l as [|b l IH]; intros p; cbn [dseg].
  - intros [H1 _] a Ha. replace a with p by set_solver. by eapply next_data.
  - intros (H1 & _ & H3) a [->|Ha]%elem_of_cons; [by eapply next_data|]. by apply (IH b).
Qed.

(** The list fits into the heap. *)
Lemma dlist_length h hd l : dlist h hd l -> (length l < size h)%nat.
Proof.
  intros [Hnd Hs]. pose proof (dseg_data _ _ _ _ Hs) as Hd.
  assert (Hsub : list_to_set (hd :: l) ⊆ dom h).
  { intros a. rewrite elem_of_list_to_set, elem_of_dom. intros Ha. specialize (Hd a Ha).
    unfold data_of in Hd. by apply fmap_is_Some in Hd. }
  apply subseteq_size in Hsub. rewrite size_list_to_set, size_dom in Hsub by done. cbn in Hsub. lia.
Qed.

(** *** Insertion and removal *)

Lemma list_add_ok h hd l new :
  dlist h hd l -> new ∉ hd :: l -> is_Some (data_of h new) ->
  exists h', list_add new hd h = Some h' /\ dlist h' hd (new :: l) /\
    forall x, data_of h' x = data_of h x.
Proof.
  intros [Hnd Hs] Hnew Hd.
  assert (Hq : exists q, next_of h hd = Some q /\ q = default hd (head l)).
  { destruct l as [|a l]; cbn in Hs |- *; eexists; by split; [apply Hs|]. }
  destruct Hq as (q & Hn & Hq). unfold list_add, __list_add. rewrite Hn. cbn [mbind option_bind].
  assert (Hdq : is_Some (data_of h q))
    by (apply (dseg_data _ _ _ _ Hs); subst q; destruct l; cbn; [left|right; left]).
  destruct (set_prev_Some q new h Hdq) as [h1 E1]. rewrite E1. cbn [mbind option_bind].
  destruct (lookup_set_prev _ _ _ _ E1) as (N1 & P1 & D1).
  destruct (set_next_Some new q h1) as [h2 E2]; [by rewrite D1|]. rewrite E2. cbn [mbind option_bind].
  destruct (lookup_set_next _ _ _ _ E2) as (N2 & P2 & D2).
  destruct (set_prev_Some new hd h2) as [h3 E3]; [by rewrite D2, D1|]. rewrite E3. cbn [mbind option_bind].
  destruct (lookup_set_prev _ _ _ _ E3) as (N3 & P3 & D3).
  destruct (set_next_Some hd new h3) as [h4 E4]; [rewrite D3, D2, D1; by eapply next_data|].
  destruct (lookup_set_next _ _ _ _ E4) as (N4 & P4 & D4).
  exists h4. split; [done|]. split; [|intros x; by rewrite D4, D3, D2, D1].
  apply not_elem_of_cons in Hnew as [Hne Hnl]. apply NoDup_cons in Hnd as [Hhd Hnl'].
  split; [apply NoDup_cons; split; [apply not_elem_of_cons; by split|by apply NoDup_cons]|].
  assert (EN : forall x, next_of h4 x = if decide (x = hd) then Some new else if decide (x = new) then Some q else next_of h x)
    by (intros x; rewrite N4, N3, N2, N1; done).
  assert (EP : forall x, prev_of h4 x = if decide (x = new) then Some hd else if decide (x = q) then Some new else prev_of h x)
    by (intros x; rewrite P4, P3, P2, P1; done).
  clear - EN EP Hs Hq Hne Hnl Hhd Hnl'. cbn [dseg].
  split; [rewrite EN; by case_decide|]. split; [rewrite EP; by case_decide|].
  destruct l as [|a l]; cbn in Hq; subst q; cbn [dseg] in *.
  - rewrite EN, EP. repeat case_decide; congruence || done.
  - apply not_elem_of_cons in Hnl as [? ?], Hhd as [? ?]. apply NoDup_cons in Hnl' as [? ?].
    split; [rewrite EN; repeat case_decide; congruence|].
    split; [rewrite EP; repeat case_decide; congruence|]. destruct Hs as (_ & _ & Hs).
    apply (dseg_ext h); [| |done]; intros x Hx; rewrite ?EN, ?EP; repeat case_decide; try done; exfalso; subst.
    + apply elem_of_cons in Hx as [?|?]; congruence.
    + apply elem_of_cons in Hx as [?|?]; congruence.
    + apply elem_of_app in Hx as [?|Hx%list_elem_of_singleton]; congruence.
    + apply elem_of_app in Hx as [?|Hx%list_elem_of_singleton]; congruence.
Qed.

Lemma dseg_last h p l a r : dseg h p l a -> prev_of h a = Some r -> r ∈ p :: l /\ next_of h r = Some a.
Proof.
  revert p. induction l as [|b l IH]; intros p; cbn [dseg].
  - intros [Hn ->] [= ->]. by split; [left|].
  - intros (_ & _ & Hs) Hr. destruct (IH b Hs Hr) as [Hin Hn]. split; [by right|done].
Qed.

(** Another end for a chain. *)
Lemma dseg_end h h' p l a r q :
  NoDup (p :: l) -> dseg h p l a -> prev_of h a = Some r ->
  next_of h' r = Some q -> prev_of h' q = Some r ->
  (forall x, x ∈ p :: l -> x <> r -> next_of h' x = next_of h x) ->
  (forall x, x ∈ l -> prev_of h' x = prev_of h x) -> dseg h' p l q.
Proof.
  revert p. induction l as [|b l IH]; intros p Hnd; cbn [dseg].
  - intros [_ Hp] Hr Hn' Hp' _ _. assert (r = p) by congruence. by subst r.
  - intros (H1 & H2 & H3) Hr Hn' Hp' HN HP. apply NoDup_cons in Hnd as [Hp Hnd].
    destruct (dseg_last _ _ _ _ _ H3 Hr) as [Hin _].
    rewrite HN, HP; [|by left|by left|by intros ->]. split; [done|]. split; [done|].
    apply IH; try done; [intros x Hx; by apply HN; right|intros x Hx; apply HP; by right].
Qed.

(** Both neighbours of [a] know each other. *)
Lemma dseg_unlink h h' hd l1 a l2 r q :
  NoDup (hd :: l1) -> NoDup l2 -> a ∉ hd :: l1 -> a ∉ l2 -> (forall x, x ∈ hd :: l1 -> x ∉ l2) ->
  dseg h hd l1 a -> dseg h a l2 hd -> prev_of h a = Some r -> q = default hd (head l2) ->
  (forall x, x <> a -> next_of h' x = if decide (x = r) then Some q else next_of h x) ->
  (forall x, x <> a -> prev_of h' x = if decide (x = q) then Some r else prev_of h x) ->
  dseg h' hd (l1 ++ l2) hd.
Proof.
  intros Hnd1 Hnd2 Ha1 Ha2 Hdis S1 S2 Hr Hq EN EP.
  destruct (dseg_last _ _ _ _ _ S1 Hr) as [Hrin Hrn].
  assert (Hne : forall x, x ∈ hd :: l1 -> x <> a) by (intros x Hx ->; done).
  assert (Hend : q ∉ l1 -> q <> a -> dseg h' hd l1 q).
  { intros Hq1 Hqa. apply (dseg_end h h' hd l1 a r q); try done.
    - rewrite EN by auto. by case_decide.
    - rewrite EP by done. by case_decide.
    - intros x Hx Hxr. rewrite EN by auto. by case_decide.
    - intros x Hx. rewrite EP by (apply Hne; by right). case_decide; [by subst|done]. }
  apply NoDup_cons in Hnd1 as [Hhd Hnd1]. destruct l2 as [|b l2]; cbn in Hq; subst q.
  - rewrite app_nil_r. apply Hend; [done|]. apply Hne. by left.
  - apply NoDup_cons in Hnd2 as [Hb Hnd2]. apply not_elem_of_cons in Ha2 as [Hab Ha2].
    apply dseg_app. split; [apply Hend; [|done]; intros Hx; apply (Hdis b); [by right|by left]|].
    destruct S2 as (_ & _ & S2). apply (dseg_ext h); [| |done]; intros x Hx.
    + assert (x <> a) by (apply elem_of_cons in Hx as [->|?]; congruence).
      rewrite EN by done. case_decide; [|done]. subst x. by destruct (Hdis r Hrin).
    + apply elem_of_app in Hx as [Hx|Hx%list_elem_of_singleton].
      * rewrite EP by congruence. case_decide; [congruence|done].
      * subst x. rewrite EP by (apply Hne; by left). case_decide; [|done]. subst b.
        destruct (Hdis hd); by left.
Qed.

Lemma list_del_ok h hd l1 a l2 :
  dlist h hd (l1 ++ a :: l2) ->
  exists h', list_del a h = Some h' /\ dlist h' hd (l1 ++ l2) /\ next_of h' a = Some LIST_POISON1 /\
    forall x, data_of h' x = data_of h x.
Proof.
  intros [Hnd Hs]. apply dseg_app in Hs as [S1 S2].
  assert (Hr : exists r, prev_of h a = Some r).
  { destruct l1 as [|b l1] using rev_ind; [cbn in S1; eexists; apply S1|].
    apply dseg_app in S1 as [_ [_ ?]]. eauto. }
  destruct Hr as [r Hr]. destruct (dseg_last _ _ _ _ _ S1 Hr) as [Hrin Hrn].
  set (q := default hd (head l2)).
  assert (Hq : next_of h a = Some q /\ prev_of h q = Some a) by (unfold q; destruct l2; cbn in S2 |- *; tauto).
  destruct Hq as [Hqn Hqp]. change (hd :: l1 ++ a :: l2) with ((hd :: l1) ++ a :: l2) in Hnd.
  apply NoDup_app in Hnd as (Hnd1 & Hdis & Hnd2). apply NoDup_cons in Hnd2 as [Ha2 Hnd2].
  assert (Ha1 : a ∉ hd :: l1) by (intros Hx; apply (Hdis a Hx); by left).
  assert (Hdis' : forall x, x ∈ hd :: l1 -> x ∉ l2) by (intros x Hx Hx2; apply (Hdis x Hx); by right).
  unfold list_del, __list_del. rewrite Hr, Hqn. cbn [mbind option_bind].
  destruct (set_prev_Some q r h) as [h1 E1]; [by eapply prev_data|]. rewrite E1. cbn [mbind option_bind].
  destruct (lookup_set_prev _ _ _ _ E1) as (N1 & P1 & D1).
  destruct (set_next_Some r q h1) as [h2 E2]; [rewrite D1; by eapply next_data|]. rewrite E2. cbn [mbind option_bind].
  destruct (lookup_set_next _ _ _ _ E2) as (N2 & P2 & D2).
  destruct (set_next_Some a LIST_POISON1 h2) as [h3 E3]; [rewrite D2, D1; by eapply next_data|].
  rewrite E3. cbn [mbind option_bind]. destruct (lookup_set_next _ _ _ _ E3) as (N3 & P3 & D3).
  destruct (set_prev_Some a LIST_POISON2 h3) as [h4 E4]; [rewrite D3, D2, D1; by eapply next_data|].
  destruct (lookup_set_prev _ _ _ _ E4) as (N4 & P4 & D4).
  exists h4. split; [done|]. split; [|split; [rewrite N4, N3; by case_decide|intros x; by rewrite D4, D3, D2, D1]].
  split.
  - change (hd :: l1 ++ l2) with ((hd :: l1) ++ l2). by apply NoDup_app.
  - apply (dseg_unlink h h4 hd l1 a l2 r q); try done; intros x Hx.
    + rewrite N4, N3, N2, N1. by destruct (decide (x = a)).
    + rewrite P4, P3, P2, P1. by destruct (decide (x = a)).
Qed.

(** Freeing a node that is not on the list. *)
Lemma dlist_kfree h hd l a : dlist h hd l -> a ∉ hd :: l -> dlist (delete a h) hd l.
Proof.
  intros [Hnd Hs] Ha. split; [done|]. apply (dseg_ext h); [| |done]; intros x Hx;
    unfold next_of, prev_of; rewrite lookup_delete_ne; try done; intros ->; apply Ha; [done|].
  apply elem_of_app in Hx as [Hx|Hx%list_elem_of_singleton]; [by right|subst; by left].
Qed.

(** *** Iteration *)

(** A loop whose body neither changes the heap nor leaves is a fold over the nodes. *)
Lemma list_for_each_fold {S : Type} fuel h hd l (f : S -> Z -> S) body s :
  dlist h hd l -> (length l <= fuel)%nat ->
  (forall x s, x ∈ l -> body x h s = Some (false, h, f s x)) ->
  (pos ← next_of h hd; list_for_each fuel hd body pos h s) = Some (h, foldl f s l).
Proof.
  intros [Hnd Hs]. apply NoDup_cons in Hnd as [Hhd _]. revert Hs.
  generalize hd at 1 4 as p. revert s fuel.
  induction l as [|a l IH]; intros s fuel p Hs Hf Hb; cbn [dseg] in Hs.
  - destruct Hs as [-> _]. cbn [mbind option_bind]. destruct fuel; cbn; by rewrite Z.eqb_refl.
  - destruct Hs as (-> & _ & Hs). cbn [mbind option_bind]. destruct fuel as [|fuel]; cbn [length] in Hf; [lia|].
    apply not_elem_of_cons in Hhd as [Hne Hhd]. cbn [list_for_each].
    destruct (Z.eqb_spec a hd); [congruence|]. rewrite Hb by (by left). cbn [mbind option_bind foldl].
    apply (IH Hhd (f s a) fuel a Hs); [lia|]. intros x s' Hx. apply Hb. by right.
Qed.

(** A loop that leaves at the node [a]. *)
Lemma list_for_each_leave {S : Type} fuel h hd l1 a l2 body (s : S) h' s' :
  dlist h hd (l1 ++ a :: l2) -> (length l1 < fuel)%nat ->
  (forall x, x ∈ l1 -> body x h s = Some (false, h, s)) -> body a h s = Some (true, h', s') ->
  (pos ← next_of h hd; list_for_each fuel hd body pos h s) = Some (h', s').
Proof.
  intros [Hnd Hs]. apply NoDup_cons in Hnd as [Hhd _]. revert Hs.
  generalize hd at 1 4 as p. revert fuel.
  induction l1 as [|b l1 IH]; intros fuel p Hs Hf Hb Ha; cbn [app dseg] in Hs;
    destruct Hs as (-> & _ & Hs); cbn [mbind option_bind];
    (destruct fuel as [|fuel]; cbn [length] in Hf; [lia|]);
    apply not_elem_of_cons in Hhd as [Hne Hhd]; cbn [list_for_each].
  - destruct (Z.eqb_spec a hd); [congruence|]. by rewrite Ha.
  - destruct (Z.eqb_spec b hd); [congruence|]. rewrite Hb by (by left). cbn [mbind option_bind].
    apply (IH Hhd fuel b Hs); [lia| |done]. intros x Hx. apply Hb. by right.
Qed.

(** A fresh node is not on the list. *)
Lemma dlist_fresh h hd l a n :
  dlist h hd l -> h !! a = None -> (a ∉ hd :: l) /\ dlist (<[a := n]> h) hd l.
Proof.
  intros [Hnd Hs] Ha. assert (Hn : a ∉ hd :: l).
  { intros Hx. destruct (dseg_data _ _ _ _ Hs a Hx) as [x Hd]. unfold data_of in Hd. by rewrite Ha in Hd. }
  split; [done|]. split; [done|]. apply (dseg_ext h); [| |done]; intros x Hx;
    unfold next_of, prev_of; rewrite lookup_insert_ne; try done; intros ->; apply Hn; [done|].
  apply elem_of_app in Hx as [Hx|Hx%list_elem_of_singleton]; [by right|subst; by left].
Qed.
End Ops.
