(* ===== verification/KString.v ===== *)
(** * Strings of the C library

    [strcmp], [strncmp] and [strncpy] on buffers of bytes, as the kernel has them
    ([kernel/linux/lib/string.c]): the comparisons return the difference of two
    signed characters, cut to a signed character; [strncpy] fills up with NULs and
    leaves no NUL behind a string that does not fit.  Running off a buffer is [None]. *)

From S2P Require Import Prelude.

Fixpoint strncpy (count : nat) (src : list Z) : option (list Z) :=
  match count with
  | O => Some []
  | S count' =>
      match src with
      | [] => None
      | c :: src' => r ← strncpy count' (if c =? 0 then src else src'); Some (c :: r)
      end
  end.

Fixpoint strcmp (cs ct : list Z) : option Z :=
  match cs, ct with
  | c :: cs', d :: ct' =>
      let res := s8 (s8 c - s8 d) in
      if negb (res =? 0) || (c =? 0) then Some res else strcmp cs' ct'
  | _, _ => None
  end.

Fixpoint strncmp (count : nat) (cs ct : list Z) : option Z :=
  match count with
  | O => Some 0
  | S count' =>
      match cs, ct with
      | c :: cs', d :: ct' =>
          let res := s8 (s8 c - s8 d) in
          if negb (res =? 0) || (c =? 0) then Some res else strncmp count' cs' ct'
      | _, _ => None
      end
  end.

(** ** What they compute *)

Lemma s8_sub c d : is_u8 c -> is_u8 d -> (s8 (s8 c - s8 d) =? 0) = (c =? d).
Proof.
  intros Hc Hd. assert (E : s8 (s8 c - s8 d) = 0 <-> c = d).
  { unfold s8, is_u8 in *. split; [intros H|intros ->; rewrite Z.sub_diag; done].
    assert (Hm : ((c + 2 ^ 7) mod 2 ^ 8 - 2 ^ 7 - ((d + 2 ^ 7) mod 2 ^ 8 - 2 ^ 7) + 2 ^ 7) mod 2 ^ 8 = 2 ^ 7) by lia.
    pose proof (Z.mod_pos_bound (c + 2 ^ 7) (2 ^ 8)). pose proof (Z.mod_pos_bound (d + 2 ^ 7) (2 ^ 8)).
    pose proof (Z.div_mod (c + 2 ^ 7) (2 ^ 8)). pose proof (Z.div_mod (d + 2 ^ 7) (2 ^ 8)).
    pose proof (Z.div_mod ((c + 2 ^ 7) mod 2 ^ 8 - 2 ^ 7 - ((d + 2 ^ 7) mod 2 ^ 8 - 2 ^ 7) + 2 ^ 7) (2 ^ 8)). lia. }
  destruct (Z.eqb_spec (s8 (s8 c - s8 d)) 0), (Z.eqb_spec c d); tauto.
Qed.

Lemma strcmp_spec cs ct :
  Forall is_u8 cs -> Forall is_u8 ct -> nul_terminated cs = true -> nul_terminated ct = true ->
  exists r, strcmp cs ct = Some r /\ (r = 0 <-> cstr cs = cstr ct).
Proof.
  intros Hc. revert ct. induction Hc as [|c cs Hc _ IH]; intros ct Ht Tc Tt; [done|].
  destruct Ht as [|d ct Hd Ht]; [done|]. cbn [strcmp cstr]. rewrite s8_sub by done.
  destruct (Z.eqb_spec c d) as [->|Hne]; cbn [negb orb].
  - destruct (Z.eqb_spec d 0) as [->|Hd0]; [exists (s8 (s8 0 - s8 0)); by split|].
    destruct (IH ct Ht) as (r & -> & Hr); [by eapply nul_terminated_cons..|].
    exists r. split; [done|]. rewrite Hr. split; [by intros ->|by intros [= ->]].
  - eexists. split; [done|]. split.
    + intros E. apply Z.eqb_eq in E. rewrite s8_sub in E by done. by apply Z.eqb_eq in E.
    + intros E. exfalso. revert E. ztest; congruence.
Qed.

Lemma strncmp_spec n cs ct :
  Forall is_u8 cs -> Forall is_u8 ct -> nul_terminated cs = true -> nul_terminated ct = true ->
  exists r, strncmp n cs ct = Some r /\ (r = 0 <-> take n (cstr cs) = take n (cstr ct)).
Proof.
  intros Hc. revert n ct. induction Hc as [|c cs Hc _ IH]; intros n ct Ht Tc Tt; [done|].
  destruct Ht as [|d ct Hd Ht]; [done|]. destruct n as [|n]; [by exists 0|].
  cbn [strncmp cstr]. rewrite s8_sub by done.
  destruct (Z.eqb_spec c d) as [->|Hne]; cbn [negb orb].
  - destruct (Z.eqb_spec d 0) as [->|Hd0]; [exists (s8 (s8 0 - s8 0)); by split|].
    destruct (IH n ct Ht) as (r & -> & Hr); [by eapply nul_terminated_cons..|].
    exists r. split; [done|]. rewrite Hr. cbn [take]. split; [by intros ->|by intros [= ->]].
  - eexists. split; [done|]. split.
    + intros E. apply Z.eqb_eq in E. rewrite s8_sub in E by done. by apply Z.eqb_eq in E.
    + intros E. exfalso. revert E. ztest; cbn [take]; congruence.
Qed.

Lemma strncpy_zeros n r : strncpy n (0 :: r) = Some (replicate n 0).
Proof. induction n as [|n IH]; [done|]. cbn [strncpy]. change (0 =? 0) with true. cbv iota. by rewrite IH. Qed.

Lemma strncpy_spec n src :
  nul_terminated src = true ->
  strncpy n src = Some (take n (cstr src) ++ replicate (n - length (cstr src)) 0).
Proof.
  revert src. induction n as [|n IH]; intros src H; [done|]. destruct src as [|c src]; [done|].
  cbn [cstr]. destruct (Z.eqb_spec c 0) as [->|Hc]; [apply strncpy_zeros|].
  cbn [strncpy]. destruct (Z.eqb_spec c 0); [done|].
  rewrite IH by (by eapply nul_terminated_cons). done.
Qed.
