(* ===== verification/DyingGasp.v ===== *)
(** * Dying gasp

    The power-failure handling of [board.c]: the list of callbacks
    ([kerSysInitDyingGaspHandler], [kerSysRegisterDyingGaspHandler],
    [kerSysDeregisterDyingGaspHandler], [kerSysDeinitDyingGaspHandler]) as a kernel list
    on a heap, the test of the power line ([kerSysDyingGaspCheckPowerLoss]) over the
    values that the cycle counter and the interrupt status register return, and the
    interrupt handler that calls the callbacks.  A callback is its address; a call is
    recorded with its argument. *)

From stdpp Require Import gmap.
From S2P Require Import Prelude BoardDefs BoardParms Led BoardInit KList KString.

(** ** The callbacks *)

Definition IFNAMSIZ : Z := 16.

Record CB_DGASP_LIST := mkHandler { name : list Z; cb_dgasp_fn : Z; context : Z }.

Record dgasp := mkDgasp { g_cb_dgasp_list_head : Z; dg_heap : gmap Z (list_node CB_DGASP_LIST) }.

(** [kmalloc] followed by [memset]: [new] is the address, 0 if there is no memory. *)
Definition new_zeroed (new : Z) (h : gmap Z (list_node CB_DGASP_LIST))
    : option (gmap Z (list_node CB_DGASP_LIST)) :=
  if new =? 0 then None
  else Some (<[new := mkNode 0 0 (mkHandler (replicate (Z.to_nat IFNAMSIZ) 0) 0 0)]> h).

Definition kerSysInitDyingGaspHandler (new : Z) (d : dgasp) : option dgasp :=
  if negb (g_cb_dgasp_list_head d =? 0) then Some d
  else
    h ← new_zeroed new (dg_heap d);
    h ← INIT_LIST_HEAD new h;
    Some (mkDgasp new h).

(** [devname] is [None] for a null pointer. *)
Definition kerSysRegisterDyingGaspHandler (new : Z) (devname : option (list Z)) (cbfn context : Z)
    (d : dgasp) : option dgasp :=
  if g_cb_dgasp_list_head d =? 0 then Some d
  else
    match devname with
    | None => Some d
    | Some devname =>
        if cbfn =? 0 then Some d
        else
          h ← new_zeroed new (dg_heap d);
          h ← INIT_LIST_HEAD new h;
          nm ← strncpy (Z.to_nat IFNAMSIZ) devname;
          n ← h !! new;
          let h := <[new := mkNode (node_next n) (node_prev n) (mkHandler nm cbfn context)]> h in
          h ← list_add new (g_cb_dgasp_list_head d) h;
          Some (mkDgasp (g_cb_dgasp_list_head d) h)
    end.

(** The body of the loop of [kerSysDeregisterDyingGaspHandler]: it returns after the
    first handler of that name. *)
Definition deregister_body (devname : list Z) (pos : Z) (h : gmap Z (list_node CB_DGASP_LIST)) (s : unit)
    : option (bool * gmap Z (list_node CB_DGASP_LIST) * unit) :=
  tmp ← data_of h pos;
  c ← strcmp (name tmp) devname;
  if c =? 0 then h ← list_del pos h; Some (true, delete pos h, s)
  else Some (false, h, s).

Definition kerSysDeregisterDyingGaspHandler (devname : option (list Z)) (d : dgasp) : option dgasp :=
  if g_cb_dgasp_list_head d =? 0 then Some d
  else
    match devname with
    | None => Some d
    | Some devname =>
        let hd := g_cb_dgasp_list_head d in
        pos ← next_of (dg_heap d) hd;
        '(h, _) ← list_for_each (size (dg_heap d)) hd (deregister_body devname) pos (dg_heap d) tt;
        Some (mkDgasp hd h)
    end.

(** The loop frees the node from which it then takes the next address. *)
Definition deinit_body (pos : Z) (h : gmap Z (list_node CB_DGASP_LIST)) (s : unit)
    : option (bool * gmap Z (list_node CB_DGASP_LIST) * unit) :=
  h ← list_del pos h; Some (false, delete pos h, s).

Definition kerSysDeinitDyingGaspHandler (d : dgasp) : option dgasp :=
  let hd := g_cb_dgasp_list_head d in
  if hd =? 0 then Some d
  else
    pos ← next_of (dg_heap d) hd;
    '(h, _) ← list_for_each (size (dg_heap d)) hd deinit_body pos (dg_heap d) tt;
    Some (mkDgasp 0 (delete hd h)).

(** ** The power line *)

Definition CYCLE_PER_US (chip : Chip) : Z :=
  match chip with BCM96338 | BCM96348 => 120 | BCM96358 => 150 | BCM96368 => 200 end.
Definition DG_GLITCH_TO (chip : Chip) : Z := 100 * CYCLE_PER_US chip.

(** The [n]-th value of the cycle counter, and the dying-gasp bit of the [n]-th value
    of [PERF->IrqStatus]. *)
Record readings := mkReadings { cycle : nat -> Z; line : nat -> bool }.

(** Positions in the two sequences. *)
Record at_reading := mkAt { at_cycle : nat; at_line : nat }.

(** [while ((kerSysGetCycleCount()-clk1) < CYCLE_PER_US*2) ;] *)
Fixpoint wait_cycles (fuel : nat) (chip : Chip) (w : readings) (clk1 : Z) (n : nat) : option nat :=
  match fuel with
  | O => None
  | S fuel' =>
      if u32 (cycle w n - clk1) <? CYCLE_PER_US chip * 2 then wait_cycles fuel' chip w clk1 (S n)
      else Some (S n)
  end.

(** The [do ... while] loop: the positions behind it. *)
Fixpoint glitch_loop (fuel : nat) (chip : Chip) (w : readings) (clk0 : Z) (p : at_reading) : option at_reading :=
  match fuel with
  | O => None
  | S fuel' =>
      let clk1 := cycle w (at_cycle p) in
      n ← wait_cycles (Z.to_nat (CYCLE_PER_US chip * 2 + 1)) chip w clk1 (S (at_cycle p));
      if line w (at_line p) then
        if u32 (cycle w n - clk0) <? DG_GLITCH_TO chip then
          glitch_loop fuel' chip w clk0 (mkAt (S n) (S (at_line p)))
        else Some (mkAt (S n) (S (at_line p)))
      else Some (mkAt n (S (at_line p)))
  end.

(** The result; on 0 the interrupt is enabled again. *)
Definition kerSysDyingGaspCheckPowerLoss (chip : Chip) (w : readings) (p : at_reading) : option (Z * at_reading) :=
  let clk0 := cycle w (at_cycle p) in
  p ← glitch_loop (Z.to_nat (DG_GLITCH_TO chip + 1)) chip w clk0 (mkAt (S (at_cycle p)) (at_line p));
  let p' := mkAt (at_cycle p) (S (at_line p)) in
  if negb (line w (at_line p)) then Some (0, mkAt (S (at_cycle p')) (at_line p')) else Some (1, p').

(** ** The interrupt handler *)

Definition FPERIPH : Z := 50000000.
Definition EMAC_CLK_EN (chip : Chip) : Z :=
  match chip with BCM96338 | BCM96348 => 0x10 | _ => Z.shiftl 31 17 end.
Definition SAR_CLK_EN (chip : Chip) : Z :=
  match chip with BCM96338 | BCM96348 => 0x20 | _ => Z.shiftl 1 11 end.
Definition USBS_CLK_EN (chip : Chip) : Z :=
  match chip with BCM96338 => 0x10 | BCM96348 => 0x40 | _ => Z.shiftl 1 10 end.
Definition USBH_CLK_EN : Z := 0x100.

(** The watchdog (its count and the writes to its control register) and the clocks of
    the blocks. *)
Record power_regs := mkPower { WatchDogDefCount : Z; WatchDogCtl : list Z; blkEnables : Z }.

Definition kerSysSetWdTimer (timeUs : Z) (r : power_regs) : power_regs :=
  mkPower (u32 (timeUs * (FPERIPH / 1000000))) (WatchDogCtl r ++ [0xFF00; 0x00FF]) (blkEnables r).

Definition kerSysDyingGaspShutdown (chip : Chip) (r : power_regs) : power_regs :=
  let r := kerSysSetWdTimer 1000000 r in
  match chip with
  | BCM96348 =>
      mkPower (WatchDogDefCount r) (WatchDogCtl r)
        (clear_bits (blkEnables r)
          (Z.lor (Z.lor (EMAC_CLK_EN chip) (USBS_CLK_EN chip)) (Z.lor USBH_CLK_EN (SAR_CLK_EN chip))))
  | BCM96358 =>
      mkPower (WatchDogDefCount r) (WatchDogCtl r)
        (clear_bits (blkEnables r) (Z.lor (Z.lor (EMAC_CLK_EN chip) (USBS_CLK_EN chip)) (SAR_CLK_EN chip)))
  | _ => r
  end.

Definition dsl_name : list Z := [100; 115; 108; 0].

(** The loop over the callbacks: the calls so far, and the DSL handler found. *)
Definition gasp_body (pos : Z) (h : gmap Z (list_node CB_DGASP_LIST))
    (s : list (Z * Z) * option CB_DGASP_LIST)
    : option (bool * gmap Z (list_node CB_DGASP_LIST) * (list (Z * Z) * option CB_DGASP_LIST)) :=
  let '(calls, dsl) := s in
  tmp ← data_of h pos;
  c ← strncmp 3 (name tmp) dsl_name;
  Some (false, h, if negb (c =? 0) then (calls ++ [(cb_dgasp_fn tmp, context tmp)], dsl) else (calls, Some tmp)).

Inductive isr_result :=
| IrqHandled (p : at_reading)
| PoweredDown (g : gpio_bank) (calls : list (Z * Z)) (r : power_regs).

Definition kerSysDyingGaspIsr (chip : Chip) (bp : option BOARD_PARAMETERS) (w : readings) (p : at_reading)
    (d : dgasp) (g : gpio_bank) (r : power_regs) : option isr_result :=
  '(loss, p) ← kerSysDyingGaspCheckPowerLoss chip w p;
  if negb (loss =? 0) then
    let g := kerSetWirelessPD chip bp WLAN_OFF g in
    pos ← next_of (dg_heap d) (g_cb_dgasp_list_head d);
    '(_, (calls, dsl)) ← list_for_each (size (dg_heap d)) (g_cb_dgasp_list_head d) gasp_body pos (dg_heap d) ([], None);
    let calls := calls ++ match dsl with Some t => [(cb_dgasp_fn t, context t)] | None => [] end in
    Some (PoweredDown g calls (kerSysDyingGaspShutdown chip r))
  else Some (IrqHandled p).

(** ** The registry *)

(** A name that fits into the 16 bytes with its NUL. *)
Definition dev_name_ok (devname : list Z) : Prop :=
  Forall is_u8 devname /\ nul_terminated devname = true /\ zlen (cstr devname) < IFNAMSIZ.

Definition handler_ok (t : CB_DGASP_LIST) : Prop := Forall is_u8 (name t) /\ nul_terminated (name t) = true.

(** The name as it is stored. *)
Definition padded (devname : list Z) : list Z :=
  cstr devname ++ replicate (Z.to_nat IFNAMSIZ - length (cstr devname)) 0.

Lemma cstr_bytes l : Forall is_u8 l -> Forall is_u8 (cstr l).
Proof. induction 1 as [|c l Hc _ IH]; cbn [cstr]; [done|]. destruct (c =? 0); [done|by constructor]. Qed.

Lemma padded_ok devname :
  dev_name_ok devname -> strncpy (Z.to_nat IFNAMSIZ) devname = Some (padded devname) /\
    Forall is_u8 (padded devname) /\ nul_terminated (padded devname) = true /\
    cstr (padded devname) = cstr devname.
Proof.
  intros (Hb & Ht & Hl). unfold padded, zlen, IFNAMSIZ in *.
  rewrite strncpy_spec, take_ge by (done || lia). split; [done|].
  destruct (Z.to_nat 16 - length (cstr devname))%nat as [|k] eqn:Ek; [lia|]. cbn [replicate]. split_and!.
  - apply Forall_app. split; [by apply cstr_bytes|]. constructor; [done|]. by apply Forall_replicate.
  - unfold nul_terminated. rewrite existsb_app. cbn [existsb]. apply orb_true_r.
  - apply cstr_app_nul, cstr_no_nul.
Qed.

(** What the list of callbacks stands for: the most recent first. *)
Definition registered (devname : list Z) (fn ctx : Z) (l : list CB_DGASP_LIST) : list CB_DGASP_LIST :=
  mkHandler (padded devname) fn ctx :: l.

Fixpoint deregistered (devname : list Z) (l : list CB_DGASP_LIST) : list CB_DGASP_LIST :=
  match l with
  | [] => []
  | t :: l' => if decide (cstr (name t) = cstr devname) then l' else t :: deregistered devname l'
  end.

(** The nodes [ids] of the list hold [l]. *)
Definition holds (d : dgasp) (ids : list Z) (l : list CB_DGASP_LIST) : Prop :=
  g_cb_dgasp_list_head d <> 0 /\ dlist (dg_heap d) (g_cb_dgasp_list_head d) ids /\
  Forall2 (fun id t => data_of (dg_heap d) id = Some t) ids l /\ Forall handler_ok l.

Definition registry (d : dgasp) (l : list CB_DGASP_LIST) : Prop := exists ids, holds d ids l.

Lemma new_node_ok new h :
  new <> 0 -> exists h0 t, new_zeroed new h = Some h0 /\
    INIT_LIST_HEAD new h0 = Some (<[new := mkNode new new t]> h).
Proof.
  intros Hn. unfold new_zeroed. destruct (Z.eqb_spec new 0); [done|]. do 2 eexists. split; [done|].
  unfold INIT_LIST_HEAD, set_next, set_prev. rewrite lookup_insert_eq. cbn [mbind option_bind].
  rewrite lookup_insert_eq. cbn [mbind option_bind]. by rewrite !insert_insert_eq.
Qed.

(** The handlers of the DSL driver. *)
Definition is_dsl (t : CB_DGASP_LIST) : bool := bool_decide (take 3 (cstr (name t)) = [100; 115; 108]).

Lemma strncmp_dsl (t : CB_DGASP_LIST) :
  handler_ok t -> exists c, strncmp 3 (name t) dsl_name = Some c /\ negb (c =? 0) = negb (is_dsl t).
Proof.
  intros [Hb Ht]. destruct (strncmp_spec 3 (name t) dsl_name) as (c & -> & Hc);
    [done|by repeat constructor|done|done|].
  exists c. split; [done|]. f_equal. unfold is_dsl.
  change (take 3 (cstr dsl_name)) with [100; 115; 108] in Hc.
  case_bool_decide; destruct (Z.eqb_spec c 0); tauto.
Qed.

Lemma Forall2_data (h h' : gmap Z (list_node CB_DGASP_LIST)) ids l :
  (forall x, x ∈ ids -> data_of h' x = data_of h x) ->
  Forall2 (fun id t => data_of h id = Some t) ids l -> Forall2 (fun id t => data_of h' id = Some t) ids l.
Proof.
  intros He H. induction H as [|id t ids l Hd _ IH]; [done|]. constructor; [rewrite He; [done|by left]|].
  apply IH. intros x Hx. apply He. by right.
Qed.

Lemma register_ok new devname fn ctx d l :
  registry d l -> dev_name_ok devname -> fn <> 0 -> new <> 0 -> dg_heap d !! new = None ->
  exists d', kerSysRegisterDyingGaspHandler new (Some devname) fn ctx d = Some d' /\
    registry d' (registered devname fn ctx l).
Proof.
  intros (ids & Hh & Hl & Hf & Hok) Hn Hfn Hnew Hfree.
  destruct (padded_ok devname Hn) as (Es & Hpb & Hpt & Hpc).
  unfold kerSysRegisterDyingGaspHandler. destruct (Z.eqb_spec (g_cb_dgasp_list_head d) 0); [done|].
  destruct (Z.eqb_spec fn 0); [done|].
  destruct (new_node_ok new (dg_heap d) Hnew) as (h0 & t & -> & E1).
  cbn [mbind option_bind]. rewrite E1, Es. cbn [mbind option_bind]. rewrite lookup_insert_eq.
  cbn [mbind option_bind node_next node_prev]. rewrite insert_insert_eq.
  destruct (dlist_fresh _ _ _ new (mkNode new new (mkHandler (padded devname) fn ctx)) Hl Hfree) as [Hnin Hl1].
  destruct (list_add_ok _ _ _ new Hl1 Hnin) as (h2 & E2 & Hl2 & Hd2);
    [unfold data_of; rewrite lookup_insert_eq; cbn; eauto|].
  rewrite E2. cbn [mbind option_bind]. eexists. split; [done|]. exists (new :: ids). split; [done|].
  split; [done|]. cbn [dg_heap]. split; [|constructor; [by split|done]]. constructor.
  - rewrite Hd2. unfold data_of. by rewrite lookup_insert_eq.
  - apply (Forall2_data (dg_heap d)); [|done]. intros x Hx. rewrite Hd2. unfold data_of.
    rewrite lookup_insert_ne; [done|]. intros ->. apply Hnin. by right.
Qed.

Lemma deregistered_split devname l :
  (Forall (fun t => cstr (name t) <> cstr devname) l /\ deregistered devname l = l) \/
  (exists l1 t l2, l = l1 ++ t :: l2 /\ cstr (name t) = cstr devname /\
    Forall (fun t => cstr (name t) <> cstr devname) l1 /\ deregistered devname l = l1 ++ l2).
Proof.
  induction l as [|t l IH]; [by left|]. cbn [deregistered]. destruct (decide (cstr (name t) = cstr devname)) as [E|E].
  - right. by exists [], t, l.
  - destruct IH as [[H1 ->]|(l1 & t' & l2 & -> & Ht & H1 & ->)]; [left; split; [by constructor|done]|].
    right. exists (t :: l1), t', l2. split; [done|]. split; [done|]. split; [by constructor|done].
Qed.

Lemma deregister_other devname pos h t :
  dev_name_ok devname -> handler_ok t -> data_of h pos = Some t -> cstr (name t) <> cstr devname ->
  deregister_body devname pos h tt = Some (false, h, tt).
Proof.
  intros (Hb & Ht & _) [Hb' Ht'] Hd Hne. unfold deregister_body. rewrite Hd. cbn [mbind option_bind].
  destruct (strcmp_spec (name t) devname Hb' Hb Ht' Ht) as (r & -> & Hr). cbn [mbind option_bind].
  destruct (Z.eqb_spec r 0); [tauto|done].
Qed.

Lemma bind_assoc_next {S T : Type} (h : gmap Z (list_node CB_DGASP_LIST)) hd
    (f : Z -> option S) (k : S -> option T) :
  (pos ← next_of h hd; x ← f pos; k x) = (x ← (pos ← next_of h hd; f pos); k x).
Proof. by destruct (next_of h hd). Qed.

Lemma Forall2_elem_l {A B} (P : A -> B -> Prop) l1 l2 x :
  Forall2 P l1 l2 -> x ∈ l1 -> exists y, y ∈ l2 /\ P x y.
Proof.
  intros H Hx. apply list_elem_of_lookup in Hx as [i Hi]. destruct (Forall2_lookup_l _ _ _ _ _ H Hi) as (y & Hy & HP).
  exists y. split; [by eapply list_elem_of_lookup_2|done].
Qed.

Lemma deregister_ok devname d l :
  registry d l -> dev_name_ok devname ->
  exists d', kerSysDeregisterDyingGaspHandler (Some devname) d = Some d' /\
    registry d' (deregistered devname l).
Proof.
  intros (ids & Hh & Hl & Hf & Hok) Hn. unfold kerSysDeregisterDyingGaspHandler.
  destruct (Z.eqb_spec (g_cb_dgasp_list_head d) 0); [done|]. pose proof (dlist_length _ _ _ Hl) as Hsz.
  destruct (deregistered_split devname l) as [[Hne ->]|(l1 & t & l2 & -> & Ht & Hne & ->)].
  - exists d. split; [|by exists ids].
    rewrite (bind_assoc_next (dg_heap d)).
    rewrite (list_for_each_fold _ _ _ _ (fun s _ => s) _ tt Hl); [by destruct d|lia|].
    intros x [] Hx. destruct (Forall2_elem_l _ _ _ _ Hf Hx) as (t & Ht & Hd).
    rewrite Forall_forall in Hne, Hok. apply (deregister_other devname x _ t); auto.
  - apply Forall2_app_inv_r in Hf as (ids1 & ids' & Hf1 & Hf' & ->).
    apply Forall2_cons_inv_r in Hf' as (id & ids2 & Hd & Hf2 & ->).
    destruct (list_del_ok _ _ _ _ _ Hl) as (h1 & Ed & Hl1 & _ & Hd1).
    rewrite bind_assoc_next.
    rewrite (list_for_each_leave _ _ _ ids1 id ids2 _ tt (delete id h1) tt Hl).
    + eexists. split; [done|]. exists (ids1 ++ ids2). split; [done|]. cbn [dg_heap g_cb_dgasp_list_head].
      assert (Hid : id ∉ g_cb_dgasp_list_head d :: ids1 ++ ids2).
      { destruct Hl as [Hnd _]. apply NoDup_cons in Hnd as [Ha Hnd].
        rewrite <- Permutation_middle in Ha, Hnd. apply NoDup_cons in Hnd as [Hi _]. apply not_elem_of_cons in Ha as [? _].
        apply not_elem_of_cons. split; [congruence|done]. }
      split; [by apply dlist_kfree|]. apply Forall_app in Hok as [Hok1 Hok2]. apply Forall_cons in Hok2 as [_ Hok2].
      split; [|by apply Forall_app]. apply (Forall2_data (dg_heap d)); [|by apply Forall2_app].
      intros x Hx. rewrite <- Hd1. unfold data_of. rewrite lookup_delete_ne; [done|].
      intros ->. apply Hid. by right.
    + rewrite length_app in Hsz. cbn in Hsz. lia.
    + intros x Hx. destruct (Forall2_elem_l _ _ _ _ Hf1 Hx) as (t' & Ht' & Hd').
      apply Forall_app in Hok as [Hok1 _]. rewrite Forall_forall in Hne, Hok1.
      apply (deregister_other devname x _ t'); auto.
    + unfold deregister_body. rewrite Hd. cbn [mbind option_bind]. destruct Hn as (Hb & Hz & _).
      apply Forall_app in Hok as [_ Hok]. apply Forall_cons in Hok as [[Hb' Hz'] _].
      destruct (strcmp_spec (name t) devname Hb' Hb Hz' Hz) as (r & -> & Hr). cbn [mbind option_bind].
      destruct (Z.eqb_spec r 0); [by rewrite Ed|tauto].
Qed.

(** ** The interrupt handler *)

Definition call_of (t : CB_DGASP_LIST) : Z * Z := (cb_dgasp_fn t, context t).

(** The calls on a power failure: every handler but those of the DSL driver, then the
    last of those in the list. *)
Definition gasp_calls (l : list CB_DGASP_LIST) : list (Z * Z) :=
  map call_of (List.filter (fun t => negb (is_dsl t)) l) ++
  match last (List.filter is_dsl l) with Some t => [call_of t] | None => [] end.

Definition gasp_step (s : list (Z * Z) * option CB_DGASP_LIST) (t : CB_DGASP_LIST) :=
  if negb (is_dsl t) then (fst s ++ [call_of t], snd s) else (fst s, Some t).

Lemma gasp_fold l calls dsl :
  foldl gasp_step (calls, dsl) l =
    (calls ++ map call_of (List.filter (fun t => negb (is_dsl t)) l),
     match last (List.filter is_dsl l) with Some t => Some t | None => dsl end).
Proof.
  revert calls dsl. induction l as [|t l IH]; intros calls dsl; cbn [foldl List.filter map last].
  - by rewrite app_nil_r.
  - unfold gasp_step at 2. cbn [fst snd]. destruct (is_dsl t) eqn:Et; cbn [negb]; rewrite IH.
    + f_equal. destruct (List.filter is_dsl l) as [|t' l']; [done|]. change (last (t :: t' :: l')) with (last (t' :: l')). destruct (last (t' :: l')) eqn:E; [done|]. by apply last_None in E.
    + by rewrite <- app_assoc.
Qed.

Lemma foldl_Forall2 {S} (f : S -> CB_DGASP_LIST -> S) (g : S -> Z -> S) h ids l s :
  Forall2 (fun id t => data_of h id = Some t) ids l ->
  (forall s id t, data_of h id = Some t -> g s id = f s t) -> foldl g s ids = foldl f s l.
Proof. intros H Hg. revert s. induction H as [|id t ids l Hd _ IH]; intros s; [done|]. cbn. by rewrite (Hg _ _ _ Hd). Qed.

Lemma isr_calls chip bp w p p' d l g r :
  registry d l -> kerSysDyingGaspCheckPowerLoss chip w p = Some (1, p') ->
  kerSysDyingGaspIsr chip bp w p d g r =
    Some (PoweredDown (kerSetWirelessPD chip bp WLAN_OFF g) (gasp_calls l) (kerSysDyingGaspShutdown chip r)).
Proof.
  intros (ids & Hh & Hl & Hf & Hok) Hw. unfold kerSysDyingGaspIsr. rewrite Hw. cbn [mbind option_bind].
  change (negb (1 =? 0)) with true. cbv iota. pose proof (dlist_length _ _ _ Hl).
  rewrite (bind_assoc_next (dg_heap d)).
  rewrite (list_for_each_fold _ _ _ _
    (fun s id => match data_of (dg_heap d) id with Some t => gasp_step s t | None => s end) _ _ Hl); [|lia|].
  - cbn [mbind option_bind]. erewrite (foldl_Forall2 gasp_step); [|done|by intros s id t ->].
    rewrite gasp_fold. unfold gasp_calls. by destruct (last _).
  - intros x [calls dsl] Hx. destruct (Forall2_elem_l _ _ _ _ Hf Hx) as (t & Ht & Hd).
    unfold gasp_body. rewrite Hd. cbn [mbind option_bind]. rewrite Forall_forall in Hok.
    destruct (strncmp_dsl t (Hok t Ht)) as (c & -> & Hc). cbn [mbind option_bind].
    rewrite Hc. unfold gasp_step, call_of. by destruct (is_dsl t).
Qed.

(** ** Sequences of registrations *)

Inductive dg_op :=
| OpRegister (devname : list Z) (fn ctx : Z)
| OpDeregister (devname : list Z).

Definition op_ok (o : dg_op) : Prop :=
  match o with OpRegister n fn _ => dev_name_ok n /\ fn <> 0 | OpDeregister n => dev_name_ok n end.

Lemma init_ok new : new <> 0 -> exists d, kerSysInitDyingGaspHandler new (mkDgasp 0 ∅) = Some d /\ registry d [].
Proof.
  intros Hn. unfold kerSysInitDyingGaspHandler. cbn [g_cb_dgasp_list_head dg_heap].
  change (negb (0 =? 0)) with false. cbv iota. destruct (new_node_ok new ∅ Hn) as (h0 & t & -> & E).
  cbn [mbind option_bind]. rewrite E. cbn [mbind option_bind]. eexists. split; [done|]. exists [].
  split; [done|]. split; [|by split]. split; [apply NoDup_singleton|]. cbn [dseg dg_heap g_cb_dgasp_list_head].
  unfold next_of, prev_of. by rewrite lookup_insert_eq.
Qed.

Section Run.
(** The address that [kmalloc] returns. *)
Context (kmalloc : gmap Z (list_node CB_DGASP_LIST) -> Z).
Context (kmalloc_fresh : forall h, kmalloc h <> 0 /\ h !! kmalloc h = None).

Definition dg_step (o : dg_op) (d : dgasp) : option dgasp :=
  match o with
  | OpRegister n fn ctx => kerSysRegisterDyingGaspHandler (kmalloc (dg_heap d)) (Some n) fn ctx d
  | OpDeregister n => kerSysDeregisterDyingGaspHandler (Some n) d
  end.

Fixpoint dg_run (ops : list dg_op) (d : dgasp) : option dgasp :=
  match ops with
  | [] => Some d
  | o :: ops' => d ← dg_step o d; dg_run ops' d
  end.

Definition spec_step (l : list CB_DGASP_LIST) (o : dg_op) : list CB_DGASP_LIST :=
  match o with OpRegister n fn ctx => registered n fn ctx l | OpDeregister n => deregistered n l end.

Lemma dg_run_ok ops : forall d l,
  registry d l -> Forall op_ok ops -> exists d', dg_run ops d = Some d' /\ registry d' (foldl spec_step l ops).
Proof.
  induction ops as [|o ops IH]; intros d l Hr Hok; [by exists d|].
  apply Forall_cons in Hok as [Ho Hok]. cbn [dg_run foldl].
  assert (Hs : exists d1, dg_step o d = Some d1 /\ registry d1 (spec_step l o)).
  { destruct o as [n fn ctx|n]; cbn [dg_step spec_step op_ok] in *.
    - destruct Ho, (kmalloc_fresh (dg_heap d)). by apply register_ok.
    - by apply deregister_ok. }
  destruct Hs as (d1 & -> & Hr1). cbn [mbind option_bind]. by apply IH.
Qed.

Definition dg_init : option dgasp := kerSysInitDyingGaspHandler (kmalloc ∅) (mkDgasp 0 ∅).

Lemma dg_init_ok : exists d, dg_init = Some d /\ registry d [].
Proof. apply init_ok, kmalloc_fresh. Qed.

(** C15: After any sequence of registrations and deregistrations under valid names, the
    list in the heap stands for the sequence of handlers that the operations describe
    (the most recent first, a deregistration removes the first of that name), and on a
    power failure the interrupt handler turns the wireless off, calls every handler
    that is not a DSL driver's, in that order, then one DSL handler, and starts the
    shutdown. *)
Theorem gasp_handlers_called ops chip bp w p p' g r :
  Forall op_ok ops -> kerSysDyingGaspCheckPowerLoss chip w p = Some (1, p') ->
  exists d0 d, dg_init = Some d0 /\ dg_run ops d0 = Some d /\ registry d (foldl spec_step [] ops) /\
    kerSysDyingGaspIsr chip bp w p d g r =
      Some (PoweredDown (kerSetWirelessPD chip bp WLAN_OFF g) (gasp_calls (foldl spec_step [] ops))
              (kerSysDyingGaspShutdown chip r)).
Proof.
  intros Hok Hp. destruct dg_init_ok as (d0 & E0 & H0).
  destruct (dg_run_ok ops d0 [] H0 Hok) as (d & Ed & Hd). exists d0, d. split; [done|]. split; [done|].
  split; [done|]. by apply (isr_calls chip bp w p p').
Qed.

(** [kerSysDeinitDyingGaspHandler] works only on an empty list: with a handler
    registered it takes the address of the next node from the node that it has just
    freed. *)
Theorem deinit_use_after_free ops :
  Forall op_ok ops ->
  exists d0 d, dg_init = Some d0 /\ dg_run ops d0 = Some d /\
    (foldl spec_step [] ops <> [] -> kerSysDeinitDyingGaspHandler d = None) /\
    (foldl spec_step [] ops = [] ->
     exists d', kerSysDeinitDyingGaspHandler d = Some d' /\ g_cb_dgasp_list_head d' = 0).
Proof.
  intros Hok. destruct dg_init_ok as (d0 & E0 & H0).
  destruct (dg_run_ok ops d0 [] H0 Hok) as (d & Ed & ids & Hh & Hl & Hf & _). exists d0, d. split; [done|]. split; [done|].
  unfold kerSysDeinitDyingGaspHandler. destruct (Z.eqb_spec (g_cb_dgasp_list_head d) 0); [done|].
  pose proof (dlist_length _ _ _ Hl) as Hsz. split; intros Hne.
  - destruct ids as [|id ids]; [by apply Forall2_nil_inv_l in Hf|].
    destruct (list_del_ok _ _ [] id ids Hl) as (h1 & Edel & _).
    destruct Hl as [Hnd (Hn & _)]. rewrite Hn. cbn [mbind option_bind].
    destruct (size (dg_heap d)) as [|n']; [cbn in Hsz; lia|]. cbn [list_for_each].
    apply NoDup_cons in Hnd as [Hhd _]. apply not_elem_of_cons in Hhd as [Hhd _].
    destruct (Z.eqb_spec id (g_cb_dgasp_list_head d)); [congruence|].
    assert (Eb : deinit_body id (dg_heap d) tt = Some (false, delete id h1, tt))
      by (unfold deinit_body; by rewrite Edel).
    rewrite Eb. cbn [mbind option_bind]. unfold next_of at 1. by rewrite lookup_delete_eq.
  - rewrite Hne in Hf. apply Forall2_nil_inv_r in Hf. subst ids. destruct Hl as [_ [-> _]].
    cbn [mbind option_bind]. destruct (size (dg_heap d)); cbn [list_for_each]; rewrite Z.eqb_refl; cbn; eauto.
Qed.
End Run.

(** ** The test of the power line *)

(** The counter has 32 bits and runs; two readings are at most [D] cycles apart. *)
Definition running (w : readings) (T : nat -> Z) (D : Z) : Prop :=
  0 <= D <= 2 ^ 30 /\ forall n, cycle w n = u32 (T n) /\ T n < T (S n) <= T n + D.

Lemma elapsed w T D m n :
  running w T D -> 0 <= T n - T m < 2 ^ 32 -> u32 (cycle w n - cycle w m) = T n - T m.
Proof.
  intros [_ H] Hd. destruct (H m) as [-> _], (H n) as [-> _]. unfold u32.
  rewrite <- Zminus_mod. by apply Z.mod_small.
Qed.

(** A wait of two microseconds that starts with reading [m] of the counter and ends
    with reading [n], the first at which they are over. *)
Definition waited (chip : Chip) (T : nat -> Z) (m n : nat) : Prop :=
  (m < n)%nat /\ 2 * CYCLE_PER_US chip <= T n - T m /\
  forall i, (m < i < n)%nat -> T i - T m < 2 * CYCLE_PER_US chip.

(** The readings of the line behind the waits that end with the readings [polls] of the
    counter; the first wait starts with reading [m], the first reading of the line is
    number [j].  Each but the last is active and made before the 100 microseconds since
    reading [n0] are over; the last is not active, or they are over. *)
Fixpoint polled (chip : Chip) (w : readings) (T : nat -> Z) (n0 m j : nat) (polls : list nat) : Prop :=
  match polls with
  | [] => False
  | n :: polls' =>
      waited chip T m n /\
      match polls' with
      | [] => line w j = true -> 100 * CYCLE_PER_US chip <= T (S n) - T n0
      | _ => line w j = true /\ T (S n) - T n0 < 100 * CYCLE_PER_US chip /\
             polled chip w T n0 (S (S n)) (S j) polls'
      end
  end.

(** The next reading of the counter behind a last wait that ended with reading [n] and
    the reading [j] of the line: an active line makes the loop look at the time. *)
Definition behind (w : readings) (n j : nat) : nat := if line w j then S (S n) else S n.

Lemma wait_cycles_ok fuel chip w T D m : running w T D -> forall n,
  (m < n)%nat -> (forall i, (m < i < n)%nat -> T i - T m < 2 * CYCLE_PER_US chip) ->
  0 < T n - T m <= CYCLE_PER_US chip * 2 + D ->
  0 < Z.of_nat fuel -> CYCLE_PER_US chip * 2 - (T n - T m) < Z.of_nat fuel ->
  exists n', wait_cycles fuel chip w (cycle w m) n = Some (S n') /\ waited chip T m n' /\
    T m < T n' <= T m + CYCLE_PER_US chip * 2 + D.
Proof.
  intros Hw. assert (Hc : 0 <= CYCLE_PER_US chip <= 200) by (by destruct chip).
  destruct (Hw) as [HD HT].
  induction fuel as [|fuel IH]; intros n Hmn Hb Hn Hf0 Hf; cbn [wait_cycles]; [lia|].
  rewrite (elapsed w T D) by (done || lia). destruct (Z.ltb_spec (T n - T m) (CYCLE_PER_US chip * 2)).
  - destruct (HT n) as [_ Hs]. apply IH; try lia. intros i Hi.
    destruct (decide (i = n)) as [->|]; [lia|]. apply Hb. lia.
  - exists n. split; [done|]. split; [|lia]. split; [done|]. split; [lia|done].
Qed.

(** The loop ends. *)
Lemma glitch_loop_ok fuel chip w T D n0 : forall p,
  running w T D -> 0 < T (at_cycle p) - T n0 <= DG_GLITCH_TO chip + D ->
  0 < Z.of_nat fuel -> DG_GLITCH_TO chip - (T (at_cycle p) - T n0) < Z.of_nat fuel ->
  exists polls n k, length polls = S k /\ last polls = Some n /\
    polled chip w T n0 (at_cycle p) (at_line p) polls /\
    T n - T n0 <= 102 * CYCLE_PER_US chip + 2 * D /\
    glitch_loop fuel chip w (cycle w n0) p = Some (mkAt (behind w n (at_line p + k)) (S (at_line p + k))).
Proof.
  assert (Hc : 0 <= CYCLE_PER_US chip <= 200) by (by destruct chip).
  unfold DG_GLITCH_TO. induction fuel as [|fuel IH]; intros [m j] Hw Hn Hf0 Hf; cbn [glitch_loop at_cycle at_line] in *; [lia|].
  destruct (Hw) as [HD HT]. destruct (HT m) as [_ Hm].
  destruct (wait_cycles_ok (Z.to_nat (CYCLE_PER_US chip * 2 + 1)) chip w T D m Hw (S m))
    as (n & -> & Hwait & Hn'); [lia..|].
  cbn [mbind option_bind]. destruct (HT n) as [_ Hs].
  assert (Hlast : (line w j = true -> 100 * CYCLE_PER_US chip <= T (S n) - T n0) ->
    exists polls n1 k, length polls = S k /\ last polls = Some n1 /\ polled chip w T n0 m j polls /\
      T n1 - T n0 <= 102 * CYCLE_PER_US chip + 2 * D /\
      Some (mkAt (behind w n j) (S j)) = Some (mkAt (behind w n1 (j + k)) (S (j + k)))).
  { intros Hl. exists [n], n, 0%nat. rewrite Nat.add_0_r. split_and!; try done. lia. }
  unfold behind in Hlast at 1. destruct (line w j) eqn:El; [|by apply Hlast].
  rewrite (elapsed w T D) by (done || lia). unfold DG_GLITCH_TO.
  destruct (Z.ltb_spec (T (S n) - T n0) (100 * CYCLE_PER_US chip)); [|by apply Hlast].
  destruct (HT (S n)) as [_ Hs2].
  destruct (IH (mkAt (S (S n)) (S j))) as (polls & n1 & k & Hlen & Hl & Hp & Hb & ->);
    [done|cbn; lia|lia|cbn; lia|].
  destruct polls as [|n2 polls]; [done|]. cbn [at_line at_cycle] in *.
  exists (n :: n2 :: polls), n1, (S k). rewrite Nat.add_succ_r. split_and!; try done.
  cbn [length] in *. congruence.
Qed.

(** C37: The test of the power line ends, on every chip, whatever the line does, also
    across a wrap of the counter.  With a running 32-bit counter whose readings are at
    most [D] cycles apart (up to 2^30), [kerSysDyingGaspCheckPowerLoss] reads the line
    again and again, each time behind a wait that ends with the first reading of the
    counter two microseconds after its start; it goes on exactly as long as the line is
    active and 100 microseconds since its start are not over, so the last wait ends at
    most 102 microseconds and two readings after the start.  It then reads the line once
    more and returns 1 exactly if that reading is active, whatever the last one in the
    loop was; the positions behind it count every reading of both registers. *)
Theorem power_loss_test_ends chip w T D p :
  running w T D ->
  exists polls n k, length polls = S k /\ last polls = Some n /\
    polled chip w T (at_cycle p) (S (at_cycle p)) (at_line p) polls /\
    T n - T (at_cycle p) <= 102 * CYCLE_PER_US chip + 2 * D /\
    let c := behind w n (at_line p + k) in
    let j := S (at_line p + k) in
    kerSysDyingGaspCheckPowerLoss chip w p =
      Some (if line w j then (1, mkAt c (S j)) else (0, mkAt (S c) (S j))).
Proof.
  intros Hw. destruct (Hw) as [HD HT]. destruct (HT (at_cycle p)) as [_ Hp].
  assert (Hc : 0 <= CYCLE_PER_US chip <= 200) by (by destruct chip).
  destruct (glitch_loop_ok (Z.to_nat (DG_GLITCH_TO chip + 1)) chip w T D (at_cycle p) (mkAt (S (at_cycle p)) (at_line p)))
    as (polls & n & k & H1 & H2 & H3 & H4 & E); [done|unfold DG_GLITCH_TO; cbn; lia..|].
  unfold kerSysDyingGaspCheckPowerLoss. rewrite E. cbn [mbind option_bind at_line at_cycle] in *.
  exists polls, n, k. split_and!; try done. by destruct (line w (S (at_line p + k))).
Qed.

(** ** Witnesses *)

Definition demo_kmalloc (h : gmap Z (list_node CB_DGASP_LIST)) : Z := fresh ({[0]} ∪ dom h : gset Z).

Lemma demo_kmalloc_fresh h : demo_kmalloc h <> 0 /\ h !! demo_kmalloc h = None.
Proof.
  unfold demo_kmalloc. pose proof (is_fresh ({[0]} ∪ dom h : gset Z)) as H.
  apply not_elem_of_union in H as [H1 H2]. split; [|by apply not_elem_of_dom].
  intros E. apply H1. rewrite E. by apply elem_of_singleton.
Qed.

(** A counter that wraps, a line that stays active. *)
Definition demo_readings : readings := mkReadings (fun n => u32 (2 ^ 32 - 1000 + 100 * Z.of_nat n)) (fun _ => true).

(** "dsl0", then "usb", then "eth"; "usb" goes away. *)
Definition demo_ops : list dg_op :=
  [OpRegister [100; 115; 108; 48; 0] 7 1; OpRegister [117; 115; 98; 0] 5 2;
   OpRegister [101; 116; 104; 0] 6 3; OpDeregister [117; 115; 98; 0]].

Lemma demo_ops_ok : Forall op_ok demo_ops.
Proof. repeat constructor; cbn; done. Qed.

Lemma gasp_handlers_called_witness :
  exists d0 d g r, dg_init demo_kmalloc = Some d0 /\ dg_run demo_kmalloc demo_ops d0 = Some d /\
    kerSysDyingGaspIsr BCM96348 None demo_readings (mkAt 0 0) d (mkBank 0 0 0 0) (mkPower 0 [] 0xffff) =
      Some (PoweredDown g [(6, 3); (7, 1)] r).
Proof.
  assert (E : exists p', kerSysDyingGaspCheckPowerLoss BCM96348 demo_readings (mkAt 0 0) = Some (1, p'))
    by (eexists; by vm_compute).
  destruct E as [p' E].
  destruct (gasp_handlers_called demo_kmalloc demo_kmalloc_fresh demo_ops BCM96348 None demo_readings
    (mkAt 0 0) p' (mkBank 0 0 0 0) (mkPower 0 [] 0xffff) demo_ops_ok E) as (d0 & d & E0 & Ed & _ & Ei).
  exists d0, d. do 2 eexists. split; [exact E0|]. split; [exact Ed|]. exact Ei.
Defined.

Lemma deinit_use_after_free_witness :
  exists d0 d, dg_init demo_kmalloc = Some d0 /\ dg_run demo_kmalloc demo_ops d0 = Some d /\
    kerSysDeinitDyingGaspHandler d = None.
Proof.
  destruct (deinit_use_after_free demo_kmalloc demo_kmalloc_fresh demo_ops demo_ops_ok)
    as (d0 & d & E0 & Ed & H & _).
  exists d0, d. split; [exact E0|]. split; [exact Ed|]. by apply H.
Defined.

(** The line is active at the first reading only: two waits of 240 cycles with
    three readings each, one look at the time, and the reading behind the loop. *)
Definition glitch_readings : readings :=
  mkReadings (fun n => u32 (2 ^ 32 - 500 + 100 * Z.of_nat n)) (fun n => bool_decide (n < 1)%nat).

Lemma power_loss_test_ends_witness :
  exists polls n k, length polls = S k /\ last polls = Some n /\
    polled BCM96348 glitch_readings (fun n => 2 ^ 32 - 500 + 100 * Z.of_nat n) 0 1 0 polls /\
    kerSysDyingGaspCheckPowerLoss BCM96348 glitch_readings (mkAt 0 0) = Some (0, mkAt 11 3).
Proof.
  destruct (power_loss_test_ends BCM96348 glitch_readings (fun n => 2 ^ 32 - 500 + 100 * Z.of_nat n) 100 (mkAt 0 0))
    as (polls & n & k & H1 & H2 & H3 & _).
  - split; [lia|]. intros n. split; [done|lia].
  - exists polls, n, k. split_and!; try assumption. by vm_compute.
Defined.
