(* ===== verification/Buttons.v ===== *)
(** * Buttons and the link monitor

    The interrupts of [board.c] that a user causes: the reset button ([reset_isr]) with
    its count of interrupts, the SES button ([sesBtn_mapIntr], [sesBtn_isr],
    [sesLed_mapGpio], [ses_board_init], [ses_board_deinit]), the poll of the wireless
    button ([pollWirelessProtect]); and the monitor task of the link state, whose file's
    poll function is replaced ([BOARD_IOCTL_SET_MONITOR_FD], [kerSysMonitorPollHook],
    [kerSysWakeupMonitorTask]).  [jiffies] is an argument; the poll functions of other
    drivers are the parameter [driver_poll]. *)

From stdpp Require Import gmap.
From S2P Require Import Prelude BoardDefs BoardParms Led BoardInit SectorMap FlashApi FlashStore ImageSet.

(** ** The monitor task *)

(** A poll function: that of a driver, or [kerSysMonitorPollHook]. *)
Inductive poll_fn := DriverPoll (id : Z) | MonitorHook.

(** Files and tasks are addresses.  [f_op] gives the operations of a file, which the
    files of a driver share; [fop_poll] their poll functions. *)
Record monitor := mkMonitor {
  g_wakeup_monitor : Z; g_monitor_file : Z; g_monitor_task : Z;
  g_orig_fop_poll : option poll_fn; fop_poll : gmap Z poll_fn; woken : list Z
}.

Definition POLLPRI : Z := 2.

Section Monitor.
Context (f_op : Z -> Z) (driver_poll : Z -> Z -> Z).

(** [BOARD_IOCTL_SET_MONITOR_FD] for the file that [fget_light] found (0 if none). *)
Definition set_monitor_fd (file current : Z) (m : monitor) : option monitor :=
  if file =? 0 then
    Some (mkMonitor (g_wakeup_monitor m) 0 (g_monitor_task m) (g_orig_fop_poll m) (fop_poll m) (woken m))
  else
    orig ← fop_poll m !! f_op file;
    Some (mkMonitor (g_wakeup_monitor m) file current (Some orig)
            (<[f_op file := MonitorHook]> (fop_poll m)) (woken m)).

Definition kerSysWakeupMonitorTask (m : monitor) : monitor :=
  mkMonitor 1 (g_monitor_file m) (g_monitor_task m) (g_orig_fop_poll m) (fop_poll m)
    (if negb (g_monitor_task m =? 0) then woken m ++ [g_monitor_task m] else woken m).

(** The code of [kerSysMonitorPollHook] behind the call of the original function. *)
Definition hook_mask (f mask : Z) (m : monitor) : Z * monitor :=
  if (g_wakeup_monitor m =? 1) && (g_monitor_file m =? f) then
    (Z.lor mask POLLPRI,
     mkMonitor 0 (g_monitor_file m) (g_monitor_task m) (g_orig_fop_poll m) (fop_poll m) (woken m))
  else (mask, m).

(** A call of a poll function; [fuel] bounds the depth of the calls. *)
Fixpoint call_poll (fuel : nat) (fn : poll_fn) (f : Z) (m : monitor) : option (Z * monitor) :=
  match fuel with
  | O => None
  | S fuel' =>
      match fn with
      | DriverPoll id => Some (driver_poll id f, m)
      | MonitorHook =>
          orig ← g_orig_fop_poll m;
          '(mask, m) ← call_poll fuel' orig f m;
          Some (hook_mask f mask m)
      end
  end.

(** The system call on the file [f]. *)
Definition sys_poll (fuel : nat) (f : Z) (m : monitor) : option (Z * monitor) :=
  fn ← fop_poll m !! f_op f; call_poll fuel fn f m.
End Monitor.

(** ** The reset button *)

Definition MAX_DELAY_SECOND : Z := 3.
Definition MAX_DELAY_COUNT : Z := 20.
Definition RESET_ISR_INTERVAL : Z := MAX_DELAY_SECOND * 1000 / MAX_DELAY_COUNT.

(** [r_irqs] are the enabled interrupts, [r_delay] the milliseconds spent in [mdelay]. *)
Record reset_button := mkReset {
  g_resetCount : Z; g_lastRcdJiff : Z; requestUserModeResetToDefault : Z;
  r_irqs : gset Z; r_delay : Z
}.

(** "Reset Persistent" without its NUL. *)
Definition reset_mark : list Z :=
  [82; 101; 115; 101; 116; 32; 80; 101; 114; 115; 105; 115; 116; 101; 110; 116].

Section Reset.
Context {F : Type} (g_flash_info : option (flash_device_info_t F)) (alloc : bool) (fInfo : FLASH_ADDR_INFO).

(** Whether the driver is built with [SUPPORT_PORT_MAP] or [BRCM_DRIVER_USB]. *)
Context (user_mode : bool).

(** [now] and [now'] are [jiffies] before and behind the delay. *)
Definition reset_isr (irq now now' : Z) (s : reset_button) (m : monitor) (f : F)
    : option (outcome (reset_button * monitor * F)) :=
  let count :=
    if negb (g_lastRcdJiff s =? 0) && negb (g_resetCount s =? 0) && (100 <? u32 (now - g_lastRcdJiff s))
    then 0 else g_resetCount s in
  let irqs := r_irqs s ∖ {[irq]} in
  if count <? MAX_DELAY_COUNT then
    Some (Returns 0 (mkReset (u32 (count + 1)) (u32 now') (requestUserModeResetToDefault s) ({[irq]} ∪ irqs)
                       (r_delay s + RESET_ISR_INTERVAL), m, f))
  else if user_mode then
    Some (Returns 0 (mkReset count (g_lastRcdJiff s) 1 irqs (r_delay s), kerSysWakeupMonitorTask m, f))
  else
    '(_, f) ← kerSysPersistentSet g_flash_info alloc fInfo reset_mark 16 0 f;
    '(_, f) ← kerSysDarePersistentSet g_flash_info alloc fInfo reset_mark 16 0 f;
    Some (BoardReset (mkReset count (g_lastRcdJiff s) (requestUserModeResetToDefault s) irqs (r_delay s), m, f)).
End Reset.

(** ** The SES button *)

(** [ses_mapped] lists the interrupts with a handler. *)
Record ses_state := mkSes { sesBtn_irq : Z; sesLed_gpio : Z; ses_mapped : list Z; ses_enabled : gset Z }.

Definition sesBtn_mapIntr (chip : Chip) (bp : option BOARD_PARAMETERS) (s : ses_state) : ses_state :=
  let '(r, irq) := BpGetWirelessSesExtIntr bp in
  if r =? BP_SUCCESS then
    let irq := map_external_irq chip irq in
    mkSes irq (sesLed_gpio s) (ses_mapped s ++ [irq]) ({[irq]} ∪ ses_enabled s)
  else mkSes irq (sesLed_gpio s) (ses_mapped s) (ses_enabled s).

Definition sesLed_mapGpio (bp : option BOARD_PARAMETERS) (s : ses_state) : ses_state :=
  mkSes (sesBtn_irq s) (snd (BpGetWirelessSesLedGpio bp)) (ses_mapped s) (ses_enabled s).

Definition ses_board_init (chip : Chip) (bp : option BOARD_PARAMETERS) (s : ses_state) : ses_state :=
  sesLed_mapGpio bp (sesBtn_mapIntr chip bp s).

Definition ses_board_deinit (s : ses_state) : ses_state :=
  if negb (sesBtn_irq s =? 0) then
    mkSes (sesBtn_irq s) (sesLed_gpio s) (ses_mapped s) (ses_enabled s ∖ {[sesBtn_irq s]})
  else s.

(** The handler: whether it wakes the readers, and its result. *)
Definition sesBtn_isr (chip : Chip) (ExtIrqCfg ExtIrqCfg1 : Z) (s : ses_state) : option (bool * Z) :=
  pressed ← sesBtn_pressed chip ExtIrqCfg ExtIrqCfg1 (sesBtn_irq s);
  Some (if (pressed : bool) then (true, 1) else (false, 0)).

(** ** The wireless button *)

Definition HZ : Z := 200.

(** The flag, the GPIO registers, the monitor and when the timer expires next. *)
Definition pollWirelessProtect (chip : Chip) (bp : option BOARD_PARAMETERS) (jiffies wl_protect_flag : Z)
    (g : gpio_bank) (m : monitor) : Z * gpio_bank * monitor * Z :=
  let '(curWlState, g) := kerGetWirelessProtectState chip bp g in
  if curWlState =? 0 then (0, g, kerSysWakeupMonitorTask m, u32 (jiffies + HZ * 10))
  else (wl_protect_flag, g, m, u32 (jiffies + HZ * 1)).

(** ** The reset button: what it takes *)

Section ResetSpec.
Context {F : Type} (g : option (flash_device_info_t F)) (alloc : bool) (fInfo : FLASH_ADDR_INFO) (irq : Z).

(** A sequence of interrupts, each with [jiffies] before and behind its delay. *)
Fixpoint presses (evs : list (Z * Z)) (s : reset_button) (m : monitor) (f : F)
    : option (outcome (reset_button * monitor * F)) :=
  match evs with
  | [] => Some (Returns 0 (s, m, f))
  | (now, now') :: evs' =>
      r ← reset_isr g alloc fInfo true irq now now' s m f;
      match r with
      | Returns _ (s, m, f) => presses evs' s m f
      | BoardReset x => Some (BoardReset x)
      end
  end.

(** The next interrupt comes within 100 jiffies (half a second) of the last one. *)
Definition soon (e e' : Z * Z) : Prop := u32 (fst e' - snd e) <= 100.

Fixpoint steady (evs : list (Z * Z)) : Prop :=
  match evs with
  | e :: ((e' :: _) as evs') => soon e e' /\ steady evs'
  | _ => True
  end.

Definition requested (s : reset_button) : Prop := requestUserModeResetToDefault s = 1.

(** One interrupt of a driver that asks the application. *)
Lemma reset_isr_user now now' s m f :
  exists s' m', reset_isr g alloc fInfo true irq now now' s m f = Some (Returns 0 (s', m', f)) /\
    ((exists c, s' = mkReset (u32 (c + 1)) (u32 now') (requestUserModeResetToDefault s) (r_irqs s') (r_delay s') /\
        c < MAX_DELAY_COUNT /\
        (c = g_resetCount s /\ (g_lastRcdJiff s = 0 \/ c = 0 \/ u32 (now - g_lastRcdJiff s) <= 100) \/
         c = 0 /\ g_lastRcdJiff s <> 0 /\ 100 < u32 (now - g_lastRcdJiff s))) \/
     (requested s' /\ MAX_DELAY_COUNT <= g_resetCount s /\
      (g_lastRcdJiff s <> 0 -> u32 (now - g_lastRcdJiff s) <= 100))).
Proof.
  unfold reset_isr. cbv zeta.
  destruct (Z.eqb_spec (g_lastRcdJiff s) 0) as [Hl|Hl], (Z.eqb_spec (g_resetCount s) 0) as [Hc|Hc],
    (Z.ltb_spec 100 (u32 (now - g_lastRcdJiff s))); cbn [negb andb];
    match goal with |- context [?c <? MAX_DELAY_COUNT] => destruct (Z.ltb_spec c MAX_DELAY_COUNT) end;
    do 2 eexists; (split; [done|]); unfold MAX_DELAY_COUNT in *; try lia;
    solve [left; eexists; split; [done|]; split; [done|]; tauto |
           right; split; [done|]; split; [lia|]; intros; done || lia].
Qed.

Lemma steady_app l e : steady l -> (forall e0, last l = Some e0 -> soon e0 e) -> steady (l ++ [e]).
Proof.
  induction l as [|a l IH]; intros Hs Hl; [done|]. destruct l as [|b l]; [by split; [apply Hl|]|].
  destruct Hs as [H1 H2]. split; [done|]. by apply IH.
Qed.

(** The button was held: 21 interrupts in a row. *)
Definition held (evs : list (Z * Z)) : Prop :=
  exists l1 w l2, evs = l1 ++ w ++ l2 /\ length w = 21%nat /\ steady w.

Lemma held_app evs l : held evs -> held (evs ++ l).
Proof.
  intros (l1 & w & l2 & -> & Hw & Hs). exists l1, w, (l2 ++ l). by rewrite <- !app_assoc.
Qed.

(** The count is that of the last interrupts in a row. *)
Definition counted (evs : list (Z * Z)) (s : reset_button) : Prop :=
  (requested s /\ held evs) \/
  (requestUserModeResetToDefault s = 0 /\ exists l1 w, evs = l1 ++ w /\ steady w /\
     Z.of_nat (length w) = g_resetCount s /\ g_resetCount s <= MAX_DELAY_COUNT /\
     (w <> [] -> exists e, last w = Some e /\ g_lastRcdJiff s = snd e /\ 0 < snd e)).

Lemma counted_step evs s s' c now now' :
  counted evs s -> 0 < now' < 2 ^ 32 -> c < MAX_DELAY_COUNT ->
  s' = mkReset (u32 (c + 1)) (u32 now') (requestUserModeResetToDefault s) (r_irqs s') (r_delay s') ->
  c = g_resetCount s /\ (g_lastRcdJiff s = 0 \/ c = 0 \/ u32 (now - g_lastRcdJiff s) <= 100) \/ c = 0 ->
  counted (evs ++ [(now, now')]) s'.
Proof.
  intros Hc Hn Hm -> Hcase. destruct Hc as [[Hr Hh]|(Hr & l1 & w & -> & Hs & Hl & Hmax & Hlast)];
    [left; split; [done|by apply held_app]|]. unfold MAX_DELAY_COUNT in *.
  right. split; [done|]. cbn [g_resetCount g_lastRcdJiff]. rewrite (u32_id now') by (unfold is_u32; lia).
  destruct Hcase as [[-> Hg]| ->].
  - exists l1, (w ++ [(now, now')]). rewrite app_assoc, length_app, u32_id by (unfold is_u32; lia).
    split; [done|]. split.
    { apply steady_app; [done|]. intros e0 He0. destruct w as [|a w]; [done|].
      destruct (Hlast ltac:(done)) as (e & He & Hj & Hp). rewrite He in He0. injection He0 as ->.
      unfold soon. cbn [fst]. rewrite <- Hj. cbn [length] in Hl. lia. }
    split; [cbn [length]; lia|]. split; [unfold MAX_DELAY_COUNT; lia|]. intros _. exists (now, now').
    rewrite last_snoc. split; [done|]. split; [done|]. cbn. lia.
  - exists (l1 ++ w), [(now, now')]. split; [done|]. split; [done|]. split; [done|]. split; [done|].
    intros _. exists (now, now'). split; [done|]. split; [done|]. cbn. lia.
Qed.

Lemma presses_counted evs : forall pre s m f,
  counted pre s -> Forall (fun e => 0 < snd e < 2 ^ 32) evs ->
  exists s' m', presses evs s m f = Some (Returns 0 (s', m', f)) /\ counted (pre ++ evs) s'.
Proof.
  induction evs as [|[now now'] evs IH]; intros pre s m f Hc Hf; [exists s, m; by rewrite app_nil_r|].
  apply Forall_cons in Hf as [He Hf]. cbn [presses].
  destruct (reset_isr_user now now' s m f) as (s1 & m1 & -> & Hstep). cbn [mbind option_bind].
  replace (pre ++ (now, now') :: evs) with ((pre ++ [(now, now')]) ++ evs) by by rewrite <- app_assoc.
  apply IH; [|done]. destruct Hstep as [(c & Hs1 & Hm & Hcase)|(Hr & Hm & Hg)].
  - apply (counted_step pre s s1 c); [done|done|done|done|]. tauto.
  - left. split; [done|]. destruct Hc as [[_ Hh]|(_ & l1 & w & -> & Hs & Hl & Hmax & Hlast)]; [by apply held_app|].
    unfold MAX_DELAY_COUNT in *. exists l1, (w ++ [(now, now')]), []. rewrite app_nil_r, <- app_assoc.
    split; [done|]. split; [rewrite length_app; cbn [length]; lia|]. apply steady_app; [done|].
    intros e0 He0. destruct w as [|a w]; [done|]. destruct (Hlast ltac:(done)) as (e & E & Hj & Hp).
    rewrite E in He0. injection He0 as ->. unfold soon. cbn [fst]. rewrite <- Hj. apply Hg. lia.
Qed.

Lemma presses_app l1 : forall l2 s m f s1 m1,
  presses l1 s m f = Some (Returns 0 (s1, m1, f)) -> presses (l1 ++ l2) s m f = presses l2 s1 m1 f.
Proof.
  induction l1 as [|[now now'] l1 IH]; intros l2 s m f s1 m1 H; cbn [app presses] in *; [by injection H as -> ->|].
  destruct (reset_isr_user now now' s m f) as (s' & m' & E & _). rewrite E in *. cbn [mbind option_bind] in *.
  by apply IH.
Qed.

Lemma presses_total evs : forall s m f, exists s' m', presses evs s m f = Some (Returns 0 (s', m', f)).
Proof.
  induction evs as [|[now now'] evs IH]; intros s m f; cbn [presses]; [by exists s, m|].
  destruct (reset_isr_user now now' s m f) as (s1 & m1 & -> & _). apply IH.
Qed.

(** A request stays. *)
Lemma presses_requested evs : forall s m f s' m',
  requested s -> presses evs s m f = Some (Returns 0 (s', m', f)) -> requested s'.
Proof.
  induction evs as [|[now now'] evs IH]; intros s m f s' m' Hr H; cbn [presses] in H; [by injection H as <- _|].
  destruct (reset_isr_user now now' s m f) as (s1 & m1 & E & Hs). rewrite E in H. cbn [mbind option_bind] in H.
  apply (IH s1 m1 f s' m'); [|done]. destruct Hs as [(c & -> & _)|[? _]]; done.
Qed.

(** Behind the interrupt [e], with [k] or more counted, [20 - k] further ones count up
    and the next one asks for the reset. *)
Lemma steady_requests evs : forall k e s m f s' m',
  0 <= k <= g_resetCount s -> g_resetCount s <= MAX_DELAY_COUNT -> g_lastRcdJiff s = snd e -> 0 < snd e ->
  steady (e :: evs) -> Forall (fun e => 0 < snd e < 2 ^ 32) evs ->
  MAX_DELAY_COUNT - k < Z.of_nat (length evs) ->
  presses evs s m f = Some (Returns 0 (s', m', f)) -> requested s'.
Proof.
  induction evs as [|[now now'] evs IH]; intros k e s m f s' m' Hk Hmax Hj Hp Hs Hf Hlen H; [cbn in Hlen; lia|].
  apply Forall_cons in Hf as [He Hf]. destruct Hs as [Hsoon Hs]. cbn [presses] in H.
  destruct (reset_isr_user now now' s m f) as (s1 & m1 & E & Hstep). rewrite E in H. cbn [mbind option_bind] in H.
  destruct Hstep as [(c & Hs1 & Hm & Hc)|[Hr _]]; [|by eapply presses_requested].
  unfold soon in Hsoon. cbn [fst snd] in *. rewrite <- Hj in Hsoon.
  assert (c = g_resetCount s) as -> by lia. unfold MAX_DELAY_COUNT in *.
  rewrite (u32_id now') in Hs1 by (unfold is_u32; lia). rewrite u32_id in Hs1 by (unfold is_u32; lia).
  assert (C : g_resetCount s1 = g_resetCount s + 1) by by rewrite Hs1.
  assert (J : g_lastRcdJiff s1 = now') by by rewrite Hs1.
  apply (IH (k + 1) (now, now') s1 m1 f s' m'); try done; cbn [length] in Hlen; cbn; lia.
Qed.

End ResetSpec.

(** ** The reset to the defaults by the driver *)

Section FactoryReset.
Context {F : Type} {dev : flash_device_info_t F} {FLASH_BASE : Z} {sizes : list Z}
  {img : F -> list Z} {HL : FlashLaws dev FLASH_BASE sizes img}.
Abbreviation g := (Some dev).
Abbreviation addr s fInfo := (sect_addr (sizes := sizes) s fInfo).

Lemma store_get_start s fInfo n f :
  sect_placed (sizes := sizes) s fInfo -> 0 <= n <= sect_limit s fInfo ->
  store_get (dev := dev) s true fInfo n 0 f = Some (0, slice (addr s fInfo) n (img f)).
Proof.
  intros Hp Hn. rewrite store_get_eq, (section_get_ok (HL := HL)) by (done || lia). by rewrite Z.add_0_r.
Qed.

Lemma sect_range s fInfo :
  sect_placed (sizes := sizes) s fInfo -> 0 <= addr s fInfo /\ addr s fInfo + sect_limit s fInfo <= zsum sizes.
Proof. apply (placed_range (HL := HL)). Qed.

(** The reset to the defaults.  In a driver that does not ask the application, the
    interrupt behind the twentieth counted one writes the reset mark to the start of
    both configurations and resets the board; on a device that works both configurations
    read back with the mark, and nothing else in the flash has changed. *)
Theorem factory_reset_marks {HR : FlashReliable dev sizes} fInfo irq now now' s m f :
  sect_placed (sizes := sizes) PSI fInfo -> sect_placed (sizes := sizes) PSI2 fInfo ->
  16 <= sect_limit PSI fInfo -> 16 <= sect_limit PSI2 fInfo ->
  addr PSI fInfo + 16 <= addr PSI2 fInfo \/ addr PSI2 fInfo + 16 <= addr PSI fInfo ->
  g_resetCount s = MAX_DELAY_COUNT -> u32 (now - g_lastRcdJiff s) <= 100 ->
  exists s' f', reset_isr g true fInfo false irq now now' s m f = Some (BoardReset (s', m, f')) /\
    kerSysPersistentGet g true fInfo 16 0 f' = Some (0, reset_mark) /\
    kerSysDarePersistentGet g true fInfo 16 0 f' = Some (0, reset_mark) /\
    img f' = splice (addr PSI2 fInfo) reset_mark (splice (addr PSI fInfo) reset_mark (img f)).
Proof.
  intros H1 H2 L1 L2 Hd Hc Hn.
  assert (Hb : Forall is_u8 reset_mark) by by_decide.
  destruct (store_works (HL := HL) (HR := HR) PSI fInfo reset_mark 16 0 f) as (f1 & E1 & I1 & _);
    [done|done|done|lia|done|].
  destruct (store_works (HL := HL) (HR := HR) PSI2 fInfo reset_mark 16 0 f1) as (f2 & E2 & I2 & G2);
    [done|done|done|lia|done|].
  change (slice 0 16 reset_mark) with reset_mark in *. rewrite Z.add_0_r in I1, I2.
  cbn [store_set store_get] in E1, E2, G2. unfold reset_isr. cbv zeta.
  destruct (Z.ltb_spec 100 (u32 (now - g_lastRcdJiff s))); [lia|]. rewrite andb_false_r, Hc.
  rewrite Z.ltb_irrefl, E1. cbn [mbind option_bind]. rewrite E2. cbn [mbind option_bind].
  do 2 eexists. split; [done|]. split_and!; [|done|by rewrite I2, I1].
  pose proof (store_get_start PSI fInfo 16 f2 H1) as G1. cbn [store_get] in G1. rewrite G1 by lia.
  do 2 f_equal. rewrite I2.
  destruct (sect_range PSI fInfo H1) as [A1 B1], (sect_range PSI2 fInfo H2) as [A2 B2].
  assert (Zm : zlen reset_mark = 16) by done.
  pose proof (laws_img (FlashLaws := HL) f) as Hi. pose proof (laws_img (FlashLaws := HL) f1) as Hi1.
  assert (Em : slice (addr PSI fInfo) 16 (img f1) = reset_mark)
    by (rewrite I1; apply (slice_splice_eq (addr PSI fInfo) reset_mark); lia).
  destruct Hd; [rewrite slice_splice_before|rewrite slice_splice_after]; done || lia.
Qed.
End FactoryReset.

(** ** The monitor's poll function *)

Section MonitorSpec.
Context (f_op : Z -> Z) (driver_poll : Z -> Z -> Z).
Abbreviation poll := (sys_poll f_op driver_poll).

(** The wake-up of the monitor task.  Once its file is set, a wake-up wakes the task,
    and the next poll of the file returns the driver's events and [POLLPRI]; the poll
    after that returns the driver's events only, so a wake-up is seen exactly once; and
    the polls of other files of the same driver return what they returned before and
    leave the wake-up for the monitor's file. *)
Theorem monitor_wakes_once file current id m :
  file <> 0 -> current <> 0 -> fop_poll m !! f_op file = Some (DriverPoll id) ->
  exists m1 m2, set_monitor_fd f_op file current m = Some m1 /\
    woken (kerSysWakeupMonitorTask m1) = woken m1 ++ [current] /\
    poll 2 file (kerSysWakeupMonitorTask m1) = Some (Z.lor (driver_poll id file) POLLPRI, m2) /\
    poll 2 file m2 = Some (driver_poll id file, m2) /\
    forall other, other <> file -> f_op other = f_op file ->
      poll 2 other (kerSysWakeupMonitorTask m1) = Some (driver_poll id other, kerSysWakeupMonitorTask m1).
Proof.
  intros Hf Hc Hp. unfold set_monitor_fd. destruct (Z.eqb_spec file 0); [done|]. rewrite Hp. cbn [mbind option_bind].
  do 2 eexists. split; [done|]. unfold kerSysWakeupMonitorTask, sys_poll. cbn.
  rewrite lookup_insert_eq. cbn. unfold hook_mask. cbn. rewrite !Z.eqb_refl. cbn [andb].
  destruct (Z.eqb_spec current 0); [done|]. split; [done|]. split; [done|]. cbn. rewrite lookup_insert_eq.
  split; [done|]. intros other Ho Hop. rewrite Hop, lookup_insert_eq. cbn.
  destruct (Z.eqb_spec file other); [congruence|]. done.
Qed.

(** Setting the monitor's file twice breaks the driver of the file.  The second
    command, for the same file or another one with the same operations, takes the hook
    for the original poll function; from then on the poll of any file of that driver
    calls itself without end. *)
Theorem monitor_set_twice file file' current current' id m :
  file <> 0 -> file' <> 0 -> f_op file' = f_op file -> fop_poll m !! f_op file = Some (DriverPoll id) ->
  exists m1 m2, set_monitor_fd f_op file current m = Some m1 /\ set_monitor_fd f_op file' current' m1 = Some m2 /\
    forall fuel f, f_op f = f_op file -> poll fuel f m2 = None.
Proof.
  intros Hf Hf' Ho Hp. unfold set_monitor_fd at 1. destruct (Z.eqb_spec file 0); [done|]. rewrite Hp.
  cbn [mbind option_bind]. do 2 eexists. split; [done|]. unfold set_monitor_fd. destruct (Z.eqb_spec file' 0); [done|].
  cbn [fop_poll]. rewrite Ho, lookup_insert_eq. split; [done|]. intros fuel f Hop. unfold sys_poll.
  cbn [fop_poll]. rewrite Hop, lookup_insert_eq. cbn [mbind option_bind].
  induction fuel as [|fuel IH]; [done|]. cbn [call_poll g_orig_fop_poll mbind option_bind]. by rewrite IH.
Qed.
End MonitorSpec.

(** ** Witnesses *)

Definition demo_monitor : monitor := mkMonitor 0 0 0 None {[ 7 := DriverPoll 3 ]} [].

(** Two interrupts, and a button that is held: every 16 jiffies, delay included. *)
Definition demo_press : list (Z * Z) := [(10, 25); (26, 41)].
Definition demo_hold : list (Z * Z) := map (fun i => (16 * Z.of_nat i, 16 * Z.of_nat i + 15)) (seq 1 21).


Lemma factory_reset_marks_witness :
  exists s' f', reset_isr (Some demo_dev) true demo_info false 5 26 41 (mkReset 20 25 0 ∅ 0) demo_monitor [] =
      Some (BoardReset (s', demo_monitor, f')) /\
    kerSysPersistentGet (Some demo_dev) true demo_info 16 0 f' = Some (0, reset_mark).
Proof.
  destruct (factory_reset_marks (HL := Nor.laws demo_sizes demo_ok) (HR := Nor.reliable demo_sizes demo_ok)
    demo_info 5 26 41 (mkReset 20 25 0 ∅ 0) demo_monitor []) as (s' & f' & E & G & _).
  - apply demo_placed.
  - apply demo_placed.
  - by vm_compute.
  - by vm_compute.
  - right. by vm_compute.
  - done.
  - by vm_compute.
  - exists s', f'. exact (conj E G).
Defined.

Lemma monitor_wakes_once_witness :
  exists m1 m2, set_monitor_fd (fun _ => 7) 100 200 demo_monitor = Some m1 /\
    sys_poll (fun _ => 7) (fun _ _ => 1) 2 100 (kerSysWakeupMonitorTask m1) = Some (3, m2).
Proof.
  destruct (monitor_wakes_once (fun _ => 7) (fun _ _ => 1) 100 200 3 demo_monitor) as (m1 & m2 & E1 & _ & E2 & _).
  - done.
  - done.
  - done.
  - exists m1, m2. exact (conj E1 E2).
Defined.

Lemma monitor_set_twice_witness :
  exists m1 m2, set_monitor_fd (fun _ => 7) 100 200 demo_monitor = Some m1 /\
    set_monitor_fd (fun _ => 7) 100 200 m1 = Some m2 /\
    forall fuel, sys_poll (fun _ => 7) (fun _ _ => 1) fuel 100 m2 = None.
Proof.
  destruct (monitor_set_twice (fun _ => 7) (fun _ _ => 1) 100 100 200 200 3 demo_monitor)
    as (m1 & m2 & E1 & E2 & H).
  - done.
  - done.
  - done.
  - done.
  - exists m1, m2. split; [exact E1|]. split; [exact E2|]. intros fuel. exact (H fuel 100 eq_refl).
Defined.
