(* ===== verification/Ioctl.v ===== *)
(** * The board device

    [board_ioctl] of [board.c] with the functions only it calls ([dare_verify_tag],
    [ConfigCs], [sesLed_ctrl], [kerGetWirelessProtectFlag]) and the other operations of
    the device ([board_open], [board_release], [board_poll], [board_read], [sesBtn_poll], [sesBtn_read]): the entry
    from user space to the flash, the LEDs, the MAC pool and the board parameters.  The
    caller's memory is a finite map from addresses to bytes; [copy_from_user] fails
    where it is not mapped, [__copy_to_user] stops there, and an access of the kernel
    through an unmapped pointer is [None]. *)

From stdpp Require Import gmap.
From S2P Require Import Prelude BoardDefs BoardParms Led BoardInit SectorMap FlashApi FlashStore.
From S2P Require Import ScratchPad ImageSet Nvram ImageTag MacPool KString Buttons.

(** ** The caller's memory *)

Abbreviation umem := (gmap Z Z).

(** The mapped bytes from [p] on, [n] at most. *)
Fixpoint uview (m : umem) (p : Z) (n : nat) : list Z :=
  match n with
  | O => []
  | S n' => match m !! p with Some b => b :: uview m (p + 1) n' | None => [] end
  end.

(** What a kernel function can read through the pointer [p]. *)
Definition uptr (m : umem) (p : Z) : list Z := uview m p (size m).

Definition copy_from_user (m : umem) (p n : Z) : option (list Z) :=
  let d := uview m p (Z.to_nat n) in if zlen d =? n then Some d else None.

Fixpoint copy_to_user (m : umem) (p : Z) (d : list Z) : umem :=
  match d with
  | [] => m
  | b :: d' => match m !! p with Some _ => copy_to_user (<[p := b]> m) (p + 1) d' | None => m end
  end.

(** A store of the kernel through the pointer. *)
Definition ustore (m : umem) (p : Z) (d : list Z) : option umem :=
  _ ← copy_from_user m p (zlen d); Some (copy_to_user m p d).

(** ** Parameters and commands *)

Record BOARD_IOCTL_PARMS := mkParms {
  p_string : Z; p_buf : Z; p_strLen : Z; p_offset : Z; p_action : Z; p_result : Z
}.

Definition sizeof_PARMS : Z := 24.

Definition word (d : list Z) (i : Z) : Z := be32_get (slice (4 * i) 4 d).

Definition decode_parms (d : list Z) : BOARD_IOCTL_PARMS :=
  mkParms (u32 (word d 0)) (u32 (word d 1)) (word d 2) (word d 3) (word d 4) (word d 5).

Definition encode_parms (p : BOARD_IOCTL_PARMS) : list Z :=
  be32 (p_string p) ++ be32 (p_buf p) ++ be32 (p_strLen p) ++ be32 (p_offset p) ++
  be32 (p_action p) ++ be32 (p_result p).

Definition get_parms (m : umem) (arg : Z) : option BOARD_IOCTL_PARMS :=
  decode_parms <$> copy_from_user m arg sizeof_PARMS.

Definition put_parms (m : umem) (arg : Z) (p : BOARD_IOCTL_PARMS) : umem :=
  copy_to_user m arg (encode_parms p).

Definition set_result (p : BOARD_IOCTL_PARMS) (r : Z) : BOARD_IOCTL_PARMS :=
  mkParms (p_string p) (p_buf p) (p_strLen p) (p_offset p) (p_action p) r.
Definition set_strLen (p : BOARD_IOCTL_PARMS) (n : Z) : BOARD_IOCTL_PARMS :=
  mkParms (p_string p) (p_buf p) n (p_offset p) (p_action p) (p_result p).

(** [_IOWR('B', n, BOARD_IOCTL_PARMS)]: direction 6, size 24. *)
Definition BOARD_IOCTL (n : Z) : Z := 0xC0184200 + n.

Definition PERSISTENT : Z := 0.
Definition NVRAM : Z := 1.
Definition BCM_IMAGE_CFE : Z := 2.
Definition BCM_IMAGE_FS : Z := 3.
Definition BCM_IMAGE_KERNEL : Z := 4.
Definition BCM_IMAGE_WHOLE : Z := 5.
Definition SCRATCH_PAD : Z := 6.
Definition FLASH_SIZE : Z := 7.
Definition SET_CS_PARAM : Z := 8.
Definition DAREPERSISTENT : Z := 9.

Definition EACCES : Z := 13.

(** ** The signature *)

(** "6338GW2_DLINK". *)
Definition BCM_SIG_1 : list Z := [54; 51; 51; 56; 71; 87; 50; 95; 68; 76; 73; 78; 75; 0].

Definition dare_verify_tag (string : list Z) : option Z :=
  r1 ← strcmp (drop (Z.to_nat off_signiture_1) string) BCM_SIG_1;
  if negb (r1 =? 0) then
    r2 ← strcmp (drop (Z.to_nat (FLASH_LENGTH_BOOT_ROM + off_signiture_1)) string) BCM_SIG_1;
    Some (if negb (r2 =? 0) then 1 else 0)
  else Some 0.

(** ** Chip selects *)

Definition EBI_ENABLE : Z := 1.
Definition EBI_WAIT_STATES : Z := 0xe.
Definition EBI_WTST_SHIFT : Z := 1.
Definition EBI_TS_TA_MODE : Z := 0x80.
Definition EBI_SETUP_SHIFT : Z := 16.
Definition EBI_HOLD_SHIFT : Z := 20.
Definition EBI_SETUP_STATES : Z := 0x0f0000.
Definition EBI_HOLD_STATES : Z := 0xf00000.

(** [cs] holds base and configuration of the seven chip selects; the number comes from
    the caller unchecked. *)
Definition ConfigCs (chip : Chip) (m : umem) (parms : BOARD_IOCTL_PARMS) (cs : list (Z * Z))
    : option (Z * BOARD_IOCTL_PARMS * list (Z * Z)) :=
  match chip with
  | BCM96338 => Some (0, parms, cs)
  | _ =>
      match copy_from_user m (p_buf parms) 24 with
      | Some info =>
          let i := p_offset parms in
          if (0 <=? i) && (i <? zlen cs) then
            let base := Z.lor (Z.land (u32 (word info 1)) 0x1FFFE000) (u32 (Z.shiftr (word info 2) 13)) in
            let flags :=
              if word info 0 =? EBI_TS_TA_MODE then Z.lor EBI_TS_TA_MODE EBI_ENABLE
              else Z.lor EBI_ENABLE
                (Z.lor (Z.land EBI_WAIT_STATES (Z.shiftl (word info 3) EBI_WTST_SHIFT))
                  (Z.lor (Z.land EBI_SETUP_STATES (Z.shiftl (word info 4) EBI_SETUP_SHIFT))
                         (Z.land EBI_HOLD_STATES (Z.shiftl (word info 5) EBI_HOLD_SHIFT)))) in
            Some (0, set_result parms BP_SUCCESS, <[Z.to_nat i := (base, flags)]> cs)
          else None
      | None => Some (- EFAULT, set_result parms BP_NOT_DEFINED, cs)
      end
  end.

(** ** Counting switch ports *)

Definition c0 (n : Z) : Z := Z.land n 0x55555555 + Z.land (Z.shiftr n 1) 0x55555555.
Definition c1 (n : Z) : Z := Z.land n 0x33333333 + Z.land (Z.shiftr n 2) 0x33333333.
Definition c2 (n : Z) : Z := Z.land n 0x0f0f0f0f + Z.land (Z.shiftr n 4) 0x0f0f0f0f.
Definition bitcount (n : Z) : Z := Z.rem (s32 (c2 (s32 (c1 (s32 (c0 n)))))) 255.

(** The two commands that count do the same; [None] for [-EFAULT]. *)
Definition num_enet_ports (bp : option BOARD_PARAMETERS) (EnetInfos : list ETHERNET_MAC_INFO)
    : option (option Z) :=
  '(r, infos) ← BpGetEthernetMacInfo bp EnetInfos BP_MAX_ENET_MACS;
  Some (if r =? BP_SUCCESS then
          Some (foldl (fun n e => if negb (ucPhyType e =? BP_ENET_NO_PHY) then n + bitcount (port_map (sw e)) else n) 0 infos)
        else None).

(** ** State *)

(** [b_user] is the memory of the calling process, [b_kernel] what [SET_MEMORY] can
    write, [b_high] the upper GPIO registers (the lower ones are those of the LED
    driver), [b_cs] the chip selects, [b_events] the event mask of the open file,
    [b_irq] the interrupts that are enabled, [b_monitor] the monitor task. *)
Record board (F : Type) := mkBoard {
  b_flash : F; b_bp : option BOARD_PARAMETERS; b_leds : led_dev; b_high : Z * Z;
  b_mac : option MAC_INFO; b_user : umem; b_kernel : umem; b_cs : list (Z * Z);
  signature_bypass : Z; b_events : Z; wl_protect_flag : Z; b_irq : gset Z;
  b_monitor : monitor
}.
Arguments mkBoard {F}.
Arguments b_flash {F}. Arguments b_bp {F}. Arguments b_leds {F}. Arguments b_high {F}.
Arguments b_mac {F}. Arguments b_user {F}. Arguments b_kernel {F}. Arguments b_cs {F}.
Arguments signature_bypass {F}. Arguments b_events {F}. Arguments wl_protect_flag {F}.
Arguments b_irq {F}. Arguments b_monitor {F}.

Section Setters.
Context {F : Type} (b : board F).
Definition with_flash (f : F) := mkBoard f (b_bp b) (b_leds b) (b_high b) (b_mac b) (b_user b) (b_kernel b)
  (b_cs b) (signature_bypass b) (b_events b) (wl_protect_flag b) (b_irq b) (b_monitor b).
Definition with_bp (bp : option BOARD_PARAMETERS) := mkBoard (b_flash b) bp (b_leds b) (b_high b) (b_mac b)
  (b_user b) (b_kernel b) (b_cs b) (signature_bypass b) (b_events b) (wl_protect_flag b) (b_irq b) (b_monitor b).
Definition with_leds (d : led_dev) := mkBoard (b_flash b) (b_bp b) d (b_high b) (b_mac b) (b_user b) (b_kernel b)
  (b_cs b) (signature_bypass b) (b_events b) (wl_protect_flag b) (b_irq b) (b_monitor b).
Definition with_gpios (d : led_dev) (hi : Z * Z) := mkBoard (b_flash b) (b_bp b) d hi (b_mac b) (b_user b)
  (b_kernel b) (b_cs b) (signature_bypass b) (b_events b) (wl_protect_flag b) (b_irq b) (b_monitor b).
Definition with_mac (m : option MAC_INFO) := mkBoard (b_flash b) (b_bp b) (b_leds b) (b_high b) m (b_user b)
  (b_kernel b) (b_cs b) (signature_bypass b) (b_events b) (wl_protect_flag b) (b_irq b) (b_monitor b).
Definition with_user (m : umem) := mkBoard (b_flash b) (b_bp b) (b_leds b) (b_high b) (b_mac b) m (b_kernel b)
  (b_cs b) (signature_bypass b) (b_events b) (wl_protect_flag b) (b_irq b) (b_monitor b).
Definition with_kernel (m : umem) := mkBoard (b_flash b) (b_bp b) (b_leds b) (b_high b) (b_mac b) (b_user b) m
  (b_cs b) (signature_bypass b) (b_events b) (wl_protect_flag b) (b_irq b) (b_monitor b).
Definition with_cs (cs : list (Z * Z)) := mkBoard (b_flash b) (b_bp b) (b_leds b) (b_high b) (b_mac b) (b_user b)
  (b_kernel b) cs (signature_bypass b) (b_events b) (wl_protect_flag b) (b_irq b) (b_monitor b).
Definition with_bypass (v : Z) := mkBoard (b_flash b) (b_bp b) (b_leds b) (b_high b) (b_mac b) (b_user b)
  (b_kernel b) (b_cs b) v (b_events b) (wl_protect_flag b) (b_irq b) (b_monitor b).
Definition with_events (v : Z) := mkBoard (b_flash b) (b_bp b) (b_leds b) (b_high b) (b_mac b) (b_user b)
  (b_kernel b) (b_cs b) (signature_bypass b) v (wl_protect_flag b) (b_irq b) (b_monitor b).
Definition with_protect (v : Z) := mkBoard (b_flash b) (b_bp b) (b_leds b) (b_high b) (b_mac b) (b_user b)
  (b_kernel b) (b_cs b) (signature_bypass b) (b_events b) v (b_irq b) (b_monitor b).
Definition with_irq (irq : Z) := mkBoard (b_flash b) (b_bp b) (b_leds b) (b_high b) (b_mac b) (b_user b)
  (b_kernel b) (b_cs b) (signature_bypass b) (b_events b) (wl_protect_flag b) ({[irq]} ∪ b_irq b) (b_monitor b).
Definition with_monitor (m : monitor) := mkBoard (b_flash b) (b_bp b) (b_leds b) (b_high b) (b_mac b)
  (b_user b) (b_kernel b) (b_cs b) (signature_bypass b) (b_events b) (wl_protect_flag b) (b_irq b) m.
End Setters.

(** The GPIO registers as [SetGpio] sees them. *)
Definition gpios_of {F} (b : board F) : gpio_bank :=
  mkBank (GPIODir (GPIO (b_leds b))) (fst (b_high b)) (GPIOio (GPIO (b_leds b))) (snd (b_high b)).

Definition put_gpios {F} (b : board F) (g : gpio_bank) : board F :=
  let r := GPIO (b_leds b) in
  with_gpios b (with_gpio (b_leds b) (mkGpio (Dir g) (Io g) (SerialLed r) (LEDCtrl r))) (Dir_high g, Io_high g).

Definition led_state (n : Z) : BOARD_LED_STATE :=
  if n =? 0 then kLedStateOff else if n =? 1 then kLedStateOn else if n =? 2 then kLedStateFail
  else if n =? 3 then kLedStateBlinkOnce else if n =? 4 then kLedStateSlowBlinkContinues
  else if n =? 5 then kLedStateFastBlinkContinues else kLedStateInvalid n.

(** ** The SES button and LED *)

Definition SES_EVENTS : Z := 1.
Definition SES_LED_OFF : Z := 0.
Definition SES_LED_ON : Z := 1.
Definition SES_LED_BLINK : Z := 2.
Definition POLLIN : Z := 1.

Definition sesLed_ctrl (chip : Chip) (ledInit : bool) (sesLed_gpio action : Z) (d : led_dev) : option led_dev :=
  if sesLed_gpio =? BP_NOT_DEFINED then Some d
  else
    let action := Z.land action 0xff in
    kerSysLedCtrl chip ledInit kLedSes
      (if action =? SES_LED_ON then kLedStateOn
       else if action =? SES_LED_BLINK then kLedStateSlowBlinkContinues else kLedStateOff) d.

Definition kerGetWirelessProtectFlag (wl_protect_flag : Z) : Z * Z :=
  if wl_protect_flag =? 0 then (0, 1) else (1, wl_protect_flag).

(** ** The commands *)

Section Ioctl.
Context {F : Type} (chip : Chip) (g_flash_info : option (flash_device_info_t F)) (FLASH_BASE : Z).
Context (alloc copied : bool) (fInfo : FLASH_ADDR_INFO).

(** Values set at boot: sizes, the chip's revision register, the name of the system,
    the interrupt and LED of the SES button, whether the LEDs are initialised and
    whether a reset to the defaults was requested. *)
Context (g_ulPsiSize g_ulSdramSize RevID : Z) (system_type : list Z).
Context (sesBtn_irq sesLed_gpio : Z) (g_ledInitialized : bool) (requestUserModeResetToDefault : Z).

(** The flash as it is mapped into memory, the file that [fget_light] finds (0 if none),
    the operations of a file, and the calling task. *)
Context (mapped : F -> list Z) (fget f_op : Z -> Z) (current : Z).

(** What the variables of [board_ioctl] hold before they are set. *)
Context (stack_parms : BOARD_IOCTL_PARMS) (stack_nvram : list Z) (stack_enet : list ETHERNET_MAC_INFO).
Context (stack_mac : list Z).

Abbreviation BOARD := (board F).

(** Copy the parameters back and return. *)
Definition reply (arg : Z) (p : BOARD_IOCTL_PARMS) (ret : Z) (b : BOARD) : option (outcome BOARD) :=
  Some (Returns ret (with_user b (put_parms (b_user b) arg p))).

(** The NVRAM of the old image is written back when that of the new one is not valid;
    [BpSetBoardId] also sets the current board. *)
Definition keep_nvram (nvramData : list Z) (b : BOARD) : option BOARD :=
  '(r, tmp) ← readNvramData g_flash_info fInfo alloc stack_nvram (b_flash b);
  '(bad, bp) ← (if negb (r =? 0) then Some (true, b_bp b)
                else '(c, bp) ← BpSetBoardId chip (b_bp b) (drop (Z.to_nat off_szBoardId) tmp);
                     Some (negb (c =? BP_SUCCESS), bp));
  if (bad : bool) then
    '(_, f) ← writeNvramData g_flash_info fInfo alloc nvramData (b_flash b);
    Some (with_bp (with_flash b f) bp)
  else Some (with_bp b bp).

(** [BOARD_IOCTL_FLASH_WRITE] as far as [ret] is set. *)
Definition flash_write (p : BOARD_IOCTL_PARMS) (b : BOARD) : option (outcome BOARD) :=
  let m := b_user b in
  let string := uptr m (p_string p) in
  let f := b_flash b in
  let done r := '(ret, f) ← r; Some (Returns ret (with_flash b f)) in
  '(_, nvramData) ← readNvramData g_flash_info fInfo alloc stack_nvram f;
  if p_action p =? SCRATCH_PAD then
    if p_offset p =? -1 then done (kerSysScratchPadClearAll g_flash_info alloc fInfo f)
    else done (kerSysScratchPadSet g_flash_info alloc fInfo string
                 (if p_buf p =? 0 then None else Some (uptr m (p_buf p))) (p_offset p) f)
  else if p_action p =? PERSISTENT then
    done (kerSysPersistentSet g_flash_info alloc fInfo string (p_strLen p) (p_offset p) f)
  else if p_action p =? DAREPERSISTENT then
    done (kerSysDarePersistentSet g_flash_info alloc fInfo string (p_strLen p) (p_offset p) f)
  else if p_action p =? NVRAM then
    done (kerSysNvRamSet g_flash_info alloc fInfo string (p_strLen p) (p_offset p) f)
  else if p_action p =? BCM_IMAGE_CFE then
    if (p_strLen p <=? 0) || (FLASH_LENGTH_BOOT_ROM <? p_strLen p) then Some (Returns (-1) b)
    else
      r ← kerSysBcmImageSet g_flash_info FLASH_BASE alloc copied fInfo (p_offset p + BOOT_OFFSET FLASH_BASE)
            string (p_strLen p) f;
      match r with
      | BoardReset f => Some (BoardReset (with_flash b f))
      | Returns ret f => b ← keep_nvram nvramData (with_flash b f); Some (Returns ret b)
      end
  else if p_action p =? BCM_IMAGE_FS then
    ret ← dare_verify_tag string;
    if (ret =? 1) && (signature_bypass b =? 0) then Some (Returns ret b)
    else
      '(r, image) ← flashFsKernelImage g_flash_info FLASH_BASE alloc fInfo copied stack_nvram string f;
      let m := copy_to_user m (p_string p) image in
      match r with
      | BoardReset f => Some (BoardReset (with_flash (with_user b m) f))
      | Returns ret f =>
          let b := with_flash (with_user b m) f in
          Some (if ret =? 0 then BoardReset b else Returns ret b)
      end
  else if p_action p =? BCM_IMAGE_KERNEL then Some (Returns 0 b)
  else if p_action p =? BCM_IMAGE_WHOLE then
    if p_strLen p <=? 0 then Some (Returns (-1) b)
    else
      ret ← dare_verify_tag string;
      if (ret =? 1) && (signature_bypass b =? 0) then Some (Returns ret b)
      else
        let offset := if p_offset p =? 0 then FLASH_BASE else p_offset p in
        r ← kerSysBcmImageSet g_flash_info FLASH_BASE alloc copied fInfo offset string (p_strLen p) f;
        match r with
        | BoardReset f => Some (BoardReset (with_flash b f))
        | Returns _ f => b ← keep_nvram nvramData (with_flash b f); Some (BoardReset b)
        end
  else Some (Returns (- EINVAL) b).

(** [BOARD_IOCTL_FLASH_READ]: [ret] and the caller's memory. *)
Definition flash_read (p : BOARD_IOCTL_PARMS) (b : BOARD) : option (Z * umem) :=
  let m := b_user b in
  let f := b_flash b in
  let to ptr r := '(ret, d) ← r; m ← ustore m ptr d; Some (ret, m) in
  if p_action p =? SCRATCH_PAD then
    to (p_buf p) (kerSysScratchPadGet g_flash_info alloc fInfo (uptr m (p_string p)) (p_offset p) f)
  else if p_action p =? PERSISTENT then
    to (p_string p) (kerSysPersistentGet g_flash_info alloc fInfo (p_strLen p) (p_offset p) f)
  else if p_action p =? DAREPERSISTENT then
    to (p_string p) (kerSysDarePersistentGet g_flash_info alloc fInfo (p_strLen p) (p_offset p) f)
  else if p_action p =? NVRAM then
    to (p_string p) (kerSysNvRamGet g_flash_info alloc fInfo (p_strLen p) (p_offset p) f)
  else if p_action p =? FLASH_SIZE then Some (flash_get_total_size g_flash_info f, m)
  else Some (- EINVAL, m).

(** [BOARD_IOCTL_SET_MEMORY]: kernel addresses are not checked at all. *)
Definition set_memory (p : BOARD_IOCTL_PARMS) (b : BOARD) : option BOARD :=
  let d := if p_strLen p =? 4 then be32 (p_offset p)
           else if p_strLen p =? 2 then drop 2 (be32 (p_offset p))
           else if p_strLen p =? 1 then drop 3 (be32 (p_offset p)) else [] in
  if 2 ^ 31 <=? p_string p then
    Some (with_kernel b (foldl (fun m x => <[fst x := snd x]> m) (b_kernel b)
                           (imap (fun i v => (p_string p + Z.of_nat i, v)) d)))
  else
    m ← ustore (b_user b) (p_string p) d; Some (with_user b m).

Definition CFE_VERSION_OFFSET : Z := 0x570.
Definition CFE_VERSION_MARK_SIZE : Z := 5.
Definition CFE_VERSION_SIZE : Z := 5.

(** "cfe-v". *)
Definition cfe_mark : list Z := [99; 102; 101; 45; 118; 0].

Definition get_cfe_ver (arg : Z) (p : BOARD_IOCTL_PARMS) (b : BOARD) : option (outcome BOARD) :=
  let vertag := drop (Z.to_nat CFE_VERSION_OFFSET) (mapped (b_flash b)) in
  if p_strLen p <? CFE_VERSION_SIZE then reply arg (set_result p 0) (- EFAULT) b
  else
    r ← strncmp 5 vertag cfe_mark;
    if negb (r =? 0) then reply arg (set_result p 0) 0 b
    else
      d ← mem_read vertag CFE_VERSION_MARK_SIZE CFE_VERSION_SIZE;
      reply arg (set_result p 1) 0 (with_user b (copy_to_user (b_user b) (p_string p) d)).

(** The three commands for the event mask. *)
Definition set_trigger (arg : Z) (p : BOARD_IOCTL_PARMS) (b : BOARD) : option (outcome BOARD) :=
  if p_strLen p =? 4 then
    d ← copy_from_user (b_user b) (p_string p) 4;
    let b := with_events b (Z.lor (b_events b) (u32 (word d 0))) in
    if negb (Z.land (b_events b) SES_EVENTS =? 0) && negb (sesBtn_irq =? BP_NOT_DEFINED) then
      reply arg (set_result p 0) 0 (with_irq b sesBtn_irq)
    else reply arg (set_result p (- EFAULT)) (- EFAULT) b
  else Some (Returns (- EFAULT) b).

Definition get_trigger (arg : Z) (p : BOARD_IOCTL_PARMS) (b : BOARD) : option (outcome BOARD) :=
  if p_strLen p =? 4 then
    reply arg (set_result p 0) 0 (with_user b (copy_to_user (b_user b) (p_string p) (be32 (b_events b))))
  else Some (Returns (- EFAULT) b).

Definition unset_trigger (arg : Z) (p : BOARD_IOCTL_PARMS) (b : BOARD) : option (outcome BOARD) :=
  if p_strLen p =? 4 then
    d ← copy_from_user (b_user b) (p_string p) 4;
    reply arg (set_result p 0) 0 (with_events b (Z.ldiff (b_events b) (u32 (word d 0))))
  else Some (Returns (- EFAULT) b).

(** A command that needs the parameters: [on_fault] if they cannot be read. *)
Definition with_parms (arg : Z) (b : BOARD) (on_fault : Z) (k : BOARD_IOCTL_PARMS -> option (outcome BOARD))
    : option (outcome BOARD) :=
  match get_parms (b_user b) arg with
  | Some p => k p
  | None => Some (Returns on_fault b)
  end.

(** A command that sets only the result of the (uninitialised) parameters. *)
Definition answer (arg : Z) (v : Z) (b : BOARD) : option (outcome BOARD) :=
  reply arg (set_result stack_parms v) 0 b.

Definition board_ioctl (command arg : Z) (b : BOARD) : option (outcome BOARD) :=
  let cmd n := command =? BOARD_IOCTL n in
  let copy_out p d := with_user b (copy_to_user (b_user b) p d) in
  if cmd 0 then                                              (* FLASH_WRITE *)
    with_parms arg b (- EFAULT) (fun p =>
      r ← flash_write p b;
      match r with
      | Returns ret b => reply arg (set_result p ret) ret b
      | BoardReset b => Some (BoardReset b)
      end)
  else if cmd 1 then                                         (* FLASH_READ *)
    with_parms arg b (- EFAULT) (fun p =>
      '(ret, m) ← flash_read p b; reply arg (set_result p ret) ret (with_user b m))
  else if cmd 2 then                                         (* DUMP_ADDR *)
    with_parms arg b (- EFAULT) (fun p => reply arg (set_result p 0) 0 b)
  else if cmd 3 then                                         (* SET_MEMORY *)
    with_parms arg b (- EFAULT) (fun p => b ← set_memory p b; reply arg (set_result p 0) 0 b)
  else if cmd 4 then Some (BoardReset b)                     (* MIPS_SOFT_RESET *)
  else if cmd 5 then                                         (* LED_CTRL *)
    with_parms arg b 0 (fun p =>
      d ← kerSysLedCtrl chip g_ledInitialized (p_strLen p) (led_state (p_offset p)) (b_leds b);
      Some (Returns 0 (with_leds b d)))
  else if cmd 8 then                                         (* GET_ID *)
    with_parms arg b 0 (fun p =>
      if p_string p =? 0 then reply arg (set_result p 0) 0 b
      else
        let n := zlen (cstr system_type) + 1 in
        let p := if n <? u32 (p_strLen p) then set_strLen p n else p in
        d ← mem_read system_type 0 (u32 (p_strLen p));
        reply arg (set_result p 0) 0 (copy_out (p_string p) d))
  else if cmd 13 then                                        (* GET_MAC_ADDRESS *)
    with_parms arg b (- EFAULT) (fun p =>
      '(r, mac, m) ← kerSysGetMacAddress (b_mac b) stack_mac (u32 (p_offset p));
      let b := if r =? 0 then copy_out (p_string p) mac else b in
      reply arg (set_result p r) 0 (with_mac b m))
  else if cmd 14 then                                        (* RELEASE_MAC_ADDRESS *)
    with_parms arg b (- EFAULT) (fun p =>
      match copy_from_user (b_user b) (p_string p) NVRAM_MAC_ADDRESS_LEN with
      | Some mac =>
          '(r, m) ← kerSysReleaseMacAddress (b_mac b) mac; reply arg (set_result p r) 0 (with_mac b m)
      | None => reply arg (set_result p (- EACCES)) 0 b
      end)
  else if cmd 6 then answer arg (s32 g_ulPsiSize) b          (* GET_PSI_SIZE *)
  else if cmd 7 then answer arg (s32 g_ulSdramSize) b        (* GET_SDRAM_SIZE *)
  else if cmd 12 then                                        (* GET_BASE_MAC_ADDRESS *)
    with_parms arg b (- EFAULT) (fun p =>
      m ← b_mac b; reply arg (set_result p 0) 0 (copy_out (p_string p) (ucaBaseMacAddr m)))
  else if cmd 9 then answer arg (Z.shiftr (s32 (Z.land RevID 0xFFFF0000)) 16) b   (* GET_CHIP_ID *)
  else if cmd 10 then answer arg (Z.land RevID 0xFF) b       (* GET_CHIP_REV *)
  else if cmd 15 || cmd 16 then                               (* GET_NUM_ENET_MACS, _PORTS *)
    n ← num_enet_ports (b_bp b) stack_enet;
    match n with Some n => answer arg n b | None => Some (Returns (- EFAULT) b) end
  else if cmd 11 then with_parms arg b (- EFAULT) (fun p => get_cfe_ver arg p b)
  else if cmd 22 then                                        (* GET_WLAN_ANT_INUSE *)
    with_parms arg b (- EFAULT) (fun p =>
      let '(r, ant) := BpGetWirelessAntInUse (b_bp b) in
      if (r =? BP_SUCCESS) && (p_strLen p =? 2) then
        reply arg (set_result p 0) 0 (copy_out (p_string p) (drop 2 (be32 ant)))
      else Some (Returns (- EFAULT) b))
  else if cmd 19 then with_parms arg b (- EFAULT) (fun p => set_trigger arg p b)
  else if cmd 20 then with_parms arg b (- EFAULT) (fun p => get_trigger arg p b)
  else if cmd 21 then with_parms arg b (- EFAULT) (fun p => unset_trigger arg p b)
  else if cmd 23 then                                        (* SET_SES_LED *)
    with_parms arg b (- EFAULT) (fun p =>
      if p_strLen p =? 4 then
        a ← copy_from_user (b_user b) (p_string p) 4;
        d ← sesLed_ctrl chip g_ledInitialized sesLed_gpio (word a 0) (b_leds b);
        reply arg (set_result p 0) 0 (with_leds b d)
      else Some (Returns (- EFAULT) b))
  else if cmd 17 then                                        (* SET_MONITOR_FD *)
    with_parms arg b 0 (fun p =>
      m ← set_monitor_fd f_op (fget (p_offset p)) current (b_monitor b); Some (Returns 0 (with_monitor b m)))
  else if cmd 18 then Some (Returns 0 (with_monitor b (kerSysWakeupMonitorTask (b_monitor b))))   (* WAKEUP_MONITOR_TASK *)
  else if cmd 24 then                                        (* GET_VCOPE_GPIO *)
    with_parms arg b (- EFAULT) (fun p =>
      let v := BpGetVcopeGpio (b_bp b) (p_offset p) in
      reply arg (set_result p v) (if negb (v =? BP_NOT_DEFINED) then 0 else - EFAULT) b)
  else if cmd 25 then                                        (* SET_CS_PAR *)
    with_parms arg b (- EFAULT) (fun p =>
      '(ret, p, cs) ← ConfigCs chip (b_user b) p (b_cs b); reply arg p ret (with_cs b cs))
  else if cmd 26 then                                        (* SET_GPIO *)
    with_parms arg b (- EFAULT) (fun p =>
      reply arg p 0 (put_gpios b (SetGpio chip (p_strLen p) (p_offset p) (gpios_of b))))
  else if cmd 27 then answer arg requestUserModeResetToDefault b   (* QUERY_RESET_DEFAULT_REQUEST *)
  else if cmd 28 then                                        (* WIRELESS_PROTECT *)
    with_parms arg b (- EFAULT) (fun p =>
      let '(r, v) := kerGetWirelessProtectFlag (wl_protect_flag b) in
      reply arg (set_result p r) 0 (with_protect b v))
  else if cmd 29 then Some (Returns 0 (with_bypass b 1))     (* BYPASS_SIGNATURE *)
  else Some (Returns (- EINVAL) b).

(** *** The open file *)

Definition ENOMEM : Z := 12.

(** [board_open]: the event mask of a new file is empty.  [board_release] frees it: the
    file has no events any more. *)
Definition board_open (kmalloc_ok : bool) (b : BOARD) : Z * BOARD :=
  if kmalloc_ok then (0, with_events b 0) else (- ENOMEM, b).

Definition board_release (b : BOARD) : Z * BOARD := (0, with_events b 0).

(** *** The button *)

(** [sesBtn_poll] and [board_poll]: the bits of the poll mask. *)
Definition sesBtn_poll (ExtIrqCfg ExtIrqCfg1 : Z) : option Z :=
  pressed ← sesBtn_pressed chip ExtIrqCfg ExtIrqCfg1 sesBtn_irq; Some (if (pressed : bool) then POLLIN else 0).

Definition board_poll (ExtIrqCfg ExtIrqCfg1 : Z) (b : BOARD) : option Z :=
  if negb (Z.land (b_events b) SES_EVENTS =? 0) then sesBtn_poll ExtIrqCfg ExtIrqCfg1 else Some 0.

(** [sesBtn_read] and [board_read]: the number of bytes and the new state. *)
Definition sesBtn_read (ExtIrqCfg ExtIrqCfg1 buffer : Z) (b : BOARD) : option (Z * BOARD) :=
  pressed ← sesBtn_pressed chip ExtIrqCfg ExtIrqCfg1 sesBtn_irq;
  if (pressed : bool) then
    Some (4, with_irq (with_user b (copy_to_user (b_user b) buffer (be32 SES_EVENTS))) sesBtn_irq)
  else Some (0, with_irq b sesBtn_irq).

Definition board_read (ExtIrqCfg ExtIrqCfg1 buffer : Z) (b : BOARD) : option (Z * BOARD) :=
  if negb (Z.land (b_events b) SES_EVENTS =? 0) then sesBtn_read ExtIrqCfg ExtIrqCfg1 buffer b
  else Some (0, b).
End Ioctl.
