(* ===== verification/IoctlSpec.v ===== *)
(** * What the board device guarantees

    The commands of [board_ioctl] on the whole board: data stored and read back through
    the caller's memory, the update of the whole flash with the NVRAM kept, and the
    firmware update with its signature check. *)

From stdpp Require Import gmap.
From S2P Require Import Prelude BoardDefs BoardParms Led BoardInit SectorMap FlashApi FlashStore.
From S2P Require Import ScratchPad ImageSet Nvram ImageTag MacPool KString Buttons Ioctl.

(** ** The caller's memory *)

(** The bytes [d] are at [p]. *)
Definition ubytes (m : umem) (p : Z) (d : list Z) : Prop :=
  forall i x, d !! i = Some x -> m !! (p + Z.of_nat i) = Some x.

(** [n] bytes at [p] are mapped. *)
Definition umapped (m : umem) (p n : Z) : Prop := forall q, p <= q < p + n -> is_Some (m !! q).

Lemma ubytes_cons m p b d : ubytes m p (b :: d) <-> m !! p = Some b /\ ubytes m (p + 1) d.
Proof.
  split.
  - intros H. split; [rewrite <- (Z.add_0_r p); by apply (H 0%nat)|].
    intros i x Hi. replace (p + 1 + Z.of_nat i) with (p + Z.of_nat (S i)) by lia. by apply H.
  - intros [H0 H] [|i] x Hi; [rewrite Z.add_0_r; by injection Hi as <-|].
    replace (p + Z.of_nat (S i)) with (p + 1 + Z.of_nat i) by lia. by apply H.
Qed.

Lemma ubytes_mapped m p d : ubytes m p d -> umapped m p (zlen d).
Proof.
  intros H q Hq. destruct (d !! Z.to_nat (q - p)) as [x|] eqn:E.
  - exists x. replace q with (p + Z.of_nat (Z.to_nat (q - p))) by lia. by apply H.
  - apply lookup_ge_None in E. unfold zlen in Hq. lia.
Qed.

Lemma umapped_bytes m p n : umapped m p n -> 0 <= n -> exists d, ubytes m p d /\ zlen d = n.
Proof.
  intros H Hn. destruct (Z_of_nat_complete n Hn) as [k ->]. clear Hn. revert p H.
  induction k as [|k IH]; intros p H; [by exists []|].
  destruct (H p) as [b Hb]; [lia|]. destruct (IH (p + 1)) as (d & Hd & Hz); [intros q Hq; apply H; lia|].
  exists (b :: d). split; [by apply ubytes_cons|]. rewrite zlen_cons. lia.
Qed.

Lemma uview_bytes m p d n : ubytes m p d -> (length d <= n)%nat -> exists r, uview m p n = d ++ r.
Proof.
  revert m p n. induction d as [|b d IH]; intros m p n H Hn; [by eexists|].
  apply ubytes_cons in H as [Hb H]. destruct n as [|n]; cbn [length] in Hn; [lia|].
  cbn [uview]. rewrite Hb. destruct (IH m (p + 1) n H) as [r ->]; [lia|]. by exists r.
Qed.

Lemma uview_length m p n : (length (uview m p n) <= n)%nat.
Proof. revert p. induction n as [|n IH]; intros p; cbn [uview]; [done|]. destruct (m !! p); cbn; [|lia]. specialize (IH (p + 1)). lia. Qed.

Lemma copy_from_user_bytes m p d : ubytes m p d -> copy_from_user m p (zlen d) = Some d.
Proof.
  intros H. unfold copy_from_user, zlen. rewrite Nat2Z.id.
  destruct (uview_bytes m p d (length d) H) as [r Hr]; [done|].
  pose proof (uview_length m p (length d)) as Hl. rewrite Hr in *. rewrite length_app in Hl.
  destruct r; [|cbn in Hl; lia]. by rewrite app_nil_r, Z.eqb_refl.
Qed.

Lemma copy_from_user_mapped m p n : umapped m p n -> 0 <= n -> exists d, copy_from_user m p n = Some d.
Proof. intros H Hn. destruct (umapped_bytes m p n H Hn) as (d & Hd & <-). exists d. by apply copy_from_user_bytes. Qed.

(** The addresses of a mapped range are different. *)
Lemma umapped_size m p n : umapped m p n -> n <= Z.of_nat (size m).
Proof.
  intros H. assert (Hs : list_to_set (seqZ p n) ⊆ dom m).
  { intros q. rewrite elem_of_list_to_set, elem_of_seqZ, elem_of_dom. apply H. }
  apply subseteq_size in Hs. rewrite size_list_to_set, size_dom, length_seqZ in Hs by apply NoDup_seqZ. lia.
Qed.

Lemma uptr_bytes m p d : ubytes m p d -> exists r, uptr m p = d ++ r.
Proof.
  intros H. apply uview_bytes; [done|]. pose proof (umapped_size m p _ (ubytes_mapped m p d H)).
  unfold zlen in *. lia.
Qed.

Lemma copy_to_user_out d : forall m p q, q < p \/ p + zlen d <= q -> copy_to_user m p d !! q = m !! q.
Proof.
  induction d as [|b d IH]; intros m p q Hq; [done|]. cbn [copy_to_user]. destruct (m !! p); [|done].
  rewrite zlen_cons in Hq. pose proof (zlen_nonneg d). rewrite IH by lia. apply lookup_insert_ne. lia.
Qed.

Lemma copy_to_user_mapped d : forall m p q, is_Some (m !! q) -> is_Some (copy_to_user m p d !! q).
Proof.
  induction d as [|b d IH]; intros m p q Hq; [done|]. cbn [copy_to_user]. destruct (m !! p); [|done].
  apply IH. destruct (decide (p = q)) as [->|]; [rewrite lookup_insert_eq; eauto|by rewrite lookup_insert_ne].
Qed.

Lemma copy_to_user_in d : forall m p, umapped m p (zlen d) -> ubytes (copy_to_user m p d) p d.
Proof.
  induction d as [|b d IH]; intros m p Hm; [done|]. cbn [copy_to_user].
  rewrite zlen_cons in Hm. pose proof (zlen_nonneg d).
  destruct (Hm p) as [x Hx]; [lia|]. rewrite Hx. apply ubytes_cons. split.
  - rewrite copy_to_user_out by lia. apply lookup_insert_eq.
  - apply IH. intros q Hq. rewrite lookup_insert_ne by lia. apply Hm. lia.
Qed.

(** Bytes and mappings that are not written over. *)
Lemma ubytes_keep m p d q e :
  ubytes m q e -> q + zlen e <= p \/ p + zlen d <= q -> ubytes (copy_to_user m p d) q e.
Proof.
  intros H Hd i x Hi. rewrite copy_to_user_out; [by apply H|]. apply lookup_lt_Some in Hi. unfold zlen in *. lia.
Qed.

Lemma umapped_keep m p d q n : umapped m q n -> umapped (copy_to_user m p d) q n.
Proof. intros H a Ha. apply copy_to_user_mapped. by apply H. Qed.

(** ** Parameters *)

Definition parms_ok (p : BOARD_IOCTL_PARMS) : Prop :=
  is_u32 (p_string p) /\ is_u32 (p_buf p) /\ is_s32 (p_strLen p) /\ is_s32 (p_offset p) /\
  is_s32 (p_action p) /\ is_s32 (p_result p).

Lemma be32_s32 n : is_s32 n -> be32_get (be32 n) = n.
Proof.
  intros Hn. unfold be32, be32_get, u8, s32, is_s32 in *.
  rewrite !Z.shiftr_div_pow2 by lia. Z.to_euclidean_division_equations. lia.
Qed.

Lemma zlen_encode p : zlen (encode_parms p) = sizeof_PARMS.
Proof. done. Qed.

Lemma decode_encode p : parms_ok p -> decode_parms (encode_parms p) = p.
Proof.
  intros (H1 & H2 & H3 & H4 & H5 & H6). unfold decode_parms, encode_parms, word, slice. destruct p. cbn in *.
  change (Z.to_nat 4) with 4%nat.
  f_equal; cbn [app take drop]; (apply be32_u32 || apply be32_s32); done.
Qed.

Lemma get_parms_ok m arg p :
  parms_ok p -> ubytes m arg (encode_parms p) -> get_parms m arg = Some p.
Proof.
  intros Hp Hm. unfold get_parms. rewrite <- (zlen_encode p), copy_from_user_bytes by done.
  unfold fmap, option_fmap, option_map. by rewrite decode_encode.
Qed.

(** ** The commands *)

Section Board.
Context {F : Type} {dev : flash_device_info_t F} {FLASH_BASE : Z} {sizes : list Z}
  {img : F -> list Z} {HL : FlashLaws dev FLASH_BASE sizes img}.
Context (chip : Chip) (fInfo : FLASH_ADDR_INFO) (g_ulPsiSize g_ulSdramSize RevID : Z) (system_type : list Z).
Context (sesBtn_irq sesLed_gpio : Z) (g_ledInitialized : bool) (requestUserModeResetToDefault : Z).
Context (mapped : F -> list Z) (fget f_op : Z -> Z) (current : Z) (stack_parms : BOARD_IOCTL_PARMS) (stack_nvram : list Z).
Context (stack_enet : list ETHERNET_MAC_INFO) (stack_mac : list Z).
Abbreviation g := (Some dev).
Abbreviation ioctl := (board_ioctl chip g FLASH_BASE true true fInfo g_ulPsiSize g_ulSdramSize RevID system_type
  sesBtn_irq sesLed_gpio g_ledInitialized requestUserModeResetToDefault mapped fget f_op current stack_parms stack_nvram
  stack_enet stack_mac).
Abbreviation WRITE := (BOARD_IOCTL 0).
Abbreviation READ := (BOARD_IOCTL 1).
Context (Hnv : nvram_placed (sizes := sizes) fInfo) (Hstack : zlen stack_nvram = sizeof_NVRAM_DATA).

(** The action code of a section of the flash. *)
Definition action_of (s : flash_section) : Z :=
  match s with FlashStore.NVRAM => Ioctl.NVRAM | PSI => PERSISTENT | PSI2 => DAREPERSISTENT end.

(** A request for [n] bytes at [offset] of the section. *)
Definition request (p : BOARD_IOCTL_PARMS) (s : flash_section) (n offset : Z) : Prop :=
  parms_ok p /\ p_action p = action_of s /\ p_strLen p = n /\ p_offset p = offset.

Lemma flash_write_store s p n offset b :
  request p s n offset ->
  flash_write chip g FLASH_BASE true true fInfo stack_nvram p b =
    '(ret, f) ← store_set (dev := dev) s true fInfo (uptr (b_user b) (p_string p)) n offset (b_flash b);
    Some (Returns ret (with_flash b f)).
Proof.
  intros (_ & Ha & <- & <-). unfold flash_write. rewrite (readNvramData_ok (HL := HL)) by done.
  cbn [mbind option_bind]. rewrite Ha. by destruct s.
Qed.

Lemma flash_read_store s p n offset b :
  request p s n offset ->
  flash_read g true fInfo p b =
    '(ret, d) ← store_get (dev := dev) s true fInfo n offset (b_flash b);
    m ← ustore (b_user b) (p_string p) d; Some (ret, m).
Proof. intros (_ & Ha & <- & <-). unfold flash_read. rewrite Ha. by destruct s. Qed.
Lemma ioctl_write p arg b :
  parms_ok p -> ubytes (b_user b) arg (encode_parms p) ->
  ioctl WRITE arg b =
    r ← flash_write chip g FLASH_BASE true true fInfo stack_nvram p b;
    match r with
    | Returns ret b => reply arg (set_result p ret) ret b
    | BoardReset b => Some (BoardReset b)
    end.
Proof.
  intros Hp Hu. unfold board_ioctl, with_parms. change (WRITE =? BOARD_IOCTL 0) with true. cbv iota.
  by rewrite (get_parms_ok _ _ p).
Qed.

Lemma ioctl_read p arg b :
  parms_ok p -> ubytes (b_user b) arg (encode_parms p) ->
  ioctl READ arg b =
    '(ret, m) ← flash_read g true fInfo p b; reply arg (set_result p ret) ret (with_user b m).
Proof.
  intros Hp Hu. unfold board_ioctl, with_parms. change (READ =? BOARD_IOCTL 0) with false.
  change (READ =? BOARD_IOCTL 1) with true. cbv iota. by rewrite (get_parms_ok _ _ p).
Qed.

Lemma ustore_ok m p d : umapped m p (zlen d) -> ustore m p d = Some (copy_to_user m p d).
Proof.
  intros H. unfold ustore. destruct (copy_from_user_mapped m p (zlen d) H (zlen_nonneg d)) as [e ->]. done.
Qed.

(** What the two commands do with a section. *)
Lemma ioctl_store_ok {HR : FlashReliable dev sizes} s p arg d offset b :
  request p s (zlen d) offset -> sect_placed (sizes := sizes) s fInfo ->
  0 <= offset -> offset + zlen d <= sect_limit s fInfo ->
  Forall is_u8 (uptr (b_user b) (p_string p)) ->
  ubytes (b_user b) arg (encode_parms p) -> ubytes (b_user b) (p_string p) d ->
  exists f, ioctl WRITE arg b =
      Some (Returns 0 (with_user (with_flash b f) (put_parms (b_user b) arg (set_result p 0)))) /\
    img f = splice (sect_addr (sizes := sizes) s fInfo + offset) d (img (b_flash b)) /\
    forall p' arg' b', b_flash b' = f -> request p' s (zlen d) offset ->
      ubytes (b_user b') arg' (encode_parms p') -> umapped (b_user b') (p_string p') (zlen d) ->
      ioctl READ arg' b' = Some (Returns 0 (with_user b'
        (put_parms (copy_to_user (b_user b') (p_string p') d) arg' (set_result p' 0)))).
Proof.
  intros Hreq Hp Ho Hfit Hb Hu Hd. destruct (uptr_bytes _ _ _ Hd) as [r Er].
  assert (Es : slice 0 (zlen d) (uptr (b_user b) (p_string p)) = d) by (rewrite Er; by apply (slice_mid 0 _ [])).
  pose proof (zlen_nonneg d).
  destruct (store_works (HL := HL) (HR := HR) s fInfo (uptr (b_user b) (p_string p)) (zlen d) offset (b_flash b))
    as (f & Ew & Ei & Eg); [done|rewrite Er, zlen_app; pose proof (zlen_nonneg r); lia|done|done|done|].
  rewrite Es in Ei, Eg. exists f. split; [|split; [done|]].
  - rewrite (ioctl_write p), (flash_write_store s p (zlen d) offset) by (done || apply Hreq).
    by rewrite Ew.
  - intros p' arg' b' <- Hreq' Hu' Hm.
    rewrite (ioctl_read p'), (flash_read_store s p' (zlen d) offset) by (done || apply Hreq').
    rewrite Eg. cbn [mbind option_bind]. by rewrite ustore_ok by done.
Qed.

(** C8: data written to the NVRAM, the configuration or the second configuration with
    one [FLASH_WRITE] command come back with a later [FLASH_READ].  On a device that
    works, for a request inside the section from readable memory, the first command
    returns 0, changes the addressed bytes of the flash and no other, and writes nothing
    to the caller's memory but its result; the second, on any later board with this
    flash, returns 0 and leaves the data in the caller's buffer. *)
Theorem ioctl_store_roundtrip {HR : FlashReliable dev sizes} s p arg d offset b :
  request p s (zlen d) offset -> sect_placed (sizes := sizes) s fInfo ->
  0 <= offset -> offset + zlen d <= sect_limit s fInfo ->
  Forall is_u8 (uptr (b_user b) (p_string p)) ->
  ubytes (b_user b) arg (encode_parms p) -> ubytes (b_user b) (p_string p) d ->
  exists f, ioctl WRITE arg b =
      Some (Returns 0 (with_user (with_flash b f) (put_parms (b_user b) arg (set_result p 0)))) /\
    img f = splice (sect_addr (sizes := sizes) s fInfo + offset) d (img (b_flash b)) /\
    forall p' arg' b', b_flash b' = f -> request p' s (zlen d) offset ->
      ubytes (b_user b') arg' (encode_parms p') -> umapped (b_user b') (p_string p') (zlen d) ->
      p_string p' + zlen d <= arg' \/ arg' + sizeof_PARMS <= p_string p' ->
      exists b2, ioctl READ arg' b' = Some (Returns 0 b2) /\ ubytes (b_user b2) (p_string p') d.
Proof.
  intros Hreq Hp Ho Hfit Hb Hu Hd. destruct (ioctl_store_ok (HR := HR) s p arg d offset b Hreq Hp Ho Hfit Hb Hu Hd) as (f & E & Ei & H).
  exists f. split; [done|]. split; [done|]. intros p' arg' b' Hf Hreq' Hu' Hm Hdis. rewrite (H p' arg' b') by done.
  eexists. split; [done|]. cbn [b_user with_user]. apply ubytes_keep; [by apply copy_to_user_in|]. rewrite zlen_encode. lia.
Qed.

(** *** The signature *)

Abbreviation image p b := (uptr (b_user b) (p_string p)).

(** The signature is in the tag at the start of the image or behind a boot loader. *)
Definition signed (string : list Z) : Prop :=
  cstr (drop (Z.to_nat off_signiture_1) string) = cstr BCM_SIG_1 \/
  cstr (drop (Z.to_nat (FLASH_LENGTH_BOOT_ROM + off_signiture_1)) string) = cstr BCM_SIG_1.

Lemma drop_terminated n m l : (n <= m)%nat -> nul_terminated (drop m l) = true -> nul_terminated (drop n l) = true.
Proof.
  unfold nul_terminated. rewrite !existsb_exists. intros Hnm (x & Hx & E). exists x. split; [|done].
  replace m with (n + (m - n))%nat in Hx by lia. rewrite <- drop_drop in Hx.
  rewrite <- (take_drop (m - n) (drop n l)). apply in_or_app. by right.
Qed.

Lemma dare_verify_tag_spec string :
  Forall is_u8 string -> nul_terminated (drop (Z.to_nat (FLASH_LENGTH_BOOT_ROM + off_signiture_1)) string) = true ->
  exists r, dare_verify_tag string = Some r /\ ((r = 0 /\ signed string) \/ (r = 1 /\ ~ signed string)).
Proof.
  intros Hb Ht. unfold dare_verify_tag, signed.
  set (n2 := Z.to_nat (FLASH_LENGTH_BOOT_ROM + off_signiture_1)) in *. set (n1 := Z.to_nat off_signiture_1).
  assert (Hn : (n1 <= n2)%nat) by (unfold n1, n2, FLASH_LENGTH_BOOT_ROM, ONEK, off_signiture_1; lia).
  assert (Hs : Forall is_u8 BCM_SIG_1) by by_decide.
  destruct (strcmp_spec (drop n1 string) BCM_SIG_1) as (r1 & -> & H1);
    [by apply Forall_drop|done|by eapply drop_terminated|done|].
  destruct (strcmp_spec (drop n2 string) BCM_SIG_1) as (r2 & E2 & H2); [by apply Forall_drop|done..|].
  cbn [mbind option_bind]. destruct (Z.eqb_spec r1 0) as [->|N1]; cbn [negb].
  - exists 0. split; [done|]. left. split; [done|]. left. by apply H1.
  - rewrite E2. cbn [mbind option_bind]. destruct (Z.eqb_spec r2 0) as [->|N2]; cbn [negb].
    + exists 0. split; [done|]. left. split; [done|]. right. by apply H2.
    + exists 1. split; [done|]. right. split; [done|]. tauto.
Qed.

(** The two commands that check it. *)
Lemma flash_write_fs p b :
  p_action p = BCM_IMAGE_FS ->
  flash_write chip g FLASH_BASE true true fInfo stack_nvram p b =
    ret ← dare_verify_tag (image p b);
    if (ret =? 1) && (signature_bypass b =? 0) then Some (Returns ret b)
    else
      '(r, image) ← flashFsKernelImage g FLASH_BASE true fInfo true stack_nvram (image p b) (b_flash b);
      let m := copy_to_user (b_user b) (p_string p) image in
      match r with
      | BoardReset f => Some (BoardReset (with_flash (with_user b m) f))
      | Returns ret f =>
          let b := with_flash (with_user b m) f in
          Some (if ret =? 0 then BoardReset b else Returns ret b)
      end.
Proof.
  intros Ha. unfold flash_write. rewrite (readNvramData_ok (HL := HL)) by done.
  cbn [mbind option_bind]. by rewrite Ha.
Qed.

Lemma flash_write_whole p b :
  p_action p = BCM_IMAGE_WHOLE -> 0 < p_strLen p ->
  flash_write chip g FLASH_BASE true true fInfo stack_nvram p b =
    ret ← dare_verify_tag (image p b);
    if (ret =? 1) && (signature_bypass b =? 0) then Some (Returns ret b)
    else
      r ← kerSysBcmImageSet g FLASH_BASE true true fInfo
            (if p_offset p =? 0 then FLASH_BASE else p_offset p) (image p b) (p_strLen p) (b_flash b);
      match r with
      | BoardReset f => Some (BoardReset (with_flash b f))
      | Returns _ f =>
          b ← keep_nvram chip g true fInfo stack_nvram
                (cleared (nvram_image (sizes := sizes) (img := img) fInfo (b_flash b))) (with_flash b f);
          Some (BoardReset b)
      end.
Proof.
  intros Ha Hl. unfold flash_write. rewrite (readNvramData_ok (HL := HL)) by done.
  cbn [mbind option_bind]. rewrite Ha. by destruct (Z.leb_spec (p_strLen p) 0); [lia|].
Qed.

(** C22: an image without the signature is refused.  With both places of the signature in
    readable memory and without the bypass, [FLASH_WRITE] of a firmware or whole image
    that has the signature at neither place returns 1, and the whole board - flash,
    current board, LEDs and the rest - stays as it was, but for the result that is
    written to the caller's parameters. *)
Theorem ioctl_unsigned_refused p arg b :
  parms_ok p -> ubytes (b_user b) arg (encode_parms p) ->
  p_action p = BCM_IMAGE_FS \/ (p_action p = BCM_IMAGE_WHOLE /\ 0 < p_strLen p) ->
  Forall is_u8 (image p b) ->
  nul_terminated (drop (Z.to_nat (FLASH_LENGTH_BOOT_ROM + off_signiture_1)) (image p b)) = true ->
  ~ signed (image p b) -> signature_bypass b = 0 ->
  ioctl WRITE arg b = Some (Returns 1 (with_user b (put_parms (b_user b) arg (set_result p 1)))).
Proof.
  intros Hp Hu Ha Hb Ht Hs H0. destruct (dare_verify_tag_spec _ Hb Ht) as (r & E & [[-> ?]|[-> _]]); [done|].
  rewrite (ioctl_write p) by done. destruct Ha as [Ha|[Ha Hl]].
  - rewrite flash_write_fs, E by done. cbn [mbind option_bind]. by rewrite H0.
  - rewrite flash_write_whole, E by done. cbn [mbind option_bind]. by rewrite H0.
Qed.
(** The image passes the check, or the check is bypassed. *)
Definition accepted (string : list Z) (b : board F) : Prop :=
  exists v, dare_verify_tag string = Some v /\ (v = 0 \/ signature_bypass b <> 0).

Lemma accepted_passes string b :
  accepted string b ->
  exists v, dare_verify_tag string = Some v /\ (v =? 1) && (signature_bypass b =? 0) = false.
Proof.
  intros (v & -> & Hv). exists v. split; [done|].
  by destruct (Z.eqb_spec v 1), (Z.eqb_spec (signature_bypass b) 0); [lia|..].
Qed.

(** *** Updates *)

(** The NVRAM structure [d] is one that the boot can use: its checksum is right and its
    board is known. *)
Definition nvram_usable (d : list Z) : bool :=
  (u32 (be32_get (slice off_ulCheckSum 4 d)) =? checksum d) &&
  bool_decide (Exists (fun bp => cstr (szBoardId bp) = cstr (drop (Z.to_nat off_szBoardId) (cleared d)))
                 (g_BoardParms chip)).

(** The board id of the structure ends inside it: its checksum was set to 0. *)
Lemma board_id_cstr d :
  zlen d = sizeof_NVRAM_DATA -> Forall is_u8 d -> is_cstr (drop (Z.to_nat off_szBoardId) (cleared d)).
Proof.
  intros Hz Hb. split; [by apply Forall_drop, cleared_ok|].
  apply (drop_terminated _ 296); [unfold off_szBoardId; lia|].
  rewrite cleared_eq by done. unfold zlen, sizeof_NVRAM_DATA in Hz.
  rewrite drop_app_length' by (rewrite length_take; lia). done.
Qed.

Lemma stamped_cleared d : zlen d = sizeof_NVRAM_DATA -> Forall is_u8 d -> stamped (cleared d) = stamped d.
Proof.
  intros Hz Hb. destruct (cleared_ok d Hz Hb) as [Hz' Hb']. unfold stamped, checksum.
  rewrite !(cleared_eq (cleared d)), !(cleared_eq d) by done. unfold zlen, sizeof_NVRAM_DATA in Hz.
  by rewrite !take_app_length' by (rewrite length_take; lia).
Qed.

Abbreviation nvram f := (nvram_image (sizes := sizes) (img := img) fInfo f).

Lemma keep_nvram_ok {HR : FlashReliable dev sizes} old b :
  zlen old = sizeof_NVRAM_DATA -> Forall is_u8 old ->
  exists b', keep_nvram chip g true fInfo stack_nvram (cleared old) b = Some b' /\
    img (b_flash b') =
      if nvram_usable (nvram (b_flash b)) then img (b_flash b)
      else splice (nvram_addr (sizes := sizes) fInfo) (stamped old) (img (b_flash b)).
Proof.
  intros Hz Hb. unfold keep_nvram, nvram_usable. rewrite (readNvramData_ok (HL := HL)) by done.
  destruct (nvram_image_ok (HL := HL) fInfo (b_flash b) Hnv) as (Hz' & Hb' & _).
  destruct (cleared_ok old Hz Hb) as [Cz Cb].
  destruct (writeNvramData_ok (HL := HL) (HR := HR) fInfo (cleared old) (b_flash b) Hnv Cz Cb) as (f & Ew & Ei & _).
  rewrite stamped_cleared in Ew, Ei by done. cbn [mbind option_bind].
  destruct (_ =? checksum _); cbn [andb]; cycle 1.
  { rewrite Ew. by eexists. }
  change (0 =? 0) with true. cbn [negb].
  destruct (BpSetBoardId_loop_spec (g_BoardParms chip) (b_bp b) _ (table_ids_ok chip) (board_id_cstr _ Hz' Hb'))
    as [(bp & Hin & Heq & E)|[Hno E]]; unfold BpSetBoardId; rewrite E; cbn [mbind option_bind].
  - change (BP_SUCCESS =? BP_SUCCESS) with true. cbn [negb]. eexists. split; [done|].
    rewrite bool_decide_eq_true_2; [done|]. apply Exists_exists. eauto.
  - change (BP_BOARD_ID_NOT_FOUND =? BP_SUCCESS) with false. cbn [negb]. rewrite Ew. eexists. split; [done|].
    rewrite bool_decide_eq_false_2; [done|]. intros (bp & Hin & Heq)%Exists_exists. by apply (Hno bp).
Qed.

(** C21: the update of the whole flash keeps the board's identity.  On a device that
    works, an accepted image that covers the boot loader and the NVRAM is at the start
    of the flash when the board resets; only if its NVRAM structure has a wrong checksum
    or names a board that the driver does not know, the structure that was in the flash
    before takes its place, with its checksum set. *)
Theorem ioctl_whole_image {HR : FlashReliable dev sizes} p arg b :
  Forall (fun n => Z.even n = true) sizes ->
  let size := p_strLen p in
  let new := slice 0 size (image p b) in
  let addr := nvram_addr (sizes := sizes) fInfo in
  parms_ok p -> ubytes (b_user b) arg (encode_parms p) ->
  p_action p = BCM_IMAGE_WHOLE -> p_offset p = 0 -> accepted (image p b) b ->
  0 <= flash_rootfs_start_offset fInfo < size -> addr + sizeof_NVRAM_DATA <= size <= zsum sizes ->
  size + size mod 2 <= zlen (image p b) -> Forall is_u8 (image p b) ->
  exists b', ioctl WRITE arg b = Some (BoardReset b') /\
    slice 0 size (img (b_flash b')) =
      if nvram_usable (slice addr sizeof_NVRAM_DATA new) then new
      else splice addr (stamped (nvram (b_flash b))) new.
Proof.
  intros Hev size new addr Hp Hu Ha Ho Hacc Hr Hfit Hl Hb.
  destruct (nvram_image_ok (HL := HL) fInfo (b_flash b) Hnv) as (Hz & Hb8 & Ha0 & Ha1). fold addr in Ha0, Ha1.
  destruct (whole_image_spec (HL := HL) fInfo Hev (image p b) size (b_flash b)) as (sts & f & E & Hs & _ & HR');
    [lia|done|lia|]. specialize (Hs (HR' HR Hb) Hb). fold new in Hs.
  destruct (keep_nvram_ok (HR := HR) (nvram (b_flash b)) (with_flash b f) Hz Hb8) as (b' & Ek & Ei).
  exists b'. split.
  - rewrite (ioctl_write p), flash_write_whole by (done || (unfold size in Hr; lia)).
    destruct (accepted_passes (image p b) b Hacc) as (v & -> & Ev). cbn [mbind option_bind]. rewrite Ev, Ho.
    change (0 =? 0) with true. cbv iota. fold size. rewrite E. cbn [mbind option_bind]. by rewrite Ek.
  - cbn [b_flash with_flash] in Ei. pose proof (laws_img (FlashLaws := HL) f) as Hi.
    destruct (stamped_ok _ Hz Hb8) as [Sz _].
    assert (En : nvram f = slice addr sizeof_NVRAM_DATA new).
    { rewrite <- Hs. unfold nvram_image. fold addr.
      rewrite slice_slice; [done|..]; unfold sizeof_NVRAM_DATA in *; lia. }
    rewrite En in Ei. rewrite Ei. clear Ei. destruct (nvram_usable _); [exact Hs|]. rewrite <- Hs. apply slice_splice_in; lia.
Qed.
End Board.

(** ** Witnesses *)

Lemma ubytes_read m p d : copy_from_user m p (zlen d) = Some d -> ubytes m p d.
Proof.
  unfold copy_from_user, zlen. rewrite Nat2Z.id. destruct (_ =? _); [|done]. intros [= E]. revert p E.
  induction d as [|b d IH]; intros p E; [done|]. cbn [length uview] in E.
  destruct (m !! p) as [x|] eqn:Ex; [|done]. injection E as -> E. apply ubytes_cons. auto.
Qed.

(** The parameters at address 0x100, and [d] at 0x1000. *)
Definition demo_fill (p : Z) (d : list Z) (m : umem) : umem :=
  fst (foldl (fun '(m, p) x => (<[p := x]> m, p + 1)) (m, p) d).
Definition demo_umem (p : BOARD_IOCTL_PARMS) (d : list Z) : umem :=
  demo_fill 0x1000 d (demo_fill 0x100 (encode_parms p) ∅).

Definition demo_board (f : list Z) (p : BOARD_IOCTL_PARMS) (d : list Z) : board (list Z) :=
  mkBoard f None (mkDev 0 [] [] [] [] false false (mkGpio 0 0 0 0) []) (0, 0) None (demo_umem p d) ∅ [] 0 0 0 ∅ demo_monitor.

Abbreviation demo_ioctl info := (board_ioctl BCM96338 (Some demo_dev) Nor.FLASH_BASE true true info 0 0 0 []
  BP_NOT_DEFINED BP_NOT_DEFINED false 0 (fun f => f) (fun _ => 0) (fun _ => 0) 0 (mkParms 0 0 0 0 0 0) (replicate 300 0)
  [] []).

Lemma ioctl_store_roundtrip_witness :
  let p := mkParms 0x1000 0 3 5 PERSISTENT 0 in
  exists f b', demo_ioctl demo_info (BOARD_IOCTL 0) 0x100 (demo_board [] p [1; 2; 3]) = Some (Returns 0 b') /\
    b_flash b' = f /\
    exists b2, demo_ioctl demo_info (BOARD_IOCTL 1) 0x100 (demo_board f p [0; 0; 0]) = Some (Returns 0 b2) /\
      ubytes (b_user b2) 0x1000 [1; 2; 3].
Proof.
  intros p. assert (Hr : request p PSI (zlen [1; 2; 3]) 5) by (repeat split; done).
  destruct (ioctl_store_roundtrip (HL := Nor.laws demo_sizes demo_ok) (HR := Nor.reliable demo_sizes demo_ok)
    BCM96338 demo_info 0 0 0 [] BP_NOT_DEFINED BP_NOT_DEFINED false 0 (fun f => f) (fun _ => 0)
    (fun _ => 0) 0 (mkParms 0 0 0 0 0 0) (replicate 300 0) [] [] (demo_placed FlashStore.NVRAM) eq_refl
    PSI p 0x100 [1; 2; 3] 5 (demo_board [] p [1; 2; 3])) as (f & E1 & _ & E2).
  - exact Hr.
  - apply demo_placed.
  - done.
  - done.
  - by_decide.
  - by apply ubytes_read.
  - by apply ubytes_read.
  - do 2 eexists. split; [exact E1|]. split; [reflexivity|].
    destruct (E2 p 0x100 (demo_board f p [0; 0; 0])) as (b2 & E & Hb).
    + done.
    + exact Hr.
    + by apply ubytes_read.
    + by apply (ubytes_mapped _ _ [0; 0; 0]), ubytes_read.
    + right. by vm_compute.
    + exists b2. exact (conj E Hb).
Defined.

Lemma flash_with_user {F} (b : board F) m : b_flash (with_user b m) = b_flash b.
Proof. done. Qed.

(** 64K and a tag of zeros, without and with the signature. *)
Definition demo_unsigned : list Z := replicate (Z.to_nat 0x10100) 0.
Definition demo_signed : list Z := splice off_signiture_1 BCM_SIG_1 demo_unsigned.

Lemma ioctl_unsigned_refused_witness :
  let p := mkParms 0x1000 0 0x10100 0 BCM_IMAGE_WHOLE 0 in
  let b := demo_board [] p demo_unsigned in
  exists b', demo_ioctl demo_info (BOARD_IOCTL 0) 0x100 b = Some (Returns 1 b') /\ b_flash b' = b_flash b.
Proof.
  intros p b. eexists. split.
  - apply (ioctl_unsigned_refused (HL := Nor.laws demo_sizes demo_ok)
      BCM96338 demo_info 0 0 0 [] BP_NOT_DEFINED BP_NOT_DEFINED false 0 (fun f => f) (fun _ => 0)
      (fun _ => 0) 0 (mkParms 0 0 0 0 0 0) (replicate 300 0) [] [] (demo_placed FlashStore.NVRAM) eq_refl p 0x100 b).
    + repeat split; done.
    + apply ubytes_read. by vm_compute.
    + right. done.
    + by_decide.
    + by vm_compute.
    + unfold signed. by_decide.
    + done.
  - apply flash_with_user.
Defined.

(** The image of the firmware update, signed. *)
Definition demo_update : list Z := splice off_signiture_1 BCM_SIG_1 (demo_firmware 0 32).


Lemma ioctl_whole_image_witness :
  let p := mkParms 0x1000 0 0x10100 0 BCM_IMAGE_WHOLE 0 in
  exists b', demo_ioctl image_info (BOARD_IOCTL 0) 0x100 (demo_board demo_flash p demo_signed) = Some (BoardReset b').
Proof.
  intros p.
  destruct (ioctl_whole_image (HL := Nor.laws demo_sizes demo_ok) (HR := Nor.reliable demo_sizes demo_ok)
    BCM96338 image_info 0 0 0 [] BP_NOT_DEFINED BP_NOT_DEFINED false 0 (fun f => f) (fun _ => 0)
    (fun _ => 0) 0 (mkParms 0 0 0 0 0 0) (replicate 300 0) [] [] (demo_placed FlashStore.NVRAM) eq_refl
    p 0x100 (demo_board demo_flash p demo_signed) demo_even) as (b' & E & _).
  - repeat split; done.
  - apply ubytes_read. by vm_compute.
  - done.
  - done.
  - exists 0. split; [by vm_compute|by left].
  - by vm_compute.
  - by vm_compute.
  - by vm_compute.
  - by_decide.
  - exists b'. exact E.
Defined.
