(* ===== verification/BoardApi.v ===== *)
(** * The board from user space

    [board_api.c] of the configuration manager: [boardIoctl], which opens the device,
    fills in the parameters on its stack and returns their result, and the functions that
    call it.  The driver's ioctl is an argument of the definitions; the theorems are about
    [board_ioctl].  The process memory is the one of the board device, with the stack
    frame of [boardIoctl] at an address of its own. *)

From stdpp Require Import gmap.
From S2P Require Import Prelude BoardDefs BoardParms Led BoardInit SectorMap FlashApi FlashStore.
From S2P Require Import ScratchPad ImageSet Nvram ImageTag MacPool KString Buttons Ioctl IoctlSpec.

Section Api.
Context {F : Type} (ioctl : Z -> Z -> board F -> option (outcome (board F))).

(** Whether the device node is there, whether the driver gets memory for the open file,
    the address of [IoctlParms], and the address of the empty string literal. *)
Context (node kmalloc_ok : bool) (frame empty : Z).

Abbreviation BOARD := (board F).
Abbreviation RESULT := (option (outcome BOARD)).

(** The field [result] is not set before the call. *)
Definition boardIoctl (command action string strLen offset buf : Z) (b : BOARD) : RESULT :=
  let '(fd, b) := if node then board_open kmalloc_ok b else (-1, b) in
  if fd <? 0 then Some (Returns (-1) b)
  else
    old ← get_parms (b_user b) frame;
    let p := mkParms string buf strLen offset action (p_result old) in
    r ← ioctl command frame (with_user b (put_parms (b_user b) frame p));
    match r with
    | Returns _ b => p ← get_parms (b_user b) frame; Some (Returns (p_result p) (snd (board_release b)))
    | BoardReset b => Some (BoardReset b)
    end.

(** ** Scratch pad *)

Definition sysScratchPadGet (tokenId tokBuf bufLen : Z) (b : BOARD) : RESULT :=
  boardIoctl (BOARD_IOCTL 1) SCRATCH_PAD tokenId bufLen bufLen tokBuf b.

Definition bcmp (m : umem) (p q n : Z) : option bool :=
  x ← copy_from_user m p n; y ← copy_from_user m q n; Some (negb (bool_decide (x = y))).

(** [buf] is the answer of [malloc]. *)
Definition sysScratchPadSet (buf tokenId tokBuf bufLen : Z) (b : BOARD) : RESULT :=
  let write b := boardIoctl (BOARD_IOCTL 0) SCRATCH_PAD tokenId bufLen bufLen tokBuf b in
  if buf =? 0 then write b
  else
    r ← boardIoctl (BOARD_IOCTL 1) SCRATCH_PAD tokenId bufLen bufLen buf b;
    match r with
    | Returns n b =>
        if 0 <=? n then
          different ← bcmp (b_user b) buf tokBuf bufLen;
          if (different : bool) then write b else Some (Returns 0 b)
        else write b
    | BoardReset b => Some (BoardReset b)
    end.

Definition sysScratchPadClearAll (b : BOARD) : RESULT := boardIoctl (BOARD_IOCTL 0) SCRATCH_PAD empty (-1) (-1) empty b.

(** ** Memory and flash *)

Definition sysDumpAddr (addr len : Z) (b : BOARD) : RESULT := boardIoctl (BOARD_IOCTL 2) 0 addr len 0 empty b.
Definition sysSetMemory (addr size value : Z) (b : BOARD) : RESULT := boardIoctl (BOARD_IOCTL 3) 0 addr size (s32 value) empty b.

Definition sysPersistentGet (string strLen offset : Z) (b : BOARD) : RESULT :=
  boardIoctl (BOARD_IOCTL 1) PERSISTENT string strLen offset empty b.
Definition sysPersistentSet (string strLen offset : Z) (b : BOARD) : RESULT :=
  boardIoctl (BOARD_IOCTL 0) PERSISTENT string strLen offset empty b.
Definition sysNvRamGet (string strLen offset : Z) (b : BOARD) : RESULT :=
  boardIoctl (BOARD_IOCTL 1) NVRAM string strLen offset empty b.
Definition sysNvRamSet (string strLen offset : Z) (b : BOARD) : RESULT :=
  boardIoctl (BOARD_IOCTL 0) NVRAM string strLen offset empty b.
Definition sysDarePersistentGet (string strLen offset : Z) (b : BOARD) : RESULT :=
  boardIoctl (BOARD_IOCTL 1) DAREPERSISTENT string strLen offset empty b.
Definition sysDarePersistentSet (string strLen offset : Z) (b : BOARD) : RESULT :=
  boardIoctl (BOARD_IOCTL 0) DAREPERSISTENT string strLen offset empty b.

Definition sysFlashImageSet (image size addr imageType : Z) (b : BOARD) : RESULT :=
  boardIoctl (BOARD_IOCTL 0) imageType image size addr empty b.
Definition sysFlashSizeGet (b : BOARD) : RESULT := boardIoctl (BOARD_IOCTL 1) FLASH_SIZE empty 0 0 empty b.
Definition sysDareSignatureBypass (b : BOARD) : RESULT := boardIoctl (BOARD_IOCTL 29) 0 empty 0 0 empty b.

(** ** Questions about the board *)

Definition sysGetPsiSize (b : BOARD) : RESULT := boardIoctl (BOARD_IOCTL 6) 0 empty 0 0 empty b.
Definition sysGetSdramSize (b : BOARD) : RESULT := boardIoctl (BOARD_IOCTL 7) 0 empty 0 0 empty b.
Definition sysGetBoardIdName (name length : Z) (b : BOARD) : RESULT := boardIoctl (BOARD_IOCTL 8) 0 name length 0 empty b.
Definition sysGetChipId (b : BOARD) : RESULT := boardIoctl (BOARD_IOCTL 9) 0 empty 0 0 empty b.
Definition sysGetChipRev (b : BOARD) : RESULT := boardIoctl (BOARD_IOCTL 10) 0 empty 0 0 empty b.
Definition sysGetCFEVersion (string strLen : Z) (b : BOARD) : RESULT := boardIoctl (BOARD_IOCTL 11) 0 string strLen 0 empty b.
Definition sysGetBaseMacAddress (addr : Z) (b : BOARD) : RESULT := boardIoctl (BOARD_IOCTL 12) 0 addr 6 0 empty b.
Definition sysGetMacAddress (addr ulId : Z) (b : BOARD) : RESULT := boardIoctl (BOARD_IOCTL 13) 0 addr 6 (s32 ulId) empty b.
Definition sysReleaseMacAddress (addr : Z) (b : BOARD) : RESULT := boardIoctl (BOARD_IOCTL 14) 0 addr 6 0 empty b.
Definition sysGetNumEnetMacs (b : BOARD) : RESULT := boardIoctl (BOARD_IOCTL 15) 0 empty 0 0 empty b.
Definition sysGetNumEnetPorts (b : BOARD) : RESULT := boardIoctl (BOARD_IOCTL 16) 0 empty 0 0 empty b.
Definition sysGetVcopeInfo (info_type : Z) (b : BOARD) : RESULT := boardIoctl (BOARD_IOCTL 24) 0 empty 0 info_type empty b.
Definition sysGetResetDefaultRequest (b : BOARD) : RESULT := boardIoctl (BOARD_IOCTL 27) 0 empty 0 0 empty b.
Definition sysGetWirelessProtectState (b : BOARD) : RESULT := boardIoctl (BOARD_IOCTL 28) 0 empty 0 0 empty b.

(** ** Control *)

Definition sysMipsSoftReset (b : BOARD) : RESULT := boardIoctl (BOARD_IOCTL 4) 0 empty 0 0 empty b.
Definition sysLedCtrl (ledName ledState : Z) (b : BOARD) : RESULT := boardIoctl (BOARD_IOCTL 5) 0 empty ledName ledState empty b.
Definition sysSetMonitorFd (fd : Z) (b : BOARD) : RESULT := boardIoctl (BOARD_IOCTL 17) 0 empty 0 fd empty b.
Definition sysWakeupMonitorTask (b : BOARD) : RESULT := boardIoctl (BOARD_IOCTL 18) 0 empty 0 0 empty b.
Definition sysConfigCs (cs_number cs_info : Z) (b : BOARD) : RESULT := boardIoctl (BOARD_IOCTL 25) 0 empty 0 cs_number cs_info b.
Definition sysSetGpioBit (gpio_bit flag : Z) (b : BOARD) : RESULT := boardIoctl (BOARD_IOCTL 26) 0 empty gpio_bit flag empty b.

(** The pair of functions of each section. *)
Definition sys_get (s : flash_section) : Z -> Z -> Z -> BOARD -> RESULT :=
  match s with FlashStore.NVRAM => sysNvRamGet | PSI => sysPersistentGet | PSI2 => sysDarePersistentGet end.
Definition sys_set (s : flash_section) : Z -> Z -> Z -> BOARD -> RESULT :=
  match s with FlashStore.NVRAM => sysNvRamSet | PSI => sysPersistentSet | PSI2 => sysDarePersistentSet end.

Lemma sys_get_ioctl s string n offset b : sys_get s string n offset b = boardIoctl (BOARD_IOCTL 1) (action_of s) string n offset empty b.
Proof. by destruct s. Qed.

Lemma sys_set_ioctl s string n offset b : sys_set s string n offset b = boardIoctl (BOARD_IOCTL 0) (action_of s) string n offset empty b.
Proof. by destruct s. Qed.

End Api.

(** ** The process *)

(** The stack frame and a buffer of [n] bytes at [p] are mapped and apart. *)
Definition apart (frame p n : Z) : Prop := p + n <= frame \/ frame + sizeof_PARMS <= p.

Definition bytes_ok (m : umem) : Prop := map_Forall (fun _ x => is_u8 x) m.

Lemma uview_u8 m p n : bytes_ok m -> Forall is_u8 (uview m p n).
Proof.
  intros H. revert p. induction n as [|n IH]; intros p; cbn [uview]; [constructor|].
  destruct (m !! p) eqn:E; [|constructor]. constructor; [by apply (H p)|apply IH].
Qed.

Lemma copy_to_user_u8 d : forall m p, bytes_ok m -> Forall is_u8 d -> bytes_ok (copy_to_user m p d).
Proof.
  induction d as [|x d IH]; intros m p Hm Hd; cbn [copy_to_user]; [done|]. apply Forall_cons in Hd as [Hx Hd].
  destruct (m !! p); [|done]. apply IH; [|done]. by apply map_Forall_insert_2.
Qed.

Lemma encode_u8 p : Forall is_u8 (encode_parms p).
Proof. unfold encode_parms. rewrite !Forall_app. by split_and!; apply be32_bytes. Qed.

Lemma be32_get_s32 l : is_s32 (be32_get l).
Proof. unfold be32_get. repeat (case_match; try done). apply s32_range. Qed.

Lemma get_parms_mapped m arg :
  umapped m arg sizeof_PARMS -> exists p, get_parms m arg = Some p /\ is_s32 (p_result p).
Proof.
  intros H. destruct (copy_from_user_mapped m arg sizeof_PARMS H ltac:(done)) as [d E]. unfold get_parms. rewrite E.
  eexists. split; [done|]. apply be32_get_s32.
Qed.

(** The parameters in the frame. *)
Lemma frame_parms m frame p :
  umapped m frame sizeof_PARMS -> ubytes (put_parms m frame p) frame (encode_parms p).
Proof. intros H. by apply copy_to_user_in. Qed.

Lemma frame_read m frame p :
  umapped m frame sizeof_PARMS -> parms_ok p -> get_parms (put_parms m frame p) frame = Some p.
Proof. intros H Hp. apply get_parms_ok; [done|]. by apply frame_parms. Qed.

(** ** Storing and reading *)

Section Stored.
Context {F : Type} {dev : flash_device_info_t F} {FLASH_BASE : Z} {sizes : list Z}
  {img : F -> list Z} {HL : FlashLaws dev FLASH_BASE sizes img}.
Context (chip : Chip) (fInfo : FLASH_ADDR_INFO) (g_ulPsiSize g_ulSdramSize RevID : Z) (system_type : list Z).
Context (sesBtn_irq sesLed_gpio : Z) (g_ledInitialized : bool) (requestUserModeResetToDefault : Z).
Context (mapped : F -> list Z) (fget f_op : Z -> Z) (current : Z) (stack_parms : BOARD_IOCTL_PARMS) (stack_nvram : list Z).
Context (stack_enet : list ETHERNET_MAC_INFO) (stack_mac : list Z).
Abbreviation ioctl := (board_ioctl chip (Some dev) FLASH_BASE true true fInfo g_ulPsiSize g_ulSdramSize RevID system_type
  sesBtn_irq sesLed_gpio g_ledInitialized requestUserModeResetToDefault mapped fget f_op current stack_parms stack_nvram
  stack_enet stack_mac).

(** A process that calls [boardIoctl] with its frame at [frame]. *)
Definition caller_ok (frame : Z) (b : board F) : Prop := bytes_ok (b_user b) /\ umapped (b_user b) frame sizeof_PARMS.

(** [boardIoctl] hands the parameters to the driver and its result to the caller. *)
Lemma boardIoctl_returns command action string strLen offset buf frame b :
  caller_ok frame b -> is_u32 string -> is_u32 buf -> is_s32 strLen -> is_s32 offset -> is_s32 action ->
  exists old, let p := mkParms string buf strLen offset action old in
    let b1 := with_user (with_events b 0) (put_parms (b_user b) frame p) in
    parms_ok p /\ ubytes (b_user b1) frame (encode_parms p)
    /\ forall ret b2 r, ioctl command frame b1 = Some (Returns ret b2) -> get_parms (b_user b2) frame = Some (set_result p r) ->
       boardIoctl ioctl true true frame command action string strLen offset buf b = Some (Returns r (with_events b2 0)).
Proof.
  intros [Hb Hm] H1 H2 H3 H4 H5. destruct (get_parms_mapped _ _ Hm) as (old & Eo & Ho). exists (p_result old). cbv zeta.
  set (p := mkParms string buf strLen offset action (p_result old)).
  assert (Hp : parms_ok p) by (unfold parms_ok, p; by split_and!). split; [done|]. split; [by apply frame_parms|].
  intros ret b2 r Ei Eg. unfold boardIoctl. cbn [board_open]. change (0 <? 0) with false. cbv iota.
  change (b_user (with_events b 0)) with (b_user b). rewrite Eo. cbn [mbind option_bind]. fold p. rewrite Ei. cbn [mbind option_bind].
  rewrite Eg. done.
Qed.

Context (Hnv : nvram_placed (sizes := sizes) fInfo) (Hstack : zlen stack_nvram = sizeof_NVRAM_DATA).

Lemma set_result_ok p r : parms_ok p -> is_s32 r -> parms_ok (set_result p r).
Proof. intros (? & ? & ? & ? & ? & ?) Hr. by split_and!. Qed.

(** C26: The configuration from user space. On a device that works, in a process whose
    memory holds the data at [string] and the frame of [boardIoctl] apart from it, the
    functions that write the NVRAM, the configuration and the second configuration return
    0 for a range inside the section and change exactly the addressed bytes of the flash;
    the matching function that reads, in any process on a board with this flash, returns 0
    and leaves the data in the caller's buffer. *)
Theorem api_store_roundtrip {HR : FlashReliable dev sizes} s frame empty string d offset b :
  caller_ok frame b -> is_u32 empty -> is_u32 string -> is_s32 (zlen d) -> is_s32 offset ->
  sect_placed (sizes := sizes) s fInfo -> 0 <= offset -> offset + zlen d <= sect_limit s fInfo ->
  ubytes (b_user b) string d -> apart frame string (zlen d) ->
  exists b1, sys_set ioctl true true frame empty s string (zlen d) offset b = Some (Returns 0 b1)
    /\ img (b_flash b1) = splice (sect_addr (sizes := sizes) s fInfo + offset) d (img (b_flash b))
    /\ forall frame' string' b', b_flash b' = b_flash b1 -> caller_ok frame' b' -> is_u32 string' ->
       umapped (b_user b') string' (zlen d) -> apart frame' string' (zlen d) ->
       exists b2, sys_get ioctl true true frame' empty s string' (zlen d) offset b' = Some (Returns 0 b2)
         /\ ubytes (b_user b2) string' d /\ b_flash b2 = b_flash b'.
Proof.
  intros Hpr He Hs Hn Ho Hp H0 Hfit Hd Hap. rewrite sys_set_ioctl.
  assert (Ha : is_s32 (action_of s)) by (by destruct s).
  destruct (boardIoctl_returns (BOARD_IOCTL 0) (action_of s) string (zlen d) offset empty frame b)
    as (old & Hok & Hu & Hret); [done..|]. cbv zeta in *. set (p := mkParms _ _ _ _ _ old) in *.
  set (b1 := with_user _ _) in *.
  destruct (ioctl_store_ok (HL := HL) (HR := HR) chip fInfo g_ulPsiSize g_ulSdramSize RevID system_type sesBtn_irq sesLed_gpio
    g_ledInitialized requestUserModeResetToDefault mapped fget f_op current stack_parms stack_nvram stack_enet stack_mac Hnv Hstack
    s p frame d offset b1) as (f & E & Ei & Hread); try done.
  { apply uview_u8, copy_to_user_u8; [apply Hpr|apply encode_u8]. }
  { apply ubytes_keep; [done|]. change (p_string p) with string. rewrite zlen_encode. unfold apart in Hap. lia. }
  eexists. split; [|split; [|]].
  - eapply Hret; [exact E|]. cbn [b_user with_user]. apply frame_read; [|by apply set_result_ok].
    apply umapped_keep, Hpr.
  - exact Ei.
  - intros frame' string' b' Ef Hpr' Hs' Hm' Hap'. rewrite sys_get_ioctl.
    destruct (boardIoctl_returns (BOARD_IOCTL 1) (action_of s) string' (zlen d) offset empty frame' b')
      as (old' & Hok' & Hu' & Hret'); [done..|]. cbv zeta in *. set (p' := mkParms _ _ _ _ _ old') in *.
    set (b1' := with_user (with_events b' 0) _) in *.
    specialize (Hread p' frame' b1' Ef).
    eexists. split; [|split].
    + eapply Hret'; [apply Hread|]; try done.
      * by apply umapped_keep.
      * cbn [b_user with_user]. apply frame_read; [|by apply set_result_ok]. apply umapped_keep, umapped_keep, Hpr'.
    + cbn [b_user with_user with_events]. apply ubytes_keep; [apply copy_to_user_in, umapped_keep, Hm'|].
      change (p_string p') with string'. rewrite zlen_encode. unfold apart in Hap'. lia.
    + done.
Qed.

(** ** The scratch pad *)

Lemma ubytes_app m p a c : ubytes m p (a ++ c) <-> ubytes m p a /\ ubytes m (p + zlen a) c.
Proof.
  revert p. induction a as [|x a IH]; intros p; cbn [app].
  - change (zlen (@nil Z)) with 0. rewrite Z.add_0_r. split; [intros H; by split|by intros [_ H]].
  - rewrite !ubytes_cons, IH, zlen_cons. replace (p + 1 + zlen a) with (p + (1 + zlen a)) by lia. tauto.
Qed.

(** [sysScratchPadSet] leaves the flash as it is when the bytes that are stored, followed by
    what the allocated memory held behind them, are the data: where nothing else is stored,
    but also where less is stored. *)
Lemma scratch_set_skips frame buf tokenId tokBuf name old rest junk b :
  caller_ok frame b -> is_u32 buf -> buf <> 0 -> is_u32 tokenId -> is_s32 (zlen (old ++ rest)) ->
  ubytes (b_user b) tokenId name -> apart frame tokenId (zlen name) ->
  (forall m, ubytes m tokenId name ->
     kerSysScratchPadGet (Some dev) true fInfo (uptr m tokenId) (zlen (old ++ rest)) (b_flash b) = Some (zlen old, old)) ->
  ubytes (b_user b) tokBuf (old ++ rest) -> ubytes (b_user b) buf (junk ++ rest) -> zlen junk = zlen old ->
  apart frame tokBuf (zlen (old ++ rest)) -> apart frame buf (zlen (old ++ rest)) ->
  buf + zlen (old ++ rest) <= tokBuf \/ tokBuf + zlen (old ++ rest) <= buf ->
  exists b1, sysScratchPadSet ioctl true true frame buf tokenId tokBuf (zlen (old ++ rest)) b = Some (Returns 0 b1)
    /\ b_flash b1 = b_flash b.
Proof.
  intros Hpr Hbuf Hb0 Ht Hn Htok Hap0 Hget Hd Hold Hj Hap1 Hap2 Hdis. pose proof (zlen_nonneg old) as Hn1. pose proof (zlen_nonneg rest) as Hn2.
  set (n := zlen (old ++ rest)) in *. assert (En : n = zlen old + zlen rest) by apply zlen_app.
  unfold is_s32 in Hn. unfold sysScratchPadSet. destruct (Z.eqb_spec buf 0); [done|].
  destruct (boardIoctl_returns (BOARD_IOCTL 1) SCRATCH_PAD tokenId n n buf frame b)
    as (o & Hok & Hu & Hret); [done..|]. cbv zeta in *. set (p := mkParms _ _ _ _ _ o) in *. set (b1 := with_user _ _) in *.
  apply ubytes_app in Hold as [Hjunk Hrest]. rewrite Hj in Hrest.
  assert (Hmb : umapped (b_user b) buf (zlen old)) by (rewrite <- Hj; by apply ubytes_mapped).
  set (m2 := copy_to_user (b_user b1) buf old).
  assert (Ei : ioctl (BOARD_IOCTL 1) frame b1 = Some (Returns (zlen old) (with_user b1 (put_parms m2 frame (set_result p (zlen old)))))).
  { rewrite ioctl_read with (p := p) by done. unfold flash_read. change (p_action p =? SCRATCH_PAD) with true. cbv iota.
    change (b_flash b1) with (b_flash b). change (p_offset p) with n. change (p_string p) with tokenId. rewrite Hget by (apply ubytes_keep; [done|rewrite zlen_encode; unfold apart in Hap0; lia]). cbn [mbind option_bind].
    rewrite ustore_ok; [done|]. by apply umapped_keep. }
  rewrite (Hret _ _ (zlen old) Ei).
  2:{ cbn [b_user with_user]. apply frame_read; [|apply set_result_ok; [done|unfold is_s32; lia]]. apply umapped_keep, umapped_keep, Hpr. }
  cbn [mbind option_bind]. destruct (Z.leb_spec 0 (zlen old)); [|lia]. cbn [b_user with_events with_user].
  assert (Hsame : forall q e, ubytes m2 q e -> apart frame q (zlen e) -> ubytes (put_parms m2 frame (set_result p (zlen old))) q e).
  { intros q e He Ha. apply ubytes_keep; [done|]. rewrite zlen_encode. unfold apart in Ha. lia. }
  assert (H1 : ubytes m2 buf (old ++ rest)).
  { apply ubytes_app. split; [apply copy_to_user_in; by apply umapped_keep|]. apply ubytes_keep; [|lia].
    apply ubytes_keep; [done|]. rewrite zlen_encode. unfold apart in Hap2. lia. }
  assert (H2 : ubytes m2 tokBuf (old ++ rest)).
  { apply ubytes_keep; [|fold n; lia]. apply ubytes_keep; [done|]. rewrite zlen_encode. unfold apart in Hap1. fold n. lia. }
  unfold bcmp, n. rewrite (copy_from_user_bytes _ _ _ (Hsame _ _ H1 Hap2)), (copy_from_user_bytes _ _ _ (Hsame _ _ H2 Hap1)).
  cbn [mbind option_bind]. rewrite bool_decide_eq_true_2 by done. cbn [negb]. by eexists.
Qed.

(** *** Results that are never set *)

(** The commands that do not copy their parameters back: what the functions return is what
    the stack happened to hold. *)
Lemma monitor_fd_result frame empty fd b old m :
  caller_ok frame b -> is_u32 empty -> is_s32 fd -> get_parms (b_user b) frame = Some old ->
  set_monitor_fd f_op (fget fd) current (b_monitor b) = Some m ->
  exists b1, sysSetMonitorFd ioctl true true frame empty fd b = Some (Returns (p_result old) b1) /\ b_monitor b1 = m.
Proof.
  intros Hpr He Hfd Eo Em. destruct (get_parms_mapped _ _ (proj2 Hpr)) as (o & Eo' & Hs). rewrite Eo in Eo'. injection Eo' as <-.
  unfold sysSetMonitorFd, boardIoctl. cbn [board_open]. change (0 <? 0) with false. cbv iota.
  change (b_user (with_events b 0)) with (b_user b). rewrite Eo. cbn [mbind option_bind]. set (p := mkParms _ _ _ _ _ (p_result old)).
  assert (Hp : parms_ok p) by (unfold parms_ok, p, is_s32 in *; cbn; split_and!; done || lia).
  set (b1 := with_user (with_events b 0) (put_parms (b_user b) frame p)).
  assert (Ei : ioctl (BOARD_IOCTL 17) frame b1 = Some (Returns 0 (with_monitor b1 m))).
  { unfold board_ioctl, with_parms. change (b_user b1) with (put_parms (b_user b) frame p).
    rewrite frame_read by (done || apply Hpr).
    repeat match goal with |- context [BOARD_IOCTL 17 =? BOARD_IOCTL ?k] =>
      let v := eval vm_compute in (BOARD_IOCTL 17 =? BOARD_IOCTL k) in change (BOARD_IOCTL 17 =? BOARD_IOCTL k) with v end.
    cbv iota zeta. cbn [orb]. change (p_offset p) with fd. change (b_monitor b1) with (b_monitor b). by rewrite Em. }
  rewrite Ei. cbn [mbind option_bind b_user with_monitor with_user b1]. rewrite frame_read by (done || apply Hpr). by eexists.
Qed.
End Stored.

(** ** Example: three bytes of the configuration *)

Lemma demo_process f d : bytes_ok (demo_umem (mkParms 0 0 0 0 0 0) d) -> umapped (demo_umem (mkParms 0 0 0 0 0 0) d) 0x100 24 ->
  caller_ok 0x100 (demo_board f (mkParms 0 0 0 0 0 0) d).
Proof. by split. Qed.

Lemma api_store_roundtrip_witness :
  let b d f := demo_board f (mkParms 0 0 0 0 0 0) d in
  exists b1, sys_set (demo_ioctl demo_info) true true 0x100 0x2000 PSI 0x1000 3 5 (b [1; 2; 3] []) = Some (Returns 0 b1) /\
    exists b2, sys_get (demo_ioctl demo_info) true true 0x100 0x2000 PSI 0x1000 3 5 (b [0; 0; 0] (b_flash b1)) = Some (Returns 0 b2) /\
      ubytes (b_user b2) 0x1000 [1; 2; 3].
Proof.
  intros b.
  assert (Hp : forall d f, d = [1; 2; 3] \/ d = [0; 0; 0] -> caller_ok 0x100 (b d f)).
  { intros d f [-> | ->]; (apply demo_process; [by_decide|by apply (ubytes_mapped _ _ (replicate 24 0)), ubytes_read]). }
  destruct (api_store_roundtrip (HL := Nor.laws demo_sizes demo_ok)
    BCM96338 demo_info 0 0 0 [] BP_NOT_DEFINED BP_NOT_DEFINED false 0 (fun f => f) (fun _ => 0)
    (fun _ => 0) 0 (mkParms 0 0 0 0 0 0) (replicate 300 0) [] [] (demo_placed FlashStore.NVRAM) eq_refl
    (HR := Nor.reliable demo_sizes demo_ok) PSI 0x100 0x2000 0x1000 [1; 2; 3] 5 (b [1; 2; 3] [])) as (b1 & E1 & _ & E2).
  - apply Hp. by left.
  - done.
  - done.
  - done.
  - done.
  - apply demo_placed.
  - done.
  - done.
  - by apply ubytes_read.
  - right. by vm_compute.
  - exists b1. split; [exact E1|].
    destruct (E2 0x100 0x1000 (b [0; 0; 0] (b_flash b1))) as (b2 & E & Hb & _).
    + reflexivity.
    + apply Hp. right. reflexivity.
    + split; vm_compute; [discriminate|reflexivity].
    + clear E1. by apply (ubytes_mapped _ _ [0; 0; 0]), ubytes_read.
    + right. vm_compute. discriminate.
    + exists b2. exact (conj E Hb).
Defined.

(** *** A token that is not stored

    The pad holds three bytes for the name; the four bytes to be stored begin with them, and
    the allocated memory happens to hold the fourth. *)
Definition demo_scratch : board (list Z) :=
  let m := demo_fill 0x1000 demo_id (demo_fill 0x1010 [1; 2; 3; 4] (demo_fill 0x1020 [0; 0; 0; 4] (demo_umem (mkParms 0 0 0 0 0 0) []))) in
  with_user (demo_board pad_image (mkParms 0 0 0 0 0 0) []) m.

Definition pad_ioctl : Z -> Z -> board (list Z) -> option (outcome (board (list Z))) :=
  board_ioctl BCM96338 (Some (Nor.dev pad_sizes)) Nor.FLASH_BASE true true pad_info 0 0 0 []
    BP_NOT_DEFINED BP_NOT_DEFINED false 0 (fun f => f) (fun _ => 0) (fun _ => 0) 0 (mkParms 0 0 0 0 0 0) (replicate 300 0) [] [].

Example scratch_set_lost :
  match sysScratchPadSet pad_ioctl true true 0x100 0x1020 0x1000 0x1010 4 demo_scratch with
  | Some (Returns r b) => Some (r, bool_decide (b_flash b = pad_image), kerSysScratchPadGet (Some (Nor.dev pad_sizes)) true pad_info demo_id 4 (b_flash b))
  | _ => None
  end = Some (0, true, Some (3, [1; 2; 3])).
Proof. vm_compute. reflexivity. Qed.
