(* ===== verification/SysText.v ===== *)
(** * Text in the user-space system library

    Functions of [cfm/util/system/syscall.c] on strings: quoting for the shell, passwords
    in commands, fields of a text, and MAC and IP addresses.  A string is the buffer that
    holds it; a null pointer is [None] in an argument, and a result of [None] is an access
    behind a buffer.  [isspace] is that of the C locale; [long] has 32 bits. *)

From S2P Require Import Prelude BoardParms KString Nvram Decimal.

Definition SQUOTE : Z := 39.
Definition DQUOTE : Z := 34.
Definition BACKSLASH : Z := 92.

(** ** Quoting *)

Definition quote_of (c : Z) : Z := if negb (c =? SQUOTE) then SQUOTE else DQUOTE.

Fixpoint convert_loop (s : list Z) (j : Z) (buf : list Z) : option (Z * list Z) :=
  match s with
  | [] => Some (j, buf)
  | c :: s' => buf ← mem_write buf j [quote_of c; c; quote_of c]; convert_loop s' (j + 3) buf
  end.

Definition bcmConvertStrToShellStr (str : list Z) (buf : option (list Z)) : option (option (list Z)) :=
  match buf with
  | None => Some None
  | Some buf =>
      if nul_terminated str then
        '(j, buf) ← convert_loop (cstr str) 0 buf; buf ← mem_write buf j [0]; Some (Some buf)
      else None
  end.

Definition bcmIsMarkStrChar (c : Z) : bool := existsb (Z.eqb c) [SQUOTE; DQUOTE; BACKSLASH].

Fixpoint mark_loop (s : list Z) (j : Z) (buf : list Z) : option (Z * list Z) :=
  match s with
  | [] => Some (j, buf)
  | c :: s' =>
      '(j, buf) ← (if bcmIsMarkStrChar c then buf ← mem_write buf j [BACKSLASH]; Some (j + 1, buf) else Some (j, buf));
      buf ← mem_write buf j [c];
      mark_loop s' (j + 1) buf
  end.

Definition SYS_CMD_LEN : Z := 256.

(** [stack] is what the local array of [SYS_CMD_LEN] bytes holds; [strcpy] writes the
    result over the string. *)
Definition bcmProcessMarkStrChars (stack : list Z) (str : option (list Z)) : option (option (list Z)) :=
  match str with
  | None => Some None
  | Some str =>
      c ← str !! 0%nat;
      if c =? 0 then Some (Some str)
      else if nul_terminated str then
        '(j, buf) ← mark_loop (cstr str) 0 stack;
        buf ← mem_write buf j [0];
        str ← mem_write str 0 (cstr buf ++ [0]);
        Some (Some str)
      else None
  end.

(** ** Searching *)

Fixpoint is_prefix (n h : list Z) : bool :=
  match n, h with
  | [], _ => true
  | a :: n', b :: h' => (a =? b) && is_prefix n' h'
  | _, _ => false
  end.

(** [strstr]: the offset of the first occurrence. *)
Fixpoint strstr (h n : list Z) : option nat :=
  if is_prefix n h then Some 0%nat
  else match h with [] => None | _ :: h' => i ← strstr h' n; Some (S i) end.

Definition isspace (c : Z) : bool := (c =? 32) || ((9 <=? c) && (c <=? 13)).

Fixpoint skip_space (s : list Z) : list Z :=
  match s with c :: s' => if isspace c then skip_space s' else s | [] => [] end.

Fixpoint copy_value (s : list Z) (i len : Z) (val : list Z) : option (list Z) :=
  match s with
  | c :: s' =>
      if (i <? len) && negb (isspace c) then val ← mem_write val i [c]; copy_value s' (i + 1) len val
      else mem_write val i [0]
  | [] => mem_write val i [0]
  end.

(** The strings [info] and [var] without their NUL. *)
Definition parseStrInfo (info var val : option (list Z)) (len : Z) : option (option (list Z)) :=
  match info, var, val with
  | Some info, Some var, Some val =>
      match strstr info var with
      | None => Some (Some val)
      | Some i => val ← copy_value (skip_space (drop (i + length var) info)) 0 len val; Some (Some val)
      end
  | _, _, _ => Some val
  end.

Fixpoint until_space (s : list Z) : nat :=
  match s with c :: s' => if c =? 32 then 0%nat else S (until_space s') | [] => 0%nat end.

(** Behind "-p" the code skips one character, which may be the NUL. *)
Definition bcmHidePassword (command : list Z) : option (list Z) :=
  if nul_terminated command then
    match strstr (cstr command) (bytes_of_string "pppd") with
    | None => Some command
    | Some p =>
        match strstr (drop p (cstr command)) (bytes_of_string "-p") with
        | None => Some command
        | Some q =>
            let begin := (p + q + 3)%nat in
            let rest := drop begin command in
            if nul_terminated rest then
              mem_write command (Z.of_nat begin) (replicate (until_space (cstr rest)) 42)
            else None
        end
    end
  else None.

(** ** The strings of /proc *)

(** Text with NULs in it, up to two NULs: the loop of [remove_delimitor] with its two
    pointers. *)
Fixpoint delimitor_loop (fuel : nat) (p1 p2 : nat) (s : list Z) : option (list Z) :=
  match fuel with
  | O => None
  | S fuel' =>
      c ← s !! p1;
      go ← (if negb (c =? 0) then Some true else d ← s !! S p1; Some (negb (d =? 0)));
      if (go : bool) then
        (if negb (c =? 0) then delimitor_loop fuel' (S p1) (S p2) (<[p2 := c]> s) else delimitor_loop fuel' (S p1) p2 s)
      else Some (<[p2 := 0]> s)
  end.

Definition remove_delimitor (s : list Z) : option (list Z) := delimitor_loop (S (length s)) 0 0 s.

(** ** Addresses *)

Definition mac_text (mac : list Z) : list Z :=
  match mac with
  | [a; b; c; d; e; f] =>
      hex_digits a ++ 58 :: hex_digits b ++ 58 :: hex_digits c ++ 58 :: hex_digits d ++ 58 :: hex_digits e ++ 58 :: hex_digits f
  | _ => []
  end.

(** [macAddr] has six bytes. *)
Definition bcmMacNumToStr (macAddr str : option (list Z)) : option (bool * option (list Z)) :=
  match macAddr, str with
  | Some mac, Some str => str ← mem_write str 0 (mac_text mac ++ [0]); Some (true, Some str)
  | _, _ => Some (false, str)
  end.

Fixpoint hex_loop (s : list Z) (acc : Z) : Z :=
  match s with c :: s' => if isxdigit c then hex_loop s' (acc * 16 + hex_value c) else acc | [] => acc end.

(** [strtol(s, NULL, 16)]: space, a sign, "0x", digits; the result is cut to a [long]. *)
Definition strtol16 (s : list Z) : Z :=
  let s := skip_space s in
  let '(neg, s) := match s with
    | c :: s' => if c =? 45 then (true, s') else if c =? 43 then (false, s') else (false, s)
    | [] => (false, []) end in
  let s := match s with
    | a :: b :: c :: s' => if (a =? 48) && ((b =? 120) || (b =? 88)) && isxdigit c then c :: s' else s
    | _ => s end in
  let n := hex_loop s 0 in
  if neg then Z.max (- 2 ^ 31) (- n) else Z.min (2 ^ 31 - 1) n.

(** [strtok_r] with ":": the token and what is left. *)
Fixpoint skip_colons (s : list Z) : list Z :=
  match s with c :: s' => if c =? 58 then skip_colons s' else s | [] => [] end.
Fixpoint take_token (s : list Z) : list Z * list Z :=
  match s with
  | c :: s' => if c =? 58 then ([], s') else let '(t, r) := take_token s' in (c :: t, r)
  | [] => ([], [])
  end.
Definition strtok_r (s : list Z) : option (list Z * list Z) :=
  match skip_colons s with [] => None | s' => Some (take_token s') end.

Fixpoint mac_loop (n : nat) (i : Z) (s mac : list Z) : option (list Z) :=
  match n with
  | O => Some mac
  | S n' =>
      match strtok_r s with
      | None => Some mac
      | Some (t, s') => mac ← mem_write mac i [u8 (strtol16 t)]; mac_loop n' (i + 1) s' mac
      end
  end.

(** [malloc_ok]: whether there is memory for the copy; without it [memset] writes through
    the null pointer.  The copy has at most 19 characters. *)
Definition bcmMacStrToNum (malloc_ok : bool) (macAddr str : option (list Z)) : option (bool * option (list Z)) :=
  match macAddr, str with
  | Some mac, Some str =>
      if malloc_ok then
        if nul_terminated str then mac ← mac_loop 6 0 (take 19 (cstr str)) mac; Some (true, Some mac) else None
      else None
  | _, _ => Some (false, macAddr)
  end.

Definition ip_text (ip : Z) : list Z :=
  print_d (Z.land 0xff (Z.shiftr ip 24)) ++ 46 :: print_d (Z.land 0xff (Z.shiftr ip 16)) ++ 46 ::
  print_d (Z.land 0xff (Z.shiftr ip 8)) ++ 46 :: print_d (Z.land 0xff ip).

Definition writeIp_b (ip : Z) (buf : list Z) : option (list Z) := mem_write buf 0 (ip_text ip ++ [0]).

(** [writeMac] and [writeIp] have static buffers of 24 bytes. *)
Definition writeMac (mac buf : list Z) : option (list Z) := mem_write buf 0 (mac_text mac ++ [0]).
Definition writeIp (ip : Z) (buf : list Z) : option (list Z) := writeIp_b ip buf.

Fixpoint dec_loop (s : list Z) (acc : Z) : Z :=
  match s with c :: s' => if isdigit c then dec_loop s' (acc * 10 + (c - 48)) else acc | [] => acc end.

(** [atoi] of text that starts with a digit. *)
Definition atoi (s : list Z) : Z := Z.min (2 ^ 31 - 1) (dec_loop s 0).

Fixpoint skip_digits (s : list Z) : list Z :=
  match s with c :: s' => if isdigit c then skip_digits s' else s | [] => [] end.

Fixpoint readIp_loop (fuel : nat) (n res : Z) (ip : list Z) : Z :=
  match fuel with
  | O => res
  | S fuel' =>
      match ip with
      | c :: ip' =>
          if n <? 4 then
            if isdigit c then readIp_loop fuel' (n + 1) (Z.lor (s32 (Z.shiftl res 8)) (atoi ip)) (skip_digits ip)
            else readIp_loop fuel' n res ip'
          else res
      | [] => res
      end
  end.

Definition readIp (ip : list Z) : option Z :=
  if nul_terminated ip then Some (readIp_loop (length ip) 0 0 (cstr ip)) else None.

(** ** Salt of a password *)

Definition i64c (i : Z) : Z :=
  if i <=? 0 then 46
  else if i =? 1 then 47
  else if (2 <=? i) && (i <? 12) then 48 - 2 + i
  else if (12 <=? i) && (i <? 38) then 65 - 12 + i
  else if (38 <=? i) && (i <? 63) then 97 - 38 + i
  else 122.

(** The static [x], and the time, the process id and the clock. *)
Definition crypt_make_salt (x now pid clock : Z) : Z * list Z :=
  let x := u32 (x + u32 (now + pid + clock)) in
  (x, [i64c (Z.land (Z.lxor (Z.shiftr x 18) (Z.shiftr x 6)) 63); i64c (Z.land (Z.lxor (Z.shiftr x 12) x) 63); 0]).

(** ** The quoted text *)

(** Every character in quotes of its own: a single quote in double quotes, any other
    character in single quotes. *)
Definition quoted (s : list Z) : list Z := concat (map (fun c => [quote_of c; c; quote_of c]) s).

Lemma quoted_zlen s : zlen (quoted s) = 3 * zlen s.
Proof. induction s as [|c s IH]; [done|]. cbn [quoted map concat]. fold (quoted s). rewrite zlen_app, IH, !zlen_cons, zlen_nil. lia. Qed.

Lemma convert_loop_spec s : forall buf j,
  0 <= j -> j + 3 * zlen s <= zlen buf ->
  convert_loop s j buf = Some (j + 3 * zlen s, splice j (quoted s) buf).
Proof.
  induction s as [|c s IH]; intros buf j Hj Hl; cbn [convert_loop].
  - rewrite (@zlen_nil Z). cbn. rewrite splice_nil. do 2 f_equal. lia.
  - rewrite zlen_cons in Hl. pose proof (zlen_nonneg s).
    rewrite mem_write_Some by (rewrite ?zlen_cons, ?(@zlen_nil Z); lia). cbn [mbind option_bind].
    rewrite IH; [|lia|rewrite zlen_splice; rewrite ?zlen_cons, ?(@zlen_nil Z); lia].
    f_equal. f_equal; [rewrite zlen_cons; lia|].
    change (quoted (c :: s)) with ([quote_of c; c; quote_of c] ++ quoted s).
    apply splice_splice; [lia|done|rewrite quoted_zlen, !zlen_cons, (@zlen_nil Z); lia].
Qed.

Lemma quoted_no_nul s : Forall (fun c => c <> 0) s -> Forall (fun c => c <> 0) (quoted s).
Proof.
  induction 1 as [|c s Hc _ IH]; [done|]. change (quoted (c :: s)) with ([quote_of c; c; quote_of c] ++ quoted s).
  apply Forall_app. split; [|done]. unfold quote_of. destruct (negb _); by repeat constructor.
Qed.

(** The text is behind the last write of a conversion, with its NUL. *)
Lemma text_written t buf :
  Forall (fun c => c <> 0) t -> zlen t < zlen buf ->
  exists buf', mem_write (splice 0 t buf) (zlen t) [0] = Some buf' /\ zlen buf' = zlen buf /\ cstr buf' = t /\
    buf' = splice 0 (t ++ [0]) buf.
Proof.
  intros Ht Hl. pose proof (zlen_nonneg t).
  assert (Hz : zlen [0] = 1) by done.
  exists (splice 0 (t ++ [0]) buf). rewrite mem_write_Some by (rewrite ?zlen_splice; lia).
  assert (E : splice (zlen t) [0] (splice 0 t buf) = splice 0 (t ++ [0]) buf) by (apply (splice_splice 0 t [0] buf (zlen t)); lia).
  rewrite E. split_and!; [done|apply zlen_splice; rewrite ?zlen_app; lia| |done].
  unfold splice. cbn [Z.to_nat take app]. rewrite <- app_assoc. by apply cstr_app_nul.
Qed.

(** [bcmConvertStrToShellStr] writes the quoted text into a buffer of three bytes for each
    character and one more. *)
Theorem convert_spec str buf :
  nul_terminated str = true -> 3 * zlen (cstr str) < zlen buf ->
  exists buf', bcmConvertStrToShellStr str (Some buf) = Some (Some buf') /\ zlen buf' = zlen buf /\
    cstr buf' = quoted (cstr str).
Proof.
  intros Hn Hl. unfold bcmConvertStrToShellStr. rewrite Hn. pose proof (zlen_nonneg (cstr str)).
  rewrite convert_loop_spec by lia. cbn [mbind option_bind].
  destruct (text_written (quoted (cstr str)) buf) as (buf' & E & Hb & Hc & _);
    [apply quoted_no_nul, cstr_no_nul|rewrite quoted_zlen; lia|].
  rewrite quoted_zlen in E. replace (0 + 3 * zlen (cstr str)) with (3 * zlen (cstr str)) by lia. rewrite E.
  by exists buf'.
Qed.

Example shell_quote_demo :
  option_map (option_map cstr) (bcmConvertStrToShellStr (bytes_of_string "it's" ++ [0]) (Some (replicate 13 7)))
  = Some (Some ([39; 105; 39] ++ [39; 116; 39] ++ [34; 39; 34] ++ [39; 115; 39])).
Proof. reflexivity. Qed.

(** An empty string gives empty text, which is no word for a shell. *)
Example shell_quote_empty : bcmConvertStrToShellStr [0] (Some [7]) = Some (Some [0]).
Proof. reflexivity. Qed.

(** ** Escaped strings *)

(** A backslash (92) in front of the two quotes (39 and 34) and of the backslash itself. *)
Definition marked (s : list Z) : list Z :=
  concat (map (fun c => if (c =? 39) || (c =? 34) || (c =? 92) then [92; c] else [c]) s).

(** What reads the escapes back. *)
Fixpoint unmark (s : list Z) : list Z :=
  match s with
  | [] => []
  | c :: s' => match s' with
               | d :: s'' => if c =? BACKSLASH then d :: unmark s'' else c :: unmark s'
               | [] => [c]
               end
  end.

Lemma marked_cons c s : marked (c :: s) = (if bcmIsMarkStrChar c then [BACKSLASH; c] else [c]) ++ marked s.
Proof.
  assert (bcmIsMarkStrChar c = (c =? 39) || (c =? 34) || (c =? 92)) as ->; [|done].
  unfold bcmIsMarkStrChar, SQUOTE, DQUOTE, BACKSLASH. cbn [existsb]. by rewrite orb_false_r, orb_assoc.
Qed.

Lemma unmark_marked s : unmark (marked s) = s.
Proof.
  induction s as [|c s IH]; [done|]. rewrite marked_cons. destruct (bcmIsMarkStrChar c) eqn:Hm.
  - cbn [app unmark]. change (BACKSLASH =? BACKSLASH) with true. cbv iota. by rewrite IH.
  - cbn [app unmark]. assert (Hc : (c =? BACKSLASH) = false).
    { destruct (Z.eqb_spec c BACKSLASH) as [->|]; done. }
    destruct (marked s) as [|d r] eqn:E; [|by rewrite Hc, IH]. by rewrite <- IH.
Qed.

Lemma mem_write_nil (buf : list Z) j : 0 <= j <= zlen buf -> mem_write buf j [] = Some buf.
Proof. intros. rewrite mem_write_Some by (rewrite ?(@zlen_nil Z); lia). by rewrite splice_nil. Qed.

(** Two writes behind each other are one, and go wrong together. *)
Lemma mem_write_app (buf d1 d2 : list Z) j :
  0 <= j -> (b ← mem_write buf j d1; mem_write b (j + zlen d1) d2) = mem_write buf j (d1 ++ d2).
Proof.
  intros Hj. pose proof (zlen_nonneg d1). pose proof (zlen_nonneg d2). unfold mem_write. rewrite zlen_app.
  rewrite (proj2 (Z.leb_le 0 j)) by lia. cbn [andb].
  destruct (Z.leb_spec (j + zlen d1) (zlen buf)) as [H1|H1]; cbn [mbind option_bind].
  - rewrite zlen_splice, (proj2 (Z.leb_le 0 (j + zlen d1))) by lia. cbn [andb]. rewrite <- Z.add_assoc.
    destruct (Z.leb_spec (j + (zlen d1 + zlen d2)) (zlen buf)); [|done]. by rewrite (splice_splice j d1) by (done || lia).
  - rewrite (proj2 (Z.leb_gt _ _)) by lia. done.
Qed.

Lemma mark_loop_spec s : forall buf j,
  0 <= j <= zlen buf ->
  mark_loop s j buf = (b ← mem_write buf j (marked s); Some (j + zlen (marked s), b)).
Proof.
  induction s as [|c s IH]; intros buf j Hj; cbn [mark_loop].
  - change (marked []) with (@nil Z). rewrite mem_write_nil by lia. cbn. by rewrite (@zlen_nil Z), Z.add_0_r.
  - set (piece := if bcmIsMarkStrChar c then [BACKSLASH; c] else [c]).
    assert (E : mark_loop (c :: s) j buf = (b ← mem_write buf j piece; mark_loop s (j + zlen piece) b)).
    { cbn [mark_loop]. subst piece. destruct (bcmIsMarkStrChar c); [|done].
      change [BACKSLASH; c] with ([BACKSLASH] ++ [c]). rewrite <- mem_write_app by lia.
      destruct (mem_write buf j [BACKSLASH]) as [b|]; [|done]. cbn [mbind option_bind].
      change (zlen [BACKSLASH]) with 1. destruct (mem_write b (j + 1) [c]); [|done]. cbn. f_equal.
      change (zlen [BACKSLASH; c]) with 2. lia. }
    cbn [mark_loop] in E. rewrite E. clear E. rewrite marked_cons. fold piece. rewrite <- mem_write_app by lia.
    destruct (mem_write buf j piece) as [b|] eqn:Ew; [|done]. cbn [mbind option_bind].
    pose proof (zlen_nonneg piece). apply mem_write_inv in Ew as (_ & Hl & ->).
    rewrite IH by (rewrite zlen_splice; lia). by rewrite zlen_app, Z.add_assoc.
Qed.

Lemma marked_no_nul s : Forall (fun c => c <> 0) s -> Forall (fun c => c <> 0) (marked s).
Proof.
  induction 1 as [|c s Hc _ IH]; [done|]. rewrite marked_cons. apply Forall_app. split; [|done].
  destruct (bcmIsMarkStrChar c); by repeat constructor.
Qed.

Lemma mem_write_text t buf :
  mem_write buf 0 (t ++ [0]) = if zlen t <? zlen buf then Some (splice 0 (t ++ [0]) buf) else None.
Proof.
  unfold mem_write. rewrite zlen_app. change (zlen [0]) with 1. change (0 <=? 0) with true. cbn [andb].
  destruct (Z.ltb_spec (zlen t) (zlen buf)), (Z.leb_spec (0 + (zlen t + 1)) (zlen buf)); done || lia.
Qed.

Lemma text_read t buf :
  Forall (fun c => c <> 0) t ->
  cstr (splice 0 (t ++ [0]) buf) = t /\ nul_terminated (splice 0 (t ++ [0]) buf) = true.
Proof.
  intros Ht. unfold splice. cbn [Z.to_nat take app]. rewrite <- app_assoc. split; [by apply cstr_app_nul|].
  unfold nul_terminated. rewrite !existsb_app. cbn [app existsb]. change (0 =? 0) with true. cbn [orb].
  by rewrite !orb_true_r.
Qed.

(** C40: [bcmProcessMarkStrChars] puts a backslash in front of each quote and backslash of a
    string that is not empty, and nothing else (the escapes can be read back), exactly when
    the escaped form fits, with its NUL, into the local array of [SYS_CMD_LEN] bytes and into
    the buffer of the string itself, which the caller made for the shorter form; otherwise it
    writes behind one of them.  Behind the text the buffer stays as it was. *)
Theorem mark_str_spec stack str c :
  zlen stack = SYS_CMD_LEN -> nul_terminated str = true -> str !! 0%nat = Some c -> c <> 0 ->
  let s := cstr str in
  unmark (marked s) = s /\
  bcmProcessMarkStrChars stack (Some str)
    = if (zlen (marked s) <? SYS_CMD_LEN) && (zlen (marked s) <? zlen str)
      then Some (Some (splice 0 (marked s ++ [0]) str)) else None.
Proof.
  intros Hst Hn Hc Hc0 s. split; [apply unmark_marked|]. unfold bcmProcessMarkStrChars. rewrite Hc. cbn [mbind option_bind].
  rewrite (proj2 (Z.eqb_neq c 0) Hc0), Hn. fold s. pose proof (zlen_nonneg (marked s)).
  rewrite mark_loop_spec by (unfold SYS_CMD_LEN in *; lia).
  assert (E : ('(j, buf) ← (b ← mem_write stack 0 (marked s); Some (0 + zlen (marked s), b)); mem_write buf j [0])
              = mem_write stack 0 (marked s ++ [0])).
  { rewrite <- mem_write_app by lia. by destruct (mem_write stack 0 (marked s)). }
  rewrite mem_write_text, Hst in E.
  destruct (mem_write stack 0 (marked s)) as [b|] eqn:Eb; cbn [mbind option_bind] in *.
  - rewrite E. destruct (zlen (marked s) <? SYS_CMD_LEN); [|done]. cbn [andb mbind option_bind].
    destruct (text_read (marked s) stack (marked_no_nul _ (cstr_no_nul _))) as [Ec _]. rewrite Ec, mem_write_text. by destruct (_ <? _).
  - by destruct (zlen (marked s) <? SYS_CMD_LEN).
Qed.

(** [say "hi"] in a buffer with room for the two backslashes. *)
Lemma mark_str_spec_witness :
  let str := bytes_of_string "say " ++ [34; 104; 105; 34; 0; 7; 7; 7] in
  unmark (marked (cstr str)) = cstr str /\
  bcmProcessMarkStrChars (replicate 256 9) (Some str)
    = Some (Some (bytes_of_string "say " ++ [92; 34; 104; 105; 92; 34; 0; 7])).
Proof.
  intros str. destruct (mark_str_spec (replicate 256 9) str 115) as [E1 E2];
    [reflexivity|reflexivity|reflexivity|discriminate|]. split; [exact E1|]. rewrite E2. reflexivity.
Defined.

(** ** Addresses as text *)

Lemma hex_octet b :
  is_u8 b -> strtol16 (hex_digits b) = b /\ forallb (fun c => negb (c =? 58) && negb (c =? 0)) (hex_digits b) = true.
Proof.
  intros Hb. apply (octets_all (fun b => (strtol16 (hex_digits b) =? b) &&
    forallb (fun c => negb (c =? 58) && negb (c =? 0)) (hex_digits b))) in Hb; [|by vm_compute].
  apply andb_true_iff in Hb as [H1%Z.eqb_eq H2]. done.
Qed.

Lemma take_token_colon t s : forallb (fun c => negb (c =? 58) && negb (c =? 0)) t = true -> take_token (t ++ 58 :: s) = (t, s).
Proof.
  induction t as [|c t IH]; intros H; [done|]. cbn [forallb] in H. apply andb_true_iff in H as [Hc Ht].
  apply andb_true_iff in Hc as [Hc _]. apply negb_true_iff in Hc. cbn [app take_token]. by rewrite Hc, IH.
Qed.

Lemma take_token_end t : forallb (fun c => negb (c =? 58) && negb (c =? 0)) t = true -> take_token t = (t, []).
Proof.
  induction t as [|c t IH]; intros H; [done|]. cbn [forallb] in H. apply andb_true_iff in H as [Hc Ht].
  apply andb_true_iff in Hc as [Hc _]. apply negb_true_iff in Hc. cbn [take_token]. by rewrite Hc, IH.
Qed.

Lemma strtok_digits b s : is_u8 b -> strtok_r (hex_digits b ++ s) = Some (take_token (hex_digits b ++ s)).
Proof.
  intros Hb. destruct (hex_octet b Hb) as [_ H]. cbn in H.
  apply andb_true_iff in H as [H _]. apply andb_true_iff in H as [H _]. apply negb_true_iff in H.
  unfold strtok_r. assert (E : skip_colons (hex_digits b ++ s) = hex_digits b ++ s) by (cbn; by rewrite H).
  by rewrite E.
Qed.

Lemma strtok_hex b s : is_u8 b -> strtok_r (hex_digits b ++ 58 :: s) = Some (hex_digits b, s).
Proof. intros Hb. rewrite strtok_digits by done. by rewrite (take_token_colon _ _ (proj2 (hex_octet b Hb))). Qed.

Lemma strtok_hex_end b : is_u8 b -> strtok_r (hex_digits b) = Some (hex_digits b, []).
Proof.
  intros Hb. pose proof (strtok_digits b [] Hb) as E. rewrite app_nil_r in E.
  by rewrite E, (take_token_end _ (proj2 (hex_octet b Hb))).
Qed.

Lemma mac_text_no_nul mac : Forall is_u8 mac -> Forall (fun c => c <> 0) (mac_text mac).
Proof.
  intros H. assert (Hx : Forall (fun b => Forall (fun c => c <> 0) (hex_digits b)) mac).
  { eapply Forall_impl; [exact H|]. intros b Hb. destruct (hex_octet b Hb) as [_ Hd]. cbn in Hd.
    apply andb_true_iff in Hd as [[_ H1]%andb_true_iff Hd]. apply andb_true_iff in Hd as [[_ H2]%andb_true_iff _].
    apply negb_true_iff, Z.eqb_neq in H1, H2. by repeat constructor. }
  unfold mac_text. do 7 (destruct mac as [|? mac]; [try done|]); [|done].
  repeat match goal with H : Forall _ (_ :: _) |- _ => apply Forall_cons_1 in H as [? ?] end.
  do 5 (apply Forall_app_2; [done|]; apply Forall_cons_2; [done|]). done.
Qed.

Fixpoint colon_join (bs : list Z) : list Z :=
  match bs with [] => [] | [b] => hex_digits b | b :: bs' => hex_digits b ++ 58 :: colon_join bs' end.

Lemma strtok_join b bs : is_u8 b -> strtok_r (colon_join (b :: bs)) = Some (hex_digits b, colon_join bs).
Proof. intros Hb. destruct bs; [by apply strtok_hex_end|by apply strtok_hex]. Qed.

Lemma mac_loop_join bs : forall pre os,
  Forall is_u8 bs -> length os = length bs ->
  mac_loop (length bs) (zlen pre) (colon_join bs) (pre ++ os) = Some (pre ++ bs).
Proof.
  induction bs as [|b bs IH]; intros pre os Hb Hl; [by destruct os|]. destruct os as [|o os]; [done|].
  apply Forall_cons_1 in Hb as [Hb Hbs]. cbn [length mac_loop].
  rewrite strtok_join, (proj1 (hex_octet b Hb)), u8_id by done. change (o :: os) with ([o] ++ os).
  rewrite (mem_write_mid (zlen pre) pre [o] [b] os) by done. cbn [mbind option_bind].
  specialize (IH (pre ++ [b]) os Hbs ltac:(by injection Hl)). rewrite <- !app_assoc, zlen_app in IH. exact IH.
Qed.

(** C27: A MAC address of six bytes survives [bcmMacNumToStr] into a buffer of at least 18
    bytes and [bcmMacStrToNum] back into an array of six, whatever the two held before: the
    text is the six bytes in two hexadecimal digits each with colons between them, and both
    functions report success (the second when its [malloc] succeeds; otherwise it writes
    through the null pointer). *)
Theorem mac_text_roundtrip mac out str :
  length mac = 6%nat -> Forall is_u8 mac -> length out = 6%nat -> 18 <= zlen str ->
  exists str', bcmMacNumToStr (Some mac) (Some str) = Some (true, Some str') /\ cstr str' = mac_text mac /\
    bcmMacStrToNum true (Some out) (Some str') = Some (true, Some mac).
Proof.
  intros Hm Hb Ho Hs. pose proof (mac_text_no_nul mac Hb) as Hnn.
  destruct mac as [|a [|b [|c [|d [|e [|f [|]]]]]]]; try done.
  assert (Hl : zlen (mac_text [a; b; c; d; e; f]) = 17) by done.
  set (t := mac_text [a; b; c; d; e; f]) in *.
  exists (splice 0 (t ++ [0]) str). unfold bcmMacNumToStr. fold t. rewrite mem_write_text, (proj2 (Z.ltb_lt _ _)) by lia.
  destruct (text_read t str Hnn) as [Ec Hn]. split; [done|]. split; [done|]. unfold bcmMacStrToNum.
  rewrite Hn, Ec, take_ge by (unfold zlen in Hl; lia). subst t.
  change (mac_text [a; b; c; d; e; f]) with (colon_join [a; b; c; d; e; f]).
  assert (E : mac_loop 6 0 (colon_join [a; b; c; d; e; f]) out = Some [a; b; c; d; e; f])
    by exact (mac_loop_join [a; b; c; d; e; f] [] out Hb Ho).
  by rewrite E.
Qed.

Lemma mac_text_roundtrip_witness :
  exists str', bcmMacNumToStr (Some [0x02; 0x10; 0x18; 0xab; 0; 0xff]) (Some (replicate 20 7)) = Some (true, Some str')
    /\ cstr str' = bytes_of_string "02:10:18:ab:00:ff"
    /\ bcmMacStrToNum true (Some (replicate 6 9)) (Some str') = Some (true, Some [0x02; 0x10; 0x18; 0xab; 0; 0xff]).
Proof.
  apply (mac_text_roundtrip [0x02; 0x10; 0x18; 0xab; 0; 0xff] (replicate 6 9) (replicate 20 7)).
  - reflexivity.
  - repeat constructor; reflexivity || discriminate.
  - reflexivity.
  - discriminate.
Defined.

Lemma dec_octet o :
  is_u8 o -> dec_loop (print_d o) 0 = o /\ forallb isdigit (print_d o) = true /\ (0 < length (print_d o) <= 3)%nat.
Proof.
  intros Ho. apply (octets_all (fun o => (dec_loop (print_d o) 0 =? o) && forallb isdigit (print_d o) &&
    (0 <? length (print_d o))%nat && (length (print_d o) <=? 3)%nat)) in Ho; [|by vm_compute].
  apply andb_true_iff in Ho as [[[H1%Z.eqb_eq H2]%andb_true_iff H3]%andb_true_iff H4].
  apply Nat.ltb_lt in H3. apply Nat.leb_le in H4. done.
Qed.

Lemma digits_then l rest acc :
  forallb isdigit l = true -> match rest with c :: _ => isdigit c = false | [] => True end ->
  dec_loop (l ++ rest) acc = dec_loop l acc /\ skip_digits (l ++ rest) = rest.
Proof.
  revert acc. induction l as [|c l IH]; intros acc Hl Hr.
  - destruct rest as [|c rest]; [done|]. cbn. by rewrite Hr.
  - cbn [forallb] in Hl. apply andb_true_iff in Hl as [Hc Hl]. cbn. rewrite Hc. by apply IH.
Qed.

(** One number of an address. *)
Lemma readIp_octet fuel n res o rest :
  is_u8 o -> n < 4 -> match rest with c :: _ => isdigit c = false | [] => True end ->
  readIp_loop (S fuel) n res (print_d o ++ rest) = readIp_loop fuel (n + 1) (s32 (res * 256) + o) rest.
Proof.
  intros Ho Hn Hr. destruct (dec_octet o Ho) as (H1 & H2 & H3).
  destruct (digits_then (print_d o) rest 0 H2 Hr) as [E1 E2].
  assert (Ea : atoi (print_d o ++ rest) = o) by (unfold atoi; rewrite E1, H1; unfold is_u8 in Ho; lia).
  destruct (print_d o) as [|c l] eqn:Ep; [cbn in H3; lia|]. cbn [app] in *.
  cbn [readIp_loop]. rewrite (proj2 (Z.ltb_lt n 4) Hn). cbn [forallb] in H2. apply andb_true_iff in H2 as [Hc _]. rewrite Hc.
  rewrite Ea, E2. f_equal. rewrite Z.shiftl_mul_pow2 by lia. change (2 ^ 8) with 256.
  assert (Em : (s32 (res * 256)) mod 2 ^ 8 = 0).
  { unfold s32. rewrite Zminus_mod, Z.mod_mod_divide by (exists (2 ^ 24); lia).
    rewrite <- Zminus_mod. replace (res * 256 + 2 ^ 31 - 2 ^ 31) with (res * 2 ^ 8) by lia. apply Z_mod_mult. }
  assert (Ez : Z.land (s32 (res * 256)) o = 0).
  { apply Z.bits_inj'. intros i Hi. rewrite Z.land_spec, Z.bits_0. destruct (Z.lt_ge_cases i 8).
    - rewrite <- (Z.mod_pow2_bits_low _ 8), Em, Z.bits_0 by lia. done.
    - rewrite (Z.bits_above_log2 o i); [apply andb_false_r|unfold is_u8 in Ho; lia|].
      destruct (Z.eq_dec o 0) as [->|]; [cbn; lia|]. apply Z.log2_lt_pow2; [unfold is_u8 in Ho; lia|].
      apply Z.lt_le_trans with (2 ^ 8); [apply Ho|apply Z.pow_le_mono_r; lia]. }
  symmetry. rewrite Z.add_nocarry_lxor, Z.lxor_lor by done. done.
Qed.

Lemma readIp_dot fuel n res rest : n < 4 -> readIp_loop (S fuel) n res (46 :: rest) = readIp_loop fuel n res rest.
Proof. intros Hn. cbn [readIp_loop]. by rewrite (proj2 (Z.ltb_lt n 4) Hn). Qed.

Lemma ip_octets ip :
  exists o3 o2 o1 o0, is_u8 o3 /\ is_u8 o2 /\ is_u8 o1 /\ is_u8 o0 /\
    ip_text ip = print_d o3 ++ 46 :: print_d o2 ++ 46 :: print_d o1 ++ 46 :: print_d o0 /\
    (is_s32 ip -> s32 (((o3 * 256 + o2) * 256 + o1) * 256) + o0 = ip).
Proof.
  assert (Hm : forall x, Z.land 0xff x = x mod 2 ^ 8) by (intros; rewrite Z.land_comm; by apply (Z.land_ones x 8)).
  do 4 eexists. split_and!; [| | | |reflexivity|]; rewrite ?Hm; try (apply Z.mod_pos_bound; lia).
  rewrite !Z.shiftr_div_pow2 by lia. intros Hip. unfold is_s32 in Hip.
  set (q1 := ip / 2 ^ 8). set (q2 := ip / 2 ^ 16). set (q3 := ip / 2 ^ 24).
  assert (E2 : q2 = q1 / 2 ^ 8) by (unfold q1, q2; by rewrite Z.div_div by lia).
  assert (E3 : q3 = q2 / 2 ^ 8) by (unfold q2, q3; by rewrite Z.div_div by lia).
  pose proof (Z.div_mod ip (2 ^ 8)). pose proof (Z.div_mod q1 (2 ^ 8)). pose proof (Z.div_mod q2 (2 ^ 8)).
  fold q1 in H. rewrite <- E2 in H0. rewrite <- E3 in H1.
  pose proof (Z.mod_pos_bound ip (2 ^ 8)). pose proof (Z.mod_pos_bound q1 (2 ^ 8)). pose proof (Z.mod_pos_bound q2 (2 ^ 8)).
  pose proof (Z.div_mod q3 (2 ^ 8)). pose proof (Z.mod_pos_bound q3 (2 ^ 8)).
  set (o0 := ip mod 2 ^ 8) in *. set (o1 := q1 mod 2 ^ 8) in *. set (o2 := q2 mod 2 ^ 8) in *. set (o3 := q3 mod 2 ^ 8) in *.
  set (k := q3 / 2 ^ 8) in *.
  assert (Ev : ((o3 * 256 + o2) * 256 + o1) * 256 = ip - o0 + (- k) * 2 ^ 32) by lia.
  unfold s32. rewrite Ev. replace (ip - o0 + - k * 2 ^ 32 + 2 ^ 31) with (ip - o0 + 2 ^ 31 + - k * 2 ^ 32) by lia.
  rewrite Z_mod_plus_full, Z.mod_small by lia. lia.
Qed.

Lemma dots_no_nul o : is_u8 o -> Forall (fun c => c <> 0) (print_d o).
Proof.
  intros Ho. destruct (dec_octet o Ho) as (_ & H & _).
  apply Forall_forall. intros c Hc. rewrite forallb_forall in H. specialize (H c).
  apply list_elem_of_In in Hc. specialize (H Hc). unfold isdigit in H. intros ->. done.
Qed.

(** An IP address survives [writeIp_b] and [readIp]. *)
Theorem ip_text_roundtrip ip buf :
  is_s32 ip -> 16 <= zlen buf ->
  exists buf', writeIp_b ip buf = Some buf' /\ readIp buf' = Some ip.
Proof.
  intros Hip Hb. destruct (ip_octets ip) as (o3 & o2 & o1 & o0 & H3 & H2 & H1 & H0 & Et & Ev).
  destruct (dec_octet o3 H3) as (_ & _ & L3). destruct (dec_octet o2 H2) as (_ & _ & L2).
  destruct (dec_octet o1 H1) as (_ & _ & L1). destruct (dec_octet o0 H0) as (_ & _ & L0).
  assert (Hl : zlen (ip_text ip) <= 15)
    by (rewrite Et; unfold zlen; repeat (rewrite ?length_app; cbn [length]); lia).
  assert (Hn : Forall (fun c => c <> 0) (ip_text ip)).
  { rewrite Et. do 3 (apply Forall_app_2; [by apply dots_no_nul|]; apply Forall_cons_2; [done|]). by apply dots_no_nul. }
  exists (splice 0 (ip_text ip ++ [0]) buf). unfold writeIp_b. rewrite mem_write_text, (proj2 (Z.ltb_lt _ _)) by lia.
  split; [done|]. destruct (text_read _ buf Hn) as [Ec Ht]. unfold readIp. rewrite Ht, Ec. f_equal.
  assert (Hs : zlen (splice 0 (ip_text ip ++ [0]) buf) = zlen buf)
    by (apply zlen_splice; [lia|rewrite zlen_app; change (zlen [0]) with 1; lia]).
  set (fuel := length _). assert (Hf : (16 <= fuel)%nat) by (unfold zlen in *; lia).
  replace fuel with (7 + (fuel - 7))%nat by lia. set (more := (fuel - 7)%nat).
  rewrite Et. cbn [Nat.add].
  do 3 (rewrite readIp_octet by done; rewrite readIp_dot by done).
  rewrite <- (app_nil_r (print_d o0)), readIp_octet by done.
  assert (Hend : forall f n r, readIp_loop f n r [] = r) by (intros [] ??; done). rewrite Hend.
  unfold is_u8 in *. change (s32 (0 * 256)) with 0. rewrite (s32_id ((0 + o3) * 256)), (s32_id ((_ + o2) * 256)) by (unfold is_s32; lia).
  apply Ev, Hip.
Qed.

(** Numbers above 255 run into the one before. *)
Example readIp_overlap : readIp (bytes_of_string "10.0.1.256" ++ [0]) = readIp (bytes_of_string "10.0.1.0" ++ [0]).
Proof. reflexivity. Qed.

(** A text with fewer fields is accepted, and the other bytes keep what they held. *)
Example mac_short_accepted :
  bcmMacStrToNum true (Some [9; 9; 9; 9; 9; 9]) (Some (bytes_of_string "0a:0b" ++ [0])) = Some (true, Some [10; 11; 9; 9; 9; 9]).
Proof. reflexivity. Qed.

(** ** Fields of a text *)

Lemma is_prefix_spec n h : is_prefix n h = true <-> exists r, h = n ++ r.
Proof.
  revert h. induction n as [|a n IH]; intros h; cbn; [split; [by exists h|done]|].
  destruct h as [|b h]; [split; [done|by intros [r ?]]|]. rewrite andb_true_iff, Z.eqb_eq, IH. split.
  - intros [-> [r ->]]. by exists r.
  - intros [r [= -> ->]]. split; [done|by exists r].
Qed.

(** [strstr] finds the first occurrence, and [None] says that there is none. *)
Lemma strstr_spec h n :
  match strstr h n with
  | Some i => exists r, h = take i h ++ n ++ r /\ forall j r', (j < i)%nat -> drop j h <> n ++ r'
  | None => forall p r, h <> p ++ n ++ r
  end.
Proof.
  induction h as [|c h IH]; cbn [strstr]; destruct (is_prefix n _) eqn:Hp.
  - apply is_prefix_spec in Hp as [r Hr]. exists r. split; [done|lia].
  - intros p r E. destruct p; [|done]. cbn in E. assert (is_prefix n [] = true) by (apply is_prefix_spec; by exists r). congruence.
  - apply is_prefix_spec in Hp as [r Hr]. exists r. split; [done|lia].
  - assert (Hn : forall r, c :: h <> n ++ r).
    { intros r E. assert (is_prefix n (c :: h) = true) by (apply is_prefix_spec; by exists r). congruence. }
    destruct (strstr h n) as [i|]; cbn [mbind option_bind].
    + destruct IH as (r & Hr & Hf). exists r. split; [cbn; by rewrite <- Hr|].
      intros [|j] r' Hj; [apply Hn|]. cbn. apply Hf. lia.
    + intros [|x p] r E; [by eapply Hn|]. injection E as -> E. by eapply IH.
Qed.

Fixpoint until (f : Z -> bool) (s : list Z) : list Z :=
  match s with c :: s' => if f c then [] else c :: until f s' | [] => [] end.

Lemma copy_value_spec s : forall i len val,
  0 <= i <= len -> let v := take (Z.to_nat (len - i)) (until isspace s) in
  copy_value s i len val = mem_write val i (v ++ [0]).
Proof.
  induction s as [|c s IH]; intros i len val Hi; cbn [copy_value until].
  - rewrite take_nil. done.
  - destruct (Z.ltb_spec i len) as [Hl|Hl]; cbn [andb].
    + destruct (isspace c); cbn [negb]; [by rewrite take_nil|].
      replace (Z.to_nat (len - i)) with (S (Z.to_nat (len - (i + 1)))) by lia. cbn [take].
      change ((c :: take (Z.to_nat (len - (i + 1))) (until isspace s)) ++ [0])
        with ([c] ++ (take (Z.to_nat (len - (i + 1))) (until isspace s) ++ [0])).
      rewrite <- mem_write_app by lia. change (zlen [c]) with 1.
      destruct (mem_write val i [c]); [|done]. cbn [mbind option_bind]. apply IH. lia.
    + replace (Z.to_nat (len - i)) with 0%nat by lia. done.
Qed.

(** [parseStrInfo] stores the word behind the first occurrence of [var], cut to [len]
    characters, and a NUL: [len] characters take [len + 1] bytes, one more than the size
    its comment gives [val]. *)
Theorem parseStrInfo_spec info var val len :
  0 <= len ->
  parseStrInfo (Some info) (Some var) (Some val) len =
  match strstr info var with
  | None => Some (Some val)
  | Some i =>
      let word := take (Z.to_nat len) (until isspace (skip_space (drop (i + length var) info))) in
      if zlen word <? zlen val then Some (Some (splice 0 (word ++ [0]) val)) else None
  end.
Proof.
  intros Hl. cbn [parseStrInfo]. destruct (strstr info var) as [i|]; [|done].
  rewrite copy_value_spec, Z.sub_0_r, mem_write_text by lia. by destruct (_ <? _).
Qed.

Example parse_overruns : parseStrInfo (Some (bytes_of_string "Name: abcd")) (Some (bytes_of_string "Name:")) (Some [7; 7; 7; 7]) 4 = None.
Proof. reflexivity. Qed.

(** ** Passwords in commands *)

Definition c_string (s : string) : list Z := bytes_of_string s ++ [0].

Example hide_password_hides :
  bcmHidePassword (c_string "pppd -c 0.35.1 -u user -p secret -l") = Some (c_string "pppd -c 0.35.1 -u user -p ****** -l").
Proof. reflexivity. Qed.

(** The first "-p" behind "pppd" counts, also inside another argument. *)
Example hide_password_misses :
  bcmHidePassword (c_string "pppd -c 0.35.1 -u jean-paul -p secret") = Some (c_string "pppd -c 0.35.1 -u jean-pa** -p secret").
Proof. reflexivity. Qed.

(** Behind a "-p" at the end the search goes on behind the NUL. *)
Example hide_password_overruns : bcmHidePassword (c_string "pppd -p") = None.
Proof. reflexivity. Qed.

(** ** Salts *)

Definition salt_alphabet : list Z :=
  bytes_of_string "./0123456789ABCDEFGHIJKLMNOPQRSTUVWXYZabcdefghijklmnopqrstuvwxyz".

(** [i64c] numbers the alphabet of [crypt]. *)
Lemma i64c_alphabet : map i64c (map Z.of_nat (seq 0 64)) = salt_alphabet.
Proof. reflexivity. Qed.

Theorem crypt_make_salt_spec x now pid clock :
  let '(x', salt) := crypt_make_salt x now pid clock in
  is_u32 x' /\ exists a b, salt = [a; b; 0] /\ a ∈ salt_alphabet /\ b ∈ salt_alphabet.
Proof.
  unfold crypt_make_salt. split; [apply u32_range|]. do 2 eexists. split; [reflexivity|]. rewrite <- i64c_alphabet.
  assert (H : forall z, i64c (Z.land z 63) ∈ map i64c (map Z.of_nat (seq 0 64))).
  { intros z. apply list_elem_of_fmap_2. change 63 with (Z.ones 6). rewrite Z.land_ones by lia.
    apply list_elem_of_In, in_map_iff. exists (Z.to_nat (z mod 2 ^ 6)). pose proof (Z.mod_pos_bound z (2 ^ 6)).
    split; [lia|]. apply in_seq. lia. }
  split; apply H.
Qed.

(** ** Text with NULs between its parts *)

Fixpoint single_nuls (s : list Z) : bool :=
  match s with
  | a :: s' => match s' with b :: _ => negb ((a =? 0) && (b =? 0)) | [] => negb (a =? 0) end && single_nuls s'
  | [] => true
  end.

Lemma single_nuls_cons a s : single_nuls (a :: s) = true -> single_nuls s = true /\ (a = 0 -> exists b s', s = b :: s' /\ b <> 0).
Proof.
  cbn [single_nuls]. intros [H1 H2]%andb_true_iff. split; [done|]. intros ->. destruct s as [|b s]; [done|].
  exists b, s. split; [done|]. intros ->. done.
Qed.

Lemma lookup_behind (out gap r : list Z) :
  (out ++ gap ++ r) !! length (out ++ gap) = r !! 0%nat /\ (out ++ gap ++ r) !! S (length (out ++ gap)) = r !! 1%nat.
Proof.
  rewrite app_assoc. split; (rewrite lookup_app_r by lia); f_equal; lia.
Qed.

Lemma insert_front (out r : list Z) c : <[length out := c]> (out ++ r) = out ++ <[0%nat := c]> r.
Proof. rewrite insert_app_r_alt by lia. by rewrite Nat.sub_diag. Qed.

Lemma delimitor_loop_spec body : forall fuel out gap tl,
  single_nuls body = true -> (length body < fuel)%nat ->
  exists more, delimitor_loop fuel (length (out ++ gap)) (length out) (out ++ gap ++ body ++ 0 :: 0 :: tl)
    = Some (out ++ List.filter (fun c => negb (c =? 0)) body ++ 0 :: more).
Proof.
  induction body as [|c body IH]; intros fuel out gap tl Hs Hf; (destruct fuel as [|fuel]; [lia|]); cbn [delimitor_loop app].
  - destruct (lookup_behind out gap (0 :: 0 :: tl)) as [-> ->]. cbn [lookup list_lookup mbind option_bind].
    change (0 =? 0) with true. cbn [negb]. rewrite insert_front.
    destruct gap as [|g gap]; cbn [app insert list_insert List.filter]; by eexists.
  - apply single_nuls_cons in Hs as [Hs Hz]. cbn [length] in Hf.
    destruct (lookup_behind out gap (c :: body ++ 0 :: 0 :: tl)) as [-> ->]. cbn [lookup list_lookup mbind option_bind].
    destruct (Z.eqb_spec c 0) as [->|Hc]; cbn [negb].
    + destruct (Hz eq_refl) as (b & body' & -> & Hb). cbn [app lookup list_lookup mbind option_bind].
      rewrite (proj2 (Z.eqb_neq b 0) Hb). cbn [negb List.filter]. change (0 =? 0) with true. cbn [negb].
      destruct (IH fuel out (gap ++ [0]) tl Hs ltac:(lia)) as [more E]. exists more.
      replace (length (out ++ gap ++ [0])) with (S (length (out ++ gap))) in E by (rewrite !length_app; cbn; lia).
      rewrite <- (app_assoc gap [0]) in E. exact E.
    + rewrite insert_front. cbn [List.filter]. rewrite (proj2 (Z.eqb_neq c 0) Hc). cbn [negb].
      set (gap' := match gap with [] => [] | _ :: gap' => gap' ++ [c] end).
      assert (E : <[0%nat := c]> (gap ++ c :: body ++ 0 :: 0 :: tl) = [c] ++ gap' ++ body ++ 0 :: 0 :: tl).
      { subst gap'. destruct gap; cbn; [done|]. by rewrite <- app_assoc. }
      assert (Lg : length gap' = length gap) by (subst gap'; destruct gap; [done|]; rewrite length_app; cbn; lia).
      destruct (IH fuel (out ++ [c]) gap' tl Hs ltac:(lia)) as [more E2]. exists more.
      replace (length ((out ++ [c]) ++ gap')) with (S (length (out ++ gap))) in E2 by (rewrite !length_app, Lg; cbn; lia).
      replace (length (out ++ [c])) with (S (length out)) in E2 by (rewrite length_app; cbn; lia).
      rewrite E. rewrite <- !(app_assoc out [c]) in E2. exact E2.
Qed.

(** [remove_delimitor] joins the parts of a text in place: parts with one NUL between
    them, and two NULs at the end. *)
Theorem remove_delimitor_spec body tl :
  single_nuls body = true ->
  exists more, remove_delimitor (body ++ 0 :: 0 :: tl) = Some (List.filter (fun c => negb (c =? 0)) body ++ 0 :: more).
Proof.
  intros Hs. apply (delimitor_loop_spec body (S (length (body ++ 0 :: 0 :: tl))) [] [] tl Hs).
  rewrite length_app. lia.
Qed.
