(* ===== verification/BoardStart.v ===== *)
(** * The start of the board driver

    [brcm_board_init] and [brcm_board_cleanup] of [board.c] with [kerSysScreenPciDevices] and
    [kerSysDyingGaspMapIntr]: the order in which the components come up, and the state
    in which they are when it returns.  The registration of the character device, the
    size of the memory and the PCI devices found are arguments. *)

From stdpp Require Import gmap.
From S2P Require Import Prelude BoardDefs BoardTables6338 BoardParms Led LedSpec BoardInit SectorMap FlashApi FlashStore.
From S2P Require Import ImageSet ScratchPad Nvram MacPool KList KString DyingGasp Buttons Ioctl.

(** ** PCI devices *)

Definition WLAN_ONBOARD_SLOT : Z := 1.
Definition BRCM_VENDOR_ID : Z := 0x14e4.
Definition BRCM_WLAN_DEVICE_IDS : Z := 0x4300.

Record pci_dev := mkPci { vendor : Z; device : Z; devfn : Z }.

#[export] Instance pci_dev_eq_dec : EqDecision pci_dev.
Proof. solve_decision. Defined.

Definition PCI_SLOT (devfn : Z) : Z := Z.land (Z.shiftr devfn 3) 0x1f.

Definition is_wlan (d : pci_dev) : bool :=
  (vendor d =? BRCM_VENDOR_ID) && (Z.land (device d) 0xff00 =? BRCM_WLAN_DEVICE_IDS).

(** One round of the loop: the number of add-on cards, and where the on-board device
    is in the list. *)
Definition screen_round (s : Z * option nat) (i : nat) (d : pci_dev) : Z * option nat :=
  if is_wlan d then
    if negb (PCI_SLOT (devfn d) =? WLAN_ONBOARD_SLOT) then (fst s + 1, snd s) else (fst s, Some i)
  else s.

Fixpoint screen_loop (s : Z * option nat) (i : nat) (devs : list pci_dev) : Z * option nat :=
  match devs with
  | [] => s
  | d :: devs' => screen_loop (screen_round s i d) (S i) devs'
  end.

(** The devices that are left. *)
Definition kerSysScreenPciDevices (bp : option BOARD_PARAMETERS) (devs : list pci_dev) : list pci_dev :=
  let '(r, wlFlag) := BpGetWirelessFlags bp in
  if (r =? BP_SUCCESS) && negb (Z.land wlFlag BP_WLAN_EXCLUDE_ONBOARD =? 0) then
    let '(foundPciAddOn, pdevToExclude) := screen_loop (0, None) 0 devs in
    match pdevToExclude with
    | Some i => if negb (foundPciAddOn =? 0) then delete i devs else devs
    | None => devs
    end
  else devs.

(** ** Interrupt handlers *)

Definition INTERRUPT_ID_DG (chip : Chip) : Z :=
  8 + match chip with BCM96338 => 4 | BCM96348 => 25 | BCM96358 => 30 | BCM96368 => 14 end.

Inductive handler := SesBtnIsr | DyingGaspIsr | ResetIsr.

Definition kerSysDyingGaspMapIntr (chip : Chip) (bp : option BOARD_PARAMETERS) : list (Z * handler) :=
  let '(r, _) := BpGetAdslDyingGaspExtIntr bp in
  if r =? BP_SUCCESS then [(INTERRUPT_ID_DG chip, DyingGaspIsr)] else [].

Definition reset_map (chip : Chip) (bp : option BOARD_PARAMETERS) : list (Z * handler) :=
  let '(r, irq) := BpGetResetToDefaultExtIntr bp in
  if r =? BP_SUCCESS then [(u16 (map_external_irq chip irq), ResetIsr)] else [].

(** ** [brcm_board_init] *)

Definition off_ulPsiSize : Z := off_szBoardId + NVRAM_BOARD_ID_STRING_LEN + 4.

(** The size of the configuration from the NVRAM, in bytes. *)
Definition psi_size (ulPsiSize : Z) : Z :=
  if negb (ulPsiSize =? 0xFFFFFFFF) && negb (ulPsiSize =? 0) then u32 (ulPsiSize * ONEK)
  else DEFAULT_PSI_SIZE * ONEK.

(** The driver's variables behind the start; [s_handlers] are the mapped interrupts,
    which are all enabled, and [s_timer] is when the wireless button is polled. *)
Record started (F : Type) := mkStarted {
  s_board : board F; g_ulPsiSize : Z; g_ulSdramSize : Z; s_ses : ses_state; s_dgasp : dgasp;
  s_pci : list pci_dev; s_handlers : list (Z * handler); g_ledInitialized : bool; s_timer : Z
}.
Arguments mkStarted {F}.
Arguments s_board {F}. Arguments g_ulPsiSize {F}. Arguments g_ulSdramSize {F}. Arguments s_ses {F}.
Arguments s_dgasp {F}. Arguments s_pci {F}. Arguments s_handlers {F}. Arguments g_ledInitialized {F}.
Arguments s_timer {F}.

Section Start.
Context {F : Type} (chip : Chip) (g_flash_info : option (flash_device_info_t F)) (fInfo : FLASH_ADDR_INFO).
Context (alloc kmalloc_mac kmalloc_leds : bool) (stack_nvram : list Z).

(** [ret] is the result of [register_chrdev], [new] the memory for the list of
    callbacks. *)
Definition brcm_board_init (ret memory new jiffies : Z) (devs : list pci_dev) (b : board F) (ses : ses_state)
    (dg : dgasp) : option (Z * started F) :=
  let timer := u32 (jiffies + HZ * 2) in
  let bp := b_bp b in
  if ret <? 0 then Some (ret, mkStarted b 0 0 ses dg devs [] false timer)
  else
    '(_, nvramData) ← readNvramData g_flash_info fInfo alloc stack_nvram (b_flash b);
    ulPsiSize ← field32 nvramData off_ulPsiSize;
    mac ← set_mac_info g_flash_info fInfo alloc kmalloc_mac stack_nvram (b_mac b) (b_flash b);
    LedMapping ← led_mapping chip bp;
    let devs := kerSysScreenPciDevices bp devs in
    let ses := ses_board_init chip bp ses in
    let b := put_gpios b (kerSetWirelessPD chip bp WLAN_ON (gpios_of b)) in
    dg ← kerSysInitDyingGaspHandler new dg;
    let handlers := map (fun irq => (irq, SesBtnIsr)) (ses_mapped ses) ++ kerSysDyingGaspMapIntr chip bp in
    leds ← boardLedInit chip kmalloc_leds LedMapping (b_leds b);
    let b := with_mac (with_leds b leds) mac in
    let handlers := handlers ++ reset_map chip bp in
    let relay := BpGetVcopeGpio bp VCOPE_RELAY_GPIO in
    let b := if negb (relay =? BP_NOT_DEFINED) then put_gpios b (SetGpio chip relay GPIO_LOW (gpios_of b)) else b in
    let b := foldl (fun b h => with_irq b (fst h)) b handlers in
    Some (ret, mkStarted b (psi_size ulPsiSize) memory ses dg devs handlers true timer).
End Start.

(** The major number is unsigned. *)
Definition brcm_board_cleanup (board_major : Z) (ses : ses_state) (dg : dgasp) : option (ses_state * dgasp) :=
  if negb (board_major =? 0xFFFFFFFF) then
    dg ← kerSysDeinitDyingGaspHandler dg; Some (ses_board_deinit ses, dg)
  else Some (ses, dg).

(** ** The board behind the start *)

Lemma irqs_enabled {F} (hs : list (Z * handler)) : forall b : board F,
  let b' := foldl (fun b h => with_irq b (fst h)) b hs in
  b_leds b' = b_leds b /\ b_mac b' = b_mac b /\ b_flash b' = b_flash b /\
  forall irq, irq ∈ map fst hs \/ irq ∈ b_irq b -> irq ∈ b_irq b'.
Proof.
  induction hs as [|h hs IH]; intros b; cbn [foldl map].
  - split_and!; [done..|]. intros irq [?%elem_of_nil|?]; done.
  - destruct (IH (with_irq b (fst h))) as (-> & -> & -> & H). split_and!; [done..|].
    intros irq Hi. apply H. cbn [b_irq with_irq]. rewrite elem_of_union, elem_of_singleton.
    destruct Hi as [[->|?]%elem_of_cons|?]; auto.
Qed.

(** No interrupt is given to two handlers. *)
Definition board_handlers (chip : Chip) (bp : BOARD_PARAMETERS) : list (Z * handler) :=
  map (fun irq => (irq, SesBtnIsr)) (ses_mapped (sesBtn_mapIntr chip (Some bp) (mkSes BP_NOT_DEFINED BP_NOT_DEFINED [] ∅))) ++
  kerSysDyingGaspMapIntr chip (Some bp) ++ reset_map chip (Some bp).

Lemma handlers_distinct chip : Forall (fun bp => NoDup (map fst (board_handlers chip bp))) (g_BoardParms chip).
Proof. destruct chip; by_decide. Qed.

Section StartSpec.
Context {F : Type} {dev : flash_device_info_t F} {FLASH_BASE : Z} {sizes : list Z}
  {img : F -> list Z} {HL : FlashLaws dev FLASH_BASE sizes img}.
Context (fInfo : FLASH_ADDR_INFO) (stack_nvram : list Z).
Context (Hnv : nvram_placed (sizes := sizes) fInfo) (Hstack : zlen stack_nvram = sizeof_NVRAM_DATA).
Abbreviation nvram f := (nvram_image (sizes := sizes) (img := img) fInfo f).
Abbreviation nvram_word f off := (u32 (be32_get (slice off 4 (nvram f)))).

Lemma slice_cleared off n f :
  0 <= off -> 0 <= n -> off + n <= off_ulCheckSum -> slice off n (cleared (nvram f)) = slice off n (nvram f).
Proof.
  intros H0 Hn H. destruct (nvram_image_ok (HL := HL) fInfo f Hnv) as (Hz & _).
  unfold cleared. apply slice_splice_before; [done|done|done|]. by rewrite Hz.
Qed.

Lemma field_cleared off f :
  0 <= off -> off + 4 <= off_ulCheckSum -> field32 (cleared (nvram f)) off = Some (nvram_word f off).
Proof.
  intros H0 H. destruct (nvram_image_ok (HL := HL) fInfo f Hnv) as (Hz & Hb & _).
  destruct (cleared_ok _ Hz Hb) as [Cz _]. unfold field32.
  rewrite mem_read_Some by (rewrite ?Cz; unfold off_ulCheckSum, off_ucaBaseMacAddr, off_ulNumMacAddrs,
    off_szBoardId, NVRAM_BOARD_ID_STRING_LEN, NVRAM_MAC_ADDRESS_LEN, sizeof_NVRAM_DATA in *; lia).
  cbn. by rewrite slice_cleared by (done || lia).
Qed.

Lemma set_mac_info_ok n pool f :
  n = nvram_word f off_ulNumMacAddrs -> 0 < n <= 11 ->
  exists base, set_mac_info (Some dev) fInfo true true stack_nvram pool f = Some (Some (new_pool n base)) /\
    mac_inv (new_pool n base).
Proof.
  intros -> Hn. destruct (nvram_image_ok (HL := HL) fInfo f Hnv) as (Hz & Hb & _).
  destruct (cleared_ok _ Hz Hb) as [Cz _]. unfold set_mac_info. rewrite (readNvramData_ok (HL := HL)) by done.
  cbn [mbind option_bind]. rewrite field_cleared by done. cbn [mbind option_bind].
  rewrite mem_read_Some by (rewrite ?Cz; done). cbn [mbind option_bind].
  set (n := nvram_word f off_ulNumMacAddrs) in *. unfold NVRAM_MAC_COUNT_MAX.
  destruct (Z.ltb_spec 0 n); [|lia]. destruct (Z.leb_spec n 32); [|lia]. cbn [andb].
  eexists. split; [done|]. rewrite slice_cleared by done.
  apply new_pool_ok; [done|by rewrite zlen_slice by (rewrite ?Hz; done)|by apply Forall_slice].
Qed.

(** C11: the driver starts on every board.  On each board of the chip's table, with the
    NVRAM readable and one to eleven MAC addresses configured, [brcm_board_init] runs to
    its end; then the LED driver's invariant holds, the pool of MAC addresses is set up
    and holds its invariant, the list of dying-gasp callbacks is ready and empty, each
    interrupt has one handler and is enabled, and the flash is as it was. *)
Theorem board_starts chip bp ret memory new jiffies devs b :
  bp ∈ g_BoardParms chip -> b_bp b = Some bp -> gTimerOn (b_leds b) = false -> 0 <= ret -> new <> 0 ->
  0 < nvram_word (b_flash b) off_ulNumMacAddrs <= 11 ->
  exists s base, brcm_board_init chip (Some dev) fInfo true true true stack_nvram ret memory new jiffies devs b
      (mkSes BP_NOT_DEFINED BP_NOT_DEFINED [] ∅) (mkDgasp 0 ∅) = Some (ret, s) /\
    led_inv (b_leds (s_board s)) /\ g_ledInitialized s = true /\
    b_mac (s_board s) = Some (new_pool (nvram_word (b_flash b) off_ulNumMacAddrs) base) /\
    mac_inv (new_pool (nvram_word (b_flash b) off_ulNumMacAddrs) base) /\
    registry (s_dgasp s) [] /\ NoDup (map fst (s_handlers s)) /\
    (forall irq, irq ∈ map fst (s_handlers s) -> irq ∈ b_irq (s_board s)) /\
    b_flash (s_board s) = b_flash b.
Proof.
  intros Hin Hbp Ht Hr Hnew Hn. destruct (set_mac_info_ok _ (b_mac b) (b_flash b) eq_refl Hn) as (base & Em & Hm).
  destruct (board_map chip bp Hin) as (m & El & Hok & Hend). destruct (init_ok new Hnew) as (dg & Ed & Hd).
  unfold brcm_board_init. destruct (Z.ltb_spec ret 0); [lia|]. rewrite (readNvramData_ok (HL := HL)) by done.
  cbn [mbind option_bind]. rewrite field_cleared by done. cbn [mbind option_bind].
  rewrite Em, Hbp, El. cbn [mbind option_bind]. rewrite Ed. cbn [mbind option_bind].
  set (b1 := put_gpios b _). assert (Ht1 : gTimerOn (b_leds b1) = false) by done.
  destruct (boardLedInit_ok chip m (b_leds b1) Hok Hend Ht1) as (d & -> & Hinv & _). cbn [mbind option_bind].
  pose proof (handlers_distinct chip) as Hh. rewrite Forall_forall in Hh. specialize (Hh bp Hin).
  match goal with |- context [foldl _ ?b2 ?hs] => assert (Eh : hs = board_handlers chip bp);
    [|rewrite Eh; destruct (irqs_enabled (board_handlers chip bp) b2) as (K1 & K2 & K3 & K4)] end.
  { unfold board_handlers. by rewrite app_assoc. }
  do 2 eexists. split; [done|]. cbn [s_board g_ledInitialized s_dgasp s_handlers]. rewrite K1, K2, K3.
  split_and!.
  - destruct (negb _); [by apply led_inv_at_gpio|done].
  - done.
  - by destruct (negb _).
  - done.
  - done.
  - done.
  - intros irq Hi. apply K4. by left.
  - by destruct (negb _).
Qed.
End StartSpec.

(** ** Witness *)

(** A flash with four MAC addresses in the NVRAM, at offset 0x580 of the first sector. *)
Definition start_flash : list Z :=
  splice (0x580 + off_ulNumMacAddrs) (be32 4) (replicate (Z.to_nat 0x800) 0).

Definition start_board : board (list Z) :=
  mkBoard start_flash (Some g_bcm96338gw2) led_reset (0, 0) None ∅ ∅ [] 0 0 0 ∅ demo_monitor.

Lemma board_starts_witness :
  exists s, brcm_board_init BCM96338 (Some demo_dev) demo_info true true true (replicate 300 0) 0 0x1000000 64 0 []
      start_board (mkSes BP_NOT_DEFINED BP_NOT_DEFINED [] ∅) (mkDgasp 0 ∅) = Some (0, s) /\
    led_inv (b_leds (s_board s)).
Proof.
  destruct (board_starts (HL := Nor.laws demo_sizes demo_ok) demo_info (replicate 300 0)
    (demo_placed FlashStore.NVRAM) eq_refl BCM96338 g_bcm96338gw2 0 0x1000000 64 0 [] start_board)
    as (s & base & E & Hl & _).
  - by_decide.
  - reflexivity.
  - reflexivity.
  - lia.
  - lia.
  - by vm_compute.
  - exists s. exact (conj E Hl).
Defined.
