(* ===== verification/MemDump.v ===== *)
(** * Debugging output and USB information

    [dumpaddr] and [kerSetUsbInfo] of
    [bcmdrivers/opensource/char/board/bcm963xx/impl1/board.c].  Both write text
    into arrays of fixed size: [dumpaddr] builds each line of a hex dump in the
    local array [szLine] of 80 bytes, [kerSetUsbInfo] copies a string into an entry of
    [my_usb].  Every store is checked against the array. *)

From S2P Require Import Prelude ScratchPad.

(** ** [dumpaddr] *)

Definition szHexChars : list Z := bytes_of_string "0123456789abcdef".

(** [szHexChars[n]] for a nibble. *)
Definition hex_char (n : Z) : Z := nth (Z.to_nat n) szHexChars 0.

(** The digits that [sprintf] prints for [%8.8lx]. *)
Fixpoint sprintf_hex (n : nat) (x : Z) : list Z :=
  match n with
  | O => []
  | S n' => sprintf_hex n' (x / 16) ++ [hex_char (x mod 16)]
  end.

Section dumpaddr.

(** The memory, a byte at each address. *)
Variable mem : Z -> Z.

(** [*p++ = c]: the array [szLine] and the index of [p] in it. *)
Definition put (c : Z) (l : list Z * Z) : option (list Z * Z) :=
  let '(szLine, p) := l in
  szLine ← mem_write szLine p [c]; Some (szLine, p + 1).

Definition put_blanks (l : list Z * Z) : option (list Z * Z) :=
  l ← put 32 l; l ← put 32 l; put 32 l.

(** The [for] over the bytes of a [long] at [addr]; [n] of them are left. *)
Fixpoint long_loop (n : nat) (addr : Z) (l : list Z * Z) : option (list Z * Z) :=
  match n with
  | O => Some l
  | S n' =>
      let q := mem addr in
      l ← put (hex_char (Z.shiftr q 4)) l;
      l ← put (hex_char (Z.land q 0x0f)) l;
      l ← put 32 l;
      long_loop n' (u32 (addr + 1)) l
  end.

(** The [for] over the [long]s of a line; [n] is how often [i < 16] can still hold.
    It returns [i] and [nLen]. *)
Fixpoint row_loop (n : nat) (pAddr i nLen : Z) (l : list Z * Z) : option (Z * Z * (list Z * Z)) :=
  match n with
  | O => Some (i, nLen, l)
  | S n' =>
      if 0 <? nLen then
        l ← long_loop 4 (u32 (pAddr + i)) l;
        row_loop n' pAddr (i + 4) (s32 (nLen - 4)) l
      else Some (i, nLen, l)
  end.

Fixpoint pad_loop (n : nat) (l : list Z * Z) : option (list Z * Z) :=
  match n with
  | O => Some l
  | S n' => l ← put_blanks l; pad_loop n' l
  end.

Definition dump_char (ch : Z) : Z := if (32 <? ch) && (ch <? 126) then ch else 46.

Fixpoint char_loop (n : nat) (addr : Z) (l : list Z * Z) : option (list Z * Z) :=
  match n with
  | O => Some l
  | S n' => l ← put (dump_char (mem addr)) l; char_loop n' (u32 (addr + 1)) l
  end.

(** The body of [while( nLen > 0 )]: the text printed, then [pAddr], [nLen] and
    [szLine]. *)
Definition dump_line (pAddr nLen : Z) (szLine : list Z) : option (list Z * (Z * Z * list Z)) :=
  szLine ← mem_write szLine 0 (sprintf_hex 8 pAddr ++ [58; 32; 0]);
  let p := zlen (cstr szLine) in
  '(i, nLen, l) ← row_loop 4 pAddr 0 nLen (szLine, p);
  l ← pad_loop (Z.to_nat (16 - i)) l;
  l ← put_blanks l;
  l ← char_loop (Z.to_nat i) pAddr l;
  '(szLine, _) ← put 0 l;
  Some (cstr szLine ++ [13; 10], (u32 (pAddr + i), nLen, szLine)).

Fixpoint dump_loop (fuel : nat) (pAddr nLen : Z) (szLine : list Z) : option (list Z) :=
  if 0 <? nLen then
    match fuel with
    | O => None
    | S fuel' =>
        '(text, (pAddr, nLen, szLine)) ← dump_line pAddr nLen szLine;
        rest ← dump_loop fuel' pAddr nLen szLine;
        Some (text ++ rest)
    end
  else Some [13; 10].

(** What [dumpaddr] prints; each round takes at least four from [nLen]. *)
Definition dumpaddr (pAddr nLen : Z) (szLine : list Z) : option (list Z) :=
  dump_loop (Z.to_nat nLen) pAddr nLen szLine.

End dumpaddr.

(** ** [kerSetUsbInfo]

    [my_usb] is an array of two structures of 68 bytes, a count and a text of 64
    characters. *)

Definition USBINFO_SIZE : Z := 68.

Definition usb_entry0 : list Z := be32 0 ++ [0xce; 0xb4] ++ replicate 62 0.

Definition my_usb0 : list Z := usb_entry0 ++ usb_entry0.

Definition kerSetUsbInfo (index bup : Z) (info : list Z) (my_usb : list Z) : option (list Z) :=
  my_usb ← mem_write my_usb (USBINFO_SIZE * index) (be32 bup);
  mem_write my_usb (USBINFO_SIZE * index + 4) (cstr info ++ [0]).

(** The fields of an entry. *)
Definition usb_bup (index : Z) (my_usb : list Z) : list Z := slice (USBINFO_SIZE * index) 4 my_usb.
Definition usb_info (index : Z) (my_usb : list Z) : list Z :=
  slice (USBINFO_SIZE * index + 4) 64 my_usb.

(** ** The text of a dump *)

Section text.
Variable mem : Z -> Z.

(** The bytes from [addr] on. *)
Fixpoint mem_bytes (n : nat) (addr : Z) : list Z :=
  match n with
  | O => []
  | S n' => mem addr :: mem_bytes n' (u32 (addr + 1))
  end.

Definition hex_column (b : Z) : list Z := [hex_char (b / 16); hex_char (b mod 16); 32].

(** How many bytes a line shows when [nLen] are left: whole [long]s. *)
Definition row_count (nLen : Z) : Z := Z.min 16 (4 * ((nLen + 3) / 4)).

Definition line_text (pAddr n : Z) : list Z :=
  let d := mem_bytes (Z.to_nat n) pAddr in
  sprintf_hex 8 pAddr ++ [58; 32] ++ concat (map hex_column d)
    ++ replicate (Z.to_nat (3 * (16 - n))) 32 ++ [32; 32; 32] ++ map dump_char d.

(** One line for every sixteen bytes or part of them, then an empty one. *)
Fixpoint dump_text (lines : nat) (pAddr nLen : Z) : list Z :=
  match lines with
  | O => [13; 10]
  | S lines' =>
      line_text pAddr (row_count nLen) ++ [13; 10]
        ++ dump_text lines' (u32 (pAddr + row_count nLen)) (nLen - row_count nLen)
  end.

Definition line_count (nLen : Z) : nat := Z.to_nat ((nLen + 15) / 16).

(** *** The array [szLine] *)

(** The first characters of the line are [t] and [p] is behind them. *)
Definition at_text (t : list Z) (l : list Z * Z) : Prop :=
  exists rest, l = (t ++ rest, zlen t) /\ zlen t + zlen rest = 80.

Lemma put_text c t l :
  at_text t l -> zlen t < 80 -> exists l', put c l = Some l' /\ at_text (t ++ [c]) l'.
Proof.
  intros ([|x rest] & -> & H) Ht; [rewrite zlen_nil in H; lia|]. cbn [put].
  pose proof (mem_write_mid (zlen t) t [x] [c] rest eq_refl eq_refl) as E. cbn [app] in E. rewrite E.
  cbn [mbind option_bind]. eexists; split; [done|].
  exists rest. rewrite <- app_assoc, zlen_app. rewrite zlen_cons in H. change (zlen [c]) with 1.
  split; [done|lia].
Qed.

Lemma put_blanks_text t l :
  at_text t l -> zlen t <= 77 -> exists l', put_blanks l = Some l' /\ at_text (t ++ [32; 32; 32]) l'.
Proof.
  intros H Ht. unfold put_blanks.
  destruct (put_text 32 t l H) as (l1 & -> & H1); [lia|]. cbn [mbind option_bind].
  destruct (put_text 32 _ l1 H1) as (l2 & -> & H2); [rewrite zlen_app; change (zlen [32]) with 1; lia|].
  cbn [mbind option_bind].
  destruct (put_text 32 _ l2 H2) as (l3 & -> & H3); [rewrite !zlen_app; change (zlen [32]) with 1; lia|].
  exists l3. split; [done|]. by rewrite <- !app_assoc in H3.
Qed.

Lemma zlen_columns d : zlen (concat (map hex_column d)) = 3 * zlen d.
Proof. induction d as [|b d IH]; [done|]. cbn [map concat]. rewrite zlen_app, zlen_cons, IH.
  change (zlen (hex_column b)) with 3. lia. Qed.

Lemma zlen_mem_bytes n addr : zlen (mem_bytes n addr) = Z.of_nat n.
Proof. revert addr. induction n as [|n IH]; intros addr; [done|]. cbn [mem_bytes]. rewrite zlen_cons, IH. lia. Qed.

Lemma mem_bytes_add n m addr :
  mem_bytes (n + m) (u32 addr) = mem_bytes n (u32 addr) ++ mem_bytes m (u32 (addr + Z.of_nat n)).
Proof.
  revert addr. induction n as [|n IH]; intros addr; [by rewrite Z.add_0_r|].
  cbn [mem_bytes Nat.add app]. rewrite !u32_add_l, IH. do 3 f_equal. f_equal. lia.
Qed.

Lemma sprintf_hex_zlen n x : zlen (sprintf_hex n x) = Z.of_nat n.
Proof. revert x. induction n as [|n IH]; intros x; [done|]. cbn [sprintf_hex]. rewrite zlen_app, IH.
  change (zlen [_]) with 1. lia. Qed.

Lemma hex_char_range n : 0 <= n < 16 -> 48 <= hex_char n < 103.
Proof.
  intros H. unfold hex_char. apply (Forall_lookup_1 (fun c => 48 <= c < 103) szHexChars (Z.to_nat n)).
  - unfold szHexChars. vm_compute bytes_of_string. repeat (constructor; [lia|]). constructor.
  - rewrite nth_lookup. destruct (lookup_lt_is_Some_2 szHexChars (Z.to_nat n)) as [c ->]; [|done].
    change (length szHexChars) with 16%nat. lia.
Qed.

Lemma sprintf_hex_no_nul n x : Forall (fun c => c <> 0) (sprintf_hex n x).
Proof.
  revert x. induction n as [|n IH]; intros x; [constructor|]. cbn [sprintf_hex].
  apply Forall_app_2; [apply IH|]. constructor; [|constructor].
  pose proof (hex_char_range (x mod 16) (Z.mod_pos_bound x 16 ltac:(lia))). lia.
Qed.

Lemma dump_char_nonzero c : dump_char c <> 0.
Proof. unfold dump_char. ztest. Qed.

Hypothesis mem_u8 : forall a, is_u8 (mem a).

Lemma hex_nibbles a : (Z.shiftr (mem a) 4 = mem a / 16) /\ (Z.land (mem a) 0x0f = mem a mod 16).
Proof.
  split; [by rewrite Z.shiftr_div_pow2|]. change 0x0f with (Z.ones 4). by rewrite Z.land_ones.
Qed.

Lemma columns_no_nul n addr : Forall (fun c => c <> 0) (concat (map hex_column (mem_bytes n addr))).
Proof.
  revert addr. induction n as [|n IH]; intros addr; [constructor|]. cbn [mem_bytes map concat].
  apply Forall_app_2; [|apply IH]. pose proof (mem_u8 addr) as Hb. unfold is_u8 in Hb.
  assert (0 <= mem addr / 16 < 16 /\ 0 <= mem addr mod 16 < 16)
    by (Z.to_euclidean_division_equations; lia).
  repeat constructor; try done; unfold not; intros E;
    [pose proof (hex_char_range (mem addr / 16))|pose proof (hex_char_range (mem addr mod 16))]; lia.
Qed.

(** *** The loops *)

Lemma long_loop_text n addr t l :
  at_text t l -> zlen t + 3 * Z.of_nat n <= 80 ->
  exists l', long_loop mem n addr l = Some l' /\ at_text (t ++ concat (map hex_column (mem_bytes n addr))) l'.
Proof.
  revert addr t l. induction n as [|n IH]; intros addr t l H Ht.
  { exists l. cbn. by rewrite app_nil_r. }
  cbn [long_loop mem_bytes map concat]. destruct (hex_nibbles addr) as [-> ->].
  destruct (put_text (hex_char (mem addr / 16)) t l H) as (l1 & -> & H1); [lia|]. cbn [mbind option_bind].
  destruct (put_text (hex_char (mem addr mod 16)) _ l1 H1) as (l2 & -> & H2);
    [rewrite zlen_app; change (zlen [_]) with 1; lia|]. cbn [mbind option_bind].
  destruct (put_text 32 _ l2 H2) as (l3 & -> & H3); [rewrite !zlen_app; change (zlen [_]) with 1; lia|].
  cbn [mbind option_bind]. rewrite <- !app_assoc in H3. cbn [app] in H3.
  destruct (IH (u32 (addr + 1)) _ l3 H3) as (l4 & E4 & H4).
  { rewrite zlen_app. change (zlen [_; _; _]) with 3. lia. }
  exists l4. split; [done|]. by rewrite <- app_assoc in H4.
Qed.

Lemma char_loop_text n addr t l :
  at_text t l -> zlen t + Z.of_nat n <= 80 ->
  exists l', char_loop mem n addr l = Some l' /\ at_text (t ++ map dump_char (mem_bytes n addr)) l'.
Proof.
  revert addr t l. induction n as [|n IH]; intros addr t l H Ht.
  { exists l. cbn. by rewrite app_nil_r. }
  cbn [char_loop mem_bytes map].
  destruct (put_text (dump_char (mem addr)) t l H) as (l1 & -> & H1); [lia|]. cbn [mbind option_bind].
  destruct (IH (u32 (addr + 1)) _ l1 H1) as (l2 & E2 & H2); [rewrite zlen_app; change (zlen [_]) with 1; lia|].
  exists l2. split; [done|]. by rewrite <- app_assoc in H2.
Qed.

Lemma pad_loop_text n t l :
  at_text t l -> zlen t + 3 * Z.of_nat n <= 80 ->
  exists l', pad_loop n l = Some l' /\ at_text (t ++ replicate (3 * n) 32) l'.
Proof.
  revert t l. induction n as [|n IH]; intros t l H Ht.
  { exists l. cbn. by rewrite app_nil_r. }
  cbn [pad_loop]. destruct (put_blanks_text t l H) as (l1 & -> & H1); [lia|]. cbn [mbind option_bind].
  destruct (IH _ l1 H1) as (l2 & E2 & H2); [rewrite zlen_app; change (zlen [_; _; _]) with 3; lia|].
  exists l2. split; [done|]. rewrite <- app_assoc in H2.
  replace (3 * S n)%nat with (3 + 3 * n)%nat by lia. done.
Qed.

(** [n] further [long]s. *)
Definition row_left (n : nat) (nLen : Z) : Z := Z.min (4 * Z.of_nat n) (4 * ((Z.max 0 nLen + 3) / 4)).

Lemma row_left_S n nLen : 0 < nLen -> row_left (S n) nLen = 4 + row_left n (nLen - 4).
Proof. intros. unfold row_left. Z.to_euclidean_division_equations; lia. Qed.

Lemma row_left_range n nLen : 0 <= row_left n nLen <= 4 * Z.of_nat n.
Proof. unfold row_left. Z.to_euclidean_division_equations; lia. Qed.

Lemma row_loop_text n pAddr i nLen t l :
  at_text t l -> zlen t + 12 * Z.of_nat n <= 80 -> is_s32 nLen ->
  exists l', row_loop mem n pAddr i nLen l = Some (i + row_left n nLen, nLen - row_left n nLen, l')
    /\ at_text (t ++ concat (map hex_column (mem_bytes (Z.to_nat (row_left n nLen)) (u32 (pAddr + i))))) l'.
Proof.
  revert i nLen t l. induction n as [|n IH]; intros i nLen t l H Ht Hs.
  { exists l. replace (row_left 0 nLen) with 0 by (pose proof (row_left_range 0 nLen); lia).
    rewrite Z.add_0_r, Z.sub_0_r. cbn. by rewrite app_nil_r. }
  cbn [row_loop]. destruct (Z.ltb_spec 0 nLen) as [Hp|Hp]; cycle 1.
  { exists l. replace (row_left (S n) nLen) with 0 by (unfold row_left; Z.to_euclidean_division_equations; lia).
    rewrite Z.add_0_r, Z.sub_0_r. cbn. by rewrite app_nil_r. }
  destruct (long_loop_text 4 (u32 (pAddr + i)) t l H) as (l1 & -> & H1); [lia|]. cbn [mbind option_bind].
  unfold is_s32 in Hs. rewrite s32_id by (unfold is_s32; lia).
  destruct (IH (i + 4) (nLen - 4) _ l1 H1) as (l2 & -> & H2).
  { rewrite zlen_app, zlen_columns, zlen_mem_bytes. lia. }
  { unfold is_s32; lia. }
  pose proof (row_left_range n (nLen - 4)).
  exists l2. rewrite row_left_S by done. split; [do 2 f_equal; f_equal; lia|].
  rewrite Z2Nat.inj_add by lia. change (Z.to_nat 4) with 4%nat.
  rewrite mem_bytes_add, map_app, concat_app, app_assoc. by rewrite <- Z.add_assoc.
Qed.

(** *** A line, and the dump *)

Lemma sprintf_text pAddr szLine :
  zlen szLine = 80 ->
  exists s, mem_write szLine 0 (sprintf_hex 8 pAddr ++ [58; 32; 0]) = Some s
    /\ at_text (sprintf_hex 8 pAddr ++ [58; 32]) (s, zlen (cstr s)).
Proof.
  intros H. set (d := sprintf_hex 8 pAddr ++ [58; 32; 0]).
  assert (Hd : zlen d = 11) by (unfold d; by rewrite zlen_app, sprintf_hex_zlen).
  exists (splice 0 d szLine). split; [apply mem_write_Some; lia|].
  assert (E : splice 0 d szLine = (sprintf_hex 8 pAddr ++ [58; 32]) ++ 0 :: drop 11 szLine).
  { unfold splice. change (Z.to_nat 0) with 0%nat. rewrite take_0. cbn [app Nat.add].
    replace (length d) with 11%nat by (unfold zlen in Hd; lia). unfold d. by rewrite <- !app_assoc. }
  rewrite E, cstr_app_nul.
  - exists (0 :: drop 11 szLine). split; [done|].
    rewrite zlen_cons, zlen_drop, zlen_app, sprintf_hex_zlen, H. done.
  - apply Forall_app_2; [apply sprintf_hex_no_nul|]. by repeat constructor.
Qed.

Lemma line_no_nul pAddr n : Forall (fun c => c <> 0) (line_text pAddr n).
Proof.
  unfold line_text. cbv zeta. apply Forall_app_2; [apply sprintf_hex_no_nul|].
  apply Forall_app_2; [by repeat constructor|]. apply Forall_app_2; [apply columns_no_nul|].
  apply Forall_app_2; [by apply Forall_replicate|]. apply Forall_app_2; [by repeat constructor|].
  apply Forall_map, Forall_true. intros x. apply dump_char_nonzero.
Qed.

Lemma row_count_range nLen : 0 < nLen -> 4 <= row_count nLen <= 16 /\ row_left 4 nLen = row_count nLen.
Proof. intros. unfold row_count, row_left. Z.to_euclidean_division_equations; lia. Qed.

Lemma dump_line_text pAddr nLen szLine :
  is_u32 pAddr -> 0 < nLen -> is_s32 nLen -> zlen szLine = 80 ->
  exists szLine', zlen szLine' = 80 /\
    dump_line mem pAddr nLen szLine =
      Some (line_text pAddr (row_count nLen) ++ [13; 10],
            (u32 (pAddr + row_count nLen), nLen - row_count nLen, szLine')).
Proof.
  intros Ha Hp Hs Hz. unfold dump_line. set (h := sprintf_hex 8 pAddr ++ [58; 32; 0]).
  destruct (sprintf_text pAddr szLine Hz) as (s & Es & Ht). fold h in Es. rewrite Es. cbn [mbind option_bind].
  assert (Hh : zlen (sprintf_hex 8 pAddr ++ [58; 32]) = 10) by by rewrite zlen_app, sprintf_hex_zlen.
  destruct (row_loop_text 4 pAddr 0 nLen _ _ Ht) as (l1 & -> & H1); [lia|done|].
  cbn [mbind option_bind]. destruct (row_count_range nLen Hp) as [Hc ->] in H1 |- *.
  rewrite Z.add_0_r, u32_id in H1 by done. rewrite Z.add_0_l. set (n := row_count nLen) in *.
  destruct (pad_loop_text (Z.to_nat (16 - n)) _ l1 H1) as (l2 & -> & H2).
  { rewrite zlen_app, zlen_columns, zlen_mem_bytes, Hh. lia. }
  cbn [mbind option_bind]. destruct (put_blanks_text _ l2 H2) as (l3 & -> & H3).
  { rewrite !zlen_app, zlen_columns, zlen_mem_bytes, sprintf_hex_zlen, zlen_replicate. change (zlen [58; 32]) with 2. lia. }
  cbn [mbind option_bind]. destruct (char_loop_text (Z.to_nat n) pAddr _ l3 H3) as (l4 & -> & H4).
  { rewrite !zlen_app, zlen_columns, zlen_mem_bytes, sprintf_hex_zlen, zlen_replicate. change (zlen [58; 32]) with 2.
    change (zlen [32; 32; 32]) with 3. lia. }
  assert (E : line_text pAddr n =
    ((((sprintf_hex 8 pAddr ++ [58; 32]) ++ concat (map hex_column (mem_bytes (Z.to_nat n) pAddr)))
      ++ replicate (3 * Z.to_nat (16 - n)) 32) ++ [32; 32; 32])
      ++ map dump_char (mem_bytes (Z.to_nat n) pAddr)).
  { unfold line_text. rewrite <- !app_assoc. do 4 f_equal. f_equal. f_equal. lia. }
  rewrite <- E in H4. cbn [mbind option_bind].
  assert (Hl : zlen (line_text pAddr n) <= 77).
  { rewrite E, !zlen_app, zlen_columns, zlen_map, zlen_mem_bytes, zlen_replicate, sprintf_hex_zlen.
    change (zlen [32; 32; 32]) with 3. change (zlen [58; 32]) with 2. lia. }
  destruct (put_text 0 _ l4 H4) as (l5 & -> & rest & -> & H5); [lia|]. cbn [mbind option_bind].
  exists ((line_text pAddr n ++ [0]) ++ rest). split; [by rewrite zlen_app|].
  rewrite <- app_assoc. cbn [app]. by rewrite cstr_app_nul by apply line_no_nul.
Qed.

Lemma dump_loop_text fuel pAddr nLen szLine :
  is_u32 pAddr -> is_s32 nLen -> zlen szLine = 80 -> nLen <= Z.of_nat fuel ->
  dump_loop mem fuel pAddr nLen szLine = Some (dump_text (line_count nLen) pAddr nLen).
Proof.
  revert pAddr nLen szLine. induction fuel as [|fuel IH]; intros pAddr nLen szLine Ha Hs Hz Hf; cbn [dump_loop].
  { destruct (Z.ltb_spec 0 nLen); [lia|]. unfold line_count.
    replace (Z.to_nat ((nLen + 15) / 16)) with 0%nat by (Z.to_euclidean_division_equations; lia). done. }
  destruct (Z.ltb_spec 0 nLen) as [Hp|Hp]; cycle 1.
  { unfold line_count.
    replace (Z.to_nat ((nLen + 15) / 16)) with 0%nat by (Z.to_euclidean_division_equations; lia). done. }
  destruct (dump_line_text pAddr nLen szLine) as (s & Hz' & ->); [done..|]. cbn [mbind option_bind].
  destruct (row_count_range nLen Hp) as [Hc _]. unfold is_s32 in Hs.
  rewrite IH; [|apply u32_range|unfold is_s32, row_count in *; lia|done|lia].
  cbn [mbind option_bind]. assert (El : line_count nLen = S (line_count (nLen - row_count nLen))).
  { unfold line_count, row_count in *. Z.to_euclidean_division_equations; lia. }
  rewrite El. cbn [dump_text]. by rewrite <- app_assoc.
Qed.

(** [dumpaddr] never leaves [szLine], whatever address and length it is called with,
    and prints one line for every sixteen bytes with their address, their hexadecimal
    digits and their characters.  It works on whole [long]s: the last line shows up to
    three bytes behind the end. *)
Lemma dumpaddr_spec pAddr nLen szLine :
  is_u32 pAddr -> is_s32 nLen -> zlen szLine = 80 ->
  dumpaddr mem pAddr nLen szLine = Some (dump_text (line_count nLen) pAddr nLen).
Proof. intros. apply dump_loop_text; [done..|lia]. Qed.

End text.

(** ** [my_usb] *)

Lemma zlen_be32 x : zlen (be32 x) = 4.
Proof. done. Qed.

(** A text of at most 63 characters is stored in its entry, and the other entry keeps
    its contents. *)
Lemma kerSetUsbInfo_stores index bup info my_usb :
  zlen my_usb = 136 -> index = 0 \/ index = 1 -> zlen (cstr info) <= 63 ->
  exists my_usb', kerSetUsbInfo index bup info my_usb = Some my_usb' /\ zlen my_usb' = 136
    /\ usb_bup index my_usb' = be32 bup /\ cstr (usb_info index my_usb') = cstr info
    /\ slice (USBINFO_SIZE * (1 - index)) USBINFO_SIZE my_usb' =
       slice (USBINFO_SIZE * (1 - index)) USBINFO_SIZE my_usb.
Proof.
  intros Hz Hi Hl. pose proof (zlen_nonneg (cstr info)) as H0. unfold kerSetUsbInfo, USBINFO_SIZE in *.
  rewrite mem_write_Some by (rewrite ?zlen_be32; lia). cbn [mbind option_bind].
  set (m := splice (68 * index) (be32 bup) my_usb).
  assert (Hm : zlen m = 136) by (unfold m; rewrite zlen_splice; rewrite ?zlen_be32; lia).
  assert (Hd : zlen (cstr info ++ [0]) = zlen (cstr info) + 1) by by rewrite zlen_app.
  rewrite mem_write_Some by lia. eexists. split; [done|].
  split; [rewrite zlen_splice; lia|]. split; [|split].
  - unfold usb_bup, USBINFO_SIZE. rewrite slice_splice_before by lia. unfold m.
    rewrite <- (zlen_be32 bup). apply slice_splice_eq; rewrite ?zlen_be32; lia.
  - unfold usb_info, USBINFO_SIZE. rewrite slice_splice_over by lia.
    rewrite <- app_assoc. apply cstr_app_nul, cstr_no_nul.
  - destruct Hi as [-> | ->].
    + rewrite slice_splice_after by lia. unfold m. rewrite slice_splice_after; rewrite ?zlen_be32; lia || done.
    + rewrite slice_splice_before by lia. unfold m. rewrite slice_splice_before; rewrite ?zlen_be32; lia || done.
Qed.

(** Nothing limits the copy: a longer text for the first entry ends up in the count of
    the second, and a text that is too long for the rest of the array leaves it. *)
Lemma kerSetUsbInfo_overrun index bup info my_usb :
  zlen my_usb = 136 -> index = 0 \/ index = 1 ->
  kerSetUsbInfo index bup info my_usb = None <-> 132 - USBINFO_SIZE * index <= zlen (cstr info).
Proof.
  intros Hz Hi. pose proof (zlen_nonneg (cstr info)) as H0. unfold kerSetUsbInfo, USBINFO_SIZE in *.
  rewrite mem_write_Some by (rewrite ?zlen_be32; lia). cbn [mbind option_bind].
  unfold mem_write. rewrite zlen_splice by (rewrite ?zlen_be32; lia).
  rewrite zlen_app. change (zlen [0]) with 1.
  ztest; split; intros; try done; lia.
Qed.

Lemma kerSetUsbInfo_spills :
  exists my_usb, kerSetUsbInfo 0 1 (replicate 66 65) my_usb0 = Some my_usb
    /\ usb_bup 1 my_usb0 = be32 0 /\ usb_bup 1 my_usb = [65; 65; 0; 0].
Proof. eexists. split; [vm_compute; reflexivity|]. by vm_compute. Qed.

(** A dump of six bytes at 0x80001000 whose memory holds the low byte of each address:
    eight bytes are shown. *)
Lemma dumpaddr_example :
  dumpaddr u8 0x80001041 6 (replicate 80 0) =
  Some (bytes_of_string "80001041: 41 42 43 44 45 46 47 48                            ABCDEFGH"
        ++ [13; 10; 13; 10]).
Proof. vm_compute. reflexivity. Qed.
