(* ===== verification/Ring.v ===== *)
(** * Rings of slots

    Both directions of the network driver work on rings of buffer descriptors: an array
    in which the driver and the DMA controller follow each other, from the last slot
    back to the first.  A ring is described by its array turned to start at the head
    ([rotate] of stdpp): a queue of slots in the order in which they are used.  The
    lemmas read and write a slot at a distance from the head and move the head. *)

From S2P Require Import Prelude.

Section ring.
Context {A : Type}.
Implicit Types (l a b : list A) (x y : A).

(** The slot after [i] in a ring of [n]. *)
Definition ring_next (n i : nat) : nat := if Nat.eqb (S i) n then 0%nat else S i.

(** The slot [k] after [h]. *)
Definition ring_at (n h k : nat) : nat := rotate_nat_add h k n.

Lemma ring_next_lt n i : (i < n)%nat -> (ring_next n i < n)%nat.
Proof. unfold ring_next. destruct (Nat.eqb_spec (S i) n); lia. Qed.

Lemma ring_at_lt n h k : (h < n)%nat -> (ring_at n h k < n)%nat.
Proof. intros. apply rotate_nat_add_lt. lia. Qed.

Lemma ring_at_0 n h : (h < n)%nat -> ring_at n h 0 = h.
Proof. apply rotate_nat_add_0. Qed.

Lemma ring_at_S n h k : (h < n)%nat -> ring_at n h (S k) = ring_next n (ring_at n h k).
Proof.
  intros H. unfold ring_at. rewrite rotate_nat_add_S by lia.
  pose proof (ring_at_lt n h k H) as Hk. unfold ring_at in Hk. unfold ring_next.
  destruct (Nat.eqb_spec (S (rotate_nat_add h k n)) n) as [->|]; [apply Nat.Div0.mod_same|].
  apply Nat.mod_small. lia.
Qed.

Lemma ring_at_next n h k : (h < n)%nat -> ring_at n (ring_next n h) k = ring_at n h (S k).
Proof.
  intros H. induction k as [|k IH].
  - rewrite ring_at_0 by by apply ring_next_lt. by rewrite ring_at_S, ring_at_0.
  - rewrite ring_at_S, IH by by apply ring_next_lt. by rewrite <- ring_at_S.
Qed.

Lemma rotate_mid l h a x b :
  (h < length l)%nat -> rotate h l = a ++ x :: b ->
  l !! ring_at (length l) h (length a) = Some x
  /\ forall y, rotate h (<[ring_at (length l) h (length a) := y]> l) = a ++ y :: b.
Proof.
  intros Hh E. assert (Ha : (length a < length l)%nat).
  { rewrite <- (length_rotate l h), E, length_app. cbn [length]. lia. }
  split.
  - unfold ring_at. rewrite <- lookup_rotate_r by done. rewrite E. by apply list_lookup_middle.
  - intros y. unfold ring_at. rewrite rotate_insert_l, E by done. by rewrite insert_app_r_alt, Nat.sub_diag by done.
Qed.

(** The front slot becomes the last one when the head moves on. *)
Lemma rotate_next l h x b :
  (h < length l)%nat -> rotate h l = x :: b -> rotate (ring_next (length l) h) l = b ++ [x].
Proof.
  intros Hh E.
  unfold rotate in *. rewrite Nat.mod_small in E by done.
  rewrite Nat.mod_small by by apply ring_next_lt.
  destruct (lookup_lt_is_Some_2 l h Hh) as [z Hz]. rewrite (drop_S l z h Hz) in E. injection E as -> <-.
  unfold ring_next. destruct (Nat.eqb_spec (S h) (length l)) as [Hl|Hl].
  - rewrite drop_0, take_0, app_nil_r, (drop_ge l (S h)) by lia. cbn [app].
    rewrite <- (take_S_r l h x Hz). symmetry. apply take_ge. lia.
  - rewrite <- app_assoc. f_equal. by apply take_S_r.
Qed.

Lemma rotate_head l h x b : (h < length l)%nat -> rotate h l = x :: b -> l !! h = Some x.
Proof. intros Hh E. destruct (rotate_mid l h [] x b Hh E) as [H _]. by rewrite ring_at_0 in H. Qed.

Lemma rotate_insert_head l h x b y :
  (h < length l)%nat -> rotate h l = x :: b -> rotate h (<[h := y]> l) = y :: b.
Proof. intros Hh E. destruct (rotate_mid l h [] x b Hh E) as [_ H]. specialize (H y). by rewrite ring_at_0 in H. Qed.

End ring.
