(* ===== verification/IrqDispatch.v ===== *)
(** * Interrupt controller

    [irq.c] of [kernel/linux/arch/mips/brcm-boards/bcm963xx]: the dispatch of the
    interrupts of the peripheral block, which are served in turn, and of the external,
    software and timer interrupts; the masks; and the registration of a handler.  The
    status registers are inputs; [do_IRQ], which runs the handlers, is a parameter. *)

From S2P Require Import Prelude BoardDefs Led BoardInit.

(** ** Registers *)

Definition INTERNAL_ISR_TABLE_OFFSET : Z := 8.
Definition INTERNAL_HIGH_ISR_TABLE_OFFSET : Z := INTERNAL_ISR_TABLE_OFFSET + 32.
Definition INTERRUPT_ID_SOFTWARE_0 : Z := 0.
Definition INTERRUPT_ID_SOFTWARE_1 : Z := 1.
Definition MIPS_TIMER_INT : Z := 7.

(** Only some of the chips have the MPI interrupt and test for it. *)
Definition INTERRUPT_ID_MPI (chip : Chip) : option Z :=
  match chip with
  | BCM96338 => None
  | BCM96348 => Some (8 + 24)
  | BCM96358 => Some (8 + 31)
  | BCM96368 => Some (8 + 13)
  end.

Definition EI_SENSE_SHFT : Z := 0.
Definition EI_CLEAR_SHFT (chip : Chip) : Z := match chip with BCM96348 => 10 | _ => 8 end.
Definition EI_MASK_SHFT (chip : Chip) : Z := match chip with BCM96348 => 15 | _ => 12 end.
Definition EI_INSENS_SHFT (chip : Chip) : Z := match chip with BCM96348 => 20 | _ => 16 end.
Definition EI_LEVEL_SHFT (chip : Chip) : Z := match chip with BCM96348 => 25 | _ => 20 end.

Definition CAUSEB_IP0 : Z := 8.
Definition STATUSB_IP0 : Z := 8.
Definition CAUSEF_IP : Z := Z.shiftl 255 8.
Definition CAUSEF_IPn (n : Z) : Z := 2 ^ (CAUSEB_IP0 + n).
Definition ST0_IM : Z := 65280.
Definition ST0_BEV : Z := 4194304.
Definition IE_IRQ (n : Z) : Z := 2 ^ (10 + n).

(** The registers, the two static variables of [irq_dispatch_int], and the interrupts
    whose descriptor has the type [brcm_irq_no_end_type]. *)
Record irq_regs := mkIrq {
  IrqMask : Z;
  IrqMask_high : Z;
  ExtIrqCfg : Z;
  ExtIrqCfg1 : Z;
  c0_status : Z;
  c0_cause : Z;
  irqBit : Z;
  isrNumber : Z;
  no_end : list Z
}.

Definition is_6368 (chip : Chip) : bool := match chip with BCM96368 => true | _ => false end.

(** [sizeof(irqBit) * 8]. *)
Definition irq_width (chip : Chip) : Z := if is_6368 chip then 64 else 32.

(** External interrupts have their own lines to the processor. *)
Definition ext_lines (chip : Chip) : bool := negb (has_serial chip).

Definition set_mask (r : irq_regs) (m h : Z) : irq_regs :=
  mkIrq m h (ExtIrqCfg r) (ExtIrqCfg1 r) (c0_status r) (c0_cause r) (irqBit r) (isrNumber r) (no_end r).
Definition set_ext (r : irq_regs) (e e1 : Z) : irq_regs :=
  mkIrq (IrqMask r) (IrqMask_high r) e e1 (c0_status r) (c0_cause r) (irqBit r) (isrNumber r) (no_end r).
Definition set_c0 (r : irq_regs) (s c : Z) : irq_regs :=
  mkIrq (IrqMask r) (IrqMask_high r) (ExtIrqCfg r) (ExtIrqCfg1 r) s c (irqBit r) (isrNumber r) (no_end r).
Definition set_pos (r : irq_regs) (b n : Z) : irq_regs :=
  mkIrq (IrqMask r) (IrqMask_high r) (ExtIrqCfg r) (ExtIrqCfg1 r) (c0_status r) (c0_cause r) b n (no_end r).
Definition set_no_end (r : irq_regs) (l : list Z) : irq_regs :=
  mkIrq (IrqMask r) (IrqMask_high r) (ExtIrqCfg r) (ExtIrqCfg1 r) (c0_status r) (c0_cause r) (irqBit r) (isrNumber r) l.

Definition irq_regs0 (chip : Chip) : irq_regs := mkIrq 0 0 0 0 0 0 0 (irq_width chip - 1) [].

(** A 32-bit register with a bit set or cleared. *)
Definition bit_on (x n : Z) : Z := Z.lor x (2 ^ n).
Definition bit_off (x n : Z) : Z := Z.land x (Z.lnot (2 ^ n)).

(** ** The interrupts of the peripheral block *)

(** [irqBit <<= 1; isrNumber++] with the return to the first bit. *)
Definition next_isr (w bit isr : Z) : Z * Z :=
  let bit := (2 * bit) mod 2 ^ w in
  let isr := u32 (isr + 1) in
  if isr =? w then (1, 0) else (bit, isr).

(** The [while (1)]. *)
Fixpoint search_loop (fuel : nat) (w pending bit isr : Z) : option (Z * Z) :=
  match fuel with
  | O => None
  | S fuel' =>
      let '(bit, isr) := next_isr w bit isr in
      if negb (Z.land pending bit =? 0) then Some (bit, isr) else search_loop fuel' w pending bit isr
  end.

Definition pendingIrqs (chip : Chip) (IrqStatus IrqStatus_high : Z) (r : irq_regs) : Z :=
  if is_6368 chip
  then Z.lor (Z.shiftl (Z.land IrqStatus_high (IrqMask_high r)) 32) (Z.land IrqStatus (IrqMask r))
  else Z.land IrqStatus (IrqMask r).

(** External interrupts in the block are cleared at their source. *)
Definition clear_ext (chip : Chip) (irq : Z) (r : irq_regs) : irq_regs :=
  let id := INTERRUPT_ID_EXTERNAL chip in
  if has_serial chip then
    if (id 0 <=? irq) && (irq <=? id 3)
    then set_ext r (bit_on (ExtIrqCfg r) (irq - id 0 + EI_CLEAR_SHFT chip)) (ExtIrqCfg1 r)
    else if (id 4 <=? irq) && (irq <=? id 5)
    then set_ext r (ExtIrqCfg r) (bit_on (ExtIrqCfg1 r) (irq - id 4 + EI_CLEAR_SHFT chip))
    else r
  else r.

Definition mask_irq (chip : Chip) (n : Z) (r : irq_regs) : irq_regs :=
  if is_6368 chip && negb (n <? 32) then set_mask r (IrqMask r) (bit_off (IrqMask_high r) (n - 32))
  else set_mask r (bit_off (IrqMask r) n) (IrqMask_high r).

(** The interrupt for which [do_IRQ] is called, and the registers at that moment.  The
    fuel is one round over the bits. *)
Definition irq_dispatch_int (chip : Chip) (IrqStatus IrqStatus_high : Z) (r : irq_regs)
    : option (option Z * irq_regs) :=
  let pending := pendingIrqs chip IrqStatus IrqStatus_high r in
  if pending =? 0 then Some (None, r)
  else
    '(bit, isr) ← search_loop (Z.to_nat (irq_width chip)) (irq_width chip) pending (irqBit r) (isrNumber r);
    let irq := isr + INTERNAL_ISR_TABLE_OFFSET in
    Some (Some irq, mask_irq chip isr (clear_ext chip irq (set_pos r bit isr))).

(** ** Masks *)

(** The shift count stays below the width of the register. *)
Definition irq_bit (n : Z) : option Z := if (0 <=? n) && (n <? 32) then Some n else None.

Definition is_ext_line (chip : Chip) (irq : Z) : bool :=
  ext_lines chip && (INTERRUPT_ID_EXTERNAL chip 0 <=? irq) && (irq <=? INTERRUPT_ID_EXTERNAL chip 3).

Definition is_software (irq : Z) : bool := (irq =? INTERRUPT_ID_SOFTWARE_0) || (irq =? INTERRUPT_ID_SOFTWARE_1).

Definition enable_brcm_irq (chip : Chip) (irq : Z) (r : irq_regs) : option irq_regs :=
  if INTERNAL_ISR_TABLE_OFFSET <=? irq then
    if is_6368 chip && negb (irq <? INTERNAL_HIGH_ISR_TABLE_OFFSET) then
      n ← irq_bit (irq - INTERNAL_HIGH_ISR_TABLE_OFFSET);
      Some (set_mask r (IrqMask r) (bit_on (IrqMask_high r) n))
    else
      n ← irq_bit (irq - INTERNAL_ISR_TABLE_OFFSET);
      Some (set_mask r (bit_on (IrqMask r) n) (IrqMask_high r))
  else if is_ext_line chip irq then
    let n := irq - INTERRUPT_ID_EXTERNAL chip 0 in
    let e := bit_on (ExtIrqCfg r) (n + EI_CLEAR_SHFT chip) in
    Some (set_ext r (bit_on e (n + EI_MASK_SHFT chip)) (ExtIrqCfg1 r))
  else if is_software irq then
    Some (set_c0 r (bit_on (c0_status r) (STATUSB_IP0 + irq - INTERRUPT_ID_SOFTWARE_0)) (c0_cause r))
  else Some r.

Definition disable_brcm_irq (chip : Chip) (irq : Z) (r : irq_regs) : option irq_regs :=
  if INTERNAL_ISR_TABLE_OFFSET <=? irq then
    if is_6368 chip && negb (irq <? INTERNAL_HIGH_ISR_TABLE_OFFSET) then
      n ← irq_bit (irq - INTERNAL_HIGH_ISR_TABLE_OFFSET);
      Some (set_mask r (IrqMask r) (bit_off (IrqMask_high r) n))
    else
      n ← irq_bit (irq - INTERNAL_ISR_TABLE_OFFSET);
      Some (set_mask r (bit_off (IrqMask r) n) (IrqMask_high r))
  else if is_ext_line chip irq then
    Some (set_ext r (bit_off (ExtIrqCfg r) (irq - INTERRUPT_ID_EXTERNAL chip 0 + EI_MASK_SHFT chip)) (ExtIrqCfg1 r))
  else if is_software irq then
    Some (set_c0 r (bit_off (c0_status r) (STATUSB_IP0 + irq - INTERRUPT_ID_SOFTWARE_0)) (c0_cause r))
  else Some r.

Definition startup_brcm_irq (chip : Chip) (irq : Z) (r : irq_regs) : option (Z * irq_regs) :=
  r ← enable_brcm_irq chip irq r; Some (0, r).

(** [blocked]: the descriptor is disabled or in progress. *)
Definition end_brcm_irq (chip : Chip) (irq : Z) (blocked : bool) (r : irq_regs) : option irq_regs :=
  if blocked then Some r else enable_brcm_irq chip irq r.

(** The end of an interrupt with the type of its descriptor. *)
Definition irq_end (chip : Chip) (irq : Z) (blocked : bool) (r : irq_regs) : option irq_regs :=
  if existsb (Z.eqb irq) (no_end r) then Some r else end_brcm_irq chip irq blocked r.

(** ** Other lines of the processor *)

Definition irq_dispatch_ext (chip : Chip) (irq : Z) (r : irq_regs) : Z * irq_regs :=
  let n := irq - INTERRUPT_ID_EXTERNAL chip 0 in
  let e := bit_on (ExtIrqCfg r) (n + EI_CLEAR_SHFT chip) in
  (irq, set_ext r (bit_off e (n + EI_MASK_SHFT chip)) (ExtIrqCfg1 r)).

Definition irq_dispatch_sw (irq : Z) (r : irq_regs) : Z * irq_regs :=
  (irq, set_c0 r (c0_status r) (bit_off (c0_cause r) (CAUSEB_IP0 + irq - INTERRUPT_ID_SOFTWARE_0))).

Definition BcmHalGenerateSoftInterrupt (irq : Z) (r : irq_regs) : irq_regs :=
  set_c0 r (c0_status r) (bit_on (c0_cause r) (CAUSEB_IP0 + irq - INTERRUPT_ID_SOFTWARE_0)).

(** What a round reads: the lines into the processor and the status of the block. *)
Record irq_reading := mkReading { rd_lines : Z; rd_status : Z; rd_status_high : Z }.

(** [read_c0_cause() & read_c0_status() & CAUSEF_IP]: the lines and the two software
    interrupts, which are all of the cause register that can be written, as far as the
    status register lets them through. *)
Definition read_cause (rd : irq_reading) (r : irq_regs) : Z :=
  let software := Z.land (c0_cause r) (Z.lor (CAUSEF_IPn 0) (CAUSEF_IPn 1)) in
  Z.land (Z.land (Z.lor (rd_lines rd) software) (c0_status r)) CAUSEF_IP.

Definition cause_ip (cause n : Z) : bool := negb (Z.land cause (CAUSEF_IPn n) =? 0).

(** The body of the loop up to [do_IRQ]. *)
Definition dispatch_round (chip : Chip) (rd : irq_reading) (cause : Z) (r : irq_regs)
    : option (option Z * irq_regs) :=
  if cause_ip cause 7 then Some (Some MIPS_TIMER_INT, r)
  else if cause_ip cause 2 then irq_dispatch_int chip (rd_status rd) (rd_status_high rd) r
  else
    let call (p : Z * irq_regs) := Some (Some (fst p), snd p) in
    let ext n := call (irq_dispatch_ext chip (INTERRUPT_ID_EXTERNAL chip n) r) in
    if ext_lines chip && cause_ip cause 3 then ext 0
    else if ext_lines chip && cause_ip cause 4 then ext 1
    else if ext_lines chip && cause_ip cause 5 then ext 2
    else if ext_lines chip && cause_ip cause 6 then ext 3
    else if cause_ip cause 0 then call (irq_dispatch_sw INTERRUPT_ID_SOFTWARE_0 r)
    else if cause_ip cause 1 then call (irq_dispatch_sw INTERRUPT_ID_SOFTWARE_1 r)
    else Some (None, r).

Section dispatch.

(** [do_IRQ]: what the handler of an interrupt leaves in the registers. *)
Variable do_IRQ : Z -> irq_regs -> irq_regs.

(** The interrupts that are handled while the loop makes the given readings, the registers
    behind the last of them, and whether the loop has ended. *)
Fixpoint brcm_irq_dispatch (chip : Chip) (rds : list irq_reading) (r : irq_regs)
    : option (list Z * irq_regs * bool) :=
  match rds with
  | [] => Some ([], r, false)
  | rd :: rds' =>
      let cause := read_cause rd r in
      if cause =? 0 then Some ([], r, true)
      else
        '(o, r) ← dispatch_round chip rd cause r;
        match o with
        | Some irq => '(l, r, e) ← brcm_irq_dispatch chip rds' (do_IRQ irq r); Some (irq :: l, r, e)
        | None => brcm_irq_dispatch chip rds' r
        end
  end.

End dispatch.

(** ** Registration *)

Definition level_low (chip : Chip) (n e : Z) (unmask : bool) : Z :=
  let e := bit_on e (n + EI_CLEAR_SHFT chip) in
  let e := if unmask then bit_on e (n + EI_MASK_SHFT chip) else bit_off e (n + EI_MASK_SHFT chip) in
  let e := bit_off e (n + EI_INSENS_SHFT chip) in
  let e := bit_on e (n + EI_LEVEL_SHFT chip) in
  bit_off e (n + EI_SENSE_SHFT).

(** [answer] is the result of [request_irq]. *)
Definition request_external_irq (chip : Chip) (irq answer : Z) (r : irq_regs) : Z * irq_regs :=
  (answer, set_ext r (level_low chip (irq - INTERRUPT_ID_EXTERNAL chip 0) (ExtIrqCfg r) false) (ExtIrqCfg1 r)).

Definition config_ext (chip : Chip) (irq : Z) (r : irq_regs) : irq_regs :=
  let id := INTERRUPT_ID_EXTERNAL chip in
  if has_serial chip then
    if (id 0 <=? irq) && (irq <=? id 3)
    then set_ext r (level_low chip (irq - id 0) (ExtIrqCfg r) true) (ExtIrqCfg1 r)
    else if (id 4 <=? irq) && (irq <=? id 5)
    then set_ext r (ExtIrqCfg r) (level_low chip (irq - id 4) (ExtIrqCfg1 r) true)
    else r
  else r.

Definition BcmHalMapInterrupt (chip : Chip) (irq answer : Z) (r : irq_regs) : Z * irq_regs :=
  let r := set_no_end r (irq :: no_end r) in
  if bool_decide (INTERRUPT_ID_MPI chip = Some irq) then (answer, r)
  else if INTERNAL_ISR_TABLE_OFFSET <=? irq then (answer, config_ext chip irq r)
  else if is_ext_line chip irq then request_external_irq chip irq answer r
  else if is_software irq then (answer, r)
  else (-1, r).

(** ** Start *)

Definition ALLINTS_NOTIMER (chip : Chip) : Z :=
  if has_serial chip then IE_IRQ 0
  else Z.lor (IE_IRQ 0) (Z.lor (IE_IRQ 1) (Z.lor (IE_IRQ 2) (Z.lor (IE_IRQ 3) (IE_IRQ 4)))).

Definition brcm_irq_setup (chip : Chip) (r : irq_regs) : irq_regs :=
  let s := Z.land (c0_status r) (Z.lnot ST0_BEV) in
  set_c0 r (Z.lor (Z.land s (Z.lnot ST0_IM)) (ALLINTS_NOTIMER chip)) (c0_cause r).

(** Every descriptor gets the type [brcm_irq_type]. *)
Definition arch_init_irq (chip : Chip) (r : irq_regs) : irq_regs :=
  brcm_irq_setup chip (set_no_end r []).

(** ** Bits *)

Lemma bit_on_spec x n m : 0 <= n -> 0 <= m -> Z.testbit (bit_on x n) m = (Z.testbit x m || (m =? n)).
Proof.
  intros. unfold bit_on. rewrite Z.lor_spec. f_equal. destruct (Z.eqb_spec m n) as [->|].
  - by apply Z.pow2_bits_true.
  - apply Z.pow2_bits_false. lia.
Qed.

Lemma bit_off_spec x n m : 0 <= n -> 0 <= m -> Z.testbit (bit_off x n) m = (Z.testbit x m && negb (m =? n)).
Proof.
  intros. unfold bit_off. rewrite Z.land_spec, Z.lnot_spec by done. do 2 f_equal.
  destruct (Z.eqb_spec m n) as [->|]; [by apply Z.pow2_bits_true|apply Z.pow2_bits_false; lia].
Qed.

Lemma u32_bits_high x n : is_u32 x -> 32 <= n -> Z.testbit x n = false.
Proof. intros Hx Hn. rewrite <- (u32_id x) by done. unfold u32. apply Z.mod_pow2_bits_high. lia. Qed.

Lemma eqb_iff a b c d : (a = b <-> c = d) -> (a =? b) = (c =? d).
Proof. intros H. destruct (Z.eqb_spec a b), (Z.eqb_spec c d); tauto. Qed.

(** ** The turn *)

Section turn.
Variable w : Z.
Hypothesis Hw : 1 < w < 2 ^ 31.

(** The bit belongs to the number; at the last number the bit does not matter. *)
Definition pos_ok (bit isr : Z) : Prop := 0 <= isr < w /\ (bit = 2 ^ isr \/ isr = w - 1).

Lemma next_isr_ok bit isr :
  pos_ok bit isr -> next_isr w bit isr = (2 ^ ((isr + 1) mod w), (isr + 1) mod w).
Proof.
  intros [Hi Hb]. unfold next_isr. rewrite u32_id by (unfold is_u32; lia).
  destruct (Z.eqb_spec (isr + 1) w) as [E|E].
  - rewrite E, Z.mod_same by lia. done.
  - destruct Hb as [->|?]; [|lia]. rewrite (Z.mod_small (isr + 1)) by lia.
    rewrite <- Z.pow_succ_r by lia. rewrite Z.mod_small; [done|]. split; [apply Z.pow_nonneg; lia|].
    apply Z.pow_lt_mono_r; lia.
Qed.

Lemma pos_ok_pow isr : 0 <= isr < w -> pos_ok (2 ^ isr) isr.
Proof. intros. split; [done|by left]. Qed.

(** The first pending bit behind the current one, cyclically, is found. *)
Lemma search_loop_first (d : nat) fuel pending bit isr :
  pos_ok bit isr -> (d < fuel)%nat ->
  Z.testbit pending ((isr + 1 + Z.of_nat d) mod w) = true ->
  (forall m : nat, (m < d)%nat -> Z.testbit pending ((isr + 1 + Z.of_nat m) mod w) = false) ->
  let s := (isr + 1 + Z.of_nat d) mod w in search_loop fuel w pending bit isr = Some (2 ^ s, s).
Proof.
  revert fuel bit isr. induction d as [|d IH]; intros fuel bit isr Hp Hf Ht Hn; (destruct fuel as [|fuel]; [lia|]);
    cbn [search_loop]; rewrite next_isr_ok by done; pose proof (Z.mod_pos_bound (isr + 1) w ltac:(lia)) as Hb;
    rewrite land_pow2_test by lia.
  - rewrite Z.add_0_r in *. by rewrite Ht.
  - specialize (Hn 0%nat) as H0. rewrite Z.add_0_r in H0. rewrite H0 by lia.
    assert (E : forall k : nat, ((isr + 1) mod w + 1 + Z.of_nat k) mod w = (isr + 1 + Z.of_nat (S k)) mod w).
    { intros k. replace (isr + 1 + Z.of_nat (S k)) with ((isr + 1) + (1 + Z.of_nat k)) by lia.
      rewrite <- (Zplus_mod_idemp_l (isr + 1)). f_equal. lia. }
    rewrite <- E. apply IH; [by apply pos_ok_pow|lia|by rewrite E|]. intros m Hm. rewrite E. apply Hn. lia.
Qed.

(** The number of steps from the current bit to bit [i], counted from 0. *)
Definition steps_to (isr i : Z) : Z := (i - isr - 1) mod w.

Lemma steps_to_range isr i : 0 <= steps_to isr i < w.
Proof. apply Z.mod_pos_bound. lia. Qed.

Lemma steps_to_reach isr i : 0 <= i < w -> (isr + 1 + steps_to isr i) mod w = i.
Proof.
  intros Hi. unfold steps_to. rewrite Zplus_mod_idemp_r. replace (isr + 1 + (i - isr - 1)) with i by lia.
  by apply Z.mod_small.
Qed.

(** Serving another bit on the way brings bit [i] closer. *)
Lemma steps_to_closer isr i d :
  0 <= d < steps_to isr i -> steps_to ((isr + 1 + d) mod w) i = steps_to isr i - d - 1.
Proof.
  intros Hd. pose proof (steps_to_range isr i) as Hr. unfold steps_to at 1.
  replace (i - (isr + 1 + d) mod w - 1) with ((i - 1) - (isr + 1 + d) mod w) by lia. rewrite Zminus_mod_idemp_r.
  replace (i - 1 - (isr + 1 + d)) with ((i - isr - 1) - (d + 1)) by lia. rewrite <- Zminus_mod_idemp_l.
  fold (steps_to isr i). rewrite Z.mod_small; lia.
Qed.

Lemma least_true (P : nat -> bool) n : P n = true -> exists m, (m <= n)%nat /\ P m = true /\ forall k, (k < m)%nat -> P k = false.
Proof.
  induction n as [n IH] using lt_wf_ind. intros Hn.
  destruct (forallb (fun k => negb (P k)) (seq 0 n)) eqn:F.
  - exists n. split_and!; [lia|done|]. intros k Hk. rewrite forallb_forall in F.
    apply negb_true_iff, F, in_seq. lia.
  - apply not_true_iff_false in F. destruct (existsb P (seq 0 n)) eqn:X.
    + apply existsb_exists in X as (k & Hk%in_seq & Pk). destruct (IH k ltac:(lia) Pk) as (m & Hm & H). exists m. split; [lia|done].
    + exfalso. apply F, forallb_forall. intros k Hk. apply negb_true_iff. destruct (P k) eqn:E; [|done].
      rewrite <- X. symmetry. apply existsb_exists. by exists k.
Qed.

(** With bit [i] pending the search ends; the bit it finds is pending, and [i] is found or
    is closer than before. *)
Lemma search_loop_turn pending bit isr i fuel :
  pos_ok bit isr -> 0 <= i < w -> Z.testbit pending i = true -> w <= Z.of_nat fuel ->
  exists s, search_loop fuel w pending bit isr = Some (2 ^ s, s) /\ 0 <= s < w /\ Z.testbit pending s = true
    /\ (s = i \/ steps_to s i < steps_to isr i).
Proof.
  intros Hp Hi Ht Hf. pose proof (steps_to_range isr i) as Hr.
  destruct (least_true (fun m => Z.testbit pending ((isr + 1 + Z.of_nat m) mod w)) (Z.to_nat (steps_to isr i)))
    as (d & Hd & Td & Fd).
  { rewrite Z2Nat.id by lia. by rewrite steps_to_reach. }
  exists ((isr + 1 + Z.of_nat d) mod w). split; [apply search_loop_first; [done|lia|done|done]|].
  split; [apply Z.mod_pos_bound; lia|]. split; [done|].
  destruct (decide (Z.of_nat d = steps_to isr i)) as [E|E].
  - left. by rewrite E, steps_to_reach.
  - right. rewrite steps_to_closer by lia. lia.
Qed.

End turn.

(** ** Dispatching *)

Definition irq_pos (chip : Chip) (r : irq_regs) : Prop := pos_ok (irq_width chip) (irqBit r) (isrNumber r).

Definition in_block (chip : Chip) (irq : Z) : Prop :=
  INTERNAL_ISR_TABLE_OFFSET <= irq < INTERNAL_ISR_TABLE_OFFSET + irq_width chip.

(** The interrupt is reported and not masked. *)
Definition irq_pending (chip : Chip) (st sth : Z) (r : irq_regs) (irq : Z) : bool :=
  Z.testbit (pendingIrqs chip st sth r) (irq - INTERNAL_ISR_TABLE_OFFSET).

Definition irq_enabled (chip : Chip) (r : irq_regs) (irq : Z) : bool :=
  if is_6368 chip && negb (irq <? INTERNAL_HIGH_ISR_TABLE_OFFSET)
  then Z.testbit (IrqMask_high r) (irq - INTERNAL_HIGH_ISR_TABLE_OFFSET)
  else Z.testbit (IrqMask r) (irq - INTERNAL_ISR_TABLE_OFFSET).

Lemma irq_width_ok chip : 1 < irq_width chip < 2 ^ 31.
Proof. by destruct chip. Qed.

Lemma irq_regs0_pos chip : irq_pos chip (irq_regs0 chip).
Proof. unfold irq_pos, pos_ok. destruct chip; cbn; lia. Qed.

Lemma clear_ext_same chip irq r :
  IrqMask (clear_ext chip irq r) = IrqMask r /\ IrqMask_high (clear_ext chip irq r) = IrqMask_high r
  /\ irqBit (clear_ext chip irq r) = irqBit r /\ isrNumber (clear_ext chip irq r) = isrNumber r
  /\ c0_status (clear_ext chip irq r) = c0_status r.
Proof. unfold clear_ext. by repeat case_match. Qed.

Lemma mask_irq_pos chip n r :
  irqBit (mask_irq chip n r) = irqBit r /\ isrNumber (mask_irq chip n r) = isrNumber r
  /\ c0_status (mask_irq chip n r) = c0_status r.
Proof. unfold mask_irq. by repeat case_match. Qed.

Lemma mask_irq_enabled chip n r irq :
  0 <= n < irq_width chip -> in_block chip irq ->
  irq_enabled chip (mask_irq chip n r) irq = irq_enabled chip r irq && negb (irq =? n + INTERNAL_ISR_TABLE_OFFSET).
Proof.
  unfold in_block, irq_enabled, mask_irq, INTERNAL_HIGH_ISR_TABLE_OFFSET, INTERNAL_ISR_TABLE_OFFSET, irq_width.
  intros Hn Hi. destruct (is_6368 chip); cbn [andb].
  - destruct (Z.ltb_spec irq (8 + 32)), (Z.ltb_spec n 32); cbn [negb set_mask IrqMask IrqMask_high];
      rewrite ?bit_off_spec by lia.
    1,4: do 2 f_equal; apply eqb_iff; lia.
    all: destruct (Z.eqb_spec irq (n + 8)); [lia|]; by rewrite andb_true_r.
  - cbn [set_mask IrqMask]. rewrite bit_off_spec by lia. do 2 f_equal. apply eqb_iff; lia.
Qed.

Lemma dispatch_turn chip st sth r irq :
  irq_pos chip r -> in_block chip irq -> irq_pending chip st sth r irq = true ->
  exists irq' r', irq_dispatch_int chip st sth r = Some (Some irq', r') /\ in_block chip irq'
    /\ irq_pending chip st sth r irq' = true /\ irq_pos chip r'
    /\ (forall j, in_block chip j -> irq_enabled chip r' j = irq_enabled chip r j && negb (j =? irq'))
    /\ c0_status r' = c0_status r
    /\ (irq' = irq \/ steps_to (irq_width chip) (isrNumber r') (irq - INTERNAL_ISR_TABLE_OFFSET)
                      < steps_to (irq_width chip) (isrNumber r) (irq - INTERNAL_ISR_TABLE_OFFSET)).
Proof.
  intros Hp Hi Ht. unfold irq_dispatch_int. unfold irq_pending in Ht. set (pend := pendingIrqs chip st sth r) in *.
  destruct (Z.eqb_spec pend 0) as [E|E]; [rewrite E, Z.bits_0 in Ht; done|].
  pose proof (irq_width_ok chip) as Hw. unfold in_block in Hi.
  destruct (search_loop_turn (irq_width chip) Hw pend (irqBit r) (isrNumber r) (irq - INTERNAL_ISR_TABLE_OFFSET)
              (Z.to_nat (irq_width chip)) Hp ltac:(lia) Ht ltac:(lia)) as (s & -> & Hs & Ts & Hd).
  cbn [mbind option_bind]. eexists _, _. split; [done|]. set (r1 := clear_ext _ _ _).
  destruct (clear_ext_same chip (s + INTERNAL_ISR_TABLE_OFFSET) (set_pos r (2 ^ s) s)) as (C1 & C2 & C3 & C4 & C5).
  destruct (mask_irq_pos chip s r1) as (M1 & M2 & M3). fold r1 in C1, C2, C3, C4, C5. split_and!.
  - unfold in_block. lia.
  - unfold irq_pending. fold pend. by replace (s + INTERNAL_ISR_TABLE_OFFSET - INTERNAL_ISR_TABLE_OFFSET) with s by lia.
  - unfold irq_pos. rewrite M1, M2, C3, C4. by apply pos_ok_pow.
  - intros j Hj. rewrite mask_irq_enabled by done. f_equal. unfold irq_enabled. by rewrite C1, C2.
  - by rewrite M3, C5.
  - rewrite M2, C4. cbn [set_pos isrNumber]. destruct Hd as [->|Hd]; [left; lia|by right].
Qed.

(** ** The loop *)

Section loop.
Variable do_IRQ : Z -> irq_regs -> irq_regs.
Variable chip : Chip.
Variable irq : Z.

(** The handlers of the other interrupts let [irq] alone: they do not mask it, and they
    leave the line of the block open.  The static variables belong to the dispatcher. *)
Definition handlers_fair : Prop := forall irq' r,
  irqBit (do_IRQ irq' r) = irqBit r /\ isrNumber (do_IRQ irq' r) = isrNumber r
  /\ (irq' <> irq -> irq_enabled chip (do_IRQ irq' r) irq = irq_enabled chip r irq)
  /\ Z.testbit (c0_status (do_IRQ irq' r)) 10 = Z.testbit (c0_status r) 10.

(** The block reports [irq] and raises its line. *)
Definition reports (rd : irq_reading) : Prop :=
  Z.testbit (rd_lines rd) 10 = true
  /\ Z.testbit (if is_6368 chip && negb (irq <? INTERNAL_HIGH_ISR_TABLE_OFFSET) then rd_status_high rd else rd_status rd)
       (if is_6368 chip && negb (irq <? INTERNAL_HIGH_ISR_TABLE_OFFSET) then irq - INTERNAL_HIGH_ISR_TABLE_OFFSET
        else irq - INTERNAL_ISR_TABLE_OFFSET) = true.

(** The readings without the interrupt of the timer, which goes first. *)
Definition no_timer (rd : irq_reading) : bool := negb (Z.testbit (rd_lines rd) 15).

Definition distance (r : irq_regs) : Z :=
  steps_to (irq_width chip) (isrNumber r) (irq - INTERNAL_ISR_TABLE_OFFSET).

Definition reading_ok (rd : irq_reading) : Prop := is_u32 (rd_status rd) /\ is_u32 (rd_status_high rd).

Lemma reports_pending rd r :
  in_block chip irq -> reports rd -> irq_enabled chip r irq = true ->
  irq_pending chip (rd_status rd) (rd_status_high rd) r irq = true.
Proof.
  unfold in_block, reports, irq_enabled, irq_pending, pendingIrqs, irq_width,
    INTERNAL_HIGH_ISR_TABLE_OFFSET, INTERNAL_ISR_TABLE_OFFSET.
  intros Hi [_ Hr] He. destruct (is_6368 chip); cbn [andb] in *.
  - rewrite Z.lor_spec, Z.shiftl_spec, !Z.land_spec by lia. destruct (Z.ltb_spec irq (8 + 32)); cbn [negb] in *.
    + rewrite Hr, He. apply orb_true_r.
    + replace (irq - 8 - 32) with (irq - (8 + 32)) by lia. by rewrite Hr, He.
  - by rewrite Z.land_spec, Hr, He.
Qed.

(** A pending word is not zero at some interrupt of the block. *)
Lemma pending_some rd r :
  reading_ok rd -> pendingIrqs chip (rd_status rd) (rd_status_high rd) r <> 0 ->
  exists j, in_block chip j /\ irq_pending chip (rd_status rd) (rd_status_high rd) r j = true.
Proof.
  intros [H1 H2] Hn. set (p := pendingIrqs _ _ _ _) in *.
  assert (Hp : 0 <= p).
  { pose proof (proj1 H1). pose proof (proj1 H2). unfold p, pendingIrqs.
    destruct (is_6368 chip); rewrite ?Z.lor_nonneg, ?Z.shiftl_nonneg, ?Z.land_nonneg; auto. }
  pose proof (Z.log2_nonneg p) as Hl. assert (Hb : Z.testbit p (Z.log2 p) = true) by (apply Z.bit_log2; lia).
  exists (Z.log2 p + INTERNAL_ISR_TABLE_OFFSET). unfold in_block, irq_pending. fold p.
  replace (Z.log2 p + INTERNAL_ISR_TABLE_OFFSET - INTERNAL_ISR_TABLE_OFFSET) with (Z.log2 p) by lia. split; [|done].
  destruct (Z.lt_ge_cases (Z.log2 p) (irq_width chip)) as [|Hg]; [lia|]. exfalso.
  revert Hl Hb Hg. generalize (Z.log2 p) as n. unfold p, pendingIrqs, irq_width. intros n Hl Hb Hg.
  destruct (is_6368 chip); rewrite ?Z.lor_spec, ?Z.shiftl_spec, ?Z.land_spec in Hb by lia;
    rewrite ?(u32_bits_high (rd_status rd)), ?(u32_bits_high (rd_status_high rd)) in Hb by (done || lia); done.
Qed.

Lemma irq_dispatch_int_total rd r :
  reading_ok rd -> irq_pos chip r ->
  exists o r', irq_dispatch_int chip (rd_status rd) (rd_status_high rd) r = Some (o, r') /\ irq_pos chip r'.
Proof.
  intros Hk Hp. destruct (decide (pendingIrqs chip (rd_status rd) (rd_status_high rd) r = 0)) as [E|E].
  - exists None, r. split; [|done]. unfold irq_dispatch_int. by rewrite E.
  - destruct (pending_some rd r Hk E) as (j & Hj & Tj).
    destruct (dispatch_turn chip _ _ r j Hp Hj Tj) as (i & r' & E' & _ & _ & Hp' & _). by exists (Some i), r'.
Qed.

Hypothesis Hfair : handlers_fair.

Lemma dispatch_round_total rd cause r :
  reading_ok rd -> irq_pos chip r ->
  exists o r', dispatch_round chip rd cause r = Some (o, r') /\ irq_pos chip r'.
Proof.
  intros Hk Hp. unfold dispatch_round. destruct (cause_ip cause 7); [by eexists _, _|].
  destruct (cause_ip cause 2); [by apply irq_dispatch_int_total|]. repeat case_match; by eexists _, _.
Qed.

Lemma do_IRQ_pos irq' r : irq_pos chip r -> irq_pos chip (do_IRQ irq' r).
Proof. unfold irq_pos. by destruct (Hfair irq' r) as (-> & -> & _). Qed.

(** The search of every round ends, so the loop has a next reading or its end. *)
Lemma brcm_irq_dispatch_total rds r :
  Forall reading_ok rds -> irq_pos chip r -> exists x, brcm_irq_dispatch do_IRQ chip rds r = Some x.
Proof.
  intros Hk. revert r. induction Hk as [|rd rds H1 Hk IH]; intros r Hp; cbn [brcm_irq_dispatch]; [by eexists|].
  destruct (read_cause rd r =? 0); [by eexists|].
  destruct (dispatch_round_total rd (read_cause rd r) r H1 Hp) as (o & r' & -> & Hp'). cbn [mbind option_bind].
  destruct o as [i|]; [|by apply IH]. destruct (IH (do_IRQ i r') ltac:(by apply do_IRQ_pos)) as [[[l r2] e] ->]. by eexists.
Qed.

Lemma read_cause_bit rd r n :
  2 <= n < 8 -> cause_ip (read_cause rd r) n = Z.testbit (rd_lines rd) (8 + n) && Z.testbit (c0_status r) (8 + n).
Proof.
  intros Hn. unfold cause_ip, CAUSEF_IPn, CAUSEB_IP0. rewrite land_pow2_test by lia. unfold read_cause.
  rewrite !Z.land_spec, !Z.lor_spec, !Z.land_spec, !Z.lor_spec.
  assert (E : Z.testbit CAUSEF_IP (8 + n) = true /\ Z.testbit (CAUSEF_IPn 0) (8 + n) = false
              /\ Z.testbit (CAUSEF_IPn 1) (8 + n) = false).
  { unfold CAUSEF_IPn, CAUSEF_IP, CAUSEB_IP0. rewrite Z.shiftl_spec, !Z.pow2_bits_false by lia.
    split_and!; [|done|done]. replace (8 + n - 8) with n by lia. change 255 with (Z.ones 8). apply Z.ones_spec_low. lia. }
  destruct E as (-> & -> & ->). by rewrite andb_false_r, orb_false_r, andb_true_r.
Qed.

(** What the loop keeps until [irq] is served. *)
Definition in_turn (r : irq_regs) : Prop :=
  irq_pos chip r /\ irq_enabled chip r irq = true /\ Z.testbit (c0_status r) 10 = true.

Lemma in_turn_do_IRQ irq' r : irq' <> irq -> in_turn r -> in_turn (do_IRQ irq' r) /\ distance (do_IRQ irq' r) = distance r.
Proof.
  intros Hn (Hp & He & Hs). unfold in_turn, distance. destruct (Hfair irq' r) as (_ & -> & E & ->).
  rewrite E by done. split_and!; try done. by apply do_IRQ_pos.
Qed.

(** A round serves [irq] or brings it closer, unless the timer goes first. *)
Lemma dispatch_round_turn rd r :
  in_block chip irq -> reports rd -> in_turn r ->
  read_cause rd r <> 0 /\ exists irq' r', dispatch_round chip rd (read_cause rd r) r = Some (Some irq', r') /\ irq_pos chip r' /\
    (irq' = irq \/ irq' <> irq /\ in_turn r' /\ distance r' + Z.b2z (no_timer rd) <= distance r).
Proof.
  intros Hi Hr (Hp & He & Hs). pose proof (read_cause_bit rd r 2 ltac:(lia)) as C2. change (8 + 2) with 10 in C2.
  rewrite (proj1 Hr), Hs in C2. split.
  { intros E. rewrite E in C2. done. }
  unfold dispatch_round. rewrite C2. destruct (cause_ip (read_cause rd r) 7) eqn:C7.
  - rewrite read_cause_bit in C7 by lia. apply andb_true_iff in C7 as [C7 _].
    exists MIPS_TIMER_INT, r. split_and!; [done|done|]. right. unfold no_timer. change (8 + 7) with 15 in C7. rewrite C7.
    split_and!; [|done..|cbn; lia]. unfold in_block, MIPS_TIMER_INT, INTERNAL_ISR_TABLE_OFFSET in *. lia.
  - destruct (dispatch_turn chip _ _ r irq Hp Hi (reports_pending rd r Hi Hr He))
      as (irq' & r' & E & _ & _ & Hp' & Hm & Hc & Hd).
    exists irq', r'. split_and!; [done|done|]. destruct (decide (irq' = irq)) as [|Hne]; [by left|]. right.
    split; [done|]. split; [|unfold distance; destruct Hd as [|Hd]; [done|]; destruct (no_timer rd); cbn; lia].
    unfold in_turn. rewrite Hm, He, Hc by done. split_and!; try done. by destruct (Z.eqb_spec irq irq').
Qed.

Lemma brcm_irq_dispatch_serves rds r :
  in_block chip irq -> Forall reading_ok rds -> Forall reports rds -> in_turn r ->
  distance r < zlen (List.filter no_timer rds) ->
  exists l r' e, brcm_irq_dispatch do_IRQ chip rds r = Some (l, r', e) /\ irq ∈ l.
Proof.
  intros Hi Hk Hr. revert r. induction rds as [|rd rds IH]; intros r Ht Hd.
  { pose proof (steps_to_range (irq_width chip) (irq_width_ok chip) (isrNumber r) (irq - INTERNAL_ISR_TABLE_OFFSET)) as Hz.
    fold (distance r) in Hz. change (zlen (List.filter no_timer [])) with 0 in Hd. lia. }
  apply Forall_cons in Hk as [Hk1 Hk], Hr as [Hr1 Hr].
  destruct (dispatch_round_turn rd r Hi Hr1 Ht) as (Hc & irq' & r' & E & Hp & D). cbn [brcm_irq_dispatch].
  apply Z.eqb_neq in Hc. rewrite Hc, E. cbn [mbind option_bind]. destruct D as [->|(Hne & Ht' & Hd')].
  - destruct (brcm_irq_dispatch_total rds (do_IRQ irq r') Hk ltac:(by apply do_IRQ_pos)) as [[[l r2] e] ->].
    eexists _, _, _. split; [done|]. by left.
  - destruct (in_turn_do_IRQ irq' r' Hne Ht') as [Ht2 E2].
    destruct (IH Hk Hr (do_IRQ irq' r') Ht2) as (l & r2 & e & -> & Hl).
    { rewrite E2. cbn [List.filter] in Hd. destruct (no_timer rd); cbn in Hd'; rewrite ?zlen_cons in Hd; lia. }
    eexists _, _, _. split; [done|]. by right.
Qed.

End loop.

(** ** Properties *)

Lemma irq_bit_ok n : 0 <= n < 32 -> irq_bit n = Some n.
Proof. intros Hn. unfold irq_bit. by ztest. Qed.

Lemma enable_brcm_irq_enabled chip irq r :
  in_block chip irq ->
  exists r', enable_brcm_irq chip irq r = Some r'
    /\ forall j, in_block chip j -> irq_enabled chip r' j = irq_enabled chip r j || (j =? irq).
Proof.
  unfold in_block, irq_enabled, enable_brcm_irq, INTERNAL_HIGH_ISR_TABLE_OFFSET, INTERNAL_ISR_TABLE_OFFSET, irq_width.
  intros Hi. rewrite (proj2 (Z.leb_le 8 irq)) by lia. destruct (is_6368 chip); cbn [andb].
  - destruct (Z.ltb_spec irq (8 + 32)); cbn [negb]; rewrite irq_bit_ok by lia;
      eexists; (split; [done|]); intros j Hj; destruct (Z.ltb_spec j (8 + 32)); cbn [negb set_mask IrqMask IrqMask_high];
      rewrite ?bit_on_spec by lia.
    1,4: f_equal; apply eqb_iff; lia.
    all: destruct (Z.eqb_spec j irq); [lia|]; by rewrite orb_false_r.
  - rewrite irq_bit_ok by lia. eexists. split; [done|]. intros j Hj. cbn [set_mask IrqMask].
    rewrite bit_on_spec by lia. f_equal. apply eqb_iff; lia.
Qed.

Lemma irq_pending_enabled chip rd r irq :
  in_block chip irq -> reading_ok rd -> irq_pending chip (rd_status rd) (rd_status_high rd) r irq = true ->
  irq_enabled chip r irq = true.
Proof.
  unfold in_block, irq_enabled, irq_pending, pendingIrqs, irq_width, INTERNAL_HIGH_ISR_TABLE_OFFSET, INTERNAL_ISR_TABLE_OFFSET.
  intros Hi [Hs _]. destruct (is_6368 chip); cbn [andb].
  - rewrite Z.lor_spec, Z.shiftl_spec, !Z.land_spec by lia. destruct (Z.ltb_spec irq (8 + 32)); cbn [negb].
    + rewrite (Z.testbit_neg_r _ (irq - 8 - 32)) by lia. cbn [andb orb]. by intros [_ H']%andb_true_iff.
    + rewrite (u32_bits_high (rd_status rd)) by (done || lia). cbn [andb]. rewrite orb_false_r.
      replace (irq - 8 - 32) with (irq - (8 + 32)) by lia. by intros [_ H']%andb_true_iff.
  - rewrite Z.land_spec. by intros [_ H']%andb_true_iff.
Qed.

(** Dispatching an interrupt of the peripheral block. Whatever the block reports, the
    search returns. With nothing pending, nothing is done. Otherwise the interrupt that is
    handed to [do_IRQ] is reported and was not masked; it is masked, the masks of all
    others stay; and enabling it behind the handler restores the masks. *)
Theorem irq_dispatch_int_spec chip rd r :
  irq_pos chip r -> reading_ok rd ->
  exists o r', irq_dispatch_int chip (rd_status rd) (rd_status_high rd) r = Some (o, r') /\ irq_pos chip r' /\
  match o with
  | None => r' = r /\ forall j, in_block chip j -> irq_pending chip (rd_status rd) (rd_status_high rd) r j = false
  | Some irq =>
      in_block chip irq /\ irq_pending chip (rd_status rd) (rd_status_high rd) r irq = true
      /\ irq_enabled chip r' irq = false
      /\ (forall j, in_block chip j -> j <> irq -> irq_enabled chip r' j = irq_enabled chip r j)
      /\ exists r2, enable_brcm_irq chip irq r' = Some r2
         /\ forall j, in_block chip j -> irq_enabled chip r2 j = irq_enabled chip r j
  end.
Proof.
  intros Hp Hk. destruct (decide (pendingIrqs chip (rd_status rd) (rd_status_high rd) r = 0)) as [E|E].
  - exists None, r. unfold irq_dispatch_int, irq_pending. rewrite E. split_and!; try done. intros j _. apply Z.bits_0.
  - destruct (pending_some chip rd r Hk E) as (j & Hj & Tj).
    destruct (dispatch_turn chip _ _ r j Hp Hj Tj) as (irq & r' & E' & Hi & Ti & Hp' & Hm & _ & _).
    exists (Some irq), r'. split_and!; try done.
    + rewrite Hm, Z.eqb_refl by done. apply andb_false_r.
    + intros i Hin Hne. rewrite Hm by done. apply Z.eqb_neq in Hne. rewrite Hne. apply andb_true_r.
    + destruct (enable_brcm_irq_enabled chip irq r' Hi) as (r2 & E2 & Hr2). exists r2. split; [done|].
      intros i Hin. rewrite Hr2, Hm by done. destruct (Z.eqb_spec i irq) as [->|_]; cbn [negb].
      * rewrite andb_false_r. symmetry. by apply irq_pending_enabled with rd.
      * by rewrite andb_true_r, orb_false_r.
Qed.

(** C16: No interrupt of the block starves. As long as an interrupt is reported, not masked
    and not touched by the handlers of others, the loop of [brcm_irq_dispatch] serves it
    within as many readings without a timer interrupt as the block has interrupts, on
    whatever bit the search stands and whatever else is pending. *)
Theorem irq_round_robin do_IRQ chip irq rds r :
  handlers_fair do_IRQ chip irq -> in_block chip irq ->
  irq_pos chip r -> irq_enabled chip r irq = true -> Z.testbit (c0_status r) 10 = true ->
  Forall reading_ok rds -> Forall (reports chip irq) rds -> irq_width chip <= zlen (List.filter no_timer rds) ->
  exists l r' e, brcm_irq_dispatch do_IRQ chip rds r = Some (l, r', e) /\ irq ∈ l.
Proof.
  intros Hf Hi Hp He Hs Hk Hr Hn. apply brcm_irq_dispatch_serves; try done.
  pose proof (steps_to_range (irq_width chip) (irq_width_ok chip) (isrNumber r) (irq - INTERNAL_ISR_TABLE_OFFSET)) as Hd.
  unfold distance. lia.
Qed.

(** ** Examples *)

(** A BCM96348 with all interrupts of the block reported and unmasked, and a handler that
    enables its interrupt again. *)
Definition demo_irq_regs : irq_regs :=
  arch_init_irq BCM96348 (set_mask (irq_regs0 BCM96348) (2 ^ 32 - 1) 0).

Definition demo_do_IRQ (irq : Z) (r : irq_regs) : irq_regs := default r (enable_brcm_irq BCM96348 irq r).

Definition demo_irq_readings : list irq_reading := replicate 32 (mkReading (2 ^ 10) (2 ^ 32 - 1) 0).

Example demo_irq_turn :
  brcm_irq_dispatch demo_do_IRQ BCM96348 (take 3 demo_irq_readings ++ [mkReading 0 0 0]) demo_irq_regs
  = Some ([8; 9; 10], set_pos demo_irq_regs 4 2, true).
Proof. vm_compute. reflexivity. Qed.

Lemma demo_fair : handlers_fair demo_do_IRQ BCM96348 39.
Proof.
  intros irq' r. unfold demo_do_IRQ, enable_brcm_irq, irq_bit, is_software, INTERNAL_ISR_TABLE_OFFSET. cbn [is_6368 andb].
  destruct (8 <=? irq'); [|destruct (is_ext_line BCM96348 irq'); [done|]].
  - destruct ((0 <=? irq' - 8) && (irq' - 8 <? 32)) eqn:E; [|done]. apply andb_true_iff in E as [E%Z.leb_le _].
    cbn [mbind option_bind default from_option id set_mask irqBit isrNumber c0_status]. split_and!; try done. intros Hne.
    unfold irq_enabled. cbn [is_6368 andb IrqMask set_mask default from_option id]. rewrite bit_on_spec by (unfold INTERNAL_ISR_TABLE_OFFSET; lia).
    destruct (Z.eqb_spec (39 - INTERNAL_ISR_TABLE_OFFSET) (irq' - 8)) as [X|_]; [unfold INTERNAL_ISR_TABLE_OFFSET in X; lia|].
    apply orb_false_r.
  - destruct ((irq' =? INTERRUPT_ID_SOFTWARE_0) || (irq' =? INTERRUPT_ID_SOFTWARE_1)) eqn:E; [|done].
    assert (H : 0 <= irq' <= 1) by (apply orb_true_iff in E as [E%Z.eqb_eq|E%Z.eqb_eq]; rewrite E; done).
    cbn [default from_option id set_c0 irqBit isrNumber c0_status]. split_and!; try done.
    rewrite bit_on_spec by (unfold STATUSB_IP0, INTERRUPT_ID_SOFTWARE_0; lia).
    destruct (Z.eqb_spec 10 (STATUSB_IP0 + irq' - INTERRUPT_ID_SOFTWARE_0)) as [X|_];
      [unfold STATUSB_IP0, INTERRUPT_ID_SOFTWARE_0 in X; lia|]. apply orb_false_r.
Qed.

Lemma irq_round_robin_witness :
  exists l r' e, brcm_irq_dispatch demo_do_IRQ BCM96348 demo_irq_readings demo_irq_regs = Some (l, r', e) /\ 39 ∈ l.
Proof.
  apply irq_round_robin.
  - exact demo_fair.
  - split; vm_compute; [discriminate|reflexivity].
  - apply irq_regs0_pos.
  - reflexivity.
  - reflexivity.
  - apply Forall_replicate. split; unfold is_u32; cbn [rd_status rd_status_high]; lia.
  - apply Forall_replicate. by split.
  - vm_compute. discriminate.
Defined.

Lemma irq_dispatch_int_spec_witness :
  exists o r', irq_dispatch_int BCM96348 5 0 demo_irq_regs = Some (o, r') /\ irq_pos BCM96348 r' /\ o = Some 8.
Proof.
  destruct (irq_dispatch_int_spec BCM96348 (mkReading 0 5 0) demo_irq_regs) as (o & r' & E & Hp & _).
  - apply irq_regs0_pos.
  - split; unfold is_u32; cbn [rd_status rd_status_high]; lia.
  - exists o, r'. split; [exact E|]. split; [exact Hp|]. vm_compute in E. congruence.
Defined.
