(* ===== verification/Timer.v ===== *)
(** * The system timer

    [brcm-boards/bcm963xx/time.c]: the handler of the timer interrupt, which adds ticks
    until it has caught up with the cycle counter, and [brcm_timer_setup].  The counter is
    an input, one reading for each time the code reads it; a list that is too short is
    [None].  Of [do_timer] ([kernel/timer.c]) the model keeps the two counters of ticks,
    and a list of the calls the handler makes.

    The specification has the time in cycles since the counter started as an unbounded
    number, of which the counter shows 32 bits, and the rule of the CPU for the interrupt:
    it comes when the counter reaches the compare register. *)

From S2P Require Import Prelude.

Inductive tcall := DoTimer | BoardTimer.

Record clock := mkClock {
  r4k_interval : Z;
  r4k_cur : Z;
  timerhi : Z;
  timerlo : Z;
  jiffies_64 : Z;
  wall_jiffies : Z;
  board_timer_interrupt : bool;
  c0_compare : Z;
  c0_status : Z;
  timer_action : bool;
  calls : list tcall
}.

Inductive irqreturn := IRQ_NONE | IRQ_HANDLED.

Definition IE_IRQ5 : Z := 32768.

Definition jiffies (c : clock) : Z := u32 (jiffies_64 c).

(** [do_timer] with [update_times]; the accounting they call is not modelled. *)
Definition do_timer (c : clock) : clock :=
  let j := (jiffies_64 c + 1) mod 2 ^ 64 in
  let ticks := u32 (u32 j - wall_jiffies c) in
  mkClock (r4k_interval c) (r4k_cur c) (timerhi c) (timerlo c) j (u32 (wall_jiffies c + ticks))
    (board_timer_interrupt c) (c0_compare c) (c0_status c) (timer_action c) (calls c ++ [DoTimer]).

Definition board_hook (c : clock) : clock :=
  if board_timer_interrupt c then
    mkClock (r4k_interval c) (r4k_cur c) (timerhi c) (timerlo c) (jiffies_64 c) (wall_jiffies c)
      (board_timer_interrupt c) (c0_compare c) (c0_status c) (timer_action c) (calls c ++ [BoardTimer])
  else c.

Definition with_cur (c : clock) (v : Z) : clock :=
  mkClock (r4k_interval c) v (timerhi c) (timerlo c) (jiffies_64 c) (wall_jiffies c)
    (board_timer_interrupt c) (c0_compare c) (c0_status c) (timer_action c) (calls c).

Definition ack_r4ktimer (c : clock) (newval : Z) : clock :=
  mkClock (r4k_interval c) (r4k_cur c) (timerhi c) (timerlo c) (jiffies_64 c) (wall_jiffies c)
    (board_timer_interrupt c) newval (c0_status c) (timer_action c) (calls c).

Definition set_hi_lo (c : clock) (hi lo : Z) : clock :=
  mkClock (r4k_interval c) (r4k_cur c) hi lo (jiffies_64 c) (wall_jiffies c)
    (board_timer_interrupt c) (c0_compare c) (c0_status c) (timer_action c) (calls c).

(** The body of the loop up to its test. *)
Definition timer_tick (c : clock) : clock :=
  let c := board_hook (do_timer c) in
  let c := with_cur c (u32 (r4k_cur c + r4k_interval c)) in
  ack_r4ktimer c (r4k_cur c).

(** The loop; the result has the last reading and the readings that are left. *)
Fixpoint tick_loop (counts : list Z) (c : clock) : option (Z * list Z * clock) :=
  match counts with
  | [] => None
  | count :: counts' =>
      let c := timer_tick c in
      if u32 (count - r4k_cur c) <? 0x7fffffff then tick_loop counts' c else Some (count, counts', c)
  end.

Definition brcm_timer_interrupt (counts : list Z) (c : clock) : option (irqreturn * list Z * clock) :=
  if r4k_interval c =? 0 then Some (IRQ_NONE, counts, ack_r4ktimer c 0)
  else
    '(count, counts, c) ← tick_loop counts c;
    let c := if jiffies c =? 0 then set_hi_lo c 0 0
             else set_hi_lo c (u32 (timerhi c + (if count <? timerlo c then 1 else 0))) count in
    Some (IRQ_HANDLED, counts, c).

Definition brcm_timer_setup (count : Z) (c : clock) : clock :=
  let c := with_cur c (u32 (count + r4k_interval c)) in
  let c := ack_r4ktimer c (r4k_cur c) in
  mkClock (r4k_interval c) (r4k_cur c) (timerhi c) (timerlo c) (jiffies_64 c) (wall_jiffies c)
    (board_timer_interrupt c) (c0_compare c) (Z.lor (c0_status c) IE_IRQ5) true (calls c).

(** ** Time *)

(** Readings that follow each other, and the time [t] before them, at less than [iv]
    cycles: a round of the loop is shorter than a tick. *)
Fixpoint paced (iv t : Z) (ts : list Z) : Prop :=
  match ts with
  | [] => True
  | t' :: ts' => t <= t' < t + iv /\ paced iv t' ts'
  end.

(** After the time [t] the counter reaches [v] for the first time at [tc]. *)
Definition first_match (t v tc : Z) : Prop :=
  t < tc /\ u32 tc = u32 v /\ forall x, t < x < tc -> u32 x <> u32 v.

(** The clock from its setup at [start] on, with the time of the last reading: an
    interrupt comes when the counter has reached the compare register, is handled at
    [t0], less than 2^31 - 1 cycles later, and the handler reads the counter at the times
    [used]. *)
Inductive clock_run (c0 : clock) (start : Z) : clock -> Z -> Prop :=
  | run_setup : clock_run c0 start (brcm_timer_setup (u32 start) c0) start
  | run_irq c t tc t0 used t' r c' :
      clock_run c0 start c t -> first_match t (c0_compare c) tc -> tc <= t0 < tc + (2 ^ 31 - 1) ->
      paced (r4k_interval c0) t0 (used ++ [t']) ->
      brcm_timer_interrupt (map u32 (used ++ [t'])) c = Some (r, [], c') ->
      clock_run c0 start c' t'.

(** The first tick after [t] when the ticks are at [start + k * iv]. *)
Definition next_tick (iv start t : Z) : Z := start + ((t - start) / iv + 1) * iv.

(** ** The loop *)

Fixpoint ticks (k : nat) (c : clock) : clock :=
  match k with O => c | S k' => ticks k' (timer_tick c) end.

Section Loop.
Context (iv : Z) (Hiv : 0 < iv <= 2 ^ 31).

(** The clock is set for the tick at the time [N]. *)
Definition set_for (N : Z) (c : clock) : Prop := r4k_interval c = iv /\ r4k_cur c = u32 N /\ c0_compare c = u32 N.

Lemma tick_set_for N c : r4k_interval c = iv -> r4k_cur c = u32 N -> set_for (N + iv) (timer_tick c).
Proof.
  intros Hi Hc. unfold set_for, timer_tick, board_hook, do_timer. cbn.
  destruct (board_timer_interrupt c); cbn; rewrite Hi, Hc, u32_add_l; done.
Qed.

(** The test of the loop: a reading is behind the tick or, less than 2^31 cycles, in front
    of it. *)
Lemma late_test t N :
  - 2 ^ 31 <= t - N < 2 ^ 31 - 1 -> (u32 (u32 t - u32 N) <? 0x7fffffff) = (N <=? t).
Proof.
  intros H. assert (E : u32 (u32 t - u32 N) = u32 (t - N)) by (unfold u32; by rewrite <- Zminus_mod).
  rewrite E. unfold u32. destruct (Z.leb_spec N t).
  - rewrite Z.mod_small by lia. apply Z.ltb_lt. lia.
  - rewrite <- (Z_mod_plus_full (t - N) 1), Z.mod_small by lia. apply Z.ltb_ge. lia.
Qed.

(** One round: it ends with the clock set for a later tick, or the handler is still late
    by less than before. *)
Lemma loop_step t0 N t ts c :
  r4k_interval c = iv -> r4k_cur c = u32 N -> N <= t0 < N + (2 ^ 31 - 1) -> t0 <= t < t0 + iv ->
  tick_loop (map u32 (t :: ts)) c
  = if N + iv <=? t then tick_loop (map u32 ts) (timer_tick c) else Some (u32 t, map u32 ts, timer_tick c).
Proof.
  intros Hi Hc Hl Ht. destruct (tick_set_for N c Hi Hc) as (_ & Hcur & _).
  cbn [map tick_loop]. rewrite Hcur, late_test by lia. done.
Qed.

Lemma catch_up_inv ts : forall t0 N c count rest c',
  r4k_interval c = iv -> r4k_cur c = u32 N -> N <= t0 < N + (2 ^ 31 - 1) -> paced iv t0 ts ->
  tick_loop (map u32 ts) c = Some (count, rest, c') ->
  exists used t' more, ts = used ++ t' :: more /\ rest = map u32 more /\ count = u32 t' /\
    c' = ticks (S (length used)) c /\ t0 <= t' /\
    N + zlen used * iv <= t' < N + (zlen used + 1) * iv.
Proof.
  induction ts as [|t ts IH]; intros t0 N c count rest c' Hi Hc Hl Hp; [done|].
  destruct Hp as [Ht Hp]. rewrite (loop_step t0 N) by done. destruct (tick_set_for N c Hi Hc) as (Hi1 & Hc1 & _).
  destruct (Z.leb_spec (N + iv) t) as [Hle|Hgt]; intros H.
  - destruct (IH t (N + iv) (timer_tick c) count rest c') as (used & t' & more & -> & -> & -> & -> & H1 & H2); try done; [lia|].
    exists (t :: used), t', more. rewrite zlen_cons. split_and!; try done; lia.
  - injection H as <- <- <-. exists [], t, ts. rewrite (@zlen_nil Z). split_and!; try done; lia.
Qed.

(** The rounds gain on the counter: the handler returns after at most one round more than
    it is late by. *)
Lemma catch_up_returns ts : forall t0 N c,
  r4k_interval c = iv -> r4k_cur c = u32 N -> N <= t0 < N + (2 ^ 31 - 1) -> paced iv t0 ts ->
  t0 - N < zlen ts -> is_Some (tick_loop (map u32 ts) c).
Proof.
  induction ts as [|t ts IH]; intros t0 N c Hi Hc Hl Hp Hlen; [rewrite (@zlen_nil Z) in Hlen; lia|].
  destruct Hp as [Ht Hp]. rewrite (loop_step t0 N) by done. destruct (tick_set_for N c Hi Hc) as (Hi1 & Hc1 & _).
  rewrite zlen_cons in Hlen. destruct (Z.leb_spec (N + iv) t); [|done].
  apply (IH t (N + iv)); try done; lia.
Qed.

End Loop.

Lemma ticks_set_for iv k : forall N c,
  r4k_interval c = iv -> r4k_cur c = u32 N -> set_for iv (N + (Z.of_nat k + 1) * iv) (ticks (S k) c).
Proof.
  induction k as [|k IH]; intros N c Hi Hc; destruct (tick_set_for iv N c Hi Hc) as (Hi1 & Hc1 & Hp1).
  - cbn [ticks]. replace (N + (Z.of_nat 0 + 1) * iv) with (N + iv) by lia. done.
  - change (ticks (S (S k)) c) with (ticks (S k) (timer_tick c)).
    replace (N + (Z.of_nat (S k) + 1) * iv) with (N + iv + (Z.of_nat k + 1) * iv) by lia. by apply IH.
Qed.

Lemma tick_jiffies c : jiffies_64 (timer_tick c) = (jiffies_64 c + 1) mod 2 ^ 64.
Proof. unfold timer_tick, board_hook. cbn. by destruct (board_timer_interrupt c). Qed.

Lemma ticks_jiffies k : forall c j,
  jiffies_64 c = j mod 2 ^ 64 -> jiffies_64 (ticks k c) = (j + Z.of_nat k) mod 2 ^ 64.
Proof.
  induction k as [|k IH]; intros c j Hj; cbn [ticks]; [rewrite Hj; f_equal; lia|].
  rewrite (IH _ (j + 1)); [f_equal; lia|]. rewrite tick_jiffies, Hj. by rewrite Zplus_mod_idemp_l.
Qed.

(** ** Ticks *)

Lemma next_tick_bounds iv start t : 0 < iv -> t < next_tick iv start t <= t + iv.
Proof.
  intros Hiv. unfold next_tick. pose proof (Z.div_mod (t - start) iv). pose proof (Z.mod_pos_bound (t - start) iv). lia.
Qed.

Lemma first_match_tick t N tc : t < N <= t + 2 ^ 31 -> first_match t (u32 N) tc -> tc = N.
Proof.
  intros HN (Ht & Hm & Hf). unfold u32 in Hm, Hf. rewrite Z.mod_mod in Hm by lia.
  destruct (Z.lt_trichotomy tc N) as [H|[H|H]]; [|done|].
  - apply (f_equal (fun x => (x - N) mod 2 ^ 32)) in Hm. rewrite !Zminus_mod_idemp_l, Z.sub_diag in Hm.
    rewrite <- (Z_mod_plus_full (tc - N) 1), Z.mod_small in Hm by lia. rewrite Z.mod_0_l in Hm; lia.
  - exfalso. apply (Hf N); [lia|]. by rewrite Z.mod_mod by lia.
Qed.

Definition clock_inv (c0 : clock) (start : Z) (c : clock) (t : Z) : Prop :=
  start <= t /\ set_for (r4k_interval c0) (next_tick (r4k_interval c0) start t) c /\
  jiffies_64 c = (jiffies_64 c0 + (t - start) / r4k_interval c0) mod 2 ^ 64.

Lemma setup_inv c0 start :
  0 < r4k_interval c0 -> 0 <= jiffies_64 c0 < 2 ^ 64 -> clock_inv c0 start (brcm_timer_setup (u32 start) c0) start.
Proof.
  intros Hiv Hj. unfold clock_inv, set_for, next_tick. cbn. rewrite Z.sub_diag, Z.div_0_l, u32_add_l by lia.
  split_and!; [lia|done|f_equal; lia|f_equal; lia|rewrite Z.add_0_r, Z.mod_small; lia].
Qed.

(** The fields that matter are those of the loop. *)
Lemma interrupt_inv counts c r rest c' :
  r4k_interval c <> 0 -> brcm_timer_interrupt counts c = Some (r, rest, c') ->
  exists count c1, tick_loop counts c = Some (count, rest, c1) /\ r = IRQ_HANDLED /\
    r4k_interval c' = r4k_interval c1 /\ r4k_cur c' = r4k_cur c1 /\ c0_compare c' = c0_compare c1 /\
    jiffies_64 c' = jiffies_64 c1.
Proof.
  intros Hi. unfold brcm_timer_interrupt. rewrite (proj2 (Z.eqb_neq _ 0)) by done.
  destruct (tick_loop counts c) as [[[count rest1] c1]|]; [|done]. cbn. intros [= <- <- <-].
  exists count, c1. destruct (jiffies c1 =? 0); done.
Qed.

Lemma irq_inv c0 start c t tc t0 ts t' r c' :
  0 < r4k_interval c0 <= 2 ^ 31 -> clock_inv c0 start c t ->
  first_match t (c0_compare c) tc -> tc <= t0 < tc + (2 ^ 31 - 1) -> paced (r4k_interval c0) t0 (ts ++ [t']) ->
  brcm_timer_interrupt (map u32 (ts ++ [t'])) c = Some (r, [], c') -> clock_inv c0 start c' t'.
Proof.
  intros Hiv (Hs & (Hi & Hc & Hp) & Hj) Hm Ht0 Hpc H. set (iv := r4k_interval c0) in *.
  pose proof (next_tick_bounds iv start t) as HN. rewrite Hp in Hm. apply first_match_tick in Hm as ->; [|lia].
  apply interrupt_inv in H as (count & c1 & H & -> & E1 & E2 & E3 & E4); [|lia].
  apply (catch_up_inv iv Hiv) with (t0 := t0) (N := next_tick iv start t) in H as (used & t1 & more & Ets & Em & -> & -> & Hle & Hb); try done.
  destruct more; [|done]. apply app_inj_tail in Ets as [-> ->].
  destruct (ticks_set_for iv (length used) (next_tick iv start t) c Hi Hc) as (Hi' & Hc' & Hp').
  assert (Eq : (t1 - start) / iv = (t - start) / iv + (zlen used + 1)).
  { symmetry. apply Z.div_unique with (r := t1 - next_tick iv start t - zlen used * iv); [lia|].
    unfold next_tick. lia. }
  unfold clock_inv, set_for. fold iv. rewrite E1, E2, E3, E4, Hi', Hc', Hp', Eq.
  assert (EN : next_tick iv start t1 = next_tick iv start t + (Z.of_nat (length used) + 1) * iv)
    by (unfold next_tick, zlen in *; rewrite Eq; lia).
  rewrite EN. split_and!; try done; [unfold next_tick in *; lia|].
  rewrite (ticks_jiffies _ _ _ Hj). f_equal. unfold zlen. lia.
Qed.

Lemma clock_run_inv c0 start c t :
  0 < r4k_interval c0 <= 2 ^ 31 -> 0 <= jiffies_64 c0 < 2 ^ 64 -> clock_run c0 start c t -> clock_inv c0 start c t.
Proof.
  intros Hiv Hj. induction 1 as [|c t tc t0 used t' r c' _ IH Hm Ht0 Hp H]; [apply setup_inv; lia|].
  by eapply irq_inv.
Qed.


(** A timer with an interval of 1200000 cycles; the first interrupt is handled when three ticks are due. *)
Definition demo_clock : clock := mkClock 1200000 0 0 0 4294907296 4294907296 false 0 0 false [].
Definition demo_late : clock :=
  mkClock 1200000 4800100 0 3700030 4294907299 4294907299 false 4800100 IE_IRQ5 true [DoTimer; DoTimer; DoTimer].

Lemma demo_run : clock_run demo_clock 100 demo_late 3700030.
Proof.
  eapply (run_irq _ _ _ 100 1200100 3700000 [3700010; 3700020] 3700030 IRQ_HANDLED).
  - apply run_setup.
  - unfold first_match. change (u32 (c0_compare _)) with 1200100. split_and!; [lia|vm_compute; reflexivity|].
    intros x Hx. rewrite u32_id by (unfold is_u32; lia). lia.
  - lia.
  - cbn. lia.
  - vm_compute. reflexivity.
Qed.


(** ** The 64-bit cycle counter *)

Lemma hi_lo_extended hi lo d :
  is_u32 lo -> 0 <= d < 2 ^ 32 ->
  (u32 (hi + (if u32 (lo + d) <? lo then 1 else 0)) * 2 ^ 32 + u32 (lo + d)) mod 2 ^ 64
  = (hi * 2 ^ 32 + lo + d) mod 2 ^ 64.
Proof.
  unfold is_u32, u32. intros Hl Hd.
  assert (E : (lo + d) mod 2 ^ 32 = lo + d \/ (lo + d) mod 2 ^ 32 = lo + d - 2 ^ 32 /\ 2 ^ 32 <= lo + d).
  { destruct (Z.lt_ge_cases (lo + d) (2 ^ 32)); [left; apply Z.mod_small; lia|right].
    split; [|done]. rewrite <- (Z_mod_plus_full (lo + d) (-1)), Z.mod_small; lia. }
  destruct E as [->|[-> H]].
  - rewrite (proj2 (Z.ltb_ge _ _)), Z.add_0_r by lia.
    pose proof (Z.div_mod hi (2 ^ 32)). replace (hi mod 2 ^ 32) with (hi - 2 ^ 32 * (hi / 2 ^ 32)) by lia.
    rewrite <- (Z_mod_plus_full _ (hi / 2 ^ 32) (2 ^ 64)). f_equal. lia.
  - rewrite (proj2 (Z.ltb_lt _ _)) by lia.
    pose proof (Z.div_mod (hi + 1) (2 ^ 32)).
    replace ((hi + 1) mod 2 ^ 32) with (hi + 1 - 2 ^ 32 * ((hi + 1) / 2 ^ 32)) by lia.
    rewrite <- (Z_mod_plus_full _ ((hi + 1) / 2 ^ 32) (2 ^ 64)). f_equal. lia.
Qed.

Lemma tick_keeps_hi_lo c : timerhi (timer_tick c) = timerhi c /\ timerlo (timer_tick c) = timerlo c.
Proof. unfold timer_tick, board_hook. cbn. by destruct (board_timer_interrupt c). Qed.

Lemma loop_keeps_hi_lo counts : forall c count rest c',
  tick_loop counts c = Some (count, rest, c') -> timerhi c' = timerhi c /\ timerlo c' = timerlo c.
Proof.
  induction counts as [|x counts IH]; intros c count rest c'; [done|]. cbn [tick_loop].
  destruct (tick_keeps_hi_lo c) as [<- <-].
  destruct (_ <? _); [apply IH|by intros [= <- <- <-]].
Qed.

(** [timerhi] and [timerlo] together count the cycles: a handler adds the cycles since the
    reading before, when these are less than 2^32 and [jiffies] is not 0 behind it.  When
    it is, the two start from 0. *)
Theorem timer_counts_cycles counts c r rest c' t d :
  r4k_interval c <> 0 -> timerlo c = u32 t -> 0 <= d < 2 ^ 32 ->
  brcm_timer_interrupt counts c = Some (r, rest, c') ->
  (forall count c1, tick_loop counts c = Some (count, rest, c1) -> count = u32 (t + d)) ->
  if jiffies c' =? 0 then timerhi c' = 0 /\ timerlo c' = 0
  else timerlo c' = u32 (t + d) /\
    (timerhi c' * 2 ^ 32 + timerlo c') mod 2 ^ 64 = (timerhi c * 2 ^ 32 + timerlo c + d) mod 2 ^ 64.
Proof.
  intros Hi Hlo Hd. unfold brcm_timer_interrupt. rewrite (proj2 (Z.eqb_neq _ 0)) by done.
  destruct (tick_loop counts c) as [[[count rest1] c1]|] eqn:El; [|done]. cbn.
  destruct (loop_keeps_hi_lo _ _ _ _ _ El) as [Eh Elo]. intros [= <- <- <-] Hc.
  specialize (Hc _ _ eq_refl). destruct (jiffies c1 =? 0) eqn:Ej; cbn.
  - change (jiffies (set_hi_lo c1 0 0)) with (jiffies c1). by rewrite Ej.
  - match goal with |- context [jiffies ?x] => change (jiffies x) with (jiffies c1) end. rewrite Ej, Hc. split; [done|].
    rewrite Eh, Elo. assert (E : u32 (t + d) = u32 (timerlo c + d)) by (by rewrite Hlo, u32_add_l).
    rewrite E. apply hi_lo_extended; [rewrite Hlo; apply u32_range|done].
Qed.
