(* ===== verification/Prom.v ===== *)
(** * The start of the kernel on the board

    [brcm-boards/bcm963xx/prom.c]: the size of the memory, the speed of the CPU and the
    interval of the timer, which come from registers of the chip, and the command line of
    the kernel.  The registers are arguments.  A division by zero and a buffer that is too
    short are [None]. *)

From S2P Require Import Prelude BoardDefs Nvram Decimal Timer.

(** ** Memory *)

Definition MEMC_COL (chip : Chip) (memCfg : Z) : Z :=
  match chip with
  | BCM96338 | BCM96348 => Z.shiftr (Z.land memCfg (Z.shiftl 0x3 6)) 6
  | BCM96358 | BCM96368 => Z.shiftr (Z.land memCfg (Z.shiftl 0x7 3)) 3
  end.

Definition MEMC_ROW (chip : Chip) (memCfg : Z) : Z :=
  match chip with
  | BCM96338 | BCM96348 => Z.shiftr (Z.land memCfg (Z.shiftl 0x3 4)) 4
  | BCM96358 | BCM96368 => Z.shiftr (Z.land memCfg (Z.shiftl 0x3 6)) 6
  end.

Definition MEMC_WIDTH (chip : Chip) (memCfg : Z) : Z :=
  match chip with
  | BCM96338 | BCM96348 => Z.shiftr (Z.land memCfg (Z.shiftl 0x1 10)) 10
  | BCM96358 | BCM96368 => Z.shiftr (Z.land memCfg (Z.shiftl 0x1 1)) 1
  end.

Definition MEMC_32BIT_BUS (chip : Chip) : Z :=
  match chip with BCM96338 | BCM96348 => 1 | BCM96358 | BCM96368 => 0 end.

(** The shifts of an unsigned long. *)
Definition getMemorySize (chip : Chip) (memCfg : Z) : Z :=
  let size := 1 in
  let size := u32 (Z.shiftl size (MEMC_COL chip memCfg + 8)) in
  let size := u32 (Z.shiftl size (MEMC_ROW chip memCfg + 11)) in
  let size := if MEMC_WIDTH chip memCfg =? MEMC_32BIT_BUS chip then u32 (Z.shiftl size 2)
              else u32 (Z.shiftl size 1) in
  u32 (Z.shiftl size 2).

(** ** CPU speed *)

Record pll := mkPll { PllStrap : Z; MIPSDDRPLLConfig : Z; MIPSDDRPLLMDiv : Z }.

Definition divu (a b : Z) : option Z := if b =? 0 then None else Some (a / b).

(** A field of a register: [(v & (mask << shft)) >> shft], unsigned. *)
Definition field (v mask shft : Z) : Z := Z.shiftr (Z.land v (Z.shiftl mask shft)) shft.

Definition calculateCpuSpeed (chip : Chip) (p : pll) : option Z :=
  match chip with
  | BCM96338 => Some 240000000
  | BCM96348 =>
      let pllStrap := PllStrap p in
      let numerator := u32 (u32 (64000000 / 4 * (field pllStrap 7 20 + 1)) * (field pllStrap 0x1f 15 + 2)) in
      divu numerator (field pllStrap 7 6 + 1)
  | BCM96358 =>
      let pllConfig := MIPSDDRPLLConfig p in
      let numerator := u32 (u32 (64000000 / 4 * field pllConfig 0x7 29) * field pllConfig 0x3f 23) in
      divu numerator (field pllConfig 0xff 0)
  | BCM96368 =>
      let pllConfig := MIPSDDRPLLConfig p in
      let pllMDiv := MIPSDDRPLLMDiv p in
      q ← divu 64000000 (field pllConfig 0xf 0);
      let numerator := u32 (u32 (q * field pllConfig 0xf 4) * field pllConfig 0x1ff 16) in
      divu numerator (field pllMDiv 0xff 0)
  end.

Definition HZ_ticks : Z := 200.

(** [mips_hpt_frequency] and [r4k_interval]. *)
Definition timer_rates (chip : Chip) (p : pll) : option (Z * Z) :=
  speed ← calculateCpuSpeed chip p;
  let mips_hpt_frequency := speed / 2 in
  Some (mips_hpt_frequency, mips_hpt_frequency / HZ_ticks).

(** ** What the registers give *)

Lemma field_range v mask k s : mask = Z.ones k -> 0 <= k -> 0 <= s -> 0 <= field v mask s < 2 ^ k.
Proof.
  intros -> Hk Hs. unfold field. rewrite Z.shiftr_land, Z.shiftr_shiftl_l, Z.sub_diag, Z.shiftl_0_r, Z.land_ones by lia.
  apply Z.mod_pos_bound. lia.
Qed.

Lemma memc_ranges chip memCfg :
  0 <= MEMC_COL chip memCfg < 8 /\ (match chip with BCM96338 | BCM96348 => MEMC_COL chip memCfg < 4 | _ => True end) /\
  0 <= MEMC_ROW chip memCfg < 4.
Proof.
  pose proof (field_range memCfg 3 2 6 eq_refl). pose proof (field_range memCfg 7 3 3 eq_refl).
  pose proof (field_range memCfg 3 2 4 eq_refl). unfold field in *. destruct chip; cbn [MEMC_COL MEMC_ROW]; lia.
Qed.

(** The size is a power of two, from 2 MB on, and never more than 512 MB on the chips
    whose column field has two bits.  The field of the others has three: from 2^32 bytes
    on the shifts lose the only bit and the size is 0. *)
Lemma getMemorySize_pow2 chip memCfg :
  exists n, 22 <= n <= 33 /\ getMemorySize chip memCfg = u32 (2 ^ n) /\
    match chip with BCM96338 | BCM96348 => n <= 29 | _ => True end.
Proof.
  destruct (memc_ranges chip memCfg) as (Hc & Hc4 & Hr). unfold getMemorySize.
  set (col := MEMC_COL chip memCfg) in *. set (row := MEMC_ROW chip memCfg) in *.
  assert (Hsh : forall a k, 0 <= a -> 0 <= k -> u32 (Z.shiftl (u32 (2 ^ a)) k) = u32 (2 ^ (a + k))).
  { intros a k Ha Hk. unfold u32. rewrite Z.shiftl_mul_pow2, Zmult_mod_idemp_l, <- Z.pow_add_r by lia. done. }
  rewrite Z.shiftl_1_l, !Hsh by lia.
  exists (col + row + 21 + (if MEMC_WIDTH chip memCfg =? MEMC_32BIT_BUS chip then 2 else 1)).
  destruct (_ =? _); rewrite !Hsh by lia; (split; [lia|]); (split; [do 2 f_equal; lia|destruct chip; lia]).
Qed.

Definition pll_ok (chip : Chip) (p : pll) : Prop :=
  match chip with
  | BCM96338 | BCM96348 => True
  | BCM96358 =>
      0 < field (MIPSDDRPLLConfig p) 0x7 29 * field (MIPSDDRPLLConfig p) 0x3f 23 <= 268 /\
      0 < field (MIPSDDRPLLConfig p) 0xff 0
  | BCM96368 =>
      0 < field (MIPSDDRPLLConfig p) 0xf 4 * field (MIPSDDRPLLConfig p) 0x1ff 16 <= 67 /\
      0 < field (MIPSDDRPLLConfig p) 0xf 0 /\ 0 < field (MIPSDDRPLLMDiv p) 0xff 0
  end.

(** Reference clock, multiplier and divisor. *)
Definition pll_factors (chip : Chip) (p : pll) : Z * Z * Z :=
  match chip with
  | BCM96338 => (240000000, 1, 1)
  | BCM96348 => (16000000, (field (PllStrap p) 7 20 + 1) * (field (PllStrap p) 0x1f 15 + 2), field (PllStrap p) 7 6 + 1)
  | BCM96358 =>
      (16000000, field (MIPSDDRPLLConfig p) 0x7 29 * field (MIPSDDRPLLConfig p) 0x3f 23, field (MIPSDDRPLLConfig p) 0xff 0)
  | BCM96368 =>
      (64000000 / field (MIPSDDRPLLConfig p) 0xf 0,
       field (MIPSDDRPLLConfig p) 0xf 4 * field (MIPSDDRPLLConfig p) 0x1ff 16, field (MIPSDDRPLLMDiv p) 0xff 0)
  end.

Lemma product_exact q a b d :
  0 <= q -> 0 <= a -> 0 <= b -> q * (a * b) < 2 ^ 32 -> 0 < d ->
  divu (u32 (u32 (q * a) * b)) d = Some (q * (a * b) / d).
Proof.
  intros Hq Ha Hb Hm Hd. assert (E : u32 (u32 (q * a) * b) = q * (a * b)).
  { unfold u32. rewrite Zmult_mod_idemp_l, <- Z.mul_assoc, Z.mod_small by lia. done. }
  rewrite E. unfold divu. rewrite (proj2 (Z.eqb_neq d 0)) by lia. done.
Qed.

(** The speed is the product of the factors, without an overflow; for the last two chips
    under conditions on the fields, since their products can exceed 32 bits. *)
Lemma calculateCpuSpeed_spec chip p :
  pll_ok chip p ->
  let '(q, m, d) := pll_factors chip p in
  calculateCpuSpeed chip p = Some (q * m / d) /\ 0 < q * m < 2 ^ 32 /\ 0 < d <= 256 /\ 4000000 <= q /\ 0 < m.
Proof.
  intros Hok. destruct chip; cbn [pll_ok pll_factors calculateCpuSpeed] in *.
  - split; [done|]. lia.
  - pose proof (field_range (PllStrap p) 7 3 20 eq_refl). pose proof (field_range (PllStrap p) 0x1f 5 15 eq_refl).
    pose proof (field_range (PllStrap p) 7 3 6 eq_refl).
    set (a := field (PllStrap p) 7 20) in *. set (b := field (PllStrap p) 0x1f 15) in *. set (d := field (PllStrap p) 7 6) in *.
    change (64000000 / 4) with 16000000.
    assert (Hm : 2 <= (a + 1) * (b + 2) <= 264) by nia.
    split; [apply product_exact|]; lia.
  - pose proof (field_range (MIPSDDRPLLConfig p) 0xff 8 0 eq_refl). pose proof (field_range (MIPSDDRPLLConfig p) 0x7 3 29 eq_refl).
    pose proof (field_range (MIPSDDRPLLConfig p) 0x3f 6 23 eq_refl). change (64000000 / 4) with 16000000.
    split; [apply product_exact|]; lia.
  - pose proof (field_range (MIPSDDRPLLMDiv p) 0xff 8 0 eq_refl). pose proof (field_range (MIPSDDRPLLConfig p) 0xf 4 0 eq_refl).
    pose proof (field_range (MIPSDDRPLLConfig p) 0xf 4 4 eq_refl). pose proof (field_range (MIPSDDRPLLConfig p) 0x1ff 9 16 eq_refl).
    set (p1 := field (MIPSDDRPLLConfig p) 0xf 0) in *.
    assert (Hq : 4000000 <= 64000000 / p1 <= 64000000)
      by (split; [apply Z.div_le_lower_bound|apply Z.div_le_upper_bound]; lia).
    assert (divu 64000000 p1 = Some (64000000 / p1)) as -> by (unfold divu; rewrite (proj2 (Z.eqb_neq p1 0)); [done|lia]).
    cbn [mbind option_bind].
    set (q := 64000000 / p1) in *. set (m := _ * _) in *.
    assert (0 < q * m < 2 ^ 32) by (split; [lia|]; apply Z.le_lt_trans with (64000000 * 67); [apply Z.mul_le_mono_nonneg|]; lia).
    split; [apply product_exact|]; lia.
Qed.

(** The interval of the timer is one for which its theorem holds. *)
Theorem timer_rates_spec chip p :
  pll_ok chip p ->
  exists f iv, timer_rates chip p = Some (f, iv) /\ 0 < iv <= 2 ^ 31 /\ iv * 200 <= f < iv * 200 + 200.
Proof.
  intros Hok. pose proof (calculateCpuSpeed_spec chip p Hok) as H.
  destruct (pll_factors chip p) as [[q m] d]. destruct H as (E & Hqm & Hd & Hq & Hm).
  unfold timer_rates. rewrite E. cbn. do 2 eexists. split; [done|]. unfold HZ_ticks.
  set (s := q * m / d). assert (15625 <= s < 2 ^ 32).
  { split; [apply Z.div_le_lower_bound; nia|]. apply Z.div_lt_upper_bound; nia. }
  Z.to_euclidean_division_equations. lia.
Qed.

(** ** The command line *)

Definition HEXDIGIT (d : Z) : Z := if (48 <=? d) && (d <=? 57) then d - 48 else Z.lor d 0x20 - 87.

Definition HEXBYTE (b : list Z) (p : nat) : option Z :=
  x ← b !! p; y ← b !! S p; Some (Z.shiftl (HEXDIGIT (s8 x)) 4 + HEXDIGIT (s8 y)).

Definition print_u (n : Z) : list Z := print_lu (u32 n).

(** [bootline] and [mask] of [create_root_nfs_cmdline]; the two pointers into the line. *)
Record nfs := mkNfs { bootline : list Z; localip : option nat; hostip : option nat; nmask : list Z }.

(** The pointer to the next NUL or character that stops the loop. *)
Fixpoint scan_to (fuel : nat) (stop : Z -> bool) (l : list Z) (p : nat) : option nat :=
  match fuel with
  | O => None
  | S fuel' => c ← l !! p; if (c =? 0) || stop c then Some p else scan_to fuel' stop l (S p)
  end.

Definition netmask_text (l : list Z) (p : nat) : option (list Z) :=
  a ← HEXBYTE l p; b ← HEXBYTE l (p + 2); c ← HEXBYTE l (p + 4); d ← HEXBYTE l (p + 6);
  Some (print_u a ++ 46 :: print_u b ++ 46 :: print_u c ++ 46 :: print_u d).

(** Behind "e=" and behind "h=". *)
Definition nfs_local (s : nfs) (p : nat) : option (nfs * nat) :=
  let l := bootline s in
  q ← scan_to (length l) (fun c => (c =? 32) || (c =? 58)) l p;
  c ← l !! q;
  if c =? 58 then
    let l := <[q := 0]> l in
    text ← netmask_text l (S q);
    m ← mem_write (nmask s) 0 (text ++ [0]);
    Some (mkNfs l (Some p) (hostip s) m, S q + 4)%nat
  else if c =? 32 then Some (mkNfs (<[q := 0]> l) (Some p) (hostip s) (nmask s), S q)
  else Some (mkNfs l (Some p) (hostip s) (nmask s), q).

Definition nfs_host (s : nfs) (p : nat) : option (nfs * nat) :=
  let l := bootline s in
  q ← scan_to (length l) (fun c => c =? 32) l p;
  c ← l !! q;
  if c =? 32 then Some (mkNfs (<[q := 0]> l) (localip s) (Some p) (nmask s), S q)
  else Some (mkNfs l (localip s) (Some p) (nmask s), q).

(** [p[0] == c && p[1] == '=']. *)
Definition key_at (l : list Z) (p : nat) (c : Z) : option bool :=
  a ← l !! p; if a =? c then b ← l !! S p; Some (b =? 61) else Some false.

Fixpoint nfs_loop (fuel : nat) (s : nfs) (p : nat) : option nfs :=
  match fuel with
  | O => None
  | S fuel' =>
      c ← bootline s !! p;
      if c =? 0 then Some s
      else
        e ← key_at (bootline s) p 101;
        if (e : bool) then '(s, p) ← nfs_local s (p + 2); nfs_loop fuel' s p
        else
          h ← key_at (bootline s) p 104;
          if (h : bool) then '(s, p) ← nfs_host s (p + 2); nfs_loop fuel' s p
          else nfs_loop fuel' s (S p)
  end.

Definition string_at (l : list Z) (p : nat) : option (list Z) :=
  if nul_terminated (drop p l) then Some (cstr (drop p l)) else None.

(** [dir] is [CONFIG_ROOT_NFS_DIR], [szBootline] that of the NVRAM; [rounds] bounds the
    loop. *)
Definition nfs_cmdline (rounds : nat) (dir szBootline cmdline : list Z) : option (list Z) :=
  line ← mem_read szBootline 0 128;
  s ← nfs_loop rounds (mkNfs line None None (replicate 16 0)) 0;
  match localip s, hostip s with
  | Some lp, Some hp =>
      l ← string_at (bootline s) lp;
      h ← string_at (bootline s) hp;
      m ← string_at (nmask s) 0;
      mem_write cmdline 0
        (bytes_of_string "root=/dev/nfs nfsroot=" ++ h ++ bytes_of_string ":" ++ dir ++ bytes_of_string " ip=" ++ l ++
         bytes_of_string ":" ++ h ++ bytes_of_string "::" ++ m ++ bytes_of_string "::eth0:off rw" ++ [0])
  | _, _ => Some cmdline
  end.

(** A round goes at least one of 128 characters on. *)
Definition create_root_nfs_cmdline : list Z -> list Z -> list Z -> option (list Z) := nfs_cmdline 129.

Definition strcat (dst src : list Z) : option (list Z) :=
  if nul_terminated dst then mem_write dst (zlen (cstr dst)) (src ++ [0]) else None.

(** What [prom_init] sets, in the order of the code: the interrupt mask, the command line,
    the memory region (base and size), the frequency of the counter and the interval. *)
Record prom_state := mkProm {
  IrqMask : Z; arcs_cmdline : list Z; mem_regions : list (Z * Z); mips_hpt_frequency : Z; prom_interval : Z
}.

Definition ADSL_SDRAM_IMAGE_SIZE : Z := 384 * 1024.

Inductive root_config := RootNfs (dir : list Z) | RootFlashfs (options : list Z) | RootNone.

Definition prom_init (chip : Chip) (root : root_config) (cmdline szBootline : list Z) (memCfg : Z) (p : pll) (s : prom_state)
    : option prom_state :=
  line ← mem_write (arcs_cmdline s) 0 [0];
  line ← match root with
         | RootNfs dir => create_root_nfs_cmdline dir szBootline line
         | RootFlashfs options => mem_write line 0 (options ++ [0])
         | RootNone => Some line
         end;
  line ← strcat line [32];
  line ← strcat line cmdline;
  let size := u32 (getMemorySize chip memCfg - ADSL_SDRAM_IMAGE_SIZE) in
  '(f, iv) ← timer_rates chip p;
  Some (mkProm 0 line (mem_regions s ++ [(0, size)]) f iv).

(** The example of the comment. *)
Definition demo_bootline : list Z := char_array 256 "bcmEnet(0,0)host:vmlinux e=192.169.0.100:ffffff00 h=192.169.0.1".

Example nfs_comment :
  create_root_nfs_cmdline (bytes_of_string "/opt/targets/96345R/fs") demo_bootline (replicate 256 0)
  = Some (char_array 256 "root=/dev/nfs nfsroot=192.169.0.1:/opt/targets/96345R/fs ip=192.169.0.100:192.169.0.1::255.255.255.0::eth0:off rw").
Proof. vm_compute. reflexivity. Qed.

(** ** What the parser makes of a boot line *)

(** Text without NULs and without one of the two keys. *)
Fixpoint no_keys (l : list Z) : bool :=
  match l with
  | [] => true
  | a :: l' =>
      negb (a =? 0) && negb (((a =? 101) || (a =? 104)) && match l' with b :: _ => b =? 61 | [] => false end) && no_keys l'
  end.

Lemma lookup_off (before r : list Z) k : (before ++ r) !! (length before + k)%nat = r !! k.
Proof. rewrite lookup_app_r by lia. f_equal. lia. Qed.

Lemma lookup_off0 (before r : list Z) : (before ++ r) !! length before = r !! 0%nat.
Proof. rewrite <- (Nat.add_0_r (length before)) at 1. apply lookup_off. Qed.

Lemma key_absent before a r c :
  (a = c -> exists b r', r = b :: r' /\ b <> 61) -> key_at (before ++ a :: r) (length before) c = Some false.
Proof.
  intros H. unfold key_at. rewrite lookup_off0. cbn [lookup list_lookup mbind option_bind].
  destruct (Z.eqb_spec a c) as [->|]; [|done]. destruct (H eq_refl) as (b & r' & -> & Hb).
  replace (S (length before)) with (length before + 1)%nat by lia. rewrite lookup_off. cbn.
  by rewrite (proj2 (Z.eqb_neq b 61) Hb).
Qed.

Lemma nfs_skip l : forall before fuel s rest c,
  bootline s = before ++ l ++ c :: rest -> no_keys l = true -> c <> 61 ->
  nfs_loop (length l + fuel) s (length before) = nfs_loop fuel s (length (before ++ l)).
Proof.
  induction l as [|a l IH]; intros before fuel s rest c Hb Hk Hc; [by rewrite app_nil_r|].
  cbn [no_keys] in Hk. apply andb_true_iff in Hk as [[Ha Hp]%andb_true_iff Hk]. apply negb_true_iff in Ha, Hp.
  cbn [length Nat.add nfs_loop]. rewrite Hb. cbn [app]. rewrite lookup_off0. cbn [lookup list_lookup mbind option_bind].
  rewrite Ha.
  assert (Hn : (a =? 101) || (a =? 104) = true -> exists b r', l ++ c :: rest = b :: r' /\ b <> 61).
  { intros E. rewrite E in Hp. destruct l as [|b l]; [by exists c, rest|]. exists b, (l ++ c :: rest).
    split; [done|]. cbn [andb] in Hp. by apply Z.eqb_neq. }
  rewrite key_absent by (intros ->; by apply Hn). rewrite key_absent by (intros ->; by apply Hn).
  cbn [mbind option_bind].
  replace (S (length before)) with (length (before ++ [a])) by (rewrite length_app; cbn; lia).
  rewrite (IH (before ++ [a]) fuel s rest c); [by rewrite <- app_assoc| |done|done].
  rewrite Hb. by rewrite <- app_assoc.
Qed.

Lemma scan_word stop w : forall fuel before c rest,
  Forall (fun x => x <> 0 /\ stop x = false) w -> (c = 0 \/ stop c = true) -> (length w < fuel)%nat ->
  scan_to fuel stop (before ++ w ++ c :: rest) (length before) = Some (length (before ++ w)).
Proof.
  induction w as [|x w IH]; intros fuel before c rest Hw Hc Hf; (destruct fuel as [|fuel]; [lia|]); cbn [scan_to app].
  - rewrite lookup_off0. cbn. rewrite app_nil_r. destruct Hc as [->| ->]; [done|by rewrite orb_true_r].
  - rewrite lookup_off0. cbn [lookup list_lookup mbind option_bind]. apply Forall_cons_1 in Hw as [[Hx Hs] Hw].
    rewrite (proj2 (Z.eqb_neq x 0) Hx), Hs. cbn [orb length] in *.
    replace (S (length before)) with (length (before ++ [x])) by (rewrite length_app; cbn; lia).
    replace (before ++ x :: w ++ c :: rest) with ((before ++ [x]) ++ w ++ c :: rest) by (by rewrite <- app_assoc).
    rewrite IH by (done || lia). by rewrite <- app_assoc.
Qed.

Lemma hexbyte_octet before b rest k :
  is_u8 b -> length before = k -> HEXBYTE (before ++ hex_digits b ++ rest) k = Some b.
Proof.
  intros Hb <-. unfold HEXBYTE. rewrite lookup_off0. replace (S (length before)) with (length before + 1)%nat by lia.
  rewrite lookup_off. cbn [hex_digits app lookup list_lookup mbind option_bind].
  apply (octets_all (fun b => Z.shiftl (HEXDIGIT (s8 (hex_digit (b / 16)))) 4 + HEXDIGIT (s8 (hex_digit (b mod 16))) =? b)) in Hb;
    [|by vm_compute]. by apply Z.eqb_eq in Hb as ->.
Qed.

Definition dotted (a b c d : Z) : list Z := print_lu a ++ 46 :: print_lu b ++ 46 :: print_lu c ++ 46 :: print_lu d.

Lemma print_u_octet b : is_u8 b -> print_u b = print_lu b /\ (length (print_lu b) <= 3)%nat /\ Forall (fun c => c <> 0) (print_lu b).
Proof.
  intros Hb. split; [unfold print_u; by rewrite u32_id by (unfold is_u8, is_u32 in *; lia)|].
  apply (octets_all (fun b => (length (print_lu b) <=? 3)%nat && forallb (fun c => negb (c =? 0)) (print_lu b))) in Hb;
    [|by vm_compute]. apply andb_true_iff in Hb as [H1%Nat.leb_le H2]. split; [done|].
  apply Forall_forall. intros c Hc. rewrite forallb_forall in H2. apply list_elem_of_In in Hc.
  apply H2, negb_true_iff, Z.eqb_neq in Hc. done.
Qed.

Definition plain_until (stop : Z -> bool) (w : list Z) : Prop := Forall (fun x => x <> 0 /\ stop x = false) w.

Lemma insert_at (before r : list Z) x y : <[length before := y]> (before ++ x :: r) = before ++ y :: r.
Proof. rewrite insert_app_r_alt, Nat.sub_diag by lia. done. Qed.

Lemma nfs_local_spec before ip a b c d rest h :
  Forall is_u8 [a; b; c; d] -> plain_until (fun x => (x =? 32) || (x =? 58)) ip ->
  nfs_local (mkNfs (before ++ ip ++ 58 :: hex_digits a ++ hex_digits b ++ hex_digits c ++ hex_digits d ++ rest) None h (replicate 16 0))
    (length before)
  = Some (mkNfs (before ++ ip ++ 0 :: hex_digits a ++ hex_digits b ++ hex_digits c ++ hex_digits d ++ rest)
            (Some (length before)) h (splice 0 (dotted a b c d ++ [0]) (replicate 16 0)),
          length (before ++ ip ++ 0 :: hex_digits a ++ hex_digits b)).
Proof.
  intros Ho Hip. unfold nfs_local. cbn [bootline nmask localip hostip].
  repeat match goal with H : Forall is_u8 (_ :: _) |- _ => apply Forall_cons_1 in H as [? ?] end.
  rewrite scan_word; [|done|by right|rewrite !length_app; cbn; lia]. cbn [mbind option_bind].
  set (hex := hex_digits a ++ hex_digits b ++ hex_digits c ++ hex_digits d ++ rest).
  assert (El : (before ++ ip ++ 58 :: hex) !! length (before ++ ip) = Some 58) by (rewrite app_assoc, lookup_off0; done).
  rewrite El. cbn [mbind option_bind]. change (58 =? 58) with true. cbv iota.
  rewrite app_assoc, insert_at, <- app_assoc.
  set (base := before ++ ip ++ [0]).
  assert (Eb : before ++ ip ++ 0 :: hex = base ++ hex) by (subst base; by rewrite <- !app_assoc).
  assert (Lb : S (length (before ++ ip)) = length base) by (subst base; rewrite !length_app; cbn; lia).
  assert (Hh : forall x, length (hex_digits x) = 2%nat) by done.
  assert (Em : netmask_text (base ++ hex) (length base) = Some (dotted a b c d)).
  { assert (E1 : HEXBYTE (base ++ hex) (length base) = Some a) by (by apply hexbyte_octet).
    assert (E2 : HEXBYTE (base ++ hex) (length base + 2) = Some b)
      by (subst hex; rewrite (app_assoc base); apply hexbyte_octet; [done|rewrite ?length_app, ?Hh; lia]).
    assert (E3 : HEXBYTE (base ++ hex) (length base + 4) = Some c)
      by (subst hex; rewrite 2!app_assoc; apply hexbyte_octet; [done|rewrite ?length_app, ?Hh; lia]).
    assert (E4 : HEXBYTE (base ++ hex) (length base + 6) = Some d)
      by (subst hex; rewrite 3!app_assoc; apply hexbyte_octet; [done|rewrite ?length_app, ?Hh; lia]).
    unfold netmask_text. rewrite E1, E2, E3, E4. cbn [mbind option_bind].
    assert (Hu : forall x, is_u8 x -> print_u x = print_lu x) by (intros; by apply print_u_octet).
    unfold dotted. by rewrite !Hu by done. }
  rewrite Eb, Lb, Em. cbn [mbind option_bind].
  assert (Hd : zlen (dotted a b c d) <= 15).
  { pose proof (print_u_octet a). pose proof (print_u_octet b). pose proof (print_u_octet c). pose proof (print_u_octet d).
    unfold dotted, zlen. repeat (rewrite ?length_app; cbn [length]). intuition lia. }
  rewrite mem_write_Some by (rewrite ?zlen_app, ?zlen_replicate; change (zlen [0]) with 1; pose proof (zlen_nonneg (dotted a b c d)); lia).
  cbn [mbind option_bind]. do 2 f_equal. subst base. repeat (rewrite ?length_app, ?Hh; cbn [length]). lia.
Qed.

Lemma nfs_host_spec before host rest l m :
  plain_until (fun x => x =? 32) host ->
  nfs_host (mkNfs (before ++ host ++ 32 :: rest) l None m) (length before)
  = Some (mkNfs (before ++ host ++ 0 :: rest) l (Some (length before)) m, length (before ++ host ++ [0])).
Proof.
  intros Hh. unfold nfs_host. cbn [bootline nmask localip hostip].
  rewrite scan_word; [|done|by right|rewrite !length_app; cbn; lia]. cbn [mbind option_bind].
  assert (El : (before ++ host ++ 32 :: rest) !! length (before ++ host) = Some 32) by (rewrite app_assoc, lookup_off0; done).
  rewrite El. cbn [mbind option_bind]. change (32 =? 32) with true. cbv iota. rewrite app_assoc, insert_at, <- app_assoc.
  do 2 f_equal. rewrite !length_app. cbn. lia.
Qed.

Lemma nfs_at_e fuel s before r :
  bootline s = before ++ [101; 61] ++ r ->
  nfs_loop (S fuel) s (length before)
  = ('(s, p) ← nfs_local s (length (before ++ [101; 61])); nfs_loop fuel s p).
Proof.
  intros Hb. cbn [nfs_loop]. rewrite Hb. unfold key_at. rewrite lookup_off0.
  cbn [app lookup list_lookup mbind option_bind]. change (101 =? 0) with false. change (101 =? 101) with true. cbv iota.
  replace (S (length before)) with (length before + 1)%nat by lia. rewrite lookup_off.
  cbn [lookup list_lookup mbind option_bind]. change (61 =? 61) with true. cbv iota.
  by replace (length before + 2)%nat with (length (before ++ [101; 61])) by (rewrite length_app; done).
Qed.

Lemma nfs_at_h fuel s before r :
  bootline s = before ++ [104; 61] ++ r ->
  nfs_loop (S fuel) s (length before)
  = ('(s, p) ← nfs_host s (length (before ++ [104; 61])); nfs_loop fuel s p).
Proof.
  intros Hb. cbn [nfs_loop]. rewrite Hb. unfold key_at. rewrite lookup_off0.
  cbn [app lookup list_lookup mbind option_bind]. change (104 =? 0) with false. change (104 =? 101) with false.
  change (104 =? 104) with true. cbv iota. cbn [mbind option_bind]. cbv iota.
  replace (S (length before)) with (length before + 1)%nat by lia. rewrite lookup_off.
  cbn [lookup list_lookup mbind option_bind]. change (61 =? 61) with true. cbv iota.
  by replace (length before + 2)%nat with (length (before ++ [104; 61])) by (rewrite length_app; done).
Qed.

Lemma nfs_at_end fuel s before r : bootline s = before ++ 0 :: r -> nfs_loop (S fuel) s (length before) = Some s.
Proof. intros Hb. cbn [nfs_loop]. rewrite Hb, lookup_off0. done. Qed.

Lemma string_at_word before w r : Forall (fun x => x <> 0) w -> string_at (before ++ w ++ 0 :: r) (length before) = Some w.
Proof.
  intros Hw. unfold string_at. rewrite drop_app_length.
  assert (E : nul_terminated (w ++ 0 :: r) = true).
  { unfold nul_terminated. rewrite existsb_app. cbn [existsb]. change (0 =? 0) with true. cbn [orb]. apply orb_true_r. }
  rewrite E. by rewrite cstr_app_nul.
Qed.

(** The line with the two strings cut out. *)
Lemma nfs_loop_spec pre ip a b c d mid host tail pad fuel :
  no_keys pre = true -> plain_until (fun x => (x =? 32) || (x =? 58)) ip -> Forall is_u8 [a; b; c; d] ->
  no_keys (hex_digits c ++ hex_digits d ++ mid) = true -> plain_until (fun x => x =? 32) host -> no_keys tail = true ->
  let hex := hex_digits a ++ hex_digits b ++ hex_digits c ++ hex_digits d in
  nfs_loop (length pre + S (length (hex_digits c ++ hex_digits d ++ mid) + S (length tail + S fuel)))
    (mkNfs (pre ++ [101; 61] ++ ip ++ 58 :: hex ++ mid ++ [104; 61] ++ host ++ 32 :: tail ++ 0 :: pad) None None (replicate 16 0)) 0
  = Some (mkNfs (pre ++ [101; 61] ++ ip ++ 0 :: hex ++ mid ++ [104; 61] ++ host ++ 0 :: tail ++ 0 :: pad)
            (Some (length (pre ++ [101; 61])))
            (Some (length (pre ++ [101; 61] ++ ip ++ 0 :: hex ++ mid ++ [104; 61])))
            (splice 0 (dotted a b c d ++ [0]) (replicate 16 0))).
Proof.
  intros Hpre Hip Ho Hmid Hhost Htail hex.
  rewrite (nfs_skip pre [] _ _ (61 :: ip ++ 58 :: hex ++ mid ++ [104; 61] ++ host ++ 32 :: tail ++ 0 :: pad) 101) by done.
  cbn [app]. rewrite (nfs_at_e _ _ pre (ip ++ 58 :: hex ++ mid ++ [104; 61] ++ host ++ 32 :: tail ++ 0 :: pad)) by done.
  cbn [app]. set (rest := mid ++ 104 :: 61 :: host ++ 32 :: tail ++ 0 :: pad).
  assert (El : pre ++ 101 :: 61 :: ip ++ 58 :: hex ++ rest
    = (pre ++ [101; 61]) ++ ip ++ 58 :: hex_digits a ++ hex_digits b ++ hex_digits c ++ hex_digits d ++ rest)
    by (subst hex; rewrite <- !app_assoc; done).
  rewrite El, nfs_local_spec by done. cbn [mbind option_bind]. clear El.
  set (b1 := (pre ++ [101; 61]) ++ ip ++ 0 :: hex_digits a ++ hex_digits b).
  set (skipped := hex_digits c ++ hex_digits d ++ mid).
  rewrite (nfs_skip skipped b1 _ _ (61 :: host ++ 32 :: tail ++ 0 :: pad) 104);
    [|cbn [bootline]; subst b1 skipped rest; rewrite <- !app_assoc; cbn [app]; rewrite <- !app_assoc; done|done|done].
  set (b2 := b1 ++ skipped).
  assert (Eb : (pre ++ [101; 61]) ++ ip ++ 0 :: hex_digits a ++ hex_digits b ++ hex_digits c ++ hex_digits d ++ rest
    = (b2 ++ [104; 61]) ++ host ++ 32 :: tail ++ 0 :: pad)
    by (subst b2 b1 skipped rest; repeat (rewrite <- ?app_assoc; cbn [app]); done).
  rewrite Eb, (nfs_at_h _ _ b2 (host ++ 32 :: tail ++ 0 :: pad)) by (cbn [bootline]; by rewrite <- app_assoc).
  rewrite nfs_host_spec by done. cbn [mbind option_bind].
  rewrite (nfs_skip tail _ _ _ pad 0); [|cbn [bootline]; repeat (rewrite <- ?app_assoc; cbn [app]); done|done|done].
  rewrite (nfs_at_end _ _ _ pad) by (cbn [bootline]; repeat (rewrite <- ?app_assoc; cbn [app]); done).
  subst b2 b1 skipped hex. f_equal. f_equal; [|do 2 f_equal]; repeat (rewrite <- ?app_assoc; cbn [app]); done.
Qed.

Lemma nfs_loop_fuel pre ip a b c d mid host tail pad fuel :
  no_keys pre = true -> plain_until (fun x => (x =? 32) || (x =? 58)) ip -> Forall is_u8 [a; b; c; d] ->
  no_keys (hex_digits c ++ hex_digits d ++ mid) = true -> plain_until (fun x => x =? 32) host -> no_keys tail = true ->
  (length pre + length (hex_digits c ++ hex_digits d ++ mid) + length tail + 3 <= fuel)%nat ->
  let hex := hex_digits a ++ hex_digits b ++ hex_digits c ++ hex_digits d in
  nfs_loop fuel
    (mkNfs (pre ++ [101; 61] ++ ip ++ 58 :: hex ++ mid ++ [104; 61] ++ host ++ 32 :: tail ++ 0 :: pad) None None (replicate 16 0)) 0
  = Some (mkNfs (pre ++ [101; 61] ++ ip ++ 0 :: hex ++ mid ++ [104; 61] ++ host ++ 0 :: tail ++ 0 :: pad)
            (Some (length (pre ++ [101; 61])))
            (Some (length (pre ++ [101; 61] ++ ip ++ 0 :: hex ++ mid ++ [104; 61])))
            (splice 0 (dotted a b c d ++ [0]) (replicate 16 0))).
Proof.
  intros H1 H2 H3 H4 H5 H6 Hf hex. set (n := length (hex_digits c ++ hex_digits d ++ mid)) in *.
  replace fuel with (length pre + S (n + S (length tail + S (fuel - 3 - length pre - n - length tail))))%nat by lia.
  by apply nfs_loop_spec.
Qed.

(** The result from those of the parts. *)
Lemma cmdline_from_loop rounds dir szBootline cmdline line s lp hp l h m :
  mem_read szBootline 0 128 = Some line -> nfs_loop rounds (mkNfs line None None (replicate 16 0)) 0 = Some s ->
  localip s = Some lp -> hostip s = Some hp ->
  string_at (bootline s) lp = Some l -> string_at (bootline s) hp = Some h -> string_at (nmask s) 0 = Some m ->
  nfs_cmdline rounds dir szBootline cmdline
  = mem_write cmdline 0 (bytes_of_string "root=/dev/nfs nfsroot=" ++ h ++ bytes_of_string ":" ++ dir
      ++ bytes_of_string " ip=" ++ l ++ bytes_of_string ":" ++ h ++ bytes_of_string "::" ++ m
      ++ bytes_of_string "::eth0:off rw" ++ [0]).
Proof.
  intros H1 H2 H3 H4 H5 H6 H7. unfold nfs_cmdline.
  rewrite H1. cbn [mbind option_bind]. rewrite H2. cbn [mbind option_bind].
  rewrite H3, H4, H5. cbn [mbind option_bind]. rewrite H6. cbn [mbind option_bind]. rewrite H7. reflexivity.
Qed.

(** The command line for a boot line as in the comment: text, "e=" with the address and
    the mask in hexadecimal, "h=" with the host. *)
Theorem nfs_cmdline_spec dir szBootline cmdline pre ip a b c d mid host tail pad :
  take 128 szBootline = pre ++ [101; 61] ++ ip ++ 58 :: (hex_digits a ++ hex_digits b ++ hex_digits c ++ hex_digits d)
    ++ mid ++ [104; 61] ++ host ++ 32 :: tail ++ 0 :: pad ->
  128 <= zlen szBootline ->
  no_keys pre = true -> plain_until (fun x => (x =? 32) || (x =? 58)) ip -> Forall is_u8 [a; b; c; d] ->
  no_keys (hex_digits c ++ hex_digits d ++ mid) = true -> plain_until (fun x => x =? 32) host -> no_keys tail = true ->
  create_root_nfs_cmdline dir szBootline cmdline
  = mem_write cmdline 0 (bytes_of_string "root=/dev/nfs nfsroot=" ++ host ++ bytes_of_string ":" ++ dir
      ++ bytes_of_string " ip=" ++ ip ++ bytes_of_string ":" ++ host ++ bytes_of_string "::" ++ dotted a b c d
      ++ bytes_of_string "::eth0:off rw" ++ [0]).
Proof.
  intros El Hl Hpre Hip Ho Hmid Hhost Htail.
  assert (Hlen : (length pre + length (hex_digits c ++ hex_digits d ++ mid) + length tail + 3 <= 129)%nat).
  { assert (E : length (take 128 szBootline) = 128%nat) by (rewrite length_take; unfold zlen in Hl; lia).
    rewrite El in E. repeat (rewrite ?length_app in E; cbn [length hex_digits] in E).
    repeat (rewrite ?length_app; cbn [length hex_digits]). lia. }
  assert (Hr : mem_read szBootline 0 128 = Some (take 128 szBootline)) by (rewrite mem_read_Some by lia; reflexivity).
  rewrite El in Hr.
  pose proof (nfs_loop_fuel pre ip a b c d mid host tail pad 129 Hpre Hip Ho Hmid Hhost Htail Hlen) as Hn. cbv zeta in Hn.
  assert (Hw : forall stop w, plain_until stop w -> Forall (fun x => x <> 0) w)
    by (intros stop w Hpw; eapply Forall_impl; [exact Hpw|by intros ? []]).
  unfold create_root_nfs_cmdline.
  eapply (cmdline_from_loop 129 dir szBootline cmdline _ _ _ _ ip host (dotted a b c d) Hr Hn eq_refl eq_refl); cbn [bootline nmask].
  - rewrite app_assoc. apply string_at_word. by eapply Hw.
  - set (hex := hex_digits a ++ hex_digits b ++ hex_digits c ++ hex_digits d).
    set (before := pre ++ [101; 61] ++ ip ++ 0 :: hex ++ mid ++ [104; 61]).
    assert (Eb : pre ++ [101; 61] ++ ip ++ 0 :: hex ++ mid ++ [104; 61] ++ host ++ 0 :: tail ++ 0 :: pad
      = before ++ host ++ 0 :: tail ++ 0 :: pad) by (subst before; repeat (rewrite <- ?app_assoc; cbn [app]); done).
    rewrite Eb. apply string_at_word. by eapply Hw.
  - unfold splice. cbn [Z.to_nat take]. rewrite <- app_assoc. apply (string_at_word [] (dotted a b c d)).
    assert (Hu : forall x, is_u8 x -> Forall (fun c => c <> 0) (print_lu x)) by (intros; by apply print_u_octet).
    repeat match goal with H : Forall is_u8 (_ :: _) |- _ => apply Forall_cons_1 in H as [? ?] end.
    unfold dotted. do 3 (apply Forall_app_2; [by apply Hu|]; apply Forall_cons_2; [done|]). by apply Hu.
Qed.

(** A mask that is not hexadecimal gives numbers of ten digits, and [sprintf] runs out of
    the 16 bytes of [mask]; a boot line of 128 characters or more has no NUL in the copy. *)
Example nfs_mask_overruns : create_root_nfs_cmdline [] (char_array 256 "e=1.2.3.4:---------- h=1.2.3.5 ") (replicate 256 0) = None.
Proof. vm_compute. reflexivity. Qed.

Example nfs_line_overruns : create_root_nfs_cmdline [] (replicate 255 65 ++ [0]) (replicate 256 0) = None.
Proof. vm_compute. reflexivity. Qed.

(** The multiplier of the 6358 can exceed 32 bits: 16 MHz * 7 * 63 / 20 is not 352 MHz but
    138 MHz. *)
Example speed_overflow :
  calculateCpuSpeed BCM96358 (mkPll 0 (Z.lor (Z.lor (Z.shiftl 7 29) (Z.shiftl 63 23)) 20) 0) = Some 138051635.
Proof. vm_compute. reflexivity. Qed.

(** A 6348 with 512 MHz: the counter has 256 MHz. *)
Example rates_6348 : timer_rates BCM96348 (mkPll (Z.lor (Z.shiftl 7 20) (Z.shiftl 2 15)) 0 0) = Some (256000000, 1280000).
Proof. vm_compute. reflexivity. Qed.

(** With the interval of [prom_init] the clock counts the intervals exactly. *)
Theorem board_clock chip p f iv c0 start c t :
  pll_ok chip p -> timer_rates chip p = Some (f, iv) -> r4k_interval c0 = iv -> 0 <= jiffies_64 c0 < 2 ^ 64 ->
  clock_run c0 start c t ->
  jiffies_64 c = (jiffies_64 c0 + (t - start) / iv) mod 2 ^ 64 /\ c0_compare c = u32 (next_tick iv start t).
Proof.
  intros Hp Hr Hi Hj Hrun. destruct (timer_rates_spec chip p Hp) as (f' & iv' & E & Hiv & _).
  rewrite Hr in E. injection E as <- <-. subst iv.
  destruct (clock_run_inv c0 start c t Hiv Hj Hrun) as (_ & (_ & _ & Hc) & Hjc). done.
Qed.
