(* ===== verification/HwInit.v ===== *)
(** * The hardware at the start of the kernel

    [brcm-boards/bcm963xx/setup.c]: the detection of a PC card, the PCI bridge and the
    functions of the pins.  The registers are a function from their names to what was
    written last; [rd] says what a read of a register gives when that value was written,
    and is an argument.  The time the code waits and what it prints about the card are part
    of the state.  [CONFIG_PCI] and [CONFIG_USB] are arguments. *)

From stdpp Require Import gmap.
From S2P Require Import Prelude BoardDefs BoardParms Prom.

Inductive reg :=
  | Cs_base (n : Z) | Cs_config (n : Z) | Pcmcia_cntl1 | Pcmcia_cntl2
  | Sp0range | Sp0remap | Sp1range | Sp1remap
  | L2pmrange1 | L2pmbase1 | L2pmremap1 | L2pmrange2 | L2pmbase2 | L2pmremap2
  | L2piorange | L2piobase | L2pioremap | Pcimodesel | Locbuscntrl | Locintstat
  | Pcicfgcntrl | Pcicfg (n : Z)
  | BlkEnables | BlockSoftReset | Pll_control | Wan_data_led
  | GPIOMode | GPIODir | GPIODir_high
  | Usbh | SwapControl | TestPortControl | Usbh_setup.

#[export] Instance reg_eq_dec : EqDecision reg.
Proof. solve_decision. Defined.

(** What the detection prints. *)
Inductive report := NoCardIn | Partial_no_CD2 | Partial_no_CD1 | UnknownCard | Pcmcia_card (v : string) | Cardbus_card (v : string).

#[export] Instance report_eq_dec : EqDecision report.
Proof. solve_decision. Defined.

Inductive CardType := MPI_CARDTYPE_NONE | MPI_CARDTYPE_PCMCIA | MPI_CARDTYPE_CARDBUS.

#[export] Instance CardType_eq_dec : EqDecision CardType.
Proof. solve_decision. Defined.

Record hw := mkHw {
  written : reg -> Z;
  waited : Z;
  printed : list report;
  ioport_start : Z;
  ioport_end : Z
}.

Definition wr (r : reg) (v : Z) (s : hw) : hw :=
  mkHw (fun r' => if decide (r' = r) then v else written s r') (waited s) (printed s) (ioport_start s) (ioport_end s).
Definition mdelay (ms : Z) (s : hw) : hw :=
  mkHw (written s) (waited s + ms) (printed s) (ioport_start s) (ioport_end s).
Definition say (m : report) (s : hw) : hw :=
  mkHw (written s) (waited s) (printed s ++ [m]) (ioport_start s) (ioport_end s).

(** [v & ~m] and [~v] of 32 bits. *)
Definition clr (v m : Z) : Z := Z.land v (Z.lxor 0xFFFFFFFF m).
Definition not32 (v : Z) : Z := Z.lxor 0xFFFFFFFF v.

Definition PCCARD_CARD_RESET : Z := 0x00040000.
Definition CARDBUS_ENABLE : Z := 0x00008000.
Definition PCMCIA_ENABLE : Z := 0x00004000.
Definition PCMCIA_GPIO_ENABLE : Z := 0x00002000.
Definition CARDBUS_IDSEL : Z := 0x00001F00.
Definition VS2_OEN : Z := 0x00000080.
Definition VS1_OEN : Z := 0x00000040.
Definition VS2_IN : Z := 0x00000008.
Definition VS1_IN : Z := 0x00000004.
Definition CD2_IN : Z := 0x00000002.
Definition CD1_IN : Z := 0x00000001.
Definition CARDBUS_MEM : Z := 0x00000004.
Definition MEM_WINDOW_EN : Z := 0x00000001.
Definition CARDBUS_SLOT : Z := 0.
Definition EBI_SIZE_64K : Z := 3.
Definition EBI_SIZE_1M : Z := 7.
Definition EBI_ENABLE : Z := 0x00000001.
Definition EBI_WORD_WIDE : Z := 0x00000010.
Definition PCMCIA_COMMON_BASE : Z := 4.
Definition PCMCIA_ATTRIBUTE_BASE : Z := 5.
Definition PCMCIA_IO_BASE : Z := 6.
Definition BCM_PCI_MEM_BASE : Z := 0x11000000.
Definition BCM_CB_MEM_BASE : Z := 0x12000000.
Definition BCM_PCI_IO_BASE : Z := 0x13000000.
Definition BCM_PCI_ADDR_MASK : Z := 0x1fffffff.
Definition BCM_PCI_MEM_SIZE_16MB : Z := 0x01000000.
Definition BCM_PCI_IO_SIZE_64KB : Z := 0x00010000.
Definition BCM_HOST_MEM_SPACE1 : Z := 0x10000000.
Definition BCM_HOST_MEM_SPACE2 : Z := 0x00000000.
Definition pcmciaBase : Z := 0xbf000000.
Definition pcmciaAttr : Z := Z.lor 0x00200000 pcmciaBase.
Definition pcmciaMem : Z := Z.lor 0x00000000 pcmciaBase.
Definition pcmciaIo : Z := Z.lor (BCM_PCI_IO_BASE + 0x80000) pcmciaBase.

Section Setup.
Context (rd : reg -> Z -> Z).

Definition reg_read (r : reg) (s : hw) : Z := rd r (written s r).
Definition reg_set (r : reg) (m : Z) (s : hw) : hw := wr r (Z.lor (reg_read r s) m) s.
Definition reg_clear (r : reg) (m : Z) (s : hw) : hw := wr r (clr (reg_read r s) m) s.

(** ** The PCI configuration registers of the bridge *)

Definition mpi_SetLocalPciConfigReg (reg value : Z) (s : hw) : hw :=
  wr (Pcicfg reg) value (wr Pcicfgcntrl (0x80 + reg) s).

Definition mpi_GetLocalPciConfigReg (reg : Z) (s : hw) : Z * hw :=
  let s := wr Pcicfgcntrl (0x80 + reg) s in (reg_read (Pcicfg reg) s, s).

(** ** PC card *)

Definition mpi_ResetPcCard (cardtype : CardType) (bReset : bool) (s : hw) : hw :=
  if decide (cardtype = MPI_CARDTYPE_NONE) then s
  else
    let bReset := if decide (cardtype = MPI_CARDTYPE_CARDBUS) then negb bReset else bReset in
    if bReset then reg_clear Pcmcia_cntl1 PCCARD_CARD_RESET s else reg_set Pcmcia_cntl1 PCCARD_CARD_RESET s.

Definition mpi_ConfigCs (cs base size flags : Z) (s : hw) : hw :=
  wr (Cs_config cs) flags (wr (Cs_base cs) (Z.lor (Z.land base 0x1FFFFFFF) size) s).

Definition mpi_InitPcmciaSpace (s : hw) : hw :=
  let s := mpi_ConfigCs PCMCIA_COMMON_BASE pcmciaMem EBI_SIZE_1M (Z.lor EBI_WORD_WIDE EBI_ENABLE) s in
  let s := mpi_ConfigCs PCMCIA_ATTRIBUTE_BASE pcmciaAttr EBI_SIZE_1M (Z.lor EBI_WORD_WIDE EBI_ENABLE) s in
  let s := mpi_ConfigCs PCMCIA_IO_BASE pcmciaIo EBI_SIZE_64K (Z.lor EBI_WORD_WIDE EBI_ENABLE) s in
  let s := wr Pcmcia_cntl2 (Z.lor (Z.lor (Z.lor (Z.shiftl 10 2) (Z.shiftl 6 8)) (Z.shiftl 3 16)) (Z.shiftl 3 24)) s in
  reg_set Pcmcia_cntl2 (Z.lor 0x1 0x2) s.

Definition vcc_drive (v : Z) (s : hw) : hw := wr Pcmcia_cntl1 (Z.lor (Z.lor CARDBUS_ENABLE PCMCIA_GPIO_ENABLE) v) s.

(** Drive one voltage sense pin to 0, float the other and read. *)
Definition vcc_probe (v : Z) (s : hw) : Z * hw :=
  let s := mdelay 1 (vcc_drive v s) in (reg_read Pcmcia_cntl1 s, s).

(** The switch on the card detect pins in each of the last three cases; [cd2] and [cd1]
    are what is done for [CD2_IN] and [CD1_IN], [v] is the 16-bit card without either. *)
Definition cd_switch (data32 : Z) (cd2 cd1 : hw -> CardType * hw) (v : string) (s : hw) : CardType * hw :=
  let cd := Z.land data32 (Z.lor CD2_IN CD1_IN) in
  if cd =? Z.lor CD2_IN CD1_IN then (MPI_CARDTYPE_NONE, say UnknownCard s)
  else if cd =? CD2_IN then cd2 s
  else if cd =? CD1_IN then cd1 s
  else if cd =? 0 then (MPI_CARDTYPE_PCMCIA, say (Pcmcia_card v) s)
  else (MPI_CARDTYPE_NONE, s).

Definition unknown_card (s : hw) : CardType * hw := (MPI_CARDTYPE_NONE, say UnknownCard s).

Definition cardtype_vcc_detect (s : hw) : CardType * hw :=
  let s := wr Pcmcia_cntl1 (Z.lor CARDBUS_ENABLE PCMCIA_GPIO_ENABLE) s in
  let data32 := reg_read Pcmcia_cntl1 s in
  let cd := Z.land data32 (Z.lor CD2_IN CD1_IN) in
  if cd =? Z.lor CD2_IN CD1_IN then (MPI_CARDTYPE_NONE, say NoCardIn s)
  else if cd =? CD2_IN then (MPI_CARDTYPE_NONE, say Partial_no_CD2 s)
  else if cd =? CD1_IN then (MPI_CARDTYPE_NONE, say Partial_no_CD1 s)
  else if cd =? 0 then
    let '(data32, s) := vcc_probe (Z.lor VS2_OEN VS1_OEN) s in
    let vs := Z.land data32 (Z.lor VS2_IN VS1_IN) in
    if vs =? 0 then (MPI_CARDTYPE_PCMCIA, say (Pcmcia_card "3.3 & x.x") s)
    else if vs =? VS1_IN then
      cd_switch data32
        (fun s =>
          let '(data32, s) := vcc_probe VS2_OEN s in
          if negb (Z.land data32 CD2_IN =? 0) then unknown_card s
          else (MPI_CARDTYPE_CARDBUS, say (Cardbus_card "3.3, x.x and y.y") s))
        unknown_card "x.x vdc" s
    else if vs =? VS2_IN then
      cd_switch data32
        (fun s =>
          let '(data32, s) := vcc_probe VS1_OEN s in
          if negb (Z.land data32 CD2_IN =? 0) then unknown_card s
          else (MPI_CARDTYPE_CARDBUS, say (Cardbus_card "3.3 and x.x") s))
        unknown_card "3.3 vdc" s
    else if vs =? Z.lor VS2_IN VS1_IN then
      cd_switch data32
        (fun s =>
          let '(data32, s) := vcc_probe VS1_OEN s in
          (MPI_CARDTYPE_CARDBUS,
           say (Cardbus_card (if negb (Z.land data32 CD2_IN =? 0) then "y.y vdc" else "x.x vdc")) s))
        (fun s =>
          let '(data32, s) := vcc_probe VS1_OEN s in
          (MPI_CARDTYPE_CARDBUS,
           say (Cardbus_card (if negb (Z.land data32 CD1_IN =? 0) then "3.3 vdc" else "x.x and y.y")) s))
        "5 vdc" s
    else (MPI_CARDTYPE_NONE, say UnknownCard s)
  else (MPI_CARDTYPE_NONE, s).

(** Reset for 10 ms, then 100 ms for the card. *)
Definition card_reset (cardtype : CardType) (s : hw) : hw :=
  mdelay 100 (mpi_ResetPcCard cardtype true (mdelay 10 (mpi_ResetPcCard cardtype false s))).

Definition mpi_DetectPcCard (s : hw) : CardType * hw :=
  let '(cardtype, s) := cardtype_vcc_detect s in
  match cardtype with
  | MPI_CARDTYPE_PCMCIA =>
      let s := reg_clear Pcmcia_cntl1 (Z.lor (Z.lor CARDBUS_ENABLE PCMCIA_ENABLE) PCMCIA_GPIO_ENABLE) s in
      let s := reg_set Pcmcia_cntl1 (Z.lor PCMCIA_ENABLE PCMCIA_GPIO_ENABLE) s in
      (cardtype, card_reset cardtype (mpi_InitPcmciaSpace s))
  | MPI_CARDTYPE_CARDBUS =>
      let v := Z.land (reg_read Pcmcia_cntl1 s) 0xFFFF0000 in
      let v := Z.lor (Z.lor (Z.lor (Z.lor (Z.lor v CARDBUS_ENABLE) (Z.shiftl CARDBUS_SLOT 8)) VS2_OEN) VS1_OEN) PCMCIA_GPIO_ENABLE in
      let s := reg_set L2pmremap1 CARDBUS_MEM (wr Pcmcia_cntl1 v s) in
      (cardtype, card_reset cardtype s)
  | MPI_CARDTYPE_NONE => (cardtype, s)
  end.

End Setup.

(** ** The table of the card's connections

    The comment in front of [cardtype_vcc_detect] says how the card wires the card detect
    and the voltage sense pins of the slot.  A pin is driven by the host while its output
    enable bit is 0; a pin that nobody drives is pulled up. *)

Inductive cd_wire := CdGnd | CdOpen | CdVs1 | CdVs2.
Inductive vs_wire := VsGnd | VsOpen.

#[export] Instance cd_wire_eq_dec : EqDecision cd_wire.
Proof. solve_decision. Defined.
#[export] Instance vs_wire_eq_dec : EqDecision vs_wire.
Proof. solve_decision. Defined.

Record wiring := mkWiring { w_cd1 : cd_wire; w_cd2 : cd_wire; w_vs1 : vs_wire; w_vs2 : vs_wire }.

#[export] Instance wiring_eq_dec : EqDecision wiring.
Proof. solve_decision. Defined.

Definition vs_level (w : vs_wire) (v oen out : Z) : bool :=
  match w with
  | VsGnd => false
  | VsOpen => if Z.land v oen =? 0 then negb (Z.land v out =? 0) else true
  end.

Definition cd_level (w : cd_wire) (vs1 vs2 : bool) : bool :=
  match w with CdGnd => false | CdOpen => true | CdVs1 => vs1 | CdVs2 => vs2 end.

(** The input bits when [v] is in the register. *)
Definition slot_inputs (w : wiring) (v : Z) : Z :=
  let vs1 := vs_level (w_vs1 w) v VS1_OEN 0x10 in
  let vs2 := vs_level (w_vs2 w) v VS2_OEN 0x20 in
  Z.lor (Z.lor (if cd_level (w_cd1 w) vs1 vs2 then CD1_IN else 0) (if cd_level (w_cd2 w) vs1 vs2 then CD2_IN else 0))
    (Z.lor (if vs1 then VS1_IN else 0) (if vs2 then VS2_IN else 0)).

(** The rows of the comment; a voltage sense pin that is tied to a card detect pin is not
    grounded. *)
Definition card_table : list (wiring * report) := [
  (mkWiring CdGnd CdGnd VsOpen VsOpen, Pcmcia_card "5 vdc");
  (mkWiring CdGnd CdGnd VsGnd VsOpen, Pcmcia_card "3.3 vdc");
  (mkWiring CdGnd CdGnd VsOpen VsGnd, Pcmcia_card "x.x vdc");
  (mkWiring CdGnd CdGnd VsGnd VsGnd, Pcmcia_card "3.3 & x.x");
  (mkWiring CdVs1 CdGnd VsOpen VsOpen, Cardbus_card "3.3 vdc");
  (mkWiring CdGnd CdVs2 VsOpen VsOpen, Cardbus_card "x.x vdc");
  (mkWiring CdGnd CdVs1 VsOpen VsOpen, Cardbus_card "y.y vdc");
  (mkWiring CdGnd CdVs2 VsGnd VsOpen, Cardbus_card "3.3 and x.x");
  (mkWiring CdVs2 CdGnd VsOpen VsOpen, Cardbus_card "x.x and y.y");
  (mkWiring CdGnd CdVs1 VsOpen VsOpen, Cardbus_card "3.3, x.x and y.y")].

(** A card detect pin on a grounded voltage sense pin is grounded. *)
Definition cd_norm (c : cd_wire) (vs1 vs2 : vs_wire) : cd_wire :=
  match c, vs1, vs2 with
  | CdVs1, VsGnd, _ => CdGnd
  | CdVs2, _, VsGnd => CdGnd
  | _, _, _ => c
  end.

Definition normal (w : wiring) : wiring :=
  mkWiring (cd_norm (w_cd1 w) (w_vs1 w) (w_vs2 w)) (cd_norm (w_cd2 w) (w_vs1 w) (w_vs2 w)) (w_vs1 w) (w_vs2 w).

Fixpoint table_lookup (w : wiring) (t : list (wiring * report)) : option report :=
  match t with
  | [] => None
  | (w', r) :: t' => if decide (w = w') then Some r else table_lookup w t'
  end.

Definition type_of (r : report) : CardType :=
  match r with
  | Pcmcia_card _ => MPI_CARDTYPE_PCMCIA
  | Cardbus_card _ => MPI_CARDTYPE_CARDBUS
  | _ => MPI_CARDTYPE_NONE
  end.

(** The slot: the low bits of the control register show the pins. *)
Definition slot_reads (rd : reg -> Z -> Z) (w : wiring) : Prop :=
  forall v, Z.land (rd Pcmcia_cntl1 v) 0xf = slot_inputs w v.

Lemma slot_bits rd w v m :
  slot_reads rd w -> Z.land 0xf m = m -> Z.land (rd Pcmcia_cntl1 v) m = Z.land (slot_inputs w v) m.
Proof. intros H Hm. rewrite <- H, <- Z.land_assoc, Hm. done. Qed.

Lemma read_written rd r v s : reg_read rd r (wr r v s) = rd r v.
Proof. unfold reg_read, wr. cbn. by destruct (decide (r = r)). Qed.

Lemma probe_reads rd v s :
  vcc_probe rd v s = (rd Pcmcia_cntl1 (Z.lor (Z.lor CARDBUS_ENABLE PCMCIA_GPIO_ENABLE) v), mdelay 1 (vcc_drive v s)).
Proof. reflexivity. Qed.

(** C29: The detection of a PC card against the table in its comment: for every way in
    which a card can wire the four pins, the type it returns and the card it names are
    those of the first row of the table with that wiring, and a wiring without a row (no card,
    a card that is not inserted completely, a combination that is not valid) gives no card,
    with one exception.  The last row of the comment has the wiring of the "y.y" row, so that
    it never applies; the code finds the "3.3, x.x and y.y" card it names in the wiring with
    CVS2 grounded instead of open, which has no row.  An unknown card gives the value for no
    card, not a negative one, as the comment of the caller says. *)
Theorem card_detect_table rd w s :
  slot_reads rd w ->
  match table_lookup (normal w) card_table with
  | Some r => fst (cardtype_vcc_detect rd s) = type_of r /\
              printed (snd (cardtype_vcc_detect rd s)) = printed s ++ [r]
  | None =>
      if decide (normal w = mkWiring CdGnd CdVs1 VsOpen VsGnd) then
        fst (cardtype_vcc_detect rd s) = MPI_CARDTYPE_CARDBUS /\
        printed (snd (cardtype_vcc_detect rd s)) = printed s ++ [Cardbus_card "3.3, x.x and y.y"]
      else
        fst (cardtype_vcc_detect rd s) = MPI_CARDTYPE_NONE /\
        exists m, printed (snd (cardtype_vcc_detect rd s)) = printed s ++ [m] /\ type_of m = MPI_CARDTYPE_NONE
  end.
Proof.
  intros H. unfold cardtype_vcc_detect, cd_switch, unknown_card. rewrite read_written, !probe_reads.
  rewrite !(slot_bits rd w _ _ H) by reflexivity.
  destruct w as [[] [] [] []]; vm_compute; (split; [reflexivity|]); first [reflexivity|eexists; split; reflexivity].
Qed.

Lemma slot_inputs_reads w : slot_reads (fun _ v => slot_inputs w v) w.
Proof.
  intros v. unfold slot_inputs.
  generalize (vs_level (w_vs1 w) v VS1_OEN 0x10), (vs_level (w_vs2 w) v VS2_OEN 0x20). intros b1 b2.
  by destruct (cd_level (w_cd1 w) b1 b2), (cd_level (w_cd2 w) b1 b2), b1, b2.
Qed.

Definition demo_hw : hw := mkHw (fun _ => 0) 0 [] 0 0.

(** A CardBus card for 3.3 V, with its CCD1 pin on CVS1. *)
Lemma card_detect_table_witness :
  fst (cardtype_vcc_detect (fun _ v => slot_inputs (mkWiring CdVs1 CdGnd VsOpen VsOpen) v) demo_hw) = MPI_CARDTYPE_CARDBUS /\
  printed (snd (cardtype_vcc_detect (fun _ v => slot_inputs (mkWiring CdVs1 CdGnd VsOpen VsOpen) v) demo_hw))
    = [Cardbus_card "3.3 vdc"].
Proof.
  exact (card_detect_table (fun _ v => slot_inputs (mkWiring CdVs1 CdGnd VsOpen VsOpen) v)
    (mkWiring CdVs1 CdGnd VsOpen VsOpen) demo_hw (slot_inputs_reads _)).
Defined.

(** ** PCI bridge and pins *)

Section Init.
Context (rd : reg -> Z -> Z) (config_pci config_usb : bool) (RevID memCfg : Z).

Definition mpi_windows (s : hw) : hw :=
  let s := wr L2pmrange1 (not32 (BCM_PCI_MEM_SIZE_16MB - 1)) s in
  let s := wr L2pmbase1 (Z.land BCM_CB_MEM_BASE BCM_PCI_ADDR_MASK) s in
  let s := wr L2pmremap1 (Z.lor BCM_PCI_MEM_BASE MEM_WINDOW_EN) s in
  let s := wr L2pmrange2 (not32 (BCM_PCI_MEM_SIZE_16MB - 1)) s in
  let s := wr L2pmbase2 (Z.land BCM_PCI_MEM_BASE BCM_PCI_ADDR_MASK) s in
  let s := wr L2pmremap2 (Z.lor BCM_PCI_MEM_BASE MEM_WINDOW_EN) s in
  let s := wr L2piorange (not32 (BCM_PCI_IO_SIZE_64KB - 1)) s in
  let s := wr L2piobase (Z.land BCM_PCI_IO_BASE BCM_PCI_ADDR_MASK) s in
  wr L2pioremap (Z.lor BCM_PCI_IO_BASE MEM_WINDOW_EN) s.

(** [PCI_COMMAND] is 4, [PCI_BASE_ADDRESS_3] and [_4] are 0x1c and 0x20. *)
Definition mpi_init (chip : Chip) (s : hw) : hw :=
  let chipid := Z.shiftr (Z.land RevID 0xFFFF0000) 16 in
  let chiprev := Z.land RevID 0xFF in
  let sdramsize := getMemorySize chip memCfg in
  let is_6348 := match chip with BCM96348 => true | _ => false end in
  let s := wr Locbuscntrl (Z.lor 0x1 0x2) (mpi_windows s) in
  let '(data, s) := mpi_GetLocalPciConfigReg rd 0x04 s in
  let s := mpi_SetLocalPciConfigReg 0x04 (Z.lor data (Z.lor 0x2 0x4)) s in
  let s := mpi_SetLocalPciConfigReg 0x1c BCM_HOST_MEM_SPACE1 s in
  let s := wr Sp0remap (if is_6348 then 0 else MEM_WINDOW_EN) s in
  let s := mpi_SetLocalPciConfigReg 0x20 BCM_HOST_MEM_SPACE2 s in
  let s := wr Sp1remap (if is_6348 then 0 else MEM_WINDOW_EN) s in
  let modesel := clr (reg_read rd Pcimodesel s) 0x1F0 in
  let s := wr Pcimodesel (Z.lor modesel (if is_6348 then 0x80 else 0x100)) s in
  let s := if negb ((chipid =? 0x6348) && (Z.land chiprev 0xF0 =? 0xa0)) then
             wr Sp1range (not32 (u32 (sdramsize - 1))) (wr Sp0range (not32 (u32 (sdramsize - 1))) s)
           else s in
  let '(data, s) := mpi_GetLocalPciConfigReg rd 0x40 s in
  let s := mpi_SetLocalPciConfigReg 0x40 (Z.lor (clr data 0xFF00) 0x80) s in
  let s := reg_set rd Locintstat (Z.shiftl 0x80 16) s in
  mkHw (written s) (waited s) (printed s) BCM_PCI_IO_BASE (BCM_PCI_IO_BASE + BCM_PCI_IO_SIZE_64KB).

(** A board with PCI: the bridge, and the card slot or no CardBus. *)
Definition pci_slot (chip : Chip) (overlays : Z) (card_pins : hw -> hw) (s : hw) : hw :=
  let s := mpi_init chip s in
  if negb (Z.land overlays BP_CB =? 0) then snd (mpi_DetectPcCard rd (card_pins s))
  else reg_set rd Pcmcia_cntl1 CARDBUS_IDSEL s.

Definition when (b : bool) (f : hw -> hw) (s : hw) : hw := if b then f s else s.
Definition has_func (overlays m : Z) : bool := negb (Z.land overlays m =? 0).

Definition bcm6338_hw_init (s : hw) : hw :=
  let ledSave := reg_read rd Wan_data_led s in
  let s := mdelay 10 (reg_clear rd BlockSoftReset 0x80 s) in
  let s := mdelay 10 (reg_set rd BlockSoftReset 0x80 s) in
  let s := wr Wan_data_led ledSave s in
  reg_set rd BlkEnables 0x200 s.

(** The pins of the 6348; the errors it prints for UTOPIA with another function are not
    part of the state. *)
Definition gpio_6348 (ov : Z) (s : hw) : hw :=
  let s := when (has_func ov BP_UTOPIA)
    (fun s => reg_set rd BlkEnables 0x20 (reg_set rd GPIOMode (Z.lor (Z.lor 0x80000 0x8000) 0x80) s)) s in
  let s := when (has_func ov BP_MII2) (reg_set rd GPIOMode (Z.lor 0x7000 0x7)) s in
  when (has_func ov BP_SPI_EXT_CS) (reg_set rd GPIOMode 0x60) s.

Definition bcm6348_hw_init (bp : option BOARD_PARAMETERS) (s : hw) : hw :=
  let data := reg_read rd Pll_control s in
  let data := Z.lor (clr (Z.lor (clr data 0x18) 0x10) 0x2) 0x2 in
  let s := reg_set rd BlkEnables 0x200 (wr Pll_control data s) in
  let s := wr GPIOMode 0 s in
  let '(r, ov) := BpGetGPIOverlays bp in
  let s := when (r =? BP_SUCCESS)
    (fun s => when (config_pci && has_func ov BP_PCI)
      (fun s => pci_slot BCM96348 ov (fun s => s) (reg_set rd GPIOMode (Z.lor 0x500 0x40) s)) (gpio_6348 ov s)) s in
  when config_usb (fun s => wr Usbh 0x8 (mdelay 100 (reg_set rd BlkEnables 0x100 s))) s.

Definition gpio_6358 (ov : Z) (s : hw) : hw :=
  let s := when (has_func ov BP_LED) (fun s => reg_set rd GPIODir 0xf (reg_set rd GPIOMode (Z.shiftl 1 11) s)) s in
  let s := when (has_func ov BP_UTOPIA)
    (fun s => reg_set rd BlkEnables (Z.shiftl 1 11) (reg_set rd GPIOMode (Z.shiftl 1 12) s)) s in
  let s := when (has_func ov BP_UART1) (fun s => reg_set rd GPIODir 0x20000000 (reg_set rd GPIOMode (Z.shiftl 1 6) s)) s in
  when (has_func ov BP_SPI_EXT_CS) (fun s => reg_set rd GPIODir_high 0x3 (reg_set rd GPIOMode (Z.shiftl 1 7) s)) s.

Definition bcm6358_hw_init (bp : option BOARD_PARAMETERS) (s : hw) : hw :=
  let s := wr GPIOMode 0 (reg_set rd BlkEnables (Z.shiftl 1 9) s) in
  let s := reg_set rd GPIODir 0xc0 s in
  let '(r, ov) := BpGetGPIOverlays bp in
  let s := when (r =? BP_SUCCESS)
    (fun s => when (config_pci && has_func ov BP_PCI) (pci_slot BCM96358 ov (fun s => s)) (gpio_6358 ov s)) s in
  when config_usb (fun s => wr TestPortControl 0x001c0020 (wr SwapControl (Z.lor (Z.shiftl 1 4) (Z.shiftl 1 1)) s)) s.

Definition pci_pins_6368 : Z :=
  Z.lor (Z.lor (Z.lor (Z.lor (Z.shiftl 1 20) (Z.shiftl 1 19)) (Z.shiftl 1 18)) (Z.shiftl 1 17)) (Z.shiftl 1 16).
Definition card_pins_6368 : Z :=
  Z.lor (Z.lor (Z.lor (Z.shiftl 1 25) (Z.shiftl 1 24)) (Z.shiftl 1 23)) (Z.shiftl 1 22).

Definition bcm6368_hw_init (bp : option BOARD_PARAMETERS) (s : hw) : hw :=
  let s := wr GPIOMode 0 (reg_set rd BlkEnables (Z.shiftl 1 9) s) in
  let s := reg_set rd GPIODir 0xc0 (reg_set rd GPIOMode (Z.lor (Z.shiftl 1 4) (Z.shiftl 1 3)) s) in
  let '(r, ov) := BpGetGPIOverlays bp in
  let s := when ((r =? BP_SUCCESS) && (config_pci && has_func ov BP_PCI))
    (fun s => pci_slot BCM96368 ov (reg_set rd GPIOMode card_pins_6368) (reg_set rd GPIOMode pci_pins_6368 s)) s in
  when config_usb
    (fun s =>
      let s := mdelay 100 (reg_set rd BlkEnables (Z.shiftl 1 15) s) in
      let s := wr SwapControl (Z.lor (Z.shiftl 1 4) (Z.shiftl 1 1)) s in
      reg_set rd Usbh_setup (Z.shiftl 1 4) s) s.

Definition bcm63xx_specific_hw_init (chip : Chip) (bp : option BOARD_PARAMETERS) (s : hw) : hw :=
  match chip with
  | BCM96338 => bcm6338_hw_init s
  | BCM96348 => bcm6348_hw_init bp s
  | BCM96358 => bcm6358_hw_init bp s
  | BCM96368 => bcm6368_hw_init bp s
  end.

End Init.

(** ** What is set up *)

Lemma wr_same r v s : written (wr r v s) r = v.
Proof. cbn. by destruct (decide (r = r)). Qed.

Lemma wr_other r v s r' : r' <> r -> written (wr r v s) r' = written s r'.
Proof. intros H. cbn. by destruct (decide (r' = r)). Qed.

(** The two windows of the PCI bus to the memory: an offset from the base is in the window
    when it has_func none of the bits of the range register. *)
Lemma range_decodes n a :
  0 <= n < 32 -> is_u32 a -> (Z.land a (not32 (u32 (2 ^ n - 1))) = 0 <-> a < 2 ^ n).
Proof.
  intros Hn Ha. assert (Hp : 0 < 2 ^ n < 2 ^ 32) by (split; [lia|apply Z.pow_lt_mono_r; lia]).
  rewrite u32_id by (unfold is_u32; lia). replace (2 ^ n - 1) with (Z.ones n) by (rewrite Z.ones_equiv; lia).
  unfold not32. change 0xFFFFFFFF with (Z.ones 32).
  assert (E : Z.land a (Z.lxor (Z.ones 32) (Z.ones n)) = Z.ldiff a (Z.ones n)).
  { apply Z.bits_inj'. intros i Hi. rewrite Z.land_spec, Z.lxor_spec, Z.ldiff_spec.
    destruct (Z.lt_ge_cases i 32) as [H|H].
    - rewrite (Z.ones_spec_low 32) by lia. by destruct (Z.testbit a i), (Z.testbit (Z.ones n) i).
    - rewrite (Z.bits_above_log2 a i); [done|unfold is_u32 in Ha; lia|].
      destruct (Z.eq_dec a 0) as [->|Hz]; [cbn; lia|]. apply Z.log2_lt_pow2; [unfold is_u32 in Ha; lia|].
      apply Z.lt_le_trans with (2 ^ 32); [apply Ha|apply Z.pow_le_mono_r; lia]. }
  rewrite E, Z.ldiff_ones_r, Z.shiftl_mul_pow2, Z.shiftr_div_pow2 by lia.
  unfold is_u32 in Ha. split; intros H.
  - assert (a / 2 ^ n = 0) as H0 by nia. apply Z.div_small_iff in H0; lia.
  - rewrite Z.div_small by lia. lia.
Qed.

(** After [mpi_init] the windows for bus masters decode the memory, no address more and
    none less, unless the chip is a 6348 of revision A, where they are left alone. *)
Theorem mpi_init_dma rd RevID memCfg chip s a :
  0 < getMemorySize chip memCfg ->
  negb ((Z.shiftr (Z.land RevID 0xFFFF0000) 16 =? 0x6348) && (Z.land (Z.land RevID 0xFF) 0xF0 =? 0xa0)) = true ->
  is_u32 a ->
  (Z.land a (written (mpi_init rd RevID memCfg chip s) Sp0range) = 0 <-> a < getMemorySize chip memCfg) /\
  (Z.land a (written (mpi_init rd RevID memCfg chip s) Sp1range) = 0 <-> a < getMemorySize chip memCfg).
Proof.
  intros Hs Hrev Ha. destruct (getMemorySize_pow2 chip memCfg) as (n & Hn & E & _).
  assert (Hn32 : n < 32).
  { destruct (Z.lt_ge_cases n 32) as [H|H]; [done|]. rewrite E in Hs. unfold u32 in Hs.
    assert (n = 32 \/ n = 33) as [->| ->] by lia; vm_compute in Hs; done. }
  assert (E2 : getMemorySize chip memCfg = 2 ^ n).
  { rewrite E. apply u32_id. split; [lia|apply Z.pow_lt_mono_r; lia]. }
  assert (W : written (mpi_init rd RevID memCfg chip s) Sp0range = not32 (u32 (getMemorySize chip memCfg - 1)) /\
              written (mpi_init rd RevID memCfg chip s) Sp1range = not32 (u32 (getMemorySize chip memCfg - 1))).
  { unfold mpi_init. cbv zeta. rewrite Hrev. split; reflexivity. }
  destruct W as [-> ->]. rewrite E2. split; apply range_decodes; lia || done.
Qed.

(** ** The pins of the boards with a 6348 *)

Lemma detect_keeps_mode rd s : written (snd (mpi_DetectPcCard rd s)) GPIOMode = written s GPIOMode.
Proof.
  unfold mpi_DetectPcCard. assert (E : written (snd (cardtype_vcc_detect rd s)) GPIOMode = written s GPIOMode).
  { unfold cardtype_vcc_detect, cd_switch, unknown_card. rewrite !probe_reads.
    repeat match goal with |- context [if ?b then _ else _] => destruct b end; reflexivity. }
  destruct (cardtype_vcc_detect rd s) as [[] s1]; exact E.
Qed.

Lemma pci_slot_keeps_mode rd RevID memCfg chip ov s :
  written (pci_slot rd RevID memCfg chip ov (fun s => s) s) GPIOMode = written s GPIOMode.
Proof.
  unfold pci_slot. assert (E : written (mpi_init rd RevID memCfg chip s) GPIOMode = written s GPIOMode).
  { unfold mpi_init. cbv zeta. destruct (negb _); reflexivity. }
  destruct (negb _); [by rewrite detect_keeps_mode|exact E].
Qed.

(** The value the code gives [GPIOMode] for the functions [ov]. *)
Definition mode_6348 (pci : bool) (ov : Z) : Z :=
  let m := if has_func ov BP_UTOPIA then 0x88080 else 0 in
  let m := if has_func ov BP_MII2 then Z.lor m 0x7007 else m in
  let m := if has_func ov BP_SPI_EXT_CS then Z.lor m 0x60 else m in
  if pci && has_func ov BP_PCI then Z.lor m 0x540 else m.

Lemma hw_init_mode_6348 rd pci usb RevID memCfg bp s :
  (forall v, rd GPIOMode v = v) -> usGPIOOverlay bp <> BP_NOT_DEFINED ->
  written (bcm6348_hw_init rd pci usb RevID memCfg (Some bp) s) GPIOMode = mode_6348 pci (usGPIOOverlay bp).
Proof.
  intros Hrd Hov. unfold bcm6348_hw_init. cbn [BpGetGPIOverlays bp_get]. unfold BpGetGPIOverlays, bp_get.
  rewrite (proj2 (Z.eqb_neq _ _) Hov). cbn [negb]. cbv zeta. change (BP_SUCCESS =? BP_SUCCESS) with true. cbn [when].
  set (ov := usGPIOOverlay bp). set (s1 := wr GPIOMode 0 _).
  assert (Hs : forall m x, written (reg_set rd GPIOMode m x) GPIOMode = Z.lor (written x GPIOMode) m)
    by (intros; unfold reg_set, reg_read; by rewrite wr_same, Hrd).
  assert (Ho : forall r m x, r <> GPIOMode -> written (reg_set rd r m x) GPIOMode = written x GPIOMode)
    by (intros; unfold reg_set; by rewrite wr_other).
  assert (E : written (gpio_6348 rd ov s1) GPIOMode = mode_6348 false ov).
  { unfold gpio_6348, when, mode_6348. destruct (has_func ov BP_UTOPIA), (has_func ov BP_MII2), (has_func ov BP_SPI_EXT_CS);
      rewrite ?Hs, ?(Ho BlkEnables), ?Hs by done; subst s1; rewrite ?wr_same; reflexivity. }
  assert (E2 : written (when (pci && has_func ov BP_PCI) (fun s => pci_slot rd RevID memCfg BCM96348 ov (fun s => s)
      (reg_set rd GPIOMode (Z.lor 0x500 0x40) s)) (gpio_6348 rd ov s1)) GPIOMode = mode_6348 pci ov).
  { unfold when. unfold mode_6348 in *. destruct (pci && has_func ov BP_PCI); [|exact E].
    rewrite pci_slot_keeps_mode, Hs, E. done. }
  destruct usb; [|exact E2]. cbn [when]. rewrite wr_other by done. cbn [mdelay written]. rewrite Ho by done. exact E2.
Qed.

(** The codes of the header for the five groups of pins. *)
Definition groups_ok (m : Z) : bool :=
  forallb (fun '(k, codes) => existsb (Z.eqb (Z.land (Z.shiftr m (4 * k)) 0xf)) codes)
    [(0, [0; 7; 9]); (1, [0; 1; 2; 4; 6; 8; 9]); (2, [0; 5; 9]); (3, [0; 7; 8; 9]); (4, [0; 1; 2; 3; 8; 9])]
  && (Z.shiftr m 20 =? 0).

(** On every board of the table with a 6348, each group of pins gets a function the header
    defines, though the code only sets bits, and the two errors that the code prints for
    pins with two functions do not occur. *)
Theorem boards_6348_pins rd pci usb RevID memCfg bp s :
  bp ∈ g_BoardParms BCM96348 -> (forall v, rd GPIOMode v = v) -> usGPIOOverlay bp <> BP_NOT_DEFINED ->
  groups_ok (written (bcm6348_hw_init rd pci usb RevID memCfg (Some bp) s) GPIOMode) = true /\
  has_func (usGPIOOverlay bp) BP_UTOPIA && (has_func (usGPIOOverlay bp) BP_MII2 || has_func (usGPIOOverlay bp) BP_SPI_EXT_CS) = false.
Proof.
  intros Hbp Hrd Hov. rewrite hw_init_mode_6348 by done.
  assert (H : Forall (fun bp =>
    groups_ok (mode_6348 true (usGPIOOverlay bp)) && groups_ok (mode_6348 false (usGPIOOverlay bp)) &&
    negb (has_func (usGPIOOverlay bp) BP_UTOPIA && (has_func (usGPIOOverlay bp) BP_MII2 || has_func (usGPIOOverlay bp) BP_SPI_EXT_CS))
    || (usGPIOOverlay bp =? BP_NOT_DEFINED) = true) (g_BoardParms BCM96348)) by by_decide.
  apply (proj1 (Forall_forall _ _) H) in Hbp. rewrite (proj2 (Z.eqb_neq _ _) Hov), orb_false_r in Hbp.
  apply andb_true_iff in Hbp as [[H1 H2]%andb_true_iff H3%negb_true_iff]. split; [by destruct pci|done].
Qed.
