(* ===== verification/SerialCons.v ===== *)
(** * Serial port driver

    [char/serial/impl1/bcm63xx_cons.c]: transmission from the ring of the tty layer,
    reception into its flip buffer, the interrupt handler, the line settings and the
    console.  What the registers report is an argument; the ring and the flip buffer are
    the ones of [serial_core], [circ_buf.h] and [tty_io.c]. *)

From S2P Require Import Prelude BoardDefs Led BoardInit DyingGasp IrqDispatch.

(** ** Constants *)

Definition BRGEN : Z := 0x80.
Definition TXEN : Z := 0x40.
Definition RXEN : Z := 0x20.
Definition TXPARITYEN : Z := 0x08.
Definition TXPARITYEVEN : Z := 0x04.
Definition RXPARITYEN : Z := 0x02.
Definition RXPARITYEVEN : Z := 0x01.
Definition BITS5SYM : Z := 0x00.
Definition BITS6SYM : Z := 0x10.
Definition BITS7SYM : Z := 0x20.
Definition BITS8SYM : Z := 0x30.
Definition ONESTOP : Z := 0x07.
Definition TWOSTOP : Z := 0x0f.
Definition RSTTXFIFOS : Z := 0x80.
Definition RSTRXFIFOS : Z := 0x40.
Definition DELTAIP : Z := 0x0001.
Definition TXFIFOTHOLD : Z := 0x0008.
Definition TXFIFOEMT : Z := 0x0020.
Definition RXOVFERR : Z := 0x0080.
Definition RXFIFONE : Z := 0x0800.
Definition RXFRAMERR : Z := 0x1000.
Definition RXPARERR : Z := 0x2000.
Definition RXBRK : Z := 0x4000.

Definition TTY_FLIPBUF_SIZE : Z := 512.
Definition TTY_NORMAL : Z := 0.
Definition TTY_BREAK : Z := 1.
Definition TTY_FRAME : Z := 2.
Definition TTY_PARITY : Z := 3.
Definition TTY_OVERRUN : Z := 4.
Definition UART_XMIT_SIZE : Z := 1024.
Definition WAKEUP_CHARS : Z := 256.
Definition TIOCSER_TEMT : Z := 1.
Definition PORT_BCM63XX : Z := 63.
Definition UART_CONFIG_TYPE : Z := 1.
Definition BCM63XX_ISR_PASS_LIMIT : nat := 256.

Definition CSIZE : Z := 0x30.
Definition CS5 : Z := 0.
Definition CS6 : Z := 0x10.
Definition CS7 : Z := 0x20.
Definition CSTOPB : Z := 0x40.
Definition CREAD : Z := 0x80.
Definition PARENB : Z := 0x100.
Definition PARODD : Z := 0x200.
Definition IGNBRK : Z := 1.
Definition BRKINT : Z := 2.
Definition IGNPAR : Z := 4.
Definition PARMRK : Z := 8.
Definition INPCK : Z := 0x10.

Definition hasbits (x m : Z) : bool := negb (Z.land x m =? 0).

(** ** State *)

(** The registers the driver writes; [Data] is the sequence of values written to it. *)
Record Uart := mkUart {
  control : Z; config : Z; fifoctl : Z; baudword : Z; fifocfg : Z; intMask : Z; Data : list Z
}.

Record circ_buf := mkCirc { cb_buf : list Z; cb_head : Z; cb_tail : Z }.

Record uart_icount := mkIcount { ic_rx : Z; ic_tx : Z; ic_frame : Z; ic_overrun : Z; ic_parity : Z; ic_brk : Z }.

(** Two halves of [TTY_FLIPBUF_SIZE] entries; the pointers are offsets into the arrays. *)
Record tty_flip_buffer := mkFlip {
  char_buf : list Z; flag_buf : list Z; char_buf_ptr : Z; flag_buf_ptr : Z; flip_count : Z; buf_num : Z
}.

(** The tty: [received] is what its line discipline was given, characters with flags. *)
Record tty_struct := mkTty {
  flip : tty_flip_buffer; dont_flip : bool; low_latency : bool; tty_stopped : bool; received : list (Z * Z)
}.

Record uart_port := mkPort {
  regs : Uart; u_irq : Z; fifosize : Z; x_char : Z; port_type : Z;
  read_status_mask : Z; ignore_status_mask : Z;
  icount : uart_icount; xmit : circ_buf; tty : tty_struct; wakeups : Z
}.

Definition with_regs (p : uart_port) (u : Uart) : uart_port :=
  mkPort u (u_irq p) (fifosize p) (x_char p) (port_type p) (read_status_mask p) (ignore_status_mask p) (icount p) (xmit p) (tty p) (wakeups p).
Definition with_x_char (p : uart_port) (x : Z) : uart_port :=
  mkPort (regs p) (u_irq p) (fifosize p) x (port_type p) (read_status_mask p) (ignore_status_mask p) (icount p) (xmit p) (tty p) (wakeups p).
Definition with_type (p : uart_port) (t : Z) : uart_port :=
  mkPort (regs p) (u_irq p) (fifosize p) (x_char p) t (read_status_mask p) (ignore_status_mask p) (icount p) (xmit p) (tty p) (wakeups p).
Definition with_masks (p : uart_port) (r i : Z) : uart_port :=
  mkPort (regs p) (u_irq p) (fifosize p) (x_char p) (port_type p) r i (icount p) (xmit p) (tty p) (wakeups p).
Definition with_icount (p : uart_port) (c : uart_icount) : uart_port :=
  mkPort (regs p) (u_irq p) (fifosize p) (x_char p) (port_type p) (read_status_mask p) (ignore_status_mask p) c (xmit p) (tty p) (wakeups p).
Definition with_xmit (p : uart_port) (x : circ_buf) : uart_port :=
  mkPort (regs p) (u_irq p) (fifosize p) (x_char p) (port_type p) (read_status_mask p) (ignore_status_mask p) (icount p) x (tty p) (wakeups p).
Definition with_tty (p : uart_port) (t : tty_struct) : uart_port :=
  mkPort (regs p) (u_irq p) (fifosize p) (x_char p) (port_type p) (read_status_mask p) (ignore_status_mask p) (icount p) (xmit p) t (wakeups p).
Definition with_wakeup (p : uart_port) : uart_port :=
  mkPort (regs p) (u_irq p) (fifosize p) (x_char p) (port_type p) (read_status_mask p) (ignore_status_mask p) (icount p) (xmit p) (tty p) (wakeups p + 1).

Definition set_intMask (u : Uart) (m : Z) : Uart :=
  mkUart (control u) (config u) (fifoctl u) (baudword u) (fifocfg u) (u16 m) (Data u).
Definition set_fifocfg (u : Uart) (v : Z) : Uart :=
  mkUart (control u) (config u) (fifoctl u) (baudword u) (u8 v) (intMask u) (Data u).

(** The data register has 16 bits. *)
Definition put_data (u : Uart) (v : Z) : Uart :=
  mkUart (control u) (config u) (fifoctl u) (baudword u) (fifocfg u) (intMask u) (Data u ++ [u16 v]).

Definition write_mask (p : uart_port) (m : Z) : uart_port := with_regs p (set_intMask (regs p) m).
Definition mask_of (p : uart_port) : Z := intMask (regs p).

Definition count_tx (p : uart_port) : uart_port :=
  let c := icount p in with_icount p (mkIcount (ic_rx c) (u32 (ic_tx c + 1)) (ic_frame c) (ic_overrun c) (ic_parity c) (ic_brk c)).

(** ** Transmission *)

Definition bcm63xx_stop_tx (p : uart_port) : uart_port :=
  write_mask p (Z.land (mask_of p) (Z.lnot (Z.lor TXFIFOEMT TXFIFOTHOLD))).

Definition bcm63xx_stop_rx (p : uart_port) : uart_port :=
  write_mask p (Z.land (mask_of p) (Z.lnot RXFIFONE)).

Definition uart_circ_empty (x : circ_buf) : bool := cb_head x =? cb_tail x.
Definition CIRC_CNT (head tail size : Z) : Z := Z.land (head - tail) (size - 1).
Definition uart_circ_chars_pending (x : circ_buf) : Z := CIRC_CNT (cb_head x) (cb_tail x) UART_XMIT_SIZE.
Definition uart_circ_chars_free (x : circ_buf) : Z := CIRC_CNT (cb_tail x) (cb_head x + 1) UART_XMIT_SIZE.

(** [while (!(intStatus & TXFIFOEMT));] over the values that are read; what is left of them. *)
Fixpoint wait_empty (sts : list Z) : option (list Z) :=
  match sts with
  | [] => None
  | s :: sts' => if hasbits s TXFIFOEMT then Some sts' else wait_empty sts'
  end.

(** The character at the tail, a [char], goes to the transmitter. *)
Definition send_tail (p : uart_port) : option uart_port :=
  let x := xmit p in
  c ← cb_buf x !! Z.to_nat (cb_tail x);
  let p := with_regs p (put_data (regs p) (s8 c)) in
  Some (count_tx (with_xmit p (mkCirc (cb_buf x) (cb_head x) (Z.land (cb_tail x + 1) (UART_XMIT_SIZE - 1))))).

(** [level] is the n-th value read from [txf_levl]. *)
Fixpoint tx_loop (fuel : nat) (level : nat -> Z) (n : nat) (p : uart_port) : option uart_port :=
  match fuel with
  | O => None
  | S fuel' =>
      if level n <? fifosize p then
        p ← send_tail p;
        if uart_circ_empty (xmit p) then Some p else tx_loop fuel' level (S n) p
      else Some p
  end.

(** The ring holds fewer than [UART_XMIT_SIZE] characters, which bounds the loop. *)
Definition bcm63xx_tx_chars (sts : list Z) (level : nat -> Z) (p : uart_port) : option uart_port :=
  let p := write_mask p (Z.land (mask_of p) (Z.lnot TXFIFOTHOLD)) in
  if negb (x_char p =? 0) then
    _ ← wait_empty sts;
    let p := with_regs p (put_data (regs p) (x_char p)) in
    Some (with_x_char (count_tx p) 0)
  else if uart_circ_empty (xmit p) || tty_stopped (tty p) then Some (bcm63xx_stop_tx p)
  else
    p ← tx_loop (Z.to_nat UART_XMIT_SIZE) level 0 p;
    let p := if uart_circ_chars_pending (xmit p) <? WAKEUP_CHARS then with_wakeup p else p in
    if uart_circ_empty (xmit p) then Some (bcm63xx_stop_tx p)
    else Some (write_mask p (Z.lor (mask_of p) TXFIFOTHOLD)).

Definition bcm63xx_start_tx (sts : list Z) (level : nat -> Z) (p : uart_port) : option uart_port :=
  if hasbits (mask_of p) TXFIFOEMT then Some p
  else bcm63xx_tx_chars sts level (write_mask p (Z.lor (mask_of p) TXFIFOEMT)).

Definition bcm63xx_tx_empty (intStatus : Z) : Z := if hasbits intStatus TXFIFOEMT then TIOCSER_TEMT else 0.

(** [serial_core]: a character is put into the ring, and the driver is started. *)
Definition __uart_put_char (c : Z) (p : uart_port) : uart_port :=
  let x := xmit p in
  if uart_circ_chars_free x =? 0 then p
  else with_xmit p (mkCirc (<[Z.to_nat (cb_head x) := c]> (cb_buf x)) (Z.land (cb_head x + 1) (UART_XMIT_SIZE - 1)) (cb_tail x)).

Definition __uart_start (sts : list Z) (level : nat -> Z) (p : uart_port) : option uart_port :=
  if negb (uart_circ_empty (xmit p)) && negb (tty_stopped (tty p)) then bcm63xx_start_tx sts level p else Some p.

(** ** Reception *)

(** [flush_to_ldisc]: the filled half goes to the line discipline and the other half is used. *)
Definition flush_to_ldisc (t : tty_struct) : option tty_struct :=
  if dont_flip t then Some t
  else
    let f := flip t in
    let '(base, num, ptr) := if negb (buf_num f =? 0) then (TTY_FLIPBUF_SIZE, 0, 0) else (0, 1, TTY_FLIPBUF_SIZE) in
    chars ← mem_read (char_buf f) base (flip_count f);
    flags ← mem_read (flag_buf f) base (flip_count f);
    Some (mkTty (mkFlip (char_buf f) (flag_buf f) ptr ptr 0 num) (dont_flip t) (low_latency t) (tty_stopped t)
            (received t ++ zip chars flags)).

(** The flush happens now or after the next tick. *)
Definition tty_flip_buffer_push (t : tty_struct) : option tty_struct :=
  if low_latency t then flush_to_ldisc t else Some t.

(** What a round of the loop meets: the status and the character, and the answers of
    [uart_handle_break] and [uart_handle_sysrq_char]. *)
Record rx_reading := mkRx { rx_status : Z; rx_ch : Z; rx_break : bool; rx_sysrq : bool }.

Definition set_flip (t : tty_struct) (f : tty_flip_buffer) : tty_struct :=
  mkTty f (dont_flip t) (low_latency t) (tty_stopped t) (received t).

Definition set_chars (f : tty_flip_buffer) (l : list Z) : tty_flip_buffer :=
  mkFlip l (flag_buf f) (char_buf_ptr f) (flag_buf_ptr f) (flip_count f) (buf_num f).
Definition set_flags (f : tty_flip_buffer) (l : list Z) : tty_flip_buffer :=
  mkFlip (char_buf f) l (char_buf_ptr f) (flag_buf_ptr f) (flip_count f) (buf_num f).

(** [*char_buf_ptr = ch] and [*flag_buf_ptr = flag]. *)
Definition poke_char (f : tty_flip_buffer) (ch : Z) : option tty_flip_buffer :=
  l ← mem_write (char_buf f) (char_buf_ptr f) [ch]; Some (set_chars f l).
Definition poke_flag (f : tty_flip_buffer) (flag : Z) : option tty_flip_buffer :=
  l ← mem_write (flag_buf f) (flag_buf_ptr f) [flag]; Some (set_flags f l).

Definition advance (f : tty_flip_buffer) : tty_flip_buffer :=
  mkFlip (char_buf f) (flag_buf f) (char_buf_ptr f + 1) (flag_buf_ptr f + 1) (flip_count f + 1) (buf_num f).

Definition count_rx (c : uart_icount) : uart_icount :=
  mkIcount (u32 (ic_rx c + 1)) (ic_tx c) (ic_frame c) (ic_overrun c) (ic_parity c) (ic_brk c).

Definition count_error (status : Z) (c : uart_icount) : uart_icount :=
  if hasbits status RXBRK then mkIcount (ic_rx c) (ic_tx c) (ic_frame c) (ic_overrun c) (ic_parity c) (u32 (ic_brk c + 1))
  else if hasbits status RXPARERR then mkIcount (ic_rx c) (ic_tx c) (ic_frame c) (ic_overrun c) (u32 (ic_parity c + 1)) (ic_brk c)
  else if hasbits status RXFRAMERR then mkIcount (ic_rx c) (ic_tx c) (u32 (ic_frame c + 1)) (ic_overrun c) (ic_parity c) (ic_brk c)
  else c.

Definition count_overrun (status : Z) (c : uart_icount) : uart_icount :=
  if hasbits status RXOVFERR
  then mkIcount (ic_rx c) (ic_tx c) (ic_frame c) (u32 (ic_overrun c + 1)) (ic_parity c) (ic_brk c) else c.

Definition error_flag (status : Z) : Z :=
  if hasbits status RXBRK then TTY_BREAK
  else if hasbits status RXPARERR then TTY_PARITY
  else if hasbits status RXFRAMERR then TTY_FRAME
  else TTY_NORMAL.

Definition RX_ERRORS : Z := Z.lor RXBRK (Z.lor RXFRAMERR (Z.lor RXPARERR RXOVFERR)).

(** The branch of the errors: the status that is left and the counters, or [None] where a
    break is taken by [uart_handle_break]. *)
Definition rx_errors (rd : rx_reading) (rsm : Z) (c : uart_icount) : option Z * uart_icount :=
  let status := rx_status rd in
  if hasbits status RX_ERRORS then
    let c := count_error status c in
    if hasbits status RXBRK && rx_break rd then (None, c)
    else
      let status := if hasbits status RXBRK then Z.land status (Z.lnot (Z.lor RXFRAMERR RXPARERR)) else status in
      (Some (Z.land status rsm), count_overrun status c)
  else (Some status, c).

(** The flag of a character with errors. *)
Definition rx_flag (rd : rx_reading) (status : Z) (f : tty_flip_buffer) : option tty_flip_buffer :=
  if hasbits (rx_status rd) RX_ERRORS && negb (error_flag status =? TTY_NORMAL) then poke_flag f (error_flag status)
  else Some f.

(** The character is kept and an overrun is noted behind it. *)
Definition rx_keep (status ism : Z) (f : tty_flip_buffer) : option tty_flip_buffer :=
  let f := if Z.land status ism =? 0 then advance f else f in
  if hasbits status RXOVFERR && (flip_count f <? TTY_FLIPBUF_SIZE) then
    f ← poke_char f 0;
    f ← poke_flag f TTY_OVERRUN;
    Some (advance f)
  else Some f.

(** The body of the loop behind the test for room. *)
Definition rx_one (rd : rx_reading) (p : uart_port) : option uart_port :=
  f ← poke_char (flip (tty p)) (u8 (rx_ch rd));
  f ← poke_flag f TTY_NORMAL;
  let '(o, c) := rx_errors rd (read_status_mask p) (count_rx (icount p)) in
  f ← match o with
      | Some status =>
          f ← rx_flag rd status f;
          if rx_sysrq rd then Some f else rx_keep status (ignore_status_mask p) f
      | None => Some f
      end;
  Some (with_icount (with_tty p (set_flip (tty p) f)) c).

Definition flip_full (t : tty_struct) : bool := TTY_FLIPBUF_SIZE <=? flip_count (flip t).

(** [max_count] rounds at most; the readings that were not taken are left.  Where the tty
    cannot be flipped, the rest of the function is skipped ([false]). *)
Fixpoint rx_loop (max_count : nat) (rds : list rx_reading) (p : uart_port)
    : option (bool * list rx_reading * uart_port) :=
  match rds, max_count with
  | rd :: rds', S n =>
      if hasbits (rx_status rd) RXFIFONE then
        t ← if flip_full (tty p) then flush_to_ldisc (tty p) else Some (tty p);
        let p := with_tty p t in
        if flip_full (tty p) then Some (false, rds, p)
        else p ← rx_one rd p; rx_loop n rds' p
      else Some (true, rds, p)
  | _, _ => Some (true, rds, p)
  end.

Definition bcm63xx_rx_chars (rds : list rx_reading) (p : uart_port) : option (list rx_reading * uart_port) :=
  '(pushed, rest, p) ← rx_loop 256 rds p;
  if (pushed : bool) then t ← tty_flip_buffer_push (tty p); Some (rest, with_tty p t) else Some (rest, p).

(** ** The interrupt *)

(** What one pass of the handler meets. *)
Record pass_input := mkPass {
  ps_status : Z; ps_rx : list rx_reading; ps_emt : list Z; ps_level : nat -> Z
}.

Definition int_pass (i : pass_input) (status : Z) (p : uart_port) : option uart_port :=
  p ← if hasbits status RXFIFONE then '(_, p) ← bcm63xx_rx_chars (ps_rx i) p; Some p else Some p;
  if hasbits status (Z.lor TXFIFOEMT TXFIFOTHOLD) then bcm63xx_tx_chars (ps_emt i) (ps_level i) p else Some p.

(** [ins n] is met in pass [n]; the number of passes is returned. *)
Fixpoint int_loop (pass_counter : nat) (ins : nat -> pass_input) (n : nat) (p : uart_port) : option (nat * uart_port) :=
  let status := Z.land (ps_status (ins n)) (mask_of p) in
  if status =? 0 then Some (n, p)
  else
    p ← int_pass (ins n) status p;
    match pass_counter with
    | O => Some (S n, p)
    | S k => int_loop k ins (S n) p
    end.

Definition bcm63xx_int (chip : Chip) (ins : nat -> pass_input) (p : uart_port) (r : irq_regs)
    : option (uart_port * irq_regs) :=
  '(_, p) ← int_loop BCM63XX_ISR_PASS_LIMIT ins 0 p;
  r ← enable_brcm_irq chip (u_irq p) r;
  Some (p, r).

Definition bcm63xx_startup (chip : Chip) (answer : Z) (p : uart_port) (r : irq_regs) : option (Z * uart_port * irq_regs) :=
  let '(_, r) := BcmHalMapInterrupt chip (u_irq p) answer r in
  r ← enable_brcm_irq chip (u_irq p) r;
  let p := with_regs p (set_fifocfg (regs p) (Z.shiftl (fifosize p) 4)) in
  Some (0, write_mask p RXFIFONE, r).

Definition bcm63xx_shutdown (chip : Chip) (p : uart_port) (r : irq_regs) : option (uart_port * irq_regs) :=
  r ← disable_brcm_irq chip (u_irq p) r;
  Some (write_mask p 0, r).

Definition bcm63xx_config_port (flags : Z) (p : uart_port) : uart_port :=
  if hasbits flags UART_CONFIG_TYPE then with_type p PORT_BCM63XX else p.

(** ** Line settings *)

Record termios := mkTermios { c_iflag : Z; c_cflag : Z }.

Definition termios_config (t : termios) : Z :=
  let cs := Z.land (c_cflag t) CSIZE in
  let c := if cs =? CS5 then BITS5SYM else if cs =? CS6 then BITS6SYM else if cs =? CS7 then BITS7SYM else BITS8SYM in
  Z.lor c (if hasbits (c_cflag t) CSTOPB then TWOSTOP else ONESTOP).

Definition termios_control (t : termios) : Z :=
  if hasbits (c_cflag t) PARENB then
    let c := Z.lor TXPARITYEN RXPARITYEN in
    if hasbits (c_cflag t) PARODD then c else Z.lor c (Z.lor TXPARITYEVEN RXPARITYEVEN)
  else 0.

Definition termios_read_mask (t : termios) : Z :=
  let m := RXOVFERR in
  let m := if hasbits (c_iflag t) INPCK then Z.lor m (Z.lor RXFRAMERR RXPARERR) else m in
  if hasbits (c_iflag t) (Z.lor BRKINT PARMRK) then Z.lor m RXBRK else m.

Definition termios_ignore_mask (t : termios) : Z :=
  let m := if hasbits (c_iflag t) IGNPAR then Z.lor RXFRAMERR RXPARERR else 0 in
  let m := if hasbits (c_iflag t) IGNBRK then
             let m := Z.lor m RXBRK in
             if hasbits (c_iflag t) IGNPAR then Z.lor m RXOVFERR else m
           else m in
  if hasbits (c_cflag t) CREAD then m else Z.lor m RXFIFONE.

(** The value for the clock select register; [None]: division by zero. *)
Definition baud_value (baud : Z) : option Z :=
  if baud =? 0 then None
  else
    let tmpVal := FPERIPH / baud / 16 in
    Some (if negb (Z.land tmpVal 1 =? 0) then tmpVal / 2 else u32 (tmpVal / 2 - 1)).

(** [baud] is the answer of [uart_get_baud_rate]. *)
Definition bcm63xx_set_termios (t : termios) (baud : Z) (p : uart_port) : option uart_port :=
  let p := with_masks p (termios_read_mask t) (termios_ignore_mask t) in
  v ← baud_value baud;
  let u := regs p in
  let control := Z.lor (termios_control t) (Z.lor BRGEN (Z.lor TXEN RXEN)) in
  Some (with_regs p (mkUart control (termios_config t) (Z.lor RSTTXFIFOS RSTRXFIFOS) v (fifocfg u) (intMask u) (Data u))).

(** ** Console *)

(** The wait for the transmission interrupt to be masked; [env] is what interrupts make of
    the port between two readings. *)
Fixpoint wait_masked (env : list (uart_port -> uart_port)) (p : uart_port) : option uart_port :=
  if hasbits (mask_of p) TXFIFOEMT then
    match env with
    | [] => None
    | f :: env' => wait_masked env' (f p)
    end
  else Some p.

(** A character is written and has left the transmitter. *)
Definition console_put (c : Z) (sts : list Z) (p : uart_port) : option (list Z * uart_port) :=
  let p := with_regs p (put_data (regs p) c) in
  sts ← wait_empty sts;
  Some (sts, p).

Fixpoint console_loop (s : list Z) (sts : list Z) (p : uart_port) : option (list Z * uart_port) :=
  match s with
  | [] => Some (sts, p)
  | c :: s' =>
      '(sts, p) ← console_put (s8 c) sts p;
      '(sts, p) ← if s8 c =? 10 then console_put 13 sts p else Some (sts, p);
      console_loop s' sts p
  end.

Definition bcm63xx_console_write (env : list (uart_port -> uart_port)) (s sts : list Z) (p : uart_port) : option uart_port :=
  p ← wait_masked env p;
  let mask := mask_of p in
  '(_, p) ← console_loop s sts (write_mask p 0);
  Some (write_mask p mask).

Definition UART_NR (chip : Chip) : Z := if has_serial chip then 2 else 1.

(** The index of the port that becomes the console. *)
Definition bcm63xx_console_setup (chip : Chip) (index : Z) : Z := if UART_NR chip <=? index then 0 else index.

Definition INTERRUPT_ID_UART : Z := INTERNAL_ISR_TABLE_OFFSET + 2.
Definition INTERRUPT_ID_UART1 : Z := INTERNAL_ISR_TABLE_OFFSET + 3.
