(* ===== verification/SerialSpec.v ===== *)
(** * The serial port: transmission, reception and settings

    The ring of the tty layer as a queue and the order of the characters on the line, the
    flip buffer and the characters the line discipline gets, the interrupt handler, the
    clock divisor and the console. *)

From S2P Require Import Prelude Ring BoardDefs Led BoardInit DyingGasp IrqDispatch SerialCons.

(** ** The transmission ring *)

Lemma land_xmit n : Z.land n (UART_XMIT_SIZE - 1) = n mod 1024.
Proof. change (UART_XMIT_SIZE - 1) with (Z.ones 10). by rewrite Z.land_ones. Qed.

Lemma ring_at_Z (n h k : nat) : (h < n)%nat -> Z.of_nat (ring_at n h k) = (Z.of_nat h + Z.of_nat k) mod Z.of_nat n.
Proof. intros. unfold ring_at, rotate_nat_add. rewrite Z2Nat.id; [done|]. apply Z.mod_pos_bound. lia. Qed.

(** The ring holds the queue [q]: from the tail on there are its characters, and the head
    is behind them. *)
Definition ring_holds (x : circ_buf) (q : list Z) : Prop :=
  length (cb_buf x) = 1024%nat /\ Forall is_u8 q /\ 0 <= cb_tail x < 1024 /\
  cb_head x = (cb_tail x + zlen q) mod 1024 /\
  exists rest, rest <> [] /\ rotate (Z.to_nat (cb_tail x)) (cb_buf x) = q ++ rest.

Lemma holds_length x q : ring_holds x q -> zlen q < 1024.
Proof.
  intros (Hl & _ & _ & _ & rest & Hr & E). apply (f_equal length) in E.
  rewrite length_rotate, length_app, Hl in E. destruct rest; [done|]. cbn [length] in E. unfold zlen. lia.
Qed.

Lemma holds_pending x q : ring_holds x q -> uart_circ_chars_pending x = zlen q.
Proof.
  intros H. pose proof (holds_length x q H) as Hq. pose proof (zlen_nonneg q). destruct H as (_ & _ & Ht & Hh & _).
  unfold uart_circ_chars_pending, CIRC_CNT. rewrite land_xmit, Hh, Zminus_mod_idemp_l.
  replace (cb_tail x + zlen q - cb_tail x) with (zlen q) by lia. apply Z.mod_small. lia.
Qed.

Lemma holds_free x q : ring_holds x q -> uart_circ_chars_free x = 1023 - zlen q.
Proof.
  intros H. pose proof (holds_length x q H) as Hq. pose proof (zlen_nonneg q). destruct H as (_ & _ & Ht & Hh & _).
  unfold uart_circ_chars_free, CIRC_CNT. rewrite land_xmit, Hh.
  replace (cb_tail x - ((cb_tail x + zlen q) mod 1024 + 1)) with ((cb_tail x - 1) - (cb_tail x + zlen q) mod 1024) by lia.
  rewrite Zminus_mod_idemp_r. replace (cb_tail x - 1 - (cb_tail x + zlen q)) with (1023 - zlen q + (-1) * 1024) by lia.
  rewrite Z_mod_plus_full. apply Z.mod_small. lia.
Qed.

Lemma holds_empty x q : ring_holds x q -> uart_circ_empty x = bool_decide (q = []).
Proof.
  intros H. pose proof (holds_length x q H) as Hq. pose proof (holds_pending x q H) as Hp.
  destruct H as (_ & _ & Ht & Hh & _). unfold uart_circ_empty. unfold uart_circ_chars_pending, CIRC_CNT in Hp. rewrite land_xmit in Hp.
  destruct (Z.eqb_spec (cb_head x) (cb_tail x)) as [E|E]; symmetry.
  - rewrite E, Z.sub_diag in Hp. apply bool_decide_eq_true_2. destruct q; [done|]. rewrite zlen_cons in Hp.
    pose proof (zlen_nonneg q). change (0 mod 1024) with 0 in Hp. lia.
  - apply bool_decide_eq_false_2. intros ->. apply E. rewrite Hh. change (zlen (@nil Z)) with 0. rewrite Z.add_0_r.
    apply Z.mod_small. lia.
Qed.

Lemma ring_next_Z (t : Z) : 0 <= t < 1024 -> Z.to_nat ((t + 1) mod 1024) = ring_next 1024 (Z.to_nat t).
Proof.
  intros Ht. unfold ring_next. destruct (Nat.eqb_spec (S (Z.to_nat t)) 1024) as [E|E].
  - replace (t + 1) with 1024 by lia. done.
  - rewrite Z.mod_small by lia. lia.
Qed.

Lemma holds_pop x c q :
  ring_holds x (c :: q) ->
  cb_buf x !! Z.to_nat (cb_tail x) = Some c /\ is_u8 c
  /\ ring_holds (mkCirc (cb_buf x) (cb_head x) (Z.land (cb_tail x + 1) (UART_XMIT_SIZE - 1))) q.
Proof.
  intros (Hl & Hu & Ht & Hh & rest & Hr & E). apply Forall_cons in Hu as [Hc Hu]. rewrite land_xmit.
  assert (Hlt : (Z.to_nat (cb_tail x) < length (cb_buf x))%nat) by lia. cbn [app] in E.
  split; [by apply rotate_head with (q ++ rest)|]. split; [done|]. unfold ring_holds. cbn [cb_buf cb_head cb_tail].
  split_and!; try done; try apply Z.mod_pos_bound; try lia.
  - rewrite Hh, Zplus_mod_idemp_l, zlen_cons. f_equal. lia.
  - exists (rest ++ [c]). split; [by destruct rest|]. rewrite ring_next_Z, <- Hl by done.
    rewrite (rotate_next _ _ c (q ++ rest)) by done. by rewrite app_assoc.
Qed.

Lemma holds_push x c q :
  ring_holds x q -> zlen q < 1023 -> is_u8 c ->
  ring_holds (mkCirc (<[Z.to_nat (cb_head x) := c]> (cb_buf x)) (Z.land (cb_head x + 1) (UART_XMIT_SIZE - 1)) (cb_tail x)) (q ++ [c]).
Proof.
  intros (Hl & Hu & Ht & Hh & rest & Hr & E) Hq Hc. rewrite land_xmit. unfold ring_holds. cbn [cb_buf cb_head cb_tail].
  destruct rest as [|y [|z rest]]; [done|exfalso|].
  { apply (f_equal length) in E. rewrite length_rotate, length_app, Hl in E. cbn [length] in E. unfold zlen in Hq. lia. }
  assert (Hlt : (Z.to_nat (cb_tail x) < length (cb_buf x))%nat) by lia.
  assert (Ei : Z.to_nat (cb_head x) = ring_at (length (cb_buf x)) (Z.to_nat (cb_tail x)) (length q)).
  { apply Nat2Z.inj. rewrite ring_at_Z by done. rewrite Hl, Hh, Z2Nat.id by (apply Z.mod_pos_bound; lia). unfold zlen.
    rewrite Z2Nat.id by lia. done. }
  split_and!; try lia.
  - by rewrite length_insert.
  - apply Forall_app. by split; [|constructor].
  - rewrite Hh, Zplus_mod_idemp_l, zlen_app. f_equal. change (zlen [c]) with 1. lia.
  - exists (z :: rest). split; [done|]. rewrite Ei. destruct (rotate_mid _ _ q y (z :: rest) Hlt E) as [_ Hm].
    rewrite Hm. by rewrite <- app_assoc.
Qed.

(** ** Sending *)

(** What goes over the line: the low eight bits of the values written. *)
Definition wire (p : uart_port) : list Z := map u8 (Data (regs p)).

Lemma u8_char c : is_u8 c -> u8 (u16 (s8 c)) = c.
Proof.
  intros Hc. unfold u8, u16, s8. rewrite Z.mod_mod_divide by by exists 256.
  rewrite Zminus_mod_idemp_l. replace (c + 2 ^ 7 - 2 ^ 7) with c by lia. by apply Z.mod_small.
Qed.

(** The bits of the interrupt mask that matter, under the writes of the driver. *)
Lemma has_u16 x n : 0 <= n < 16 -> hasbits (u16 x) (2 ^ n) = hasbits x (2 ^ n).
Proof. intros Hn. unfold hasbits, u16. rewrite !land_pow2_test by lia. apply Z.mod_pow2_bits_low. lia. Qed.

Lemma mask_write p m : mask_of (write_mask p m) = u16 m.
Proof. done. Qed.

Lemma has_lor x a b : hasbits x (Z.lor a b) = hasbits x a || hasbits x b.
Proof.
  unfold hasbits. rewrite Z.land_lor_distr_r, <- negb_andb. f_equal. apply eq_true_iff_eq.
  rewrite andb_true_iff, !Z.eqb_eq. apply Z.lor_eq_0_iff.
Qed.

(** Sending the tail of the ring. *)
Lemma send_tail_ok p c q :
  ring_holds (xmit p) (c :: q) ->
  exists p', send_tail p = Some p' /\ ring_holds (xmit p') q /\ wire p' = wire p ++ [c] /\ mask_of p' = mask_of p
    /\ x_char p' = x_char p /\ tty p' = tty p /\ fifosize p' = fifosize p.
Proof.
  intros H. destruct (holds_pop _ _ _ H) as (E & Hc & H'). unfold send_tail. rewrite E. cbn [mbind option_bind].
  eexists. split; [done|]. split_and!; try done.
  unfold wire. cbn [count_tx with_xmit with_regs put_data regs Data with_icount]. rewrite map_app. cbn [map]. by rewrite u8_char.
Qed.

(** The loop sends a prefix of the queue: all of it, or up to the point where the FIFO is full. *)
Lemma tx_loop_ok fuel level n p q :
  ring_holds (xmit p) q -> q <> [] -> zlen q < Z.of_nat fuel ->
  exists p' s q', tx_loop fuel level n p = Some p' /\ q = s ++ q' /\ ring_holds (xmit p') q' /\ wire p' = wire p ++ s
    /\ mask_of p' = mask_of p /\ x_char p' = x_char p /\ tty p' = tty p /\ fifosize p' = fifosize p
    /\ (level n < fifosize p -> s <> []).
Proof.
  revert n p q. induction fuel as [|fuel IH]; intros n p q H Hq Hf; [pose proof (zlen_nonneg q); lia|].
  cbn [tx_loop]. destruct (Z.ltb_spec (level n) (fifosize p)) as [L|L].
  - destruct q as [|c q]; [done|]. destruct (send_tail_ok p c q H) as (p1 & -> & H1 & W1 & M1 & X1 & T1 & F1).
    cbn [mbind option_bind]. rewrite (holds_empty _ q H1). case_bool_decide as Hn.
    + subst q. exists p1, [c], []. by split_and!.
    + rewrite zlen_cons in Hf. destruct (IH (S n) p1 q H1 Hn ltac:(lia)) as (p2 & s & q2 & E & -> & H2 & W2 & M2 & X2 & T2 & F2 & _).
      exists p2, (c :: s), q2. rewrite W2, W1, <- app_assoc. split_and!; try done; congruence.
  - exists p, [], q. rewrite app_nil_r. split_and!; try done. intros. lia.
Qed.

(** The state of the transmitter with the queue [q]: its interrupt is open exactly while
    there are characters to send. *)
Definition tx_inv (p : uart_port) (q : list Z) : Prop :=
  ring_holds (xmit p) q /\ x_char p = 0 /\ tty_stopped (tty p) = false
  /\ hasbits (mask_of p) TXFIFOEMT = negb (bool_decide (q = [])).

Lemma stop_tx_masked p : hasbits (mask_of (bcm63xx_stop_tx p)) TXFIFOEMT = false.
Proof.
  unfold bcm63xx_stop_tx. rewrite mask_write. change TXFIFOEMT with (2 ^ 5). rewrite has_u16 by lia.
  unfold hasbits. rewrite land_pow2_test, Z.land_spec, Z.lnot_spec by lia. apply andb_false_r.
Qed.

Lemma thold_off m : hasbits (u16 (Z.land m (Z.lnot TXFIFOTHOLD))) TXFIFOEMT = hasbits m TXFIFOEMT.
Proof.
  change TXFIFOEMT with (2 ^ 5). rewrite has_u16 by lia. unfold hasbits. rewrite !land_pow2_test, Z.land_spec, Z.lnot_spec by lia.
  apply andb_true_r.
Qed.

Lemma thold_on m : hasbits (u16 (Z.lor m TXFIFOTHOLD)) TXFIFOEMT = hasbits m TXFIFOEMT.
Proof.
  change TXFIFOEMT with (2 ^ 5). rewrite has_u16 by lia. unfold hasbits. rewrite !land_pow2_test, Z.lor_spec by lia.
  apply orb_false_r.
Qed.

Lemma emt_on m : hasbits (u16 (Z.lor m TXFIFOEMT)) TXFIFOEMT = true.
Proof.
  change (hasbits (u16 (Z.lor m TXFIFOEMT)) (2 ^ 5) = true). rewrite has_u16 by lia. unfold hasbits. rewrite land_pow2_test, Z.lor_spec by lia.
  apply orb_true_r.
Qed.

(** [bcm63xx_tx_chars] with the interrupt open sends a prefix of the queue. *)
Lemma tx_chars_ok sts level p q :
  ring_holds (xmit p) q -> x_char p = 0 -> tty_stopped (tty p) = false -> (q <> [] -> hasbits (mask_of p) TXFIFOEMT = true) ->
  exists p' s q', bcm63xx_tx_chars sts level p = Some p' /\ q = s ++ q' /\ tx_inv p' q' /\ wire p' = wire p ++ s
    /\ tty p' = tty p /\ fifosize p' = fifosize p /\ (level 0%nat < fifosize p -> q <> [] -> s <> []).
Proof.
  intros H Hx Hs Hm. unfold bcm63xx_tx_chars. set (p0 := write_mask p _).
  change (x_char p0) with (x_char p). rewrite Hx, Z.eqb_refl. cbn [negb].
  change (xmit p0) with (xmit p). change (tty p0) with (tty p). rewrite (holds_empty _ q H), Hs, orb_false_r.
  case_bool_decide as Hq.
  - exists (bcm63xx_stop_tx p0), [], []. subst q.
    split; [done|]. split; [done|]. split; [split_and!; [done|done|done|]; apply stop_tx_masked|].
    split_and!; [by rewrite app_nil_r|done|done|]. intros _ Hn. by destruct Hn.
  - pose proof (holds_length _ _ H) as Hl.
    destruct (tx_loop_ok (Z.to_nat UART_XMIT_SIZE) level 0 p0 q H Hq ltac:(unfold UART_XMIT_SIZE; lia))
      as (p1 & s & q' & -> & -> & H1 & W1 & M1 & X1 & T1 & F1 & Hp). cbn [mbind option_bind].
    set (p2 := if _ <? _ then _ else _).
    assert (E2 : xmit p2 = xmit p1 /\ mask_of p2 = mask_of p1 /\ x_char p2 = x_char p1 /\ tty p2 = tty p1
                 /\ wire p2 = wire p1 /\ fifosize p2 = fifosize p1) by (unfold p2; by case_match).
    destruct E2 as (Ex & Em & Ec & Et & Ew & Ef).
    assert (E3 : x_char p2 = 0) by (rewrite Ec, X1; done).
    assert (E6 : tty p2 = tty p) by (rewrite Et, T1; done).
    assert (E4 : tty_stopped (tty p2) = false) by (rewrite E6; done).
    assert (E5 : wire p2 = wire p ++ s) by (rewrite Ew, W1; done).
    assert (E7 : fifosize p2 = fifosize p) by (rewrite Ef, F1; done).
    rewrite Ex, (holds_empty _ q' H1).
    case_bool_decide as Hq'.
    + subst q'. exists (bcm63xx_stop_tx p2), s, []. split; [done|]. split; [done|].
      split; [split_and!; [by rewrite <- Ex in H1|exact E3|exact E4|apply stop_tx_masked]|].
      split_and!; [exact E5|exact E6|exact E7|intros HL _; by apply Hp].
    + eexists _, s, q'. split; [done|]. split; [done|].
      split; [split_and!; [by rewrite <- Ex in H1|exact E3|exact E4|]|split_and!; [exact E5|exact E6|exact E7|intros HL _; by apply Hp]].
      rewrite mask_write, thold_on, Em, M1. unfold p0. rewrite mask_write, thold_off, Hm by done. by rewrite bool_decide_eq_false_2.
Qed.

(** The events of transmission: the tty layer writes a character, or the interrupt of the
    transmitter comes. *)
Inductive serial_event := TxWrite (c : Z) (level : nat -> Z) | TxInterrupt (level : nat -> Z).

(** The new state and the characters the ring had room for. *)
Definition serial_step (e : serial_event) (p : uart_port) : option (uart_port * list Z) :=
  match e with
  | TxWrite c level =>
      let taken := if uart_circ_chars_free (xmit p) =? 0 then [] else [c] in
      p ← __uart_start [] level (__uart_put_char c p);
      Some (p, taken)
  | TxInterrupt level =>
      if hasbits (mask_of p) (Z.lor TXFIFOEMT TXFIFOTHOLD) then p ← bcm63xx_tx_chars [] level p; Some (p, []) else Some (p, [])
  end.

Fixpoint serial_run (es : list serial_event) (p : uart_port) : option (uart_port * list Z) :=
  match es with
  | [] => Some (p, [])
  | e :: es' =>
      '(p, a) ← serial_step e p;
      '(p, l) ← serial_run es' p;
      Some (p, a ++ l)
  end.

Definition serial_event_ok (e : serial_event) : Prop := match e with TxWrite c _ => is_u8 c | TxInterrupt _ => True end.

(** An interrupt that finds room in the FIFO. *)
Definition fifo_room (e : serial_event) (p : uart_port) : Prop :=
  match e with TxWrite _ _ => False | TxInterrupt level => level 0%nat < fifosize p end.

Lemma uart_start_ok level p q b :
  ring_holds (xmit p) q -> x_char p = 0 -> tty_stopped (tty p) = false -> hasbits (mask_of p) TXFIFOEMT = b ->
  (b = true -> q <> []) ->
  exists p' s q', __uart_start [] level p = Some p' /\ q = s ++ q' /\ tx_inv p' q' /\ wire p' = wire p ++ s
    /\ fifosize p' = fifosize p.
Proof.
  intros H Hx Hs Hm Hb. unfold __uart_start. rewrite (holds_empty _ q H), Hs. cbn [negb]. rewrite andb_true_r.
  case_bool_decide as Hq; cbn [negb].
  - exists p, [], q. rewrite app_nil_r. split_and!; try done. split_and!; try done. subst q.
    destruct b; [by destruct (Hb eq_refl)|done].
  - unfold bcm63xx_start_tx. rewrite Hm. destruct b.
    + exists p, [], q. rewrite app_nil_r. split_and!; try done. split_and!; try done. by rewrite bool_decide_eq_false_2.
    + destruct (tx_chars_ok [] level (write_mask p (Z.lor (mask_of p) TXFIFOEMT)) q H Hx Hs (fun _ => emt_on _))
        as (p' & s & q' & E & Eq & Hi & Hw & _ & Hf & _). by exists p', s, q'.
Qed.

(** Every event keeps the invariant and the order of the characters. *)
Lemma serial_step_ok e p q :
  tx_inv p q -> serial_event_ok e ->
  exists p' a q', serial_step e p = Some (p', a) /\ tx_inv p' q' /\ wire p' ++ q' = wire p ++ q ++ a /\ fifosize p' = fifosize p
    /\ (fifo_room e p -> a = [] /\ (zlen q' < zlen q \/ q' = [])).
Proof.
  intros (H & Hx & Hs & Hm) He. destruct e as [c level|level]; cbn [serial_step serial_event_ok fifo_room] in *.
  - rewrite (holds_free _ q H). unfold __uart_put_char. rewrite (holds_free _ q H).
    destruct (Z.eqb_spec (1023 - zlen q) 0) as [F|F].
    + destruct (uart_start_ok level p q _ H Hx Hs Hm) as (p' & s & q' & -> & -> & Hi & Hw & Hf).
      { rewrite negb_true_iff. apply bool_decide_eq_false_1. }
      exists p', [], q'. split; [done|]. split; [done|]. rewrite Hw, app_nil_r, app_assoc. done.
    + pose proof (holds_length _ _ H) as Hl. pose proof (holds_push _ c q H ltac:(lia) He) as H'.
      destruct (uart_start_ok level (with_xmit p _) (q ++ [c]) _ H' Hx Hs Hm) as (p' & s & q' & -> & Eq & Hi & Hw & Hf).
      { intros _. by destruct q. }
      exists p', [c], q'. split; [done|]. split; [done|]. rewrite Hw, Eq. rewrite <- app_assoc. done.
  - destruct (hasbits (mask_of p) (Z.lor TXFIFOEMT TXFIFOTHOLD)) eqn:Hmm.
    + destruct (tx_chars_ok [] level p q H Hx Hs) as (p' & s & q' & -> & -> & Hi & Hw & _ & Hf & Hp).
      { intros Hn. rewrite Hm. by rewrite bool_decide_eq_false_2. }
      exists p', [], q'. split; [done|]. split; [done|]. rewrite Hw, app_nil_r, app_assoc. split; [done|]. split; [done|].
      intros Hr. split; [done|]. destruct (decide (s ++ q' = [])) as [En|En]; [right; by destruct s|left].
      rewrite zlen_app. specialize (Hp Hr En). destruct s; [done|]. rewrite zlen_cons. pose proof (zlen_nonneg s). lia.
    + exists p, [], q. rewrite app_nil_r. split_and!; try done. intros _. split; [done|right].
      rewrite has_lor, Hm in Hmm. apply orb_false_iff in Hmm as [Hmm _]. by apply negb_false_iff, bool_decide_eq_true_1 in Hmm.
Qed.

(** The invariant and the order over a run. *)
Lemma serial_run_ok es p q :
  tx_inv p q -> Forall serial_event_ok es ->
  exists p' a q', serial_run es p = Some (p', a) /\ tx_inv p' q' /\ wire p' ++ q' = wire p ++ q ++ a /\ fifosize p' = fifosize p.
Proof.
  intros Hi He. revert p q Hi. induction He as [|e es H1 He IH]; intros p q Hi.
  { exists p, [], q. by rewrite app_nil_r. }
  destruct (serial_step_ok e p q Hi H1) as (p1 & a & q1 & E1 & Hi1 & W1 & F1 & _).
  destruct (IH p1 q1 Hi1) as (p2 & l & q2 & E2 & Hi2 & W2 & F2).
  exists p2, (a ++ l), q2. cbn [serial_run]. rewrite E1. cbn [mbind option_bind]. rewrite E2. split; [done|]. split; [done|].
  split; [|congruence]. rewrite W2, app_assoc, W1, <- !app_assoc. done.
Qed.

(** Interrupts with room in the FIFO empty the ring. *)
Lemma tx_drain es p q :
  tx_inv p q -> Forall (fun e => fifo_room e p) es -> zlen q <= zlen es ->
  exists p', serial_run es p = Some (p', []) /\ tx_inv p' [] /\ wire p' = wire p ++ q.
Proof.
  intros Hi He. revert q p Hi He. induction es as [|e es IH]; intros q p Hi He Hl.
  { destruct q; [|rewrite zlen_cons in Hl; change (zlen (@nil serial_event)) with 0 in Hl; pose proof (zlen_nonneg q); lia].
    exists p. by rewrite app_nil_r. }
  apply Forall_cons in He as [H1 He].
  destruct (serial_step_ok e p q Hi) as (p1 & a & q1 & E1 & Hi1 & W1 & F1 & Hr); [by destruct e|].
  destruct (Hr H1) as [-> Hq]. rewrite zlen_cons in Hl. destruct (IH q1 p1 Hi1) as (p2 & E2 & Hi2 & W2).
  - apply (Forall_impl _ _ _ He). intros e'; destruct e'; cbn; by rewrite ?F1.
  - destruct Hq as [Hq|Hq]; [lia|subst q1; apply zlen_nonneg].
  - exists p2. cbn [serial_run]. rewrite E1. cbn [mbind option_bind]. rewrite E2. split; [done|]. split; [done|].
    by rewrite W2, W1, app_nil_r.
Qed.

Lemma serial_run_app es1 es2 p :
  serial_run (es1 ++ es2) p = ('(p, a) ← serial_run es1 p; '(p, b) ← serial_run es2 p; Some (p, a ++ b)).
Proof.
  revert p. induction es1 as [|e es1 IH]; intros p; cbn [app serial_run mbind option_bind].
  - by destruct (serial_run es2 p) as [[]|].
  - destruct (serial_step e p) as [[p1 a]|]; [|done]. cbn [mbind option_bind]. rewrite IH.
    destruct (serial_run es1 p1) as [[p2 b]|]; [|done]. cbn [mbind option_bind].
    destruct (serial_run es2 p2) as [[p3 c]|]; [|done]. cbn. by rewrite app_assoc.
Qed.

(** ** The flip buffer *)

(** The start of the half in use. *)
Definition flip_base (f : tty_flip_buffer) : Z := if buf_num f =? 0 then 0 else TTY_FLIPBUF_SIZE.

Definition flip_ok (f : tty_flip_buffer) : Prop :=
  zlen (char_buf f) = 2 * TTY_FLIPBUF_SIZE /\ zlen (flag_buf f) = 2 * TTY_FLIPBUF_SIZE
  /\ 0 <= flip_count f <= TTY_FLIPBUF_SIZE
  /\ char_buf_ptr f = flip_base f + flip_count f /\ flag_buf_ptr f = flip_base f + flip_count f.

(** What the half in use holds, and what the tty has got so far. *)
Definition contents (f : tty_flip_buffer) : list (Z * Z) :=
  zip (slice (flip_base f) (flip_count f) (char_buf f)) (slice (flip_base f) (flip_count f) (flag_buf f)).

Definition stream (t : tty_struct) : list (Z * Z) := received t ++ contents (flip t).

Lemma flip_base_range f : 0 <= flip_base f <= TTY_FLIPBUF_SIZE.
Proof. unfold flip_base, TTY_FLIPBUF_SIZE. case_match; lia. Qed.

(** The entry the pointers stand on. *)
Definition at_end (f : tty_flip_buffer) (ch flag : Z) : Prop :=
  slice (char_buf_ptr f) 1 (char_buf f) = [ch] /\ slice (flag_buf_ptr f) 1 (flag_buf f) = [flag].

(** [f'] differs from [f] behind the entries it holds only. *)
Definition same_flip (f f' : tty_flip_buffer) : Prop :=
  flip_ok f' /\ contents f' = contents f /\ flip_count f' = flip_count f.

Lemma poke_char_ok f ch :
  flip_ok f -> flip_count f < TTY_FLIPBUF_SIZE ->
  exists f', poke_char f ch = Some f' /\ same_flip f f' /\ slice (char_buf_ptr f') 1 (char_buf f') = [ch].
Proof.
  intros (L1 & L2 & Hc & P1 & P2) Hn. pose proof (flip_base_range f) as Hb. unfold poke_char.
  assert (Hw : char_buf_ptr f + zlen [ch] <= zlen (char_buf f)) by (change (zlen [ch]) with 1; lia).
  rewrite mem_write_Some by (lia || done). cbn [mbind option_bind]. eexists. split; [done|]. split.
  - unfold same_flip, flip_ok, contents, flip_base in *. cbn [set_chars char_buf flag_buf char_buf_ptr flag_buf_ptr flip_count buf_num] in *.
    rewrite zlen_splice by (lia || done). split_and!; try done; try lia. f_equal. rewrite P1. apply slice_splice_before; lia || (rewrite <- P1; done).
  - cbn [set_chars char_buf char_buf_ptr]. apply (slice_splice_eq (char_buf_ptr f) [ch]); [lia|done].
Qed.

Lemma poke_flag_ok f ch flag :
  flip_ok f -> flip_count f < TTY_FLIPBUF_SIZE -> slice (char_buf_ptr f) 1 (char_buf f) = [ch] ->
  exists f', poke_flag f flag = Some f' /\ same_flip f f' /\ at_end f' ch flag.
Proof.
  intros (L1 & L2 & Hc & P1 & P2) Hn He. pose proof (flip_base_range f) as Hb. unfold poke_flag.
  assert (Hw : flag_buf_ptr f + zlen [flag] <= zlen (flag_buf f)) by (change (zlen [flag]) with 1; lia).
  rewrite mem_write_Some by (lia || done). cbn [mbind option_bind]. eexists. split; [done|]. split.
  - unfold same_flip, flip_ok, contents, flip_base in *. cbn [set_flags char_buf flag_buf char_buf_ptr flag_buf_ptr flip_count buf_num] in *.
    rewrite zlen_splice by (lia || done). split_and!; try done; try lia. f_equal. rewrite P2. apply slice_splice_before; lia || (rewrite <- P2; done).
  - split; [done|]. cbn [set_flags flag_buf flag_buf_ptr]. apply (slice_splice_eq (flag_buf_ptr f) [flag]); [lia|done].
Qed.

Lemma advance_ok f ch flag :
  flip_ok f -> flip_count f < TTY_FLIPBUF_SIZE -> at_end f ch flag ->
  flip_ok (advance f) /\ contents (advance f) = contents f ++ [(ch, flag)].
Proof.
  intros (L1 & L2 & Hc & P1 & P2) Hn [E1 E2]. pose proof (flip_base_range f) as Hb. split.
  - unfold flip_ok, flip_base in *. cbn. split_and!; try done; lia.
  - unfold contents. change (flip_base (advance f)) with (flip_base f). cbn [advance flip_count char_buf flag_buf].
    rewrite !slice_app by lia. rewrite P1 in E1. rewrite P2 in E2.
    rewrite zip_with_app by (apply Nat2Z.inj; fold (zlen (slice (flip_base f) (flip_count f) (char_buf f)));
      fold (zlen (slice (flip_base f) (flip_count f) (flag_buf f))); rewrite !zlen_slice; lia).
    by rewrite E1, E2.
Qed.

(** The flush hands the half over. *)
Lemma flush_ok t :
  flip_ok (flip t) ->
  exists t', flush_to_ldisc t = Some t' /\ flip_ok (flip t') /\ stream t' = stream t
    /\ (dont_flip t = false -> flip_count (flip t') = 0) /\ (dont_flip t = true -> t' = t)
    /\ dont_flip t' = dont_flip t /\ low_latency t' = low_latency t /\ tty_stopped t' = tty_stopped t.
Proof.
  intros (L1 & L2 & Hc & P1 & P2). unfold flush_to_ldisc. destruct (dont_flip t) eqn:D.
  { exists t. split_and!; try done. }
  unfold stream, contents. unfold flip_base in *. destruct (Z.eqb_spec (buf_num (flip t)) 0) as [B|B]; cbn [negb];
    rewrite !mem_read_Some by (unfold TTY_FLIPBUF_SIZE in *; lia); cbn [mbind option_bind]; eexists; (split; [done|]);
    cbn [flip received char_buf flag_buf flip_count buf_num].
  all: split; [unfold flip_ok, flip_base; cbn; split_and!; done || (unfold TTY_FLIPBUF_SIZE; lia)|].
  all: split; [by rewrite slice_0, app_nil_r|done].
Qed.

(** ** Receiving *)

(** The status of a character behind the masks; [None] where a break was taken. *)
Definition rx_final (rd : rx_reading) (rsm : Z) : option Z :=
  let status := rx_status rd in
  if hasbits status RX_ERRORS then
    if hasbits status RXBRK && rx_break rd then None
    else Some (Z.land (if hasbits status RXBRK then Z.land status (Z.lnot (Z.lor RXFRAMERR RXPARERR)) else status) rsm)
  else Some status.

(** What the line discipline is to get for a character. *)
Definition rx_char (rsm ism : Z) (rd : rx_reading) : option (Z * Z) :=
  status ← rx_final rd rsm;
  if rx_sysrq rd then None
  else if Z.land status ism =? 0 then Some (u8 (rx_ch rd), error_flag status) else None.

(** Whether an overrun is to be noted behind a character. *)
Definition rx_mark (rsm : Z) (rd : rx_reading) : bool :=
  match rx_final rd rsm with
  | Some status => negb (rx_sysrq rd) && hasbits status RXOVFERR
  | None => false
  end.

(** The entries for a character, in a half of the buffer that holds [n]: the character if it
    is kept, and the mark of an overrun unless the half is full then. *)
Definition rx_entry (rsm ism n : Z) (rd : rx_reading) : list (Z * Z) :=
  let kept := option_list (rx_char rsm ism rd) in
  kept ++ if rx_mark rsm rd && (n + zlen kept <? TTY_FLIPBUF_SIZE) then [(0, TTY_OVERRUN)] else [].

(** The entries for the characters; the other half is used when one is full. *)
Fixpoint rx_entries (rsm ism n : Z) (rds : list rx_reading) : list (Z * Z) :=
  match rds with
  | [] => []
  | rd :: rds' =>
      let n := if TTY_FLIPBUF_SIZE <=? n then 0 else n in
      let e := rx_entry rsm ism n rd in
      e ++ rx_entries rsm ism (n + zlen e) rds'
  end.

Lemma rx_errors_final rd rsm c : fst (rx_errors rd rsm c) = rx_final rd rsm.
Proof. unfold rx_errors, rx_final. by repeat case_match. Qed.

Lemma rx_errors_count rd rsm c : ic_rx (snd (rx_errors rd rsm c)) = ic_rx c.
Proof. unfold rx_errors, count_error, count_overrun. by repeat case_match. Qed.

Lemma error_flag_normal status : hasbits status RX_ERRORS = false -> error_flag status = TTY_NORMAL.
Proof.
  unfold RX_ERRORS, error_flag. rewrite !has_lor.
  destruct (hasbits status RXBRK), (hasbits status RXFRAMERR), (hasbits status RXPARERR); done.
Qed.

Lemma zlen_contents f : flip_ok f -> zlen (contents f) = flip_count f.
Proof.
  intros (L1 & L2 & Hc & _). pose proof (flip_base_range f). unfold contents, zlen. rewrite length_zip_with.
  assert (E1 : zlen (slice (flip_base f) (flip_count f) (char_buf f)) = flip_count f) by (apply zlen_slice; lia).
  assert (E2 : zlen (slice (flip_base f) (flip_count f) (flag_buf f)) = flip_count f) by (apply zlen_slice; lia).
  unfold zlen in E1, E2. lia.
Qed.

Lemma rx_flag_ok rd status f ch :
  flip_ok f -> flip_count f < TTY_FLIPBUF_SIZE -> at_end f ch TTY_NORMAL ->
  (hasbits (rx_status rd) RX_ERRORS = false -> error_flag status = TTY_NORMAL) ->
  exists f', rx_flag rd status f = Some f' /\ same_flip f f' /\ at_end f' ch (error_flag status).
Proof.
  intros Hf Hc He Hn. unfold rx_flag.
  destruct (hasbits (rx_status rd) RX_ERRORS); cbn [andb];
    [destruct (Z.eqb_spec (error_flag status) TTY_NORMAL) as [E|E]; cbn [negb]|specialize (Hn eq_refl)].
  1,3: exists f; unfold same_flip; rewrite ?E, ?Hn; split_and!; done || apply He.
  apply poke_flag_ok; [done|done|apply He].
Qed.

Lemma rx_keep_ok status ism f ch flag :
  flip_ok f -> flip_count f < TTY_FLIPBUF_SIZE -> at_end f ch flag ->
  exists f', rx_keep status ism f = Some f' /\ flip_ok f'
    /\ contents f' = contents f ++ let kept := if Z.land status ism =? 0 then [(ch, flag)] else [] in
         kept ++ if hasbits status RXOVFERR && (flip_count f + zlen kept <? TTY_FLIPBUF_SIZE) then [(0, TTY_OVERRUN)] else [].
Proof.
  intros Hf Hc He. unfold rx_keep. set (f1 := if Z.land status ism =? 0 then _ else _). cbn zeta.
  set (kept := if Z.land status ism =? 0 then [(ch, flag)] else []).
  assert (H1 : flip_ok f1 /\ contents f1 = contents f ++ kept /\ flip_count f1 = flip_count f + zlen kept).
  { unfold f1, kept. destruct (Z.land status ism =? 0); [|by rewrite app_nil_r, zlen_nil, Z.add_0_r].
    destruct (advance_ok f ch flag Hf Hc He) as [Ha E]. done. }
  destruct H1 as (Hf1 & E1 & N1). rewrite <- N1.
  destruct (hasbits status RXOVFERR && (flip_count f1 <? TTY_FLIPBUF_SIZE)) eqn:O; [|exists f1; by rewrite app_nil_r].
  apply andb_true_iff in O as [_ O%Z.ltb_lt].
  destruct (poke_char_ok f1 0 Hf1 O) as (f2 & -> & (Hf2 & C2 & N2) & S2). cbn [mbind option_bind].
  destruct (poke_flag_ok f2 0 TTY_OVERRUN Hf2 ltac:(lia) S2) as (f3 & -> & (Hf3 & C3 & N3) & S3). cbn [mbind option_bind].
  destruct (advance_ok f3 _ _ Hf3 ltac:(lia) S3) as [Ha E]. eexists. split; [done|]. split; [done|].
  by rewrite E, C3, C2, E1, app_assoc.
Qed.

(** One character. *)
Lemma rx_one_ok rd p :
  flip_ok (flip (tty p)) -> flip_count (flip (tty p)) < TTY_FLIPBUF_SIZE ->
  exists p' f c, rx_one rd p = Some p' /\ p' = with_icount (with_tty p (set_flip (tty p) f)) c /\ flip_ok f
    /\ ic_rx c = u32 (ic_rx (icount p) + 1)
    /\ contents f = contents (flip (tty p))
         ++ rx_entry (read_status_mask p) (ignore_status_mask p) (flip_count (flip (tty p))) rd.
Proof.
  intros Hf Hc. unfold rx_one, rx_entry, rx_mark, rx_char.
  destruct (poke_char_ok _ (u8 (rx_ch rd)) Hf Hc) as (f1 & -> & (Hf1 & C1 & N1) & S1). cbn [mbind option_bind].
  destruct (poke_flag_ok f1 _ TTY_NORMAL Hf1 ltac:(lia) S1) as (f2 & -> & (Hf2 & C2 & N2) & S2). cbn [mbind option_bind].
  pose proof (rx_errors_final rd (read_status_mask p) (count_rx (icount p))) as Hfin.
  pose proof (rx_errors_count rd (read_status_mask p) (count_rx (icount p))) as Hcnt.
  destruct (rx_errors rd (read_status_mask p) (count_rx (icount p))) as [o c]. cbn [fst snd] in Hfin, Hcnt. subst o.
  destruct (rx_final rd (read_status_mask p)) as [status|] eqn:F.
  - destruct (rx_flag_ok rd status f2 _ Hf2 ltac:(lia) S2) as (f3 & -> & (Hf3 & C3 & N3) & S3).
    { intros Hn. unfold rx_final in F. rewrite Hn in F. injection F as <-. by apply error_flag_normal. }
    cbn [mbind option_bind]. destruct (rx_sysrq rd).
    + eexists _, f3, c. split; [done|]. split_and!; try done. cbn. by rewrite app_nil_r, C3, C2, C1.
    + destruct (rx_keep_ok status (ignore_status_mask p) f3 _ _ Hf3 ltac:(lia) S3) as (f4 & -> & Hf4 & E4).
      eexists _, f4, c. split; [done|]. split_and!; try done. rewrite E4, C3, C2, C1, N3, N2, N1. cbn zeta.
      by destruct (Z.land status (ignore_status_mask p) =? 0).
  - eexists _, f2, c. split; [done|]. split_and!; try done. cbn. by rewrite app_nil_r, C2, C1.
Qed.

(** What the receive loop keeps. *)
Definition rx_same (p p' : uart_port) : Prop :=
  regs p' = regs p /\ x_char p' = x_char p /\ xmit p' = xmit p /\ fifosize p' = fifosize p /\ u_irq p' = u_irq p
  /\ read_status_mask p' = read_status_mask p /\ ignore_status_mask p' = ignore_status_mask p
  /\ dont_flip (tty p') = dont_flip (tty p) /\ low_latency (tty p') = low_latency (tty p)
  /\ tty_stopped (tty p') = tty_stopped (tty p).

Definition ready (rd : rx_reading) : Prop := hasbits (rx_status rd) RXFIFONE = true.

Lemma rx_same_trans p p1 p2 : rx_same p p1 -> rx_same p1 p2 -> rx_same p p2.
Proof. unfold rx_same. intros. destruct_and!. split_and!; congruence. Qed.

(** Why the loop ends: the FIFO is empty, the count is used up, or the buffer is full and
    cannot be flipped. *)
Definition rx_end (n : nat) (t : tty_struct) (taken rest : list rx_reading) (pushed : bool) : Prop :=
  if pushed then rest = [] \/ length taken = n \/ (exists rd rest', rest = rd :: rest' /\ ~ ready rd)
  else dont_flip t = true /\ flip_count (flip t) = TTY_FLIPBUF_SIZE.

Lemma rx_loop_ok n rds p :
  flip_ok (flip (tty p)) ->
  exists b taken rest p', rx_loop n rds p = Some (b, rest, p') /\ rds = taken ++ rest /\ (length taken <= n)%nat
    /\ Forall ready taken /\ flip_ok (flip (tty p')) /\ rx_same p p' /\ rx_end n (tty p') taken rest b
    /\ stream (tty p') = stream (tty p)
         ++ rx_entries (read_status_mask p) (ignore_status_mask p) (flip_count (flip (tty p))) taken.
Proof.
  revert rds p. induction n as [|n IH]; intros rds p Hf.
  { exists true, [], rds, p. rewrite app_nil_r. split; [by destruct rds|]. split_and!; try done. right. by left. }
  destruct rds as [|rd rds]; cbn [rx_loop].
  { exists true, [], [], p. split_and!; try done; [cbn; lia|by left|by rewrite app_nil_r]. }
  destruct (hasbits (rx_status rd) RXFIFONE) eqn:R.
  2:{ exists true, [], (rd :: rds), p. rewrite app_nil_r. split_and!; try done; try (cbn; lia).
      right. right. exists rd, rds. split; [done|]. unfold ready. congruence. }
  assert (T : exists t, (if flip_full (tty p) then flush_to_ldisc (tty p) else Some (tty p)) = Some t
    /\ flip_ok (flip t) /\ stream t = stream (tty p) /\ rx_same p (with_tty p t)
    /\ (flip_full t = true -> dont_flip t = true)
    /\ (flip_full t = false -> flip_count (flip t) = if TTY_FLIPBUF_SIZE <=? flip_count (flip (tty p)) then 0 else flip_count (flip (tty p)))).
  { destruct (flip_full (tty p)) eqn:Fu.
    - destruct (flush_ok (tty p) Hf) as (t & -> & Ht & Es & Hz & Heq & D1 & D2 & D3). exists t. split_and!; try done.
      + unfold flip_full. intros Hfull%Z.leb_le. rewrite D1. destruct (dont_flip (tty p)); [done|].
        rewrite Hz in Hfull by done. done.
      + intros Hfl. unfold flip_full in Fu. rewrite Fu. destruct (dont_flip (tty p)) eqn:Df; [|by apply Hz].
        exfalso. rewrite Heq in Hfl by done. unfold flip_full in Hfl. congruence.
    - exists (tty p). split_and!; try done; [congruence|]. unfold flip_full in Fu. by rewrite Fu. }
  destruct T as (t & -> & Ht & Es & Hs & Hd & Hcnt). cbn [mbind option_bind]. change (tty (with_tty p t)) with t.
  destruct (flip_full t) eqn:Fu.
  { exists false, [], (rd :: rds), (with_tty p t). cbn [tty with_tty app rx_entries]. rewrite app_nil_r, Es.
    split_and!; try done; try (cbn; lia). split; [by apply Hd|]. destruct Ht as (_ & _ & Hle & _).
    unfold flip_full in Fu. apply Z.leb_le in Fu. cbn [with_tty tty]. lia. }
  specialize (Hcnt eq_refl). unfold flip_full in Fu. apply Z.leb_gt in Fu.
  destruct (rx_one_ok rd (with_tty p t) Ht Fu) as (p1 & f & c & -> & -> & Hf1 & _ & E1). cbn [mbind option_bind].
  set (p1 := with_icount _ c). assert (Hs1 : rx_same p p1) by (apply (rx_same_trans _ _ _ Hs); done).
  destruct (IH rds p1 Hf1) as (b & taken & rest & p2 & E2 & -> & L2 & R2 & F2 & S2 & N2 & C2).
  exists b, (rd :: taken), rest, p2. split; [done|]. split; [done|]. split; [cbn; lia|]. split; [by constructor|].
  split; [done|]. split; [by apply rx_same_trans with p1|]. split.
  - unfold rx_end in *. destruct b.
    + destruct N2 as [N2|[N2|N2]]; [by left|right; left; cbn; lia|by right; right].
    + done.
  - rewrite C2. change (read_status_mask p1) with (read_status_mask p). change (ignore_status_mask p1) with (ignore_status_mask p).
    change (stream (tty p1)) with (received t ++ contents f). change (flip (tty p1)) with f.
    change (tty (with_tty p t)) with t in E1. change (read_status_mask (with_tty p t)) with (read_status_mask p) in E1.
    change (ignore_status_mask (with_tty p t)) with (ignore_status_mask p) in E1.
    rewrite <- (zlen_contents f Hf1), E1, zlen_app, (zlen_contents _ Ht). rewrite <- Es. unfold stream.
    cbn [rx_entries]. rewrite <- Hcnt, <- !app_assoc. done.
Qed.

Lemma rx_chars_ok rds p :
  flip_ok (flip (tty p)) ->
  exists b taken rest p', bcm63xx_rx_chars rds p = Some (rest, p') /\ rds = taken ++ rest /\ (length taken <= 256)%nat
    /\ Forall ready taken /\ flip_ok (flip (tty p')) /\ rx_same p p' /\ rx_end 256 (tty p') taken rest b
    /\ stream (tty p') = stream (tty p)
         ++ rx_entries (read_status_mask p) (ignore_status_mask p) (flip_count (flip (tty p))) taken
    /\ (low_latency (tty p) = true -> dont_flip (tty p) = false -> stream (tty p') = received (tty p')).
Proof.
  intros Hf. unfold bcm63xx_rx_chars. destruct (rx_loop_ok 256 rds p Hf) as (b & taken & rest & p1 & -> & -> & L & R & F & S & N & C).
  cbn [mbind option_bind]. exists b, taken, rest. destruct b.
  - unfold tty_flip_buffer_push. destruct (low_latency (tty p1)) eqn:Ll.
    + destruct (flush_ok (tty p1) F) as (t & -> & Ht & Es & Hz & _ & D1 & D2 & D3). cbn [mbind option_bind].
      eexists. split; [done|]. split_and!; try done.
      * apply (rx_same_trans _ _ _ S). unfold rx_same. by split_and!.
      * cbn [tty with_tty]. by rewrite Es.
      * intros _ Hd. cbn [tty with_tty]. unfold stream. rewrite <- app_nil_r. f_equal. unfold contents. rewrite Hz; [done|].
        destruct S as (_ & _ & _ & _ & _ & _ & _ & -> & _). done.
    + cbn [mbind option_bind]. eexists. split; [done|]. split_and!; try done.
      intros Hl. exfalso. destruct S as (_ & _ & _ & _ & _ & _ & _ & _ & E & _). congruence.
  - exists p1. split_and!; try done. intros _ Hd. destruct N as [N _].
    destruct S as (_ & _ & _ & _ & _ & _ & _ & Ed & _). congruence.
Qed.

(** ** The interrupt handler *)

Definition serial_inv (p : uart_port) (q : list Z) : Prop := tx_inv p q /\ flip_ok (flip (tty p)).

Lemma rx_same_tx_inv p p' q : rx_same p p' -> tx_inv p q -> tx_inv p' q /\ wire p' = wire p.
Proof.
  intros (E1 & E2 & E3 & _ & _ & _ & _ & _ & _ & E4) (H1 & H2 & H3 & H4). unfold tx_inv, wire, mask_of in *.
  rewrite E1, E2, E3, E4. by split_and!.
Qed.

Lemma int_pass_ok i status p q :
  serial_inv p q ->
  exists p' s q', int_pass i status p = Some p' /\ q = s ++ q' /\ wire p' = wire p ++ s /\ serial_inv p' q'.
Proof.
  intros [Ht Hf]. unfold int_pass.
  assert (R : exists p1, (if hasbits status RXFIFONE then '(_, p) ← bcm63xx_rx_chars (ps_rx i) p; Some p else Some p) = Some p1
    /\ tx_inv p1 q /\ wire p1 = wire p /\ flip_ok (flip (tty p1))).
  { destruct (hasbits status RXFIFONE); [|by exists p].
    destruct (rx_chars_ok (ps_rx i) p Hf) as (b & tk & rest & p1 & -> & _ & _ & _ & F & S & _). cbn [mbind option_bind].
    destruct (rx_same_tx_inv p p1 q S Ht). by exists p1. }
  destruct R as (p1 & -> & Ht1 & W1 & F1). cbn [mbind option_bind]. destruct (hasbits status (Z.lor TXFIFOEMT TXFIFOTHOLD)).
  - destruct Ht1 as (H & Hx & Hs & Hm). destruct (tx_chars_ok (ps_emt i) (ps_level i) p1 q H Hx Hs)
      as (p2 & s & q' & -> & Eq & Hi & Hw & Etty & _).
    { intros Hn. rewrite Hm. by rewrite bool_decide_eq_false_2. }
    exists p2, s, q'. rewrite Hw, W1. unfold serial_inv. by rewrite Etty.
  - exists p1, [], q. rewrite app_nil_r. by rewrite W1.
Qed.

Lemma int_loop_ok k ins n p q :
  serial_inv p q ->
  exists m p' s q', int_loop k ins n p = Some (m, p') /\ (n <= m <= n + k + 1)%nat /\ q = s ++ q'
    /\ wire p' = wire p ++ s /\ serial_inv p' q'
    /\ ((m <= n + k)%nat -> Z.land (ps_status (ins m)) (mask_of p') = 0).
Proof.
  revert n p q. induction k as [|k IH]; intros n p q Hi; cbn [int_loop];
    (destruct (Z.eqb_spec (Z.land (ps_status (ins n)) (mask_of p)) 0) as [E|E];
     [exists n, p, [], q; rewrite app_nil_r; split_and!; done || lia|]);
    destruct (int_pass_ok (ins n) (Z.land (ps_status (ins n)) (mask_of p)) p q Hi) as (p1 & s1 & q1 & -> & -> & W1 & Hi1);
    cbn [mbind option_bind].
  - exists (S n), p1, s1, q1. split_and!; try done; lia.
  - destruct (IH (S n) p1 q1 Hi1) as (m & p2 & s2 & q2 & -> & Hm & -> & W2 & Hi2 & Hl).
    exists m, p2, (s1 ++ s2), q2. rewrite W2, W1, <- !app_assoc. split_and!; try done; lia || (intros; apply Hl; lia).
Qed.

(** ** Line settings *)

(** The distance of the clock from [v + 1] times 32 times the rate. *)
Definition clock_error (baud v : Z) : Z := Z.abs (32 * baud * (v + 1) - FPERIPH).

Lemma baud_value_nearest baud :
  0 < baud <= FPERIPH / 16 ->
  exists v, baud_value baud = Some v /\ 0 <= v < 2 ^ 32 /\ forall v', 0 <= v' -> clock_error baud v <= clock_error baud v'.
Proof.
  intros Hb. unfold baud_value. destruct (Z.eqb_spec baud 0); [lia|].
  rewrite Z.div_div by lia. set (q := FPERIPH / (baud * 16)).
  assert (Hq : baud * 16 * q <= FPERIPH < baud * 16 * (q + 1)).
  { unfold q. pose proof (Z.mul_div_le FPERIPH (baud * 16) ltac:(lia)). pose proof (Z.mul_succ_div_gt FPERIPH (baud * 16) ltac:(lia)). lia. }
  assert (H1 : 1 <= q < 2 ^ 31). { change (FPERIPH / 16) with 3125000 in Hb. unfold FPERIPH in *. nia. }
  change 1 with (2 ^ 0) at 1. rewrite land_pow2_test, Z.bit0_odd by lia.
  set (v := if Z.odd q then q / 2 else u32 (q / 2 - 1)).
  assert (Hv : 0 <= v < 2 ^ 32 /\ (q = 2 * v + 1 \/ q = 2 * v + 2)).
  { unfold v. pose proof (Z.div2_odd q) as Ho. rewrite Z.div2_div in Ho. destruct (Z.odd q); cbn [Z.b2z] in Ho; [lia|].
    rewrite u32_id by (unfold is_u32; lia). lia. }
  exists v. split; [done|]. split; [lia|]. intros v' Hv'. unfold clock_error.
  assert (Hm : 2 * Z.abs (32 * baud * (v + 1) - FPERIPH) <= 32 * baud).
  { destruct Hv as [_ [E|E]]; rewrite E in Hq; lia. }
  destruct (Z.eq_dec v' v) as [->|Hne]; [lia|].
  assert (Hd : 32 * baud <= Z.abs (32 * baud * (v' + 1) - 32 * baud * (v + 1))).
  { rewrite <- Z.mul_sub_distr_l, Z.abs_mul, (Z.abs_eq (32 * baud)) by lia. nia. }
  lia.
Qed.

(** ** Console *)

Definition crlf (s : list Z) : list Z := concat (map (fun c => if c =? 10 then [10; 13] else [c]) s).

(** The readings at which the transmitter is empty. *)
Definition empties (sts : list Z) : Z := zlen (List.filter (fun s => hasbits s TXFIFOEMT) sts).

Lemma wait_empty_ok sts : 0 < empties sts -> exists sts', wait_empty sts = Some sts' /\ empties sts' = empties sts - 1.
Proof.
  unfold empties. induction sts as [|s sts IH]; intros H; cbn [wait_empty List.filter] in *; [by change (zlen (@nil Z)) with 0 in H|].
  destruct (hasbits s TXFIFOEMT); [|by apply IH]. exists sts. split; [done|]. rewrite zlen_cons. lia.
Qed.

Lemma console_put_ok c sts p :
  0 < empties sts ->
  exists sts', console_put c sts p = Some (sts', with_regs p (put_data (regs p) c)) /\ empties sts' = empties sts - 1.
Proof.
  intros H. unfold console_put. destruct (wait_empty_ok sts H) as (sts' & -> & E). cbn [mbind option_bind]. by exists sts'.
Qed.

Lemma s8_newline c : is_u8 c -> (s8 c =? 10) = (c =? 10).
Proof.
  intros Hc. apply eqb_iff. unfold is_u8 in Hc. unfold s8. pose proof (Z.mod_pos_bound (c + 2 ^ 7) (2 ^ 8)).
  destruct (Z_lt_le_dec c 128); [rewrite Z.mod_small by lia; lia|].
  replace (c + 2 ^ 7) with (c - 128 + 1 * 2 ^ 8) by lia. rewrite Z_mod_plus_full, Z.mod_small by lia. lia.
Qed.

Lemma wire_put p c : wire (with_regs p (put_data (regs p) c)) = wire p ++ [u8 (u16 c)].
Proof. unfold wire. cbn [with_regs regs put_data Data]. by rewrite map_app. Qed.

Lemma console_loop_ok s sts p :
  Forall is_u8 s -> zlen (crlf s) <= empties sts ->
  exists sts' p', console_loop s sts p = Some (sts', p') /\ wire p' = wire p ++ crlf s /\ xmit p' = xmit p.
Proof.
  intros Hs. revert sts p. induction Hs as [|c s Hc Hs IH]; intros sts p He; cbn [console_loop].
  { exists sts, p. by rewrite app_nil_r. }
  change (crlf (c :: s)) with ((if c =? 10 then [10; 13] else [c]) ++ crlf s) in *. rewrite zlen_app in He.
  pose proof (zlen_nonneg (crlf s)) as Hn.
  destruct (console_put_ok (s8 c) sts p) as (sts1 & -> & E1).
  { destruct (c =? 10); rewrite ?zlen_cons, ?zlen_nil in He; lia. }
  cbn [mbind option_bind]. rewrite s8_newline by done. set (p1 := with_regs p _).
  assert (W1 : wire p1 = wire p ++ [c]) by (unfold p1; by rewrite wire_put, u8_char).
  destruct (Z.eqb_spec c 10) as [->|Hne].
  - rewrite !zlen_cons in He. change (zlen (@nil Z)) with 0 in He.
    destruct (console_put_ok 13 sts1 p1) as (sts2 & -> & E2); [lia|]. cbn [mbind option_bind].
    destruct (IH sts2 (with_regs p1 (put_data (regs p1) 13))) as (sts3 & p3 & -> & W3 & X3); [lia|].
    exists sts3, p3. split; [done|]. split; [|done]. rewrite W3, wire_put, W1, <- !app_assoc. done.
  - rewrite !zlen_cons in He. change (zlen (@nil Z)) with 0 in He. cbn [mbind option_bind].
    destruct (IH sts1 p1) as (sts3 & p3 & -> & W3 & X3); [lia|]. exists sts3, p3. split; [done|]. split; [|done].
    rewrite W3, W1, <- !app_assoc. done.
Qed.

(** With interrupts off nobody masks the transmission interrupt, and the console waits. *)
Lemma console_waits n s sts p :
  hasbits (mask_of p) TXFIFOEMT = true -> bcm63xx_console_write (replicate n (fun p => p)) s sts p = None.
Proof.
  intros H. unfold bcm63xx_console_write. assert (E : wait_masked (replicate n (fun p => p)) p = None).
  { induction n as [|n IH]; cbn [replicate wait_masked]; by rewrite H. }
  by rewrite E.
Qed.

(** The threshold that [bcm63xx_startup] means to set does not fit into the register. *)
Lemma startup_threshold chip answer p r x p' r' :
  fifosize p = 16 -> bcm63xx_startup chip answer p r = Some (x, p', r') -> fifocfg (regs p') = 0.
Proof.
  intros Hf. unfold bcm63xx_startup. destruct (BcmHalMapInterrupt chip (u_irq p) answer r) as [a r1].
  destruct (enable_brcm_irq chip (u_irq p) r1); [|done]. cbn [mbind option_bind]. rewrite Hf. intros [= <- <- <-]. done.
Qed.

(** With [CREAD] off, a character with an error that is not reported is received nevertheless. *)
Example cread_off_receives :
  let t := mkTermios 0 0 in
  rx_char (termios_read_mask t) (termios_ignore_mask t) (mkRx RXFIFONE 65 false false) = None
  /\ rx_char (termios_read_mask t) (termios_ignore_mask t) (mkRx (Z.lor RXFIFONE RXPARERR) 65 false false) = Some (65, TTY_NORMAL).
Proof. done. Qed.

(** ** Properties *)

Lemma tx_loop_irq fuel level n p p' : tx_loop fuel level n p = Some p' -> u_irq p' = u_irq p.
Proof.
  revert n p. induction fuel as [|fuel IH]; intros n p; cbn [tx_loop]; [done|].
  destruct (level n <? fifosize p); [|by intros [= <-]]. unfold send_tail.
  destruct (cb_buf (xmit p) !! Z.to_nat (cb_tail (xmit p))); [|done]. cbn [mbind option_bind].
  case_match; [by intros [= <-]|]. intros E. by apply IH in E.
Qed.

Lemma tx_chars_irq sts level p p' : bcm63xx_tx_chars sts level p = Some p' -> u_irq p' = u_irq p.
Proof.
  unfold bcm63xx_tx_chars. set (p0 := write_mask p _). destruct (negb (x_char p0 =? 0)).
  { destruct (wait_empty sts); [|done]. by intros [= <-]. }
  case_match; [by intros [= <-]|]. destruct (tx_loop _ level 0 p0) as [p1|] eqn:E; [|done]. apply tx_loop_irq in E.
  cbn [mbind option_bind]. intros H1. repeat case_match; injection H1 as <-; exact E.
Qed.

(** *** The handler with a character of the flow control pending, or a stopped tty

    What [p'] has sent beyond [p]: the characters [s] of the ring, and in front of them the
    pending [x_char] if it was sent; while it is pending nothing else is. *)
Definition sends (p p' : uart_port) (s : list Z) : Prop :=
  (x_char p' = x_char p /\ wire p' = wire p ++ s /\ (x_char p <> 0 -> s = []))
  \/ (x_char p <> 0 /\ x_char p' = 0 /\ wire p' = wire p ++ u8 (x_char p) :: s).

Lemma sends_trans p p1 p2 s1 s2 : sends p p1 s1 -> sends p1 p2 s2 -> sends p p2 (s1 ++ s2).
Proof.
  intros [(X1 & W1 & N1)|(X1 & Y1 & W1)] [(X2 & W2 & N2)|(X2 & Y2 & W2)].
  - left. rewrite W2, W1, <- app_assoc. split_and!; [congruence|done|]. intros H. rewrite N1, N2 by congruence. done.
  - right. rewrite N1 in * by congruence. rewrite app_nil_r in W1. rewrite W2, W1, X1. split_and!; congruence || done.
  - right. rewrite W2, W1, <- app_assoc. split_and!; congruence || done.
  - congruence.
Qed.

Lemma sends_none p p' : x_char p' = x_char p -> wire p' = wire p -> sends p p' [].
Proof. intros E W. left. by rewrite app_nil_r. Qed.

(** The transmitter is seen empty. *)
Definition seen_empty (sts : list Z) : Prop := exists st, st ∈ sts /\ hasbits st TXFIFOEMT = true.

Lemma wait_empty_seen sts : seen_empty sts -> is_Some (wait_empty sts).
Proof.
  intros (st & Hin & Hst). induction sts as [|st0 sts IH]; [by apply not_elem_of_nil in Hin|]. cbn [wait_empty].
  destruct (hasbits st0 TXFIFOEMT) eqn:E; [by eexists|]. apply elem_of_cons in Hin as [->|Hin]; [congruence|by apply IH].
Qed.

(** Without that the wait does not end. *)
Lemma wait_empty_never sts : Forall (fun st => hasbits st TXFIFOEMT = false) sts -> wait_empty sts = None.
Proof. induction 1 as [|st sts H _ IH]; [done|]. cbn [wait_empty]. by rewrite H. Qed.

Lemma u8_u16 x : u8 (u16 x) = u8 x.
Proof. unfold u8, u16. by rewrite Z.mod_mod_divide by by exists 256. Qed.

Lemma tx_chars_gen sts level p q :
  ring_holds (xmit p) q -> (x_char p <> 0 -> seen_empty sts) ->
  exists p' s q', bcm63xx_tx_chars sts level p = Some p' /\ q = s ++ q' /\ ring_holds (xmit p') q' /\ sends p p' s
    /\ tty p' = tty p /\ (tty_stopped (tty p) = true -> s = []).
Proof.
  intros H Hx. unfold bcm63xx_tx_chars. set (p0 := write_mask p _). change (x_char p0) with (x_char p).
  destruct (Z.eqb_spec (x_char p) 0) as [X|X]; cbn [negb].
  2:{ destruct (wait_empty_seen sts (Hx X)) as [r ->]. cbn [mbind option_bind]. eexists _, [], q. split; [done|].
      split_and!; try done. right. split_and!; try done. unfold wire. cbn [with_x_char count_tx with_icount with_regs regs put_data Data].
      rewrite map_app. cbn [map]. by rewrite u8_u16. }
  change (xmit p0) with (xmit p). change (tty p0) with (tty p). rewrite (holds_empty _ q H).
  destruct (bool_decide (q = []) || tty_stopped (tty p)) eqn:S.
  { exists (bcm63xx_stop_tx p0), [], q. split_and!; try done. by apply sends_none. }
  apply orb_false_iff in S as [Hq%bool_decide_eq_false Hs]. pose proof (holds_length _ _ H) as Hl.
  destruct (tx_loop_ok (Z.to_nat UART_XMIT_SIZE) level 0 p0 q H Hq ltac:(unfold UART_XMIT_SIZE; lia))
    as (p1 & s & q' & -> & -> & H1 & W1 & M1 & X1 & T1 & F1 & _). cbn [mbind option_bind].
  assert (Hp : sends p p1 s) by (left; split_and!; done || (intros ?; done)).
  destruct (uart_circ_chars_pending (xmit p1) <? WAKEUP_CHARS); cbn [with_wakeup xmit];
    destruct (uart_circ_empty (xmit p1)); eexists _, s, q'; (split; [done|]); split_and!; done || congruence.
Qed.

Lemma int_pass_gen i status p q :
  ring_holds (xmit p) q -> flip_ok (flip (tty p)) -> (x_char p <> 0 -> seen_empty (ps_emt i)) ->
  exists p' s q', int_pass i status p = Some p' /\ q = s ++ q' /\ ring_holds (xmit p') q' /\ flip_ok (flip (tty p'))
    /\ sends p p' s /\ (tty_stopped (tty p) = true -> s = []) /\ tty_stopped (tty p') = tty_stopped (tty p)
    /\ u_irq p' = u_irq p.
Proof.
  intros H Hf Hx. unfold int_pass.
  assert (R : exists p1, (if hasbits status RXFIFONE then '(_, p) ← bcm63xx_rx_chars (ps_rx i) p; Some p else Some p) = Some p1
    /\ xmit p1 = xmit p /\ x_char p1 = x_char p /\ wire p1 = wire p /\ flip_ok (flip (tty p1))
    /\ tty_stopped (tty p1) = tty_stopped (tty p) /\ u_irq p1 = u_irq p).
  { destruct (hasbits status RXFIFONE); [|by exists p].
    destruct (rx_chars_ok (ps_rx i) p Hf) as (b & tk & rest & p1 & -> & _ & _ & _ & F & (E1 & E2 & E3 & _ & E5 & _ & _ & _ & _ & E10) & _).
    cbn [mbind option_bind]. exists p1. unfold wire. rewrite E1. by split_and!. }
  destruct R as (p1 & -> & E1 & E2 & E3 & F1 & E4 & E5). cbn [mbind option_bind].
  assert (S1 : sends p p1 []) by by apply sends_none.
  destruct (hasbits status (Z.lor TXFIFOEMT TXFIFOTHOLD)); [|exists p1, [], q; rewrite E1; by split_and!].
  destruct (tx_chars_gen (ps_emt i) (ps_level i) p1 q) as (p2 & s & q' & E & Eq & H2 & S2 & T2 & N2); [by rewrite E1|by rewrite E2|].
  exists p2, s, q'. rewrite E, T2. split_and!; try done.
  - by apply (sends_trans _ _ _ [] s S1).
  - intros Hst. apply N2. congruence.
  - apply tx_chars_irq in E. congruence.
Qed.

Lemma int_loop_gen k ins n p q :
  ring_holds (xmit p) q -> flip_ok (flip (tty p)) -> (x_char p <> 0 -> forall j, seen_empty (ps_emt (ins j))) ->
  exists m p' s q', int_loop k ins n p = Some (m, p') /\ (n <= m <= n + k + 1)%nat /\ q = s ++ q'
    /\ ring_holds (xmit p') q' /\ flip_ok (flip (tty p')) /\ sends p p' s /\ (tty_stopped (tty p) = true -> s = [])
    /\ u_irq p' = u_irq p /\ ((m <= n + k)%nat -> Z.land (ps_status (ins m)) (mask_of p') = 0).
Proof.
  revert n p q. induction k as [|k IH]; intros n p q H Hf Hx; cbn [int_loop];
    (destruct (Z.eqb_spec (Z.land (ps_status (ins n)) (mask_of p)) 0) as [E|E];
     [exists n, p, [], q; split_and!; done || lia || by apply sends_none|]);
    destruct (int_pass_gen (ins n) (Z.land (ps_status (ins n)) (mask_of p)) p q H Hf (fun X => Hx X n))
      as (p1 & s1 & q1 & -> & -> & H1 & F1 & S1 & N1 & T1 & I1); cbn [mbind option_bind].
  - exists (S n), p1, s1, q1. split_and!; done || lia.
  - destruct (IH (S n) p1 q1 H1 F1) as (m & p2 & s2 & q2 & -> & Hm & -> & H2 & F2 & S2 & N2 & I2 & Hl).
    { intros X. apply Hx. destruct S1 as [(X1 & _)|(_ & X1 & _)]; congruence. }
    exists m, p2, (s1 ++ s2), q2. rewrite <- !app_assoc. split_and!; try done; try lia.
    + by eapply sends_trans.
    + intros Ht. rewrite N1, N2 by congruence. done.
Qed.



(** C38: The interrupt handler returns, even if the port always has something to report: the
    loop makes at most 257 passes and ends with a port that has nothing to report unless the
    passes are used up, and the interrupt of the port is opened again.  One wait in it has no
    bound: with a character of the flow control ([x_char]) pending, a pass that sends waits
    until the transmitter is empty; the condition is that one of the readings of each pass
    shows it so (otherwise the wait does not end, [wait_empty_never]).  What is sent is the
    pending [x_char], if a pass sends at all, and behind it a prefix of the ring, nothing of
    it while the tty is stopped; ring and flip buffer stay in order.  If no [x_char] is
    pending and the tty is not stopped, the transmission interrupt stays open exactly while
    characters are left. *)
Theorem serial_int_returns chip ins p q r :
  ring_holds (xmit p) q -> flip_ok (flip (tty p)) -> in_block chip (u_irq p) ->
  (x_char p <> 0 -> forall j, seen_empty (ps_emt (ins j))) ->
  exists m p' s q' r', int_loop BCM63XX_ISR_PASS_LIMIT ins 0 p = Some (m, p') /\ bcm63xx_int chip ins p r = Some (p', r')
    /\ (m <= 257)%nat /\ ((m <= 256)%nat -> Z.land (ps_status (ins m)) (mask_of p') = 0)
    /\ q = s ++ q' /\ ring_holds (xmit p') q' /\ flip_ok (flip (tty p'))
    /\ sends p p' s /\ (tty_stopped (tty p) = true -> s = []) /\ (serial_inv p q -> serial_inv p' q')
    /\ irq_enabled chip r' (u_irq p) = true.
Proof.
  intros H Hf Hb Hx.
  destruct (int_loop_gen BCM63XX_ISR_PASS_LIMIT ins 0 p q H Hf Hx) as (m & p' & s & q' & E & Hm & Eq & H' & F' & S & N & I & Hl).
  destruct (enable_brcm_irq_enabled chip (u_irq p) r Hb) as (r' & Er & Hr).
  exists m, p', s, q', r'. unfold bcm63xx_int. rewrite E. cbn [mbind option_bind]. rewrite I, Er. unfold BCM63XX_ISR_PASS_LIMIT in *.
  split_and!; try done; [lia| |rewrite Hr, Z.eqb_refl by done; apply orb_true_r].
  intros Hi. destruct (int_loop_ok 256 ins 0 p q Hi) as (m2 & p2 & s2 & q2 & E2 & _ & Eq2 & W2 & Hi2 & _).
  rewrite E in E2. injection E2 as <- <-. pose proof (proj1 (proj2 (proj1 Hi))) as X.
  destruct S as [(_ & W & _)|(X' & _)]; [|done]. rewrite W2 in W. apply app_inv_head in W as <-.
  rewrite Eq in Eq2. by apply app_inv_head in Eq2 as <-.
Qed.

(** C39: The clock divisor. For every rate up to a sixteenth of the peripheral clock,
    [bcm63xx_set_termios] returns, the transmitter and the receiver are switched on, and
    the divisor it writes is the best one: no other value of the register brings 32 times
    the bit rate closer to the clock. *)
Theorem serial_baud_nearest t baud p :
  0 < baud <= FPERIPH / 16 ->
  exists p', bcm63xx_set_termios t baud p = Some p' /\ is_u32 (baudword (regs p'))
    /\ (forall v, 0 <= v -> clock_error baud (baudword (regs p')) <= clock_error baud v)
    /\ hasbits (control (regs p')) TXEN = true /\ hasbits (control (regs p')) RXEN = true
    /\ mask_of p' = mask_of p /\ xmit p' = xmit p.
Proof.
  intros Hb. destruct (baud_value_nearest baud Hb) as (v & E & Hv & Hn). unfold bcm63xx_set_termios. rewrite E.
  cbn [mbind option_bind]. eexists. split; [done|]. cbn [with_regs with_masks regs baudword control mask_of xmit intMask].
  split_and!; try done.
  all: change (hasbits (Z.lor (termios_control t) 224) (2 ^ 6) = true) || change (hasbits (Z.lor (termios_control t) 224) (2 ^ 5) = true).
  all: unfold hasbits; rewrite land_pow2_test, Z.lor_spec by lia; apply orb_true_r.
Qed.

(** The console sends every character, with a carriage return behind each newline, and
    leaves the interrupts as they were. *)
Theorem serial_console_write s sts p :
  Forall is_u8 s -> zlen (crlf s) <= empties sts -> hasbits (mask_of p) TXFIFOEMT = false -> is_u16 (mask_of p) ->
  exists p', bcm63xx_console_write [] s sts p = Some p' /\ wire p' = wire p ++ crlf s /\ mask_of p' = mask_of p /\ xmit p' = xmit p.
Proof.
  intros Hs He Hm Hu. unfold bcm63xx_console_write. cbn [wait_masked]. rewrite Hm. cbn [mbind option_bind].
  destruct (console_loop_ok s sts (write_mask p 0) Hs He) as (sts' & p' & -> & W & X). cbn [mbind option_bind].
  eexists. split; [done|]. split_and!; [exact W|by rewrite mask_write, u16_id|exact X].
Qed.

(** ** Examples *)

Definition demo_flip : tty_flip_buffer := mkFlip (replicate 1024 0) (replicate 1024 0) 0 0 0 0.

Definition demo_port : uart_port :=
  mkPort (mkUart 0 0 0 0 0 RXFIFONE []) INTERRUPT_ID_UART 16 0 PORT_BCM63XX RXOVFERR 0
    (mkIcount 0 0 0 0 0 0) (mkCirc (replicate 1024 0) 0 0) (mkTty demo_flip false true false []) 0.

Lemma demo_holds : tx_inv demo_port [].
Proof.
  split; [|done]. split; [apply length_replicate|]. split; [constructor|]. split; [cbn; lia|]. split; [done|].
  exists (replicate 1024 0). by split.
Qed.

Lemma demo_flip_ok : flip_ok demo_flip.
Proof. split_and!; vm_compute; done || discriminate. Qed.

(** "Hi" with a full FIFO at the second character. *)
Definition demo_events : list serial_event := [TxWrite 72 (fun n => Z.of_nat n); TxWrite 105 (fun _ => 16)].


Definition demo_chars : list rx_reading :=
  [mkRx RXFIFONE 72 false false; mkRx (Z.lor RXFIFONE RXPARERR) 105 false false; mkRx (Z.lor RXFIFONE RXBRK) 0 true false;
   mkRx (Z.lor RXFIFONE RXOVFERR) 33 false false; mkRx 0 0 false false].


Example demo_rx_received :
  option_map (fun x => received (tty (snd x))) (bcm63xx_rx_chars demo_chars demo_port) = Some [(72, TTY_NORMAL); (105, TTY_NORMAL); (33, TTY_NORMAL); (0, TTY_OVERRUN)].
Proof. vm_compute. reflexivity. Qed.

Definition demo_pass : pass_input := mkPass (Z.lor RXFIFONE TXFIFOEMT) (take 1 demo_chars) [0; TXFIFOEMT] (fun _ => 0).

(** The port with XOFF (19) pending. *)
Definition demo_xoff : uart_port := with_x_char demo_port 19.

Lemma serial_int_returns_witness :
  exists m p' s q' r', int_loop BCM63XX_ISR_PASS_LIMIT (fun _ => demo_pass) 0 demo_xoff = Some (m, p')
    /\ bcm63xx_int BCM96348 (fun _ => demo_pass) demo_xoff demo_irq_regs = Some (p', r')
    /\ (m <= 257)%nat /\ ((m <= 256)%nat -> Z.land (ps_status demo_pass) (mask_of p') = 0)
    /\ [] = s ++ q' /\ ring_holds (xmit p') q' /\ flip_ok (flip (tty p')) /\ sends demo_xoff p' s
    /\ (false = true -> s = []) /\ (serial_inv demo_xoff [] -> serial_inv p' q')
    /\ irq_enabled BCM96348 r' INTERRUPT_ID_UART = true.
Proof.
  apply (serial_int_returns BCM96348 (fun _ => demo_pass) demo_xoff [] demo_irq_regs).
  - exact (proj1 demo_holds).
  - exact demo_flip_ok.
  - split; vm_compute; [discriminate|reflexivity].
  - intros _ j. exists TXFIFOEMT. split; [right; left|reflexivity].
Defined.

Lemma serial_baud_nearest_witness :
  exists p', bcm63xx_set_termios (mkTermios 0 0x30) 115200 demo_port = Some p' /\ baudword (regs p') = 13
    /\ (forall v, 0 <= v -> clock_error 115200 13 <= clock_error 115200 v).
Proof.
  destruct (serial_baud_nearest (mkTermios 0 0x30) 115200 demo_port) as (p' & E & _ & H & _).
  - split; vm_compute; [reflexivity|discriminate].
  - exists p'. assert (V : baudword (regs p') = 13) by (vm_compute in E; injection E as <-; reflexivity).
    rewrite V in H. exact (conj E (conj V H)).
Defined.

Example demo_console :
  option_map wire (bcm63xx_console_write [] [72; 10] (replicate 3 TXFIFOEMT) demo_port) = Some [72; 10; 13].
Proof. vm_compute. reflexivity. Qed.
