(* ===== verification/XtmDefs.v ===== *)
(** * ATM/PTM network driver: data

    The constants and structures of [bcmdrivers/opensource/net/xtmrt/impl1], of
    [bcmxtmrt.h] and [bcmxtmcfg.h], the buffer descriptors and registers of the DMA
    controller ([6368_map_part.h]), and the socket buffers of the kernel as far as the
    driver uses them ([kernel/linux/include/linux/skbuff.h], [net/core/skbuff.c]). *)

From S2P Require Import Prelude.

(** A bit of the mask is set. *)
Definition has (s m : Z) : bool := negb (Z.land s m =? 0).

(** ** The DMA controller *)

Definition DMA_OWN : Z := 0x8000.
Definition DMA_EOP : Z := 0x4000.
Definition DMA_SOP : Z := 0x2000.
Definition DMA_WRAP : Z := 0x1000.

Definition DMA_ENABLE : Z := 1.
Definition DMA_BURST_HALT : Z := 4.
Definition DMA_BUFF_DONE : Z := 1.
Definition DMA_DONE : Z := 2.
Definition DMA_NO_DESC : Z := 4.
Definition DMA_MASTER_EN : Z := 1.

Record DmaDesc := mkBd { bd_length : Z; bd_status : Z; bd_address : Z }.

(** The size of a descriptor. *)
Definition sizeof_DmaDesc : Z := 8.

Definition with_status (bd : DmaDesc) (s : Z) : DmaDesc := mkBd (bd_length bd) s (bd_address bd).

(** An entry of the state RAM: the address of the ring of a channel and what the
    controller keeps while it works on it (with the offset into the ring). *)
Record DmaStateRam := mkStRam {
  baseDescPtr : Z; state_data : Z; desc_len_status : Z; desc_base_bufptr : Z
}.

Definition zero_stram : DmaStateRam := mkStRam 0 0 0 0.

(** The registers of a channel with the entry of the state RAM that has the same number:
    [chcfg\[i\]] and [stram.s\[i\]] of [DmaRegs]. *)
Record DmaChannelCfg := mkChan { cfg : Z; intStat : Z; intMask : Z; maxBurst : Z; stram : DmaStateRam }.

Definition zero_chan : DmaChannelCfg := mkChan 0 0 0 0 zero_stram.

Definition set_cfg (c : DmaChannelCfg) (v : Z) : DmaChannelCfg :=
  mkChan v (intStat c) (intMask c) (maxBurst c) (stram c).

Definition set_stram (c : DmaChannelCfg) (s : DmaStateRam) : DmaChannelCfg :=
  mkChan (cfg c) (intStat c) (intMask c) (maxBurst c) s.

Definition set_base (s : DmaStateRam) (v : Z) : DmaStateRam :=
  mkStRam v (state_data s) (desc_len_status s) (desc_base_bufptr s).

(** A one written to a bit of the interrupt status clears it. *)
Definition ack_int (c : DmaChannelCfg) (v : Z) : DmaChannelCfg :=
  mkChan (cfg c) (Z.land (intStat c) (Z.lnot v)) (intMask c) (maxBurst c) (stram c).

Definition VIRT_TO_PHY (a : Z) : Z := Z.land a 0x1fffffff.
Definition KSEG0ADDR (a : Z) : Z := Z.lor (Z.land a 0x1fffffff) 0x80000000.
Definition CACHE_TO_NONCACHE (a : Z) : Z := Z.lor (Z.land a 0x1fffffff) 0xa0000000.

Definition SAR_DMA_MAX_BURST_LENGTH : Z := 8.
Definition SAR_RX_DMA_BASE_CHAN : Z := 0.
Definition SAR_TX_DMA_BASE_CHAN : Z := 4.
Definition IUDMA_MAX_CHANNELS : nat := 32.

(** ** Sizes and status words *)

Definition MAX_DEV_CTXS : nat := 16.
Definition MAX_MATCH_IDS : nat := 128.
Definition MAX_PHY_PORTS : nat := 4.
Definition MAX_RECEIVE_QUEUES : nat := 4.
Definition MAX_SUB_PRIORITIES : nat := 8.
Definition MAX_TRANSMIT_QUEUES : nat := 16.
Definition MAX_BUFMEM_BLOCKS : nat := 16.
Definition INVALID_VCID : Z := 0xff.

Definition ETH_ZLEN : Z := 60.
Definition ETH_HLEN : Z := 14.
Definition CELL_PAYLOAD_SIZE : Z := 48.
Definition CELL_SIZE : Z := 5 + CELL_PAYLOAD_SIZE.

Definition SKB_PROTO_ATM_CELL : Z := 0xf000.

Definition FSTAT_CT_MASK : Z := 0xf0.
Definition FSTAT_CT_SHIFT : Z := 4.
Definition XCT_OAM_F5_SEG : Z := 4.
Definition XCT_OAM_F5_E2E : Z := 5.
Definition XCT_AAL5 : Z := 7.
Definition XCT_ASM_P0 : Z := 8.
Definition XCT_ASM_P1 : Z := 9.
Definition XCT_ASM_P2 : Z := 0xa.
Definition XCT_ASM_P3 : Z := 0xb.
Definition XCT_OAM_F4_SEG : Z := 0xc.
Definition XCT_OAM_F4_E2E : Z := 0xd.
Definition XCT_PTM : Z := 0xf.
Definition FSTAT_CT_AAL5 : Z := Z.shiftl XCT_AAL5 FSTAT_CT_SHIFT.
Definition FSTAT_CT_PTM : Z := Z.shiftl XCT_PTM FSTAT_CT_SHIFT.
Definition FSTAT_PTM_CRC : Z := 1.
Definition FSTAT_PTM_ENET_FCS : Z := 2.
Definition FSTAT_COMMON_INS_HDR_EN : Z := 0x100.
Definition FSTAT_COMMON_HDR_INDEX_MASK : Z := 0x600.
Definition FSTAT_COMMON_HDR_INDEX_SHIFT : Z := 9.
Definition FSTAT_MODE_COMMON : Z := 0x800.

Definition CNI_HW_ADD_REMOVE_HEADER : Z := 1.
Definition CNI_USE_ALT_FSTAT : Z := 2.

Definition HT_NONE : Z := 0.
Definition HT_LLC_SNAP_ETHERNET : Z := 1.
Definition HT_LLC_SNAP_ROUTE_IP : Z := 2.
Definition HT_LLC_ENCAPS_PPP : Z := 3.
Definition HT_VC_MUX_ETHERNET : Z := 4.

Definition TRAFFIC_TYPE_ATM : Z := 1.
Definition TRAFFIC_TYPE_PTM : Z := 2.

Definition LINK_UP : Z := 1.
Definition ADMSTS_UP : Z := 1.
Definition XTMRT_DEV_OPENED : Z := 1.
Definition XTMRT_DEV_CLOSED : Z := 2.

(** Return values of the driver. *)
Definition EPERM : Z := 1.
Definition EIO : Z := 5.
Definition ENOMEM : Z := 12.
Definition EEXIST : Z := 17.

(** ** Socket buffers

    A linear socket buffer: the address of the structure and of its data, the bytes
    from [data] to [tail], and the room before and behind them.  Its length is the
    number of bytes. *)

Record sk_buff := mkSkb {
  skb_ptr : Z;
  skb_data : Z;
  skb_headroom : Z;
  skb_bytes : list Z;
  skb_tailroom : Z;
  skb_priority : Z;
  skb_protocol : Z;
  skb_nfmark : Z
}.

Definition skb_len (s : sk_buff) : Z := zlen (skb_bytes s).

Definition SMP_CACHE_BYTES : Z := 32.

Definition SKB_DATA_ALIGN (x : Z) : Z :=
  Z.land (x + (SMP_CACHE_BYTES - 1)) (Z.lnot (SMP_CACHE_BYTES - 1)).

(** The allocator: the answers to the allocations to come (the addresses of the
    structure and of the data, [None] or the end of the list for a failure), and the
    structures that were handed out and that were freed, the first one first. *)
Record kmem := mkKmem { answers : list (option (Z * Z)); given : list Z; freed : list Z }.

Definition kfree_skb (s : sk_buff) (k : kmem) : kmem :=
  mkKmem (answers k) (given k) (freed k ++ [skb_ptr s]).

Definition next_answer (k : kmem) : option (Z * Z) * kmem :=
  match answers k with
  | [] => (None, k)
  | None :: rest => (None, mkKmem rest (given k) (freed k))
  | Some a :: rest => (Some a, mkKmem rest (given k ++ [fst a]) (freed k))
  end.

(** [skb_copy_expand]: a copy with the given room before and behind the data. *)
Definition skb_copy_expand (s : sk_buff) (newheadroom newtailroom : Z) (k : kmem)
    : option sk_buff * kmem :=
  let '(a, k) := next_answer k in
  match a with
  | None => (None, k)
  | Some (p, data) =>
      let size := newheadroom + skb_len s + newtailroom in
      (Some (mkSkb p (data + newheadroom) newheadroom (skb_bytes s)
               (SKB_DATA_ALIGN size - newheadroom - skb_len s)
               (skb_priority s) (skb_protocol s) (skb_nfmark s)), k)
  end.

(** [skb_realloc_headroom] of a buffer with less than [headroom] bytes before the
    data: a clone whose data is moved to a larger buffer. *)
Definition skb_realloc_headroom (s : sk_buff) (headroom : Z) (k : kmem)
    : option sk_buff * kmem :=
  let '(a, k) := next_answer k in
  match a with
  | None => (None, k)
  | Some (p, data) =>
      let nhead := SKB_DATA_ALIGN (headroom - skb_headroom s) in
      let size := SKB_DATA_ALIGN (nhead + skb_headroom s + skb_len s + skb_tailroom s) in
      (Some (mkSkb p (data + nhead + skb_headroom s) (nhead + skb_headroom s) (skb_bytes s)
               (size - nhead - skb_headroom s - skb_len s)
               (skb_priority s) (skb_protocol s) (skb_nfmark s)), k)
  end.

(** [skb_push] followed by the copy of [d] to the front; without room the kernel stops
    with a panic. *)
Definition skb_push_bytes (s : sk_buff) (d : list Z) : option sk_buff :=
  if zlen d <=? skb_headroom s then
    Some (mkSkb (skb_ptr s) (skb_data s - zlen d) (skb_headroom s - zlen d)
            (d ++ skb_bytes s) (skb_tailroom s)
            (skb_priority s) (skb_protocol s) (skb_nfmark s))
  else None.

(** [memset(skb->tail, 0, n)] and [skb_put(skb, n)]. *)
Definition skb_put_zeros (s : sk_buff) (n : Z) : option sk_buff :=
  if (0 <=? n) && (n <=? skb_tailroom s) then
    Some (mkSkb (skb_ptr s) (skb_data s) (skb_headroom s)
            (skb_bytes s ++ replicate (Z.to_nat n) 0) (skb_tailroom s - n)
            (skb_priority s) (skb_protocol s) (skb_nfmark s))
  else None.

(** ** Devices *)

Record XTM_ADDR := mkAddr {
  ulTrafficType : Z;
  ulPortMask : Z;
  usVpi : Z;
  usVci : Z
}.

Record net_device_stats := mkStats {
  rx_packets : Z; tx_packets : Z; rx_bytes : Z; tx_bytes : Z;
  rx_errors : Z; tx_errors : Z; tx_dropped : Z
}.

Definition zero_stats : net_device_stats := mkStats 0 0 0 0 0 0 0.

Definition count_tx_packet (s : net_device_stats) : net_device_stats :=
  mkStats (rx_packets s) (u32 (tx_packets s + 1)) (rx_bytes s) (tx_bytes s)
    (rx_errors s) (tx_errors s) (tx_dropped s).
Definition count_tx_error (s : net_device_stats) : net_device_stats :=
  mkStats (rx_packets s) (tx_packets s) (rx_bytes s) (tx_bytes s)
    (rx_errors s) (u32 (tx_errors s + 1)) (tx_dropped s).
Definition count_tx_dropped (s : net_device_stats) : net_device_stats :=
  mkStats (rx_packets s) (tx_packets s) (rx_bytes s) (tx_bytes s)
    (rx_errors s) (tx_errors s) (u32 (tx_dropped s + 1)).
Definition count_rx_error (s : net_device_stats) : net_device_stats :=
  mkStats (rx_packets s) (tx_packets s) (rx_bytes s) (tx_bytes s)
    (u32 (rx_errors s + 1)) (tx_errors s) (tx_dropped s).

(** A transmit queue.  [pDma] is the number of the DMA channel; the descriptors, at the
    address [pBds_at], and the pointers to the socket buffers are the two parts of the
    queue's memory. *)
Record TXQINFO := mkTxq {
  ulPort : Z;
  ulPtmPriority : Z;
  ulSubPriority : Z;
  ulQueueSize : Z;
  ulDmaIndex : Z;
  pDma : option Z;
  pBds_at : Z;
  pBds : list DmaDesc;
  ppSkbs : list (option sk_buff);
  ulFreeBds : Z;
  ulHead : Z;
  ulTail : Z
}.

Definition zero_txq : TXQINFO := mkTxq 0 0 0 0 0 None 0 [] [] 0 0 0.

(** The part of [struct net_device] that the driver sets. *)
Record net_device := mkNetDev {
  nd_dev_addr : list Z;
  nd_flags : Z;
  nd_queue_stopped : bool
}.

Record BCMXTMRT_DEV_CONTEXT := mkDev {
  pDev : net_device;
  DevStats : net_device_stats;
  ulIfLastChange : Z;
  ulIfSpeed : Z;
  Addr : XTM_ADDR;
  ulLinkState : Z;
  ulOpenState : Z;
  ulAdminStatus : Z;
  ulHdrType : Z;
  ulFlags : Z;
  ucTxVcid : Z;
  ulTxQInfosSize : Z;
  TxQInfos : list TXQINFO;
  pTxPriorities : list (list (option nat));
  pTxQMem : Z
}.

Definition with_stats (d : BCMXTMRT_DEV_CONTEXT) (s : net_device_stats) : BCMXTMRT_DEV_CONTEXT :=
  mkDev (pDev d) s (ulIfLastChange d) (ulIfSpeed d) (Addr d) (ulLinkState d) (ulOpenState d)
    (ulAdminStatus d) (ulHdrType d) (ulFlags d) (ucTxVcid d) (ulTxQInfosSize d) (TxQInfos d)
    (pTxPriorities d) (pTxQMem d).

Definition with_queues (d : BCMXTMRT_DEV_CONTEXT) (qs : list TXQINFO) : BCMXTMRT_DEV_CONTEXT :=
  mkDev (pDev d) (DevStats d) (ulIfLastChange d) (ulIfSpeed d) (Addr d) (ulLinkState d)
    (ulOpenState d) (ulAdminStatus d) (ulHdrType d) (ulFlags d) (ucTxVcid d)
    (ulTxQInfosSize d) qs (pTxPriorities d) (pTxQMem d).
