(* ===== verification/XtmTx.v ===== *)
(** * ATM/PTM network driver: transmission

    [bcmxtmrt_xmit] and [AddRfc2684Hdr] of [bcmxtmrt.c]: freeing the buffers that were
    sent, the choice of the queue, the encapsulation, alignment and padding of a packet,
    the status word of its descriptor, and the ring of descriptors that the driver shares
    with the DMA controller.  [dma_transmit] is the other side of the ring: the controller
    takes the next descriptor that it owns and gives it back. *)

From S2P Require Import Prelude Ring XtmDefs.

(** ** Freeing what was transmitted *)

Definition next_index (i status : Z) : Z := if negb (has status DMA_WRAP) then u32 (i + 1) else 0.

(** The [while] loop on one queue; [n] is [ulQueueSize - ulFreeBds]. *)
Fixpoint free_loop (n : nat) (q : TXQINFO) (k : kmem) : option (TXQINFO * kmem) :=
  match n with
  | O => Some (q, k)
  | S n' =>
      bd ← pBds q !! Z.to_nat (ulHead q);
      if has (bd_status bd) DMA_OWN then Some (q, k) else
      s ← mjoin (ppSkbs q !! Z.to_nat (ulHead q));
      free_loop n'
        (mkTxq (ulPort q) (ulPtmPriority q) (ulSubPriority q) (ulQueueSize q) (ulDmaIndex q)
           (pDma q) (pBds_at q) (pBds q) (<[Z.to_nat (ulHead q) := None]> (ppSkbs q))
           (u32 (ulFreeBds q + 1)) (next_index (ulHead q) (bd_status bd)) (ulTail q))
        (kfree_skb s k)
  end.

Definition free_queue (q : TXQINFO) (k : kmem) : option (TXQINFO * kmem) :=
  free_loop (Z.to_nat (ulQueueSize q - ulFreeBds q)) q k.

Fixpoint free_queues (qs : list TXQINFO) (k : kmem) : option (list TXQINFO * kmem) :=
  match qs with
  | [] => Some ([], k)
  | q :: qs' =>
      '(q, k) ← free_queue q k;
      '(qs', k) ← free_queues qs' k;
      Some (q :: qs', k)
  end.

(** The first [ulTxQInfosSize] of the sixteen queues. *)
Definition free_transmitted (d : BCMXTMRT_DEV_CONTEXT) (k : kmem)
    : option (BCMXTMRT_DEV_CONTEXT * kmem) :=
  if ulTxQInfosSize d <=? zlen (TxQInfos d) then
    let n := Z.to_nat (ulTxQInfosSize d) in
    '(qs, k) ← free_queues (take n (TxQInfos d)) k;
    Some (with_queues d (qs ++ drop n (TxQInfos d)), k)
  else None.

(** ** The queue for a packet *)

Definition priority_queue (d : BCMXTMRT_DEV_CONTEXT) (port prio : Z) : option nat :=
  row ← pTxPriorities d !! Z.to_nat port; mjoin (row !! Z.to_nat prio).

Definition tx_queue (d : BCMXTMRT_DEV_CONTEXT) (s : sk_buff) : nat :=
  let ulPort := 0 in
  let ulPriority := Z.land (skb_nfmark s) 0x0f in
  let pTqi :=
    if (ulPriority <=? 4) && (1 <=? ulPriority) then priority_queue d ulPort ulPriority
    else if (skb_priority s <=? 4) && (1 <=? skb_priority s)
    then priority_queue d ulPort (skb_priority s) else None in
  default 0%nat pTqi.

(** ** Encapsulation *)

Definition ulHdrLens : list Z := [0; 10; 7; 4; 2].

Definition ucHdrs : list (list Z) :=
  [replicate 16 0;
   [0xAA; 0xAA; 0x03; 0x00; 0x80; 0xC2; 0x00; 0x07; 0x00; 0x00] ++ replicate 6 0;
   [0xAA; 0xAA; 0x03; 0x00; 0x00; 0x00; 0x08; 0x00] ++ replicate 8 0;
   [0xFE; 0xFE; 0x03; 0xCF] ++ replicate 12 0;
   [0x00; 0x00] ++ replicate 14 0].

Definition ulMinPktSize : Z := 60.

(** A copy that is as long as [size] with zeros behind the data. *)
Definition pad_copy (s : sk_buff) (size : Z) (k : kmem) : option (option sk_buff * kmem) :=
  let '(s2, k) := skb_copy_expand s 0 (size - skb_len s) k in
  match s2 with
  | None => Some (None, k)
  | Some s2 => s2 ← skb_put_zeros s2 (size - skb_len s2); Some (Some s2, k)
  end.

(** The inner [option] is the pointer that is returned: [None] is a null pointer. *)
Definition AddRfc2684Hdr (hdrtype : Z) (s : sk_buff) (k : kmem)
    : option (option sk_buff * kmem) :=
  minheadroom ← ulHdrLens !! Z.to_nat hdrtype;
  hdr ← ucHdrs !! Z.to_nat hdrtype;
  let '(s, k) :=
    if skb_headroom s <? minheadroom then
      let '(s2, k) := skb_realloc_headroom s minheadroom k in (s2, kfree_skb s k)
    else (Some s, k) in
  match s with
  | None => Some (None, k)
  | Some s =>
      d ← mem_read hdr 0 minheadroom;
      s ← skb_push_bytes s d;
      if skb_len s <? ulMinPktSize then
        '(s2, k) ← pad_copy s ulMinPktSize k;
        Some (s2, kfree_skb s k)
      else Some (Some s, k)
  end.

(** ** Alignment and padding *)

Definition align_data (s : sk_buff) (k : kmem) : sk_buff * kmem :=
  if negb (Z.land (skb_data s) 3 =? 0) then
    let ulAdjust := u32 (Z.land (u32 (skb_data s + 3)) (Z.lnot 3) - skb_data s) in
    let '(s2, k) := skb_copy_expand s 0 ulAdjust k in
    match s2 with
    | Some s2 => (s2, kfree_skb s k)
    | None => (s, k)
    end
  else (s, k).

Definition is_cell (s : sk_buff) : bool :=
  Z.land (skb_protocol s) (Z.lnot FSTAT_CT_MASK) =? SKB_PROTO_ATM_CELL.

Definition pad_short (s : sk_buff) (k : kmem) : option (sk_buff * kmem) :=
  if (skb_len s <? ETH_ZLEN) && negb (is_cell s) then
    '(s2, k) ← pad_copy s ETH_ZLEN k;
    match s2 with
    | Some s2 => Some (s2, kfree_skb s k)
    | None => Some (s, k)
    end
  else Some (s, k).

(** ** The descriptor *)

Definition HDR_BITS : Z := Z.lor FSTAT_COMMON_INS_HDR_EN FSTAT_COMMON_HDR_INDEX_MASK.

(** The status word of [s]; [old] is the status of the descriptor before. *)
Definition tx_status (d : BCMXTMRT_DEV_CONTEXT) (s : sk_buff) (old : Z) : Z :=
  let st := u16 (Z.lor (Z.lor (Z.lor (Z.land old DMA_WRAP) DMA_SOP) DMA_EOP) (ucTxVcid d)) in
  let st :=
    if is_cell s then
      let st := Z.lor st (Z.land (skb_protocol s) FSTAT_CT_MASK) in
      if has (ulFlags d) CNI_USE_ALT_FSTAT
      then Z.land (Z.lor st FSTAT_MODE_COMMON) (Z.lnot HDR_BITS) else st
    else if ulTrafficType (Addr d) =? TRAFFIC_TYPE_ATM then
      let st := Z.lor st FSTAT_CT_AAL5 in
      if has (ulFlags d) CNI_USE_ALT_FSTAT then
        let st := Z.lor st FSTAT_MODE_COMMON in
        if negb (ulHdrType d =? HT_NONE)
        then u16 (Z.lor st (Z.lor FSTAT_COMMON_INS_HDR_EN
               (Z.shiftl (ulHdrType d - 1) FSTAT_COMMON_HDR_INDEX_SHIFT)))
        else Z.land st (Z.lnot HDR_BITS)
      else st
    else Z.lor st (Z.lor (Z.lor FSTAT_CT_PTM FSTAT_PTM_ENET_FCS) FSTAT_PTM_CRC) in
  Z.lor st DMA_OWN.

(** The descriptor at the tail of the queue is filled and given to the controller. *)
Definition enqueue (d : BCMXTMRT_DEV_CONTEXT) (s : sk_buff) (q : TXQINFO) : option TXQINFO :=
  let t := Z.to_nat (ulTail q) in
  bd ← pBds q !! t;
  if Nat.ltb t (length (ppSkbs q)) then
    let st := tx_status d s (bd_status bd) in
    let bd' := mkBd (u16 (skb_len s)) st (VIRT_TO_PHY (skb_data s)) in
    Some (mkTxq (ulPort q) (ulPtmPriority q) (ulSubPriority q) (ulQueueSize q) (ulDmaIndex q)
            (pDma q) (pBds_at q) (<[t := bd']> (pBds q)) (<[t := Some s]> (ppSkbs q))
            (ulFreeBds q) (ulHead q) (next_index (ulTail q) st))
  else None.

Definition take_bd (q : TXQINFO) : TXQINFO :=
  mkTxq (ulPort q) (ulPtmPriority q) (ulSubPriority q) (ulQueueSize q) (ulDmaIndex q)
    (pDma q) (pBds_at q) (pBds q) (ppSkbs q) (u32 (ulFreeBds q - 1)) (ulHead q) (ulTail q).

(** [pTqi->pDma->cfg = DMA_ENABLE]. *)
Definition enable_channel (ch : option Z) (chs : list DmaChannelCfg) : option (list DmaChannelCfg) :=
  c ← ch; r ← chs !! Z.to_nat c; Some (<[Z.to_nat c := set_cfg r DMA_ENABLE]> chs).

(** ** [bcmxtmrt_xmit] *)

(** The packet with its header, aligned; a null pointer that [AddRfc2684Hdr] returns is
    used right away. *)
Definition encapsulate (d : BCMXTMRT_DEV_CONTEXT) (s : sk_buff) (k : kmem)
    : option (sk_buff * kmem) :=
  '(s, k) ← (if negb (has (ulFlags d) CNI_HW_ADD_REMOVE_HEADER) && negb (ulHdrType d =? HT_NONE)
             then '(s, k) ← AddRfc2684Hdr (ulHdrType d) s k; s ← s; Some (s, k)
             else Some (s, k));
  Some (align_data s k).

Definition send_on (d : BCMXTMRT_DEV_CONTEXT) (i : nat) (s : sk_buff)
    (chs : list DmaChannelCfg) (k : kmem)
    : option (BCMXTMRT_DEV_CONTEXT * list DmaChannelCfg * kmem) :=
  q ← TxQInfos d !! i;
  if negb (ulFreeBds q =? 0) then
    '(s, k) ← pad_short s k;
    q ← enqueue d s (take_bd q);
    chs ← enable_channel (pDma q) chs;
    Some (with_stats (with_queues d (<[i := q]> (TxQInfos d))) (count_tx_packet (DevStats d)),
          chs, k)
  else
    Some (with_stats d (count_tx_error (DevStats d)), chs, kfree_skb s k).

(** It returns 0 in every case. *)
Definition bcmxtmrt_xmit (skb : option sk_buff) (d : BCMXTMRT_DEV_CONTEXT)
    (chs : list DmaChannelCfg) (k : kmem)
    : option (BCMXTMRT_DEV_CONTEXT * list DmaChannelCfg * kmem) :=
  '(d, k) ← free_transmitted d k;
  match skb with
  | None => Some (d, chs, k)
  | Some s =>
      if negb (ulTxQInfosSize d =? 0) then
        let i := tx_queue d s in
        '(s, k) ← encapsulate d s k;
        send_on d i s chs k
      else Some (with_stats d (count_tx_dropped (DevStats d)), chs, kfree_skb s k)
  end.

(** ** The DMA controller

    It looks at the descriptor it stopped at and, if it owns it, sends the buffer, gives
    the descriptor back and goes to the next one. *)

Definition dma_transmit (hw : nat) (bds : list DmaDesc) : option (nat * list DmaDesc * DmaDesc) :=
  bd ← bds !! hw;
  if has (bd_status bd) DMA_OWN then
    Some (if has (bd_status bd) DMA_WRAP then 0%nat else S hw,
          <[hw := with_status bd (Z.land (bd_status bd) (Z.lnot DMA_OWN))]> bds, bd)
  else None.

(** ** Status bits *)

Lemma testbit_small x n m : 0 <= x < 2 ^ n -> n <= m -> Z.testbit x m = false.
Proof.
  intros H Hm. destruct (Z.ltb_spec n 0) as [Hn|Hn].
  { rewrite Z.pow_neg_r in H by lia. lia. }
  rewrite <- (Z.mod_small x (2 ^ n)) by done. by apply Z.mod_pow2_bits_high.
Qed.

Lemma has_bit s n : 0 <= n -> has s (2 ^ n) = Z.testbit s n.
Proof. apply land_pow2_test. Qed.

Lemma has_own s : has s DMA_OWN = Z.testbit s 15.
Proof. apply (has_bit s 15). lia. Qed.

Lemma has_wrap s : has s DMA_WRAP = Z.testbit s 12.
Proof. apply (has_bit s 12). lia. Qed.

Lemma u16_bit s n : 0 <= n < 16 -> Z.testbit (u16 s) n = Z.testbit s n.
Proof. intros. unfold u16. apply Z.mod_pow2_bits_low; lia. Qed.

Definition valid_hdr (d : BCMXTMRT_DEV_CONTEXT) : Prop := 0 <= ulHdrType d <= 4.

Lemma tx_status_own d s old : has (tx_status d s old) DMA_OWN = true.
Proof. rewrite has_own. unfold tx_status. rewrite Z.lor_spec. by rewrite orb_true_r. Qed.

Lemma tx_status_wrap d s old :
  valid_hdr d -> is_u8 (ucTxVcid d) -> has (tx_status d s old) DMA_WRAP = has old DMA_WRAP.
Proof.
  intros Hh Hv. rewrite !has_wrap. unfold tx_status. rewrite Z.lor_spec.
  change (Z.testbit DMA_OWN 12) with false. rewrite orb_false_r.
  set (st0 := u16 _).
  assert (H0 : Z.testbit st0 12 = Z.testbit old 12).
  { unfold st0. rewrite u16_bit by lia. rewrite !Z.lor_spec, Z.land_spec.
    rewrite (testbit_small (ucTxVcid d) 8) by (unfold is_u8 in Hv; lia).
    change (Z.testbit DMA_WRAP 12) with true. change (Z.testbit DMA_SOP 12) with false.
    change (Z.testbit DMA_EOP 12) with false. by rewrite andb_true_r, !orb_false_r. }
  assert (B16 : forall x, Z.testbit (u16 x) 12 = Z.testbit x 12) by (intros; apply u16_bit; lia).
  clearbody st0. repeat case_match; rewrite ?B16; rewrite ?Z.land_spec, ?Z.lor_spec, ?Z.land_spec, ?H0, ?Z.lor_spec, ?H0;
    change (Z.testbit FSTAT_CT_MASK 12) with false; change (Z.testbit FSTAT_MODE_COMMON 12) with false;
    change (Z.testbit (Z.lnot HDR_BITS) 12) with true; change (Z.testbit FSTAT_CT_AAL5 12) with false;
    change (Z.testbit FSTAT_COMMON_INS_HDR_EN 12) with false;
    change (Z.testbit FSTAT_CT_PTM 12) with false; change (Z.testbit FSTAT_PTM_ENET_FCS 12) with false;
    change (Z.testbit FSTAT_PTM_CRC 12) with false;
    rewrite ?andb_false_r, ?andb_true_r, ?orb_false_r; try done.
  unfold valid_hdr in Hh. unfold FSTAT_COMMON_HDR_INDEX_SHIFT.
  assert (ulHdrType d <> 0) by (zprop; done).
  rewrite (testbit_small (Z.shiftl _ _) 11), ?orb_false_r; [done|rewrite Z.shiftl_mul_pow2; lia|lia].
Qed.

(** ** The ring of a transmit queue

    The queue is a bounded FIFO: [done] are the packets that were sent and not freed yet,
    [pend] those that the controller still has to send.  In the order of the ring from
    [ulHead] on there are the descriptors of [done], those of [pend], which the controller
    owns, and the free ones; [hw] is the descriptor the controller looks at. *)

Definition wrap_ok (bds : list DmaDesc) : Prop :=
  forall i bd, bds !! i = Some bd -> has (bd_status bd) DMA_WRAP = Nat.eqb (S i) (length bds).

Definition idle (bd : DmaDesc) : Prop := has (bd_status bd) DMA_OWN = false.

Definition loaded (bd : DmaDesc) (s : sk_buff) : Prop :=
  has (bd_status bd) DMA_OWN = true
  /\ bd_address bd = VIRT_TO_PHY (skb_data s) /\ bd_length bd = u16 (skb_len s).

Record tx_ring (q : TXQINFO) (hw : nat) (done pend : list sk_buff) : Prop := {
  tr_size : ulQueueSize q = zlen (pBds q);
  tr_max : zlen (pBds q) < 2 ^ 32;
  tr_skbs : length (ppSkbs q) = length (pBds q);
  tr_wrap : wrap_ok (pBds q);
  tr_free : ulFreeBds q = zlen (pBds q) - zlen done - zlen pend;
  tr_slots : exists h b1 b2 b3,
    ulHead q = Z.of_nat h /\ (h < length (pBds q))%nat
    /\ ulTail q = Z.of_nat (ring_at (length (pBds q)) h (length done + length pend))
    /\ hw = ring_at (length (pBds q)) h (length done)
    /\ rotate h (pBds q) = b1 ++ b2 ++ b3
    /\ length b1 = length done /\ Forall idle b1 /\ Forall2 loaded b2 pend /\ Forall idle b3
    /\ rotate h (ppSkbs q) = map Some done ++ map Some pend ++ replicate (length b3) None
}.

Lemma next_index_ring bds i bd s :
  wrap_ok bds -> zlen bds < 2 ^ 32 -> bds !! i = Some bd ->
  has s DMA_WRAP = has (bd_status bd) DMA_WRAP ->
  next_index (Z.of_nat i) s = Z.of_nat (ring_next (length bds) i).
Proof.
  intros Hw Hm Hi Hs. pose proof (lookup_lt_Some _ _ _ Hi) as Hl. unfold next_index, ring_next.
  rewrite Hs, (Hw i bd Hi). destruct (Nat.eqb_spec (S i) (length bds)); cbn [negb]; [done|].
  unfold zlen in Hm. rewrite u32_id by (unfold is_u32; lia). lia.
Qed.

Lemma wrap_ok_insert bds i bd bd' :
  wrap_ok bds -> bds !! i = Some bd -> has (bd_status bd') DMA_WRAP = has (bd_status bd) DMA_WRAP ->
  wrap_ok (<[i := bd']> bds).
Proof.
  intros Hw Hi Hs j b. rewrite length_insert. intros Hj. destruct (decide (j = i)) as [->|Hne].
  - rewrite list_lookup_insert_eq in Hj by by eapply lookup_lt_Some. injection Hj as <-. rewrite Hs. by apply Hw.
  - rewrite list_lookup_insert_ne in Hj by done. by apply Hw.
Qed.

Lemma tx_ring_room q hw done pend : tx_ring q hw done pend -> 0 <= ulFreeBds q.
Proof.
  intros [Hz Hm Hs Hw Hf (h & b1 & b2 & b3 & Eh & Hh & Et & Ehw & Eb & El & F1 & F2 & F3 & Ek)].
  pose proof (f_equal length Eb) as L. rewrite length_rotate, !length_app, El, (Forall2_length _ _ _ F2) in L.
  unfold zlen in Hf. lia.
Qed.

(** The front packet of [done] is freed. *)
Lemma free_step q hw s done pend k :
  tx_ring q hw (s :: done) pend ->
  exists q', tx_ring q' hw done pend
    /\ pDma q' = pDma q /\ ulQueueSize q' = ulQueueSize q /\ ulFreeBds q' = ulFreeBds q + 1
    /\ forall n, free_loop (S n) q k = free_loop n q' (kfree_skb s k).
Proof.
  intros Hq. pose proof (tx_ring_room _ _ _ _ Hq) as Hroom.
  destruct Hq as [Hz Hm Hs Hw Hf (h & b1 & b2 & b3 & Eh & Hh & Et & Ehw & Eb & El & F1 & F2 & F3 & Ek)].
  destruct b1 as [|bd b1]; [done|]. injection El as El. inversion_clear F1 as [|? ? Hbd F1'].
  pose proof (rotate_head _ _ _ _ Hh Eb) as Lb.
  assert (Hh' : (h < length (ppSkbs q))%nat) by lia.
  cbn [map app] in Ek. pose proof (rotate_head _ _ _ _ Hh' Ek) as Lk.
  rewrite zlen_cons in Hf. pose proof (zlen_nonneg done). pose proof (zlen_nonneg pend).
  eexists. split_and!; cycle 4.
  - intros n. cbn [free_loop]. rewrite Eh, Nat2Z.id, Lb. cbn [mbind option_bind].
    unfold idle in Hbd. rewrite Hbd, Lk. cbn [mjoin option_join mbind option_bind].
    rewrite u32_id by (unfold is_u32; lia). rewrite (next_index_ring _ h bd) by done. reflexivity.
  - split; cbn [ulQueueSize pBds ppSkbs ulFreeBds ulHead ulTail]; try done.
    + by rewrite length_insert.
    + lia.
    + exists (ring_next (length (pBds q)) h), b1, b2, (b3 ++ [bd]).
      split_and!; try done.
      * by apply ring_next_lt.
      * rewrite Et, ring_at_next by done. done.
      * rewrite Ehw, ring_at_next by done. done.
      * rewrite (rotate_next _ _ _ _ Hh Eb). by rewrite <- !app_assoc.
      * apply Forall_app_2; [done|]. by constructor.
      * replace (length (pBds q)) with (length (<[h:=None]> (ppSkbs q))) by (rewrite length_insert; lia).
        rewrite (rotate_next _ h None (map Some done ++ map Some pend ++ replicate (length b3) None)).
        -- rewrite <- !app_assoc, length_app. cbn [length]. by rewrite replicate_add.
        -- by rewrite length_insert.
        -- by eapply rotate_insert_head.
  - done.
  - done.
  - done.
Qed.

(** All of [done] is freed, in order, and nothing else. *)
Definition free_all (done : list sk_buff) (k : kmem) : kmem :=
  mkKmem (answers k) (given k) (freed k ++ map skb_ptr done).

Lemma free_loop_ring done q hw pend k n :
  tx_ring q hw done pend -> Z.of_nat n = zlen done + zlen pend ->
  exists q', free_loop n q k = Some (q', free_all done k) /\ tx_ring q' hw [] pend
    /\ pDma q' = pDma q /\ ulQueueSize q' = ulQueueSize q.
Proof.
  revert q k n. induction done as [|s done IH]; intros q k n Hq Hn.
  - exists q. split; [|done]. unfold free_all. rewrite app_nil_r. destruct k as [a g f]; cbn [answers given freed].
    destruct n as [|n]; [done|]. cbn [free_loop].
    destruct Hq as [Hz Hm Hs Hw Hf (h & b1 & b2 & b3 & Eh & Hh & Et & Ehw & Eb & El & F1 & F2 & F3 & Ek)].
    destruct b1; [|done]. destruct F2 as [|bd p b2 pend Hl F2].
    { exfalso. change (Z.of_nat (S n) = 0) in Hn. lia. }
    cbn [app] in Eb. rewrite Eh, Nat2Z.id, (rotate_head _ _ _ _ Hh Eb). cbn [mbind option_bind].
    destruct Hl as [-> _]. done.
  - rewrite zlen_cons in Hn. pose proof (zlen_nonneg done). pose proof (zlen_nonneg pend).
    destruct n as [|n]; [lia|].
    destruct (free_step q hw s done pend k Hq) as (q1 & H1 & D1 & S1 & _ & ->).
    destruct (IH q1 (kfree_skb s k) n H1) as (q' & E & H' & D' & S'); [lia|].
    exists q'. split; [|split_and!; congruence]. rewrite E. unfold free_all, kfree_skb. cbn [answers given freed map].
    by rewrite <- app_assoc.
Qed.

Lemma free_queue_ring q hw done pend k :
  tx_ring q hw done pend ->
  exists q', free_queue q k = Some (q', free_all done k) /\ tx_ring q' hw [] pend
    /\ pDma q' = pDma q /\ ulQueueSize q' = ulQueueSize q.
Proof.
  intros Hq. apply free_loop_ring; [done|]. pose proof (zlen_nonneg done). pose proof (zlen_nonneg pend).
  destruct Hq as [Hz _ _ _ Hf _]. rewrite Z2Nat.id by lia. lia.
Qed.

(** A packet for which a descriptor is free is handed to the controller. *)
Lemma enqueue_ring d s q hw pend :
  valid_hdr d -> is_u8 (ucTxVcid d) -> tx_ring q hw [] pend -> zlen pend < ulQueueSize q ->
  exists q', enqueue d s (take_bd q) = Some q' /\ tx_ring q' hw [] (pend ++ [s])
    /\ pDma q' = pDma q /\ ulQueueSize q' = ulQueueSize q.
Proof.
  intros Hv Hc Hq Hp. pose proof (tx_ring_room _ _ _ _ Hq) as Hroom.
  destruct Hq as [Hz Hm Hs Hw Hf (h & b1 & b2 & b3 & Eh & Hh & Et & Ehw & Eb & El & F1 & F2 & F3 & Ek)].
  destruct b1; [|done]. pose proof (Forall2_length _ _ _ F2) as L2. rewrite zlen_nil in Hf.
  pose proof (f_equal length Eb) as L. rewrite length_rotate, !length_app in L. cbn [length] in L.
  destruct b3 as [|bd b3]; [unfold zlen in *; cbn in L; lia|].
  inversion_clear F3 as [|? ? Hbd F3']. cbn [app] in Eb. cbn [length Nat.add] in Et.
  destruct (rotate_mid _ _ _ _ _ Hh Eb) as [Lb Ib].
  assert (Hh' : (h < length (ppSkbs q))%nat) by lia. cbn [map app replicate length] in Ek.
  destruct (rotate_mid _ _ _ _ _ Hh' Ek) as [Lk Ik].
  rewrite length_map in Lk, Ik. rewrite L2 in Lb, Ib. rewrite Hs in Lk, Ik.
  set (t := ring_at (length (pBds q)) h (length pend)) in *.
  set (st := tx_status d s (bd_status bd)). set (bd' := mkBd (u16 (skb_len s)) st (VIRT_TO_PHY (skb_data s))).
  assert (Hst : has (bd_status bd') DMA_WRAP = has (bd_status bd) DMA_WRAP) by by apply tx_status_wrap.
  pose proof (ring_at_lt (length (pBds q)) h (length pend) Hh) as Ht. fold t in Ht.
  eexists. split_and!.
  - unfold enqueue, take_bd. cbn [pBds ppSkbs ulTail]. rewrite Et, Nat2Z.id, Lb. cbn [mbind option_bind].
    destruct (Nat.ltb_spec t (length (ppSkbs q))); [|lia].
    cbn [ulPort ulPtmPriority ulSubPriority ulQueueSize ulDmaIndex pDma ulFreeBds ulHead].
    fold st. fold bd'. rewrite u32_id by (unfold is_u32; unfold zlen in *; lia). reflexivity.
  - split; cbn [ulQueueSize pBds ppSkbs ulFreeBds ulHead ulTail]; unfold zlen in *; rewrite ?length_insert, ?length_app; cbn [length];
      try done; try lia.
    + by eapply wrap_ok_insert.
    + exists h, [], (b2 ++ [bd']), b3. split_and!; try done.
      * rewrite (next_index_ring (pBds q) t bd) by done. unfold t. rewrite <- ring_at_S by done. do 2 f_equal. lia.
      * rewrite Ib. by rewrite <- app_assoc.
      * apply Forall2_app; [done|]. constructor; [|constructor]. split_and!; [apply tx_status_own|done..].
      * rewrite Ik, map_app. by rewrite <- app_assoc.
  - done.
  - done.
Qed.

(** The controller sends the first pending packet. *)
Lemma dma_ring q hw done s pend :
  tx_ring q hw done (s :: pend) ->
  exists hw' bds bd, dma_transmit hw (pBds q) = Some (hw', bds, bd)
    /\ bd_address bd = VIRT_TO_PHY (skb_data s) /\ bd_length bd = u16 (skb_len s)
    /\ tx_ring (mkTxq (ulPort q) (ulPtmPriority q) (ulSubPriority q) (ulQueueSize q) (ulDmaIndex q)
                  (pDma q) (pBds_at q) bds (ppSkbs q) (ulFreeBds q) (ulHead q) (ulTail q))
               hw' (done ++ [s]) pend.
Proof.
  intros [Hz Hm Hs Hw Hf (h & b1 & b2 & b3 & Eh & Hh & Et & Ehw & Eb & El & F1 & F2 & F3 & Ek)].
  apply Forall2_cons_inv_r in F2 as (bd & b2' & (Ho & Ha & Hb) & F2' & ->). cbn [app] in Eb.
  destruct (rotate_mid _ _ _ _ _ Hh Eb) as [Lb Ib]. rewrite El, <- Ehw in Lb, Ib.
  set (bd' := with_status bd (Z.land (bd_status bd) (Z.lnot DMA_OWN))).
  assert (Hst : has (bd_status bd') DMA_WRAP = has (bd_status bd) DMA_WRAP).
  { rewrite !has_wrap. unfold bd'. cbn [with_status bd_status]. rewrite Z.land_spec.
    change (Z.testbit (Z.lnot DMA_OWN) 12) with true. apply andb_true_r. }
  assert (Hid : idle bd').
  { unfold idle. rewrite has_own. unfold bd'. cbn [with_status bd_status]. rewrite Z.land_spec.
    change (Z.testbit (Z.lnot DMA_OWN) 15) with false. apply andb_false_r. }
  pose proof (ring_at_lt (length (pBds q)) h (length done) Hh) as Ht. rewrite <- Ehw in Ht.
  eexists _, _, bd. split_and!; try done.
  - unfold dma_transmit. rewrite Lb. cbn [mbind option_bind]. rewrite Ho. fold bd'. reflexivity.
  - split; cbn [ulQueueSize pBds ppSkbs ulFreeBds ulHead ulTail]; unfold zlen in *;
      rewrite ?length_insert, ?length_app; cbn [length] in *; try done; try lia.
    + by eapply wrap_ok_insert.
    + exists h, (b1 ++ [bd']), b2', b3. rewrite !length_app. cbn [length]. split_and!; try done; try lia.
      * rewrite Et. do 2 f_equal. lia.
      * rewrite Nat.add_1_r, ring_at_S by done. rewrite <- Ehw, (Hw hw bd Lb). unfold ring_next. done.
      * rewrite Ib. by rewrite <- app_assoc.
      * apply Forall_app_2; [done|]. by constructor.
      * rewrite Ek, map_app. by rewrite <- app_assoc.
Qed.

(** Without a pending packet the controller finds nothing to do. *)
Lemma dma_idle q hw done : tx_ring q hw done [] -> dma_transmit hw (pBds q) = None.
Proof.
  intros [Hz Hm Hs Hw Hf (h & b1 & b2 & b3 & Eh & Hh & Et & Ehw & Eb & El & F1 & F2 & F3 & Ek)].
  inversion F2; subst. cbn [app] in Eb.
  assert (F : Forall idle (b1 ++ b3)) by by apply Forall_app_2.
  unfold dma_transmit. destruct (pBds q !! _) as [bd|] eqn:E; [|done]. cbn [mbind option_bind].
  assert (Hin : bd ∈ rotate h (pBds q)) by (apply elem_of_rotate; by eapply list_elem_of_lookup_2).
  rewrite Eb in Hin. rewrite Forall_forall in F. specialize (F bd Hin). unfold idle in F. by rewrite F.
Qed.
