(* ===== verification/XtmTxSpec.v ===== *)
(** * ATM/PTM network driver: properties of transmission

    What happens to the bytes of a packet, and the transmit queues as bounded FIFOs that
    the driver and the DMA controller work on at the same time: packets leave in order,
    every socket buffer is freed exactly once and not before it was sent. *)

From S2P Require Import Prelude Ring XtmDefs XtmTx.

(** ** Accounting of socket buffers

    Every structure that was handed out is freed or held, and only once. *)

Definition owed (k : kmem) (held : list Z) : Prop := given k ≡ₚ freed k ++ held.

Lemma owed_free s k held : owed k (skb_ptr s :: held) -> owed (kfree_skb s k) held.
Proof. unfold owed, kfree_skb. cbn. intros ->. by rewrite <- app_assoc. Qed.

Lemma owed_free_all done k held :
  owed k (map skb_ptr done ++ held) -> owed (free_all done k) held.
Proof. unfold owed, free_all. cbn. intros ->. by rewrite <- app_assoc. Qed.

Lemma owed_perm k held held' : held ≡ₚ held' -> owed k held -> owed k held'.
Proof. unfold owed. by intros ->. Qed.

Lemma owed_answer k held a k' :
  next_answer k = (a, k') -> owed k held -> owed k' (match a with Some (p, _) => p :: held | None => held end).
Proof.
  unfold next_answer, owed. destruct (answers k) as [|[[p x]|] rest]; intros [= <- <-]; [done|cbn|done].
  intros ->. rewrite <- app_assoc. apply Permutation_app_head. by rewrite Permutation_app_comm.
Qed.

(** ** Copies *)

(** [s'] carries the bytes of [s] behind [hdr] and before some zeros. *)
Definition carries (hdr : list Z) (s s' : sk_buff) : Prop :=
  (exists n, skb_bytes s' = hdr ++ skb_bytes s ++ replicate n 0) /\ skb_protocol s' = skb_protocol s.

Lemma carries_refl s : carries [] s s.
Proof. split; [exists 0%nat; by rewrite app_nil_r|done]. Qed.

Lemma carries_trans hdr s1 s2 s3 : carries hdr s1 s2 -> carries [] s2 s3 -> carries hdr s1 s3.
Proof.
  intros [[n E] P] [[m E'] P']. split; [|congruence]. exists (n + m)%nat.
  rewrite E', E. cbn [app]. by rewrite replicate_add, <- !app_assoc.
Qed.

Lemma SKB_DATA_ALIGN_ge x : 0 <= x -> x <= SKB_DATA_ALIGN x.
Proof.
  intros. unfold SKB_DATA_ALIGN, SMP_CACHE_BYTES.
  change (Z.lnot (32 - 1)) with (Z.lnot (Z.ones 5)). rewrite <- Z.ldiff_land, Z.ldiff_ones_r by lia.
  rewrite Z.shiftr_div_pow2, Z.shiftl_mul_pow2 by lia. Z.to_euclidean_division_equations; lia.
Qed.

Lemma skb_copy_expand_spec s h t k o k' held :
  0 <= h -> 0 <= t -> skb_copy_expand s h t k = (o, k') -> owed k held ->
  match o with
  | Some s2 => carries [] s s2 /\ owed k' (skb_ptr s2 :: held) /\ t <= skb_tailroom s2 /\ skb_bytes s2 = skb_bytes s
      /\ exists p x, fst (next_answer k) = Some (p, x) /\ skb_data s2 = x + h
  | None => owed k' held /\ fst (next_answer k) = None
  end.
Proof.
  intros Hh Ht E Hk. unfold skb_copy_expand in E. destruct (next_answer k) as [a k1] eqn:En.
  pose proof (owed_answer _ _ _ _ En Hk) as H1. destruct a as [[p x]|]; injection E as <- <-; [|done].
  split_and!; [|done| |done|by exists p, x].
  - split; [exists 0%nat; by rewrite app_nil_r|done].
  - cbn [skb_tailroom]. pose proof (zlen_nonneg (skb_bytes s)). unfold skb_len.
    pose proof (SKB_DATA_ALIGN_ge (h + zlen (skb_bytes s) + t)). lia.
Qed.

Lemma pad_copy_spec s size k held :
  skb_len s <= size -> owed k held ->
  exists o k', pad_copy s size k = Some (o, k') /\
  match o with
  | Some s2 => carries [] s s2 /\ owed k' (skb_ptr s2 :: held) /\ skb_len s2 = size
      /\ exists p x, fst (next_answer k) = Some (p, x) /\ skb_data s2 = x
  | None => owed k' held /\ fst (next_answer k) = None
  end.
Proof.
  intros Hs Hk. unfold pad_copy. destruct (skb_copy_expand s 0 (size - skb_len s) k) as [o k1] eqn:E.
  pose proof (skb_copy_expand_spec s 0 (size - skb_len s) k o k1 held ltac:(lia) ltac:(lia) E Hk) as H.
  destruct o as [s2|]; [|by exists None, k1].
  destruct H as ([_ P] & Ho & Ht & Hb & p & x & En & Ed).
  unfold skb_put_zeros. assert (El : skb_len s2 = skb_len s) by (unfold skb_len; by rewrite Hb). rewrite El.
  destruct (Z.leb_spec 0 (size - skb_len s)); [|lia]. destruct (Z.leb_spec (size - skb_len s) (skb_tailroom s2)); [|lia].
  cbn [andb mbind option_bind]. eexists _, _. split; [done|]. cbn [skb_ptr skb_data]. split_and!; [|done| |].
  - split; [|done]. cbn [skb_bytes]. exists (Z.to_nat (size - skb_len s)). by rewrite Hb.
  - unfold skb_len in *. cbn [skb_bytes]. rewrite zlen_app, zlen_replicate, Hb. lia.
  - exists p, x. split; [done|]. lia.
Qed.

(** ** Preparing a packet *)

Definition sw_header (d : BCMXTMRT_DEV_CONTEXT) : bool :=
  negb (has (ulFlags d) CNI_HW_ADD_REMOVE_HEADER) && negb (ulHdrType d =? HT_NONE).

(** The header in front of a packet of the device. *)
Definition hdr_of (t : Z) : list Z :=
  take (Z.to_nat (nth (Z.to_nat t) ulHdrLens 0)) (nth (Z.to_nat t) ucHdrs []).

Definition tx_header (d : BCMXTMRT_DEV_CONTEXT) : list Z := if sw_header d then hdr_of (ulHdrType d) else [].

Lemma hdr_tables t :
  0 <= t <= 4 ->
  exists n h, ulHdrLens !! Z.to_nat t = Some n /\ ucHdrs !! Z.to_nat t = Some h
    /\ mem_read h 0 n = Some (hdr_of t) /\ zlen (hdr_of t) = n.
Proof.
  intros H. assert (E : t = 0 \/ t = 1 \/ t = 2 \/ t = 3 \/ t = 4) by lia.
  destruct E as [-> | [-> | [-> | [-> | ->]]]]; by eexists _, _.
Qed.

Lemma AddRfc2684Hdr_spec t s k held :
  0 <= t <= 4 -> 0 <= skb_headroom s -> owed k (skb_ptr s :: held) ->
  exists o k', AddRfc2684Hdr t s k = Some (o, k') /\
  match o with
  | Some s' => carries (hdr_of t) s s' /\ owed k' (skb_ptr s' :: held)
      /\ skb_len s' = Z.max ulMinPktSize (zlen (hdr_of t) + skb_len s)
  | None => owed k' held
  end.
Proof.
  intros Ht Hr Hk. destruct (hdr_tables t Ht) as (n & h & En & Eh & Em & Hn).
  unfold AddRfc2684Hdr. rewrite En, Eh. cbn [mbind option_bind].
  set (step1 := if skb_headroom s <? n then _ else _).
  assert (H1 : exists o1 k1, step1 = (o1, k1) /\ match o1 with
    | Some s1 => carries [] s s1 /\ skb_bytes s1 = skb_bytes s /\ owed k1 (skb_ptr s1 :: held) /\ n <= skb_headroom s1
    | None => owed k1 held end).
  { unfold step1. destruct (Z.ltb_spec (skb_headroom s) n) as [Hl|Hl].
    - unfold skb_realloc_headroom. destruct (next_answer k) as [a k1] eqn:Ea.
      pose proof (owed_answer _ _ _ _ Ea Hk) as H1. destruct a as [[p x]|].
      + eexists _, _. split; [done|]. cbn [skb_ptr skb_headroom skb_bytes]. split_and!; [| done | |].
        * split; [exists 0%nat; by rewrite app_nil_r|done].
        * apply owed_free. eapply owed_perm; [apply Permutation_swap|done].
        * pose proof (SKB_DATA_ALIGN_ge (n - skb_headroom s)). lia.
      + eexists _, _. split; [done|]. by apply owed_free.
    - exists (Some s), k. split; [done|]. split_and!; [apply carries_refl|done|done|done]. }
  destruct H1 as (o1 & k1 & -> & H1). destruct o1 as [s1|]; [|by exists None, k1].
  destruct H1 as (C1 & B1 & O1 & R1). rewrite Em. cbn [mbind option_bind].
  unfold skb_push_bytes. rewrite Hn. destruct (Z.leb_spec n (skb_headroom s1)); [|lia]. cbn [mbind option_bind].
  set (s2 := mkSkb _ _ _ _ _ _ _ _).
  assert (C2 : carries (hdr_of t) s s2).
  { split; [exists 0%nat; cbn; by rewrite app_nil_r, B1|apply C1]. }
  assert (O2 : owed k1 (skb_ptr s2 :: held)) by done.
  assert (L2 : skb_len s2 = zlen (hdr_of t) + skb_len s) by (unfold skb_len; cbn; by rewrite zlen_app, B1).
  destruct (Z.ltb_spec (skb_len s2) ulMinPktSize) as [Hl|Hl].
  - destruct (pad_copy_spec s2 ulMinPktSize k1 _ ltac:(lia) O2) as (o & k2 & -> & H2). cbn [mbind option_bind].
    eexists _, _. split; [done|]. destruct o as [s3|].
    + destruct H2 as (C3 & O3 & L3 & _). split_and!; [by eapply carries_trans| |rewrite L3; lia].
      apply owed_free. eapply owed_perm; [apply Permutation_swap|done].
    + destruct H2 as [H2 _]. by apply owed_free.
  - eexists _, _. split; [done|]. split_and!; [done..|lia].
Qed.

Lemma align_data_spec s k s' k' held :
  align_data s k = (s', k') -> owed k (skb_ptr s :: held) ->
  carries [] s s' /\ owed k' (skb_ptr s' :: held) /\ skb_bytes s' = skb_bytes s.
Proof.
  unfold align_data. destruct (negb (Z.land (skb_data s) 3 =? 0)).
  - set (adj := u32 _). destruct (skb_copy_expand s 0 adj k) as [o k1] eqn:E. intros Ek Hk.
    pose proof (u32_range (Z.land (u32 (skb_data s + 3)) (Z.lnot 3) - skb_data s)) as Ha. fold adj in Ha.
    unfold is_u32 in Ha.
    pose proof (skb_copy_expand_spec s 0 adj k o k1 _ ltac:(lia) ltac:(lia) E Hk) as H.
    destruct o as [s2|]; injection Ek as <- <-.
    + destruct H as (C & O & _ & B & _). split_and!; [done| |done].
      apply owed_free. eapply owed_perm; [apply Permutation_swap|done].
    + destruct H as [H _]. split_and!; [apply carries_refl|done|done].
  - intros [= <- <-] Hk. split_and!; [apply carries_refl|done|done].
Qed.

Lemma pad_short_spec s k held :
  owed k (skb_ptr s :: held) ->
  exists s' k', pad_short s k = Some (s', k') /\ carries [] s s' /\ owed k' (skb_ptr s' :: held).
Proof.
  unfold pad_short. intros Hk. destruct (Z.ltb_spec (skb_len s) ETH_ZLEN) as [Hl|Hl]; cbn [andb].
  - destruct (negb (is_cell s)).
    + destruct (pad_copy_spec s ETH_ZLEN k _ ltac:(lia) Hk) as (o & k1 & -> & H). cbn [mbind option_bind].
      destruct o as [s2|].
      * destruct H as (C & O & _). eexists _, _. split; [done|]. split; [done|].
        apply owed_free. eapply owed_perm; [apply Permutation_swap|done].
      * destruct H as [H _]. eexists _, _. split; [done|]. split; [apply carries_refl|done].
    + eexists _, _. split; [done|]. split; [apply carries_refl|done].
  - eexists _, _. split; [done|]. split; [apply carries_refl|done].
Qed.

(** *** Memory *)

(** At most [m] allocations happen between [k] and [k']. *)
Definition uses (m : nat) (k k' : kmem) : Prop := exists j, (j <= m)%nat /\ answers k' = drop j (answers k).

Lemma uses_0 m k k' : answers k' = answers k -> uses m k k'.
Proof. intros E. exists 0%nat. rewrite drop_0. split; [lia|done]. Qed.

Lemma uses_trans m n k1 k2 k3 : uses m k1 k2 -> uses n k2 k3 -> uses (m + n) k1 k3.
Proof. intros (i & Hi & E) (j & Hj & E'). exists (i + j)%nat. rewrite E', E, drop_drop. split; [lia|done]. Qed.

Lemma uses_le m n k k' : (m <= n)%nat -> uses m k k' -> uses n k k'.
Proof. intros H (i & Hi & E). exists i. split; [lia|done]. Qed.

Lemma uses_free m k s k' : uses m k k' -> uses m k (kfree_skb s k').
Proof. done. Qed.

Lemma uses_answer k a k' : next_answer k = (a, k') -> uses 1 k k'.
Proof.
  unfold next_answer. intros E. exists (if answers k is [] then 0%nat else 1%nat).
  destruct (answers k) as [|[x|] rest] eqn:Ea; injection E as <- <-; rewrite ?Ea; (split; [lia|done]).
Qed.

Lemma uses_copy s h t k o k' : skb_copy_expand s h t k = (o, k') -> uses 1 k k'.
Proof.
  unfold skb_copy_expand. destruct (next_answer k) as [[[p x]|] k1] eqn:E; intros [= <- <-]; by eapply uses_answer.
Qed.

Lemma uses_realloc s h k o k' : skb_realloc_headroom s h k = (o, k') -> uses 1 k k'.
Proof.
  unfold skb_realloc_headroom. destruct (next_answer k) as [[[p x]|] k1] eqn:E; intros [= <- <-]; by eapply uses_answer.
Qed.

Lemma uses_pad_copy s size k o k' : pad_copy s size k = Some (o, k') -> uses 1 k k'.
Proof.
  unfold pad_copy. destruct (skb_copy_expand _ _ _ k) as [[s2|] k1] eqn:E; intros H; opt_inv H.
  - destruct (skb_put_zeros s2 _); [|done]. injection H as <- <-. by eapply uses_copy.
  - injection H as <- <-. by eapply uses_copy.
Qed.

Lemma uses_AddRfc2684Hdr t s k o k' : AddRfc2684Hdr t s k = Some (o, k') -> uses 2 k k'.
Proof.
  unfold AddRfc2684Hdr. destruct (ulHdrLens !! _) as [n|]; [|done]. destruct (ucHdrs !! _) as [h|]; [|done].
  cbn [mbind option_bind]. set (step1 := if _ <? n then _ else _).
  assert (H1 : uses 1 k (snd step1)).
  { unfold step1. destruct (_ <? n); [|by apply uses_0].
    destruct (skb_realloc_headroom s n k) as [s2 k1] eqn:E. cbn [snd]. apply uses_free. by eapply uses_realloc. }
  destruct step1 as [[s1|] k1]; cbn [snd] in H1; intros H; [|injection H as <- <-; by eapply uses_le; [|done]; lia].
  destruct (mem_read h 0 n) as [hb|]; [|done]. cbn [mbind option_bind] in H.
  destruct (skb_push_bytes s1 hb) as [s2|]; [|done]. cbn [mbind option_bind] in H.
  destruct (skb_len s2 <? ulMinPktSize).
  - destruct (pad_copy s2 ulMinPktSize k1) as [[o2 k2]|] eqn:E; [|done]. injection H as <- <-.
    apply uses_free, (uses_trans 1 1 _ k1); [done|]. by eapply uses_pad_copy.
  - injection H as <- <-. eapply uses_le; [|done]. lia.
Qed.

Lemma uses_align s k s' k' : align_data s k = (s', k') -> uses 1 k k'.
Proof.
  unfold align_data. destruct (negb _); [|intros [= <- <-]; by apply uses_0].
  destruct (skb_copy_expand _ _ _ k) as [[s2|] k1] eqn:E; intros [= <- <-]; exact (uses_copy _ _ _ _ _ _ E).
Qed.

Lemma uses_pad_short s k s' k' : pad_short s k = Some (s', k') -> uses 1 k k'.
Proof.
  unfold pad_short. destruct (_ && _); [|intros [= <- <-]; by apply uses_0].
  destruct (pad_copy s ETH_ZLEN k) as [[o k1]|] eqn:E; [|done]. cbn [mbind option_bind].
  destruct o; intros [= <- <-]; exact (uses_pad_copy _ _ _ _ _ E).
Qed.

(** Enough memory for [n] allocations. *)
Definition plenty (n : nat) (k : kmem) : Prop := Forall is_Some (answers k) /\ (n <= length (answers k))%nat.

Lemma plenty_uses m n k k' : plenty (m + n) k -> uses m k k' -> plenty n k'.
Proof.
  intros [F L] (j & Hj & E). split; rewrite E; [by apply Forall_drop|]. rewrite length_drop. lia.
Qed.

Lemma plenty_answer n k : plenty (S n) k -> exists a, fst (next_answer k) = Some a.
Proof.
  intros [F L]. unfold next_answer. destruct (answers k) as [|o rest]; [cbn in L; lia|].
  apply Forall_cons in F as [[a ->] _]. by exists a.
Qed.

(** With enough memory a header is always added. *)
Lemma AddRfc2684Hdr_plenty t s k :
  plenty 2 k -> 0 <= t <= 4 -> 0 <= skb_headroom s ->
  exists s' k', AddRfc2684Hdr t s k = Some (Some s', k').
Proof.
  intros Hp Ht Hr. destruct (hdr_tables t Ht) as (n & h & En & Eh & Em & Hn).
  unfold AddRfc2684Hdr. rewrite En, Eh. cbn [mbind option_bind].
  set (step1 := if skb_headroom s <? n then _ else _).
  assert (H1 : exists s1 k1, step1 = (Some s1, k1) /\ n <= skb_headroom s1 /\ plenty 1 k1).
  { unfold step1. destruct (Z.ltb_spec (skb_headroom s) n) as [Hl|Hl].
    - unfold skb_realloc_headroom. destruct (plenty_answer 1 k Hp) as [[p x] Ea].
      destruct (next_answer k) as [a k1] eqn:E. cbn [fst] in Ea. subst a. eexists _, _. split; [done|].
      cbn [skb_headroom]. pose proof (SKB_DATA_ALIGN_ge (n - skb_headroom s)). split; [lia|].
      eapply (plenty_uses 1 1); [done|]. apply uses_free. by eapply uses_answer.
    - exists s, k. split_and!; [done..|]. destruct Hp. split; [done|lia]. }
  destruct H1 as (s1 & k1 & -> & R1 & P1). rewrite Em. cbn [mbind option_bind].
  unfold skb_push_bytes. rewrite Hn. destruct (Z.leb_spec n (skb_headroom s1)); [|lia]. cbn [mbind option_bind].
  set (s2 := mkSkb _ _ _ _ _ _ _ _). destruct (Z.ltb_spec (skb_len s2) ulMinPktSize) as [Hl|Hl]; [|by eexists _, _].
  destruct (pad_copy_spec s2 ulMinPktSize (mkKmem (answers k1) [] []) [] ltac:(lia)) as (o & k2 & E & Ho); [apply perm_nil|].
  destruct (plenty_answer 0 k1 P1) as [a Ea].
  unfold pad_copy, skb_copy_expand in *. unfold next_answer in *. cbn [answers given freed] in *.
  destruct (answers k1) as [|[[p x]|] rest]; [done| |done].
  destruct (skb_put_zeros _ _) as [s3|]; [|done]. by eexists _, _.
Qed.

(** ** The queues of a device

    A transmit queue, abstractly: where the controller is, the packets that were sent and
    not freed, and those still to be sent. *)

Record fifo := mkFifo { f_hw : nat; f_done : list sk_buff; f_pend : list sk_buff }.

Definition queue_ok (chs : list DmaChannelCfg) (q : TXQINFO) (f : fifo) : Prop :=
  tx_ring q (f_hw f) (f_done f) (f_pend f)
  /\ exists c, pDma q = Some c /\ 0 <= c < zlen chs.

Record tx_dev (chs : list DmaChannelCfg) (d : BCMXTMRT_DEV_CONTEXT) (fs : list fifo) : Prop := {
  td_hdr : valid_hdr d;
  td_vcid : is_u8 (ucTxVcid d);
  td_size : ulTxQInfosSize d = zlen fs;
  td_max : (length fs <= length (TxQInfos d))%nat;
  td_rings : Forall2 (queue_ok chs) (take (length fs) (TxQInfos d)) fs;
  td_prio : forall p i, priority_queue d 0 p = Some i -> (i < length fs)%nat
}.

(** The buffers that the rings hold. *)
Definition held (fs : list fifo) : list Z := concat (map (fun f => map skb_ptr (f_done f ++ f_pend f)) fs).

Definition cleared (f : fifo) : fifo := mkFifo (f_hw f) [] (f_pend f).

Definition push (s : sk_buff) (f : fifo) : fifo := mkFifo (f_hw f) (f_done f) (f_pend f ++ [s]).

Lemma free_all_app l1 l2 k : free_all l2 (free_all l1 k) = free_all (l1 ++ l2) k.
Proof. unfold free_all. cbn. by rewrite map_app, app_assoc. Qed.

Lemma free_queues_fifo chs qs fs k :
  Forall2 (queue_ok chs) qs fs ->
  exists qs', free_queues qs k = Some (qs', free_all (concat (map f_done fs)) k)
    /\ Forall2 (queue_ok chs) qs' (map cleared fs)
    /\ map ulQueueSize qs' = map ulQueueSize qs.
Proof.
  intros H. revert k. induction H as [|q f qs fs [Hq Hc] _ IH]; intros k.
  - exists []. split_and!; [|constructor|done]. destruct k. unfold free_all. cbn. by rewrite app_nil_r.
  - destruct (free_queue_ring q _ _ _ k Hq) as (q' & E & Hq' & Hd & Hs).
    destruct (IH (free_all (f_done f) k)) as (qs' & E' & F' & S').
    exists (q' :: qs'). cbn [free_queues]. rewrite E. cbn [mbind option_bind]. rewrite E'. cbn [mbind option_bind].
    cbn [map concat]. rewrite <- free_all_app. split_and!; [done| |cbn; congruence].
    constructor; [|done]. split; [done|]. by rewrite Hd.
Qed.

Lemma owed_clear fs k held' :
  owed k (held fs ++ held') -> owed (free_all (concat (map f_done fs)) k) (held (map cleared fs) ++ held').
Proof.
  intros H. apply owed_free_all. eapply owed_perm; [|done]. clear H. unfold held.
  rewrite app_assoc. apply Permutation_app_tail.
  induction fs as [|f fs IH]; [done|]. cbn [map concat cleared f_done f_pend app].
  rewrite IH, !map_app. rewrite <- !app_assoc. apply Permutation_app_head.
  rewrite !app_assoc. apply Permutation_app_tail. apply Permutation_app_comm.
Qed.

Lemma free_transmitted_fifo chs d fs k :
  tx_dev chs d fs ->
  exists d', free_transmitted d k = Some (d', free_all (concat (map f_done fs)) k)
    /\ tx_dev chs d' (map cleared fs)
    /\ exists qs, d' = with_queues d qs /\ map ulQueueSize qs = map ulQueueSize (TxQInfos d).
Proof.
  intros [Hh Hv Hs Hm Hr Hp]. unfold free_transmitted.
  destruct (Z.leb_spec (ulTxQInfosSize d) (zlen (TxQInfos d))) as [_|Hl]; [|unfold zlen in *; lia].
  assert (En : Z.to_nat (ulTxQInfosSize d) = length fs) by (unfold zlen in Hs; lia). rewrite En.
  destruct (free_queues_fifo chs _ fs k Hr) as (qs & E & F & S). rewrite E. cbn [mbind option_bind].
  pose proof (Forall2_length _ _ _ F) as Lq. rewrite length_map in Lq.
  eexists. split; [done|]. split.
  - split; cbn [ulTxQInfosSize TxQInfos with_queues]; try done.
    + by rewrite Hs, zlen_map.
    + rewrite length_map, length_app, length_drop. lia.
    + by rewrite length_map, take_app_length'.
    + rewrite length_map. exact Hp.
  - eexists. split; [done|]. rewrite map_app, S, <- map_app. by rewrite take_drop.
Qed.

(** *** A packet on a queue *)

Lemma tx_queue_valid chs d fs s : tx_dev chs d fs -> fs <> [] -> (tx_queue d s < length fs)%nat.
Proof.
  intros [_ _ _ _ _ Hp] Hn. unfold tx_queue. destruct (_ && _).
  - destruct (priority_queue d 0 (Z.land (skb_nfmark s) 15)) as [i|] eqn:E; cbn [default]; [by eapply Hp|].
    destruct fs; [done|]. cbn [length from_option]. lia.
  - destruct (_ && _); [|destruct fs; [done|]; cbn; lia].
    destruct (priority_queue d 0 (skb_priority s)) as [i|] eqn:E; [by eapply Hp|].
    destruct fs; [done|]. cbn. lia.
Qed.

Lemma zlen_insert_chs (chs : list DmaChannelCfg) i c : zlen (<[i := c]> chs) = zlen chs.
Proof. unfold zlen. by rewrite length_insert. Qed.

(** Whether a queue has room for another packet. *)
Definition room (d : BCMXTMRT_DEV_CONTEXT) (i : nat) (f : fifo) : bool :=
  match TxQInfos d !! i with Some q => zlen (f_pend f) <? ulQueueSize q | None => false end.

Lemma send_on_fifo chs d fs i f s k rest :
  tx_dev chs d fs -> fs !! i = Some f -> f_done f = [] -> owed k (skb_ptr s :: rest) ->
  if room d i f then
    exists d' chs' s' k', send_on d i s chs k = Some (d', chs', k') /\ carries [] s s'
      /\ pad_short s k = Some (s', k')
      /\ tx_dev chs' d' (<[i := push s' f]> fs) /\ owed k' (skb_ptr s' :: rest) /\ uses 1 k k'
      /\ DevStats d' = count_tx_packet (DevStats d) /\ zlen chs' = zlen chs
  else send_on d i s chs k = Some (with_stats d (count_tx_error (DevStats d)), chs, kfree_skb s k).
Proof.
  intros [Hh Hv Hs Hm Hr Hp] Hf Hd Hk. pose proof (lookup_lt_Some _ _ _ Hf) as Hi.
  destruct (lookup_lt_is_Some_2 (TxQInfos d) i) as [q Hq]; [lia|].
  assert (Hqf : queue_ok chs q f).
  { eapply Forall2_lookup_lr; [done| |done]. by rewrite lookup_take_lt. }
  destruct Hqf as [Hq1 (c & Hc & Hc')]. rewrite Hd in Hq1. unfold room, send_on. rewrite Hq. cbn [mbind option_bind].
  pose proof (tx_ring_room _ _ _ _ Hq1) as Hroom. pose proof Hq1 as [Qz _ _ _ Qf _]. rewrite zlen_nil in Qf.
  destruct (Z.ltb_spec (zlen (f_pend f)) (ulQueueSize q)) as [Hl|Hl].
  - destruct (Z.eqb_spec (ulFreeBds q) 0); [lia|]. cbn [negb].
    destruct (pad_short_spec s k rest Hk) as (s' & k' & E & C & O). rewrite E. cbn [mbind option_bind].
    destruct (enqueue_ring d s' q (f_hw f) (f_pend f) Hh Hv Hq1 Hl) as (q' & E' & Hq' & D' & S').
    rewrite E'. cbn [mbind option_bind]. unfold enable_channel. rewrite D', Hc. cbn [mbind option_bind].
    destruct (lookup_lt_is_Some_2 chs (Z.to_nat c)) as [r Hrc]; [unfold zlen in Hc'; lia|].
    rewrite Hrc. cbn [mbind option_bind]. eexists _, _, s', k'. split; [done|].
    split_and!; [done|done| |done|by eapply uses_pad_short|done|apply zlen_insert_chs].
    split; cbn [with_stats with_queues ulTxQInfosSize TxQInfos]; try done.
    + unfold zlen. by rewrite length_insert.
    + by rewrite !length_insert.
    + rewrite length_insert, take_insert_lt by done. apply Forall2_insert.
      * eapply Forall2_impl; [done|]. intros q0 f0 [H1 (c0 & H2 & H3)]. split; [done|]. exists c0.
        by rewrite zlen_insert_chs.
      * split; cbn [push f_hw f_done f_pend]; [by rewrite Hd|]. exists c. rewrite zlen_insert_chs. split; [congruence|done].
    + rewrite length_insert. exact Hp.
  - destruct (Z.eqb_spec (ulFreeBds q) 0); [done|lia].
Qed.

Lemma held_push s f i fs :
  fs !! i = Some f -> held (<[i := push s f]> fs) ≡ₚ skb_ptr s :: held fs.
Proof.
  revert i. induction fs as [|f0 fs IH]; intros i Hi; [done|]. destruct i as [|i].
  - injection Hi as ->. unfold held. cbn [insert list_insert map concat push f_done f_pend].
    rewrite app_assoc, map_app. cbn [map]. rewrite <- app_assoc. symmetry. apply Permutation_middle.
  - cbn in Hi. unfold held in *. cbn [insert list_insert map concat].
    etrans; [apply Permutation_app_head, (IH i Hi)|]. symmetry. apply Permutation_middle.
Qed.

Lemma encapsulate_spec d s k rest :
  valid_hdr d -> 0 <= skb_headroom s -> owed k (skb_ptr s :: rest) -> sw_header d = false \/ plenty 2 k ->
  exists s' k', encapsulate d s k = Some (s', k') /\ carries (tx_header d) s s'
    /\ owed k' (skb_ptr s' :: rest) /\ uses 3 k k'.
Proof.
  intros Hh Hr Hk Hm. unfold encapsulate, tx_header. fold (sw_header d).
  destruct (sw_header d) eqn:Es.
  - destruct Hm as [Hm|Hm]; [done|].
    destruct (AddRfc2684Hdr_plenty (ulHdrType d) s k Hm Hh Hr) as (s1 & k1 & E1).
    destruct (AddRfc2684Hdr_spec (ulHdrType d) s k rest Hh Hr Hk) as (o & k2 & E2 & H2).
    rewrite E1 in E2. injection E2 as <- <-. destruct H2 as (C1 & O1 & _).
    rewrite E1. cbn [mbind option_bind]. destruct (align_data s1 k1) as [s3 k3] eqn:E3.
    destruct (align_data_spec s1 k1 s3 k3 rest E3 O1) as (C3 & O3 & _).
    exists s3, k3. split_and!; [done|by eapply carries_trans|done|].
    eapply (uses_trans 2 1); [by eapply uses_AddRfc2684Hdr|by eapply uses_align].
  - cbn [mbind option_bind]. destruct (align_data s k) as [s3 k3] eqn:E3.
    destruct (align_data_spec s k s3 k3 rest E3 Hk) as (C3 & O3 & _).
    exists s3, k3. split_and!; [done..|]. apply uses_le with 1%nat; [lia|]. by eapply uses_align.
Qed.

(** How a device encapsulates. *)
Definition same_hdr (d d' : BCMXTMRT_DEV_CONTEXT) : Prop := ulFlags d' = ulFlags d /\ ulHdrType d' = ulHdrType d.

Lemma same_hdr_tx d d' : same_hdr d d' -> tx_header d' = tx_header d /\ sw_header d' = sw_header d.
Proof. unfold tx_header, sw_header. by intros [-> ->]. Qed.

Lemma send_on_header d i s chs k d' chs' k' :
  send_on d i s chs k = Some (d', chs', k') -> same_hdr d d'.
Proof.
  unfold send_on. destruct (TxQInfos d !! i) as [q|]; [|done]. cbn [mbind option_bind].
  destruct (negb _); [|by intros [= <- <- <-]].
  destruct (pad_short s k) as [[sa ka]|]; [|done]. cbn [mbind option_bind].
  destruct (enqueue _ sa _) as [q'|]; [|done]. cbn [mbind option_bind].
  destruct (enable_channel _ chs) as [c'|]; [|done]. by intros [= <- <- <-].
Qed.

Definition clear_all (fs : list fifo) : list fifo := map cleared fs.

(** *** A call with a packet

    What was sent is freed.  The packet is put at the end of its queue when the queue has
    room, and freed otherwise. *)

Lemma xmit_packet chs d fs s k :
  tx_dev chs d fs -> fs <> [] -> 0 <= skb_headroom s ->
  owed k (skb_ptr s :: held fs) -> sw_header d = false \/ plenty 2 k ->
  exists f, fs !! tx_queue d s = Some f /\
  if room d (tx_queue d s) f then
    exists d' chs' s' k', bcmxtmrt_xmit (Some s) d chs k = Some (d', chs', k')
      /\ carries (tx_header d) s s'
      /\ tx_dev chs' d' (<[tx_queue d s := push s' (cleared f)]> (clear_all fs))
      /\ owed k' (held (<[tx_queue d s := push s' (cleared f)]> (clear_all fs)))
      /\ uses 4 k k' /\ DevStats d' = count_tx_packet (DevStats d) /\ same_hdr d d'
      /\ exists s1 k1, encapsulate d s (free_all (concat (map f_done fs)) k) = Some (s1, k1)
           /\ pad_short s1 k1 = Some (s', k')
  else
    exists d' k', bcmxtmrt_xmit (Some s) d chs k = Some (d', chs, k')
      /\ tx_dev chs d' (clear_all fs) /\ owed k' (held (clear_all fs))
      /\ uses 3 k k' /\ DevStats d' = count_tx_error (DevStats d) /\ same_hdr d d'.
Proof.
  intros Hd Hn Hr Hk Hm. set (i := tx_queue d s).
  pose proof (tx_queue_valid chs d fs s Hd Hn) as Hi. fold i in Hi.
  destruct (lookup_lt_is_Some_2 fs i Hi) as [f Hf]. exists f. split; [done|].
  destruct (free_transmitted_fifo chs d fs k Hd) as (d1 & E1 & Hd1 & qs & -> & Hq).
  set (k1 := free_all (concat (map f_done fs)) k) in *.
  assert (O1 : owed k1 (skb_ptr s :: held (clear_all fs))).
  { eapply owed_perm, (owed_clear fs k [skb_ptr s]);
      [by rewrite Permutation_app_comm|eapply owed_perm; [|done]; by rewrite Permutation_app_comm]. }
  assert (Er : room (with_queues d qs) i (cleared f) = room d i f).
  { unfold room. cbn [with_queues TxQInfos cleared f_pend].
    assert (Hql : ulQueueSize <$> (qs !! i) = ulQueueSize <$> (TxQInfos d !! i)).
    { pose proof (f_equal (fun l => l !! i) Hq) as H. cbn beta in H. by rewrite !list_lookup_fmap in H. }
    destruct (qs !! i), (TxQInfos d !! i); cbn in Hql; congruence. }
  assert (Hf1 : clear_all fs !! i = Some (cleared f)) by (unfold clear_all; by rewrite list_lookup_fmap, Hf).
  assert (Hz : ulTxQInfosSize d <> 0).
  { destruct Hd as [_ _ Hz _ _ _]. rewrite Hz. destruct fs; [done|]. rewrite zlen_cons. pose proof (zlen_nonneg fs). lia. }
  destruct (encapsulate_spec (with_queues d qs) s k1 _ (td_hdr _ _ _ Hd1) Hr O1) as (s2 & k2 & E2 & C2 & O2 & U2).
  { destruct Hm as [Hm|Hm]; [by left|right]. exact Hm. }
  pose proof (send_on_fifo chs _ _ i (cleared f) s2 k2 _ Hd1 Hf1 eq_refl O2) as Hs. rewrite Er in Hs.
  assert (U1 : uses 0 k k1) by by apply uses_0.
  destruct (room d i f).
  - destruct Hs as (d3 & chs3 & s3 & k3 & E3 & C3 & P3 & Hd3 & O3 & U3 & S3 & _).
    exists d3, chs3, s3, k3. unfold bcmxtmrt_xmit. rewrite E1. cbn [mbind option_bind].
    replace (negb (ulTxQInfosSize (with_queues d qs) =? 0)) with true
      by (cbn [with_queues ulTxQInfosSize]; destruct (Z.eqb_spec (ulTxQInfosSize d) 0); done).
    rewrite E2. cbn [mbind option_bind]. change (tx_queue (with_queues d qs) s) with i.
    split_and!; [done| |done| | |done| |by exists s2, k2].
    + eapply carries_trans; [exact C2|done].
    + eapply owed_perm; [symmetry; by apply held_push|done].
    + apply (uses_trans 0 4 _ k1), (uses_trans 3 1 _ k2); done.
    + exact (send_on_header _ _ _ _ _ _ _ _ E3).
  - eexists _, _. unfold bcmxtmrt_xmit. rewrite E1. cbn [mbind option_bind].
    replace (negb (ulTxQInfosSize (with_queues d qs) =? 0)) with true
      by (cbn [with_queues ulTxQInfosSize]; destruct (Z.eqb_spec (ulTxQInfosSize d) 0); done).
    rewrite E2. cbn [mbind option_bind]. change (tx_queue (with_queues d qs) s) with i. rewrite Hs. split; [done|].
    split_and!; [|by apply owed_free| |done|done].
    + destruct Hd1. by split.
    + apply (uses_trans 0 3 _ k1); done.
Qed.

(** *** What is freed stays freed *)

Lemma next_answer_freed k a k' : next_answer k = (a, k') -> freed k' = freed k.
Proof. unfold next_answer. destruct (answers k) as [|[x|] r]; by intros [= _ <-]. Qed.

Lemma pad_copy_freed s n k o k' : pad_copy s n k = Some (o, k') -> freed k' = freed k.
Proof.
  unfold pad_copy, skb_copy_expand. destruct (next_answer k) as [[[p data]|] k1] eqn:E.
  - destruct (skb_put_zeros _ _); [|done]. intros [= _ <-]. by eapply next_answer_freed.
  - intros [= _ <-]. by eapply next_answer_freed.
Qed.

Lemma kfree_prefix s k k' : freed k = freed k' -> freed k' `prefix_of` freed (kfree_skb s k).
Proof. intros E. exists [skb_ptr s]. by rewrite <- E. Qed.

Lemma AddRfc2684Hdr_freed t s k o k' : AddRfc2684Hdr t s k = Some (o, k') -> freed k `prefix_of` freed k'.
Proof.
  unfold AddRfc2684Hdr. destruct (ulHdrLens !! _) as [n|]; [|done]. destruct (ucHdrs !! _) as [h|]; [|done].
  cbn [mbind option_bind]. set (r := if _ <? n then _ else _).
  assert (Hr : freed k `prefix_of` freed (snd r)).
  { unfold r. destruct (_ <? n); [|done]. unfold skb_realloc_headroom.
    destruct (next_answer k) as [[[p data]|] k1] eqn:E; apply kfree_prefix; by eapply next_answer_freed. }
  destruct r as [[s1|] k1]; cbn [snd] in Hr; [|by intros [= _ <-]].
  destruct (mem_read _ _ _); [|done]. cbn [mbind option_bind]. destruct (skb_push_bytes _ _) as [s2|]; [|done].
  cbn [mbind option_bind]. destruct (_ <? _); [|by intros [= _ <-]].
  destruct (pad_copy s2 _ k1) as [[o2 k2]|] eqn:E; [|done]. intros [= _ <-].
  etrans; [exact Hr|]. apply kfree_prefix. by eapply pad_copy_freed.
Qed.

Lemma align_data_freed s k : freed k `prefix_of` freed (snd (align_data s k)).
Proof.
  unfold align_data. destruct (negb _); [|done]. unfold skb_copy_expand.
  destruct (next_answer k) as [[[p data]|] k1] eqn:E; cbn [snd].
  - apply kfree_prefix. by eapply next_answer_freed.
  - by rewrite (next_answer_freed _ _ _ E).
Qed.

Lemma encapsulate_freed d s k s' k' : encapsulate d s k = Some (s', k') -> freed k `prefix_of` freed k'.
Proof.
  unfold encapsulate.
  set (r := if negb (has (ulFlags d) CNI_HW_ADD_REMOVE_HEADER) && negb (ulHdrType d =? HT_NONE) then _ else _).
  assert (Hr : forall s1 k1, r = Some (s1, k1) -> freed k `prefix_of` freed k1).
  { intros s1 k1. unfold r. destruct (_ && _); [|by intros [= _ <-]].
    destruct (AddRfc2684Hdr _ _ _) as [[[s2|] k2]|] eqn:E; [|done|done]. intros [= _ <-].
    by eapply AddRfc2684Hdr_freed. }
  destruct r as [[s1 k1]|]; [|done]. cbn [mbind option_bind]. specialize (Hr s1 k1 eq_refl).
  pose proof (align_data_freed s1 k1) as Ha. destruct (align_data s1 k1) as [s2 k2]. intros [= _ <-].
  by etrans.
Qed.

Lemma send_on_freed d i s chs k d' chs' k' :
  send_on d i s chs k = Some (d', chs', k') -> freed k `prefix_of` freed k'.
Proof.
  unfold send_on. destruct (_ !! i) as [q|]; [|done]. cbn [mbind option_bind].
  destruct (negb _); [|intros [= _ _ <-]; by apply kfree_prefix]. unfold pad_short.
  destruct (_ && _); cbn [mbind option_bind].
  - destruct (pad_copy _ _ _) as [[[s2|] k2]|] eqn:E; [..|done]; apply pad_copy_freed in E; cbn [mbind option_bind].
    + destruct (enqueue _ _ _) as [q1|]; [|done]. cbn [mbind option_bind]. destruct (enable_channel _ _); [|done].
      intros [= _ _ <-]. by apply kfree_prefix.
    + destruct (enqueue _ _ _) as [q1|]; [|done]. cbn [mbind option_bind]. destruct (enable_channel _ _); [|done].
      intros [= _ _ <-]. by rewrite E.
  - destruct (enqueue _ _ _) as [q1|]; [|done]. cbn [mbind option_bind]. destruct (enable_channel _ _); [|done].
    by intros [= _ _ <-].
Qed.

(** The packets that were sent are freed first, and they stay freed. *)
Lemma xmit_freed chs d fs s k d' chs' k' :
  tx_dev chs d fs -> bcmxtmrt_xmit (Some s) d chs k = Some (d', chs', k') ->
  (freed k ++ map skb_ptr (concat (map f_done fs))) `prefix_of` freed k'.
Proof.
  intros Hd. destruct (free_transmitted_fifo chs d fs k Hd) as (d1 & E1 & _). unfold bcmxtmrt_xmit. rewrite E1.
  cbn [mbind option_bind]. change (freed k ++ _) with (freed (free_all (concat (map f_done fs)) k)).
  destruct (negb _); [|intros [= _ _ <-]; by apply kfree_prefix].
  destruct (encapsulate _ _ _) as [[s1 k1]|] eqn:E2; [|done]. cbn [mbind option_bind]. intros E3.
  etrans; [by eapply encapsulate_freed|by eapply send_on_freed].
Qed.

(** A call without a packet (from the timer) only frees; so does one on a device whose
    link is down, which drops the packet. *)
Lemma xmit_timer chs d fs k :
  tx_dev chs d fs -> owed k (held fs) ->
  exists d' k', bcmxtmrt_xmit None d chs k = Some (d', chs, k') /\ tx_dev chs d' (clear_all fs)
    /\ owed k' (held (clear_all fs)) /\ uses 0 k k' /\ same_hdr d d'.
Proof.
  intros Hd Hk. destruct (free_transmitted_fifo chs d fs k Hd) as (d1 & E1 & Hd1 & qs & -> & _).
  eexists _, _. unfold bcmxtmrt_xmit. rewrite E1. split; [done|]. split_and!; [done| |by apply uses_0|done].
  rewrite <- (app_nil_r (held _)). apply owed_clear. by rewrite app_nil_r.
Qed.

(** ** The driver and the controller together

    Packets from the network stack, expiries of the timer and the work of the controller
    on the queues, in any order.  [s_hw] is where the controller is on each queue, and
    [s_sent] the descriptors it has sent. *)

Inductive tx_event :=
| Offer (s : sk_buff)
| Reclaim
| Transmit (i : nat).

Record tx_sys := mkSys {
  s_dev : BCMXTMRT_DEV_CONTEXT;
  s_chs : list DmaChannelCfg;
  s_mem : kmem;
  s_hw : list nat;
  s_sent : list (list DmaDesc)
}.

Definition with_bds (q : TXQINFO) (bds : list DmaDesc) : TXQINFO :=
  mkTxq (ulPort q) (ulPtmPriority q) (ulSubPriority q) (ulQueueSize q) (ulDmaIndex q)
    (pDma q) (pBds_at q) bds (ppSkbs q) (ulFreeBds q) (ulHead q) (ulTail q).

Definition got (p : Z) (k : kmem) : kmem := mkKmem (answers k) (given k ++ [p]) (freed k).

Definition tx_step (e : tx_event) (st : tx_sys) : option tx_sys :=
  match e with
  | Offer s =>
      '(d, chs, k) ← bcmxtmrt_xmit (Some s) (s_dev st) (s_chs st) (got (skb_ptr s) (s_mem st));
      Some (mkSys d chs k (s_hw st) (s_sent st))
  | Reclaim =>
      '(d, chs, k) ← bcmxtmrt_xmit None (s_dev st) (s_chs st) (s_mem st);
      Some (mkSys d chs k (s_hw st) (s_sent st))
  | Transmit i =>
      match TxQInfos (s_dev st) !! i, s_hw st !! i, s_sent st !! i with
      | Some q, Some hw, Some sent =>
          match dma_transmit hw (pBds q) with
          | Some (hw', bds, bd) =>
              Some (mkSys (with_queues (s_dev st) (<[i := with_bds q bds]> (TxQInfos (s_dev st))))
                      (s_chs st) (s_mem st) (<[i := hw']> (s_hw st)) (<[i := sent ++ [bd]]> (s_sent st)))
          | None => Some st
          end
      | _, _, _ => Some st
      end
  end.

Fixpoint tx_run (es : list tx_event) (st : tx_sys) : option tx_sys :=
  match es with
  | [] => Some st
  | e :: es' => st ← tx_step e st; tx_run es' st
  end.

Definition offers (es : list tx_event) : list sk_buff :=
  omap (fun e => match e with Offer s => Some s | _ => None end) es.

(** The controller sent the data of [s]. *)
Definition sent_as (bd : DmaDesc) (s : sk_buff) : Prop :=
  bd_address bd = VIRT_TO_PHY (skb_data s) /\ bd_length bd = u16 (skb_len s).

(** What happened on a queue: the packets [sent] and those still pending are the packets
    [src] with their header, in the order in which they were offered. *)
Definition queue_history (hdr : list Z) (offered : list sk_buff) (f : fifo) (log : list DmaDesc) : Prop :=
  exists src sent, Forall2 sent_as log sent /\ f_done f `suffix_of` sent
    /\ Forall2 (carries hdr) src (sent ++ f_pend f) /\ src `sublist_of` offered.

Record sys_ok (hdr : list Z) (offered : list sk_buff) (st : tx_sys) (fs : list fifo) : Prop := {
  so_dev : tx_dev (s_chs st) (s_dev st) fs;
  so_hdr : tx_header (s_dev st) = hdr;
  so_hw : s_hw st = map f_hw fs;
  so_mem : owed (s_mem st) (held fs);
  so_log : Forall2 (queue_history hdr offered) fs (s_sent st)
}.

Lemma history_clear hdr o f l : queue_history hdr o f l -> queue_history hdr o (cleared f) l.
Proof.
  intros (src & sent & H1 & H2 & H3 & H4). exists src, sent. cbn. split_and!; [done| |done..].
  apply suffix_nil.
Qed.

Lemma history_offer hdr o s f l : queue_history hdr o f l -> queue_history hdr (o ++ [s]) f l.
Proof.
  intros (src & sent & H1 & H2 & H3 & H4). exists src, sent. split_and!; [done..|].
  by apply sublist_inserts_r.
Qed.

Lemma history_push hdr o s s' f l :
  carries hdr s s' -> queue_history hdr o f l -> queue_history hdr (o ++ [s]) (push s' f) l.
Proof.
  intros Hc (src & sent & H1 & H2 & H3 & H4). exists (src ++ [s]), sent. cbn [push f_done f_pend].
  split_and!; [done..| |by apply sublist_app].
  rewrite app_assoc. apply Forall2_app; [done|]. constructor; [done|constructor].
Qed.

Lemma owed_got p k l : owed k l -> owed (got p k) (p :: l).
Proof. unfold owed, got. cbn. intros ->. rewrite <- app_assoc. by rewrite (Permutation_app_comm l [p]). Qed.

Lemma map_hw_cleared fs : map f_hw (clear_all fs) = map f_hw fs.
Proof. unfold clear_all. rewrite map_map. done. Qed.

Lemma histories_clear hdr o fs ls :
  Forall2 (queue_history hdr o) fs ls -> Forall2 (queue_history hdr o) (clear_all fs) ls.
Proof. intros H. unfold clear_all. apply Forall2_fmap_l. eapply Forall2_impl; [done|]. apply history_clear. Qed.

Lemma step_offer hdr o st fs s :
  sys_ok hdr o st fs -> fs <> [] -> 0 <= skb_headroom s -> sw_header (s_dev st) = false \/ plenty 2 (s_mem st) ->
  exists st' fs', tx_step (Offer s) st = Some st' /\ sys_ok hdr (o ++ [s]) st' fs' /\ fs' <> []
    /\ sw_header (s_dev st') = sw_header (s_dev st) /\ uses 4 (s_mem st) (s_mem st').
Proof.
  intros [Hd Eh Ew Hm Hl] Hn Hr Hp. pose proof (owed_got (skb_ptr s) _ _ Hm) as Hg.
  destruct (xmit_packet _ _ _ s _ Hd Hn Hr Hg) as (f & Hf & H); [destruct Hp; [by left|by right]|].
  cbn [tx_step]. assert (Hl' : Forall2 (queue_history hdr (o ++ [s])) (clear_all fs) (s_sent st)).
  { apply histories_clear. eapply Forall2_impl; [done|]. intros. by apply history_offer. }
  destruct (room _ _ f).
  - destruct H as (d' & chs' & s' & k' & -> & C & Hd' & O & U & _ & Sh & _). cbn [mbind option_bind].
    destruct (same_hdr_tx _ _ Sh) as [E1 E2].
    eexists _, (<[tx_queue (s_dev st) s := push s' (cleared f)]> (clear_all fs)). split; [done|]. cbn [s_dev s_mem].
    split_and!; [| |done|done]; cycle 1.
    { intros E%(f_equal length). unfold clear_all in E. rewrite length_insert, length_map in E. by destruct fs. }
    split; cbn [s_dev s_chs s_hw s_mem s_sent]; [done|congruence| |done|].
    + rewrite list_fmap_insert. cbn [push f_hw cleared]. rewrite map_hw_cleared, Ew. symmetry. apply list_insert_id.
      by rewrite list_lookup_fmap, Hf.
    + destruct (Forall2_lookup_l _ _ _ _ _ Hl Hf) as (l & Hll & Hh).
      rewrite <- (list_insert_id (s_sent st) _ l Hll). apply Forall2_insert; [done|].
      apply history_push; [by rewrite Eh in C|]. by apply history_clear.
  - destruct H as (d' & k' & -> & Hd' & O & U & _ & Sh). cbn [mbind option_bind].
    destruct (same_hdr_tx _ _ Sh) as [E1 E2]. eexists _, (clear_all fs). split; [done|]. cbn [s_dev s_mem].
    split_and!; [|by destruct fs|done|by eapply uses_le; [|done]; lia].
    split; cbn [s_dev s_chs s_hw s_mem s_sent]; [done|congruence|by rewrite map_hw_cleared|done|done].
Qed.

Lemma step_reclaim hdr o st fs :
  sys_ok hdr o st fs -> fs <> [] ->
  exists st' fs', tx_step Reclaim st = Some st' /\ sys_ok hdr o st' fs' /\ fs' <> []
    /\ sw_header (s_dev st') = sw_header (s_dev st) /\ uses 0 (s_mem st) (s_mem st').
Proof.
  intros [Hd Eh Ew Hm Hl] Hn. destruct (xmit_timer _ _ _ _ Hd Hm) as (d' & k' & E & Hd' & O & U & Sh).
  cbn [tx_step]. rewrite E. cbn [mbind option_bind]. destruct (same_hdr_tx _ _ Sh) as [E1 E2].
  eexists _, (clear_all fs). split; [done|]. cbn [s_dev s_mem]. split_and!; [|by destruct fs|done|done].
  split; cbn [s_dev s_chs s_hw s_mem s_sent]; [done|congruence|by rewrite map_hw_cleared|done|by apply histories_clear].
Qed.

Lemma held_sent f i fs s pend hw :
  fs !! i = Some f -> f_pend f = s :: pend ->
  held (<[i := mkFifo hw (f_done f ++ [s]) pend]> fs) = held fs.
Proof.
  intros Hi Hp. revert i Hi. induction fs as [|f0 fs IH]; intros i Hi; [done|]. unfold held in *.
  destruct i as [|i]; cbn [insert list_insert map concat].
  - injection Hi as ->. cbn [f_done f_pend]. by rewrite Hp, <- app_assoc.
  - f_equal. exact (IH i Hi).
Qed.

Lemma history_sent hdr o f s pend hw l bd :
  sent_as bd s -> f_pend f = s :: pend -> queue_history hdr o f l ->
  queue_history hdr o (mkFifo hw (f_done f ++ [s]) pend) (l ++ [bd]).
Proof.
  intros Hb Hp (src & sent & H1 & [x H2] & H3 & H4). rewrite Hp in H3. exists src, (sent ++ [s]).
  cbn [f_done f_pend]. split_and!; [| | |done].
  - apply Forall2_app; [done|]. constructor; [done|constructor].
  - exists x. by rewrite H2, app_assoc.
  - by rewrite <- app_assoc.
Qed.

Lemma step_transmit hdr o st fs i :
  sys_ok hdr o st fs -> fs <> [] ->
  exists st' fs', tx_step (Transmit i) st = Some st' /\ sys_ok hdr o st' fs' /\ fs' <> []
    /\ sw_header (s_dev st') = sw_header (s_dev st) /\ uses 0 (s_mem st) (s_mem st').
Proof.
  intros Hok Hn. pose proof Hok as [Hd Eh Ew Hm Hl].
  assert (Hstay : exists st' fs', Some st = Some st' /\ sys_ok hdr o st' fs' /\ fs' <> []
    /\ sw_header (s_dev st') = sw_header (s_dev st) /\ uses 0 (s_mem st) (s_mem st')).
  { exists st, fs. split_and!; [done..|by apply uses_0]. }
  cbn [tx_step]. destruct (TxQInfos (s_dev st) !! i) as [q|] eqn:Eq; [|done].
  destruct (s_hw st !! i) as [hw|] eqn:Ehw; [|done].
  destruct (s_sent st !! i) as [log|] eqn:El; [|done].
  rewrite Ew, list_lookup_fmap in Ehw. destruct (fs !! i) as [f|] eqn:Ef; [|done]. injection Ehw as <-.
  pose proof (lookup_lt_Some _ _ _ Ef) as Hi.
  assert (Hq : queue_ok (s_chs st) q f).
  { destruct Hd as [_ _ _ _ Hr _]. eapply Forall2_lookup_lr; [done| |done]. by rewrite lookup_take_lt. }
  destruct Hq as [Hq Hc]. destruct (f_pend f) as [|s pend] eqn:Ep; [by rewrite (dma_idle _ _ _ Hq)|].
  destruct (dma_ring _ _ _ _ _ Hq) as (hw' & bds & bd & -> & Ha & Hb & Hq').
  eexists _, (<[i := mkFifo hw' (f_done f ++ [s]) pend]> fs). split; [done|]. split_and!; [| |done|by apply uses_0].
  - split; cbn [s_dev s_chs s_hw s_mem s_sent]; [|done| | |].
    + destruct Hd as [D1 D2 D3 D4 D5 D6]. split; cbn [with_queues ulTxQInfosSize TxQInfos]; try done.
      * unfold zlen. by rewrite length_insert.
      * by rewrite !length_insert.
      * rewrite length_insert, take_insert_lt by done. by apply Forall2_insert.
      * rewrite length_insert. exact D6.
    + rewrite list_fmap_insert, Ew. done.
    + by rewrite (held_sent f).
    + apply Forall2_insert; [done|]. apply history_sent; [done..|]. by eapply Forall2_lookup_lr.
  - intros E. apply (f_equal length) in E. rewrite length_insert in E. by destruct fs.
Qed.

Lemma offers_cons e es :
  offers (e :: es) = match e with Offer s => s :: offers es | _ => offers es end.
Proof. by destruct e. Qed.

Lemma tx_run_ok hdr o es st fs :
  sys_ok hdr o st fs -> fs <> [] -> Forall (fun s => 0 <= skb_headroom s) (offers es) ->
  sw_header (s_dev st) = false \/ plenty (4 * length (offers es)) (s_mem st) ->
  exists st' fs', tx_run es st = Some st' /\ sys_ok hdr (o ++ offers es) st' fs'.
Proof.
  revert o st fs. induction es as [|e es IH]; intros o st fs Hok Hn Hr Hm.
  { exists st, fs. by rewrite app_nil_r. }
  cbn [tx_run]. rewrite offers_cons in *. destruct e as [s| |i].
  - apply Forall_cons in Hr as [Hs Hr]. cbn [length] in Hm.
    destruct (step_offer hdr o st fs s Hok Hn Hs) as (st1 & fs1 & -> & Hok1 & Hn1 & E1 & U1).
    { destruct Hm as [Hm|[Hm1 Hm2]]; [by left|right; split; [done|lia]]. }
    destruct (IH _ _ _ Hok1 Hn1 Hr) as (st2 & fs2 & E2 & Hok2).
    { rewrite E1. destruct Hm as [Hm|Hm]; [by left|right]. eapply (plenty_uses 4); [|done].
      destruct Hm as [Hm1 Hm2]. split; [done|lia]. }
    exists st2, fs2. split; [done|]. by rewrite <- app_assoc in Hok2.
  - destruct (step_reclaim hdr o st fs Hok Hn) as (st1 & fs1 & -> & Hok1 & Hn1 & E1 & U1).
    eapply IH; [done..|]. rewrite E1. destruct Hm as [Hm|Hm]; [by left|right]. by eapply (plenty_uses 0).
  - destruct (step_transmit hdr o st fs i Hok Hn) as (st1 & fs1 & -> & Hok1 & Hn1 & E1 & U1).
    eapply IH; [done..|]. rewrite E1. destruct Hm as [Hm|Hm]; [by left|right]. by eapply (plenty_uses 0).
Qed.

(** Idle queues. *)
Definition idle_fifos (n : nat) : list fifo := replicate n (mkFifo 0 [] []).

Definition start (d : BCMXTMRT_DEV_CONTEXT) (chs : list DmaChannelCfg) (k : kmem) (n : nat) : tx_sys :=
  mkSys d chs k (replicate n 0%nat) (replicate n []).

Lemma held_idle n : held (idle_fifos n) = [].
Proof. induction n as [|n IH]; [done|]. exact IH. Qed.

Lemma start_ok d chs a n :
  tx_dev chs d (idle_fifos n) ->
  sys_ok (tx_header d) [] (start d chs (mkKmem a [] []) n) (idle_fifos n).
Proof.
  intros Hd. split; cbn [start s_dev s_chs s_mem s_hw s_sent]; [done|done| | |].
  - unfold idle_fifos. by rewrite fmap_replicate.
  - unfold owed. by rewrite held_idle.
  - apply Forall2_replicate. exists [], []. split_and!; [constructor|done|constructor|constructor].
Qed.

(** ** What is sent for a packet *)

(** Zeros up to the minimal length of a frame. *)
Definition pad60 (b : list Z) : list Z := b ++ replicate (Z.to_nat (60 - zlen b)) 0.

Definition frame (d : BCMXTMRT_DEV_CONTEXT) (s : sk_buff) : list Z :=
  let b := tx_header d ++ skb_bytes s in
  if sw_header d || negb (is_cell s) then pad60 b else b.

Lemma carries_pad hdr s s' :
  carries hdr s s' -> skb_len s' = Z.max 60 (zlen (hdr ++ skb_bytes s)) -> skb_bytes s' = pad60 (hdr ++ skb_bytes s).
Proof.
  intros [[n E] _] L. unfold skb_len in L. rewrite app_assoc in E. rewrite E. unfold pad60. f_equal. f_equal.
  rewrite E, zlen_app, zlen_replicate in L. lia.
Qed.

Lemma pad60_long b : 60 <= zlen b -> pad60 b = b.
Proof. intros. unfold pad60. replace (Z.to_nat (60 - zlen b)) with 0%nat by lia. apply app_nil_r. Qed.

Lemma zlen_pad60 b : zlen (pad60 b) = Z.max 60 (zlen b).
Proof. unfold pad60. rewrite zlen_app, zlen_replicate. lia. Qed.

(** The allocator returns aligned memory. *)
Definition aligned_answer (o : option (Z * Z)) : Prop := exists p x, o = Some (p, x) /\ x mod 4 = 0.

Lemma aligned_plenty n k : Forall aligned_answer (answers k) -> (n <= length (answers k))%nat -> plenty n k.
Proof. intros F L. split; [|done]. eapply Forall_impl; [done|]. intros o (p & x & -> & _). done. Qed.

Lemma aligned_uses m k k' : uses m k k' -> Forall aligned_answer (answers k) -> Forall aligned_answer (answers k').
Proof. intros (j & _ & ->) F. by apply Forall_drop. Qed.

Lemma aligned_next k : Forall aligned_answer (answers k) -> (1 <= length (answers k))%nat ->
  exists p x, fst (next_answer k) = Some (p, x) /\ x mod 4 = 0.
Proof.
  intros F L. unfold next_answer. destruct (answers k) as [|o rest]; [cbn in L; lia|].
  apply Forall_cons in F as [(p & x & -> & Hx) _]. by exists p, x.
Qed.

Lemma land_3 x : Z.land x 3 = x mod 4.
Proof. change 3 with (Z.ones 2). by rewrite Z.land_ones. Qed.

Lemma align_data_aligned s k s' k' :
  Forall aligned_answer (answers k) -> (1 <= length (answers k))%nat -> align_data s k = (s', k') ->
  skb_data s' mod 4 = 0 /\ skb_bytes s' = skb_bytes s.
Proof.
  intros F L. unfold align_data. rewrite land_3.
  destruct (Z.eqb_spec (skb_data s mod 4) 0) as [E|E]; cbn [negb]; [by intros [= <- <-]|].
  set (adj := u32 _). destruct (aligned_next k F L) as (p & x & Ex & Hx).
  unfold skb_copy_expand. destruct (next_answer k) as [a k1]. cbn [fst] in Ex. subst a. intros [= <- <-].
  cbn [skb_data skb_bytes]. by rewrite Z.add_0_r.
Qed.

Lemma frame_spec d s k held :
  valid_hdr d -> 0 <= skb_headroom s -> owed k (skb_ptr s :: held) ->
  Forall aligned_answer (answers k) -> (4 <= length (answers k))%nat ->
  exists s1 k1 s2 k2, encapsulate d s k = Some (s1, k1) /\ pad_short s1 k1 = Some (s2, k2)
    /\ skb_bytes s2 = frame d s /\ skb_data s2 mod 4 = 0.
Proof.
  intros Hh Hr Hk Ha Hl.
  destruct (encapsulate_spec d s k held Hh Hr Hk) as (s1 & k1 & E1 & C1 & O1 & U1).
  { right. apply aligned_plenty; [done|lia]. }
  assert (H1 : skb_data s1 mod 4 = 0 /\ skb_bytes s1 =
    if sw_header d then pad60 (tx_header d ++ skb_bytes s) else skb_bytes s).
  { unfold encapsulate in E1. fold (sw_header d) in E1. unfold tx_header. destruct (sw_header d) eqn:Es.
    - destruct (AddRfc2684Hdr_spec (ulHdrType d) s k held Hh Hr Hk) as (o & k0 & E0 & H0).
      pose proof (uses_AddRfc2684Hdr _ _ _ _ _ E0) as U0. rewrite E0 in E1. cbn [mbind option_bind] in E1.
      destruct o as [s0|]; [|done]. cbn [mbind option_bind] in E1. injection E1 as E1.
      destruct H0 as (C0 & _ & L0).
      destruct (align_data_aligned s0 k0 s1 k1) as [D B]; [by eapply aligned_uses| |done|].
      { destruct U0 as (j & Hj & ->). rewrite length_drop. lia. }
      split; [done|]. rewrite B. apply carries_pad; [done|]. rewrite L0, zlen_app. done.
    - cbn [mbind option_bind] in E1. injection E1 as E1.
      apply (align_data_aligned s k s1 k1); [done|lia|done]. }
  destruct H1 as [D1 B1]. destruct (pad_short_spec s1 k1 held O1) as (s2 & k2 & E2 & C2 & O2).
  exists s1, k1, s2, k2. split_and!; [done|done| |].
  - unfold frame. assert (Ec : is_cell s1 = is_cell s) by (unfold is_cell; by rewrite (proj2 C1)).
    unfold pad_short in E2. rewrite Ec in E2. unfold tx_header in *. destruct (sw_header d) eqn:Es; cbn [orb].
    + assert (L1 : 60 <= skb_len s1) by (unfold skb_len; rewrite B1, zlen_pad60; lia).
      destruct (Z.ltb_spec (skb_len s1) ETH_ZLEN) as [Hx|Hx]; [unfold ETH_ZLEN in Hx; lia|].
      injection E2 as <- <-. done.
    + cbn [app]. destruct (is_cell s); cbn [negb] in *.
      * rewrite andb_false_r in E2. injection E2 as <- <-. done.
      * rewrite andb_true_r in E2. destruct (Z.ltb_spec (skb_len s1) ETH_ZLEN) as [Hx|Hx].
        -- destruct (pad_copy_spec s1 ETH_ZLEN k1 _ ltac:(lia) O1) as (o & k3 & E3 & H3). rewrite E3 in E2.
           cbn [mbind option_bind] in E2. destruct o as [s3|].
           ++ injection E2 as <- <-. destruct H3 as (C3 & _ & L3 & _). rewrite <- B1.
              apply (carries_pad []); [done|]. rewrite L3. unfold ETH_ZLEN, skb_len in *. cbn [app]. lia.
           ++ exfalso. destruct H3 as [_ H3]. destruct (aligned_next k1) as (p & x & Ex & _);
                [by eapply aligned_uses| |congruence]. destruct U1 as (j & Hj & ->). rewrite length_drop. lia.
        -- injection E2 as <- <-. rewrite B1, pad60_long; [done|]. unfold ETH_ZLEN, skb_len in Hx. rewrite B1 in Hx. lia.
  - unfold pad_short in E2. destruct (_ && _) eqn:Eb; [|by injection E2 as <- <-]. zprop.
    destruct (pad_copy_spec s1 ETH_ZLEN k1 _ ltac:(lia) O1) as (o & k3 & E3 & H3). rewrite E3 in E2.
    cbn [mbind option_bind] in E2. destruct o as [s3|]; injection E2 as <- <-; [|done].
    destruct H3 as (_ & _ & _ & p & x & Ex & ->). destruct (aligned_next k1) as (p' & x' & Ex' & Hx');
      [by eapply aligned_uses| |congruence]. destruct U1 as (j & Hj & ->). rewrite length_drop. lia.
Qed.

(** ** A queue as it is set up *)

Definition fresh_bds (n : nat) : list DmaDesc :=
  <[(n - 1)%nat := mkBd 0 DMA_WRAP 0]> (replicate n (mkBd 0 0 0)).

Definition fresh_txq (port ptm sub n index chan addr : Z) : TXQINFO :=
  mkTxq port ptm sub n index (Some chan) addr (fresh_bds (Z.to_nat n)) (replicate (Z.to_nat n) None) n 0 0.

Lemma length_fresh_bds n : length (fresh_bds n) = n.
Proof. unfold fresh_bds. by rewrite length_insert, length_replicate. Qed.

Lemma fresh_bds_idle n : Forall idle (fresh_bds n).
Proof. apply Forall_insert; [by apply Forall_replicate|done]. Qed.

Lemma fresh_bds_wrap n : wrap_ok (fresh_bds n).
Proof.
  intros i bd. rewrite length_fresh_bds. unfold fresh_bds. intros H.
  pose proof (lookup_lt_Some _ _ _ H) as Hi. rewrite length_insert, length_replicate in Hi.
  destruct (decide (i = n - 1)%nat) as [->|Hne].
  - rewrite list_lookup_insert_eq in H by (rewrite length_replicate; lia). injection H as <-.
    symmetry. apply Nat.eqb_eq. lia.
  - rewrite list_lookup_insert_ne in H by done. apply lookup_replicate_1 in H as [-> _].
    symmetry. apply Nat.eqb_neq. lia.
Qed.

Lemma fresh_ring port ptm sub n index chan addr :
  0 < n < 2 ^ 32 -> tx_ring (fresh_txq port ptm sub n index chan addr) 0 [] [].
Proof.
  intros Hn. pose proof (length_fresh_bds (Z.to_nat n)) as Hl.
  assert (Hz : zlen (fresh_bds (Z.to_nat n)) = n) by (unfold zlen; lia).
  split; cbn [fresh_txq ulQueueSize pBds ppSkbs ulFreeBds ulHead ulTail]; rewrite ?zlen_nil, ?Hz; try done; try lia.
  - by rewrite length_replicate.
  - apply fresh_bds_wrap.
  - exists 0%nat, [], [], (fresh_bds (Z.to_nat n)). rewrite Hl. cbn [length Nat.add].
    rewrite ring_at_0 by lia. split_and!; try done; try lia.
    + cbn [app]. unfold rotate. by rewrite Nat.Div0.mod_0_l, drop_0, take_0, app_nil_r.
    + apply fresh_bds_idle.
    + cbn [map app]. apply rotate_replicate.
Qed.

(** ** Properties *)



(** Where the driver adds the header itself, the result of a failed allocation is used
    as a packet: if there is no room for the header and no memory, [bcmxtmrt_xmit] reads
    through a null pointer. *)
Theorem xmit_header_out_of_memory chs d fs s k :
  tx_dev chs d fs -> fs <> [] -> sw_header d = true ->
  skb_headroom s < zlen (tx_header d) -> answers k = [] ->
  bcmxtmrt_xmit (Some s) d chs k = None.
Proof.
  intros Hd Hn Hs Hr Ha. destruct (free_transmitted_fifo chs d fs k Hd) as (d1 & E1 & Hd1 & qs & -> & _).
  unfold bcmxtmrt_xmit. rewrite E1. cbn [mbind option_bind].
  destruct Hd as [Hh _ Hz _ _ _]. cbn [with_queues ulTxQInfosSize].
  destruct (Z.eqb_spec (ulTxQInfosSize d) 0) as [E|_].
  { exfalso. rewrite Hz in E. destruct fs; [done|]. rewrite zlen_cons in E. pose proof (zlen_nonneg fs). lia. }
  cbn [negb]. unfold encapsulate. fold (sw_header (with_queues d qs)).
  change (sw_header (with_queues d qs)) with (sw_header d). rewrite Hs. cbn [with_queues ulHdrType].
  destruct (hdr_tables (ulHdrType d) Hh) as (n & h & En & Eh & Em & Hl).
  unfold AddRfc2684Hdr. rewrite En, Eh. cbn [mbind option_bind]. unfold tx_header in Hr. rewrite Hs, Hl in Hr.
  destruct (Z.ltb_spec (skb_headroom s) n); [|lia].
  unfold skb_realloc_headroom, next_answer, free_all. cbn [answers]. by rewrite Ha.
Qed.

(** ** A device with one queue *)

Definition demo_chs : list DmaChannelCfg := replicate IUDMA_MAX_CHANNELS zero_chan.

Definition demo_dev : BCMXTMRT_DEV_CONTEXT :=
  mkDev (mkNetDev [] 0 false) zero_stats 0 0 (mkAddr TRAFFIC_TYPE_ATM 1 0 35) LINK_UP
    XTMRT_DEV_OPENED ADMSTS_UP HT_LLC_SNAP_ETHERNET 0 1 1
    (fresh_txq 0 0 1 2 0 4 0xa1000010 :: replicate 15 zero_txq)
    ([None; Some 0%nat; None; None; None; None; None; None] :: replicate 3 (replicate 8 None)) 0x81000008.

(** A packet of 64 bytes and a cell. *)
Definition demo_packet (p : Z) : sk_buff := mkSkb p (0x80001000 + 256 * p) 2 (replicate 64 p) 32 0 0x0800 1.
Definition demo_cell : sk_buff := mkSkb 9 0x80002000 16 (replicate 48 7) 16 0 0xf0c0 0.
Definition demo_mem (n : nat) : list (option (Z * Z)) :=
  map (fun i => Some (100 + Z.of_nat i, 0x80010000 + 256 * Z.of_nat i)) (seq 0 n).

Lemma demo_dev_ok : tx_dev demo_chs demo_dev (idle_fifos 1).
Proof.
  split.
  - by unfold valid_hdr, demo_dev.
  - done.
  - done.
  - cbn. lia.
  - constructor; [|constructor]. split; [by apply fresh_ring|]. exists 4. done.
  - intros p i. unfold priority_queue. cbn. intros H.
    destruct (Z.to_nat p) as [|[|[|[|[|[|[|[|n]]]]]]]]; cbn in H; try done; injection H as <-; cbn; lia.
Qed.

Lemma demo_aligned n : Forall aligned_answer (demo_mem n).
Proof.
  apply Forall_map, Forall_true. intros i. eexists _, _. split; [done|].
  replace (2147549184 + 256 * Z.of_nat i) with ((536887296 + 64 * Z.of_nat i) * 4) by lia. apply Z.mod_mul. lia.
Qed.

Lemma demo_some n : Forall is_Some (demo_mem n).
Proof. apply Forall_map, Forall_true. by eexists. Qed.



Lemma xmit_header_out_of_memory_witness :
  skb_headroom (demo_packet 1) < zlen (tx_header demo_dev)
  /\ bcmxtmrt_xmit (Some (demo_packet 1)) demo_dev demo_chs (mkKmem [] [1] []) = None.
Proof.
  split; [done|].
  apply (xmit_header_out_of_memory demo_chs demo_dev (idle_fifos 1) (demo_packet 1) (mkKmem [] [1] [])).
  - apply demo_dev_ok.
  - done.
  - done.
  - done.
  - done.
Defined.

(** A cell that is sent on a device with software headers gets the header of a packet and
    the padding, as [frame] says. *)
Lemma cell_gets_header :
  is_cell demo_cell = true /\
  frame demo_dev demo_cell = [0xAA; 0xAA; 0x03; 0x00; 0x80; 0xC2; 0x00; 0x07; 0x00; 0x00] ++ replicate 48 7 ++ [0; 0].
Proof. by vm_compute. Qed.

(** The header for routed IP lacks the last of its eight bytes. *)
Lemma routed_header_short :
  hdr_of HT_LLC_SNAP_ROUTE_IP = [0xAA; 0xAA; 0x03; 0x00; 0x00; 0x00; 0x08].
Proof. done. Qed.
