(* ===== verification/XtmRx.v ===== *)
(** * ATM/PTM network driver: reception

    [AssignRxBuffer], [bcmxtmrt_freeskbordata], [bcmxtmrt_rxisr], [bcmxtmrt_rxtasklet] and
    [ProcessRxCell] of [bcmxtmrt.c]: the rings of receive descriptors, the list of free
    socket buffers, and what happens to a frame and to a cell.  The kernel side of a
    received buffer is [kfree_rx] ([kfree_skbmem] with its callbacks) and [detach_rx]
    ([pskb_expand_head], which releases only the data). *)

From stdpp Require Import gmap.
From S2P Require Import Prelude XtmDefs XtmTx.

(** ** Sizes *)

Definition FSTAT_MATCH_ID_MASK : Z := 0x7f.
Definition FSTAT_PACKET_CELL_MASK : Z := 0x400.
Definition FSTAT_PACKET : Z := 0.
Definition FSTAT_ERROR : Z := 0x800.

Definition MAX_MTU_SIZE : Z := 1500 + 14 + 4.
Definition MAX_RFC2684_HDR_SIZE : Z := 10.
Definition RXBUF_HEAD_RESERVE : Z := 32.
Definition RXBUF_SIZE : Z := SKB_DATA_ALIGN (MAX_MTU_SIZE + MAX_RFC2684_HDR_SIZE + SAR_DMA_MAX_BURST_LENGTH).

(** [sizeof(struct skb_shared_info)]: 16 bytes and 18 fragments of 8. *)
Definition SHINFO_SIZE : Z := 160.

Definition RXBUF_ALLOC_SIZE : Z := SKB_DATA_ALIGN (RXBUF_HEAD_RESERVE + RXBUF_SIZE + SHINFO_SIZE).

(** ** State *)

(** A receive ring: its descriptors from [pBdBase] on, the indices of [pBdHead] and
    [pBdTail] among them, the DMA channel, and the address [pBdBase]. *)
Record RXBDINFO := mkRxInfo {
  rx_bds : list DmaDesc;
  pBdHead : nat;
  pBdTail : nat;
  rx_chan : nat;
  pBdBase : Z
}.

(** [retfreeq_context] of a socket buffer: the next free one (0 is a null pointer), or
    the ring its data came from. *)
Inductive retctx :=
| CtxSkb (p : Z)
| CtxRing (i : nat).

Record rx_skb := mkRxSkb {
  rs_head : Z;
  rs_data : Z;
  rs_tail : Z;
  rs_end : Z;
  rs_len : Z;
  rs_protocol : Z;
  rs_nfmark : Z;
  rs_dev : Z;
  retfreeq_context : retctx;
  data_prealloc : bool
}.

(** The uninitialised structures of [pRxSkbMem]. *)
Definition blank_skb (c : retctx) : rx_skb := mkRxSkb 0 0 0 0 0 0 0 0 c false.

Definition with_context (s : rx_skb) (c : retctx) : rx_skb :=
  mkRxSkb (rs_head s) (rs_data s) (rs_tail s) (rs_end s) (rs_len s) (rs_protocol s)
    (rs_nfmark s) (rs_dev s) c (data_prealloc s).

Record XTMRT_CELL := mkCell {
  ConnAddr : XTM_ADDR;
  ucCircuitType : Z;
  ucData : list Z
}.

(** What the driver passes on: a packet to the network stack, a cell to a handler, the
    message that a buffer has no place in the ring, an interrupt that is enabled. *)
Inductive rx_out :=
| NetifRx (p : Z)
| OamCell (dev : Z) (c : XTMRT_CELL) (context : Z)
| AsmCell (dev : Z) (c : XTMRT_CELL) (context : Z)
| NoPlace (buf : Z)
| IntEnable (i : nat).

(** The part of [g_GlobalInfo] that reception works on.  A handle of a device is the
    address of its context; 0 is a null pointer.  A zeroed [RXBDINFO] is [None]. *)
Record rx_glob := mkRx {
  RxBdInfos : list (option RXBDINFO);
  rx_chs : list DmaChannelCfg;
  rx_skbs : gmap Z rx_skb;
  pFreeRxSkbList : Z;
  pDevCtxsByMatchId : list Z;
  devs : gmap Z BCMXTMRT_DEV_CONTEXT;
  pfnOamHandler : Z;
  pOamContext : Z;
  pfnAsmHandler : Z;
  pAsmContext : Z;
  ulIntEnableMask : Z;
  outputs : list rx_out
}.

Definition with_ring (g : rx_glob) (i : nat) (r : RXBDINFO) (chs : list DmaChannelCfg) : rx_glob :=
  mkRx (<[i := Some r]> (RxBdInfos g)) chs (rx_skbs g) (pFreeRxSkbList g) (pDevCtxsByMatchId g)
    (devs g) (pfnOamHandler g) (pOamContext g) (pfnAsmHandler g) (pAsmContext g)
    (ulIntEnableMask g) (outputs g).
Definition with_skbs (g : rx_glob) (h : gmap Z rx_skb) (free : Z) : rx_glob :=
  mkRx (RxBdInfos g) (rx_chs g) h free (pDevCtxsByMatchId g)
    (devs g) (pfnOamHandler g) (pOamContext g) (pfnAsmHandler g) (pAsmContext g)
    (ulIntEnableMask g) (outputs g).
Definition emit (o : rx_out) (g : rx_glob) : rx_glob :=
  mkRx (RxBdInfos g) (rx_chs g) (rx_skbs g) (pFreeRxSkbList g) (pDevCtxsByMatchId g)
    (devs g) (pfnOamHandler g) (pOamContext g) (pfnAsmHandler g) (pAsmContext g)
    (ulIntEnableMask g) (outputs g ++ [o]).
Definition with_mask (g : rx_glob) (m : Z) (chs : list DmaChannelCfg) : rx_glob :=
  mkRx (RxBdInfos g) chs (rx_skbs g) (pFreeRxSkbList g) (pDevCtxsByMatchId g)
    (devs g) (pfnOamHandler g) (pOamContext g) (pfnAsmHandler g) (pAsmContext g) m (outputs g).
Definition with_devs (g : rx_glob) (ds : gmap Z BCMXTMRT_DEV_CONTEXT) : rx_glob :=
  mkRx (RxBdInfos g) (rx_chs g) (rx_skbs g) (pFreeRxSkbList g) (pDevCtxsByMatchId g)
    ds (pfnOamHandler g) (pOamContext g) (pfnAsmHandler g) (pAsmContext g)
    (ulIntEnableMask g) (outputs g).

(** ** Giving a buffer back *)

(** The part of [AssignRxBuffer] that fills the descriptor at the tail; [None] inside is
    the message that there is no place. *)
Definition fill_tail (r : RXBDINFO) (pucData : Z) : option (option RXBDINFO) :=
  bd ← rx_bds r !! pBdTail r;
  let usWrap := Z.land (bd_status bd) DMA_WRAP in
  if bd_address bd =? 0 then
    let bd' := mkBd RXBUF_SIZE (Z.lor usWrap DMA_OWN) (VIRT_TO_PHY (pucData + RXBUF_HEAD_RESERVE)) in
    Some (Some (mkRxInfo (<[pBdTail r := bd']> (rx_bds r)) (pBdHead r)
                  (if negb (usWrap =? 0) then 0%nat else S (pBdTail r)) (rx_chan r) (pBdBase r)))
  else Some None.

(** The channel is started again if it ran out of descriptors. *)
Definition restart_dma (c : nat) (chs : list DmaChannelCfg) : option (list DmaChannelCfg) :=
  ch ← chs !! c;
  Some (if has (intStat ch) DMA_NO_DESC
        then <[c := set_cfg (ack_int ch DMA_NO_DESC) DMA_ENABLE]> chs else chs).

Definition AssignRxBuffer (i : nat) (pucData : Z) (g : rx_glob) : option rx_glob :=
  r ← mjoin (RxBdInfos g !! i);
  o ← fill_tail r pucData;
  let r' := default r o in
  chs ← restart_dma (rx_chan r) (rx_chs g);
  let g := with_ring g i r' chs in
  Some (match o with Some _ => g | None => emit (NoPlace pucData) g end).

(** [bcmxtmrt_freeskbordata] with [RETFREEQ_SKB] and with [RETFREEQ_DATA]; [c] is the
    first argument, the context of the buffer. *)
Definition bcmxtmrt_freeskbordata (c : retctx) (p : Z) (is_skb : bool) (g : rx_glob) : option rx_glob :=
  s ← rx_skbs g !! p;
  if is_skb then
    Some (with_skbs g (<[p := with_context s (CtxSkb (pFreeRxSkbList g))]> (rx_skbs g)) p)
  else
    match c with
    | CtxRing i => AssignRxBuffer i (rs_head s) g
    | CtxSkb _ => None
    end.

(** [kfree_skbmem] on a received buffer that nobody else refers to. *)
Definition kfree_rx (p : Z) (g : rx_glob) : option rx_glob :=
  s ← rx_skbs g !! p;
  g ← (if data_prealloc s then bcmxtmrt_freeskbordata (retfreeq_context s) p false g else Some g);
  bcmxtmrt_freeskbordata (retfreeq_context s) p true g.

(** [pskb_expand_head]: the data moves to a new buffer and the old one is released. *)
Definition detach_rx (p : Z) (g : rx_glob) : option rx_glob :=
  s ← rx_skbs g !! p;
  if data_prealloc s then
    g ← bcmxtmrt_freeskbordata (retfreeq_context s) p false g;
    let s' := mkRxSkb (rs_head s) (rs_data s) (rs_tail s) (rs_end s) (rs_len s) (rs_protocol s)
                (rs_nfmark s) (rs_dev s) (retfreeq_context s) false in
    Some (with_skbs g (<[p := s']> (rx_skbs g)) (pFreeRxSkbList g))
  else Some g.

(** ** The interrupt *)

Definition bcmxtmrt_rxisr (chan : nat) (g : rx_glob) : option rx_glob :=
  ch ← rx_chs g !! chan;
  Some (with_mask g (u32 (Z.lor (ulIntEnableMask g) (Z.shiftl 1 (Z.of_nat chan))))
          (<[chan := ack_int ch DMA_DONE]> (rx_chs g))).

(** ** Cells *)

Definition CHDR_CT_MASK : Z := 0x0f.
Definition CHDR_PORT_MASK : Z := 0x60.
Definition CHDR_PORT_SHIFT : Z := 5.
Definition CHDR_ERROR : Z := 0x80.

Definition CTYPE_OAM_F5_SEGMENT : Z := 0.
Definition CTYPE_OAM_F5_END_TO_END : Z := 1.
Definition CTYPE_OAM_F4_SEGMENT : Z := 2.
Definition CTYPE_OAM_F4_END_TO_END : Z := 3.
Definition CTYPE_ASM_P0 : Z := 4.
Definition CTYPE_ASM_P1 : Z := 5.
Definition CTYPE_ASM_P2 : Z := 6.
Definition CTYPE_ASM_P3 : Z := 7.

Definition ucCts : list Z :=
  [0; 0; 0; 0; CTYPE_OAM_F5_SEGMENT; CTYPE_OAM_F5_END_TO_END; 0; 0;
   CTYPE_ASM_P0; CTYPE_ASM_P1; CTYPE_ASM_P2; CTYPE_ASM_P3;
   CTYPE_OAM_F4_SEGMENT; CTYPE_OAM_F4_END_TO_END].

Definition PORT_TO_PORTID (port : Z) : Z := u32 (Z.shiftl 1 port).

Section memory.

(** The contents of the memory. *)
Variable mem : Z -> Z.

Definition cell_vpi (pucAtmHdr : Z) : Z :=
  u16 (Z.shiftr (Z.shiftl (mem pucAtmHdr) 8 + mem (pucAtmHdr + 1)) 4).

(** The sum is cut to 16 bits before it is shifted. *)
Definition cell_vci (pucAtmHdr : Z) : Z :=
  Z.shiftr (u16 (Z.shiftl (Z.land (mem (pucAtmHdr + 1)) 0x0f) 16 + Z.shiftl (mem (pucAtmHdr + 2)) 8
                 + mem (pucAtmHdr + 3))) 4.

(** [ucCHdr] after the check for the two channels of F4 flows. *)
Definition cell_header (ucCHdr vci : Z) : Z :=
  if vci =? 3 then XCT_OAM_F4_SEG else if vci =? 4 then XCT_OAM_F4_E2E else ucCHdr.

Definition bytes_at (a : Z) (n : nat) : list Z := map (fun i => mem (a + Z.of_nat i)) (seq 0 n).

Definition is_oam (ct : Z) : bool :=
  (ct =? XCT_OAM_F5_SEG) || (ct =? XCT_OAM_F5_E2E) || (ct =? XCT_OAM_F4_SEG) || (ct =? XCT_OAM_F4_E2E).
Definition is_asm (ct : Z) : bool :=
  (ct =? XCT_ASM_P0) || (ct =? XCT_ASM_P1) || (ct =? XCT_ASM_P2) || (ct =? XCT_ASM_P3).

Definition ProcessRxCell (hdev : Z) (i : nat) (pucData : Z) (g : rx_glob) : option rx_glob :=
  d ← devs g !! hdev;
  let ucCHdr := mem pucData in
  let pucAtmHdr := pucData + 1 in
  let port := Z.shiftr (Z.land ucCHdr CHDR_PORT_MASK) CHDR_PORT_SHIFT in
  let addr := mkAddr (ulTrafficType (Addr d)) (PORT_TO_PORTID port) (cell_vpi pucAtmHdr) (cell_vci pucAtmHdr) in
  let ucCHdr := cell_header ucCHdr (usVci addr) in
  let ct := Z.land ucCHdr CHDR_CT_MASK in
  circuit ← ucCts !! Z.to_nat ct;
  let cell := mkCell addr circuit (bytes_at (pucData + 1) (Z.to_nat CELL_SIZE)) in
  let g :=
    if Z.land ucCHdr CHDR_ERROR =? 0 then
      if is_oam ct then
        if negb (pfnOamHandler g =? 0) then emit (OamCell hdev cell (pOamContext g)) g else g
      else if is_asm ct then
        if negb (pfnAsmHandler g =? 0) then emit (AsmCell hdev cell (pAsmContext g)) g else g
      else g
    else with_devs g (<[hdev := with_stats d (count_rx_error (DevStats d))]> (devs g)) in
  AssignRxBuffer i (pucData - RXBUF_HEAD_RESERVE) g.

(** ** Packets *)

Definition FROM_WAN : Z := 0x1000.
Definition ETH_P_IP : Z := 0x0800.
Definition ETH_P_802_3 : Z := 1.
Definition ETH_P_802_2 : Z := 4.

Definition align16 (x : Z) : Z := Z.land (x + 0x0f) (Z.lnot 0x0f).

(** [skb_hdrinit] and [__skb_trim]: a packet of [len] bytes at [data] in a buffer of [size].
    The structure [skb_shared_info] is initialised at the end of the packet; [limit] is the
    end of the memory the buffer has, and a structure that does not lie in it is a fault. *)
Definition skb_hdrinit (limit size len data : Z) (i : nat) : option rx_skb :=
  let e := align16 (data + size) in
  if e + SHINFO_SIZE <=? limit then
    Some (mkRxSkb (data - RXBUF_HEAD_RESERVE) data (data + len) e len 0 FROM_WAN 0 (CtxRing i) true)
  else None.

Definition skb_pull (s : rx_skb) (n : Z) : rx_skb :=
  mkRxSkb (rs_head s) (rs_data s + n) (rs_tail s) (rs_end s) (u32 (rs_len s - n)) (rs_protocol s)
    (rs_nfmark s) (rs_dev s) (retfreeq_context s) (data_prealloc s).

Definition set_protocol (s : rx_skb) (v : Z) : rx_skb :=
  mkRxSkb (rs_head s) (rs_data s) (rs_tail s) (rs_end s) (rs_len s) v
    (rs_nfmark s) (rs_dev s) (retfreeq_context s) (data_prealloc s).

Definition set_dev (s : rx_skb) (d : Z) : rx_skb :=
  mkRxSkb (rs_head s) (rs_data s) (rs_tail s) (rs_end s) (rs_len s) (rs_protocol s)
    (rs_nfmark s) d (retfreeq_context s) (data_prealloc s).

(** [eth_type_trans] without the type of the destination address. *)
Definition eth_type_trans (s : rx_skb) : rx_skb :=
  let mac := rs_data s in
  let s := if rs_len s <? ETH_HLEN then s else skb_pull s ETH_HLEN in
  let h_proto := 256 * mem (mac + 12) + mem (mac + 13) in
  let rawp := 256 * mem (rs_data s) + mem (rs_data s + 1) in
  set_protocol s
    (if 1536 <=? h_proto then h_proto else if rawp =? 0xffff then ETH_P_802_3 else ETH_P_802_2).

(** The length of the packet: without the frame check sequence, and at least 60.  The
    driver computes it in the descriptor, which is empty by then and gets a new length
    with its next buffer. *)
Definition rx_length (d : BCMXTMRT_DEV_CONTEXT) (length : Z) : Z :=
  let length :=
    if (ulTrafficType (Addr d) =? TRAFFIC_TYPE_PTM) && negb (length =? 0) then u16 (length - 4) else length in
  if length <? ETH_ZLEN then ETH_ZLEN else length.

Definition rx_packet (d : BCMXTMRT_DEV_CONTEXT) (hdev : Z) (i : nat) (pucData length : Z)
    : option rx_skb :=
  let length := rx_length d length in
  s ← skb_hdrinit (pucData - RXBUF_HEAD_RESERVE + RXBUF_ALLOC_SIZE) (length + SAR_DMA_MAX_BURST_LENGTH)
        length pucData i;
  s ← (if negb (has (ulFlags d) CNI_HW_ADD_REMOVE_HEADER)
       then n ← ulHdrLens !! Z.to_nat (ulHdrType d); Some (skb_pull s n) else Some s);
  let s := set_dev s hdev in
  Some (if ulHdrType d =? HT_LLC_SNAP_ROUTE_IP then set_protocol s ETH_P_IP
        else if ulHdrType d =? HT_LLC_ENCAPS_PPP then s
        else eth_type_trans s).

(** A socket buffer is taken from the free list, which is read through without a test. *)
Definition pop_skb (g : rx_glob) : option (Z * rx_glob) :=
  s ← rx_skbs g !! pFreeRxSkbList g;
  match retfreeq_context s with
  | CtxSkb next => Some (pFreeRxSkbList g, with_skbs g (rx_skbs g) next)
  | CtxRing _ => None
  end.

Definition deliver (hdev : Z) (i : nat) (pucData length : Z) (g : rx_glob) : option rx_glob :=
  d ← devs g !! hdev;
  '(p, g) ← pop_skb g;
  s ← rx_packet d hdev i pucData length;
  Some (emit (NetifRx p) (with_skbs g (<[p := s]> (rx_skbs g)) (pFreeRxSkbList g))).

(** ** The tasklet *)

(** The descriptor at the head is taken if the controller has filled it; its address, length
    and status. *)
Definition take_head (r : RXBDINFO) : option (option (Z * Z * Z * RXBDINFO)) :=
  bd ← rx_bds r !! pBdHead r;
  if negb (has (bd_status bd) DMA_OWN) && negb (bd_address bd =? 0) then
    let bd' := mkBd (bd_length bd) (Z.land (bd_status bd) DMA_WRAP) 0 in
    Some (Some (bd_address bd, bd_length bd, bd_status bd,
      mkRxInfo (<[pBdHead r := bd']> (rx_bds r))
        (if has (bd_status bd) DMA_WRAP then 0%nat else S (pBdHead r)) (pBdTail r) (rx_chan r) (pBdBase r)))
  else Some None.

(** The frame or cell in the buffer at [pucData]. *)
Definition process (i : nat) (pucData length usStatus : Z) (g : rx_glob) : option rx_glob :=
  hdev ← pDevCtxsByMatchId g !! Z.to_nat (Z.land usStatus FSTAT_MATCH_ID_MASK);
  if negb (hdev =? 0) && negb (has usStatus FSTAT_ERROR) then
    if Z.land usStatus FSTAT_PACKET_CELL_MASK =? FSTAT_PACKET
    then deliver hdev i pucData length g
    else ProcessRxCell hdev i pucData g
  else
    g ← AssignRxBuffer i (pucData - RXBUF_HEAD_RESERVE) g;
    if negb (hdev =? 0) then
      d ← devs g !! hdev;
      Some (with_devs g (<[hdev := with_stats d (count_rx_error (DevStats d))]> (devs g)))
    else Some g.

(** The body of the [for] over the queues; the flag is [ulMoreToReceive]. *)
Definition receive_on (i : nat) (g : rx_glob) : option (bool * rx_glob) :=
  match RxBdInfos g !! i with
  | None | Some None => Some (false, g)
  | Some (Some r) =>
      o ← take_head r;
      match o with
      | None => Some (false, g)
      | Some (address, length, usStatus, r') =>
          g ← process i (KSEG0ADDR address) length usStatus (with_ring g i r' (rx_chs g));
          Some (true, g)
      end
  end.

Fixpoint receive_round (qs : list nat) (more : bool) (g : rx_glob) : option (bool * rx_glob) :=
  match qs with
  | [] => Some (more, g)
  | i :: qs' => '(b, g) ← receive_on i g; receive_round qs' (more || b) g
  end.

Fixpoint receive_loop (fuel : nat) (g : rx_glob) : option rx_glob :=
  match fuel with
  | O => None
  | S fuel' =>
      match receive_round (seq 0 MAX_RECEIVE_QUEUES) false g with
      | Some (true, g) => receive_loop fuel' g
      | Some (false, g) => Some g
      | None => None
      end
  end.

(** The interrupts of the queues in the mask are enabled again. *)
Fixpoint enable_loop (n i : nat) (ulMask : Z) (g : rx_glob) : rx_glob :=
  match n with
  | O => g
  | S n' =>
      if ulMask =? 0 then g
      else enable_loop n' (S i) (Z.shiftr ulMask 1)
             (if Z.land ulMask 1 =? 1 then emit (IntEnable i) g else g)
  end.

Definition total_bds (g : rx_glob) : nat :=
  sum_list (map (fun o => match o with Some r => length (rx_bds r) | None => 0%nat end) (RxBdInfos g)).

(** Every round but the last takes a filled descriptor. *)
Definition bcmxtmrt_rxtasklet (g : rx_glob) : option rx_glob :=
  g ← receive_loop (S (total_bds g)) g;
  Some (enable_loop MAX_RECEIVE_QUEUES 0 (ulIntEnableMask g) (with_mask g 0 (rx_chs g))).

End memory.

(** ** The DMA controller

    A frame of [len] bytes arrives on a ring: the controller fills the descriptor it is at,
    if it owns it, and reports that it has none otherwise. *)

Definition dma_receive (len st : Z) (hw : nat) (bds : list DmaDesc) : option (nat * list DmaDesc) :=
  bd ← bds !! hw;
  if has (bd_status bd) DMA_OWN then
    Some (if has (bd_status bd) DMA_WRAP then 0%nat else S hw,
          <[hw := mkBd len (Z.lor (Z.land (bd_status bd) DMA_WRAP) (Z.land st 0x6fff)) (bd_address bd)]> bds)
  else None.
