(* ===== verification/XtmRxSpec.v ===== *)
(** * ATM/PTM network driver: properties of reception

    Receive buffers circulate between the rings, where the DMA controller fills them, and
    the network stack, which frees them; a socket buffer goes with every buffer that the
    stack has.  The invariant follows each buffer and each socket buffer, and shows that
    the driver never runs out of either and always has a place for what comes back. *)

From stdpp Require Import gmap.
From S2P Require Import Prelude Ring XtmDefs XtmTx XtmRx.

(** ** Addresses *)

(** A buffer of the rings: in the cached, unmapped segment, at a multiple of sixteen. *)
Definition valid_buf (b : Z) : Prop := 0x80000000 <= b /\ b + 32 < 0xa0000000 /\ b mod 16 = 0.

Definition phys (b : Z) : Z := VIRT_TO_PHY (b + RXBUF_HEAD_RESERVE).

Lemma phys_eq b : valid_buf b -> phys b = b + 32 - 0x80000000.
Proof.
  intros (H1 & H2 & _). unfold phys, VIRT_TO_PHY, RXBUF_HEAD_RESERVE. change 0x1fffffff with (Z.ones 29).
  rewrite Z.land_ones by lia. Z.to_euclidean_division_equations; lia.
Qed.

Lemma phys_nonzero b : valid_buf b -> phys b <> 0.
Proof. intros H. rewrite (phys_eq b H). destruct H as (? & ? & _). lia. Qed.

Lemma KSEG0ADDR_phys b : valid_buf b -> KSEG0ADDR (phys b) = b + 32.
Proof.
  intros H. pose proof (phys_eq b H) as E. destruct H as (H1 & H2 & _). unfold KSEG0ADDR.
  change 0x1fffffff with (Z.ones 29). rewrite Z.land_ones, Z.mod_small by lia.
  rewrite <- Z.lxor_lor, <- Z.add_nocarry_lxor.
  - lia.
  - change 0x80000000 with (2 ^ 31). apply Z.bits_inj'. intros n Hn. rewrite Z.land_spec, Z.bits_0.
    destruct (Z.eqb_spec n 31) as [->|Hne]; [rewrite (testbit_small _ 29) by lia; done|].
    by rewrite Z.pow2_bits_false, andb_false_r by lia.
  - change 0x80000000 with (2 ^ 31). apply Z.bits_inj'. intros n Hn. rewrite Z.land_spec, Z.bits_0.
    destruct (Z.eqb_spec n 31) as [->|Hne]; [rewrite (testbit_small _ 29) by lia; done|].
    by rewrite Z.pow2_bits_false, andb_false_r by lia.
Qed.

(** ** A receive ring

    From the head on: the frames that arrived and were not taken yet, the buffers that
    the controller may fill, and the empty descriptors. *)

Record rx_frame := mkFrame { fr_buf : Z; fr_len : Z; fr_status : Z }.

Definition ready_bd (bd : DmaDesc) (f : rx_frame) : Prop :=
  has (bd_status bd) DMA_OWN = false /\ bd_address bd = phys (fr_buf f)
  /\ bd_length bd = fr_len f /\ bd_status bd = fr_status f /\ valid_buf (fr_buf f).

Definition avail_bd (bd : DmaDesc) (b : Z) : Prop :=
  has (bd_status bd) DMA_OWN = true /\ bd_address bd = phys b /\ valid_buf b.

Definition empty_bd (bd : DmaDesc) : Prop := has (bd_status bd) DMA_OWN = false /\ bd_address bd = 0.

Record rx_ring (r : RXBDINFO) (hw : nat) (ready : list rx_frame) (avail : list Z) : Prop := {
  rr_wrap : wrap_ok (rx_bds r);
  rr_slots : exists b1 b2 b3,
    (pBdHead r < length (rx_bds r))%nat
    /\ pBdTail r = ring_at (length (rx_bds r)) (pBdHead r) (length ready + length avail)
    /\ hw = ring_at (length (rx_bds r)) (pBdHead r) (length ready)
    /\ rotate (pBdHead r) (rx_bds r) = b1 ++ b2 ++ b3
    /\ Forall2 ready_bd b1 ready /\ Forall2 avail_bd b2 avail /\ Forall empty_bd b3
}.

Lemma rx_ring_room r hw ready avail :
  rx_ring r hw ready avail -> (length ready + length avail <= length (rx_bds r))%nat.
Proof.
  intros [_ (b1 & b2 & b3 & _ & _ & _ & E & F1 & F2 & _)]. apply (f_equal length) in E.
  rewrite length_rotate, !length_app, (Forall2_length _ _ _ F1), (Forall2_length _ _ _ F2) in E. lia.
Qed.

(** The next index after a descriptor follows its wrap flag. *)
Lemma wrap_next bds i bd :
  wrap_ok bds -> bds !! i = Some bd -> (if has (bd_status bd) DMA_WRAP then 0%nat else S i) = ring_next (length bds) i.
Proof. intros Hw Hi. by rewrite (Hw i bd Hi). Qed.

Lemma has_land_wrap s : has (Z.land s DMA_WRAP) DMA_WRAP = has s DMA_WRAP.
Proof. rewrite !has_wrap, Z.land_spec. change (Z.testbit DMA_WRAP 12) with true. apply andb_true_r. Qed.

Lemma land_wrap_idle s : has (Z.land s DMA_WRAP) DMA_OWN = false.
Proof. rewrite has_own, Z.land_spec. change (Z.testbit DMA_WRAP 15) with false. apply andb_false_r. Qed.

Lemma take_head_ready r hw f ready avail :
  rx_ring r hw (f :: ready) avail ->
  exists r', take_head r = Some (Some (phys (fr_buf f), fr_len f, fr_status f, r'))
    /\ rx_ring r' hw ready avail /\ length (rx_bds r') = length (rx_bds r) /\ rx_chan r' = rx_chan r
    /\ valid_buf (fr_buf f).
Proof.
  intros [Hw (b1 & b2 & b3 & Hh & Et & Ehw & Eb & F1 & F2 & F3)].
  apply Forall2_cons_inv_r in F1 as (bd & b1' & (Ho & Ha & Hl & Hs & Hv) & F1' & ->). cbn [app] in Eb.
  pose proof (rotate_head _ _ _ _ Hh Eb) as Lb. pose proof (phys_nonzero _ Hv) as Hn.
  set (bd' := mkBd (bd_length bd) (Z.land (bd_status bd) DMA_WRAP) 0).
  eexists. split_and!; [unfold take_head; rewrite Lb; cbn [mbind option_bind]; rewrite Ho, Ha;
    destruct (Z.eqb_spec (phys (fr_buf f)) 0); [done|]; cbn [negb andb]; rewrite Hl, Hs; reflexivity| | |done|done].
  - cbn [pBdHead]. rewrite <- Hl, <- Hs. fold bd'. split; cbn [rx_bds pBdHead pBdTail].
    + eapply wrap_ok_insert; [done|done|apply has_land_wrap].
    + exists b1', b2, (b3 ++ [bd']). rewrite length_insert, (wrap_next _ _ _ Hw Lb). split_and!; try done.
      * by apply ring_next_lt.
      * by rewrite ring_at_next by done.
      * by rewrite ring_at_next by done.
      * rewrite <- (length_insert (rx_bds r) (pBdHead r) bd'), (rotate_next _ _ bd' (b1' ++ b2 ++ b3)).
        -- by rewrite <- !app_assoc.
        -- by rewrite length_insert.
        -- by eapply rotate_insert_head.
      * apply Forall_app_2; [done|]. constructor; [|constructor]. split; [apply land_wrap_idle|done].
  - cbn [rx_bds]. by rewrite length_insert.
Qed.

Lemma take_head_none r hw avail : rx_ring r hw [] avail -> take_head r = Some None.
Proof.
  intros [Hw (b1 & b2 & b3 & Hh & Et & Ehw & Eb & F1 & F2 & F3)]. apply Forall2_nil_inv_r in F1 as ->.
  unfold take_head. cbn [app] in Eb. destruct F2 as [|bd b b2 avail (Ho & _) _]; cbn [app] in Eb.
  - destruct F3 as [|bd b3 (_ & Ha) _]; [apply (f_equal length) in Eb; rewrite length_rotate in Eb; cbn in Eb; lia|].
    rewrite (rotate_head _ _ _ _ Hh Eb). cbn [mbind option_bind]. rewrite Ha. by rewrite Z.eqb_refl, andb_false_r.
  - rewrite (rotate_head _ _ _ _ Hh Eb). cbn [mbind option_bind]. by rewrite Ho.
Qed.

Lemma fill_tail_ok r hw ready avail b :
  rx_ring r hw ready avail -> (length ready + length avail < length (rx_bds r))%nat -> valid_buf b ->
  exists r', fill_tail r b = Some (Some r') /\ rx_ring r' hw ready (avail ++ [b])
    /\ length (rx_bds r') = length (rx_bds r) /\ rx_chan r' = rx_chan r.
Proof.
  intros [Hw (b1 & b2 & b3 & Hh & Et & Ehw & Eb & F1 & F2 & F3)] Hn Hv.
  pose proof (Forall2_length _ _ _ F1) as L1. pose proof (Forall2_length _ _ _ F2) as L2.
  destruct b3 as [|bd b3].
  { apply (f_equal length) in Eb. rewrite length_rotate, !length_app in Eb. cbn in Eb. lia. }
  inversion_clear F3 as [|? ? (Ho & Ha) F3']. rewrite app_assoc in Eb.
  destruct (rotate_mid _ _ _ _ _ Hh Eb) as [Lb Ib]. rewrite length_app, L1, L2, <- Et in Lb, Ib.
  pose proof (lookup_lt_Some _ _ _ Lb) as Ht.
  set (bd' := mkBd RXBUF_SIZE (Z.lor (Z.land (bd_status bd) DMA_WRAP) DMA_OWN) (phys b)).
  assert (Hst : has (bd_status bd') DMA_WRAP = has (bd_status bd) DMA_WRAP).
  { cbn [bd' bd_status]. rewrite !has_wrap, Z.lor_spec, Z.land_spec.
    change (Z.testbit DMA_WRAP 12) with true. change (Z.testbit DMA_OWN 12) with false.
    by rewrite andb_true_r, orb_false_r. }
  eexists. split_and!.
  - unfold fill_tail. rewrite Lb. cbn [mbind option_bind]. rewrite Ha, Z.eqb_refl. fold (phys b). fold bd'. reflexivity.
  - fold (has (bd_status bd) DMA_WRAP). split; cbn [rx_bds pBdHead pBdTail].
    + by eapply wrap_ok_insert.
    + exists b1, (b2 ++ [bd']), b3. rewrite length_insert, length_app. cbn [length].
      rewrite (wrap_next _ _ _ Hw Lb). split_and!; try done.
      * rewrite Et, <- ring_at_S by done. f_equal. lia.
      * rewrite Ib. by rewrite <- !app_assoc.
      * apply Forall2_app; [done|]. constructor; [|constructor]. split_and!; [|done..].
        cbn [bd' bd_status]. rewrite has_own, Z.lor_spec. apply orb_true_r.
  - cbn [rx_bds]. by rewrite length_insert.
  - done.
Qed.

(** A frame arrives in the first buffer the controller has. *)
Lemma dma_receive_ring r hw ready b avail len st :
  rx_ring r hw ready (b :: avail) ->
  exists hw' bds st', dma_receive len st hw (rx_bds r) = Some (hw', bds)
    /\ rx_ring (mkRxInfo bds (pBdHead r) (pBdTail r) (rx_chan r) (pBdBase r)) hw' (ready ++ [mkFrame b len st']) avail
    /\ length bds = length (rx_bds r) /\ Z.land st' 0xfff = Z.land st 0xfff.
Proof.
  intros [Hw (b1 & b2 & b3 & Hh & Et & Ehw & Eb & F1 & F2 & F3)].
  apply Forall2_cons_inv_r in F2 as (bd & b2' & (Ho & Ha & Hv) & F2' & ->). cbn [app] in Eb.
  pose proof (Forall2_length _ _ _ F1) as L1.
  destruct (rotate_mid _ _ _ _ _ Hh Eb) as [Lb Ib]. rewrite L1, <- Ehw in Lb, Ib.
  set (st' := Z.lor (Z.land (bd_status bd) DMA_WRAP) (Z.land st 0x6fff)).
  set (bd' := mkBd len st' (bd_address bd)).
  assert (Hst : has (bd_status bd') DMA_WRAP = has (bd_status bd) DMA_WRAP).
  { cbn [bd' bd_status]. unfold st'. rewrite !has_wrap, Z.lor_spec, !Z.land_spec.
    change (Z.testbit DMA_WRAP 12) with true. change (Z.testbit 0x6fff 12) with false.
    by rewrite andb_true_r, andb_false_r, orb_false_r. }
  exists (if has (bd_status bd) DMA_WRAP then 0%nat else S hw), (<[hw := bd']> (rx_bds r)), st'. split_and!.
  - unfold dma_receive. rewrite Lb. cbn [mbind option_bind]. by rewrite Ho.
  - split; cbn [rx_bds pBdHead pBdTail].
    + by eapply wrap_ok_insert.
    + exists (b1 ++ [bd']), b2', b3. rewrite length_insert, length_app. cbn [length] in *. split_and!; try done.
      * rewrite Et. f_equal. lia.
      * rewrite (wrap_next _ _ _ Hw Lb), Ehw, <- ring_at_S by done. f_equal. lia.
      * rewrite Ib. by rewrite <- app_assoc.
      * apply Forall2_app; [done|]. constructor; [|constructor]. split_and!; try done.
        cbn [bd' bd_status]. unfold st'. rewrite has_own, Z.lor_spec, !Z.land_spec.
        change (Z.testbit DMA_WRAP 15) with false. change (Z.testbit 0x6fff 15) with false. by rewrite !andb_false_r.
  - by rewrite length_insert.
  - unfold st'. apply Z.bits_inj'. intros n Hn. rewrite !Z.land_spec, Z.lor_spec, !Z.land_spec.
    destruct (Z.ltb_spec n 12) as [Hl|Hl].
    + change DMA_WRAP with (2 ^ 12). rewrite (Z.pow2_bits_false 12) by lia.
      change 0x6fff with (Z.lor (Z.ones 12) 0x6000). rewrite Z.lor_spec, Z.ones_spec_low by lia.
      by rewrite andb_false_r, orb_true_l, andb_true_r.
    + change 0xfff with (Z.ones 12). by rewrite Z.ones_spec_high, !andb_false_r by lia.
Qed.

Lemma dma_receive_none r hw ready len st :
  rx_ring r hw ready [] -> dma_receive len st hw (rx_bds r) = None.
Proof.
  intros [Hw (b1 & b2 & b3 & Hh & Et & Ehw & Eb & F1 & F2 & F3)]. apply Forall2_nil_inv_r in F2 as ->.
  unfold dma_receive. destruct (rx_bds r !! hw) as [bd|] eqn:E; [|done]. cbn [mbind option_bind].
  assert (Hin : bd ∈ b1 ++ [] ++ b3) by (rewrite <- Eb; apply elem_of_rotate; by eapply list_elem_of_lookup_2).
  rewrite elem_of_app in Hin. destruct Hin as [Hin|Hin].
  - apply list_elem_of_lookup in Hin as [i Hi]. destruct (Forall2_lookup_l _ _ _ _ _ F1 Hi) as (f & _ & (-> & _)). done.
  - rewrite Forall_forall in F3. by destruct (F3 bd Hin) as [-> _].
Qed.

(** ** The state of reception

    Of each ring: where the controller is, the frames that are ready, the buffers it may
    fill, the packets that the network stack has (socket buffer and buffer), and all
    buffers of the ring. *)

Record rxq := mkRxq {
  q_hw : nat;
  q_ready : list rx_frame;
  q_avail : list Z;
  q_out : list (Z * Z);
  q_bufs : list Z
}.

Definition hw_of (o : option rxq) : nat := match o with Some q => q_hw q | None => 0%nat end.

(** What the driver does not change. *)
Definition fixed_of (o : option rxq) : nat * list Z :=
  match o with Some q => (q_hw q, q_bufs q) | None => (0%nat, []) end.

(** The buffers in the ring. *)
Definition q_in (q : rxq) : list Z := map fr_buf (q_ready q) ++ q_avail q.

Record ring_ok (nchs : nat) (r : RXBDINFO) (q : rxq) : Prop := {
  rk_ring : rx_ring r (q_hw q) (q_ready q) (q_avail q);
  rk_bufs : q_in q ++ map snd (q_out q) ≡ₚ q_bufs q;
  rk_size : length (q_bufs q) = length (rx_bds r);
  rk_valid : Forall valid_buf (q_bufs q);
  rk_chan : (rx_chan r < nchs)%nat
}.

Definition ring_match (nchs : nat) (o : option RXBDINFO) (q : option rxq) : Prop :=
  match o, q with
  | Some r, Some q => ring_ok nchs r q
  | None, None => True
  | _, _ => False
  end.

(** The list of free socket buffers that starts at [p]. *)
Fixpoint chain (h : gmap Z rx_skb) (p : Z) (free : list Z) : Prop :=
  match free with
  | [] => p = 0
  | x :: free' => p = x /\ exists s n, h !! x = Some s /\ retfreeq_context s = CtxSkb n /\ chain h n free'
  end.

Definition outs (qs : list (option rxq)) : list Z :=
  concat (map (fun o => match o with Some q => map fst (q_out q) | None => [] end) qs).

Definition in_rings (qs : list (option rxq)) : nat :=
  sum_list (map (fun o => match o with Some q => length (q_in q) | None => 0%nat end) qs).

Definition handles_ok (g : rx_glob) : Prop :=
  length (pDevCtxsByMatchId g) = MAX_MATCH_IDS
  /\ Forall (fun h => h = 0 \/ exists d, devs g !! h = Some d /\ valid_hdr d) (pDevCtxsByMatchId g).

Definition placed (o : rx_out) : Prop := match o with NoPlace _ => False | _ => True end.

Record rx_inv (g : rx_glob) (qs : list (option rxq)) (free : list Z) : Prop := {
  ri_rings : Forall2 (ring_match (length (rx_chs g))) (RxBdInfos g) qs;
  ri_free : chain (rx_skbs g) (pFreeRxSkbList g) free;
  ri_nodup : NoDup (free ++ outs qs);
  ri_held : forall i q p b, qs !! i = Some (Some q) -> (p, b) ∈ q_out q ->
    exists s, rx_skbs g !! p = Some s /\ retfreeq_context s = CtxRing i /\ rs_head s = b
      /\ data_prealloc s = true;
  ri_known : forall p s i, rx_skbs g !! p = Some s -> retfreeq_context s = CtxRing i ->
    exists q, qs !! i = Some (Some q) /\ (p, rs_head s) ∈ q_out q;
  ri_count : length free = in_rings qs;
  ri_handles : handles_ok g;
  ri_placed : Forall placed (outputs g)
}.

(** *** Sums and updates *)

Lemma sum_list_insert (l : list nat) i x y :
  l !! i = Some x -> (sum_list (<[i := y]> l) + x = sum_list l + y)%nat.
Proof.
  revert i. induction l as [|a l IH]; intros [|i] Hi; [done|done| |].
  - injection Hi as ->. change (y + sum_list l + x = x + sum_list l + y)%nat. lia.
  - specialize (IH i Hi). change (a + sum_list (<[i := y]> l) + x = a + sum_list l + y)%nat. lia.
Qed.

Lemma in_rings_insert qs i q q' :
  qs !! i = Some (Some q) ->
  (in_rings (<[i := Some q']> qs) + length (q_in q) = in_rings qs + length (q_in q'))%nat.
Proof.
  intros Hi. unfold in_rings. rewrite list_fmap_insert. apply sum_list_insert.
  rewrite list_lookup_fmap, Hi. done.
Qed.

Lemma in_rings_ge qs i q : qs !! i = Some (Some q) -> (length (q_in q) <= in_rings qs)%nat.
Proof. intros Hi. pose proof (in_rings_insert qs i q (mkRxq 0 [] [] [] []) Hi) as H. cbn in H. lia. Qed.

Lemma outs_insert qs i q q' :
  qs !! i = Some (Some q) -> exists l1 l2,
    outs qs = l1 ++ map fst (q_out q) ++ l2 /\ outs (<[i := Some q']> qs) = l1 ++ map fst (q_out q') ++ l2.
Proof.
  revert i. induction qs as [|o qs IH]; intros i Hi; [done|]. destruct i as [|i].
  - injection Hi as ->. by exists [], (outs qs).
  - destruct (IH i Hi) as (l1 & l2 & E1 & E2).
    exists (match o with Some q => map fst (q_out q) | None => [] end ++ l1), l2.
    unfold outs in *. cbn [insert list_insert map concat]. rewrite <- !app_assoc. split; f_equal; done.
Qed.

Lemma fixed_insert qs i q q' :
  qs !! i = Some (Some q) -> fixed_of (Some q') = fixed_of (Some q) ->
  map fixed_of (<[i := Some q']> qs) = map fixed_of qs.
Proof.
  intros Hq Hw. rewrite list_fmap_insert. apply list_insert_id. by rewrite list_lookup_fmap, Hq, Hw.
Qed.

Lemma fixed_hw qs qs' : map fixed_of qs' = map fixed_of qs -> map hw_of qs' = map hw_of qs.
Proof.
  intros E. apply (f_equal (map fst)) in E. rewrite !map_map in E.
  assert (H : forall l, map (fun o => fst (fixed_of o)) l = map hw_of l) by (intros l; apply map_ext; by intros [q|]).
  by rewrite !H in E.
Qed.

Lemma chain_frame h p free x s :
  x ∉ free -> chain h p free -> chain (<[x := s]> h) p free.
Proof.
  revert p. induction free as [|y free IH]; intros p Hx; [done|]. apply not_elem_of_cons in Hx as [Hy Hx].
  intros (-> & s0 & n & Hs & Hc & H). split; [done|]. exists s0, n.
  rewrite lookup_insert_ne by done. split_and!; [done..|]. by apply IH.
Qed.

(** *** Giving a buffer back to its ring *)

Lemma AssignRxBuffer_ring g i r nchs hw ready avail b :
  RxBdInfos g !! i = Some (Some r) -> rx_ring r hw ready avail ->
  (length ready + length avail < length (rx_bds r))%nat -> valid_buf b ->
  length (rx_chs g) = nchs -> (rx_chan r < nchs)%nat ->
  exists r' chs', AssignRxBuffer i b g = Some (with_ring g i r' chs')
    /\ rx_ring r' hw ready (avail ++ [b]) /\ length (rx_bds r') = length (rx_bds r)
    /\ rx_chan r' = rx_chan r /\ length chs' = nchs.
Proof.
  intros Hi Hr Hn Hv Hc Hch. destruct (fill_tail_ok _ _ _ _ _ Hr Hn Hv) as (r' & E & Hr' & Hl & Hc').
  unfold AssignRxBuffer. rewrite Hi. cbn [mjoin option_join mbind option_bind]. rewrite E. cbn [mbind option_bind].
  unfold restart_dma. destruct (lookup_lt_is_Some_2 (rx_chs g) (rx_chan r)) as [ch Hch']; [lia|].
  rewrite Hch'. cbn [mbind option_bind default from_option id]. eexists _, _. split; [done|]. split_and!; try done.
  destruct (has _ _); [by rewrite length_insert|done].
Qed.

(** *** Preservation, step by step *)

Lemma inv_ext g g' qs free :
  rx_inv g qs free -> RxBdInfos g' = RxBdInfos g -> length (rx_chs g') = length (rx_chs g) ->
  rx_skbs g' = rx_skbs g -> pFreeRxSkbList g' = pFreeRxSkbList g -> handles_ok g' -> Forall placed (outputs g') ->
  rx_inv g' qs free.
Proof. intros [H1 H2 H3 H4 H5 H6 H7 H8] E1 E2 E3 E4 H O. by split; rewrite ?E1, ?E2, ?E3, ?E4. Qed.

Lemma ring_lookup g qs free i q :
  rx_inv g qs free -> qs !! i = Some (Some q) ->
  exists r, RxBdInfos g !! i = Some (Some r) /\ ring_ok (length (rx_chs g)) r q.
Proof.
  intros [H1 _ _ _ _ _ _ _] Hq. destruct (Forall2_lookup_r _ _ _ _ _ H1 Hq) as (o & Ho & Hm).
  destruct o as [r|]; [|done]. by exists r.
Qed.

Lemma ring_ok_count nchs r q :
  ring_ok nchs r q -> (length (q_in q) + length (q_out q) = length (rx_bds r))%nat.
Proof. intros [_ H2 H3 _ _]. apply Permutation_length in H2. rewrite length_app, length_map in H2. lia. Qed.

Lemma rings_insert g qs free i q q' r' nchs :
  rx_inv g qs free -> qs !! i = Some (Some q) -> nchs = length (rx_chs g) -> ring_ok nchs r' q' ->
  Forall2 (ring_match nchs) (<[i := Some r']> (RxBdInfos g)) (<[i := Some q']> qs).
Proof. intros [H1 _ _ _ _ _ _ _] Hq -> Hr. by apply Forall2_insert. Qed.

(** A ring changes and the stack has the same packets. *)
Lemma inv_ring g qs free i q q' r' chs' :
  rx_inv g qs free -> qs !! i = Some (Some q) -> length chs' = length (rx_chs g) ->
  ring_ok (length chs') r' q' -> q_out q' = q_out q -> length (q_in q') = length (q_in q) ->
  rx_inv (with_ring g i r' chs') (<[i := Some q']> qs) free.
Proof.
  intros Hg Hq Hc Hr Ho Hn. pose proof Hg as [H1 H2 H3 H4 H5 H6 H7 H8].
  pose proof (lookup_lt_Some _ _ _ Hq) as Hi.
  split; cbn [with_ring RxBdInfos rx_chs rx_skbs pFreeRxSkbList pDevCtxsByMatchId devs outputs]; try done.
  - by eapply rings_insert.
  - destruct (outs_insert qs i q q' Hq) as (l1 & l2 & E1 & ->). by rewrite Ho, <- E1.
  - intros j q0 p b Hj Hin. destruct (decide (j = i)) as [->|Hne].
    + rewrite list_lookup_insert_eq in Hj by done. injection Hj as <-. rewrite Ho in Hin. by eapply H4.
    + rewrite list_lookup_insert_ne in Hj by done. by eapply H4.
  - intros p s j Hs Hc'. destruct (H5 p s j Hs Hc') as (q0 & Hq0 & Hin). destruct (decide (j = i)) as [->|Hne].
    + exists q'. rewrite list_lookup_insert_eq by done. split; [done|]. rewrite Ho. congruence.
    + exists q0. by rewrite list_lookup_insert_ne.
  - pose proof (in_rings_insert qs i q q' Hq). lia.
Qed.

(** A packet goes to the stack: socket buffer [p] and buffer [b] of ring [i]. *)
Lemma inv_deliver g qs p free i q q' r' s s0 next b :
  rx_inv g qs (p :: free) -> qs !! i = Some (Some q) -> ring_ok (length (rx_chs g)) r' q' ->
  q_out q' = q_out q ++ [(p, b)] -> length (q_in q) = S (length (q_in q')) ->
  rx_skbs g !! p = Some s0 -> retfreeq_context s0 = CtxSkb next ->
  retfreeq_context s = CtxRing i -> rs_head s = b -> data_prealloc s = true ->
  rx_inv (emit (NetifRx p) (with_skbs (with_ring g i r' (rx_chs g)) (<[p := s]> (rx_skbs g)) next))
    (<[i := Some q']> qs) free.
Proof.
  intros Hg Hq Hr Ho Hn Hs0 Hc0 Hc Hb Hp. pose proof Hg as [H1 H2 H3 H4 H5 H6 H7 H8].
  pose proof (lookup_lt_Some _ _ _ Hq) as Hi.
  assert (Hpo : p ∉ free ++ outs qs) by (by apply NoDup_cons in H3 as [? _]).
  destruct (outs_insert qs i q q' Hq) as (l1 & l2 & E1 & E2). rewrite Ho, map_app in E2. cbn [map fst] in E2.
  split; cbn [emit with_skbs with_ring RxBdInfos rx_chs rx_skbs pFreeRxSkbList pDevCtxsByMatchId devs outputs]; try done.
  - by eapply rings_insert.
  - destruct H2 as (_ & s1 & n1 & Hs1 & Hn1 & H2). assert (n1 = next) as -> by congruence.
    apply chain_frame; [|done]. rewrite elem_of_app in Hpo. tauto.
  - rewrite E2. rewrite E1 in H3. cbn [app] in H3. eapply NoDup_Permutation_proper; [|exact H3].
    rewrite <- !app_assoc. cbn [app].
    rewrite !app_assoc. by rewrite <- Permutation_middle.
  - intros j q0 p' b' Hj Hin.
    assert (Hcase : (p', b') = (p, b) /\ j = i \/ exists q1, qs !! j = Some (Some q1) /\ (p', b') ∈ q_out q1).
    { destruct (decide (j = i)) as [->|Hne].
      - rewrite list_lookup_insert_eq in Hj by done. injection Hj as <-.
        rewrite Ho, elem_of_app, list_elem_of_singleton in Hin.
        destruct Hin as [Hin|Hin]; [right; by exists q|by left].
      - rewrite list_lookup_insert_ne in Hj by done. right. by exists q0. }
    destruct Hcase as [[[= -> ->] ->]|(q1 & Hq1 & Hin1)].
    + exists s. by rewrite lookup_insert_eq.
    + destruct (H4 j q1 p' b' Hq1 Hin1) as (s1 & Hs1 & Hrest). exists s1. rewrite lookup_insert_ne; [done|].
      intros <-. destruct Hrest as [Hrest _]. congruence.
  - intros p' s' j Hs' Hc'. destruct (decide (p' = p)) as [->|Hne].
    + rewrite lookup_insert_eq in Hs'. injection Hs' as <-. rewrite Hc in Hc'. injection Hc' as <-.
      exists q'. rewrite list_lookup_insert_eq by done. split; [done|]. rewrite Ho, Hb, elem_of_app. right. by left.
    + rewrite lookup_insert_ne in Hs' by done. destruct (H5 p' s' j Hs' Hc') as (q0 & Hq0 & Hin).
      destruct (decide (j = i)) as [->|Hji].
      * exists q'. rewrite list_lookup_insert_eq by done. split; [done|]. rewrite Ho, elem_of_app. left. congruence.
      * exists q0. by rewrite list_lookup_insert_ne.
  - pose proof (in_rings_insert qs i q q' Hq). cbn [length] in H6. lia.
  - apply Forall_app_2; [done|]. by repeat constructor.
Qed.

(** The stack frees packet [p]: both parts go back. *)
Lemma inv_free g qs free i q q' r' chs' p b rest s :
  rx_inv g qs free -> qs !! i = Some (Some q) -> length chs' = length (rx_chs g) -> p <> 0 ->
  ring_ok (length chs') r' q' -> q_out q ≡ₚ (p, b) :: rest -> q_out q' = rest ->
  length (q_in q') = S (length (q_in q)) -> rx_skbs g !! p = Some s ->
  rx_inv (with_skbs (with_ring g i r' chs') (<[p := with_context s (CtxSkb (pFreeRxSkbList g))]> (rx_skbs g)) p)
    (<[i := Some q']> qs) (p :: free).
Proof.
  intros Hg Hq Hc Hp0 Hr Ho Ho' Hn Hs. pose proof Hg as [H1 H2 H3 H4 H5 H6 H7 H8].
  pose proof (lookup_lt_Some _ _ _ Hq) as Hi.
  destruct (outs_insert qs i q q' Hq) as (l1 & l2 & E1 & E2). rewrite Ho' in E2.
  assert (Hout : free ++ outs qs ≡ₚ p :: free ++ outs (<[i := Some q']> qs)).
  { rewrite E1, E2, Ho. cbn [map fst app]. rewrite !(app_assoc free l1). symmetry. apply Permutation_middle. }
  assert (Hnd : NoDup (p :: free ++ outs (<[i := Some q']> qs))) by by rewrite <- Hout.
  assert (Hnp : p ∉ free) by (apply NoDup_cons in Hnd as [Hx _]; rewrite elem_of_app in Hx; tauto).
  assert (Hno : p ∉ outs (<[i := Some q']> qs)) by (apply NoDup_cons in Hnd as [Hx _]; rewrite elem_of_app in Hx; tauto).
  split; cbn [with_skbs with_ring RxBdInfos rx_chs rx_skbs pFreeRxSkbList pDevCtxsByMatchId devs outputs]; try done.
  - by eapply rings_insert.
  - split; [done|]. eexists _, _. rewrite lookup_insert_eq. split_and!; [done..|]. by apply chain_frame.
  - intros j q0 p' b' Hj Hin. assert (p' <> p).
    { intros ->. apply Hno. unfold outs. apply list_elem_of_In, in_concat. exists (map fst (q_out q0)). split.
      - apply list_elem_of_In. apply list_elem_of_fmap. exists (Some q0). split; [done|]. by eapply list_elem_of_lookup_2.
      - apply list_elem_of_In, list_elem_of_fmap. by exists (p, b'). }
    rewrite lookup_insert_ne by done. destruct (decide (j = i)) as [->|Hne].
    + rewrite list_lookup_insert_eq in Hj by done. injection Hj as <-.
      apply (H4 i q); [done|]. rewrite Ho, elem_of_cons. right. by rewrite <- Ho'.
    + rewrite list_lookup_insert_ne in Hj by done. by apply (H4 j q0).
  - intros p' s' j Hs' Hc'. destruct (decide (p' = p)) as [->|Hne].
    { rewrite lookup_insert_eq in Hs'. injection Hs' as <-. done. }
    rewrite lookup_insert_ne in Hs' by done. destruct (H5 p' s' j Hs' Hc') as (q0 & Hq0 & Hin).
    destruct (decide (j = i)) as [->|Hji].
    + exists q'. rewrite list_lookup_insert_eq by done. split; [done|]. rewrite Ho'.
      assert (q0 = q) as -> by congruence. rewrite Ho, elem_of_cons in Hin. destruct Hin as [[= -> _]|Hin]; done.
    + exists q0. by rewrite list_lookup_insert_ne.
  - pose proof (in_rings_insert qs i q q' Hq). cbn [length]. lia.
Qed.

(** The ring after the buffer [b], which was out of the ring, is put back at its end. *)
Lemma ring_ok_back nchs r' q r b out' ready :
  ring_ok nchs r q -> rx_ring r' (q_hw q) ready (q_avail q ++ [b]) ->
  length (rx_bds r') = length (rx_bds r) -> rx_chan r' = rx_chan r ->
  map fr_buf ready ++ (q_avail q ++ [b]) ++ map snd out' ≡ₚ q_in q ++ map snd (q_out q) ->
  ring_ok nchs r' (mkRxq (q_hw q) ready (q_avail q ++ [b]) out' (q_bufs q)).
Proof.
  intros [K1 K2 K3 K4 K5] Hr Hl Hc Hp. split; cbn [q_hw q_ready q_avail q_out q_bufs]; try done.
  - unfold q_in. cbn [q_ready q_avail]. rewrite <- K2, <- Hp. by rewrite <- app_assoc.
  - congruence.
  - by rewrite Hc.
Qed.

Lemma free_data g i p s :
  rx_skbs g !! p = Some s -> bcmxtmrt_freeskbordata (CtxRing i) p false g = AssignRxBuffer i (rs_head s) g.
Proof. intros Hs. unfold bcmxtmrt_freeskbordata. by rewrite Hs. Qed.

Lemma free_header g c p s :
  rx_skbs g !! p = Some s ->
  bcmxtmrt_freeskbordata c p true g =
  Some (with_skbs g (<[p := with_context s (CtxSkb (pFreeRxSkbList g))]> (rx_skbs g)) p).
Proof. intros Hs. unfold bcmxtmrt_freeskbordata. by rewrite Hs. Qed.

Lemma kfree_rx_ok g qs free p s i :
  rx_inv g qs free -> rx_skbs g !! p = Some s -> retfreeq_context s = CtxRing i -> p <> 0 ->
  exists g' qs', kfree_rx p g = Some g' /\ rx_inv g' qs' (p :: free)
    /\ map fixed_of qs' = map fixed_of qs.
Proof.
  intros Hg Hs Hc Hp0. pose proof Hg as [_ _ _ H4 H5 _ _ _].
  destruct (H5 p s i Hs Hc) as (q & Hq & Hin). destruct (H4 i q p (rs_head s) Hq Hin) as (s' & Hs' & _ & _ & Hpre).
  assert (s' = s) as -> by congruence. set (b := rs_head s) in *.
  destruct (ring_lookup g qs free i q Hg Hq) as (r & Hr & Hok). pose proof (ring_ok_count _ _ _ Hok) as Hcnt.
  apply elem_of_Permutation in Hin as [rest Ho].
  assert (Hv : valid_buf b).
  { destruct Hok as [_ K2 _ K4 _]. rewrite Forall_forall in K4. apply K4. rewrite <- K2, Ho, elem_of_app. right. by left. }
  pose proof Hok as [K1 K2 K3 K4 K5].
  assert (Hlen : (length (q_in q) = length (q_ready q) + length (q_avail q))%nat) by (unfold q_in; by rewrite length_app, length_map).
  pose proof (Permutation_length Ho) as Hol. cbn [length] in Hol.
  destruct (AssignRxBuffer_ring g i r (length (rx_chs g)) _ _ _ b Hr K1) as (r' & chs' & E & Hr' & Hl & Hch & Hcs); [lia|done..|].
  set (q' := mkRxq (q_hw q) (q_ready q) (q_avail q ++ [b]) rest (q_bufs q)).
  assert (Hok' : ring_ok (length chs') r' q').
  { rewrite Hcs. eapply ring_ok_back; [done..|]. unfold q_in. rewrite Ho. cbn [map snd]. rewrite <- !app_assoc.
    cbn [app]. done. }
  eexists _, (<[i := Some q']> qs). split_and!.
  - unfold kfree_rx. rewrite Hs. cbn [mbind option_bind]. rewrite Hpre, Hc, (free_data _ _ _ _ Hs).
    fold b. rewrite E. cbn [mbind option_bind]. by rewrite (free_header _ _ _ s) by done.
  - refine (inv_free g qs free i q q' r' chs' p b rest s Hg Hq Hcs Hp0 Hok' Ho eq_refl _ Hs). unfold q', q_in.
    cbn [q_ready q_avail]. rewrite !length_app. cbn [length]. lia.
  - by eapply fixed_insert.
Qed.

(** *** A frame is taken from a ring *)

(** The ring of [q] after its first frame was taken, with the buffer put back. *)
Definition took_back (q : rxq) (f : rx_frame) (ready : list rx_frame) : rxq :=
  mkRxq (q_hw q) ready (q_avail q ++ [fr_buf f]) (q_out q) (q_bufs q).

Lemma back_ok g qs free i q f ready r' g2 :
  rx_inv g qs free -> qs !! i = Some (Some q) -> q_ready q = f :: ready ->
  rx_ring r' (q_hw q) ready (q_avail q) -> valid_buf (fr_buf f) ->
  (exists r, RxBdInfos g !! i = Some (Some r) /\ length (rx_bds r') = length (rx_bds r) /\ rx_chan r' = rx_chan r) ->
  RxBdInfos g2 = <[i := Some r']> (RxBdInfos g) -> rx_chs g2 = rx_chs g -> rx_skbs g2 = rx_skbs g ->
  pFreeRxSkbList g2 = pFreeRxSkbList g -> handles_ok g2 -> Forall placed (outputs g2) ->
  exists g3, AssignRxBuffer i (fr_buf f + 32 - RXBUF_HEAD_RESERVE) g2 = Some g3
    /\ rx_inv g3 (<[i := Some (took_back q f ready)]> qs) free
    /\ devs g3 = devs g2 /\ pDevCtxsByMatchId g3 = pDevCtxsByMatchId g2.
Proof.
  intros Hg Hq Hf Hr' Hv (r & Hr & Hl & Hc) E1 E2 E3 E4 Hh Ho.
  destruct (ring_lookup g qs free i q Hg Hq) as (r0 & Hr0 & Hok). assert (r0 = r) as -> by congruence.
  pose proof (ring_ok_count _ _ _ Hok) as Hcnt. pose proof Hok as [K1 K2 K3 K4 K5].
  assert (Hin : length (q_in q) = S (length ready + length (q_avail q))).
  { unfold q_in. rewrite length_app, length_map, Hf. done. }
  replace (fr_buf f + 32 - RXBUF_HEAD_RESERVE) with (fr_buf f) by (unfold RXBUF_HEAD_RESERVE; lia).
  pose proof (lookup_lt_Some _ _ _ Hr) as Hi.
  assert (Hg2 : RxBdInfos g2 !! i = Some (Some r')) by (rewrite E1; by apply list_lookup_insert_eq).
  destruct (AssignRxBuffer_ring g2 i r' (length (rx_chs g)) _ _ _ (fr_buf f) Hg2 Hr') as
    (r3 & chs3 & E & Hr3 & Hl3 & Hc3 & Hcs); [lia|done|by rewrite E2|by rewrite Hc|].
  assert (Hok3 : ring_ok (length chs3) r3 (took_back q f ready)).
  { rewrite Hcs. eapply ring_ok_back; [exact Hok|done|congruence|congruence|]. unfold q_in. rewrite Hf. cbn [map].
    rewrite <- !app_assoc. cbn [app]. rewrite !(app_assoc (map fr_buf ready)). symmetry. apply Permutation_middle. }
  eexists. split; [done|]. split; [|done].
  eapply (inv_ext (with_ring g i r3 chs3)).
  - eapply inv_ring; [done..| |]; [done|]. unfold took_back, q_in. cbn [q_ready q_avail].
    rewrite !length_app, !length_map, Hf. cbn [length]. lia.
  - cbn [with_ring RxBdInfos]. rewrite E1. apply list_insert_insert_eq.
  - done.
  - done.
  - done.
  - done.
  - done.
Qed.

(** The lengths for which the end of the packet lies in its buffer on every device: without
    the four bytes that a PTM device takes off, and with them. *)
Definition frame_room (len : Z) : Prop := len = 0 \/ 4 <= len <= 1528.

Lemma rx_length_room d len : frame_room len -> 60 <= rx_length d len <= 1528.
Proof.
  intros H. unfold rx_length, ETH_ZLEN. set (c := ulTrafficType (Addr d) =? TRAFFIC_TYPE_PTM).
  assert (E : forall x, x <= 1528 -> 60 <= (if x <? 60 then 60 else x) <= 1528)
    by (intros x Hx; destruct (Z.ltb_spec x 60); lia).
  apply E. destruct (c && negb (len =? 0)) eqn:Eb; [|unfold frame_room in H; lia]. zprop.
  unfold u16. destruct H as [?|H]; [done|]. rewrite Z.mod_small; lia.
Qed.

(** The structure behind the data of a packet lies in the buffer exactly when the packet has
    at most 1528 bytes, eight less than the controller may write. *)
Lemma end_in_buffer b len :
  b mod 16 = 0 ->
  (align16 (b + RXBUF_HEAD_RESERVE + (len + SAR_DMA_MAX_BURST_LENGTH)) + SHINFO_SIZE
     <=? b + RXBUF_HEAD_RESERVE - RXBUF_HEAD_RESERVE + RXBUF_ALLOC_SIZE) = (len <=? RXBUF_SIZE - 8).
Proof.
  intros Hb. unfold align16. change (Z.lnot 15) with (Z.lnot (Z.ones 4)).
  rewrite <- Z.ldiff_land, Z.ldiff_ones_r, Z.shiftr_div_pow2, Z.shiftl_mul_pow2 by lia.
  change RXBUF_SIZE with 1536. change RXBUF_ALLOC_SIZE with 1728.
  unfold SHINFO_SIZE, RXBUF_HEAD_RESERVE, SAR_DMA_MAX_BURST_LENGTH. apply Bool.eq_iff_eq_true.
  rewrite !Z.leb_le. Z.to_euclidean_division_equations. lia.
Qed.

Lemma rx_packet_some mem d hdev i b len :
  valid_hdr d -> b mod 16 = 0 -> rx_length d len <= RXBUF_SIZE - 8 ->
  exists s, rx_packet mem d hdev i (b + RXBUF_HEAD_RESERVE) len = Some s /\ retfreeq_context s = CtxRing i
    /\ rs_head s = b + RXBUF_HEAD_RESERVE - RXBUF_HEAD_RESERVE /\ data_prealloc s = true
    /\ rs_end s + SHINFO_SIZE <= b + RXBUF_ALLOC_SIZE.
Proof.
  intros Hh Hb Hlen. unfold rx_packet, skb_hdrinit. rewrite end_in_buffer by done. apply Z.leb_le in Hlen as Hle.
  rewrite Hle. cbn [mbind option_bind]. set (data := b + RXBUF_HEAD_RESERVE). set (s0 := mkRxSkb _ data _ _ _ _ _ _ _ _).
  assert (H1 : exists s1, (if negb (has (ulFlags d) CNI_HW_ADD_REMOVE_HEADER)
      then n ← ulHdrLens !! Z.to_nat (ulHdrType d); Some (skb_pull s0 n) else Some s0) = Some s1
    /\ retfreeq_context s1 = CtxRing i /\ rs_head s1 = data - RXBUF_HEAD_RESERVE /\ data_prealloc s1 = true
    /\ rs_end s1 = rs_end s0).
  { destruct (negb _); [|by exists s0].
    destruct (lookup_lt_is_Some_2 ulHdrLens (Z.to_nat (ulHdrType d))) as [n Hn]; [unfold valid_hdr in Hh; cbn; lia|].
    rewrite Hn. cbn [mbind option_bind]. by eexists. }
  destruct H1 as (s1 & -> & H2 & H3 & H4 & H5). cbn [mbind option_bind]. eexists. split; [done|].
  assert (Hend : rs_end s0 + SHINFO_SIZE <= b + RXBUF_ALLOC_SIZE).
  { cbn [s0 rs_end]. rewrite <- (end_in_buffer b), Z.leb_le in Hle by done. unfold data. lia. }
  rewrite <- H5 in Hend. clearbody s0. clear H5.
  destruct (_ =? HT_LLC_SNAP_ROUTE_IP); [done|]. destruct (_ =? HT_LLC_ENCAPS_PPP); [done|].
  unfold eth_type_trans. cbn [set_dev rs_len]. by destruct (_ <? _).
Qed.

(** A longer packet is a fault. *)
Lemma rx_packet_overruns mem d hdev i b len :
  b mod 16 = 0 -> RXBUF_SIZE - 8 < rx_length d len -> rx_packet mem d hdev i (b + RXBUF_HEAD_RESERVE) len = None.
Proof.
  intros Hb Hlen. unfold rx_packet, skb_hdrinit. rewrite end_in_buffer by done. by apply Z.leb_gt in Hlen as ->.
Qed.

Definition cell_status (st : Z) : bool := negb (Z.land st FSTAT_PACKET_CELL_MASK =? FSTAT_PACKET).

(** The circuit type of a cell is one of those that [ucCts] has. *)
Definition cell_fine (mem : Z -> Z) (data : Z) : Prop :=
  Z.land (cell_header (mem data) (cell_vci mem (data + 1))) CHDR_CT_MASK < 14.

(** A frame that waits in a ring is a packet that fits, or a cell of a known type. *)
Definition frame_fine (mem : Z -> Z) (len st data : Z) : Prop :=
  if cell_status st then cell_fine mem data else frame_room len.

Definition frames_fine (mem : Z -> Z) (qs : list (option rxq)) : Prop :=
  forall i q f, qs !! i = Some (Some q) -> f ∈ q_ready q ->
  frame_fine mem (fr_len f) (fr_status f) (fr_buf f + 32).

Lemma handle_lookup g st :
  handles_ok g -> exists h, pDevCtxsByMatchId g !! Z.to_nat (Z.land st FSTAT_MATCH_ID_MASK) = Some h
    /\ (h = 0 \/ exists d, devs g !! h = Some d /\ valid_hdr d).
Proof.
  intros [Hl Hf]. unfold FSTAT_MATCH_ID_MASK. change 0x7f with (Z.ones 7). rewrite Z.land_ones by lia.
  destruct (lookup_lt_is_Some_2 (pDevCtxsByMatchId g) (Z.to_nat (st mod 2 ^ 7))) as [h Hh].
  { rewrite Hl. unfold MAX_MATCH_IDS. pose proof (Z.mod_pos_bound st (2 ^ 7) ltac:(lia)). lia. }
  exists h. split; [done|]. rewrite Forall_forall in Hf. apply Hf. by eapply list_elem_of_lookup_2.
Qed.

Lemma handles_count g h d ds :
  handles_ok g -> devs g !! h = Some d -> ds = <[h := with_stats d (count_rx_error (DevStats d))]> (devs g) ->
  handles_ok (with_devs g ds).
Proof.
  intros [Hl Hf] Hd ->. split; [done|]. cbn [with_devs pDevCtxsByMatchId devs]. eapply Forall_impl; [done|].
  intros x [->|(d0 & H0 & V0)]; [by left|right]. destruct (decide (x = h)) as [->|Hne].
  - exists (with_stats d (count_rx_error (DevStats d))). rewrite lookup_insert_eq. split; [done|].
    assert (d0 = d) as -> by congruence. done.
  - exists d0. by rewrite lookup_insert_ne.
Qed.

(** [ProcessRxCell] up to the point where the buffer is given back. *)
Lemma ProcessRxCell_back mem g h d i data :
  devs g !! h = Some d -> valid_hdr d -> handles_ok g -> Forall placed (outputs g) ->
  cell_fine mem data -> exists g2, ProcessRxCell mem h i data g = AssignRxBuffer i (data - RXBUF_HEAD_RESERVE) g2
    /\ RxBdInfos g2 = RxBdInfos g /\ rx_chs g2 = rx_chs g /\ rx_skbs g2 = rx_skbs g
    /\ pFreeRxSkbList g2 = pFreeRxSkbList g /\ handles_ok g2 /\ Forall placed (outputs g2).
Proof.
  intros Hd Hv Hh Ho Hc. unfold ProcessRxCell. rewrite Hd. cbn [mbind option_bind usVci].
  set (hdr := cell_header _ _). unfold cell_fine in Hc. fold hdr in Hc.
  destruct (lookup_lt_is_Some_2 ucCts (Z.to_nat (Z.land hdr CHDR_CT_MASK))) as [ct Hct].
  { change (length ucCts) with 14%nat. assert (0 <= Z.land hdr CHDR_CT_MASK) by (apply Z.land_nonneg; by right). lia. }
  rewrite Hct. cbn [mbind option_bind]. eexists. split; [done|].
  assert (Hp : forall o, placed o -> Forall placed (outputs g ++ [o])) by (intros o Hpl; apply Forall_app_2; [done|by constructor]).
  destruct (Z.land hdr CHDR_ERROR =? 0).
  - destruct (is_oam _); [destruct (negb _)|destruct (is_asm _); [destruct (negb _)|]]; split_and!; try done; by apply Hp.
  - split_and!; try done. by eapply handles_count.
Qed.

Lemma process_ok mem g qs free i q f ready r' :
  rx_inv g qs free -> qs !! i = Some (Some q) -> q_ready q = f :: ready -> frames_fine mem qs ->
  rx_ring r' (q_hw q) ready (q_avail q) -> valid_buf (fr_buf f) ->
  (exists r, RxBdInfos g !! i = Some (Some r) /\ length (rx_bds r') = length (rx_bds r) /\ rx_chan r' = rx_chan r) ->
  exists g' q' free', process mem i (fr_buf f + 32) (fr_len f) (fr_status f) (with_ring g i r' (rx_chs g)) = Some g'
    /\ rx_inv g' (<[i := Some q']> qs) free' /\ q_ready q' = ready /\ fixed_of (Some q') = fixed_of (Some q).
Proof.
  intros Hg Hq Hf Hfine Hr' Hv Hex. pose proof Hg as [_ H2 _ _ _ H6 H7 H8].
  set (g1 := with_ring g i r' (rx_chs g)). assert (Hh1 : handles_ok g1) by exact H7.
  unfold process. destruct (handle_lookup g1 (fr_status f) Hh1) as (h & Eh & Hh). rewrite Eh. cbn [mbind option_bind].
  destruct (negb (h =? 0) && negb (has (fr_status f) FSTAT_ERROR)) eqn:Eok.
  - zprop. destruct Hh as [->|(d & Hd & Vd)]; [done|].
    destruct (Z.land (fr_status f) FSTAT_PACKET_CELL_MASK =? FSTAT_PACKET) eqn:Ec.
    + (* a packet *)
      assert (Hne : exists p free', free = p :: free').
      { pose proof (in_rings_ge qs i q Hq) as Hin. unfold q_in in Hin. rewrite length_app, length_map, Hf in Hin.
        cbn [length] in Hin.
        destruct free as [|p free']; [cbn [length] in H6; lia|by exists p, free']. }
      destruct Hne as (p & free' & ->). destruct H2 as (Ep & s0 & n & Hs0 & Hc0 & Hch).
      assert (Hroom : rx_length d (fr_len f) <= RXBUF_SIZE - 8).
      { apply rx_length_room. specialize (Hfine i q f Hq ltac:(rewrite Hf; by left)). unfold frame_fine, cell_status in Hfine.
        by rewrite Ec in Hfine. }
      destruct (rx_packet_some mem d h i (fr_buf f) (fr_len f) Vd (proj2 (proj2 Hv)) Hroom) as (s & Es & Hc & Hhd & Hpre & _).
      destruct (ring_lookup g qs _ i q Hg Hq) as (r & Hr & Hok). destruct Hex as (r0 & Hr0 & Hl & Hch').
      assert (r0 = r) as -> by congruence. pose proof Hok as [K1 K2 K3 K4 K5].
      set (q' := mkRxq (q_hw q) ready (q_avail q) (q_out q ++ [(p, fr_buf f)]) (q_bufs q)).
      assert (Hok' : ring_ok (length (rx_chs g)) r' q').
      { split; cbn [q' q_hw q_ready q_avail q_out q_bufs]; [done| |congruence|done|congruence].
        rewrite <- K2. unfold q_in. cbn [q_ready q_avail]. rewrite Hf, map_app. cbn [map snd].
        rewrite !app_assoc. cbn [app]. symmetry. apply Permutation_cons_append. }
      eexists _, q', free'. unfold deliver.
      split_and!; [|refine (inv_deliver g qs p free' i q q' r' s s0 n (fr_buf f) Hg Hq Hok' eq_refl _ Hs0 Hc0 Hc _ Hpre)|done|done].
      * rewrite Hd. cbn [mbind option_bind]. unfold pop_skb. cbn [g1 with_ring rx_skbs pFreeRxSkbList]. rewrite Ep, Hs0.
        cbn [mbind option_bind]. rewrite Hc0. cbn [mbind option_bind]. unfold RXBUF_HEAD_RESERVE in Es. rewrite Es. reflexivity.
      * unfold q', q_in. cbn [q_ready q_avail]. rewrite !length_app, !length_map, Hf. done.
      * rewrite Hhd. unfold RXBUF_HEAD_RESERVE. lia.
    + (* a cell *)
      destruct (ProcessRxCell_back mem g1 h d i (fr_buf f + 32) Hd Vd Hh1 H8) as (g2 & -> & E1 & E2 & E3 & E4 & E5 & E6).
      { specialize (Hfine i q f Hq ltac:(rewrite Hf; by left)). unfold frame_fine, cell_status in Hfine.
        by rewrite Ec in Hfine. }
      destruct (back_ok g qs free i q f ready r' g2) as (g3 & E & Hg3 & _ & _); try done.
      exists g3, (took_back q f ready), free. done.
  - (* an error *)
    destruct (back_ok g qs free i q f ready r' g1) as (g3 & E & Hg3 & Ed & Em); try done.
    rewrite E. cbn [mbind option_bind]. destruct (Z.eqb_spec h 0) as [->|Hn0]; cbn [negb].
    + exists g3, (took_back q f ready), free. done.
    + destruct Hh as [->|(d & Hd & Vd)]; [done|]. rewrite Ed, Hd. cbn [mbind option_bind].
      eexists _, (took_back q f ready), free. split_and!; [done| |done|done].
      pose proof Hg3 as [_ _ _ _ _ _ Hh3 Ho3]. eapply inv_ext; try done.
      eapply handles_count; [done|by rewrite Ed|by rewrite Ed].
Qed.

(** *** The tasklet *)

Definition ready_count (o : option rxq) : nat := match o with Some q => length (q_ready q) | None => 0%nat end.

Definition ready_total (qs : list (option rxq)) : nat := sum_list (map ready_count qs).

(** No frame is waiting in ring [i]. *)
Definition drained (qs : list (option rxq)) (i : nat) : Prop :=
  forall q, qs !! i = Some (Some q) -> q_ready q = [].

Lemma ready_total_insert qs i q q' :
  qs !! i = Some (Some q) ->
  (ready_total (<[i := Some q']> qs) + length (q_ready q) = ready_total qs + length (q_ready q'))%nat.
Proof.
  intros Hi. unfold ready_total. rewrite list_fmap_insert. apply sum_list_insert.
  by rewrite list_lookup_fmap, Hi.
Qed.

Lemma receive_on_ok mem g qs free i :
  rx_inv g qs free -> frames_fine mem qs ->
  (receive_on mem i g = Some (false, g) /\ drained qs i) \/
  exists g' q q' f free', receive_on mem i g = Some (true, g') /\ rx_inv g' (<[i := Some q']> qs) free'
    /\ qs !! i = Some (Some q) /\ q_ready q = f :: q_ready q' /\ fixed_of (Some q') = fixed_of (Some q).
Proof.
  intros Hg Hfine. unfold receive_on. pose proof Hg as [H1 _ _ _ _ _ _ _].
  destruct (RxBdInfos g !! i) as [o|] eqn:Ei; cycle 1.
  { left. split; [done|]. intros q Hq. destruct (ring_lookup g qs free i q Hg Hq) as (r & Hr & _). congruence. }
  destruct (Forall2_lookup_l _ _ _ _ _ H1 Ei) as (oq & Hq & Hm).
  destruct o as [r|], oq as [q|]; try done; cycle 1.
  { left. split; [done|]. intros q Hq'. congruence. }
  cbn in Hm. destruct (q_ready q) as [|f ready] eqn:Ef.
  - left. pose proof Hm as [K1 _ _ _ _]. rewrite Ef in K1. rewrite (take_head_none _ _ _ K1). cbn [mbind option_bind].
    split; [done|]. intros q' Hq'. congruence.
  - right. pose proof Hm as [K1 _ _ _ _]. rewrite Ef in K1.
    destruct (take_head_ready _ _ _ _ _ K1) as (r' & -> & Hr' & Hl & Hc & Hv). cbn [mbind option_bind].
    rewrite (KSEG0ADDR_phys _ Hv).
    destruct (process_ok mem g qs free i q f ready r') as (g' & q' & free' & -> & Hg' & Hq' & Hw'); try done; [by exists r|].
    cbn [mbind option_bind]. exists g', q, q', f, free'. split_and!; [done..| |done]. by rewrite Hq'.
Qed.

Lemma frames_fine_tail mem qs i q q' f :
  frames_fine mem qs -> qs !! i = Some (Some q) -> q_ready q = f :: q_ready q' ->
  frames_fine mem (<[i := Some q']> qs).
Proof.
  intros Hf Hq Er j q0 f0 Hj Hin. destruct (decide (j = i)) as [->|Hne].
  - rewrite list_lookup_insert_eq in Hj by by eapply lookup_lt_Some. injection Hj as <-.
    apply (Hf i q f0 Hq). rewrite Er. by right.
  - rewrite list_lookup_insert_ne in Hj by done. by apply (Hf j q0 f0).
Qed.

Lemma receive_round_ok mem l more g qs free :
  rx_inv g qs free -> frames_fine mem qs ->
  exists b g' qs' free', receive_round mem l more g = Some (more || b, g') /\ rx_inv g' qs' free'
    /\ frames_fine mem qs' /\ map fixed_of qs' = map fixed_of qs /\
    if b : bool then (ready_total qs' < ready_total qs)%nat else g' = g /\ qs' = qs /\ Forall (drained qs) l.
Proof.
  revert more g qs free. induction l as [|i l IH]; intros more g qs free Hg Hf.
  { exists false, g, qs, free. cbn [receive_round]. rewrite orb_false_r. done. }
  cbn [receive_round]. destruct (receive_on_ok mem g qs free i Hg Hf) as [[E Hd]|(g1 & q & q' & f & free1 & E & Hg1 & Hq & Er & Hw)].
  - rewrite E. cbn [mbind option_bind]. rewrite orb_false_r.
    destruct (IH more g qs free Hg Hf) as (b & g' & qs' & free' & -> & Hg' & Hf' & Hws & H).
    exists b, g', qs', free'. split_and!; try done. destruct b; [done|]. destruct H as (-> & -> & H).
    split_and!; try done. by constructor.
  - rewrite E. cbn [mbind option_bind].
    destruct (IH (more || true) g1 _ free1 Hg1 (frames_fine_tail _ _ _ _ _ _ Hf Hq Er)) as (b & g' & qs' & free' & -> & Hg' & Hf' & Hws & H).
    exists true, g', qs', free'. rewrite orb_true_r. split_and!; try done.
    { rewrite Hws. by eapply fixed_insert. }
    pose proof (ready_total_insert qs i q q' Hq) as Hi. rewrite Er in Hi. cbn [length] in Hi.
    destruct b; [lia|]. destruct H as (_ & -> & _). lia.
Qed.

Lemma receive_loop_ok mem fuel g qs free :
  rx_inv g qs free -> frames_fine mem qs -> (ready_total qs < fuel)%nat ->
  exists g' qs' free', receive_loop mem fuel g = Some g' /\ rx_inv g' qs' free'
    /\ map fixed_of qs' = map fixed_of qs /\ Forall (drained qs') (seq 0 MAX_RECEIVE_QUEUES).
Proof.
  revert g qs free. induction fuel as [|fuel IH]; intros g qs free Hg Hf Hn; [lia|]. cbn [receive_loop].
  destruct (receive_round_ok mem (seq 0 MAX_RECEIVE_QUEUES) false g qs free Hg Hf) as (b & g1 & qs1 & free1 & -> & Hg1 & Hf1 & Hw & H).
  cbn [orb]. destruct b; [|destruct H as (-> & -> & H); by exists g, qs, free1].
  destruct (IH g1 qs1 free1) as (g' & qs' & free' & E & Hg' & Hw' & Hd); [done..|lia|].
  exists g', qs', free'. split_and!; [done..| |done]. congruence.
Qed.

Lemma ready_total_le g qs free : rx_inv g qs free -> (ready_total qs <= total_bds g)%nat.
Proof.
  intros [H1 _ _ _ _ _ _ _]. unfold ready_total, total_bds.
  induction H1 as [|o q os qs Hm _ IH]; [done|]. cbn [map].
  change (ready_count q + sum_list (map ready_count qs) <=
    match o with Some r => length (rx_bds r) | None => 0 end +
    sum_list (map (fun o => match o with Some r => length (rx_bds r) | None => 0 end) os))%nat.
  destruct o as [r|], q as [q|]; try done. cbn [ready_count] in *.
  pose proof (ring_ok_count _ _ _ Hm) as Hc. unfold q_in in Hc. rewrite length_app, length_map in Hc. lia.
Qed.

Lemma enable_loop_inv n i m g qs free : rx_inv g qs free -> rx_inv (enable_loop n i m g) qs free.
Proof.
  revert i m g. induction n as [|n IH]; intros i m g Hg; [done|]. cbn [enable_loop]. destruct (m =? 0); [done|].
  apply IH. destruct (_ =? 1); [|done]. pose proof Hg as [_ _ _ _ _ _ Hh Ho]. eapply inv_ext; try done.
  cbn [emit outputs]. apply Forall_app_2; [done|]. by repeat constructor.
Qed.

(** The tasklet ends, with no frame left in any ring. *)
Lemma rxtasklet_ok mem g qs free :
  rx_inv g qs free -> frames_fine mem qs ->
  exists g' qs' free', bcmxtmrt_rxtasklet mem g = Some g' /\ rx_inv g' qs' free'
    /\ map fixed_of qs' = map fixed_of qs /\ Forall (drained qs') (seq 0 MAX_RECEIVE_QUEUES)
    /\ ulIntEnableMask g' = 0.
Proof.
  intros Hg Hf. pose proof (ready_total_le g qs free Hg) as Hn.
  destruct (receive_loop_ok mem (S (total_bds g)) g qs free Hg Hf) as (g1 & qs1 & free1 & E & Hg1 & Hw & Hd); [lia|].
  unfold bcmxtmrt_rxtasklet. rewrite E. cbn [mbind option_bind]. eexists _, qs1, free1. split_and!; [done| |done|done|].
  - apply enable_loop_inv. pose proof Hg1 as [_ _ _ _ _ _ Hh Ho]. by eapply inv_ext.
  - assert (Hm : forall n i m g0, ulIntEnableMask g0 = 0 -> ulIntEnableMask (enable_loop n i m g0) = 0).
    { induction n as [|n IH]; intros i m g0 H0; [done|]. cbn [enable_loop]. destruct (m =? 0); [done|].
      apply IH. by destruct (_ =? 1). }
    by apply Hm.
Qed.

(** ** The driver, the controller and the network stack together *)

Inductive rx_event :=
| Arrive (i : nat) (len st : Z)          (** a frame arrives on ring [i] *)
| Tasklet (mem : Z -> Z)                 (** the tasklet runs *)
| Free (p : Z)                           (** the stack frees a packet *)
| Detach (p : Z).                        (** the stack releases only its data *)

Record rx_sys := mkRxSys { r_glob : rx_glob; r_hw : list nat }.

(** The controller reports that it found no descriptor and stops. *)
Definition no_desc (c : DmaChannelCfg) : DmaChannelCfg :=
  mkChan 0 (Z.lor (intStat c) DMA_NO_DESC) (intMask c) (maxBurst c) (stram c).

Definition rx_step (e : rx_event) (st : rx_sys) : option rx_sys :=
  match e with
  | Arrive i len fs =>
      let g := r_glob st in
      match RxBdInfos g !! i, r_hw st !! i with
      | Some (Some r), Some hw =>
          match dma_receive len fs hw (rx_bds r) with
          | Some (hw', bds) =>
              Some (mkRxSys (with_ring g i (mkRxInfo bds (pBdHead r) (pBdTail r) (rx_chan r) (pBdBase r)) (rx_chs g))
                      (<[i := hw']> (r_hw st)))
          | None => Some (mkRxSys (with_mask g (ulIntEnableMask g) (alter no_desc (rx_chan r) (rx_chs g))) (r_hw st))
          end
      | _, _ => Some st
      end
  | Tasklet mem => g ← bcmxtmrt_rxtasklet mem (r_glob st); Some (mkRxSys g (r_hw st))
  | Free p => g ← kfree_rx p (r_glob st); Some (mkRxSys g (r_hw st))
  | Detach p => g ← detach_rx p (r_glob st); Some (mkRxSys g (r_hw st))
  end.

Fixpoint rx_run (es : list rx_event) (st : rx_sys) : option rx_sys :=
  match es with
  | [] => Some st
  | e :: es' => st ← rx_step e st; rx_run es' st
  end.

(** The frames that wait in the rings: the packets have 0 or 4 to 1528 bytes, the cells have
    circuit types that the driver knows (not 14 and 15). *)
Definition frames_known (mem : Z -> Z) (g : rx_glob) : Prop :=
  forall i r bd, RxBdInfos g !! i = Some (Some r) -> bd ∈ rx_bds r ->
  has (bd_status bd) DMA_OWN = false -> bd_address bd <> 0 ->
  frame_fine mem (bd_length bd) (bd_status bd) (KSEG0ADDR (bd_address bd)).

(** The stack frees what it got and did not free yet, and frees it as a whole. *)
Definition event_ok (e : rx_event) (g : rx_glob) : Prop :=
  match e with
  | Arrive _ _ _ => True
  | Tasklet mem => frames_known mem g
  | Free p => p <> 0 /\ exists s i, rx_skbs g !! p = Some s /\ retfreeq_context s = CtxRing i
  | Detach _ => False
  end.

Fixpoint run_ok (es : list rx_event) (st : rx_sys) : Prop :=
  match es with
  | [] => True
  | e :: es' => event_ok e (r_glob st) /\ forall st', rx_step e st = Some st' -> run_ok es' st'
  end.

Definition rx_sys_inv (st : rx_sys) (qs : list (option rxq)) (free : list Z) : Prop :=
  rx_inv (r_glob st) qs free /\ r_hw st = map hw_of qs.

Lemma known_fine mem g qs free : rx_inv g qs free -> frames_known mem g -> frames_fine mem qs.
Proof.
  intros Hg Hc i q f Hq Hin. destruct (ring_lookup g qs free i q Hg Hq) as (r & Hr & [K1 _ _ _ _]).
  destruct K1 as [_ (b1 & b2 & b3 & _ & _ & _ & Eb & F1 & _)].
  apply list_elem_of_lookup in Hin as [n Hn].
  destruct (Forall2_lookup_r _ _ _ _ _ F1 Hn) as (bd & Hbd & (Ho & Ha & El & Es & Hv)).
  rewrite <- (KSEG0ADDR_phys _ Hv), <- Ha, <- El, <- Es. apply (Hc i r bd Hr); [|done|].
  - apply (elem_of_rotate _ (pBdHead r)). rewrite Eb, elem_of_app. left. by eapply list_elem_of_lookup_2.
  - rewrite Ha. by apply phys_nonzero.
Qed.

(** The buffers of the rings, which never change. *)
Definition bufs_of (qs : list (option rxq)) : list (list Z) :=
  map (fun o => match o with Some q => q_bufs q | None => [] end) qs.

Lemma bufs_insert qs i q q' :
  qs !! i = Some (Some q) -> q_bufs q' = q_bufs q -> bufs_of (<[i := Some q']> qs) = bufs_of qs.
Proof.
  intros Hq Hb. unfold bufs_of. rewrite list_fmap_insert. apply list_insert_id. by rewrite list_lookup_fmap, Hq, Hb.
Qed.

Lemma fixed_bufs qs qs' : map fixed_of qs' = map fixed_of qs -> bufs_of qs' = bufs_of qs.
Proof.
  intros E. apply (f_equal (map snd)) in E. rewrite !map_map in E.
  assert (H : forall l, map (fun o => snd (fixed_of o)) l = bufs_of l) by (intros l; apply map_ext; by intros [q|]).
  by rewrite !H in E.
Qed.

Lemma step_arrive st qs free i len fs :
  rx_sys_inv st qs free -> exists st' qs', rx_step (Arrive i len fs) st = Some st' /\ rx_sys_inv st' qs' free
    /\ bufs_of qs' = bufs_of qs.
Proof.
  intros [Hg Hw]. cbn [rx_step]. destruct (RxBdInfos (r_glob st) !! i) as [[r|]|] eqn:Er; [|by exists st, qs..].
  destruct (r_hw st !! i) as [hw|] eqn:Eh; [|by exists st, qs].
  rewrite Hw, list_lookup_fmap in Eh. destruct (qs !! i) as [[q|]|] eqn:Eq; cbn in Eh; [|exfalso|done].
  - injection Eh as <-. destruct (ring_lookup _ _ _ i q Hg Eq) as (r0 & Hr0 & Hok). assert (r0 = r) as -> by congruence.
    pose proof Hok as [K1 K2 K3 K4 K5]. destruct (q_avail q) as [|b avail] eqn:Ea.
    + rewrite (dma_receive_none _ _ _ len fs K1). eexists _, qs. split; [done|]. split; [|done]. split; [|done].
      pose proof Hg as [_ _ _ _ _ _ Hh Ho]. eapply inv_ext; try done. cbn [r_glob with_mask rx_chs]. apply length_alter.
    + destruct (dma_receive_ring _ _ _ _ _ len fs K1) as (hw' & bds & st' & -> & Hr' & Hl & _).
      set (q' := mkRxq hw' (q_ready q ++ [mkFrame b len st']) avail (q_out q) (q_bufs q)).
      assert (Ein : q_in q' = q_in q).
      { unfold q_in, q'. cbn [q_ready q_avail]. rewrite Ea, map_app, <- app_assoc. done. }
      eexists _, (<[i := Some q']> qs). split; [done|]. split; [|by apply bufs_insert with q]. split; cbn [r_glob r_hw].
      * eapply inv_ring; try done; [|by rewrite Ein]. split; cbn [q' q_hw q_ready q_avail q_out q_bufs]; try done.
        -- fold q'. rewrite Ein. done.
        -- cbn [rx_bds]. congruence.
      * rewrite list_fmap_insert, Hw. done.
  - destruct Hg as [H1 _ _ _ _ _ _ _]. pose proof (Forall2_lookup_lr _ _ _ _ _ _ H1 Er Eq) as Hm. done.
Qed.

Lemma rx_run_inv es st qs free :
  rx_sys_inv st qs free -> run_ok es st ->
  exists st' qs' free', rx_run es st = Some st' /\ rx_sys_inv st' qs' free' /\ bufs_of qs' = bufs_of qs.
Proof.
  revert st qs free. induction es as [|e es IH]; intros st qs free Hi Hok; [by exists st, qs, free|].
  destruct Hok as [He Hok]. cbn [rx_run].
  assert (H : exists st1 qs1 free1, rx_step e st = Some st1 /\ rx_sys_inv st1 qs1 free1
    /\ bufs_of qs1 = bufs_of qs).
  { destruct e as [i len fs|mem|p|p].
    - destruct (step_arrive st qs free i len fs Hi) as (st1 & qs1 & E & H1). by exists st1, qs1, free.
    - destruct Hi as [Hg Hw]. cbn [rx_step event_ok] in *.
      destruct (rxtasklet_ok mem (r_glob st) qs free Hg) as (g & qs1 & free1 & -> & Hg1 & Hw1 & _ & _); [by eapply known_fine|].
      eexists _, qs1, free1. split; [done|]. split; [|by apply fixed_bufs]. split; [done|].
      cbn [r_hw]. by rewrite (fixed_hw _ _ Hw1).
    - destruct Hi as [Hg Hw]. destruct He as (Hp & s & i & Hs & Hc). cbn [rx_step].
      destruct (kfree_rx_ok _ _ _ p s i Hg Hs Hc Hp) as (g & qs1 & -> & Hg1 & Hw1).
      eexists _, qs1, _. split; [done|]. split; [|by apply fixed_bufs]. split; [done|].
      cbn [r_hw]. by rewrite (fixed_hw _ _ Hw1).
    - done. }
  destruct H as (st1 & qs1 & free1 & E & H1 & B1). rewrite E. cbn [mbind option_bind].
  destruct (IH st1 qs1 free1 H1) as (st' & qs' & free' & E' & H' & B'); [by apply Hok|].
  exists st', qs', free'. split_and!; [done..|congruence].
Qed.
