(* ===== verification/XtmInit.v ===== *)
(** * ATM/PTM network driver: initialisation

    [DoGlobInitReq] of [bcmxtmrt.c]: the allocation of the socket buffers, descriptors and
    data buffers for reception, the rings and the DMA channels.  The answers of [kmalloc]
    are an argument.  With the invariant of reception established, the properties of the
    receiver follow. *)

From stdpp Require Import gmap.
From S2P Require Import Prelude Ring XtmDefs XtmTx XtmRx XtmRxSpec.

(** ** The driver *)

Definition XTMRT_UNINITIALIZED : Z := 0.
Definition XTMRT_INITIALIZED : Z := 1.
Definition XTMRT_RUNNING : Z := 2.

(** [g_GlobalInfo]: the state of the driver, the memory it allocated (0 is a null
    pointer), the configuration of the DMA controller, the part for reception (with the
    registers and the state RAM of all DMA channels, and the contexts of the devices), the
    table of the devices, and whether the timer runs. *)
Record xtm_glob := mkXtm {
  ulDrvState : Z;
  pRxSkbMem : Z;
  pRxBdMem : Z;
  pBufMem : list Z;
  controller_cfg : Z;
  g_rx : rx_glob;
  pDevCtxs : list Z;
  timer_active : bool
}.

Definition zero_rx : rx_glob :=
  mkRx (replicate MAX_RECEIVE_QUEUES None) (replicate IUDMA_MAX_CHANNELS zero_chan) ∅ 0
    (replicate MAX_MATCH_IDS 0) ∅ 0 0 0 0 0 [].

(** The state after [bcmxtmrt_init]. *)
Definition bcmxtmrt_init : xtm_glob :=
  mkXtm XTMRT_UNINITIALIZED 0 0 (replicate MAX_BUFMEM_BLOCKS 0) 0 zero_rx (replicate MAX_DEV_CTXS 0) false.

Definition ulBufsPerBlock : Z := 64 * 1024 / RXBUF_ALLOC_SIZE.

(** ** [DoGlobInitReq] *)

Inductive init_result :=
| InitReturns (nRet : Z) (g : xtm_glob)
| InitFault
| InitHangs.

Definition ulBufsToAlloc (sizes : list Z) : Z := u32 (foldr Z.add 0 sizes).

(** The socket buffers, chained in front of each other. *)
Fixpoint link_skbs (ps : list Z) (h : gmap Z rx_skb) (first : Z) : gmap Z rx_skb * Z :=
  match ps with
  | [] => (h, first)
  | p :: ps' => link_skbs ps' (<[p := blank_skb (CtxSkb first)]> h) p
  end.

Definition skb_addrs (skb_size mem n : Z) : list Z :=
  map (fun i => align16 mem + skb_size * Z.of_nat i) (seq 0 (Z.to_nat n)).

(** The buffers of a block of memory. *)
Definition block_bufs (p amount : Z) : list Z :=
  map (fun i => align16 p + RXBUF_ALLOC_SIZE * Z.of_nat i) (seq 0 (Z.to_nat amount)).

Definition fresh_bd (b : Z) : DmaDesc := mkBd RXBUF_SIZE DMA_OWN (VIRT_TO_PHY (b + RXBUF_HEAD_RESERVE)).

Inductive alloc_result :=
| Allocated (blocks : list Z) (bufs : list Z)
| AllocFault
| AllocHangs.

(** The [while( ulBufsToAlloc )] loop.  [failed] is set when an allocation failed: the
    descriptors are freed then, and writing to them is a fault.  Without a further
    allocation that succeeds the loop does not end. *)
Fixpoint alloc_loop (answers : list Z) (n : Z) (j : nat) (failed : bool) (blocks bufs : list Z)
    : alloc_result :=
  if n =? 0 then Allocated blocks bufs
  else
    match answers with
    | [] => AllocHangs
    | p :: answers' =>
        if p =? 0 then alloc_loop answers' n j true (replicate MAX_BUFMEM_BLOCKS 0) bufs
        else if failed then AllocFault
        else
          let ulAllocAmt := if ulBufsPerBlock <? n then ulBufsPerBlock else n in
          if Nat.ltb j MAX_BUFMEM_BLOCKS then
            alloc_loop answers' (n - ulAllocAmt) (S j) failed (<[j := p]> blocks)
              (bufs ++ block_bufs p ulAllocAmt)
          else AllocFault
    end.

(** [pBd += n - 1; pBd++->status |= DMA_WRAP]. *)
Definition mark_last (bds : list DmaDesc) : list DmaDesc :=
  alter (fun bd => with_status bd (Z.lor (bd_status bd) DMA_WRAP)) (length bds - 1)%nat bds.

(** The rings of the queues from [i] on, over the descriptors that are left, which start
    at [pBd]. *)
Fixpoint init_rings (sizes : list Z) (i : nat) (pBd : Z) (bds : list DmaDesc) : list (option RXBDINFO) :=
  match sizes with
  | [] => []
  | n :: sizes' =>
      if n =? 0 then None :: init_rings sizes' (S i) pBd bds
      else Some (mkRxInfo (mark_last (take (Z.to_nat n) bds)) 0 0 i pBd)
             :: init_rings sizes' (S i) (pBd + sizeof_DmaDesc * n) (drop (Z.to_nat n) bds)
  end.

(** A receive channel: its entry of the state RAM is cleared, and gets the address of the
    ring if there is one. *)
Definition init_rx_chan (pBd n : Z) (c : DmaChannelCfg) : DmaChannelCfg :=
  if n =? 0 then set_stram (set_cfg c 0) zero_stram
  else mkChan 0 (Z.land (intStat c) (Z.lnot (Z.lor (Z.lor DMA_DONE DMA_NO_DESC) DMA_BUFF_DONE)))
         DMA_DONE SAR_DMA_MAX_BURST_LENGTH (set_base zero_stram (VIRT_TO_PHY pBd)).

Fixpoint init_rx_chans (sizes : list Z) (pBd : Z) (chs : list DmaChannelCfg) : list DmaChannelCfg :=
  match sizes, chs with
  | n :: sizes', c :: chs' => init_rx_chan pBd n c :: init_rx_chans sizes' (pBd + sizeof_DmaDesc * n) chs'
  | _, _ => []
  end.

Definition init_chans (sizes : list Z) (pBd : Z) (chs : list DmaChannelCfg) : list DmaChannelCfg :=
  init_rx_chans sizes pBd (take MAX_RECEIVE_QUEUES chs)
    ++ map (fun c => set_stram (set_cfg c 0) zero_stram) (take MAX_TRANSMIT_QUEUES (drop MAX_RECEIVE_QUEUES chs))
    ++ drop (MAX_RECEIVE_QUEUES + MAX_TRANSMIT_QUEUES) chs.

(** The descriptors in the memory for them, through the uncached segment. *)
Definition bd_base (bdmem : Z) : Z := CACHE_TO_NONCACHE (align16 bdmem).

(** [kfree(pRxSkbMem)]: the socket buffers are gone; the list still points to them. *)
Definition drop_skbs (g : xtm_glob) : xtm_glob :=
  mkXtm (ulDrvState g) 0 (pRxBdMem g) (pBufMem g) (controller_cfg g)
    (with_skbs (g_rx g) ∅ (pFreeRxSkbList (g_rx g))) (pDevCtxs g) (timer_active g).

(** [skb_size] is [SKB_ALIGNED_SIZE]; the first two answers are those for the socket
    buffers and for the descriptors. *)
Definition DoGlobInitReq (skb_size : Z) (sizes : list Z) (answers : list Z) (g : xtm_glob)
    : init_result :=
  let n := ulBufsToAlloc sizes in
  if negb (ulDrvState g =? XTMRT_UNINITIALIZED) then InitReturns (- ENOMEM) (drop_skbs g)
  else
    match answers with
    | [] => InitReturns (- ENOMEM) (drop_skbs g)
    | skbmem :: answers1 =>
        if skbmem =? 0 then InitReturns (- ENOMEM) (drop_skbs g)
        else
          let '(h, first) := link_skbs (skb_addrs skb_size skbmem n) (rx_skbs (g_rx g))
                               (pFreeRxSkbList (g_rx g)) in
          let g := mkXtm (ulDrvState g) skbmem (pRxBdMem g) (pBufMem g) (controller_cfg g)
                     (with_skbs (g_rx g) h first) (pDevCtxs g) (timer_active g) in
          match answers1 with
          | [] => InitReturns (- ENOMEM) (drop_skbs g)
          | bdmem :: answers2 =>
              if bdmem =? 0 then InitReturns (- ENOMEM) (drop_skbs g)
              else
                match alloc_loop answers2 n 0 false (pBufMem g) [] with
                | AllocFault => InitFault
                | AllocHangs => InitHangs
                | Allocated blocks bufs =>
                    let x := g_rx g in
                    let x := mkRx (init_rings sizes 0 (bd_base bdmem) (map fresh_bd bufs))
                               (init_chans sizes (bd_base bdmem) (rx_chs x))
                               (rx_skbs x) (pFreeRxSkbList x) (pDevCtxsByMatchId x) (devs x)
                               (pfnOamHandler x) (pOamContext x) (pfnAsmHandler x) (pAsmContext x)
                               (ulIntEnableMask x) (outputs x) in
                    InitReturns 0 (mkXtm XTMRT_INITIALIZED skbmem bdmem blocks
                                     (Z.lor (controller_cfg g) DMA_MASTER_EN) x (pDevCtxs g)
                                     (timer_active g))
                end
          end
    end.

(** ** What it establishes *)

Lemma align16_ge x : 0 <= x -> x <= align16 x < x + 16.
Proof.
  intros. unfold align16. change (Z.lnot 15) with (Z.lnot (Z.ones 4)).
  rewrite <- Z.ldiff_land, Z.ldiff_ones_r, Z.shiftr_div_pow2, Z.shiftl_mul_pow2 by lia.
  Z.to_euclidean_division_equations; lia.
Qed.

Lemma align16_mod x : align16 x mod 16 = 0.
Proof.
  unfold align16. change (Z.lnot 15) with (Z.lnot (Z.ones 4)).
  rewrite <- Z.ldiff_land, Z.ldiff_ones_r, Z.shiftl_mul_pow2 by lia. change (2 ^ 4) with 16. apply Z.mod_mul. lia.
Qed.

(** Memory that [kmalloc] returns for a block of buffers. *)
Definition valid_block (p : Z) : Prop := 0x80000000 <= p /\ p + 0x10000 < 0xa0000000.

Lemma block_bufs_valid p n : valid_block p -> 0 <= n <= ulBufsPerBlock -> Forall valid_buf (block_bufs p n).
Proof.
  intros (H1 & H2) Hn. unfold block_bufs. apply Forall_map, Forall_forall. intros i Hi%elem_of_seq. cbn.
  pose proof (align16_ge p ltac:(lia)). change ulBufsPerBlock with 37 in Hn. unfold valid_buf.
  pose proof (align16_mod p). change RXBUF_ALLOC_SIZE with 1728. Z.to_euclidean_division_equations; lia.
Qed.

Lemma length_block_bufs p n : length (block_bufs p n) = Z.to_nat n.
Proof. unfold block_bufs. by rewrite length_map, length_seq. Qed.

Lemma alloc_loop_ok answers n j blocks bufs :
  Forall valid_block answers -> 0 <= n <= ulBufsPerBlock * (16 - Z.of_nat j) ->
  n <= ulBufsPerBlock * zlen answers ->
  exists blocks' more, alloc_loop answers n j false blocks bufs = Allocated blocks' (bufs ++ more)
    /\ zlen more = n /\ Forall valid_buf more.
Proof.
  change ulBufsPerBlock with 37. intros Ha. revert n j blocks bufs.
  induction Ha as [|p answers Hp Ha IH]; intros n j blocks bufs Hn Hl; cbn [alloc_loop].
  - change (zlen (@nil Z)) with 0 in Hl. destruct (Z.eqb_spec n 0); [|lia]. exists blocks, []. by rewrite app_nil_r.
  - rewrite zlen_cons in Hl. destruct (Z.eqb_spec n 0) as [->|Hn0]; [exists blocks, []; by rewrite app_nil_r|].
    destruct (Z.eqb_spec p 0) as [->|Hp0]; [destruct Hp; lia|].
    change ulBufsPerBlock with 37. set (amt := if 37 <? n then 37 else n).
    assert (Hamt : 0 < amt <= 37 /\ amt <= n) by (unfold amt; destruct (Z.ltb_spec 37 n); lia).
    destruct (Nat.ltb_spec j MAX_BUFMEM_BLOCKS) as [Hj|Hj]; [|unfold MAX_BUFMEM_BLOCKS in Hj; lia].
    destruct (IH (n - amt) (S j) (<[j := p]> blocks) (bufs ++ block_bufs p amt)) as (bl & more & E & Hm & Hv);
      [unfold amt in *; destruct (Z.ltb_spec 37 n); lia..|].
    exists bl, (block_bufs p amt ++ more). rewrite E, <- app_assoc. split_and!; [done| |].
    + rewrite zlen_app, Hm. unfold zlen. rewrite length_block_bufs. lia.
    + apply Forall_app_2; [|done]. apply block_bufs_valid; [done|]. change ulBufsPerBlock with 37. lia.
Qed.

Lemma mark_last_wrap l : (forall bd, bd ∈ l -> has (bd_status bd) DMA_WRAP = false) -> wrap_ok (mark_last l).
Proof.
  intros Hl i bd. unfold mark_last. rewrite length_alter. intros H.
  destruct (decide (i = length l - 1)%nat) as [->|Hne].
  - rewrite list_lookup_alter_eq in H. destruct (l !! _) as [bd0|] eqn:E; [|done]. injection H as <-.
    pose proof (lookup_lt_Some _ _ _ E). cbn [with_status bd_status]. rewrite has_wrap, Z.lor_spec.
    change (Z.testbit DMA_WRAP 12) with true. rewrite orb_true_r. symmetry. apply Nat.eqb_eq. lia.
  - rewrite list_lookup_alter_ne in H by done. pose proof (lookup_lt_Some _ _ _ H).
    rewrite Hl by by eapply list_elem_of_lookup_2. symmetry. apply Nat.eqb_neq. lia.
Qed.

Lemma mark_last_avail bs : Forall valid_buf bs -> Forall2 avail_bd (mark_last (map fresh_bd bs)) bs.
Proof.
  intros Hv. apply Forall2_same_length_lookup_2.
  - unfold mark_last. by rewrite length_alter, length_map.
  - intros i bd b Hbd Hb. assert (Vb : valid_buf b) by (rewrite Forall_forall in Hv; by eapply Hv, list_elem_of_lookup_2).
    unfold mark_last in Hbd. destruct (decide (i = length (map fresh_bd bs) - 1)%nat) as [->|Hne].
    + rewrite list_lookup_alter_eq, list_lookup_fmap, Hb in Hbd. injection Hbd as <-.
      split_and!; [|done..]. cbn [with_status bd_status fresh_bd]. done.
    + rewrite list_lookup_alter_ne, list_lookup_fmap, Hb in Hbd by done. injection Hbd as <-. done.
Qed.

(** A ring with all its buffers. *)
Lemma full_ring bs ch base :
  bs <> [] -> Forall valid_buf bs -> rx_ring (mkRxInfo (mark_last (map fresh_bd bs)) 0 0 ch base) 0 [] bs.
Proof.
  intros Hn Hv. assert (Hl : length (mark_last (map fresh_bd bs)) = length bs)
    by (unfold mark_last; by rewrite length_alter, length_map).
  assert (Hp : (0 < length bs)%nat) by (destruct bs; [done|cbn; lia]).
  split; cbn [rx_bds pBdHead pBdTail].
  - apply mark_last_wrap. intros bd Hbd. apply list_elem_of_fmap in Hbd as (b & -> & _). done.
  - exists [], (mark_last (map fresh_bd bs)), []. rewrite Hl. split_and!; try done.
    + cbn [length Nat.add]. unfold ring_at, rotate_nat_add. rewrite Z.add_0_l, Z.mod_same by lia. done.
    + cbn [app]. rewrite app_nil_r. unfold rotate. by rewrite Nat.Div0.mod_0_l, drop_0, take_0, app_nil_r.
    + by apply mark_last_avail.
Qed.

Fixpoint init_qs (sizes : list Z) (bufs : list Z) : list (option rxq) :=
  match sizes with
  | [] => []
  | n :: sizes' =>
      if n =? 0 then None :: init_qs sizes' bufs
      else Some (mkRxq 0 [] (take (Z.to_nat n) bufs) [] (take (Z.to_nat n) bufs))
             :: init_qs sizes' (drop (Z.to_nat n) bufs)
  end.

Lemma init_rings_ok nchs sizes i pBd bufs :
  Forall (Z.le 0) sizes -> zlen bufs = foldr Z.add 0 sizes -> Forall valid_buf bufs ->
  (i + length sizes <= nchs)%nat ->
  Forall2 (ring_match nchs) (init_rings sizes i pBd (map fresh_bd bufs)) (init_qs sizes bufs).
Proof.
  intros Hs. revert i pBd bufs. induction Hs as [|n sizes Hn Hs IH]; intros i pBd bufs Hz Hv Hi; [constructor|].
  cbn [init_rings init_qs foldr length] in *.
  assert (H0 : 0 <= foldr Z.add 0 sizes) by (clear -Hs; induction Hs; cbn [foldr]; lia).
  destruct (Z.eqb_spec n 0) as [->|Hn0].
  - constructor; [done|]. apply IH; [lia|done|lia].
  - constructor.
    + rewrite firstn_map. set (bs := take (Z.to_nat n) bufs).
      assert (Hbs : zlen bs = n) by (unfold bs; rewrite zlen_take; lia).
      assert (Vb : Forall valid_buf bs) by by apply Forall_take.
      split; cbn [q_hw q_ready q_avail q_out q_bufs rx_bds rx_chan]; [|by rewrite app_nil_r| |done|lia].
      * apply full_ring; [|done]. intros E. rewrite E in Hbs. change (zlen (@nil Z)) with 0 in Hbs. lia.
      * unfold mark_last. by rewrite length_alter, length_map.
    + rewrite skipn_map. apply IH; [|by apply Forall_drop|lia]. rewrite zlen_drop. lia.
Qed.

Lemma init_qs_sum sizes bufs :
  Forall (Z.le 0) sizes -> zlen bufs = foldr Z.add 0 sizes -> in_rings (init_qs sizes bufs) = length bufs.
Proof.
  intros Hs. revert bufs. induction Hs as [|n sizes Hn Hs IH]; intros bufs Hz; cbn [init_qs foldr] in *.
  { unfold zlen in Hz. cbn. lia. }
  assert (H0 : 0 <= foldr Z.add 0 sizes) by (clear -Hs; induction Hs; cbn [foldr]; lia).
  destruct (Z.eqb_spec n 0) as [->|Hn0].
  - change (0 + in_rings (init_qs sizes bufs) = length bufs)%nat. rewrite IH by lia. done.
  - change (length (q_in (mkRxq 0 [] (take (Z.to_nat n) bufs) [] (take (Z.to_nat n) bufs))) +
      in_rings (init_qs sizes (drop (Z.to_nat n) bufs)) = length bufs)%nat.
    rewrite IH by (rewrite zlen_drop; lia). unfold q_in. cbn [q_ready q_avail map app].
    rewrite length_take, length_drop. lia.
Qed.

Lemma init_qs_outs sizes bufs :
  outs (init_qs sizes bufs) = [] /\ forall i q, init_qs sizes bufs !! i = Some (Some q) -> q_out q = [] /\ q_hw q = 0%nat.
Proof.
  revert bufs. induction sizes as [|n sizes IH]; intros bufs; [done|]. cbn [init_qs]. destruct (n =? 0).
  - destruct (IH bufs) as [E H]. split; [done|]. intros [|i] q Hq; [done|]. by apply (H i).
  - destruct (IH (drop (Z.to_nat n) bufs)) as [E H]. split; [done|].
    intros [|i] q Hq; [by injection Hq as <-|]. by apply (H i).
Qed.

Lemma link_skbs_chain ps h first free :
  NoDup ps -> (forall p, p ∈ ps -> p ∉ free) -> chain h first free ->
  chain (fst (link_skbs ps h first)) (snd (link_skbs ps h first)) (rev ps ++ free).
Proof.
  intros Hn. revert h first free. induction Hn as [|p ps Hp Hn IH]; intros h first free Hd Hc; [done|].
  cbn [link_skbs rev]. rewrite <- app_assoc. apply IH.
  - intros x Hx. cbn [app]. apply not_elem_of_cons. split; [intros ->; done|]. apply Hd. by right.
  - split; [done|]. exists (blank_skb (CtxSkb first)), first. rewrite lookup_insert_eq. split_and!; [done..|].
    apply chain_frame; [|done]. apply Hd. by left.
Qed.

Lemma link_skbs_ctx ps h first :
  (forall p s, h !! p = Some s -> exists n, retfreeq_context s = CtxSkb n) ->
  forall p s, fst (link_skbs ps h first) !! p = Some s -> exists n, retfreeq_context s = CtxSkb n.
Proof.
  revert h first. induction ps as [|x ps IH]; intros h first Hh; [done|]. cbn [link_skbs]. apply IH.
  intros p s. destruct (decide (p = x)) as [->|Hne].
  - rewrite lookup_insert_eq. intros [= <-]. by exists first.
  - rewrite lookup_insert_ne by done. apply Hh.
Qed.

Lemma skb_addrs_nodup size mem n : 0 < size -> NoDup (skb_addrs size mem n).
Proof. intros Hs. apply NoDup_fmap_2; [|apply NoDup_seq]. intros i j H. nia. Qed.

Lemma init_rx_chans_length sizes pBd chs :
  length (init_rx_chans sizes pBd chs) = (length sizes `min` length chs)%nat.
Proof.
  revert pBd chs. induction sizes as [|n sizes IH]; intros pBd [|c chs]; [done..|]. cbn [init_rx_chans length].
  by rewrite IH.
Qed.

Lemma init_chans_length sizes pBd chs :
  length sizes = 4%nat -> length chs = 32%nat -> length (init_chans sizes pBd chs) = 32%nat.
Proof.
  intros Hs Hc. unfold init_chans. rewrite !length_app, init_rx_chans_length, length_map, !length_take, !length_drop.
  unfold MAX_RECEIVE_QUEUES, MAX_TRANSMIT_QUEUES. lia.
Qed.

Lemma init_qs_hw sizes bufs : map hw_of (init_qs sizes bufs) = replicate (length sizes) 0%nat.
Proof.
  revert bufs. induction sizes as [|n sizes IH]; intros bufs; [done|]. cbn [init_qs].
  destruct (n =? 0); cbn [map hw_of replicate length]; by rewrite IH.
Qed.

Lemma DoGlobInitReq_inv skb_size sizes skbmem bdmem blocks :
  0 < skb_size -> length sizes = 4%nat -> Forall (Z.le 0) sizes ->
  foldr Z.add 0 sizes <= 592 -> foldr Z.add 0 sizes <= 37 * zlen blocks ->
  skbmem <> 0 -> bdmem <> 0 -> Forall valid_block blocks ->
  exists g qs free bufs,
    DoGlobInitReq skb_size sizes (skbmem :: bdmem :: blocks) bcmxtmrt_init = InitReturns 0 g
    /\ zlen bufs = foldr Z.add 0 sizes
    /\ RxBdInfos (g_rx g) = init_rings sizes 0 (bd_base bdmem) (map fresh_bd bufs)
    /\ rx_chs (g_rx g) = init_chans sizes (bd_base bdmem) (replicate IUDMA_MAX_CHANNELS zero_chan)
    /\ rx_sys_inv (mkRxSys (g_rx g) (replicate 4 0%nat)) qs free /\ zlen free = foldr Z.add 0 sizes
    /\ ulDrvState g = XTMRT_INITIALIZED.
Proof.
  intros Hsz Hl Hs Hmax Hb Hskb Hbd Hblk. set (n := foldr Z.add 0 sizes) in *.
  assert (Hn : 0 <= n) by (unfold n; clear -Hs; induction Hs; cbn [foldr]; lia).
  assert (En : ulBufsToAlloc sizes = n) by (unfold ulBufsToAlloc; fold n; apply u32_id; unfold is_u32; lia).
  destruct (alloc_loop_ok blocks n 0 (replicate MAX_BUFMEM_BLOCKS 0) [] Hblk) as (bl & bufs & Ea & Hz & Hv);
    [change ulBufsPerBlock with 37; lia..|].
  set (ps := skb_addrs skb_size skbmem n). pose proof (skb_addrs_nodup skb_size skbmem n Hsz) as Hnd. fold ps in Hnd.
  pose proof (link_skbs_chain ps ∅ 0 [] Hnd ltac:(intros; apply not_elem_of_nil) eq_refl) as Hch.
  pose proof (link_skbs_ctx ps ∅ 0 ltac:(intros p s; by rewrite lookup_empty)) as Hctx.
  rewrite app_nil_r in Hch.
  assert (Hps : length ps = Z.to_nat n) by (unfold ps, skb_addrs; by rewrite length_map, length_seq).
  destruct (init_qs_outs sizes bufs) as [Eo Hq].
  assert (El : exists h first, link_skbs ps ∅ 0 = (h, first)) by (destruct (link_skbs ps ∅ 0); eauto).
  destruct El as (h & first & El). rewrite El in *. cbn [fst snd] in *.
  eexists _, (init_qs sizes bufs), (rev ps), bufs. unfold DoGlobInitReq. rewrite En.
  cbn [bcmxtmrt_init ulDrvState g_rx zero_rx rx_skbs pFreeRxSkbList pBufMem]. rewrite Z.eqb_refl. cbn [negb].
  destruct (Z.eqb_spec skbmem 0); [done|]. fold ps. rewrite El.
  destruct (Z.eqb_spec bdmem 0); [done|]. cbn [pBufMem]. rewrite Ea. cbn [app]. split_and!; [done..| | |done].
  - split; [|cbn [r_hw]; by rewrite init_qs_hw, Hl]. cbn [r_glob g_rx with_skbs].
    split; cbn [RxBdInfos rx_chs rx_skbs pFreeRxSkbList pDevCtxsByMatchId devs outputs]; try done.
    + rewrite init_chans_length by done. apply init_rings_ok; [done..|lia].
    + rewrite Eo, app_nil_r. eapply NoDup_Permutation_proper; [symmetry; apply Permutation_rev|done].
    + intros i q p b Hi Hin. destruct (Hq i q Hi) as [E _]. rewrite E in Hin. by apply not_elem_of_nil in Hin.
    + intros p s i Hp Hc. destruct (Hctx p s Hp) as [x E]. congruence.
    + rewrite init_qs_sum by done. rewrite length_rev, Hps. unfold zlen in Hz. lia.
    + split; [done|]. apply Forall_replicate. by left.
  - unfold zlen. rewrite length_rev, Hps. lia.
Qed.

(** A ring of [n] buffers as the controller finds it: all descriptors are its own, each has a
    buffer of full size, and the last one, and only it, has the wrap flag.  The state RAM of
    the channel has the address of the ring and is zero otherwise. *)
Definition ring_ready (r : RXBDINFO) (n : Z) (c : DmaChannelCfg) : Prop :=
  zlen (rx_bds r) = n /\ wrap_ok (rx_bds r) /\ pBdHead r = 0%nat /\ pBdTail r = 0%nat
  /\ Forall (fun bd => has (bd_status bd) DMA_OWN = true /\ bd_length bd = RXBUF_SIZE) (rx_bds r)
  /\ stram c = mkStRam (VIRT_TO_PHY (pBdBase r)) 0 0 0.

Lemma mark_last_own bs :
  Forall (fun bd => has (bd_status bd) DMA_OWN = true /\ bd_length bd = RXBUF_SIZE) (mark_last (map fresh_bd bs)).
Proof.
  apply Forall_lookup. intros i bd. unfold mark_last. destruct (decide (i = length (map fresh_bd bs) - 1)%nat) as [->|Hne].
  - rewrite list_lookup_alter_eq, list_lookup_fmap. destruct (bs !! _); [|done]. by intros [= <-].
  - rewrite list_lookup_alter_ne, list_lookup_fmap by done. destruct (bs !! i); [|done]. by intros [= <-].
Qed.

Lemma init_rings_ready sizes i pBd bufs chs j n :
  Forall (Z.le 0) sizes -> zlen bufs = foldr Z.add 0 sizes -> (length sizes <= length chs)%nat ->
  sizes !! j = Some n -> n <> 0 ->
  exists r c, init_rings sizes i pBd (map fresh_bd bufs) !! j = Some (Some r)
    /\ init_rx_chans sizes pBd chs !! j = Some c /\ rx_chan r = (i + j)%nat /\ ring_ready r n c.
Proof.
  intros Hs. revert i pBd bufs chs j. induction Hs as [|m sizes Hm Hs IH]; intros i pBd bufs chs j Hz Hc Hj Hn; [done|].
  assert (H0 : 0 <= foldr Z.add 0 sizes) by (clear -Hs; induction Hs; cbn [foldr]; lia).
  destruct chs as [|c chs]; [cbn in Hc; lia|]. cbn [length foldr init_rings init_rx_chans] in *.
  destruct j as [|j]; cbn [lookup list_lookup] in *.
  - injection Hj as ->. destruct (Z.eqb_spec n 0); [done|]. rewrite firstn_map. set (bs := take _ _).
    eexists _, _. split_and!; [done|done|cbn; lia|]. unfold init_rx_chan. destruct (Z.eqb_spec n 0); [done|].
    split_and!; try done; cbn [rx_bds].
    + unfold mark_last, zlen. rewrite length_alter, length_map. unfold bs. rewrite length_take. unfold zlen in Hz. lia.
    + apply mark_last_wrap. intros bd Hbd. apply list_elem_of_fmap in Hbd as (b & -> & _). done.
    + apply mark_last_own.
  - destruct (Z.eqb_spec m 0) as [->|Hm0].
    + rewrite Z.mul_0_r, Z.add_0_r. replace (i + S j)%nat with (S i + j)%nat by lia. apply IH; [lia|lia|done|done].
    + rewrite skipn_map. replace (i + S j)%nat with (S i + j)%nat by lia.
      apply IH; [rewrite zlen_drop; lia|lia|done|done].
Qed.

Lemma init_rings_none sizes i pBd bds j : sizes !! j = Some 0 -> init_rings sizes i pBd bds !! j = Some None.
Proof.
  revert i pBd bds j. induction sizes as [|n sizes IH]; intros i pBd bds [|j] Hj; [done..| |].
  - injection Hj as ->. done.
  - cbn [init_rings]. destruct (n =? 0); cbn; by apply IH.
Qed.

(** ** Properties of reception *)

(** C7: From a state of reception in which every buffer of a ring is in the ring or with the
    network stack and there is a socket buffer for each buffer in the rings (as
    [DoGlobInitReq] leaves it), a sequence of arriving frames, runs of the tasklet and
    packets freed by the stack runs without a fault: the list of socket buffers, which the
    tasklet reads without a test, is never empty when it is needed, every packet ends inside
    its buffer, every buffer that comes back finds a free descriptor in its ring (the message
    that there is no place never appears), and no buffer is lost or changes its ring.  The
    conditions ([run_ok]) are those outside of which the code does fail: when the tasklet
    runs, the packets that wait have 0 or 4 to 1528 bytes ([rx_packet_fits],
    [ptm_short_frame_faults]) and the cells that wait have a circuit type below 14 (for 14 and
    15 the table [ucCts] has no entry); and the stack frees a packet it holds as a whole, it
    does not release the data alone ([rx_detach_exhausts_list]). *)
Theorem rx_run_conserves st qs free es :
  rx_sys_inv st qs free -> run_ok es st ->
  exists st' qs' free', rx_run es st = Some st' /\ rx_sys_inv st' qs' free'
    /\ bufs_of qs' = bufs_of qs /\ Forall placed (outputs (r_glob st')).
Proof.
  intros Hi Hok. destruct (rx_run_inv es st qs free Hi Hok) as (st' & qs' & free' & E & H & B).
  exists st', qs', free'. split_and!; [done..|]. by destruct H as [[_ _ _ _ _ _ _ Ho] _].
Qed.


(** After an allocation failed, the loop cannot end. *)
Lemma alloc_loop_failed answers n j blocks bufs :
  n <> 0 -> alloc_loop answers n j true blocks bufs = AllocFault \/ alloc_loop answers n j true blocks bufs = AllocHangs.
Proof.
  intros Hn. revert j blocks. induction answers as [|p answers IH]; intros j blocks; cbn [alloc_loop];
    destruct (Z.eqb_spec n 0); try done; [by right|].
  destruct (p =? 0); [apply IH|by left].
Qed.

(** When memory for one of the blocks of buffers is refused, [DoGlobInitReq] never
    returns its error: the loop goes on asking, and as soon as memory is there again it
    writes to the descriptors it has freed. *)
Theorem init_refused_never_returns skb_size sizes skbmem bdmem good rest :
  0 < foldr Z.add 0 sizes <= 592 -> 37 * zlen good < foldr Z.add 0 sizes ->
  skbmem <> 0 -> bdmem <> 0 -> Forall valid_block good ->
  let r := DoGlobInitReq skb_size sizes (skbmem :: bdmem :: good ++ 0 :: rest) bcmxtmrt_init in
  r = InitFault \/ r = InitHangs.
Proof.
  intros Hn Hg Hskb Hbd Hv. set (n := foldr Z.add 0 sizes) in *.
  assert (En : ulBufsToAlloc sizes = n) by (unfold ulBufsToAlloc; fold n; apply u32_id; unfold is_u32; lia).
  assert (Ha : forall good n j blocks bufs, Forall valid_block good -> 37 * zlen good < n -> n <= 37 * (16 - Z.of_nat j) ->
    alloc_loop (good ++ 0 :: rest) n j false blocks bufs = AllocFault \/
    alloc_loop (good ++ 0 :: rest) n j false blocks bufs = AllocHangs).
  { clear. intros good n j blocks bufs Hv. revert n j blocks bufs.
    induction Hv as [|p good Hp Hv IH]; intros n j blocks bufs Hn Hj; cbn [app alloc_loop].
    - change (zlen (@nil Z)) with 0 in Hn. destruct (Z.eqb_spec n 0); [lia|]. rewrite Z.eqb_refl.
      by apply alloc_loop_failed.
    - rewrite zlen_cons in Hn. pose proof (zlen_nonneg good). destruct (Z.eqb_spec n 0); [lia|].
      destruct (Z.eqb_spec p 0) as [->|_]; [destruct Hp; lia|]. change ulBufsPerBlock with 37.
      destruct (Z.ltb_spec 37 n); [|lia]. destruct (Nat.ltb_spec j MAX_BUFMEM_BLOCKS) as [Hj'|Hj']; [|by left].
      apply IH; lia. }
  unfold DoGlobInitReq. rewrite En. cbn [bcmxtmrt_init ulDrvState g_rx zero_rx rx_skbs pFreeRxSkbList pBufMem].
  rewrite Z.eqb_refl. cbn [negb]. destruct (Z.eqb_spec skbmem 0); [done|].
  destruct (link_skbs _ ∅ 0) as [h first]. destruct (Z.eqb_spec bdmem 0); [done|]. cbn [pBufMem].
  destruct (Ha good n 0%nat (replicate MAX_BUFMEM_BLOCKS 0) [] Hv Hg ltac:(lia)) as [E|E]; rewrite E; [by left|by right].
Qed.

(** A second initialisation reports that there is no memory (the code for a refusal is
    overwritten) and frees the socket buffers that reception uses: the next packet is
    written through a dangling pointer. *)
Lemma second_init_frees_skbs skb_size sizes answers g mem hdev i data len :
  ulDrvState g <> XTMRT_UNINITIALIZED ->
  DoGlobInitReq skb_size sizes answers g = InitReturns (- ENOMEM) (drop_skbs g)
  /\ deliver mem hdev i data len (g_rx (drop_skbs g)) = None.
Proof.
  intros Hs. unfold DoGlobInitReq. destruct (Z.eqb_spec (ulDrvState g) XTMRT_UNINITIALIZED); [done|]. cbn [negb].
  split; [done|]. unfold deliver. destruct (devs _ !! hdev); [|done]. cbn [mbind option_bind].
  unfold pop_skb, drop_skbs. cbn [g_rx with_skbs rx_skbs]. by rewrite lookup_empty.
Qed.

(** ** The end of a received packet *)

(** A received packet is handed on exactly when it has at most 1528 bytes after the frame
    check sequence was taken off, eight less than the controller may write into the buffer:
    the structure that the kernel keeps behind its data lies inside the buffer then, and is
    written behind it otherwise. *)
Theorem rx_packet_fits mem d hdev i b len :
  valid_hdr d -> valid_buf b ->
  (exists s, rx_packet mem d hdev i (b + RXBUF_HEAD_RESERVE) len = Some s
     /\ rs_end s + SHINFO_SIZE <= b + RXBUF_ALLOC_SIZE) <-> rx_length d len <= RXBUF_SIZE - 8.
Proof.
  intros Hh (_ & _ & Hb). split.
  - intros (s & E & _). destruct (Z.le_gt_cases (rx_length d len) (RXBUF_SIZE - 8)); [done|].
    rewrite rx_packet_overruns in E by done. done.
  - intros Hl. destruct (rx_packet_some mem d hdev i b len Hh Hb Hl) as (s & E & _ & _ & _ & He). by exists s.
Qed.

(** A PTM frame of one to three bytes gets a length of more than 65000, and the end of the
    packet is far behind its buffer. *)
Lemma ptm_length_wraps d len :
  ulTrafficType (Addr d) = TRAFFIC_TYPE_PTM -> 0 < len < 4 -> rx_length d len = 65532 + len.
Proof.
  intros Ht Hl. unfold rx_length. rewrite Ht. change (TRAFFIC_TYPE_PTM =? TRAFFIC_TYPE_PTM) with true. cbn [andb].
  assert (E : u16 (len - 4) = 65532 + len) by (unfold u16; Z.to_euclidean_division_equations; lia).
  destruct (Z.eqb_spec len 0); [lia|]. cbn [negb]. rewrite E. unfold ETH_ZLEN. destruct (Z.ltb_spec (65532 + len) 60); lia.
Qed.

Lemma ptm_short_frame_faults mem d hdev i b len :
  ulTrafficType (Addr d) = TRAFFIC_TYPE_PTM -> 0 < len < 4 -> valid_buf b ->
  rx_packet mem d hdev i (b + RXBUF_HEAD_RESERVE) len = None.
Proof.
  intros Ht Hl (_ & _ & Hb). apply rx_packet_overruns; [done|]. rewrite ptm_length_wraps by done.
  change RXBUF_SIZE with 1536. lia.
Qed.

(** ** Addresses of cells *)

(** The channel in the header of a cell: the last four bits of the second byte, the third
    byte and the first four bits of the fourth. *)
Definition atm_vci (h1 h2 h3 : Z) : Z := (h1 mod 16) * 4096 + h2 * 16 + h3 / 16.

(** The driver sees only the low twelve bits of the channel. *)
Lemma cell_vci_cut mem a :
  (forall x, is_u8 (mem x)) -> cell_vci mem a = atm_vci (mem (a + 1)) (mem (a + 2)) (mem (a + 3)) mod 4096.
Proof.
  intros H. unfold cell_vci, atm_vci, u16.
  pose proof (H (a + 1)) as H1. pose proof (H (a + 2)) as H2. pose proof (H (a + 3)) as H3. unfold is_u8 in *.
  change 0x0f with (Z.ones 4). rewrite Z.land_ones, !Z.shiftl_mul_pow2, Z.shiftr_div_pow2 by lia.
  generalize dependent (mem (a + 1)). generalize dependent (mem (a + 2)). generalize dependent (mem (a + 3)).
  intros x Hx y Hy z Hz. Z.to_euclidean_division_equations. lia.
Qed.

(** So a cell of channel 0x1003 with an error, of an unknown type, is taken for a good cell
    of the F4 flow. *)
Lemma cell_error_lost mem a :
  (forall x, is_u8 (mem x)) -> atm_vci (mem (a + 2)) (mem (a + 3)) (mem (a + 4)) mod 4096 = 3 ->
  cell_header (mem a) (cell_vci mem (a + 1)) = XCT_OAM_F4_SEG
  /\ Z.land (cell_header (mem a) (cell_vci mem (a + 1))) CHDR_ERROR = 0.
Proof.
  intros H E. rewrite cell_vci_cut by done. rewrite <- !Z.add_assoc. change (1 + 1) with 2. change (1 + 2) with 3.
  change (1 + 3) with 4. rewrite E. done.
Qed.

(** ** A receiver with two rings *)

Definition demo_glob : xtm_glob :=
  match DoGlobInitReq 256 [2; 1; 0; 0] [0x80100000; 0x80200000; 0x80300000] bcmxtmrt_init with
  | InitReturns _ g => g
  | _ => bcmxtmrt_init
  end.

(** A device that the hardware removes the header for, at match id 5. *)
Definition demo_rx_dev : BCMXTMRT_DEV_CONTEXT :=
  mkDev (mkNetDev [] 0 false) zero_stats 0 0 (mkAddr TRAFFIC_TYPE_ATM 1 0 35) LINK_UP
    XTMRT_DEV_OPENED ADMSTS_UP HT_LLC_SNAP_ETHERNET CNI_HW_ADD_REMOVE_HEADER 1 0 [] [] 0.

Definition demo_rx : rx_glob :=
  let g := g_rx demo_glob in
  mkRx (RxBdInfos g) (rx_chs g) (rx_skbs g) (pFreeRxSkbList g) (<[5%nat := 0x77]> (pDevCtxsByMatchId g))
    {[0x77 := demo_rx_dev]} 0 0 0 0 0 [].

Definition demo_sys : rx_sys := mkRxSys demo_rx (replicate 4 0%nat).

Lemma demo_block_valid : Forall valid_block [0x80300000].
Proof. by repeat constructor. Qed.

Lemma demo_sys_inv : exists qs free, rx_sys_inv demo_sys qs free.
Proof.
  destruct (DoGlobInitReq_inv 256 [2; 1; 0; 0] 0x80100000 0x80200000 [0x80300000]) as (g & qs & free & bufs & E & _ & _ & _ & [Hi Hw] & _);
    [done|done|by repeat constructor|done|done|done|done|apply demo_block_valid|].
  exists qs, free. split; [|done]. cbn [demo_sys r_glob].
  assert (Eg : g_rx g = g_rx demo_glob) by (unfold demo_glob; by rewrite E).
  cbn [r_glob] in Hi. rewrite Eg in Hi. eapply inv_ext; [exact Hi|done|done|done|done| |constructor].
  destruct Hi as [_ _ _ _ _ _ [Hl Hf] _]. split; cbn [demo_rx pDevCtxsByMatchId devs].
  - by rewrite length_insert.
  - apply Forall_insert.
    + eapply (Forall_impl (fun h => h = 0)); [|by left]. vm_compute. repeat constructor.
    + right. exists demo_rx_dev. by rewrite lookup_singleton_eq.
Qed.

(** The conditions of a run, evaluated. *)
Definition frame_fineb (mem : Z -> Z) (bd : DmaDesc) : bool :=
  has (bd_status bd) DMA_OWN || (bd_address bd =? 0)
  || (if cell_status (bd_status bd)
      then let a := KSEG0ADDR (bd_address bd) in
           Z.land (cell_header (mem a) (cell_vci mem (a + 1))) CHDR_CT_MASK <? 14
      else (bd_length bd =? 0) || ((4 <=? bd_length bd) && (bd_length bd <=? 1528))).

Definition event_okb (e : rx_event) (g : rx_glob) : bool :=
  match e with
  | Arrive _ _ _ => true
  | Tasklet mem => forallb (fun o => match o with Some r => forallb (frame_fineb mem) (rx_bds r) | None => true end) (RxBdInfos g)
  | Free p => negb (p =? 0) && match rx_skbs g !! p with
                               | Some s => match retfreeq_context s with CtxRing _ => true | CtxSkb _ => false end
                               | None => false end
  | Detach _ => false
  end.

Fixpoint run_okb (es : list rx_event) (st : rx_sys) : bool :=
  match es with
  | [] => true
  | e :: es' => event_okb e (r_glob st) && match rx_step e st with Some st' => run_okb es' st' | None => true end
  end.

Lemma frame_fineb_ok mem bd :
  frame_fineb mem bd = true -> has (bd_status bd) DMA_OWN = false -> bd_address bd <> 0 ->
  frame_fine mem (bd_length bd) (bd_status bd) (KSEG0ADDR (bd_address bd)).
Proof.
  unfold frame_fineb, frame_fine. intros H Ho Ha. apply Z.eqb_neq in Ha. rewrite Ho, Ha in H. cbn [orb] in H.
  destruct (cell_status _).
  - by apply Z.ltb_lt in H.
  - unfold frame_room. apply orb_prop in H as [H|H]; [left|right]; zprop; lia.
Qed.

Lemma event_okb_ok e g : event_okb e g = true -> event_ok e g.
Proof.
  destruct e as [i len st|mem|p|p]; cbn [event_okb event_ok]; [done| | |done].
  - intros H i r bd Hr Hbd. rewrite forallb_forall in H. apply list_elem_of_lookup_2, list_elem_of_In, H in Hr.
    rewrite forallb_forall in Hr. by apply frame_fineb_ok, Hr, list_elem_of_In.
  - intros [H1 H2]%andb_prop. zprop. split; [done|]. destruct (rx_skbs g !! p) as [s|]; [|done].
    destruct (retfreeq_context s) as [|i] eqn:Ei; [done|]. by exists s, i.
Qed.

Lemma run_okb_ok es st : run_okb es st = true -> run_ok es st.
Proof.
  revert st. induction es as [|e es IH]; intros st; [done|]. cbn [run_okb run_ok]. intros [H1 H2]%andb_prop.
  split; [by apply event_okb_ok|]. intros st' E. rewrite E in H2. by apply IH.
Qed.

Lemma rx_run_conserves_witness :
  exists st qs free, rx_run [Arrive 0 100 5; Arrive 1 64 5; Tasklet (fun _ => 0); Free 0x80100200; Arrive 0 1528 5; Arrive 0 70 5; Tasklet (fun _ => 0)] demo_sys = Some st
    /\ rx_sys_inv st qs free /\ Forall placed (outputs (r_glob st)).
Proof.
  destruct demo_sys_inv as (qs & free & Hi).
  destruct (rx_run_conserves demo_sys qs free
    [Arrive 0 100 5; Arrive 1 64 5; Tasklet (fun _ => 0); Free 0x80100200; Arrive 0 1528 5; Arrive 0 70 5; Tasklet (fun _ => 0)] Hi) as
    (st & qs' & free' & E & H & _ & P).
  - apply run_okb_ok. vm_compute. reflexivity.
  - exists st, qs', free'. exact (conj E (conj H P)).
Defined.


Lemma init_refused_never_returns_witness :
  let r := DoGlobInitReq 256 [40; 0; 0; 0] [0x80100000; 0x80200000; 0x80300000; 0; 0x80400000] bcmxtmrt_init in
  r = InitFault \/ r = InitHangs.
Proof.
  apply (init_refused_never_returns 256 [40; 0; 0; 0] 0x80100000 0x80200000 [0x80300000] [0x80400000]);
    [done|done|done|done|apply demo_block_valid].
Defined.

Lemma rx_packet_fits_witness :
  (exists s, rx_packet (fun _ => 0) demo_rx_dev 0x77 0 (0x80300000 + RXBUF_HEAD_RESERVE) 1528 = Some s
     /\ rs_end s + SHINFO_SIZE <= 0x80300000 + RXBUF_ALLOC_SIZE) <-> rx_length demo_rx_dev 1528 <= RXBUF_SIZE - 8.
Proof.
  apply (rx_packet_fits (fun _ => 0) demo_rx_dev 0x77 0 0x80300000 1528).
  - by unfold valid_hdr.
  - by split.
Defined.

(** What the driver hands to the stack for these frames, and that freeing it works. *)
Lemma demo_delivery :
  match rx_run [Arrive 0 100 5; Arrive 1 64 5; Tasklet (fun _ => 0); Free 0x80100200; Arrive 0 70 5] demo_sys with
  | Some st => outputs (r_glob st) = [NetifRx 0x80100200; NetifRx 0x80100100] /\ pFreeRxSkbList (r_glob st) = 0x80100200
  | None => False
  end.
Proof. vm_compute. done. Qed.

(** If the network stack moves the data of a received packet to a new buffer and keeps the
    packet ([pskb_expand_head]), the old buffer goes back to the ring while the socket
    buffer stays out.  Three such packets and a fourth frame, on a driver with three
    buffers, make the tasklet take a socket buffer from the empty list: it reads through
    the null pointer. *)
Theorem rx_detach_exhausts_list :
  (exists st, rx_run [Arrive 0 100 5; Tasklet (fun _ => 0); Detach 0x80100200;
                      Arrive 0 100 5; Tasklet (fun _ => 0); Detach 0x80100100;
                      Arrive 0 100 5; Tasklet (fun _ => 0); Detach 0x80100000; Arrive 0 100 5] demo_sys = Some st)
  /\ rx_run [Arrive 0 100 5; Tasklet (fun _ => 0); Detach 0x80100200;
             Arrive 0 100 5; Tasklet (fun _ => 0); Detach 0x80100100;
             Arrive 0 100 5; Tasklet (fun _ => 0); Detach 0x80100000;
             Arrive 0 100 5; Tasklet (fun _ => 0)] demo_sys = None.
Proof. split; [eexists; vm_compute; reflexivity|vm_compute; reflexivity]. Qed.
