(* ===== verification/XtmCtl.v ===== *)
(** * ATM/PTM network driver: devices, links and requests

    The rest of [bcmxtmrt.c]: [bcmxtmrt_request] with its commands (devices, handlers of
    cells, link state, cells to send), the operations of a network device, and the timer.
    A handle is the address of a device context; the contexts are in [devs] of the part for
    reception, which looks them up by match id. *)

From stdpp Require Import gmap.
From S2P Require Import Prelude MacPool Ring XtmDefs XtmTx XtmRx XtmRxSpec XtmInit.

(** ** Updates *)

Definition with_rx (g : xtm_glob) (x : rx_glob) : xtm_glob :=
  mkXtm (ulDrvState g) (pRxSkbMem g) (pRxBdMem g) (pBufMem g) (controller_cfg g) x (pDevCtxs g) (timer_active g).

Definition put_dev (g : xtm_glob) (hdev : Z) (d : BCMXTMRT_DEV_CONTEXT) : xtm_glob :=
  with_rx g (with_devs (g_rx g) (<[hdev := d]> (devs (g_rx g)))).

Definition with_ctxs (g : xtm_glob) (l : list Z) : xtm_glob :=
  mkXtm (ulDrvState g) (pRxSkbMem g) (pRxBdMem g) (pBufMem g) (controller_cfg g) (g_rx g) l (timer_active g).

Definition with_state (g : xtm_glob) (s : Z) (t : bool) : xtm_glob :=
  mkXtm s (pRxSkbMem g) (pRxBdMem g) (pBufMem g) (controller_cfg g) (g_rx g) (pDevCtxs g) t.

Definition with_match (x : rx_glob) (l : list Z) : rx_glob :=
  mkRx (RxBdInfos x) (rx_chs x) (rx_skbs x) (pFreeRxSkbList x) l (devs x)
    (pfnOamHandler x) (pOamContext x) (pfnAsmHandler x) (pAsmContext x) (ulIntEnableMask x) (outputs x).

Definition with_chs (x : rx_glob) (chs : list DmaChannelCfg) : rx_glob :=
  mkRx (RxBdInfos x) chs (rx_skbs x) (pFreeRxSkbList x) (pDevCtxsByMatchId x) (devs x)
    (pfnOamHandler x) (pOamContext x) (pfnAsmHandler x) (pAsmContext x) (ulIntEnableMask x) (outputs x).

Definition with_handlers (x : rx_glob) (ofn oc afn ac : Z) : rx_glob :=
  mkRx (RxBdInfos x) (rx_chs x) (rx_skbs x) (pFreeRxSkbList x) (pDevCtxsByMatchId x) (devs x)
    ofn oc afn ac (ulIntEnableMask x) (outputs x).

Definition with_open (d : BCMXTMRT_DEV_CONTEXT) (n : net_device) (o : Z) : BCMXTMRT_DEV_CONTEXT :=
  mkDev n (DevStats d) (ulIfLastChange d) (ulIfSpeed d) (Addr d) (ulLinkState d) o
    (ulAdminStatus d) (ulHdrType d) (ulFlags d) (ucTxVcid d) (ulTxQInfosSize d) (TxQInfos d) (pTxPriorities d) (pTxQMem d).

Definition with_admin (d : BCMXTMRT_DEV_CONTEXT) (a : Z) : BCMXTMRT_DEV_CONTEXT :=
  mkDev (pDev d) (DevStats d) (ulIfLastChange d) (ulIfSpeed d) (Addr d) (ulLinkState d) (ulOpenState d)
    a (ulHdrType d) (ulFlags d) (ucTxVcid d) (ulTxQInfosSize d) (TxQInfos d) (pTxPriorities d) (pTxQMem d).

Definition with_rate (d : BCMXTMRT_DEV_CONTEXT) (change speed : Z) : BCMXTMRT_DEV_CONTEXT :=
  mkDev (pDev d) (DevStats d) change speed (Addr d) (ulLinkState d) (ulOpenState d)
    (ulAdminStatus d) (ulHdrType d) (ulFlags d) (ucTxVcid d) (ulTxQInfosSize d) (TxQInfos d) (pTxPriorities d) (pTxQMem d).

(** The transmit side of a device and its link. *)
Definition with_link (d : BCMXTMRT_DEV_CONTEXT) (link vcid size : Z) (qs : list TXQINFO)
    (prio : list (list (option nat))) : BCMXTMRT_DEV_CONTEXT :=
  mkDev (pDev d) (DevStats d) (ulIfLastChange d) (ulIfSpeed d) (Addr d) link (ulOpenState d)
    (ulAdminStatus d) (ulHdrType d) (ulFlags d) vcid size qs prio (pTxQMem d).

Definition with_txqmem (d : BCMXTMRT_DEV_CONTEXT) (p : Z) : BCMXTMRT_DEV_CONTEXT :=
  mkDev (pDev d) (DevStats d) (ulIfLastChange d) (ulIfSpeed d) (Addr d) (ulLinkState d) (ulOpenState d)
    (ulAdminStatus d) (ulHdrType d) (ulFlags d) (ucTxVcid d) (ulTxQInfosSize d) (TxQInfos d) (pTxPriorities d) p.

Definition set_queue_stopped (n : net_device) (b : bool) : net_device :=
  mkNetDev (nd_dev_addr n) (nd_flags n) b.

(** ** The operations of the network device *)

Definition bcmxtmrt_open (d : BCMXTMRT_DEV_CONTEXT) : Z * BCMXTMRT_DEV_CONTEXT :=
  let up := ulAdminStatus d =? ADMSTS_UP in
  (if up then 0 else - EIO,
   with_open d (set_queue_stopped (pDev d) false) (if up then XTMRT_DEV_OPENED else ulOpenState d)).

Definition bcmxtmrt_close (d : BCMXTMRT_DEV_CONTEXT) : BCMXTMRT_DEV_CONTEXT :=
  with_open d (set_queue_stopped (pDev d) true) XTMRT_DEV_CLOSED.

Definition bcmxtmrt_timeout (d : BCMXTMRT_DEV_CONTEXT) : BCMXTMRT_DEV_CONTEXT :=
  with_open d (set_queue_stopped (pDev d) false) (ulOpenState d).

(** [bcmxtmrt_query]: the counters of the hardware are added to the statistics; [tx_octets]
    by channel, [rx_octets] and [rx_pkts] by match id. *)
Definition count_match (hdev : Z) (rx_octets rx_pkts : nat -> Z) (i : nat) (h : Z) (s : net_device_stats)
    : net_device_stats :=
  if h =? hdev then
    mkStats (u32 (rx_packets s + rx_pkts i)) (tx_packets s) (u32 (rx_bytes s + rx_octets i)) (tx_bytes s)
      (rx_errors s) (tx_errors s) (tx_dropped s)
  else s.

Fixpoint query_loop (hdev : Z) (rx_octets rx_pkts : nat -> Z) (i : nat) (ids : list Z) (s : net_device_stats)
    : net_device_stats :=
  match ids with
  | [] => s
  | h :: ids' => query_loop hdev rx_octets rx_pkts (S i) ids' (count_match hdev rx_octets rx_pkts i h s)
  end.

Definition bcmxtmrt_query (tx_octets : Z -> Z) (rx_octets rx_pkts : nat -> Z) (hdev : Z) (g : xtm_glob)
    : option xtm_glob :=
  d ← devs (g_rx g) !! hdev;
  let s := DevStats d in
  let s :=
    if (ulTrafficType (Addr d) =? TRAFFIC_TYPE_ATM) && negb (ucTxVcid d =? INVALID_VCID)
    then mkStats (rx_packets s) (tx_packets s) (rx_bytes s) (u32 (tx_bytes s + tx_octets (ucTxVcid d)))
           (rx_errors s) (tx_errors s) (tx_dropped s)
    else s in
  Some (put_dev g hdev (with_stats d (query_loop hdev rx_octets rx_pkts 0 (pDevCtxsByMatchId (g_rx g)) s))).

(** ** The timer *)

Fixpoint timer_loop (ctxs : list Z) (g : xtm_glob) (k : kmem) : option (xtm_glob * kmem) :=
  match ctxs with
  | [] => Some (g, k)
  | hdev :: ctxs' =>
      if hdev =? 0 then timer_loop ctxs' g k
      else
        d ← devs (g_rx g) !! hdev;
        '(d, chs, k) ← bcmxtmrt_xmit None d (rx_chs (g_rx g)) k;
        timer_loop ctxs' (put_dev (with_rx g (with_chs (g_rx g) chs)) hdev d) k
  end.

Definition bcmxtmrt_timer (g : xtm_glob) (k : kmem) : option (xtm_glob * kmem) :=
  '(g, k) ← timer_loop (pDevCtxs g) g k;
  Some (with_state g (ulDrvState g) true, k).

(** ** Handlers of cells *)

Definition CELL_HDLR_OAM : Z := 1.
Definition CELL_HDLR_ASM : Z := 2.

Definition DoRegCellHdlrReq (type fn context : Z) (g : xtm_glob) : Z * xtm_glob :=
  let x := g_rx g in
  if type =? CELL_HDLR_OAM then
    if pfnOamHandler x =? 0
    then (0, with_rx g (with_handlers x fn context (pfnAsmHandler x) (pAsmContext x)))
    else (- EEXIST, g)
  else if type =? CELL_HDLR_ASM then
    if pfnAsmHandler x =? 0
    then (0, with_rx g (with_handlers x (pfnOamHandler x) (pOamContext x) fn context))
    else (- EEXIST, g)
  else (0, g).

Definition DoUnregCellHdlrReq (type fn : Z) (g : xtm_glob) : Z * xtm_glob :=
  let x := g_rx g in
  if type =? CELL_HDLR_OAM then
    if pfnOamHandler x =? fn
    then (0, with_rx g (with_handlers x 0 0 (pfnAsmHandler x) (pAsmContext x)))
    else (- EPERM, g)
  else if type =? CELL_HDLR_ASM then
    if pfnAsmHandler x =? fn
    then (0, with_rx g (with_handlers x (pfnOamHandler x) (pOamContext x) 0 0))
    else (- EPERM, g)
  else (0, g).

(** ** Devices *)

Definition IFF_BROADCAST : Z := 0x2.
Definition IFF_POINTOPOINT : Z := 0x10.
Definition IFF_NOARP : Z := 0x80.
Definition IFF_MULTICAST : Z := 0x1000.

(** The first free entry of [pDevCtxs]. *)
Fixpoint add_ctx (hdev : Z) (ctxs : list Z) : list Z :=
  match ctxs with
  | [] => []
  | h :: ctxs' => if h =? 0 then hdev :: ctxs' else h :: add_ctx hdev ctxs'
  end.

Definition default_mac : list Z := [0x02; 0x10; 0x18; 0x02; 0x00; 0x01].

(** The id under which the address is requested; a device that is not registered yet has
    [ifindex] 0. *)
Definition mac_id (ifindex : Z) : Z := Z.lor ifindex 0x10000000.

Definition device_mac (pool : option MAC_INFO) : option (list Z * option MAC_INFO) :=
  '(_, mac, pool) ← kerSysGetMacAddress pool (0xff :: replicate 5 0) (mac_id 0);
  Some (if Z.land (default 0 (mac !! 0%nat)) 1 =? 1 then default_mac else mac, pool).

Definition device_flags (hdrtype : Z) : Z :=
  if hdrtype =? HT_LLC_SNAP_ROUTE_IP then Z.lor (Z.lor IFF_POINTOPOINT IFF_NOARP) IFF_MULTICAST
  else if hdrtype =? HT_LLC_ENCAPS_PPP then Z.lor IFF_BROADCAST IFF_MULTICAST
  else 0.

Definition new_device (addr : XTM_ADDR) (hdrtype flags : Z) (mac : list Z) : BCMXTMRT_DEV_CONTEXT :=
  mkDev (mkNetDev mac (device_flags hdrtype) false) zero_stats 0 0 addr 0 0 ADMSTS_UP hdrtype flags
    INVALID_VCID 0 (replicate MAX_TRANSMIT_QUEUES zero_txq)
    (replicate MAX_PHY_PORTS (replicate MAX_SUB_PRIORITIES None)) 0.

(** What the driver gives back to the kernel's allocator: the block of a network device,
    and an address that [kfree] gets.  A context lies inside the block of its device. *)
Inductive release := FreeNetdev (hdev : Z) | Kfree (p : Z).

(** [hdev] is the private area of the device that [alloc_netdev] returned, or 0, and
    [registered] the result of [register_netdev]. *)
Definition DoCreateDeviceReq (hdev registered : Z) (addr : XTM_ADDR) (hdrtype flags : Z)
    (pool : option MAC_INFO) (g : xtm_glob) : option (Z * option MAC_INFO * xtm_glob * list release) :=
  if negb (ulDrvState g =? XTMRT_UNINITIALIZED) && negb (hdev =? 0) then
    '(mac, pool) ← device_mac pool;
    if registered =? 0 then
      Some (0, pool,
            with_ctxs (put_dev g hdev (new_device addr hdrtype flags mac)) (add_ctx hdev (pDevCtxs g)), [])
    else Some (registered, pool, g, [FreeNetdev hdev; Kfree hdev])
  else Some (- ENOMEM, pool, g, []).

Definition clear_match (hdev : Z) (ids : list Z) : list Z := map (fun h => if h =? hdev then 0 else h) ids.

Definition find_ctx (hdev : Z) (ctxs : list Z) : bool := existsb (Z.eqb hdev) ctxs.

Fixpoint remove_ctx (hdev : Z) (ctxs : list Z) : list Z :=
  match ctxs with
  | [] => []
  | h :: ctxs' => if h =? hdev then 0 :: ctxs' else h :: remove_ctx hdev ctxs'
  end.

Definition forget_dev (hdev : Z) (g : xtm_glob) : xtm_glob :=
  with_rx g (with_devs (g_rx g) (delete hdev (devs (g_rx g)))).

Definition DoDeleteDeviceReq (hdev : Z) (pool : option MAC_INFO) (g : xtm_glob)
    : option (Z * option MAC_INFO * xtm_glob * list release) :=
  '(nRet, pool, g, rel) ←
    (if find_ctx hdev (pDevCtxs g) then
       d ← devs (g_rx g) !! hdev;
       '(_, pool) ← kerSysReleaseMacAddress pool (nd_dev_addr (pDev d));
       Some (0, pool, forget_dev hdev (with_ctxs g (remove_ctx hdev (pDevCtxs g))),
             [FreeNetdev hdev; Kfree hdev])
     else Some (- EPERM, pool, g, []));
  Some (nRet, pool, with_rx g (with_match (g_rx g) (clear_match hdev (pDevCtxsByMatchId (g_rx g)))), rel).

(** ** Links *)

Record TXQ_ID := mkTxqId {
  tq_ulPortId : Z;
  tq_ulPtmPriority : Z;
  tq_ulSubPriority : Z;
  tq_ulQueueSize : Z;
  tq_ulQueueIndex : Z
}.

Record LINK_STATUS_CHANGE := mkLsc {
  l_ulLinkState : Z;
  l_ulLinkUsRate : Z;
  l_TransitQueueIds : list TXQ_ID;
  l_ucTxVcid : Z;
  l_ucRxVcids : list Z
}.

Definition PORTID_TO_PORT (id : Z) : Z :=
  if id =? 1 then 0 else if id =? 2 then 1 else if id =? 4 then 2 else if id =? 8 then 3
  else Z.of_nat MAX_PHY_PORTS.

(** The memory of the queues: the descriptors of a queue at an address, its pointers to
    socket buffers at the next multiple of sixteen behind them. *)
Definition sizeof_ptr : Z := 4.

Definition txq_size (ids : list TXQ_ID) : Z :=
  u32 (foldr Z.add 0 (map tq_ulQueueSize ids) * (sizeof_ptr + sizeof_DmaDesc) + zlen ids * 0x10).

Definition bds_end (p size : Z) : Z := p + sizeof_DmaDesc * size.
Definition skbs_at (p size : Z) : Z := align16 (bds_end p size).
Definition next_queue (p size : Z) : Z := skbs_at p size + sizeof_ptr * size.

Definition link_up_ids (vcids : list Z) (hdev : Z) (ids : list Z) : option (list Z) :=
  foldr (fun v acc => l ← acc; if Nat.ltb (Z.to_nat v) (length l) then Some (<[Z.to_nat v := hdev]> l) else None)
    (Some ids) (rev vcids).

Definition valid_txq (id : TXQ_ID) : bool :=
  (PORTID_TO_PORT (tq_ulPortId id) <? Z.of_nat MAX_PHY_PORTS)
  && (tq_ulSubPriority id <? Z.of_nat MAX_SUB_PRIORITIES).

(** The channel of a queue: its entry of the state RAM is cleared and gets the address of
    the descriptors. *)
Definition init_tx_chan (bds_at : Z) (c : DmaChannelCfg) : DmaChannelCfg :=
  mkChan 0 (Z.land (intStat c) (Z.lnot (Z.lor (Z.lor DMA_DONE DMA_NO_DESC) DMA_BUFF_DONE)))
    (intMask c) SAR_DMA_MAX_BURST_LENGTH (set_base zero_stram (VIRT_TO_PHY bds_at)).

(** The zeroed descriptors of a queue with the wrap flag on the last one. *)
Definition zeroed_bds (n : Z) : option (list DmaDesc) :=
  if 0 <? n then Some (mark_last (replicate (Z.to_nat n) (mkBd 0 0 0))) else None.

(** The loop over the queues: the queues of the device, the table of priorities and the
    channels with the state RAM; [p] is the memory that is left. *)
Fixpoint link_up_loop (ids : list TXQ_ID) (i : nat) (p : Z) (qs : list TXQINFO) (prio : list (list (option nat)))
    (chs : list DmaChannelCfg) : option (list TXQINFO * list (list (option nat)) * list DmaChannelCfg) :=
  match ids with
  | [] => Some (qs, prio, chs)
  | id :: ids' =>
      if Nat.ltb i (length qs) then
        if valid_txq id then
          let port := PORTID_TO_PORT (tq_ulPortId id) in
          let chan := SAR_TX_DMA_BASE_CHAN + tq_ulQueueIndex id in
          bds ← zeroed_bds (tq_ulQueueSize id);
          c ← chs !! Z.to_nat chan;
          let q := mkTxq port (tq_ulPtmPriority id) (tq_ulSubPriority id) (tq_ulQueueSize id)
                     (tq_ulQueueIndex id) (Some chan) (CACHE_TO_NONCACHE p) bds
                     (replicate (Z.to_nat (tq_ulQueueSize id)) None) (tq_ulQueueSize id) 0 0 in
          link_up_loop ids' (S i) (next_queue p (tq_ulQueueSize id)) (<[i := q]> qs)
            (alter (fun row => <[Z.to_nat (tq_ulSubPriority id) := Some i]> row) (Z.to_nat port) prio)
            (<[Z.to_nat chan := init_tx_chan (CACHE_TO_NONCACHE p) c]> chs)
        else link_up_loop ids' (S i) p qs prio chs
      else None
  end.

(** The receive channels are started when the first link comes up. *)
Fixpoint start_rx (rings : list (option RXBDINFO)) (i : nat) (x : rx_glob) : rx_glob :=
  match rings with
  | [] => x
  | Some _ :: rings' =>
      start_rx rings' (S i) (emit (IntEnable i) (with_chs x (alter (fun c => set_cfg c DMA_ENABLE) i (rx_chs x))))
  | None :: rings' => start_rx rings' (S i) x
  end.

(** [mem] is the answer of [kmalloc]. *)
Definition DoLinkUp (mem : Z) (hdev : Z) (lsc : LINK_STATUS_CHANGE) (g : xtm_glob) : option (Z * xtm_glob) :=
  d ← devs (g_rx g) !! hdev;
  let d := with_txqmem d mem in
  if mem =? 0 then Some (- ENOMEM, put_dev g hdev d)
  else
    ids ← link_up_ids (l_ucRxVcids lsc) hdev (pDevCtxsByMatchId (g_rx g));
    r ← link_up_loop (l_TransitQueueIds lsc) 0 (align16 mem) (TxQInfos d) (pTxPriorities d) (rx_chs (g_rx g));
    let '(qs, prio, chs) := r in
    let d := with_link d (l_ulLinkState lsc) (l_ucTxVcid lsc) (zlen (l_TransitQueueIds lsc)) qs prio in
    let g := put_dev (with_rx g (with_match (with_chs (g_rx g) chs) ids)) hdev d in
    if ulDrvState g =? XTMRT_INITIALIZED then
      let g := with_rx g (start_rx (RxBdInfos (g_rx g)) 0 (g_rx g)) in
      let g := if ulOpenState d =? XTMRT_DEV_OPENED
               then put_dev g hdev (with_open d (set_queue_stopped (pDev d) false) (ulOpenState d)) else g in
      Some (0, with_state g XTMRT_RUNNING true)
    else Some (0, g).

(** The transmit channels are halted, each through the pointer of its queue, and the address
    of the ring in the state RAM is cleared. *)
Fixpoint halt_loop (qs : list TXQINFO) (chs : list DmaChannelCfg) : option (list DmaChannelCfg) :=
  match qs with
  | [] => Some chs
  | q :: qs' =>
      c ← pDma q;
      r ← chs !! Z.to_nat c;
      let chs := <[Z.to_nat c := set_cfg r DMA_BURST_HALT]> chs in
      let i := Z.to_nat (SAR_TX_DMA_BASE_CHAN + ulDmaIndex q) in
      r ← chs !! i;
      halt_loop qs' (<[i := set_stram r (set_base (stram r) 0)]> chs)
  end.

Fixpoint any_link_up (ctxs : list Z) (ds : gmap Z BCMXTMRT_DEV_CONTEXT) : option bool :=
  match ctxs with
  | [] => Some false
  | h :: ctxs' =>
      if h =? 0 then any_link_up ctxs' ds
      else d ← ds !! h; if ulLinkState d =? LINK_UP then Some true else any_link_up ctxs' ds
  end.

Fixpoint stop_rx (rings : list (option RXBDINFO)) (i : nat) (x : rx_glob) : rx_glob :=
  match rings with
  | [] => x
  | Some _ :: rings' => stop_rx rings' (S i) (with_chs x (alter (fun c => set_cfg c 0) i (rx_chs x)))
  | None :: rings' => stop_rx rings' (S i) x
  end.

(** The memory of the queues is freed with the pointers to the packets in it; [pTxQMem] is
    left as it is. *)
Definition DoLinkDown (hdev : Z) (lsc : LINK_STATUS_CHANGE) (g : xtm_glob) (k : kmem)
    : option (Z * xtm_glob * kmem * list release) :=
  d ← devs (g_rx g) !! hdev;
  '(d, chs, k) ← bcmxtmrt_xmit None d (rx_chs (g_rx g)) k;
  chs ← halt_loop (take (Z.to_nat (ulTxQInfosSize d)) (TxQInfos d)) chs;
  let rel := [Kfree (pTxQMem d)] in
  let d := with_link d (l_ulLinkState lsc) INVALID_VCID 0 (replicate MAX_TRANSMIT_QUEUES zero_txq)
             (replicate MAX_PHY_PORTS (replicate MAX_SUB_PRIORITIES None)) in
  let d := with_open d (set_queue_stopped (pDev d) false) (ulOpenState d) in
  let x := with_match (with_chs (g_rx g) chs) (clear_match hdev (pDevCtxsByMatchId (g_rx g))) in
  let g := put_dev (with_rx g x) hdev d in
  up ← any_link_up (pDevCtxs g) (devs (g_rx g));
  if (up : bool) then Some (0, g, k, rel)
  else Some (0, with_state (with_rx g (stop_rx (RxBdInfos (g_rx g)) 0 (g_rx g))) XTMRT_INITIALIZED false, k, rel).

(** [now] is [(jiffies * 100) / HZ]. *)
Definition DoLinkStsChangedReq (now mem : Z) (hdev : Z) (lsc : LINK_STATUS_CHANGE) (g : xtm_glob) (k : kmem)
    : option (Z * xtm_glob * kmem * list release) :=
  if find_ctx hdev (pDevCtxs g) then
    '(nRet, g, k, rel) ← (if l_ulLinkState lsc =? LINK_UP
                          then '(nRet, g) ← DoLinkUp mem hdev lsc g; Some (nRet, g, k, [])
                          else DoLinkDown hdev lsc g k);
    d ← devs (g_rx g) !! hdev;
    Some (nRet, put_dev g hdev (with_rate d now (l_ulLinkUsRate lsc)), k, rel)
  else Some (- EPERM, g, k, []).

(** ** Sending a cell *)

(** The first priority with a queue on the port; the port mask of the cell is the index. *)
Definition cell_priority (d : BCMXTMRT_DEV_CONTEXT) (ulPort : Z) : option Z :=
  row ← pTxPriorities d !! Z.to_nat ulPort;
  Some (match list_find is_Some row with Some (i, _) => Z.of_nat i | None => 0 end).

Definition cell_protocol (ct : Z) : Z :=
  let p :=
    if ct =? CTYPE_OAM_F5_SEGMENT then Z.shiftl XCT_OAM_F5_SEG FSTAT_CT_SHIFT
    else if ct =? CTYPE_OAM_F5_END_TO_END then Z.shiftl XCT_OAM_F5_E2E FSTAT_CT_SHIFT
    else if ct =? CTYPE_OAM_F4_SEGMENT then Z.shiftl XCT_OAM_F4_SEG FSTAT_CT_SHIFT
    else if ct =? CTYPE_OAM_F4_END_TO_END then Z.shiftl XCT_OAM_F4_E2E FSTAT_CT_SHIFT
    else if ct =? CTYPE_ASM_P0 then Z.shiftl XCT_ASM_P0 FSTAT_CT_SHIFT
    else if ct =? CTYPE_ASM_P1 then Z.shiftl XCT_ASM_P1 FSTAT_CT_SHIFT
    else if ct =? CTYPE_ASM_P2 then Z.shiftl XCT_ASM_P2 FSTAT_CT_SHIFT
    else if ct =? CTYPE_ASM_P3 then Z.shiftl XCT_ASM_P3 FSTAT_CT_SHIFT
    else 0 in
  Z.lor p SKB_PROTO_ATM_CELL.

Definition cell_skb (p data prio : Z) (c : XTMRT_CELL) : sk_buff :=
  mkSkb p (data + 16) 16 (take (Z.to_nat CELL_PAYLOAD_SIZE) (ucData c))
    (SKB_DATA_ALIGN (CELL_PAYLOAD_SIZE + 16) - 16 - CELL_PAYLOAD_SIZE) prio (cell_protocol (ucCircuitType c)) 0.

Definition DoSendCellReq (hdev : Z) (c : XTMRT_CELL) (g : xtm_glob) (k : kmem) : option (Z * xtm_glob * kmem) :=
  d ← devs (g_rx g) !! hdev;
  if ulLinkState d =? LINK_UP then
    let '(a, k) := next_answer k in
    match a with
    | None => Some (- ENOMEM, g, k)
    | Some (p, data) =>
        prio ← cell_priority d (ulPortMask (ConnAddr c));
        '(d, chs, k) ← bcmxtmrt_xmit (Some (cell_skb p data prio c)) d (rx_chs (g_rx g)) k;
        Some (0, put_dev (with_rx g (with_chs (g_rx g) chs)) hdev d, k)
    end
  else Some (- EPERM, g, k).

(** ** Requests *)

Inductive xtm_request :=
| GlobalInitialization (skb_size : Z) (sizes answers : list Z)
| CreateDevice (hdev registered : Z) (addr : XTM_ADDR) (hdrtype flags : Z)
| GetDeviceState (hdev : Z)
| SetAdminStatus (hdev status : Z)
| RegisterCellHandler (type fn context : Z)
| UnregisterCellHandler (type fn : Z)
| LinkStatusChanged (now mem hdev : Z) (lsc : LINK_STATUS_CHANGE)
| SendCell (hdev : Z) (c : XTMRT_CELL)
| DeleteDevice (hdev : Z)
| OtherRequest.

(** The result is the return value, or the state of the device for [GetDeviceState]. *)
Definition bcmxtmrt_request (r : xtm_request) (pool : option MAC_INFO) (g : xtm_glob) (k : kmem)
    : option (Z * option MAC_INFO * xtm_glob * kmem * list release) :=
  match r with
  | GlobalInitialization skb_size sizes answers =>
      match DoGlobInitReq skb_size sizes answers g with
      | InitReturns nRet g => Some (nRet, pool, g, k, [])
      | _ => None
      end
  | CreateDevice hdev registered addr hdrtype flags =>
      '(nRet, pool, g, rel) ← DoCreateDeviceReq hdev registered addr hdrtype flags pool g;
      Some (nRet, pool, g, k, rel)
  | GetDeviceState hdev => d ← devs (g_rx g) !! hdev; Some (ulOpenState d, pool, g, k, [])
  | SetAdminStatus hdev status =>
      d ← devs (g_rx g) !! hdev; Some (0, pool, put_dev g hdev (with_admin d status), k, [])
  | RegisterCellHandler type fn context =>
      let '(nRet, g) := DoRegCellHdlrReq type fn context g in Some (nRet, pool, g, k, [])
  | UnregisterCellHandler type fn =>
      let '(nRet, g) := DoUnregCellHdlrReq type fn g in Some (nRet, pool, g, k, [])
  | LinkStatusChanged now mem hdev lsc =>
      '(nRet, g, k, rel) ← DoLinkStsChangedReq now mem hdev lsc g k; Some (nRet, pool, g, k, rel)
  | SendCell hdev c => '(nRet, g, k) ← DoSendCellReq hdev c g k; Some (nRet, pool, g, k, [])
  | DeleteDevice hdev => '(nRet, pool, g, rel) ← DoDeleteDeviceReq hdev pool g; Some (nRet, pool, g, k, rel)
  | OtherRequest => Some (- EINVAL, pool, g, k, [])
  end.
