(* ===== verification/XtmIoctl.v ===== *)
(** * ATM/PTM network driver: ioctl

    [bcmxtmrt_ioctl] and [bcmxtmrt_ethtool_ioctl] of [bcmxtmrt.c].  The memory of the
    caller is that of the board device; the two structures of the ethtool commands are
    local variables, whose contents before are an argument. *)

From stdpp Require Import gmap.
From S2P Require Import Prelude ScratchPad Nvram Ioctl IoctlSpec XtmDefs XtmCtl.

Definition EOPNOTSUPP : Z := 122.

Definition SIOCDEVPRIVATE : Z := 0x89F0.
Definition SIOCGLINKSTATE : Z := SIOCDEVPRIVATE + 1.
Definition SIOCSCLEARMIBCNTR : Z := SIOCGLINKSTATE + 1.
Definition SIOCMIBINFO : Z := SIOCSCLEARMIBCNTR + 1.
Definition SIOCETHTOOL : Z := 0x8946.
Definition LINKSTATE_DOWN : Z := 0.
Definition LINKSTATE_UP : Z := 1.
Definition ETHTOOL_GSET : Z := 1.
Definition ETHTOOL_GDRVINFO : Z := 3.

Definition CARDNAME : list Z := bytes_of_string "bcmxtmrt".
Definition VERSION : list Z := bytes_of_string "0.1".

(** The answer of a command: the bytes are copied; it fails where the memory of the caller
    ends before. *)
Definition put_answer (m : umem) (p : Z) (d : list Z) : Z * umem :=
  (match copy_from_user m p (zlen d) with Some _ => 0 | None => - EFAULT end, copy_to_user m p d).

(** [struct ethtool_drvinfo], of 196 bytes: [cmd], [driver] at 4 and [version] at 36, and
    [struct ethtool_cmd], of 44 bytes: [cmd], and [speed], of 16 bits, at 12. *)
Definition sizeof_drvinfo : Z := 196.
Definition sizeof_cmd : Z := 44.

(** [strncpy] fills with zeros. *)
Definition strncpy_pad (s : list Z) (n : Z) : list Z := s ++ replicate (Z.to_nat (n - zlen s)) 0.

Definition drvinfo (old : list Z) : list Z :=
  splice 36 (strncpy_pad VERSION 31) (splice 4 (strncpy_pad CARDNAME 31) (splice 0 (be32 ETHTOOL_GDRVINFO) old)).

Definition be16 (n : Z) : list Z := [u8 (Z.shiftr n 8); u8 n].

Definition ethtool_set (speed : Z) (old : list Z) : list Z :=
  splice 12 (be16 (u16 (speed / (1024 * 1024)))) (splice 0 (be32 ETHTOOL_GSET) old).

Definition bcmxtmrt_ethtool_ioctl (d : BCMXTMRT_DEV_CONTEXT) (info ecmd : list Z) (m : umem) (useraddr : Z)
    : Z * umem :=
  match copy_from_user m useraddr 4 with
  | Some b =>
      let ethcmd := u32 (be32_get b) in
      if ethcmd =? ETHTOOL_GDRVINFO then put_answer m useraddr (drvinfo info)
      else if ethcmd =? ETHTOOL_GSET then put_answer m useraddr (ethtool_set (ulIfSpeed d) ecmd)
      else (- EOPNOTSUPP, m)
  | None => (- EFAULT, m)
  end.

(** [data] is [Req->ifr_data]. *)
Definition bcmxtmrt_ioctl (d : BCMXTMRT_DEV_CONTEXT) (nCmd data : Z) (info ecmd : list Z) (m : umem)
    : Z * BCMXTMRT_DEV_CONTEXT * umem :=
  if nCmd =? SIOCGLINKSTATE then
    let '(r, m) := put_answer m data (be32 (if ulLinkState d =? LINK_UP then LINKSTATE_UP else LINKSTATE_DOWN)) in
    (r, d, m)
  else if nCmd =? SIOCSCLEARMIBCNTR then (0, with_stats d zero_stats, m)
  else if nCmd =? SIOCMIBINFO then
    let '(r, m) := put_answer m data (be32 (ulIfLastChange d) ++ be32 (ulIfSpeed d)) in (r, d, m)
  else if nCmd =? SIOCETHTOOL then
    let '(r, m) := bcmxtmrt_ethtool_ioctl d info ecmd m data in (r, d, m)
  else (- EOPNOTSUPP, d, m).

(** ** What the caller gets *)

Lemma put_answer_ok m p d : umapped m p (zlen d) ->
  fst (put_answer m p d) = 0 /\ ubytes (snd (put_answer m p d)) p d
  /\ forall q, q < p \/ p + zlen d <= q -> snd (put_answer m p d) !! q = m !! q.
Proof.
  intros Hm. unfold put_answer. destruct (copy_from_user_mapped m p (zlen d) Hm (zlen_nonneg d)) as [x ->]. cbn [fst snd].
  split_and!; [done|by apply copy_to_user_in|]. intros q Hq. by apply copy_to_user_out.
Qed.

Lemma put_answer_fault m p d : copy_from_user m p (zlen d) = None -> fst (put_answer m p d) = - EFAULT.
Proof. intros E. unfold put_answer. by rewrite E. Qed.

Lemma strncpy_zlen s n : zlen s <= n -> zlen (strncpy_pad s n) = n.
Proof. intros. unfold strncpy_pad. rewrite zlen_app, zlen_replicate. lia. Qed.

(** The caller gets the name and the version of the driver, and behind them the bytes that
    were on the stack: the last byte of either text and everything from [fw_version] on are
    never set. *)
Lemma drvinfo_contents old :
  zlen old = sizeof_drvinfo ->
  zlen (drvinfo old) = sizeof_drvinfo
  /\ slice 4 31 (drvinfo old) = strncpy_pad CARDNAME 31 /\ slice 36 31 (drvinfo old) = strncpy_pad VERSION 31
  /\ slice 35 1 (drvinfo old) = slice 35 1 old /\ slice 67 129 (drvinfo old) = slice 67 129 old.
Proof.
  unfold sizeof_drvinfo. intros Hz. unfold drvinfo.
  pose proof (strncpy_zlen CARDNAME 31 ltac:(done)) as L1. pose proof (strncpy_zlen VERSION 31 ltac:(done)) as L2.
  set (a := strncpy_pad CARDNAME 31) in *. set (b := strncpy_pad VERSION 31) in *.
  set (o1 := splice 0 (be32 ETHTOOL_GDRVINFO) old).
  assert (Z1 : zlen o1 = 196) by (unfold o1; rewrite zlen_splice; change (zlen (be32 _)) with 4; lia).
  assert (Z2 : zlen (splice 4 a o1) = 196) by (rewrite zlen_splice; lia).
  split_and!.
  - rewrite zlen_splice; lia.
  - rewrite slice_splice_before by lia. rewrite <- L1 at 1. apply slice_splice_eq; lia.
  - rewrite <- L2 at 1. apply slice_splice_eq; lia.
  - rewrite slice_splice_before by lia. rewrite slice_splice_after by lia. unfold o1.
    apply slice_splice_after; change (zlen (be32 _)) with 4; lia.
  - rewrite slice_splice_after by lia. rewrite slice_splice_after by lia. unfold o1.
    apply slice_splice_after; change (zlen (be32 _)) with 4; lia.
Qed.

Lemma ethtool_leaks_stack d info ecmd m p :
  ubytes m p (be32 ETHTOOL_GDRVINFO) -> umapped m p sizeof_drvinfo -> zlen info = sizeof_drvinfo ->
  exists m', bcmxtmrt_ethtool_ioctl d info ecmd m p = (0, m') /\ ubytes m' p (drvinfo info)
    /\ slice 67 129 (drvinfo info) = slice 67 129 info.
Proof.
  intros Hc Hm Hz. unfold bcmxtmrt_ethtool_ioctl.
  change 4 with (zlen (be32 ETHTOOL_GDRVINFO)). rewrite (copy_from_user_bytes m p _ Hc).
  change (u32 (be32_get (be32 ETHTOOL_GDRVINFO))) with ETHTOOL_GDRVINFO. rewrite Z.eqb_refl.
  destruct (drvinfo_contents info Hz) as (Z1 & _ & _ & _ & S). rewrite <- Z1 in Hm.
  destruct (put_answer_ok m p (drvinfo info) Hm) as (R & B & _). destruct (put_answer m p (drvinfo info)) as [r m'].
  cbn [fst snd] in *. subst r. by exists m'.
Qed.

(** The commands of the device on mapped memory of the caller: the state of the link,
    the cleared statistics, and the interface counters; every other private command is
    refused, and none of them changes the queues or the link. *)
Theorem bcmxtmrt_ioctl_spec d data info ecmd m :
  umapped m data 8 -> is_u32 (ulIfLastChange d) -> is_u32 (ulIfSpeed d) ->
  (exists m', bcmxtmrt_ioctl d SIOCGLINKSTATE data info ecmd m = (0, d, m')
     /\ ubytes m' data (be32 (if ulLinkState d =? LINK_UP then 1 else 0)))
  /\ bcmxtmrt_ioctl d SIOCSCLEARMIBCNTR data info ecmd m = (0, with_stats d zero_stats, m)
  /\ (exists m' b, bcmxtmrt_ioctl d SIOCMIBINFO data info ecmd m = (0, d, m')
     /\ copy_from_user m' data 8 = Some b
     /\ u32 (be32_get (take 4 b)) = ulIfLastChange d /\ u32 (be32_get (drop 4 b)) = ulIfSpeed d)
  /\ (forall c, SIOCMIBINFO < c -> bcmxtmrt_ioctl d c data info ecmd m = (- EOPNOTSUPP, d, m)).
Proof.
  intros Hm H1 H2. split_and!.
  - unfold bcmxtmrt_ioctl. rewrite Z.eqb_refl. set (b := be32 _).
    destruct (put_answer_ok m data b) as (R & B & _).
    { intros q Hq. apply Hm. change (zlen b) with 4 in Hq. lia. }
    destruct (put_answer m data b) as [r m']. cbn [fst snd] in *. subst r. by exists m'.
  - done.
  - unfold bcmxtmrt_ioctl. change (SIOCMIBINFO =? SIOCGLINKSTATE) with false.
    change (SIOCMIBINFO =? SIOCSCLEARMIBCNTR) with false. rewrite Z.eqb_refl. set (b := be32 _ ++ be32 _).
    destruct (put_answer_ok m data b Hm) as (R & B & _). destruct (put_answer m data b) as [r m']. cbn [fst snd] in *.
    subst r.
    exists m', b. split_and!; [done|by apply (copy_from_user_bytes m' data b)| |].
    + by apply be32_u32.
    + by apply be32_u32.
  - intros c Hc. unfold bcmxtmrt_ioctl.
    unfold SIOCMIBINFO, SIOCSCLEARMIBCNTR, SIOCGLINKSTATE, SIOCETHTOOL, SIOCDEVPRIVATE in *.
    repeat match goal with |- context [c =? ?v] => destruct (Z.eqb_spec c v); [lia|] end. done.
Qed.
