(* ===== verification/XtmLink.v ===== *)
(** * ATM/PTM network driver: links and devices

    What a change of the link does to a device: after link up its transmit queues are
    empty rings, after link down it is as new; the memory of the queues; the state of the
    driver over all requests; and the addresses of devices. *)

From stdpp Require Import gmap.
From S2P Require Import Prelude Nvram MacPool Ring XtmDefs XtmTx XtmTxSpec XtmRx XtmRxSpec XtmInit XtmCtl.

(** ** Link up *)

Definition good_txq (id : TXQ_ID) : Prop :=
  valid_txq id = true /\ 0 <= tq_ulSubPriority id /\ 0 < tq_ulQueueSize id < 2 ^ 32
  /\ 0 <= tq_ulQueueIndex id < 28.

(** The queue of an id with its memory at [p]: an empty ring. *)
Definition txq_of (p : Z) (id : TXQ_ID) : TXQINFO :=
  fresh_txq (PORTID_TO_PORT (tq_ulPortId id)) (tq_ulPtmPriority id) (tq_ulSubPriority id)
    (tq_ulQueueSize id) (tq_ulQueueIndex id) (SAR_TX_DMA_BASE_CHAN + tq_ulQueueIndex id) (CACHE_TO_NONCACHE p).

Fixpoint txqs_at (p : Z) (ids : list TXQ_ID) : list TXQINFO :=
  match ids with
  | [] => []
  | id :: ids' => txq_of p id :: txqs_at (next_queue p (tq_ulQueueSize id)) ids'
  end.

Lemma length_txqs_at p ids : length (txqs_at p ids) = length ids.
Proof. revert p. induction ids as [|id ids IH]; intros p; [done|]. cbn [txqs_at length]. by rewrite IH. Qed.

(** The controller finds the descriptors of the queue at their start: the state RAM of the
    channel has the address of the ring and is zero otherwise. *)
Definition ram_of (q : TXQINFO) : DmaStateRam := mkStRam (VIRT_TO_PHY (pBds_at q)) 0 0 0.

Definition chan_ready (chs : list DmaChannelCfg) (q : TXQINFO) : Prop :=
  exists c, pDma q = Some c /\ stram <$> chs !! Z.to_nat c = Some (ram_of q).

Lemma zeroed_fresh n : 0 < n -> zeroed_bds n = Some (fresh_bds (Z.to_nat n)).
Proof.
  intros Hn. unfold zeroed_bds. destruct (Z.ltb_spec 0 n); [|lia]. f_equal. unfold mark_last, fresh_bds.
  rewrite length_replicate. set (k := Z.to_nat n). assert (Hk : (0 < k)%nat) by lia.
  apply list_eq. intros i. destruct (decide (i = k - 1)%nat) as [->|Hne].
  - rewrite list_lookup_alter_eq, list_lookup_insert_eq by (rewrite length_replicate; lia).
    by rewrite lookup_replicate_2 by lia.
  - by rewrite list_lookup_alter_ne, list_lookup_insert_ne by done.
Qed.

(** Entries of the table of priorities are queues of the range. *)
Definition prio_in (a b : nat) (prio : list (list (option nat))) : Prop :=
  Forall (Forall (fun o => forall i, o = Some i -> (a <= i < b)%nat)) prio.

Lemma prio_in_empty a b : prio_in a b (replicate MAX_PHY_PORTS (replicate MAX_SUB_PRIORITIES None)).
Proof. apply Forall_replicate, Forall_replicate. done. Qed.

Lemma prio_in_set a b p s i prio :
  prio_in a b prio -> (a <= i < b)%nat -> prio_in a b (alter (fun row => <[s := Some i]> row) p prio).
Proof.
  intros H Hi. unfold prio_in in *. rewrite Forall_lookup in *. intros j row Hj.
  destruct (decide (j = p)) as [->|Hne].
  - rewrite list_lookup_alter_eq in Hj. destruct (prio !! p) as [r|] eqn:E; [|done]. injection Hj as <-.
    apply Forall_insert; [by eapply H|]. by intros ? [= <-].
  - rewrite list_lookup_alter_ne in Hj by done. by eapply H.
Qed.

Lemma prio_in_weaken a b a' b' prio :
  prio_in a b prio -> (a' <= a)%nat -> (b <= b')%nat -> prio_in a' b' prio.
Proof.
  intros H Ha Hb. eapply Forall_impl; [done|]. intros row Hr. eapply Forall_impl; [done|].
  intros o Ho i Hi. specialize (Ho i Hi). lia.
Qed.

Lemma priority_queue_in a b d port p i :
  prio_in a b (pTxPriorities d) -> priority_queue d port p = Some i -> (a <= i < b)%nat.
Proof.
  intros H E. unfold priority_queue in E. destruct (pTxPriorities d !! _) as [row|] eqn:Er; [|done].
  cbn [mbind option_bind] in E. destruct (row !! Z.to_nat p) as [o|] eqn:Eo; [|done]. cbn in E. subst o.
  unfold prio_in in H. rewrite Forall_lookup in H. specialize (H _ _ Er). rewrite Forall_lookup in H.
  by eapply H.
Qed.

(** The loop writes the queues of the ids behind each other and leaves the others; the
    channels of the ids, if they are different, are ready, and the others are left. *)
Lemma link_up_loop_ok ids n i p qs prio chs :
  Forall good_txq ids -> NoDup (map tq_ulQueueIndex ids) ->
  (i + length ids <= length qs)%nat -> (i + length ids <= n)%nat ->
  length chs = IUDMA_MAX_CHANNELS -> prio_in 0 n prio ->
  exists qs' prio' chs', link_up_loop ids i p qs prio chs = Some (qs', prio', chs')
    /\ qs' = take i qs ++ txqs_at p ids ++ drop (i + length ids) qs
    /\ prio_in 0 n prio' /\ length chs' = IUDMA_MAX_CHANNELS
    /\ Forall (chan_ready chs') (txqs_at p ids)
    /\ (forall x, 0 <= x -> x ∉ map tq_ulQueueIndex ids -> chs' !! Z.to_nat (4 + x) = chs !! Z.to_nat (4 + x)).
Proof.
  intros Hg. revert i p qs prio chs. induction Hg as [|id ids (Hv & Hs & Hz & Hx) Hg IH];
    intros i p qs prio chs Hnd Hl Hn Hc Hp; cbn [length map txqs_at link_up_loop] in *.
  - exists qs, prio, chs. split_and!; try done. cbn [app]. by rewrite Nat.add_0_r, take_drop.
  - destruct (Nat.ltb_spec i (length qs)); [|lia]. rewrite Hv, zeroed_fresh by lia. cbn [mbind option_bind].
    unfold SAR_TX_DMA_BASE_CHAN. destruct (lookup_lt_is_Some_2 chs (Z.to_nat (4 + tq_ulQueueIndex id))) as [c Ec].
    { rewrite Hc. unfold IUDMA_MAX_CHANNELS. lia. }
    rewrite Ec. cbn [mbind option_bind]. fold SAR_TX_DMA_BASE_CHAN.
    change (mkTxq _ _ _ _ _ _ _ (fresh_bds _) _ _ _ _) with (txq_of p id).
    apply NoDup_cons in Hnd as [Hni Hnd].
    edestruct (IH (S i) (next_queue p (tq_ulQueueSize id)) (<[i := txq_of p id]> qs)) as (qs' & prio' & chs' & E & -> & P & L & R & O).
    6: { rewrite E. eexists _, _, _. split_and!; try done.
         - rewrite (take_S_r _ i (txq_of p id)) by (apply list_lookup_insert_eq; lia).
           rewrite take_insert_ge, drop_insert_lt by lia. rewrite <- app_assoc. cbn [app]. do 4 f_equal. lia.
         - constructor; [|done]. exists (SAR_TX_DMA_BASE_CHAN + tq_ulQueueIndex id). split; [done|].
           unfold SAR_TX_DMA_BASE_CHAN. rewrite O by (done || lia).
           rewrite list_lookup_insert_eq; [done|]. by eapply lookup_lt_Some.
         - intros x Hx0 [Hne Hnx]%not_elem_of_cons. rewrite O by done. apply list_lookup_insert_ne.
           unfold SAR_TX_DMA_BASE_CHAN. lia. }
    + done.
    + rewrite length_insert. lia.
    + lia.
    + by rewrite length_insert.
    + apply prio_in_set; [done|]. lia.
Qed.

(** The match ids of the link lead to the device, the others are left. *)
Lemma link_up_ids_ok vs hdev l :
  Forall (fun v => 0 <= v < zlen l) vs ->
  exists l', link_up_ids vs hdev l = Some l' /\ length l' = length l
    /\ (forall v, v ∈ vs -> l' !! Z.to_nat v = Some hdev)
    /\ (forall j : nat, Z.of_nat j ∉ vs -> l' !! j = l !! j).
Proof.
  unfold link_up_ids. intros Hv. assert (Hr : Forall (fun v => 0 <= v < zlen l) (rev vs)) by by apply Forall_rev.
  assert (Hm : forall v, v ∈ rev vs <-> v ∈ vs) by (intros; rewrite !list_elem_of_In; symmetry; apply in_rev).
  setoid_rewrite <- Hm. clear Hv Hm. induction Hr as [|v r Hv Hr IH]; cbn [foldr].
  - exists l. split_and!; try done. intros v Hv. by apply not_elem_of_nil in Hv.
  - destruct IH as (l1 & -> & L & H1 & H2). cbn [mbind option_bind]. unfold zlen in Hv.
    destruct (Nat.ltb_spec (Z.to_nat v) (length l1)); [|lia]. eexists. split; [done|]. split_and!.
    + by rewrite length_insert.
    + intros w Hw. destruct (decide (Z.to_nat w = Z.to_nat v)) as [->|Hne]; [by apply list_lookup_insert_eq|].
      rewrite list_lookup_insert_ne by done. apply H1. apply elem_of_cons in Hw as [->|]; done.
    + intros j [Hj Hj']%not_elem_of_cons. rewrite list_lookup_insert_ne by lia. by apply H2.
Qed.

(** Reception is started on the channels; nothing else changes. *)
Definition same_but_chs (x y : rx_glob) : Prop :=
  length (rx_chs y) = length (rx_chs x) /\ devs y = devs x /\ pDevCtxsByMatchId y = pDevCtxsByMatchId x
  /\ RxBdInfos y = RxBdInfos x /\ rx_skbs y = rx_skbs x /\ pFreeRxSkbList y = pFreeRxSkbList x.

Lemma start_rx_same rings i x : same_but_chs x (start_rx rings i x).
Proof.
  revert i x. induction rings as [|[r|] rings IH]; intros i x; cbn [start_rx]; [done| |apply IH].
  destruct (IH (S i) (emit (IntEnable i) (with_chs x (alter (fun c => set_cfg c DMA_ENABLE) i (rx_chs x)))))
    as (H1 & H2 & H3 & H4 & H5 & H6).
  split_and!; [rewrite H1; cbn; by rewrite length_alter|by rewrite ?H2, ?H3, ?H4, ?H5, ?H6..].
Qed.

Lemma stram_alter v i chs : map stram (alter (fun c => set_cfg c v) i chs) = map stram chs.
Proof.
  apply list_eq. intros j. rewrite !list_lookup_fmap, list_lookup_alter. case_decide; [subst|done].
  by destruct (chs !! j).
Qed.

Lemma start_rx_stram rings i x : map stram (rx_chs (start_rx rings i x)) = map stram (rx_chs x).
Proof.
  revert i x. induction rings as [|[r|] rings IH]; intros i x; cbn [start_rx]; [done| |apply IH].
  rewrite IH. apply stram_alter.
Qed.

Lemma chan_ready_stram chs chs' q : map stram chs' = map stram chs -> chan_ready chs q -> chan_ready chs' q.
Proof.
  intros E (c & Hc & H). exists c. split; [done|]. rewrite <- H, <- !list_lookup_fmap.
  change (map stram chs' !! Z.to_nat c = map stram chs !! Z.to_nat c). by rewrite E.
Qed.

Lemma stop_rx_same rings i x : same_but_chs x (stop_rx rings i x).
Proof.
  revert i x. induction rings as [|[r|] rings IH]; intros i x; cbn [stop_rx]; [done| |apply IH].
  destruct (IH (S i) (with_chs x (alter (fun c => set_cfg c 0) i (rx_chs x)))) as (H1 & H2 & H3 & H4 & H5 & H6).
  split_and!; [rewrite H1; cbn; by rewrite length_alter|by rewrite ?H2, ?H3, ?H4, ?H5, ?H6..].
Qed.

Lemma stop_rx_stram rings i x : map stram (rx_chs (stop_rx rings i x)) = map stram (rx_chs x).
Proof.
  revert i x. induction rings as [|[r|] rings IH]; intros i x; cbn [stop_rx]; [done| |apply IH].
  rewrite IH. apply stram_alter.
Qed.

Lemma tx_dev_chs chs chs' d fs : length chs' = length chs -> tx_dev chs d fs -> tx_dev chs' d fs.
Proof.
  intros Hl [H1 H2 H3 H4 H5 H6]. split; try done. eapply Forall2_impl; [done|].
  intros q f [Hr (c & Hc & Hz)]. split; [done|]. exists c. split; [done|]. unfold zlen in *. by rewrite Hl.
Qed.

(** The empty rings of the ids. *)
Lemma fresh_queues_ok ids p chs :
  Forall good_txq ids -> length chs = IUDMA_MAX_CHANNELS ->
  Forall2 (queue_ok chs) (txqs_at p ids) (idle_fifos (length ids)).
Proof.
  intros Hg Hc. unfold idle_fifos. revert p. induction Hg as [|id ids (Hv & Hs & Hz & Hx) Hg IH]; intros p; [constructor|].
  cbn [txqs_at length replicate]. constructor; [|done]. split; [by apply fresh_ring|].
  exists (SAR_TX_DMA_BASE_CHAN + tq_ulQueueIndex id). split; [done|]. unfold zlen. rewrite Hc.
  unfold SAR_TX_DMA_BASE_CHAN, IUDMA_MAX_CHANNELS. lia.
Qed.

(** A device without queues. *)
Definition unlinked (d : BCMXTMRT_DEV_CONTEXT) : Prop :=
  TxQInfos d = replicate MAX_TRANSMIT_QUEUES zero_txq
  /\ pTxPriorities d = replicate MAX_PHY_PORTS (replicate MAX_SUB_PRIORITIES None).

Lemma linked_dev ids p chs d link vcid qs prio :
  unlinked d -> valid_hdr d -> is_u8 vcid -> Forall good_txq ids -> (length ids <= 16)%nat ->
  length chs = IUDMA_MAX_CHANNELS ->
  qs = take 0 (TxQInfos d) ++ txqs_at p ids ++ drop (0 + length ids) (TxQInfos d) ->
  prio_in 0 (length ids) prio ->
  tx_dev chs (with_link d link vcid (zlen ids) qs prio) (idle_fifos (length ids)).
Proof.
  intros [Hq Hp] Hh Hv Hg Hl Hc -> Hpr. split; cbn [with_link ucTxVcid ulTxQInfosSize TxQInfos]; try done.
  - unfold zlen, idle_fifos. by rewrite length_replicate.
  - rewrite take_0. cbn [app Nat.add]. unfold idle_fifos. rewrite length_replicate, length_app, length_txqs_at. lia.
  - unfold idle_fifos at 1. rewrite length_replicate, take_0. cbn [app].
    rewrite take_app_length' by (rewrite length_txqs_at; by unfold idle_fifos; rewrite ?length_replicate).
    by apply fresh_queues_ok.
  - intros p0 i E. unfold idle_fifos. rewrite length_replicate.
    eapply priority_queue_in in E; [|exact Hpr]. lia.
Qed.

(** The request of a link that can be brought up: at most sixteen queues with valid ports,
    priorities and sizes, each on a channel of its own. *)
Record good_lsc (g : xtm_glob) (lsc : LINK_STATUS_CHANGE) : Prop := {
  gl_vcid : is_u8 (l_ucTxVcid lsc);
  gl_ids : Forall good_txq (l_TransitQueueIds lsc);
  gl_chans : NoDup (map tq_ulQueueIndex (l_TransitQueueIds lsc));
  gl_max : (length (l_TransitQueueIds lsc) <= 16)%nat;
  gl_rx : Forall (fun v => 0 <= v < zlen (pDevCtxsByMatchId (g_rx g))) (l_ucRxVcids lsc)
}.

Lemma DoLinkUp_ok mem hdev lsc g d :
  devs (g_rx g) !! hdev = Some d -> mem <> 0 -> unlinked d -> valid_hdr d -> good_lsc g lsc ->
  length (rx_chs (g_rx g)) = IUDMA_MAX_CHANNELS ->
  exists g' d', DoLinkUp mem hdev lsc g = Some (0, g') /\ devs (g_rx g') !! hdev = Some d'
    /\ ulLinkState d' = l_ulLinkState lsc /\ same_hdr d d'
    /\ tx_dev (rx_chs (g_rx g')) d' (idle_fifos (length (l_TransitQueueIds lsc)))
    /\ take (length (l_TransitQueueIds lsc)) (TxQInfos d') = txqs_at (align16 mem) (l_TransitQueueIds lsc)
    /\ Forall (chan_ready (rx_chs (g_rx g'))) (txqs_at (align16 mem) (l_TransitQueueIds lsc))
    /\ pTxQMem d' = mem
    /\ (forall v, v ∈ l_ucRxVcids lsc -> pDevCtxsByMatchId (g_rx g') !! Z.to_nat v = Some hdev)
    /\ (forall h, h <> hdev -> devs (g_rx g') !! h = devs (g_rx g) !! h)
    /\ ulDrvState g' = (if ulDrvState g =? XTMRT_INITIALIZED then XTMRT_RUNNING else ulDrvState g).
Proof.
  intros Hd Hm Hu Hh [Hv Hg Hnd Hl Hr] Hc. unfold DoLinkUp. rewrite Hd. cbn [mbind option_bind].
  destruct (Z.eqb_spec mem 0); [done|].
  destruct (link_up_ids_ok (l_ucRxVcids lsc) hdev _ Hr) as (ids & -> & Li & Hi & _). cbn [mbind option_bind].
  pose proof Hu as [Hq Hp]. cbn [with_txqmem TxQInfos pTxPriorities].
  destruct (link_up_loop_ok (l_TransitQueueIds lsc) (length (l_TransitQueueIds lsc)) 0 (align16 mem) (TxQInfos d)
              (pTxPriorities d) (rx_chs (g_rx g))) as (qs & prio & chs & -> & Eq & Pp & Lc & Rc & _); try done.
  { rewrite Hq, length_replicate. unfold MAX_TRANSMIT_QUEUES. lia. }
  { rewrite Hp. apply prio_in_empty. }
  cbn [mbind option_bind]. set (d1 := with_link (with_txqmem d mem) _ _ _ _ _).
  assert (T1 : tx_dev chs d1 (idle_fifos (length (l_TransitQueueIds lsc)))) by by apply (linked_dev _ (align16 mem)).
  assert (Q1 : take (length (l_TransitQueueIds lsc)) qs = txqs_at (align16 mem) (l_TransitQueueIds lsc))
    by (rewrite Eq, take_0; cbn [app]; apply take_app_length'; by rewrite length_txqs_at).
  cbn [put_dev with_rx ulDrvState]. destruct (ulDrvState g =? XTMRT_INITIALIZED) eqn:Es.
  2: { eexists _, d1. split; [done|].
       cbn [put_dev with_rx with_match with_chs with_devs devs g_rx rx_chs pDevCtxsByMatchId ulDrvState].
       rewrite lookup_insert_eq. split_and!; try done. intros h Hne. by rewrite lookup_insert_ne. }
  match goal with |- context [start_rx ?r ?i ?x] => destruct (start_rx_same r i x) as (S1 & S2 & S3 & _) end.
  match goal with |- context [start_rx ?r ?i ?x] => pose proof (start_rx_stram r i x) as S4 end.
  cbn [put_dev with_rx with_match with_chs with_devs devs g_rx rx_chs pDevCtxsByMatchId] in S1, S2, S3, S4.
  set (x := start_rx _ _ _) in *.
  assert (R1 : Forall (chan_ready (rx_chs x)) (txqs_at (align16 mem) (l_TransitQueueIds lsc)))
    by (eapply Forall_impl; [exact Rc|intros q; by apply chan_ready_stram]).
  destruct (ulOpenState d1 =? XTMRT_DEV_OPENED).
  - eexists _, (with_open d1 _ _). split; [done|].
    cbn [with_state put_dev with_rx with_devs devs g_rx rx_chs pDevCtxsByMatchId ulDrvState].
    rewrite lookup_insert_eq. split_and!; try done.
    + eapply tx_dev_chs; [exact S1|]. destruct T1 as [A1 A2 A3 A4 A5 A6]. by split.
    + intros v Hvv. rewrite S3. by apply Hi.
    + intros h Hne. rewrite lookup_insert_ne, S2, lookup_insert_ne by done. done.
  - eexists _, d1. split; [done|]. cbn [with_state with_rx devs g_rx rx_chs pDevCtxsByMatchId ulDrvState].
    rewrite S2, lookup_insert_eq. split_and!; try done.
    + by eapply tx_dev_chs.
    + intros v Hvv. rewrite S3. by apply Hi.
    + intros h Hne. by rewrite lookup_insert_ne.
Qed.

(** ** Link down *)

(** The pointer to the channel of a queue is that of its index. *)
Definition own_chan (q : TXQINFO) : Prop := pDma q = Some (SAR_TX_DMA_BASE_CHAN + ulDmaIndex q).

Definition own_chans (d : BCMXTMRT_DEV_CONTEXT) : Prop :=
  Forall own_chan (take (Z.to_nat (ulTxQInfosSize d)) (TxQInfos d)).

Definition no_ring (chs : list DmaChannelCfg) (c : Z) : Prop :=
  exists r, chs !! Z.to_nat c = Some r /\ baseDescPtr (stram r) = 0.

(** Halting a channel: no ring is taken away from another one that has none. *)
Definition halted (r : DmaChannelCfg) : DmaChannelCfg :=
  set_stram (set_cfg r DMA_BURST_HALT) (set_base (stram r) 0).

Lemma no_ring_stram chs chs' c : map stram chs' = map stram chs -> no_ring chs c -> no_ring chs' c.
Proof.
  intros E (r & Hr & Hb). apply (f_equal (fun l => l !! Z.to_nat c)) in E. rewrite !list_lookup_fmap, Hr in E.
  destruct (chs' !! Z.to_nat c) as [r'|] eqn:Er; [|done]. injection E as E. exists r'. by rewrite E.
Qed.

Lemma halt_step q qs chs c r :
  own_chan q -> pDma q = Some c -> chs !! Z.to_nat c = Some r ->
  halt_loop (q :: qs) chs = halt_loop qs (<[Z.to_nat c := halted r]> chs).
Proof.
  intros Ho Hc Hr. cbn [halt_loop]. rewrite Hc. cbn [mbind option_bind]. rewrite Hr. cbn [mbind option_bind].
  assert (SAR_TX_DMA_BASE_CHAN + ulDmaIndex q = c) as -> by (unfold own_chan in Ho; congruence).
  rewrite list_lookup_insert_eq by by eapply lookup_lt_Some. cbn [mbind option_bind]. by rewrite list_insert_insert_eq.
Qed.

Lemma halt_loop_ok qs fs chs0 chs :
  Forall2 (queue_ok chs0) qs fs -> Forall own_chan qs -> length chs = length chs0 ->
  exists chs', halt_loop qs chs = Some chs' /\ length chs' = length chs
    /\ Forall (fun q => exists c, pDma q = Some c /\ no_ring chs' c) qs
    /\ forall c, no_ring chs c -> no_ring chs' c.
Proof.
  intros H. revert chs. induction H as [|q f qs fs [_ (c & Hc & Hz)] _ IH]; intros chs Ho Hl; [by exists chs|].
  inversion_clear Ho as [|? ? Hq Ho']. unfold zlen in Hz.
  destruct (lookup_lt_is_Some_2 chs (Z.to_nat c)) as [r Er]; [lia|].
  rewrite (halt_step q qs chs c r Hq Hc Er).
  destruct (IH (<[Z.to_nat c := halted r]> chs)) as (chs' & E & L & N & O); [done|by rewrite length_insert|].
  assert (Hn : no_ring (<[Z.to_nat c := halted r]> chs) c)
    by (exists (halted r); rewrite list_lookup_insert_eq by lia; done).
  exists chs'. rewrite E, L, length_insert. split_and!; [done..| |].
  - constructor; [|done]. exists c. auto.
  - intros x (rx & Hx & Hb). apply O. destruct (decide (Z.to_nat x = Z.to_nat c)) as [Ex|Ex].
    + exists (halted r). rewrite Ex, list_lookup_insert_eq by lia. done.
    + exists rx. by rewrite list_lookup_insert_ne.
Qed.

(** Freeing what was sent keeps the channels of the queues. *)
Definition chan_of (q : TXQINFO) : option Z * Z := (pDma q, ulDmaIndex q).

Lemma free_loop_chan n q k q' k' : free_loop n q k = Some (q', k') -> chan_of q' = chan_of q.
Proof.
  revert q k. induction n as [|n IH]; intros q k E; cbn [free_loop] in E; [by injection E as <- _|].
  destruct (pBds q !! _) as [bd|]; [|done]. cbn [mbind option_bind] in E. destruct (has _ _); [by injection E as <- _|].
  destruct (mjoin _) as [s|]; [|done]. cbn [mbind option_bind] in E. by apply IH in E.
Qed.

Lemma free_queues_chan qs k qs' k' : free_queues qs k = Some (qs', k') -> map chan_of qs' = map chan_of qs.
Proof.
  revert k qs' k'. induction qs as [|q qs IH]; intros k qs' k' E; cbn [free_queues] in E; [by injection E as <- _|].
  unfold free_queue in E. destruct (free_loop _ q k) as [[q1 k1]|] eqn:E1; [|done]. cbn [mbind option_bind] in E.
  destruct (free_queues qs k1) as [[qs1 k2]|] eqn:E2; [|done]. cbn [mbind option_bind] in E. injection E as <- _.
  cbn [map]. by rewrite (free_loop_chan _ _ _ _ _ E1), (IH _ _ _ E2).
Qed.

Lemma free_transmitted_chan d k d' k' :
  free_transmitted d k = Some (d', k') -> own_chans d -> own_chans d' /\ pTxQMem d' = pTxQMem d
    /\ map pDma (take (Z.to_nat (ulTxQInfosSize d)) (TxQInfos d'))
       = map pDma (take (Z.to_nat (ulTxQInfosSize d)) (TxQInfos d)).
Proof.
  unfold free_transmitted. destruct (_ <=? _); [|done].
  destruct (free_queues _ k) as [[qs k1]|] eqn:E; [|done]. cbn [mbind option_bind]. intros [= <- _] Ho.
  apply free_queues_chan in E. unfold own_chans in *. cbn [with_queues ulTxQInfosSize TxQInfos pTxQMem].
  set (n := Z.to_nat (ulTxQInfosSize d)) in *. pose proof (f_equal length E) as L. rewrite !length_map, length_take in L.
  assert (Et : map chan_of (take n (qs ++ drop n (TxQInfos d))) = map chan_of (take n (TxQInfos d))).
  { destruct (Nat.le_gt_cases n (length (TxQInfos d))).
    - rewrite take_app_length' by lia. done.
    - rewrite (drop_ge (TxQInfos d)), app_nil_r by lia. rewrite (take_ge qs) by lia. done. }
  split_and!; [|done|].
  - unfold own_chan in *. apply Forall_lookup. intros i q Hi. apply (f_equal (fun l => l !! i)) in Et.
    rewrite !list_lookup_fmap, Hi in Et. destruct (take n (TxQInfos d) !! i) as [q0|] eqn:E0; [|done].
    cbn in Et. unfold chan_of in Et. rewrite Forall_lookup in Ho. specialize (Ho i q0 E0).
    injection Et as E1 E2. by rewrite E1, E2.
  - apply (f_equal (map fst)) in Et. by rewrite !map_map in Et.
Qed.

(** Every context in the table is the context of a device. *)
Definition ctxs_ok (g : xtm_glob) : Prop := Forall (fun h => h = 0 \/ is_Some (devs (g_rx g) !! h)) (pDevCtxs g).

Definition link_is_up (ds : gmap Z BCMXTMRT_DEV_CONTEXT) (h : Z) : bool :=
  match ds !! h with Some d => negb (h =? 0) && (ulLinkState d =? LINK_UP) | None => false end.

Lemma any_link_up_ok ctxs ds :
  Forall (fun h => h = 0 \/ is_Some (ds !! h)) ctxs -> any_link_up ctxs ds = Some (existsb (link_is_up ds) ctxs).
Proof.
  induction 1 as [|h ctxs Hh _ IH]; cbn [any_link_up existsb]; [done|]. unfold link_is_up at 1.
  destruct (Z.eqb_spec h 0) as [->|Hne].
  - rewrite IH. by destruct (ds !! 0).
  - destruct Hh as [?|[d Ed]]; [done|]. rewrite Ed. cbn [mbind option_bind negb andb].
    by destruct (ulLinkState d =? LINK_UP).
Qed.

Lemma clear_match_none hdev ids : hdev <> 0 -> hdev ∉ clear_match hdev ids.
Proof.
  intros Hn Hin. apply list_elem_of_fmap in Hin as (h & E & _). destruct (Z.eqb_spec h hdev); congruence.
Qed.

Definition pending (fs : list fifo) : list sk_buff := concat (map f_pend fs).

Lemma held_pending fs : held (map cleared fs) = map skb_ptr (pending fs).
Proof.
  unfold held, pending. induction fs as [|f fs IH]; [done|]. cbn [map concat cleared f_done f_pend app].
  by rewrite IH, map_app.
Qed.

Lemma DoLinkDown_ok hdev lsc g d fs k :
  devs (g_rx g) !! hdev = Some d -> hdev <> 0 -> tx_dev (rx_chs (g_rx g)) d fs -> own_chans d -> ctxs_ok g ->
  exists g' d', DoLinkDown hdev lsc g k = Some (0, g', free_all (concat (map f_done fs)) k, [Kfree (pTxQMem d)])
    /\ pTxQMem d' = pTxQMem d /\ ucTxVcid d' = INVALID_VCID /\ pDevCtxs g' = pDevCtxs g
    /\ Forall (fun o => exists c, o = Some c /\ no_ring (rx_chs (g_rx g')) c)
         (map pDma (take (Z.to_nat (ulTxQInfosSize d)) (TxQInfos d)))
    /\ devs (g_rx g') = <[hdev := d']> (devs (g_rx g)) /\ unlinked d' /\ ulTxQInfosSize d' = 0
    /\ ulLinkState d' = l_ulLinkState lsc /\ same_hdr d d'
    /\ (hdev ∉ pDevCtxsByMatchId (g_rx g')) /\ length (rx_chs (g_rx g')) = length (rx_chs (g_rx g))
    /\ ulDrvState g' = (if existsb (link_is_up (devs (g_rx g'))) (pDevCtxs g) then ulDrvState g else XTMRT_INITIALIZED).
Proof.
  intros Hd Hn Ht Hown Hc. unfold DoLinkDown. rewrite Hd. cbn [mbind option_bind].
  destruct (free_transmitted_fifo _ d fs k Ht) as (d1 & E1 & T1 & qs & -> & _).
  destruct (free_transmitted_chan _ _ _ _ E1 Hown) as (Hown1 & Em & Ed). rewrite <- Ed.
  unfold bcmxtmrt_xmit at 1. rewrite E1. cbn [mbind option_bind].
  pose proof (td_size _ _ _ T1) as Hz. pose proof (td_rings _ _ _ T1) as Hr.
  assert (En : Z.to_nat (ulTxQInfosSize (with_queues d qs)) = length (map cleared fs)) by (rewrite Hz; unfold zlen; lia).
  rewrite <- En in Hr. destruct (halt_loop_ok _ _ _ _ Hr Hown1 eq_refl) as (chs & -> & Lc & Nc & _). cbn [mbind option_bind].
  assert (Nd : Forall (fun o => exists c, o = Some c /\ no_ring chs c)
                 (map pDma (take (Z.to_nat (ulTxQInfosSize d)) (TxQInfos (with_queues d qs))))) by by apply Forall_map.
  cbn [with_queues ulTxQInfosSize pTxQMem] in *.
  set (d2 := with_open _ _ _).
  cbn [put_dev with_rx with_devs g_rx pDevCtxs devs with_match with_chs].
  rewrite any_link_up_ok. 2: { eapply Forall_impl; [exact Hc|]. intros h [->|Hs]; [by left|]. right.
    destruct (decide (h = hdev)) as [->|]; [by rewrite lookup_insert_eq|by rewrite lookup_insert_ne]. }
  cbn [mbind option_bind]. destruct (existsb _ (pDevCtxs g)) eqn:Eu.
  - eexists _, d2. split; [done|].
    cbn [put_dev with_rx with_devs g_rx devs with_match with_chs pDevCtxsByMatchId rx_chs ulDrvState].
    rewrite Eu. split_and!; try done. by apply clear_match_none.
  - eexists _, d2. split; [done|]. cbn [with_state with_rx g_rx ulDrvState].
    match goal with |- context [stop_rx ?r ?i ?x] => destruct (stop_rx_same r i x) as (S1 & S2 & S3 & _) end.
    match goal with |- context [stop_rx ?r ?i ?x] => pose proof (stop_rx_stram r i x) as S4 end.
    rewrite S1, S2, S3. cbn [devs with_match with_chs with_devs pDevCtxsByMatchId rx_chs] in S4 |- *. rewrite Eu.
    split_and!; try done; [|by apply clear_match_none]. eapply Forall_impl; [exact Nd|]. intros o (c & Eo & Hnr).
    exists c. split; [done|]. by eapply no_ring_stram.
Qed.

(** ** The memory of the queues *)

Record region := mkRegion { r_start : Z; r_size : Z }.

Definition r_end (r : region) : Z := r_start r + r_size r.

(** The descriptors and the pointers of each queue, in the order of their addresses. *)
Fixpoint layout (p : Z) (ids : list TXQ_ID) : list region :=
  match ids with
  | [] => []
  | id :: ids' =>
      let n := tq_ulQueueSize id in
      if valid_txq id
      then mkRegion p (sizeof_DmaDesc * n) :: mkRegion (skbs_at p n) (sizeof_ptr * n) :: layout (next_queue p n) ids'
      else layout p ids'
  end.

Definition queue_bytes (ids : list TXQ_ID) : Z := foldr Z.add 0 (map tq_ulQueueSize ids) * (sizeof_ptr + sizeof_DmaDesc).

(** From a multiple of four on, a queue uses at most twelve bytes more than it needs. *)
Lemma next_queue_le p n :
  0 <= p -> 0 <= n -> p mod 4 = 0 ->
  bds_end p n <= skbs_at p n /\ next_queue p n <= p + 12 * n + 12 /\ next_queue p n mod 4 = 0.
Proof.
  intros Hp Hn Hm. unfold next_queue, skbs_at, bds_end, sizeof_DmaDesc, sizeof_ptr.
  pose proof (align16_ge (p + 8 * n) ltac:(lia)). pose proof (align16_mod (p + 8 * n)).
  set (a := align16 (p + 8 * n)) in *. clearbody a. Z.to_euclidean_division_equations; lia.
Qed.

Definition sizes_ok (ids : list TXQ_ID) : Prop := Forall (fun id => 0 <= tq_ulQueueSize id) ids.

(** Regions one behind the other between two addresses. *)
Fixpoint chain (lo hi : Z) (rs : list region) : Prop :=
  match rs with
  | [] => lo <= hi
  | r :: rs' => lo <= r_start r /\ 0 <= r_size r /\ chain (r_end r) hi rs'
  end.

Lemma chain_weaken lo hi hi' rs : chain lo hi rs -> hi <= hi' -> chain lo hi' rs.
Proof. revert lo. induction rs as [|r rs IH]; cbn [chain]; intros lo H Hh; [lia|]. destruct H as (H1 & H2 & H3). auto. Qed.

Lemma chain_lower lo lo' hi rs : chain lo hi rs -> lo' <= lo -> chain lo' hi rs.
Proof. destruct rs as [|r rs]; cbn [chain]; [lia|]. intros (H1 & H2) Hl. split; [lia|done]. Qed.

Lemma queue_bytes_cons id ids : queue_bytes (id :: ids) = 12 * tq_ulQueueSize id + queue_bytes ids.
Proof. unfold queue_bytes, sizeof_ptr, sizeof_DmaDesc. cbn [map foldr]. lia. Qed.

Lemma layout_chain ids p :
  sizes_ok ids -> 0 <= p -> p mod 4 = 0 -> chain p (p + queue_bytes ids + 12 * zlen ids) (layout p ids).
Proof.
  intros Hs. revert p. induction Hs as [|id ids Hn Hs IH]; intros p Hp Hm; cbn [layout chain].
  { unfold queue_bytes, sizeof_ptr. cbn [map foldr]. change (zlen (@nil TXQ_ID)) with 0. lia. }
  rewrite queue_bytes_cons, zlen_cons. destruct (next_queue_le p _ Hp Hn Hm) as (H1 & H2 & H3).
  pose proof (zlen_nonneg ids). destruct (valid_txq id).
  - cbn [chain r_start r_size r_end]. unfold bds_end, sizeof_DmaDesc, sizeof_ptr in *. split_and!; [lia..| | |].
    + exact H1.
    + lia.
    + eapply chain_weaken; [apply IH|]; [|done|lia]. unfold next_queue, skbs_at, bds_end, sizeof_ptr, sizeof_DmaDesc in *.
      lia.
  - eapply chain_weaken; [by apply IH|]. lia.
Qed.

(** The first queue starts at a multiple of sixteen and uses at most eight bytes more. *)
Lemma first_queue_le p n :
  0 <= p -> 0 <= n -> p mod 16 = 0 -> next_queue p n <= p + 12 * n + 8.
Proof.
  intros Hp Hn Hm. unfold next_queue, skbs_at, bds_end, sizeof_DmaDesc, sizeof_ptr.
  pose proof (align16_ge (p + 8 * n) ltac:(lia)). pose proof (align16_mod (p + 8 * n)).
  set (a := align16 (p + 8 * n)) in *. clearbody a. Z.to_euclidean_division_equations; lia.
Qed.

Lemma align16_8 p : 0 <= p -> p mod 8 = 0 -> align16 p <= p + 8.
Proof.
  intros Hp Hm. pose proof (align16_ge p Hp). pose proof (align16_mod p).
  set (a := align16 p) in *. clearbody a. Z.to_euclidean_division_equations; lia.
Qed.

Lemma mod_16_4 p : p mod 16 = 0 -> p mod 4 = 0.
Proof. intros. Z.to_euclidean_division_equations; lia. Qed.

Lemma layout_aligned ids p :
  sizes_ok ids -> 0 <= p -> p mod 16 = 0 -> ids <> [] ->
  chain p (p + queue_bytes ids + 12 * zlen ids - 4) (layout p ids).
Proof.
  intros Hs Hp Hm. induction Hs as [|id ids Hn Hs IH]; [done|]. intros _. rewrite queue_bytes_cons, zlen_cons.
  cbn [layout]. pose proof (zlen_nonneg ids). destruct (valid_txq id).
  - destruct (next_queue_le p _ Hp Hn (mod_16_4 p Hm)) as (H1 & _ & H3). pose proof (first_queue_le p _ Hp Hn Hm).
    cbn [chain r_start r_size r_end]. unfold bds_end, sizeof_DmaDesc, sizeof_ptr in *. split_and!; [lia..|exact H1|lia|].
    eapply chain_weaken; [apply layout_chain|]; [done| |done|lia].
    unfold next_queue, skbs_at, bds_end, sizeof_ptr, sizeof_DmaDesc in *. lia.
  - destruct ids as [|id' ids].
    { cbn [layout chain]. change (zlen (@nil TXQ_ID)) with 0. unfold queue_bytes. cbn. lia. }
    eapply chain_weaken; [by apply IH|]. lia.
Qed.

Lemma layout_fits mem ids :
  0 <= mem -> mem mod 8 = 0 -> sizes_ok ids -> queue_bytes ids + 16 * zlen ids < 2 ^ 32 ->
  chain mem (mem + txq_size ids) (layout (align16 mem) ids).
Proof.
  intros Hm H8 Hs Hb. assert (Eq : txq_size ids = queue_bytes ids + 16 * zlen ids).
  { unfold txq_size. fold (queue_bytes ids). rewrite u32_id; [lia|]. unfold is_u32. pose proof (zlen_nonneg ids).
    assert (0 <= queue_bytes ids); [|lia]. clear -Hs. unfold queue_bytes, sizeof_ptr, sizeof_DmaDesc.
    induction Hs; cbn [map foldr]; lia. }
  rewrite Eq. pose proof (align16_ge mem Hm). pose proof (align16_8 mem Hm H8). destruct ids as [|id ids].
  { cbn [layout chain]. unfold queue_bytes. cbn. change (zlen (@nil TXQ_ID)) with 0. lia. }
  eapply chain_lower; [|apply align16_ge; lia].
  eapply chain_weaken; [apply layout_aligned; [done|lia|apply align16_mod|done]|].
  rewrite zlen_cons in *. pose proof (zlen_nonneg ids). lia.
Qed.

(** The descriptors of a queue, where the driver writes them. *)
Definition bds_region (q : TXQINFO) : region := mkRegion (pBds_at q) (sizeof_DmaDesc * ulQueueSize q).

Lemma chain_le lo hi rs : chain lo hi rs -> lo <= hi.
Proof. revert lo. induction rs as [|r rs IH]; cbn [chain]; [done|]. intros lo (H1 & H2 & H3%IH). unfold r_end in H3. lia. Qed.

Lemma CACHE_TO_NONCACHE_eq a : 0x80000000 <= a < 0xa0000000 -> CACHE_TO_NONCACHE a = a + 0x20000000.
Proof.
  intros H. unfold CACHE_TO_NONCACHE. change 0x1fffffff with (Z.ones 29). rewrite Z.land_ones by lia.
  assert (Em : a mod 2 ^ 29 = a - 0x80000000) by (Z.to_euclidean_division_equations; lia).
  assert (El : Z.land (a mod 2 ^ 29) 0xa0000000 = 0).
  { apply Z.bits_inj'. intros n Hn. rewrite Z.land_spec, Z.bits_0. destruct (Z.ltb_spec n 29) as [Hlt|Hge].
    - change 0xa0000000 with (Z.shiftl 5 29). by rewrite Z.shiftl_spec_low, andb_false_r.
    - rewrite Em, (testbit_small _ 29) by lia. done. }
  rewrite <- Z.lxor_lor by done. rewrite <- Z.add_nocarry_lxor by done. lia.
Qed.

Lemma txqs_chain ids p lo hi :
  Forall (fun id => valid_txq id = true) ids -> 0x80000000 <= lo -> hi < 0xa0000000 -> chain lo hi (layout p ids) ->
  chain (lo + 0x20000000) (hi + 0x20000000) (map bds_region (txqs_at p ids)).
Proof.
  intros Hv. revert p lo. induction Hv as [|id ids Hid Hv IH]; intros p lo Hlo Hhi Hc; cbn [layout txqs_at map chain] in *.
  { lia. }
  rewrite Hid in Hc. destruct Hc as (H1 & H2 & H3 & H4 & Hc). cbn [r_start r_size r_end] in *.
  unfold r_end in H3, Hc. cbn [r_start r_size] in H3, Hc. pose proof (chain_le _ _ _ Hc) as Hle.
  assert (Ep : CACHE_TO_NONCACHE p = p + 0x20000000) by (apply CACHE_TO_NONCACHE_eq; lia).
  split_and!.
  - cbn [bds_region r_start txq_of fresh_txq pBds_at]. lia.
  - exact H2.
  - unfold r_end. cbn [bds_region r_start r_size txq_of fresh_txq pBds_at ulQueueSize]. rewrite Ep.
    replace (p + 0x20000000 + sizeof_DmaDesc * tq_ulQueueSize id) with (p + sizeof_DmaDesc * tq_ulQueueSize id + 0x20000000) by lia.
    apply IH; [lia|done|]. eapply chain_lower; [exact Hc|lia].
Qed.

(** ** The controller after link up *)

#[export] Instance stram_eq_dec : EqDecision DmaStateRam.
Proof. solve_decision. Defined.

(** Where in the ring of a queue the controller is: at its start, if the state RAM of the
    channel has the address of the descriptors and nothing else. *)
Definition controller_at (chs : list DmaChannelCfg) (q : TXQINFO) : option nat :=
  c ← pDma q;
  r ← chs !! Z.to_nat c;
  if bool_decide (stram r = ram_of q) then Some 0%nat else None.

(** The device and the controller, which is on each queue where the state RAM says. *)
Definition linked_sys (d : BCMXTMRT_DEV_CONTEXT) (chs : list DmaChannelCfg) (k : kmem) : option tx_sys :=
  hw ← mapM (controller_at chs) (take (Z.to_nat (ulTxQInfosSize d)) (TxQInfos d));
  Some (mkSys d chs k hw (replicate (length hw) [])).

Lemma controller_at_start chs qs :
  Forall (chan_ready chs) qs -> mapM (controller_at chs) qs = Some (replicate (length qs) 0%nat).
Proof.
  intros H. apply mapM_Some_2. induction H as [|q qs (c & Hc & Hr) _ IH]; [constructor|]. cbn [length replicate].
  constructor; [|done]. unfold controller_at. rewrite Hc. cbn [mbind option_bind].
  destruct (chs !! Z.to_nat c) as [r|]; [|done]. cbn in Hr. injection Hr as Hr. cbn [mbind option_bind].
  by rewrite bool_decide_eq_true_2.
Qed.

Lemma linked_sys_start d chs k ids p :
  ulTxQInfosSize d = zlen ids -> take (length ids) (TxQInfos d) = txqs_at p ids ->
  Forall (chan_ready chs) (txqs_at p ids) -> linked_sys d chs k = Some (start d chs k (length ids)).
Proof.
  intros Hz Hq Hr. unfold linked_sys. assert (Z.to_nat (ulTxQInfosSize d) = length ids) as -> by (rewrite Hz; unfold zlen; lia).
  rewrite Hq, (controller_at_start _ _ Hr), length_txqs_at. cbn [mbind option_bind]. by rewrite length_replicate.
Qed.

Lemma map_txqs_size p ids : map ulQueueSize (txqs_at p ids) = map tq_ulQueueSize ids.
Proof. revert p. induction ids as [|id ids IH]; intros p; [done|]. cbn [txqs_at map]. by rewrite IH. Qed.

Lemma txqs_own_chans p ids : Forall own_chan (txqs_at p ids).
Proof. revert p. induction ids as [|id ids IH]; intros p; cbn [txqs_at]; constructor; [done|apply IH]. Qed.

(** ** The state of the driver

    Requests, expiries of the timer, packets to send, and a device being opened or closed,
    in any order. *)

Inductive drv_event :=
| Request (r : xtm_request)
| TimerFires
| SendPacket (hdev : Z) (s : sk_buff)
| OpenDev (hdev : Z)
| CloseDev (hdev : Z).

Definition drv_step (e : drv_event) (st : xtm_glob * option MAC_INFO * kmem)
    : option (xtm_glob * option MAC_INFO * kmem) :=
  let '(g, pool, k) := st in
  match e with
  | Request r => '(_, pool, g, k, _) ← bcmxtmrt_request r pool g k; Some (g, pool, k)
  | TimerFires => if timer_active g then '(g, k) ← bcmxtmrt_timer g k; Some (g, pool, k) else Some st
  | SendPacket hdev s =>
      d ← devs (g_rx g) !! hdev;
      '(d, chs, k) ← bcmxtmrt_xmit (Some s) d (rx_chs (g_rx g)) k;
      Some (put_dev (with_rx g (with_chs (g_rx g) chs)) hdev d, pool, k)
  | OpenDev hdev => d ← devs (g_rx g) !! hdev; Some (put_dev g hdev (snd (bcmxtmrt_open d)), pool, k)
  | CloseDev hdev => d ← devs (g_rx g) !! hdev; Some (put_dev g hdev (bcmxtmrt_close d), pool, k)
  end.

Fixpoint drv_run (es : list drv_event) (st : xtm_glob * option MAC_INFO * kmem)
    : option (xtm_glob * option MAC_INFO * kmem) :=
  match es with
  | [] => Some st
  | e :: es' => st ← drv_step e st; drv_run es' st
  end.

Record drv_inv (g : xtm_glob) : Prop := {
  di_state : ulDrvState g = XTMRT_UNINITIALIZED \/ ulDrvState g = XTMRT_INITIALIZED \/ ulDrvState g = XTMRT_RUNNING;
  di_timer : timer_active g = (ulDrvState g =? XTMRT_RUNNING);
  di_uninit : ulDrvState g = XTMRT_UNINITIALIZED -> Forall (eq 0) (pDevCtxs g);
  di_null : devs (g_rx g) !! 0 = None;
  di_up : forall h d, h ∈ pDevCtxs g -> devs (g_rx g) !! h = Some d -> ulLinkState d = LINK_UP ->
          ulDrvState g = XTMRT_RUNNING
}.

Lemma init_drv_inv : drv_inv bcmxtmrt_init.
Proof. split; cbn; try done; [by left|intros _; by repeat constructor]. Qed.

Lemma with_rx_inv g x : drv_inv g -> devs x = devs (g_rx g) -> drv_inv (with_rx g x).
Proof. intros [H1 H2 H3 H4 H5] E. split; cbn; rewrite ?E; done. Qed.

(** A device whose link does not come up may be changed. *)
Lemma put_dev_inv g hdev d d' :
  drv_inv g -> devs (g_rx g) !! hdev = Some d -> ulLinkState d' = ulLinkState d -> drv_inv (put_dev g hdev d').
Proof.
  intros [H1 H2 H3 H4 H5] Hd Hl. split; cbn; try done.
  - rewrite lookup_insert_ne; [done|]. congruence.
  - intros h dd Hh Hdd Hup. destruct (decide (h = hdev)) as [->|Hne].
    + rewrite lookup_insert_eq in Hdd. injection Hdd as <-. eapply (H5 hdev d); [done..|congruence].
    + rewrite lookup_insert_ne in Hdd by done. by eapply H5.
Qed.

Lemma xmit_link o d chs k d' chs' k' :
  bcmxtmrt_xmit o d chs k = Some (d', chs', k') -> ulLinkState d' = ulLinkState d.
Proof.
  unfold bcmxtmrt_xmit, free_transmitted. destruct (_ <=? _); [|done].
  destruct (free_queues _ _) as [[qs k1]|]; [|done]. cbn [mbind option_bind].
  destruct o as [s|]; [|by intros [= <- _ _]]. destruct (negb _); [|by intros [= <- _ _]].
  destruct (encapsulate _ _ _) as [[s' k2]|]; [|done]. cbn [mbind option_bind]. unfold send_on.
  destruct (_ !! _) as [q|]; [|done]. cbn [mbind option_bind]. destruct (negb _); [|by intros [= <- _ _]].
  destruct (pad_short _ _) as [[s2 k3]|]; [|done]. cbn [mbind option_bind].
  destruct (enqueue _ _ _) as [q'|]; [|done]. cbn [mbind option_bind].
  destruct (enable_channel _ _) as [chs2|]; [|done]. cbn [mbind option_bind]. by intros [= <- _ _].
Qed.

Lemma xmit_inv o g hdev d k d' chs' k' :
  drv_inv g -> devs (g_rx g) !! hdev = Some d ->
  bcmxtmrt_xmit o d (rx_chs (g_rx g)) k = Some (d', chs', k') ->
  drv_inv (put_dev (with_rx g (with_chs (g_rx g) chs')) hdev d').
Proof.
  intros H Hd E. apply put_dev_inv with d; [by apply with_rx_inv|done|]. by eapply xmit_link.
Qed.

Lemma timer_loop_inv ctxs g k g' k' :
  drv_inv g -> timer_loop ctxs g k = Some (g', k') ->
  drv_inv g' /\ ulDrvState g' = ulDrvState g /\ timer_active g' = timer_active g.
Proof.
  revert g k. induction ctxs as [|h ctxs IH]; intros g k H E; cbn [timer_loop] in E; [by injection E as <- <-|].
  destruct (h =? 0); [by eapply IH|]. destruct (devs (g_rx g) !! h) as [d|] eqn:Ed; [|done]. cbn [mbind option_bind] in E.
  destruct (bcmxtmrt_xmit _ _ _ _) as [[[d' chs'] k1]|] eqn:Ex; [|done]. cbn [mbind option_bind] in E.
  apply IH in E; [done|]. by eapply xmit_inv.
Qed.

Lemma timer_inv g k g' k' :
  drv_inv g -> timer_active g = true -> bcmxtmrt_timer g k = Some (g', k') -> drv_inv g'.
Proof.
  intros H Ht E. unfold bcmxtmrt_timer in E. destruct (timer_loop _ _ _) as [[g1 k1]|] eqn:El; [|done].
  injection E as <- <-. apply timer_loop_inv in El as ([H1 H2 H3 H4 H5] & Es & Et); [|done].
  split; cbn; try done. by rewrite <- H2, Et, Ht.
Qed.

Lemma glob_init_inv skb_size sizes answers g n g' :
  drv_inv g -> DoGlobInitReq skb_size sizes answers g = InitReturns n g' -> drv_inv g'.
Proof.
  intros [H1 H2 H3 H4 H5] E. unfold DoGlobInitReq in E.
  assert (Hdrop : forall g0, ulDrvState g0 = ulDrvState g -> timer_active g0 = timer_active g ->
            pDevCtxs g0 = pDevCtxs g -> devs (g_rx g0) = devs (g_rx g) -> drv_inv (drop_skbs g0)).
  { intros g0 A1 A2 A3 A4. split; cbn; rewrite ?A1, ?A2, ?A3, ?A4; done. }
  destruct (Z.eqb_spec (ulDrvState g) XTMRT_UNINITIALIZED) as [Eu|Eu]; cbn [negb] in E;
    [|injection E as <- <-; by apply Hdrop].
  destruct answers as [|m1 answers]; [injection E as <- <-; by apply Hdrop|].
  destruct (m1 =? 0); [injection E as <- <-; by apply Hdrop|].
  destruct (link_skbs _ _ _) as [hh first]. destruct answers as [|m2 answers]; [injection E as <- <-; by apply Hdrop|].
  destruct (m2 =? 0); [injection E as <- <-; by apply Hdrop|].
  destruct (alloc_loop _ _ _ _ _ _) as [bl bufs| |]; [|done|done]. injection E as <- <-.
  split; cbn; try done; [by right; left|by rewrite H2, Eu|].
  intros h d Hh Hd. specialize (H3 Eu). rewrite Forall_forall in H3. rewrite <- (H3 h Hh) in Hd. congruence.
Qed.

Lemma add_ctx_in hdev ctxs h : h ∈ add_ctx hdev ctxs -> h = hdev \/ h ∈ ctxs.
Proof.
  induction ctxs as [|c ctxs IH]; cbn [add_ctx]; [by right|]. destruct (Z.eqb_spec c 0) as [->|].
  - intros [->|]%elem_of_cons; [by left|right; by constructor].
  - intros [->|H]%elem_of_cons; [right; by constructor|]. destruct (IH H); [by left|right; by constructor].
Qed.

Lemma remove_ctx_in hdev ctxs h : h ∈ remove_ctx hdev ctxs -> h = 0 \/ h ∈ ctxs.
Proof.
  induction ctxs as [|c ctxs IH]; cbn [remove_ctx]; [by right|]. destruct (Z.eqb_spec c hdev) as [->|].
  - intros [->|]%elem_of_cons; [by left|right; by constructor].
  - intros [->|H]%elem_of_cons; [right; by constructor|]. destruct (IH H); [by left|right; by constructor].
Qed.

Lemma find_ctx_in hdev ctxs : find_ctx hdev ctxs = true -> hdev ∈ ctxs.
Proof. unfold find_ctx. rewrite existsb_exists. intros (h & Hh & ->%Z.eqb_eq). by apply list_elem_of_In. Qed.

Lemma create_inv hdev reg addr ht fl pool g n pool' g' rel :
  drv_inv g -> DoCreateDeviceReq hdev reg addr ht fl pool g = Some (n, pool', g', rel) -> drv_inv g'.
Proof.
  intros H E. unfold DoCreateDeviceReq in E. destruct (_ && _) eqn:Ec; [|by injection E as <- <- <- <-].
  apply andb_prop in Ec as [Eu En]. zprop.
  destruct (device_mac pool) as [[mac p]|]; [|done]. cbn [mbind option_bind] in E.
  destruct (reg =? 0); [|by injection E as <- <- <- <-]. injection E as <- <- <- <-.
  destruct H as [H1 H2 H3 H4 H5]. split; cbn; try done.
  - rewrite lookup_insert_ne; done.
  - intros h d Hh Hd Hl. destruct (decide (h = hdev)) as [->|Hne].
    + rewrite lookup_insert_eq in Hd. injection Hd as <-. done.
    + rewrite lookup_insert_ne in Hd by done. apply add_ctx_in in Hh as [?|Hh]; [done|]. by eapply H5.
Qed.

Lemma delete_inv hdev pool g n pool' g' rel :
  drv_inv g -> DoDeleteDeviceReq hdev pool g = Some (n, pool', g', rel) -> drv_inv g'.
Proof.
  intros H E. unfold DoDeleteDeviceReq in E. destruct (find_ctx hdev (pDevCtxs g)) eqn:Ef; cbn [mbind option_bind] in E.
  2: { injection E as <- <- <- <-. by apply with_rx_inv. }
  destruct (devs (g_rx g) !! hdev) as [d|] eqn:Ed; [|done]. cbn [mbind option_bind] in E.
  destruct (kerSysReleaseMacAddress _ _) as [[r p]|]; [|done]. injection E as <- <- <- <-.
  apply with_rx_inv; [|done]. destruct H as [H1 H2 H3 H4 H5].
  assert (Hin : forall h dd, h ∈ remove_ctx hdev (pDevCtxs g) -> delete hdev (devs (g_rx g)) !! h = Some dd ->
            h ∈ pDevCtxs g /\ devs (g_rx g) !! h = Some dd).
  { intros h dd Hh Hdd. destruct (decide (h = hdev)) as [->|Hne]; [by rewrite lookup_delete_eq in Hdd|].
    rewrite lookup_delete_ne in Hdd by done. apply remove_ctx_in in Hh as [->|?]; [congruence|done]. }
  split; cbn; try done.
  - intros Hu. apply Forall_forall. intros h Hh. apply remove_ctx_in in Hh as [->|Hh]; [done|].
    specialize (H3 Hu). rewrite Forall_forall in H3. by apply H3.
  - rewrite lookup_delete_ne; [done|]. congruence.
  - intros h dd Hh Hdd Hl. destruct (Hin h dd Hh Hdd). by eapply H5.
Qed.

(** A change of a link in either direction, on a device of the table. *)
Lemma link_up_inv mem hdev lsc g n g' :
  drv_inv g -> hdev ∈ pDevCtxs g -> DoLinkUp mem hdev lsc g = Some (n, g') -> drv_inv g'.
Proof.
  intros H Hin E. unfold DoLinkUp in E. destruct (devs (g_rx g) !! hdev) as [d|] eqn:Ed; [|done].
  cbn [mbind option_bind] in E. destruct (mem =? 0); [injection E as <- <-; by eapply put_dev_inv|].
  destruct (link_up_ids _ _ _) as [ids|]; [|done]. cbn [mbind option_bind] in E.
  destruct (link_up_loop _ _ _ _ _ _) as [[[qs prio] chs]|]; [|done]. cbn [mbind option_bind put_dev with_rx ulDrvState] in E.
  destruct H as [H1 H2 H3 H4 H5].
  assert (Hn : hdev <> 0) by congruence.
  destruct (Z.eqb_spec (ulDrvState g) XTMRT_INITIALIZED) as [Ei|Ei].
  - match type of E with context [start_rx ?r ?i ?x] => destruct (start_rx_same r i x) as (_ & S2 & _) end.
    set (x := start_rx _ _ _) in *. clearbody x. cbn in S2.
    destruct (ulOpenState _ =? _); injection E as <- <-; split; cbn; try done; [by right; right| |by right; right|];
      rewrite ?lookup_insert_ne by done; rewrite S2, lookup_insert_ne; done.
  - injection E as <- <-. destruct H1 as [Eu|[?|Er]]; [|done|].
    + specialize (H3 Eu). rewrite Forall_forall in H3. by specialize (H3 hdev Hin).
    + split; cbn; try done; [by right; right|]. by rewrite lookup_insert_ne.
Qed.

Lemma any_link_up_false ctxs ds h d :
  any_link_up ctxs ds = Some false -> h ∈ ctxs -> h <> 0 -> ds !! h = Some d -> ulLinkState d <> LINK_UP.
Proof.
  induction ctxs as [|c ctxs IH]; intros E Hh Hn Hd; [by apply not_elem_of_nil in Hh|]. cbn [any_link_up] in E.
  destruct (Z.eqb_spec c 0) as [->|Hc].
  - apply elem_of_cons in Hh as [->|Hh]; [done|]. by apply IH.
  - destruct (ds !! c) as [dc|] eqn:Ec; [|done]. cbn [mbind option_bind] in E.
    destruct (Z.eqb_spec (ulLinkState dc) LINK_UP); [done|].
    apply elem_of_cons in Hh as [->|Hh]; [congruence|]. by apply IH.
Qed.

Lemma link_down_inv hdev lsc g k n g' k' rel :
  drv_inv g -> hdev ∈ pDevCtxs g -> l_ulLinkState lsc <> LINK_UP ->
  DoLinkDown hdev lsc g k = Some (n, g', k', rel) -> drv_inv g'.
Proof.
  intros H Hin Hl E. unfold DoLinkDown in E. destruct (devs (g_rx g) !! hdev) as [d|] eqn:Ed; [|done].
  cbn [mbind option_bind] in E. destruct (bcmxtmrt_xmit _ _ _ _) as [[[d1 chs] k1]|]; [|done]. cbn [mbind option_bind] in E.
  destruct (halt_loop _ _) as [chs2|]; [|done]. cbn [mbind option_bind] in E. set (d2 := with_open _ _ _) in E.
  destruct H as [H1 H2 H3 H4 H5]. assert (Hn : hdev <> 0) by congruence.
  match type of E with context [any_link_up _ (devs (g_rx ?g0))] => set (g2 := g0) in E end.
  assert (Hg2 : drv_inv g2).
  { split; cbn; try done; [by rewrite lookup_insert_ne|]. intros h dd Hh Hdd Hup.
    destruct (decide (h = hdev)) as [->|Hne]; [rewrite lookup_insert_eq in Hdd; by injection Hdd as <-|].
    rewrite lookup_insert_ne in Hdd by done. by eapply H5. }
  destruct (any_link_up _ _) as [up|] eqn:Eu; [|done]. cbn [mbind option_bind] in E.
  destruct up; [by injection E as <- <- <- <-|]. injection E as <- <- <- <-.
  match goal with |- context [stop_rx ?r ?i ?x] => destruct (stop_rx_same r i x) as (_ & S2 & _) end.
  destruct Hg2 as [G1 G2 G3 G4 G5].
  split; cbn [with_state with_rx ulDrvState timer_active pDevCtxs g_rx]; try done; [by right; left|by rewrite S2|].
  intros h dd Hh Hdd Hup. rewrite S2 in Hdd. exfalso. eapply any_link_up_false; [exact Eu|exact Hh| |exact Hdd|done].
  intros ->. by pose proof (eq_trans (eq_sym Hdd) G4).
Qed.

Lemma link_sts_inv now mem hdev lsc g k n g' k' rel :
  drv_inv g -> DoLinkStsChangedReq now mem hdev lsc g k = Some (n, g', k', rel) -> drv_inv g'.
Proof.
  intros H E. unfold DoLinkStsChangedReq in E. destruct (find_ctx hdev (pDevCtxs g)) eqn:Ef;
    [|by injection E as <- <- <- <-]. apply find_ctx_in in Ef.
  destruct (Z.eqb_spec (l_ulLinkState lsc) LINK_UP) as [El|El].
  - destruct (DoLinkUp mem hdev lsc g) as [[r g1]|] eqn:Eu; [|done]. cbn [mbind option_bind] in E.
    destruct (devs (g_rx g1) !! hdev) as [d|] eqn:Ed; [|done]. injection E as <- <- <- <-.
    eapply put_dev_inv; [by eapply link_up_inv|done|done].
  - destruct (DoLinkDown hdev lsc g k) as [[[[r g1] k1] rel1]|] eqn:Eu; [|done]. cbn [mbind option_bind] in E.
    destruct (devs (g_rx g1) !! hdev) as [d|] eqn:Ed; [|done]. injection E as <- <- <- <-.
    eapply put_dev_inv; [by eapply link_down_inv|done|done].
Qed.

Lemma send_cell_inv hdev c g k n g' k' :
  drv_inv g -> DoSendCellReq hdev c g k = Some (n, g', k') -> drv_inv g'.
Proof.
  intros H E. unfold DoSendCellReq in E. destruct (devs (g_rx g) !! hdev) as [d|] eqn:Ed; [|done].
  cbn [mbind option_bind] in E. destruct (_ =? _); [|by injection E as <- <- <-].
  destruct (next_answer k) as [[[p data]|] k0]; [|by injection E as <- <- <-].
  destruct (cell_priority _ _) as [prio|]; [|done]. cbn [mbind option_bind] in E.
  destruct (bcmxtmrt_xmit _ _ _ _) as [[[d1 chs] k1]|] eqn:Ex; [|done]. injection E as <- <- <-.
  by eapply xmit_inv.
Qed.

Lemma reg_handler_inv type fn ctx g : drv_inv g -> drv_inv (snd (DoRegCellHdlrReq type fn ctx g)).
Proof. intros H. unfold DoRegCellHdlrReq. repeat case_match; try done; by apply with_rx_inv. Qed.

Lemma unreg_handler_inv type fn g : drv_inv g -> drv_inv (snd (DoUnregCellHdlrReq type fn g)).
Proof. intros H. unfold DoUnregCellHdlrReq. repeat case_match; try done; by apply with_rx_inv. Qed.

Lemma request_inv r pool g k n pool' g' k' rel :
  drv_inv g -> bcmxtmrt_request r pool g k = Some (n, pool', g', k', rel) -> drv_inv g'.
Proof.
  intros H E. destruct r as [ss sz an|hdev reg addr ht fl|hdev|hdev st|ty fn ctx|ty fn|now mem hdev lsc|hdev c|hdev|];
    cbn [bcmxtmrt_request] in E.
  - destruct (DoGlobInitReq ss sz an g) as [r g1| |] eqn:Eg; [|done|done]. injection E as <- <- <- <- <-.
    by eapply glob_init_inv.
  - destruct (DoCreateDeviceReq _ _ _ _ _ _ _) as [[[[? ?] ?] ?]|] eqn:Ec; [|done]. injection E as <- <- <- <- <-.
    by eapply create_inv.
  - destruct (devs _ !! _); [|done]. by injection E as <- <- <- <- <-.
  - destruct (devs _ !! _) eqn:Ed; [|done]. injection E as <- <- <- <- <-. by eapply put_dev_inv.
  - pose proof (reg_handler_inv ty fn ctx g H) as Hi. destruct (DoRegCellHdlrReq _ _ _ _). by injection E as <- <- <- <- <-.
  - pose proof (unreg_handler_inv ty fn g H) as Hi. destruct (DoUnregCellHdlrReq _ _ _). by injection E as <- <- <- <- <-.
  - destruct (DoLinkStsChangedReq _ _ _ _ _ _) as [[[[? ?] ?] ?]|] eqn:El; [|done]. injection E as <- <- <- <- <-.
    by eapply link_sts_inv.
  - destruct (DoSendCellReq _ _ _ _) as [[[? ?] ?]|] eqn:El; [|done]. injection E as <- <- <- <- <-.
    by eapply send_cell_inv.
  - destruct (DoDeleteDeviceReq _ _ _) as [[[[? ?] ?] ?]|] eqn:Ec; [|done]. injection E as <- <- <- <- <-.
    by eapply delete_inv.
  - by injection E as <- <- <- <- <-.
Qed.

Lemma drv_step_inv e st st' : drv_inv (fst (fst st)) -> drv_step e st = Some st' -> drv_inv (fst (fst st')).
Proof.
  destruct st as [[g pool] k]. intros H E. cbn [fst] in *. destruct e as [r| |hdev s|hdev|hdev]; cbn [drv_step] in E.
  - destruct (bcmxtmrt_request _ _ _ _) as [[[[[? ?] ?] ?] ?]|] eqn:Er; [|done]. injection E as <-. by eapply request_inv.
  - destruct (timer_active g) eqn:Et; [|by injection E as <-].
    destruct (bcmxtmrt_timer g k) as [[? ?]|] eqn:Eb; [|done]. injection E as <-. by eapply timer_inv.
  - destruct (devs _ !! _) eqn:Ed; [|done]. cbn [mbind option_bind] in E.
    destruct (bcmxtmrt_xmit _ _ _ _) as [[[d1 chs] k1]|] eqn:Ex; [|done]. injection E as <-. by eapply xmit_inv.
  - destruct (devs _ !! _) eqn:Ed; [|done]. injection E as <-. by eapply put_dev_inv.
  - destruct (devs _ !! _) eqn:Ed; [|done]. injection E as <-. by eapply put_dev_inv.
Qed.

Lemma drv_run_inv es st st' : drv_inv (fst (fst st)) -> drv_run es st = Some st' -> drv_inv (fst (fst st')).
Proof.
  revert st. induction es as [|e es IH]; intros st H E; cbn [drv_run] in E; [by injection E as <-|].
  destruct (drv_step e st) as [st1|] eqn:Es; [|done]. cbn [mbind option_bind] in E. apply IH in E; [done|].
  by eapply drv_step_inv.
Qed.

(** ** Addresses of devices *)

Lemma owner_gets_same m id mac puca :
  mac_inv m -> 0 < id < MAC_ADDRESS_ANY -> holds m id mac -> zlen puca = NVRAM_MAC_ADDRESS_LEN ->
  exists m', kerSysGetMacAddress (Some m) puca id = Some (0, mac, Some m').
Proof.
  intros Hm Hid (i & e & Hi & He & Ho & _ & ->) Hp. pose proof (mi_ok _ Hm) as Hok.
  destruct (get_mac_ok m Hok puca id Hp) as (r & -> & Hr).
  destruct (mac_choose_owner m id _ e ltac:(lia) He Ho) as [k Hk]. rewrite Hk in Hr.
  destruct Hr as (ek & Hek & ->). destruct (mac_choose_range m Hok id k Hk) as (Hkr & e' & He' & Hc). simplify_eq.
  assert (Z.to_nat k = Z.to_nat i) as Ek.
  { destruct Hc as [?|[Hc|[_ Hc]]]; [lia| |].
    - eapply (mi_unique m Hm); [exact Hek|exact He|congruence|lia].
    - exfalso. by apply (Forall_lookup_1 _ _ _ _ Hc He). }
  assert (k = i) as -> by lia. by eexists.
Qed.

(** A second device gets the address of the first. *)
Lemma device_mac_again m :
  mac_inv m -> exists mac m1, device_mac (Some m) = Some (mac, Some m1)
    /\ exists m2, device_mac (Some m1) = Some (mac, Some m2).
Proof.
  intros Hm. unfold device_mac. change (mac_id 0) with 0x10000000. set (puca := 0xff :: replicate 5 0).
  destruct (get_inv m puca 0x10000000 Hm ltac:(split; reflexivity) eq_refl) as (r & mac & m1 & E & Hm1 & Hr).
  rewrite E. cbn [mbind option_bind]. eexists _, m1. split; [done|]. destruct Hr as [[-> Hh]|[-> ->]].
  - destruct (owner_gets_same m1 0x10000000 mac puca Hm1 ltac:(split; reflexivity) Hh eq_refl) as (m2 & ->). by eexists.
  - rewrite E. by eexists.
Qed.

(** ** Properties *)

(** C12: Link up on a device without queues, for at most sixteen queues with valid ports,
    priorities and sizes, each on a DMA channel of its own, and with memory from [kmalloc],
    returns 0 and leaves the other devices alone.  The match ids of the link lead to the
    device, the driver is running, and the rings of descriptors lie in the allocated block,
    seen through the uncached segment, one behind the other without overlap.  The state RAM
    of each channel has the address of the ring of its queue and is zero otherwise, so that
    the controller starts at the first descriptor, as the driver does: from there on any
    sequence of packets, timer expiries and work of the controller runs without a fault and
    every queue sends in order (for a device whose header the hardware adds, so that no
    memory is needed). *)
Theorem link_up_ready mem hdev lsc g d :
  devs (g_rx g) !! hdev = Some d -> unlinked d -> valid_hdr d -> good_lsc g lsc ->
  length (rx_chs (g_rx g)) = IUDMA_MAX_CHANNELS -> l_TransitQueueIds lsc <> [] -> sw_header d = false ->
  0x80000000 <= mem -> mem mod 8 = 0 -> mem + txq_size (l_TransitQueueIds lsc) < 0xa0000000 ->
  queue_bytes (l_TransitQueueIds lsc) + 16 * zlen (l_TransitQueueIds lsc) < 2 ^ 32 ->
  exists g' d', DoLinkUp mem hdev lsc g = Some (0, g') /\ devs (g_rx g') !! hdev = Some d'
    /\ ulLinkState d' = l_ulLinkState lsc
    /\ (forall v, v ∈ l_ucRxVcids lsc -> pDevCtxsByMatchId (g_rx g') !! Z.to_nat v = Some hdev)
    /\ (forall h, h <> hdev -> devs (g_rx g') !! h = devs (g_rx g) !! h)
    /\ ulDrvState g' = (if ulDrvState g =? XTMRT_INITIALIZED then XTMRT_RUNNING else ulDrvState g)
    /\ (let qs := take (length (l_TransitQueueIds lsc)) (TxQInfos d') in
        map ulQueueSize qs = map tq_ulQueueSize (l_TransitQueueIds lsc)
        /\ chain (mem + 0x20000000) (mem + txq_size (l_TransitQueueIds lsc) + 0x20000000) (map bds_region qs)
        /\ Forall own_chan qs /\ Forall (chan_ready (rx_chs (g_rx g'))) qs)
    /\ forall es a, Forall (fun s => 0 <= skb_headroom s) (offers es) ->
       exists st0 st fs, linked_sys d' (rx_chs (g_rx g')) (mkKmem a [] []) = Some st0 /\ tx_run es st0 = Some st
         /\ Forall2 (queue_history [] (offers es)) fs (s_sent st)
         /\ given (s_mem st) ≡ₚ freed (s_mem st) ++ held fs.
Proof.
  intros Hd Hu Hh Hl Hc Hn Hs Hm1 Hm8 Hm2 Hb.
  destruct (DoLinkUp_ok mem hdev lsc g d Hd ltac:(lia) Hu Hh Hl Hc)
    as (g' & d' & E & E1 & E2 & E3 & T & Q & R & _ & E4 & E5 & E6).
  exists g', d'. split_and!; try done.
  - cbn zeta. rewrite Q. pose proof (gl_ids _ _ Hl) as Hg. split_and!; [apply map_txqs_size| |apply txqs_own_chans|done].
    apply txqs_chain; [|lia|lia|].
    + eapply Forall_impl; [exact Hg|]. by intros id (? & _).
    + apply layout_fits; [lia|done| |done]. eapply Forall_impl; [exact Hg|]. intros id (_ & _ & ? & _). lia.
  - intros es a Hr. eexists. rewrite (linked_sys_start d' _ _ (l_TransitQueueIds lsc) (align16 mem)); [|by rewrite (td_size _ _ _ T); unfold idle_fifos, zlen; rewrite length_replicate|done|done].
    assert (Hs' : sw_header d' = false) by by rewrite (proj2 (same_hdr_tx _ _ E3)).
    pose proof (start_ok d' _ a _ T) as S0. unfold tx_header in S0. rewrite Hs' in S0.
    destruct (tx_run_ok [] [] es _ _ S0) as (st & fs & Er & [H1 H2 H3 H4 H5]).
    + destruct (l_TransitQueueIds lsc); done.
    + done.
    + by left.
    + by exists st, fs.
Qed.

(** C25: Link down on a device with queues returns 0, frees exactly the packets that were
    sent, and leaves the device without queues, so that the link can come up again; the
    channels of its queues have no ring any more, no match id leads to it, and the driver
    leaves the running state when no other device has its link up.  The memory of the queues
    is given back once.  The packets that were not sent yet are not freed, though the
    memory with the only pointers to them is. *)
Theorem DoLinkDown_spec hdev lsc g d fs k :
  devs (g_rx g) !! hdev = Some d -> hdev <> 0 -> tx_dev (rx_chs (g_rx g)) d fs -> own_chans d -> ctxs_ok g ->
  owed k (held fs) ->
  exists g' d' k', DoLinkDown hdev lsc g k = Some (0, g', k', [Kfree (pTxQMem d)])
    /\ devs (g_rx g') = <[hdev := d']> (devs (g_rx g)) /\ unlinked d' /\ ulTxQInfosSize d' = 0
    /\ Forall (fun o => exists c, o = Some c /\ no_ring (rx_chs (g_rx g')) c)
         (map pDma (take (Z.to_nat (ulTxQInfosSize d)) (TxQInfos d)))
    /\ (hdev ∉ pDevCtxsByMatchId (g_rx g'))
    /\ ulDrvState g' = (if existsb (link_is_up (devs (g_rx g'))) (pDevCtxs g) then ulDrvState g else XTMRT_INITIALIZED)
    /\ freed k' = freed k ++ map skb_ptr (concat (map f_done fs))
    /\ given k' ≡ₚ freed k' ++ map skb_ptr (pending fs).
Proof.
  intros Hd Hn Ht Ho Hc Hk. destruct (DoLinkDown_ok hdev lsc g d fs k Hd Hn Ht Ho Hc)
    as (g' & d' & E & _ & _ & _ & En & E1 & E2 & E3 & E4 & E5 & E6 & E7 & E8).
  exists g', d', (free_all (concat (map f_done fs)) k). split_and!; try done.
  rewrite <- (app_nil_r (held fs)) in Hk. apply owed_clear in Hk. rewrite app_nil_r in Hk. by rewrite held_pending in Hk.
Qed.

(** [pTxQMem] still points to the memory after link down: a second link down of the device
    gives the same memory back again. *)
Theorem second_link_down_frees_again hdev lsc1 lsc2 g d fs k :
  devs (g_rx g) !! hdev = Some d -> hdev <> 0 -> tx_dev (rx_chs (g_rx g)) d fs -> own_chans d -> ctxs_ok g ->
  exists g1 k1 g2 k2, DoLinkDown hdev lsc1 g k = Some (0, g1, k1, [Kfree (pTxQMem d)])
    /\ DoLinkDown hdev lsc2 g1 k1 = Some (0, g2, k2, [Kfree (pTxQMem d)]).
Proof.
  intros Hd Hn Ht Ho Hc. destruct (DoLinkDown_ok hdev lsc1 g d fs k Hd Hn Ht Ho Hc)
    as (g1 & d1 & E1 & Em & Ev & Ex & _ & Ed & [_ Hu] & Hz & _ & Hh & _).
  assert (Hd1 : devs (g_rx g1) !! hdev = Some d1) by by rewrite Ed, lookup_insert_eq.
  destruct (DoLinkDown_ok hdev lsc2 g1 d1 [] (free_all (concat (map f_done fs)) k) Hd1 Hn) as (g2 & d2 & E2 & _).
  - split; [|by rewrite Ev|done|cbn; lia|constructor|].
    + unfold valid_hdr. rewrite (proj2 Hh). apply (td_hdr _ _ _ Ht).
    + intros p i E. eapply (priority_queue_in 0 0) in E; [lia|]. rewrite Hu. apply prio_in_empty.
  - unfold own_chans. by rewrite Hz.
  - unfold ctxs_ok. rewrite Ex, Ed. eapply Forall_impl; [exact Hc|]. intros h [->|Hh']; [by left|right].
    destruct (decide (h = hdev)) as [->|]; [by rewrite lookup_insert_eq|by rewrite lookup_insert_ne].
  - rewrite Em in E2. by eexists _, _, _, _.
Qed.

(** The block that [DoLinkUp] allocates holds the descriptors and the pointers of all
    the queues, one behind the other without overlap, for any sizes whose sum does not
    overflow and any block at a multiple of eight. *)
Theorem queue_memory_fits mem ids :
  0 <= mem -> mem mod 8 = 0 -> sizes_ok ids -> queue_bytes ids + 16 * zlen ids < 2 ^ 32 ->
  chain mem (mem + txq_size ids) (layout (align16 mem) ids).
Proof. apply layout_fits. Qed.

(** C13: In every state the driver can get into by requests, expiries of the timer, packets
    and devices being opened and closed, in any order: the timer is active exactly when the
    driver is running; it is running whenever a device of its table has its link up; and
    before the initialisation there is no device. *)
Theorem driver_state_inv es pool k g pool' k' :
  drv_run es (bcmxtmrt_init, pool, k) = Some (g, pool', k') ->
  (timer_active g = true <-> ulDrvState g = XTMRT_RUNNING)
  /\ (forall h d, h ∈ pDevCtxs g -> devs (g_rx g) !! h = Some d -> ulLinkState d = LINK_UP ->
        ulDrvState g = XTMRT_RUNNING)
  /\ (ulDrvState g = XTMRT_UNINITIALIZED -> Forall (eq 0) (pDevCtxs g)).
Proof.
  intros E. apply drv_run_inv in E; [|apply init_drv_inv]. destruct E as [H1 H2 H3 H4 H5]. cbn [fst] in *.
  split_and!; [|done|done]. rewrite H2. apply Z.eqb_eq.
Qed.

(** Two devices that are created one after the other get the same address from the
    pool, because both ask for it as the device with index 0; so the addresses of the
    driver's devices are not unique, and releasing one of them releases it for all. *)
Theorem devices_share_mac m g h1 h2 a1 a2 t1 t2 f1 f2 :
  mac_inv m -> ulDrvState g <> XTMRT_UNINITIALIZED -> h1 <> 0 -> h2 <> 0 -> h1 <> h2 ->
  exists p1 g1 p2 g2 d1 d2, DoCreateDeviceReq h1 0 a1 t1 f1 (Some m) g = Some (0, p1, g1, [])
    /\ DoCreateDeviceReq h2 0 a2 t2 f2 p1 g1 = Some (0, p2, g2, [])
    /\ devs (g_rx g2) !! h1 = Some d1 /\ devs (g_rx g2) !! h2 = Some d2
    /\ nd_dev_addr (pDev d1) = nd_dev_addr (pDev d2).
Proof.
  intros Hm Hs Hh1 Hh2 Hne. destruct (device_mac_again m Hm) as (mac & m1 & E1 & m2 & E2).
  unfold DoCreateDeviceReq. destruct (Z.eqb_spec (ulDrvState g) XTMRT_UNINITIALIZED) as [|Hu]; [done|].
  destruct (Z.eqb_spec h1 0); [done|]. destruct (Z.eqb_spec h2 0); [done|]. cbn [negb andb]. rewrite E1.
  cbn [mbind option_bind]. eexists _, _, _, _, (new_device a1 t1 f1 mac), (new_device a2 t2 f2 mac). split; [done|].
  cbn [with_ctxs put_dev with_rx ulDrvState]. destruct (Z.eqb_spec (ulDrvState g) XTMRT_UNINITIALIZED) as [|_]; [done|].
  rewrite E2. cbn [negb andb mbind option_bind]. split; [done|]. cbn.
  by rewrite lookup_insert_eq, lookup_insert_ne, lookup_insert_eq.
Qed.

(** A cell is sent with the port mask of its connection as the index of the port: on a
    device whose link is up a request for port 2 or 3 (mask 4 or 8) reads behind the table
    of priorities. *)
Theorem send_cell_port_mask hdev c g d k a k' :
  devs (g_rx g) !! hdev = Some d -> ulLinkState d = LINK_UP -> length (pTxPriorities d) = MAX_PHY_PORTS ->
  next_answer k = (Some a, k') ->
  ulPortMask (ConnAddr c) = 4 \/ ulPortMask (ConnAddr c) = 8 ->
  DoSendCellReq hdev c g k = None.
Proof.
  intros Hd Hl Hp Ha Hm. unfold DoSendCellReq. rewrite Hd. cbn [mbind option_bind].
  rewrite Hl, Z.eqb_refl, Ha. destruct a as [p data]. unfold cell_priority.
  rewrite lookup_ge_None_2; [done|]. rewrite Hp. unfold MAX_PHY_PORTS. lia.
Qed.

(** ** A driver with two devices *)

Definition demo_addr : XTM_ADDR := mkAddr TRAFFIC_TYPE_ATM 1 0 35.

Definition demo_new : BCMXTMRT_DEV_CONTEXT :=
  new_device demo_addr HT_LLC_SNAP_ETHERNET CNI_HW_ADD_REMOVE_HEADER default_mac.

Definition demo_glob : xtm_glob :=
  with_ctxs (put_dev (with_state bcmxtmrt_init XTMRT_INITIALIZED false) 100 demo_new) (100 :: replicate 15 0).

Definition demo_lsc : LINK_STATUS_CHANGE :=
  mkLsc LINK_UP 1000 [mkTxqId 1 0 1 3 0; mkTxqId 2 0 2 2 1] 5 [5; 7].

Definition demo_down : LINK_STATUS_CHANGE := mkLsc 2 0 [] 0 [].

Lemma demo_lsc_good : good_lsc demo_glob demo_lsc.
Proof.
  split; [done| | |cbn; lia|].
  - constructor; [|constructor; [|constructor]]; split_and!; cbn; lia || done.
  - apply (bool_decide_unpack _). vm_compute. exact I.
  - constructor; [|constructor; [|constructor]]; change (zlen _) with 128; lia.
Qed.

(** The link of the device comes up, and a packet is sent. *)
Lemma link_up_ready_witness :
  exists g' d' st0 st fs, DoLinkUp 0x81000008 100 demo_lsc demo_glob = Some (0, g')
    /\ devs (g_rx g') !! 100 = Some d' /\ ulDrvState g' = XTMRT_RUNNING
    /\ Forall (chan_ready (rx_chs (g_rx g'))) (take 2 (TxQInfos d'))
    /\ linked_sys d' (rx_chs (g_rx g')) (mkKmem [] [] []) = Some st0
    /\ tx_run [Offer (demo_packet 1); Transmit 0; Reclaim] st0 = Some st
    /\ given (s_mem st) ≡ₚ freed (s_mem st) ++ held fs.
Proof.
  destruct (link_up_ready 0x81000008 100 demo_lsc demo_glob demo_new)
    as (g' & d' & E & E1 & _ & _ & _ & E2 & (_ & _ & _ & Q) & R).
  - reflexivity.
  - split; reflexivity.
  - unfold valid_hdr. change (0 <= 1 <= 4). lia.
  - exact demo_lsc_good.
  - reflexivity.
  - discriminate.
  - reflexivity.
  - discriminate.
  - reflexivity.
  - reflexivity.
  - reflexivity.
  - destruct (R [Offer (demo_packet 1); Transmit 0; Reclaim] []) as (st0 & st & fs & E3 & E4 & _ & E5).
    + constructor; [cbn; lia|constructor].
    + exists g', d', st0, st, fs. exact (conj E (conj E1 (conj E2 (conj Q (conj E3 (conj E4 E5)))))).
Defined.

(** A device with one packet sent and one not sent yet. *)
Definition demo_busy : BCMXTMRT_DEV_CONTEXT := with_queues demo_dev [
  mkTxq 0 0 1 2 0 (Some 4) 0xa1000010 [mkBd 64 0x6071 0x1200; mkBd 64 0xF071 0x1300]
    [Some (demo_packet 2); Some (demo_packet 3)] 0 0 0].

Lemma demo_busy_ok : tx_dev demo_chs demo_busy [mkFifo 1 [demo_packet 2] [demo_packet 3]].
Proof.
  split; [by unfold valid_hdr|done|done|cbn; lia| |].
  - constructor; [|constructor]. split; [|exists 4; done]. split; try done.
    + intros i bd H. destruct i as [|[|i]]; cbn in H; [injection H as <-; done..|done].
    + exists 0%nat, [mkBd 64 0x6071 0x1200], [mkBd 64 0xF071 0x1300], [].
      split_and!; try done; [cbn; lia|by repeat constructor|]. constructor; [|constructor]. split_and!; reflexivity.
  - intros p i. unfold priority_queue. cbn. intros H.
    destruct (Z.to_nat p) as [|[|[|[|[|[|[|[|n]]]]]]]]; cbn in H; try done; injection H as <-; cbn; lia.
Qed.

Definition demo_linked : xtm_glob :=
  with_ctxs (put_dev (with_state bcmxtmrt_init XTMRT_RUNNING true) 100 demo_busy) (100 :: replicate 15 0).

Lemma DoLinkDown_spec_witness :
  exists g' d' k', DoLinkDown 100 demo_down demo_linked (mkKmem [] [2; 3] []) = Some (0, g', k', [Kfree 0x81000008])
    /\ devs (g_rx g') = <[100 := d']> (devs (g_rx demo_linked)) /\ unlinked d' /\ freed k' = [2]
    /\ given k' ≡ₚ freed k' ++ [3].
Proof.
  destruct (DoLinkDown_spec 100 demo_down demo_linked demo_busy [mkFifo 1 [demo_packet 2] [demo_packet 3]]
              (mkKmem [] [2; 3] [])) as (g' & d' & k' & E & E1 & E2 & _ & _ & _ & _ & E3 & E4).
  - reflexivity.
  - lia.
  - exact demo_busy_ok.
  - constructor; [reflexivity|constructor].
  - constructor; [right; exists demo_busy; reflexivity|]. apply Forall_replicate. left. reflexivity.
  - unfold owed. reflexivity.
  - exists g', d', k'. exact (conj E (conj E1 (conj E2 (conj E3 E4)))).
Defined.

Lemma queue_memory_fits_witness :
  chain 0x81000008 (0x81000008 + 92) (layout 0x81000010 (l_TransitQueueIds demo_lsc)).
Proof.
  apply (queue_memory_fits 0x81000008 (l_TransitQueueIds demo_lsc)).
  - lia.
  - reflexivity.
  - constructor; [cbn; lia|constructor; [cbn; lia|constructor]].
  - reflexivity.
Defined.

Definition demo_init : list drv_event :=
  [Request (GlobalInitialization 192 [2; 0; 0; 0] [0x80300000; 0x80310000; 0x80320000]);
   Request (CreateDevice 100 0 demo_addr HT_LLC_SNAP_ETHERNET CNI_HW_ADD_REMOVE_HEADER);
   OpenDev 100;
   Request (LinkStatusChanged 7 0x81000008 100 demo_lsc);
   SendPacket 100 (demo_packet 1);
   TimerFires].

Definition demo_end : xtm_glob :=
  default bcmxtmrt_init (st ← drv_run demo_init (bcmxtmrt_init, Some demo_pool, mkKmem [] [] []); Some (fst (fst st))).

Lemma driver_state_inv_witness :
  exists g' pool' k', drv_run demo_init (bcmxtmrt_init, Some demo_pool, mkKmem [] [] []) = Some (g', pool', k')
    /\ ulDrvState g' = XTMRT_RUNNING /\ (timer_active g' = true <-> ulDrvState g' = XTMRT_RUNNING).
Proof.
  destruct (drv_run demo_init (bcmxtmrt_init, Some demo_pool, mkKmem [] [] [])) as [[[g' pool'] k']|] eqn:E.
  - exists g', pool', k'. split; [reflexivity|]. split.
    + replace g' with demo_end by (unfold demo_end; rewrite E; reflexivity). vm_compute. reflexivity.
    + exact (proj1 (driver_state_inv _ _ _ _ _ _ E)).
  - exfalso. revert E. vm_compute. discriminate.
Defined.

Lemma devices_share_mac_witness :
  exists p1 g1 p2 g2 d1 d2,
    DoCreateDeviceReq 100 0 demo_addr HT_NONE 0 (Some demo_pool) demo_glob = Some (0, p1, g1, [])
    /\ DoCreateDeviceReq 200 0 demo_addr HT_NONE 0 p1 g1 = Some (0, p2, g2, [])
    /\ devs (g_rx g2) !! 100 = Some d1 /\ devs (g_rx g2) !! 200 = Some d2
    /\ nd_dev_addr (pDev d1) = nd_dev_addr (pDev d2).
Proof.
  apply (devices_share_mac demo_pool demo_glob 100 200 demo_addr demo_addr HT_NONE HT_NONE 0 0).
  - exact demo_pool_inv.
  - discriminate.
  - lia.
  - lia.
  - lia.
Defined.

Definition port2_cell : XTMRT_CELL := mkCell (mkAddr TRAFFIC_TYPE_ATM 4 0 35) 0 (replicate 48 0).

Lemma send_cell_port_mask_witness :
  DoSendCellReq 100 port2_cell demo_linked (mkKmem [Some (8, 0x80010000)] [] []) = None.
Proof.
  apply (send_cell_port_mask 100 port2_cell demo_linked demo_busy _ (8, 0x80010000) (mkKmem [] [8] [])).
  - reflexivity.
  - reflexivity.
  - reflexivity.
  - reflexivity.
  - left. reflexivity.
Defined.

(** A queue with an invalid port is skipped by link up, but link down halts its channel
    through a null pointer. *)
Lemma skipped_queue_link_down :
  (r ← DoLinkUp 0x81000008 100 (mkLsc LINK_UP 0 [mkTxqId 3 0 1 3 0] 5 [5]) demo_glob;
   Some (fst r, DoLinkDown 100 demo_down (snd r) (mkKmem [] [] []))) = Some (0, None).
Proof. vm_compute. reflexivity. Qed.

(** A queue of two descriptors: the descriptors of the next queue, which are accessed
    uncached, share a cache line of sixteen bytes with the pointers of the first. *)
Lemma queues_share_line :
  map (fun r => r_start r / 16) (layout 0x81000010 [mkTxqId 1 0 1 2 0; mkTxqId 1 0 2 2 1])
  = [0x8100001; 0x8100002; 0x8100002; 0x8100004].
Proof. vm_compute. reflexivity. Qed.

(** A device that is deleted is freed, and after that the context inside it. *)
Lemma delete_frees_twice hdev pool g n pool' g' rel :
  DoDeleteDeviceReq hdev pool g = Some (n, pool', g', rel) ->
  rel = (if find_ctx hdev (pDevCtxs g) then [FreeNetdev hdev; Kfree hdev] else []).
Proof.
  unfold DoDeleteDeviceReq. destruct (find_ctx hdev (pDevCtxs g)).
  - destruct (_ !! _) as [d|]; [|done]. cbn [mbind option_bind].
    by destruct (kerSysReleaseMacAddress _ _) as [[r p]|]; [|done]; intros [= _ _ _ <-].
  - by intros [= _ _ _ <-].
Qed.

(** With sixteen devices in the table a further one is created, but is not in the table:
    its link cannot come up and it cannot be deleted. *)
Lemma add_ctx_full hdev ctxs : Forall (fun h => h <> 0) ctxs -> add_ctx hdev ctxs = ctxs.
Proof. induction 1 as [|h ctxs Hh _ IH]; cbn [add_ctx]; [done|]. destruct (Z.eqb_spec h 0); [done|]. by rewrite IH. Qed.
